(* ===== verification/_CoqProject ===== *)
-Q . S2P
Prelude.v
GoStrings.v
Sha256.v
Base64.v
Bytes.v
Errors.v
Files.v
Flags.v
JSON.v
PrefixStore.v
Pauser.v
Registry.v
Limits.v
BridgeTypes.v
BridgeState.v
Bridge.v
Bank.v
RouteProfile.v
IBCRouter.v
Governance.v
Snapshots.v
App.v
DemoTx.v
Config.v
Runtime.v
Restart.v
ChainApp.v
Node.v
Delivery.v
Views.v
Handlers.v
NodeClient.v
NodeStart.v
Cli.v
AutoDelivery.v
Replay.v
Watchers.v
EvmAbi.v
Collector.v
Rlp.v
EvmRpc.v
Daemon.v
Pipeline.v
RouteRelay.v
MockTarget.v
CommandRuntimes.v
FileRuntimes.v
