(* ===== verification/Prelude.v ===== *)
(** * AegisLink: a verification development

    AegisLink bridges assets between an EVM chain and a Cosmos-style chain,
    [aegislink], which routes them further over IBC. The program has three
    parts: the chain (src/chain/aegislink) with the node that runs it, the
    relayers that carry deposits, withdrawals and transfers between the chains
    (src/relayer), and the contracts on the EVM side (src/contracts). This
    development models the chain's state machine, its node and the relayers,
    all Go programs, and proves what makes them correct.

    ** How the program works, and where it is modelled

    A deposit on the EVM chain emits an event. The relayer's log source
    ([EvmRpc], [EvmAbi]) asks an EVM node for the logs of finalised blocks and
    decodes them; its watcher ([Watchers]) keeps the cursor; the pipeline
    ([Pipeline]) skips the events its replay store ([Replay]) knows, turns each
    of the others into a claim, has the collector ([Collector]) gather votes and
    sign an attestation, and submits both to the chain, with bounded retries,
    in a polling loop ([Daemon]). On the chain the transaction ([DemoTx]) goes
    through the node ([Node]): its block runs the transactions, brings the
    application to the block's height and keeps the SDK chain next to it
    ([ChainApp]) in step. The application ([App]) hands the claim to the bridge
    keeper ([Bridge]), which checks the attestation against the active signer
    set ([BridgeState], [BridgeTypes]), the asset registry ([Registry]), the
    pause flags ([Pauser]) and the rate limits ([Limits]), and mints; the
    application then credits the recipient's wallet ([Bank]), and restores
    the bridge if that fails. A withdrawal burns and debits the other way; the
    relayer observes it and releases the funds on the EVM chain with a signed
    transaction ([Rlp], [EvmRpc]) whose receipt it waits for.

    What has been minted is sent on: the coordinator of automatic delivery
    ([AutoDelivery]) reads the stored intents and the status of each deposit
    ([Delivery]), initiates an IBC transfer through the node and flushes its
    channel. The IBC router ([IBCRouter], [RouteProfile]) keeps routes,
    policies and the life cycle of outgoing transfers; the route relayer
    ([RouteRelay]) delivers pending ones to a target and carries the
    acknowledgements back; [MockTarget] is the target of the local network,
    which swaps and stakes. Governance ([Governance]) changes assets, limits
    and policies, each proposal once. Every keeper is persisted in the snapshot
    store of [PrefixStore].

    ** The files

    - [Prelude]: results, the state-and-error monad of Go methods, fixed-width
      integers, iteration over Go maps in any order, sums over maps.
    - [GoStrings]: strings.TrimSpace, ToLower, Split, strconv and big.Int
      texts, fmt's %q; [Sha256]: crypto/sha256 and encoding/hex; [Base64]:
      encoding/base64; [Bytes]: hexadecimal bytes and big-endian numbers;
      [Errors]: error values, errors.Is and the [Temporary()] probe.
    - [PrefixStore]: internal/sdkstore.
    - [Pauser], [Registry], [Limits]: x/pauser, x/registry, x/limits.
    - [BridgeTypes]: x/bridge/types; [BridgeState]: the keeper's state, signer
      sets, invariant, export, import and persistence; [Bridge]: attestation
      verification and the two transitions.
    - [Bank]: x/bank. [RouteProfile], [IBCRouter]: x/ibcrouter.
      [Governance]: x/governance.
    - [App]: app/app.go, node.go, runtime_state.go and service.go.
    - [DemoTx], [ChainApp], [Node], [Delivery]: networked/submission.go, app.go,
      abci.go and query.go, delivery_intent.go and bridge_status.go.
    - [Replay], [Watchers], [Collector], [Pipeline], [Daemon]:
      relayer/internal/replay, evm and cosmos, attestations, pipeline.
    - [EvmAbi], [Rlp], [EvmRpc]: relayer/internal/evm/rpc_source.go and
      rpc_release.go.
    - [RouteRelay], [MockTarget]: relayer/internal/route. [AutoDelivery]:
      relayer/internal/autodelivery.

    In each file the definitions keep the names of the Go functions. A method
    with a pointer receiver is a function of the monad [M]: it returns the
    state on the error branches too, so a mutation made before an error is
    seen. A panic is an error of its own that no caller looks at. A Go map is
    a [gmap]; ranging over it goes through the class [MapIteration], every
    permutation of the entries, so no theorem depends on an order. [uint64] and
    [uint32] values are [N], with the wrap-around written where the code
    computes; [big.Int] is [Z], a pointer to it [option Z].

    ** The interfaces

    What the Go code takes as an interface, or as a package it does not own, is
    a class: [Crypto], [Signing] and [AddressCodec] (Keccak-256, secp256k1,
    bech32), [CosmosSDK] (the SDK's modules, with [BankLaws] for what its bank
    promises), [EthNode] (an EVM node that answers calls and may fail at any of
    them), the services of the pipeline and of the route relayer, and
    [DeliveryServices] (the four interfaces of the coordinator, with
    [DeliveryLaws]). The theorems on a client are proved against the class; the
    implementations that are modelled discharge its laws: [rpc_source_honest]
    gives the watcher the source it assumes, [networked_laws] the coordinator
    its services. The witnesses run concrete instances.

    ** What the theorems show

    - The bridge ([Bridge]): which claims are accepted and with what effect,
      which error every other claim gets, that no claim is accepted twice,
      and that over any sequence of operations the supply is what was minted
      less what was burned, so the accounting check never trips.
    - Encodings: the bytes that are hashed and signed determine the claim, up
      to the normalisation the code itself applies; two claims with one replay
      key are one source event or a SHA-256 collision ([BridgeTypes]). What the
      node encodes as a transaction it accepts and reads back ([DemoTx]). The
      calldata of a release determines the release ([EvmAbi]), and the raw
      transaction decodes, by the RLP of the specification, to the fields that
      were signed ([Rlp]).
    - The application ([App]): deposits and withdrawals are all or nothing,
      and in every reachable state the wallets hold exactly the supply.
    - The node ([Node], [ChainApp]): over any sequence of blocks, commits and
      checks the wallets and what is in transit are backed by the supply; an
      IBC transfer is paid once or given back; a block of demo transactions
      brings the application to its height; synchronising an account sets its
      balance and no other.
    - Limits, router, governance, registry, pauser, bank: bounds, life cycles,
      authorisation, and that a reloaded keeper is the keeper that was saved.
    - The relayer: no entry of a finalised block is missed or read twice
      ([Watchers]), with an honest node also over RPC ([EvmRpc]); hostile logs
      have a stated effect ([EvmAbi]); what the collector signs the chain
      accepts ([Collector]); across restarts a message is delivered at most
      once and a checkpoint never passes an undelivered entry ([Pipeline]); one
      release call sends one transaction and reports success only with a
      receipt of it ([EvmRpc]); the daemon stops when it must ([Daemon]).
    - Delivery: the status of a session says where the deposit is, an intent is
      kept under its transaction and nowhere else ([Delivery]); a deposit is
      not sent on twice ([AutoDelivery]); a route relayer's run acknowledges
      what the target answered ([RouteRelay]); the target executes a transfer
      once, its ledger adds up and its swaps do not lose reserves
      ([MockTarget]).

    ** Bounds and fuel

    [put_uvarint] has ten steps, enough for a [uint64]; [format_uint] and the
    number parsers recurse on digits; [hex_loop] has the sixteen digits of a
    [uint64] and [length_loop] the eight bytes of a length. The retry loop has
    as much fuel as attempts and the daemon as iterations: [retry_loop_spec]
    and [run_loop_ends] show that it never runs out. [advance_until] has as many
    steps as heights are missing ([until_height]), [fetch_from] as many as
    blocks are asked for ([fetch_from_all]), and [receipt_loop] 101, since each
    turn sleeps a tenth of the ten seconds ([waitForReceipt_ends]).

    ** What is not modelled

    JSON documents are kept as the values they encode, files as the document
    they hold together with the outcomes of the next writes. Locks are not
    modelled: every exported method of the application holds one for its whole
    body. Left out are the construction of the application from files and
    genesis documents, the CometBFT process and the HTTP handlers around the
    node, the child processes of the command runtimes, the command lines,
    metrics and logs, the generated code, the contracts and the web client. The
    plan continues with the composition of the relayer and the chain, the
    documents of the command and file runtimes, genesis and seeding, and the
    handlers of the node. *)

From stdpp Require Export base tactics option list fin_sets gmap strings numbers sorting.
From Stdlib Require Export ZArith NArith Lia.

#[export] Set Warnings "-clear-no-such-hyp".

Declare Scope go_scope.
Delimit Scope go_scope with go.

(** ** Results and the state-and-error monad *)

(** A Go call returning [(T, error)] or [error]: a value or a non-nil error. *)
Inductive res (E A : Type) : Type :=
| Ok (a : A)
| Err (e : E).
Arguments Ok {E A} a.
Arguments Err {E A} & e.

Definition res_bind {E A B} (m : res E A) (f : A -> res E B) : res E B :=
  match m with Ok a => f a | Err e => Err e end.
Arguments res_bind {E A B} & m f.

Definition is_ok {E A} (m : res E A) : bool :=
  match m with Ok _ => true | Err _ => false end.

(** A method with a pointer receiver: the state is returned on the error
    branches too, because a Go method that returns an error keeps the
    mutations it has already made. *)
Definition M (E St A : Type) : Type := St -> res E A * St.

Section monad.
Context {E St : Type}.

Definition ret {A} (a : A) : M E St A := fun s => (Ok a, s).
Definition throw {A} (e : E) : M E St A := fun s => (Err e, s).
Definition bind {A B} (m : M E St A) (f : A -> M E St B) : M E St B :=
  fun s => match m s with
           | (Ok a, s') => f a s'
           | (Err e, s') => (Err e, s')
           end.
Definition gets {A} (f : St -> A) : M E St A := fun s => (Ok (f s), s).
Definition modify (f : St -> St) : M E St unit := fun s => (Ok tt, f s).
Definition lift {A} (r : res E A) : M E St A := fun s => (r, s).
(** A call that only reads the receiver. *)
Definition query {A} (f : St -> res E A) : M E St A := fun s => (f s, s).
(** [if cond { return err }] *)
Definition throw_if (b : bool) (e : E) : M E St unit :=
  if b then throw e else ret tt.
(** [x, ok := ...; if !ok { return err }] *)
Definition some_or {A} (o : option A) (e : E) : M E St A :=
  match o with Some a => ret a | None => throw e end.
(** [for _, x := range xs { if err := f(x); err != nil { return err } }] *)
Fixpoint for_each {A} (f : A -> M E St unit) (xs : list A) : M E St unit :=
  match xs with
  | [] => ret tt
  | x :: rest => bind (f x) (fun _ => for_each f rest)
  end.
End monad.
(** A call whose error is inspected by the caller ([if err := ...; err != nil]). *)
Definition attempt {E E' St A} (m : M E St A) : M E' St (res E A) :=
  fun s => let '(r, s') := m s in (Ok r, s').
Arguments throw {E St A} & e.
Arguments throw_if {E St} & b e.
Arguments some_or {E St A} & o e.
Arguments lift {E St A} & r.
Arguments query {E St A} & f.
Arguments bind {E St A B} & m f.
Arguments for_each {E St A} & f xs.

(** Running a method of a sub-object held in a field of a larger state. *)
Definition zoom {E S T A} (get : S -> T) (set : T -> S -> S) (m : M E T A) : M E S A :=
  fun s => let '(r, t) := m (get s) in (r, set t s).

Module GoNotations.
Notation "'let!' x ':=' m 'in' k" := (bind m (fun x => k))
  (at level 10, x pattern, m at level 100, k at level 200) : go_scope.
Notation "m ';;;' k" := (bind m (fun _ => k))
  (at level 100, k at level 200, right associativity) : go_scope.
Notation "'let?' x ':=' m 'in' k" := (res_bind m (fun x => k))
  (at level 10, x pattern, m at level 100, k at level 200) : go_scope.
Open Scope go_scope.
End GoNotations.
Export GoNotations.

(** [if cond { return err }] in a function without a receiver state. *)
Definition ensure {E} (b : bool) (e : E) : res E unit := if b then Err e else Ok tt.
Arguments ensure {E} & b e.

(** ** Laws and proof principles of the monad *)

Lemma bind_ret_l {E St A B} (a : A) (f : A -> M E St B) s : bind (ret a) f s = f a s.
Proof. reflexivity. Qed.

Lemma bind_assoc {E St A B C} (m : M E St A) (f : A -> M E St B) (g : B -> M E St C) s :
  bind (bind m f) g s = bind m (fun a => bind (f a) g) s.
Proof. unfold bind. by destruct (m s) as [[a|e] s']. Qed.

Lemma bind_ok_inv {E St A B} (m : M E St A) (f : A -> M E St B) s b s'' :
  bind m f s = (Ok b, s'') ->
  exists a s', m s = (Ok a, s') /\ f a s' = (Ok b, s'').
Proof. unfold bind. destruct (m s) as [[a|e] s'] eqn:Hm; [eauto|done]. Qed.

Lemma bind_err_inv {E St A B} (m : M E St A) (f : A -> M E St B) s e s'' :
  bind m f s = (Err e, s'') ->
  m s = (Err e, s'') \/ exists a s', m s = (Ok a, s') /\ f a s' = (Err e, s'').
Proof.
  unfold bind. destruct (m s) as [[a|e'] s'] eqn:Hm; [eauto|].
  intros [= -> ->]. by left.
Qed.

Lemma res_bind_ok_inv {E A B} (m : res E A) (f : A -> res E B) b :
  res_bind m f = Ok b -> exists a, m = Ok a /\ f a = Ok b.
Proof. destruct m; simpl; eauto; done. Qed.

#[global] Instance Ok_inj {E A} : Inj (=) (=) (@Ok E A).
Proof. by intros a b [=]. Qed.

Lemma ensure_ok {E} (b : bool) (e : E) : ensure b e = Ok tt <-> b = false.
Proof. destruct b; simpl; split; done. Qed.

Lemma throw_if_ok {E St} (b : bool) (e : E) (s s' : St) :
  throw_if b e s = (Ok tt, s') <-> b = false /\ s' = s.
Proof.
  destruct b; unfold throw_if, throw, ret.
  - split; [intros Heq|intros [Heq _]]; discriminate Heq.
  - split; [intros Heq|intros [_ ->]]; [|done]. by injection Heq as ->.
Qed.

(** [post m Q]: started in any state of [P], [m] ends (normally or with an
    error) in a state related by [Q] to its result. *)
Definition triple {E St A} (P : St -> Prop) (m : M E St A)
    (Q : res E A -> St -> Prop) : Prop :=
  forall s, P s -> Q (fst (m s)) (snd (m s)).

(** A method keeps an invariant whatever it returns. *)
Definition preserves {E St A} (I : St -> Prop) (m : M E St A) : Prop :=
  triple I m (fun _ => I).

Section preserves.
Context {E St : Type} (I : St -> Prop).

Lemma preserves_ret {A} (a : A) : preserves I (ret (E:=E) a).
Proof. intros s Hs. exact Hs. Qed.
Lemma preserves_throw {A} (e : E) : preserves I (throw (A:=A) e).
Proof. intros s Hs. exact Hs. Qed.
Lemma preserves_gets {A} (f : St -> A) : preserves I (gets (E:=E) f).
Proof. intros s Hs. exact Hs. Qed.
Lemma preserves_lift {A} (r : res E A) : preserves I (lift r).
Proof. intros s Hs. exact Hs. Qed.
Lemma preserves_query {A} (f : St -> res E A) : preserves I (query f).
Proof. intros s Hs. exact Hs. Qed.
Lemma preserves_throw_if b (e : E) : preserves I (throw_if b e).
Proof. intros s Hs. by destruct b. Qed.
Lemma preserves_some_or {A} (o : option A) (e : E) : preserves I (some_or o e).
Proof. intros s Hs. by destruct o. Qed.
Lemma preserves_modify f : (forall s, I s -> I (f s)) -> preserves I (modify (E:=E) f).
Proof. intros Hf s Hs. simpl. auto. Qed.
Lemma preserves_bind {A B} (m : M E St A) (f : A -> M E St B) :
  preserves I m -> (forall a, preserves I (f a)) -> preserves I (bind m f).
Proof.
  intros Hm Hf s Hs. specialize (Hm s Hs). unfold bind.
  destruct (m s) as [[a|e] s']; simpl in *; [by apply Hf|done].
Qed.
Lemma preserves_attempt {E' A} (m : M E St A) : preserves I m -> preserves I (attempt (E':=E') m).
Proof. intros Hm s Hs. specialize (Hm s Hs). unfold attempt. by destruct (m s). Qed.
Lemma preserves_for_each {A} (f : A -> M E St unit) xs :
  (forall x, x ∈ xs -> preserves I (f x)) -> preserves I (for_each f xs).
Proof.
  induction xs as [|x xs IH]; intros Hf; simpl; [apply preserves_ret|].
  apply preserves_bind; [apply Hf; left|]. intros _. apply IH.
  intros y Hy. apply Hf. by right.
Qed.
End preserves.

Create HintDb go.
#[export] Hint Resolve preserves_ret preserves_throw preserves_gets preserves_lift preserves_query
  preserves_throw_if preserves_some_or preserves_bind preserves_attempt
  preserves_for_each preserves_modify : go.

(** Unfold the monadic combinators of a method and split its branches. *)
Ltac go_unfold :=
  unfold bind, ret, throw, gets, modify, lift, query, throw_if, some_or, attempt, zoom in *.
Ltac go_step := go_unfold; simplify_eq/=; case_match; simplify_eq/=.
Ltac go_cases := go_unfold; simplify_eq/=; repeat (case_match; simplify_eq/=).

(** ** Fixed-width unsigned integers

    A [uint64] is an [N] below [2^64]; the arithmetic of the code wraps. *)
Definition two64 : N := 18446744073709551616.
Definition two32 : N := 4294967296.
Definition max_uint64 : N := 18446744073709551615.
Definition u64 (n : N) : N := (n mod two64)%N.
Definition u64_add (a b : N) : N := u64 (a + b).
Definition u64_incr (a : N) : N := u64_add a 1.
Definition u64_ok (a : N) : Prop := (a < two64)%N.

(** ** Iteration over Go maps

    [for k, v := range m] visits every entry once, in an unspecified order.
    A component that ranges over a map is defined, and its theorems are
    proved, for every such order. *)
Class MapIteration := {
  range : forall {K V} `{Countable K}, gmap K V -> list (K * V);
  range_perm : forall {K V} `{Countable K} (m : gmap K V), range m ≡ₚ map_to_list m
}.

(** The order used by the witnesses. *)
#[global] Instance canonical_iteration : MapIteration | 100.
Proof. exists (fun K V _ _ m => map_to_list m). reflexivity. Defined.

(** ** Lists *)

Lemma map_id_in {A} (f : A -> A) l : (forall x, x ∈ l -> f x = x) -> map f l = l.
Proof.
  induction l as [|x l IH]; intros Hf; simpl; [done|].
  rewrite Hf by left. f_equal. apply IH. intros y Hy. apply Hf. by right.
Qed.

Lemma map_fst_pairs {A B} (l : list (A * B)) : map fst l = l.*1.
Proof. reflexivity. Qed.

(** ** Sums *)

Definition zsum {A} (f : A -> Z) (l : list A) : Z := foldr (fun x acc => f x + acc)%Z 0%Z l.

Lemma zsum_app {A} (f : A -> Z) l1 l2 : (zsum f (l1 ++ l2) = zsum f l1 + zsum f l2)%Z.
Proof. induction l1; simpl; lia. Qed.

#[global] Instance zsum_perm {A} (f : A -> Z) : Proper ((≡ₚ) ==> (=)) (zsum f).
Proof. induction 1; simpl; lia. Qed.

Lemma zsum_nonneg {A} (f : A -> Z) l : (forall x, x ∈ l -> 0 <= f x)%Z -> (0 <= zsum f l)%Z.
Proof.
  induction l as [|x l IH]; intros Hf; simpl; [lia|].
  assert (0 <= f x)%Z by (apply Hf; left).
  assert (0 <= zsum f l)%Z by (apply IH; intros; apply Hf; by right). lia.
Qed.

Lemma zsum_ext {A} (f g : A -> Z) l : (forall x, x ∈ l -> f x = g x) -> zsum f l = zsum g l.
Proof.
  induction l as [|x l IH]; intros Hfg; simpl; [done|].
  rewrite Hfg by left. rewrite IH; [done|]. intros; apply Hfg. by right.
Qed.

Definition map_sum {K A} `{Countable K} (f : K * A -> Z) (m : gmap K A) : Z := zsum f (map_to_list m).

Lemma map_sum_empty {K A} `{Countable K} (f : K * A -> Z) : map_sum f (∅ : gmap K A) = 0%Z.
Proof. unfold map_sum. by rewrite map_to_list_empty. Qed.

Lemma map_sum_insert {K A} `{Countable K} (f : K * A -> Z) (m : gmap K A) k v :
  m !! k = None -> (map_sum f (<[k := v]> m) = f (k, v) + map_sum f m)%Z.
Proof. intros Hk. unfold map_sum. by rewrite map_to_list_insert. Qed.

Lemma map_sum_delete {K A} `{Countable K} (f : K * A -> Z) (m : gmap K A) k v :
  m !! k = Some v -> (map_sum f (delete k m) = map_sum f m - f (k, v))%Z.
Proof.
  intros Hk. rewrite <- (insert_delete_id m k v Hk) at 2.
  rewrite map_sum_insert by apply lookup_delete_eq. lia.
Qed.

(** Replacing or adding an entry. *)
Lemma map_sum_update {K A} `{Countable K} (f : K * A -> Z) (m : gmap K A) k v :
  (map_sum f (<[k := v]> m) =
     map_sum f m - match m !! k with Some w => f (k, w) | None => 0 end + f (k, v))%Z.
Proof.
  destruct (m !! k) as [w|] eqn:Hk.
  - rewrite <- insert_delete_eq, map_sum_insert by apply lookup_delete_eq.
    rewrite (map_sum_delete f m k w Hk). lia.
  - rewrite map_sum_insert by done. lia.
Qed.

Lemma map_sum_nonneg {K A} `{Countable K} (f : K * A -> Z) (m : gmap K A) :
  (forall k v, m !! k = Some v -> 0 <= f (k, v))%Z -> (0 <= map_sum f m)%Z.
Proof.
  intros Hf. apply zsum_nonneg. intros [k v] Hin. apply Hf. by apply elem_of_map_to_list.
Qed.

(** ** Finite sets *)

Lemma gset_size_add {K} `{Countable K} (x : K) (X : gset K) :
  x ∉ X -> size ({[ x ]} ∪ X) = S (size X).
Proof. intros Hx. rewrite size_union by set_solver. by rewrite size_singleton. Qed.

Lemma gset_size_empty {K} `{Countable K} : size (∅ : gset K) = 0.
Proof. apply size_empty. Qed.

(** ** Rebuilding a map entry by entry *)

(** A loop that inserts every entry of a map, in any order, into an empty one
    rebuilds the map; each step may rely on what has been rebuilt so far being
    a part of the map without the entry. *)
Lemma for_each_rebuild_part {E St X K V} `{Countable K} (put : gmap K V -> St) (f : X -> M E St unit)
    (enc : K * V -> X) (m : gmap K V) (l : list X) :
  l ≡ₚ map enc (map_to_list m) ->
  (forall k v acc, m !! k = Some v -> acc ⊆ m -> acc !! k = None ->
    f (enc (k, v)) (put acc) = (Ok tt, put (<[k := v]> acc))) ->
  for_each f l (put ∅) = (Ok tt, put m).
Proof.
  intros Hl Hf. apply Permutation_map_inv in Hl as (l' & -> & Hl').
  assert (Hgen : forall (l' : list (K * V)) acc, (forall k v, (k, v) ∈ l' -> m !! k = Some v) ->
    NoDup l'.*1 -> acc ⊆ m -> (forall k, k ∈ l'.*1 -> acc !! k = None) ->
    for_each f (map enc l') (put acc) = (Ok tt, put (list_to_map l' ∪ acc))).
  { clear -Hf. intros l'. induction l' as [|[k v] l' IH]; intros acc Hin Hnd Hsub Hfresh; cbn [map for_each].
    - cbn [list_to_map foldr]. by rewrite (left_id_L ∅ (∪)).
    - apply NoDup_cons in Hnd as [Hk Hnd]. unfold bind at 1.
      assert (Hkv : m !! k = Some v) by (apply Hin; left).
      rewrite Hf; [|done|done|apply Hfresh; left]. rewrite IH; [|intros; apply Hin; by right|done| |].
      + do 2 f_equal. cbn [list_to_map foldr fst snd]. rewrite <- insert_union_l. symmetry.
        apply insert_union_r, not_elem_of_list_to_map_1. done.
      + by apply insert_subseteq_l.
      + intros k' Hk'. rewrite lookup_insert_ne by (by intros ->). apply Hfresh. by right. }
  rewrite Hgen.
  - rewrite (right_id_L ∅ (∪)), (list_to_map_proper l' (map_to_list m)); [by rewrite list_to_map_to_list| |by rewrite Hl'].
    rewrite <- Hl'. apply NoDup_fst_map_to_list.
  - intros k v Hin. rewrite <- Hl' in Hin. by apply elem_of_map_to_list.
  - rewrite <- Hl'. apply NoDup_fst_map_to_list.
  - apply map_empty_subseteq.
  - intros; apply lookup_empty.
Qed.

Lemma for_each_rebuild {E St X K V} `{Countable K} (put : gmap K V -> St) (f : X -> M E St unit)
    (enc : K * V -> X) (m : gmap K V) (l : list X) :
  l ≡ₚ map enc (map_to_list m) ->
  (forall k v acc, m !! k = Some v -> f (enc (k, v)) (put acc) = (Ok tt, put (<[k := v]> acc))) ->
  for_each f l (put ∅) = (Ok tt, put m).
Proof. intros Hl Hf. apply (for_each_rebuild_part put f enc); auto. Qed.
