(* ===== verification/GoStrings.v ===== *)
(** Go strings as byte strings, and the functions of packages [strings],
    [strconv], [fmt] and [sort] that the repository applies to them.

    A Go string is a sequence of bytes, modelled by [string]. [TrimSpace] is
    exact on every byte string: it removes the UTF-8 encodings of all the
    code points for which [unicode.IsSpace] holds. [ToLower] and [EqualFold]
    fold ASCII letters and leave the other bytes alone, so they agree with Go
    on the strings the code folds (hexadecimal addresses, asset ids, hashes)
    and not on non-ASCII letters. *)

From S2P Require Import Prelude.
From Stdlib Require Import Ascii String DecimalString DecimalN DecimalZ.
From stdpp Require Import strings.

Open Scope list_scope.

(** ** TrimSpace *)

Definition byte_is (n : N) (c : ascii) : bool := N.eqb (N_of_ascii c) n.
Definition byte_in (lo hi : N) (c : ascii) : bool :=
  N.leb lo (N_of_ascii c) && N.leb (N_of_ascii c) hi.

(** '\t', '\n', '\v', '\f', '\r' and ' '. *)
Definition ascii_space (c : ascii) : bool := byte_in 9 13 c || byte_is 32 c.

(** U+0085 and U+00A0. *)
Definition space2 (a b : ascii) : bool := byte_is 194 a && (byte_is 133 b || byte_is 160 b).

(** U+1680, U+2000..U+200A, U+2028, U+2029, U+202F, U+205F and U+3000. *)
Definition space3 (a b c : ascii) : bool :=
  (byte_is 225 a && byte_is 154 b && byte_is 128 c)
  || (byte_is 226 a && byte_is 128 b
      && (byte_in 128 138 c || byte_is 168 c || byte_is 169 c || byte_is 175 c))
  || (byte_is 226 a && byte_is 129 b && byte_is 159 c)
  || (byte_is 227 a && byte_is 128 b && byte_is 128 c).

(** The length in bytes of the white-space code point at the front of the
    list, 0 when there is none; [space_len_rev] reads the bytes backwards. *)
Definition space_len (l : list ascii) : nat :=
  match l with
  | a :: t =>
      if ascii_space a then 1
      else match t with
           | b :: u =>
               if space2 a b then 2
               else match u with c :: _ => if space3 a b c then 3 else 0 | [] => 0 end
           | [] => 0
           end
  | [] => 0
  end.

Definition space_len_rev (l : list ascii) : nat :=
  match l with
  | a :: t =>
      if ascii_space a then 1
      else match t with
           | b :: u =>
               if space2 b a then 2
               else match u with c :: _ => if space3 c b a then 3 else 0 | [] => 0 end
           | [] => 0
           end
  | [] => 0
  end.

Fixpoint trim_front (sp : list ascii -> nat) (l : list ascii) : list ascii :=
  match l with
  | [] => []
  | _ :: t =>
      match sp l with
      | 0 => l
      | 1 => trim_front sp t
      | 2 => match t with _ :: t' => trim_front sp t' | [] => [] end
      | _ => match t with _ :: _ :: t' => trim_front sp t' | _ => [] end
      end
  end.

Definition trim_bytes (l : list ascii) : list ascii :=
  rev (trim_front space_len_rev (rev (trim_front space_len l))).

Definition TrimSpace (s : string) : string :=
  string_of_list_ascii (trim_bytes (list_ascii_of_string s)).

(** ** Case folding *)

Definition lower_byte (c : ascii) : ascii :=
  if byte_in 65 90 c then ascii_of_N (N_of_ascii c + 32) else c.

Fixpoint ToLower (s : string) : string :=
  match s with
  | EmptyString => EmptyString
  | String c t => String (lower_byte c) (ToLower t)
  end.

Definition EqualFold (a b : string) : bool := bool_decide (ToLower a = ToLower b).

(** ** Searching and splitting *)

Definition HasPrefix (s p : string) : bool := String.prefix p s.

Definition TrimPrefix (s p : string) : string :=
  if HasPrefix s p then String.substring (String.length p) (String.length s - String.length p) s
  else s.

Fixpoint Contains (s sub : string) : bool :=
  String.prefix sub s ||
  match s with EmptyString => false | String _ t => Contains t sub end.

(** [strings.Cut] with a one-byte separator. *)
Fixpoint Cut (s : string) (sep : ascii) : string * string * bool :=
  match s with
  | EmptyString => (EmptyString, EmptyString, false)
  | String c t =>
      if Ascii.eqb c sep then (EmptyString, t, true)
      else let '(before, after, found) := Cut t sep in (String c before, after, found)
  end.

(** [strings.Split] with a one-byte separator; never returns an empty list. *)
Fixpoint Split (s : string) (sep : ascii) : list string :=
  match s with
  | EmptyString => [EmptyString]
  | String c t =>
      if Ascii.eqb c sep then EmptyString :: Split t sep
      else match Split t sep with
           | part :: rest => String c part :: rest
           | [] => [String c EmptyString]
           end
  end.

Fixpoint Join (parts : list string) (sep : string) : string :=
  match parts with
  | [] => EmptyString
  | [p] => p
  | p :: rest => p +:+ sep +:+ Join rest sep
  end.

(** [strings.NewReplacer] deleting a set of bytes. *)
Fixpoint delete_bytes (drop : ascii -> bool) (s : string) : string :=
  match s with
  | EmptyString => EmptyString
  | String c t => if drop c then delete_bytes drop t else String c (delete_bytes drop t)
  end.

(** [sort.Strings]: bytewise lexicographic order. *)
Definition SortStrings (l : list string) : list string := merge_sort String.le l.

(** ** Numbers *)

(** [strconv.FormatUint(n, 10)], [%d]. *)
Definition format_uint (n : N) : string := NilZero.string_of_uint (N.to_uint n).

(** [big.Int.String]. *)
Definition format_int (z : Z) : string :=
  match z with
  | Zneg p => String "-" (format_uint (Npos p))
  | _ => format_uint (Z.to_N z)
  end.

(** A non-empty string of decimal digits. *)
Definition parse_digits (s : string) : option N :=
  match NilZero.uint_of_string s with Some d => Some (N.of_uint d) | None => None end.

(** [new(big.Int).SetString(s, 10)]: an optional sign and decimal digits. *)
Definition SetString10 (s : string) : option Z :=
  match s with
  | String "-" t => option_map (fun n => Z.opp (Z.of_N n)) (parse_digits t)
  | String "+" t => option_map Z.of_N (parse_digits t)
  | _ => option_map Z.of_N (parse_digits s)
  end%char.

(** [strconv.ParseUint(s, 10, 64)]. *)
Definition ParseUint64 (s : string) : option N :=
  match parse_digits s with
  | Some n => if N.ltb n two64 then Some n else None
  | None => None
  end.

(** ** Quoting: [%q] on ASCII text *)

Definition quote_byte (c : ascii) : string :=
  let n := N_of_ascii c in
  let hex d := if N.ltb d 10 then ascii_of_N (48 + d) else ascii_of_N (87 + d) in
  let esc k := String "\" (String k EmptyString) in
  if N.eqb n 34 then esc c
  else if N.eqb n 92 then esc c
  else if N.eqb n 7 then esc "a"%char
  else if N.eqb n 8 then esc "b"%char
  else if N.eqb n 12 then esc "f"%char
  else if N.eqb n 10 then esc "n"%char
  else if N.eqb n 13 then esc "r"%char
  else if N.eqb n 9 then esc "t"%char
  else if N.eqb n 11 then esc "v"%char
  else if N.ltb n 32 || N.eqb n 127
  then "\x" +:+ String (hex (n / 16)%N) (String (hex (n mod 16)%N) EmptyString)
  else String c EmptyString.

Fixpoint quote_body (s : string) : string :=
  match s with
  | EmptyString => EmptyString
  | String c t => quote_byte c +:+ quote_body t
  end.

Definition dquote : string := String (ascii_of_N 34) EmptyString.
Definition Quote (s : string) : string := dquote +:+ quote_body s +:+ dquote.

(** ** Lemmas on TrimSpace *)

Section trim_front.
Variable sp : list ascii -> nat.
Hypothesis sp_nil : sp [] = 0.

Lemma trim_front_id l : sp l = 0 -> trim_front sp l = l.
Proof. destruct l as [|a t]; simpl; [done|]. by intros ->. Qed.

Lemma trim_front_spec l :
  sp (trim_front sp l) = 0 /\ exists p, l = p ++ trim_front sp l.
Proof.
  remember (length l) as n eqn:Hn. revert l Hn.
  induction n as [n IH] using lt_wf_ind. intros l ->.
  destruct l as [|a t]; simpl; [by split; [|exists []]|].
  assert (Hrec : forall p t', length t' < length (a :: t) -> a :: t = p ++ t' ->
    sp (trim_front sp t') = 0 /\ exists p', a :: t = p' ++ trim_front sp t').
  { intros p t' Hlt Heq. destruct (IH (length t') Hlt t' eq_refl) as [H0 [p' Hp']].
    split; [done|]. exists (p ++ p'). by rewrite Heq, <- app_assoc, <- Hp'. }
  assert (Hnil : sp [] = 0 /\ exists p, a :: t = p ++ []).
  { split; [done|]. exists (a :: t). by rewrite app_nil_r. }
  destruct (sp (a :: t)) as [|[|[|k]]] eqn:Hsp; simpl.
  - split; [done|]. by exists [].
  - apply (Hrec [a]); simpl; [lia|done].
  - destruct t as [|b t]; [done|]. apply (Hrec [a; b]); simpl; [lia|done].
  - destruct t as [|b [|c t]]; try done. apply (Hrec [a; b; c]); simpl; [lia|done].
Qed.
End trim_front.

(** Removing a suffix cannot create a white-space prefix. *)
Lemma space_len_app l m : space_len (l ++ m) = 0 -> space_len l = 0.
Proof.
  destruct l as [|a [|b [|c l]]]; simpl; try done;
    repeat case_match; try done; destruct m; simpl; repeat case_match; done.
Qed.

Lemma space_len_rev_app l m : space_len_rev (l ++ m) = 0 -> space_len_rev l = 0.
Proof.
  destruct l as [|a [|b [|c l]]]; simpl; try done;
    repeat case_match; try done; destruct m; simpl; repeat case_match; done.
Qed.

(** No white space at either end. *)
Definition trimmed_bytes (l : list ascii) : Prop :=
  space_len l = 0 /\ space_len_rev (rev l) = 0.

Lemma trim_bytes_trimmed l : trimmed_bytes (trim_bytes l).
Proof.
  unfold trimmed_bytes, trim_bytes. rewrite rev_involutive.
  destruct (trim_front_spec space_len eq_refl l) as [Hfront _].
  set (m := trim_front space_len l) in *.
  destruct (trim_front_spec space_len_rev eq_refl (rev m)) as [Hback [p Hp]].
  split; [|done]. apply (space_len_app _ (rev p)).
  by rewrite <- rev_app_distr, <- Hp, rev_involutive.
Qed.

Lemma trim_bytes_id l : trimmed_bytes l -> trim_bytes l = l.
Proof.
  intros [Hfront Hback]. unfold trim_bytes.
  rewrite (trim_front_id space_len), (trim_front_id space_len_rev) by done.
  apply rev_involutive.
Qed.

Definition trimmed (s : string) : Prop := TrimSpace s = s.

Lemma TrimSpace_idem s : TrimSpace (TrimSpace s) = TrimSpace s.
Proof.
  unfold TrimSpace. rewrite list_ascii_of_string_of_list_ascii.
  f_equal. apply trim_bytes_id, trim_bytes_trimmed.
Qed.

Lemma TrimSpace_trimmed s : trimmed (TrimSpace s).
Proof. apply TrimSpace_idem. Qed.

Lemma trimmed_empty : trimmed EmptyString.
Proof. reflexivity. Qed.

(** A byte that neither is a white space nor starts or ends one in UTF-8. *)
Definition graphic (c : ascii) : bool := byte_in 33 126 c.

Lemma graphic_not_space c : graphic c = true -> ascii_space c = false.
Proof.
  unfold graphic, ascii_space, byte_in, byte_is.
  intros [H1%N.leb_le H2%N.leb_le]%andb_true_iff.
  apply orb_false_iff. split.
  - apply andb_false_iff. right. apply N.leb_gt. lia.
  - apply N.eqb_neq. lia.
Qed.

Lemma graphic_not_byte c n : graphic c = true -> (126 < n)%N -> byte_is n c = false.
Proof.
  unfold graphic, byte_in, byte_is.
  intros [H1%N.leb_le H2%N.leb_le]%andb_true_iff Hn. apply N.eqb_neq. lia.
Qed.

Lemma graphic_space_len a t : graphic a = true -> space_len (a :: t) = 0.
Proof.
  intros Ha. simpl. rewrite (graphic_not_space _ Ha). unfold space2, space3.
  rewrite !(graphic_not_byte a) by (done || lia). simpl.
  by repeat case_match.
Qed.

Lemma graphic_space_len_rev a t : graphic a = true -> space_len_rev (a :: t) = 0.
Proof.
  intros Ha. simpl. rewrite (graphic_not_space _ Ha). unfold space2, space3.
  assert (Hin : byte_in 128 138 a = false).
  { unfold graphic, byte_in in *. apply andb_true_iff in Ha as [_ H2%N.leb_le].
    apply andb_false_iff. left. apply N.leb_gt. lia. }
  rewrite !(graphic_not_byte a), Hin by (done || lia). simpl.
  rewrite ?andb_false_r. simpl.
  repeat case_match; rewrite ?andb_false_r in *; done.
Qed.

(** White space is never trimmed past a graphic byte. *)
Lemma space_len_rev_last l c :
  graphic c = true -> space_len_rev (l ++ [c]) <= length l.
Proof.
  intros Hc. destruct l as [|x [|y [|z l]]]; cbn [app length].
  - by rewrite graphic_space_len_rev.
  - simpl. destruct (ascii_space x); [lia|]. unfold space2.
    rewrite !(graphic_not_byte c) by (done || lia). simpl. lia.
  - simpl. unfold space3. rewrite !(graphic_not_byte c) by (done || lia). simpl.
    repeat case_match; lia.
  - simpl. repeat case_match; lia.
Qed.

Lemma trim_front_last l c :
  graphic c = true -> exists l', trim_front space_len_rev (l ++ [c]) = l' ++ [c].
Proof.
  intros Hc. remember (length l) as n eqn:Hn. revert l Hn.
  induction n as [n IH] using lt_wf_ind. intros l ->.
  pose proof (space_len_rev_last l c Hc) as Hle.
  destruct l as [|x l].
  { exists []. apply trim_front_id, graphic_space_len_rev, Hc. }
  assert (Hrec : forall l', length l' < length (x :: l) ->
    exists l'', trim_front space_len_rev (l' ++ [c]) = l'' ++ [c]) by (intros l' Hl'; by eapply IH).
  cbn [trim_front app]. change (x :: l ++ [c]) with ((x :: l) ++ [c]).
  destruct (space_len_rev ((x :: l) ++ [c])) as [|[|[|k]]]; cbn [length] in *.
  - by exists (x :: l).
  - apply Hrec. lia.
  - destruct l as [|y l]; cbn [length app] in *; [lia|]. apply Hrec. lia.
  - destruct l as [|y [|z l]]; cbn [length app] in *; [lia|lia|]. apply Hrec. lia.
Qed.

Lemma TrimSpace_graphic_head c s : graphic c = true -> TrimSpace (String c s) <> EmptyString.
Proof.
  intros Hc. unfold TrimSpace, trim_bytes. cbn [list_ascii_of_string].
  rewrite (trim_front_id space_len) by by apply graphic_space_len. cbn [rev].
  destruct (trim_front_last (rev (list_ascii_of_string s)) c Hc) as [l' ->].
  rewrite rev_app_distr. discriminate.
Qed.

Definition all_graphic (s : string) : bool := forallb graphic (list_ascii_of_string s).

(** Printable ASCII text without blanks is left alone by [TrimSpace]. *)
Lemma all_graphic_trimmed s : all_graphic s = true -> trimmed s.
Proof.
  unfold all_graphic, trimmed, TrimSpace. intros Hs.
  rewrite trim_bytes_id; [apply string_of_list_ascii_of_string|].
  set (l := list_ascii_of_string s) in *. rewrite forallb_forall in Hs. split.
  - destruct l as [|a t]; [done|]. apply graphic_space_len, Hs. by left.
  - destruct (rev l) as [|a t] eqn:Hrev; [done|].
    apply graphic_space_len_rev, Hs. apply in_rev. rewrite Hrev. by left.
Qed.

(** ** Lemmas on numbers *)

Definition is_digit (c : ascii) : bool := byte_in 48 57 c.
Definition all_digits (s : string) : bool := forallb is_digit (list_ascii_of_string s).

Lemma digit_graphic c : is_digit c = true -> graphic c = true.
Proof.
  unfold is_digit, graphic, byte_in. intros [H1%N.leb_le H2%N.leb_le]%andb_true_iff.
  apply andb_true_iff. split; apply N.leb_le; lia.
Qed.

Lemma all_digits_graphic s : all_digits s = true -> all_graphic s = true.
Proof.
  unfold all_digits, all_graphic. rewrite !forallb_forall.
  intros H x Hx. by apply digit_graphic, H.
Qed.

Lemma uint_digits d : all_digits (NilEmpty.string_of_uint d) = true.
Proof. induction d; simpl; done. Qed.

Lemma N_to_uint_nonnil n : N.to_uint n <> Decimal.Nil.
Proof.
  destruct n as [|p]; simpl; [done|]. intros H.
  assert (Hp : N.of_uint (N.to_uint (Npos p)) = Npos p) by apply DecimalN.Unsigned.of_to.
  simpl in Hp. rewrite H in Hp. done.
Qed.

Lemma format_uint_NilEmpty n : format_uint n = NilEmpty.string_of_uint (N.to_uint n).
Proof.
  unfold format_uint, NilZero.string_of_uint.
  by destruct (N.to_uint n) eqn:E; [destruct (N_to_uint_nonnil n)|..].
Qed.

Lemma format_uint_digits n : all_digits (format_uint n) = true.
Proof. rewrite format_uint_NilEmpty. apply uint_digits. Qed.

Lemma format_uint_nonempty n : format_uint n <> EmptyString.
Proof.
  rewrite format_uint_NilEmpty. pose proof (N_to_uint_nonnil n).
  by destruct (N.to_uint n).
Qed.

Lemma parse_format_uint n : parse_digits (format_uint n) = Some n.
Proof.
  unfold parse_digits, format_uint. rewrite NilZero.usu by apply N_to_uint_nonnil.
  f_equal. apply DecimalN.Unsigned.of_to.
Qed.

#[global] Instance format_uint_inj : Inj (=) (=) format_uint.
Proof.
  intros n m H. pose proof (parse_format_uint n) as Hn.
  rewrite H, parse_format_uint in Hn. congruence.
Qed.

Lemma format_uint_head n :
  exists c t, format_uint n = String c t /\ is_digit c = true.
Proof.
  pose proof (format_uint_digits n) as Hd. pose proof (format_uint_nonempty n) as Hne.
  destruct (format_uint n) as [|c t]; [done|]. exists c, t. split; [done|].
  unfold all_digits in Hd. simpl in Hd. by apply andb_true_iff in Hd as [? _].
Qed.

Lemma SetString10_unsigned n : SetString10 (format_uint n) = Some (Z.of_N n).
Proof.
  destruct (format_uint_head n) as (c & t & Heq & Hc).
  pose proof (parse_format_uint n) as Hp. rewrite Heq in *.
  destruct c as [[] [] [] [] [] [] [] []]; try discriminate Hc; simpl;
    simpl in Hp; by rewrite Hp.
Qed.

(** [SetString(v.String(), 10)] gives back [v]. *)
Lemma SetString10_format_int z : SetString10 (format_int z) = Some z.
Proof.
  destruct z as [|p|p]; unfold format_int.
  - reflexivity.
  - rewrite SetString10_unsigned. simpl. done.
  - simpl. by rewrite parse_format_uint.
Qed.

#[global] Instance format_int_inj : Inj (=) (=) format_int.
Proof.
  intros a b H. pose proof (SetString10_format_int a) as Ha.
  rewrite H, SetString10_format_int in Ha. congruence.
Qed.

Lemma format_int_graphic z : all_graphic (format_int z) = true.
Proof.
  destruct z; unfold format_int; [done|apply all_digits_graphic, format_uint_digits|].
  unfold all_graphic. simpl. apply (all_digits_graphic _ (format_uint_digits _)).
Qed.

Lemma format_int_trimmed z : trimmed (format_int z).
Proof. apply all_graphic_trimmed, format_int_graphic. Qed.

Lemma format_uint_trimmed n : trimmed (format_uint n).
Proof. apply all_graphic_trimmed, all_digits_graphic, format_uint_digits. Qed.

Lemma format_int_nonempty z : format_int z <> EmptyString.
Proof. destruct z; unfold format_int; try apply format_uint_nonempty; done. Qed.

(** [ParseUint] undoes [FormatUint] on 64-bit values. *)
Lemma ParseUint64_format n : u64_ok n -> ParseUint64 (format_uint n) = Some n.
Proof.
  intros Hn. unfold ParseUint64. rewrite parse_format_uint.
  by rewrite (proj2 (N.ltb_lt _ _) Hn).
Qed.

(** ** Lemmas on lower-casing and splitting *)

Lemma lower_byte_idem c : lower_byte (lower_byte c) = lower_byte c.
Proof. by destruct c as [[] [] [] [] [] [] [] []]. Qed.

Lemma ToLower_idem s : ToLower (ToLower s) = ToLower s.
Proof. induction s as [|c s IH]; simpl; [done|]. by rewrite lower_byte_idem, IH. Qed.

#[global] Instance EqualFold_equiv : Equivalence (fun a b => EqualFold a b = true).
Proof.
  unfold EqualFold. split.
  - intros a. by apply bool_decide_eq_true.
  - intros a b H%bool_decide_eq_true. by apply bool_decide_eq_true.
  - intros a b c H1%bool_decide_eq_true H2%bool_decide_eq_true.
    apply bool_decide_eq_true. congruence.
Qed.

Lemma Split_nonempty s sep : Split s sep <> [].
Proof. induction s; simpl; repeat case_match; done. Qed.

Lemma SortStrings_perm l : SortStrings l ≡ₚ l.
Proof. apply merge_sort_Permutation. Qed.

Lemma SortStrings_sorted l : StronglySorted String.le (SortStrings l).
Proof. apply (StronglySorted_merge_sort _). Qed.

(** The sorted list only depends on the multiset of its elements, hence not
    on the order in which a map was iterated. *)
Lemma SortStrings_unique l1 l2 : l1 ≡ₚ l2 -> SortStrings l1 = SortStrings l2.
Proof.
  intros Hp. apply (StronglySorted_unique String.le); try apply SortStrings_sorted.
  by rewrite !SortStrings_perm.
Qed.

#[export] Hint Resolve TrimSpace_trimmed trimmed_empty format_int_trimmed
  format_uint_trimmed : go.

(** ** Lemmas on prefixes and concatenation *)

Lemma string_app_cons c a b : String c a +:+ b = String c (a +:+ b).
Proof. done. Qed.

Lemma string_app_nil_r s : s +:+ EmptyString = s.
Proof. induction s as [|c s IH]; [done|]. by rewrite string_app_cons, IH. Qed.

Lemma string_app_assoc a b c : (a +:+ b) +:+ c = a +:+ (b +:+ c).
Proof. induction a as [|x a IH]; [done|]. by rewrite !string_app_cons, IH. Qed.

Lemma string_length_app a b : String.length (a +:+ b) = String.length a + String.length b.
Proof. induction a as [|x a IH]; [done|]. rewrite string_app_cons. simpl. by rewrite IH. Qed.

Lemma list_ascii_app a b :
  list_ascii_of_string (a +:+ b) = list_ascii_of_string a ++ list_ascii_of_string b.
Proof. induction a as [|x a IH]; [done|]. rewrite string_app_cons. simpl. by rewrite IH. Qed.

Lemma HasPrefix_spec s p : HasPrefix s p = true <-> exists t, s = p +:+ t.
Proof.
  unfold HasPrefix. revert s. induction p as [|c p IH]; intros s.
  - split; [by exists s|]. by destruct s.
  - destruct s as [|d s]; cbn [String.prefix].
    { split; [done|]. intros [t Ht]. discriminate Ht. }
    destruct (ascii_dec c d) as [->|Hne].
    + rewrite IH. split; intros [t Ht]; exists t.
      * by rewrite Ht.
      * rewrite string_app_cons in Ht. by injection Ht.
    + split; [done|]. intros [t Ht]. rewrite string_app_cons in Ht. by injection Ht.
Qed.

Lemma HasPrefix_app p t : HasPrefix (p +:+ t) p = true.
Proof. apply HasPrefix_spec. eauto. Qed.

Lemma substring_full s : String.substring 0 (String.length s) s = s.
Proof. induction s as [|c s IH]; simpl; [done|]. by rewrite IH. Qed.

Lemma TrimPrefix_app p t : TrimPrefix (p +:+ t) p = t.
Proof.
  unfold TrimPrefix. rewrite HasPrefix_app, string_length_app.
  replace (String.length p + String.length t - String.length p) with (String.length t) by lia.
  induction p as [|c p IH]; [apply substring_full|exact IH].
Qed.

#[global] Instance string_app_inj_r p : Inj (=) (=) (fun t => p +:+ t).
Proof. intros s t H. by apply (inj (String.app p)) in H. Qed.

(** ** Lengths and separators *)

Lemma trim_bytes_length l : length (trim_bytes l) <= length l.
Proof.
  assert (Hf : forall sp, sp [] = 0 -> forall l, length (trim_front sp l) <= length l).
  { intros sp Hnil l0. destruct (trim_front_spec sp Hnil l0) as [_ [p Hp]].
    rewrite Hp at 2. rewrite length_app. lia. }
  unfold trim_bytes. rewrite length_rev.
  etrans; [by apply Hf|]. rewrite length_rev. by apply Hf.
Qed.

Lemma length_list_ascii s : length (list_ascii_of_string s) = String.length s.
Proof. induction s as [|c s IH]; simpl; [done|]. by rewrite IH. Qed.

Lemma length_string_of_list l : String.length (string_of_list_ascii l) = length l.
Proof. induction l as [|c l IH]; simpl; [done|]. by rewrite IH. Qed.

Lemma TrimSpace_length s : String.length (TrimSpace s) <= String.length s.
Proof.
  unfold TrimSpace. rewrite length_string_of_list, <- (length_list_ascii s).
  apply trim_bytes_length.
Qed.

Lemma string_app_inj_length a b r s :
  String.length a = String.length b -> a +:+ r = b +:+ s -> a = b /\ r = s.
Proof.
  revert b. induction a as [|c a IH]; intros [|d b] Hlen; try discriminate Hlen; [done|].
  rewrite !string_app_cons. intros [= -> Heq]. injection Hlen as Hlen.
  destruct (IH b Hlen Heq) as [-> ->]. done.
Qed.

(** A run of digits ends at the first byte that is not one. *)
Lemma digits_then_sep d1 d2 c r s :
  all_digits d1 = true -> all_digits d2 = true -> is_digit c = false ->
  d1 +:+ String c r = d2 +:+ String c s -> d1 = d2 /\ r = s.
Proof.
  unfold all_digits. intros H1 H2 Hc. revert d2 H2.
  induction d1 as [|x d1 IH]; intros [|y d2] H2 Heq.
  - by injection Heq.
  - injection Heq as -> _. simpl in H2. by rewrite Hc in H2.
  - injection Heq as -> _. simpl in H1. by rewrite Hc in H1.
  - rewrite !string_app_cons in Heq. injection Heq as -> Heq.
    simpl in H1, H2. apply andb_true_iff in H1 as [_ H1], H2 as [_ H2].
    destruct (IH H1 d2 H2 Heq) as [-> ->]. done.
Qed.

(** Printable bytes at both ends are enough. *)
Lemma graphic_ends_trimmed a m b :
  graphic a = true -> all_graphic b = true -> b <> EmptyString ->
  trimmed (String a (m +:+ b)).
Proof.
  intros Ha Hb Hne. unfold trimmed, TrimSpace.
  rewrite trim_bytes_id; [apply string_of_list_ascii_of_string|]. split.
  - by apply graphic_space_len.
  - cbn [list_ascii_of_string]. rewrite list_ascii_app. unfold all_graphic in Hb.
    change (a :: list_ascii_of_string m ++ list_ascii_of_string b) with
      ((a :: list_ascii_of_string m) ++ list_ascii_of_string b).
    rewrite rev_app_distr. destruct (rev (list_ascii_of_string b)) as [|x t] eqn:Hrev.
    + exfalso. apply Hne. apply (f_equal (@rev _)) in Hrev. rewrite rev_involutive in Hrev.
      by destruct b.
    + cbn [app]. apply graphic_space_len_rev. rewrite forallb_forall in Hb. apply Hb.
      apply in_rev. rewrite Hrev. by left.
Qed.

Definition lacks (c : ascii) (s : string) : bool :=
  forallb (fun x => negb (Ascii.eqb x c)) (list_ascii_of_string s).

Lemma Split_lacks s c : lacks c s = true -> Split s c = [s].
Proof.
  unfold lacks. induction s as [|x s IH]; intros Hs; cbn [Split list_ascii_of_string forallb] in *; [done|].
  apply andb_true_iff in Hs as [Hx Hs]. apply negb_true_iff in Hx. by rewrite Hx, IH.
Qed.

(** The last part of a split is what follows the last separator. *)
Lemma Split_last a c d x : lacks c d = true -> List.last (Split (a +:+ String c d) c) x = d.
Proof.
  intros Hd.
  assert (Hsplit : exists p l, Split (a +:+ String c d) c = p :: l /\ l <> [] /\ List.last l x = d).
  { induction a as [|y a IH].
    - change (EmptyString +:+ String c d) with (String c d). cbn [Split].
      rewrite Ascii.eqb_refl, Split_lacks by done. by exists EmptyString, [d].
    - destruct IH as (p & l & Heq & Hne & Hlast). rewrite string_app_cons. cbn [Split].
      rewrite Heq. destruct (Ascii.eqb y c).
      + exists EmptyString, (p :: l). split_and!; [done|done|]. by destruct l.
      + by exists (String y p), l. }
  destruct Hsplit as (p & l & -> & Hne & Hlast). by destruct l.
Qed.

Lemma all_digits_lacks d c : all_digits d = true -> is_digit c = false -> lacks c d = true.
Proof.
  unfold all_digits, lacks. rewrite !forallb_forall. intros Hd Hc x Hx. specialize (Hd x Hx).
  apply negb_true_iff. destruct (Ascii.eqb_spec x c) as [->|]; [congruence|done].
Qed.

(** Splitting and cutting at the separator undo joining. *)
Lemma Split_app_sep a r c : lacks c a = true -> Split (a +:+ String c r) c = a :: Split r c.
Proof.
  induction a as [|x a IH]; intros Ha.
  - change (EmptyString +:+ String c r) with (String c r). cbn [Split]. by rewrite Ascii.eqb_refl.
  - unfold lacks in Ha. cbn [list_ascii_of_string forallb] in Ha. apply andb_prop in Ha as [Hx%negb_true_iff Ha].
    rewrite string_app_cons. cbn [Split]. by rewrite Hx, IH.
Qed.

Lemma Cut_app a r c : lacks c a = true -> Cut (a +:+ String c r) c = (a, r, true).
Proof.
  induction a as [|x a IH]; intros Ha.
  - change (EmptyString +:+ String c r) with (String c r). cbn [Cut]. by rewrite Ascii.eqb_refl.
  - unfold lacks in Ha. cbn [list_ascii_of_string forallb] in Ha. apply andb_prop in Ha as [Hx%negb_true_iff Ha].
    rewrite string_app_cons. cbn [Cut]. by rewrite Hx, IH.
Qed.

Lemma Split_Join parts c :
  parts <> [] -> Forall (fun p => lacks c p = true) parts -> Split (Join parts (String c EmptyString)) c = parts.
Proof.
  induction parts as [|p parts IH]; intros Hne Hall; [done|]. apply Forall_cons in Hall as [Hp Hall].
  destruct parts as [|q parts]; [by apply Split_lacks|].
  change (Join (p :: q :: parts) (String c EmptyString))
    with (p +:+ String c (Join (q :: parts) (String c EmptyString))).
  rewrite Split_app_sep by done. by rewrite IH.
Qed.

Lemma all_graphic_app a b : all_graphic (a +:+ b) = all_graphic a && all_graphic b.
Proof. unfold all_graphic. by rewrite list_ascii_app, forallb_app. Qed.

Lemma lacks_app c a b : lacks c (a +:+ b) = lacks c a && lacks c b.
Proof. unfold lacks. by rewrite list_ascii_app, forallb_app. Qed.

Lemma all_graphic_Join parts c :
  graphic c = true -> Forall (fun p => all_graphic p = true) parts ->
  all_graphic (Join parts (String c EmptyString)) = true.
Proof.
  intros Hc. induction parts as [|p parts IH]; intros Hall; [done|]. apply Forall_cons in Hall as [Hp Hall].
  destruct parts as [|q parts]; [done|].
  change (Join (p :: q :: parts) (String c EmptyString))
    with (p +:+ (String c EmptyString +:+ Join (q :: parts) (String c EmptyString))).
  rewrite !all_graphic_app, Hp, (IH Hall). unfold all_graphic. cbn. by rewrite Hc.
Qed.

(** ** Equality of strings, as [==] *)

Definition eqs (a b : string) : bool := bool_decide (a = b).

Lemma eqs_true a b : eqs a b = true <-> a = b.
Proof. apply bool_decide_eq_true. Qed.
Lemma eqs_refl a : eqs a a = true.
Proof. by apply eqs_true. Qed.

Lemma eqs_false a b : eqs a b = false <-> a <> b.
Proof. apply bool_decide_eq_false. Qed.

(** A trimmed text after a blank ends a trimmed text. *)
Lemma trimmed_after_space a m x :
  graphic a = true -> trimmed x -> x <> EmptyString ->
  trimmed (String a (m +:+ String (ascii_of_N 32) x)).
Proof.
  intros Ha Hx Hne. unfold trimmed, TrimSpace.
  rewrite trim_bytes_id; [apply string_of_list_ascii_of_string|]. split; [by apply graphic_space_len|].
  pose proof (trim_bytes_trimmed (list_ascii_of_string x)) as [_ Hb].
  rewrite <- (list_ascii_of_string_of_list_ascii (trim_bytes _)) in Hb.
  change (string_of_list_ascii (trim_bytes (list_ascii_of_string x))) with (TrimSpace x) in Hb.
  rewrite Hx in Hb. cbn [list_ascii_of_string]. rewrite list_ascii_app. cbn [list_ascii_of_string].
  assert (Hl : rev (list_ascii_of_string x) <> []).
  { intros Hl. apply (f_equal (@rev _)) in Hl. rewrite rev_involutive in Hl. by destruct x. }
  cbn [rev]. rewrite rev_app_distr. cbn [rev]. rewrite <- !app_assoc.
  destruct (rev (list_ascii_of_string x)) as [|y [|z [|w l]]]; [done| | |].
  - cbn [app]. cbn [space_len_rev] in *. destruct (ascii_space y); [done|].
    change (space2 (ascii_of_N 32) y) with false. cbv iota. 
    destruct (rev (list_ascii_of_string m) ++ [a]) as [|u rest]; [done|]. cbn [app].
    unfold space3. change (byte_is 154 (ascii_of_N 32)) with false. change (byte_is 128 (ascii_of_N 32)) with false.
    change (byte_is 129 (ascii_of_N 32)) with false. by rewrite !andb_false_r.
  - cbn [app]. cbn [space_len_rev] in *. destruct (ascii_space y); [done|]. destruct (space2 z y); [done|].
    done.
  - exact Hb.
Qed.

(** Lower case letters are no blanks, so lower case changes no blank. *)
Lemma lower_byte_is n c :
  (n < 65 \/ 122 < n)%N -> byte_is n (lower_byte c) = byte_is n c.
Proof.
  intros Hn. destruct (byte_in 65 90 c) eqn:Hc.
  - unfold byte_is. assert (Hl : N_of_ascii (lower_byte c) = (N_of_ascii c + 32)%N).
    { unfold lower_byte. rewrite Hc. apply N_ascii_embedding.
      unfold byte_in in Hc. apply andb_true_iff in Hc as [_ Hc%N.leb_le]. lia. }
    unfold byte_in in Hc. apply andb_true_iff in Hc as [H1%N.leb_le H2%N.leb_le].
    rewrite Hl. rewrite !(proj2 (N.eqb_neq _ _)) by lia. done.
  - unfold lower_byte. by rewrite Hc.
Qed.

Lemma lower_byte_in lo hi c :
  (hi < 65 \/ 122 < lo)%N -> byte_in lo hi (lower_byte c) = byte_in lo hi c.
Proof.
  intros Hn. destruct (byte_in 65 90 c) eqn:Hc.
  - assert (Hl : N_of_ascii (lower_byte c) = (N_of_ascii c + 32)%N).
    { unfold lower_byte. rewrite Hc. apply N_ascii_embedding.
      unfold byte_in in Hc. apply andb_true_iff in Hc as [_ Hc%N.leb_le]. lia. }
    unfold byte_in in *. apply andb_true_iff in Hc as [H1%N.leb_le H2%N.leb_le]. rewrite Hl.
    destruct Hn as [Hn|Hn].
    + rewrite (proj2 (N.leb_gt (N_of_ascii c + 32) hi)), (proj2 (N.leb_gt (N_of_ascii c) hi)) by lia.
      by rewrite !andb_false_r.
    + rewrite (proj2 (N.leb_gt lo (N_of_ascii c + 32))), (proj2 (N.leb_gt lo (N_of_ascii c))) by lia. done.
  - unfold lower_byte. by rewrite Hc.
Qed.

Lemma ToLower_list s : list_ascii_of_string (ToLower s) = map lower_byte (list_ascii_of_string s).
Proof. induction s as [|c s IH]; cbn [ToLower list_ascii_of_string map]; [done|]. by rewrite IH. Qed.

Lemma space_len_lower l : space_len (map lower_byte l) = space_len l.
Proof.
  destruct l as [|a [|b [|c l]]]; cbn [map space_len]; [done|..];
    unfold ascii_space, space2, space3;
    rewrite ?lower_byte_in, ?lower_byte_is by lia; done.
Qed.

Lemma space_len_rev_lower l : space_len_rev (map lower_byte l) = space_len_rev l.
Proof.
  destruct l as [|a [|b [|c l]]]; cbn [map space_len_rev]; [done|..];
    unfold ascii_space, space2, space3;
    rewrite ?lower_byte_in, ?lower_byte_is by lia; done.
Qed.

Lemma trimmed_ToLower s : trimmed s -> trimmed (ToLower s).
Proof.
  intros Hs. unfold trimmed, TrimSpace. rewrite trim_bytes_id; [apply string_of_list_ascii_of_string|].
  assert (Hb : trimmed_bytes (list_ascii_of_string s)).
  { unfold trimmed, TrimSpace in Hs. rewrite <- Hs, list_ascii_of_string_of_list_ascii. apply trim_bytes_trimmed. }
  destruct Hb as [Hf Hr]. split; rewrite ToLower_list; [by rewrite space_len_lower|].
  by rewrite <- map_rev, space_len_rev_lower.
Qed.

Lemma SortStrings_id l : StronglySorted String.le l -> SortStrings l = l.
Proof.
  intros Hl. apply (StronglySorted_unique String.le); [apply SortStrings_sorted|done|apply SortStrings_perm].
Qed.
