(* ===== verification/Sha256.v ===== *)
(** [crypto/sha256] and [encoding/hex] of the Go standard library, executable,
    so that replay keys and claim digests are the real ones. *)

From S2P Require Import Prelude.
From S2P Require Import GoStrings.
From Stdlib Require Import Ascii String.
From stdpp Require Import strings.

Open Scope N_scope.

(** ** 32-bit words *)

Definition mask32 (x : N) : N := N.land x 4294967295.
Definition add32 (a b : N) : N := mask32 (a + b).
Definition rotr (x n : N) : N := mask32 (N.lor (N.shiftr x n) (N.shiftl x (32 - n))).
Definition not32 (x : N) : N := N.lxor x 4294967295.

Definition ch x y z := N.lxor (N.land x y) (N.land (not32 x) z).
Definition maj x y z := N.lxor (N.lxor (N.land x y) (N.land x z)) (N.land y z).
Definition bsig0 x := N.lxor (N.lxor (rotr x 2) (rotr x 13)) (rotr x 22).
Definition bsig1 x := N.lxor (N.lxor (rotr x 6) (rotr x 11)) (rotr x 25).
Definition ssig0 x := N.lxor (N.lxor (rotr x 7) (rotr x 18)) (N.shiftr x 3).
Definition ssig1 x := N.lxor (N.lxor (rotr x 17) (rotr x 19)) (N.shiftr x 10).

(** The [k] 32-bit words of a number, the most significant first. *)
Fixpoint unpack32 (k : nat) (n : N) : list N :=
  match k with
  | O => []
  | S k' => (N.shiftr n (32 * N.of_nat k') mod 4294967296)%N :: unpack32 k' n
  end.

(** The 64 constants of FIPS 180-4, eight to a row. *)
Definition round_constants : list N :=
  Eval cbv in (concat (map (unpack32 8) [
    0x428a2f9871374491b5c0fbcfe9b5dba53956c25b59f111f1923f82a4ab1c5ed5;
    0xd807aa9812835b01243185be550c7dc372be5d7480deb1fe9bdc06a7c19bf174;
    0xe49b69c1efbe47860fc19dc6240ca1cc2de92c6f4a7484aa5cb0a9dc76f988da;
    0x983e5152a831c66db00327c8bf597fc7c6e00bf3d5a7914706ca635114292967;
    0x27b70a852e1b21384d2c6dfc53380d13650a7354766a0abb81c2c92e92722c85;
    0xa2bfe8a1a81a664bc24b8b70c76c51a3d192e819d6990624f40e3585106aa070;
    0x19a4c1161e376c082748774c34b0bcb5391c0cb34ed8aa4a5b9cca4f682e6ff3;
    0x748f82ee78a5636f84c878148cc7020890befffaa4506cebbef9a3f7c67178f2
  ])).

Record digest_state := { ha : N; hb : N; hc : N; hd : N; he : N; hf : N; hg : N; hh : N }.

Definition initial_state : digest_state :=
  {| ha := 0x6a09e667; hb := 0xbb67ae85; hc := 0x3c6ef372; hd := 0xa54ff53a;
     he := 0x510e527f; hf := 0x9b05688c; hg := 0x1f83d9ab; hh := 0x5be0cd19 |}.

(** ** Padding and blocks *)

Definition byte_of (n : N) : ascii := ascii_of_N (n mod 256).

(** [n] big-endian bytes of [x]. *)
Fixpoint be_bytes (n : nat) (x : N) : list ascii :=
  match n with
  | O => []
  | S n' => (byte_of (N.shiftr x (8 * N.of_nat n')) :: be_bytes n' x)%list
  end.

Definition pad (msg : list ascii) : list ascii :=
  let len := N.of_nat (length msg) in
  let zeros := N.to_nat ((119 - len mod 64) mod 64) in
  (msg ++ [ascii_of_N 128] ++ repeat (ascii_of_N 0) zeros ++ be_bytes 8 (8 * len))%list.

Fixpoint words (l : list ascii) : list N :=
  match l with
  | (a :: b :: c :: d :: t)%list =>
      (N.lor (N.shiftl (N_of_ascii a) 24)
        (N.lor (N.shiftl (N_of_ascii b) 16)
          (N.lor (N.shiftl (N_of_ascii c) 8) (N_of_ascii d))) :: words t)%list
  | _ => []
  end.

(** The message schedule, the latest sixteen words first. *)
Fixpoint schedule (n : nat) (recent : list N) (acc : list N) : list N :=
  match n with
  | O => rev acc
  | S n' =>
      let w k := nth k recent 0 in
      let next := add32 (add32 (ssig1 (w 1%nat)) (w 6%nat)) (add32 (ssig0 (w 14%nat)) (w 15%nat)) in
      schedule n' (next :: firstn 15 recent)%list (next :: acc)%list
  end.

Definition round (s : digest_state) (kw : N * N) : digest_state :=
  let '(k, w) := kw in
  let t1 := add32 (add32 (hh s) (bsig1 (he s))) (add32 (ch (he s) (hf s) (hg s)) (add32 k w)) in
  let t2 := add32 (bsig0 (ha s)) (maj (ha s) (hb s) (hc s)) in
  {| ha := add32 t1 t2; hb := ha s; hc := hb s; hd := hc s;
     he := add32 (hd s) t1; hf := he s; hg := hf s; hh := hg s |}.

Definition compress (s : digest_state) (block : list N) : digest_state :=
  let w := (block ++ schedule 48 (rev block) [])%list in
  let s' := fold_left round (combine round_constants w) s in
  {| ha := add32 (ha s) (ha s'); hb := add32 (hb s) (hb s'); hc := add32 (hc s) (hc s');
     hd := add32 (hd s) (hd s'); he := add32 (he s) (he s'); hf := add32 (hf s) (hf s');
     hg := add32 (hg s) (hg s'); hh := add32 (hh s) (hh s') |}.

Fixpoint blocks (n : nat) (ws : list N) (s : digest_state) : digest_state :=
  match n with
  | O => s
  | S n' => blocks n' (skipn 16 ws) (compress s (firstn 16 ws))
  end.

Definition sum256_bytes (msg : list ascii) : list ascii :=
  let ws := words (pad msg) in
  let s := blocks (length ws / 16)%nat ws initial_state in
  (be_bytes 4 (ha s) ++ be_bytes 4 (hb s) ++ be_bytes 4 (hc s) ++ be_bytes 4 (hd s)
   ++ be_bytes 4 (he s) ++ be_bytes 4 (hf s) ++ be_bytes 4 (hg s) ++ be_bytes 4 (hh s))%list.

(** [sha256.Sum256]. *)
Definition Sum256 (msg : string) : string :=
  string_of_list_ascii (sum256_bytes (list_ascii_of_string msg)).

(** ** Hexadecimal *)

Definition hex_digit (n : N) : ascii :=
  if N.ltb n 10 then ascii_of_N (48 + n) else ascii_of_N (87 + n).

(** [hex.EncodeToString]: lower case. *)
Fixpoint EncodeToString (s : string) : string :=
  match s with
  | EmptyString => EmptyString
  | String c t =>
      String (hex_digit (N_of_ascii c / 16))
        (String (hex_digit (N_of_ascii c mod 16)) (EncodeToString t))
  end.

(** [hex.EncodeToString(sha256.Sum256(msg))]. *)
Definition sha256_hex (msg : string) : string := EncodeToString (Sum256 msg).

(** ** The published test vectors *)

Example sum256_empty :
  sha256_hex EmptyString = "e3b0c44298fc1c149afbf4c8996fb92427ae41e4649b934ca495991b7852b855".
Proof. vm_compute. reflexivity. Qed.

Example sum256_abc :
  sha256_hex "abc" = "ba7816bf8f01cfea414140de5dae2223b00361a396177a9cb410ff61f20015ad".
Proof. vm_compute. reflexivity. Qed.

Example sum256_two_blocks :
  sha256_hex "abcdbcdecdefdefgefghfghighijhijkijkljklmklmnlmnomnopnopq"
  = "248d6a61d20638b8e5c026930c3e6039a33ce45964ff2167f6ecedd419db06c1".
Proof. vm_compute. reflexivity. Qed.

(** ** The shape of the output *)

Lemma hex_digit_graphic n : n < 16 -> graphic (hex_digit n) = true.
Proof.
  intros Hn. assert (Hcases : n ∈ [0;1;2;3;4;5;6;7;8;9;10;11;12;13;14;15]).
  { rewrite !elem_of_cons. lia. }
  repeat (apply elem_of_cons in Hcases as [->|Hcases]; [reflexivity|]).
  by apply elem_of_nil in Hcases.
Qed.

Lemma EncodeToString_graphic s : all_graphic (EncodeToString s) = true.
Proof.
  unfold all_graphic. induction s as [|c s IH]; simpl; [done|].
  pose proof (N_ascii_bounded c) as Hc.
  rewrite !hex_digit_graphic, IH; [done| |].
  - apply N.mod_lt. lia.
  - apply N.Div0.div_lt_upper_bound. lia.
Qed.

Lemma sha256_hex_trimmed s : trimmed (sha256_hex s).
Proof. apply all_graphic_trimmed, EncodeToString_graphic. Qed.

Lemma EncodeToString_inj s t : EncodeToString s = EncodeToString t -> s = t.
Proof.
  assert (Hd : forall a b, a < 16 -> b < 16 -> hex_digit a = hex_digit b -> a = b).
  { intros a b Ha Hb H. apply (f_equal N_of_ascii) in H. unfold hex_digit in H.
    destruct (N.ltb_spec a 10), (N.ltb_spec b 10);
      rewrite !N_ascii_embedding in H by lia; lia. }
  revert t. induction s as [|c s IH]; intros [|d t] H; try done.
  cbn [EncodeToString] in H. injection H as H1 H2 H3.
  pose proof (N_ascii_bounded c) as Hc. pose proof (N_ascii_bounded d) as Hd'.
  apply Hd in H1; [|apply N.Div0.div_lt_upper_bound; lia..].
  apply Hd in H2; [|apply N.mod_lt; lia..].
  f_equal; [|by apply IH].
  rewrite <- (ascii_N_embedding c), <- (ascii_N_embedding d). f_equal.
  rewrite (N.div_mod' (N_of_ascii c) 16), (N.div_mod' (N_of_ascii d) 16). congruence.
Qed.

Lemma hex_digit_lower n : n < 16 -> lower_byte (hex_digit n) = hex_digit n.
Proof.
  intros Hn. unfold lower_byte, byte_in, hex_digit.
  destruct (N.ltb_spec n 10); rewrite N_ascii_embedding by lia.
  - replace (65 <=? 48 + n) with false by (symmetry; apply N.leb_gt; lia). done.
  - replace (87 + n <=? 90) with (n <=? 3) by (apply eq_true_iff_eq; rewrite !N.leb_le; lia).
    replace (n <=? 3) with false by (symmetry; apply N.leb_gt; lia). by rewrite andb_false_r.
Qed.

Lemma EncodeToString_lower s : ToLower (EncodeToString s) = EncodeToString s.
Proof.
  induction s as [|c s IH]; cbn [EncodeToString ToLower]; [done|].
  pose proof (N_ascii_bounded c) as Hc. rewrite IH, !hex_digit_lower; [done| |].
  - apply N.mod_lt. lia.
  - apply N.Div0.div_lt_upper_bound. lia.
Qed.

(** A digest is never the empty string. *)
Lemma sha256_hex_nonempty s : sha256_hex s <> EmptyString.
Proof.
  unfold sha256_hex, Sum256, sum256_bytes.
  generalize (blocks (length (words (pad (list_ascii_of_string s))) / 16)%nat
    (words (pad (list_ascii_of_string s))) initial_state) as st.
  intros st. cbn [be_bytes app string_of_list_ascii EncodeToString]. discriminate.
Qed.

#[global] Opaque Sum256.
#[export] Hint Resolve sha256_hex_trimmed sha256_hex_nonempty : go.
