(* ===== verification/Base64.v ===== *)
(** encoding/base64: the standard alphabet with padding, as
    [base64.StdEncoding] reads and writes it. *)

From S2P Require Import Prelude.
From S2P Require Import GoStrings.
From Stdlib Require Import Ascii String.
From stdpp Require Import strings.

Definition b64_char (n : N) : ascii :=
  if (n <? 26)%N then ascii_of_N (65 + n)
  else if (n <? 52)%N then ascii_of_N (71 + n)
  else if (n <? 62)%N then ascii_of_N (n - 4)
  else if (n =? 62)%N then "+"%char else "/"%char.

Definition b64_value (c : ascii) : option N :=
  let n := N_of_ascii c in
  if byte_in 65 90 c then Some (n - 65)%N
  else if byte_in 97 122 c then Some (n - 71)%N
  else if byte_in 48 57 c then Some (n + 4)%N
  else if Ascii.eqb c "+" then Some 62%N
  else if Ascii.eqb c "/" then Some 63%N
  else None.

Definition b64_pad : ascii := "="%char.
Definition is_pad (c : ascii) : bool := Ascii.eqb c b64_pad.

(** The bytes of the sextets of a quantum. *)
Definition byte1 (v1 v2 : N) : ascii := ascii_of_N (v1 * 4 + v2 / 16).
Definition byte2 (v2 v3 : N) : ascii := ascii_of_N (v2 mod 16 * 16 + v3 / 4).
Definition byte3 (v3 v4 : N) : ascii := ascii_of_N (v3 mod 4 * 64 + v4).

(** Quanta of four characters; only the last may be padded. The bits that the
    padding leaves over are not looked at. *)
Fixpoint decode_quanta (s : string) : option string :=
  match s with
  | EmptyString => Some EmptyString
  | String c1 (String c2 (String c3 (String c4 rest))) =>
      match b64_value c1, b64_value c2 with
      | Some v1, Some v2 =>
          match b64_value c3 with
          | Some v3 =>
              match b64_value c4 with
              | Some v4 =>
                  match decode_quanta rest with
                  | Some t => Some (String (byte1 v1 v2) (String (byte2 v2 v3) (String (byte3 v3 v4) t)))
                  | None => None
                  end
              | None =>
                  if is_pad c4 && bool_decide (rest = EmptyString)
                  then Some (String (byte1 v1 v2) (String (byte2 v2 v3) EmptyString)) else None
              end
          | None =>
              if is_pad c3 && is_pad c4 && bool_decide (rest = EmptyString)
              then Some (String (byte1 v1 v2) EmptyString) else None
          end
      | _, _ => None
      end
  | _ => None
  end.

(** [base64.StdEncoding.DecodeString]: line breaks are skipped. *)
Definition base64_DecodeString (s : string) : option string :=
  decode_quanta (delete_bytes (fun c => byte_is 10 c || byte_is 13 c) s).

Definition sextet1 (x : N) : N := (x / 4)%N.
Definition sextet2 (x y : N) : N := (x mod 4 * 16 + y / 16)%N.
Definition sextet3 (y z : N) : N := (y mod 16 * 4 + z / 64)%N.
Definition sextet4 (z : N) : N := (z mod 64)%N.

(** [base64.StdEncoding.EncodeToString]. *)
Fixpoint base64_EncodeToString (s : string) : string :=
  match s with
  | EmptyString => EmptyString
  | String a EmptyString =>
      let x := N_of_ascii a in
      String (b64_char (sextet1 x)) (String (b64_char (sextet2 x 0)) (String b64_pad (String b64_pad EmptyString)))
  | String a (String b EmptyString) =>
      let x := N_of_ascii a in
      let y := N_of_ascii b in
      String (b64_char (sextet1 x)) (String (b64_char (sextet2 x y))
        (String (b64_char (sextet3 y 0)) (String b64_pad EmptyString)))
  | String a (String b (String c t)) =>
      let x := N_of_ascii a in
      let y := N_of_ascii b in
      let z := N_of_ascii c in
      String (b64_char (sextet1 x)) (String (b64_char (sextet2 x y))
        (String (b64_char (sextet3 y z)) (String (b64_char (sextet4 z)) (base64_EncodeToString t))))
  end.

(** ** The round trip *)

Definition sextets : list N := map N.of_nat (seq 0 64).

Lemma sextet_in n : (n < 64)%N -> n ∈ sextets.
Proof.
  intros Hn. unfold sextets. apply list_elem_of_In, in_map_iff. exists (N.to_nat n). rewrite in_seq. lia.
Qed.

Lemma b64_value_char n : (n < 64)%N -> b64_value (b64_char n) = Some n.
Proof.
  intros Hn%sextet_in. revert n Hn. apply Forall_forall.
  repeat constructor.
Qed.

Lemma b64_char_graphic n : graphic (b64_char n) = true.
Proof.
  unfold b64_char. repeat case_match; try reflexivity;
    unfold graphic, byte_in; rewrite N_ascii_embedding;
    repeat match goal with H : (_ <? _)%N = _ |- _ => first [apply N.ltb_lt in H|apply N.ltb_ge in H] end;
    rewrite ?andb_true_iff, ?N.leb_le; lia.
Qed.

Lemma N_of_ascii_lt a : (N_of_ascii a < 256)%N.
Proof. apply N_ascii_bounded. Qed.

Ltac sextet_arith :=
  repeat match goal with a : ascii |- _ => pose proof (N_of_ascii_lt a);
           let x := fresh "x" in set (x := N_of_ascii a) in *; clearbody x; clear a end;
  unfold sextet1, sextet2, sextet3, sextet4 in *; zify; Z.to_euclidean_division_equations; lia.

Lemma byte1_sextets a y : (y < 256)%N -> byte1 (sextet1 (N_of_ascii a)) (sextet2 (N_of_ascii a) y) = a.
Proof.
  intros Hy. rewrite <- (ascii_N_embedding a) at 3. unfold byte1. f_equal. sextet_arith.
Qed.
Lemma byte2_sextets x b z : (z < 256)%N -> byte2 (sextet2 x (N_of_ascii b)) (sextet3 (N_of_ascii b) z) = b.
Proof.
  intros Hz. rewrite <- (ascii_N_embedding b) at 3. unfold byte2. f_equal. sextet_arith.
Qed.
Lemma byte3_sextets y c : byte3 (sextet3 y (N_of_ascii c)) (sextet4 (N_of_ascii c)) = c.
Proof. rewrite <- (ascii_N_embedding c) at 3. unfold byte3. f_equal. sextet_arith. Qed.

Lemma sextets_bound x y : (x < 256)%N -> (y < 256)%N ->
  (sextet1 x < 64 /\ sextet2 x y < 64 /\ sextet3 x y < 64 /\ sextet4 x < 64)%N.
Proof. intros. split_and!; sextet_arith. Qed.

(** Induction three bytes at a time. *)
Lemma string_ind3 (P : string -> Prop) :
  P EmptyString -> (forall a, P (String a EmptyString)) -> (forall a b, P (String a (String b EmptyString))) ->
  (forall a b c t, P t -> P (String a (String b (String c t)))) -> forall s, P s.
Proof.
  intros H0 H1 H2 H3. fix IH 1. intros [|a [|b [|c t]]]; [done|apply H1|apply H2|]. apply H3, IH.
Qed.

Lemma decode_quanta_encode s : decode_quanta (base64_EncodeToString s) = Some s.
Proof.
  induction s as [|a|a b|a b c t IH] using string_ind3; cbn [base64_EncodeToString decode_quanta]; cbv zeta; [done|..].
  - destruct (sextets_bound (N_of_ascii a) 0 (N_of_ascii_lt a) ltac:(lia)) as (H1 & H2 & _ & _).
    rewrite !b64_value_char by done. cbn. by rewrite byte1_sextets.
  - destruct (sextets_bound _ _ (N_of_ascii_lt a) (N_of_ascii_lt b)) as (H1 & H2 & _ & _).
    destruct (sextets_bound (N_of_ascii b) 0 (N_of_ascii_lt b) ltac:(lia)) as (_ & _ & H3 & _).
    rewrite !b64_value_char by done. cbn. by rewrite byte1_sextets, byte2_sextets by (done || apply N_of_ascii_lt).
  - destruct (sextets_bound _ _ (N_of_ascii_lt a) (N_of_ascii_lt b)) as (H1 & H2 & _ & _).
    destruct (sextets_bound _ _ (N_of_ascii_lt b) (N_of_ascii_lt c)) as (_ & _ & H3 & _).
    destruct (sextets_bound _ _ (N_of_ascii_lt c) (N_of_ascii_lt c)) as (_ & _ & _ & H4).
    rewrite !b64_value_char, IH by done.
    by rewrite byte1_sextets, byte2_sextets, byte3_sextets by apply N_of_ascii_lt.
Qed.

Lemma base64_graphic s : all_graphic (base64_EncodeToString s) = true.
Proof.
  unfold all_graphic.
  induction s as [|a|a b|a b c t IH] using string_ind3;
    cbn [base64_EncodeToString list_ascii_of_string forallb]; cbv zeta; rewrite ?b64_char_graphic; [done..|exact IH].
Qed.

Lemma delete_line_breaks s :
  all_graphic s = true -> delete_bytes (fun c => byte_is 10 c || byte_is 13 c) s = s.
Proof.
  unfold all_graphic. induction s as [|c s IH]; cbn [list_ascii_of_string forallb delete_bytes]; [done|].
  intros [Hc Hs]%andb_true_iff. apply graphic_not_space in Hc. unfold ascii_space, byte_in, byte_is in *.
  apply orb_false_iff in Hc as [Hc _]. apply andb_false_iff in Hc.
  rewrite IH by done. destruct (N.eqb_spec (N_of_ascii c) 10); [|destruct (N.eqb_spec (N_of_ascii c) 13)]; [..|done];
    destruct Hc as [Hc|Hc]; apply N.leb_gt in Hc; lia.
Qed.

(** Decoding undoes encoding. *)
Lemma base64_round_trip s : base64_DecodeString (base64_EncodeToString s) = Some s.
Proof.
  unfold base64_DecodeString. rewrite delete_line_breaks by apply base64_graphic. apply decode_quanta_encode.
Qed.

Lemma base64_trimmed s : trimmed (base64_EncodeToString s).
Proof. apply all_graphic_trimmed, base64_graphic. Qed.

Example base64_vectors :
  map base64_EncodeToString [""; "f"; "fo"; "foo"; "foobar"]%string = [""; "Zg=="; "Zm8="; "Zm9v"; "Zm9vYmFy"]%string /\
  map base64_DecodeString ["Zg=="; "Zm8"; "Zg==Zg=="; "Z"; "=AAA"]%string = [Some "f"%string; None; None; None; None].
Proof. vm_compute. split; reflexivity. Qed.
