(* ===== verification/Bytes.v ===== *)
(** Byte strings: encoding/hex, the big-endian bytes of [big.Int], and slices
    with the machine's [int]. *)

From S2P Require Import Prelude.
From S2P Require Import GoStrings.
From S2P Require Import Sha256.
From Stdlib Require Import Ascii String.
From stdpp Require Import strings.

Abbreviation bytes := (list ascii).

Lemma N_ascii n : (n < 256)%N -> N_of_ascii (ascii_of_N n) = n.
Proof. apply N_ascii_embedding. Qed.

(** ** Hexadecimal *)

Definition hex_value (c : ascii) : option N :=
  let n := N_of_ascii c in
  if byte_in 48 57 c then Some (n - 48)%N
  else if byte_in 97 102 c then Some (n - 87)%N
  else if byte_in 65 70 c then Some (n - 55)%N
  else None.

(** [hex.DecodeString]. *)
Fixpoint DecodeString (s : string) : option string :=
  match s with
  | EmptyString => Some EmptyString
  | String a (String b t) =>
      match hex_value a, hex_value b, DecodeString t with
      | Some hi, Some lo, Some rest => Some (String (ascii_of_N (hi * 16 + lo)) rest)
      | _, _, _ => None
      end
  | String _ EmptyString => None
  end.

Lemma hex_value_digit n : (n < 16)%N -> hex_value (hex_digit n) = Some n.
Proof.
  intros Hn. assert (Hall : forallb (fun n => bool_decide (hex_value (hex_digit n) = Some n))
    (map N.of_nat (seq 0 16)) = true) by (by vm_compute).
  rewrite forallb_forall in Hall. specialize (Hall n). apply bool_decide_eq_true in Hall; [done|].
  apply in_map_iff. exists (N.to_nat n). split; [lia|]. apply in_seq. lia.
Qed.

Lemma DecodeString_EncodeToString s : DecodeString (EncodeToString s) = Some s.
Proof.
  induction s as [|c s IH]; [done|]. cbn [EncodeToString DecodeString].
  pose proof (N_ascii_bounded c) as Hc.
  rewrite !hex_value_digit, IH by (first [apply N.Div0.div_lt_upper_bound | apply N.mod_lt]; lia).
  do 2 f_equal. rewrite <- (ascii_N_embedding c) at 3. f_equal. pose proof (N.div_mod' (N_of_ascii c) 16). lia.
Qed.

Lemma EncodeToString_length s : String.length (EncodeToString s) = 2 * String.length s.
Proof. induction s as [|c s IH]; [done|]. cbn [EncodeToString String.length]. lia. Qed.

Lemma DecodeString_length s t : DecodeString s = Some t -> String.length s = 2 * String.length t.
Proof.
  assert (H : forall n s t, String.length s <= n -> DecodeString s = Some t -> String.length s = 2 * String.length t).
  { clear. intros n. induction n as [|n IH]; intros [|a [|b s]] t Hn Hs; cbn in *; simplify_eq/=; try done; try lia.
    repeat case_match; simplify_eq/=. erewrite (IH s) by (eauto; lia). lia. }
  by apply (H (String.length s)).
Qed.

(** ** Big-endian numbers *)

(** [big.Int.SetBytes]. *)
Definition be_value (l : bytes) : N := foldl (fun acc c => acc * 256 + N_of_ascii c)%N 0%N l.

Lemma be_value_app l c : be_value (l ++ [c]) = (be_value l * 256 + N_of_ascii c)%N.
Proof. unfold be_value. by rewrite foldl_snoc. Qed.

Lemma be_bytes_snoc n x : be_bytes (S n) x = be_bytes n (x / 256) ++ [byte_of x].
Proof.
  revert x. induction n as [|n IH]; intros x; [simpl; by rewrite N.shiftr_0_r|].
  cbn [be_bytes]. cbn [be_bytes] in IH. rewrite IH. cbn [app]. f_equal. f_equal.
  rewrite !N.shiftr_div_pow2, N.Div0.div_div. f_equal.
  change 256%N with (2 ^ 8)%N. rewrite <- N.pow_add_r. f_equal. lia.
Qed.

Lemma be_value_bytes n x : (x < 256 ^ N.of_nat n)%N -> be_value (be_bytes n x) = x.
Proof.
  revert x. induction n as [|n IH]; intros x Hx.
  { change (be_value (be_bytes 0 x)) with 0%N. change (256 ^ N.of_nat 0)%N with 1%N in Hx. lia. }
  rewrite be_bytes_snoc, be_value_app, IH.
  - unfold byte_of. rewrite N_ascii by by apply N.mod_lt.
    rewrite (N.div_mod x 256) at 3 by done. lia.
  - apply N.Div0.div_lt_upper_bound. rewrite Nat2N.inj_succ, N.pow_succ_r' in Hx. done.
Qed.

Lemma be_bytes_length n x : length (be_bytes n x) = n.
Proof. induction n as [|n IH]; simpl; [done|]. by rewrite IH. Qed.

Lemma be_value_bounded l : (be_value l < 256 ^ N.of_nat (length l))%N.
Proof.
  induction l as [|c l IH] using rev_ind; [done|].
  rewrite be_value_app, length_app. cbn [length]. rewrite Nat.add_1_r, Nat2N.inj_succ, N.pow_succ_r'.
  pose proof (N_ascii_bounded c). lia.
Qed.

Lemma be_bytes_value l : be_bytes (length l) (be_value l) = l.
Proof.
  induction l as [|c l IH] using rev_ind; [done|].
  rewrite length_app. cbn [length]. rewrite Nat.add_1_r, be_bytes_snoc, be_value_app.
  pose proof (N_ascii_bounded c) as Hc.
  rewrite N.div_add_l, N.div_small, N.add_0_r, IH by done. f_equal. unfold byte_of.
  rewrite N.add_comm, N.Div0.mod_add, N.mod_small by done. by rewrite ascii_N_embedding.
Qed.

Lemma be_value_zeros k l : be_value (repeat (ascii_of_N 0) k ++ l) = be_value l.
Proof. unfold be_value. rewrite foldl_app. f_equal. induction k as [|k IH]; [done|]. exact IH. Qed.

Lemma be_value_inj l m : length l = length m -> be_value l = be_value m -> l = m.
Proof. intros Hlen Heq. rewrite <- (be_bytes_value l), <- (be_bytes_value m). congruence. Qed.

(** [big.Int.Bytes] of a number that is not negative: no leading zero. *)
Definition byte_count (n : N) : nat := N.to_nat ((N.size n + 7) / 8).
Definition big_Bytes (n : N) : bytes := be_bytes (byte_count n) n.

Lemma byte_count_bound n : (n < 256 ^ N.of_nat (byte_count n))%N.
Proof.
  unfold byte_count. rewrite N2Nat.id. change 256%N with (2 ^ 8)%N. rewrite <- N.pow_mul_r.
  eapply N.lt_le_trans; [apply N.size_gt|]. apply N.pow_le_mono_r; [done|].
  pose proof (N.div_mod' (N.size n + 7) 8). pose proof (N.mod_lt (N.size n + 7) 8). lia.
Qed.

Lemma byte_count_le n k : (n < 256 ^ N.of_nat k)%N -> byte_count n <= k.
Proof.
  intros Hn. unfold byte_count. assert ((N.size n + 7) / 8 < N.of_nat k + 1)%N; [|lia].
  apply N.Div0.div_lt_upper_bound. cut (N.size n <= 8 * N.of_nat k)%N; [lia|].
  destruct (decide (n = 0%N)) as [->|Hne]; [cbn; lia|].
  rewrite N.size_log2 by done. apply N.le_succ_l. apply N.log2_lt_pow2; [lia|].
  rewrite N.pow_mul_r. exact Hn.
Qed.

Lemma be_value_big n : be_value (big_Bytes n) = n.
Proof. apply be_value_bytes, byte_count_bound. Qed.

Lemma big_Bytes_length n : length (big_Bytes n) = byte_count n.
Proof. apply be_bytes_length. Qed.

#[global] Instance big_Bytes_inj : Inj (=) (=) big_Bytes.
Proof. intros n m Heq. by rewrite <- (be_value_big n), Heq, be_value_big. Qed.

(** ** The machine's [int] *)

Definition two63 : Z := 9223372036854775808.
(** The value an addition wraps to. *)
Definition int64 (z : Z) : Z := ((z + two63) mod (2 * two63) - two63)%Z.

Lemma int64_id z : (- two63 <= z < two63)%Z -> int64 z = z.
Proof. unfold int64, two63. intros Hz. rewrite Z.mod_small; lia. Qed.

Lemma int64_over z : (two63 <= z < 3 * two63)%Z -> int64 z = (z - 2 * two63)%Z.
Proof.
  unfold int64, two63. intros Hz. rewrite <- (Z.mod_unique (z + 9223372036854775808) _ 1 (z - 9223372036854775808)); lia.
Qed.
