(* ===== verification/Errors.v ===== *)
(** Go error values: the sentinel errors of every modelled package, wrapping
    with [%w], [errors.Join], [errors.Is] and the [Temporary()] probe of the
    relayers. *)

From S2P Require Import Prelude.
From S2P Require Import GoStrings.
From stdpp Require Import strings.

(** The variables [Err... = errors.New(...)] of the packages. *)
Inductive sentinel :=
(* x/bridge/types *)
| ErrInvalidClaim | ErrInvalidAttestation
(* x/bridge/keeper *)
| ErrDuplicateClaim | ErrInsufficientAttestationQuorum | ErrFinalityWindowExpired
| ErrAttestationExpired | ErrMessageIDMismatch | ErrPayloadHashMismatch
| ErrSignerSetVersionMismatch | ErrSignerSetInactive | ErrInvalidAttestationSignature
| ErrUnknownAsset | ErrAssetDisabled | ErrAssetPaused | ErrInsufficientSupply
| ErrInvalidWithdrawal | ErrAccountingInvariantBroken | ErrBridgeCircuitOpen
(* x/limits *)
| ErrInvalidRateLimit | ErrLimitNotFound | ErrInvalidTransfer | ErrRateLimitExceeded
(* x/pauser *)
| ErrInvalidFlow | ErrFlowPaused
(* x/registry *)
| ErrInvalidAsset | ErrAssetAlreadyExists | ErrAssetNotFound
(* x/bank *)
| ErrInvalidAddress | ErrInvalidDenom | ErrInvalidAmount | ErrInsufficientBalance
(* x/governance *)
| ErrInvalidProposal | ErrUnauthorizedProposal | ErrDuplicateProposal
(* x/ibcrouter *)
| ErrRouteNotFound | ErrRouteDisabled | ErrInvalidRoute | ErrInvalidIBCTransfer
| ErrTransferNotFound | ErrTransferNotPending | ErrTransferNotRecoverable
| ErrRouteProfileNotFound | ErrRouteProfileDisabled | ErrRouteProfileAssetNotAllowed
| ErrRouteProfilePolicyViolation | ErrInvalidRouteProfile
(* app *)
| ErrWalletStateMigrationRequired
(* relayer *)
| ErrThresholdNotMet | ErrEVMSourceUnavailable | ErrReleaseUnavailable
| ErrCosmosSourceUnavailable | ErrSubmitterUnavailable.

#[global] Instance sentinel_eq_dec : EqDecision sentinel.
Proof. solve_decision. Defined.

Definition sentinel_text (s : sentinel) : string :=
  match s with
  | ErrInvalidClaim => "invalid claim"
  | ErrInvalidAttestation => "invalid attestation"
  | ErrDuplicateClaim => "duplicate claim"
  | ErrInsufficientAttestationQuorum => "insufficient attestation quorum"
  | ErrFinalityWindowExpired => "finality window expired"
  | ErrAttestationExpired => "attestation expired"
  | ErrMessageIDMismatch => "message id mismatch"
  | ErrPayloadHashMismatch => "payload hash mismatch"
  | ErrSignerSetVersionMismatch => "signer set version mismatch"
  | ErrSignerSetInactive => "signer set inactive"
  | ErrInvalidAttestationSignature => "invalid attestation signature"
  | ErrUnknownAsset => "unknown asset"
  | ErrAssetDisabled => "asset disabled"
  | ErrAssetPaused => "asset paused"
  | ErrInsufficientSupply => "insufficient supply"
  | ErrInvalidWithdrawal => "invalid withdrawal"
  | ErrAccountingInvariantBroken => "bridge accounting invariant failed"
  | ErrBridgeCircuitOpen => "bridge circuit breaker is open"
  | ErrInvalidRateLimit => "invalid rate limit"
  | ErrLimitNotFound => "rate limit not found"
  | ErrInvalidTransfer => "invalid transfer amount"
  | ErrRateLimitExceeded => "rate limit exceeded"
  | ErrInvalidFlow => "invalid flow"
  | ErrFlowPaused => "flow is paused"
  | ErrInvalidAsset => "invalid asset"
  | ErrAssetAlreadyExists => "asset already exists"
  | ErrAssetNotFound => "asset not found"
  | ErrInvalidAddress => "invalid wallet address"
  | ErrInvalidDenom => "invalid denom"
  | ErrInvalidAmount => "invalid balance amount"
  | ErrInsufficientBalance => "insufficient balance"
  | ErrInvalidProposal => "invalid governance proposal"
  | ErrUnauthorizedProposal => "unauthorized governance proposal"
  | ErrDuplicateProposal => "governance proposal already applied"
  | ErrRouteNotFound => "ibc route not found"
  | ErrRouteDisabled => "ibc route disabled"
  | ErrInvalidRoute => "invalid ibc route"
  | ErrInvalidIBCTransfer => "invalid ibc transfer"
  | ErrTransferNotFound => "ibc transfer not found"
  | ErrTransferNotPending => "ibc transfer not pending"
  | ErrTransferNotRecoverable => "ibc transfer not recoverable"
  | ErrRouteProfileNotFound => "ibc route profile not found"
  | ErrRouteProfileDisabled => "ibc route profile disabled"
  | ErrRouteProfileAssetNotAllowed => "ibc route profile asset not allowed"
  | ErrRouteProfilePolicyViolation => "ibc route profile policy violation"
  | ErrInvalidRouteProfile => "invalid route profile"
  | ErrWalletStateMigrationRequired => "wallet state migration required"
  | ErrThresholdNotMet => "attestation threshold not met"
  | ErrEVMSourceUnavailable => "evm source unavailable"
  | ErrReleaseUnavailable => "evm release target unavailable"
  | ErrCosmosSourceUnavailable => "cosmos source unavailable"
  | ErrSubmitterUnavailable => "cosmos submitter unavailable"
  end.

Inductive error :=
| Sentinel (s : sentinel)                   (* the sentinel itself *)
| Wrapf (s : sentinel) (detail : string)    (* fmt.Errorf "%w: detail" *)
| Errorf (msg : string)                     (* errors.New, or fmt.Errorf without %w *)
| Prefixed (ctx : string) (e : error)       (* fmt.Errorf "ctx: %w" *)
| Joined (e1 e2 : error)                    (* errors.Join *)
| TemporaryError (e : error)                (* TemporaryError{Err: e} *)
| Panic (what : string).                    (* the goroutine panics; no modelled code recovers *)

Coercion Sentinel : sentinel >-> error.

Definition newline : string := String (Ascii.ascii_of_N 10) EmptyString.

(** [err.Error()]. *)
Fixpoint error_text (e : error) : string :=
  match e with
  | Sentinel s => sentinel_text s
  | Wrapf s d => sentinel_text s +:+ ": " +:+ d
  | Errorf m => m
  | Prefixed c e => c +:+ ": " +:+ error_text e
  | Joined a b => error_text a +:+ newline +:+ error_text b
  | TemporaryError e => error_text e
  | Panic w => "panic: " +:+ w
  end.

(** [errors.Is(err, s)]. *)
Fixpoint error_is (s : sentinel) (e : error) : bool :=
  match e with
  | Sentinel s' | Wrapf s' _ => bool_decide (s = s')
  | Errorf _ | Panic _ => false
  | Prefixed _ e | TemporaryError e => error_is s e
  | Joined a b => error_is s a || error_is s b
  end.

(** [errors.As(err, &temporary) && temporary.Temporary()]. *)
Fixpoint isTemporary (e : error) : bool :=
  match e with
  | TemporaryError _ => true
  | Prefixed _ e => isTemporary e
  | Joined a b => isTemporary a || isTemporary b
  | _ => false
  end.

Abbreviation result A := (res error A).
Abbreviation Op St A := (M error St A).

Definition nil_dereference : error := Panic "invalid memory address or nil pointer dereference".

(** The first failing check of a validator decides its error. *)
Definition first_error (checks : list (bool * error)) : result unit :=
  match filter (fun c => c.1 = true) checks with
  | [] => Ok tt
  | c :: _ => Err c.2
  end.

Lemma first_error_ok checks : first_error checks = Ok tt <-> Forall (fun c => c.1 = false) checks.
Proof.
  unfold first_error. induction checks as [|[b e] checks IH]; [split; constructor|].
  rewrite filter_cons, Forall_cons. cbn [fst]. case_decide as Hb.
  - split; [done|]. intros [Hf _]. congruence.
  - rewrite IH. split; [|tauto]. split; [by destruct b|done].
Qed.
