(* ===== verification/Files.v ===== *)
(** Files: lexical paths (path/filepath) and a file system whose files hold the
    documents the program writes, with the outcomes of the next operations on
    it (os).

    Paths are resolved lexically, as [filepath.Clean] does; links are not
    modelled. Standard library code has no source of its own here: the
    definitions are what the modelled files use of it. *)

From S2P Require Import Prelude.
From S2P Require Import GoStrings.
From S2P Require Import Errors.
From Stdlib Require Import Ascii String.
From stdpp Require Import strings.

(** ** Paths *)

Definition slash : ascii := ascii_of_N 47.
Definition slash_text : string := String slash EmptyString.

(** A cleaned path: rooted or not, and its elements. *)
Abbreviation Path := (bool * list string)%type.

Definition plain_part (p : string) : Prop :=
  p <> EmptyString /\ p <> "."%string /\ p <> ".."%string /\ lacks slash p = true.
#[global] Instance plain_part_dec p : Decision (plain_part p).
Proof. unfold plain_part. apply _. Defined.

(** The loop of [filepath.Clean], over the elements; [acc] is the output so
    far, last element first. *)
Fixpoint clean_parts (rooted : bool) (parts acc : list string) : list string :=
  match parts with
  | [] => rev acc
  | p :: rest =>
      if decide (p = EmptyString \/ p = "."%string) then clean_parts rooted rest acc
      else if decide (p = ".."%string) then
        match acc with
        | q :: acc' =>
            if decide (q = ".."%string) then clean_parts rooted rest (p :: acc)
            else clean_parts rooted rest acc'
        | [] => clean_parts rooted rest (if rooted then [] else [p])
        end
      else clean_parts rooted rest (p :: acc)
  end.

Definition parse_path (s : string) : Path :=
  let rooted := HasPrefix s slash_text in
  (rooted, clean_parts rooted (Split s slash) []).

Definition path_text (p : Path) : string :=
  if p.1 then slash_text +:+ GoStrings.Join p.2 slash_text
  else match p.2 with
       | [] => "."%string
       | parts => GoStrings.Join parts slash_text
       end.

Definition Clean (s : string) : string := path_text (parse_path s).

Definition Dir (s : string) : string :=
  let p := parse_path s in path_text (p.1, removelast p.2).

(** [filepath.Join]: empty elements are ignored. *)
Definition JoinPath (elems : list string) : string :=
  match filter (fun e => e <> EmptyString) elems with
  | [] => EmptyString
  | l => Clean (GoStrings.Join l slash_text)
  end.

(** ** The file system *)

Section fs.
Context {D : Type}.

Inductive node :=
| File (d : D)
| Truncated                        (* a file cut off by a failed write *)
| Directory
| Unreadable (what : string)       (* exists, and reading it fails *)
| Unreachable (what : string).     (* even [os.Stat] fails *)

(** How the next operation that changes the disk ends: done, refused with no
    effect, or cut off halfway. *)
Inductive outcome := Done | Refused (e : error) | Torn (e : error).

Record FS := mk_fs { nodes : gmap Path node; outcomes : list outcome }.

Definition upd_nodes f (w : FS) : FS := mk_fs (f (nodes w)) (outcomes w).

Definition node_at (w : FS) (path : string) : option node :=
  if decide (path = EmptyString) then None else nodes w !! parse_path path.

Definition no_such_file : string := "no such file or directory".
Definition not_exist (call path : string) : error :=
  Prefixed (call +:+ " " +:+ path) (Errorf no_such_file).

Definition IsNotExist (e : error) : bool :=
  match e with Prefixed _ (Errorf m) => eqs m no_such_file | _ => false end.

(** [os.ReadFile], then [json.Unmarshal]: [None] is a text that does not
    parse. *)
Definition ReadFile (w : FS) (path : string) : result (option D) :=
  match node_at w path with
  | None => Err (not_exist "open" path)
  | Some (File d) => Ok (Some d)
  | Some Truncated => Ok None
  | Some Directory => Err (Prefixed ("read " +:+ path) (Errorf "is a directory"))
  | Some (Unreadable what | Unreachable what) => Err (Prefixed ("open " +:+ path) (Errorf what))
  end.

Definition json_error : error := Errorf "unexpected end of JSON input".

Definition ReadDocument (w : FS) (path : string) : result D :=
  let? d := ReadFile w path in
  match d with Some d => Ok d | None => Err json_error end.

(** [os.Stat], of which only the error is used. *)
Definition Stat (w : FS) (path : string) : result unit :=
  match node_at w path with
  | None => Err (not_exist "stat" path)
  | Some (Unreachable what) => Err (Prefixed ("stat " +:+ path) (Errorf what))
  | Some _ => Ok tt
  end.

Definition next_outcome (w : FS) : outcome * FS :=
  match outcomes w with
  | [] => (Done, w)
  | o :: rest => (o, mk_fs (nodes w) rest)
  end.

(** An operation that has no halfway state. *)
Definition atomic_step (effect : FS -> FS) : Op FS unit := fun w =>
  let '(o, w) := next_outcome w in
  match o with
  | Done => (Ok tt, effect w)
  | Refused e | Torn e => (Err e, w)
  end.

(** The paths from the top down to [p]. *)
Definition ancestors (p : Path) : list Path :=
  map (fun n => (p.1, take n p.2)) (seq 1 (List.length p.2)).

Definition is_file (n : node) : bool :=
  match n with File _ | Truncated | Unreadable _ => true | _ => false end.

Definition blocked (w : FS) (p : Path) : bool :=
  existsb (fun q => match nodes w !! q with Some n => is_file n | None => false end) (ancestors p).

Definition make_dirs (p : Path) (w : FS) : FS :=
  upd_nodes (fun m => foldl (fun m q =>
    match m !! q with Some _ => m | None => <[q := Directory]> m end) m (ancestors p)) w.

(** [os.MkdirAll]. *)
Definition MkdirAll (path : string) : Op FS unit :=
  let! w := gets (fun w => w) in
  throw_if (eqs path EmptyString) (not_exist "mkdir" path) ;;;
  throw_if (blocked w (parse_path path)) (Prefixed ("mkdir " +:+ path) (Errorf "not a directory")) ;;;
  atomic_step (make_dirs (parse_path path)).

(** The directory a file is written in must be there. *)
Definition parent_missing (w : FS) (path : string) : bool :=
  let p := parse_path path in
  match removelast p.2 with
  | [] => false
  | dir => negb (match nodes w !! (p.1, dir) with Some Directory => true | _ => false end)
  end.

Definition not_writable (w : FS) (path : string) : bool :=
  eqs path EmptyString ||
  match node_at w path with Some (Directory | Unreadable _ | Unreachable _) => true | _ => false end.

Definition put_node (path : string) (n : node) : FS -> FS :=
  upd_nodes <[parse_path path := n]>.

(** [os.WriteFile]: the file is truncated, then written. *)
Definition WriteFile (path : string) (d : D) : Op FS unit :=
  let! w := gets (fun w => w) in
  throw_if (parent_missing w path) (not_exist "open" path) ;;;
  throw_if (not_writable w path) (Prefixed ("open " +:+ path) (Errorf "permission denied")) ;;;
  (fun w =>
    let '(o, w) := next_outcome w in
    match o with
    | Done => (Ok tt, put_node path (File d) w)
    | Refused e => (Err e, w)
    | Torn e => (Err e, put_node path Truncated w)
    end).

(** A document written to a temporary file of the same directory — created,
    written, closed — and renamed over [path]. The temporary file itself, which
    is removed on every return, is not kept. *)
Definition WriteByRename (path : string) (d : D) : Op FS unit :=
  let! w := gets (fun w => w) in
  throw_if (parent_missing w path) (not_exist "open" path) ;;;
  atomic_step id ;;;
  atomic_step id ;;;
  atomic_step id ;;;
  throw_if (match node_at w path with Some Directory => true | _ => false end)
    (Prefixed ("rename " +:+ path) (Errorf "file exists")) ;;;
  atomic_step (put_node path (File d)).
End fs.
Arguments node D : clear implicits.
Arguments FS D : clear implicits.

(** ** Paths as texts *)

Lemma clean_parts_app r ps qs acc :
  clean_parts r (ps ++ qs) acc = clean_parts r qs (rev (clean_parts r ps acc)).
Proof.
  revert acc. induction ps as [|p ps IH]; intros acc; cbn [app clean_parts]; [by rewrite rev_involutive|].
  repeat case_decide; try apply IH. destruct acc as [|q acc]; [apply IH|]. case_decide; apply IH.
Qed.

Lemma clean_parts_plain r qs acc : Forall plain_part qs -> clean_parts r qs acc = rev acc ++ qs.
Proof.
  intros Hq. revert acc. induction Hq as [|q qs (H1 & H2 & H3 & _) _ IH]; intros acc; cbn [clean_parts].
  - by rewrite app_nil_r.
  - rewrite decide_False by naive_solver. rewrite decide_False by done. rewrite IH. cbn [rev].
    by rewrite <- app_assoc.
Qed.

Lemma Split_slash parts :
  parts <> [] -> Forall (fun q => lacks slash q = true) parts ->
  Split (GoStrings.Join parts slash_text) slash = parts.
Proof. apply Split_Join. Qed.

(** A path that cleaning leaves alone. *)
Definition cleaned (p : Path) : Prop :=
  clean_parts p.1 p.2 [] = p.2 /\
  Forall (fun q => lacks slash q = true /\ q <> EmptyString) p.2.

Lemma clean_parts_length r ps acc :
  List.length (clean_parts r ps acc) <= List.length ps + List.length acc.
Proof.
  revert acc. induction ps as [|p ps IH]; intros acc; cbn [clean_parts List.length]; [rewrite length_rev; lia|].
  repeat case_decide; [etrans; [apply IH|lia]| |etrans; [apply IH|simpl; lia]].
  destruct acc as [|q acc]; [etrans; [apply IH|destruct r; simpl; lia]|].
  case_decide; (etrans; [apply IH|simpl; lia]).
Qed.

(** Dropping the last element of a cleaned path leaves a cleaned path. *)
Lemma cleaned_init r ps q : cleaned (r, ps ++ [q]) -> cleaned (r, ps).
Proof.
  intros [Hc Hall]. cbn [fst snd] in *. apply Forall_app in Hall as [Hall Hq].
  apply Forall_cons in Hq as [[_ Hne] _]. split; [|done]. cbn [fst snd].
  rewrite clean_parts_app in Hc. pose proof (clean_parts_length r ps []) as Hlen.
  set (out := clean_parts r ps []) in *. clearbody out. cbn [clean_parts List.length] in *.
  assert (Hshort : List.length out = List.length (ps ++ [q]) -> False) by (rewrite length_app; simpl; lia).
  case_decide as Hskip.
  { rewrite rev_involutive in Hc. exfalso. apply Hshort. by rewrite Hc. }
  case_decide as Hdd.
  - destruct (rev out) as [|x acc] eqn:Hrev.
    + destruct r; [by destruct ps|]. apply (f_equal (@rev _)) in Hrev. rewrite rev_involutive in Hrev. cbn in Hrev.
      subst out. destruct ps as [|x ps]; [done|]. apply (f_equal List.length) in Hc. rewrite length_app in Hc.
      simpl in Hc. lia.
    + assert (Hout : out = rev acc ++ [x]) by (by rewrite <- (rev_involutive out), Hrev).
      case_decide as Hx.
      * cbn [rev] in Hc. apply app_inj_tail in Hc as [Hc _]. by rewrite Hout.
      * exfalso. apply Hshort. rewrite <- Hc, Hout, length_app. 
        apply (f_equal List.length) in Hc. rewrite length_app in Hc. rewrite Hout, length_app in Hlen. simpl in *. lia.
  - cbn [rev] in Hc. rewrite rev_involutive in Hc. by apply app_inj_tail in Hc as [Hc _].
Qed.

Lemma clean_parts_cleaned r ps acc :
  Forall (fun q => lacks slash q = true) ps -> cleaned (r, rev acc) ->
  cleaned (r, clean_parts r ps acc).
Proof.
  intros Hps. revert acc. induction Hps as [|p ps Hp _ IH]; intros acc Hacc; cbn [clean_parts]; [done|].
  case_decide as Hskip; [by apply IH|].
  assert (Hpush : clean_parts r [p] acc = rev (p :: acc) -> cleaned (r, clean_parts r ps (p :: acc))).
  { intros Hp'. apply IH. destruct Hacc as [Hc Hall]. split; cbn [fst snd rev] in *.
    - rewrite clean_parts_app, Hc, rev_involutive. exact Hp'.
    - apply Forall_app. split; [done|]. constructor; [|done]. naive_solver. }
  case_decide as Hdd.
  - subst p. destruct acc as [|q acc].
    + destruct r; [by apply IH|]. apply Hpush. done.
    + case_decide as Hq; [apply Hpush; cbn [clean_parts]; by rewrite decide_False, decide_True, decide_True by naive_solver|].
      apply IH. by apply cleaned_init in Hacc.
  - apply Hpush. cbn [clean_parts]. rewrite decide_False, decide_False by done. done.
Qed.

Lemma Split_parts_lack s c : Forall (fun q => lacks c q = true) (Split s c).
Proof.
  induction s as [|x s IH]; cbn [Split]; [by repeat constructor|].
  destruct (Ascii.eqb x c) eqn:Hx; [by constructor|].
  destruct (Split s c) as [|p rest]; [repeat constructor; unfold lacks; cbn; by rewrite Hx|].
  apply Forall_cons in IH as [Hp Hr]. constructor; [|done]. unfold lacks in *. cbn. by rewrite Hx.
Qed.

Lemma parse_path_cleaned s : cleaned (parse_path s).
Proof. apply clean_parts_cleaned; [apply Split_parts_lack|]. split; [done|constructor]. Qed.

Lemma HasPrefix_slash s : HasPrefix (slash_text +:+ s) slash_text = true.
Proof. unfold HasPrefix, slash_text. rewrite string_app_cons. cbn. by destruct s. Qed.

Lemma path_text_parse p : cleaned p -> parse_path (path_text p) = p.
Proof.
  destruct p as [r ps]. intros [Hc Hall]. unfold path_text, parse_path. cbn [fst snd] in *.
  assert (Hl : Forall (fun q => lacks slash q = true) ps) by (eapply Forall_impl; [exact Hall|naive_solver]).
  destruct r.
  - rewrite HasPrefix_slash. f_equal.
    change (slash_text +:+ GoStrings.Join ps slash_text) with (String slash (GoStrings.Join ps slash_text)).
    cbn [Split]. rewrite Ascii.eqb_refl. cbn [clean_parts]. rewrite decide_True by naive_solver.
    destruct ps as [|p ps]; [done|]. rewrite Split_slash by done. by rewrite Hc.
  - destruct ps as [|p ps]; [done|]. rewrite Split_slash by done.
    apply Forall_cons in Hall as [[Hp Hne] _].
    assert (Hpre : HasPrefix (GoStrings.Join (p :: ps) slash_text) slash_text = false).
    { destruct p as [|c p]; [done|]. unfold lacks in Hp. cbn [list_ascii_of_string forallb] in Hp.
      apply andb_prop in Hp as [Hx%negb_true_iff _].
      assert (Hj : exists t, GoStrings.Join (String c p :: ps) slash_text = String c t).
      { destruct ps; [by exists p|]. eexists. cbn [GoStrings.Join]. rewrite string_app_cons. done. }
      destruct Hj as [t ->]. unfold HasPrefix, slash_text. cbn [String.prefix].
      destruct (ascii_dec slash c) as [<-|]; [by rewrite Ascii.eqb_refl in Hx|done]. }
    rewrite Hpre. by rewrite Hc.
Qed.

Lemma parse_Clean s : parse_path (Clean s) = parse_path s.
Proof. apply path_text_parse, parse_path_cleaned. Qed.

Lemma Clean_idem s : Clean (Clean s) = Clean s.
Proof. unfold Clean at 1. by rewrite parse_Clean. Qed.

Lemma Split_app a b c : Split (a +:+ String c b) c = Split a c ++ Split b c.
Proof.
  induction a as [|x a IH].
  - change (EmptyString +:+ String c b) with (String c b). cbn [Split]. by rewrite Ascii.eqb_refl.
  - rewrite string_app_cons. cbn [Split]. rewrite IH. destruct (Ascii.eqb x c); [done|].
    destruct (Split a c) eqn:Ha; [|done]. by destruct a as [|y a]; cbn [Split] in Ha;
      [|destruct (Ascii.eqb y c); [|destruct (Split a c)]].
Qed.

(** Joining plain names below a directory appends them to its path. *)
Lemma parse_JoinPath h names :
  h <> EmptyString -> names <> [] -> Forall plain_part names ->
  parse_path (JoinPath (h :: names)) = ((parse_path h).1, (parse_path h).2 ++ names).
Proof.
  intros Hh Hne Hn. unfold JoinPath. rewrite filter_cons_True by done.
  assert (Hfilter : filter (fun e => e <> EmptyString) names = names).
  { clear Hne. induction Hn as [|n names [Hn _] _ IH]; [done|]. rewrite filter_cons_True by done. by rewrite IH. }
  rewrite Hfilter, parse_Clean.
  assert (Hj : GoStrings.Join (h :: names) slash_text = h +:+ String slash (GoStrings.Join names slash_text)).
  { destruct names; [done|]. reflexivity. }
  rewrite Hj. unfold parse_path. cbn [fst snd].
  assert (Hp : HasPrefix (h +:+ String slash (GoStrings.Join names slash_text)) slash_text = HasPrefix h slash_text).
  { destruct h as [|c h]; [done|]. rewrite string_app_cons. unfold HasPrefix, slash_text. cbn [String.prefix].
    destruct (ascii_dec slash c); [|done]. by destruct h. }
  rewrite Hp, Split_app, clean_parts_app, Split_slash, clean_parts_plain, rev_involutive; try done.
  eapply Forall_impl; [exact Hn|]. by intros q (_ & _ & _ & Hq).
Qed.

Lemma JoinPath_nonempty h names : h <> EmptyString -> JoinPath (h :: names) <> EmptyString.
Proof.
  intros Hh. unfold JoinPath. rewrite filter_cons_True by done. unfold Clean, path_text.
  pose proof (parse_path_cleaned (GoStrings.Join (h :: filter (fun e => e <> EmptyString) names) slash_text)) as [_ Hc].
  destruct (parse_path _) as [r ps]. cbn [fst snd] in *. destruct r; [done|].
  destruct ps as [|p ps]; [done|]. apply Forall_cons in Hc as [[_ Hp] _].
  destruct p as [|c p]; [done|]. destruct ps; done.
Qed.

Example join_paths :
  JoinPath ["/tmp/home/"; "config"; "runtime.json"]%string = "/tmp/home/config/runtime.json"%string /\
  JoinPath ["a/../b"; "data"]%string = "b/data"%string /\ Clean "../../x/./y//" = "../../x/y"%string /\
  Clean "/.." = "/"%string /\ Dir "/a/b.json" = "/a"%string /\ Dir "b.json" = "."%string.
Proof. vm_compute. done. Qed.

(** ** What the operations leave alone *)

Section frame.
Context {D : Type}.
Implicit Types w : FS D.

Lemma ReadDocument_put w path d : path <> EmptyString ->
  ReadDocument (put_node path (File d) w) path = Ok d.
Proof.
  intros Hp. unfold ReadDocument, ReadFile, node_at, put_node. rewrite decide_False by done.
  cbn [upd_nodes nodes]. by rewrite lookup_insert_eq.
Qed.

Lemma node_at_put_ne w path q n : parse_path q <> parse_path path ->
  node_at (put_node path n w) q = node_at w q.
Proof.
  intros Hne. unfold node_at, put_node. case_decide; [done|]. cbn [upd_nodes nodes].
  by rewrite lookup_insert_ne.
Qed.

Lemma atomic_step_frame (effect : FS D -> FS D) w r w' :
  atomic_step effect w = (r, w') ->
  (r = Ok tt /\ nodes w' = nodes (effect (snd (next_outcome w)))) \/
  (exists e, r = Err e /\ nodes w' = nodes w).
Proof.
  unfold atomic_step. destruct (next_outcome w) as [o w1] eqn:Ho. cbn [snd].
  assert (Hw : nodes w1 = nodes w).
  { unfold next_outcome in Ho. destruct (outcomes w); by injection Ho as _ <-. }
  destruct o; intros [= <- <-]; [by left|right; eauto..].
Qed.

(** A write by rename is all or nothing, whatever goes wrong. *)
Lemma WriteByRename_atomic path d w r w' :
  WriteByRename path d w = (r, w') ->
  (r = Ok tt /\ nodes w' = <[parse_path path := File d]> (nodes w)) \/
  (exists e, r = Err e /\ nodes w' = nodes w).
Proof.
  unfold WriteByRename, bind at 1, gets. unfold bind at 1, throw_if at 1.
  destruct (parent_missing w path); [intros [= <- <-]; right; eauto|]. cbn [ret].
  assert (Hskip : forall (k : Op (FS D) unit) w0 r w', bind (atomic_step id) (fun _ => k) w0 = (r, w') ->
    (exists e, r = Err e /\ nodes w' = nodes w0) \/ exists w1, nodes w1 = nodes w0 /\ k w1 = (r, w')).
  { intros k w0 r0 w0' Hb. unfold bind in Hb. destruct (atomic_step id w0) as [r1 w1] eqn:H1.
    apply atomic_step_frame in H1 as [[-> Hw1]|(e & -> & Hw1)].
    - right. exists w1. split; [|done]. rewrite Hw1. unfold next_outcome. by destruct (outcomes w0).
    - left. injection Hb as <- <-. eauto. }
  intros H1. apply Hskip in H1 as [?|(w1 & Hw1 & H1)]; [by right|].
  apply Hskip in H1 as [(e & -> & Hn)|(w2 & Hw2 & H1)]; [right; exists e; by rewrite Hn, Hw1|].
  apply Hskip in H1 as [(e & -> & Hn)|(w3 & Hw3 & H1)]; [right; exists e; by rewrite Hn, Hw2, Hw1|].
  unfold bind at 1, throw_if in H1.
  destruct (match node_at w path with Some Directory => true | _ => false end).
  - injection H1 as <- <-. right. eexists. split; [done|]. by rewrite Hw3, Hw2, Hw1.
  - cbn [ret] in H1. apply atomic_step_frame in H1 as [[-> Hn]|(e & -> & Hn)].
    + left. split; [done|]. rewrite Hn. unfold put_node, upd_nodes. cbn [nodes].
      unfold next_outcome. destruct (outcomes w3); cbn [snd nodes]; by rewrite Hw3, Hw2, Hw1.
    + right. exists e. split; [done|]. by rewrite Hn, Hw3, Hw2, Hw1.
Qed.
End frame.

Section directories.
Context {D : Type}.
Implicit Types w : FS D.

(** Making directories keeps what is there. *)
Lemma make_dirs_keeps p w q n : nodes w !! q = Some n -> nodes (make_dirs p w) !! q = Some n.
Proof.
  unfold make_dirs, upd_nodes. cbn [nodes]. generalize (nodes w).
  induction (ancestors p) as [|a l IH]; intros m Hq; cbn [foldl]; [done|]. apply IH.
  destruct (m !! a) eqn:Ha; [done|]. rewrite lookup_insert_ne; [done|]. intros ->. congruence.
Qed.

Lemma make_dirs_other p w q : q ∉ ancestors p -> nodes (make_dirs p w) !! q = nodes w !! q.
Proof.
  unfold make_dirs, upd_nodes. cbn [nodes]. generalize (nodes w).
  induction (ancestors p) as [|a l IH]; intros m Hq; cbn [foldl]; [done|].
  apply not_elem_of_cons in Hq as [Hqa Hq]. rewrite IH by done.
  destruct (m !! a); [done|]. by rewrite lookup_insert_ne.
Qed.

Lemma MkdirAll_run path w r w' :
  MkdirAll path w = (r, w') ->
  (r = Ok tt /\ nodes w' = nodes (make_dirs (parse_path path) w)) \/
  (exists e, r = Err e /\ nodes w' = nodes w).
Proof.
  unfold MkdirAll, bind, gets, throw_if, throw, ret.
  destruct (eqs path EmptyString); [intros [= <- <-]; right; eauto|].
  destruct (blocked w (parse_path path)); [intros [= <- <-]; right; eauto|].
  intros Hs. apply atomic_step_frame in Hs as [[-> Hn]|(e & -> & Hn)]; [left|right; eauto].
  split; [done|]. rewrite Hn. unfold next_outcome. by destruct (outcomes w).
Qed.

Lemma ancestors_shorter p q : q ∈ ancestors p -> List.length q.2 <= List.length p.2.
Proof.
  unfold ancestors. intros (n & -> & Hn)%list_elem_of_fmap. cbn [snd]. rewrite length_take. lia.
Qed.

Lemma removelast_length {A} (l : list A) : l <> [] -> S (List.length (removelast l)) = List.length l.
Proof.
  induction l as [|x l IH]; [done|]. intros _. destruct l as [|y l]; [done|].
  cbn [removelast List.length] in *. by rewrite <- IH.
Qed.

Lemma parse_Dir s : parse_path (Dir s) = ((parse_path s).1, removelast (parse_path s).2).
Proof.
  unfold Dir. apply path_text_parse. pose proof (parse_path_cleaned s) as Hc.
  destruct (parse_path s) as [r ps]. cbn [fst snd]. destruct ps as [|q ps _] using rev_ind; [exact Hc|].
  rewrite removelast_last. by apply cleaned_init in Hc.
Qed.

(** Making the directory of a file leaves the file alone. *)
Lemma MkdirAll_Dir_keeps path w r w' :
  path <> EmptyString -> (parse_path path).2 <> [] -> MkdirAll (Dir path) w = (r, w') ->
  node_at w' path = node_at w path.
Proof.
  intros Hp Hne Hm. unfold node_at. rewrite !decide_False by done.
  apply MkdirAll_run in Hm as [[_ ->]|(e & _ & ->)]; [|done].
  apply make_dirs_other. rewrite parse_Dir. intros Ha%ancestors_shorter. cbn [snd] in Ha.
  apply removelast_length in Hne. lia.
Qed.
End directories.

Lemma WriteFile_ok {D} path (d : D) w w' :
  WriteFile path d w = (Ok tt, w') -> nodes w' = <[parse_path path := File d]> (nodes w) /\ path <> EmptyString.
Proof.
  unfold WriteFile, bind, gets, throw_if, throw, ret. destruct (parent_missing w path); [done|].
  destruct (not_writable w path) eqn:Hn; [done|]. unfold not_writable in Hn. apply orb_false_iff in Hn as [Hn _].
  apply eqs_false in Hn. unfold next_outcome. destruct (outcomes w) as [|[|e|e] os]; try done;
    intros [= <-]; done.
Qed.

Lemma WriteFile_frame {D} path (d : D) w r w' q :
  WriteFile path d w = (r, w') -> q <> parse_path path -> nodes w' !! q = nodes w !! q.
Proof.
  unfold WriteFile, bind, gets, throw_if, throw, ret. intros Hw Hq.
  destruct (parent_missing w path); [by injection Hw as <- <-|].
  destruct (not_writable w path); [by injection Hw as <- <-|]. unfold next_outcome in Hw.
  destruct (outcomes w) as [|[|e|e] os]; injection Hw as <- <-; cbn; by rewrite ?lookup_insert_ne.
Qed.

Lemma MkdirAll_keeps {D} path (w : FS D) r w' q n :
  MkdirAll path w = (r, w') -> nodes w !! q = Some n -> nodes w' !! q = Some n.
Proof.
  intros Hm Hq. apply MkdirAll_run in Hm as [[_ ->]|(e & _ & ->)]; [by apply make_dirs_keeps|done].
Qed.
