(* ===== verification/Flags.v ===== *)
(** Command-line flags: the standard library's [flag] package, and the numbers
    it reads (strconv.ParseUint with base 0, strconv.ParseBool). Standard
    library code has no source of its own here: the definitions are what the
    modelled commands use of it. *)

From S2P Require Import Prelude.
From S2P Require Import GoStrings.
From S2P Require Import Errors.
From Stdlib Require Import Ascii String Decimal DecimalString DecimalFacts DecimalN.
From stdpp Require Import strings.

(** ** Numbers *)

Inductive num_error := SyntaxError | RangeError.

Definition underscore : ascii := ascii_of_N 95.

(** The digit a byte stands for, in any base up to 36. *)
Definition digit_of (c : ascii) : option N :=
  if byte_in 48 57 c then Some (N_of_ascii c - 48)%N
  else let c := lower_byte c in
       if byte_in 97 122 c then Some (N_of_ascii c - 97 + 10)%N else None.

Fixpoint scan_digits (base : N) (s : string) (n : N) : num_error + N :=
  match s with
  | EmptyString => inr n
  | String c s =>
      if bool_decide (c = underscore) then scan_digits base s n
      else match digit_of c with
           | None => inl SyntaxError
           | Some d => if (base <=? d)%N then inl SyntaxError
                       else if (max_uint64 <? n * base + d)%N then inl RangeError
                       else scan_digits base s (n * base + d)
           end
  end.

(** The prefix of a number and what follows it. *)
Definition number_base (s : string) : N * string :=
  match s with
  | String "0" (String p (String c rest)) =>
      let l := lower_byte p in
      if bool_decide (l = "b"%char) then (2%N, String c rest)
      else if bool_decide (l = "o"%char) then (8%N, String c rest)
      else if bool_decide (l = "x"%char) then (16%N, String c rest)
      else (8%N, String p (String c rest))
  | String "0" rest => (8%N, rest)
  | _ => (10%N, s)
  end.

(** What the last byte was, while the places of underscores are checked. *)
Inductive place := AtStart | AtDigit | AtUnderscore | AtOther.

Fixpoint underscores_from (hex : bool) (p : place) (s : string) : bool :=
  match s with
  | EmptyString => match p with AtUnderscore => false | _ => true end
  | String c s =>
      if is_digit c || (hex && byte_in 97 102 (lower_byte c)) then underscores_from hex AtDigit s
      else if bool_decide (c = underscore) then
        match p with AtDigit => underscores_from hex AtUnderscore s | _ => false end
      else match p with AtUnderscore => false | _ => underscores_from hex AtOther s end
  end.

Definition unsigned_text (s : string) : string :=
  match s with String "-" s | String "+" s => s | _ => s end.

Definition underscoreOK (s : string) : bool :=
  let s := unsigned_text s in
  match s with
  | String "0" (String p rest) =>
      let l := lower_byte p in
      if bool_decide (l ∈ ["b"; "o"; "x"]%char) then underscores_from (bool_decide (l = "x"%char)) AtDigit rest
      else underscores_from false AtStart s
  | _ => underscores_from false AtStart s
  end.

Definition ParseUint (s : string) : num_error + N :=
  if eqs s EmptyString then inl SyntaxError
  else let '(base, digits) := number_base s in
       match scan_digits base digits 0 with
       | inl e => inl e
       | inr n => if negb (lacks underscore digits) && negb (underscoreOK s) then inl SyntaxError else inr n
       end.

Definition ParseBool (s : string) : option bool :=
  if bool_decide (s ∈ ["1"; "t"; "T"; "TRUE"; "true"; "True"]%string) then Some true
  else if bool_decide (s ∈ ["0"; "f"; "F"; "FALSE"; "false"; "False"]%string) then Some false
  else None.

(** ** Flag sets *)

Inductive flag_value := FString (s : string) | FBool (b : bool) | FUint (n : N).

(** The declared flags, each with its present value. *)
Abbreviation FlagSet := (gmap string flag_value).

Definition num_error_text (e : num_error) : string :=
  match e with SyntaxError => "parse error" | RangeError => "value out of range" end.

Definition set_value (old : flag_value) (text : string) : string + flag_value :=
  match old with
  | FString _ => inr (FString text)
  | FBool _ => match ParseBool text with Some b => inr (FBool b) | None => inl "parse error"%string end
  | FUint _ => match ParseUint text with inr n => inr (FUint n) | inl e => inl (num_error_text e) end
  end.

Definition minus : ascii := "-"%char.
Definition equals : ascii := "="%char.

(** The name of an argument that is a flag: [None] ends the flags. *)
Inductive arg_shape := NotAFlag | Terminator | BadSyntax | FlagName (name : string).

Definition shape_of (s : string) : arg_shape :=
  match s with
  | String a (String b rest) =>
      if bool_decide (a = minus) then
        let name := if bool_decide (b = minus) then rest else String b rest in
        if bool_decide (b = minus) && eqs rest EmptyString then Terminator
        else match name with
             | EmptyString => BadSyntax
             | String c _ => if bool_decide (c = minus \/ c = equals) then BadSyntax else FlagName name
             end
      else NotAFlag
  | _ => NotAFlag
  end.

Definition help_wanted (name : string) : bool := bool_decide (name = "help"%string \/ name = "h"%string).

Definition bad_value (kind value name why : string) : error :=
  Errorf ("invalid " +:+ kind +:+ " " +:+ Quote value +:+ " for " +:+ name +:+ ": " +:+ why).

(** [FlagSet.Parse]: the flags with their values, and the arguments after them. *)
Fixpoint Parse (fs : FlagSet) (args : list string) : result (FlagSet * list string) :=
  match args with
  | [] => Ok (fs, [])
  | s :: rest =>
      match shape_of s with
      | NotAFlag => Ok (fs, args)
      | Terminator => Ok (fs, rest)
      | BadSyntax => Err (Errorf ("bad flag syntax: " +:+ s))
      | FlagName text =>
          let '(name, value, hasValue) := Cut text equals in
          match fs !! name with
          | None => if help_wanted name then Err (Errorf "flag: help requested")
                    else Err (Errorf ("flag provided but not defined: -" +:+ name))
          | Some (FBool old) =>
              match set_value (FBool old) (if hasValue then value else "true") with
              | inr v => Parse (<[name := v]> fs) rest
              | inl why => Err (bad_value "boolean value" value ("-" +:+ name) why)
              end
          | Some old =>
              if hasValue then
                match set_value old value with
                | inr v => Parse (<[name := v]> fs) rest
                | inl why => Err (bad_value "value" value ("flag -" +:+ name) why)
                end
              else
                match rest with
                | [] => Err (Errorf ("flag needs an argument: -" +:+ name))
                | value :: rest =>
                    match set_value old value with
                    | inr v => Parse (<[name := v]> fs) rest
                    | inl why => Err (bad_value "value" value ("flag -" +:+ name) why)
                    end
                end
          end
      end
  end.

(** The values a command reads. *)
Definition str (fs : FlagSet) (name : string) : string :=
  match fs !! name with Some (FString s) => s | _ => EmptyString end.
Definition num (fs : FlagSet) (name : string) : N :=
  match fs !! name with Some (FUint n) => n | _ => 0%N end.
Definition flag_on (fs : FlagSet) (name : string) : bool :=
  match fs !! name with Some (FBool b) => b | _ => false end.

(** The flags a command declares. *)
Definition declare (strings : list string) (others : list (string * flag_value)) : FlagSet :=
  list_to_map (map (fun n => (n, FString EmptyString)) strings ++ others).

(** ** Numbers that were printed are read back *)

Lemma of_uint_acc_le d p : (p <= Pos.of_uint_acc d p)%positive.
Proof. revert p. induction d; intros p; cbn [Pos.of_uint_acc]; try (etrans; [|apply IHd]); lia. Qed.

Lemma scan_step c s n d :
  digit_of c = Some d -> c <> underscore -> (d < 10)%N -> (n * 10 + d <= max_uint64)%N ->
  scan_digits 10 (String c s) n = scan_digits 10 s (n * 10 + d).
Proof.
  intros Hd Hc Hlt Hle. cbn [scan_digits]. rewrite bool_decide_eq_false_2, Hd by done.
  by rewrite (proj2 (N.leb_gt _ _)), (proj2 (N.ltb_ge _ _)).
Qed.

Lemma scan_decimal_pos d p :
  (N.pos (Pos.of_uint_acc d p) <= max_uint64)%N ->
  scan_digits 10 (NilEmpty.string_of_uint d) (N.pos p) = inr (N.pos (Pos.of_uint_acc d p)).
Proof.
  revert p. induction d; intros p Hle; [reflexivity|..]; cbn [NilEmpty.string_of_uint Pos.of_uint_acc] in *;
    (match type of Hle with context [Pos.of_uint_acc ?d ?q] =>
       pose proof (of_uint_acc_le d q); rewrite <- (IHd q) by exact Hle end);
    (etrans; [eapply scan_step; [vm_compute; reflexivity|discriminate|lia|lia]|f_equal; lia]).
Qed.

Lemma scan_decimal d :
  (N.of_uint d <= max_uint64)%N -> scan_digits 10 (NilEmpty.string_of_uint d) 0 = inr (N.of_uint d).
Proof.
  unfold N.of_uint. induction d; intros Hle; cbn [Pos.of_uint] in *;
    [reflexivity|by apply IHd|..]; rewrite <- (scan_decimal_pos _ _ Hle); reflexivity.
Qed.

Lemma digits_no_underscore s : all_digits s = true -> lacks underscore s = true.
Proof. intros Hs. by apply all_digits_lacks. Qed.

Lemma to_uint_head n d : N.to_uint n = D0 d -> n = 0%N.
Proof.
  intros Hd. pose proof (DecimalN.Unsigned.to_of (N.to_uint n)) as Hn. rewrite DecimalN.Unsigned.of_to, Hd in Hn.
  unfold unorm in Hn. cbn [nzhead] in Hn. destruct (nzhead d) eqn:Hz; try discriminate Hn.
  - injection Hn as ->. rewrite <- (DecimalN.Unsigned.of_to n), Hd. reflexivity.
  - exfalso. by apply (nzhead_nonzero _ _ Hz).
Qed.

(** A number in base ten, as [strconv.FormatUint] prints it. *)
Lemma ParseUint_format n : (n <= max_uint64)%N -> ParseUint (format_uint n) = inr n.
Proof.
  intros Hn. unfold ParseUint. rewrite (proj2 (eqs_false _ _) (format_uint_nonempty n)).
  assert (Hu : lacks underscore (format_uint n) = true) by apply digits_no_underscore, format_uint_digits.
  rewrite format_uint_NilEmpty in *.
  assert (Hb : n = 0%N \/ number_base (NilEmpty.string_of_uint (N.to_uint n)) = (10%N, NilEmpty.string_of_uint (N.to_uint n))).
  { destruct (N.to_uint n) eqn:Hd; [by right| |by right..]. left. by eapply to_uint_head. }
  destruct Hb as [->|Hb]; [reflexivity|]. rewrite Hb, scan_decimal by by rewrite DecimalN.Unsigned.of_to.
  by rewrite DecimalN.Unsigned.of_to, Hu.
Qed.

(** A number that is too large is refused. *)
Lemma scan_over_pos d p :
  (max_uint64 < N.pos (Pos.of_uint_acc d p))%N -> (N.pos p <= max_uint64)%N ->
  scan_digits 10 (NilEmpty.string_of_uint d) (N.pos p) = inl RangeError.
Proof.
  revert p. induction d; intros p Hlt Hle; cbn [NilEmpty.string_of_uint Pos.of_uint_acc] in *; [lia|..];
    (match type of Hlt with context [Pos.of_uint_acc ?d ?q] => specialize (IHd q Hlt) end;
     match goal with |- scan_digits 10 (String ?c _) _ = _ =>
       let k := eval vm_compute in (default 0%N (digit_of c)) in
       cbn [scan_digits]; rewrite bool_decide_eq_false_2 by discriminate; change (digit_of c) with (Some k); cbv iota beta;
       change (10 <=? k)%N with false; cbv iota;
       destruct (N.ltb_spec max_uint64 (N.pos p * 10 + k)); [done|];
       rewrite <- IHd by lia; f_equal; lia end).
Qed.

Lemma scan_over d : (max_uint64 < N.of_uint d)%N -> scan_digits 10 (NilEmpty.string_of_uint d) 0 = inl RangeError.
Proof.
  unfold N.of_uint. induction d; intros Hlt; cbn [Pos.of_uint] in *; [by vm_compute in Hlt|by apply IHd|..];
    rewrite <- (scan_over_pos _ _ Hlt) by (vm_compute; discriminate); reflexivity.
Qed.

Lemma number_base_format n : n <> 0%N ->
  number_base (NilEmpty.string_of_uint (N.to_uint n)) = (10%N, NilEmpty.string_of_uint (N.to_uint n)).
Proof. intros Hn. destruct (N.to_uint n) eqn:Hd; try done. by apply to_uint_head in Hd. Qed.

Lemma ParseUint_over n : (max_uint64 < n)%N -> ParseUint (format_uint n) = inl RangeError.
Proof.
  intros Hn. unfold ParseUint. rewrite (proj2 (eqs_false _ _) (format_uint_nonempty n)). rewrite format_uint_NilEmpty.
  rewrite number_base_format by (unfold max_uint64 in Hn; lia).
  by rewrite scan_over by by rewrite DecimalN.Unsigned.of_to.
Qed.

(** ** Flags that were written by name are read back *)

(** A name that can be written as [--name value]. *)
Definition flag_name_ok (name : string) : Prop :=
  match name with
  | EmptyString => False
  | String c _ => c <> minus /\ lacks equals name = true
  end.

Lemma Cut_lacks s c : lacks c s = true -> Cut s c = (s, EmptyString, false).
Proof.
  induction s as [|a s IH]; [done|]. unfold lacks in *. cbn [list_ascii_of_string forallb Cut].
  rewrite andb_true_iff, negb_true_iff. intros [Ha Hs]. rewrite Ha.
  by rewrite (IH Hs).
Qed.

Lemma shape_of_name name : flag_name_ok name -> shape_of ("--" +:+ name) = FlagName name.
Proof.
  destruct name as [|c rest]; [done|]. intros [Hc Hl].
  change ("--" +:+ String c rest)%string with (String minus (String minus (String c rest))). cbn [shape_of].
  rewrite !bool_decide_eq_true_2 by done. cbn [andb eqs]. rewrite (proj2 (eqs_false _ _)) by done.
  rewrite bool_decide_eq_false_2; [done|]. intros [->| ->]; [done|].
  unfold lacks in Hl. cbn [list_ascii_of_string forallb] in Hl. by rewrite Ascii.eqb_refl in Hl.
Qed.

(** Flags with the texts they are set to, and the values those stand for. *)
Definition by_name (l : list (string * string * flag_value)) : list string :=
  concat (map (fun p => ["--" +:+ p.1.1; p.1.2]) l).
Definition assign (fs : FlagSet) (p : string * string * flag_value) : FlagSet := <[p.1.1 := p.2]> fs.

Definition settable (fs : FlagSet) (l : list (string * string * flag_value)) : Prop :=
  Forall (fun p => flag_name_ok p.1.1 /\ exists old, fs !! p.1.1 = Some old /\ (forall b, old <> FBool b) /\
    set_value old p.1.2 = inr p.2) l.

Lemma set_value_kind old text v : set_value old text = inr v ->
  match old, v with FString _, FString _ | FBool _, FBool _ | FUint _, FUint _ => True | _, _ => False end.
Proof.
  destruct old; cbn [set_value]; [by intros [= <-]|destruct (ParseBool text)|destruct (ParseUint text)]; intros He;
    try discriminate He; by injection He as <-.
Qed.

(** What a flag can be set to depends on its kind alone. *)
Lemma set_value_again old text v text' v' : set_value old text = inr v -> set_value old text' = inr v' ->
  set_value v text' = inr v'.
Proof.
  intros Hv Hv'. apply set_value_kind in Hv. by destruct old, v.
Qed.

Lemma settable_insert fs l name old text v :
  fs !! name = Some old -> set_value old text = inr v -> (forall b, old <> FBool b) ->
  settable fs l -> settable (<[name := v]> fs) l.
Proof.
  intros Hold Hv Hbool Hl. eapply Forall_impl; [exact Hl|]. intros [[name' text'] v'] (Hn & old' & Ho & Hb & Hs).
  cbn [fst snd] in *. split; [done|]. destruct (decide (name' = name)) as [->|Hne].
  - rewrite Hold in Ho. injection Ho as <-. exists v. rewrite lookup_insert_eq. split_and!; [done| |by eapply set_value_again].
    intros b ->. apply set_value_kind in Hv. destruct old; try done. by apply (Hbool b0).
  - exists old'. by rewrite lookup_insert_ne.
Qed.

Lemma Parse_by_name fs l rest :
  settable fs l -> Parse fs (by_name l ++ rest) = Parse (foldl assign fs l) rest.
Proof.
  revert fs. induction l as [|[[name text] v] l IH]; intros fs Hl; cbn [foldl by_name map concat app]; [done|].
  apply Forall_cons in Hl as [(Hname & old & Hold & Hbool & Hv) Hl]. cbn [fst snd] in *.
  cbn [Parse]. rewrite shape_of_name by done.
  rewrite Cut_lacks by (by destruct name as [|c n]; [|destruct Hname]). rewrite Hold.
  unfold assign at 2. cbn [fst snd].
  destruct old as [s|b|n]; [|by destruct (Hbool b)|]; rewrite Hv; apply IH; by eapply settable_insert.
Qed.

(** A value its flag cannot take. *)
Lemma Parse_refused fs name text old why rest :
  flag_name_ok name -> fs !! name = Some old -> (forall b, old <> FBool b) -> set_value old text = inl why ->
  exists e, Parse fs (("--" +:+ name) :: text :: rest) = Err e.
Proof.
  intros Hname Hold Hbool Hv. cbn [Parse]. rewrite shape_of_name by done.
  rewrite Cut_lacks by (by destruct name as [|c n]; [|destruct Hname]). rewrite Hold.
  destruct old as [s|b|n]; [|by destruct (Hbool b)|]; rewrite Hv; by eexists.
Qed.

(** ** A number is a [uint64] *)

Definition flag_bounded (v : flag_value) : bool := match v with FUint n => (n <=? max_uint64)%N | _ => true end.
Definition flags_bounded (fs : FlagSet) : Prop := map_Forall (fun _ v => flag_bounded v = true) fs.

Lemma scan_bounded base s n k : scan_digits base s n = inr k -> (n <= max_uint64)%N -> (k <= max_uint64)%N.
Proof.
  revert n. induction s as [|c s IH]; intros n; cbn [scan_digits]; [by intros [= ->]|].
  case_bool_decide; [apply IH|]. destruct (digit_of c) as [d|]; [|done]. destruct (base <=? d)%N; [done|].
  destruct (N.ltb_spec max_uint64 (n * base + d)); [done|]. intros Hs _. by apply (IH _ Hs).
Qed.

Lemma set_value_bounded old text v : set_value old text = inr v -> flag_bounded v = true.
Proof.
  destruct old; cbn [set_value]; [by intros [= <-]|destruct (ParseBool text) as [b'|]; [by intros [= <-]|done]|].
  destruct (ParseUint text) as [e|k] eqn:Hk; [done|]. intros [= <-]. cbn. apply N.leb_le. unfold ParseUint in Hk.
  destruct (eqs text EmptyString); [done|]. destruct (number_base text) as [base digits].
  destruct (scan_digits base digits 0) as [e|j] eqn:Hs; [done|]. destruct (_ && _); [done|]. injection Hk as <-.
  by apply (scan_bounded _ _ _ _ Hs).
Qed.

Lemma Parse_bounded fs args fs' rest : Parse fs args = Ok (fs', rest) -> flags_bounded fs -> flags_bounded fs'.
Proof.
  assert (Hind : forall n args fs, length args <= n -> Parse fs args = Ok (fs', rest) -> flags_bounded fs -> flags_bounded fs');
    [|by apply (Hind (length args))].
  clear fs args. induction n as [|n IH]; intros [|s args] fs Hn Hp Hfs; cbn [length] in Hn; try lia;
    cbn [Parse] in Hp; [by simplify_eq..|].
  assert (Hins : forall name old text v, set_value old text = inr v -> flags_bounded (<[name := v]> fs))
    by (intros name old text v Hv; apply map_Forall_insert_2; [by eapply set_value_bounded|done]).
  destruct (shape_of s); [by simplify_eq..|].
  destruct (Cut name equals) as [[name' value] hasValue]. destruct (fs !! name') as [old|]; [|by destruct (help_wanted name')].
  destruct old as [old|old|old].
  1,3: destruct hasValue; [|destruct args as [|text args]; [done|]].
  all: match type of Hp with context [set_value ?o ?t] => destruct (set_value o t) as [why|v] eqn:Hv end; [done|].
  all: refine (IH _ _ _ Hp (Hins _ _ _ _ Hv)); cbn [length] in *; lia.
Qed.

Lemma num_bounded fs name : flags_bounded fs -> (num fs name <= max_uint64)%N.
Proof.
  intros Hfs. unfold num. destruct (fs !! name) as [[s|b|n]|] eqn:Hl; try done. apply N.leb_le. exact (Hfs name _ Hl).
Qed.

(** ** What the parser does with odd arguments *)

Definition demo_flags : FlagSet := declare ["home"; "amount"]%string [("deadline"%string, FUint 0); ("enabled"%string, FBool true)].

(** Flags end at the first argument that is none: the rest is not looked at. *)
Example flags_after_argument :
  Parse demo_flags ["--home"; "/srv"; "extra"; "--amount"; "5"]%string =
    Ok (<["home"%string := FString "/srv"]> demo_flags, ["extra"; "--amount"; "5"]%string).
Proof. vm_compute. reflexivity. Qed.

(** [--enabled false] sets the flag and ends the flags. *)
Example spaced_bool :
  match Parse demo_flags ["--enabled"; "false"; "--home"; "/srv"]%string with
  | Ok (fs, rest) => flag_on fs "enabled" = true /\ str fs "home" = EmptyString /\ rest = ["false"; "--home"; "/srv"]%string
  | Err _ => False
  end.
Proof. vm_compute. by split_and!. Qed.

(** Numbers may be octal. *)
Example octal_deadline :
  match Parse demo_flags ["-deadline=0900"]%string, Parse demo_flags ["-deadline"; "0100"]%string with
  | Err _, Ok (fs, _) => num fs "deadline" = 64%N
  | _, _ => False
  end.
Proof. vm_compute. reflexivity. Qed.
