(* ===== verification/JSON.v ===== *)
(** JSON documents as the processes exchange them: the standard library's
    [encoding/json], and net/url's query strings. Standard library code has no
    source of its own here: the definitions are what the modelled files use of
    it.

    A document is a tree; the text of a tree is not modelled, except that a text
    may be no document at all. Numbers are kept as their texts. Strings are
    kept as they are: the encoder would replace bytes that are no UTF-8. A field
    that occurs more than once in an object is read from its last occurrence. *)

From S2P Require Import Prelude.
From S2P Require Import GoStrings.
From S2P Require Import Errors.
From Stdlib Require Import Ascii String.
From stdpp Require Import strings.

Unset Elimination Schemes.
Inductive json :=
| JNull
| JBool (b : bool)
| JNumber (text : string)
| JString (s : string)
| JArray (l : list json)
| JObject (members : list (string * json)).
Set Elimination Schemes.

Definition is_null (j : json) : bool := match j with JNull => true | _ => false end.

(** The value [omitempty] leaves out. *)
Definition json_zero (j : json) : bool :=
  match j with
  | JNull => true
  | JBool b => negb b
  | JNumber t => eqs t "0"
  | JString s => eqs s EmptyString
  | JArray l => match l with [] => true | _ => false end
  | JObject _ => false
  end.

(** ** Encoding and decoding, by type *)

Class ToJSON (A : Type) := to_json : A -> json.
Class FromJSON (A : Type) := { zero_value : A; from_json : json -> result A }.

(** What is encoded is decoded. [wire_ok] says which values a field can hold. *)
Class Wire (A : Type) `{ToJSON A} `{FromJSON A} := {
  wire_ok : A -> Prop;
  wire_round x : wire_ok x -> from_json (to_json x) = Ok x;
  wire_zero x : json_zero (to_json x) = true -> x = zero_value;
  wire_not_null x : is_null (to_json x) = false
}.

Definition type_error : error := Errorf "json: cannot unmarshal the value into the field".

#[global] Instance string_to_json : ToJSON string := JString.
#[global] Instance string_from_json : FromJSON string := {|
  zero_value := EmptyString;
  from_json j := match j with JString s => Ok s | JNull => Ok EmptyString | _ => Err type_error end
|}.

#[global] Instance bool_to_json : ToJSON bool := JBool.
#[global] Instance bool_from_json : FromJSON bool := {|
  zero_value := false;
  from_json j := match j with JBool b => Ok b | JNull => Ok false | _ => Err type_error end
|}.

(** [uint64]. *)
#[global] Instance uint64_to_json : ToJSON N := fun n => JNumber (format_uint n).
#[global] Instance uint64_from_json : FromJSON N := {|
  zero_value := 0%N;
  from_json j := match j with
                 | JNumber t => match ParseUint64 t with Some n => Ok n | None => Err type_error end
                 | JNull => Ok 0%N
                 | _ => Err type_error
                 end
|}.

(** [int], of a count. *)
#[global] Instance int_to_json : ToJSON nat := fun n => JNumber (format_uint (N.of_nat n)).

Fixpoint traverse {A B} (f : A -> result B) (l : list A) : result (list B) :=
  match l with
  | [] => Ok []
  | x :: l => let? y := f x in let? ys := traverse f l in Ok (y :: ys)
  end.

#[global] Instance list_to_json {A} `{ToJSON A} : ToJSON (list A) := fun l => JArray (map to_json l).
#[global] Instance list_from_json {A} `{FromJSON A} : FromJSON (list A) := {|
  zero_value := [];
  from_json j := match j with
                 | JArray l => traverse from_json l
                 | JNull => Ok []
                 | _ => Err type_error
                 end
|}.

(** A [map[string]string], its keys in their order. *)
#[global] Instance map_to_json : ToJSON (gmap string string) := fun m =>
  JObject (map (fun k => (k, JString (default EmptyString (m !! k)))) (SortStrings (map fst (map_to_list m)))).

Definition put_text (m : gmap string string) (p : string * json) : result (gmap string string) :=
  let? text := from_json p.2 in Ok (<[p.1 := text]> m).
Fixpoint put_texts (m : gmap string string) (l : list (string * json)) : result (gmap string string) :=
  match l with
  | [] => Ok m
  | p :: l => let? m := put_text m p in put_texts m l
  end.
#[global] Instance map_from_json : FromJSON (gmap string string) := {|
  zero_value := ∅;
  from_json j := match j with JObject o => put_texts ∅ o | JNull => Ok ∅ | _ => Err type_error end
|}.

#[global] Instance int_from_json : FromJSON nat := {|
  zero_value := 0;
  from_json j := match j with
                 | JNumber t => match SetString10 t with
                                | Some z => if (0 <=? z)%Z then Ok (Z.to_nat z) else Err type_error
                                | None => Err type_error
                                end
                 | JNull => Ok 0
                 | _ => Err type_error
                 end
|}.

(** *** Structs *)

Fixpoint lookup_field (o : list (string * json)) (name : string) : option json :=
  match o with
  | [] => None
  | (k, v) :: o =>
      match lookup_field o name with
      | Some x => Some x
      | None => if EqualFold k name && negb (is_null v) then Some v else None
      end
  end.

Definition members (j : json) : result (list (string * json)) :=
  match j with JObject o => Ok o | JNull => Ok [] | _ => Err type_error end.

Definition field {A} `{FromJSON A} (o : list (string * json)) (name : string) : result A :=
  match lookup_field o name with Some j => from_json j | None => Ok zero_value end.

Definition member {A} `{ToJSON A} (name : string) (x : A) : list (string * json) := [(name, to_json x)].
Definition member_omitempty {A} `{ToJSON A} (name : string) (x : A) : list (string * json) :=
  if json_zero (to_json x) then [] else [(name, to_json x)].

(** ** Round trips *)

#[global] Instance string_wire : Wire string.
Proof. exists (fun _ => True); [done| |done]. intros x Hx. by apply eqs_true in Hx. Defined.

#[global] Instance bool_wire : Wire bool.
Proof. exists (fun _ => True); [done| |done]. by intros []. Defined.

Lemma format_uint_zero n : format_uint n = "0"%string -> n = 0%N.
Proof. intros Hn. apply (f_equal parse_digits) in Hn. rewrite parse_format_uint in Hn. by injection Hn. Qed.

#[global] Instance uint64_wire : Wire N.
Proof.
  exists u64_ok.
  - intros n Hn. unfold to_json, uint64_to_json. cbn. by rewrite ParseUint64_format.
  - intros n Hn. apply eqs_true in Hn. by apply format_uint_zero.
  - done.
Defined.

#[global] Instance int_wire : Wire nat.
Proof.
  exists (fun _ => True).
  - intros n _. unfold to_json, int_to_json. cbn. rewrite SetString10_unsigned, (proj2 (Z.leb_le _ _)) by lia.
    f_equal. lia.
  - intros n Hn. apply eqs_true, format_uint_zero in Hn. cbn. lia.
  - done.
Defined.

Lemma traverse_map {A B} (f : A -> result B) (g : B -> A) l :
  Forall (fun x => f (g x) = Ok x) l -> traverse f (map g l) = Ok l.
Proof. induction 1 as [|x l Hx _ IH]; [done|]. cbn [map traverse]. by rewrite Hx, IH. Qed.

#[global] Instance list_wire {A} `{Wire A} : Wire (list A).
Proof.
  exists (Forall wire_ok).
  - intros l Hl. cbn. apply traverse_map. eapply Forall_impl; [exact Hl|]. intros x. apply wire_round.
  - by intros [|].
  - done.
Defined.

Lemma lookup_field_app o1 o2 name :
  lookup_field (o1 ++ o2) name =
    match lookup_field o2 name with Some x => Some x | None => lookup_field o1 name end.
Proof.
  induction o1 as [|[k v] o1 IH]; cbn [app lookup_field]; [by destruct (lookup_field o2 name)|].
  rewrite IH. by destruct (lookup_field o2 name).
Qed.

Section fields.
Context {A B} `{Wire A} `{Wire B}.

(** A field is read from its own member, and the others are passed over. *)
Lemma field_here name (x : A) o :
  lookup_field o name = None -> wire_ok x -> field (member name x ++ o) name = Ok x.
Proof.
  intros Ho Hx. unfold field, member. cbn [app lookup_field]. rewrite Ho.
  unfold EqualFold. rewrite bool_decide_eq_true_2, wire_not_null by done. cbn [andb negb]. by apply wire_round.
Qed.

Lemma field_here_omitempty name (x : A) o :
  lookup_field o name = None -> wire_ok x -> field (member_omitempty name x ++ o) name = Ok x.
Proof.
  intros Ho Hx. unfold member_omitempty. destruct (json_zero (to_json x)) eqn:Hz; [|by apply field_here].
  unfold field. cbn [app]. rewrite Ho. by rewrite (wire_zero x Hz).
Qed.

Lemma lookup_other name' name (y : B) o :
  EqualFold name' name = false -> lookup_field (member name' y ++ o) name = lookup_field o name.
Proof. intros Hn. unfold member. cbn [app lookup_field]. rewrite Hn. by destruct (lookup_field o name). Qed.

Lemma lookup_other_omitempty name' name (y : B) o :
  EqualFold name' name = false -> lookup_field (member_omitempty name' y ++ o) name = lookup_field o name.
Proof. intros Hn. unfold member_omitempty. destruct (json_zero _); [done|]. by apply lookup_other. Qed.

Lemma field_other name' name (y : B) o :
  EqualFold name' name = false -> field (A:=A) (member name' y ++ o) name = field o name.
Proof. intros Hn. unfold field. by rewrite lookup_other. Qed.

Lemma field_other_omitempty name' name (y : B) o :
  EqualFold name' name = false -> field (A:=A) (member_omitempty name' y ++ o) name = field o name.
Proof. intros Hn. unfold field. by rewrite lookup_other_omitempty. Qed.
End fields.

(** Reads every field of a document that was just written. *)
Ltac no_such_field :=
  repeat first [rewrite lookup_other by (vm_compute; reflexivity)
               |rewrite lookup_other_omitempty by (vm_compute; reflexivity)]; reflexivity.
Ltac read_field :=
  repeat first [rewrite field_other by (vm_compute; reflexivity)
               |rewrite field_other_omitempty by (vm_compute; reflexivity)];
  first [rewrite field_here by first [no_such_field|done]
        |rewrite field_here_omitempty by first [no_such_field|done]]; cbn [res_bind].

(** ** Query strings *)

Definition hex_digit (c : ascii) : option N :=
  if is_digit c then Some (N_of_ascii c - 48)%N
  else let c := lower_byte c in if byte_in 97 102 c then Some (N_of_ascii c - 87)%N else None.

(** [url.QueryUnescape]. *)
Fixpoint QueryUnescape (s : string) : option string :=
  match s with
  | EmptyString => Some EmptyString
  | String "%" s =>
      match s with
      | String a (String b s) =>
          match hex_digit a, hex_digit b with
          | Some x, Some y => option_map (String (ascii_of_N (16 * x + y))) (QueryUnescape s)
          | _, _ => None
          end
      | _ => None
      end
  | String "+" s => option_map (String " ") (QueryUnescape s)
  | String c s => option_map (String c) (QueryUnescape s)
  end.

(** [r.URL.Query().Get(name)]: the first pair of that name that can be read. *)
Definition query_pair (text : string) : option (string * string) :=
  let '(k, v, _) := Cut text "=" in
  if Contains text ";" then None
  else match QueryUnescape k, QueryUnescape v with Some k, Some v => Some (k, v) | _, _ => None end.

Definition QueryGet (rawQuery name : string) : string :=
  match filter (fun p => p.1 = name) (omap query_pair (filter (fun t => t <> EmptyString) (Split rawQuery "&"))) with
  | p :: _ => p.2
  | [] => EmptyString
  end.

(** ** What is read from odd documents *)

Example folded_field : field [("Asset_ID", JString "eth")]%string "asset_id" = Ok "eth"%string.
Proof. vm_compute. reflexivity. Qed.
Example null_is_no_value : field [("nonce", JNumber "7"); ("nonce", JNull)]%string "nonce" = Ok 7%N.
Proof. vm_compute. reflexivity. Qed.
Example query_unescaped : QueryGet "a=1&sourceTxHash=0x%41b&sourceTxHash=2" "sourceTxHash" = "0xAb"%string.
Proof. vm_compute. reflexivity. Qed.
