(* ===== verification/PrefixStore.v ===== *)
(** [internal/sdkstore]: the prefix-keyed record store every keeper persists
    into, over a Cosmos commit multi-store.

    The working set and the last committed version are finite maps from the
    byte keys of the KV store. [encoding/json] is represented by keeping the
    marshalled record itself: [Marshalled v] is the document [json.Marshal]
    produces for [v] and [json.Unmarshal] recovers. The only raw value the
    code writes is the initialisation marker. *)

From S2P Require Import Prelude.
From S2P Require Import GoStrings.
From S2P Require Import Errors.
From stdpp Require Import strings.

Inductive stored (V : Type) :=
| Marshalled (v : V)
| RawBytes (b : string).
Arguments Marshalled {V} v.
Arguments RawBytes {V} b.

Record JSONPrefixStore (V : Type) := mk_store {
  kvs : gmap string (stored V);        (* GetKVStore(key), uncommitted writes included *)
  committed : gmap string (stored V)   (* the last multiStore.Commit() *)
}.
Arguments mk_store {V} kvs committed.
Arguments kvs {V} j.
Arguments committed {V} j.

Definition empty_store {V} : JSONPrefixStore V := mk_store ∅ ∅.

Definition prefixStoreMetaPrefix : string := "_meta".
Definition prefixStoreInitializedKey : string := "initialized".

Definition prefixBytes (prefix : string) : string :=
  let trimmed := TrimSpace prefix in
  if decide (trimmed = EmptyString) then EmptyString else trimmed +:+ "/".

Definition composePrefixedKey (prefix id : string) : string :=
  prefixBytes prefix +:+ TrimSpace id.

Definition key_le {V} (a b : string * V) : Prop := String.le a.1 b.1.
#[global] Instance key_le_dec {V} : RelDecision (@key_le V).
Proof. intros a b. apply _. Defined.

(** [KVStorePrefixIterator]: the entries whose key has the prefix, by
    ascending key. *)
Definition prefix_entries {V} (s : JSONPrefixStore V) (prefix : string) :
    list (string * stored V) :=
  merge_sort key_le
    (filter (fun kv => HasPrefix kv.1 (prefixBytes prefix) = true) (map_to_list (kvs s))).

Definition HasAny {V} (s : JSONPrefixStore V) (prefix : string) : bool :=
  negb (bool_decide (prefix_entries s prefix = [])).

Definition decode_error : error := Errorf "invalid character in stored value".

(** [Load]: [None] when the key is absent. *)
Definition Load {V} (s : JSONPrefixStore V) (prefix id : string) : result (option V) :=
  match kvs s !! composePrefixedKey prefix id with
  | None => Ok None
  | Some (Marshalled v) => Ok (Some v)
  | Some (RawBytes _) => Err decode_error
  end.

Definition LoadAll {V St} (s : JSONPrefixStore V) (prefix : string)
    (visit : string -> V -> Op St unit) : Op St unit :=
  for_each (fun kv =>
    match kv.2 with
    | Marshalled v => visit (TrimPrefix kv.1 (prefixBytes prefix)) v
    | RawBytes _ => throw decode_error
    end) (prefix_entries s prefix).

Definition Save {V} (s : JSONPrefixStore V) (prefix id : string) (v : V) : JSONPrefixStore V :=
  mk_store (<[composePrefixedKey prefix id := Marshalled v]> (kvs s)) (committed s).

Definition Delete {V} (s : JSONPrefixStore V) (prefix id : string) : JSONPrefixStore V :=
  mk_store (delete (composePrefixedKey prefix id) (kvs s)) (committed s).

Definition ClearPrefix {V} (s : JSONPrefixStore V) (prefix : string) : JSONPrefixStore V :=
  let keys := map fst (prefix_entries s prefix) in
  mk_store (foldl (fun m k => delete k m) (kvs s) keys) (committed s).

Definition ensureInitialized {V} (s : JSONPrefixStore V) : JSONPrefixStore V :=
  let initKey := composePrefixedKey prefixStoreMetaPrefix prefixStoreInitializedKey in
  match kvs s !! initKey with
  | Some _ => s
  | None => mk_store (<[initKey := RawBytes "1"]> (kvs s)) (committed s)
  end.

Definition Commit {V} (s : JSONPrefixStore V) : JSONPrefixStore V :=
  let s' := ensureInitialized s in mk_store (kvs s') (kvs s').

(** The recurring loop [for id, v := range m { Save(prefix, id, enc(id, v)) }]. *)
Definition save_entries {V W} (prefix : string) (enc : string -> W -> V) (l : list (string * W))
    (s : JSONPrefixStore V) : JSONPrefixStore V :=
  foldl (fun s kw => Save s prefix kw.1 (enc kw.1 kw.2)) s l.

(** [JSONStateStore]: the legacy single-document store, under the key [state]
    of the same KV store. *)
Definition stateKey : string := "state".

Definition HasState {V} (s : JSONPrefixStore V) : bool :=
  bool_decide (is_Some (kvs s !! stateKey)).

Definition state_Load {V} (s : JSONPrefixStore V) : result (option V) :=
  match kvs s !! stateKey with
  | None => Ok None
  | Some (Marshalled v) => Ok (Some v)
  | Some (RawBytes _) => Err decode_error
  end.

Definition state_Save {V} (s : JSONPrefixStore V) (v : V) : JSONPrefixStore V :=
  let kvs' := <[stateKey := Marshalled v]> (kvs s) in mk_store kvs' kvs'.

(** ** Lemmas *)

Section lemmas.
Context {V : Type}.
Implicit Types s : JSONPrefixStore V.

Lemma elem_of_prefix_entries s p k v :
  (k, v) ∈ prefix_entries s p <->
  HasPrefix k (prefixBytes p) = true /\ kvs s !! k = Some v.
Proof.
  unfold prefix_entries.
  rewrite (merge_sort_Permutation key_le), list_elem_of_filter, elem_of_map_to_list.
  done.
Qed.

Lemma prefix_entries_nodup s p : NoDup (map fst (prefix_entries s p)).
Proof.
  unfold prefix_entries. rewrite (merge_sort_Permutation key_le).
  pose proof (NoDup_fst_map_to_list (kvs s)) as Hnd.
  induction (map_to_list (kvs s)) as [|[k v] l IH]; simpl in *; [constructor|].
  apply NoDup_cons in Hnd as [Hk Hnd].
  rewrite filter_cons. case_decide; simpl; [|by apply IH].
  constructor; [|by apply IH]. intros Hin. apply Hk.
  apply list_elem_of_fmap in Hin as ([k' v'] & -> & Hin).
  apply list_elem_of_filter in Hin as [_ Hin].
  apply list_elem_of_fmap. by exists (k', v').
Qed.

Lemma lookup_delete_all (m : gmap string (stored V)) ks k :
  foldl (fun m k => delete k m) m ks !! k = if decide (k ∈ ks) then None else m !! k.
Proof.
  revert m. induction ks as [|x ks IH]; intros m; cbn [foldl].
  - rewrite decide_False by apply not_elem_of_nil. done.
  - rewrite IH. destruct (decide (k ∈ ks)).
    + rewrite decide_True by by right. done.
    + destruct (decide (k = x)) as [->|Hne].
      * rewrite lookup_delete_eq, decide_True by left. done.
      * rewrite lookup_delete_ne, decide_False by (rewrite ?not_elem_of_cons; done). done.
Qed.

(** [ClearPrefix] removes the keys of the prefix and nothing else. *)
Lemma lookup_ClearPrefix s p k :
  kvs (ClearPrefix s p) !! k =
    if HasPrefix k (prefixBytes p) then None else kvs s !! k.
Proof.
  unfold ClearPrefix. simpl. rewrite lookup_delete_all.
  destruct (HasPrefix k (prefixBytes p)) eqn:Hp.
  - destruct (kvs s !! k) as [v|] eqn:Hk; [|by case_decide].
    rewrite decide_True; [done|]. apply list_elem_of_fmap. exists (k, v).
    by rewrite elem_of_prefix_entries.
  - rewrite decide_False; [done|]. intros Hin.
    apply list_elem_of_fmap in Hin as ([k' v] & -> & Hin).
    apply elem_of_prefix_entries in Hin as [Hp' _]. simpl in Hp. congruence.
Qed.

Lemma lookup_Save s p id v k :
  kvs (Save s p id v) !! k =
    if decide (composePrefixedKey p id = k) then Some (Marshalled v) else kvs s !! k.
Proof. apply lookup_insert. Qed.

Lemma lookup_save_entries_other {W} p (enc : string -> W -> V) l s k :
  (forall i, composePrefixedKey p i <> k) ->
  kvs (save_entries p enc l s) !! k = kvs s !! k.
Proof.
  intros Hne. unfold save_entries. revert s.
  induction l as [|[i w] l IH]; intros s; cbn [foldl]; [done|].
  rewrite IH, lookup_Save. by rewrite decide_False by apply Hne.
Qed.

Lemma lookup_Commit_ne s k :
  k <> composePrefixedKey prefixStoreMetaPrefix prefixStoreInitializedKey ->
  kvs (Commit s) !! k = kvs s !! k.
Proof.
  intros Hne. unfold Commit, ensureInitialized. simpl.
  case_match; simpl; [done|]. by apply lookup_insert_ne.
Qed.

Lemma Commit_durable s : committed (Commit s) = kvs (Commit s).
Proof. reflexivity. Qed.
End lemmas.

(** ** The contents of a prefix

    [holds s p l]: the records stored under [p] are exactly [l] (identifier
    and record), whatever the other prefixes contain. *)

Lemma for_each_modify {E St A} (f : A -> St -> St) xs (st : St) :
  for_each (E:=E) (fun x => modify (f x)) xs st = (Ok tt, foldl (fun st x => f x st) st xs).
Proof.
  revert st. induction xs as [|x xs IH]; intros st; simpl; [done|].
  unfold bind at 1. simpl. apply IH.
Qed.

Definition disjoint_prefixes (p q : string) : Prop :=
  forall x, HasPrefix (prefixBytes p +:+ x) (prefixBytes q) = false.

Section holds.
Context {V : Type}.
Implicit Types s : JSONPrefixStore V.

Definition keyed (p : string) (l : list (string * V)) : list (string * stored V) :=
  map (fun iv => (composePrefixedKey p iv.1, Marshalled iv.2)) l.

Definition holds s (p : string) (l : list (string * V)) : Prop :=
  prefix_entries s p ≡ₚ keyed p l.

Lemma elem_of_keyed p l k x :
  (k, x) ∈ keyed p l <-> exists i v, (i, v) ∈ l /\ k = composePrefixedKey p i /\ x = Marshalled v.
Proof.
  unfold keyed. rewrite list_elem_of_fmap. split.
  - intros ([i v] & Heq & Hin). simpl in Heq. injection Heq as -> ->. eauto.
  - intros (i & v & Hin & -> & ->). by exists (i, v).
Qed.

(** Reading the contents off the lookups. *)
Lemma holds_intro s p l :
  NoDup (map (fun iv => TrimSpace iv.1) l) ->
  (forall k x, HasPrefix k (prefixBytes p) = true ->
     kvs s !! k = Some x <-> (k, x) ∈ keyed p l) ->
  holds s p l.
Proof.
  intros Hnd Hlook. apply NoDup_Permutation.
  - eapply NoDup_fmap_1, prefix_entries_nodup.
  - apply (NoDup_fmap_1 fst). unfold keyed. rewrite map_map. simpl.
    clear Hlook. induction l as [|[i v] l IH]; simpl in *; [constructor|].
    apply NoDup_cons in Hnd as [Hi Hnd]. constructor; [|auto].
    intros Hin. apply Hi. apply list_elem_of_fmap in Hin as ([j w] & Heq & Hin).
    apply list_elem_of_fmap. exists (j, w). split; [|done].
    by apply (inj (String.app _)) in Heq.
  - intros [k x]. rewrite elem_of_prefix_entries. split.
    + intros [Hp Hk]. by apply Hlook.
    + intros Hin. assert (Hp : HasPrefix k (prefixBytes p) = true).
      { apply elem_of_keyed in Hin as (i & v & _ & -> & _). apply HasPrefix_app. }
      split; [done|]. by apply Hlook.
Qed.

Lemma holds_lookup s p l k x :
  holds s p l -> HasPrefix k (prefixBytes p) = true ->
  kvs s !! k = Some x <-> (k, x) ∈ keyed p l.
Proof.
  unfold holds. intros Hh Hp. rewrite <- Hh, elem_of_prefix_entries.
  by split; [intros ?; split|intros []].
Qed.

Lemma holds_nodup s p l : holds s p l -> NoDup (map (fun iv => TrimSpace iv.1) l).
Proof.
  intros Hh. pose proof (prefix_entries_nodup s p) as Hnd.
  rewrite Hh in Hnd. unfold keyed in Hnd. rewrite map_map in Hnd. simpl in Hnd.
  clear Hh. induction l as [|[i v] l IH]; simpl in *; [constructor|].
  apply NoDup_cons in Hnd as [Hi Hnd]. constructor; [|auto].
  intros Hin. apply Hi. apply list_elem_of_fmap in Hin as ([j w] & Heq & Hin).
  apply list_elem_of_fmap. exists (j, w). split; [|done].
  simpl in *. unfold composePrefixedKey. by rewrite Heq.
Qed.

Lemma holds_clear s p : holds (ClearPrefix s p) p [].
Proof.
  apply holds_intro; [constructor|]. intros k x Hp.
  rewrite lookup_ClearPrefix, Hp. split; [done|]. intros Hin. by apply not_elem_of_nil in Hin.
Qed.

Lemma holds_other s s' p l :
  (forall k, HasPrefix k (prefixBytes p) = true -> kvs s' !! k = kvs s !! k) ->
  holds s p l -> holds s' p l.
Proof.
  intros Hsame Hh. apply holds_intro; [by eapply holds_nodup|].
  intros k x Hp. rewrite Hsame by done. by apply holds_lookup.
Qed.

Lemma holds_clear_other s p q l :
  disjoint_prefixes p q -> holds s p l -> holds (ClearPrefix s q) p l.
Proof.
  intros Hd. apply holds_other. intros k [x ->]%HasPrefix_spec.
  by rewrite lookup_ClearPrefix, Hd.
Qed.

Lemma holds_save_other s p q i v l :
  disjoint_prefixes q p -> holds s p l -> holds (Save s q i v) p l.
Proof.
  intros Hd. apply holds_other. intros k Hp.
  rewrite lookup_Save. case_decide as Heq; [|done]. subst k.
  unfold composePrefixedKey in Hp. by rewrite Hd in Hp.
Qed.

Lemma holds_commit s p l :
  disjoint_prefixes prefixStoreMetaPrefix p -> holds s p l -> holds (Commit s) p l.
Proof.
  intros Hd. apply holds_other. intros k Hp. apply lookup_Commit_ne.
  intros ->. unfold composePrefixedKey in Hp. by rewrite Hd in Hp.
Qed.

Lemma holds_save s p i v l :
  TrimSpace i ∉ map (fun iv => TrimSpace iv.1) l ->
  holds s p l -> holds (Save s p i v) p ((i, v) :: l).
Proof.
  intros Hi Hh. apply holds_intro.
  - simpl. constructor; [done|by eapply holds_nodup].
  - intros k x Hp. rewrite lookup_Save. unfold keyed. simpl. fold (keyed p l).
    rewrite elem_of_cons. case_decide as Heq.
    + subst k. split; [by intros [= <-]; left|]. intros [Heq|Hin].
      * by injection Heq as ->.
      * exfalso. apply Hi. apply elem_of_keyed in Hin as (j & w & Hin & Heq & ->).
        unfold composePrefixedKey in Heq. apply (inj (String.app _)) in Heq.
        apply list_elem_of_fmap. by exists (j, w).
    + rewrite (holds_lookup s p l k x Hh Hp). split; [by right|].
      intros [[= -> ->]|Hin]; [|done]. by contradiction Heq.
Qed.

(** Saving every entry of a list with distinct trimmed identifiers. *)
Lemma holds_save_entries {W} (enc : string -> W -> V) p xs s l :
  NoDup (map (fun iw => TrimSpace iw.1) xs) ->
  (forall i, i ∈ map (fun iw => TrimSpace iw.1) xs ->
     i ∉ map (fun iv => TrimSpace iv.1) l) ->
  holds s p l ->
  holds (save_entries p enc xs s) p
    (reverse (map (fun iw => (iw.1, enc iw.1 iw.2)) xs) ++ l).
Proof.
  unfold save_entries. revert s l. induction xs as [|[i w] xs IH]; intros s l Hnd Hfresh Hh;
    cbn [foldl map reverse]; [done|].
  cbn [map] in Hnd, Hfresh. apply NoDup_cons in Hnd as [Hi Hnd].
  rewrite reverse_cons, <- app_assoc. simpl. apply IH; [done| |].
  - intros j Hj. simpl. apply not_elem_of_cons. split; [by intros ->|].
    apply Hfresh. by right.
  - apply holds_save; [|done]. apply Hfresh. left.
Qed.

Lemma holds_save_entries_other {W} (enc : string -> W -> V) p q xs s l :
  disjoint_prefixes q p -> holds s p l -> holds (save_entries q enc xs s) p l.
Proof.
  intros Hd. unfold save_entries. revert s.
  induction xs as [|[i w] xs IH]; intros s Hh; cbn [foldl]; [done|].
  apply IH. by apply holds_save_other.
Qed.

Lemma HasAny_holds s p l : holds s p l -> HasAny s p = negb (bool_decide (l = [])).
Proof.
  unfold holds, HasAny. intros Hh. f_equal. apply bool_decide_ext. split.
  - intros Hp. rewrite Hp in Hh. apply symmetry, Permutation_nil_r in Hh.
    by destruct l.
  - intros ->. by apply Permutation_nil_r.
Qed.

(** [LoadAll] with a visitor that always succeeds folds the records. *)
Lemma LoadAll_fold {St} s p l (f : string -> V -> St -> St)
    (visit : string -> V -> Op St unit) (st : St) :
  holds s p l ->
  (forall i v st, (i, v) ∈ l -> visit (TrimSpace i) v st = (Ok tt, f (TrimSpace i) v st)) ->
  exists l', l' ≡ₚ l /\
    LoadAll s p visit st = (Ok tt, foldl (fun st iv => f (TrimSpace iv.1) iv.2 st) st l').
Proof.
  intros Hh Hvisit. unfold LoadAll. unfold holds in Hh.
  apply Permutation_map_inv in Hh as (l' & Heq & Hperm).
  exists l'. split; [by symmetry|]. rewrite Heq.
  assert (Hsub : forall iv, iv ∈ l' -> iv ∈ l) by (intros iv; by rewrite Hperm).
  clear Heq Hperm. revert st. induction l' as [|[i v] l' IH]; intros st; simpl; [done|].
  unfold bind at 1. cbn [snd fst]. unfold composePrefixedKey.
  rewrite TrimPrefix_app, Hvisit by (apply Hsub; left). apply IH.
  intros iv Hiv. apply Hsub. by right.
Qed.
End holds.

(** ** Saving a map under a prefix and loading it back *)

Section maps.
Context {V W : Type} (enc : string -> W -> V).
Implicit Types m acc : gmap string W.

Definition records_of m : list (string * V) :=
  map (fun kw => (kw.1, enc kw.1 kw.2)) (map_to_list m).

Definition trimmed_keys m : Prop := map_Forall (fun k _ => trimmed k) m.

Lemma trimmed_keys_nodup m xs :
  trimmed_keys m -> xs ≡ₚ map_to_list m -> NoDup (map (fun iw => TrimSpace iw.1) xs).
Proof.
  intros Ht Hxs. rewrite (Permutation_map _ Hxs).
  replace (map (fun iw => TrimSpace iw.1) (map_to_list m)) with (map fst (map_to_list m)).
  { apply NoDup_fst_map_to_list. }
  apply list_fmap_ext. intros i [k w] Hi. simpl. symmetry. apply (Ht k w).
  apply elem_of_map_to_list. by apply list_elem_of_lookup_2 in Hi.
Qed.

(** [ClearPrefix] followed by saving every entry of the map, in any order. *)
Lemma holds_save_map p m xs (s : JSONPrefixStore V) :
  trimmed_keys m -> xs ≡ₚ map_to_list m -> holds s p [] ->
  holds (save_entries p enc xs s) p (records_of m).
Proof.
  intros Ht Hxs Hh.
  pose proof (holds_save_entries enc p xs s [] (trimmed_keys_nodup m xs Ht Hxs)) as Hs.
  unfold holds in *. rewrite Hs; [|intros; apply not_elem_of_nil|done].
  apply Permutation_map. rewrite app_nil_r, reverse_Permutation.
  by apply Permutation_map.
Qed.

Lemma holds_perm p l l' (s : JSONPrefixStore V) : l ≡ₚ l' -> holds s p l -> holds s p l'.
Proof. intros Hl Hh. unfold holds in *. rewrite Hh. by apply Permutation_map. Qed.

(** Loading the records of a map with a visitor that inserts them rebuilds
    the map, whatever the order of the keys. *)
Lemma LoadAll_map {St} (s : JSONPrefixStore V) p m (put : gmap string W -> St)
    (visit : string -> V -> Op St unit) :
  holds s p (records_of m) -> trimmed_keys m ->
  (forall k w acc, m !! k = Some w -> acc ⊆ m -> acc !! k = None ->
     visit k (enc k w) (put acc) = (Ok tt, put (<[k := w]> acc))) ->
  LoadAll s p visit (put ∅) = (Ok tt, put m).
Proof.
  intros Hh Ht Hvisit. unfold LoadAll.
  unfold holds, keyed, records_of in Hh. rewrite map_map in Hh.
  apply Permutation_map_inv in Hh as (l & Heq & Hperm). rewrite Heq. clear Heq.
  assert (Hl : list_to_map l = m).
  { rewrite <- (list_to_map_to_list m). symmetry. apply list_to_map_proper; [|done].
    apply NoDup_fst_map_to_list. }
  assert (Hnd : NoDup l.*1).
  { rewrite <- Hperm. apply NoDup_fst_map_to_list. }
  clear Hperm.
  assert (Hsub : (∅ : gmap string W) ∪ list_to_map l ⊆ m)
    by by rewrite Hl, map_empty_union.
  assert (Hput : put m = put (∅ ∪ list_to_map l)) by by rewrite Hl, map_empty_union.
  rewrite Hput. clear Hl Hput.
  assert (Hfresh : forall k, k ∈ l.*1 -> (∅ : gmap string W) !! k = None)
    by (intros; apply lookup_empty).
  revert Hsub Hfresh Hnd. generalize (∅ : gmap string W) as acc.
  induction l as [|[k w] l IH]; intros acc Hsub Hfresh Hnd; cbn [map for_each].
  { rewrite list_to_map_nil. unfold ret. by rewrite (right_id_L ∅ (∪) acc). }
  rewrite list_to_map_cons in Hsub |- *.
  apply NoDup_cons in Hnd as [Hk Hnd]. simpl in Hk.
  assert (Hak : acc !! k = None) by (apply Hfresh; left).
  assert (Hunion : acc ∪ <[k := w]> (list_to_map l) = <[k := w]> acc ∪ list_to_map l).
  { rewrite <- insert_union_r by done. apply insert_union_l. }
  assert (Hmk : m !! k = Some w).
  { apply (lookup_weaken _ _ _ _) with (2 := Hsub).
    rewrite Hunion. apply lookup_union_Some_l, lookup_insert_eq. }
  unfold bind at 1. cbn [fst snd]. unfold composePrefixedKey at 1.
  rewrite TrimPrefix_app, (Ht k w Hmk), Hvisit; [| done | | done].
  - rewrite Hunion. apply IH; [by rewrite <- Hunion| |done].
    intros k' Hk'. rewrite lookup_insert_ne by (by intros ->).
    apply Hfresh. by right.
  - etrans; [apply map_union_subseteq_l|exact Hsub].
Qed.
End maps.
