(* ===== verification/Pauser.v ===== *)
(** [x/pauser/keeper]: the set of paused flows and its persistence. *)

From S2P Require Import Prelude.
From S2P Require Import GoStrings.
From S2P Require Import Errors.
From S2P Require Import PrefixStore.
From stdpp Require Import strings.

(** The documents of the module's store: a paused flow under [paused/], or the
    legacy list of flows under [state]. *)
Inductive document := FlowDoc (flow : string) | LegacyDoc (flows : list string).

Record Keeper := mk_keeper {
  paused : gmap string bool;
  prefixStore : option (JSONPrefixStore document)
}.

Definition pausedFlowPrefix : string := "paused".

Definition NewKeeper : Keeper := mk_keeper ∅ None.

Definition set_paused (f : gmap string bool -> gmap string bool) (k : Keeper) : Keeper :=
  mk_keeper (f (paused k)) (prefixStore k).

Definition flowKey (flow : string) : result string :=
  let key := TrimSpace flow in
  if decide (key = EmptyString) then Err (Sentinel ErrInvalidFlow) else Ok key.

Section ops.
Context `{MapIteration}.

Definition ExportPausedFlows (k : Keeper) : list string :=
  SortStrings (map fst (range (paused k))).

Definition persist : Op Keeper unit := modify (fun k =>
  match prefixStore k with
  | None => k
  | Some s =>
      let s := ClearPrefix s pausedFlowPrefix in
      let s := foldl (fun s flow => Save s pausedFlowPrefix flow (FlowDoc flow)) s
                 (ExportPausedFlows k) in
      mk_keeper (paused k) (Some (Commit s))
  end).

Definition Pause (flow : string) : Op Keeper unit :=
  let! key := lift (flowKey flow) in
  modify (set_paused <[key := true]>) ;;;
  persist.

Definition Unpause (flow : string) : Op Keeper unit :=
  let! key := lift (flowKey flow) in
  modify (set_paused (delete key)) ;;;
  persist.

Definition IsPaused (k : Keeper) (flow : string) : bool :=
  match flowKey flow with
  | Err _ => false
  | Ok key => default false (paused k !! key)
  end.

Definition AssertNotPaused (k : Keeper) (flow : string) : result unit :=
  ensure (IsPaused k flow) ErrFlowPaused.

Definition ImportPausedFlows (flows : list string) : Op Keeper unit :=
  modify (set_paused (fun _ => ∅)) ;;;
  for_each (fun flow =>
    let! key := lift (flowKey flow) in
    modify (set_paused <[key := true]>)) flows ;;;
  persist.

Definition Flush : Op Keeper unit := persist.

Definition load_visit (_ : string) (value : document) : Op Keeper unit :=
  match value with
  | FlowDoc flow =>
      let! key := lift (flowKey flow) in
      modify (set_paused <[key := true]>)
  | LegacyDoc _ => throw decode_error
  end.

Definition loadFromPrefixStore (s : JSONPrefixStore document) : Op Keeper unit :=
  modify (set_paused (fun _ => ∅)) ;;;
  LoadAll s pausedFlowPrefix load_visit.

Definition NewStoreKeeper (s : JSONPrefixStore document) : result Keeper :=
  let keeper := mk_keeper ∅ (Some s) in
  let run (op : Op Keeper unit) :=
    match op keeper with (Ok _, k) => Ok k | (Err e, _) => Err e end in
  if HasAny s pausedFlowPrefix then run (loadFromPrefixStore s)
  else if HasState s then
    match state_Load s with
    | Err e => Err e
    | Ok None => run (ImportPausedFlows [])
    | Ok (Some (LegacyDoc flows)) => run (ImportPausedFlows flows)
    | Ok (Some (FlowDoc _)) => Err decode_error
    end
  else Ok keeper.
End ops.

(** ** Well-formedness: keys are canonical flow names, values are [true] *)

Definition keys_ok (m : gmap string bool) : Prop :=
  map_Forall (fun k b => trimmed k /\ k <> EmptyString /\ b = true) m.

Definition wf (k : Keeper) : Prop := keys_ok (paused k).

Section lemmas.
Context `{MapIteration}.

Lemma flowKey_ok flow key :
  flowKey flow = Ok key -> key = TrimSpace flow /\ trimmed key /\ key <> EmptyString.
Proof. unfold flowKey. case_decide; intros [= <-]. eauto with go. Qed.

Lemma flowKey_trimmed key : trimmed key -> key <> EmptyString -> flowKey key = Ok key.
Proof. intros Ht Hne. unfold flowKey. rewrite Ht. by case_decide. Qed.

Lemma paused_persist k : paused (snd (persist k)) = paused k.
Proof. unfold persist, modify. simpl. by case_match. Qed.

Lemma pauser_wf_insert m key : keys_ok m -> trimmed key -> key <> EmptyString ->
  keys_ok (<[key := true]> m).
Proof. intros Hm Ht Hne. by apply map_Forall_insert_2. Qed.

Lemma pauser_persist_wf : preserves wf persist.
Proof. intros k Hk. unfold wf. by rewrite paused_persist. Qed.

Lemma visit_wf key : trimmed key -> key <> EmptyString ->
  preserves (E:=error) wf (modify (set_paused <[key := true]>)).
Proof. intros Ht Hne. apply preserves_modify. intros k Hk. by apply pauser_wf_insert. Qed.
End lemmas.
#[export] Hint Resolve pauser_persist_wf visit_wf : go.

(** ** Functional behaviour *)

Section spec.
Context `{MapIteration}.

Lemma IsPaused_persist k g : IsPaused (snd (persist k)) g = IsPaused k g.
Proof. unfold IsPaused. case_match; [|done]. by rewrite paused_persist. Qed.

Lemma IsPaused_lookup k g key :
  flowKey g = Ok key -> IsPaused k g = default false (paused k !! key).
Proof. unfold IsPaused. by intros ->. Qed.

(** Pausing and unpausing act on flow names up to surrounding white
    space. A blank name is refused with [ErrInvalidFlow] and leaves the
    keeper untouched; otherwise the call succeeds, [IsPaused] changes for
    exactly the flows with the same trimmed name, and is unchanged for every
    other flow. *)
Theorem Pause_Unpause_spec (k : Keeper) (flow : string) :
  match flowKey flow with
  | Err e => e = ErrInvalidFlow /\ TrimSpace flow = EmptyString /\
      Pause flow k = (Err e, k) /\ Unpause flow k = (Err e, k)
  | Ok key =>
      fst (Pause flow k) = Ok tt /\ fst (Unpause flow k) = Ok tt /\
      forall g,
        IsPaused (snd (Pause flow k)) g =
          bool_decide (TrimSpace g = TrimSpace flow) || IsPaused k g /\
        IsPaused (snd (Unpause flow k)) g =
          negb (bool_decide (TrimSpace g = TrimSpace flow)) && IsPaused k g
  end.
Proof.
  unfold Pause, Unpause, bind, lift. destruct (flowKey flow) as [key|e] eqn:Hf.
  - apply flowKey_ok in Hf as (-> & _ & Hne). split_and!; [done..|]. intros g.
    cbn [modify]. rewrite !IsPaused_persist. unfold IsPaused, flowKey.
    case_decide as Hg; cbn [paused set_paused].
    { rewrite Hg, bool_decide_eq_false_2 by congruence. done. }
    case_bool_decide as Heq.
    + rewrite Heq, lookup_insert_eq, lookup_delete_eq. done.
    + rewrite lookup_insert_ne, lookup_delete_ne by congruence. done.
  - unfold flowKey in Hf. case_decide; by simplify_eq.
Qed.

Lemma import_visits_wf flows : preserves wf (for_each (fun flow =>
    let! key := lift (flowKey flow) in
    modify (set_paused <[key := true]>)) flows).
Proof.
  apply preserves_for_each. intros flow _ k Hk. unfold bind, lift, modify.
  destruct (flowKey flow) as [key|e] eqn:Hf; simpl; [|done].
  apply flowKey_ok in Hf as (_ & Ht & Hne). by apply pauser_wf_insert.
Qed.

Lemma ImportPausedFlows_wf flows : preserves wf (ImportPausedFlows flows).
Proof.
  apply preserves_bind.
  - apply preserves_modify. intros k _. apply map_Forall_empty.
  - intros _. apply preserves_bind; [apply import_visits_wf|auto with go].
Qed.

(** Every operation of the keeper keeps its map canonical (trimmed
    non-empty flow names, each bound to [true]), on success and on error. *)
Theorem pauser_wf_preserved (flow : string) (flows : list string) :
  preserves wf (Pause flow) /\ preserves wf (Unpause flow) /\
  preserves wf (ImportPausedFlows flows) /\ preserves wf Flush.
Proof.
  split_and!.
  - intros k Hk. unfold Pause, bind, lift.
    destruct (flowKey flow) as [key|e] eqn:Hf; [|done].
    apply flowKey_ok in Hf as (_ & Ht & Hne). by apply pauser_persist_wf, pauser_wf_insert.
  - intros k Hk. unfold Unpause, bind, lift. case_match; [|done].
    apply pauser_persist_wf. by apply map_Forall_delete.
  - apply ImportPausedFlows_wf.
  - apply pauser_persist_wf.
Qed.

Lemma keys_ok_trimmed m : keys_ok m -> trimmed_keys m.
Proof. intros Hm k b Hk. by apply (Hm k b). Qed.

Lemma exported_perm k : ExportPausedFlows k ≡ₚ (map_to_list (paused k)).*1.
Proof. unfold ExportPausedFlows. rewrite SortStrings_perm. by rewrite range_perm. Qed.

Definition flow_doc (flow : string) (_ : bool) : document := FlowDoc flow.

Lemma save_flows_entries l s :
  foldl (fun s flow => Save s pausedFlowPrefix flow (FlowDoc flow)) s l =
  save_entries pausedFlowPrefix flow_doc (map (fun f => (f, true)) l) s.
Proof.
  unfold save_entries. revert s. induction l as [|f l IH]; intros s; cbn [foldl map]; [done|].
  apply IH.
Qed.

Lemma persist_holds k s :
  wf k -> prefixStore k = Some s ->
  exists s', snd (persist k) = mk_keeper (paused k) (Some s') /\
    holds s' pausedFlowPrefix (records_of flow_doc (paused k)) /\
    kvs s' !! stateKey = kvs s !! stateKey.
Proof.
  intros Hwf Hs. unfold persist, modify. cbn [snd]. rewrite Hs. eexists. split; [done|].
  rewrite save_flows_entries. split.
  - apply holds_commit; [intros x; reflexivity|].
    eapply holds_perm; [|apply (holds_save_entries flow_doc _ _ _ [])].
    + rewrite app_nil_r, reverse_Permutation, map_map. simpl.
      unfold records_of. rewrite exported_perm, map_map. done.
    + rewrite map_map. simpl.
      assert (Hp : map (fun f => TrimSpace f) (ExportPausedFlows k) ≡ₚ (map_to_list (paused k)).*1).
      { rewrite map_id_in; [apply exported_perm|]. intros f Hf. rewrite exported_perm in Hf.
        apply list_elem_of_fmap in Hf as ([f' b] & -> & Hin).
        apply elem_of_map_to_list in Hin. by apply (Hwf f' b). }
      rewrite Hp. apply NoDup_fst_map_to_list.
    + intros; apply not_elem_of_nil.
    + apply holds_clear.
  - rewrite lookup_Commit_ne by done.
    rewrite lookup_save_entries_other by (intros i; discriminate).
    rewrite lookup_ClearPrefix. reflexivity.
Qed.
End spec.

(** ** Persistence: reloading the store gives back the keeper *)

Section reload.
Context `{MapIteration}.

Lemma HasAny_flows s m : holds s pausedFlowPrefix (records_of flow_doc m) ->
  HasAny s pausedFlowPrefix = negb (bool_decide (m = ∅)).
Proof.
  intros Hh. rewrite (HasAny_holds _ _ _ Hh). f_equal. apply bool_decide_ext.
  unfold records_of. rewrite <- map_to_list_empty_iff.
  split; [apply fmap_nil_inv|by intros ->].
Qed.

(** After any persisted operation, opening the store again yields the
    same set of paused flows, unless no flow is paused and the store still
    holds a legacy snapshot. *)
Theorem persist_reload (k : Keeper) (s : JSONPrefixStore document) :
  wf k -> prefixStore k = Some s ->
  paused k <> ∅ \/ kvs s !! stateKey = None ->
  exists s', prefixStore (snd (persist k)) = Some s' /\ committed s' = kvs s' /\
    NewStoreKeeper s' = Ok (snd (persist k)).
Proof.
  intros Hwf Hs Hne. destruct (persist_holds k s Hwf Hs) as (s' & Heq & Hh & Hst).
  exists s'. rewrite Heq. split_and!; [done| |].
  { unfold persist, modify in Heq. simpl in Heq. rewrite Hs in Heq. by injection Heq as <-. }
  unfold NewStoreKeeper. rewrite (HasAny_flows _ _ Hh).
  case_bool_decide as He; simpl.
  - destruct Hne as [Hne|Hne]; [done|]. unfold HasState. rewrite Hst, Hne, He.
    rewrite bool_decide_eq_false_2 by (by intros []). done.
  - unfold loadFromPrefixStore, bind at 1. cbn [modify set_paused prefixStore].
    rewrite (LoadAll_map flow_doc s' _ (paused k) (fun m => mk_keeper m (Some s')));
      [done|done|by apply keys_ok_trimmed|].
    intros f b acc Hf _ _. destruct (Hwf f b Hf) as (Ht & Hfne & ->).
    unfold load_visit, flow_doc, bind, lift. by rewrite flowKey_trimmed.
Qed.

(** Pausing a single flow and unpausing it again over a store that still
    holds a legacy snapshot: the reopened keeper has every legacy flow paused
    again, because the keeper falls back to the snapshot whenever no
    [paused/] entry is left. *)
Theorem unpause_last_restores_legacy (s : JSONPrefixStore document) (flow : string)
    (legacy : list string) k1 k2 :
  kvs s !! stateKey = Some (Marshalled (LegacyDoc legacy)) ->
  wf k1 -> prefixStore k1 = Some s -> paused k1 = {[ TrimSpace flow := true ]} ->
  Unpause flow k1 = (Ok tt, k2) ->
  exists s', prefixStore k2 = Some s' /\ paused k2 = ∅ /\
    NewStoreKeeper s' =
      match ImportPausedFlows legacy (mk_keeper ∅ (Some s')) with
      | (Ok _, k) => Ok k
      | (Err e, _) => Err e
      end.
Proof.
  intros Hst Hwf Hs Hp Hun. unfold Unpause, bind, lift, modify in Hun.
  destruct (flowKey flow) as [key|] eqn:Hf; [|done].
  apply flowKey_ok in Hf as (-> & _ & _).
  set (k1' := set_paused _ k1) in Hun.
  assert (Hp' : paused k1' = ∅) by (unfold k1'; simpl; by rewrite Hp, delete_singleton_eq).
  assert (Hwf' : wf k1') by (unfold wf; rewrite Hp'; apply map_Forall_empty).
  destruct (persist_holds k1' s Hwf' Hs) as (s' & Heq & Hh & Hst').
  exists s'. replace k2 with (snd (persist k1')) by by rewrite Hun.
  rewrite Heq. split_and!; [done..|].
  unfold NewStoreKeeper. rewrite (HasAny_flows _ _ Hh), Hp', bool_decide_eq_true_2 by done.
  unfold HasState, state_Load. by rewrite Hst', Hst.
Qed.
End reload.

(** ** Concrete runs *)

Definition demo_store : JSONPrefixStore document := empty_store.
Definition demo_keeper : Keeper :=
  snd (Pause " eth.usdc " (mk_keeper ∅ (Some demo_store))).

Example demo_paused : IsPaused demo_keeper "eth.usdc" = true.
Proof. vm_compute. reflexivity. Qed.

Example persist_reload_witness :
  exists s', prefixStore (snd (persist demo_keeper)) = Some s' /\ committed s' = kvs s' /\
    NewStoreKeeper s' = Ok (snd (persist demo_keeper)).
Proof.
  eapply persist_reload.
  - apply (bool_decide_unpack _). vm_compute. exact I.
  - vm_compute. reflexivity.
  - left. vm_compute. discriminate.
Defined.

Definition legacy_store : JSONPrefixStore document :=
  state_Save empty_store (LegacyDoc ["bridge.inbound"%string]).

Example unpause_last_restores_legacy_witness :
  exists s', prefixStore (snd (Unpause "bridge.inbound"
      (mk_keeper {[ "bridge.inbound"%string := true ]} (Some legacy_store)))) = Some s' /\
    (paused (snd (Unpause "bridge.inbound"
      (mk_keeper {[ "bridge.inbound"%string := true ]} (Some legacy_store)))) = ∅) /\
    NewStoreKeeper s' =
      match ImportPausedFlows ["bridge.inbound"%string] (mk_keeper ∅ (Some s')) with
      | (Ok _, k) => Ok k
      | (Err e, _) => Err e
      end.
Proof.
  apply (unpause_last_restores_legacy legacy_store "bridge.inbound" ["bridge.inbound"%string]
           (mk_keeper {[ "bridge.inbound"%string := true ]} (Some legacy_store))).
  - reflexivity.
  - apply (bool_decide_unpack _). vm_compute. exact I.
  - reflexivity.
  - reflexivity.
  - vm_compute. reflexivity.
Defined.
