(* ===== verification/Registry.v ===== *)
(** [x/registry]: the registry of bridged assets, the derivation of their
    destination denoms, and its persistence. *)

From S2P Require Import Prelude.
From S2P Require Import GoStrings.
From S2P Require Import Errors.
From S2P Require Import PrefixStore.
From stdpp Require Import strings.

(** ** [types.Asset] *)

Definition SourceAssetKindUnspecified : string := EmptyString.
Definition SourceAssetKindNativeETH : string := "native_eth".
Definition SourceAssetKindERC20 : string := "erc20".

Record Asset := mk_asset {
  AssetID : string;
  SourceChainID : string;
  SourceAssetKind : string;
  SourceAssetAddress : string;
  SourceContract : string;
  Denom : string;
  DestinationDenom : string;
  Decimals : N;              (* uint32 *)
  DisplayName : string;
  DisplaySymbol : string;
  Enabled : bool
}.

#[global] Instance Asset_eq_dec : EqDecision Asset.
Proof. solve_decision. Defined.

Definition blank (s : string) : bool := bool_decide (TrimSpace s = EmptyString).

(** [Asset.ValidateBasic]. *)
Definition ValidateBasic (a : Asset) : result unit :=
  let kind := SourceAssetKind a in
  if blank (AssetID a) then Err (Wrapf ErrInvalidAsset "missing asset id") else
  if blank (SourceChainID a) then Err (Wrapf ErrInvalidAsset "missing source chain id") else
  if negb (bool_decide (kind = SourceAssetKindNativeETH)) &&
     negb (bool_decide (kind = SourceAssetKindERC20))
  then Err (Wrapf ErrInvalidAsset "invalid source asset kind") else
  if blank (DisplaySymbol a) && blank (DisplayName a)
  then Err (Wrapf ErrInvalidAsset "missing display symbol") else
  if bool_decide (kind = SourceAssetKindERC20) &&
     (blank (SourceAssetAddress a) && blank (SourceContract a))
  then Err (Wrapf ErrInvalidAsset "missing source asset address") else
  if (18 <? Decimals a)%N then Err (Wrapf ErrInvalidAsset "decimals must be <= 18") else
  Ok tt.

(** ** Canonical form and derived metadata *)

Definition assetKey (assetID : string) : string := TrimSpace assetID.

Definition or_else (a b : string) : string := if decide (a = EmptyString) then b else a.

Definition canonicalAsset (a : Asset) : Asset :=
  let address := TrimSpace (SourceAssetAddress a) in
  let contract := TrimSpace (SourceContract a) in
  let kind := TrimSpace (SourceAssetKind a) in
  let address' := or_else address contract in
  let contract' := or_else contract address' in
  {| AssetID := TrimSpace (AssetID a);
     SourceChainID := TrimSpace (SourceChainID a);
     SourceAssetKind :=
       if bool_decide (kind = EmptyString) && negb (bool_decide (address' = EmptyString))
       then SourceAssetKindERC20 else kind;
     SourceAssetAddress := address';
     SourceContract := contract';
     Denom := TrimSpace (Denom a);
     DestinationDenom := TrimSpace (DestinationDenom a);
     Decimals := Decimals a;
     DisplayName := TrimSpace (DisplayName a);
     DisplaySymbol := or_else (TrimSpace (DisplaySymbol a)) (TrimSpace (DisplayName a));
     Enabled := Enabled a |}.

Definition dropped_separator (c : Ascii.ascii) : bool :=
  byte_is 46 c || byte_is 45 c || byte_is 95 c.

Definition normalizedSymbol (value : string) : string :=
  ToLower (TrimSpace (delete_bytes dropped_separator value)).

Definition dot : Ascii.ascii := Ascii.ascii_of_N 46.

Definition assetPrefixFromAssetID (assetID : string) : string :=
  let trimmed := TrimSpace assetID in
  if decide (trimmed = EmptyString) then EmptyString else
  let '(prefix, _, ok) := Cut trimmed dot in
  if ok then normalizedSymbol prefix else normalizedSymbol trimmed.

Definition assetSuffixFromAssetID (assetID : string) : string :=
  let trimmed := TrimSpace assetID in
  if decide (trimmed = EmptyString) then EmptyString else
  let '(_, suffix, ok) := Cut trimmed dot in
  if ok then normalizedSymbol suffix else EmptyString.

Definition deriveDestinationDenom (a : Asset) : string :=
  let prefix := or_else (assetPrefixFromAssetID (AssetID a)) "asset" in
  if decide (SourceAssetKind a = SourceAssetKindNativeETH) then "u" +:+ prefix
  else if decide (SourceAssetKind a = SourceAssetKindERC20) then
    let symbol := assetSuffixFromAssetID (AssetID a) in
    let symbol := or_else symbol (normalizedSymbol (DisplaySymbol a)) in
    let symbol := or_else symbol "token" in
    "u" +:+ prefix +:+ symbol
  else "u" +:+ prefix +:+ normalizedSymbol (DisplaySymbol a).

Definition with_denoms (denom dest : string) (a : Asset) : Asset :=
  {| AssetID := AssetID a; SourceChainID := SourceChainID a;
     SourceAssetKind := SourceAssetKind a; SourceAssetAddress := SourceAssetAddress a;
     SourceContract := SourceContract a; Denom := denom; DestinationDenom := dest;
     Decimals := Decimals a; DisplayName := DisplayName a;
     DisplaySymbol := DisplaySymbol a; Enabled := Enabled a |}.

Definition deriveAssetMetadata (a : Asset) : Asset :=
  let dest := deriveDestinationDenom a in with_denoms dest dest a.

Definition with_enabled (b : bool) (a : Asset) : Asset :=
  {| AssetID := AssetID a; SourceChainID := SourceChainID a;
     SourceAssetKind := SourceAssetKind a; SourceAssetAddress := SourceAssetAddress a;
     SourceContract := SourceContract a; Denom := Denom a;
     DestinationDenom := DestinationDenom a; Decimals := Decimals a;
     DisplayName := DisplayName a; DisplaySymbol := DisplaySymbol a; Enabled := b |}.

(** ** The keeper *)

Inductive document := AssetDoc (a : Asset) | LegacyAssets (l : list Asset).

Record Keeper := mk_keeper {
  assets : gmap string Asset;
  prefixStore : option (JSONPrefixStore document)
}.

Definition assetPrefix : string := "asset".
Definition NewKeeper : Keeper := mk_keeper ∅ None.

Definition set_assets (f : gmap string Asset -> gmap string Asset) (k : Keeper) : Keeper :=
  mk_keeper (f (assets k)) (prefixStore k).

Definition GetAsset (k : Keeper) (assetID : string) : option Asset :=
  assets k !! assetKey assetID.

Section ops.
Context `{MapIteration}.

Definition persist : Op Keeper unit := modify (fun k =>
  match prefixStore k with
  | None => k
  | Some s =>
      let s := ClearPrefix s assetPrefix in
      let s := save_entries assetPrefix (fun _ a => AssetDoc (canonicalAsset a))
                 (range (assets k)) s in
      mk_keeper (assets k) (Some (Commit s))
  end).

Definition denom_taken (k : Keeper) (a : Asset) (key : string) : bool :=
  existsb (fun e => negb (bool_decide (e.1 = key)) &&
                    EqualFold (DestinationDenom e.2) (DestinationDenom a))
    (range (assets k)).

Definition ensureDestinationDenomAvailable (a : Asset) (key : string) : Op Keeper unit :=
  query (fun k => ensure (denom_taken k a key) ErrAssetAlreadyExists).

Definition RegisterAsset (asset : Asset) : Op Keeper unit :=
  let stored := deriveAssetMetadata (canonicalAsset asset) in
  lift (ValidateBasic stored) ;;;
  let key := assetKey (AssetID stored) in
  let! existing := gets (fun k => assets k !! key) in
  throw_if (bool_decide (is_Some existing)) ErrAssetAlreadyExists ;;;
  ensureDestinationDenomAvailable stored key ;;;
  modify (set_assets <[key := stored]>) ;;;
  persist.

Definition setAssetEnabled (assetID : string) (enabled : bool) : Op Keeper unit :=
  let key := assetKey assetID in
  let! found := gets (fun k => assets k !! key) in
  let! asset := some_or found ErrAssetNotFound in
  modify (set_assets <[key := with_enabled enabled asset]>) ;;;
  persist.

Definition DisableAsset (assetID : string) := setAssetEnabled assetID false.
Definition EnableAsset (assetID : string) := setAssetEnabled assetID true.

Definition ExportAssets (k : Keeper) : list Asset :=
  map (fun e => canonicalAsset e.2) (range (assets k)).

(** The body of the loops of [ImportAssets] and of [loadFromPrefixStore]. *)
Definition import_asset (asset : Asset) : Op Keeper unit :=
  let stored := deriveAssetMetadata (canonicalAsset asset) in
  lift (ValidateBasic stored) ;;;
  let key := assetKey (AssetID stored) in
  ensureDestinationDenomAvailable stored key ;;;
  modify (set_assets <[key := stored]>).

Definition ImportAssets (l : list Asset) : Op Keeper unit :=
  modify (set_assets (fun _ => ∅)) ;;;
  for_each import_asset l ;;;
  persist.

Definition Flush : Op Keeper unit := persist.

Definition load_visit (_ : string) (value : document) : Op Keeper unit :=
  match value with
  | AssetDoc a => import_asset a
  | LegacyAssets _ => throw decode_error
  end.

Definition loadFromPrefixStore (s : JSONPrefixStore document) : Op Keeper unit :=
  modify (set_assets (fun _ => ∅)) ;;;
  LoadAll s assetPrefix load_visit.

Definition NewStoreKeeper (s : JSONPrefixStore document) : result Keeper :=
  let keeper := mk_keeper ∅ (Some s) in
  let run (op : Op Keeper unit) :=
    match op keeper with (Ok _, k) => Ok k | (Err e, _) => Err e end in
  if HasAny s assetPrefix then run (loadFromPrefixStore s)
  else if HasState s then
    match state_Load s with
    | Err e => Err e
    | Ok None => run (ImportAssets [])
    | Ok (Some (LegacyAssets l)) => run (ImportAssets l)
    | Ok (Some (AssetDoc _)) => Err decode_error
    end
  else Ok keeper.
End ops.

(** ** Canonical assets are fixed points *)

(** What every stored asset satisfies: it is valid, canonical and carries the
    denom derived from its identity. *)
Definition settled (a : Asset) : Prop :=
  ValidateBasic a = Ok tt /\ deriveAssetMetadata (canonicalAsset a) = a.

Lemma or_else_idem a b : or_else (or_else a b) (or_else b (or_else a b)) = or_else a b.
Proof. unfold or_else. repeat case_decide; congruence. Qed.

Lemma or_else_trim a b : TrimSpace (or_else (TrimSpace a) (TrimSpace b)) =
  or_else (TrimSpace a) (TrimSpace b).
Proof. unfold or_else. case_decide; apply TrimSpace_idem. Qed.

Lemma derive_canonical_twice a d e :
  deriveAssetMetadata (canonicalAsset (with_denoms d e (canonicalAsset a))) =
  deriveAssetMetadata (canonicalAsset a).
Proof.
  assert (Hkind : forall k addr addr', (addr' = EmptyString <-> addr = EmptyString) ->
    let f k addr := if bool_decide (k = EmptyString) && negb (bool_decide (addr = EmptyString))
      then SourceAssetKindERC20 else k in
    f (f (TrimSpace k) addr) addr' = f (TrimSpace k) addr).
  { intros k addr addr' Haddr. simpl. repeat case_bool_decide; simpl; tauto || congruence. }
  assert (Hkt : forall k (b : bool), TrimSpace (if b then SourceAssetKindERC20 else TrimSpace k) =
    if b then SourceAssetKindERC20 else TrimSpace k).
  { intros k []; [reflexivity|apply TrimSpace_idem]. }
  unfold deriveAssetMetadata, deriveDestinationDenom, canonicalAsset, with_denoms.
  cbn [AssetID SourceChainID SourceAssetKind SourceAssetAddress SourceContract Denom
    DestinationDenom Decimals DisplayName DisplaySymbol Enabled].
  set (addr := or_else (TrimSpace (SourceAssetAddress a)) (TrimSpace (SourceContract a))).
  set (contract := or_else (TrimSpace (SourceContract a)) addr).
  assert (Ha : TrimSpace addr = addr) by apply or_else_trim.
  assert (Hc : TrimSpace contract = contract).
  { unfold contract, or_else. case_decide; [apply Ha|apply TrimSpace_idem]. }
  assert (Haa : or_else addr contract = addr).
  { unfold contract, addr, or_else. repeat case_decide; congruence. }
  assert (Hcc : or_else contract addr = contract).
  { unfold contract, addr, or_else. repeat case_decide; congruence. }
  assert (Hs : or_else (or_else (TrimSpace (DisplaySymbol a)) (TrimSpace (DisplayName a)))
    (TrimSpace (DisplayName a)) = or_else (TrimSpace (DisplaySymbol a)) (TrimSpace (DisplayName a))).
  { unfold or_else. repeat case_decide; congruence. }
  rewrite !Hkt, !TrimSpace_idem, !or_else_trim, Ha, Hc, Haa, Hcc, Hs.
  rewrite (Hkind _ addr addr) by done. reflexivity.
Qed.

Lemma with_denoms_self a : with_denoms (Denom a) (DestinationDenom a) a = a.
Proof. by destruct a. Qed.

Lemma derive_twice a :
  deriveAssetMetadata (canonicalAsset (deriveAssetMetadata (canonicalAsset a))) =
  deriveAssetMetadata (canonicalAsset a).
Proof. apply derive_canonical_twice. Qed.

Lemma derive_canonical_canonical a :
  deriveAssetMetadata (canonicalAsset (canonicalAsset a)) = deriveAssetMetadata (canonicalAsset a).
Proof. rewrite <- (with_denoms_self (canonicalAsset a)) at 1. apply derive_canonical_twice. Qed.

Lemma settled_derived a :
  ValidateBasic (deriveAssetMetadata (canonicalAsset a)) = Ok tt ->
  settled (deriveAssetMetadata (canonicalAsset a)).
Proof. intros Hv. split; [done|apply derive_twice]. Qed.

Lemma settled_trimmed a : settled a -> assetKey (AssetID a) = AssetID a.
Proof. intros [_ <-]. apply TrimSpace_idem. Qed.

Lemma settled_with_enabled b a : settled a -> settled (with_enabled b a).
Proof.
  intros [Hv Hd]. split; [exact Hv|].
  change (with_enabled b (deriveAssetMetadata (canonicalAsset a)) = with_enabled b a).
  by rewrite Hd.
Qed.

(** The two denoms of a stored asset agree, and they are not blank. *)
Lemma settled_denoms a : settled a -> Denom a = DestinationDenom a.
Proof. intros [_ <-]. reflexivity. Qed.

Lemma derived_denom_head a : exists t, deriveDestinationDenom a = String (Ascii.ascii_of_N 117) t.
Proof. unfold deriveDestinationDenom. cbv zeta. repeat case_decide; eexists; reflexivity. Qed.

Lemma settled_denom_nonblank a : settled a -> TrimSpace (DestinationDenom a) <> EmptyString.
Proof.
  intros [_ <-]. cbn [deriveAssetMetadata with_denoms DestinationDenom].
  destruct (derived_denom_head (canonicalAsset a)) as [t ->].
  by apply TrimSpace_graphic_head.
Qed.

(** ** The registry invariant *)

Definition denoms_distinct (m : gmap string Asset) : Prop :=
  forall k1 k2 a1 a2, m !! k1 = Some a1 -> m !! k2 = Some a2 ->
    EqualFold (DestinationDenom a1) (DestinationDenom a2) = true -> k1 = k2.

Definition entry_ok (key : string) (a : Asset) : Prop := key = AssetID a /\ settled a.

Definition wf (k : Keeper) : Prop :=
  map_Forall entry_ok (assets k) /\ denoms_distinct (assets k).

Section invariant.
Context `{MapIteration}.

Lemma denom_taken_false k a key :
  denom_taken k a key = false <->
  forall key' a', assets k !! key' = Some a' -> key' <> key ->
    EqualFold (DestinationDenom a') (DestinationDenom a) = false.
Proof.
  unfold denom_taken. rewrite <- not_true_iff_false, existsb_exists. split.
  - intros Hn key' a' Hk Hne. apply not_true_iff_false. intros He. apply Hn.
    exists (key', a'). split; [|simpl; by rewrite bool_decide_eq_false_2].
    apply list_elem_of_In. rewrite range_perm. by apply elem_of_map_to_list.
  - intros Hall ([key' a'] & Hin & Hb). simpl in Hb.
    apply list_elem_of_In in Hin. rewrite range_perm in Hin. apply elem_of_map_to_list in Hin.
    apply andb_true_iff in Hb as [Hne He]. apply negb_true_iff, bool_decide_eq_false_1 in Hne.
    rewrite (Hall _ _ Hin Hne) in He. done.
Qed.

Lemma EqualFold_sym a b : EqualFold a b = true -> EqualFold b a = true.
Proof. apply EqualFold_equiv. Qed.

Lemma registry_wf_insert k key a :
  wf k -> entry_ok key a ->
  (forall key' a', assets k !! key' = Some a' -> key' <> key ->
    EqualFold (DestinationDenom a') (DestinationDenom a) = false) ->
  wf (set_assets <[key := a]> k).
Proof.
  intros [Hm Hd] Hok Hfree. split.
  - by apply map_Forall_insert_2.
  - intros k1 k2 a1 a2 H1 H2 He. simpl in *.
    destruct (decide (k1 = key)) as [->|N1], (decide (k2 = key)) as [->|N2]; [done|..].
    + rewrite lookup_insert_eq in H1. rewrite lookup_insert_ne in H2 by done.
      simplify_eq. apply EqualFold_sym in He. by rewrite (Hfree k2 a2) in He.
    + rewrite lookup_insert_ne in H1 by done. rewrite lookup_insert_eq in H2.
      simplify_eq. by rewrite (Hfree k1 a1) in He.
    + rewrite lookup_insert_ne in H1, H2 by done. by eapply Hd.
Qed.

Lemma assets_persist k : assets (snd (persist k)) = assets k.
Proof. unfold persist, modify. simpl. by case_match. Qed.

Lemma registry_persist_wf : preserves wf persist.
Proof. intros k Hk. unfold wf. by rewrite assets_persist. Qed.

Lemma import_asset_ok a k k' :
  import_asset a k = (Ok tt, k') ->
  let stored := deriveAssetMetadata (canonicalAsset a) in
  settled stored /\ denom_taken k stored (AssetID stored) = false /\
  k' = set_assets <[AssetID stored := stored]> k.
Proof.
  intros Heq stored. unfold import_asset in Heq. cbv zeta in Heq.
  unfold ensureDestinationDenomAvailable, bind, lift, query, ensure, modify in Heq.
  fold stored in Heq. destruct (ValidateBasic stored) as [[]|] eqn:Hv; [|done].
  assert (Hs : settled stored) by by apply settled_derived.
  rewrite (settled_trimmed _ Hs) in Heq. destruct (denom_taken _ _ _); [done|].
  by injection Heq as <-.
Qed.

Lemma import_asset_err a k e k' : import_asset a k = (Err e, k') -> k' = k.
Proof.
  unfold import_asset, ensureDestinationDenomAvailable, bind, lift, query, ensure, modify.
  repeat (case_match; simplify_eq); congruence.
Qed.

Lemma import_asset_wf a : preserves wf (import_asset a).
Proof.
  intros k Hk. destruct (import_asset a k) as [[[]|e] k'] eqn:Heq; simpl.
  - apply import_asset_ok in Heq as (Hs & Hd & ->). apply registry_wf_insert; [done|by split|].
    by apply denom_taken_false.
  - by apply import_asset_err in Heq as ->.
Qed.

Lemma wf_empty k : wf (set_assets (fun _ => ∅) k).
Proof. split; [apply map_Forall_empty|]. intros k1 k2 a1 a2 H1. simpl in H1. by simplify_map_eq. Qed.

Lemma RegisterAsset_as_import a k :
  let stored := deriveAssetMetadata (canonicalAsset a) in
  RegisterAsset a k =
    (if is_ok (ValidateBasic stored) && bool_decide (is_Some (assets k !! AssetID stored))
     then throw (Sentinel ErrAssetAlreadyExists) else import_asset a ;;; persist) k.
Proof.
  intros stored. unfold RegisterAsset, import_asset. cbv zeta. fold stored.
  unfold bind at 1, lift at 1. destruct (ValidateBasic stored) as [[]|] eqn:Hv; cbn [is_ok andb].
  - rewrite (settled_trimmed stored) by by apply settled_derived.
    unfold bind, gets, throw_if, lift. case_bool_decide; [done|].
    unfold ret, ensureDestinationDenomAvailable, query, ensure. by destruct (denom_taken _ _ _).
  - by unfold bind, lift.
Qed.

Lemma RegisterAsset_wf a : preserves wf (RegisterAsset a).
Proof.
  intros k Hk. rewrite RegisterAsset_as_import. case_match; [done|].
  apply preserves_bind; auto using import_asset_wf, registry_persist_wf.
Qed.

Lemma ImportAssets_wf l : preserves wf (ImportAssets l).
Proof.
  apply preserves_bind; [apply preserves_modify; intros k _; apply wf_empty|].
  intros _. apply preserves_bind; [|intros; apply registry_persist_wf].
  apply preserves_for_each. intros. apply import_asset_wf.
Qed.

Lemma setAssetEnabled_wf id b : preserves wf (setAssetEnabled id b).
Proof.
  intros k Hk. unfold setAssetEnabled, bind, gets, some_or.
  destruct (assets k !! assetKey id) as [x|] eqn:Hx; [|done].
  apply registry_persist_wf. destruct Hk as [Hm Hd]. destruct (Hm _ _ Hx) as [Hid Hs].
  apply registry_wf_insert; [by split|split; [done|by apply settled_with_enabled]|].
  intros key' a' Ha' Hne. apply not_true_iff_false. intros He. apply Hne. by eapply Hd.
Qed.

(** How the two mutators change the map of assets. *)
Lemma RegisterAsset_assets a k :
  assets (snd (RegisterAsset a k)) = assets k \/
  exists key stored, assets k !! key = None /\
    assets (snd (RegisterAsset a k)) = <[key := stored]> (assets k).
Proof.
  rewrite RegisterAsset_as_import. set (stored := deriveAssetMetadata (canonicalAsset a)).
  case_match eqn:Hex; [by left|]. unfold bind.
  destruct (import_asset a k) as [[[]|e] k'] eqn:Heq.
  - apply import_asset_ok in Heq as (Hs & _ & ->). fold stored in Hs |- *.
    right. exists (AssetID stored), stored. rewrite assets_persist. split; [|done].
    destruct Hs as [Hv _]. rewrite Hv in Hex. cbn [is_ok andb] in Hex.
    apply bool_decide_eq_false_1 in Hex. by apply eq_None_not_Some.
  - left. by apply import_asset_err in Heq as ->.
Qed.

Lemma setAssetEnabled_assets id b k :
  assets (snd (setAssetEnabled id b k)) = assets k \/
  exists key a, assets k !! key = Some a /\
    assets (snd (setAssetEnabled id b k)) = <[key := with_enabled b a]> (assets k).
Proof.
  unfold setAssetEnabled, bind, gets, some_or.
  destruct (assets k !! assetKey id) as [a|] eqn:Ha; [|by left].
  right. exists (assetKey id), a. cbn [ret modify]. by rewrite assets_persist.
Qed.

(** Every operation of the registry keeps its invariant, on success and
    on error: each stored asset is valid, in canonical form, stored under its
    own identifier and carries the denom derived from it, and no two assets
    have destination denoms that are equal up to letter case. *)
Theorem registry_wf_preserved (a : Asset) (assetID : string) (l : list Asset) :
  preserves wf (RegisterAsset a) /\ preserves wf (EnableAsset assetID) /\
  preserves wf (DisableAsset assetID) /\ preserves wf (ImportAssets l) /\
  preserves wf Flush.
Proof.
  split_and!; eauto using RegisterAsset_wf, ImportAssets_wf, registry_persist_wf;
    apply setAssetEnabled_wf.
Qed.
End invariant.

(** ** Functional behaviour and persistence *)

Section spec.
Context `{MapIteration}.

Lemma GetAsset_persist k id : GetAsset (snd (persist k)) id = GetAsset k id.
Proof. unfold GetAsset. by rewrite assets_persist. Qed.

(** Registration, branch by branch. The asset is canonicalised and its
    denoms derived; an invalid asset, an identifier already present and a
    destination denom already used by another asset (letter case ignored) are
    refused and leave the registry as it was; otherwise exactly the entry of
    that identifier is added. *)
Theorem RegisterAsset_spec (a : Asset) (k : Keeper) :
  let stored := deriveAssetMetadata (canonicalAsset a) in
  match ValidateBasic stored with
  | Err e => RegisterAsset a k = (Err e, k)
  | Ok _ =>
      if bool_decide (is_Some (GetAsset k (AssetID a)))
         || denom_taken k stored (AssetID stored)
      then RegisterAsset a k = (Err (Sentinel ErrAssetAlreadyExists), k)
      else fst (RegisterAsset a k) = Ok tt /\
           forall id, GetAsset (snd (RegisterAsset a k)) id =
             if decide (TrimSpace id = TrimSpace (AssetID a)) then Some stored
             else GetAsset k id
  end.
Proof.
  intros stored. rewrite RegisterAsset_as_import. fold stored.
  assert (Hk : TrimSpace (AssetID stored) = AssetID stored) by apply TrimSpace_idem.
  unfold import_asset, bind, lift, ensureDestinationDenomAvailable, query, ensure.
  fold stored. unfold assetKey. rewrite Hk.
  change (GetAsset k (AssetID a)) with (assets k !! AssetID stored).
  destruct (ValidateBasic stored) as [[]|e] eqn:Hv; cbn [is_ok andb]; [|done].
  case_bool_decide as Hex; cbn [orb]; [done|].
  destruct (denom_taken _ _ _) eqn:Hd; [done|]. split; [done|].
  intros id. cbn [modify fst snd]. rewrite GetAsset_persist. unfold GetAsset, assetKey.
  cbn [assets set_assets]. change (AssetID stored) with (TrimSpace (AssetID a)).
  case_decide as Heq; [by rewrite Heq, lookup_insert_eq|].
  by rewrite lookup_insert_ne by congruence.
Qed.

(** Enabling or disabling an unknown asset fails with
    [ErrAssetNotFound] and changes nothing; otherwise only the [Enabled] flag
    of that asset changes. *)
Theorem setAssetEnabled_spec (k : Keeper) (assetID : string) (enabled : bool) :
  match GetAsset k assetID with
  | None => setAssetEnabled assetID enabled k = (Err (Sentinel ErrAssetNotFound), k)
  | Some a =>
      fst (setAssetEnabled assetID enabled k) = Ok tt /\
      forall id, GetAsset (snd (setAssetEnabled assetID enabled k)) id =
        if decide (TrimSpace id = TrimSpace assetID) then Some (with_enabled enabled a)
        else GetAsset k id
  end.
Proof.
  unfold setAssetEnabled, bind, gets, some_or, GetAsset.
  destruct (assets k !! assetKey assetID) as [a|]; [|done]. split; [done|].
  intros id. cbn [modify ret fst snd]. rewrite assets_persist. unfold assetKey.
  cbn [assets set_assets]. case_decide as Heq; [by rewrite Heq, lookup_insert_eq|].
  by rewrite lookup_insert_ne by congruence.
Qed.

Definition asset_doc (_ : string) (a : Asset) : document := AssetDoc (canonicalAsset a).

Lemma wf_trimmed_keys k : wf k -> trimmed_keys (assets k).
Proof.
  intros [Hm _] key a Ha. destruct (Hm _ _ Ha) as [-> Hs]. by apply settled_trimmed.
Qed.

Lemma load_visit_ok k s key a acc :
  wf k -> assets k !! key = Some a -> acc ⊆ assets k -> acc !! key = None ->
  load_visit key (asset_doc key a) (mk_keeper acc (Some s)) =
    (Ok tt, mk_keeper (<[key := a]> acc) (Some s)).
Proof.
  intros [Hm Hd] Ha Hsub Hfresh. destruct (Hm _ _ Ha) as [-> [Hv Hc]].
  unfold load_visit, asset_doc, import_asset, bind, lift.
  rewrite derive_canonical_canonical, Hc, Hv.
  rewrite settled_trimmed by by split.
  unfold ensureDestinationDenomAvailable, query, ensure.
  destruct (denom_taken _ _ _) eqn:Htaken; [|done]. exfalso.
  cut (denom_taken (mk_keeper acc (Some s)) a (AssetID a) = false); [congruence|].
  apply denom_taken_false. intros key' a' Ha' Hne. apply not_true_iff_false. intros He.
  apply Hne. eapply Hd; [|exact Ha|exact He]. by eapply lookup_weaken.
Qed.

(** After a persisted operation, opening the store again rebuilds
    exactly the same registry (for a non-empty registry, or when no legacy
    snapshot is stored), whatever the order in which the map was written. *)
Theorem registry_reload (k : Keeper) (s : JSONPrefixStore document) :
  wf k -> prefixStore k = Some s ->
  assets k <> ∅ \/ kvs s !! stateKey = None ->
  exists s', prefixStore (snd (persist k)) = Some s' /\ committed s' = kvs s' /\
    NewStoreKeeper s' = Ok (snd (persist k)).
Proof.
  intros Hwf Hs Hne. unfold persist, modify. cbn [snd]. rewrite Hs. cbn [prefixStore].
  set (saved := save_entries assetPrefix asset_doc (range (assets k)) (ClearPrefix s assetPrefix)).
  change (save_entries assetPrefix _ _ _) with saved.
  assert (Hh : holds (Commit saved) assetPrefix (records_of asset_doc (assets k))).
  { apply holds_commit; [intros x; reflexivity|]. apply holds_save_map.
    - by apply wf_trimmed_keys.
    - apply range_perm.
    - apply holds_clear. }
  exists (Commit saved). split_and!; [done..|]. unfold NewStoreKeeper.
  rewrite (HasAny_holds _ _ _ Hh). case_bool_decide as He; cbn [negb].
  - apply fmap_nil_inv, map_to_list_empty_iff in He. destruct Hne as [?|Hst]; [done|].
    unfold HasState. rewrite lookup_Commit_ne by done. unfold saved.
    rewrite lookup_save_entries_other by (intros i; discriminate).
    rewrite lookup_ClearPrefix. change (HasPrefix stateKey (prefixBytes assetPrefix)) with false.
    cbn iota. rewrite Hst, bool_decide_eq_false_2 by (by intros []). by rewrite He.
  - unfold loadFromPrefixStore, bind at 1. cbn [modify set_assets prefixStore].
    rewrite (LoadAll_map asset_doc (Commit saved) _ (assets k)
               (fun m => mk_keeper m (Some (Commit saved)))); [done|done|by apply wf_trimmed_keys|].
    intros. by apply (load_visit_ok k).
Qed.
End spec.

(** ** Concrete runs *)

Definition demo_usdc : Asset :=
  {| AssetID := "eth.usdc"; SourceChainID := "11155111"; SourceAssetKind := "erc20";
     SourceAssetAddress := "0xabc"; SourceContract := EmptyString; Denom := EmptyString;
     DestinationDenom := EmptyString; Decimals := 6; DisplayName := "USD Coin";
     DisplaySymbol := "USDC"; Enabled := true |}.

Definition demo_keeper : Keeper :=
  snd (RegisterAsset demo_usdc (mk_keeper ∅ (Some empty_store))).

Example demo_denom : option_map DestinationDenom (GetAsset demo_keeper "eth.usdc") = Some "uethusdc"%string.
Proof. vm_compute. reflexivity. Qed.

Lemma registry_demo_keeper_wf : wf demo_keeper.
Proof. apply RegisterAsset_wf, (wf_empty (mk_keeper ∅ (Some empty_store))). Qed.

Example registry_reload_witness :
  exists s', prefixStore (snd (persist demo_keeper)) = Some s' /\ committed s' = kvs s' /\
    NewStoreKeeper s' = Ok (snd (persist demo_keeper)).
Proof.
  eapply registry_reload.
  - exact registry_demo_keeper_wf.
  - vm_compute. reflexivity.
  - left. intros He. apply (f_equal size) in He. vm_compute in He. discriminate He.
Defined.
