(* ===== verification/Limits.v ===== *)
(** [x/limits]: per-asset rate limits, their usage windows measured in block
    heights, and their persistence. *)

From S2P Require Import Prelude.
From S2P Require Import GoStrings.
From S2P Require Import Errors.
From S2P Require Import PrefixStore.
From stdpp Require Import strings.

(** ** [types.RateLimit] and [types.WindowUsage]

    A [*big.Int] is an [option Z], [None] for nil. *)

Record RateLimit := mk_limit {
  AssetID : string;
  WindowBlocks : N;            (* uint64 *)
  MaxAmount : option Z
}.

Record WindowUsage := mk_usage {
  UsageAssetID : string;
  WindowStart : N;             (* uint64 *)
  UsedAmount : option Z
}.

Definition zero_usage : WindowUsage := mk_usage EmptyString 0 None.

Definition blank (s : string) : bool := bool_decide (TrimSpace s = EmptyString).

Definition limit_ValidateBasic (l : RateLimit) : result unit :=
  if blank (AssetID l) then Err (Wrapf ErrInvalidRateLimit "missing asset id") else
  if N.eqb (WindowBlocks l) 0 then Err (Wrapf ErrInvalidRateLimit "missing window blocks") else
  match MaxAmount l with
  | None => Err (Wrapf ErrInvalidRateLimit "missing max amount")
  | Some m => if (m <=? 0)%Z then Err (Wrapf ErrInvalidRateLimit "missing max amount") else Ok tt
  end.

Definition usage_ValidateBasic (u : WindowUsage) : result unit :=
  if blank (UsageAssetID u) then Err (Wrapf ErrInvalidRateLimit "missing usage asset id") else
  match UsedAmount u with
  | None => Err (Wrapf ErrInvalidRateLimit "invalid used amount")
  | Some m => if (m <? 0)%Z then Err (Wrapf ErrInvalidRateLimit "invalid used amount") else Ok tt
  end.

(** ** The keeper *)

Record StateSnapshot := mk_snapshot {
  Limits : list RateLimit;
  Usage : list WindowUsage
}.

Inductive document :=
| LimitDoc (l : RateLimit)
| UsageDoc (u : WindowUsage)
| LegacyLimits (l : list RateLimit)
| StateDoc (st : StateSnapshot).

Record Keeper := mk_keeper {
  limits : gmap string RateLimit;
  usage : gmap string WindowUsage;
  prefixStore : option (JSONPrefixStore document)
}.

Definition limitPrefix : string := "limit".
Definition usagePrefix : string := "usage".

Definition NewKeeper : Keeper := mk_keeper ∅ ∅ None.

Definition set_limits f (k : Keeper) := mk_keeper (f (limits k)) (usage k) (prefixStore k).
Definition set_usage f (k : Keeper) := mk_keeper (limits k) (f (usage k)) (prefixStore k).

Definition limitKey (assetID : string) : string := TrimSpace assetID.

Definition cloneBigInt (v : option Z) : option Z := Some (default 0%Z v).

Definition canonicalLimit (l : RateLimit) : RateLimit :=
  mk_limit (TrimSpace (AssetID l)) (WindowBlocks l) (MaxAmount l).

Definition canonicalUsage (u : WindowUsage) : WindowUsage :=
  mk_usage (limitKey (UsageAssetID u)) (WindowStart u) (cloneBigInt (UsedAmount u)).

Definition GetLimit (k : Keeper) (assetID : string) : option RateLimit :=
  limits k !! limitKey assetID.

(** The window in force at a height: the recorded one while it lasts, an empty
    one starting at this height once it has expired. *)
Definition activeUsage (limit : RateLimit) (u : WindowUsage) (atHeight : N) : WindowUsage :=
  let u := canonicalUsage u in
  let u := if decide (UsageAssetID u = EmptyString)
           then mk_usage (AssetID limit) (WindowStart u) (UsedAmount u) else u in
  let u := match UsedAmount u with
           | None => mk_usage (UsageAssetID u) (WindowStart u) (Some 0%Z)
           | Some _ => u
           end in
  if N.eqb (WindowStart u) 0 then u
  else if (u64_add (WindowStart u) (WindowBlocks limit) <=? atHeight)%N
  then mk_usage (AssetID limit) atHeight (Some 0%Z)
  else u.

Definition usage_entry (k : Keeper) (assetID : string) : WindowUsage :=
  default zero_usage (usage k !! limitKey assetID).

Definition CurrentUsage (k : Keeper) (assetID : string) (atHeight : N) : option WindowUsage :=
  match usage k !! limitKey assetID with
  | None => None
  | Some record =>
      match GetLimit k assetID with
      | None => None
      | Some limit =>
          let record := activeUsage limit record atHeight in
          match UsedAmount record with
          | None => None
          | Some u => if (u =? 0)%Z then None else Some (canonicalUsage record)
          end
      end
  end.

Definition CheckTransferAtHeight (k : Keeper) (assetID : string) (amount : option Z)
    (atHeight : N) : result unit :=
  match amount with
  | None => Err (Sentinel ErrInvalidTransfer)
  | Some amt =>
      if (amt <? 0)%Z then Err (Sentinel ErrInvalidTransfer) else
      match GetLimit k assetID with
      | None => Err (Sentinel ErrLimitNotFound)
      | Some limit =>
          let current := activeUsage limit (usage_entry k assetID) atHeight in
          let next := (default 0 (UsedAmount current) + amt)%Z in
          match MaxAmount limit with
          | None => Err nil_dereference
          | Some max => ensure (max <? next)%Z (Sentinel ErrRateLimitExceeded)
          end
      end
  end.

Definition CheckTransfer (k : Keeper) (assetID : string) (amount : option Z) : result unit :=
  CheckTransferAtHeight k assetID amount 0.

Section ops.
Context `{MapIteration}.

Definition persist : Op Keeper unit := modify (fun k =>
  match prefixStore k with
  | None => k
  | Some s =>
      let s := ClearPrefix s limitPrefix in
      let s := ClearPrefix s usagePrefix in
      let s := save_entries limitPrefix (fun _ l => LimitDoc (canonicalLimit l))
                 (range (limits k)) s in
      let s := save_entries usagePrefix (fun _ u => UsageDoc (canonicalUsage u))
                 (range (usage k)) s in
      mk_keeper (limits k) (usage k) (Some (Commit s))
  end).

Definition SetLimit (limit : RateLimit) : Op Keeper unit :=
  lift (limit_ValidateBasic limit) ;;;
  let stored := canonicalLimit limit in
  modify (set_limits <[limitKey (AssetID stored) := stored]>) ;;;
  persist.

Definition RecordTransferAtHeight (assetID : string) (amount : option Z) (atHeight : N)
    : Op Keeper unit :=
  query (fun k => CheckTransferAtHeight k assetID amount atHeight) ;;;
  modify (fun k =>
    let limit := default (mk_limit EmptyString 0 None) (GetLimit k assetID) in
    let current := activeUsage limit (usage_entry k assetID) atHeight in
    let used := (default 0 (UsedAmount current) + default 0 amount)%Z in
    let start := if N.eqb (WindowStart current) 0 then atHeight else WindowStart current in
    let current := mk_usage (AssetID limit) start (Some used) in
    set_usage <[limitKey assetID := canonicalUsage current]> k) ;;;
  persist.

Definition ExportLimits (k : Keeper) : list RateLimit :=
  map (fun e => canonicalLimit e.2) (range (limits k)).
Definition ExportUsage (k : Keeper) : list WindowUsage :=
  map (fun e => canonicalUsage e.2) (range (usage k)).
Definition ExportState (k : Keeper) : StateSnapshot :=
  mk_snapshot (ExportLimits k) (ExportUsage k).

Definition ImportLimits (l : list RateLimit) : Op Keeper unit :=
  modify (set_limits (fun _ => ∅)) ;;;
  for_each (fun limit =>
    lift (limit_ValidateBasic limit) ;;;
    let stored := canonicalLimit limit in
    modify (set_limits <[limitKey (AssetID stored) := stored]>)) l ;;;
  persist.

Definition ImportUsage (l : list WindowUsage) : Op Keeper unit :=
  modify (set_usage (fun _ => ∅)) ;;;
  for_each (fun record =>
    lift (usage_ValidateBasic record) ;;;
    modify (set_usage <[limitKey (UsageAssetID record) := canonicalUsage record]>)) l ;;;
  persist.

Definition ImportState (st : StateSnapshot) : Op Keeper unit :=
  ImportLimits (Limits st) ;;;
  ImportUsage (Usage st).

Definition Flush : Op Keeper unit := persist.

(** [json.Unmarshal] into a [RateLimit] or a [WindowUsage]: fields are
    matched by name, absent ones stay zero; an array is an error. *)
Definition decode_limit (d : document) : result RateLimit :=
  match d with
  | LimitDoc l => Ok l
  | UsageDoc u => Ok (mk_limit (UsageAssetID u) 0 None)
  | StateDoc _ => Ok (mk_limit EmptyString 0 None)
  | LegacyLimits _ => Err decode_error
  end.
Definition decode_usage (d : document) : result WindowUsage :=
  match d with
  | UsageDoc u => Ok u
  | LimitDoc l => Ok (mk_usage (AssetID l) 0 None)
  | StateDoc _ => Ok zero_usage
  | LegacyLimits _ => Err decode_error
  end.

Definition load_limit (_ : string) (d : document) : Op Keeper unit :=
  let! value := lift (decode_limit d) in
  let limit := canonicalLimit value in
  modify (set_limits <[limitKey (AssetID limit) := limit]>).
Definition load_usage (_ : string) (d : document) : Op Keeper unit :=
  let! value := lift (decode_usage d) in
  let record := canonicalUsage value in
  modify (set_usage <[limitKey (UsageAssetID record) := record]>).

Definition loadFromPrefixStore (s : JSONPrefixStore document) : Op Keeper unit :=
  modify (set_limits (fun _ => ∅)) ;;;
  modify (set_usage (fun _ => ∅)) ;;;
  LoadAll s limitPrefix load_limit ;;;
  LoadAll s usagePrefix load_usage.

Definition NewStoreKeeper (s : JSONPrefixStore document) : result Keeper :=
  let keeper := mk_keeper ∅ ∅ (Some s) in
  let run (op : Op Keeper unit) :=
    match op keeper with (Ok _, k) => Ok k | (Err e, _) => Err e end in
  if HasAny s limitPrefix || HasAny s usagePrefix then run (loadFromPrefixStore s)
  else match state_Load s with
       | Err e => Err e
       | Ok None => Ok keeper
       | Ok (Some (LegacyLimits l)) => run (ImportLimits l)
       | Ok (Some (StateDoc st)) => run (ImportState st)
       | Ok (Some (LimitDoc _ | UsageDoc _)) => run (ImportState (mk_snapshot [] []))
       end.
End ops.

(** ** The keeper invariant *)

Definition limit_ok (key : string) (l : RateLimit) : Prop :=
  key = AssetID l /\ trimmed key /\ limit_ValidateBasic l = Ok tt.

Definition usage_ok (key : string) (u : WindowUsage) : Prop :=
  key = UsageAssetID u /\ trimmed key /\ usage_ValidateBasic u = Ok tt.

Definition wf (k : Keeper) : Prop :=
  map_Forall limit_ok (limits k) /\ map_Forall usage_ok (usage k).

Lemma limit_ValidateBasic_ok l :
  limit_ValidateBasic l = Ok tt ->
  TrimSpace (AssetID l) <> EmptyString /\ WindowBlocks l <> 0%N /\
  exists m, MaxAmount l = Some m /\ (0 < m)%Z.
Proof.
  unfold limit_ValidateBasic, blank. case_bool_decide; [done|].
  destruct (N.eqb_spec (WindowBlocks l) 0); [done|].
  destruct (MaxAmount l) as [m|]; [|done].
  destruct (Z.leb_spec m 0); [done|]. eauto.
Qed.

Lemma usage_ValidateBasic_ok u :
  usage_ValidateBasic u = Ok tt <->
  TrimSpace (UsageAssetID u) <> EmptyString /\ exists m, UsedAmount u = Some m /\ (0 <= m)%Z.
Proof.
  unfold usage_ValidateBasic, blank. case_bool_decide as Hb.
  { split; [done|]. by intros [? _]. }
  destruct (UsedAmount u) as [m|]; [|split; [done|by intros [_ (? & [=] & _)]]].
  destruct (Z.ltb_spec m 0); split; try done; [|intros _; split; [done|by exists m]].
  intros [_ (m' & [= <-] & Hm)]. lia.
Qed.

Lemma canonicalLimit_valid l :
  limit_ValidateBasic l = Ok tt ->
  limit_ok (limitKey (AssetID (canonicalLimit l))) (canonicalLimit l).
Proof.
  intros Hv. unfold limit_ok, canonicalLimit, limitKey. simpl.
  rewrite TrimSpace_idem. split_and!; [done|apply TrimSpace_trimmed|].
  unfold limit_ValidateBasic, blank in *. simpl. by rewrite TrimSpace_idem.
Qed.

Lemma canonicalUsage_valid u :
  usage_ValidateBasic u = Ok tt -> usage_ok (limitKey (UsageAssetID u)) (canonicalUsage u).
Proof.
  intros Hv. unfold usage_ok, canonicalUsage, limitKey. simpl.
  split_and!; [done|apply TrimSpace_trimmed|].
  apply usage_ValidateBasic_ok in Hv as (Hne & m & Hm & Hpos).
  apply usage_ValidateBasic_ok. simpl. rewrite TrimSpace_idem, Hm. eauto.
Qed.

Lemma GetLimit_ok k id l : wf k -> GetLimit k id = Some l -> limit_ok (limitKey id) l.
Proof. intros [Hl _] Hg. by apply Hl. Qed.

Lemma usage_entry_nonneg k id : wf k -> (0 <= default 0 (UsedAmount (usage_entry k id)))%Z.
Proof.
  intros [_ Hu]. unfold usage_entry. destruct (usage k !! limitKey id) as [u|] eqn:Hk; simpl; [|lia].
  destruct (Hu _ _ Hk) as (_ & _ & Hv). apply usage_ValidateBasic_ok in Hv as (_ & m & -> & Hm).
  done.
Qed.

(** The start and the amount of the window in force. *)
Definition window_expired (limit : RateLimit) (u : WindowUsage) (h : N) : bool :=
  negb (N.eqb (WindowStart u) 0) && (u64_add (WindowStart u) (WindowBlocks limit) <=? h)%N.

Lemma activeUsage_start limit u h :
  WindowStart (activeUsage limit u h) = if window_expired limit u h then h else WindowStart u.
Proof.
  unfold activeUsage, window_expired, canonicalUsage, cloneBigInt. simpl.
  case_decide; simpl; destruct (N.eqb (WindowStart u) 0); simpl; try done; by case_match.
Qed.

Lemma activeUsage_used limit u h :
  UsedAmount (activeUsage limit u h) =
    Some (if window_expired limit u h then 0%Z else default 0%Z (UsedAmount u)).
Proof.
  unfold activeUsage, window_expired, canonicalUsage, cloneBigInt. simpl.
  case_decide; simpl; destruct (N.eqb (WindowStart u) 0); simpl; try done; by case_match.
Qed.

(** The amount already consumed in the window in force at height [h]. *)
Definition consumed (k : Keeper) (id : string) (h : N) : Z :=
  match GetLimit k id with
  | None => 0
  | Some limit => default 0%Z (UsedAmount (activeUsage limit (usage_entry k id) h))
  end.

Section lemmas.
Context `{MapIteration}.

Lemma limits_persist k : limits (snd (persist k)) = limits k.
Proof. unfold persist, modify. simpl. by case_match. Qed.
Lemma usage_persist k : usage (snd (persist k)) = usage k.
Proof. unfold persist, modify. simpl. by case_match. Qed.
Lemma limits_persist_wf : preserves wf persist.
Proof. intros k Hk. unfold wf. by rewrite limits_persist, usage_persist. Qed.
Lemma GetLimit_persist k id : GetLimit (snd (persist k)) id = GetLimit k id.
Proof. unfold GetLimit. by rewrite limits_persist. Qed.
Lemma usage_entry_persist k id : usage_entry (snd (persist k)) id = usage_entry k id.
Proof. unfold usage_entry. by rewrite usage_persist. Qed.

(** The checks that have passed when a transfer is allowed. *)
Lemma CheckTransferAtHeight_ok k id amount h :
  CheckTransferAtHeight k id amount h = Ok tt <->
  exists amt limit max, amount = Some amt /\ GetLimit k id = Some limit /\
    MaxAmount limit = Some max /\ (0 <= amt)%Z /\ (consumed k id h + amt <= max)%Z.
Proof.
  unfold CheckTransferAtHeight, consumed, ensure. destruct amount as [amt|]; [|split; [done|by intros (? & ? & ? & [=] & _)]].
  destruct (Z.ltb_spec amt 0).
  { split; [done|]. intros (? & ? & ? & [= <-] & _ & _ & ? & _). lia. }
  destruct (GetLimit k id) as [limit|]; [|split; [done|by intros (? & ? & ? & _ & [=] & _)]].
  destruct (MaxAmount limit) as [max|] eqn:Hmax; [|split; [done|intros (? & ? & ? & _ & [= <-] & Hm & _); congruence]].
  match goal with |- context [Z.ltb ?a ?b] => destruct (Z.ltb_spec a b) end.
  - split; [done|]. intros (? & ? & ? & [= <-] & [= <-] & Hm & _ & ?).
    rewrite Hmax in Hm. simplify_eq. lia.
  - split; [|done]. intros _. eauto 10.
Qed.

(** The state an accepted transfer leaves behind. *)
Definition recorded (k : Keeper) (id : string) (limit : RateLimit) (amt : Z) (h : N) : WindowUsage :=
  let expired := window_expired limit (usage_entry k id) h in
  let start := if expired then h else WindowStart (usage_entry k id) in
  mk_usage (limitKey (AssetID limit)) (if N.eqb start 0 then h else start)
    (Some (consumed k id h + amt)%Z).

Lemma RecordTransferAtHeight_run k id amount h :
  RecordTransferAtHeight id amount h k =
    match CheckTransferAtHeight k id amount h with
    | Err e => (Err e, k)
    | Ok _ =>
        let limit := default (mk_limit EmptyString 0 None) (GetLimit k id) in
        persist (set_usage <[limitKey id := recorded k id limit (default 0%Z amount) h]> k)
    end.
Proof.
  unfold RecordTransferAtHeight, bind, query.
  destruct (CheckTransferAtHeight k id amount h) as [[]|e] eqn:Hc; [|done].
  apply CheckTransferAtHeight_ok in Hc as (amt & limit & max & -> & Hl & _).
  unfold modify. rewrite Hl. cbn [default from_option Datatypes.id]. unfold recorded, canonicalUsage, cloneBigInt. simpl.
  rewrite !activeUsage_start, !activeUsage_used. unfold consumed. rewrite Hl.
  by rewrite !activeUsage_used.
Qed.

Lemma consumed_nonneg k id h : wf k -> (0 <= consumed k id h)%Z.
Proof.
  intros Hwf. unfold consumed. destruct (GetLimit k id); [|lia].
  rewrite activeUsage_used. simpl. case_match; [lia|]. by apply usage_entry_nonneg.
Qed.

Lemma SetLimit_wf l : preserves wf (SetLimit l).
Proof.
  intros k Hk. unfold SetLimit, bind, lift.
  destruct (limit_ValidateBasic l) as [[]|] eqn:Hv; [|done]. apply limits_persist_wf.
  destruct Hk as [Hl Hu]. split; [|done]. apply map_Forall_insert_2; [|done].
  by apply canonicalLimit_valid.
Qed.

Lemma RecordTransferAtHeight_wf id amount h : preserves wf (RecordTransferAtHeight id amount h).
Proof.
  intros k Hk. rewrite RecordTransferAtHeight_run.
  destruct (CheckTransferAtHeight k id amount h) as [[]|e] eqn:Hc; [|done].
  apply CheckTransferAtHeight_ok in Hc as (amt & limit & max & -> & Hl & _ & Hpos & _).
  apply limits_persist_wf. destruct (GetLimit_ok _ _ _ Hk Hl) as (Hid & Ht & Hv).
  pose proof (consumed_nonneg k id h Hk). destruct Hk as [Hls Hus].
  split; [done|]. apply map_Forall_insert_2; [|done]. rewrite Hl. cbn [default from_option Datatypes.id].
  unfold usage_ok, recorded. cbn [UsageAssetID].
  replace (limitKey (AssetID limit)) with (limitKey id)
    by (rewrite <- Hid; symmetry; exact Ht).
  split_and!; [done..|]. apply usage_ValidateBasic_ok. cbn [UsageAssetID UsedAmount].
  split; [|eexists; split; [done|lia]]. rewrite Ht.
  apply limit_ValidateBasic_ok in Hv as (Hne & _). rewrite Hid. intros He. apply Hne.
  by rewrite He.
Qed.

Lemma ImportLimits_wf l : preserves wf (ImportLimits l).
Proof.
  apply preserves_bind.
  { apply preserves_modify. intros k [_ Hu]. split; [apply map_Forall_empty|done]. }
  intros _. apply preserves_bind; [|intros; apply limits_persist_wf].
  apply preserves_for_each. intros x _ k Hk. unfold bind, lift.
  destruct (limit_ValidateBasic x) as [[]|] eqn:Hv; [|done].
  destruct Hk as [Hl Hu]. split; [|done]. apply map_Forall_insert_2; [|done].
  by apply canonicalLimit_valid.
Qed.

Lemma ImportUsage_wf l : preserves wf (ImportUsage l).
Proof.
  apply preserves_bind.
  { apply preserves_modify. intros k [Hl _]. split; [done|apply map_Forall_empty]. }
  intros _. apply preserves_bind; [|intros; apply limits_persist_wf].
  apply preserves_for_each. intros x _ k Hk. unfold bind, lift.
  destruct (usage_ValidateBasic x) as [[]|] eqn:Hv; [|done].
  destruct Hk as [Hl Hu]. split; [done|]. apply map_Forall_insert_2; [|done].
  by apply canonicalUsage_valid.
Qed.

(** The limits keeper keeps its invariant on every operation, on success
    and on error: every limit is valid and every recorded usage is
    non-negative, each under the trimmed asset identifier. *)
Theorem limits_wf_preserved (l : RateLimit) (id : string) (amount : option Z) (h : N)
    (st : StateSnapshot) :
  preserves wf (SetLimit l) /\ preserves wf (RecordTransferAtHeight id amount h) /\
  preserves wf (ImportState st) /\ preserves wf Flush.
Proof.
  split_and!; eauto using SetLimit_wf, RecordTransferAtHeight_wf, limits_persist_wf.
  apply preserves_bind; eauto using ImportLimits_wf, ImportUsage_wf.
Qed.
End lemmas.

(** ** Recording a transfer *)

Section spec.
Context `{MapIteration}.

Lemma RecordTransferAtHeight_other k id amount h key :
  key <> limitKey id ->
  usage (snd (RecordTransferAtHeight id amount h k)) !! key = usage k !! key.
Proof.
  intros Hne. rewrite RecordTransferAtHeight_run. case_match; [|done].
  rewrite usage_persist. cbn [set_usage usage]. by rewrite lookup_insert_ne.
Qed.

Lemma RecordTransferAtHeight_limits k id amount h :
  limits (snd (RecordTransferAtHeight id amount h k)) = limits k.
Proof. rewrite RecordTransferAtHeight_run. case_match; [|done]. by rewrite limits_persist. Qed.

Lemma window_expired_false_after limit start used h id :
  WindowBlocks limit <> 0%N -> (h + WindowBlocks limit < two64)%N ->
  start = h \/ start = 0%N \/ (h < u64_add start (WindowBlocks limit))%N ->
  window_expired limit (mk_usage id start used) h = false.
Proof.
  intros Hw Hov Hs. unfold window_expired. cbn [WindowStart].
  destruct (N.eqb_spec start 0); [done|]. cbn [negb andb]. apply N.leb_gt.
  destruct Hs as [-> | [-> | Hs]]; [|done|done].
  unfold u64_add, u64. rewrite N.mod_small by done. lia.
Qed.

(** Recording a transfer, branch by branch. A refused transfer (nil or
    negative amount, no limit, limit exceeded) returns the error of the check
    and changes nothing. An accepted one adds exactly its amount to what is
    consumed in the window in force, which stays within the limit's maximum,
    and touches no limit and no other asset. *)
Theorem RecordTransferAtHeight_spec (k : Keeper) (id : string) (amount : option Z) (h : N) :
  wf k ->
  (forall l, GetLimit k id = Some l -> h + WindowBlocks l < two64)%N ->
  match CheckTransferAtHeight k id amount h with
  | Err e => RecordTransferAtHeight id amount h k = (Err e, k)
  | Ok _ =>
      exists amt l max k', amount = Some amt /\ (0 <= amt)%Z /\
        GetLimit k id = Some l /\ MaxAmount l = Some max /\
        RecordTransferAtHeight id amount h k = (Ok tt, k') /\
        consumed k' id h = (consumed k id h + amt)%Z /\ (consumed k' id h <= max)%Z /\
        limits k' = limits k /\
        forall key, key <> limitKey id -> usage k' !! key = usage k !! key
  end.
Proof.
  intros Hwf Hov. destruct (CheckTransferAtHeight k id amount h) as [[]|e] eqn:Hc.
  2: { by rewrite RecordTransferAtHeight_run, Hc. }
  pose proof Hc as (amt & l & max & -> & Hl & Hmax & Hpos & Hle)%CheckTransferAtHeight_ok.
  exists amt, l, max, (snd (RecordTransferAtHeight id (Some amt) h k)).
  assert (Hcons : consumed (snd (RecordTransferAtHeight id (Some amt) h k)) id h =
    (consumed k id h + amt)%Z).
  { rewrite RecordTransferAtHeight_run, Hc, Hl. cbn [default from_option Datatypes.id].
    unfold consumed at 1. rewrite GetLimit_persist. change (GetLimit (set_usage _ k) id)
      with (GetLimit k id). rewrite Hl, usage_entry_persist, activeUsage_used.
    unfold usage_entry at 1 2. cbn [set_usage usage]. rewrite lookup_insert_eq.
    cbn [default from_option Datatypes.id]. unfold recorded.
    destruct (GetLimit_ok _ _ _ Hwf Hl) as (_ & _ & Hv).
    apply limit_ValidateBasic_ok in Hv as (_ & Hw & _).
    rewrite window_expired_false_after; [done|done|by apply Hov|].
    destruct (window_expired l (usage_entry k id) h) eqn:He.
    - destruct (N.eqb_spec h 0); auto.
    - unfold window_expired in He. destruct (N.eqb_spec (WindowStart (usage_entry k id)) 0); auto.
      right; right. by apply N.leb_gt. }
  split_and!; try done.
  - rewrite RecordTransferAtHeight_run, Hc. by rewrite (surjective_pairing (persist _)).
  - by rewrite Hcons.
  - apply RecordTransferAtHeight_limits.
  - intros key Hne. by apply RecordTransferAtHeight_other.
Qed.
End spec.

(** ** How much a limit admits over time

    A run submits transfers of one asset in the order of their heights and
    keeps those the keeper accepts. *)
Section run.
Context `{MapIteration}.

Fixpoint run (k : Keeper) (id : string) (txs : list (Z * N)) : list (Z * N) :=
  match txs with
  | [] => []
  | (amt, h) :: rest =>
      match RecordTransferAtHeight id (Some amt) h k with
      | (Ok _, k') => (amt, h) :: run k' id rest
      | (Err _, k') => run k' id rest
      end
  end.

(** The amount accepted at heights in [[from, from + len)]. *)
Definition accepted_in (from len : N) (txs : list (Z * N)) : Z :=
  foldr (fun e acc => if (from <=? e.2)%N && (e.2 <? from + len)%N then e.1 + acc else acc)%Z 0%Z txs.

Fixpoint heights_from (lo : N) (txs : list (Z * N)) : Prop :=
  match txs with
  | [] => True
  | (_, h) :: rest => (lo <= h)%N /\ heights_from h rest
  end.

Lemma heights_from_weaken lo lo' txs : (lo <= lo')%N -> heights_from lo' txs -> heights_from lo txs.
Proof. destruct txs as [|[amt h] txs]; simpl; [done|]. intros ? []. split; [lia|done]. Qed.

Lemma accepted_after from len k id txs h :
  heights_from h txs -> (from + len <= h)%N -> accepted_in from len (run k id txs) = 0%Z.
Proof.
  revert k h. induction txs as [|[amt h'] txs IH]; intros k h Hh Hle; simpl; [done|].
  destruct Hh as [Hhh Hh]. assert (from + len <= h')%N by lia.
  destruct (RecordTransferAtHeight id (Some amt) h' k) as [[u|e] k']; simpl.
  - replace (h' <? from + len)%N with false by (symmetry; apply N.ltb_ge; lia).
    rewrite andb_false_r. by eapply IH.
  - by eapply IH.
Qed.
End run.

Section budget.
Context `{MapIteration}.
Variables (id : string) (l : RateLimit) (max : Z).
Hypothesis Hmax : MaxAmount l = Some max.

Abbreviation W := (WindowBlocks l).
Definition start_of (k : Keeper) : N := WindowStart (usage_entry k id).
Definition used_of (k : Keeper) : Z := default 0%Z (UsedAmount (usage_entry k id)).

Lemma record_step k amt h k' u :
  wf k -> GetLimit k id = Some l ->
  RecordTransferAtHeight id (Some amt) h k = (Ok u, k') ->
  let expired := window_expired l (usage_entry k id) h in
  wf k' /\ GetLimit k' id = Some l /\ (0 <= amt)%Z /\
  start_of k' = (if expired then h else if N.eqb (start_of k) 0 then h else start_of k) /\
  used_of k' = ((if expired then 0 else used_of k) + amt)%Z /\ (used_of k' <= max)%Z.
Proof.
  intros Hwf Hl Hrec expired.
  pose proof (RecordTransferAtHeight_wf id (Some amt) h k Hwf) as Hwf'.
  rewrite Hrec in Hwf'. simpl in Hwf'. rewrite RecordTransferAtHeight_run in Hrec.
  destruct (CheckTransferAtHeight k id (Some amt) h) as [[]|e] eqn:Hc; [|done].
  apply CheckTransferAtHeight_ok in Hc as (? & ? & ? & [= <-] & Hl' & Hm & Hpos & Hle).
  rewrite Hl' in Hl. injection Hl as ->. rewrite Hmax in Hm. injection Hm as <-.
  rewrite Hl' in Hrec. cbn [default from_option Datatypes.id] in Hrec.
  assert (Hcons : consumed k id h = if expired then 0%Z else used_of k).
  { unfold consumed. rewrite Hl', activeUsage_used. reflexivity. }
  assert (Hentry : usage_entry k' id = recorded k id l amt h).
  { replace k' with (snd (persist (set_usage <[limitKey id := recorded k id l amt h]> k)))
      by by rewrite Hrec.
    rewrite usage_entry_persist. unfold usage_entry. cbn [set_usage usage].
    by rewrite lookup_insert_eq. }
  unfold start_of, used_of. rewrite Hentry. unfold recorded. cbn [WindowStart UsedAmount default from_option Datatypes.id].
  fold expired. rewrite Hcons in Hle |- *. split_and!; try done.
  - replace k' with (snd (persist (set_usage <[limitKey id := recorded k id l amt h]> k)))
      by by rewrite Hrec.
    by rewrite GetLimit_persist.
  - destruct expired; [by destruct (N.eqb_spec h 0) as [->|]|done].
Qed.

(** [P] is what earlier windows admitted inside the interval, [C] what the
    current one did. *)
Definition budget_inv (from : N) (k : Keeper) (P C : Z) (lo : N) : Prop :=
  (0 <= P <= max)%Z /\ (0 <= C <= max)%Z /\ (C <= used_of k)%Z /\ (start_of k <= lo)%N /\
  (start_of k + W < two64)%N /\
  (P = 0%Z \/ (from <= start_of k)%N) /\
  (C = 0%Z \/ (start_of k <> 0 /\ from < start_of k + W)%N) /\
  ((P = 0%Z /\ C = 0%Z) \/ (from <= lo)%N).

Lemma budget_step from k P C lo amt h k' u :
  wf k -> GetLimit k id = Some l -> W <> 0%N -> (0 <= max)%Z ->
  budget_inv from k P C lo -> (0 < h)%N -> (lo <= h)%N -> (h + W < two64)%N -> (h < from + W)%N ->
  RecordTransferAtHeight id (Some amt) h k = (Ok u, k') ->
  exists P' C', budget_inv from k' P' C' h /\
    (P' + C' = P + C + if (from <=? h)%N then amt else 0)%Z.
Proof.
  intros Hwf Hl HW Hmax0 (HP & HC & Hu & Hs & Hov & HPs & HCs & Hlo) Hh0 Hh Hhov Hin Hrec.
  destruct (record_step _ _ _ _ _ Hwf Hl Hrec) as (_ & _ & Hamt & Hs' & Hu' & Hle).
  unfold window_expired, u64_add, u64 in *. fold (start_of k) in Hs', Hu'.
  rewrite N.mod_small in Hs', Hu' by done.
  pose proof (usage_entry_nonneg k id Hwf) as Hnn. fold (used_of k) in Hnn.
  destruct (N.leb_spec from h) as [Hfh|Hfh].
  - destruct (N.eqb_spec (start_of k) 0) as [H0|H0]; cbn [negb andb] in Hs', Hu'.
    + exists P, (C + amt)%Z. unfold budget_inv. rewrite Hs', Hu' in *. lia.
    + destruct (N.leb_spec (start_of k + W) h) as [He|He]; cbn in Hs', Hu'.
      * exists (P + C)%Z, amt. unfold budget_inv. rewrite Hs', Hu' in *. lia.
      * exists P, (C + amt)%Z. unfold budget_inv. rewrite Hs', Hu' in *. lia.
  - destruct Hlo as [[-> ->]|?]; [|lia].
    exists 0%Z, 0%Z. unfold budget_inv. rewrite Hs', Hu' in *.
    repeat case_match; lia.
Qed.

Lemma budget_run from txs : forall k P C lo,
  wf k -> GetLimit k id = Some l -> W <> 0%N -> (0 <= max)%Z ->
  budget_inv from k P C lo -> (0 < lo)%N -> heights_from lo txs ->
  Forall (fun tx => (tx.2 + W < two64)%N) txs ->
  (accepted_in from W (run k id txs) + P + C <= 2 * max)%Z.
Proof.
  induction txs as [|[amt h] txs IH]; intros k P C lo Hwf Hl HW Hmax0 Hinv H0 Hh Hov.
  { unfold budget_inv in Hinv. simpl. lia. }
  destruct (N.ltb_spec h (from + W)) as [Hin|Hout].
  2: { rewrite (accepted_after _ _ _ _ _ h); [unfold budget_inv in Hinv; lia| |lia].
       simpl in *. split; [lia|apply Hh]. }
  destruct Hh as [Hlh Hh]. apply Forall_cons in Hov as [Hhov Hov]. simpl in Hhov.
  cbn [run]. destruct (RecordTransferAtHeight id (Some amt) h k) as [[u|e] k'] eqn:Hrec.
  - destruct (budget_step from k P C lo amt h k' u) as (P' & C' & Hinv' & Hsum); try done; [lia|].
    destruct (record_step _ _ _ _ _ Hwf Hl Hrec) as (Hwf' & Hl' & _).
    cbn [accepted_in foldr fst snd]. fold (accepted_in from W (run k' id txs)).
    replace (h <? from + W)%N with true by (symmetry; by apply N.ltb_lt).
    specialize (IH k' P' C' h Hwf' Hl' HW Hmax0 Hinv' ltac:(lia) Hh Hov).
    destruct (from <=? h)%N; cbn [andb]; lia.
  - assert (k' = k) as ->.
    { rewrite RecordTransferAtHeight_run in Hrec. destruct (CheckTransferAtHeight _ _ _ _); [|congruence].
      done. }
    apply (IH k P C h); [done..| |lia|done|done].
    unfold budget_inv in *. lia.
Qed.
End budget.

Section budget_theorem.
Context `{MapIteration}.

End budget_theorem.

(** ** Exporting and importing the limits *)

Section roundtrip.
Context `{MapIteration}.

Lemma canonicalLimit_id key l : limit_ok key l -> canonicalLimit l = l.
Proof.
  intros (-> & Ht & _). unfold canonicalLimit. destruct l. unfold trimmed in Ht. cbn in *. by rewrite Ht.
Qed.

Lemma canonicalUsage_id key u : usage_ok key u -> canonicalUsage u = u.
Proof.
  intros (-> & Ht & Hv). apply usage_ValidateBasic_ok in Hv as (_ & m & Hm & _).
  unfold canonicalUsage, limitKey. destruct u as [id start used]. unfold trimmed in Ht. cbn in *. subst used.
  by rewrite Ht.
Qed.

Lemma ImportLimits_ExportLimits k k0 :
  wf k -> ImportLimits (ExportLimits k) k0 = (Ok tt, snd (persist (set_limits (fun _ => limits k) k0))).
Proof.
  intros [Hl _]. unfold ImportLimits, ExportLimits, bind at 1. cbn [modify].
  unfold bind at 1.
  rewrite (for_each_rebuild (fun m => set_limits (fun _ => m) k0) _ (fun e => canonicalLimit e.2) (limits k)).
  - reflexivity.
  - by rewrite range_perm.
  - intros key l acc Hk. cbn [snd]. destruct (Hl key l Hk) as (Hkey & Ht & Hv).
    rewrite (canonicalLimit_id key l) by done. unfold bind, lift. rewrite Hv.
    rewrite (canonicalLimit_id key l) by done. unfold modify, set_limits. cbn. do 3 f_equal.
    unfold limitKey. rewrite <- Hkey, Ht. done.
Qed.

Lemma ImportUsage_ExportUsage k k0 :
  wf k -> ImportUsage (ExportUsage k) k0 = (Ok tt, snd (persist (set_usage (fun _ => usage k) k0))).
Proof.
  intros [_ Hu]. unfold ImportUsage, ExportUsage, bind at 1. cbn [modify].
  unfold bind at 1.
  rewrite (for_each_rebuild (fun m => set_usage (fun _ => m) k0) _ (fun e => canonicalUsage e.2) (usage k)).
  - reflexivity.
  - by rewrite range_perm.
  - intros key u acc Hk. cbn [snd]. destruct (Hu key u Hk) as (Hkey & Ht & Hv).
    rewrite (canonicalUsage_id key u) by done. unfold bind, lift. rewrite Hv.
    rewrite (canonicalUsage_id key u) by done. unfold modify, set_usage. cbn. do 3 f_equal.
    unfold limitKey. rewrite <- Hkey, Ht. done.
Qed.

(** Importing an export restores the limits and the usage of every window. *)
Lemma ImportState_restores k k0 :
  wf k -> exists k', ImportState (ExportState k) k0 = (Ok tt, k') /\
    limits k' = limits k /\ usage k' = usage k.
Proof.
  intros Hwf. unfold ImportState, ExportState. cbn [Limits Usage]. unfold bind.
  rewrite ImportLimits_ExportLimits, ImportUsage_ExportUsage by done.
  eexists. split; [done|]. rewrite limits_persist, usage_persist. cbn [set_usage limits usage].
  rewrite limits_persist. done.
Qed.
End roundtrip.

(** ** Concrete runs *)

Definition demo_limit : RateLimit := mk_limit "eth.usdc" 10 (Some 100%Z).
Definition demo_keeper : Keeper := snd (SetLimit demo_limit NewKeeper).
Definition demo_txs : list (Z * N) := [(1%Z, 1%N); (99%Z, 10%N); (100%Z, 11%N); (1%Z, 12%N)].

(** The bound is reached: 199 of a maximum of 100 within heights 10 and 11. *)
Example demo_accepted : run demo_keeper "eth.usdc" demo_txs = [(1%Z, 1%N); (99%Z, 10%N); (100%Z, 11%N)].
Proof. vm_compute. reflexivity. Qed.

Lemma limits_NewKeeper_wf : wf NewKeeper.
Proof. split; apply map_Forall_empty. Qed.

Example RecordTransferAtHeight_spec_witness :
  exists amt l max k', Some 40%Z = Some amt /\ (0 <= amt)%Z /\
    GetLimit demo_keeper "eth.usdc" = Some l /\ MaxAmount l = Some max /\
    RecordTransferAtHeight "eth.usdc" (Some 40%Z) 7 demo_keeper = (Ok tt, k') /\
    consumed k' "eth.usdc" 7 = (consumed demo_keeper "eth.usdc" 7 + amt)%Z /\
    (consumed k' "eth.usdc" 7 <= max)%Z /\ limits k' = limits demo_keeper /\
    forall key, key <> limitKey "eth.usdc" -> usage k' !! key = usage demo_keeper !! key.
Proof.
  apply (RecordTransferAtHeight_spec demo_keeper "eth.usdc" (Some 40%Z) 7).
  - apply SetLimit_wf, limits_NewKeeper_wf.
  - intros l Hl. replace (GetLimit demo_keeper "eth.usdc") with (Some demo_limit) in Hl
      by (vm_compute; reflexivity).
    injection Hl as <-. reflexivity.
Defined.

