(* ===== verification/BridgeTypes.v ===== *)
(** [x/bridge/types]: claim identities and their canonical encoding, deposit
    and withdrawal claims, attestations and the digest attesters sign. *)

From S2P Require Import Prelude.
From S2P Require Import GoStrings.
From S2P Require Import Sha256.
From S2P Require Import Bytes.
From S2P Require Import Errors.
From Stdlib Require Import Ascii String.
From stdpp Require Import strings.

(** ** Third-party cryptography

    [golang.org/x/crypto/sha3] and [decred/secp256k1] are parameters: legacy
    Keccak-256, recovery of a public key from a compact signature and a digest
    (an error for a malformed or unrecoverable one), and the uncompressed
    serialisation of a public key. *)
Class Crypto := {
  PublicKey : Type;
  keccak256 : string -> string;
  RecoverCompact : string -> string -> result PublicKey;
  SerializeUncompressed : PublicKey -> string
}.

(** ** Canonical encoding (keys.go) *)

Definition ClaimKindUnspecified : string := EmptyString.
Definition ClaimKindDeposit : string := "deposit".
Definition ClaimKindWithdrawal : string := "withdrawal".
Definition SourceAssetKindUnspecified : string := EmptyString.
Definition SourceAssetKindNativeETH : string := "native_eth".
Definition SourceAssetKindERC20 : string := "erc20".

(** [binary.PutUvarint]: 7 bits per byte, low groups first, the top bit set on
    all bytes but the last. Ten bytes hold any [uint64]. *)
Fixpoint put_uvarint (fuel : nat) (x : N) : list ascii :=
  match fuel with
  | O => []
  | S fuel' =>
      if (x <? 128)%N then [ascii_of_N x]
      else ascii_of_N (N.lor (x mod 128) 128) :: put_uvarint fuel' (N.shiftr x 7)
  end.

Definition MaxVarintLen64 : nat := 10.
Definition PutUvarint (x : N) : string := string_of_list_ascii (put_uvarint MaxVarintLen64 x).
Definition PutUint64 (x : N) : string := string_of_list_ascii (be_bytes 8 x).

Definition writeCanonicalString (value : string) : string :=
  let normalized := TrimSpace value in
  PutUvarint (u64 (N.of_nat (String.length normalized))) +:+ normalized.

Definition writeCanonicalBigInt (value : option Z) : string :=
  match value with
  | None => writeCanonicalString EmptyString
  | Some v => writeCanonicalString (format_int v)
  end.

Definition canonicalReplaySourceAssetKind (sourceAssetKind : string) : string :=
  let k := TrimSpace sourceAssetKind in
  if decide (k = EmptyString) then EmptyString
  else if decide (k = SourceAssetKindERC20) then EmptyString
  else if decide (k = SourceAssetKindNativeETH) then SourceAssetKindNativeETH
  else k.

Definition canonicalIdentityBytes (kind sourceAssetKind sourceChainID sourceContract sourceTxHash : string)
    (sourceLogIndex nonce : N) : string :=
  writeCanonicalString kind +:+
  writeCanonicalString (canonicalReplaySourceAssetKind sourceAssetKind) +:+
  writeCanonicalString sourceChainID +:+
  writeCanonicalString sourceContract +:+
  writeCanonicalString sourceTxHash +:+
  PutUint64 sourceLogIndex +:+ PutUint64 nonce.

Definition ReplayKey (kind sourceAssetKind sourceChainID sourceContract sourceTxHash : string)
    (sourceLogIndex nonce : N) : string :=
  sha256_hex (canonicalIdentityBytes kind sourceAssetKind sourceChainID sourceContract
    sourceTxHash sourceLogIndex nonce).

(** ** Claims (claim.go) *)

Record ClaimIdentity := mk_identity {
  Kind : string;
  SourceAssetKind : string;
  SourceChainID : string;
  SourceContract : string;
  SourceTxHash : string;
  SourceLogIndex : N;           (* uint64 *)
  Nonce : N;                    (* uint64 *)
  MessageID : string
}.

#[global] Instance ClaimIdentity_eq_dec : EqDecision ClaimIdentity.
Proof. solve_decision. Defined.

Definition DerivedMessageID (c : ClaimIdentity) : string :=
  ReplayKey (Kind c) (SourceAssetKind c) (SourceChainID c) (SourceContract c) (SourceTxHash c)
    (SourceLogIndex c) (Nonce c).

Definition identity_ReplayKey (c : ClaimIdentity) : string := DerivedMessageID c.

Definition identity_bytes (c : ClaimIdentity) : string :=
  canonicalIdentityBytes (Kind c) (SourceAssetKind c) (SourceChainID c) (SourceContract c)
    (SourceTxHash c) (SourceLogIndex c) (Nonce c).

Definition blank (s : string) : bool := bool_decide (TrimSpace s = EmptyString).

Definition identity_ValidateBasic (c : ClaimIdentity) : result unit :=
  let kind := TrimSpace (SourceAssetKind c) in
  first_error [
    (negb (eqs (Kind c) ClaimKindDeposit) && negb (eqs (Kind c) ClaimKindWithdrawal),
      Wrapf ErrInvalidClaim ("invalid claim kind " +:+ Quote (Kind c)));
    (negb (eqs kind SourceAssetKindUnspecified) && negb (eqs kind SourceAssetKindNativeETH) &&
       negb (eqs kind SourceAssetKindERC20),
      Wrapf ErrInvalidClaim "invalid source asset kind");
    (blank (SourceChainID c), Wrapf ErrInvalidClaim "missing source chain id");
    (blank (SourceTxHash c), Wrapf ErrInvalidClaim "missing source tx hash");
    ((eqs kind SourceAssetKindUnspecified || eqs kind SourceAssetKindERC20) &&
       blank (SourceContract c),
      Wrapf ErrInvalidClaim "missing source contract");
    (blank (MessageID c), Wrapf ErrInvalidClaim "missing message id");
    (negb (eqs (MessageID c) (DerivedMessageID c)), Wrapf ErrInvalidClaim "message id mismatch")
  ].

(** [DepositClaim] and [WithdrawalClaim] have the same fields. *)
Record DepositClaim := mk_claim {
  Identity : ClaimIdentity;
  DestinationChainID : string;
  AssetID : string;
  Amount : option Z;
  Recipient : string;
  Deadline : N                  (* uint64 *)
}.
Definition WithdrawalClaim : Type := DepositClaim.

Definition amount_positive (a : option Z) : bool :=
  match a with None => false | Some v => (0 <? v)%Z end.

Definition claim_body_checks (c : DepositClaim) : list (bool * error) := [
  (blank (DestinationChainID c), Wrapf ErrInvalidClaim "missing destination chain id");
  (blank (AssetID c), Wrapf ErrInvalidClaim "missing asset id");
  (negb (amount_positive (Amount c)), Wrapf ErrInvalidClaim "amount must be positive");
  (blank (Recipient c), Wrapf ErrInvalidClaim "missing recipient");
  (N.eqb (Deadline c) 0, Wrapf ErrInvalidClaim "missing deadline")
].

Definition deposit_ValidateBasic (c : DepositClaim) : result unit :=
  let? _ := ensure (negb (eqs (Kind (Identity c)) ClaimKindDeposit))
              (Wrapf ErrInvalidClaim "deposit claim must use deposit identity") in
  let? _ := identity_ValidateBasic (Identity c) in
  first_error (claim_body_checks c).

Definition withdrawal_ValidateBasic (c : WithdrawalClaim) : result unit :=
  let? _ := ensure (negb (eqs (Kind (Identity c)) ClaimKindWithdrawal))
              (Wrapf ErrInvalidClaim "withdrawal claim must use withdrawal identity") in
  let? _ := identity_ValidateBasic (Identity c) in
  first_error (claim_body_checks c).

Definition canonicalClaimBytes (kind sourceAssetKind sourceChainID sourceContract sourceTxHash : string)
    (sourceLogIndex nonce : N) (destinationChainID assetID : string) (amount : option Z)
    (recipient : string) (deadline : N) : string :=
  canonicalIdentityBytes kind sourceAssetKind sourceChainID sourceContract sourceTxHash
    sourceLogIndex nonce +:+
  writeCanonicalString destinationChainID +:+
  writeCanonicalString assetID +:+
  writeCanonicalBigInt amount +:+
  writeCanonicalString recipient +:+
  PutUint64 deadline.

Definition claim_bytes (c : DepositClaim) : string :=
  let i := Identity c in
  canonicalClaimBytes (Kind i) (SourceAssetKind i) (SourceChainID i) (SourceContract i)
    (SourceTxHash i) (SourceLogIndex i) (Nonce i) (DestinationChainID c) (AssetID c) (Amount c)
    (Recipient c) (Deadline c).

Definition Digest (c : DepositClaim) : string := sha256_hex (claim_bytes c).

(** ** Attestations (attestation.go, proof.go) *)

Record AttestationProof := mk_proof {
  Signer : string;
  Signature : string            (* bytes *)
}.

Record Attestation := mk_attestation {
  AttMessageID : string;
  PayloadHash : string;
  Signers : list string;
  Proofs : list AttestationProof;
  Threshold : N;                (* uint32 *)
  Expiry : N;                   (* uint64 *)
  SignerSetVersion : N          (* uint64 *)
}.

Definition maxProofsPerAttestation : nat := 128.

Definition validateEnvelope (a : Attestation) : result unit :=
  first_error [
    (blank (AttMessageID a), Wrapf ErrInvalidAttestation "missing message id");
    (blank (PayloadHash a), Wrapf ErrInvalidAttestation "missing payload hash");
    (N.eqb (Threshold a) 0, Wrapf ErrInvalidAttestation "missing threshold");
    (N.eqb (Expiry a) 0, Wrapf ErrInvalidAttestation "missing expiry");
    (N.eqb (SignerSetVersion a) 0, Wrapf ErrInvalidAttestation "missing signer set version")
  ].

Fixpoint check_proofs (seen : gset string) (proofs : list AttestationProof) : result unit :=
  match proofs with
  | [] => Ok tt
  | p :: rest =>
      let signer := TrimSpace (Signer p) in
      if decide (signer = EmptyString) then Err (Wrapf ErrInvalidAttestation "empty proof signer")
      else if decide (Signature p = EmptyString)
      then Err (Wrapf ErrInvalidAttestation "missing proof signature")
      else if decide (signer ∈ seen)
      then Err (Wrapf ErrInvalidAttestation ("duplicate proof signer " +:+ Quote signer))
      else check_proofs ({[ signer ]} ∪ seen) rest
  end.

Fixpoint check_signers (seen : gset string) (signers : list string) : result unit :=
  match signers with
  | [] => Ok tt
  | s :: rest =>
      let signer := TrimSpace s in
      if decide (signer = EmptyString) then Err (Wrapf ErrInvalidAttestation "empty signer")
      else if decide (signer ∈ seen)
      then Err (Wrapf ErrInvalidAttestation ("duplicate signer " +:+ Quote signer))
      else check_signers ({[ signer ]} ∪ seen) rest
  end.

Definition attestation_ValidateBasic (a : Attestation) : result unit :=
  let? _ := validateEnvelope a in
  let count := length (Proofs a) in
  let? _ := first_error [
    (N.eqb (N.of_nat count) 0, Wrapf ErrInvalidAttestation "missing proofs");
    ((maxProofsPerAttestation <? count)%nat,
      Wrapf ErrInvalidAttestation ("proof count " +:+ format_uint (N.of_nat count) +:+
        " exceeds maximum " +:+ format_uint (N.of_nat maxProofsPerAttestation)));
    ((N.of_nat count <? Threshold a)%N,
      Wrapf ErrInvalidAttestation "threshold exceeds proof count")
  ] in
  let? _ := check_proofs ∅ (Proofs a) in
  check_signers ∅ (Signers a).

(** The [i]-th field is preceded by its length: ["<len>:<value>"]. *)
Definition length_prefixed (f : string) : string :=
  format_uint (N.of_nat (String.length f)) +:+ ":" +:+ f.

Definition signing_fields (a : Attestation) : list string := [
  "aegislink.attestation.v1"%string;
  TrimSpace (AttMessageID a);
  ToLower (TrimSpace (PayloadHash a));
  format_uint (Threshold a);
  format_uint (Expiry a);
  format_uint (SignerSetVersion a)
].

Definition signing_payload (a : Attestation) : string :=
  GoStrings.Join (map length_prefixed (signing_fields a)) "|".

Definition NormalizeSignerAddress (address : string) : string := ToLower (TrimSpace address).

Section crypto.
Context `{Crypto}.

Definition SigningDigest (a : Attestation) : result string :=
  let? _ := validateEnvelope a in
  Ok (keccak256 (signing_payload a)).

(** The last 20 bytes of a hash. *)
Definition last20 (h : string) : string :=
  String.substring (String.length h - 20) 20 h.

Definition SignerAddressFromPublicKey (pk : PublicKey) : string :=
  let serialized := SerializeUncompressed pk in
  let hash := keccak256 (String.substring 1 (String.length serialized - 1) serialized) in
  "0x" +:+ EncodeToString (last20 hash).

Definition RecoverSignerFromPayload (payload signature : string) : result string :=
  if decide (signature = EmptyString) then Err (Wrapf ErrInvalidAttestation "empty signature")
  else match RecoverCompact signature (keccak256 payload) with
       | Err e => Err (Wrapf ErrInvalidAttestation ("recover signer: " +:+ error_text e))
       | Ok pk => Ok (SignerAddressFromPublicKey pk)
       end.
End crypto.

(** ** The canonical encodings are injective *)

Lemma continuation_byte x : N.lor (x mod 128) 128 = (128 + x mod 128)%N.
Proof.
  rewrite N.lor_comm. assert (Hx : (x mod 128 < 128)%N) by (apply N.mod_lt; done).
  destruct (x mod 128)%N as [|p]; [done|].
  do 7 (destruct p as [p|p|]; try reflexivity; try (exfalso; lia)).
Qed.

(** No encoding is a proper prefix of another. *)
Lemma put_uvarint_inj fuel x y r s :
  (x < 128 ^ N.of_nat fuel)%N -> (y < 128 ^ N.of_nat fuel)%N ->
  put_uvarint fuel x ++ r = put_uvarint fuel y ++ s -> x = y /\ r = s.
Proof.
  revert x y. induction fuel as [|fuel IH]; intros x y Hx Hy Heq.
  { simpl in *. split; [lia|done]. }
  cbn [put_uvarint] in Heq.
  assert (Hlo : forall z, (z mod 128 < 128)%N) by (intros; by apply N.mod_lt).
  pose proof (Hlo x). pose proof (Hlo y). rewrite !continuation_byte in Heq.
  destruct (N.ltb_spec x 128), (N.ltb_spec y 128); cbn [app] in Heq.
  - injection Heq as Hh ->. apply (f_equal N_of_ascii) in Hh. rewrite !N_ascii in Hh by lia. done.
  - injection Heq as Hh _. apply (f_equal N_of_ascii) in Hh. rewrite !N_ascii in Hh by lia. exfalso. clear Hx Hy IH.
    generalize dependent (y mod 128)%N. generalize dependent (x mod 128)%N. lia.
  - injection Heq as Hh _. apply (f_equal N_of_ascii) in Hh. rewrite !N_ascii in Hh by lia. exfalso. clear Hx Hy IH.
    generalize dependent (y mod 128)%N. generalize dependent (x mod 128)%N. lia.
  - injection Heq as Hh Ht. apply (f_equal N_of_ascii) in Hh. rewrite !N_ascii in Hh by lia.
    rewrite !N.shiftr_div_pow2 in Ht.
    assert (Hpow : (128 ^ N.of_nat (S fuel) = 128 * 128 ^ N.of_nat fuel)%N)
      by (rewrite Nat2N.inj_succ; apply N.pow_succ_r').
    rewrite Hpow in Hx, Hy.
    destruct (IH (x / 2 ^ 7)%N (y / 2 ^ 7)%N) as [Hd ->]; [..|exact Ht|].
    + apply N.Div0.div_lt_upper_bound. lia.
    + apply N.Div0.div_lt_upper_bound. lia.
    + split; [|done]. change (2 ^ 7)%N with 128%N in Hd.
      rewrite (N.div_mod x 128), (N.div_mod y 128) by done. lia.
Qed.

Lemma list_ascii_inj s t : list_ascii_of_string s = list_ascii_of_string t -> s = t.
Proof.
  intros H. by rewrite <- (string_of_list_ascii_of_string s), H, string_of_list_ascii_of_string.
Qed.

Lemma PutUvarint_inj x y r s :
  u64_ok x -> u64_ok y -> PutUvarint x +:+ r = PutUvarint y +:+ s -> x = y /\ r = s.
Proof.
  unfold u64_ok. intros Hx Hy Heq. apply (f_equal list_ascii_of_string) in Heq.
  unfold PutUvarint in Heq. rewrite !list_ascii_app, !list_ascii_of_string_of_list_ascii in Heq.
  assert (Hb : (two64 < 128 ^ N.of_nat MaxVarintLen64)%N) by reflexivity.
  apply put_uvarint_inj in Heq as [-> Heq]; [|lia|lia]. split; [done|]. by apply list_ascii_inj.
Qed.

Lemma PutUint64_inj x y r s :
  u64_ok x -> u64_ok y -> PutUint64 x +:+ r = PutUint64 y +:+ s -> x = y /\ r = s.
Proof.
  intros Hx Hy Heq. apply string_app_inj_length in Heq as [Heq ->].
  - split; [|done]. apply (f_equal list_ascii_of_string) in Heq. unfold PutUint64 in Heq.
    rewrite !list_ascii_of_string_of_list_ascii in Heq. apply (f_equal be_value) in Heq.
    by rewrite !be_value_bytes in Heq by done.
  - unfold PutUint64. by rewrite !length_string_of_list, !be_bytes_length.
Qed.

(** A Go string's length is a machine integer. *)
Definition fits (s : string) : Prop := (N.of_nat (String.length s) < two64)%N.

Lemma writeCanonicalString_inj a b r s :
  fits a -> fits b -> writeCanonicalString a +:+ r = writeCanonicalString b +:+ s ->
  TrimSpace a = TrimSpace b /\ r = s.
Proof.
  unfold fits, writeCanonicalString, u64. intros Ha Hb Heq.
  pose proof (TrimSpace_length a). pose proof (TrimSpace_length b).
  rewrite !N.mod_small in Heq by lia. rewrite !string_app_assoc in Heq.
  apply PutUvarint_inj in Heq as [Hlen Heq]; [|unfold u64_ok; lia..].
  apply string_app_inj_length in Heq; [done|]. lia.
Qed.

(** The fields of a Go [ClaimIdentity] are within their types. *)
Definition identity_typed (c : ClaimIdentity) : Prop :=
  fits (Kind c) /\ fits (SourceAssetKind c) /\ fits (SourceChainID c) /\ fits (SourceContract c) /\
  fits (SourceTxHash c) /\ u64_ok (SourceLogIndex c) /\ u64_ok (Nonce c).

(** Two identities name the same source event: their fields agree up to
    surrounding white space and up to the default asset kind. *)
Definition same_source (c1 c2 : ClaimIdentity) : Prop :=
  TrimSpace (Kind c1) = TrimSpace (Kind c2) /\
  canonicalReplaySourceAssetKind (SourceAssetKind c1) =
    canonicalReplaySourceAssetKind (SourceAssetKind c2) /\
  TrimSpace (SourceChainID c1) = TrimSpace (SourceChainID c2) /\
  TrimSpace (SourceContract c1) = TrimSpace (SourceContract c2) /\
  TrimSpace (SourceTxHash c1) = TrimSpace (SourceTxHash c2) /\
  SourceLogIndex c1 = SourceLogIndex c2 /\ Nonce c1 = Nonce c2.

Lemma canonicalReplaySourceAssetKind_trimmed k :
  trimmed (canonicalReplaySourceAssetKind k).
Proof. unfold canonicalReplaySourceAssetKind. repeat case_decide; auto with go; reflexivity. Qed.

Lemma canonicalReplaySourceAssetKind_fits k : fits k -> fits (canonicalReplaySourceAssetKind k).
Proof.
  unfold fits, canonicalReplaySourceAssetKind. pose proof (TrimSpace_length k).
  repeat case_decide; try reflexivity. lia.
Qed.

Lemma identity_bytes_app_inj c1 c2 r s :
  identity_typed c1 -> identity_typed c2 ->
  identity_bytes c1 +:+ r = identity_bytes c2 +:+ s -> same_source c1 c2 /\ r = s.
Proof.
  intros (K1 & A1 & B1 & C1 & D1 & E1 & F1) (K2 & A2 & B2 & C2 & D2 & E2 & F2) Heq.
  unfold identity_bytes, canonicalIdentityBytes in Heq. rewrite !string_app_assoc in Heq.
  apply writeCanonicalString_inj in Heq as [HK Heq]; [|done..].
  apply writeCanonicalString_inj in Heq as [HA Heq];
    [|by apply canonicalReplaySourceAssetKind_fits..].
  rewrite !canonicalReplaySourceAssetKind_trimmed in HA.
  apply writeCanonicalString_inj in Heq as [HB Heq]; [|done..].
  apply writeCanonicalString_inj in Heq as [HC Heq]; [|done..].
  apply writeCanonicalString_inj in Heq as [HD Heq]; [|done..].
  apply PutUint64_inj in Heq as [HE Heq]; [|done..].
  apply PutUint64_inj in Heq as [HF Heq]; [|done..].
  done.
Qed.

Lemma same_source_bytes c1 c2 : same_source c1 c2 -> identity_bytes c1 = identity_bytes c2.
Proof.
  intros (HK & HA & HB & HC & HD & HE & HF).
  unfold identity_bytes, canonicalIdentityBytes, writeCanonicalString.
  by rewrite HK, HA, HB, HC, HD, HE, HF.
Qed.

(** C22: the canonical encoding of a claim identity determines the source
    event: two identities have the same canonical bytes exactly when they agree
    on every field, up to surrounding white space and the default asset kind.
    In particular identities of the same event share their replay key. *)
Theorem canonicalIdentityBytes_injective (c1 c2 : ClaimIdentity) :
  identity_typed c1 -> identity_typed c2 ->
  (identity_bytes c1 = identity_bytes c2 <-> same_source c1 c2) /\
  (same_source c1 c2 -> identity_ReplayKey c1 = identity_ReplayKey c2).
Proof.
  intros H1 H2. split; [split|].
  - intros Heq. apply (identity_bytes_app_inj c1 c2 EmptyString EmptyString H1 H2).
    by rewrite Heq.
  - apply same_source_bytes.
  - intros Hs. unfold identity_ReplayKey, DerivedMessageID, ReplayKey.
    fold (identity_bytes c1) (identity_bytes c2). by rewrite (same_source_bytes c1 c2 Hs).
Qed.

(** Two claim identities with the same replay key name the same source
    event, or exhibit two different messages with the same SHA-256 digest. *)
Theorem ReplayKey_collision (c1 c2 : ClaimIdentity) :
  identity_typed c1 -> identity_typed c2 ->
  identity_ReplayKey c1 = identity_ReplayKey c2 ->
  same_source c1 c2 \/ exists m1 m2, m1 <> m2 /\ Sum256 m1 = Sum256 m2.
Proof.
  intros H1 H2 Heq. unfold identity_ReplayKey, DerivedMessageID, ReplayKey in Heq.
  fold (identity_bytes c1) (identity_bytes c2) in Heq. apply EncodeToString_inj in Heq.
  destruct (decide (identity_bytes c1 = identity_bytes c2)) as [Hb|Hne]; [left|right; eauto].
  apply (identity_bytes_app_inj c1 c2 EmptyString EmptyString H1 H2). by rewrite Hb.
Qed.

Definition amount_text (a : option Z) : string :=
  match a with None => EmptyString | Some v => format_int v end.

Definition claim_typed (c : DepositClaim) : Prop :=
  identity_typed (Identity c) /\ fits (DestinationChainID c) /\ fits (AssetID c) /\
  fits (amount_text (Amount c)) /\ fits (Recipient c) /\ u64_ok (Deadline c).

Lemma amount_text_inj a b : amount_text a = amount_text b -> a = b.
Proof.
  destruct a as [x|], b as [y|]; simpl; intros Heq; try done.
  - f_equal. by apply (inj format_int).
  - by apply format_int_nonempty in Heq.
  - symmetry in Heq. by apply format_int_nonempty in Heq.
Qed.

Lemma amount_text_trimmed a : trimmed (amount_text a).
Proof. destruct a; simpl; auto with go. Qed.

Lemma writeCanonicalBigInt_text a : writeCanonicalBigInt a = writeCanonicalString (amount_text a).
Proof. by destruct a. Qed.

(** The claim digest commits to every field of a claim: equal canonical
    claim bytes force the same source event, destination chain, asset,
    recipient (up to surrounding white space), amount and deadline. *)
Theorem canonicalClaimBytes_injective (c1 c2 : DepositClaim) :
  claim_typed c1 -> claim_typed c2 -> claim_bytes c1 = claim_bytes c2 ->
  same_source (Identity c1) (Identity c2) /\
  TrimSpace (DestinationChainID c1) = TrimSpace (DestinationChainID c2) /\
  TrimSpace (AssetID c1) = TrimSpace (AssetID c2) /\ Amount c1 = Amount c2 /\
  TrimSpace (Recipient c1) = TrimSpace (Recipient c2) /\ Deadline c1 = Deadline c2.
Proof.
  intros (I1 & A1 & B1 & C1 & D1 & E1) (I2 & A2 & B2 & C2 & D2 & E2) Heq.
  unfold claim_bytes, canonicalClaimBytes in Heq. cbv zeta in Heq.
  rewrite !writeCanonicalBigInt_text in Heq.
  apply (identity_bytes_app_inj (Identity c1) (Identity c2)) in Heq as [HI Heq]; [|done..].
  apply writeCanonicalString_inj in Heq as [HA Heq]; [|done..].
  apply writeCanonicalString_inj in Heq as [HB Heq]; [|done..].
  apply writeCanonicalString_inj in Heq as [HC Heq]; [|done..].
  rewrite !amount_text_trimmed in HC. apply amount_text_inj in HC.
  apply writeCanonicalString_inj in Heq as [HD Heq]; [|done..].
  rewrite <- (string_app_nil_r (PutUint64 (Deadline c1))),
    <- (string_app_nil_r (PutUint64 (Deadline c2))) in Heq.
  apply PutUint64_inj in Heq as [HE _]; done.
Qed.

(** ** The digest attesters sign *)

Lemma length_prefixed_app_inj f g r s :
  length_prefixed f +:+ r = length_prefixed g +:+ s -> f = g /\ r = s.
Proof.
  unfold length_prefixed. rewrite !string_app_assoc. intros Heq.
  apply (digits_then_sep _ _ _ (f +:+ r) (g +:+ s)) in Heq as [Hlen Heq];
    [|apply format_uint_digits|apply format_uint_digits|reflexivity].
  apply (inj format_uint) in Hlen. apply string_app_inj_length in Heq; [done|]. lia.
Qed.

Lemma signing_fields_inj l1 l2 :
  length l1 = length l2 ->
  GoStrings.Join (map length_prefixed l1) "|" = GoStrings.Join (map length_prefixed l2) "|" ->
  l1 = l2.
Proof.
  revert l2. induction l1 as [|f l1 IH]; intros [|g l2] Hlen Heq; try discriminate Hlen; [done|].
  injection Hlen as Hlen. destruct l1 as [|f' l1], l2 as [|g' l2]; try discriminate Hlen.
  - simpl in Heq. rewrite <- (string_app_nil_r (length_prefixed f)),
      <- (string_app_nil_r (length_prefixed g)) in Heq.
    by apply length_prefixed_app_inj in Heq as [-> _].
  - cbn [map GoStrings.Join] in Heq, IH. apply length_prefixed_app_inj in Heq as [-> Heq].
    apply string_app_inj_length in Heq as [_ Heq]; [|done].
    f_equal. by apply IH.
Qed.

(** C23: the payload attesters sign is unambiguous: equal payloads force equal
    message identifiers (trimmed), payload hashes (trimmed, lower case),
    thresholds, expiries and signer-set versions, whatever separators the
    fields contain. *)
Theorem signing_payload_injective (a b : Attestation) :
  signing_payload a = signing_payload b ->
  TrimSpace (AttMessageID a) = TrimSpace (AttMessageID b) /\
  EqualFold (TrimSpace (PayloadHash a)) (TrimSpace (PayloadHash b)) = true /\
  Threshold a = Threshold b /\ Expiry a = Expiry b /\ SignerSetVersion a = SignerSetVersion b.
Proof.
  intros Heq. apply signing_fields_inj in Heq; [|done].
  unfold signing_fields in Heq. injection Heq as HA HB HC HD HE.
  apply (inj format_uint) in HC, HD, HE. split_and!; try done.
  unfold EqualFold. by apply bool_decide_eq_true.
Qed.

(** ** Concrete inputs *)

Definition demo_identity : ClaimIdentity :=
  let c := mk_identity ClaimKindDeposit "erc20" "11155111" "0xbridge" "0xdeadbeef" 3 7 EmptyString in
  mk_identity ClaimKindDeposit "erc20" "11155111" "0xbridge" "0xdeadbeef" 3 7 (DerivedMessageID c).
(** The same event with the default asset kind and a padded chain identifier. *)
Definition demo_identity' : ClaimIdentity :=
  mk_identity ClaimKindDeposit EmptyString " 11155111 " "0xbridge" "0xdeadbeef" 3 7 EmptyString.

Definition demo_claim : DepositClaim :=
  mk_claim demo_identity "aegislink-1" "eth.usdc" (Some 1000%Z) "cosmos1recipient" 500.
Definition demo_claim' : DepositClaim :=
  mk_claim demo_identity' " aegislink-1" "eth.usdc" (Some 1000%Z) "cosmos1recipient " 500.

Lemma demo_identity_typed : identity_typed demo_identity.
Proof. unfold identity_typed, fits. split_and!; reflexivity. Qed.
Lemma demo_identity_typed' : identity_typed demo_identity'.
Proof. unfold identity_typed, fits. split_and!; reflexivity. Qed.
Lemma demo_claim_typed : claim_typed demo_claim.
Proof. unfold claim_typed, fits. split_and!; try reflexivity; apply demo_identity_typed. Qed.
Lemma demo_claim_typed' : claim_typed demo_claim'.
Proof. unfold claim_typed, fits. split_and!; try reflexivity; apply demo_identity_typed'. Qed.

Lemma demo_same_source : same_source demo_identity demo_identity'.
Proof. unfold same_source. split_and!; reflexivity. Qed.

Example demo_claim_valid : deposit_ValidateBasic demo_claim = Ok tt.
Proof. vm_compute. reflexivity. Qed.

Example canonicalIdentityBytes_injective_witness :
  (identity_bytes demo_identity = identity_bytes demo_identity' <->
     same_source demo_identity demo_identity') /\
  (same_source demo_identity demo_identity' ->
     identity_ReplayKey demo_identity = identity_ReplayKey demo_identity').
Proof.
  exact (canonicalIdentityBytes_injective demo_identity demo_identity'
           demo_identity_typed demo_identity_typed').
Defined.

Example ReplayKey_collision_witness :
  same_source demo_identity demo_identity' \/ exists m1 m2, m1 <> m2 /\ Sum256 m1 = Sum256 m2.
Proof.
  apply (ReplayKey_collision demo_identity demo_identity'
           demo_identity_typed demo_identity_typed').
  vm_compute. reflexivity.
Defined.

Example canonicalClaimBytes_injective_witness :
  same_source (Identity demo_claim) (Identity demo_claim') /\
  TrimSpace (DestinationChainID demo_claim) = TrimSpace (DestinationChainID demo_claim') /\
  TrimSpace (AssetID demo_claim) = TrimSpace (AssetID demo_claim') /\
  Amount demo_claim = Amount demo_claim' /\
  TrimSpace (Recipient demo_claim) = TrimSpace (Recipient demo_claim') /\
  Deadline demo_claim = Deadline demo_claim'.
Proof.
  apply (canonicalClaimBytes_injective demo_claim demo_claim' demo_claim_typed demo_claim_typed').
  vm_compute. reflexivity.
Defined.

(** A message identifier made of separators. *)
Definition demo_attestation (hash : string) : Attestation :=
  mk_attestation "1:a|1:b" hash [] [] 2 500 1.

Example signing_payload_injective_witness :
  TrimSpace (AttMessageID (demo_attestation "AB")) = TrimSpace (AttMessageID (demo_attestation " ab")) /\
  EqualFold (TrimSpace "AB") (TrimSpace " ab") = true /\
  Threshold (demo_attestation "AB") = Threshold (demo_attestation " ab") /\
  Expiry (demo_attestation "AB") = Expiry (demo_attestation " ab") /\
  SignerSetVersion (demo_attestation "AB") = SignerSetVersion (demo_attestation " ab").
Proof.
  apply (signing_payload_injective (demo_attestation "AB") (demo_attestation " ab")).
  vm_compute. reflexivity.
Defined.
