(* ===== verification/BridgeState.v ===== *)
(** [x/bridge/keeper], part one: the keeper's state, its signer sets, the
    accounting invariant with its circuit breaker, and persistence
    (keeper.go, signer_set.go, accounting.go, invariants.go, state.go). *)

From S2P Require Import Prelude.
From S2P Require Import GoStrings.
From S2P Require Import Sha256.
From S2P Require Import Errors.
From S2P Require Import PrefixStore.
From S2P Require Import Pauser.
From S2P Require Import Registry.
From S2P Require Import Limits.
From S2P Require Import BridgeTypes.
From stdpp Require Import strings.

(** ** Data *)

Definition canonicalNativeETHAddress : string := "0x0000000000000000000000000000000000000000".
Definition ClaimStatusAccepted : string := "accepted".
Definition ClaimStatusRejected : string := "rejected".
Definition withdrawalSourceChainID : string := "aegislink-1".
Definition withdrawalSourceModule : string := "aegislink.bridge".

Record SignerSet := mk_signer_set {
  Version : N;                  (* uint64 *)
  SetSigners : list string;
  SetThreshold : N;             (* uint32 *)
  ActivatedAt : N;              (* uint64 *)
  ExpiresAt : N                 (* uint64 *)
}.

Record ClaimRecord := mk_claim_record {
  RecMessageID : string;
  RecSourceTxHash : string;
  RecDenom : string;
  RecAssetID : string;
  RecRecipient : string;
  RecAmount : Z;
  RecStatus : string
}.

Record WithdrawalRecord := mk_withdrawal {
  BlockHeight : N;              (* uint64 *)
  WIdentity : ClaimIdentity;
  WAssetID : string;
  AssetAddress : string;
  WAmount : Z;
  WRecipient : string;
  WDeadline : N;                (* uint64 *)
  WSignature : string           (* bytes *)
}.

Record ClaimResult := mk_result {
  ResStatus : string;
  ResMessageID : string;
  ResDenom : string;
  ResAmount : option Z
}.

(** ** Snapshots: what is written to a store, amounts in decimal *)

Record bridgeMetadataSnapshot := mk_meta {
  MetaHeight : N; MetaNonce : N; MetaRejected : N; MetaTripped : bool; MetaError : string
}.

Record ClaimRecordSnapshot := mk_claim_snap {
  SnapClaimKey : string;
  SnapMessageID : string;
  SnapSourceTxHash : string;
  SnapDenom : string;
  SnapAssetID : string;
  SnapRecipient : string;
  SnapAmount : string;
  SnapStatus : string
}.

Record WithdrawalRecordSnapshot := mk_withdrawal_snap {
  SnapBlockHeight : N;
  SnapIdentity : ClaimIdentity;
  SnapWAssetID : string;
  SnapAssetAddress : string;
  SnapWAmount : string;
  SnapWRecipient : string;
  SnapDeadline : N;
  SnapSignature : string
}.

Record StateSnapshot := mk_state {
  StMeta : bridgeMetadataSnapshot;
  StSignerSets : list SignerSet;
  StProcessedClaims : list ClaimRecordSnapshot;
  StSupplyByDenom : gmap string string;
  StWithdrawals : list WithdrawalRecordSnapshot
}.

Inductive document :=
| MetaDoc (m : bridgeMetadataSnapshot)
| SignerSetDoc (s : SignerSet)
| ClaimDoc (c : ClaimRecordSnapshot)
| SupplyDoc (amount : string)
| WithdrawalDoc (w : WithdrawalRecordSnapshot)
| StateDoc (st : StateSnapshot).

(** ** The keeper

    The Go keeper holds pointers to the registry, limits and pauser keepers it
    shares with the application; the record holds the one copy of their state. *)

Record Keeper := mk_keeper {
  registryKeeper : Registry.Keeper;
  limitsKeeper : Limits.Keeper;
  pauserKeeper : Pauser.Keeper;
  signerSets : gmap N SignerSet;
  currentHeight : N;
  processedClaims : gmap string ClaimRecord;
  rejectedClaims : N;
  supplyByDenom : gmap string Z;
  withdrawals : list WithdrawalRecord;
  circuitBreakerTripped : bool;
  lastInvariantError : string;
  nextWithdrawalNonce : N;
  prefixStore : option (JSONPrefixStore document)
}.

Definition upd_registryKeeper (f : Registry.Keeper -> Registry.Keeper) (k : Keeper) : Keeper :=
  mk_keeper (f (registryKeeper k)) (limitsKeeper k) (pauserKeeper k) (signerSets k)
    (currentHeight k) (processedClaims k) (rejectedClaims k) (supplyByDenom k) (withdrawals
    k) (circuitBreakerTripped k) (lastInvariantError k) (nextWithdrawalNonce k) (prefixStore
    k).
Definition upd_limitsKeeper (f : Limits.Keeper -> Limits.Keeper) (k : Keeper) : Keeper :=
  mk_keeper (registryKeeper k) (f (limitsKeeper k)) (pauserKeeper k) (signerSets k)
    (currentHeight k) (processedClaims k) (rejectedClaims k) (supplyByDenom k) (withdrawals
    k) (circuitBreakerTripped k) (lastInvariantError k) (nextWithdrawalNonce k) (prefixStore
    k).
Definition upd_pauserKeeper (f : Pauser.Keeper -> Pauser.Keeper) (k : Keeper) : Keeper :=
  mk_keeper (registryKeeper k) (limitsKeeper k) (f (pauserKeeper k)) (signerSets k)
    (currentHeight k) (processedClaims k) (rejectedClaims k) (supplyByDenom k) (withdrawals
    k) (circuitBreakerTripped k) (lastInvariantError k) (nextWithdrawalNonce k) (prefixStore
    k).
Definition upd_signerSets (f : gmap N SignerSet -> gmap N SignerSet) (k : Keeper) : Keeper :=
  mk_keeper (registryKeeper k) (limitsKeeper k) (pauserKeeper k) (f (signerSets k))
    (currentHeight k) (processedClaims k) (rejectedClaims k) (supplyByDenom k) (withdrawals
    k) (circuitBreakerTripped k) (lastInvariantError k) (nextWithdrawalNonce k) (prefixStore
    k).
Definition upd_currentHeight (f : N -> N) (k : Keeper) : Keeper :=
  mk_keeper (registryKeeper k) (limitsKeeper k) (pauserKeeper k) (signerSets k) (f
    (currentHeight k)) (processedClaims k) (rejectedClaims k) (supplyByDenom k) (withdrawals
    k) (circuitBreakerTripped k) (lastInvariantError k) (nextWithdrawalNonce k) (prefixStore
    k).
Definition upd_processedClaims (f : gmap string ClaimRecord -> gmap string ClaimRecord) (k : Keeper) : Keeper :=
  mk_keeper (registryKeeper k) (limitsKeeper k) (pauserKeeper k) (signerSets k)
    (currentHeight k) (f (processedClaims k)) (rejectedClaims k) (supplyByDenom k)
    (withdrawals k) (circuitBreakerTripped k) (lastInvariantError k) (nextWithdrawalNonce k)
    (prefixStore k).
Definition upd_rejectedClaims (f : N -> N) (k : Keeper) : Keeper :=
  mk_keeper (registryKeeper k) (limitsKeeper k) (pauserKeeper k) (signerSets k)
    (currentHeight k) (processedClaims k) (f (rejectedClaims k)) (supplyByDenom k)
    (withdrawals k) (circuitBreakerTripped k) (lastInvariantError k) (nextWithdrawalNonce k)
    (prefixStore k).
Definition upd_supplyByDenom (f : gmap string Z -> gmap string Z) (k : Keeper) : Keeper :=
  mk_keeper (registryKeeper k) (limitsKeeper k) (pauserKeeper k) (signerSets k)
    (currentHeight k) (processedClaims k) (rejectedClaims k) (f (supplyByDenom k))
    (withdrawals k) (circuitBreakerTripped k) (lastInvariantError k) (nextWithdrawalNonce k)
    (prefixStore k).
Definition upd_withdrawals (f : list WithdrawalRecord -> list WithdrawalRecord) (k : Keeper) : Keeper :=
  mk_keeper (registryKeeper k) (limitsKeeper k) (pauserKeeper k) (signerSets k)
    (currentHeight k) (processedClaims k) (rejectedClaims k) (supplyByDenom k) (f
    (withdrawals k)) (circuitBreakerTripped k) (lastInvariantError k) (nextWithdrawalNonce
    k) (prefixStore k).
Definition upd_circuitBreakerTripped (f : bool -> bool) (k : Keeper) : Keeper :=
  mk_keeper (registryKeeper k) (limitsKeeper k) (pauserKeeper k) (signerSets k)
    (currentHeight k) (processedClaims k) (rejectedClaims k) (supplyByDenom k) (withdrawals
    k) (f (circuitBreakerTripped k)) (lastInvariantError k) (nextWithdrawalNonce k)
    (prefixStore k).
Definition upd_lastInvariantError (f : string -> string) (k : Keeper) : Keeper :=
  mk_keeper (registryKeeper k) (limitsKeeper k) (pauserKeeper k) (signerSets k)
    (currentHeight k) (processedClaims k) (rejectedClaims k) (supplyByDenom k) (withdrawals
    k) (circuitBreakerTripped k) (f (lastInvariantError k)) (nextWithdrawalNonce k)
    (prefixStore k).
Definition upd_nextWithdrawalNonce (f : N -> N) (k : Keeper) : Keeper :=
  mk_keeper (registryKeeper k) (limitsKeeper k) (pauserKeeper k) (signerSets k)
    (currentHeight k) (processedClaims k) (rejectedClaims k) (supplyByDenom k) (withdrawals
    k) (circuitBreakerTripped k) (lastInvariantError k) (f (nextWithdrawalNonce k))
    (prefixStore k).
Definition upd_prefixStore (f : option (JSONPrefixStore document) -> option (JSONPrefixStore document)) (k : Keeper) : Keeper :=
  mk_keeper (registryKeeper k) (limitsKeeper k) (pauserKeeper k) (signerSets k)
    (currentHeight k) (processedClaims k) (rejectedClaims k) (supplyByDenom k) (withdrawals
    k) (circuitBreakerTripped k) (lastInvariantError k) (nextWithdrawalNonce k) (f
    (prefixStore k)).

(** ** Signer sets (signer_set.go) *)

Fixpoint check_set_signers (seen : gset string) (signers : list string) : result unit :=
  match signers with
  | [] => Ok tt
  | s :: rest =>
      let signer := ToLower (TrimSpace s) in
      if decide (signer = EmptyString) then Err (Errorf "empty signer")
      else if decide (signer ∈ seen) then Err (Errorf ("duplicate signer " +:+ Quote signer))
      else check_set_signers ({[ signer ]} ∪ seen) rest
  end.

Definition signer_set_ValidateBasic (s : SignerSet) : result unit :=
  let count := N.of_nat (length (SetSigners s)) in
  let? _ := first_error [
    (N.eqb (Version s) 0, Errorf "missing signer set version");
    (N.eqb count 0, Errorf "missing signers");
    (N.eqb (SetThreshold s) 0, Errorf "missing threshold");
    ((count <? SetThreshold s)%N, Errorf "threshold exceeds signer count");
    (negb (N.eqb (ExpiresAt s) 0) && (ExpiresAt s <? ActivatedAt s)%N,
      Errorf "expiry before activation")
  ] in
  check_set_signers ∅ (SetSigners s).

Definition normalizeSignerSet (s : SignerSet) : SignerSet :=
  mk_signer_set (Version s) (SortStrings (map NormalizeSignerAddress (SetSigners s)))
    (SetThreshold s) (ActivatedAt s) (ExpiresAt s).

Definition set_active (height : N) (s : SignerSet) : bool :=
  negb (height <? ActivatedAt s)%N &&
  negb (negb (N.eqb (ExpiresAt s) 0) && (ExpiresAt s <? height)%N).

(** ** Accounting (accounting.go, invariants.go) *)

Definition bridgeDenomForAsset (a : Asset) : string :=
  let denom := TrimSpace (DestinationDenom a) in
  if decide (denom = EmptyString) then TrimSpace (Denom a) else denom.

Definition sourceAssetAddressForWithdrawal (a : Asset) : string :=
  let address := TrimSpace (SourceAssetAddress a) in
  let contract := TrimSpace (Registry.SourceContract a) in
  if negb (eqs address EmptyString) then address
  else if negb (eqs contract EmptyString) then contract
  else if eqs (Registry.SourceAssetKind a) SourceAssetKindNativeETH
  then canonicalNativeETHAddress
  else EmptyString.

Definition cloneAmount (a : option Z) : Z := default 0%Z a.

Definition lookup_amount (m : gmap string Z) (denom : string) : Z := default 0%Z (m !! denom).

(** [m[denom].Add(m[denom], v)], creating the entry when it is missing. *)
Definition add_amount (denom : string) (v : Z) (m : gmap string Z) : gmap string Z :=
  <[denom := (lookup_amount m denom + v)%Z]> m.

Definition mintRepresentation (denom : string) (amount : Z) (k : Keeper) : Keeper :=
  upd_supplyByDenom (add_amount denom amount) k.

Definition burnRepresentation (denom : string) (amount : Z) : Op Keeper unit :=
  let! found := gets (fun k => supplyByDenom k !! denom) in
  let! current := some_or found ErrInsufficientSupply in
  throw_if (current <? amount)%Z ErrInsufficientSupply ;;;
  modify (upd_supplyByDenom <[denom := (current - amount)%Z]>).

Definition SupplyForDenom (k : Keeper) (denom : string) : Z := lookup_amount (supplyByDenom k) denom.

Definition cloneWithdrawalRecord (w : WithdrawalRecord) : WithdrawalRecord := w.

Definition Withdrawals (k : Keeper) (fromHeight toHeight : N) : list WithdrawalRecord :=
  if (toHeight <? fromHeight)%N then []
  else map cloneWithdrawalRecord
    (filter (fun w => ((BlockHeight w <? fromHeight) || (toHeight <? BlockHeight w))%N = false)
      (withdrawals k)).

Section accounting.
Context `{MapIteration}.

Definition expected_claims (claims : gmap string ClaimRecord) : gmap string Z :=
  foldl (fun expected e =>
    if eqs (RecStatus e.2) ClaimStatusAccepted
    then add_amount (RecDenom e.2) (RecAmount e.2) expected else expected) ∅ (range claims).

Fixpoint subtract_withdrawals (registry : Registry.Keeper) (ws : list WithdrawalRecord)
    (expected : gmap string Z) : result (gmap string Z) :=
  match ws with
  | [] => Ok expected
  | w :: rest =>
      match GetAsset registry (WAssetID w) with
      | None => Err (Wrapf ErrAccountingInvariantBroken
                       ("missing asset metadata for withdrawal asset " +:+ WAssetID w))
      | Some asset =>
          let denom := bridgeDenomForAsset asset in
          let expected := add_amount denom (- WAmount w) expected in
          if (lookup_amount expected denom <? 0)%Z
          then Err (Wrapf ErrAccountingInvariantBroken
                      ("negative expected supply for asset " +:+ WAssetID w +:+ " denom " +:+ denom))
          else subtract_withdrawals registry rest expected
      end
  end.

Fixpoint compare_supply (supply : list (string * Z)) (expected : gmap string Z)
    : result (gmap string Z) :=
  match supply with
  | [] => Ok expected
  | (denom, actual) :: rest =>
      let want := lookup_amount expected denom in
      if negb (actual =? want)%Z
      then Err (Wrapf ErrAccountingInvariantBroken
                  ("denom " +:+ denom +:+ " supply mismatch want=" +:+ format_int want +:+
                   " got=" +:+ format_int actual))
      else compare_supply rest (delete denom expected)
  end.

Fixpoint no_remainder (remaining : list (string * Z)) : result unit :=
  match remaining with
  | [] => Ok tt
  | (denom, v) :: rest =>
      if (v =? 0)%Z then no_remainder rest
      else Err (Wrapf ErrAccountingInvariantBroken
                  ("denom " +:+ denom +:+ " missing supply entry want=" +:+ format_int v))
  end.

Definition accounting_check (k : Keeper) : result unit :=
  let expected := expected_claims (processedClaims k) in
  let? expected := subtract_withdrawals (registryKeeper k) (withdrawals k) expected in
  let? expected := compare_supply (range (supplyByDenom k)) expected in
  no_remainder (range expected).
End accounting.

Definition ensureCircuitHealthy (k : Keeper) : result unit :=
  if circuitBreakerTripped k then
    if eqs (lastInvariantError k) EmptyString then Err (Sentinel ErrBridgeCircuitOpen)
    else Err (Wrapf ErrBridgeCircuitOpen (lastInvariantError k))
  else Ok tt.

Definition isCircuitError (e : error) : bool :=
  error_is ErrAccountingInvariantBroken e || error_is ErrBridgeCircuitOpen e.

(** ** Persistence (keeper.go, state.go) *)

Definition bridgeMetaPrefix : string := "meta".
Definition bridgeSignerSetPrefix : string := "signer_set".
Definition bridgeClaimPrefix : string := "claim".
Definition bridgeSupplyPrefix : string := "supply".
Definition bridgeWithdrawalPrefix : string := "withdrawal".

Definition metadata (k : Keeper) : bridgeMetadataSnapshot :=
  mk_meta (currentHeight k) (nextWithdrawalNonce k) (rejectedClaims k) (circuitBreakerTripped k)
    (lastInvariantError k).

(** The claim record [persist] writes: it has no [SourceTxHash] field. *)
Definition persisted_claim (claimKey : string) (r : ClaimRecord) : ClaimRecordSnapshot :=
  mk_claim_snap claimKey (RecMessageID r) EmptyString (RecDenom r) (RecAssetID r) (RecRecipient r)
    (format_int (RecAmount r)) (RecStatus r).

(** The claim record [ExportState] writes. *)
Definition exported_claim (claimKey : string) (r : ClaimRecord) : ClaimRecordSnapshot :=
  mk_claim_snap claimKey (RecMessageID r) (RecSourceTxHash r) (RecDenom r) (RecAssetID r)
    (RecRecipient r) (format_int (RecAmount r)) (RecStatus r).

Definition withdrawal_snapshot (w : WithdrawalRecord) : WithdrawalRecordSnapshot :=
  mk_withdrawal_snap (BlockHeight w) (WIdentity w) (WAssetID w) (AssetAddress w)
    (format_int (WAmount w)) (WRecipient w) (WDeadline w) (WSignature w).

(** [fmt.Sprintf("%020d", idx)]. *)
Fixpoint zeros (n : nat) : string :=
  match n with O => EmptyString | S n => String (Ascii.ascii_of_N 48) (zeros n) end.
Definition pad20 (n : N) : string :=
  let d := format_uint n in zeros (20 - String.length d) +:+ d.

Definition indexed_withdrawals (ws : list WithdrawalRecord) : list (string * WithdrawalRecord) :=
  imap (fun i w => (pad20 (N.of_nat i), w)) ws.

Section persistence.
Context `{MapIteration}.

Definition persist_store (k : Keeper) (s : JSONPrefixStore document) : JSONPrefixStore document :=
  let s := ClearPrefix s bridgeMetaPrefix in
  let s := ClearPrefix s bridgeSignerSetPrefix in
  let s := ClearPrefix s bridgeClaimPrefix in
  let s := ClearPrefix s bridgeSupplyPrefix in
  let s := ClearPrefix s bridgeWithdrawalPrefix in
  let s := Save s bridgeMetaPrefix "runtime" (MetaDoc (metadata k)) in
  let s := save_entries bridgeSignerSetPrefix (fun _ set => SignerSetDoc set)
             (map (fun e => (format_uint (Version e.2), e.2)) (range (signerSets k))) s in
  let s := save_entries bridgeClaimPrefix (fun key r => ClaimDoc (persisted_claim key r))
             (range (processedClaims k)) s in
  let s := save_entries bridgeSupplyPrefix (fun _ amount => SupplyDoc (format_int amount))
             (range (supplyByDenom k)) s in
  let s := save_entries bridgeWithdrawalPrefix (fun _ w => WithdrawalDoc (withdrawal_snapshot w))
             (indexed_withdrawals (withdrawals k)) s in
  Commit s.

Definition persist : Op Keeper unit :=
  modify (fun k => upd_prefixStore (option_map (persist_store k)) k).

Definition Flush : Op Keeper unit := persist.

Definition SetCurrentHeight (height : N) : Op Keeper unit :=
  modify (upd_currentHeight (fun _ => height)) ;;; persist.

(** [tripCircuit]: record the reason, persist, return the reason. *)
Definition tripCircuit (reason : error) : Op Keeper unit :=
  modify (upd_circuitBreakerTripped (fun _ => true)) ;;;
  modify (upd_lastInvariantError (fun _ => error_text reason)) ;;;
  persist ;;;
  throw reason.

Definition CheckAccountingInvariant : Op Keeper unit :=
  let! outcome := gets accounting_check in
  match outcome with
  | Ok _ => ret tt
  | Err reason => tripCircuit reason
  end.

Definition UpsertSignerSet (s : SignerSet) : Op Keeper unit :=
  lift (signer_set_ValidateBasic s) ;;;
  modify (upd_signerSets <[Version s := normalizeSignerSet s]>) ;;;
  persist.

Definition select_active (height : N) (active : option SignerSet) (s : SignerSet) : option SignerSet :=
  if negb (set_active height s) then active
  else match active with
       | None => Some s
       | Some a => if (Version a <? Version s)%N then Some s else active
       end.

Definition ActiveSignerSet (k : Keeper) : result SignerSet :=
  match foldl (fun active e => select_active (currentHeight k) active e.2) None
          (range (signerSets k)) with
  | None => Err (Sentinel ErrSignerSetInactive)
  | Some s => Ok s
  end.

Definition SignerSetByVersion (k : Keeper) (version : N) : option SignerSet :=
  if N.eqb version 0 then None else signerSets k !! version.

Definition version_le (a b : SignerSet) : Prop := (Version a <= Version b)%N.
#[global] Instance version_le_dec : RelDecision version_le.
Proof. intros a b. unfold version_le. apply _. Defined.

(** [sort.Slice] by version; versions are distinct, so the order of equal
    elements does not matter. *)
Definition ExportSignerSets (k : Keeper) : list SignerSet :=
  merge_sort version_le (map (fun e => normalizeSignerSet e.2) (range (signerSets k))).

Definition ExportState (k : Keeper) : StateSnapshot :=
  mk_state (metadata k) (map snd (range (signerSets k)))
    (map (fun e => exported_claim e.1 e.2) (range (processedClaims k)))
    (format_int <$> supplyByDenom k)
    (map withdrawal_snapshot (withdrawals k)).

(** *** Loading *)

Definition import_meta (m : bridgeMetadataSnapshot) (k : Keeper) : Keeper :=
  let nonce := if N.eqb (MetaNonce m) 0 then 1%N else MetaNonce m in
  upd_currentHeight (fun _ => MetaHeight m) (upd_nextWithdrawalNonce (fun _ => nonce)
    (upd_rejectedClaims (fun _ => MetaRejected m)
      (upd_circuitBreakerTripped (fun _ => MetaTripped m)
        (upd_lastInvariantError (fun _ => MetaError m) k)))).

Definition import_signer_set (s : SignerSet) : Op Keeper unit :=
  let set := normalizeSignerSet s in
  modify (upd_signerSets <[Version set := set]>).

Definition parse_amount (what text : string) : result Z :=
  match SetString10 text with
  | Some v => Ok v
  | None => Err (Errorf ("invalid " +:+ what +:+ " amount " +:+ Quote text))
  end.

Definition import_claim (c : ClaimRecordSnapshot) : Op Keeper unit :=
  let! amount := lift (parse_amount "processed claim" (SnapAmount c)) in
  modify (upd_processedClaims <[SnapClaimKey c :=
    mk_claim_record (SnapMessageID c) (SnapSourceTxHash c) (SnapDenom c) (SnapAssetID c)
      (SnapRecipient c) amount (SnapStatus c)]>).

Definition import_supply (denom text : string) : Op Keeper unit :=
  let! parsed := lift (parse_amount "supply" text) in
  modify (upd_supplyByDenom <[denom := parsed]>).

Definition import_withdrawal (w : WithdrawalRecordSnapshot) : Op Keeper unit :=
  let! amount := lift (parse_amount "withdrawal" (SnapWAmount w)) in
  modify (upd_withdrawals (fun ws => ws ++
    [mk_withdrawal (SnapBlockHeight w) (SnapIdentity w) (SnapWAssetID w) (SnapAssetAddress w)
       amount (SnapWRecipient w) (SnapDeadline w) (SnapSignature w)])).

(** [ImportState] does not persist what it imports. *)
Definition ImportState (st : StateSnapshot) : Op Keeper unit :=
  modify (import_meta (StMeta st)) ;;;
  (match StSignerSets st with
   | [] => ret tt
   | sets => modify (upd_signerSets (fun _ => ∅)) ;;; for_each import_signer_set sets
   end) ;;;
  modify (upd_processedClaims (fun _ => ∅)) ;;;
  for_each import_claim (StProcessedClaims st) ;;;
  modify (upd_supplyByDenom (fun _ => ∅)) ;;;
  for_each (fun e => import_supply e.1 e.2) (range (StSupplyByDenom st)) ;;;
  modify (upd_withdrawals (fun _ => [])) ;;;
  for_each import_withdrawal (StWithdrawals st).

Definition mismatch {A} : Op Keeper A := throw decode_error.

Definition loadFromPrefixStore (s : JSONPrefixStore document) : Op Keeper unit :=
  let! defaultSignerSets := gets signerSets in
  modify (fun k => upd_signerSets (fun _ => ∅) (upd_processedClaims (fun _ => ∅)
    (upd_supplyByDenom (fun _ => ∅) (upd_withdrawals (fun _ => [])
      (upd_nextWithdrawalNonce (fun _ => 1%N) k))))) ;;;
  let! meta := lift (Load s bridgeMetaPrefix "runtime") in
  (match meta with
   | None => ret tt
   | Some (MetaDoc m) => modify (import_meta m)
   | Some _ => mismatch
   end) ;;;
  LoadAll s bridgeSignerSetPrefix (fun _ d =>
    match d with SignerSetDoc x => import_signer_set x | _ => mismatch end) ;;;
  modify (fun k => if decide (signerSets k = ∅)
                   then upd_signerSets (fun _ => defaultSignerSets) k else k) ;;;
  LoadAll s bridgeClaimPrefix (fun _ d =>
    match d with ClaimDoc c => import_claim c | _ => mismatch end) ;;;
  LoadAll s bridgeSupplyPrefix (fun id d =>
    match d with SupplyDoc t => import_supply id t | _ => mismatch end) ;;;
  LoadAll s bridgeWithdrawalPrefix (fun _ d =>
    match d with WithdrawalDoc w => import_withdrawal w | _ => mismatch end).

Definition NewKeeper (registry : Registry.Keeper) (limits : Limits.Keeper) (pauser : Pauser.Keeper)
    (allowedSigners : list string) (requiredThreshold : N) : Keeper :=
  let threshold := if N.eqb requiredThreshold 0 then 1%N else requiredThreshold in
  mk_keeper registry limits pauser
    {[ 1%N := normalizeSignerSet (mk_signer_set 1 allowedSigners threshold 0 0) ]}
    0 ∅ 0 ∅ [] false EmptyString 1 None.

Definition NewStoreKeeper (s : JSONPrefixStore document) (registry : Registry.Keeper)
    (limits : Limits.Keeper) (pauser : Pauser.Keeper) (allowedSigners : list string)
    (requiredThreshold : N) : result Keeper :=
  let keeper := upd_prefixStore (fun _ => Some s)
    (NewKeeper registry limits pauser allowedSigners requiredThreshold) in
  let run (op : Op Keeper unit) :=
    match op keeper with (Ok _, k) => Ok k | (Err e, _) => Err e end in
  if HasAny s bridgeMetaPrefix || HasAny s bridgeSignerSetPrefix || HasAny s bridgeClaimPrefix ||
     HasAny s bridgeSupplyPrefix || HasAny s bridgeWithdrawalPrefix
  then run (loadFromPrefixStore s)
  else if HasState s then
    match state_Load s with
    | Err e => Err e
    | Ok (Some (StateDoc st)) => run (ImportState st)
    | Ok (Some _) => Err decode_error
    | Ok None => Ok keeper
    end
  else Ok keeper.
End persistence.

(** ** What the accounting check decides *)

Definition claim_value (d : string) (r : ClaimRecord) : Z :=
  if eqs (RecStatus r) ClaimStatusAccepted && eqs (RecDenom r) d then RecAmount r else 0.

(** The amount of denom [d] minted by accepted claims. *)
Definition claims_total (claims : gmap string ClaimRecord) (d : string) : Z :=
  map_sum (fun e => claim_value d e.2) claims.

Definition withdrawal_value (registry : Registry.Keeper) (d : string) (w : WithdrawalRecord) : Z :=
  match GetAsset registry (WAssetID w) with
  | Some asset => if eqs (bridgeDenomForAsset asset) d then WAmount w else 0
  | None => 0
  end.

(** The amount of denom [d] burned by withdrawals. *)
Definition withdrawn_total (registry : Registry.Keeper) (ws : list WithdrawalRecord) (d : string) : Z :=
  zsum (withdrawal_value registry d) ws.

Definition registered (registry : Registry.Keeper) (ws : list WithdrawalRecord) : Prop :=
  Forall (fun w => is_Some (GetAsset registry (WAssetID w))) ws.

Definition amounts_nonneg (k : Keeper) : Prop :=
  map_Forall (fun _ r => 0 <= RecAmount r)%Z (processedClaims k) /\
  Forall (fun w => 0 <= WAmount w)%Z (withdrawals k).

(** The books are balanced: every withdrawn asset is known and, per denom, the
    supply is what accepted claims minted minus what withdrawals burned. *)
Definition balanced (k : Keeper) : Prop :=
  registered (registryKeeper k) (withdrawals k) /\
  forall d, SupplyForDenom k d =
      (claims_total (processedClaims k) d - withdrawn_total (registryKeeper k) (withdrawals k) d)%Z /\
    (0 <= SupplyForDenom k d)%Z.

Lemma lookup_add_amount m d d' v :
  lookup_amount (add_amount d v m) d' =
    (lookup_amount m d' + if eqs d d' then v else 0)%Z.
Proof.
  unfold lookup_amount, add_amount, eqs. case_bool_decide as Hd.
  - subst d'. by rewrite lookup_insert_eq.
  - rewrite lookup_insert_ne by done. lia.
Qed.

Section accounting_lemmas.
Context `{MapIteration}.

Lemma lookup_expected_claims claims d :
  lookup_amount (expected_claims claims) d = claims_total claims d.
Proof.
  unfold claims_total, map_sum. rewrite <- range_perm. unfold expected_claims.
  assert (Hgen : forall l m, lookup_amount (foldl (fun expected (e : string * ClaimRecord) =>
      if eqs (RecStatus e.2) ClaimStatusAccepted
      then add_amount (RecDenom e.2) (RecAmount e.2) expected else expected) m l) d =
    (lookup_amount m d + zsum (fun e => claim_value d e.2) l)%Z).
  { induction l as [|[key r] l IH]; intros m; cbn [foldl zsum foldr]; [lia|].
    rewrite IH. unfold claim_value at 2. cbn [snd].
    destruct (eqs (RecStatus r) ClaimStatusAccepted); cbn [andb].
    - rewrite lookup_add_amount. fold (zsum (fun e : string * ClaimRecord => claim_value d e.2) l). lia.
    - fold (zsum (fun e : string * ClaimRecord => claim_value d e.2) l). lia. }
  rewrite Hgen. unfold lookup_amount at 1. rewrite lookup_empty. simpl. lia.
Qed.

Lemma subtract_withdrawals_ok registry ws m m' :
  subtract_withdrawals registry ws m = Ok m' ->
  registered registry ws /\
  forall d, (lookup_amount m' d = lookup_amount m d - withdrawn_total registry ws d)%Z /\
    ((0 <= lookup_amount m d) -> (0 <= lookup_amount m' d))%Z.
Proof.
  revert m. induction ws as [|w ws IH]; intros m Heq; cbn [subtract_withdrawals] in Heq.
  { injection Heq as ->. split; [constructor|]. intros d. unfold withdrawn_total. simpl. lia. }
  destruct (GetAsset registry (WAssetID w)) as [asset|] eqn:Ha; [|done]. cbv zeta in Heq.
  destruct (Z.ltb_spec (lookup_amount (add_amount (bridgeDenomForAsset asset) (- WAmount w) m)
    (bridgeDenomForAsset asset)) 0); [done|].
  apply IH in Heq as [Hreg Hd]. split; [constructor; [by rewrite Ha|done]|]. intros d.
  destruct (Hd d) as [Heq Hnn]. rewrite Heq. unfold withdrawn_total. cbn [zsum foldr].
  unfold withdrawal_value at 2. rewrite Ha.
  fold (zsum (withdrawal_value registry d) ws). fold (withdrawn_total registry ws d) in *.
  rewrite lookup_add_amount in *.
  destruct (eqs (bridgeDenomForAsset asset) d) eqn:Hed.
  - apply eqs_true in Hed as <-. rewrite eqs_refl in *. split; [lia|]. intros _. lia.
  - split; [lia|]. intros. lia.
Qed.

Lemma withdrawn_total_nonneg registry ws d :
  Forall (fun w => 0 <= WAmount w)%Z ws -> (0 <= withdrawn_total registry ws d)%Z.
Proof.
  intros Hw. apply zsum_nonneg. intros w Hin. unfold withdrawal_value.
  rewrite Forall_forall in Hw. specialize (Hw w Hin). repeat case_match; lia.
Qed.

Lemma subtract_withdrawals_complete registry ws m :
  registered registry ws -> Forall (fun w => 0 <= WAmount w)%Z ws ->
  (forall d, 0 <= lookup_amount m d - withdrawn_total registry ws d)%Z ->
  exists m', subtract_withdrawals registry ws m = Ok m'.
Proof.
  revert m. induction ws as [|w ws IH]; intros m Hreg Hnn Hd; cbn [subtract_withdrawals]; [eauto|].
  apply Forall_cons in Hreg as [[asset Ha] Hreg], Hnn as [Hw Hnn]. rewrite Ha. cbv zeta.
  assert (Hstep : forall d, (lookup_amount (add_amount (bridgeDenomForAsset asset) (- WAmount w) m) d
    - withdrawn_total registry ws d = lookup_amount m d - withdrawn_total registry (w :: ws) d)%Z).
  { intros d. rewrite lookup_add_amount. unfold withdrawn_total. cbn [zsum foldr].
    unfold withdrawal_value at 2. rewrite Ha. fold (zsum (withdrawal_value registry d) ws).
    destruct (eqs _ d); lia. }
  pose proof (Hd (bridgeDenomForAsset asset)) as Hd0. rewrite <- Hstep in Hd0.
  pose proof (withdrawn_total_nonneg registry ws (bridgeDenomForAsset asset) Hnn).
  destruct (Z.ltb_spec (lookup_amount (add_amount (bridgeDenomForAsset asset) (- WAmount w) m)
    (bridgeDenomForAsset asset)) 0); [lia|].
  apply IH; [done..|]. intros d. rewrite Hstep. apply Hd.
Qed.

Lemma compare_supply_spec supply m :
  NoDup supply.*1 ->
  (exists m', compare_supply supply m = Ok m') <->
    (forall d a, (d, a) ∈ supply -> lookup_amount m d = a).
Proof.
  revert m. induction supply as [|[d a] supply IH]; intros m Hnd; cbn [compare_supply].
  { split; [intros _ d a Hin; by apply not_elem_of_nil in Hin|eauto]. }
  apply NoDup_cons in Hnd as [Hd Hnd]. simpl in Hd.
  destruct (Z.eqb_spec a (lookup_amount m d)) as [->|Hne]; cbn [negb].
  - rewrite (IH (delete d m) Hnd).
    assert (Hsame : forall d' a', (d', a') ∈ supply ->
      lookup_amount (delete d m) d' = lookup_amount m d').
    { intros d' a' Hin. unfold lookup_amount. rewrite lookup_delete_ne; [done|].
      intros ->. apply Hd. apply list_elem_of_fmap. by exists (d', a'). }
    split.
    + intros Hall d' a' [Heq|Hin]%elem_of_cons; [by injection Heq as -> ->|].
      rewrite <- (Hsame d' a' Hin). by apply Hall.
    + intros Hall d' a' Hin. rewrite (Hsame d' a' Hin). apply Hall. by right.
  - split; [by intros [? ?]|]. intros Hall. exfalso. apply Hne. symmetry. apply Hall. left.
Qed.

Lemma compare_supply_result supply m m' d :
  compare_supply supply m = Ok m' ->
  lookup_amount m' d = if decide (d ∈ supply.*1) then 0%Z else lookup_amount m d.
Proof.
  revert m. induction supply as [|[d' a] supply IH]; intros m; cbn [compare_supply].
  { intros [= ->]. by rewrite decide_False by apply not_elem_of_nil. }
  destruct (negb _); [done|]. intros Heq. rewrite (IH _ Heq). cbn [fmap list_fmap fst].
  destruct (decide (d ∈ supply.*1)).
  - by rewrite decide_True by by right.
  - unfold lookup_amount. destruct (decide (d = d')) as [->|Hne].
    + rewrite lookup_delete_eq, decide_True by left. done.
    + rewrite lookup_delete_ne by done. rewrite decide_False; [done|].
      intros [?|?]%elem_of_cons; done.
Qed.

Lemma no_remainder_ok l : no_remainder l = Ok tt <-> (forall d v, (d, v) ∈ l -> v = 0%Z).
Proof.
  induction l as [|[d v] l IH]; cbn [no_remainder].
  { split; [intros _ d v Hin; by apply not_elem_of_nil in Hin|done]. }
  destruct (Z.eqb_spec v 0) as [->|Hne].
  - rewrite IH. split.
    + intros Hall d' v' [Heq|Hin]%elem_of_cons; [by injection Heq|by eapply Hall].
    + intros Hall d' v' Hin. apply (Hall d'). by right.
  - split; [done|]. intros Hall. exfalso. apply Hne, (Hall d). left.
Qed.

Lemma no_remainder_map m : no_remainder (range m) = Ok tt <-> forall d, lookup_amount m d = 0%Z.
Proof.
  rewrite no_remainder_ok. unfold lookup_amount. split.
  - intros Hall d. destruct (m !! d) as [v|] eqn:Hd; [|done]. simpl. apply (Hall d).
    rewrite range_perm. by apply elem_of_map_to_list.
  - intros Hall d v Hin. rewrite range_perm in Hin. apply elem_of_map_to_list in Hin.
    specialize (Hall d). by rewrite Hin in Hall.
Qed.

Lemma range_fst_nodup {A} (m : gmap string A) : NoDup (range m).*1.
Proof. rewrite range_perm. apply NoDup_fst_map_to_list. Qed.

Lemma elem_of_range_fst {A} (m : gmap string A) d : d ∈ (range m).*1 <-> is_Some (m !! d).
Proof.
  rewrite range_perm, list_elem_of_fmap. split.
  - intros ([d' v] & -> & Hin). apply elem_of_map_to_list in Hin. by exists v.
  - intros [v Hv]. exists (d, v). split; [done|]. by apply elem_of_map_to_list.
Qed.
End accounting_lemmas.

Section accounting_theorems.
Context `{MapIteration}.

Lemma claims_total_nonneg claims d :
  map_Forall (fun _ r => 0 <= RecAmount r)%Z claims -> (0 <= claims_total claims d)%Z.
Proof.
  intros Hc. apply map_sum_nonneg. intros key r Hr. unfold claim_value. cbn [snd].
  specialize (Hc key r Hr). simpl in Hc. case_match; lia.
Qed.

Lemma accounting_check_iff k :
  amounts_nonneg k -> accounting_check k = Ok tt <-> balanced k.
Proof.
  intros [Hc Hw]. unfold accounting_check, balanced. cbv zeta. split.
  - intros (m1 & Hsub & Heq)%res_bind_ok_inv.
    apply res_bind_ok_inv in Heq as (m2 & Hcmp & Hrem).
    apply subtract_withdrawals_ok in Hsub as [Hreg Hm1]. split; [done|]. intros d.
    destruct (Hm1 d) as [Heq Hnn]. rewrite lookup_expected_claims in Heq, Hnn.
    pose proof (proj1 (no_remainder_map m2) Hrem d) as Hd.
    rewrite (compare_supply_result _ _ _ _ Hcmp) in Hd.
    assert (Hsupply : SupplyForDenom k d = lookup_amount m1 d).
    { unfold SupplyForDenom. case_decide as Hin.
      - apply elem_of_range_fst in Hin as [a Ha]. unfold lookup_amount at 1. rewrite Ha. simpl.
        symmetry. eapply (compare_supply_spec (range (supplyByDenom k))); [apply range_fst_nodup|eauto|].
        rewrite range_perm. by apply elem_of_map_to_list.
      - rewrite Hd. unfold lookup_amount. destruct (supplyByDenom k !! d) eqn:Hk; [|done].
        exfalso. apply Hin. apply elem_of_range_fst. eauto. }
    rewrite Hsupply. split; [lia|]. apply Hnn. by apply claims_total_nonneg.
  - intros [Hreg Hbal].
    assert (Hexp : forall d, (lookup_amount (expected_claims (processedClaims k)) d -
        withdrawn_total (registryKeeper k) (withdrawals k) d = SupplyForDenom k d)%Z)
      by (intros d; rewrite lookup_expected_claims; by rewrite (proj1 (Hbal d))).
    destruct (subtract_withdrawals_complete (registryKeeper k) (withdrawals k)
      (expected_claims (processedClaims k)) Hreg Hw) as [m1 Hm1].
    { intros d. rewrite Hexp. apply Hbal. }
    rewrite Hm1. cbn [res_bind]. apply subtract_withdrawals_ok in Hm1 as [_ Hm1].
    assert (Hm1' : forall d, lookup_amount m1 d = SupplyForDenom k d)
      by (intros d; rewrite (proj1 (Hm1 d)); apply Hexp).
    destruct (proj2 (compare_supply_spec (range (supplyByDenom k)) m1 (range_fst_nodup _))) as [m2 Hm2].
    { intros d a Hin. rewrite range_perm in Hin. apply elem_of_map_to_list in Hin.
      rewrite Hm1'. unfold SupplyForDenom, lookup_amount. by rewrite Hin. }
    rewrite Hm2. cbn [res_bind]. apply no_remainder_map. intros d.
    rewrite (compare_supply_result _ _ _ _ Hm2). case_decide as Hin; [done|].
    rewrite Hm1'. unfold SupplyForDenom, lookup_amount.
    destruct (supplyByDenom k !! d) eqn:Hk; [|done].
    exfalso. apply Hin. apply elem_of_range_fst. eauto.
Qed.

Lemma accounting_check_error k e :
  accounting_check k = Err e -> error_is ErrAccountingInvariantBroken e = true.
Proof.
  assert (Hsub : forall registry ws m e, subtract_withdrawals registry ws m = Err e ->
    error_is ErrAccountingInvariantBroken e = true).
  { intros registry ws. induction ws as [|w ws IH]; intros m e' Heq; cbn [subtract_withdrawals] in Heq; [done|].
    repeat case_match; simplify_eq; try reflexivity. by eapply IH. }
  assert (Hcmp : forall supply m e, compare_supply supply m = Err e ->
    error_is ErrAccountingInvariantBroken e = true).
  { intros supply. induction supply as [|[d a] supply IH]; intros m e' Heq; cbn [compare_supply] in Heq; [done|].
    repeat case_match; simplify_eq; try reflexivity. by eapply IH. }
  assert (Hrem : forall l e, no_remainder l = Err e -> error_is ErrAccountingInvariantBroken e = true).
  { intros l. induction l as [|[d a] l IH]; intros e' Heq; cbn [no_remainder] in Heq; [done|].
    repeat case_match; simplify_eq; try reflexivity. by eapply IH. }
  unfold accounting_check. cbv zeta.
  destruct (subtract_withdrawals _ _ _) as [m1|] eqn:H1; cbn [res_bind]; [|intros [= <-]; by eapply Hsub].
  destruct (compare_supply _ _) as [m2|] eqn:H2; cbn [res_bind]; [|intros [= <-]; by eapply Hcmp].
  apply Hrem.
Qed.

(** The accounting check is exact. On a keeper with non-negative
    amounts it succeeds, changing nothing, exactly when the books are
    balanced: every withdrawn asset is registered and the supply of each
    denom equals accepted claims minus withdrawals. Otherwise it trips the
    circuit breaker, records the reason and returns it as a circuit error. *)
Theorem CheckAccountingInvariant_spec (k : Keeper) :
  amounts_nonneg k ->
  match CheckAccountingInvariant k with
  | (Ok _, k') => balanced k /\ k' = k
  | (Err e, k') =>
      ~ balanced k /\ isCircuitError e = true /\ circuitBreakerTripped k' = true /\
      lastInvariantError k' = error_text e /\ ensureCircuitHealthy k' <> Ok tt /\
      processedClaims k' = processedClaims k /\ supplyByDenom k' = supplyByDenom k /\
      withdrawals k' = withdrawals k
  end.
Proof.
  intros Hnn. unfold CheckAccountingInvariant, bind, gets.
  destruct (accounting_check k) as [[]|e] eqn:Hc.
  - split; [by apply accounting_check_iff|done].
  - assert (He := accounting_check_error k e Hc). unfold tripCircuit, persist, bind, modify, throw.
    split_and!; try done.
    + rewrite <- accounting_check_iff by done. by rewrite Hc.
    + unfold isCircuitError. by rewrite He.
    + unfold ensureCircuitHealthy. cbn. by case_match.
Qed.
End accounting_theorems.

(** ** The active signer set *)

(** Signer sets are stored under their own version. *)
Definition sets_keyed (k : Keeper) : Prop := map_Forall (fun v s => Version s = v) (signerSets k).

Section signer_sets.
Context `{MapIteration}.

Lemma select_active_fold height l active :
  let r := foldl (fun active (e : N * SignerSet) => select_active height active e.2) active l in
  match r with
  | None => active = None /\ forall v s, (v, s) ∈ l -> set_active height s = false
  | Some s =>
      (active = Some s \/ exists v, (v, s) ∈ l /\ set_active height s = true) /\
      (forall a, active = Some a -> Version a <= Version s)%N /\
      (forall v s', (v, s') ∈ l -> set_active height s' = true -> Version s' <= Version s)%N
  end.
Proof.
  revert active. induction l as [|[v x] l IH]; intros active; cbn [foldl].
  { destruct active as [a|]; cbn.
    - split_and!; [by left|by intros ? [= ->]|]. intros ? ? Hin. by apply not_elem_of_nil in Hin.
    - split; [done|]. intros ? ? Hin. by apply not_elem_of_nil in Hin. }
  specialize (IH (select_active height active x)). cbn [snd]. cbv zeta in *.
  set (r := foldl _ _ l) in *. unfold select_active in IH.
  destruct (set_active height x) eqn:Hx; cbn [negb] in IH.
  2: { destruct r as [s|].
       - destruct IH as (Hs & Ha & Hall). split_and!; [|done|].
         + destruct Hs as [?|(v' & Hin & ?)]; [by left|right]. exists v'. split; [by right|done].
         + intros v' s' [Heq|Hin]%elem_of_cons Hact; [|by eapply Hall].
           injection Heq as -> ->. congruence.
       - destruct IH as [-> Hall]. split; [done|].
         intros v' s' [Heq|Hin]%elem_of_cons; [by injection Heq as -> ->|by eapply Hall]. }
  destruct r as [s|].
  - destruct IH as (Hs & Ha & Hall). split_and!.
    + destruct Hs as [Hs|(v' & Hin & ?)]; [|right; exists v'; split; [by right|done]].
      destruct active as [a|]; [|injection Hs as <-; right; exists v; split; [left|done]].
      destruct (N.ltb_spec (Version a) (Version x)); [|by left].
      injection Hs as <-. right. exists v. split; [left|done].
    + intros a ->. destruct (N.ltb_spec (Version a) (Version x)) as [Hlt|Hge].
      * specialize (Ha x eq_refl). lia.
      * by apply Ha.
    + intros v' s' [Heq|Hin]%elem_of_cons Hact; [|by eapply Hall].
      injection Heq as -> ->. destruct active as [a|]; [|by apply Ha].
      destruct (N.ltb_spec (Version a) (Version x)) as [Hlt|Hge]; [by apply Ha|].
      specialize (Ha a eq_refl). lia.
  - destruct IH as [Hnone _]. destruct active as [a|]; [by destruct (Version a <? Version x)%N|done].
Qed.

(** The active signer set is the one with the highest version among
    those activated and not expired at the current height, whatever the
    order in which the map is visited; when there is none the call fails with
    [ErrSignerSetInactive]. *)
Theorem ActiveSignerSet_spec (k : Keeper) :
  sets_keyed k ->
  match ActiveSignerSet k with
  | Ok s =>
      signerSets k !! Version s = Some s /\ set_active (currentHeight k) s = true /\
      forall v s', signerSets k !! v = Some s' -> set_active (currentHeight k) s' = true ->
        s' = s \/ (Version s' < Version s)%N
  | Err e =>
      e = ErrSignerSetInactive /\
      forall v s, signerSets k !! v = Some s -> set_active (currentHeight k) s = false
  end.
Proof.
  intros Hkey. unfold ActiveSignerSet.
  pose proof (select_active_fold (currentHeight k) (range (signerSets k)) None) as Hf.
  cbv zeta in Hf. destruct (foldl _ _ _) as [s|].
  - destruct Hf as ([?|(v & Hin & Hact)] & _ & Hall); [done|].
    rewrite range_perm in Hin. apply elem_of_map_to_list in Hin.
    pose proof (Hkey _ _ Hin) as Hv. cbn in Hv. subst v.
    split_and!; [done..|]. intros v' s' Hs' Hact'.
    assert (Hle : (Version s' <= Version s)%N).
    { apply (Hall v'); [|done]. rewrite range_perm. by apply elem_of_map_to_list. }
    destruct (N.eq_dec (Version s') (Version s)) as [Heq|]; [left|right; lia].
    pose proof (Hkey _ _ Hs') as Hv'. cbn in Hv'. congruence.
  - destruct Hf as [_ Hall]. split; [done|]. intros v s Hs. apply (Hall v).
    rewrite range_perm. by apply elem_of_map_to_list.
Qed.
End signer_sets.

(** ** Exporting and importing the bridge state *)

(** The parts of the keeper that a snapshot carries. *)
Definition same_books (k k' : Keeper) : Prop :=
  metadata k' = metadata k /\ signerSets k' = signerSets k /\
  processedClaims k' = processedClaims k /\ supplyByDenom k' = supplyByDenom k /\
  withdrawals k' = withdrawals k.

(** Signer sets are stored normalised, under their version. *)
Definition sets_normal (k : Keeper) : Prop :=
  map_Forall (fun v s => v = Version s /\ normalizeSignerSet s = s) (signerSets k).

Section roundtrip.
Context `{MapIteration}.

Lemma import_claim_run key r k :
  import_claim (exported_claim key r) k = (Ok tt, upd_processedClaims <[key := r]> k).
Proof.
  unfold import_claim, parse_amount, exported_claim, bind, lift. cbn [SnapAmount].
  rewrite SetString10_format_int. by destruct r.
Qed.

Lemma import_supply_run d v k :
  import_supply d (format_int v) k = (Ok tt, upd_supplyByDenom <[d := v]> k).
Proof. unfold import_supply, parse_amount, bind, lift. by rewrite SetString10_format_int. Qed.

Lemma import_withdrawals_run ws k :
  for_each import_withdrawal (map withdrawal_snapshot ws) k =
    (Ok tt, upd_withdrawals (fun l => l ++ ws) k).
Proof.
  revert k. induction ws as [|w ws IH]; intros k; cbn [map for_each].
  { unfold ret, upd_withdrawals. rewrite app_nil_r. by destruct k. }
  unfold bind at 1. unfold import_withdrawal at 1, parse_amount, bind at 1, lift.
  cbn [withdrawal_snapshot SnapWAmount]. rewrite SetString10_format_int. cbn [modify].
  rewrite IH. unfold upd_withdrawals. cbn. rewrite <- app_assoc. by destruct w.
Qed.

Lemma import_signer_sets_run k k0 :
  sets_normal k -> signerSets k <> ∅ ->
  (match map snd (range (signerSets k)) with
   | [] => ret tt
   | sets => modify (upd_signerSets (fun _ => ∅)) ;;; for_each import_signer_set sets
   end) k0 = (Ok tt, upd_signerSets (fun _ => signerSets k) k0).
Proof.
  intros Hn Hne. destruct (map snd (range (signerSets k))) as [|s sets] eqn:He.
  { exfalso. apply Hne. apply fmap_nil_inv in He. pose proof (range_perm (signerSets k)) as Hp.
    rewrite He in Hp. apply Permutation_nil_l in Hp; symmetry in Hp; by apply map_to_list_empty_iff in Hp. }
  rewrite <- He. unfold bind at 1. cbn [modify].
  rewrite (for_each_rebuild (fun m => upd_signerSets (fun _ => m) k0) _ snd (signerSets k)); [done| |].
  - by rewrite range_perm.
  - intros v x acc Hx. destruct (Hn v x Hx) as [-> Hnorm]. cbn [snd].
    unfold import_signer_set. by rewrite Hnorm.
Qed.

Lemma import_claims_run k k0 :
  for_each import_claim (map (fun e => exported_claim e.1 e.2) (range (processedClaims k)))
    (upd_processedClaims (fun _ => ∅) k0) = (Ok tt, upd_processedClaims (fun _ => processedClaims k) k0).
Proof.
  apply (for_each_rebuild (fun m => upd_processedClaims (fun _ => m) k0) _
    (fun e => exported_claim e.1 e.2)).
  - by rewrite range_perm.
  - intros key r acc _. cbn [fst snd]. by rewrite import_claim_run.
Qed.

Lemma import_supplies_run k k0 :
  for_each (fun e => import_supply e.1 e.2) (range (format_int <$> supplyByDenom k))
    (upd_supplyByDenom (fun _ => ∅) k0) = (Ok tt, upd_supplyByDenom (fun _ => supplyByDenom k) k0).
Proof.
  apply (for_each_rebuild (fun m => upd_supplyByDenom (fun _ => m) k0) _
    (fun e => (e.1, format_int e.2))).
  - rewrite range_perm, map_to_list_fmap. apply reflexive_eq, list_fmap_ext. by intros i [d v] _.
  - intros d v acc _. cbn [fst snd]. by rewrite import_supply_run.
Qed.

(** A nonce of zero, which only a wrapped counter can have, is read as one. *)
Definition restored_nonce (n : N) : N := if N.eqb n 0 then 1%N else n.

Lemma bridge_ImportState_run k k0 :
  sets_normal k -> signerSets k <> ∅ ->
  ImportState (ExportState k) k0 =
    (Ok tt, mk_keeper (registryKeeper k0) (limitsKeeper k0) (pauserKeeper k0) (signerSets k)
       (currentHeight k) (processedClaims k) (rejectedClaims k) (supplyByDenom k) (withdrawals k)
       (circuitBreakerTripped k) (lastInvariantError k) (restored_nonce (nextWithdrawalNonce k))
       (prefixStore k0)).
Proof.
  intros Hn Hne. unfold ImportState, ExportState.
  cbn [StMeta StSignerSets StProcessedClaims StSupplyByDenom StWithdrawals].
  unfold bind at 1. cbn [modify].
  unfold bind at 1. rewrite import_signer_sets_run by done.
  unfold bind at 1. cbn [modify].
  unfold bind at 1. rewrite import_claims_run.
  unfold bind at 1. cbn [modify].
  unfold bind at 1. rewrite import_supplies_run.
  unfold bind at 1. cbn [modify].
  rewrite import_withdrawals_run. reflexivity.
Qed.

(** A snapshot restores the books. Importing the export of a keeper into
    any keeper brings back its height, nonce, counters and circuit state, its
    signer sets, claims, supplies and withdrawals, whatever the order in which
    the maps are visited, and leaves the shared keepers and the store alone. *)
Theorem bridge_export_import (k k0 : Keeper) :
  sets_normal k -> signerSets k <> ∅ -> nextWithdrawalNonce k <> 0%N ->
  exists k', ImportState (ExportState k) k0 = (Ok tt, k') /\ same_books k k' /\
    registryKeeper k' = registryKeeper k0 /\ limitsKeeper k' = limitsKeeper k0 /\
    pauserKeeper k' = pauserKeeper k0 /\ prefixStore k' = prefixStore k0.
Proof.
  intros Hn Hne Hnonce. rewrite bridge_ImportState_run by done. eexists. split; [done|].
  split; [|done]. unfold same_books, metadata, restored_nonce.
  cbn [currentHeight nextWithdrawalNonce rejectedClaims circuitBreakerTripped lastInvariantError].
  by rewrite (proj2 (N.eqb_neq _ _) Hnonce).
Qed.
End roundtrip.

(** ** Concrete runs *)

Definition demo_record : ClaimRecord :=
  mk_claim_record "m-1" "0x01" "uethusdc" "eth.usdc" "cosmos1alice" 5 ClaimStatusAccepted.

Definition demo_books (supply : Z) : Keeper :=
  upd_processedClaims (fun _ => {[ "m-1"%string := demo_record ]})
    (upd_supplyByDenom (fun _ => {[ "uethusdc"%string := supply ]})
      (upd_signerSets <[2%N := normalizeSignerSet (mk_signer_set 2 [" 0xB "; "0xa"]%string 2 10 99)]>
        (upd_currentHeight (fun _ => 20%N)
          (NewKeeper Registry.demo_keeper Limits.demo_keeper Pauser.NewKeeper ["0xc"%string] 1)))).

Lemma demo_books_nonneg supply : amounts_nonneg (demo_books supply).
Proof. split; [|constructor]. by apply map_Forall_singleton. Qed.

Example CheckAccountingInvariant_spec_witness :
  balanced (demo_books 5) /\ ~ balanced (demo_books 6).
Proof.
  pose proof (CheckAccountingInvariant_spec (demo_books 5) (demo_books_nonneg 5)) as H5.
  pose proof (CheckAccountingInvariant_spec (demo_books 6) (demo_books_nonneg 6)) as H6.
  assert (R5 : is_ok (fst (CheckAccountingInvariant (demo_books 5))) = true) by (vm_compute; reflexivity).
  assert (R6 : is_ok (fst (CheckAccountingInvariant (demo_books 6))) = false) by (vm_compute; reflexivity).
  destruct (CheckAccountingInvariant (demo_books 5)) as [[[]|e5] k5]; [|discriminate R5].
  destruct (CheckAccountingInvariant (demo_books 6)) as [[[]|e6] k6]; [discriminate R6|].
  exact (conj (proj1 H5) (proj1 H6)).
Defined.

Example ActiveSignerSet_spec_witness :
  exists s, ActiveSignerSet (demo_books 5) = Ok s /\ Version s = 2%N /\
    set_active (currentHeight (demo_books 5)) s = true.
Proof.
  assert (Hk : sets_keyed (demo_books 5)).
  { unfold sets_keyed, demo_books. cbn [upd_processedClaims upd_supplyByDenom upd_signerSets
      upd_currentHeight NewKeeper signerSets]. apply map_Forall_insert_2; [done|].
    by apply map_Forall_singleton. }
  pose proof (ActiveSignerSet_spec (demo_books 5) Hk) as Hspec.
  assert (Hrun : match ActiveSignerSet (demo_books 5) with Ok s => Version s | Err _ => 0%N end = 2%N)
    by (vm_compute; reflexivity).
  destruct (ActiveSignerSet (demo_books 5)) as [s|e]; [|discriminate Hrun].
  exists s. destruct Hspec as (_ & Hact & _). exact (conj eq_refl (conj Hrun Hact)).
Defined.

Example bridge_export_import_witness :
  exists k', ImportState (ExportState (demo_books 5)) (demo_books 0) = (Ok tt, k') /\
    same_books (demo_books 5) k' /\ registryKeeper k' = registryKeeper (demo_books 0) /\
    limitsKeeper k' = limitsKeeper (demo_books 0) /\ pauserKeeper k' = pauserKeeper (demo_books 0) /\
    prefixStore k' = prefixStore (demo_books 0).
Proof.
  apply (bridge_export_import (demo_books 5) (demo_books 0)).
  - unfold sets_normal, demo_books. cbn [upd_processedClaims upd_supplyByDenom upd_signerSets
      upd_currentHeight NewKeeper signerSets]. apply map_Forall_insert_2; [by vm_compute|].
    apply map_Forall_singleton. by vm_compute.
  - intros He. apply (f_equal size) in He. vm_compute in He. discriminate He.
  - vm_compute. discriminate.
Defined.
