(* ===== verification/Bridge.v ===== *)
(** [x/bridge/keeper], part two: verification of attestations, execution of
    deposit claims and of withdrawals (keeper.go, verify_attestation.go,
    verify_signature.go, accounting.go, msg_server.go). *)

From S2P Require Import Prelude.
From S2P Require Import GoStrings.
From S2P Require Import Sha256.
From S2P Require Import Errors.
From S2P Require Import PrefixStore.
From S2P Require Import Pauser.
From S2P Require Import Registry.
From S2P Require Import Limits.
From S2P Require Import BridgeTypes.
From S2P Require Import BridgeState.
From stdpp Require Import strings.

(** ** Attestation verification *)

Section verification.
Context `{MapIteration} `{Crypto}.

Definition verifyProof (proof : AttestationProof) (digest : string) : result string :=
  if decide (Signature proof = EmptyString) then Err (Sentinel ErrInvalidAttestationSignature)
  else match RecoverCompact (Signature proof) digest with
       | Err e => Err (Joined (Sentinel ErrInvalidAttestationSignature) e)
       | Ok pk =>
           let recovered := SignerAddressFromPublicKey pk in
           if decide (recovered = NormalizeSignerAddress (Signer proof)) then Ok recovered
           else Err (Sentinel ErrInvalidAttestationSignature)
       end.

(** The proof loop: [seen] addresses and the number of verified signers, a
    [uint32]. *)
Fixpoint count_verified (digest : string) (allowed seen : gset string) (verified : N)
    (proofs : list AttestationProof) : N :=
  match proofs with
  | [] => verified
  | p :: rest =>
      match verifyProof p digest with
      | Err _ => count_verified digest allowed seen verified rest
      | Ok recovered =>
          if decide (recovered ∈ seen) then count_verified digest allowed seen verified rest
          else count_verified digest allowed ({[ recovered ]} ∪ seen)
                 (if decide (recovered ∈ allowed) then (verified + 1) mod two32 else verified)%N rest
      end
  end.

Definition allowed_signers (set : SignerSet) : gset string :=
  list_to_set (map NormalizeSignerAddress (SetSigners set)).

Definition verifyDepositClaim (k : Keeper) (claim : DepositClaim) (attestation : Attestation)
    : result unit :=
  let? _ := attestation_ValidateBasic attestation in
  let? _ := first_error [
    (negb (eqs (MessageID (Identity claim)) (AttMessageID attestation)), Sentinel ErrMessageIDMismatch);
    (negb (eqs (Digest claim) (PayloadHash attestation)), Sentinel ErrPayloadHashMismatch);
    ((Deadline claim <? currentHeight k)%N, Sentinel ErrFinalityWindowExpired);
    ((Expiry attestation <? currentHeight k)%N, Sentinel ErrAttestationExpired)
  ] in
  let? activeSignerSet := ActiveSignerSet k in
  let? _ := first_error [
    (negb (N.eqb (SignerSetVersion attestation) (Version activeSignerSet)),
      Sentinel ErrSignerSetVersionMismatch);
    ((Threshold attestation <? SetThreshold activeSignerSet)%N,
      Sentinel ErrInsufficientAttestationQuorum)
  ] in
  let? digest := SigningDigest attestation in
  let verifiedSigners :=
    count_verified digest (allowed_signers activeSignerSet) ∅ 0 (Proofs attestation) in
  ensure (verifiedSigners <? SetThreshold activeSignerSet)%N
    (Sentinel ErrInsufficientAttestationQuorum).
End verification.

(** ** Deposit claims

    A rejected claim returns both a result and an error. *)

Definition Exec (A : Type) : Type := M (ClaimResult * error) Keeper A.

Definition rejected (messageID : string) : ClaimResult :=
  mk_result ClaimStatusRejected messageID EmptyString None.

(** [if err != nil { k.rejectedClaims++; return ClaimResult{rejected}, err }] *)
Definition or_reject {A} (messageID : string) (m : Op Keeper A) : Exec A := fun k =>
  match m k with
  | (Ok a, k') => (Ok a, k')
  | (Err e, k') => (Err (rejected messageID, e), upd_rejectedClaims u64_incr k')
  end.

Section execution.
Context `{MapIteration} `{Crypto}.

Definition acceptDepositClaim (claimKey : string) (claim : DepositClaim) (asset : Asset)
    : Op Keeper ClaimResult :=
  let denom := bridgeDenomForAsset asset in
  modify (mintRepresentation denom (cloneAmount (Amount claim))) ;;;
  modify (upd_processedClaims <[claimKey :=
    mk_claim_record (MessageID (Identity claim)) (SourceTxHash (Identity claim)) denom
      (BridgeTypes.AssetID claim) (Recipient claim) (cloneAmount (Amount claim))
      ClaimStatusAccepted]>) ;;;
  ret (mk_result ClaimStatusAccepted (MessageID (Identity claim)) denom
         (Some (cloneAmount (Amount claim)))).

Definition paused_asset (k : Keeper) (assetID : string) : result unit :=
  match AssertNotPaused (pauserKeeper k) assetID with
  | Ok _ => Ok tt
  | Err _ => Err (Wrapf ErrAssetPaused assetID)
  end.

Definition find_asset (k : Keeper) (assetID : string) : result Asset :=
  match GetAsset (registryKeeper k) assetID with
  | Some asset => Ok asset
  | None => Err (Sentinel ErrUnknownAsset)
  end.

Definition record_transfer (assetID : string) (amount : option Z) : Op Keeper unit :=
  let! height := gets currentHeight in
  zoom limitsKeeper (fun l => upd_limitsKeeper (fun _ => l))
    (RecordTransferAtHeight assetID amount height).

Definition ExecuteDepositClaim (claim : DepositClaim) (attestation : Attestation)
    : Exec ClaimResult :=
  let id := MessageID (Identity claim) in
  let assetID := BridgeTypes.AssetID claim in
  or_reject id (query ensureCircuitHealthy) ;;;
  or_reject EmptyString (lift (deposit_ValidateBasic claim)) ;;;
  let claimKey := identity_ReplayKey (Identity claim) in
  or_reject id (query (fun k =>
    ensure (bool_decide (is_Some (processedClaims k !! claimKey))) (Sentinel ErrDuplicateClaim))) ;;;
  or_reject id (query (fun k => verifyDepositClaim k claim attestation)) ;;;
  let! asset := or_reject id (query (fun k => find_asset k assetID)) in
  or_reject id (throw_if (negb (Enabled asset)) (Sentinel ErrAssetDisabled)) ;;;
  or_reject id (query (fun k => paused_asset k assetID)) ;;;
  or_reject id (query (fun k =>
    CheckTransferAtHeight (limitsKeeper k) assetID (Amount claim) (currentHeight k))) ;;;
  or_reject id (record_transfer assetID (Amount claim)) ;;;
  let! accepted := or_reject id (acceptDepositClaim claimKey claim asset) in
  or_reject id CheckAccountingInvariant ;;;
  or_reject id persist ;;;
  ret accepted.

(** [MsgServer.SubmitDepositClaim]. *)
Definition SubmitDepositClaim := ExecuteDepositClaim.

(** ** Withdrawals *)

Definition isZeroHexAddress (value : string) : bool :=
  let trimmed := TrimSpace value in
  if decide (trimmed = EmptyString) then false
  else EqualFold trimmed "0x0000000000000000000000000000000000000000".

Definition withdrawal_checks (assetID : string) (amount : option Z) (recipient : string)
    (deadline : N) (signature : string) : list (bool * error) := [
  (negb (amount_positive amount), Wrapf ErrInvalidWithdrawal "amount must be positive");
  (BridgeTypes.blank assetID, Wrapf ErrInvalidWithdrawal "missing asset id");
  (BridgeTypes.blank recipient || isZeroHexAddress recipient, Wrapf ErrInvalidWithdrawal "invalid recipient");
  (N.eqb deadline 0, Wrapf ErrInvalidWithdrawal "missing deadline");
  (eqs signature EmptyString, Wrapf ErrInvalidWithdrawal "missing signature")
].

Definition newWithdrawalRecord (assetID assetAddress : string) (amount : Z) (recipient : string)
    (deadline : N) (signature : string) : Op Keeper WithdrawalRecord :=
  let! height := gets currentHeight in
  let! nonce := gets nextWithdrawalNonce in
  modify (upd_nextWithdrawalNonce u64_incr) ;;;
  let txHash := "0x" +:+ sha256_hex
    (format_uint height +:+ ":" +:+ format_uint nonce +:+ ":" +:+ assetID +:+ ":" +:+
     TrimSpace recipient +:+ ":" +:+ format_int amount) in
  let unnamed := mk_identity ClaimKindWithdrawal EmptyString withdrawalSourceChainID
    withdrawalSourceModule txHash 0 nonce EmptyString in
  let identity := mk_identity ClaimKindWithdrawal EmptyString withdrawalSourceChainID
    withdrawalSourceModule txHash 0 nonce (DerivedMessageID unnamed) in
  ret (mk_withdrawal height identity (TrimSpace assetID) (TrimSpace assetAddress) amount
         (TrimSpace recipient) deadline signature).

Definition ExecuteWithdrawal (assetID : string) (amount : option Z) (recipient : string)
    (deadline : N) (signature : string) : Op Keeper WithdrawalRecord :=
  query ensureCircuitHealthy ;;;
  lift (first_error (withdrawal_checks assetID amount recipient deadline signature)) ;;;
  let! asset := query (fun k => find_asset k assetID) in
  throw_if (negb (Enabled asset)) (Sentinel ErrAssetDisabled) ;;;
  query (fun k => paused_asset k assetID) ;;;
  query (fun k => CheckTransferAtHeight (limitsKeeper k) assetID amount (currentHeight k)) ;;;
  record_transfer assetID amount ;;;
  let denom := bridgeDenomForAsset asset in
  let amt := cloneAmount amount in
  let! currentSupply := gets (fun k => supplyByDenom k !! denom) in
  throw_if (match currentSupply with None => true | Some s => (s <? amt)%Z end)
    (Sentinel ErrInsufficientSupply) ;;;
  let! record := newWithdrawalRecord assetID (sourceAssetAddressForWithdrawal asset) amt recipient
                   deadline signature in
  burnRepresentation denom amt ;;;
  modify (upd_withdrawals (fun ws => ws ++ [record])) ;;;
  CheckAccountingInvariant ;;;
  persist ;;;
  ret (cloneWithdrawalRecord record).
End execution.

(** ** Verification accepts exactly a quorum of distinct active signers *)

Lemma first_error_total checks : first_error checks = Ok tt \/ exists e, first_error checks = Err e.
Proof. unfold first_error. case_match; eauto. Qed.

Section verification_lemmas.
Context `{MapIteration} `{Crypto}.

(** The addresses whose signature over the digest checks. *)
Definition recovered_signers (digest : string) (proofs : list AttestationProof) : list string :=
  omap (fun p => match verifyProof p digest with Ok a => Some a | Err _ => None end) proofs.

Lemma count_verified_size digest allowed proofs : forall seen verified,
  (verified + N.of_nat (length proofs) < two32)%N ->
  count_verified digest allowed seen verified proofs =
    (verified + N.of_nat (size ((list_to_set (recovered_signers digest proofs) ∖ seen) ∩ allowed : gset string)))%N.
Proof.
  induction proofs as [|p proofs IH]; intros seen verified Hlt; cbn [count_verified].
  { unfold recovered_signers. cbn [omap list_omap list_to_set].
    replace ((∅ ∖ seen) ∩ allowed : gset string) with (∅ : gset string) by set_solver.
    rewrite gset_size_empty. lia. }
  cbn [length] in Hlt. unfold recovered_signers. cbn [omap list_omap].
  destruct (verifyProof p digest) as [a|e]; [|apply IH; lia].
  fold (recovered_signers digest proofs). cbn [list_to_set].
  fold (omap (M:=list) (fun p => match verifyProof p digest with Ok a => Some a | Err _ => None end) proofs).
  fold (recovered_signers digest proofs).
  set (R := list_to_set (recovered_signers digest proofs) : gset string).
  destruct (decide (a ∈ seen)) as [Hin|Hnin].
  { rewrite IH by lia. do 2 f_equal. fold R. f_equal.
    apply set_eq. intros x. destruct (decide (x = a)) as [->|]; set_solver. }
  rewrite IH by (case_decide; [rewrite N.mod_small by lia|]; lia). fold R.
  destruct (decide (a ∈ allowed)) as [Ha|Ha].
  - rewrite N.mod_small by lia.
    replace ((({[a]} ∪ R) ∖ seen) ∩ allowed) with ({[a]} ∪ ((R ∖ ({[a]} ∪ seen)) ∩ allowed)).
    + rewrite gset_size_add by set_solver. lia.
    + apply set_eq. intros x. destruct (decide (x = a)); set_solver.
  - do 2 f_equal. f_equal. apply set_eq. intros x. destruct (decide (x = a)); set_solver.
Qed.

Lemma attestation_valid_proof_count a :
  attestation_ValidateBasic a = Ok tt -> length (Proofs a) <= 128.
Proof.
  unfold attestation_ValidateBasic. cbv zeta. intros ([] & _ & Heq)%res_bind_ok_inv.
  apply res_bind_ok_inv in Heq as ([] & Heq & _).
  apply first_error_ok, Forall_cons in Heq as [_ Heq]. apply Forall_cons in Heq as [Heq _].
  cbn [fst] in Heq. by apply Nat.ltb_ge in Heq.
Qed.

Lemma attestation_valid_digest a :
  attestation_ValidateBasic a = Ok tt -> SigningDigest a = Ok (keccak256 (signing_payload a)).
Proof.
  unfold attestation_ValidateBasic, SigningDigest. by intros ([] & -> & _)%res_bind_ok_inv.
Qed.

(** The distinct active signers that signed the attestation. *)
Definition quorum_signers (set : SignerSet) (a : Attestation) : gset string :=
  list_to_set (recovered_signers (keccak256 (signing_payload a)) (Proofs a)) ∩ allowed_signers set.

Lemma verifyDepositClaim_ok (k : Keeper) (claim : DepositClaim) (a : Attestation) :
  verifyDepositClaim k claim a = Ok tt <->
  attestation_ValidateBasic a = Ok tt /\
  AttMessageID a = MessageID (Identity claim) /\ PayloadHash a = Digest claim /\
  (currentHeight k <= Deadline claim)%N /\ (currentHeight k <= Expiry a)%N /\
  exists set, ActiveSignerSet k = Ok set /\ SignerSetVersion a = Version set /\
    (SetThreshold set <= Threshold a)%N /\
    (SetThreshold set <= N.of_nat (size (quorum_signers set a)))%N.
Proof.
  unfold verifyDepositClaim. destruct (attestation_ValidateBasic a) as [[]|e] eqn:Hv; cbn [res_bind].
  2: { split; [done|]. by intros [? _]. }
  assert (Hn := attestation_valid_proof_count a Hv).
  rewrite (attestation_valid_digest a Hv). cbn [res_bind].
  assert (Hfirst : forall checks (k : unit -> result unit),
    res_bind (first_error checks) k = Ok tt <-> Forall (fun c => c.1 = false) checks /\ k tt = Ok tt).
  { intros checks cont. rewrite <- first_error_ok.
    destruct (first_error checks) as [[]|]; cbn [res_bind].
    - by split; [split|intros []].
    - split; [done|]. by intros []. }
  rewrite Hfirst, !Forall_cons, Forall_nil. cbn [fst].
  rewrite !negb_false_iff, !eqs_true, !N.ltb_ge.
  destruct (ActiveSignerSet k) as [set|e']; cbn [res_bind].
  2: { split; [by intros [_ ?]|]. by intros (_ & _ & _ & _ & _ & ? & ? & _). }
  rewrite Hfirst, !Forall_cons, Forall_nil. cbn [fst].
  rewrite negb_false_iff, N.eqb_eq, N.ltb_ge. rewrite count_verified_size by (unfold two32; lia).
  unfold ensure. replace (list_to_set (recovered_signers (keccak256 (signing_payload a)) (Proofs a)) ∖ ∅ ∩ allowed_signers set) with (quorum_signers set a) by (unfold quorum_signers; set_solver).
  rewrite N.add_0_l.
  assert (Hb : (if (N.of_nat (size (quorum_signers set a)) <? SetThreshold set)%N
      then Err (Sentinel ErrInsufficientAttestationQuorum) else Ok tt) = Ok tt <->
    (SetThreshold set <= N.of_nat (size (quorum_signers set a)))%N).
  { destruct (N.ltb_spec (N.of_nat (size (quorum_signers set a))) (SetThreshold set)).
    - split; [done|lia].
    - done. }
  rewrite Hb. split.
  - intros [(HA & HB & HC & HD & _) [(HE & HF & _) HG]]. eauto 10.
  - intros (_ & HA & HB & HC & HD & set' & [= <-] & HE & HF & HG). eauto 10.
Qed.

(** C10: a deposit attestation is accepted exactly when it is well formed, is
    about this claim (message identifier and digest), neither the claim nor
    the attestation has expired, it names the active signer set with a
    sufficient threshold, and at least the set's threshold of distinct
    members of that set have a valid signature over its signing payload. *)
Theorem verifyDepositClaim_iff (k : Keeper) (claim : DepositClaim) (a : Attestation) :
  verifyDepositClaim k claim a = Ok tt <->
  attestation_ValidateBasic a = Ok tt /\
  AttMessageID a = MessageID (Identity claim) /\ PayloadHash a = Digest claim /\
  (currentHeight k <= Deadline claim)%N /\ (currentHeight k <= Expiry a)%N /\
  exists set, ActiveSignerSet k = Ok set /\ SignerSetVersion a = Version set /\
    (SetThreshold set <= Threshold a)%N /\
    (SetThreshold set <= N.of_nat (size (quorum_signers set a)))%N.
Proof. apply verifyDepositClaim_ok. Qed.

(** The members of the quorum signed this payload. *)
Lemma quorum_signers_signed set a signer :
  signer ∈ quorum_signers set a ->
  signer ∈ map NormalizeSignerAddress (SetSigners set) /\
  exists p pk, p ∈ Proofs a /\
    RecoverCompact (Signature p) (keccak256 (signing_payload a)) = Ok pk /\
    SignerAddressFromPublicKey pk = signer.
Proof.
  unfold quorum_signers, allowed_signers. rewrite elem_of_intersection, !elem_of_list_to_set.
  intros [Hr Ha]. split; [done|]. unfold recovered_signers in Hr.
  apply list_elem_of_omap in Hr as (p & Hp & Hv). unfold verifyProof in Hv.
  case_decide; [done|]. destruct (RecoverCompact _ _) as [pk|] eqn:Hrec; [|done].
  cbv zeta in Hv. case_decide; [|done]. injection Hv as <-. eauto.
Qed.
End verification_lemmas.

(** ** Executing a deposit claim *)

(** The invariant of the ledger. *)
Definition ledger_inv (k : Keeper) : Prop := balanced k /\ amounts_nonneg k.

Lemma balanced_ext k k' :
  registryKeeper k' = registryKeeper k -> withdrawals k' = withdrawals k ->
  processedClaims k' = processedClaims k -> supplyByDenom k' = supplyByDenom k ->
  ledger_inv k -> ledger_inv k'.
Proof.
  unfold ledger_inv, balanced, amounts_nonneg, SupplyForDenom. by intros -> -> -> ->.
Qed.

Lemma claims_total_insert claims key r d :
  claims !! key = None ->
  (claims_total (<[key := r]> claims) d = claim_value d r + claims_total claims d)%Z.
Proof. intros Hk. unfold claims_total. by rewrite map_sum_insert. Qed.

Lemma accept_ledger_inv k key r denom amt :
  ledger_inv k -> processedClaims k !! key = None -> (0 <= amt)%Z ->
  RecStatus r = ClaimStatusAccepted -> RecDenom r = denom -> RecAmount r = amt ->
  ledger_inv (upd_processedClaims <[key := r]> (mintRepresentation denom amt k)).
Proof.
  intros [[Hreg Hbal] [Hc Hw]] Hfresh Hamt Hst <- <-. split; [split; [exact Hreg|]|split; [|exact Hw]].
  - intros d. destruct (Hbal d) as [Heq Hnn].
    unfold SupplyForDenom, mintRepresentation.
    cbn [upd_processedClaims upd_supplyByDenom supplyByDenom processedClaims registryKeeper withdrawals].
    rewrite lookup_add_amount, claims_total_insert by done. unfold claim_value.
    rewrite Hst, eqs_refl. cbn [andb]. fold (SupplyForDenom k d).
    destruct (eqs (RecDenom r) d); lia.
  - by apply map_Forall_insert_2.
Qed.

Lemma burn_ledger_inv k w asset amt :
  ledger_inv k -> GetAsset (registryKeeper k) (WAssetID w) = Some asset -> WAmount w = amt ->
  (0 <= amt <= SupplyForDenom k (bridgeDenomForAsset asset))%Z ->
  ledger_inv (upd_withdrawals (fun ws => ws ++ [w])
    (upd_supplyByDenom (add_amount (bridgeDenomForAsset asset) (- amt)) k)).
Proof.
  intros [[Hreg Hbal] [Hc Hw]] Ha <- Hamt. split; [split|split; [exact Hc|]].
  - apply Forall_app. split; [exact Hreg|]. constructor; [|constructor]. by exists asset.
  - intros d. destruct (Hbal d) as [Heq Hnn]. unfold SupplyForDenom, withdrawn_total.
    cbn [upd_withdrawals upd_supplyByDenom supplyByDenom processedClaims registryKeeper withdrawals].
    rewrite lookup_add_amount, zsum_app. cbn [zsum foldr]. unfold withdrawal_value at 2. rewrite Ha.
    fold (SupplyForDenom k d). fold (withdrawn_total (registryKeeper k) (withdrawals k) d).
    destruct (eqs (bridgeDenomForAsset asset) d) eqn:Hd; [|lia].
    apply eqs_true in Hd as <-. lia.
  - apply Forall_app. split; [exact Hw|]. constructor; [lia|constructor].
Qed.

Section execution_lemmas.
Context `{MapIteration} `{Crypto}.

Definition reject_state (k : Keeper) : Keeper := upd_rejectedClaims u64_incr k.

Lemma reject_query {A B} id (f : Keeper -> result A) (g : A -> Exec B) k :
  bind (or_reject id (query f)) g k =
    match f k with Ok a => g a k | Err e => (Err (rejected id, e), reject_state k) end.
Proof. unfold bind, or_reject, query. by destruct (f k). Qed.

Lemma reject_lift {A B} id (r : result A) (g : A -> Exec B) k :
  bind (or_reject id (lift r)) g k =
    match r with Ok a => g a k | Err e => (Err (rejected id, e), reject_state k) end.
Proof. unfold bind, or_reject, lift. by destruct r. Qed.

Lemma reject_if {B} id b e (g : unit -> Exec B) k :
  bind (or_reject id (throw_if b e)) g k =
    if b then (Err (rejected id, e), reject_state k) else g tt k.
Proof. unfold bind, or_reject. by destruct b. Qed.

Lemma CheckAccountingInvariant_balanced k :
  ledger_inv k -> CheckAccountingInvariant k = (Ok tt, k).
Proof.
  intros [Hb Hn]. unfold CheckAccountingInvariant, bind, gets.
  by rewrite (proj2 (accounting_check_iff k Hn) Hb).
Qed.

Lemma persist_run k : persist k = (Ok tt, upd_prefixStore (option_map (persist_store k)) k).
Proof. reflexivity. Qed.

(** The transfer recorded against the rate limit, in the whole keeper. *)
Definition recorded_transfer (k : Keeper) (assetID : string) (amount : option Z) : Keeper :=
  upd_limitsKeeper (fun l => snd (RecordTransferAtHeight assetID amount (currentHeight k) l)) k.

Lemma record_transfer_run k assetID amount :
  CheckTransferAtHeight (limitsKeeper k) assetID amount (currentHeight k) = Ok tt ->
  record_transfer assetID amount k = (Ok tt, recorded_transfer k assetID amount).
Proof.
  intros Hc. unfold record_transfer, recorded_transfer, bind, gets, zoom, upd_limitsKeeper.
  rewrite RecordTransferAtHeight_run, Hc. reflexivity.
Qed.

(** What an accepted deposit records. *)
Definition claim_record (claim : DepositClaim) (denom : string) (amt : Z) : ClaimRecord :=
  mk_claim_record (MessageID (Identity claim)) (SourceTxHash (Identity claim)) denom
    (BridgeTypes.AssetID claim) (Recipient claim) amt ClaimStatusAccepted.

Definition accepted_result (claim : DepositClaim) (denom : string) (amt : Z) : ClaimResult :=
  mk_result ClaimStatusAccepted (MessageID (Identity claim)) denom (Some amt).

Lemma deposit_valid_amount claim :
  deposit_ValidateBasic claim = Ok tt -> exists amt, Amount claim = Some amt /\ (0 < amt)%Z.
Proof.
  unfold deposit_ValidateBasic. intros ([] & _ & Heq)%res_bind_ok_inv.
  apply res_bind_ok_inv in Heq as ([] & _ & Heq).
  apply first_error_ok in Heq. unfold claim_body_checks in Heq.
  rewrite !Forall_cons in Heq. cbn [fst] in Heq. destruct Heq as (_ & _ & Heq & _).
  apply negb_false_iff in Heq. unfold amount_positive in Heq.
  destruct (Amount claim) as [amt|]; [|done]. exists amt. split; [done|]. by apply Z.ltb_lt.
Qed.
End execution_lemmas.

Section deposit.
Context `{MapIteration} `{Crypto}.

(** Every guard of a deposit has passed, in the state [k]. *)
Record deposit_admissible (k : Keeper) (claim : DepositClaim) (att : Attestation)
    (asset : Asset) (amt : Z) : Prop := {
  adm_circuit : circuitBreakerTripped k = false;
  adm_valid : deposit_ValidateBasic claim = Ok tt;
  adm_fresh : processedClaims k !! identity_ReplayKey (Identity claim) = None;
  adm_verified : verifyDepositClaim k claim att = Ok tt;
  adm_asset : GetAsset (registryKeeper k) (BridgeTypes.AssetID claim) = Some asset;
  adm_enabled : Enabled asset = true;
  adm_unpaused : IsPaused (pauserKeeper k) (BridgeTypes.AssetID claim) = false;
  adm_limit : CheckTransferAtHeight (limitsKeeper k) (BridgeTypes.AssetID claim) (Amount claim)
                (currentHeight k) = Ok tt;
  adm_amount : Amount claim = Some amt;
  adm_positive : (0 < amt)%Z
}.

(** The state after an accepted deposit, before it is persisted. *)
Definition deposited (k : Keeper) (claim : DepositClaim) (asset : Asset) (amt : Z) : Keeper :=
  let denom := bridgeDenomForAsset asset in
  upd_processedClaims <[identity_ReplayKey (Identity claim) := claim_record claim denom amt]>
    (mintRepresentation denom amt (recorded_transfer k (BridgeTypes.AssetID claim) (Amount claim))).

Lemma deposited_ledger_inv k claim att asset amt :
  ledger_inv k -> deposit_admissible k claim att asset amt ->
  ledger_inv (deposited k claim asset amt).
Proof.
  intros Hinv Hadm. destruct Hadm. unfold deposited. cbv zeta.
  apply accept_ledger_inv; [by apply (balanced_ext k)|done|lia|done..].
Qed.

Ltac reject_branch :=
  right; do 2 eexists; split; [|split; [|reflexivity]]; [reflexivity|].

(** The run of a deposit: accepted when and only when it is admissible; a
    rejection only counts the rejected claim. *)
Lemma ExecuteDepositClaim_run k claim att :
  ledger_inv k ->
  (exists asset amt, deposit_admissible k claim att asset amt /\
     ExecuteDepositClaim claim att k =
       (Ok (accepted_result claim (bridgeDenomForAsset asset) amt),
        snd (persist (deposited k claim asset amt)))) \/
  (exists res e, ResStatus res = ClaimStatusRejected /\
     (forall asset amt, ~ deposit_admissible k claim att asset amt) /\
     ExecuteDepositClaim claim att k = (Err (res, e), reject_state k)).
Proof.
  intros Hinv. unfold ExecuteDepositClaim.
  rewrite reject_query. destruct (ensureCircuitHealthy k) as [[]|e1] eqn:H1.
  2: { reject_branch. intros asset amt []. unfold ensureCircuitHealthy in H1. by rewrite adm_circuit0 in H1. }
  rewrite reject_lift. destruct (deposit_ValidateBasic claim) as [[]|e2] eqn:H2.
  2: { reject_branch. intros asset amt []. congruence. }
  cbv zeta. rewrite reject_query. unfold ensure at 1.
  destruct (processedClaims k !! identity_ReplayKey (Identity claim)) as [r|] eqn:H3;
    [rewrite bool_decide_eq_true_2 by eauto|rewrite bool_decide_eq_false_2 by (by intros [])].
  { reject_branch. intros asset amt []. congruence. }
  rewrite reject_query. destruct (verifyDepositClaim k claim att) as [[]|e4] eqn:H4.
  2: { reject_branch. intros asset amt []. congruence. }
  rewrite reject_query. unfold find_asset.
  destruct (GetAsset (registryKeeper k) (BridgeTypes.AssetID claim)) as [asset|] eqn:H5.
  2: { reject_branch. intros asset amt []. congruence. }
  rewrite reject_if. destruct (Enabled asset) eqn:H6; cbn [negb].
  2: { reject_branch. intros asset' amt []. congruence. }
  rewrite reject_query. unfold paused_asset, AssertNotPaused, ensure.
  destruct (IsPaused (pauserKeeper k) (BridgeTypes.AssetID claim)) eqn:H7.
  { reject_branch. intros asset' amt []. congruence. }
  rewrite reject_query.
  destruct (CheckTransferAtHeight (limitsKeeper k) (BridgeTypes.AssetID claim) (Amount claim)
    (currentHeight k)) as [[]|e8] eqn:H8.
  2: { reject_branch. intros asset' amt []. congruence. }
  destruct (deposit_valid_amount claim H2) as (amt & Hamt & Hpos).
  left. exists asset, amt.
  assert (Hadm : deposit_admissible k claim att asset amt).
  { split; try done. unfold ensureCircuitHealthy in H1.
    destruct (circuitBreakerTripped k); [|done]. by case_match. }
  split; [exact Hadm|]. unfold bind at 1. unfold or_reject at 1.
  rewrite record_transfer_run by done. unfold bind at 1, or_reject at 1.
  unfold acceptDepositClaim, bind, modify, ret. rewrite Hamt. cbn [cloneAmount default from_option Datatypes.id].
  unfold or_reject.
  pose proof (deposited_ledger_inv k claim att asset amt Hinv Hadm) as Hd.
  unfold deposited, claim_record in Hd. rewrite Hamt in Hd.
  rewrite CheckAccountingInvariant_balanced by exact Hd.
  unfold deposited, claim_record. rewrite Hamt. reflexivity.
Qed.
End deposit.

Section deposit_theorems.
Context `{MapIteration} `{Crypto}.

Lemma persist_ledger_inv k : ledger_inv k -> ledger_inv (snd (persist k)).
Proof. by apply balanced_ext. Qed.

(** C9: executing a deposit claim on balanced books. It is accepted exactly
    when every guard holds (healthy circuit, valid and fresh claim, quorum of
    the active signer set, enabled and unpaused asset, rate limit). An
    accepted claim mints its amount of the asset's denom and of no other,
    records the claim under its replay key and keeps the books balanced; a
    rejected one changes nothing but the counter of rejected claims. *)
Theorem ExecuteDepositClaim_spec (k : Keeper) (claim : DepositClaim) (att : Attestation) :
  ledger_inv k ->
  match ExecuteDepositClaim claim att k with
  | (Ok res, k') =>
      exists asset amt, deposit_admissible k claim att asset amt /\
        res = accepted_result claim (bridgeDenomForAsset asset) amt /\
        (forall d, SupplyForDenom k' d =
           SupplyForDenom k d + if eqs (bridgeDenomForAsset asset) d then amt else 0)%Z /\
        processedClaims k' =
          <[identity_ReplayKey (Identity claim) := claim_record claim (bridgeDenomForAsset asset) amt]>
            (processedClaims k) /\
        withdrawals k' = withdrawals k /\ rejectedClaims k' = rejectedClaims k /\
        circuitBreakerTripped k' = false /\ ledger_inv k'
  | (Err (res, e), k') =>
      ResStatus res = ClaimStatusRejected /\
      (forall asset amt, ~ deposit_admissible k claim att asset amt) /\
      k' = reject_state k
  end.
Proof.
  intros Hinv.
  destruct (ExecuteDepositClaim_run k claim att Hinv)
    as [(asset & amt & Hadm & ->)|(res & e & Hres & Hno & ->)]; [|done].
  exists asset, amt. split; [exact Hadm|]. split; [done|].
  split; [|split_and!; try done].
  - intros d. apply lookup_add_amount.
  - cbn. by apply adm_circuit in Hadm.
  - apply persist_ledger_inv. by eapply deposited_ledger_inv.
Qed.

(** No claim is minted twice. Once a deposit has been accepted, in
    every later state that still holds its claim record, a claim that names
    the same source event is rejected, and nothing but the counter of
    rejected claims changes; with a healthy circuit and a valid claim the
    error is [ErrDuplicateClaim]. *)
Theorem deposit_replay_rejected (k k1 k2 : Keeper) (claim claim2 : DepositClaim)
    (att att2 : Attestation) (r : ClaimResult) :
  ledger_inv k -> ExecuteDepositClaim claim att k = (Ok r, k1) ->
  ledger_inv k2 -> processedClaims k1 ⊆ processedClaims k2 ->
  same_source (Identity claim) (Identity claim2) ->
  exists res e, ExecuteDepositClaim claim2 att2 k2 = (Err (res, e), reject_state k2) /\
    ResStatus res = ClaimStatusRejected /\
    (circuitBreakerTripped k2 = false -> deposit_ValidateBasic claim2 = Ok tt ->
       e = ErrDuplicateClaim).
Proof.
  intros Hinv Hexec Hinv2 Hsub Hsame.
  assert (Hkey : identity_ReplayKey (Identity claim2) = identity_ReplayKey (Identity claim)).
  { unfold identity_ReplayKey, DerivedMessageID, ReplayKey.
    fold (identity_bytes (Identity claim)) (identity_bytes (Identity claim2)).
    by rewrite (same_source_bytes _ _ Hsame). }
  assert (Hin : exists rec, processedClaims k2 !! identity_ReplayKey (Identity claim2) = Some rec).
  { destruct (ExecuteDepositClaim_run k claim att Hinv)
      as [(asset & amt & _ & Heq)|(? & ? & _ & _ & Heq)]; rewrite Heq in Hexec; [|done].
    injection Hexec as <- <-. eexists. eapply lookup_weaken; [|exact Hsub]. rewrite Hkey.
    apply lookup_insert_eq. }
  destruct Hin as [rec Hrec].
  destruct (ExecuteDepositClaim_run k2 claim2 att2 Hinv2)
    as [(asset & amt & Hadm & _)|(res & e & Hst & _ & Heq)].
  { exfalso. apply adm_fresh in Hadm. congruence. }
  exists res, e. split; [done|]. split; [done|]. intros Hc Hv.
  unfold ExecuteDepositClaim in Heq. rewrite reject_query in Heq.
  unfold ensureCircuitHealthy in Heq. rewrite Hc in Heq.
  rewrite reject_lift, Hv, reject_query in Heq. unfold ensure in Heq.
  rewrite bool_decide_eq_true_2 in Heq by eauto. by injection Heq.
Qed.
End deposit_theorems.

(** ** Withdrawals *)

Section withdrawal_lemmas.
Context `{MapIteration} `{Crypto}.

(** Every guard of a withdrawal up to the rate limit has passed. *)
Record withdrawal_allowed (k : Keeper) (assetID : string) (amount : option Z) (recipient : string)
    (deadline : N) (signature : string) (asset : Asset) (amt : Z) : Prop := {
  wd_circuit : circuitBreakerTripped k = false;
  wd_valid : first_error (withdrawal_checks assetID amount recipient deadline signature) = Ok tt;
  wd_asset : GetAsset (registryKeeper k) assetID = Some asset;
  wd_enabled : Enabled asset = true;
  wd_unpaused : IsPaused (pauserKeeper k) assetID = false;
  wd_limit : CheckTransferAtHeight (limitsKeeper k) assetID amount (currentHeight k) = Ok tt;
  wd_amount : amount = Some amt;
  wd_positive : (0 < amt)%Z
}.

Definition new_record (k : Keeper) (assetID : string) (asset : Asset) (amt : Z) (recipient : string)
    (deadline : N) (signature : string) : WithdrawalRecord :=
  let txHash := "0x" +:+ sha256_hex
    (format_uint (currentHeight k) +:+ ":" +:+ format_uint (nextWithdrawalNonce k) +:+ ":" +:+
     assetID +:+ ":" +:+ TrimSpace recipient +:+ ":" +:+ format_int amt) in
  let id msg := mk_identity ClaimKindWithdrawal EmptyString withdrawalSourceChainID
    withdrawalSourceModule txHash 0 (nextWithdrawalNonce k) msg in
  mk_withdrawal (currentHeight k) (id (DerivedMessageID (id EmptyString))) (TrimSpace assetID)
    (TrimSpace (sourceAssetAddressForWithdrawal asset)) amt (TrimSpace recipient) deadline signature.

(** The state after an accepted withdrawal, before it is persisted. *)
Definition withdrawn (k : Keeper) (assetID : string) (asset : Asset) (amt : Z) (w : WithdrawalRecord)
    : Keeper :=
  upd_withdrawals (fun ws => ws ++ [w])
    (upd_supplyByDenom (add_amount (bridgeDenomForAsset asset) (- amt))
      (upd_nextWithdrawalNonce u64_incr (recorded_transfer k assetID (Some amt)))).

Lemma withdrawal_checks_amount assetID amount recipient deadline signature :
  first_error (withdrawal_checks assetID amount recipient deadline signature) = Ok tt ->
  exists amt, amount = Some amt /\ (0 < amt)%Z.
Proof.
  intros Heq. apply first_error_ok, Forall_cons in Heq as [Heq _]. cbn [fst] in Heq.
  apply negb_false_iff in Heq. destruct amount as [amt|]; [|done].
  exists amt. split; [done|]. by apply Z.ltb_lt.
Qed.

Lemma query_run {A B} (f : Keeper -> result A) (g : A -> Op Keeper B) k :
  bind (query f) g k = match f k with Ok a => g a k | Err e => (Err e, k) end.
Proof. unfold bind, query. by destruct (f k). Qed.
Lemma lift_run {A B} (r : result A) (g : A -> Op Keeper B) k :
  bind (lift r) g k = match r with Ok a => g a k | Err e => (Err e, k) end.
Proof. unfold bind, lift. by destruct r. Qed.
Lemma throw_if_run {B} b e (g : unit -> Op Keeper B) k :
  bind (throw_if b e) g k = if b then (Err e, k) else g tt k.
Proof. unfold bind. by destruct b. Qed.

Lemma gets_run {A B} (f : Keeper -> A) (g : A -> Op Keeper B) k :
  bind (gets f) g k = g (f k) k.
Proof. reflexivity. Qed.
Lemma record_transfer_bind {B} assetID amount (g : unit -> Op Keeper B) k :
  CheckTransferAtHeight (limitsKeeper k) assetID amount (currentHeight k) = Ok tt ->
  bind (record_transfer assetID amount) g k = g tt (recorded_transfer k assetID amount).
Proof. intros Hc. unfold bind. by rewrite record_transfer_run. Qed.

Lemma add_amount_neg denom amt m cur :
  m !! denom = Some cur -> add_amount denom (- amt) m = <[denom := (cur - amt)%Z]> m.
Proof. intros Hm. unfold add_amount, lookup_amount. by rewrite Hm. Qed.
End withdrawal_lemmas.

Section withdrawal.
Context `{MapIteration} `{Crypto}.
Variables (assetID : string) (amount : option Z) (recipient : string) (deadline : N)
  (signature : string).

Ltac refuse_branch :=
  right; right; eexists; split; [|reflexivity].

Lemma withdrawn_ledger_inv k asset amt :
  ledger_inv k -> withdrawal_allowed k assetID amount recipient deadline signature asset amt ->
  (amt <= SupplyForDenom k (bridgeDenomForAsset asset))%Z ->
  ledger_inv (withdrawn k assetID asset amt (new_record k assetID asset amt recipient deadline signature)).
Proof.
  intros Hinv [] Hle. unfold withdrawn.
  apply burn_ledger_inv; [by apply (balanced_ext k)| |done|].
  - unfold new_record. cbn [WAssetID]. unfold recorded_transfer.
    cbn [upd_nextWithdrawalNonce upd_limitsKeeper registryKeeper].
    unfold GetAsset, assetKey in *. by rewrite TrimSpace_idem.
  - split; [lia|exact Hle].
Qed.

(** The three outcomes of a withdrawal. *)
Lemma ExecuteWithdrawal_run k :
  ledger_inv k ->
  (exists asset amt w, withdrawal_allowed k assetID amount recipient deadline signature asset amt /\
     (amt <= SupplyForDenom k (bridgeDenomForAsset asset))%Z /\
     w = new_record k assetID asset amt recipient deadline signature /\
     ExecuteWithdrawal assetID amount recipient deadline signature k =
       (Ok w, snd (persist (withdrawn k assetID asset amt w)))) \/
  (exists asset amt, withdrawal_allowed k assetID amount recipient deadline signature asset amt /\
     (SupplyForDenom k (bridgeDenomForAsset asset) < amt)%Z /\
     ExecuteWithdrawal assetID amount recipient deadline signature k =
       (Err (Sentinel ErrInsufficientSupply), recorded_transfer k assetID amount)) \/
  (exists e, (forall asset amt,
       ~ withdrawal_allowed k assetID amount recipient deadline signature asset amt) /\
     ExecuteWithdrawal assetID amount recipient deadline signature k = (Err e, k)).
Proof.
  intros Hinv. unfold ExecuteWithdrawal. rewrite query_run.
  destruct (ensureCircuitHealthy k) as [[]|e1] eqn:H1.
  2: { refuse_branch. intros asset amt []. unfold ensureCircuitHealthy in H1. by rewrite wd_circuit0 in H1. }
  rewrite lift_run. destruct (first_error _) as [[]|e2] eqn:H2.
  2: { refuse_branch. intros asset amt []. congruence. }
  rewrite query_run. unfold find_asset.
  destruct (GetAsset (registryKeeper k) assetID) as [asset|] eqn:H5.
  2: { refuse_branch. intros asset amt []. congruence. }
  rewrite throw_if_run. destruct (Enabled asset) eqn:H6; cbn [negb].
  2: { refuse_branch. intros asset' amt []. congruence. }
  rewrite query_run. unfold paused_asset, AssertNotPaused, ensure.
  destruct (IsPaused (pauserKeeper k) assetID) eqn:H7.
  { refuse_branch. intros asset' amt []. congruence. }
  rewrite query_run.
  destruct (CheckTransferAtHeight (limitsKeeper k) assetID amount (currentHeight k)) as [[]|e8] eqn:H8.
  2: { refuse_branch. intros asset' amt []. congruence. }
  destruct (withdrawal_checks_amount _ _ _ _ _ H2) as (amt & Hamt & Hpos).
  assert (Hadm : withdrawal_allowed k assetID amount recipient deadline signature asset amt).
  { split; try done. unfold ensureCircuitHealthy in H1.
    destruct (circuitBreakerTripped k); [|done]. by case_match. }
  rewrite Hamt in *. cbn [cloneAmount default from_option Datatypes.id].
  rewrite record_transfer_bind, gets_run, throw_if_run by done. cbn [recorded_transfer upd_limitsKeeper supplyByDenom].
  destruct (supplyByDenom k !! bridgeDenomForAsset asset) as [cur|] eqn:Hcur.
  2: { right; left. exists asset, amt. split; [done|]. split; [|done].
       unfold SupplyForDenom, lookup_amount. rewrite Hcur. done. }
  assert (Hsup : SupplyForDenom k (bridgeDenomForAsset asset) = cur)
    by (unfold SupplyForDenom, lookup_amount; by rewrite Hcur).
  destruct (Z.ltb_spec cur amt) as [Hlt|Hge].
  { right; left. exists asset, amt. split; [done|]. by rewrite Hsup. }
  left. exists asset, amt, (new_record k assetID asset amt recipient deadline signature).
  rewrite Hsup. split_and!; [done..|].
  assert (Hd := withdrawn_ledger_inv k asset amt Hinv). rewrite Hamt in Hd.
  specialize (Hd Hadm ltac:(lia)). unfold withdrawn in Hd |- *.
  unfold burnRepresentation, newWithdrawalRecord, bind, gets, modify, ret, some_or.
  cbn [recorded_transfer upd_limitsKeeper upd_nextWithdrawalNonce supplyByDenom].
  rewrite Hcur. unfold throw_if, ret. replace (cur <? amt)%Z with false by (symmetry; by apply Z.ltb_ge).
  match type of Hd with ledger_inv ?s => set (s' := s) in Hd end.
  match goal with |- context [CheckAccountingInvariant ?s] =>
    replace s with s' by (unfold s', upd_supplyByDenom at 1; cbn [upd_nextWithdrawalNonce recorded_transfer
      upd_limitsKeeper supplyByDenom]; by rewrite (add_amount_neg _ _ _ cur Hcur)) end.
  by rewrite CheckAccountingInvariant_balanced.
Qed.
End withdrawal.

Section withdrawal_theorem.
Context `{MapIteration} `{Crypto}.

(** C17: executing a withdrawal on balanced books. An accepted one burns its
    amount of the asset's denom, which the supply covers, appends one record
    with the next nonce and keeps the books balanced. A refused one leaves the
    keeper untouched, with one exception: when every guard but the supply
    holds the error is [ErrInsufficientSupply] and the amount has already been
    recorded against the rate limit. *)
Theorem ExecuteWithdrawal_spec (k : Keeper) (assetID : string) (amount : option Z)
    (recipient : string) (deadline : N) (signature : string) :
  ledger_inv k ->
  match ExecuteWithdrawal assetID amount recipient deadline signature k with
  | (Ok w, k') =>
      exists asset amt,
        withdrawal_allowed k assetID amount recipient deadline signature asset amt /\
        (amt <= SupplyForDenom k (bridgeDenomForAsset asset))%Z /\
        w = new_record k assetID asset amt recipient deadline signature /\
        (forall d, SupplyForDenom k' d =
           SupplyForDenom k d - if eqs (bridgeDenomForAsset asset) d then amt else 0)%Z /\
        withdrawals k' = withdrawals k ++ [w] /\
        nextWithdrawalNonce k' = u64_incr (nextWithdrawalNonce k) /\
        processedClaims k' = processedClaims k /\ circuitBreakerTripped k' = false /\ ledger_inv k'
  | (Err e, k') =>
      (e = ErrInsufficientSupply /\ k' = recorded_transfer k assetID amount /\
       exists asset amt,
         withdrawal_allowed k assetID amount recipient deadline signature asset amt /\
         (SupplyForDenom k (bridgeDenomForAsset asset) < amt)%Z) \/
      (k' = k /\ forall asset amt,
         ~ withdrawal_allowed k assetID amount recipient deadline signature asset amt)
  end.
Proof.
  intros Hinv.
  destruct (ExecuteWithdrawal_run assetID amount recipient deadline signature k Hinv)
    as [(asset & amt & w & Hadm & Hle & Hw & ->)|[(asset & amt & Hadm & Hlt & ->)|(e & Hno & ->)]].
  - exists asset, amt. split_and!; try done.
    + intros d. etrans; [apply lookup_add_amount|].
      change (lookup_amount _ d) with (SupplyForDenom k d). destruct (eqs _ d); lia.
    + cbn. by apply wd_circuit in Hadm.
    + apply persist_ledger_inv. rewrite Hw. by eapply withdrawn_ledger_inv.
  - left. split_and!; try done. eauto.
  - right. done.
Qed.
End withdrawal_theorem.

(** ** Histories

    The operations the application runs on the bridge and on the keepers it
    shares, as the transitions of a state machine. *)

Inductive action :=
| ADeposit (claim : DepositClaim) (att : Attestation)
| AWithdraw (assetID : string) (amount : option Z) (recipient : string) (deadline : N) (signature : string)
| ASetHeight (height : N)
| AUpsertSignerSet (set : SignerSet)
| ARegisterAsset (asset : Asset)
| ASetAssetEnabled (assetID : string) (enabled : bool)
| ASetLimit (limit : RateLimit)
| APause (flow : string)
| AUnpause (flow : string).

Section histories.
Context `{MapIteration} `{Crypto}.

Definition on_registry {A} (m : Op Registry.Keeper A) : Op Keeper A :=
  zoom registryKeeper (fun r => upd_registryKeeper (fun _ => r)) m.
Definition on_limits {A} (m : Op Limits.Keeper A) : Op Keeper A :=
  zoom limitsKeeper (fun r => upd_limitsKeeper (fun _ => r)) m.
Definition on_pauser {A} (m : Op Pauser.Keeper A) : Op Keeper A :=
  zoom pauserKeeper (fun r => upd_pauserKeeper (fun _ => r)) m.

Definition exec (a : action) (k : Keeper) : Keeper :=
  match a with
  | ADeposit claim att => snd (ExecuteDepositClaim claim att k)
  | AWithdraw id amount recipient deadline signature =>
      snd (ExecuteWithdrawal id amount recipient deadline signature k)
  | ASetHeight h => snd (SetCurrentHeight h k)
  | AUpsertSignerSet set => snd (UpsertSignerSet set k)
  | ARegisterAsset asset => snd (on_registry (RegisterAsset asset) k)
  | ASetAssetEnabled id enabled => snd (on_registry (setAssetEnabled id enabled) k)
  | ASetLimit limit => snd (on_limits (SetLimit limit) k)
  | APause flow => snd (on_pauser (Pause flow) k)
  | AUnpause flow => snd (on_pauser (Unpause flow) k)
  end.

(** What an action mints and burns of a denom. *)
Definition minted_by (a : action) (k : Keeper) (d : string) : Z :=
  match a with
  | ADeposit claim att =>
      match ExecuteDepositClaim claim att k with
      | (Ok res, _) => if eqs (ResDenom res) d then cloneAmount (ResAmount res) else 0
      | _ => 0
      end
  | _ => 0
  end.
Definition burned_by (a : action) (k : Keeper) (d : string) : Z :=
  match a with
  | AWithdraw id amount recipient deadline signature =>
      match ExecuteWithdrawal id amount recipient deadline signature k with
      | (Ok w, _) => withdrawal_value (registryKeeper k) d w
      | _ => 0
      end
  | _ => 0
  end.
Definition accepted_key (a : action) (k : Keeper) : list string :=
  match a with
  | ADeposit claim att =>
      match ExecuteDepositClaim claim att k with
      | (Ok _, _) => [identity_ReplayKey (Identity claim)]
      | _ => []
      end
  | _ => []
  end.

Fixpoint exec_all (acts : list action) (k : Keeper) : Keeper :=
  match acts with [] => k | a :: rest => exec_all rest (exec a k) end.
Fixpoint minted (acts : list action) (k : Keeper) (d : string) : Z :=
  match acts with [] => 0 | a :: rest => minted_by a k d + minted rest (exec a k) d end.
Fixpoint burned (acts : list action) (k : Keeper) (d : string) : Z :=
  match acts with [] => 0 | a :: rest => burned_by a k d + burned rest (exec a k) d end.
Fixpoint accepted_keys (acts : list action) (k : Keeper) : list string :=
  match acts with [] => [] | a :: rest => accepted_key a k ++ accepted_keys rest (exec a k) end.
End histories.

(** ** The history invariants *)

(** The denom of every registered asset is kept. *)
Definition denoms_kept (r r' : Registry.Keeper) : Prop :=
  forall id a, GetAsset r id = Some a ->
    exists a', GetAsset r' id = Some a' /\ bridgeDenomForAsset a' = bridgeDenomForAsset a.

Lemma denoms_kept_balanced k k' :
  denoms_kept (registryKeeper k) (registryKeeper k') -> withdrawals k' = withdrawals k ->
  processedClaims k' = processedClaims k -> supplyByDenom k' = supplyByDenom k ->
  ledger_inv k -> ledger_inv k'.
Proof.
  intros Hkept Hw Hc Hs [[Hreg Hbal] [Hcn Hwn]].
  assert (Hsame : forall ws d, registered (registryKeeper k) ws ->
    withdrawn_total (registryKeeper k') ws d = withdrawn_total (registryKeeper k) ws d).
  { intros ws d Hr. apply zsum_ext. intros w Hin. unfold withdrawal_value.
    unfold registered in Hr. rewrite Forall_forall in Hr.
    destruct (Hr w Hin) as [a Ha]. destruct (Hkept _ _ Ha) as (a' & Ha' & Hd).
    by rewrite Ha, Ha', Hd. }
  unfold ledger_inv, balanced, amounts_nonneg, SupplyForDenom. rewrite Hw, Hc, Hs.
  split; [split|done].
  - unfold registered in *. eapply Forall_impl; [exact Hreg|]. intros w [a Ha].
    destruct (Hkept _ _ Ha) as (a' & Ha' & _). eauto.
  - intros d. rewrite Hsame by done. apply Hbal.
Qed.

Section history_theorems.
Context `{MapIteration} `{Crypto}.

Lemma register_denoms_kept asset r : denoms_kept r (snd (RegisterAsset asset r)).
Proof.
  intros id a Ha. exists a. split; [|done]. unfold GetAsset in *.
  destruct (RegisterAsset_assets asset r) as [-> | (key & stored & Hk & ->)]; [done|].
  rewrite lookup_insert_ne; [done|]. intros ->. congruence.
Qed.

Lemma enable_denoms_kept id b r : denoms_kept r (snd (setAssetEnabled id b r)).
Proof.
  intros id' a Ha. unfold GetAsset in *.
  destruct (setAssetEnabled_assets id b r) as [-> | (key & x & Hk & ->)]; [by exists a|].
  destruct (decide (key = assetKey id')) as [->|Hne].
  - rewrite lookup_insert_eq. simplify_eq. eexists. split; [done|]. reflexivity.
  - rewrite lookup_insert_ne by done. by exists a.
Qed.

(** Zooming into a shared keeper leaves the ledger alone. *)
Lemma on_registry_run {A} (m : Op Registry.Keeper A) k :
  snd (on_registry m k) = upd_registryKeeper (fun r => snd (m r)) k.
Proof. unfold on_registry, zoom, upd_registryKeeper. by destruct (m (registryKeeper k)). Qed.
Lemma bridge_on_limits_run {A} (m : Op Limits.Keeper A) k :
  snd (on_limits m k) = upd_limitsKeeper (fun r => snd (m r)) k.
Proof. unfold on_limits, zoom, upd_limitsKeeper. by destruct (m (limitsKeeper k)). Qed.
Lemma on_pauser_run {A} (m : Op Pauser.Keeper A) k :
  snd (on_pauser m k) = upd_pauserKeeper (fun r => snd (m r)) k.
Proof. unfold on_pauser, zoom, upd_pauserKeeper. by destruct (m (pauserKeeper k)). Qed.

Lemma UpsertSignerSet_ledger set k :
  let k' := snd (UpsertSignerSet set k) in
  registryKeeper k' = registryKeeper k /\ withdrawals k' = withdrawals k /\
  processedClaims k' = processedClaims k /\ supplyByDenom k' = supplyByDenom k /\
  circuitBreakerTripped k' = circuitBreakerTripped k.
Proof. unfold UpsertSignerSet, bind, lift. by destruct (signer_set_ValidateBasic set). Qed.

Definition empty_record : ClaimRecord :=
  mk_claim_record EmptyString EmptyString EmptyString EmptyString EmptyString 0 EmptyString.

(** What one action does to the ledger. *)
Record step_ok (a : action) (k : Keeper) : Prop := {
  step_inv : ledger_inv (exec a k);
  step_circuit : circuitBreakerTripped (exec a k) = circuitBreakerTripped k;
  step_supply : forall d, SupplyForDenom (exec a k) d =
    (SupplyForDenom k d + minted_by a k d - burned_by a k d)%Z;
  step_claims : exists r, processedClaims (exec a k) =
    foldr (fun key m => <[key := r]> m) (processedClaims k) (accepted_key a k) /\
    Forall (fun key => processedClaims k !! key = None) (accepted_key a k)
}.

(** An action that leaves supply, claims and withdrawals alone. *)
Lemma step_neutral a k :
  denoms_kept (registryKeeper k) (registryKeeper (exec a k)) ->
  withdrawals (exec a k) = withdrawals k -> processedClaims (exec a k) = processedClaims k ->
  supplyByDenom (exec a k) = supplyByDenom k ->
  circuitBreakerTripped (exec a k) = circuitBreakerTripped k ->
  (forall d, minted_by a k d = 0%Z) -> (forall d, burned_by a k d = 0%Z) -> accepted_key a k = [] ->
  ledger_inv k -> step_ok a k.
Proof.
  intros Hkept Hw Hc Hs Hcirc Hm Hb Hk Hinv. split.
  - by apply (denoms_kept_balanced k).
  - done.
  - intros d. unfold SupplyForDenom. rewrite Hs, Hm, Hb. lia.
  - exists empty_record. rewrite Hk. split; [exact Hc|constructor].
Qed.

Lemma denoms_kept_refl r : denoms_kept r r.
Proof. intros id a Ha. by exists a. Qed.
End history_theorems.

Section solvency.
Context `{MapIteration} `{Crypto}.

Lemma step_deposit claim att k : ledger_inv k -> step_ok (ADeposit claim att) k.
Proof.
  intros Hinv. destruct (ExecuteDepositClaim_run k claim att Hinv)
    as [(asset & amt & Hadm & Heq)|(res & e & _ & _ & Heq)].
  - split; cbn [exec minted_by burned_by accepted_key]; rewrite ?Heq; cbn [fst snd].
    + apply persist_ledger_inv. by eapply deposited_ledger_inv.
    + done.
    + intros d. cbn [accepted_result ResDenom ResAmount cloneAmount default from_option Datatypes.id].
      etrans; [apply lookup_add_amount|]. change (lookup_amount _ d) with (SupplyForDenom k d). lia.
    + exists (claim_record claim (bridgeDenomForAsset asset) amt). split; [done|].
      constructor; [by apply adm_fresh in Hadm|constructor].
  - split; cbn [exec minted_by burned_by accepted_key]; rewrite ?Heq; cbn [fst snd].
    + by apply (balanced_ext k).
    + done.
    + intros d. unfold SupplyForDenom. cbn. lia.
    + exists empty_record. split; [done|constructor].
Qed.

Lemma step_withdraw id amount recipient deadline signature k :
  ledger_inv k -> step_ok (AWithdraw id amount recipient deadline signature) k.
Proof.
  intros Hinv. destruct (ExecuteWithdrawal_run id amount recipient deadline signature k Hinv)
    as [(asset & amt & w & Hadm & Hle & Hw & Heq)|[(asset & amt & _ & _ & Heq)|(e & _ & Heq)]].
  - split; cbn [exec minted_by burned_by accepted_key]; rewrite ?Heq; cbn [fst snd].
    + apply persist_ledger_inv. rewrite Hw. by eapply withdrawn_ledger_inv.
    + done.
    + intros d. etrans; [apply lookup_add_amount|].
      change (lookup_amount _ d) with (SupplyForDenom k d).
      unfold withdrawal_value. rewrite Hw. unfold new_record. cbn [WAssetID WAmount].
      replace (GetAsset (registryKeeper k) (TrimSpace id)) with (Some asset).
      * destruct (eqs _ d); lia.
      * apply wd_asset in Hadm. unfold GetAsset, assetKey in *. by rewrite TrimSpace_idem.
    + exists empty_record. split; [done|constructor].
  - split; cbn [exec minted_by burned_by accepted_key]; rewrite ?Heq; cbn [fst snd].
    + by apply (balanced_ext k).
    + done.
    + intros d. unfold SupplyForDenom. cbn. lia.
    + exists empty_record. split; [done|constructor].
  - split; cbn [exec minted_by burned_by accepted_key]; rewrite ?Heq; cbn [fst snd]; [done|done| |].
    + intros d. lia.
    + exists empty_record. split; [done|constructor].
Qed.

Lemma step_all a k : ledger_inv k -> step_ok a k.
Proof.
  destruct a as [claim att|id amount recipient deadline signature|h|set|asset|id b|limit|f|f];
    intros Hinv.
  - by apply step_deposit.
  - by apply step_withdraw.
  - by apply step_neutral; try apply denoms_kept_refl.
  - destruct (UpsertSignerSet_ledger set k) as (Hr & Hw & Hc & Hs & Hb).
    apply step_neutral; try done. cbn [exec]. rewrite Hr. apply denoms_kept_refl.
  - apply step_neutral; try done; cbn [exec]; rewrite on_registry_run; try done.
    apply register_denoms_kept.
  - apply step_neutral; try done; cbn [exec]; rewrite on_registry_run; try done.
    apply enable_denoms_kept.
  - apply step_neutral; try done; cbn [exec]; rewrite bridge_on_limits_run; try done.
    apply denoms_kept_refl.
  - apply step_neutral; try done; cbn [exec]; rewrite on_pauser_run; try done.
    apply denoms_kept_refl.
  - apply step_neutral; try done; cbn [exec]; rewrite on_pauser_run; try done.
    apply denoms_kept_refl.
Qed.

(** C4: solvency over every history. Starting from balanced books, after
    any sequence of deposits, withdrawals, signer-set, registry, limit, pause
    and height operations the books are still balanced, the circuit breaker is
    as it was (it never trips), and the supply of each denom is the initial
    one plus everything accepted deposits minted minus everything accepted
    withdrawals burned, hence never negative. *)
Theorem bridge_solvency (acts : list action) (k : Keeper) :
  ledger_inv k ->
  ledger_inv (exec_all acts k) /\
  circuitBreakerTripped (exec_all acts k) = circuitBreakerTripped k /\
  forall d, SupplyForDenom (exec_all acts k) d =
      (SupplyForDenom k d + minted acts k d - burned acts k d)%Z /\
    (0 <= SupplyForDenom (exec_all acts k) d)%Z.
Proof.
  revert k. induction acts as [|a acts IH]; intros k Hinv; cbn [exec_all minted burned].
  - split_and!; [done..|]. intros d. split; [lia|]. apply Hinv.
  - destruct (step_all a k Hinv) as [Hinv' Hcirc Hsup _].
    destruct (IH _ Hinv') as (Hi & Hc & Hs). split_and!; [done|congruence|].
    intros d. destruct (Hs d) as [Heq Hnn]. split; [|done]. rewrite Heq, Hsup. lia.
Qed.

Lemma accepted_keys_fresh acts k key :
  ledger_inv k -> key ∈ accepted_keys acts k -> processedClaims k !! key = None.
Proof.
  revert k. induction acts as [|a acts IH]; intros k Hinv Hin; cbn [accepted_keys] in Hin.
  { by apply not_elem_of_nil in Hin. }
  destruct (step_all a k Hinv) as [Hinv' _ _ [r [Hc Hf]]].
  apply elem_of_app in Hin as [Hin|Hin].
  - rewrite Forall_forall in Hf. by apply Hf.
  - specialize (IH _ Hinv' Hin). rewrite Hc in IH.
    destruct (processedClaims k !! key) as [x|] eqn:Hk; [|done]. exfalso.
    clear -IH Hk. induction (accepted_key a k) as [|y l IHl]; cbn [foldr] in IH; [congruence|].
    apply lookup_insert_None in IH as [IH _]. by apply IHl.
Qed.

(** C3: along every history no two accepted deposits have the same replay
    key: each source event is minted at most once. *)
Theorem no_double_mint (acts : list action) (k : Keeper) :
  ledger_inv k -> NoDup (accepted_keys acts k).
Proof.
  revert k. induction acts as [|a acts IH]; intros k Hinv; cbn [accepted_keys]; [constructor|].
  destruct (step_all a k Hinv) as [Hinv' _ _ [r [Hc Hf]]].
  apply NoDup_app. split_and!; [|intros key Hin Hin'|by apply IH].
  - unfold accepted_key. repeat case_match; try constructor; [|constructor].
    by apply not_elem_of_nil.
  - apply accepted_keys_fresh in Hin'; [|done]. rewrite Hc in Hin'.
    clear -Hin Hin'. induction (accepted_key a k) as [|y l IHl]; [by apply not_elem_of_nil in Hin|].
    cbn [foldr] in Hin'. apply lookup_insert_None in Hin' as [Hn Hne].
    apply elem_of_cons in Hin as [->|Hin]; [done|]. by apply IHl.
Qed.
End solvency.

(** ** Concrete runs

    A toy signature scheme: a signature is a one-byte key followed by the
    digest it signs. *)

#[local] Instance toy_crypto : Crypto := {|
  PublicKey := string;
  keccak256 := Sum256;
  RecoverCompact := fun sig digest =>
    match sig with
    | String c rest => if eqs rest digest then Ok (String c EmptyString) else Err (Errorf "bad signature")
    | EmptyString => Err (Errorf "bad signature")
    end;
  SerializeUncompressed := fun pk => "0" +:+ pk
|}.

Lemma NewKeeper_ledger_inv registry limits pauser signers threshold :
  ledger_inv (NewKeeper registry limits pauser signers threshold).
Proof.
  split; [split; [constructor|]|split; [apply map_Forall_empty|constructor]].
  intros d. unfold SupplyForDenom, lookup_amount, claims_total, withdrawn_total. cbn [NewKeeper
    supplyByDenom processedClaims withdrawals registryKeeper].
  rewrite lookup_empty, map_sum_empty. cbn. lia.
Qed.

Definition signer_a : string := SignerAddressFromPublicKey "A".
Definition signer_b : string := SignerAddressFromPublicKey "B".
Definition signer_c : string := SignerAddressFromPublicKey "C".

Definition demo_start : Keeper :=
  NewKeeper Registry.NewKeeper Limits.NewKeeper Pauser.NewKeeper [signer_a; signer_b; signer_c] 2.

Definition demo_setup : list action := [
  ARegisterAsset Registry.demo_usdc;
  ASetLimit (mk_limit "eth.usdc" 600 (Some 1500%Z));
  ASetHeight 100 ].

Definition demo_keeper : Keeper := exec_all demo_setup demo_start.

Definition sign (key : string) (a : Attestation) : AttestationProof :=
  mk_proof (SignerAddressFromPublicKey key) (key +:+ keccak256 (signing_payload a)).

Definition demo_unsigned (claim : DepositClaim) : Attestation :=
  mk_attestation (MessageID (Identity claim)) (Digest claim) [] [] 2 500 1.
Definition demo_attested (claim : DepositClaim) : Attestation :=
  let a := demo_unsigned claim in
  mk_attestation (AttMessageID a) (PayloadHash a) [] [sign "A" a; sign "C" a] 2 500 1.

Lemma demo_keeper_inv : ledger_inv demo_keeper.
Proof.
  unfold demo_keeper, demo_setup, demo_start. cbn [exec_all].
  do 3 apply step_all. apply NewKeeper_ledger_inv.
Qed.

Definition demo_deposit : action := ADeposit demo_claim (demo_attested demo_claim).
Definition demo_withdrawal : action := AWithdraw "eth.usdc" (Some 400%Z) "0xrecipient" 900 "sig".

Example demo_deposit_accepted :
  fst (ExecuteDepositClaim demo_claim (demo_attested demo_claim) demo_keeper) =
    Ok (accepted_result demo_claim "uethusdc" 1000).
Proof. vm_compute. reflexivity. Qed.

(** Two signatures of the same signer are one vote. *)
Example demo_duplicate_signer_rejected :
  let a := demo_unsigned demo_claim in
  let att := mk_attestation (AttMessageID a) (PayloadHash a) []
    [sign "A" a; mk_proof (String.append " 0X" (String.substring 2 40 signer_a)) ("A" +:+ keccak256 (signing_payload a))]
    2 500 1 in
  verifyDepositClaim demo_keeper demo_claim att = Err (Sentinel ErrInsufficientAttestationQuorum).
Proof. vm_compute. reflexivity. Qed.

Example ExecuteDepositClaim_spec_witness :
  exists res k', ExecuteDepositClaim demo_claim (demo_attested demo_claim) demo_keeper = (Ok res, k') /\
    ledger_inv k' /\ rejectedClaims k' = rejectedClaims demo_keeper.
Proof.
  pose proof (ExecuteDepositClaim_spec demo_keeper demo_claim (demo_attested demo_claim)
                demo_keeper_inv) as Hspec.
  pose proof demo_deposit_accepted as Hrun.
  destruct (ExecuteDepositClaim demo_claim (demo_attested demo_claim) demo_keeper) as [[res|e] k'];
    [|discriminate Hrun].
  exists res, k'. split; [reflexivity|].
  destruct Hspec as (asset & amt & _ & _ & _ & _ & _ & Hrej & _ & Hinv). exact (conj Hinv Hrej).
Defined.

Example deposit_replay_rejected_witness :
  exists res e, ExecuteDepositClaim demo_claim (demo_attested demo_claim) (exec demo_deposit demo_keeper) =
      (Err (res, e), reject_state (exec demo_deposit demo_keeper)) /\
    ResStatus res = ClaimStatusRejected /\
    (circuitBreakerTripped (exec demo_deposit demo_keeper) = false ->
     deposit_ValidateBasic demo_claim = Ok tt -> e = ErrDuplicateClaim).
Proof.
  apply (deposit_replay_rejected demo_keeper (exec demo_deposit demo_keeper) (exec demo_deposit demo_keeper)
           demo_claim demo_claim (demo_attested demo_claim) (demo_attested demo_claim)
           (accepted_result demo_claim "uethusdc" 1000)).
  - exact demo_keeper_inv.
  - rewrite <- demo_deposit_accepted. unfold exec, demo_deposit. apply surjective_pairing.
  - apply step_inv, step_all, demo_keeper_inv.
  - reflexivity.
  - unfold same_source. split_and!; reflexivity.
Defined.

Example ExecuteWithdrawal_spec_witness :
  exists w k', ExecuteWithdrawal "eth.usdc" (Some 400%Z) "0xrecipient" 900 "sig"
      (exec demo_deposit demo_keeper) = (Ok w, k') /\ ledger_inv k'.
Proof.
  pose proof (ExecuteWithdrawal_spec (exec demo_deposit demo_keeper) "eth.usdc" (Some 400%Z)
                "0xrecipient" 900 "sig" (step_inv _ _ (step_all demo_deposit _ demo_keeper_inv))) as Hspec.
  assert (Hrun : is_ok (fst (ExecuteWithdrawal "eth.usdc" (Some 400%Z) "0xrecipient" 900 "sig"
    (exec demo_deposit demo_keeper))) = true) by (vm_compute; reflexivity).
  destruct (ExecuteWithdrawal "eth.usdc" (Some 400%Z) "0xrecipient" 900 "sig"
    (exec demo_deposit demo_keeper)) as [[w|e] k']; [|discriminate Hrun].
  exists w, k'. split; [reflexivity|].
  destruct Hspec as (asset & amt & _ & _ & _ & _ & _ & _ & _ & _ & Hinv). exact Hinv.
Defined.

Definition demo_history : list action := [demo_deposit; demo_deposit; demo_withdrawal; demo_withdrawal].

Example demo_history_supply : SupplyForDenom (exec_all demo_history demo_keeper) "uethusdc" = 600%Z.
Proof. vm_compute. reflexivity. Qed.

Example bridge_solvency_witness :
  ledger_inv (exec_all demo_history demo_keeper) /\
  circuitBreakerTripped (exec_all demo_history demo_keeper) = circuitBreakerTripped demo_keeper /\
  forall d, SupplyForDenom (exec_all demo_history demo_keeper) d =
      (SupplyForDenom demo_keeper d + minted demo_history demo_keeper d - burned demo_history demo_keeper d)%Z /\
    (0 <= SupplyForDenom (exec_all demo_history demo_keeper) d)%Z.
Proof. exact (bridge_solvency demo_history demo_keeper demo_keeper_inv). Defined.

Example no_double_mint_witness : NoDup (accepted_keys demo_history demo_keeper).
Proof. exact (no_double_mint demo_history demo_keeper demo_keeper_inv). Defined.

(** A withdrawal that fails for lack of supply still uses up the rate limit:
    a deposit that was acceptable before it is refused after it. *)
Example demo_limit_exhausted :
  let refused := ExecuteWithdrawal "eth.usdc" (Some 1500%Z) "0xrecipient" 900 "sig" demo_keeper in
  fst refused = Err (Sentinel ErrInsufficientSupply) /\
  fst (ExecuteDepositClaim demo_claim (demo_attested demo_claim) (snd refused)) =
    Err (rejected (MessageID demo_identity), Sentinel ErrRateLimitExceeded).
Proof. vm_compute. split; reflexivity. Qed.
