(* ===== verification/Bank.v ===== *)
(** [x/bank/keeper]: wallet balances, credits and debits, the export and
    import of the balances, and their persistence. *)

From S2P Require Import Prelude.
From S2P Require Import GoStrings.
From S2P Require Import Errors.
From S2P Require Import PrefixStore.
From stdpp Require Import strings.

(** The Cosmos SDK's bech32 codec ([sdk.AccAddressFromBech32]) is a parameter:
    which strings are account addresses. *)
Class AddressCodec := { AccAddressFromBech32 : string -> bool }.

Record BalanceRecord := mk_balance {
  Address : string;
  BalDenom : string;
  BalAmount : string
}.

#[global] Instance BalanceRecord_eq_dec : EqDecision BalanceRecord.
Proof. solve_decision. Defined.

Record StateSnapshot := mk_state { Balances : list BalanceRecord }.

Inductive document := BalanceDoc (b : BalanceRecord) | LegacyState (st : StateSnapshot).

(** [persistHook] is the failure-injection hook of the tests, as the list of
    its next outcomes; the empty list is a nil hook. *)
Record Keeper := mk_keeper {
  balances : gmap string (gmap string Z);
  prefixStore : option (JSONPrefixStore document);
  persistHook : list (option error)
}.

Definition balancePrefix : string := "balance".
Definition NewKeeper : Keeper := mk_keeper ∅ None [].

Definition upd_balances f (k : Keeper) := mk_keeper (f (balances k)) (prefixStore k) (persistHook k).
Definition upd_prefixStore f (k : Keeper) := mk_keeper (balances k) (f (prefixStore k)) (persistHook k).
Definition upd_persistHook f (k : Keeper) := mk_keeper (balances k) (prefixStore k) (f (persistHook k)).

Definition normalizeDenom (denom : string) : result string :=
  let trimmed := TrimSpace denom in
  if decide (trimmed = EmptyString) then Err (Sentinel ErrInvalidDenom) else Ok trimmed.

Definition normalizeAmount (amount : option Z) : result Z :=
  match amount with
  | None => Err (Sentinel ErrInvalidAmount)
  | Some v => if (v <=? 0)%Z then Err (Sentinel ErrInvalidAmount) else Ok v
  end.

Definition normalizeAmountString (amount : string) : result Z :=
  let trimmed := TrimSpace amount in
  if decide (trimmed = EmptyString) then Err (Sentinel ErrInvalidAmount)
  else match SetString10 trimmed with
       | None => Err (Sentinel ErrInvalidAmount)
       | Some v => if (v <=? 0)%Z then Err (Sentinel ErrInvalidAmount) else Ok v
       end.

Definition balanceKey (address denom : string) : string :=
  TrimSpace address +:+ "|" +:+ TrimSpace denom.

(** [denoms, ok := balances[address]], an absent map reading as empty. *)
Definition denoms_of (m : gmap string (gmap string Z)) (address : string) : gmap string Z :=
  default ∅ (m !! address).

Definition put_amount (address denom : string) (v : Z) (m : gmap string (gmap string Z)) :=
  <[address := <[denom := v]> (denoms_of m address)]> m.

(** [delete(denoms, denom)], then [delete(balances, address)] when it is the
    last one. *)
Definition drop_amount (address denom : string) (m : gmap string (gmap string Z)) :=
  let denoms := delete denom (denoms_of m address) in
  if decide (denoms = ∅) then delete address m else <[address := denoms]> m.

Definition BalanceOf (k : Keeper) (address denom : string) : Z :=
  let normalizedDenom := TrimSpace denom in
  if decide (normalizedDenom = EmptyString) then 0%Z
  else default 0%Z (denoms_of (balances k) (TrimSpace address) !! normalizedDenom).

Section ops.
Context `{MapIteration} `{AddressCodec}.

Definition normalizeAddress (address : string) : result string :=
  let trimmed := TrimSpace address in
  if decide (trimmed = EmptyString) then Err (Sentinel ErrInvalidAddress)
  else if AccAddressFromBech32 trimmed then Ok trimmed else Err (Sentinel ErrInvalidAddress).

Definition NormalizeAddress := normalizeAddress.

Definition records_of_address (m : gmap string (gmap string Z)) (address : string)
    : list BalanceRecord :=
  map (fun denom => mk_balance address denom
         (format_int (default 0%Z (denoms_of m address !! denom))))
    (SortStrings (map fst (range (denoms_of m address)))).

Definition ExportState (k : Keeper) : StateSnapshot :=
  let addresses := SortStrings (map fst (range (balances k))) in
  mk_state (flat_map (records_of_address (balances k)) addresses).

Definition ExportBalances (k : Keeper) : list BalanceRecord := Balances (ExportState k).

(** [Balances(address)]: the records of one bech32 address, by denom. *)
Definition AddressBalances (k : Keeper) (address : string) : result (list BalanceRecord) :=
  let? normalized := normalizeAddress address in
  Ok (records_of_address (balances k) normalized).

Definition persist_store (k : Keeper) (s : JSONPrefixStore document) : JSONPrefixStore document :=
  let s := ClearPrefix s balancePrefix in
  let s := foldl (fun s r => Save s balancePrefix (balanceKey (Address r) (BalDenom r)) (BalanceDoc r))
             s (ExportBalances k) in
  Commit s.

Definition persist : Op Keeper unit :=
  let! outcomes := gets persistHook in
  modify (upd_persistHook (@tl _)) ;;;
  (match outcomes with Some e :: _ => throw e | _ => ret tt end) ;;;
  modify (fun k => upd_prefixStore (option_map (persist_store k)) k).

Definition Credit (address denom : string) (amount : option Z) : Op Keeper unit :=
  let normalizedAddress := TrimSpace address in
  throw_if (bool_decide (normalizedAddress = EmptyString)) ErrInvalidAddress ;;;
  let! normalizedDenom := lift (normalizeDenom denom) in
  let! normalizedAmount := lift (normalizeAmount amount) in
  modify (upd_balances (fun m =>
    put_amount normalizedAddress normalizedDenom
      (default 0 (denoms_of m normalizedAddress !! normalizedDenom) + normalizedAmount)%Z m)) ;;;
  persist.

Definition Debit (address denom : string) (amount : option Z) : Op Keeper unit :=
  let normalizedAddress := TrimSpace address in
  throw_if (bool_decide (normalizedAddress = EmptyString)) ErrInvalidAddress ;;;
  let! normalizedDenom := lift (normalizeDenom denom) in
  let! normalizedAmount := lift (normalizeAmount amount) in
  let! denoms := gets (fun k => balances k !! normalizedAddress) in
  let! denoms := some_or denoms ErrInsufficientBalance in
  let! current := some_or (denoms !! normalizedDenom) ErrInsufficientBalance in
  throw_if (current <? normalizedAmount)%Z ErrInsufficientBalance ;;;
  let left := (current - normalizedAmount)%Z in
  modify (upd_balances (fun m =>
    if (left =? 0)%Z then drop_amount normalizedAddress normalizedDenom m
    else put_amount normalizedAddress normalizedDenom left m)) ;;;
  persist.

(** [loadState]: the balances are replaced only when every record is valid. *)
Fixpoint load_records (records : list BalanceRecord) (next : gmap string (gmap string Z))
    : result (gmap string (gmap string Z)) :=
  match records with
  | [] => Ok next
  | r :: rest =>
      let address := TrimSpace (Address r) in
      if decide (address = EmptyString) then Err (Sentinel ErrInvalidAddress)
      else
        let? denom := normalizeDenom (BalDenom r) in
        let? amount := normalizeAmountString (BalAmount r) in
        load_records rest (put_amount address denom amount next)
  end.

Definition loadState (st : StateSnapshot) (do_persist : bool) : Op Keeper unit :=
  let! next := lift (load_records (Balances st) ∅) in
  modify (upd_balances (fun _ => next)) ;;;
  if do_persist then persist else ret tt.

Definition ImportState (st : StateSnapshot) : Op Keeper unit := loadState st false.
Definition Flush : Op Keeper unit := persist.

Definition loadFromPrefixStore (s : JSONPrefixStore document) : Op Keeper unit := fun k =>
  match LoadAll s balancePrefix (fun _ d =>
          match d with
          | BalanceDoc r => modify (fun records => records ++ [r])
          | LegacyState _ => throw decode_error
          end) [] with
  | (Err e, _) => (Err e, k)
  | (Ok _, records) => loadState (mk_state records) false k
  end.

Definition NewStoreKeeper (s : JSONPrefixStore document) : result Keeper :=
  let keeper := mk_keeper ∅ (Some s) [] in
  let run (op : Op Keeper unit) :=
    match op keeper with (Ok _, k) => Ok k | (Err e, _) => Err e end in
  if HasAny s balancePrefix then run (loadFromPrefixStore s)
  else if HasState s then
    match state_Load s with
    | Err e => Err e
    | Ok (Some (LegacyState st)) => run (ImportState st)
    | Ok (Some (BalanceDoc _)) => run (ImportState (mk_state []))
    | Ok None => Ok keeper
    end
  else Ok keeper.
End ops.

(** ** The balances as a ledger *)

Definition bal (m : gmap string (gmap string Z)) (address denom : string) : Z :=
  default 0%Z (denoms_of m address !! denom).

(** The amount of a denom over all addresses. *)
Definition total (m : gmap string (gmap string Z)) (denom : string) : Z :=
  map_sum (fun e => default 0%Z (e.2 !! denom)) m.

Definition denoms_ok (ds : gmap string Z) : Prop :=
  ds <> ∅ /\ map_Forall (fun d v => trimmed d /\ d <> EmptyString /\ (0 < v)%Z) ds.

Definition ledger_ok (m : gmap string (gmap string Z)) : Prop :=
  map_Forall (fun a ds => trimmed a /\ a <> EmptyString /\ denoms_ok ds) m.

Definition wf (k : Keeper) : Prop := ledger_ok (balances k).

Lemma denoms_of_insert m a a' ds :
  denoms_of (<[a := ds]> m) a' = if decide (a = a') then ds else denoms_of m a'.
Proof.
  unfold denoms_of. case_decide as Ha.
  - subst a'. by rewrite lookup_insert_eq.
  - by rewrite lookup_insert_ne.
Qed.

Lemma denoms_of_delete m a a' :
  denoms_of (delete a m) a' = if decide (a = a') then ∅ else denoms_of m a'.
Proof.
  unfold denoms_of. case_decide as Ha.
  - subst a'. by rewrite lookup_delete_eq.
  - by rewrite lookup_delete_ne.
Qed.

Lemma bal_put m a d v a' d' :
  bal (put_amount a d v m) a' d' = if decide (a = a' /\ d = d') then v else bal m a' d'.
Proof.
  unfold bal, put_amount. rewrite denoms_of_insert.
  destruct (decide (a = a')) as [->|Ha].
  - destruct (decide (d = d')) as [->|Hd].
    + rewrite lookup_insert_eq, decide_True by done. done.
    + rewrite lookup_insert_ne, decide_False by naive_solver. done.
  - rewrite decide_False by naive_solver. done.
Qed.

Lemma bal_drop m a d a' d' :
  bal (drop_amount a d m) a' d' = if decide (a = a' /\ d = d') then 0%Z else bal m a' d'.
Proof.
  assert (Hden : denoms_of (drop_amount a d m) a' =
    if decide (a = a') then delete d (denoms_of m a) else denoms_of m a').
  { unfold drop_amount. destruct (decide (delete d (denoms_of m a) = ∅)) as [He|He].
    - rewrite denoms_of_delete. case_decide; [by rewrite He|done].
    - apply denoms_of_insert. }
  unfold bal. rewrite Hden. destruct (decide (a = a')) as [->|Ha].
  - destruct (decide (d = d')) as [->|Hd].
    + rewrite lookup_delete_eq, decide_True by done. done.
    + rewrite lookup_delete_ne, decide_False by naive_solver. done.
  - rewrite decide_False by naive_solver. done.
Qed.

Lemma total_as_bal m a d :
  match m !! a with Some ds => default 0%Z (ds !! d) | None => 0%Z end = bal m a d.
Proof. unfold bal, denoms_of. by destruct (m !! a). Qed.

Lemma total_put m a d v d' :
  (total (put_amount a d v m) d' = total m d' + if decide (d = d') then v - bal m a d else 0)%Z.
Proof.
  unfold total, put_amount. rewrite map_sum_update. cbn [fst snd]. rewrite total_as_bal.
  case_decide as Hd.
  - subst d'. rewrite lookup_insert_eq. cbn. lia.
  - rewrite lookup_insert_ne by done. change (default 0%Z (denoms_of m a !! d')) with (bal m a d'). lia.
Qed.

Lemma total_drop m a d d' :
  (total (drop_amount a d m) d' = total m d' - if decide (d = d') then bal m a d else 0)%Z.
Proof.
  assert (Hval : (default 0 (delete d (denoms_of m a) !! d') =
    bal m a d' - if decide (d = d') then bal m a d else 0)%Z).
  { case_decide as Hd.
    - subst d'. rewrite lookup_delete_eq. cbn. lia.
    - rewrite lookup_delete_ne by done. change (default 0%Z (denoms_of m a !! d')) with (bal m a d'). lia. }
  unfold total, drop_amount. destruct (decide (delete d (denoms_of m a) = ∅)) as [He|He].
  - rewrite He, lookup_empty in Hval. cbn in Hval.
    destruct (m !! a) as [ds|] eqn:Ha.
    + rewrite (map_sum_delete _ _ _ _ Ha). cbn [snd]. pose proof (total_as_bal m a d') as Hb.
      rewrite Ha in Hb. lia.
    + rewrite delete_id by done. pose proof (total_as_bal m a d') as Hb. rewrite Ha in Hb. lia.
  - rewrite map_sum_update. cbn [fst snd]. rewrite total_as_bal. lia.
Qed.

Lemma ledger_ok_put m a d v :
  ledger_ok m -> trimmed a -> a <> EmptyString -> trimmed d -> d <> EmptyString -> (0 < v)%Z ->
  ledger_ok (put_amount a d v m).
Proof.
  intros Hm Hat Hane Hdt Hdne Hv. apply map_Forall_insert_2; [|done]. split_and!; [done..|].
  split; [apply insert_non_empty|]. apply map_Forall_insert_2; [done|].
  unfold denoms_of. destruct (m !! a) as [ds|] eqn:Ha; [|apply map_Forall_empty].
  apply (Hm a ds Ha).
Qed.

Lemma ledger_ok_drop m a d : ledger_ok m -> ledger_ok (drop_amount a d m).
Proof.
  intros Hm. unfold drop_amount. case_decide as He; [by apply map_Forall_delete|].
  unfold denoms_of in *. destruct (m !! a) as [ds|] eqn:Ha; cbn [default from_option Datatypes.id] in *.
  - apply map_Forall_insert_2; [|done]. destruct (Hm a ds Ha) as (Hat & Hane & _ & Hds).
    split_and!; [done..|]. split; [done|]. by apply map_Forall_delete.
  - exfalso. apply He. by rewrite delete_empty.
Qed.

(** ** Credit and Debit *)

(** The arguments every mutation requires. *)
Definition valid_args (address denom : string) (amount : option Z) : option (string * string * Z) :=
  match amount with
  | Some v =>
      if decide (TrimSpace address <> EmptyString /\ TrimSpace denom <> EmptyString /\ (0 < v)%Z)
      then Some (TrimSpace address, TrimSpace denom, v) else None
  | None => None
  end.

Section spec.
Context `{MapIteration} `{AddressCodec}.

Definition persist_outcome (k : Keeper) : result unit :=
  match persistHook k with Some e :: _ => Err e | _ => Ok tt end.

Lemma balances_persist k : balances (snd (persist k)) = balances k.
Proof. unfold persist, bind, gets, modify, throw, ret. by destruct (persistHook k) as [|[e|] l]. Qed.
Lemma persist_result k : fst (persist k) = persist_outcome k.
Proof.
  unfold persist, persist_outcome, bind, gets, modify, throw, ret.
  by destruct (persistHook k) as [|[e|] l].
Qed.

Lemma hook_persist k : persistHook (snd (persist k)) = tl (persistHook k).
Proof.
  unfold persist, bind, gets, modify, throw, ret.
  destruct (persistHook k) as [|[e|] l] eqn:Hk; cbn; by rewrite Hk.
Qed.

Lemma args_checked {A} address denom amount (cont : string -> Z -> Op Keeper A) k :
  (throw_if (bool_decide (TrimSpace address = EmptyString)) (Sentinel ErrInvalidAddress) ;;;
   let! d := lift (normalizeDenom denom) in
   let! v := lift (normalizeAmount amount) in
   cont d v) k =
  match valid_args address denom amount with
  | Some (a, d, v) => cont d v k
  | None =>
      (Err (Sentinel (if decide (TrimSpace address = EmptyString) then ErrInvalidAddress
                      else if decide (TrimSpace denom = EmptyString) then ErrInvalidDenom
                      else ErrInvalidAmount)), k)
  end.
Proof.
  unfold valid_args, bind, throw_if, throw, ret, lift, normalizeDenom, normalizeAmount.
  case_bool_decide as Ha.
  { rewrite decide_True by done. destruct amount as [v|]; [|done].
    rewrite decide_False by naive_solver. done. }
  rewrite (decide_False (P := TrimSpace address = EmptyString)) by done.
  destruct (decide (TrimSpace denom = EmptyString)) as [Hd|Hd].
  { destruct amount as [v|]; [|done]. rewrite decide_False by naive_solver. done. }
  destruct amount as [v|]; [|done]. destruct (Z.leb_spec v 0).
  - rewrite decide_False by (intros (_ & _ & ?); lia). done.
  - rewrite decide_True by done. done.
Qed.

Lemma valid_args_some address denom amount a d v :
  valid_args address denom amount = Some (a, d, v) ->
  amount = Some v /\ a = TrimSpace address /\ d = TrimSpace denom /\
  trimmed a /\ a <> EmptyString /\ trimmed d /\ d <> EmptyString /\ (0 < v)%Z.
Proof.
  unfold valid_args. destruct amount as [w|]; [|done]. case_decide as Hc; [|done].
  intros [= <- <- <-]. destruct Hc as (? & ? & ?). split_and!; auto with go.
Qed.

Lemma Credit_run address denom amount k :
  Credit address denom amount k =
    match valid_args address denom amount with
    | Some (a, d, v) => persist (upd_balances (fun m => put_amount a d (bal m a d + v)%Z m) k)
    | None => (Err (Sentinel (if decide (TrimSpace address = EmptyString) then ErrInvalidAddress
                      else if decide (TrimSpace denom = EmptyString) then ErrInvalidDenom
                      else ErrInvalidAmount)), k)
    end.
Proof.
  unfold Credit. cbv zeta. rewrite args_checked.
  destruct (valid_args address denom amount) as [[[a d] v]|] eqn:Hv; [|done].
  by apply valid_args_some in Hv as (_ & -> & _).
Qed.

Lemma Debit_run address denom amount k :
  Debit address denom amount k =
    match valid_args address denom amount with
    | Some (a, d, v) =>
        match denoms_of (balances k) a !! d with
        | Some cur =>
            if (cur <? v)%Z then (Err (Sentinel ErrInsufficientBalance), k)
            else persist (upd_balances (fun m =>
              if (cur - v =? 0)%Z then drop_amount a d m else put_amount a d (cur - v)%Z m) k)
        | None => (Err (Sentinel ErrInsufficientBalance), k)
        end
    | None => (Err (Sentinel (if decide (TrimSpace address = EmptyString) then ErrInvalidAddress
                      else if decide (TrimSpace denom = EmptyString) then ErrInvalidDenom
                      else ErrInvalidAmount)), k)
    end.
Proof.
  unfold Debit. cbv zeta. rewrite args_checked.
  destruct (valid_args address denom amount) as [[[a d] v]|] eqn:Hv; [|done].
  apply valid_args_some in Hv as (_ & <- & _).
  unfold bind, gets, some_or, throw_if, throw, ret, denoms_of.
  destruct (balances k !! a) as [ds|] eqn:Ha; [|done]. cbn [default from_option Datatypes.id].
  destruct (ds !! d) as [cur|]; [|done]. by destruct (cur <? v)%Z.
Qed.

Lemma Credit_wf address denom amount : preserves wf (Credit address denom amount).
Proof.
  intros k Hk. rewrite Credit_run. destruct (valid_args _ _ _) as [[[a d] v]|] eqn:Hv; [|done].
  apply valid_args_some in Hv as (_ & _ & _ & ? & ? & ? & ? & ?).
  unfold wf. rewrite balances_persist. cbn [upd_balances balances].
  apply ledger_ok_put; try done. unfold bal, denoms_of.
  destruct (balances k !! a) as [ds|] eqn:Ha; cbn; [|rewrite lookup_empty; cbn; lia].
  destruct (ds !! d) as [cur|] eqn:Hd; cbn; [|lia].
  destruct (Hk a ds Ha) as (_ & _ & _ & Hds). destruct (Hds d cur Hd) as (_ & _ & ?). lia.
Qed.

Lemma Debit_wf address denom amount : preserves wf (Debit address denom amount).
Proof.
  intros k Hk. rewrite Debit_run. destruct (valid_args _ _ _) as [[[a d] v]|] eqn:Hv; [|done].
  apply valid_args_some in Hv as (_ & _ & _ & ? & ? & ? & ? & ?).
  destruct (denoms_of (balances k) a !! d) as [cur|] eqn:Hd; [|done].
  destruct (Z.ltb_spec cur v); [done|]. unfold wf. rewrite balances_persist.
  cbn [upd_balances balances]. destruct (Z.eqb_spec (cur - v) 0); [by apply ledger_ok_drop|].
  apply ledger_ok_put; try done. lia.
Qed.
End spec.

Section theorems.
Context `{MapIteration} `{AddressCodec}.

Lemma BalanceOf_bal k address denom :
  BalanceOf k address denom =
    if decide (TrimSpace denom = EmptyString) then 0%Z
    else bal (balances k) (TrimSpace address) (TrimSpace denom).
Proof. reflexivity. Qed.

(** Crediting and debiting a wallet. Invalid arguments (blank address or
    denom, amount nil or not positive) and, for a debit, an amount above the
    balance are refused with no effect. Otherwise the balance of that address
    and denom, up to surrounding white space, changes by exactly the amount
    and no other balance changes, whether or not the save that follows
    fails; the result is that of the save. *)
Theorem Credit_Debit_spec (k : Keeper) (address denom : string) (amount : option Z) :
  match valid_args address denom amount with
  | None =>
      exists e, e ∈ [ErrInvalidAddress; ErrInvalidDenom; ErrInvalidAmount] /\
        Credit address denom amount k = (Err (Sentinel e), k) /\
        Debit address denom amount k = (Err (Sentinel e), k)
  | Some (a, d, v) =>
      fst (Credit address denom amount k) = persist_outcome k /\
      (forall a' d', bal (balances (snd (Credit address denom amount k))) a' d' =
         bal (balances k) a' d' + if decide (a = a' /\ d = d') then v else 0)%Z /\
      if (v <=? bal (balances k) a d)%Z then
        fst (Debit address denom amount k) = persist_outcome k /\
        (forall a' d', bal (balances (snd (Debit address denom amount k))) a' d' =
           bal (balances k) a' d' - if decide (a = a' /\ d = d') then v else 0)%Z
      else Debit address denom amount k = (Err (Sentinel ErrInsufficientBalance), k)
  end.
Proof.
  rewrite Credit_run, Debit_run. destruct (valid_args address denom amount) as [[[a d] v]|] eqn:Hv.
  2: { eexists. split; [|done]. repeat case_decide; rewrite !elem_of_cons; tauto. }
  apply valid_args_some in Hv as (_ & _ & _ & _ & _ & _ & _ & Hpos).
  rewrite persist_result, balances_persist. cbn [upd_balances balances].
  split; [done|]. split.
  { intros a' d'. rewrite bal_put. destruct (decide (a = a' /\ d = d')) as [[-> ->]|]; lia. }
  destruct (denoms_of (balances k) a !! d) as [cur|] eqn:Hd.
  2: { replace (bal (balances k) a d) with 0%Z by (unfold bal; by rewrite Hd).
       by rewrite (proj2 (Z.leb_gt v 0)) by lia. }
  replace (bal (balances k) a d) with cur by (unfold bal; by rewrite Hd).
  destruct (Z.ltb_spec cur v) as [Hlt|Hge].
  { by rewrite (proj2 (Z.leb_gt v cur)) by lia. }
  rewrite (proj2 (Z.leb_le v cur)) by lia. rewrite persist_result, balances_persist.
  cbn [upd_balances balances]. split; [done|]. intros a' d'.
  assert (Hcur : bal (balances k) a d = cur) by (unfold bal; by rewrite Hd).
  destruct (Z.eqb_spec (cur - v) 0); [rewrite bal_drop|rewrite bal_put];
    destruct (decide (a = a' /\ d = d')) as [[-> ->]|]; lia.
Qed.

(** A run of credits and debits. *)
Inductive movement :=
| MCredit (address denom : string) (amount : option Z)
| MDebit (address denom : string) (amount : option Z).

Definition apply_movement (mv : movement) : Op Keeper unit :=
  match mv with
  | MCredit a d v => Credit a d v
  | MDebit a d v => Debit a d v
  end.

(** The net amount of denom [d] an applied movement brings in. *)
Definition net (mv : movement) (k : Keeper) (d : string) : Z :=
  match mv, fst (apply_movement mv k) with
  | MCredit _ denom v, Ok _ => if decide (TrimSpace denom = d) then default 0%Z v else 0%Z
  | MDebit _ denom v, Ok _ => if decide (TrimSpace denom = d) then (- default 0 v)%Z else 0%Z
  | _, Err _ => 0%Z
  end.

Fixpoint run_movements (mvs : list movement) (k : Keeper) : Keeper :=
  match mvs with [] => k | mv :: rest => run_movements rest (snd (apply_movement mv k)) end.
Fixpoint net_total (mvs : list movement) (k : Keeper) (d : string) : Z :=
  match mvs with
  | [] => 0
  | mv :: rest => net mv k d + net_total rest (snd (apply_movement mv k)) d
  end.

Lemma hook_kept mv k : persistHook k = [] -> persistHook (snd (apply_movement mv k)) = [].
Proof.
  intros Hh. assert (Hp : forall k, persistHook k = [] -> persistHook (snd (persist k)) = []).
  { intros k' Hk'. unfold persist, bind, gets, modify. rewrite Hk'. cbn. by rewrite Hk'. }
  destruct mv; cbn [apply_movement]; [rewrite Credit_run|rewrite Debit_run];
    destruct (valid_args _ _ _) as [[[a d] v]|]; try done.
  - by apply Hp.
  - destruct (denoms_of _ _ !! _) as [cur|]; [|done]. destruct (cur <? v)%Z; [done|]. by apply Hp.
Qed.

Lemma movement_total mv k d :
  persistHook k = [] ->
  total (balances (snd (apply_movement mv k))) d = (total (balances k) d + net mv k d)%Z.
Proof.
  intros Hh. unfold net. destruct mv as [address denom amount|address denom amount];
    cbn [apply_movement]; [rewrite Credit_run|rewrite Debit_run];
    destruct (valid_args address denom amount) as [[[a d'] v]|] eqn:Hv; try (cbn; lia).
  - apply valid_args_some in Hv as (-> & _ & <- & _).
    rewrite persist_result, balances_persist. unfold persist_outcome. cbn [upd_balances persistHook balances].
    rewrite Hh, total_put. cbn [default from_option Datatypes.id]. case_decide; lia.
  - apply valid_args_some in Hv as (-> & _ & <- & _).
    destruct (denoms_of (balances k) a !! d') as [cur|] eqn:Hd; [|cbn; lia].
    assert (Hcur : bal (balances k) a d' = cur) by (unfold bal; by rewrite Hd).
    destruct (Z.ltb_spec cur v); [cbn; lia|].
    rewrite persist_result, balances_persist. unfold persist_outcome. cbn [upd_balances persistHook balances].
    rewrite Hh. cbn [default from_option Datatypes.id].
    destruct (Z.eqb_spec (cur - v) 0); [rewrite total_drop|rewrite total_put]; case_decide; lia.
Qed.

(** Conservation. Over any run of credits and debits every balance stays
    positive under canonical keys, and the total of each denom over all
    wallets changes by exactly the amounts credited less those debited. *)
Theorem bank_conservation (mvs : list movement) (k : Keeper) :
  wf k -> persistHook k = [] ->
  wf (run_movements mvs k) /\
  forall d, total (balances (run_movements mvs k)) d =
    (total (balances k) d + net_total mvs k d)%Z.
Proof.
  revert k. induction mvs as [|mv mvs IH]; intros k Hwf Hh; cbn [run_movements net_total].
  { split; [done|]. intros d. lia. }
  assert (Hwf' : wf (snd (apply_movement mv k))).
  { destruct mv; cbn [apply_movement]; [by apply Credit_wf|by apply Debit_wf]. }
  destruct (IH _ Hwf' (hook_kept mv k Hh)) as [Hw Ht]. split; [done|].
  intros d. rewrite Ht, movement_total by done. lia.
Qed.
End theorems.

(** ** Exporting and importing the balances *)

Section roundtrip.
Context `{MapIteration} `{AddressCodec}.

Lemma keys_perm {A} (m : gmap string A) : SortStrings (map fst (range m)) ≡ₚ (map_to_list m).*1.
Proof. rewrite SortStrings_perm. by rewrite range_perm. Qed.

Lemma elem_of_keys {A} (m : gmap string A) k : k ∈ SortStrings (map fst (range m)) <-> is_Some (m !! k).
Proof.
  rewrite keys_perm, list_elem_of_fmap. split.
  - intros ([k' v] & -> & Hin). apply elem_of_map_to_list in Hin. by exists v.
  - intros [v Hv]. exists (k, v). split; [done|]. by apply elem_of_map_to_list.
Qed.

Lemma keys_nodup {A} (m : gmap string A) : NoDup (SortStrings (map fst (range m))).
Proof. rewrite keys_perm. apply NoDup_fst_map_to_list. Qed.

Lemma load_record a d v rest next :
  trimmed a -> a <> EmptyString -> trimmed d -> d <> EmptyString -> (0 < v)%Z ->
  load_records (mk_balance a d (format_int v) :: rest) next = load_records rest (put_amount a d v next).
Proof.
  intros Ha Hane Hd Hdne Hv. cbn [load_records Address BalDenom BalAmount]. rewrite Ha.
  rewrite decide_False by done. unfold normalizeDenom. rewrite Hd, decide_False by done.
  cbn [res_bind]. unfold normalizeAmountString. rewrite format_int_trimmed.
  rewrite decide_False by apply format_int_nonempty. rewrite SetString10_format_int.
  replace (v <=? 0)%Z with false by (symmetry; apply Z.leb_gt; lia). done.
Qed.

(** Loading the records of some of the denoms of an address. *)
Lemma load_address m a ds ks rest next :
  m !! a = Some ds -> trimmed a -> a <> EmptyString -> denoms_ok ds ->
  (forall d, d ∈ ks -> is_Some (ds !! d)) ->
  exists next',
    load_records (map (fun d => mk_balance a d (format_int (default 0%Z (denoms_of m a !! d)))) ks ++ rest) next =
      load_records rest next' /\
    (forall a' , a' <> a -> next' !! a' = next !! a') /\
    (ks <> [] -> is_Some (next' !! a)) /\ (ks = [] -> next' = next) /\
    (forall d, denoms_of next' a !! d = if decide (d ∈ ks) then ds !! d else denoms_of next a !! d).
Proof.
  intros Hm Hat Hane [_ Hds]. revert next.
  induction ks as [|d ks IH]; intros next Hks; cbn [map app].
  { exists next. split_and!; done. }
  destruct (Hks d) as [v Hv]; [left|]. destruct (Hds d v Hv) as (Hdt & Hdne & Hpos).
  assert (Hval : default 0%Z (denoms_of m a !! d) = v) by (unfold denoms_of; rewrite Hm; cbn; by rewrite Hv).
  rewrite Hval, load_record by done.
  destruct (IH (put_amount a d v next)) as (next' & Heq & Hother & Hsome & Hnil & Hden);
    [intros; apply Hks; by right|].
  exists next'. split; [done|]. split_and!.
  - intros a' Hne. rewrite Hother by done. unfold put_amount. by rewrite lookup_insert_ne.
  - intros _. destruct ks; [|by apply Hsome]. rewrite Hnil by done.
    unfold put_amount. rewrite lookup_insert_eq. eauto.
  - done.
  - intros d'. rewrite Hden. unfold put_amount. rewrite denoms_of_insert, (decide_True (P := a = a)) by done.
    destruct (decide (d' ∈ ks)); [by rewrite decide_True by by right|].
    destruct (decide (d = d')) as [->|Hne].
    + rewrite lookup_insert_eq, decide_True by left. done.
    + rewrite lookup_insert_ne by done. rewrite decide_False; [done|].
      rewrite not_elem_of_cons. by split; [apply not_eq_sym|].
Qed.

Lemma load_addresses m l next :
  ledger_ok m -> NoDup l -> (forall a, a ∈ l -> is_Some (m !! a)) ->
  (forall a, a ∈ l -> next !! a = None) ->
  exists next', load_records (flat_map (records_of_address m) l) next = Ok next' /\
    forall a, next' !! a = if decide (a ∈ l) then m !! a else next !! a.
Proof.
  intros Hm. revert next. induction l as [|a l IH]; intros next Hnd Hin Hfresh; cbn [flat_map].
  { exists next. split; [done|]. intros a. by rewrite decide_False by apply not_elem_of_nil. }
  apply NoDup_cons in Hnd as [Ha Hnd]. destruct (Hin a) as [ds Hds]; [left|].
  destruct (Hm a ds Hds) as (Hat & Hane & Hok).
  assert (Hden : denoms_of m a = ds) by (unfold denoms_of; by rewrite Hds).
  destruct (load_address m a ds (SortStrings (map fst (range (denoms_of m a))))
    (flat_map (records_of_address m) l) next) as (next1 & Heq & Hother & Hsome & _ & Hd);
    [done..| |]. { intros d Hd. rewrite Hden in Hd. by apply elem_of_keys. }
  unfold records_of_address at 1. rewrite Heq.
  destruct (IH next1) as (next2 & Heq2 & Hl); [done| | |].
  { intros; apply Hin; by right. }
  { intros a' Ha'. rewrite Hother by (by intros ->). apply Hfresh. by right. }
  exists next2. split; [done|]. intros a'. rewrite Hl.
  destruct (decide (a' ∈ l)); [by rewrite decide_True by by right|].
  destruct (decide (a' = a)) as [->|Hne].
  - rewrite decide_True by left. rewrite Hds.
    destruct Hsome as [ds' Hds'].
    { rewrite Hden. intros Hnil. destruct Hok as [Hne' _]. apply Hne'.
      apply map_eq. intros d. rewrite lookup_empty. apply eq_None_not_Some. intros Hs.
      apply (proj2 (elem_of_keys ds d)) in Hs. rewrite Hnil in Hs. by apply not_elem_of_nil in Hs. }
    rewrite Hds'. f_equal. apply map_eq. intros d. specialize (Hd d).
    assert (Hn1 : denoms_of next1 a = ds') by (unfold denoms_of; by rewrite Hds').
    rewrite Hn1 in Hd. rewrite Hd. case_decide as Hk; [done|].
    unfold denoms_of at 1. rewrite Hfresh by left. cbn. rewrite lookup_empty. symmetry.
    apply eq_None_not_Some. intros Hs. apply Hk. rewrite Hden. by apply elem_of_keys.
  - rewrite Hother by done. rewrite decide_False; [done|]. by intros [?|?]%elem_of_cons.
Qed.

Lemma bank_ImportState_run (k k0 : Keeper) :
  wf k -> ImportState (ExportState k) k0 = (Ok tt, upd_balances (fun _ => balances k) k0).
Proof.
  intros Hwf.
  destruct (load_addresses (balances k) (SortStrings (map fst (range (balances k)))) ∅)
    as (next & Heq & Hl); [done|apply keys_nodup| |done|].
  { intros a Ha. by apply elem_of_keys. }
  assert (Hnext : next = balances k).
  { apply map_eq. intros a. rewrite Hl. case_decide as Hin; [done|]. rewrite lookup_empty.
    symmetry. apply eq_None_not_Some. intros Hs. apply Hin. by apply elem_of_keys. }
  unfold ImportState, loadState, ExportState, bind, lift, modify. cbn [Balances].
  rewrite Heq. by rewrite Hnext.
Qed.
(** Exporting the balances and importing the export into any keeper
    restores exactly the same balances. *)
Theorem ExportState_ImportState (k k0 : Keeper) :
  wf k -> exists k', ImportState (ExportState k) k0 = (Ok tt, k') /\ balances k' = balances k.
Proof. intros Hwf. rewrite bank_ImportState_run by done. eauto. Qed.
End roundtrip.

(** ** Concrete runs *)

#[local] Instance toy_codec : AddressCodec := {| AccAddressFromBech32 := fun a => HasPrefix a "cosmos1" |}.

Definition demo_movements : list movement := [
  MCredit "cosmos1alice" "uethusdc" (Some 100%Z);
  MCredit " cosmos1bob " "uethusdc" (Some 50%Z);
  MDebit "cosmos1alice" "uethusdc" (Some 100%Z);
  MDebit "cosmos1bob" "uethusdc" (Some 51%Z) ].

Definition demo_bank : Keeper := run_movements demo_movements NewKeeper.

Lemma bank_NewKeeper_wf : wf NewKeeper.
Proof. apply map_Forall_empty. Qed.

Example demo_bank_balances :
  Bank.BalanceOf demo_bank "cosmos1alice" "uethusdc" = 0%Z /\
  Bank.BalanceOf demo_bank "cosmos1bob" "uethusdc" = 50%Z.
Proof. vm_compute. split; reflexivity. Qed.

Example bank_conservation_witness :
  wf demo_bank /\
  forall d, total (balances demo_bank) d =
    (total (balances NewKeeper) d + net_total demo_movements NewKeeper d)%Z.
Proof. exact (bank_conservation demo_movements NewKeeper bank_NewKeeper_wf eq_refl). Defined.

Example ExportState_ImportState_witness :
  exists k', ImportState (ExportState (run_movements [MCredit "cosmos1bob" "uethusdc" (Some 50%Z)] NewKeeper))
      NewKeeper = (Ok tt, k') /\
    balances k' = balances (run_movements [MCredit "cosmos1bob" "uethusdc" (Some 50%Z)] NewKeeper).
Proof. apply ExportState_ImportState, Credit_wf, bank_NewKeeper_wf. Defined.

(** [Credit] accepts any non-blank address, and store keys join address and
    denom with a bar: two balances can share a key, and only one of them is
    found again after a reload. *)
Example balance_key_collision :
  let k0 := Bank.mk_keeper ∅ (Some empty_store) [] in
  let k := run_movements [MCredit "a|b" "c" (Some 1%Z); MCredit "a" "b|c" (Some 2%Z)] k0 in
  BalanceOf k "a|b" "c" = 1%Z /\ BalanceOf k "a" "b|c" = 2%Z /\
  match prefixStore k with
  | Some s => match NewStoreKeeper s with
              | Ok k' => BalanceOf k' "a" "b|c" = 0%Z \/ BalanceOf k' "a|b" "c" = 0%Z
              | Err _ => False
              end
  | None => False
  end.
Proof. vm_compute. split_and!; [reflexivity|reflexivity|]. first [by left | by right]. Qed.
