(* ===== verification/RouteProfile.v ===== *)
(** [x/ibcrouter/types]: route profiles, the assets they allow and their memo
    and action policies. *)

From S2P Require Import Prelude.
From S2P Require Import GoStrings.
From S2P Require Import Errors.
From stdpp Require Import strings.

Record AssetRoute := mk_asset_route { RouteAssetID : string; RouteDestinationDenom : string }.

Record RoutePolicy := mk_policy {
  AllowedMemoPrefixes : list string;
  AllowedActionTypes : list string
}.

Record RouteProfile := mk_profile {
  RouteID : string;
  ProfileChainID : string;
  ProfileChannelID : string;
  ProfileEnabled : bool;
  Assets : list AssetRoute;
  Policy : RoutePolicy
}.

#[global] Instance AssetRoute_eq_dec : EqDecision AssetRoute.
Proof. solve_decision. Defined.
#[global] Instance RoutePolicy_eq_dec : EqDecision RoutePolicy.
Proof. solve_decision. Defined.
#[global] Instance RouteProfile_eq_dec : EqDecision RouteProfile.
Proof. solve_decision. Defined.

Definition blank (s : string) : bool := bool_decide (TrimSpace s = EmptyString).

Definition asset_route_ValidateBasic (a : AssetRoute) : result unit :=
  if blank (RouteAssetID a) then Err (Wrapf ErrInvalidRouteProfile "missing asset id")
  else if blank (RouteDestinationDenom a)
  then Err (Wrapf ErrInvalidRouteProfile "missing destination denom")
  else Ok tt.

Definition asset_route_Canonical (a : AssetRoute) : AssetRoute :=
  mk_asset_route (TrimSpace (RouteAssetID a)) (TrimSpace (RouteDestinationDenom a)).

(** [RoutePolicy.Canonical]; an empty list stays as it is. *)
Definition policy_Canonical (p : RoutePolicy) : RoutePolicy :=
  mk_policy (map TrimSpace (AllowedMemoPrefixes p)) (map TrimSpace (AllowedActionTypes p)).

Definition colon : Ascii.ascii := Ascii.ascii_of_N 58.

Definition routeActionType (memo : string) : string :=
  let memo := TrimSpace memo in
  if decide (memo = EmptyString) then EmptyString
  else let '(prefix, _, _) := Cut memo colon in TrimSpace prefix.

Definition AllowsMemo (p : RoutePolicy) (memo : string) : bool :=
  match AllowedMemoPrefixes p with
  | [] => true
  | _ =>
      let trimmedMemo := TrimSpace memo in
      existsb (fun prefix =>
        if decide (prefix = EmptyString) then bool_decide (trimmedMemo = EmptyString)
        else HasPrefix trimmedMemo prefix) (AllowedMemoPrefixes (policy_Canonical p))
  end.

Definition AllowsAction (p : RoutePolicy) (memo : string) : bool :=
  match AllowedActionTypes p with
  | [] => true
  | _ =>
      let actionType := routeActionType memo in
      if decide (actionType = EmptyString) then true
      else existsb (fun allowed => bool_decide (allowed = actionType))
             (AllowedActionTypes (policy_Canonical p))
  end.

Fixpoint validate_assets (l : list AssetRoute) : result unit :=
  match l with
  | [] => Ok tt
  | a :: rest => let? _ := asset_route_ValidateBasic a in validate_assets rest
  end.

Definition profile_ValidateBasic (p : RouteProfile) : result unit :=
  if blank (RouteID p) then Err (Wrapf ErrInvalidRouteProfile "missing route id")
  else if blank (ProfileChainID p)
  then Err (Wrapf ErrInvalidRouteProfile "missing destination chain id")
  else if blank (ProfileChannelID p) then Err (Wrapf ErrInvalidRouteProfile "missing channel id")
  else match Assets p with
       | [] => Err (Wrapf ErrInvalidRouteProfile "missing allowed assets")
       | _ => validate_assets (Assets p)
       end.

Definition profile_Canonical (p : RouteProfile) : RouteProfile :=
  mk_profile (TrimSpace (RouteID p)) (TrimSpace (ProfileChainID p)) (TrimSpace (ProfileChannelID p))
    (ProfileEnabled p) (map asset_route_Canonical (Assets p)) (policy_Canonical (Policy p)).

(** [RouteProfile.AssetRoute]: the first allowed route of the asset. *)
Definition FindAssetRoute (p : RouteProfile) (assetID : string) : option AssetRoute :=
  let trimmedAssetID := TrimSpace assetID in
  find (fun a => bool_decide (RouteAssetID a = trimmedAssetID)) (Assets (profile_Canonical p)).

(** ** Canonical forms *)

Lemma map_trim_idem l : map TrimSpace (map TrimSpace l) = map TrimSpace l.
Proof. rewrite map_map. apply map_ext. intros s. apply TrimSpace_idem. Qed.

Lemma policy_Canonical_idem p : policy_Canonical (policy_Canonical p) = policy_Canonical p.
Proof. unfold policy_Canonical. simpl. by rewrite !map_trim_idem. Qed.

Lemma asset_route_Canonical_idem a :
  asset_route_Canonical (asset_route_Canonical a) = asset_route_Canonical a.
Proof. unfold asset_route_Canonical. simpl. by rewrite !TrimSpace_idem. Qed.

Lemma profile_Canonical_idem p : profile_Canonical (profile_Canonical p) = profile_Canonical p.
Proof.
  unfold profile_Canonical. simpl. rewrite !TrimSpace_idem, policy_Canonical_idem, map_map.
  f_equal. apply map_ext. intros a. apply asset_route_Canonical_idem.
Qed.

Lemma validate_assets_canonical l :
  validate_assets (map asset_route_Canonical l) = validate_assets l.
Proof.
  induction l as [|a l IH]; cbn [map validate_assets]; [done|]. rewrite IH.
  unfold asset_route_ValidateBasic, blank, asset_route_Canonical.
  cbn [RouteAssetID RouteDestinationDenom]. by rewrite !TrimSpace_idem.
Qed.

Lemma profile_ValidateBasic_canonical p :
  profile_ValidateBasic (profile_Canonical p) = profile_ValidateBasic p.
Proof.
  unfold profile_ValidateBasic, blank, profile_Canonical.
  cbn [RouteID ProfileChainID ProfileChannelID Assets]. rewrite !TrimSpace_idem.
  destruct (Assets p) as [|a l]; [done|].
  change (map asset_route_Canonical (a :: l)) with
    (asset_route_Canonical a :: map asset_route_Canonical l).
  cbv iota. change (asset_route_Canonical a :: map asset_route_Canonical l) with
    (map asset_route_Canonical (a :: l)). by rewrite validate_assets_canonical.
Qed.

(** ** What a policy allows *)

(** What a route policy allows. Without a memo list every memo passes;
    otherwise the trimmed memo must start with one of the non-blank prefixes, or
    be blank while a blank prefix is listed. Without an action list every action
    passes; otherwise the action (the trimmed text before the first colon) must
    be listed, or be blank. Both tests only depend on the canonical policy. *)
Theorem policy_spec (p : RoutePolicy) (memo : string) :
  (AllowsMemo p memo = true <->
     AllowedMemoPrefixes p = [] \/
     exists prefix, prefix ∈ AllowedMemoPrefixes p /\
       ((TrimSpace prefix <> EmptyString /\ exists rest, TrimSpace memo = TrimSpace prefix +:+ rest) \/
        (TrimSpace prefix = EmptyString /\ TrimSpace memo = EmptyString))) /\
  (AllowsAction p memo = true <->
     AllowedActionTypes p = [] \/ routeActionType memo = EmptyString \/
     routeActionType memo ∈ map TrimSpace (AllowedActionTypes p)) /\
  AllowsMemo (policy_Canonical p) memo = AllowsMemo p memo /\
  AllowsAction (policy_Canonical p) memo = AllowsAction p memo.
Proof.
  assert (Hcanon : forall {A B C} (f : A -> B) (l : list A) (x y : C),
    match map f l with [] => x | _ => y end = match l with [] => x | _ => y end).
  { intros A B C f l x y. by destruct l. }
  split_and!.
  - unfold AllowsMemo. destruct (AllowedMemoPrefixes p) as [|x l] eqn:Hl; [naive_solver|].
    rewrite <- Hl in *. assert (Hne : AllowedMemoPrefixes p <> []) by by rewrite Hl.
    clear Hl. rewrite existsb_exists. unfold policy_Canonical. cbn [AllowedMemoPrefixes]. split.
    + intros (prefix & Hin & Hb). apply list_elem_of_In, list_elem_of_fmap in Hin as (q & -> & Hin).
      right. exists q. split; [done|]. case_decide as Hq.
      * right. split; [done|]. by apply bool_decide_eq_true in Hb.
      * left. split; [done|]. by apply HasPrefix_spec.
    + intros [?|(prefix & Hin & Hp)]; [done|].
      exists (TrimSpace prefix). split.
      { apply list_elem_of_In, list_elem_of_fmap. eauto. }
      case_decide as Hq; [|by apply HasPrefix_spec; destruct Hp as [[_ ?]|[? _]]].
      apply bool_decide_eq_true. by destruct Hp as [[? _]|[_ ?]].
  - unfold AllowsAction. destruct (AllowedActionTypes p) as [|x l] eqn:Hl; [naive_solver|].
    rewrite <- Hl in *. assert (Hne : AllowedActionTypes p <> []) by by rewrite Hl.
    clear Hl. cbv zeta. case_decide as Ha; [naive_solver|].
    rewrite existsb_exists. unfold policy_Canonical. cbn [AllowedActionTypes]. split.
    + intros (a & Hin & Hb). apply bool_decide_eq_true in Hb as <-. right; right.
      by apply list_elem_of_In.
    + intros [?|[?|Hin]]; [done|done|]. exists (routeActionType memo).
      split; [by apply list_elem_of_In|by apply bool_decide_eq_true].
  - unfold AllowsMemo. rewrite policy_Canonical_idem. unfold policy_Canonical at 1.
    cbn [AllowedMemoPrefixes]. apply Hcanon.
  - unfold AllowsAction. rewrite policy_Canonical_idem. unfold policy_Canonical at 1.
    cbn [AllowedActionTypes]. apply Hcanon.
Qed.

(** A memo that starts with a colon has a blank action, which every action
    list lets through. *)
Example colon_memo_passes_action_list :
  AllowsAction (mk_policy [] ["swap"%string]) ":stake:100" = true /\
  AllowsAction (mk_policy [] ["swap"%string]) "stake:100" = false.
Proof. vm_compute. split; reflexivity. Qed.
