(* ===== verification/IBCRouter.v ===== *)
(** [x/ibcrouter/keeper]: routes, route profiles, outbound transfers with
    their life cycle, transport sessions, and their persistence. *)

From S2P Require Import Prelude.
From S2P Require Import GoStrings.
From S2P Require Import Errors.
From S2P Require Import PrefixStore.
From S2P Require Import RouteProfile.
From stdpp Require Import strings.

(** ** Data *)

Definition TransferStatusPending : string := "pending".
Definition TransferStatusCompleted : string := "completed".
Definition TransferStatusAckFailed : string := "ack_failed".
Definition TransferStatusTimedOut : string := "timed_out".
Definition TransferStatusRefunded : string := "refunded".

Definition TransportStageHandshakePending : string := "handshake_pending".
Definition TransportStageHandshakeOpen : string := "handshake_open".
Definition TransportStagePacketRelayed : string := "packet_relayed".
Definition TransportStageAckCompleted : string := "ack_completed".
Definition TransportStageAckFailed : string := "ack_failed".
Definition TransportStageTimedOut : string := "timed_out".

Record Route := mk_route {
  AssetID : string;
  DestinationChainID : string;
  ChannelID : string;
  DestinationDenom : string;
  Enabled : bool
}.

(** The amount of a stored transfer is never nil. *)
Record TransferRecord := mk_transfer {
  TransferID : string;
  TrAssetID : string;
  TrAmount : Z;
  Receiver : string;
  TrChainID : string;
  TrChannelID : string;
  TrDenom : string;
  TimeoutHeight : N;            (* uint64 *)
  Memo : string;
  Status : string;
  FailureReason : string
}.

Record TransferRecordSnapshot := mk_transfer_snap {
  SnTransferID : string;
  SnAssetID : string;
  SnAmount : string;
  SnReceiver : string;
  SnChainID : string;
  SnChannelID : string;
  SnDenom : string;
  SnTimeoutHeight : N;
  SnMemo : string;
  SnStatus : string;
  SnFailureReason : string
}.

(** [TransportRecord] and [TransportRecordSnapshot] have the same fields. *)
Record TransportRecord := mk_transport {
  TpTransferID : string;
  TpAssetID : string;
  TpChainID : string;
  TpChannelID : string;
  PacketSequence : N;           (* uint64 *)
  Stage : string;
  AckReason : string
}.

Record StateSnapshot := mk_state {
  NextSequence : N;
  Routes : list Route;
  RouteProfiles : list RouteProfile;
  Transfers : list TransferRecordSnapshot;
  Transport : list TransportRecord
}.

Inductive document :=
| MetaDoc (next : N)
| RouteDoc (r : Route)
| ProfileDoc (p : RouteProfile)
| TransferDoc (t : TransferRecordSnapshot)
| TransportDoc (t : TransportRecord)
| StateDoc (st : StateSnapshot).

Record Keeper := mk_keeper {
  routes : gmap string Route;
  routeProfiles : gmap string RouteProfile;
  transfers : gmap string TransferRecord;
  transportSessions : gmap string TransportRecord;
  nextSequence : N;             (* uint64 *)
  prefixStore : option (JSONPrefixStore document)
}.

Definition upd_routes f (k : Keeper) := mk_keeper (f (routes k)) (routeProfiles k) (transfers k)
  (transportSessions k) (nextSequence k) (prefixStore k).
Definition upd_routeProfiles f (k : Keeper) := mk_keeper (routes k) (f (routeProfiles k)) (transfers k)
  (transportSessions k) (nextSequence k) (prefixStore k).
Definition upd_transfers f (k : Keeper) := mk_keeper (routes k) (routeProfiles k) (f (transfers k))
  (transportSessions k) (nextSequence k) (prefixStore k).
Definition upd_transportSessions f (k : Keeper) := mk_keeper (routes k) (routeProfiles k) (transfers k)
  (f (transportSessions k)) (nextSequence k) (prefixStore k).
Definition upd_nextSequence f (k : Keeper) := mk_keeper (routes k) (routeProfiles k) (transfers k)
  (transportSessions k) (f (nextSequence k)) (prefixStore k).
Definition upd_prefixStore f (k : Keeper) := mk_keeper (routes k) (routeProfiles k) (transfers k)
  (transportSessions k) (nextSequence k) (f (prefixStore k)).

Definition NewKeeper : Keeper := mk_keeper ∅ ∅ ∅ ∅ 1 None.

(** ** Pure helpers *)

Definition route_ValidateBasic (r : Route) : result unit :=
  if blank (AssetID r) then Err (Wrapf ErrInvalidRoute "missing asset id")
  else if blank (DestinationChainID r)
  then Err (Wrapf ErrInvalidRoute "missing destination chain id")
  else if blank (ChannelID r) then Err (Wrapf ErrInvalidRoute "missing channel id")
  else if blank (DestinationDenom r)
  then Err (Wrapf ErrInvalidRoute "missing destination denom")
  else Ok tt.

Definition routeKey (assetID : string) : string := TrimSpace assetID.
Definition routeProfileKey (routeID : string) : string := TrimSpace routeID.

Definition canonicalRoute (r : Route) : Route :=
  mk_route (TrimSpace (AssetID r)) (TrimSpace (DestinationChainID r)) (TrimSpace (ChannelID r))
    (TrimSpace (DestinationDenom r)) (Enabled r).

Definition cloneTransferRecord (t : TransferRecord) : TransferRecord :=
  mk_transfer (TrimSpace (TransferID t)) (TrimSpace (TrAssetID t)) (TrAmount t)
    (TrimSpace (Receiver t)) (TrimSpace (TrChainID t)) (TrimSpace (TrChannelID t))
    (TrimSpace (TrDenom t)) (TimeoutHeight t) (TrimSpace (Memo t)) (Status t)
    (TrimSpace (FailureReason t)).

Definition with_status (status reason : string) (t : TransferRecord) : TransferRecord :=
  mk_transfer (TransferID t) (TrAssetID t) (TrAmount t) (Receiver t) (TrChainID t) (TrChannelID t)
    (TrDenom t) (TimeoutHeight t) (Memo t) status reason.

Definition with_stage (stage reason : string) (t : TransportRecord) : TransportRecord :=
  mk_transport (TpTransferID t) (TpAssetID t) (TpChainID t) (TpChannelID t) (PacketSequence t)
    stage reason.

Definition slash : Ascii.ascii := Ascii.ascii_of_N 47.

Definition last_part (transferID : string) : string :=
  List.last (Split (TrimSpace transferID) slash) EmptyString.

Definition transferSequence (transferID : string) : N :=
  default 0%N (ParseUint64 (last_part transferID)).

(** [fmt.Sscanf(part, "%d", &sequence)]: leading spaces, then the longest run
    of digits; what follows is ignored. *)
Fixpoint leading_digits (s : string) : string :=
  match s with
  | String c t => if is_digit c then String c (leading_digits t) else EmptyString
  | EmptyString => EmptyString
  end.
Fixpoint skip_spaces (s : string) : string :=
  match s with
  | String c t => if byte_is 32 c || byte_is 9 c || byte_is 13 c then skip_spaces t else s
  | EmptyString => EmptyString
  end.

Definition ibcTransferSequence (transferID : string) : result N :=
  match ParseUint64 (leading_digits (skip_spaces (last_part transferID))) with
  | Some n => Ok n
  | None => Err (Wrapf ErrInvalidIBCTransfer ("invalid transfer id " +:+ Quote transferID))
  end.

Record IBCPacket := mk_packet {
  PkTransferID : string;
  PkSequence : N;
  PkSourcePort : string;
  PkSourceChannel : string;
  PkDestinationPort : string;
  PkDestinationChainID : string;
  PkDestinationDenom : string;
  PkTimeoutHeight : N;
  PkMemo : string
}.

Definition transfer_snapshot (t : TransferRecord) : TransferRecordSnapshot :=
  mk_transfer_snap (TransferID t) (TrAssetID t) (format_int (TrAmount t)) (Receiver t) (TrChainID t)
    (TrChannelID t) (TrDenom t) (TimeoutHeight t) (Memo t) (Status t) (FailureReason t).

Definition GetRoute (k : Keeper) (assetID : string) : option Route := routes k !! routeKey assetID.
Definition GetRouteProfile (k : Keeper) (routeID : string) : option RouteProfile :=
  routeProfiles k !! routeProfileKey routeID.
Definition TransportSession (k : Keeper) (transferID : string) : option TransportRecord :=
  transportSessions k !! TrimSpace transferID.

Definition ensureTransportSession (k : Keeper) (t : TransferRecord) : TransportRecord :=
  match transportSessions k !! TransferID t with
  | Some transport => transport
  | None => mk_transport (TransferID t) (TrAssetID t) (TrChainID t) (TrChannelID t)
              (transferSequence (TransferID t)) TransportStageHandshakePending EmptyString
  end.

Definition pendingTransfer (k : Keeper) (transferID : string) : result TransferRecord :=
  match transfers k !! TrimSpace transferID with
  | None => Err (Sentinel ErrTransferNotFound)
  | Some t => if decide (Status t = TransferStatusPending) then Ok t
              else Err (Sentinel ErrTransferNotPending)
  end.

(** ** Operations *)

Section ops.
Context `{MapIteration}.

Definition persist_store (k : Keeper) (s : JSONPrefixStore document) : JSONPrefixStore document :=
  let s := ClearPrefix s "meta" in
  let s := ClearPrefix s "route" in
  let s := ClearPrefix s "route_profile" in
  let s := ClearPrefix s "transfer" in
  let s := ClearPrefix s "transport" in
  let s := Save s "meta" "runtime" (MetaDoc (nextSequence k)) in
  let s := save_entries "route" (fun _ r => RouteDoc (canonicalRoute r)) (range (routes k)) s in
  let s := save_entries "route_profile" (fun _ p => ProfileDoc (profile_Canonical p))
             (range (routeProfiles k)) s in
  let s := save_entries "transfer" (fun _ t => TransferDoc (transfer_snapshot t))
             (range (transfers k)) s in
  let s := save_entries "transport" (fun _ t => TransportDoc t) (range (transportSessions k)) s in
  Commit s.

Definition persist : Op Keeper unit :=
  modify (fun k => upd_prefixStore (option_map (persist_store k)) k).
Definition Flush : Op Keeper unit := persist.

Definition SetRoute (r : Route) : Op Keeper unit :=
  lift (route_ValidateBasic r) ;;;
  let stored := canonicalRoute r in
  modify (upd_routes <[routeKey (AssetID stored) := stored]>) ;;;
  persist.

Definition SetRouteProfile (p : RouteProfile) : Op Keeper unit :=
  lift (profile_ValidateBasic p) ;;;
  let stored := profile_Canonical p in
  modify (upd_routeProfiles <[routeProfileKey (RouteID stored) := stored]>) ;;;
  persist.

Definition initiateTransfer (assetID : string) (amount : option Z) (receiver : string)
    (timeoutHeight : N) (memo destinationChainID channelID destinationDenom : string)
    : Op Keeper TransferRecord :=
  throw_if (match amount with None => true | Some v => (v <=? 0)%Z end)
    (Wrapf ErrInvalidIBCTransfer "amount must be positive") ;;;
  throw_if (blank receiver) (Wrapf ErrInvalidIBCTransfer "missing receiver") ;;;
  throw_if (N.eqb timeoutHeight 0) (Wrapf ErrInvalidIBCTransfer "missing timeout height") ;;;
  let! sequence := gets nextSequence in
  modify (upd_nextSequence u64_incr) ;;;
  let record := mk_transfer ("ibc/" +:+ TrimSpace assetID +:+ "/" +:+ format_uint sequence)
    (TrimSpace assetID) (default 0%Z amount) (TrimSpace receiver) (TrimSpace destinationChainID)
    (TrimSpace channelID) (TrimSpace destinationDenom) timeoutHeight (TrimSpace memo)
    TransferStatusPending EmptyString in
  modify (upd_transfers <[TransferID record := record]>) ;;;
  modify (upd_transportSessions <[TransferID record :=
    mk_transport (TransferID record) (TrAssetID record) (TrChainID record) (TrChannelID record)
      sequence TransportStageHandshakePending EmptyString]>) ;;;
  persist ;;;
  ret (cloneTransferRecord record).

Definition InitiateTransfer (assetID : string) (amount : option Z) (receiver : string)
    (timeoutHeight : N) (memo : string) : Op Keeper TransferRecord :=
  let! found := gets (fun k => GetRoute k assetID) in
  let! route := some_or found ErrRouteNotFound in
  throw_if (negb (Enabled route)) ErrRouteDisabled ;;;
  initiateTransfer assetID amount receiver timeoutHeight memo (DestinationChainID route)
    (ChannelID route) (DestinationDenom route).

Definition InitiateTransferWithProfile (routeID assetID : string) (amount : option Z)
    (receiver : string) (timeoutHeight : N) (memo : string) : Op Keeper TransferRecord :=
  let! found := gets (fun k => GetRouteProfile k routeID) in
  let! profile := some_or found ErrRouteProfileNotFound in
  throw_if (negb (ProfileEnabled profile)) ErrRouteProfileDisabled ;;;
  let! assetRoute := some_or (FindAssetRoute profile assetID) ErrRouteProfileAssetNotAllowed in
  throw_if (negb (AllowsAction (Policy profile) memo)) ErrRouteProfilePolicyViolation ;;;
  throw_if (negb (AllowsMemo (Policy profile) memo)) ErrRouteProfilePolicyViolation ;;;
  initiateTransfer assetID amount receiver timeoutHeight memo (ProfileChainID profile)
    (ProfileChannelID profile) (RouteDestinationDenom assetRoute).

(** The common tail of the acknowledgement handlers: store the record, then
    move its transport session to the given stage. *)
Definition settle (t : TransferRecord) (stage ackReason : string) : Op Keeper TransferRecord :=
  modify (upd_transfers <[TransferID t := t]>) ;;;
  let! transport := gets (fun k => ensureTransportSession k t) in
  modify (upd_transportSessions <[TransferID t := with_stage stage ackReason transport]>) ;;;
  persist ;;;
  ret (cloneTransferRecord t).

Definition AcknowledgeSuccess (transferID : string) : Op Keeper TransferRecord :=
  let! record := query (fun k => pendingTransfer k transferID) in
  settle (with_status TransferStatusCompleted EmptyString record)
    TransportStageAckCompleted EmptyString.

Definition AcknowledgeFailure (transferID reason : string) : Op Keeper TransferRecord :=
  let! record := query (fun k => pendingTransfer k transferID) in
  settle (with_status TransferStatusAckFailed (TrimSpace reason) record)
    TransportStageAckFailed (TrimSpace reason).

Definition TimeoutTransfer (transferID : string) : Op Keeper TransferRecord :=
  let! record := query (fun k => pendingTransfer k transferID) in
  settle (with_status TransferStatusTimedOut (FailureReason record) record)
    TransportStageTimedOut (TrimSpace (FailureReason record)).

Definition MarkRefunded (transferID : string) : Op Keeper TransferRecord :=
  let! found := gets (fun k => transfers k !! TrimSpace transferID) in
  let! record := some_or found ErrTransferNotFound in
  throw_if (negb (bool_decide (Status record = TransferStatusAckFailed)) &&
            negb (bool_decide (Status record = TransferStatusTimedOut)))
    ErrTransferNotRecoverable ;;;
  let record := with_status TransferStatusRefunded (FailureReason record) record in
  modify (upd_transfers <[TransferID record := record]>) ;;;
  persist ;;;
  ret (cloneTransferRecord record).

Definition ReceiveIBCAck (transferID : string) (success : bool) (reason : string)
    : Op Keeper TransferRecord :=
  if success then AcknowledgeSuccess transferID else AcknowledgeFailure transferID reason.

Definition HandleIBCTimeout (transferID : string) : Op Keeper TransferRecord :=
  TimeoutTransfer transferID.

Definition move_transport (transferID stage : string) : Op Keeper TransportRecord :=
  let! found := gets (fun k => transfers k !! TrimSpace transferID) in
  let! record := some_or found ErrTransferNotFound in
  let! transport := gets (fun k => ensureTransportSession k record) in
  let transport := with_stage stage EmptyString transport in
  modify (upd_transportSessions <[TransferID record := transport]>) ;;;
  persist ;;;
  ret transport.

Definition OpenTransportSession (transferID : string) : Op Keeper TransportRecord :=
  move_transport transferID TransportStageHandshakeOpen.
Definition MarkPacketRelayed (transferID : string) : Op Keeper TransportRecord :=
  move_transport transferID TransportStagePacketRelayed.

Definition SendIBCPacket (assetID : string) (amount : option Z) (receiver : string)
    (timeoutHeight : N) (memo : string) : Op Keeper IBCPacket :=
  let! record := InitiateTransfer assetID amount receiver timeoutHeight memo in
  let! sequence := lift (ibcTransferSequence (TransferID record)) in
  ret (mk_packet (TransferID record) sequence "transfer" (TrChannelID record) "transfer"
         (TrChainID record) (TrDenom record) (TimeoutHeight record) (Memo record)).

(** ** Export, import, load *)

Definition ExportRoutes (k : Keeper) : list Route :=
  map (fun e => canonicalRoute e.2) (range (routes k)).
Definition ExportRouteProfiles (k : Keeper) : list RouteProfile :=
  map (fun e => profile_Canonical e.2) (range (routeProfiles k)).
Definition ExportTransfers (k : Keeper) : list TransferRecord :=
  map (fun e => cloneTransferRecord e.2) (range (transfers k)).
Definition ExportTransportSessions (k : Keeper) : list TransportRecord :=
  map snd (range (transportSessions k)).

Definition ExportState (k : Keeper) : StateSnapshot :=
  mk_state (nextSequence k) (ExportRoutes k) (ExportRouteProfiles k)
    (map (fun e => transfer_snapshot e.2) (range (transfers k))) (ExportTransportSessions k).

Definition import_transfer (t : TransferRecordSnapshot) : Op Keeper unit :=
  let! amount := lift (match SetString10 (SnAmount t) with
                       | Some v => Ok v
                       | None => Err (Errorf ("invalid ibc transfer amount " +:+ Quote (SnAmount t)))
                       end) in
  modify (upd_transfers <[TrimSpace (SnTransferID t) :=
    mk_transfer (TrimSpace (SnTransferID t)) (TrimSpace (SnAssetID t)) amount
      (TrimSpace (SnReceiver t)) (TrimSpace (SnChainID t)) (TrimSpace (SnChannelID t))
      (TrimSpace (SnDenom t)) (SnTimeoutHeight t) (TrimSpace (SnMemo t)) (SnStatus t)
      (TrimSpace (SnFailureReason t))]>).

Definition import_transport (t : TransportRecord) : Op Keeper unit :=
  modify (upd_transportSessions <[TrimSpace (TpTransferID t) :=
    mk_transport (TrimSpace (TpTransferID t)) (TrimSpace (TpAssetID t)) (TrimSpace (TpChainID t))
      (TrimSpace (TpChannelID t)) (PacketSequence t) (Stage t) (TrimSpace (AckReason t))]>).

Definition ImportState (st : StateSnapshot) : Op Keeper unit :=
  modify (upd_routes (fun _ => ∅)) ;;;
  for_each (fun r =>
    lift (route_ValidateBasic r) ;;;
    let stored := canonicalRoute r in
    modify (upd_routes <[routeKey (AssetID stored) := stored]>)) (Routes st) ;;;
  modify (upd_routeProfiles (fun _ => ∅)) ;;;
  for_each (fun p =>
    lift (profile_ValidateBasic p) ;;;
    let stored := profile_Canonical p in
    modify (upd_routeProfiles <[routeProfileKey (RouteID stored) := stored]>)) (RouteProfiles st) ;;;
  modify (upd_transfers (fun _ => ∅)) ;;;
  for_each import_transfer (Transfers st) ;;;
  modify (upd_transportSessions (fun _ => ∅)) ;;;
  for_each import_transport (Transport st) ;;;
  modify (upd_nextSequence (fun _ => if N.eqb (NextSequence st) 0 then 1%N else NextSequence st)) ;;;
  persist.

Definition mismatch {A} : Op Keeper A := throw decode_error.

Definition loadFromPrefixStore (s : JSONPrefixStore document) : Op Keeper unit :=
  modify (fun k => mk_keeper ∅ ∅ ∅ ∅ 1 (prefixStore k)) ;;;
  let! meta := lift (Load s "meta" "runtime") in
  (match meta with
   | None => ret tt
   | Some (MetaDoc n) => if N.eqb n 0 then ret tt else modify (upd_nextSequence (fun _ => n))
   | Some _ => mismatch
   end) ;;;
  LoadAll s "route" (fun _ d =>
    match d with
    | RouteDoc r => let r := canonicalRoute r in modify (upd_routes <[routeKey (AssetID r) := r]>)
    | _ => mismatch
    end) ;;;
  LoadAll s "route_profile" (fun _ d =>
    match d with
    | ProfileDoc p =>
        let p := profile_Canonical p in
        modify (upd_routeProfiles <[routeProfileKey (RouteID p) := p]>)
    | _ => mismatch
    end) ;;;
  LoadAll s "transfer" (fun _ d =>
    match d with TransferDoc t => import_transfer t | _ => mismatch end) ;;;
  LoadAll s "transport" (fun _ d =>
    match d with TransportDoc t => import_transport t | _ => mismatch end).

Definition NewStoreKeeper (s : JSONPrefixStore document) : result Keeper :=
  let keeper := mk_keeper ∅ ∅ ∅ ∅ 1 (Some s) in
  let run (op : Op Keeper unit) :=
    match op keeper with (Ok _, k) => Ok k | (Err e, _) => Err e end in
  if HasAny s "meta" || HasAny s "route" || HasAny s "route_profile" || HasAny s "transfer" ||
     HasAny s "transport"
  then run (loadFromPrefixStore s)
  else if HasState s then
    match state_Load s with
    | Err e => Err e
    | Ok (Some (StateDoc st)) => run (ImportState st)
    | Ok (Some _) => Err decode_error
    | Ok None => Ok keeper
    end
  else Ok keeper.
End ops.

(** ** The life cycle of a transfer *)

Inductive status_step : string -> string -> Prop :=
| step_complete : status_step TransferStatusPending TransferStatusCompleted
| step_ack_failed : status_step TransferStatusPending TransferStatusAckFailed
| step_timed_out : status_step TransferStatusPending TransferStatusTimedOut
| step_refund_failed : status_step TransferStatusAckFailed TransferStatusRefunded
| step_refund_timed_out : status_step TransferStatusTimedOut TransferStatusRefunded.

(** The status and the failure reason are all that may change. *)
Definition same_payload (t t' : TransferRecord) : Prop :=
  with_status (Status t') (FailureReason t') t = t'.

Definition evolves (t t' : TransferRecord) : Prop :=
  same_payload t t' /\ rtc status_step (Status t) (Status t').

#[global] Instance evolves_preorder : PreOrder evolves.
Proof.
  split.
  - intros t. split; [by destruct t|reflexivity].
  - intros t1 t2 t3 [H12 S12] [H23 S23]. split; [|by etrans].
    unfold same_payload in *. rewrite <- H23, <- H12. by destruct t1.
Qed.

Definition transfer_id (assetID : string) (sequence : N) : string :=
  "ibc/" +:+ TrimSpace assetID +:+ "/" +:+ format_uint sequence.

Lemma transfer_id_trimmed assetID n : trimmed (transfer_id assetID n).
Proof.
  unfold transfer_id.
  change ("ibc/" +:+ TrimSpace assetID +:+ "/" +:+ format_uint n) with
    (String (Ascii.ascii_of_N 105) ("bc/" +:+ (TrimSpace assetID +:+ ("/" +:+ format_uint n)))).
  rewrite <- !string_app_assoc. apply graphic_ends_trimmed; [done| |apply format_uint_nonempty].
  apply all_digits_graphic, format_uint_digits.
Qed.

Lemma transfer_id_last assetID n : last_part (transfer_id assetID n) = format_uint n.
Proof.
  unfold last_part. rewrite transfer_id_trimmed. unfold transfer_id.
  replace ("ibc/" +:+ TrimSpace assetID +:+ "/" +:+ format_uint n) with
    (("ibc/" +:+ TrimSpace assetID) +:+ String slash (format_uint n))
    by (rewrite string_app_assoc; done).
  apply Split_last. apply all_digits_lacks; [apply format_uint_digits|done].
Qed.

(** Every transfer is stored under its identifier, which carries a sequence
    number already used. *)
Definition transfer_ok (next : N) (key : string) (t : TransferRecord) : Prop :=
  TransferID t = key /\ trimmed key /\ exists n, (n < next)%N /\ last_part key = format_uint n.

Definition wf (k : Keeper) : Prop := map_Forall (transfer_ok (nextSequence k)) (transfers k).

(** The operations on the router, as transitions. *)
Inductive action :=
| RSetRoute (r : Route)
| RSetRouteProfile (p : RouteProfile)
| RInitiate (assetID : string) (amount : option Z) (receiver : string) (timeoutHeight : N) (memo : string)
| RInitiateProfile (routeID assetID : string) (amount : option Z) (receiver : string)
    (timeoutHeight : N) (memo : string)
| RAck (transferID : string) (success : bool) (reason : string)
| RTimeout (transferID : string)
| RRefund (transferID : string)
| ROpen (transferID : string)
| RRelay (transferID : string).

Section lifecycle.
Context `{MapIteration}.

Definition exec (a : action) (k : Keeper) : Keeper :=
  match a with
  | RSetRoute r => snd (SetRoute r k)
  | RSetRouteProfile p => snd (SetRouteProfile p k)
  | RInitiate id amount receiver h memo => snd (InitiateTransfer id amount receiver h memo k)
  | RInitiateProfile route id amount receiver h memo =>
      snd (InitiateTransferWithProfile route id amount receiver h memo k)
  | RAck id success reason => snd (ReceiveIBCAck id success reason k)
  | RTimeout id => snd (HandleIBCTimeout id k)
  | RRefund id => snd (MarkRefunded id k)
  | ROpen id => snd (OpenTransportSession id k)
  | RRelay id => snd (MarkPacketRelayed id k)
  end.

Fixpoint exec_all (acts : list action) (k : Keeper) : Keeper :=
  match acts with [] => k | a :: rest => exec_all rest (exec a k) end.

Lemma router_persist_fields k :
  fst (persist k) = Ok tt /\ transfers (snd (persist k)) = transfers k /\
  nextSequence (snd (persist k)) = nextSequence k /\
  transportSessions (snd (persist k)) = transportSessions k /\
  routes (snd (persist k)) = routes k /\ routeProfiles (snd (persist k)) = routeProfiles k.
Proof. done. Qed.

(** What initiating a transfer does. *)
Definition args_ok (amount : option Z) (receiver : string) (timeoutHeight : N) : bool :=
  match amount with Some v => (0 <? v)%Z | None => false end && negb (blank receiver) &&
  negb (N.eqb timeoutHeight 0).

Definition new_transfer (k : Keeper) (assetID : string) (amount : option Z) (receiver : string)
    (timeoutHeight : N) (memo chain channel denom : string) : TransferRecord :=
  mk_transfer (transfer_id assetID (nextSequence k)) (TrimSpace assetID) (default 0%Z amount)
    (TrimSpace receiver) (TrimSpace chain) (TrimSpace channel) (TrimSpace denom) timeoutHeight
    (TrimSpace memo) TransferStatusPending EmptyString.

Lemma cloneTransferRecord_new k assetID amount receiver h memo chain channel denom :
  cloneTransferRecord (new_transfer k assetID amount receiver h memo chain channel denom) =
  new_transfer k assetID amount receiver h memo chain channel denom.
Proof.
  unfold cloneTransferRecord, new_transfer. cbn [TransferID TrAssetID TrAmount Receiver TrChainID
    TrChannelID TrDenom TimeoutHeight Memo Status FailureReason].
  by rewrite !TrimSpace_idem, transfer_id_trimmed.
Qed.

Lemma initiateTransfer_run k assetID amount receiver h memo chain channel denom :
  let t := new_transfer k assetID amount receiver h memo chain channel denom in
  (args_ok amount receiver h = true /\
   exists k', initiateTransfer assetID amount receiver h memo chain channel denom k = (Ok t, k') /\
     transfers k' = <[TransferID t := t]> (transfers k) /\
     nextSequence k' = u64_incr (nextSequence k) /\
     transportSessions k' !! TransferID t =
       Some (mk_transport (TransferID t) (TrAssetID t) (TrChainID t) (TrChannelID t) (nextSequence k)
               TransportStageHandshakePending EmptyString)) \/
  (args_ok amount receiver h = false /\
   exists e, initiateTransfer assetID amount receiver h memo chain channel denom k = (Err e, k)).
Proof.
  intros t. unfold initiateTransfer, args_ok.
  destruct amount as [v|]; [|right; split; [done|by eexists]].
  unfold bind at 1. destruct (Z.leb_spec v 0) as [Hv|Hv].
  { right. rewrite (proj2 (Z.ltb_ge 0 v)) by lia. split; [done|by eexists]. }
  rewrite (proj2 (Z.ltb_lt 0 v)) by lia. cbn [andb throw_if ret].
  destruct (blank receiver); cbn [negb andb].
  { right. split; [done|]. by eexists. }
  destruct (N.eqb_spec h 0) as [->|Hh]; cbn [negb].
  { right. split; [done|]. by eexists. }
  left. split; [done|].
  assert (Hclone : cloneTransferRecord t = t) by apply cloneTransferRecord_new.
  eexists. split; [rewrite <- Hclone; reflexivity|]. split_and!; [reflexivity..|].
  apply lookup_insert_eq.
Qed.

Lemma settle_transfers t stage reason k :
  let k' := snd (settle t stage reason k) in
  transfers k' = <[TransferID t := t]> (transfers k) /\ nextSequence k' = nextSequence k.
Proof. done. Qed.

Lemma pendingTransfer_ok k id t :
  pendingTransfer k id = Ok t -> transfers k !! TrimSpace id = Some t /\ Status t = TransferStatusPending.
Proof.
  unfold pendingTransfer. destruct (transfers k !! TrimSpace id) as [t'|]; [|done].
  case_decide; [|done]. by intros [= ->].
Qed.
End lifecycle.

(** ** Transfers only move forward *)

Section forward.
Context `{MapIteration}.

Record step_ok (k k' : Keeper) : Prop := {
  step_wf : wf k';
  step_next : (nextSequence k <= nextSequence k' <= nextSequence k + 1)%N;
  step_evolves : forall id t, transfers k !! id = Some t ->
    exists t', transfers k' !! id = Some t' /\ evolves t t'
}.

Lemma step_same k k' :
  wf k -> transfers k' = transfers k -> nextSequence k' = nextSequence k -> step_ok k k'.
Proof.
  intros Hwf Ht Hn. split.
  - unfold wf. by rewrite Ht, Hn.
  - rewrite Hn. lia.
  - intros id t Hid. exists t. rewrite Ht. split; [done|reflexivity].
Qed.

Lemma same_payload_id t t' : same_payload t t' -> TransferID t' = TransferID t.
Proof. by intros <-. Qed.

Lemma step_replace k k' id t t' :
  wf k -> transfers k !! id = Some t -> evolves t t' ->
  transfers k' = <[TransferID t' := t']> (transfers k) -> nextSequence k' = nextSequence k ->
  step_ok k k'.
Proof.
  intros Hwf Hid Hev Ht Hn. destruct (Hwf _ _ Hid) as (Hkey & Htr & Hseq).
  assert (Hid' : TransferID t' = id) by (rewrite (same_payload_id t t'); [done|apply Hev]).
  rewrite Hid' in Ht. split.
  - unfold wf. rewrite Ht, Hn. apply map_Forall_insert_2; [|done]. by split_and!.
  - rewrite Hn. lia.
  - intros id2 t2 Hid2. rewrite Ht. destruct (decide (id = id2)) as [->|Hne].
    + rewrite lookup_insert_eq. simplify_eq. by exists t'.
    + rewrite lookup_insert_ne by done. exists t2. split; [done|reflexivity].
Qed.

Lemma new_transfer_fresh k assetID :
  wf k -> transfers k !! transfer_id assetID (nextSequence k) = None.
Proof.
  intros Hwf. apply eq_None_not_Some. intros [t Ht].
  destruct (Hwf _ _ Ht) as (_ & _ & n & Hn & Hlast). rewrite transfer_id_last in Hlast.
  apply (inj format_uint) in Hlast. lia.
Qed.

Lemma step_insert k k' assetID t :
  wf k -> (nextSequence k + 1 < two64)%N -> TransferID t = transfer_id assetID (nextSequence k) ->
  transfers k' = <[TransferID t := t]> (transfers k) -> nextSequence k' = u64_incr (nextSequence k) ->
  step_ok k k'.
Proof.
  intros Hwf Hlt Hid Ht Hn. pose proof (new_transfer_fresh k assetID Hwf) as Hfresh.
  unfold u64_incr, u64_add, u64 in Hn. rewrite N.mod_small in Hn by lia. rewrite <- Hid in Hfresh. split.
  - unfold wf. rewrite Ht, Hn. apply map_Forall_insert_2.
    + split_and!; [done|rewrite Hid; apply transfer_id_trimmed|].
      exists (nextSequence k). split; [lia|]. rewrite Hid. apply transfer_id_last.
    + eapply map_Forall_impl; [exact Hwf|]. intros key t0 (Hk & Htr & n & Hln & Hlast).
      split_and!; [done..|]. exists n. split; [lia|done].
  - lia.
  - intros id2 t2 Hid2. rewrite Ht, lookup_insert_ne by congruence.
    exists t2. split; [done|reflexivity].
Qed.

Lemma step_initiate k assetID amount receiver h memo chain channel denom :
  wf k -> (nextSequence k + 1 < two64)%N ->
  step_ok k (snd (initiateTransfer assetID amount receiver h memo chain channel denom k)).
Proof.
  intros Hwf Hlt.
  destruct (initiateTransfer_run k assetID amount receiver h memo chain channel denom)
    as [(_ & k' & Heq & Ht & Hn & _)|(_ & e & Heq)]; rewrite Heq.
  - eapply (step_insert k k' assetID); [done|done| |exact Ht|exact Hn]. reflexivity.
  - by apply step_same.
Qed.

Lemma evolves_status t status reason :
  status_step (Status t) status -> evolves t (with_status status reason t).
Proof. intros Hs. split; [by destruct t|]. by apply rtc_once. Qed.

Lemma step_settle k id t status reason stage ackReason :
  wf k -> pendingTransfer k id = Ok t -> status_step TransferStatusPending status ->
  step_ok k (snd (settle (with_status status reason t) stage ackReason k)).
Proof.
  intros Hwf [Ht Hs]%pendingTransfer_ok Hstep.
  eapply (step_replace k _ _ t (with_status status reason t)); [done|exact Ht| |done|done].
  apply evolves_status. by rewrite Hs.
Qed.

Lemma step_ack (handler : TransferRecord -> Op Keeper TransferRecord) k id :
  wf k ->
  (forall t, pendingTransfer k id = Ok t -> step_ok k (snd (handler t k))) ->
  step_ok k (snd (bind (query (fun k => pendingTransfer k id)) handler k)).
Proof.
  intros Hwf Hh. unfold bind, query. destruct (pendingTransfer k id) as [t|]; [by apply Hh|].
  by apply step_same.
Qed.

Lemma step_action a k : wf k -> (nextSequence k + 1 < two64)%N -> step_ok k (exec a k).
Proof.
  intros Hwf Hlt. destruct a; cbn [exec].
  - unfold SetRoute, bind, lift. destruct (route_ValidateBasic r); by apply step_same.
  - unfold SetRouteProfile, bind, lift. destruct (profile_ValidateBasic p); by apply step_same.
  - unfold InitiateTransfer, bind at 1, gets, some_or. destruct (GetRoute k assetID) as [r|];
      [|by apply step_same]. unfold bind at 1, ret at 1. unfold bind, throw_if.
    destruct (negb (Enabled r)); [by apply step_same|by apply step_initiate].
  - unfold InitiateTransferWithProfile, bind, gets, some_or, throw_if, throw, ret.
    destruct (GetRouteProfile k routeID) as [p|]; [|by apply step_same].
    destruct (negb (ProfileEnabled p)); [by apply step_same|].
    destruct (FindAssetRoute p assetID) as [r|]; [|by apply step_same].
    destruct (negb (AllowsAction _ _)); [by apply step_same|].
    destruct (negb (AllowsMemo _ _)); [by apply step_same|by apply step_initiate].
  - destruct success; cbn [ReceiveIBCAck]; apply step_ack; try done; intros t Ht;
      eapply step_settle; try done; constructor.
  - apply step_ack; [done|]. intros t Ht. eapply step_settle; try done; constructor.
  - unfold MarkRefunded, bind, gets, some_or, throw_if, throw, ret.
    destruct (transfers k !! TrimSpace transferID) as [t|] eqn:Ht; [|by apply step_same].
    destruct (negb (bool_decide (Status t = TransferStatusAckFailed)) &&
              negb (bool_decide (Status t = TransferStatusTimedOut))) eqn:Hs; [by apply step_same|].
    eapply step_replace; [done|exact Ht| |reflexivity|reflexivity].
    apply evolves_status. apply andb_false_iff in Hs as [Hs|Hs];
      apply negb_false_iff, bool_decide_eq_true in Hs; rewrite Hs; constructor.
  - unfold OpenTransportSession, move_transport, bind, gets, some_or, ret, throw.
    destruct (transfers k !! TrimSpace transferID); by apply step_same.
  - unfold MarkPacketRelayed, move_transport, bind, gets, some_or, ret, throw.
    destruct (transfers k !! TrimSpace transferID); by apply step_same.
Qed.

Lemma exec_all_forward (acts : list action) (k : Keeper) :
  wf k -> (nextSequence k + N.of_nat (length acts) < two64)%N ->
  wf (exec_all acts k) /\ (nextSequence (exec_all acts k) <= nextSequence k + N.of_nat (length acts))%N /\
  forall id t, transfers k !! id = Some t -> exists t', transfers (exec_all acts k) !! id = Some t' /\ evolves t t'.
Proof.
  revert k. induction acts as [|a acts IH]; intros k Hwf Hlt; cbn [exec_all length] in *.
  { split_and!; [done|lia|]. intros id t Hid. exists t. split; [done|reflexivity]. }
  destruct (step_action a k Hwf) as [Hwf' Hn Hev]; [lia|].
  destruct (IH (exec a k) Hwf') as (Hwf2 & Hn2 & Hev2); [lia|]. split_and!; [done|lia|]. intros id t Hid.
  destruct (Hev id t Hid) as (t1 & Ht1 & He1). destruct (Hev2 id t1 Ht1) as (t2 & Ht2 & He2).
  exists t2. split; [done|]. by etrans.
Qed.

(** C38: transfers only move forward. Over any sequence of operations (fewer
    than there are sequence numbers left) no transfer disappears or is
    overwritten, its asset, amount, receiver, route and memo never change, and
    its status follows pending -> completed, or pending -> ack_failed or
    timed_out -> refunded. In particular a completed or refunded transfer
    stays so. *)
Theorem router_lifecycle (acts : list action) (k : Keeper) (id : string) (t : TransferRecord) :
  wf k -> (nextSequence k + N.of_nat (length acts) < two64)%N ->
  transfers k !! id = Some t ->
  exists t', transfers (exec_all acts k) !! id = Some t' /\ evolves t t' /\
    (Status t = TransferStatusCompleted \/ Status t = TransferStatusRefunded ->
       Status t' = Status t).
Proof.
  intros Hwf Hlt Hid.
  destruct (exec_all_forward acts k Hwf Hlt) as (_ & _ & Hfwd). destruct (Hfwd id t Hid) as (t' & Ht' & Hev).
  exists t'. split; [done|]. split; [done|].
  destruct Hev as [_ Hrtc]. intros Hfinal. inversion Hrtc as [|? y ? Hstep]; [done|].
  exfalso. inversion Hstep as [Hs|Hs|Hs|Hs|Hs]; rewrite <- Hs in Hfinal;
    destruct Hfinal as [Hf|Hf]; discriminate Hf.
Qed.
End forward.

(** ** Functional behaviour of the handlers *)

Section handlers.
Context `{MapIteration}.

(** The record and the transport stage a handler leaves for a transfer. *)
Definition settled_as (k' : Keeper) (t : TransferRecord) (stage ackReason : string) : Prop :=
  transfers k' !! TransferID t = Some t /\
  exists tp, transportSessions k' !! TransferID t = Some tp /\ Stage tp = stage /\
    AckReason tp = ackReason.

Lemma settle_spec t stage reason k :
  exists k', settle t stage reason k = (Ok (cloneTransferRecord t), k') /\
    settled_as k' t stage reason /\
    forall id, id <> TransferID t -> transfers k' !! id = transfers k !! id /\
      transportSessions k' !! id = transportSessions k !! id.
Proof.
  eexists. split; [reflexivity|]. split.
  - split; [apply lookup_insert_eq|]. eexists. split; [apply lookup_insert_eq|done].
  - intros id Hne. split; by apply lookup_insert_ne.
Qed.

Lemma pending_run {A} (f : TransferRecord -> Op Keeper A) id k :
  bind (query (fun k => pendingTransfer k id)) f k =
    match transfers k !! TrimSpace id with
    | None => (Err (Sentinel ErrTransferNotFound), k)
    | Some t => if decide (Status t = TransferStatusPending) then f t k
                else (Err (Sentinel ErrTransferNotPending), k)
    end.
Proof.
  unfold bind, query, pendingTransfer. destruct (transfers k !! TrimSpace id) as [t|]; [|done].
  by destruct (decide (Status t = TransferStatusPending)).
Qed.

(** Acknowledgements and timeouts, branch by branch. An unknown transfer
    and a transfer that is not pending are refused with no effect. A pending
    one becomes completed, failed (with the trimmed reason) or timed out, its
    transport session reaches the matching stage, and no other transfer or
    session changes. *)
Theorem ack_timeout_spec (k : Keeper) (id : string) (success : bool) (reason : string) :
  match transfers k !! TrimSpace id with
  | None =>
      ReceiveIBCAck id success reason k = (Err (Sentinel ErrTransferNotFound), k) /\
      HandleIBCTimeout id k = (Err (Sentinel ErrTransferNotFound), k)
  | Some t =>
      if decide (Status t = TransferStatusPending) then
        let acked := if success then with_status TransferStatusCompleted EmptyString t
                     else with_status TransferStatusAckFailed (TrimSpace reason) t in
        let timed := with_status TransferStatusTimedOut (FailureReason t) t in
        (exists k', ReceiveIBCAck id success reason k = (Ok (cloneTransferRecord acked), k') /\
           settled_as k' acked
             (if success then TransportStageAckCompleted else TransportStageAckFailed)
             (if success then EmptyString else TrimSpace reason) /\
           forall id', id' <> TransferID t -> transfers k' !! id' = transfers k !! id' /\
             transportSessions k' !! id' = transportSessions k !! id') /\
        (exists k', HandleIBCTimeout id k = (Ok (cloneTransferRecord timed), k') /\
           settled_as k' timed TransportStageTimedOut (TrimSpace (FailureReason t)) /\
           forall id', id' <> TransferID t -> transfers k' !! id' = transfers k !! id' /\
             transportSessions k' !! id' = transportSessions k !! id')
      else
        ReceiveIBCAck id success reason k = (Err (Sentinel ErrTransferNotPending), k) /\
        HandleIBCTimeout id k = (Err (Sentinel ErrTransferNotPending), k)
  end.
Proof.
  unfold ReceiveIBCAck, AcknowledgeSuccess, AcknowledgeFailure, HandleIBCTimeout, TimeoutTransfer.
  destruct success; rewrite !pending_run;
    (destruct (transfers k !! TrimSpace id) as [t|]; [|by split]);
    (destruct (decide (Status t = TransferStatusPending)); [|by split]);
    cbv zeta; split;
    match goal with |- exists k', settle ?t ?s ?r k = _ /\ _ => exact (settle_spec t s r k) end.
Qed.

(** Starting a transfer along a route profile. It is accepted exactly
    when the profile exists and is enabled, lists the asset, its policy allows
    the memo and its action, and amount, receiver and timeout are given; it
    then records one pending transfer, under an identifier no transfer had,
    with the profile's chain and channel and the asset's denom on that route,
    and consumes one sequence number. Otherwise nothing changes. *)
Theorem InitiateTransferWithProfile_spec (k : Keeper) (routeID assetID : string) (amount : option Z)
    (receiver : string) (h : N) (memo : string) :
  wf k ->
  match InitiateTransferWithProfile routeID assetID amount receiver h memo k with
  | (Ok t, k') =>
      exists p r, GetRouteProfile k routeID = Some p /\ ProfileEnabled p = true /\
        FindAssetRoute p assetID = Some r /\ AllowsAction (Policy p) memo = true /\
        AllowsMemo (Policy p) memo = true /\ args_ok amount receiver h = true /\
        t = new_transfer k assetID amount receiver h memo (ProfileChainID p) (ProfileChannelID p)
              (RouteDestinationDenom r) /\
        transfers k !! TransferID t = None /\
        transfers k' = <[TransferID t := t]> (transfers k) /\
        nextSequence k' = u64_incr (nextSequence k)
  | (Err e, k') =>
      k' = k /\
      forall p r, GetRouteProfile k routeID = Some p -> ProfileEnabled p = true ->
        FindAssetRoute p assetID = Some r -> AllowsAction (Policy p) memo = true ->
        AllowsMemo (Policy p) memo = true -> args_ok amount receiver h = false
  end.
Proof.
  intros Hwf. unfold InitiateTransferWithProfile, bind, gets, some_or, throw_if, throw, ret.
  destruct (GetRouteProfile k routeID) as [p|]; [|by split].
  destruct (ProfileEnabled p) eqn:Hen; cbn [negb]; [|split; [done|congruence]].
  destruct (FindAssetRoute p assetID) as [r|] eqn:Hr; [|split; [done|congruence]].
  destruct (AllowsAction (Policy p) memo) eqn:Ha; cbn [negb]; [|split; [done|congruence]].
  destruct (AllowsMemo (Policy p) memo) eqn:Hm; cbn [negb]; [|split; [done|congruence]].
  destruct (initiateTransfer_run k assetID amount receiver h memo (ProfileChainID p)
    (ProfileChannelID p) (RouteDestinationDenom r)) as [(Hok & k' & Heq & Ht & Hn & _)|(Hok & e & Heq)];
    rewrite Heq.
  - exists p, r. split_and!; try done. by apply new_transfer_fresh.
  - split; [done|]. done.
Qed.
End handlers.

(** ** Concrete runs *)

Definition demo_profile : RouteProfile :=
  mk_profile " osmo " "osmosis-1" "channel-0" true [mk_asset_route "eth.usdc" "ibc/uethusdc"]
    (mk_policy ["swap:"%string] ["swap"%string]).

Definition demo_setup : list action := [
  RSetRouteProfile demo_profile;
  RInitiateProfile "osmo" "eth.usdc" (Some 25%Z) "osmo1r" 120 "swap:uosmo";
  RInitiateProfile "osmo" "eth.usdc" (Some 30%Z) "osmo1r" 120 "swap:uosmo" ].

Definition demo_keeper : Keeper := exec_all demo_setup NewKeeper.

Definition demo_rest : list action := [
  RTimeout "ibc/eth.usdc/1"; RAck "ibc/eth.usdc/1" true EmptyString; RRefund "ibc/eth.usdc/1";
  RAck "ibc/eth.usdc/2" true EmptyString; RRefund "ibc/eth.usdc/2" ].

Example demo_statuses :
  option_map Status (transfers (exec_all demo_rest demo_keeper) !! "ibc/eth.usdc/1"%string) =
    Some TransferStatusRefunded /\
  option_map Status (transfers (exec_all demo_rest demo_keeper) !! "ibc/eth.usdc/2"%string) =
    Some TransferStatusCompleted.
Proof. vm_compute. split; reflexivity. Qed.

Lemma router_NewKeeper_wf : wf NewKeeper.
Proof. apply map_Forall_empty. Qed.

Lemma router_demo_keeper_wf : wf demo_keeper.
Proof.
  unfold demo_keeper, demo_setup. cbn [exec_all].
  do 3 (apply step_action; [|vm_compute; reflexivity]). apply router_NewKeeper_wf.
Qed.

Definition demo_transfer : TransferRecord :=
  mk_transfer "ibc/eth.usdc/2" "eth.usdc" 30 "osmo1r" "osmosis-1" "channel-0" "ibc/uethusdc" 120
    "swap:uosmo" TransferStatusPending EmptyString.

Example router_lifecycle_witness :
  exists t', transfers (exec_all demo_rest demo_keeper) !! "ibc/eth.usdc/2"%string = Some t' /\
    evolves demo_transfer t' /\
    (Status demo_transfer = TransferStatusCompleted \/ Status demo_transfer = TransferStatusRefunded ->
       Status t' = Status demo_transfer).
Proof.
  apply (router_lifecycle demo_rest demo_keeper "ibc/eth.usdc/2" demo_transfer).
  - exact router_demo_keeper_wf.
  - vm_compute. reflexivity.
  - vm_compute. reflexivity.
Defined.

Example InitiateTransferWithProfile_spec_witness :
  exists t k', InitiateTransferWithProfile "osmo" "eth.usdc" (Some 5%Z) "osmo1r" 130 "swap:x" demo_keeper
      = (Ok t, k') /\ transfers demo_keeper !! TransferID t = None.
Proof.
  pose proof (InitiateTransferWithProfile_spec demo_keeper "osmo" "eth.usdc" (Some 5%Z) "osmo1r" 130
                "swap:x" router_demo_keeper_wf) as Hspec.
  assert (Hrun : is_ok (fst (InitiateTransferWithProfile "osmo" "eth.usdc" (Some 5%Z) "osmo1r" 130
    "swap:x" demo_keeper)) = true) by (vm_compute; reflexivity).
  destruct (InitiateTransferWithProfile "osmo" "eth.usdc" (Some 5%Z) "osmo1r" 130 "swap:x" demo_keeper)
    as [[t|e] k']; [|discriminate Hrun].
  exists t, k'. split; [reflexivity|]. destruct Hspec as (p & r & _ & _ & _ & _ & _ & _ & _ & Hfresh & _).
  exact Hfresh.
Defined.

(** The transport stage of a completed transfer can still be moved back. *)
Example demo_completed_transport_regresses :
  option_map Stage (TransportSession (exec_all (demo_rest ++ [ROpen "ibc/eth.usdc/2"]) demo_keeper)
    "ibc/eth.usdc/2") = Some TransportStageHandshakeOpen.
Proof. vm_compute. reflexivity. Qed.
