(* ===== verification/Governance.v ===== *)
(** [x/governance/keeper]: authorised proposals that switch assets, set rate
    limits and update route policies, each applied at most once. *)

From S2P Require Import Prelude.
From S2P Require Import GoStrings.
From S2P Require Import Errors.
From S2P Require Import PrefixStore.
From S2P Require Import Registry.
From S2P Require Import Limits.
From S2P Require Import RouteProfile.
From S2P Require Import IBCRouter.
From stdpp Require Import strings.

Definition ProposalKindAssetStatus : string := "asset_status".
Definition ProposalKindLimitUpdate : string := "limit_update".
Definition ProposalKindRoutePolicy : string := "route_policy".

Record AssetStatusProposal := mk_asset_status {
  AsProposalID : string; AsAssetID : string; AsEnabled : bool
}.
Record LimitUpdateProposal := mk_limit_update { LuProposalID : string; LuLimit : RateLimit }.
Record RoutePolicyUpdateProposal := mk_route_policy {
  RpProposalID : string; RpRouteID : string; RpPolicy : RoutePolicy
}.

Record ProposalRecord := mk_proposal {
  ProposalID : string;
  ProposalKind : string;
  TargetID : string;
  Summary : string;
  AppliedBy : string
}.

Record StateSnapshot := mk_state { AppliedProposals : list ProposalRecord }.

Inductive document := ProposalDoc (p : ProposalRecord) | StateDoc (st : StateSnapshot).

(** The registry, limits and router keepers are shared with the application;
    the record holds the one copy of their state. *)
Record Keeper := mk_keeper {
  registryKeeper : Registry.Keeper;
  limitsKeeper : Limits.Keeper;
  ibcRouterKeeper : IBCRouter.Keeper;
  authorities : gset string;
  applied : list ProposalRecord;
  prefixStore : option (JSONPrefixStore document)
}.

Definition upd_registryKeeper f (k : Keeper) := mk_keeper (f (registryKeeper k)) (limitsKeeper k)
  (ibcRouterKeeper k) (authorities k) (applied k) (prefixStore k).
Definition upd_limitsKeeper f (k : Keeper) := mk_keeper (registryKeeper k) (f (limitsKeeper k))
  (ibcRouterKeeper k) (authorities k) (applied k) (prefixStore k).
Definition upd_ibcRouterKeeper f (k : Keeper) := mk_keeper (registryKeeper k) (limitsKeeper k)
  (f (ibcRouterKeeper k)) (authorities k) (applied k) (prefixStore k).
Definition upd_applied f (k : Keeper) := mk_keeper (registryKeeper k) (limitsKeeper k)
  (ibcRouterKeeper k) (authorities k) (f (applied k)) (prefixStore k).
Definition upd_prefixStore f (k : Keeper) := mk_keeper (registryKeeper k) (limitsKeeper k)
  (ibcRouterKeeper k) (authorities k) (applied k) (f (prefixStore k)).

(** ** Validation and authorisation *)

Definition asset_status_ValidateBasic (p : AssetStatusProposal) : result unit :=
  if blank (AsProposalID p) then Err (Wrapf ErrInvalidProposal "missing proposal id")
  else if blank (AsAssetID p) then Err (Wrapf ErrInvalidProposal "missing asset id")
  else Ok tt.

Definition limit_update_ValidateBasic (p : LimitUpdateProposal) : result unit :=
  if blank (LuProposalID p) then Err (Wrapf ErrInvalidProposal "missing proposal id")
  else limit_ValidateBasic (LuLimit p).

Definition route_policy_ValidateBasic (p : RoutePolicyUpdateProposal) : result unit :=
  if blank (RpProposalID p) then Err (Wrapf ErrInvalidProposal "missing proposal id")
  else if blank (RpRouteID p) then Err (Wrapf ErrInvalidProposal "missing route id")
  else Ok tt.

Definition canonicalAuthority (authority : string) : string := TrimSpace authority.

Definition canonicalAuthoritySet (l : list string) : gset string :=
  foldl (fun set a =>
    let a := canonicalAuthority a in
    if decide (a = EmptyString) then set else {[ a ]} ∪ set) ∅ l.

Definition authorize (k : Keeper) (authority : string) : result string :=
  let authority := canonicalAuthority authority in
  if decide (authority = EmptyString) then Err (Sentinel ErrUnauthorizedProposal)
  else if decide (authority ∈ authorities k) then Ok authority
  else Err (Sentinel ErrUnauthorizedProposal).

Definition assertProposalNotApplied (k : Keeper) (proposalID : string) : result unit :=
  let id := TrimSpace proposalID in
  if existsb (fun r => bool_decide (ProposalID r = id)) (applied k)
  then Err (Wrapf ErrDuplicateProposal id) else Ok tt.

Definition proposalPrefix : string := "proposal".

Definition canonical_record (p : ProposalRecord) : ProposalRecord :=
  mk_proposal (TrimSpace (ProposalID p)) (ProposalKind p) (TrimSpace (TargetID p))
    (TrimSpace (Summary p)) (canonicalAuthority (AppliedBy p)).

Definition persist_store (k : Keeper) (s : JSONPrefixStore document) : JSONPrefixStore document :=
  let s := ClearPrefix s proposalPrefix in
  let s := foldl (fun s p => Save s proposalPrefix (TrimSpace (ProposalID p)) (ProposalDoc p))
             s (applied k) in
  Commit s.

Definition persist : Op Keeper unit :=
  modify (fun k => upd_prefixStore (option_map (persist_store k)) k).
Definition Flush : Op Keeper unit := persist.

Definition append_record (p : ProposalRecord) : Op Keeper unit :=
  modify (upd_applied (fun l => l ++ [p])) ;;; persist.

(** ** Operations *)

Definition bool_text (b : bool) : string := if b then "true" else "false".

Definition asset_status_record (p : AssetStatusProposal) (appliedBy : string) : ProposalRecord :=
  mk_proposal (TrimSpace (AsProposalID p)) ProposalKindAssetStatus
    (TrimSpace (AsAssetID p))
    ("set asset " +:+ TrimSpace (AsAssetID p) +:+ " enabled=" +:+ bool_text (AsEnabled p)) appliedBy.

Definition limit_update_record (p : LimitUpdateProposal) (appliedBy : string) : ProposalRecord :=
  mk_proposal (TrimSpace (LuProposalID p)) ProposalKindLimitUpdate
    (TrimSpace (Limits.AssetID (LuLimit p)))
    ("set limit for " +:+ TrimSpace (Limits.AssetID (LuLimit p)) +:+ " to " +:+
      format_int (default 0%Z (MaxAmount (LuLimit p)))) appliedBy.

Definition route_policy_record (p : RoutePolicyUpdateProposal) (appliedBy : string) : ProposalRecord :=
  mk_proposal (TrimSpace (RpProposalID p)) ProposalKindRoutePolicy
    (TrimSpace (RpRouteID p)) ("updated route policy for " +:+ TrimSpace (RpRouteID p)) appliedBy.

Section ops.
Context `{MapIteration}.

Definition on_registry {A} (m : Op Registry.Keeper A) : Op Keeper A :=
  zoom registryKeeper (fun r => upd_registryKeeper (fun _ => r)) m.
Definition on_limits {A} (m : Op Limits.Keeper A) : Op Keeper A :=
  zoom limitsKeeper (fun r => upd_limitsKeeper (fun _ => r)) m.
Definition on_router {A} (m : Op IBCRouter.Keeper A) : Op Keeper A :=
  zoom ibcRouterKeeper (fun r => upd_ibcRouterKeeper (fun _ => r)) m.

Definition ApplyAssetStatusProposal (authority : string) (p : AssetStatusProposal) : Op Keeper unit :=
  lift (asset_status_ValidateBasic p) ;;;
  query (fun k => assertProposalNotApplied k (AsProposalID p)) ;;;
  let! appliedBy := query (fun k => authorize k authority) in
  (if AsEnabled p then on_registry (EnableAsset (AsAssetID p))
   else on_registry (DisableAsset (AsAssetID p))) ;;;
  append_record (asset_status_record p appliedBy).

Definition ApplyLimitUpdateProposal (authority : string) (p : LimitUpdateProposal) : Op Keeper unit :=
  lift (limit_update_ValidateBasic p) ;;;
  query (fun k => assertProposalNotApplied k (LuProposalID p)) ;;;
  let! appliedBy := query (fun k => authorize k authority) in
  on_limits (SetLimit (LuLimit p)) ;;;
  append_record (limit_update_record p appliedBy).

Definition with_policy (policy : RoutePolicy) (p : RouteProfile) : RouteProfile :=
  mk_profile (RouteID p) (ProfileChainID p) (ProfileChannelID p) (ProfileEnabled p) (Assets p) policy.

Definition ApplyRoutePolicyUpdateProposal (authority : string) (p : RoutePolicyUpdateProposal)
    : Op Keeper unit :=
  lift (route_policy_ValidateBasic p) ;;;
  query (fun k => assertProposalNotApplied k (RpProposalID p)) ;;;
  let! appliedBy := query (fun k => authorize k authority) in
  let! found := gets (fun k => GetRouteProfile (ibcRouterKeeper k) (RpRouteID p)) in
  let! profile := some_or found ErrRouteProfileNotFound in
  on_router (SetRouteProfile (with_policy (policy_Canonical (RpPolicy p)) profile)) ;;;
  append_record (route_policy_record p appliedBy).

Definition ExportState (k : Keeper) : StateSnapshot := mk_state (applied k).

Definition ImportState (st : StateSnapshot) : Op Keeper unit :=
  modify (upd_applied (fun _ => map canonical_record (AppliedProposals st))) ;;; persist.

Definition loadFromPrefixStore (s : JSONPrefixStore document) : Op Keeper unit :=
  modify (upd_applied (fun _ => [])) ;;;
  LoadAll s proposalPrefix (fun _ d =>
    match d with
    | ProposalDoc p => modify (upd_applied (fun l => l ++ [canonical_record p]))
    | StateDoc _ => throw decode_error
    end).

Definition NewKeeper (registry : Registry.Keeper) (limits : Limits.Keeper) (router : IBCRouter.Keeper)
    (authorities : list string) : Keeper :=
  mk_keeper registry limits router (canonicalAuthoritySet authorities) [] None.

Definition NewStoreKeeper (s : JSONPrefixStore document) (registry : Registry.Keeper)
    (limits : Limits.Keeper) (router : IBCRouter.Keeper) (authorities : list string) : result Keeper :=
  let keeper := upd_prefixStore (fun _ => Some s) (NewKeeper registry limits router authorities) in
  let run (op : Op Keeper unit) :=
    match op keeper with (Ok _, k) => Ok k | (Err e, _) => Err e end in
  if HasAny s proposalPrefix then run (loadFromPrefixStore s)
  else if HasState s then
    match state_Load s with
    | Err e => Err e
    | Ok (Some (StateDoc st)) => run (ImportState st)
    | Ok (Some (ProposalDoc _)) => run (ImportState (mk_state []))
    | Ok None => Ok keeper
    end
  else Ok keeper.
End ops.

(** ** Proposals of any kind *)

Inductive proposal :=
| PAssetStatus (p : AssetStatusProposal)
| PLimitUpdate (p : LimitUpdateProposal)
| PRoutePolicy (p : RoutePolicyUpdateProposal).

Definition proposal_id (p : proposal) : string :=
  TrimSpace (match p with
             | PAssetStatus p => AsProposalID p
             | PLimitUpdate p => LuProposalID p
             | PRoutePolicy p => RpProposalID p
             end).

(** The identifiers of the applied proposals are pairwise distinct. *)
Definition wf (k : Keeper) : Prop := NoDup (map ProposalID (applied k)).

Section theorems.
Context `{MapIteration}.

Definition Apply (authority : string) (p : proposal) : Op Keeper unit :=
  match p with
  | PAssetStatus p => ApplyAssetStatusProposal authority p
  | PLimitUpdate p => ApplyLimitUpdateProposal authority p
  | PRoutePolicy p => ApplyRoutePolicyUpdateProposal authority p
  end.

(** The effect of a proposal on the keepers it governs. *)
Definition effect (p : proposal) (k : Keeper) : Keeper :=
  match p with
  | PAssetStatus p =>
      upd_registryKeeper (fun r => snd (setAssetEnabled (AsAssetID p) (AsEnabled p) r)) k
  | PLimitUpdate p => upd_limitsKeeper (fun l => snd (SetLimit (LuLimit p) l)) k
  | PRoutePolicy p =>
      match GetRouteProfile (ibcRouterKeeper k) (RpRouteID p) with
      | Some profile => upd_ibcRouterKeeper (fun r =>
          snd (SetRouteProfile (with_policy (policy_Canonical (RpPolicy p)) profile) r)) k
      | None => k
      end
  end.

Lemma not_applied k id :
  assertProposalNotApplied k id =
    if decide (TrimSpace id ∈ map ProposalID (applied k))
    then Err (Wrapf ErrDuplicateProposal (TrimSpace id)) else Ok tt.
Proof.
  unfold assertProposalNotApplied. cbv zeta. case_decide as Hin.
  - destruct (existsb _ _) eqn:He; [done|]. exfalso. apply not_true_iff_false in He. apply He.
    apply existsb_exists. apply list_elem_of_fmap in Hin as (r & Hr & Hin).
    exists r. split; [by apply list_elem_of_In|]. by apply bool_decide_eq_true.
  - destruct (existsb _ _) eqn:He; [|done]. exfalso. apply Hin.
    apply existsb_exists in He as (r & Hr & Hb). apply bool_decide_eq_true in Hb.
    apply list_elem_of_fmap. exists r. split; [done|]. by apply list_elem_of_In.
Qed.

(** The two ways a proposal can end. *)
Definition outcome (authority : string) (p : proposal) (k : Keeper) : Prop :=
  (exists e, Apply authority p k = (Err e, k)) \/
  (exists r, Apply authority p k =
       (Ok tt, snd (persist (upd_applied (fun l => l ++ [r]) (effect p k)))) /\
     ProposalID r = proposal_id p /\ AppliedBy r = TrimSpace authority /\
     TrimSpace authority ∈ authorities k /\ proposal_id p ∉ map ProposalID (applied k)).

Lemma registry_enabled_err id b r e r' : setAssetEnabled id b r = (Err e, r') -> r' = r.
Proof.
  unfold setAssetEnabled, bind, gets, some_or, throw, ret, modify.
  destruct (assets r !! assetKey id); [|by intros [= _ ->]].
  unfold Registry.persist, modify. discriminate.
Qed.

Lemma set_limit_err l r e r' : SetLimit l r = (Err e, r') -> r' = r.
Proof.
  unfold SetLimit, bind, lift, modify. destruct (limit_ValidateBasic l); [|by intros [= _ ->]].
  unfold Limits.persist, modify. discriminate.
Qed.

Lemma set_profile_err p r e r' : SetRouteProfile p r = (Err e, r') -> r' = r.
Proof.
  unfold SetRouteProfile, bind, lift, modify. destruct (profile_ValidateBasic p); [|by intros [= _ ->]].
  unfold IBCRouter.persist, modify. discriminate.
Qed.

(** The common head of the three handlers. *)
Lemma apply_head {A} (v : result unit) id authority (rest : string -> Op Keeper A) k :
  (lift v ;;; query (fun k => assertProposalNotApplied k id) ;;;
   let! appliedBy := query (fun k => authorize k authority) in rest appliedBy) k =
  match v with
  | Err e => (Err e, k)
  | Ok _ =>
      if decide (TrimSpace id ∈ map ProposalID (applied k))
      then (Err (Wrapf ErrDuplicateProposal (TrimSpace id)), k)
      else match authorize k authority with
           | Err e => (Err e, k)
           | Ok a => rest a k
           end
  end.
Proof.
  unfold bind, lift, query. destruct v; [|done]. rewrite not_applied.
  case_decide; [done|]. by destruct (authorize k authority).
Qed.

Lemma authorize_ok k authority a :
  authorize k authority = Ok a -> a = TrimSpace authority /\ TrimSpace authority ∈ authorities k.
Proof.
  unfold authorize, canonicalAuthority. case_decide; [done|].
  case_decide; [|done]. by intros [= <-].
Qed.

Lemma zoom_run {S T A} (get : S -> T) (set : T -> S -> S) (m : Op T A) s :
  zoom get set m s = (fst (m (get s)), set (snd (m (get s))) s).
Proof. unfold zoom. by destruct (m (get s)). Qed.

(** The tail shared by the handlers: an update of one governed keeper, which
    leaves that keeper alone when it fails, and the record. *)
Definition applies (m : Op Keeper unit) (r : ProposalRecord) (k k' : Keeper) : Prop :=
  (exists e, m k = (Err e, k)) \/
  m k = (Ok tt, snd (persist (upd_applied (fun l => l ++ [r]) k'))).

Lemma applies_tail (m : Op Keeper unit) r k :
  (forall e k1, m k = (Err e, k1) -> k1 = k) -> applies (m ;;; append_record r) r k (snd (m k)).
Proof.
  intros Herr. unfold applies, bind. destruct (m k) as [[[]|e] k1] eqn:Hm.
  - right. reflexivity.
  - left. exists e. by rewrite (Herr e k1 eq_refl).
Qed.

Lemma head_outcome (v : result unit) id authority rest mk k k' :
  (forall a, applies (rest a) (mk a) k k') ->
  (forall a, ProposalID (mk a) = TrimSpace id /\ AppliedBy (mk a) = a) ->
  let op := lift v ;;; query (fun k => assertProposalNotApplied k id) ;;;
    let! appliedBy := query (fun k => authorize k authority) in rest appliedBy in
  (exists e, op k = (Err e, k)) \/
  (exists r, op k = (Ok tt, snd (persist (upd_applied (fun l => l ++ [r]) k'))) /\
     ProposalID r = TrimSpace id /\ AppliedBy r = TrimSpace authority /\
     TrimSpace authority ∈ authorities k /\ TrimSpace id ∉ map ProposalID (applied k)).
Proof.
  intros Hrest Hmk op. unfold op. rewrite apply_head.
  destruct v as [[]|e]; [|by left; eauto].
  case_decide as Hin; [by left; eauto|].
  destruct (authorize k authority) as [a|e] eqn:Ha; [|by left; eauto].
  apply authorize_ok in Ha as [-> Ha]. destruct (Hmk (TrimSpace authority)) as [Hid Hby].
  destruct (Hrest (TrimSpace authority)) as [He|Hok]; [by left|].
  right. exists (mk (TrimSpace authority)). by rewrite Hok.
Qed.

Lemma zoom_err {T} (get : Keeper -> T) (set : T -> Keeper -> Keeper) (m : Op T unit) k :
  (forall e t, m (get k) = (Err e, t) -> t = get k) -> set (get k) k = k ->
  forall e k1, zoom get set m k = (Err e, k1) -> k1 = k.
Proof.
  intros Hm Hset e k1. unfold zoom. destruct (m (get k)) as [[a|e'] t] eqn:He; [discriminate|].
  intros [= _ <-]. by rewrite (Hm e' t eq_refl).
Qed.

Lemma apply_outcome authority p k : outcome authority p k.
Proof.
  unfold outcome. destruct p as [p|p|p]; cbn [Apply];
    [apply (head_outcome _ _ _ _ (asset_status_record p))
    |apply (head_outcome _ _ _ _ (limit_update_record p))
    |apply (head_outcome _ _ _ _ (route_policy_record p))]; try (by intros a); intros a.
  - replace (effect (PAssetStatus p) k) with (snd ((if AsEnabled p
       then on_registry (EnableAsset (AsAssetID p))
       else on_registry (DisableAsset (AsAssetID p))) k))
      by (cbn [effect]; unfold on_registry; by destruct (AsEnabled p); rewrite zoom_run).
    apply applies_tail. destruct (AsEnabled p); apply zoom_err; try (by destruct k);
      intros e t; apply registry_enabled_err.
  - replace (effect (PLimitUpdate p) k) with (snd (on_limits (SetLimit (LuLimit p)) k))
      by (unfold on_limits; by rewrite zoom_run).
    apply applies_tail, zoom_err; [|by destruct k]. intros e t. apply set_limit_err.
  - cbn [effect].
    match goal with |- applies (bind (gets ?f) ?g) ?r _ ?k2 => change (applies (g (f k)) r k k2) end.
    destruct (GetRouteProfile (ibcRouterKeeper k) (RpRouteID p)) as [profile|]; [|by left; eauto].
    set (profile' := with_policy _ _).
    replace (upd_ibcRouterKeeper _ k) with (snd (on_router (SetRouteProfile profile') k))
      by (unfold on_router; by rewrite zoom_run).
    refine (applies_tail (on_router (SetRouteProfile profile')) _ k _).
    apply zoom_err; [|by destruct k]. intros e t. apply set_profile_err.
Qed.

Lemma effect_applied p k : applied (effect p k) = applied k /\ authorities (effect p k) = authorities k.
Proof. destruct p; cbn [effect]; [done|done|]. by case_match. Qed.

Lemma governance_persist_fields k :
  registryKeeper (snd (persist k)) = registryKeeper k /\
  limitsKeeper (snd (persist k)) = limitsKeeper k /\
  ibcRouterKeeper (snd (persist k)) = ibcRouterKeeper k /\
  authorities (snd (persist k)) = authorities k /\
  applied (snd (persist k)) = applied k.
Proof. done. Qed.

(** A proposal of any kind either fails and leaves the four keepers
    exactly as they were, or was submitted by an authority under an
    identifier never applied before; then the keeper it governs changes by
    exactly the corresponding registry, limits or router operation, and one
    record naming the proposal and its authority is appended. *)
Theorem Apply_spec (authority : string) (p : proposal) (k : Keeper) :
  match Apply authority p k with
  | (Err _, k') => k' = k
  | (Ok _, k') =>
      TrimSpace authority ∈ authorities k /\
      (proposal_id p ∉ map ProposalID (applied k)) /\
      registryKeeper k' = registryKeeper (effect p k) /\
      limitsKeeper k' = limitsKeeper (effect p k) /\
      ibcRouterKeeper k' = ibcRouterKeeper (effect p k) /\
      authorities k' = authorities k /\
      exists r, applied k' = applied k ++ [r] /\
        ProposalID r = proposal_id p /\ AppliedBy r = TrimSpace authority
  end.
Proof.
  destruct (apply_outcome authority p k) as [[e ->]|(r & -> & Hid & Hby & Ha & Hfresh)]; [done|].
  destruct (effect_applied p k) as [Happ Hauth]. split_and!; [done..| |].
  - cbn [snd]. exact Hauth.
  - exists r. cbn [snd persist modify upd_prefixStore upd_applied applied]. by rewrite Happ.
Qed.

(** Whether the fields of a proposal pass [ValidateBasic]. *)
Definition well_formed (p : proposal) : bool :=
  match p with
  | PAssetStatus p => is_ok (asset_status_ValidateBasic p)
  | PLimitUpdate p => is_ok (limit_update_ValidateBasic p)
  | PRoutePolicy p => is_ok (route_policy_ValidateBasic p)
  end.

(** A well-formed proposal under an identifier already applied is refused
    with [ErrDuplicateProposal], and one from outside the authorities with
    [ErrUnauthorizedProposal]; in both cases nothing changes. *)
Theorem Apply_guards (authority : string) (p : proposal) (k : Keeper) :
  well_formed p = true ->
  (proposal_id p ∈ map ProposalID (applied k) ->
     Apply authority p k = (Err (Wrapf ErrDuplicateProposal (proposal_id p)), k)) /\
  (proposal_id p ∉ map ProposalID (applied k) -> TrimSpace authority ∉ authorities k ->
     Apply authority p k = (Err (Sentinel ErrUnauthorizedProposal), k)).
Proof.
  intros Hv.
  assert (Hauth : TrimSpace authority ∉ authorities k ->
    authorize k authority = Err (Sentinel ErrUnauthorizedProposal)).
  { intros Hn. unfold authorize, canonicalAuthority. case_decide; [done|]. by rewrite decide_False. }
  destruct p as [p|p|p]; cbn [well_formed Apply proposal_id] in *.
  - unfold ApplyAssetStatusProposal. rewrite apply_head.
    destruct (asset_status_ValidateBasic p); [|done].
    split; intros Hin; [by rewrite decide_True|]. intros Hn. by rewrite decide_False, Hauth.
  - unfold ApplyLimitUpdateProposal. rewrite apply_head.
    destruct (limit_update_ValidateBasic p); [|done].
    split; intros Hin; [by rewrite decide_True|]. intros Hn. by rewrite decide_False, Hauth.
  - unfold ApplyRoutePolicyUpdateProposal. rewrite apply_head.
    destruct (route_policy_ValidateBasic p); [|done].
    split; intros Hin; [by rewrite decide_True|]. intros Hn. by rewrite decide_False, Hauth.
Qed.

(** A sequence of submissions; the identifiers of those accepted. *)
Fixpoint run (txs : list (string * proposal)) (k : Keeper) : list string * Keeper :=
  match txs with
  | [] => ([], k)
  | (authority, p) :: rest =>
      let '(r, k1) := Apply authority p k in
      let '(ids, k2) := run rest k1 in
      (match r with Ok _ => proposal_id p :: ids | Err _ => ids end, k2)
  end.

(** Over any sequence of submissions no identifier is accepted twice, the
    accepted identifiers are exactly the ones recorded, in order, and the
    set of authorities never changes. *)
Theorem proposals_applied_once (txs : list (string * proposal)) (k : Keeper) :
  wf k ->
  let '(ids, k') := run txs k in
  map ProposalID (applied k') = map ProposalID (applied k) ++ ids /\
  wf k' /\ authorities k' = authorities k.
Proof.
  revert k. induction txs as [|[a p] txs IH]; intros k Hwf; cbn [run].
  { by rewrite app_nil_r. }
  destruct (apply_outcome a p k) as [[e ->]|(r & -> & Hid & _ & _ & Hfresh)].
  { specialize (IH k Hwf). by destruct (run txs k). }
  destruct (effect_applied p k) as [Happ Hauth].
  set (k1 := snd (persist _)).
  assert (Hk1 : map ProposalID (applied k1) = map ProposalID (applied k) ++ [proposal_id p]).
  { unfold k1. cbn [snd persist modify upd_prefixStore upd_applied applied].
    by rewrite Happ, map_app, <- Hid. }
  assert (Hwf1 : wf k1).
  { unfold wf. rewrite Hk1. apply NoDup_app. split_and!; [done| |apply NoDup_singleton].
    intros x Hx ->%list_elem_of_singleton. done. }
  specialize (IH k1 Hwf1). destruct (run txs k1) as [ids k'].
  destruct IH as (Hids & Hwf' & Hauth'). split_and!; [|done|by rewrite Hauth', <- Hauth].
  by rewrite Hids, Hk1, <- app_assoc.
Qed.

Definition proposal_doc (_ : string) (p : ProposalRecord) : document := ProposalDoc p.
Definition keyed_records (l : list ProposalRecord) : list (string * ProposalRecord) :=
  map (fun p => (TrimSpace (ProposalID p), p)) l.

Lemma persist_store_entries k s :
  persist_store k s =
    Commit (save_entries proposalPrefix proposal_doc (keyed_records (applied k))
              (ClearPrefix s proposalPrefix)).
Proof.
  unfold persist_store, save_entries. f_equal. generalize (ClearPrefix s proposalPrefix).
  induction (applied k) as [|p l IH]; intros s'; cbn [foldl keyed_records map]; [done|]. apply IH.
Qed.

Lemma foldl_append_records l (iv : list (string * document)) k :
  (forall x, x ∈ iv -> exists p, x.2 = ProposalDoc p /\ canonical_record p = p) ->
  map snd iv = map ProposalDoc l ->
  foldl (fun st iv => upd_applied (fun l => l ++ match iv.2 with
    | ProposalDoc p => [canonical_record p] | StateDoc _ => [] end) st) k iv =
  upd_applied (fun l0 => l0 ++ l) k.
Proof.
  revert k l. induction iv as [|[i d] iv IH]; intros k [|p l] Hc Hl; try discriminate Hl; cbn [foldl].
  { destruct k. unfold upd_applied. cbn. by rewrite app_nil_r. }
  injection Hl as -> Hl. rewrite (IH _ l); [|intros x Hx; apply Hc; by right|done].
  destruct (Hc (i, ProposalDoc p) ltac:(left)) as (p' & [= <-] & Hp). cbn [snd].
  rewrite Hp. unfold upd_applied. cbn. by rewrite <- app_assoc.
Qed.

(** Reopening the store after a persisted operation brings back the same
    set of applied proposals (their order becomes that of the store keys),
    so none of them can be applied again after a restart. *)
Theorem governance_reload (k : Keeper) (s : JSONPrefixStore document) (names : list string) :
  wf k -> (forall r, r ∈ applied k -> canonical_record r = r) ->
  prefixStore k = Some s -> applied k <> [] ->
  exists s' k', prefixStore (snd (persist k)) = Some s' /\
    NewStoreKeeper s' (registryKeeper k) (limitsKeeper k) (ibcRouterKeeper k) names = Ok k' /\
    applied k' ≡ₚ applied k.
Proof.
  intros Hwf Hc Hs Hne. unfold persist, modify. cbn [snd upd_prefixStore prefixStore].
  rewrite Hs. cbn [option_map]. rewrite persist_store_entries.
  set (s' := Commit _).
  assert (Hh : holds s' proposalPrefix (map (fun iw => (iw.1, ProposalDoc iw.2)) (keyed_records (applied k)))).
  { apply holds_commit; [intros x; reflexivity|].
    eapply holds_perm; [|apply holds_save_entries; [| |apply holds_clear]].
    - by rewrite app_nil_r, reverse_Permutation.
    - unfold keyed_records. rewrite map_map. cbn [fst].
      erewrite map_ext_in; [exact Hwf|]. intros r Hr%list_elem_of_In. cbn.
      rewrite TrimSpace_idem. apply (f_equal ProposalID (Hc r Hr)).
    - intros; apply not_elem_of_nil. }
  exists s'. unfold NewStoreKeeper. rewrite (HasAny_holds _ _ _ Hh).
  rewrite bool_decide_eq_false_2 by (destruct (applied k); [done|discriminate]). cbn [negb].
  unfold loadFromPrefixStore, bind at 1. cbn [modify].
  destruct (LoadAll_fold s' proposalPrefix _
    (fun _ d st => upd_applied (fun l => l ++ match d with
      | ProposalDoc p => [canonical_record p] | StateDoc _ => [] end) st)
    (fun _ d => match d with
      | ProposalDoc p => modify (upd_applied (fun l => l ++ [canonical_record p]))
      | StateDoc _ => throw decode_error end)
    (upd_applied (fun _ => []) (upd_prefixStore (fun _ => Some s')
       (NewKeeper (registryKeeper k) (limitsKeeper k) (ibcRouterKeeper k) names))) Hh)
    as (l' & Hperm & Hrun).
  { intros i v st (iw & [= -> ->] & _)%list_elem_of_fmap. done. }
  unfold keyed_records in Hperm. rewrite map_map in Hperm. cbn [fst snd] in Hperm.
  pose proof (Permutation_map snd Hperm) as Hsnd. rewrite map_map in Hsnd. cbn [snd] in Hsnd.
  apply Permutation_map_inv in Hsnd as (l & Hl & Hpl).
  eexists. split; [done|]. rewrite Hrun. split; [done|].
  rewrite (foldl_append_records l); [by rewrite Hpl| |done].
  intros x Hx. rewrite Hperm in Hx. apply list_elem_of_fmap in Hx as (r & -> & Hr). eauto.
Qed.
End theorems.

(** ** Concrete runs *)

Definition demo_keeper : Keeper :=
  upd_prefixStore (fun _ => Some empty_store)
    (NewKeeper Registry.demo_keeper Limits.demo_keeper IBCRouter.demo_keeper
       ["guardian-1"; " guardian-2 "; EmptyString])%string.

Definition demo_limit_update : proposal :=
  PLimitUpdate (mk_limit_update " p-1 " (mk_limit "eth.usdc" 20 (Some 500%Z))).
Definition demo_disable : proposal := PAssetStatus (mk_asset_status "p-2" "eth.usdc" false).
Definition demo_policy : proposal :=
  PRoutePolicy (mk_route_policy "p-3" "osmo" (mk_policy [" swap:"] [])).

Definition demo_txs : list (string * proposal) :=
  [("guardian-1", demo_limit_update); ("mallory", demo_disable); ("guardian-2", demo_disable);
   ("guardian-1", PAssetStatus (mk_asset_status "p-1" "eth.usdc" true)); ("guardian-1", demo_policy)]%string.

Example demo_run :
  fst (run demo_txs demo_keeper) = ["p-1"; "p-2"; "p-3"]%string /\
  option_map Registry.Enabled (GetAsset (registryKeeper (snd (run demo_txs demo_keeper))) "eth.usdc")
    = Some false.
Proof. vm_compute. split; reflexivity. Qed.

Definition demo_applied : Keeper := snd (run demo_txs demo_keeper).

Example proposals_applied_once_witness :
  map ProposalID (applied demo_applied) = ["p-1"; "p-2"; "p-3"]%string /\ wf demo_applied.
Proof.
  pose proof (proposals_applied_once demo_txs demo_keeper ltac:(constructor)) as Hrun.
  destruct demo_run as [Hids _]. unfold demo_applied.
  destruct (run demo_txs demo_keeper) as [ids k'] eqn:He. cbn [fst] in Hids. subst ids.
  destruct Hrun as (Hr & Hwf & _). split; [exact Hr|exact Hwf].
Defined.

Example Apply_guards_witness :
  Apply "guardian-1" demo_disable demo_applied =
    (Err (Wrapf ErrDuplicateProposal "p-2"), demo_applied).
Proof.
  apply (Apply_guards "guardian-1" demo_disable demo_applied).
  - vm_compute. reflexivity.
  - apply (bool_decide_unpack (_ ∈ _)). vm_compute. exact I.
Defined.

Example governance_reload_witness :
  exists s' k', prefixStore (snd (persist demo_applied)) = Some s' /\
    NewStoreKeeper s' (registryKeeper demo_applied) (limitsKeeper demo_applied)
      (ibcRouterKeeper demo_applied) ["guardian-1"]%string = Ok k' /\
    applied k' ≡ₚ applied demo_applied.
Proof.
  apply (governance_reload demo_applied (default empty_store (prefixStore demo_applied)) ["guardian-1"]%string).
  - apply (bool_decide_unpack (NoDup _)). vm_compute. exact I.
  - intros r Hr.
    assert (Hall : forallb (fun r => bool_decide (ProposalID (canonical_record r) = ProposalID r /\
      TargetID (canonical_record r) = TargetID r /\ Summary (canonical_record r) = Summary r /\
      AppliedBy (canonical_record r) = AppliedBy r)) (applied demo_applied) = true)
      by (vm_compute; reflexivity).
    apply list_elem_of_In in Hr. apply (proj1 (forallb_forall _ _) Hall) in Hr.
    apply bool_decide_eq_true in Hr as (H1 & H2 & H3 & H4).
    destruct r. unfold canonical_record in *. cbn in *. congruence.
  - vm_compute. reflexivity.
  - vm_compute. discriminate.
Defined.
