(* ===== verification/Snapshots.v ===== *)
(** What a keeper exports it imports back: the registry, the pauser, the IBC
    router and the governance keeper. Those of the bank, the limits and the
    bridge are in [Bank], [Limits] and [BridgeState]. *)

From S2P Require Import Prelude.
From S2P Require Import GoStrings.
From S2P Require Import Errors.
From S2P Require Import PrefixStore.
From S2P Require Import RouteProfile.
From S2P Require Pauser.
From S2P Require Registry.
From S2P Require Limits.
From S2P Require IBCRouter.
From S2P Require Governance.
From stdpp Require Import strings.

Section registry.
Import Registry.
Context `{MapIteration}.

Lemma registry_import_export (k k0 : Keeper) :
  wf k -> ImportAssets (ExportAssets k) k0 = persist (mk_keeper (assets k) (prefixStore k0)).
Proof.
  intros Hwf. unfold ImportAssets, bind at 1, modify, set_assets.
  unfold bind. rewrite (for_each_rebuild_part (fun m => mk_keeper m (prefixStore k0)) import_asset
    (fun e => canonicalAsset e.2) (assets k)); [done| |].
  - unfold ExportAssets. by rewrite range_perm.
  - intros key a acc Ha Hsub Hfresh.
    pose proof (load_visit_ok k empty_store key a acc Hwf Ha Hsub Hfresh) as Hload.
    unfold load_visit, asset_doc in Hload.
    assert (Hstore : forall s1 s2 x, fst (import_asset x (mk_keeper acc s1)) = fst (import_asset x (mk_keeper acc s2)) /\
      assets (snd (import_asset x (mk_keeper acc s1))) = assets (snd (import_asset x (mk_keeper acc s2))) /\
      prefixStore (snd (import_asset x (mk_keeper acc s1))) = s1).
    { intros s1 s2 x. unfold import_asset, ensureDestinationDenomAvailable, denom_taken, bind, lift, query, ensure, modify.
      destruct (ValidateBasic _); [|done]. cbn [assets]. by destruct (existsb _ _). }
    destruct (Hstore (prefixStore k0) (Some empty_store) (canonicalAsset a)) as (Hr & Hm & Hs).
    rewrite Hload in Hr, Hm. cbn [fst snd assets] in *.
    destruct (import_asset _ (mk_keeper acc (prefixStore k0))) as [r [m s]]. cbn in *. by subst.
Qed.
End registry.

Section pauser.
Import Pauser.
Context `{MapIteration}.

Lemma pauser_import_export (k k0 : Keeper) :
  wf k -> ImportPausedFlows (ExportPausedFlows k) k0 = persist (mk_keeper (paused k) (prefixStore k0)).
Proof.
  intros Hwf. unfold ImportPausedFlows, bind at 1, modify, set_paused. cbn [prefixStore].
  unfold bind. rewrite (for_each_rebuild (fun m => mk_keeper m (prefixStore k0)) _
    (fun e : string * bool => e.1) (paused k)); [done|apply exported_perm|].
  intros flow b acc Hf. destruct (Hwf flow b Hf) as (Ht & Hne & ->). cbn [fst].
  unfold lift. by rewrite flowKey_trimmed.
Qed.
End pauser.

Section router.
Import IBCRouter.
Context `{MapIteration}.

Definition route_stored (key : string) (r : Route) : Prop :=
  key = AssetID r /\ canonicalRoute r = r /\ route_ValidateBasic r = Ok tt.
Definition profile_stored (key : string) (p : RouteProfile) : Prop :=
  key = RouteID p /\ profile_Canonical p = p /\ profile_ValidateBasic p = Ok tt.
Definition transfer_stored (key : string) (t : TransferRecord) : Prop :=
  key = TransferID t /\ cloneTransferRecord t = t.
Definition trim_transport (t : TransportRecord) : TransportRecord :=
  mk_transport (TrimSpace (TpTransferID t)) (TrimSpace (TpAssetID t)) (TrimSpace (TpChainID t))
    (TrimSpace (TpChannelID t)) (PacketSequence t) (Stage t) (TrimSpace (AckReason t)).
Definition transport_stored (key : string) (t : TransportRecord) : Prop :=
  key = TpTransferID t /\ trim_transport t = t.

(** What the router keeps is in canonical form, under its own key. *)
Record router_stored (k : Keeper) : Prop := {
  stored_routes : map_Forall route_stored (routes k);
  stored_profiles : map_Forall profile_stored (routeProfiles k);
  stored_transfers : map_Forall transfer_stored (transfers k);
  stored_transports : map_Forall transport_stored (transportSessions k)
}.

(** A sequence number of zero, which only a wrapped counter can have, is read
    as one. *)
Definition restored_sequence (n : N) : N := if N.eqb n 0 then 1%N else n.

Lemma route_stored_key key r : route_stored key r -> routeKey (AssetID r) = key.
Proof. intros (-> & Hc & _). apply (f_equal AssetID Hc). Qed.
Lemma profile_stored_key key p : profile_stored key p -> routeProfileKey (RouteID p) = key.
Proof. intros (-> & Hc & _). apply (f_equal RouteID Hc). Qed.

Lemma router_import_export (k k0 : Keeper) :
  router_stored k ->
  ImportState (ExportState k) k0 = persist (mk_keeper (routes k) (routeProfiles k) (transfers k)
    (transportSessions k) (restored_sequence (nextSequence k)) (prefixStore k0)).
Proof.
  intros [Hr Hp Ht Hs]. unfold ImportState, ExportState, ExportRoutes, ExportRouteProfiles, ExportTransportSessions.
  cbn [Routes RouteProfiles Transfers Transport NextSequence].
  unfold bind at 1, modify at 1, upd_routes at 1. cbn [routeProfiles transfers transportSessions nextSequence prefixStore].
  unfold bind at 1. rewrite (for_each_rebuild (fun m => mk_keeper m (routeProfiles k0) (transfers k0)
    (transportSessions k0) (nextSequence k0) (prefixStore k0)) _ (fun e => canonicalRoute e.2) (routes k));
    [|by rewrite range_perm|].
  2: { intros key r acc Hk. pose proof (Hr key r Hk) as (Hkey & Hc & Hv). cbn [snd]. rewrite Hc.
       unfold bind, lift, modify. rewrite Hv, Hc. by rewrite (route_stored_key key r) by by apply Hr. }
  unfold bind at 1, modify at 1, upd_routeProfiles at 1.
  unfold bind at 1. rewrite (for_each_rebuild (fun m => mk_keeper (routes k) m (transfers k0)
    (transportSessions k0) (nextSequence k0) (prefixStore k0)) _ (fun e => profile_Canonical e.2) (routeProfiles k));
    [|by rewrite range_perm|].
  2: { intros key r acc Hk. pose proof (Hp key r Hk) as (Hkey & Hc & Hv). cbn [snd]. rewrite Hc.
       unfold bind, lift, modify. rewrite Hv, Hc. by rewrite (profile_stored_key key r) by by apply Hp. }
  unfold bind at 1, modify at 1, upd_transfers at 1.
  unfold bind at 1. rewrite (for_each_rebuild (fun m => mk_keeper (routes k) (routeProfiles k) m
    (transportSessions k0) (nextSequence k0) (prefixStore k0)) _ (fun e => transfer_snapshot e.2) (transfers k));
    [|by rewrite range_perm|].
  2: { intros key t acc Hk. destruct (Ht key t Hk) as (Hkey & Hc). cbn [snd].
       unfold import_transfer, transfer_snapshot, bind, lift, modify, upd_transfers.
       cbn [SnAmount SnTransferID SnAssetID SnReceiver SnChainID SnChannelID SnDenom SnTimeoutHeight SnMemo
         SnStatus SnFailureReason]. rewrite SetString10_format_int. change (mk_transfer _ _ _ _ _ _ _ _ _ _ _) with (cloneTransferRecord t).
       rewrite Hc. pose proof (f_equal TransferID Hc) as Hid. cbn [cloneTransferRecord TransferID] in Hid.
       by rewrite Hid, Hkey. }
  unfold bind at 1, modify at 1, upd_transportSessions at 1.
  unfold bind at 1. rewrite (for_each_rebuild (fun m => mk_keeper (routes k) (routeProfiles k) (transfers k)
    m (nextSequence k0) (prefixStore k0)) _ snd (transportSessions k)); [|by rewrite range_perm|].
  2: { intros key t acc Hk. destruct (Hs key t Hk) as (Hkey & Hc). cbn [snd].
       unfold import_transport, modify, upd_transportSessions. change (mk_transport _ _ _ _ _ _ _) with (trim_transport t).
       rewrite Hc. pose proof (f_equal TpTransferID Hc) as Hid. cbn [trim_transport TpTransferID] in Hid.
       by rewrite Hid, Hkey. }
  reflexivity.
Qed.

(** Every operation of the router keeps what it holds in canonical form. *)

Lemma clone_with_status t status reason :
  cloneTransferRecord t = t -> trimmed reason ->
  cloneTransferRecord (with_status status reason t) = with_status status reason t.
Proof.
  intros Hc Hr. unfold cloneTransferRecord, with_status in *. f_equal; try exact Hr.
  - exact (f_equal TransferID Hc).
  - exact (f_equal TrAssetID Hc).
  - exact (f_equal Receiver Hc).
  - exact (f_equal TrChainID Hc).
  - exact (f_equal TrChannelID Hc).
  - exact (f_equal TrDenom Hc).
  - exact (f_equal Memo Hc).
Qed.

Lemma trim_with_stage t stage reason :
  trim_transport t = t -> trimmed reason -> trim_transport (with_stage stage reason t) = with_stage stage reason t.
Proof.
  intros Hc Hr. unfold trim_transport, with_stage in *. f_equal; try exact Hr.
  - exact (f_equal TpTransferID Hc).
  - exact (f_equal TpAssetID Hc).
  - exact (f_equal TpChainID Hc).
  - exact (f_equal TpChannelID Hc).
Qed.

Lemma router_persist_stored : preserves router_stored persist.
Proof. intros k []. by split. Qed.

Lemma SetRoute_stored r : preserves router_stored (SetRoute r).
Proof.
  intros k [Hr Hp Ht Hs]. unfold SetRoute, bind, lift, modify.
  destruct (route_ValidateBasic r) as [[]|] eqn:Hv; [|by split]. split; try done.
  cbn [persist modify snd upd_prefixStore upd_routes routes]. apply map_Forall_insert_2; [|done].
  unfold route_stored, routeKey, route_ValidateBasic, blank, canonicalRoute.
  cbn [AssetID DestinationChainID ChannelID DestinationDenom Enabled].
  rewrite !TrimSpace_idem. split_and!; [done..|exact Hv].
Qed.

Lemma SetRouteProfile_stored p : preserves router_stored (SetRouteProfile p).
Proof.
  intros k [Hr Hp Ht Hs]. unfold SetRouteProfile, bind, lift, modify.
  destruct (profile_ValidateBasic p) as [[]|] eqn:Hv; [|by split]. split; try done.
  cbn [persist modify snd upd_prefixStore upd_routeProfiles routeProfiles]. apply map_Forall_insert_2; [|done].
  split_and!.
  - unfold routeProfileKey, profile_Canonical. cbn [RouteID]. by rewrite TrimSpace_idem.
  - apply profile_Canonical_idem.
  - by rewrite profile_ValidateBasic_canonical.
Qed.

Lemma initiateTransfer_stored assetID amount receiver h memo chain channel denom :
  preserves router_stored (initiateTransfer assetID amount receiver h memo chain channel denom).
Proof.
  intros k [Hr Hp Ht Hs].
  pose proof (cloneTransferRecord_new k assetID amount receiver h memo chain channel denom) as Hc.
  unfold initiateTransfer, bind, throw_if, throw, ret, gets.
  destruct (match amount with None => true | Some v => (v <=? 0)%Z end); [by split|].
  destruct (blank receiver); [by split|]. destruct (N.eqb h 0); [by split|].
  cbn [modify persist snd]. split; try done.
  - cbn [upd_prefixStore upd_transportSessions upd_transfers upd_nextSequence transfers].
    apply map_Forall_insert_2; [|done]. by split.
  - cbn [upd_prefixStore upd_transportSessions upd_transfers upd_nextSequence transportSessions].
    apply map_Forall_insert_2; [|done]. split; [done|]. unfold trim_transport.
    cbn [TransferID TrAssetID TrChainID TrChannelID TpTransferID TpAssetID TpChainID TpChannelID
      PacketSequence Stage AckReason].
    f_equal; [apply (f_equal TransferID Hc)|apply TrimSpace_idem..].
Qed.

Lemma stored_transport k t :
  router_stored k -> cloneTransferRecord t = t ->
  let tp := ensureTransportSession k t in trim_transport tp = tp /\ TpTransferID tp = TransferID t.
Proof.
  intros Hk Hc tp. unfold tp, ensureTransportSession.
  destruct (transportSessions k !! TransferID t) as [tp'|] eqn:Htp.
  - destruct (stored_transports k Hk _ _ Htp) as [Hkey Hcl]. by rewrite <- Hkey.
  - split; [|done]. unfold trim_transport. f_equal.
    + exact (f_equal TransferID Hc).
    + exact (f_equal TrAssetID Hc).
    + exact (f_equal TrChainID Hc).
    + exact (f_equal TrChannelID Hc).
Qed.

(** The tail of the acknowledgement handlers. *)
Lemma settle_stored t stage reason :
  cloneTransferRecord t = t -> trimmed reason -> preserves router_stored (settle t stage reason).
Proof.
  intros Hc Hr k Hk. destruct (stored_transport k t Hk Hc) as [Htp Hid]. destruct Hk as [Hro Hpr Htr Hse].
  unfold settle, bind, modify, gets, ret. cbn [persist modify snd]. split; try done.
  - cbn [upd_prefixStore upd_transportSessions upd_transfers transfers]. by apply map_Forall_insert_2.
  - cbn [upd_prefixStore upd_transportSessions upd_transfers transportSessions].
    change (ensureTransportSession _ t) with (ensureTransportSession k t).
    apply map_Forall_insert_2; [|done]. split; [by cbn; rewrite Hid|]. by apply trim_with_stage.
Qed.

Lemma move_transport_stored id stage : preserves router_stored (move_transport id stage).
Proof.
  intros k Hk. unfold move_transport, bind, gets, some_or, ret, throw.
  destruct (transfers k !! TrimSpace id) as [t|] eqn:Ht; [|done].
  destruct (stored_transfers k Hk _ _ Ht) as [_ Hc].
  destruct (stored_transport k t Hk Hc) as [Htp Hid]. destruct Hk as [Hro Hpr Htr Hse].
  cbn [persist modify snd]. split; try done.
  cbn [upd_prefixStore upd_transportSessions transportSessions]. apply map_Forall_insert_2; [|done].
  split; [by cbn; rewrite Hid|]. apply trim_with_stage; [done|]. apply trimmed_empty.
Qed.

Lemma pending_stored {A} (f : TransferRecord -> Op Keeper A) id :
  (forall t, cloneTransferRecord t = t -> preserves router_stored (f t)) ->
  preserves router_stored (bind (query (fun k => pendingTransfer k id)) f).
Proof.
  intros Hf k Hk. unfold bind, query. destruct (pendingTransfer k id) as [t|] eqn:Hp; [|done].
  apply pendingTransfer_ok in Hp as [Ht _]. apply Hf; [|done]. by apply (stored_transfers k Hk _ _ Ht).
Qed.

Lemma reason_trimmed t : cloneTransferRecord t = t -> trimmed (FailureReason t).
Proof. intros Hc. apply (f_equal FailureReason Hc). Qed.

Lemma AcknowledgeSuccess_stored id : preserves router_stored (AcknowledgeSuccess id).
Proof.
  apply pending_stored. intros t Ht. apply settle_stored; [|apply trimmed_empty].
  by apply clone_with_status, trimmed_empty.
Qed.
Lemma AcknowledgeFailure_stored id reason : preserves router_stored (AcknowledgeFailure id reason).
Proof.
  apply pending_stored. intros t Ht. apply settle_stored; [|apply TrimSpace_trimmed].
  by apply clone_with_status, TrimSpace_trimmed.
Qed.
Lemma TimeoutTransfer_stored id : preserves router_stored (TimeoutTransfer id).
Proof.
  apply pending_stored. intros t Ht. apply settle_stored; [|apply TrimSpace_trimmed].
  by apply clone_with_status, reason_trimmed.
Qed.
Lemma MarkRefunded_stored id : preserves router_stored (MarkRefunded id).
Proof.
  intros k Hk. unfold MarkRefunded, bind, gets, some_or, ret, throw, throw_if.
  destruct (transfers k !! TrimSpace id) as [t|] eqn:Ht; [|done].
  destruct (negb _ && negb _); [done|].
  destruct (stored_transfers k Hk _ _ Ht) as [_ Hc]. destruct Hk as [Hro Hpr Htr Hse].
  cbn [persist modify snd]. split; try done. cbn [upd_prefixStore upd_transfers transfers].
  apply map_Forall_insert_2; [|done]. split; [done|]. by apply clone_with_status, reason_trimmed.
Qed.

Lemma InitiateTransfer_stored id amount receiver h memo :
  preserves router_stored (InitiateTransfer id amount receiver h memo).
Proof.
  unfold InitiateTransfer. apply preserves_bind; [apply preserves_gets|]. intros found.
  apply preserves_bind; [apply preserves_some_or|]. intros route.
  apply preserves_bind; [apply preserves_throw_if|]. intros _. apply initiateTransfer_stored.
Qed.
Lemma InitiateTransferWithProfile_stored route id amount receiver h memo :
  preserves router_stored (InitiateTransferWithProfile route id amount receiver h memo).
Proof.
  unfold InitiateTransferWithProfile.
  do 6 (apply preserves_bind; [auto with go|intros ?]). apply initiateTransfer_stored.
Qed.

Lemma router_stored_exec act k : router_stored k -> router_stored (exec act k).
Proof.
  intros Hk. destruct act; cbn [exec].
  - by apply SetRoute_stored.
  - by apply SetRouteProfile_stored.
  - by apply InitiateTransfer_stored.
  - by apply InitiateTransferWithProfile_stored.
  - destruct success; [by apply AcknowledgeSuccess_stored|by apply AcknowledgeFailure_stored].
  - by apply TimeoutTransfer_stored.
  - by apply MarkRefunded_stored.
  - by apply move_transport_stored.
  - by apply move_transport_stored.
Qed.

Lemma router_NewKeeper_stored : router_stored NewKeeper.
Proof. split; apply map_Forall_empty. Qed.
End router.

Section governance.
Import Governance.
Context `{MapIteration}.

Definition records_stored (k : Keeper) : Prop := Forall (fun r => canonical_record r = r) (applied k).

Lemma governance_import_export (k k0 : Keeper) :
  records_stored k -> ImportState (ExportState k) k0 = persist (upd_applied (fun _ => applied k) k0).
Proof.
  intros Hk. unfold ImportState, ExportState, bind, modify. cbn [AppliedProposals].
  rewrite map_id_in; [done|]. intros r Hr. by eapply Forall_forall in Hk.
Qed.

Lemma blank_false s : blank s = false -> TrimSpace s <> EmptyString.
Proof. unfold blank. by rewrite bool_decide_eq_false. Qed.

Lemma record_canonical id kind target summary by_ :
  trimmed summary -> canonical_record (mk_proposal (TrimSpace id) kind (TrimSpace target) summary (TrimSpace by_)) =
    mk_proposal (TrimSpace id) kind (TrimSpace target) summary (TrimSpace by_).
Proof. intros Hs. unfold canonical_record, canonicalAuthority. cbn [ProposalID ProposalKind TargetID Summary AppliedBy]. by rewrite !TrimSpace_idem, Hs. Qed.

Lemma asset_record_canonical p a : canonical_record (asset_status_record p (TrimSpace a)) = asset_status_record p (TrimSpace a).
Proof.
  apply record_canonical.
  change ("set asset " +:+ ?x +:+ " enabled=" +:+ bool_text ?b) with
    (String (Ascii.ascii_of_N 115) ("et asset " +:+ (x +:+ (" " +:+ ("enabled=" +:+ bool_text b))))).
  rewrite <- !string_app_assoc. rewrite !string_app_assoc.
  rewrite <- (string_app_assoc "et asset "), <- (string_app_assoc _ " ").
  apply graphic_ends_trimmed; [done| |]; by destruct (AsEnabled p).
Qed.

Lemma limit_record_canonical p a : canonical_record (limit_update_record p (TrimSpace a)) = limit_update_record p (TrimSpace a).
Proof.
  apply record_canonical.
  change ("set limit for " +:+ ?x +:+ " to " +:+ ?y) with
    (String (Ascii.ascii_of_N 115) ("et limit for " +:+ (x +:+ (" to " +:+ y)))).
  rewrite <- (string_app_assoc _ " to "), <- (string_app_assoc "et limit for ").
  apply graphic_ends_trimmed; [done|apply format_int_graphic|].
  destruct (default 0%Z (Limits.MaxAmount (LuLimit p))); [done|apply format_uint_nonempty|done].
Qed.

Lemma policy_record_canonical p a :
  TrimSpace (RpRouteID p) <> EmptyString ->
  canonical_record (route_policy_record p (TrimSpace a)) = route_policy_record p (TrimSpace a).
Proof.
  intros Hne. apply record_canonical.
  change ("updated route policy for " +:+ ?x) with
    (String (Ascii.ascii_of_N 117) ("pdated route policy for" +:+ String (Ascii.ascii_of_N 32) x)).
  apply trimmed_after_space; [done|apply TrimSpace_trimmed|done].
Qed.

(** A proposal adds at most one record, in canonical form. *)
Lemma Apply_records authority p k : records_stored k -> records_stored (snd (Apply authority p k)).
Proof.
  intros Hk.
  assert (Htail : forall (m : Op Keeper unit) r, canonical_record r = r -> applied (snd (m k)) = applied k ->
    records_stored (snd (bind m (fun _ => append_record r) k))).
  { intros m r Hr Hm. unfold bind, append_record, modify, persist.
    destruct (m k) as [[[]|e] k1]; cbn [snd] in *; unfold records_stored; [|by rewrite Hm].
    cbn. rewrite Hm. apply Forall_app. split; [done|by repeat constructor]. }
  destruct p as [p|p|p]; cbn [Apply].
  - unfold ApplyAssetStatusProposal. rewrite apply_head. destruct (asset_status_ValidateBasic p); [|done].
    case_decide; [done|]. destruct (authorize k authority) as [by1|] eqn:Ha; [|done].
    apply authorize_ok in Ha as [-> _]. apply Htail; [apply asset_record_canonical|].
    unfold on_registry. destruct (AsEnabled p); by rewrite zoom_run.
  - unfold ApplyLimitUpdateProposal. rewrite apply_head. destruct (limit_update_ValidateBasic p); [|done].
    case_decide; [done|]. destruct (authorize k authority) as [by1|] eqn:Ha; [|done].
    apply authorize_ok in Ha as [-> _]. apply Htail; [apply limit_record_canonical|].
    unfold on_limits. by rewrite zoom_run.
  - unfold ApplyRoutePolicyUpdateProposal. rewrite apply_head.
    destruct (route_policy_ValidateBasic p) eqn:Hv; [|done].
    case_decide; [done|]. destruct (authorize k authority) as [by1|] eqn:Ha; [|done].
    apply authorize_ok in Ha as [-> _]. unfold bind at 1, gets.
    destruct (IBCRouter.GetRouteProfile (ibcRouterKeeper k) (RpRouteID p)) as [profile|]; [|done].
    unfold bind at 1, some_or, ret. apply Htail.
    + apply policy_record_canonical. unfold route_policy_ValidateBasic in Hv.
      destruct (blank (RpProposalID p)); [done|]. destruct (blank (RpRouteID p)) eqn:Hb; [done|].
      by apply blank_false.
    + unfold on_router. by rewrite zoom_run.
Qed.

Lemma Apply_router authority p k :
  router_stored (ibcRouterKeeper k) -> router_stored (ibcRouterKeeper (snd (Apply authority p k))).
Proof.
  intros Hk. destruct (apply_outcome authority p k) as [[e ->]|(r & -> & _)]; [done|].
  destruct p as [p|p|p]; cbn [effect]; [done|done|].
  destruct (IBCRouter.GetRouteProfile (ibcRouterKeeper k) (RpRouteID p)) as [profile|]; [|done].
  by apply (SetRouteProfile_stored (with_policy (policy_Canonical (RpPolicy p)) profile) (ibcRouterKeeper k)).
Qed.
End governance.
