(* ===== verification/App.v ===== *)
(** [chain/aegislink/app]: the application that composes the keepers — deposit
    claims credited to wallets, withdrawals debited from them, the rollback of
    half-done operations, the claim queue drained by each block, and the
    runtime snapshot with its migration (app.go, node.go, runtime_state.go,
    service.go). *)

From S2P Require Import Prelude.
From S2P Require Import GoStrings.
From S2P Require Import Errors.
From S2P Require Import PrefixStore.
From S2P Require Import Pauser.
From S2P Require Import Registry.
From S2P Require Import Limits.
From S2P Require Import BridgeTypes.
From S2P Require Import BridgeState.
From S2P Require Import Bridge.
From S2P Require Import Bank.
From S2P Require Import RouteProfile.
From S2P Require Import IBCRouter.
From S2P Require Import Governance.
From stdpp Require Import strings.

(** ** State (node.go, app.go) *)

Record QueuedDepositClaim := mk_queued {
  Claim : DepositClaim;
  QAttestation : Attestation;
  EnqueuedAtHeight : N          (* uint64 *)
}.

Record AppliedClaimBalance := mk_applied_balance {
  AppliedAddress : string;
  AppliedDenom : string;
  AppliedAmount : string
}.

Record BlockProgress := mk_progress {
  Height : N;                   (* uint64 *)
  AppliedQueuedClaims : nat;
  PendingQueuedClaims : nat;
  BridgeCurrentHeight : N;
  LastSubmissionMessage : string;
  AppliedClaimBalances : list AppliedClaimBalance
}.

(** The keepers are shared by pointer; the bridge keeper's record holds the one
    copy of the registry, limits and pauser keepers, the application the one
    copy of the router, and the governance keeper is assembled when it runs. *)
Record App := mk_app {
  BridgeKeeper : BridgeState.Keeper;
  BankKeeper : Bank.Keeper;
  IBCRouterKeeper : IBCRouter.Keeper;
  govAuthorities : gset string;
  govApplied : list ProposalRecord;
  govStore : option (JSONPrefixStore Governance.document);
  pendingDepositClaims : list QueuedDepositClaim;
  nodeState : list QueuedDepositClaim   (* the claims in data/node.json *)
}.

Definition RegistryKeeper (a : App) : Registry.Keeper := BridgeState.registryKeeper (BridgeKeeper a).
Definition LimitsKeeper (a : App) : Limits.Keeper := BridgeState.limitsKeeper (BridgeKeeper a).
Definition PauserKeeper (a : App) : Pauser.Keeper := pauserKeeper (BridgeKeeper a).
Definition GovernanceKeeper (a : App) : Governance.Keeper :=
  Governance.mk_keeper (RegistryKeeper a) (LimitsKeeper a) (IBCRouterKeeper a)
    (govAuthorities a) (govApplied a) (govStore a).

Definition set_bridge (k : BridgeState.Keeper) (a : App) : App :=
  mk_app k (BankKeeper a) (IBCRouterKeeper a) (govAuthorities a) (govApplied a) (govStore a)
    (pendingDepositClaims a) (nodeState a).
Definition set_bank (k : Bank.Keeper) (a : App) : App :=
  mk_app (BridgeKeeper a) k (IBCRouterKeeper a) (govAuthorities a) (govApplied a) (govStore a)
    (pendingDepositClaims a) (nodeState a).
Definition set_router (k : IBCRouter.Keeper) (a : App) : App :=
  mk_app (BridgeKeeper a) (BankKeeper a) k (govAuthorities a) (govApplied a) (govStore a)
    (pendingDepositClaims a) (nodeState a).
Definition set_pending (l : list QueuedDepositClaim) (a : App) : App :=
  mk_app (BridgeKeeper a) (BankKeeper a) (IBCRouterKeeper a) (govAuthorities a) (govApplied a)
    (govStore a) l (nodeState a).
Definition set_node_state (l : list QueuedDepositClaim) (a : App) : App :=
  mk_app (BridgeKeeper a) (BankKeeper a) (IBCRouterKeeper a) (govAuthorities a) (govApplied a)
    (govStore a) (pendingDepositClaims a) l.
Definition set_governance (g : Governance.Keeper) (a : App) : App :=
  mk_app (BridgeState.upd_registryKeeper (fun _ => Governance.registryKeeper g)
           (BridgeState.upd_limitsKeeper (fun _ => Governance.limitsKeeper g) (BridgeKeeper a)))
    (BankKeeper a) (Governance.ibcRouterKeeper g) (Governance.authorities g) (Governance.applied g)
    (Governance.prefixStore g) (pendingDepositClaims a) (nodeState a).

Definition on_bridge {E A} (m : M E BridgeState.Keeper A) : M E App A := zoom BridgeKeeper set_bridge m.
Definition on_bank {E A} (m : M E Bank.Keeper A) : M E App A := zoom BankKeeper set_bank m.
Definition on_router {E A} (m : M E IBCRouter.Keeper A) : M E App A := zoom IBCRouterKeeper set_router m.
Definition on_governance {E A} (m : M E Governance.Keeper A) : M E App A :=
  zoom GovernanceKeeper set_governance m.
Definition on_registry {A} (m : Op Registry.Keeper A) : Op App A := on_bridge (Bridge.on_registry m).
Definition on_limits {A} (m : Op Limits.Keeper A) : Op App A := on_bridge (Bridge.on_limits m).
Definition on_pauser {A} (m : Op Pauser.Keeper A) : Op App A := on_bridge (Bridge.on_pauser m).

Definition with_recipient (recipient : string) (c : DepositClaim) : DepositClaim :=
  mk_claim (Identity c) (BridgeTypes.DestinationChainID c) (BridgeTypes.AssetID c) (Amount c) recipient (Deadline c).

(** ** Operations (app.go) *)

Section ops.
Context `{MapIteration} `{Crypto} `{AddressCodec}.

(** A call that returns a [ClaimResult] along with its error. *)
Definition Exec (A : Type) : Type := M (ClaimResult * error) App A.

Definition no_result : ClaimResult := mk_result EmptyString EmptyString EmptyString None.

(** [if err := m(); err != nil { return ClaimResult{}, err }] *)
Definition or_fail {A} (m : Op App A) : Exec A := fun a =>
  match m a with
  | (Ok x, a') => (Ok x, a')
  | (Err e, a') => (Err (no_result, e), a')
  end.

Definition rollbackDepositClaimState (bridgeState : BridgeState.StateSnapshot)
    (bankState : Bank.StateSnapshot) (limitsState : Limits.StateSnapshot) : Op App unit :=
  on_bridge (BridgeState.ImportState bridgeState) ;;;
  on_bank (Bank.ImportState bankState) ;;;
  on_limits (Limits.ImportState limitsState) ;;;
  on_bridge BridgeState.Flush ;;;
  on_bank Bank.Flush ;;;
  on_limits Limits.Flush.

(** The body is the same as that of the deposit rollback. *)
Definition rollbackWithdrawalState := rollbackDepositClaimState.

Definition submitDepositClaimLocked (claim : DepositClaim) (attestation : Attestation)
    : Exec ClaimResult :=
  let! normalizedRecipient := or_fail (lift (Bank.NormalizeAddress (Recipient claim))) in
  let claim := with_recipient normalizedRecipient claim in
  let! bridgeState := gets (fun a => BridgeState.ExportState (BridgeKeeper a)) in
  let! bankState := gets (fun a => Bank.ExportState (BankKeeper a)) in
  let! limitsState := gets (fun a => Limits.ExportState (LimitsKeeper a)) in
  let! result := on_bridge (ExecuteDepositClaim claim attestation) in
  let! credited := attempt (on_bank (Credit (Recipient claim) (ResDenom result) (ResAmount result))) in
  match credited with
  | Ok _ => ret result
  | Err err =>
      let! rolledBack := attempt (rollbackDepositClaimState bridgeState bankState limitsState) in
      match rolledBack with
      | Ok _ => throw (no_result, err)
      | Err rollbackErr => throw (no_result, Joined err rollbackErr)
      end
  end.

Definition SubmitDepositClaim := submitDepositClaimLocked.

Definition ExecuteWithdrawal (ownerAddress assetID : string) (amount : option Z) (recipient : string)
    (deadline : N) (signature : string) : Op App WithdrawalRecord :=
  let! normalizedOwner := lift (Bank.NormalizeAddress ownerAddress) in
  let! bridgeState := gets (fun a => BridgeState.ExportState (BridgeKeeper a)) in
  let! bankState := gets (fun a => Bank.ExportState (BankKeeper a)) in
  let! limitsState := gets (fun a => Limits.ExportState (LimitsKeeper a)) in
  let! withdrawal :=
    on_bridge (Bridge.ExecuteWithdrawal assetID amount recipient deadline signature) in
  let! found := gets (fun a => GetAsset (RegistryKeeper a) assetID) in
  match found with
  | None =>
      (* [errors.Join] of the nil error and the rollback's is the latter *)
      rollbackWithdrawalState bridgeState bankState limitsState ;;;
      throw (Sentinel ErrUnknownAsset)
  | Some asset =>
      let! debited := attempt (on_bank (Debit normalizedOwner (Denom asset) (Some (WAmount withdrawal)))) in
      match debited with
      | Ok _ => ret withdrawal
      | Err err =>
          let! rolledBack := attempt (rollbackWithdrawalState bridgeState bankState limitsState) in
          match rolledBack with
          | Ok _ => throw err
          | Err rollbackErr => throw (Joined err rollbackErr)
          end
      end
  end.

Definition QueueDepositClaim (claim : DepositClaim) (attestation : Attestation) : Op App unit :=
  lift (deposit_ValidateBasic claim) ;;;
  lift (attestation_ValidateBasic attestation) ;;;
  let! normalizedRecipient := lift (Bank.NormalizeAddress (Recipient claim)) in
  let claim := with_recipient normalizedRecipient claim in
  let! height := gets (fun a => MetaHeight (StMeta (BridgeState.ExportState (BridgeKeeper a)))) in
  modify (fun a => set_pending (pendingDepositClaims a ++ [mk_queued claim attestation height]) a).

(** The loop of [AdvanceBlock] over the claims taken from the queue. *)
Fixpoint apply_queued (pending : list QueuedDepositClaim) (progress : BlockProgress) (a : App)
    : BlockProgress * App :=
  match pending with
  | [] => (progress, a)
  | submission :: rest =>
      match submitDepositClaimLocked (Claim submission) (QAttestation submission) a with
      | (Err (_, err), a) =>
          apply_queued rest (mk_progress (Height progress) (AppliedQueuedClaims progress)
            (PendingQueuedClaims progress) (BridgeCurrentHeight progress) (error_text err)
            (AppliedClaimBalances progress)) a
      | (Ok result, a) =>
          apply_queued rest (mk_progress (Height progress) (S (AppliedQueuedClaims progress))
            (PendingQueuedClaims progress) (BridgeCurrentHeight progress)
            (MessageID (Identity (Claim submission)))
            (AppliedClaimBalances progress ++
               [mk_applied_balance (Recipient (Claim submission)) (ResDenom result)
                  (format_int (BalanceOf (BankKeeper a) (Recipient (Claim submission))
                                 (ResDenom result)))])) a
      end
  end.

Definition AdvanceBlock (a : App) : BlockProgress * App :=
  let nextHeight := u64_incr (MetaHeight (StMeta (BridgeState.ExportState (BridgeKeeper a)))) in
  let a := set_bridge (snd (BridgeState.SetCurrentHeight nextHeight (BridgeKeeper a))) a in
  let progress := mk_progress nextHeight 0 0 nextHeight EmptyString [] in
  match pendingDepositClaims a with
  | [] => (progress, a)
  | pending =>
      let '(progress, a) := apply_queued pending progress (set_pending [] a) in
      (mk_progress (Height progress) (AppliedQueuedClaims progress) (length (pendingDepositClaims a))
         (BridgeCurrentHeight progress) (LastSubmissionMessage progress)
         (AppliedClaimBalances progress), a)
  end.

Definition SetCurrentHeight (height : N) : Op App unit :=
  on_bridge (BridgeState.SetCurrentHeight height).
Definition RegisterAsset (asset : Asset) : Op App unit := on_registry (Registry.RegisterAsset asset).
Definition SetLimit (limit : RateLimit) : Op App unit := on_limits (Limits.SetLimit limit).
Definition Pause (flow : string) : Op App unit := on_pauser (Pauser.Pause flow).
Definition Unpause (flow : string) : Op App unit := on_pauser (Pauser.Unpause flow).
Definition Withdrawals (a : App) (fromHeight toHeight : N) : list WithdrawalRecord :=
  BridgeState.Withdrawals (BridgeKeeper a) fromHeight toHeight.
Definition WalletBalances (a : App) (address : string) : result (list BalanceRecord) :=
  AddressBalances (BankKeeper a) address.
Definition WalletBalance (a : App) (address denom : string) : Z := BalanceOf (BankKeeper a) address denom.
Definition CreditWallet (address denom : string) (amount : option Z) : Op App unit :=
  on_bank (Credit address denom amount).
Definition DebitWallet (address denom : string) (amount : option Z) : Op App unit :=
  on_bank (Debit address denom amount).
Definition SetRoute (route : Route) : Op App unit := on_router (IBCRouter.SetRoute route).
Definition SetRouteProfile (profile : RouteProfile) : Op App unit :=
  on_router (IBCRouter.SetRouteProfile profile).
Definition InitiateIBCTransfer (assetID : string) (amount : option Z) (receiver : string)
    (timeoutHeight : N) (memo : string) : Op App TransferRecord :=
  on_router (InitiateTransfer assetID amount receiver timeoutHeight memo).
Definition InitiateIBCTransferWithProfile (routeID assetID : string) (amount : option Z)
    (receiver : string) (timeoutHeight : N) (memo : string) : Op App TransferRecord :=
  on_router (InitiateTransferWithProfile routeID assetID amount receiver timeoutHeight memo).
Definition FailIBCTransfer (transferID reason : string) : Op App TransferRecord :=
  on_router (AcknowledgeFailure transferID reason).
Definition TimeoutIBCTransfer (transferID : string) : Op App TransferRecord :=
  on_router (TimeoutTransfer transferID).
Definition CompleteIBCTransfer (transferID : string) : Op App TransferRecord :=
  on_router (AcknowledgeSuccess transferID).
Definition RefundIBCTransfer (transferID : string) : Op App TransferRecord :=
  on_router (MarkRefunded transferID).
Definition ApplyProposal (authority : string) (p : proposal) : Op App unit :=
  on_governance (Governance.Apply authority p).

(** The loop of [Save] and [Close] in the store-backed mode. *)
Definition flush_keepers : Op App unit :=
  on_bank Bank.Flush ;;;
  on_registry Registry.Flush ;;;
  on_limits Limits.Flush ;;;
  on_pauser Pauser.Flush ;;;
  on_bridge BridgeState.Flush ;;;
  on_router IBCRouter.Flush ;;;
  on_governance Governance.Flush.

(** [Save] in the store-backed mode: flush every keeper, then write the queue
    to the node file. *)
Definition Save : Op App unit :=
  flush_keepers ;;;
  modify (fun a => set_node_state (pendingDepositClaims a) a).

(** [BridgeQueryService.GetClaim] (service.go). *)
Definition GetClaim (a : App) (messageID : string) : option ClaimRecordSnapshot :=
  let messageID := TrimSpace messageID in
  if decide (messageID = EmptyString) then None
  else List.find (fun record => bool_decide (SnapMessageID record = messageID))
         (StProcessedClaims (BridgeState.ExportState (BridgeKeeper a))).

Definition routeID (route : Route) : string :=
  IBCRouter.AssetID route +:+ "@" +:+ IBCRouter.DestinationChainID route +:+ ":" +:+ ChannelID route.

Definition enabledRouteIDs (routes : list Route) : list string :=
  SortStrings (map routeID (filter (fun r => IBCRouter.Enabled r = true) routes)).
End ops.

(** ** The runtime snapshot (runtime_state.go, [Save] and [LoadWithConfig] in
    the snapshot mode) *)

Record runtimeState := mk_runtime {
  RtAssets : list Asset;
  RtBank : Bank.StateSnapshot;
  RtLimits : Limits.StateSnapshot;
  RtPausedFlows : list string;
  RtPendingClaims : list QueuedDepositClaim;
  RtBridge : BridgeState.StateSnapshot;
  RtIBCRouter : IBCRouter.StateSnapshot;
  RtGovernance : Governance.StateSnapshot;
  bankPresent : bool          (* the document had a "bank" field *)
}.

Section runtime.
Context `{MapIteration} `{AddressCodec}.

Definition parseBase10BigInt (value : string) : result Z :=
  if decide (value = EmptyString) then Ok 0%Z
  else match SetString10 value with
       | Some v => Ok v
       | None => Err (Wrapf ErrWalletStateMigrationRequired ("invalid balance amount " +:+ Quote value))
       end.

Fixpoint parse_supplies (l : list (string * string)) (supply : gmap string Z) : result (gmap string Z) :=
  match l with
  | [] => Ok supply
  | (denom, amount) :: rest =>
      if decide (amount = EmptyString) then parse_supplies rest supply
      else let? parsed := parseBase10BigInt amount in parse_supplies rest (<[denom := parsed]> supply)
  end.

Fixpoint aggregate_claims (claims : list ClaimRecordSnapshot) (aggregated : gmap string (gmap string Z))
    : result (gmap string (gmap string Z)) :=
  match claims with
  | [] => Ok aggregated
  | claim :: rest =>
      if negb (eqs (SnapStatus claim) ClaimStatusAccepted) then aggregate_claims rest aggregated
      else if decide (SnapRecipient claim = EmptyString)
      then Err (Sentinel ErrWalletStateMigrationRequired)
      else
        let? amount := parseBase10BigInt (SnapAmount claim) in
        let current := default 0%Z (denoms_of aggregated (SnapRecipient claim) !! SnapDenom claim) in
        aggregate_claims rest
          (put_amount (SnapRecipient claim) (SnapDenom claim) (current + amount)%Z aggregated)
  end.

(** The nested loops over sorted addresses and sorted denoms. *)
Definition aggregated_entries (aggregated : gmap string (gmap string Z)) : list (string * string * Z) :=
  flat_map (fun address =>
    map (fun denom => (address, denom, default 0%Z (denoms_of aggregated address !! denom)))
      (SortStrings (map fst (range (denoms_of aggregated address)))))
    (SortStrings (map fst (range aggregated))).

Definition resolvedBankState (s : runtimeState) : result Bank.StateSnapshot :=
  if bankPresent s then Ok (RtBank s)
  else
    let bridge := RtBridge s in
    if bool_decide (StProcessedClaims bridge = []) && bool_decide (StSupplyByDenom bridge = ∅) &&
       bool_decide (StWithdrawals bridge = [])
    then Ok (Bank.mk_state [])
    else if negb (bool_decide (StWithdrawals bridge = []))
    then Err (Sentinel ErrWalletStateMigrationRequired)
    else
      let? supplyByDenom := parse_supplies (range (StSupplyByDenom bridge)) ∅ in
      let? aggregated := aggregate_claims (StProcessedClaims bridge) ∅ in
      let entries := aggregated_entries aggregated in
      let totals : gmap string Z := foldl (fun totals e => add_amount e.1.2 e.2 totals) ∅ entries in
      let? _ := ensure (existsb (fun e => negb (bool_decide (totals !! e.1 = Some e.2)))
                          (range supplyByDenom)) (Sentinel ErrWalletStateMigrationRequired) in
      Ok (Bank.mk_state (map (fun e => mk_balance e.1.1 e.1.2 (format_int e.2)) entries)).

Definition export_runtime (a : App) : runtimeState :=
  mk_runtime (ExportAssets (RegistryKeeper a)) (Bank.ExportState (BankKeeper a))
    (Limits.ExportState (LimitsKeeper a)) (ExportPausedFlows (PauserKeeper a)) (pendingDepositClaims a)
    (BridgeState.ExportState (BridgeKeeper a)) (IBCRouter.ExportState (IBCRouterKeeper a))
    (Governance.ExportState (GovernanceKeeper a)) true.

(** [LoadWithConfig], from a freshly built application. *)
Definition load_runtime (state : runtimeState) : Op App unit :=
  on_registry (ImportAssets (RtAssets state)) ;;;
  on_limits (Limits.ImportState (RtLimits state)) ;;;
  on_pauser (ImportPausedFlows (RtPausedFlows state)) ;;;
  on_bridge (BridgeState.ImportState (RtBridge state)) ;;;
  on_router (IBCRouter.ImportState (RtIBCRouter state)) ;;;
  on_governance (Governance.ImportState (RtGovernance state)) ;;;
  let! bankState := lift (resolvedBankState state) in
  on_bank (Bank.ImportState bankState) ;;;
  modify (set_pending (RtPendingClaims state)).
End runtime.

(** ** Invariants of the application *)

Record app_inv (a : App) : Prop := {
  inv_ledger : ledger_inv (BridgeKeeper a);
  inv_bank : Bank.wf (BankKeeper a);
  inv_registry : Registry.wf (RegistryKeeper a);
  inv_limits : Limits.wf (LimitsKeeper a);
  inv_sets : sets_normal (BridgeKeeper a) /\ signerSets (BridgeKeeper a) <> ∅
}.

(** Every bridged token is in exactly one wallet: per denom, the balances of
    all wallets add up to the bridge's supply. *)
Definition backed (a : App) : Prop :=
  forall d, Bank.total (balances (BankKeeper a)) d = SupplyForDenom (BridgeKeeper a) d.

(** The same, with an amount of each denom that has left the wallets and not
    the bridge's books. *)
Definition backed_with (escrow : string -> Z) (a : App) : Prop :=
  forall d, (Bank.total (balances (BankKeeper a)) d + escrow d)%Z = SupplyForDenom (BridgeKeeper a) d.

Lemma backed_with_none a : backed_with (fun _ => 0%Z) a <-> backed a.
Proof. unfold backed_with, backed. split; intros Hb d; specialize (Hb d); lia. Qed.

(** [b] has the contents of [a]: everything but the key-value stores, the
    pending persistence failures and a wrapped withdrawal nonce. *)
Record same_contents (a b : App) : Prop := {
  same_bridge : signerSets (BridgeKeeper b) = signerSets (BridgeKeeper a) /\
    currentHeight (BridgeKeeper b) = currentHeight (BridgeKeeper a) /\
    processedClaims (BridgeKeeper b) = processedClaims (BridgeKeeper a) /\
    rejectedClaims (BridgeKeeper b) = rejectedClaims (BridgeKeeper a) /\
    supplyByDenom (BridgeKeeper b) = supplyByDenom (BridgeKeeper a) /\
    withdrawals (BridgeKeeper b) = withdrawals (BridgeKeeper a) /\
    circuitBreakerTripped (BridgeKeeper b) = circuitBreakerTripped (BridgeKeeper a) /\
    lastInvariantError (BridgeKeeper b) = lastInvariantError (BridgeKeeper a) /\
    nextWithdrawalNonce (BridgeKeeper b) = restored_nonce (nextWithdrawalNonce (BridgeKeeper a));
  same_balances : balances (BankKeeper b) = balances (BankKeeper a);
  same_registry : RegistryKeeper b = RegistryKeeper a;
  same_limits : limits (LimitsKeeper b) = limits (LimitsKeeper a) /\
    usage (LimitsKeeper b) = usage (LimitsKeeper a);
  same_pauser : PauserKeeper b = PauserKeeper a;
  same_rest : IBCRouterKeeper b = IBCRouterKeeper a /\ govApplied b = govApplied a /\
    pendingDepositClaims b = pendingDepositClaims a /\ nodeState b = nodeState a
}.

Section runs.
Context `{MapIteration} `{Crypto} `{AddressCodec}.

Lemma on_bridge_run {E A} (m : M E BridgeState.Keeper A) a :
  on_bridge m a = (fst (m (BridgeKeeper a)), set_bridge (snd (m (BridgeKeeper a))) a).
Proof. unfold on_bridge, zoom. by destruct (m (BridgeKeeper a)). Qed.
Lemma on_bank_run {E A} (m : M E Bank.Keeper A) a :
  on_bank m a = (fst (m (BankKeeper a)), set_bank (snd (m (BankKeeper a))) a).
Proof. unfold on_bank, zoom. by destruct (m (BankKeeper a)). Qed.
Lemma app_on_limits_run {A} (m : Op Limits.Keeper A) a :
  on_limits m a = (fst (m (LimitsKeeper a)),
    set_bridge (BridgeState.upd_limitsKeeper (fun _ => snd (m (LimitsKeeper a))) (BridgeKeeper a)) a).
Proof. unfold on_limits. rewrite on_bridge_run. unfold Bridge.on_limits, zoom, LimitsKeeper.
  by destruct (m (BridgeState.limitsKeeper (BridgeKeeper a))). Qed.

Lemma bind_run {E St A B} (m : M E St A) (f : A -> M E St B) s :
  bind m f s = match fst (m s) with Ok x => f x (snd (m s)) | Err e => (Err e, snd (m s)) end.
Proof. unfold bind. by destruct (m s) as [[x|e] s']. Qed.

Lemma or_fail_lift {A B} (r : result A) (f : A -> Exec B) a :
  bind (or_fail (lift r)) f a =
    match r with Ok x => f x a | Err e => (Err (no_result, e), a) end.
Proof. unfold bind, or_fail, lift. by destruct r. Qed.

Lemma gets_bind {E St A B} (g : St -> A) (f : A -> M E St B) s : bind (gets g) f s = f (g s) s.
Proof. reflexivity. Qed.

Lemma attempt_bind {E E' St A B} (m : M E St A) (f : res E A -> M E' St B) s :
  bind (attempt m) f s = f (fst (m s)) (snd (m s)).
Proof. unfold bind, attempt. by destruct (m s). Qed.

(** Rolling back to the snapshots of [a0] from a state in which only the
    bridge, bank and limits keepers have moved on restores its contents; the
    result is that of the bank's save. *)
Lemma rollback_restores a0 a :
  app_inv a0 -> RegistryKeeper a = RegistryKeeper a0 -> PauserKeeper a = PauserKeeper a0 ->
  IBCRouterKeeper a = IBCRouterKeeper a0 /\ govApplied a = govApplied a0 /\
    pendingDepositClaims a = pendingDepositClaims a0 /\ nodeState a = nodeState a0 ->
  exists a', rollbackDepositClaimState (BridgeState.ExportState (BridgeKeeper a0))
      (Bank.ExportState (BankKeeper a0)) (Limits.ExportState (LimitsKeeper a0)) a =
    (persist_outcome (BankKeeper a), a') /\ same_contents a0 a' /\
    persistHook (BankKeeper a') = tl (persistHook (BankKeeper a)).
Proof.
  intros [] Hreg Hpau Hrest. destruct inv_sets0 as [Hn Hne]. unfold rollbackDepositClaimState.
  rewrite bind_run, on_bridge_run, BridgeState.bridge_ImportState_run by done. cbn [fst snd].
  rewrite bind_run, on_bank_run, Bank.bank_ImportState_run by done. cbn [fst snd].
  rewrite bind_run, app_on_limits_run.
  match goal with |- context [Limits.ImportState _ ?l] =>
    destruct (Limits.ImportState_restores (LimitsKeeper a0) l inv_limits0) as (l' & -> & Hl & Hu) end.
  cbn [fst snd].
  rewrite bind_run, on_bridge_run. cbn [fst snd BridgeState.Flush BridgeState.persist modify].
  rewrite bind_run, on_bank_run. unfold Bank.Flush. rewrite persist_result.
  unfold persist_outcome. cbn [set_bridge set_bank BankKeeper upd_balances persistHook].
  assert (Hsame : forall k b l, balances b = balances (BankKeeper a0) ->
    limits l = limits (LimitsKeeper a0) -> usage l = usage (LimitsKeeper a0) ->
    same_contents a0 (set_bridge (BridgeState.mk_keeper (RegistryKeeper a) l (PauserKeeper a)
      (signerSets (BridgeKeeper a0)) (currentHeight (BridgeKeeper a0)) (processedClaims (BridgeKeeper a0))
      (rejectedClaims (BridgeKeeper a0)) (supplyByDenom (BridgeKeeper a0)) (withdrawals (BridgeKeeper a0))
      (circuitBreakerTripped (BridgeKeeper a0)) (lastInvariantError (BridgeKeeper a0))
      (restored_nonce (nextWithdrawalNonce (BridgeKeeper a0))) k) (set_bank b a))).
  { intros k b l Hb Hl' Hu'. split; try done. }
  pose proof (balances_persist (upd_balances (fun _ => balances (BankKeeper a0)) (BankKeeper a))) as Hbal.
  pose proof (hook_persist (upd_balances (fun _ => balances (BankKeeper a0)) (BankKeeper a))) as Hhk.
  destruct (persistHook (BankKeeper a)) as [|[e|] hooks] eqn:Hhook.
  - eexists. split; [rewrite app_on_limits_run; reflexivity|]. split.
    + apply Hsame; [exact Hbal|exact (eq_trans (limits_persist l') Hl)|exact (eq_trans (usage_persist l') Hu)].
    + etrans; [exact Hhk|]. exact (f_equal (@tl _) Hhook).
  - eexists. split; [reflexivity|]. split.
    + apply Hsame; [exact Hbal|done|done].
    + etrans; [exact Hhk|]. exact (f_equal (@tl _) Hhook).
  - eexists. split; [rewrite app_on_limits_run; reflexivity|]. split.
    + apply Hsame; [exact Hbal|exact (eq_trans (limits_persist l') Hl)|exact (eq_trans (usage_persist l') Hu)].
    + etrans; [exact Hhk|]. exact (f_equal (@tl _) Hhook).
Qed.
End runs.

(** ** Deposits *)

Lemma wf_asset_settled r id a : Registry.wf r -> GetAsset r id = Some a -> settled a.
Proof. intros [Hm _] Ha. by apply (Hm _ _ Ha). Qed.

Lemma bridge_denom_settled a :
  settled a -> bridgeDenomForAsset a = TrimSpace (Denom a) /\ bridgeDenomForAsset a <> EmptyString.
Proof.
  intros Hs. pose proof (settled_denom_nonblank a Hs) as Hne. unfold bridgeDenomForAsset.
  rewrite decide_False by done. by rewrite (settled_denoms a Hs).
Qed.

Section deposits.
Context `{MapIteration} `{Crypto} `{AddressCodec}.

Lemma normalizeAddress_ok addr r :
  Bank.normalizeAddress addr = Ok r -> r = TrimSpace addr /\ r <> EmptyString.
Proof.
  unfold Bank.normalizeAddress. cbv zeta. case_decide; [done|].
  destruct (AccAddressFromBech32 _); [|done]. by intros [= <-].
Qed.

Lemma valid_args_ok addr denom v :
  TrimSpace addr <> EmptyString -> TrimSpace denom <> EmptyString -> (0 < v)%Z ->
  valid_args addr denom (Some v) = Some (TrimSpace addr, TrimSpace denom, v).
Proof. intros. unfold valid_args. by rewrite decide_True. Qed.

(** A wallet credit, as the application runs it. *)
Lemma credit_run addr denom v a :
  TrimSpace addr <> EmptyString -> TrimSpace denom <> EmptyString -> (0 < v)%Z ->
  exists bank', on_bank (Credit addr denom (Some v)) a = (persist_outcome (BankKeeper a), set_bank bank' a) /\
    balances bank' = put_amount (TrimSpace addr) (TrimSpace denom)
      (bal (balances (BankKeeper a)) (TrimSpace addr) (TrimSpace denom) + v)%Z (balances (BankKeeper a)) /\
    persistHook bank' = tl (persistHook (BankKeeper a)) /\
    (Bank.wf (BankKeeper a) -> Bank.wf bank').
Proof.
  intros Ha Hd Hv. rewrite on_bank_run. exists (snd (Credit addr denom (Some v) (BankKeeper a))).
  assert (Hrun := Credit_run addr denom (Some v) (BankKeeper a)).
  rewrite valid_args_ok in Hrun by done. split_and!.
  - by rewrite Hrun, persist_result.
  - by rewrite Hrun, balances_persist.
  - by rewrite Hrun, hook_persist.
  - apply Credit_wf.
Qed.

(** The claim as it is executed: to the normalised recipient. *)
Definition normalized (claim : DepositClaim) : DepositClaim :=
  with_recipient (TrimSpace (Recipient claim)) claim.

(** The application after the bridge has accepted a claim. *)
Definition bridge_accepted (a : App) (claim : DepositClaim) (asset : Asset) (amt : Z) : App :=
  set_bridge (snd (BridgeState.persist (deposited (BridgeKeeper a) claim asset amt))) a.

(** The outcomes of a submission. *)
Lemma submit_run claim att a :
  app_inv a ->
  (exists e, Bank.normalizeAddress (Recipient claim) = Err e /\
     submitDepositClaimLocked claim att a = (Err (no_result, e), a)) \/
  (exists res e, ResStatus res = ClaimStatusRejected /\
     submitDepositClaimLocked claim att a =
       (Err (res, e), set_bridge (reject_state (BridgeKeeper a)) a)) \/
  (exists asset amt bank', Bank.normalizeAddress (Recipient claim) = Ok (TrimSpace (Recipient claim)) /\
     deposit_admissible (BridgeKeeper a) (normalized claim) att asset amt /\
     balances bank' = put_amount (TrimSpace (Recipient claim)) (bridgeDenomForAsset asset)
       (bal (balances (BankKeeper a)) (TrimSpace (Recipient claim)) (bridgeDenomForAsset asset) + amt)%Z
       (balances (BankKeeper a)) /\
     persistHook bank' = tl (persistHook (BankKeeper a)) /\ Bank.wf bank' /\
     match persist_outcome (BankKeeper a) with
     | Ok _ => submitDepositClaimLocked claim att a =
         (Ok (accepted_result (normalized claim) (bridgeDenomForAsset asset) amt),
          set_bank bank' (bridge_accepted a (normalized claim) asset amt))
     | Err e => exists a', submitDepositClaimLocked claim att a =
           (Err (no_result, match persist_outcome bank' with Ok _ => e | Err e' => Joined e e' end), a') /\
         same_contents a a'
     end).
Proof.
  intros Hinv. unfold submitDepositClaimLocked, Bank.NormalizeAddress.
  rewrite or_fail_lift.
  destruct (Bank.normalizeAddress (Recipient claim)) as [r|e] eqn:Haddr.
  2: { left. eauto. }
  right. destruct (normalizeAddress_ok _ _ Haddr) as [-> Hne]. cbv zeta.
  rewrite !gets_bind, bind_run, on_bridge_run.
  change (with_recipient (TrimSpace (Recipient claim)) claim) with (normalized claim).
  destruct (ExecuteDepositClaim_run (BridgeKeeper a) (normalized claim) att (inv_ledger a Hinv))
    as [(asset & amt & Hadm & ->)|(res & e & Hres & _ & ->)]; cbn [fst snd].
  2: { left. exists res, e. by split. }
  right. cbn [accepted_result ResDenom ResAmount normalized with_recipient Recipient].
  fold (bridge_accepted a (normalized claim) asset amt).
  destruct (bridge_denom_settled asset) as [Hden Hdne].
  { apply (wf_asset_settled _ _ _ (inv_registry a Hinv) (adm_asset _ _ _ _ _ Hadm)). }
  assert (Htd : TrimSpace (bridgeDenomForAsset asset) = bridgeDenomForAsset asset)
    by (rewrite Hden; apply TrimSpace_idem).
  destruct (credit_run (TrimSpace (Recipient claim)) (bridgeDenomForAsset asset) amt
    (bridge_accepted a (normalized claim) asset amt)) as (bank' & Hcr & Hbal & Hhk & Hwf).
  { by rewrite TrimSpace_idem. } { by rewrite Htd. } { by apply adm_positive in Hadm. }
  rewrite TrimSpace_idem, Htd in Hbal.
  exists asset, amt, bank'. split_and!; [done..|by apply Hwf, (inv_bank a)|].
  rewrite attempt_bind, Hcr. cbn [fst snd].
  change (BankKeeper (bridge_accepted a (normalized claim) asset amt)) with (BankKeeper a).
  destruct (persist_outcome (BankKeeper a)) as [[]|e]; [done|].
  rewrite attempt_bind.
  destruct (rollback_restores a (set_bank bank' (bridge_accepted a (normalized claim) asset amt)) Hinv)
    as (a' & -> & Hsame & _); [done..|]. cbn [fst snd].
  exists a'. split; [|done]. change (BankKeeper (set_bank bank' _)) with bank'.
  by destruct (persist_outcome bank') as [[]|e'].
Qed.
End deposits.

(** ** Withdrawals *)

Section withdrawals.
Context `{MapIteration} `{Crypto} `{AddressCodec}.

(** A wallet debit, as the application runs it: refused for lack of funds,
    or applied with the outcome of the bank's save. *)
Lemma debit_run addr denom v a :
  TrimSpace addr <> EmptyString -> TrimSpace denom <> EmptyString -> (0 < v)%Z ->
  let a' := TrimSpace addr in
  let d := TrimSpace denom in
  let cur := bal (balances (BankKeeper a)) a' d in
  if (cur <? v)%Z
  then on_bank (Debit addr denom (Some v)) a = (Err (Sentinel ErrInsufficientBalance), a)
  else exists bank', on_bank (Debit addr denom (Some v)) a =
      (persist_outcome (BankKeeper a), set_bank bank' a) /\
    (forall x y, bal (balances bank') x y =
       bal (balances (BankKeeper a)) x y - if decide (a' = x /\ d = y) then v else 0)%Z /\
    (forall y, Bank.total (balances bank') y =
       Bank.total (balances (BankKeeper a)) y - if decide (d = y) then v else 0)%Z /\
    persistHook bank' = tl (persistHook (BankKeeper a)) /\
    (Bank.wf (BankKeeper a) -> Bank.wf bank').
Proof.
  intros Ha Hd Hv a' d cur. assert (Hrun := Debit_run addr denom (Some v) (BankKeeper a)).
  rewrite valid_args_ok in Hrun by done. fold a' d in Hrun.
  destruct (denoms_of (balances (BankKeeper a)) a' !! d) as [c|] eqn:Hc.
  2: { replace cur with 0%Z by (unfold cur, bal; by rewrite Hc).
       rewrite (proj2 (Z.ltb_lt 0 v)) by done. rewrite on_bank_run, Hrun. by destruct a. }
  assert (Hcur : cur = c) by (unfold cur, bal; by rewrite Hc). rewrite Hcur.
  destruct (Z.ltb_spec c v) as [Hlt|Hge]; [rewrite on_bank_run, Hrun; by destruct a|].
  exists (snd (Debit addr denom (Some v) (BankKeeper a))). rewrite on_bank_run.
  split_and!; [by rewrite Hrun, persist_result| | |by rewrite Hrun, hook_persist|apply Debit_wf];
    rewrite Hrun, balances_persist; cbn [upd_balances balances].
  - intros x y. destruct (Z.eqb_spec (c - v) 0); [rewrite bal_drop|rewrite bal_put];
      (destruct (decide (a' = x /\ d = y)) as [[-> ->]|]; unfold cur in Hcur; lia).
  - intros y. unfold cur in Hcur.
    destruct (Z.eqb_spec (c - v) 0); [rewrite total_drop|rewrite total_put]; case_decide; lia.
Qed.

Definition bridge_withdrawn (a : App) (assetID : string) (asset : Asset) (amt : Z)
    (w : WithdrawalRecord) : App :=
  set_bridge (snd (BridgeState.persist (withdrawn (BridgeKeeper a) assetID asset amt w))) a.

(** The outcomes of a withdrawal. *)
Lemma withdraw_run owner assetID amount recipient deadline signature a :
  app_inv a ->
  let W := ExecuteWithdrawal owner assetID amount recipient deadline signature a in
  (exists e, W = (Err e, a)) \/
  W = (Err (Sentinel ErrInsufficientSupply),
       set_bridge (recorded_transfer (BridgeKeeper a) assetID amount) a) \/
  (exists asset amt w, Bank.normalizeAddress owner = Ok (TrimSpace owner) /\
     withdrawal_allowed (BridgeKeeper a) assetID amount recipient deadline signature asset amt /\
     (amt <= SupplyForDenom (BridgeKeeper a) (bridgeDenomForAsset asset))%Z /\
     w = new_record (BridgeKeeper a) assetID asset amt recipient deadline signature /\
     if (bal (balances (BankKeeper a)) (TrimSpace owner) (bridgeDenomForAsset asset) <? amt)%Z
     then exists a', W = (Err (match persist_outcome (BankKeeper a) with
                     | Ok _ => Sentinel ErrInsufficientBalance
                     | Err e => Joined (Sentinel ErrInsufficientBalance) e end), a') /\
            same_contents a a' /\ persistHook (BankKeeper a') = tl (persistHook (BankKeeper a))
     else exists bank',
       (forall x y, bal (balances bank') x y = bal (balances (BankKeeper a)) x y -
          if decide (TrimSpace owner = x /\ bridgeDenomForAsset asset = y) then amt else 0)%Z /\
       (forall y, Bank.total (balances bank') y = Bank.total (balances (BankKeeper a)) y -
          if decide (bridgeDenomForAsset asset = y) then amt else 0)%Z /\
       persistHook bank' = tl (persistHook (BankKeeper a)) /\ Bank.wf bank' /\
       match persist_outcome (BankKeeper a) with
       | Ok _ => W = (Ok w, set_bank bank' (bridge_withdrawn a assetID asset amt w))
       | Err e => exists a', W =
           (Err (match persist_outcome bank' with Ok _ => e | Err e' => Joined e e' end), a') /\
           same_contents a a'
       end).
Proof.
  intros Hinv W. unfold W, ExecuteWithdrawal, Bank.NormalizeAddress. clear W.
  rewrite bind_run. cbn [lift fst snd].
  destruct (Bank.normalizeAddress owner) as [r|e] eqn:Haddr; [|left; eauto].
  destruct (normalizeAddress_ok _ _ Haddr) as [-> Hne].
  rewrite !gets_bind, bind_run, on_bridge_run.
  destruct (ExecuteWithdrawal_run assetID amount recipient deadline signature (BridgeKeeper a)
    (inv_ledger a Hinv)) as [(asset & amt & w & Hadm & Hle & Hw & ->)
      |[(asset & amt & _ & _ & ->)|(e & _ & ->)]]; cbn [fst snd];
    [|by right; left|left; exists e; by destruct a].
  right. right. exists asset, amt, w. split_and!; [done..|].
  fold (bridge_withdrawn a assetID asset amt w). rewrite gets_bind.
  change (RegistryKeeper (bridge_withdrawn a assetID asset amt w)) with (RegistryKeeper a).
  change (GetAsset (RegistryKeeper a) assetID) with (GetAsset (BridgeState.registryKeeper (BridgeKeeper a)) assetID).
  rewrite (wd_asset _ _ _ _ _ _ _ _ Hadm).
  destruct (bridge_denom_settled asset) as [Hden Hdne].
  { apply (wf_asset_settled _ _ _ (inv_registry a Hinv) (wd_asset _ _ _ _ _ _ _ _ Hadm)). }
  assert (Hamt : WAmount w = amt) by (by rewrite Hw).
  rewrite Hamt, attempt_bind. rewrite Hden in *.
  assert (Hdeb := debit_run (TrimSpace owner) (Denom asset) amt (bridge_withdrawn a assetID asset amt w)
    ltac:(by rewrite TrimSpace_idem) Hdne (wd_positive _ _ _ _ _ _ _ _ Hadm)).
  cbv zeta in Hdeb. rewrite TrimSpace_idem in Hdeb.
  change (BankKeeper (bridge_withdrawn a assetID asset amt w)) with (BankKeeper a) in Hdeb.
  destruct (bal _ _ _ <? amt)%Z.
  - rewrite Hdeb. cbn [fst snd]. rewrite attempt_bind.
    destruct (rollback_restores a (bridge_withdrawn a assetID asset amt w) Hinv)
      as (a' & Hrb & Hsame & Hhk); [done..|]. unfold rollbackWithdrawalState. rewrite Hrb. cbn [fst snd].
    change (BankKeeper (bridge_withdrawn a assetID asset amt w)) with (BankKeeper a) in *.
    exists a'. split; [|done]. by destruct (persist_outcome (BankKeeper a)) as [[]|e'].
  - destruct Hdeb as (bank' & -> & Hbal & Htot & Hhk & Hwf). cbn [fst snd].
    exists bank'. split_and!; [done..|by apply Hwf, (inv_bank a)|].
    destruct (persist_outcome (BankKeeper a)) as [[]|e]; [done|]. rewrite attempt_bind.
    destruct (rollback_restores a (set_bank bank' (bridge_withdrawn a assetID asset amt w)) Hinv)
      as (a' & Hrb & Hsame & _); [done..|]. unfold rollbackWithdrawalState. rewrite Hrb. cbn [fst snd].
    exists a'. split; [|done]. change (BankKeeper (set_bank bank' _)) with bank'.
    by destruct (persist_outcome bank') as [[]|e'].
Qed.
End withdrawals.

(** ** Histories of the application *)

(** The operations of [App], the direct wallet operations [CreditWallet] and
    [DebitWallet] apart. *)
Inductive app_action :=
| AppSetHeight (height : N)
| AppQueue (claim : DepositClaim) (att : Attestation)
| AppAdvance
| AppDeposit (claim : DepositClaim) (att : Attestation)
| AppWithdraw (owner assetID : string) (amount : option Z) (recipient : string) (deadline : N)
    (signature : string)
| AppRegister (asset : Asset)
| AppSetLimit (limit : RateLimit)
| AppPause (flow : string)
| AppUnpause (flow : string)
| AppInitiate (assetID : string) (amount : option Z) (receiver : string) (timeoutHeight : N)
    (memo : string)
| AppInitiateWithProfile (route assetID : string) (amount : option Z) (receiver : string)
    (timeoutHeight : N) (memo : string)
| AppFail (transferID reason : string)
| AppTimeout (transferID : string)
| AppComplete (transferID : string)
| AppRefund (transferID : string)
| AppSetRoute (route : Route)
| AppSetProfile (profile : RouteProfile)
| AppGovern (authority : string) (p : proposal)
| AppSave.

Section histories.
Context `{MapIteration} `{Crypto} `{AddressCodec}.

Definition exec_app (act : app_action) (a : App) : App :=
  match act with
  | AppSetHeight h => snd (SetCurrentHeight h a)
  | AppQueue claim att => snd (QueueDepositClaim claim att a)
  | AppAdvance => snd (AdvanceBlock a)
  | AppDeposit claim att => snd (SubmitDepositClaim claim att a)
  | AppWithdraw owner id amount recipient deadline signature =>
      snd (ExecuteWithdrawal owner id amount recipient deadline signature a)
  | AppRegister asset => snd (RegisterAsset asset a)
  | AppSetLimit limit => snd (SetLimit limit a)
  | AppPause flow => snd (Pause flow a)
  | AppUnpause flow => snd (Unpause flow a)
  | AppInitiate id amount receiver timeout memo =>
      snd (InitiateIBCTransfer id amount receiver timeout memo a)
  | AppInitiateWithProfile route id amount receiver timeout memo =>
      snd (InitiateIBCTransferWithProfile route id amount receiver timeout memo a)
  | AppFail id reason => snd (FailIBCTransfer id reason a)
  | AppTimeout id => snd (TimeoutIBCTransfer id a)
  | AppComplete id => snd (CompleteIBCTransfer id a)
  | AppRefund id => snd (RefundIBCTransfer id a)
  | AppSetRoute route => snd (SetRoute route a)
  | AppSetProfile profile => snd (SetRouteProfile profile a)
  | AppGovern authority p => snd (ApplyProposal authority p a)
  | AppSave => snd (Save a)
  end.

Fixpoint exec_apps (acts : list app_action) (a : App) : App :=
  match acts with [] => a | act :: rest => exec_apps rest (exec_app act a) end.

Context (escrow : string -> Z).

Record good (a : App) : Prop := {
  good_inv : app_inv a;
  good_backed : backed_with escrow a;
  good_hook : persistHook (BankKeeper a) = []
}.

Lemma good_restored a b :
  good a -> same_contents a b -> persistHook (BankKeeper b) = [] -> good b.
Proof.
  intros [[Hl Hb Hr Hli [Hn Hne]] Hback _] [Hbr Hbal Hreg [Hlim Hus] Hpau _] Hhk.
  destruct Hbr as (Hss & _ & Hpc & _ & Hsup & Hwd & _). split; [split|..|done].
  - by apply (balanced_ext (BridgeKeeper a)).
  - unfold Bank.wf. by rewrite Hbal.
  - by rewrite Hreg.
  - unfold Limits.wf. by rewrite Hlim, Hus.
  - unfold sets_normal. by rewrite Hss.
  - intros d. unfold SupplyForDenom. rewrite Hbal, Hsup. apply Hback.
Qed.

(** An operation that leaves the bank and the books alone. *)
Lemma good_update a b :
  good a -> denoms_kept (RegistryKeeper a) (RegistryKeeper b) ->
  Registry.wf (RegistryKeeper b) -> Limits.wf (LimitsKeeper b) ->
  signerSets (BridgeKeeper b) = signerSets (BridgeKeeper a) ->
  withdrawals (BridgeKeeper b) = withdrawals (BridgeKeeper a) ->
  processedClaims (BridgeKeeper b) = processedClaims (BridgeKeeper a) ->
  supplyByDenom (BridgeKeeper b) = supplyByDenom (BridgeKeeper a) ->
  BankKeeper b = BankKeeper a -> good b.
Proof.
  intros [[Hl Hb Hr Hli [Hn Hne]] Hback Hhk] Hkept Hwf Hlwf Hss Hwd Hpc Hsup Hbank.
  split; [split|..].
  - by apply (denoms_kept_balanced (BridgeKeeper a)).
  - by rewrite Hbank.
  - done.
  - done.
  - unfold sets_normal. by rewrite Hss.
  - intros d. unfold SupplyForDenom. rewrite Hbank, Hsup. apply Hback.
  - by rewrite Hbank.
Qed.

Lemma recorded_transfer_wf k id amount :
  Limits.wf (BridgeState.limitsKeeper k) -> Limits.wf (BridgeState.limitsKeeper (recorded_transfer k id amount)).
Proof. intros Hl. by apply RecordTransferAtHeight_wf. Qed.

Lemma good_submit claim att a : good a -> good (snd (submitDepositClaimLocked claim att a)).
Proof.
  intros Hg. destruct Hg as [Hinv Hback Hhk] eqn:He. clear He.
  destruct (submit_run claim att a Hinv) as [(e & _ & ->)|[(res & e & _ & ->)|
    (asset & amt & bank' & _ & Hadm & Hbal & Hhk' & Hwf & Hrun)]]; [done| |].
  - apply (good_update a); try done; [apply denoms_kept_refl|apply Hinv|apply Hinv].
  - unfold persist_outcome in Hrun. rewrite Hhk in Hrun. rewrite Hrun. cbn [snd].
    assert (Hl := deposited_ledger_inv _ _ _ _ _ (inv_ledger a Hinv) Hadm).
    split; [split|..].
    + by apply persist_ledger_inv.
    + done.
    + apply Hinv.
    + apply recorded_transfer_wf, Hinv.
    + apply Hinv.
    + intros d. cbn [set_bank BankKeeper BridgeKeeper bridge_accepted set_bridge]. rewrite Hbal, total_put.
      etrans; [|symmetry; apply lookup_add_amount].
      change (lookup_amount _ d) with (SupplyForDenom (BridgeKeeper a) d). specialize (Hback d).
      unfold eqs. case_decide; case_bool_decide; try done; lia.
    + cbn. by rewrite Hhk', Hhk.
Qed.

Lemma good_withdraw owner id amount recipient deadline signature a :
  good a -> good (snd (ExecuteWithdrawal owner id amount recipient deadline signature a)).
Proof.
  intros Hg. destruct Hg as [Hinv Hback Hhk] eqn:He. clear He.
  destruct (withdraw_run owner id amount recipient deadline signature a Hinv) as [(e & ->)|[->|
    (asset & amt & w & _ & Hadm & Hle & Hw & Hrun)]]; [done| |].
  - apply (good_update a); try done; [apply denoms_kept_refl|apply Hinv|].
    apply recorded_transfer_wf, Hinv.
  - unfold persist_outcome in Hrun. rewrite Hhk in Hrun. destruct (_ <? _)%Z.
    { destruct Hrun as (a' & -> & Hsame & Hhk'). by apply (good_restored a). }
    destruct Hrun as (bank' & _ & Htot & Hhk' & Hwf & ->). cbn [snd].
    assert (Hl := withdrawn_ledger_inv id amount recipient deadline signature _ asset amt
      (inv_ledger a Hinv) Hadm Hle).
    split; [split|..].
    + apply persist_ledger_inv. by rewrite Hw.
    + done.
    + apply Hinv.
    + apply recorded_transfer_wf, Hinv.
    + apply Hinv.
    + intros d. cbn [set_bank BankKeeper BridgeKeeper bridge_withdrawn set_bridge]. rewrite Htot.
      etrans; [|symmetry; apply lookup_add_amount].
      change (lookup_amount _ d) with (SupplyForDenom (BridgeKeeper a) d). specialize (Hback d).
      unfold eqs. case_decide; case_bool_decide; try done; lia.
    + cbn. by rewrite Hhk'.
Qed.

Lemma good_set_pending l a : good a -> good (set_pending l a).
Proof.
  intros Hg. apply (good_update a); try done; [apply denoms_kept_refl|apply Hg|apply Hg].
Qed.

Lemma good_queued pending progress a : good a -> good (snd (apply_queued pending progress a)).
Proof.
  revert progress a. induction pending as [|q pending IH]; intros progress a Hg; cbn [apply_queued]; [done|].
  pose proof (good_submit (Claim q) (QAttestation q) a Hg) as Hs.
  destruct (submitDepositClaimLocked (Claim q) (QAttestation q) a) as [[r|[r e]] a']; by apply IH.
Qed.

Lemma good_advance a : good a -> good (snd (AdvanceBlock a)).
Proof.
  intros Hg. unfold AdvanceBlock. set (a1 := set_bridge _ a).
  assert (Hg1 : good a1).
  { apply (good_update a); try done; [apply denoms_kept_refl|apply Hg|apply Hg]. }
  clearbody a1. destruct (pendingDepositClaims a1) as [|q l]; [done|].
  pose proof (good_queued (q :: l) (mk_progress (u64_incr (MetaHeight (StMeta
    (BridgeState.ExportState (BridgeKeeper a))))) 0 0 (u64_incr (MetaHeight (StMeta
    (BridgeState.ExportState (BridgeKeeper a))))) EmptyString []) _ (good_set_pending [] a1 Hg1)) as Hq.
  by destruct (apply_queued _ _ _).
Qed.

Lemma on_router_run {E A} (m : M E IBCRouter.Keeper A) a :
  on_router m a = (fst (m (IBCRouterKeeper a)), set_router (snd (m (IBCRouterKeeper a))) a).
Proof. unfold on_router, zoom. by destruct (m (IBCRouterKeeper a)). Qed.

Lemma good_router {A} (m : Op IBCRouter.Keeper A) a : good a -> good (snd (on_router m a)).
Proof.
  intros Hg. rewrite on_router_run.
  apply (good_update a); try done; [apply denoms_kept_refl|apply Hg|apply Hg].
Qed.

Lemma effect_keepers p g :
  denoms_kept (Governance.registryKeeper g) (Governance.registryKeeper (effect p g)) /\
  (Registry.wf (Governance.registryKeeper g) -> Registry.wf (Governance.registryKeeper (effect p g))) /\
  (Limits.wf (Governance.limitsKeeper g) -> Limits.wf (Governance.limitsKeeper (effect p g))).
Proof.
  destruct p as [p|p|p]; cbn [effect].
  - split_and!; [apply enable_denoms_kept|apply setAssetEnabled_wf|done].
  - split_and!; [apply denoms_kept_refl|done|apply SetLimit_wf].
  - destruct (GetRouteProfile _ _); (split_and!; [apply denoms_kept_refl|done|done]).
Qed.

Lemma good_govern authority p a : good a -> good (snd (ApplyProposal authority p a)).
Proof.
  intros Hg. unfold ApplyProposal, on_governance, zoom.
  destruct (apply_outcome authority p (GovernanceKeeper a)) as [[e ->]|(r & -> & _)]; cbn [snd].
  - apply (good_update a); try done; [apply denoms_kept_refl|apply Hg|apply Hg].
  - destruct (effect_keepers p (GovernanceKeeper a)) as (Hkept & Hr & Hl).
    apply (good_update a); try done; [apply Hr, Hg|apply Hl, Hg].
Qed.

Lemma good_shared {A} (m : Op BridgeState.Keeper A) act a :
  snd (m (BridgeKeeper a)) = Bridge.exec act (BridgeKeeper a) ->
  (act = ASetHeight (currentHeight (snd (m (BridgeKeeper a)))) \/
   (exists x, act = ARegisterAsset x) \/ (exists x, act = ASetLimit x) \/
   (exists x, act = APause x) \/ (exists x, act = AUnpause x)) ->
  good a -> good (snd (on_bridge m a)).
Proof.
  intros Hm Hact Hg. rewrite on_bridge_run, Hm.
  destruct Hact as [->|[[x ->]|[[x ->]|[[x ->]|[x ->]]]]]; cbn [snd Bridge.exec];
    rewrite ?Bridge.on_registry_run, ?Bridge.bridge_on_limits_run, ?Bridge.on_pauser_run;
    apply (good_update a); try done; try apply denoms_kept_refl; try apply Hg.
  - apply register_denoms_kept.
  - apply RegisterAsset_wf, Hg.
  - apply SetLimit_wf, Hg.
Qed.

Lemma good_bank escrow' bank' a :
  good a -> Bank.wf bank' -> persistHook bank' = [] ->
  (forall d, Bank.total (balances bank') d + escrow' d = Bank.total (balances (BankKeeper a)) d + escrow d)%Z ->
  app_inv (set_bank bank' a) /\ backed_with escrow' (set_bank bank' a) /\ persistHook (BankKeeper (set_bank bank' a)) = [].
Proof.
  intros [[Hl _ Hr Hli Hs] Hback _] Hwf Hhk Htot. split_and!; [by split| |done].
  intros d. change (SupplyForDenom (BridgeKeeper (set_bank bank' a)) d) with (SupplyForDenom (BridgeKeeper a) d).
  rewrite <- (Hback d). apply Htot.
Qed.

Lemma good_same_registry r a :
  good a -> assets r = assets (RegistryKeeper a) ->
  good (set_bridge (BridgeState.upd_registryKeeper (fun _ => r) (BridgeKeeper a)) a).
Proof.
  intros Hg Hr. apply (good_update a); try done; cbn; [|unfold Registry.wf; rewrite Hr; apply Hg|apply Hg].
  intros id x Hx. exists x. split; [|done]. unfold GetAsset in *. by rewrite Hr.
Qed.

Lemma good_same_limits l a :
  good a -> limits l = limits (LimitsKeeper a) -> usage l = usage (LimitsKeeper a) ->
  good (set_bridge (BridgeState.upd_limitsKeeper (fun _ => l) (BridgeKeeper a)) a).
Proof.
  intros Hg Hl Hu. apply (good_update a); try done; cbn; [apply denoms_kept_refl|apply Hg|].
  unfold Limits.wf. rewrite Hl, Hu. apply Hg.
Qed.

Lemma good_flush : preserves good flush_keepers.
Proof.
  unfold flush_keepers. repeat (apply preserves_bind; [|intros []]); try (intros a Hg).
  - rewrite on_bank_run. cbn [snd].
    destruct (good_bank escrow (snd (Bank.Flush (BankKeeper a))) a Hg) as (H1' & H2' & H3'); [..|by split].
    + unfold Bank.wf, Bank.Flush. rewrite balances_persist. apply Hg.
    + unfold Bank.Flush. by rewrite hook_persist, (good_hook _ Hg).
    + intros d. unfold Bank.Flush. by rewrite balances_persist.
  - unfold on_registry. rewrite on_bridge_run, Bridge.on_registry_run. cbn [fst snd]. apply good_same_registry; [done|].
    unfold Registry.Flush, Registry.persist, modify. cbn [snd]. by destruct (Registry.prefixStore _).
  - rewrite app_on_limits_run. cbn [snd]. apply good_same_limits; [done|apply limits_persist|apply usage_persist].
  - unfold on_pauser. rewrite on_bridge_run, Bridge.on_pauser_run. cbn [snd].
    apply (good_update a); try done; [apply denoms_kept_refl|apply Hg|apply Hg].
  - rewrite on_bridge_run. cbn [snd]. apply (good_update a); try done; [apply denoms_kept_refl|apply Hg|apply Hg].
  - by apply good_router.
  - unfold on_governance, zoom. cbn. apply (good_update a); try done; [apply denoms_kept_refl|apply Hg|apply Hg].
Qed.

Lemma good_save : preserves good Save.
Proof.
  unfold Save. apply preserves_bind; [apply good_flush|intros [] a Hg].
  cbn. apply (good_update a); try done; [apply denoms_kept_refl|apply Hg|apply Hg].
Qed.

Lemma good_exec act a : good a -> good (exec_app act a).
Proof.
  intros Hg. destruct act; cbn [exec_app]; try (by apply good_router).
  - apply (good_shared _ (ASetHeight height)); [done|by left|done].
  - unfold QueueDepositClaim, bind, lift, gets, modify.
    destruct (deposit_ValidateBasic claim); [|done].
    destruct (attestation_ValidateBasic att); [|done].
    destruct (Bank.NormalizeAddress (Recipient claim)); [|done]. by apply good_set_pending.
  - by apply good_advance.
  - by apply good_submit.
  - by apply good_withdraw.
  - apply (good_shared _ (ARegisterAsset asset)); [done|right; eauto|done].
  - apply (good_shared _ (ASetLimit limit)); [done|right; eauto|done].
  - apply (good_shared _ (APause flow)); [done|right; eauto|done].
  - apply (good_shared _ (AUnpause flow)); [done|right; eauto 10|done].
  - by apply good_govern.
  - by apply good_save.
Qed.
End histories.

(** ** Wallets outside the bridge's operations *)

Section wallets.
Context `{MapIteration} `{Crypto} `{AddressCodec}.

(** Coins taken out of the wallets are escrowed, coins put back are released. *)
Definition add_escrow (denom : string) (v : Z) (escrow : string -> Z) (d : string) : Z :=
  (escrow d + if decide (TrimSpace denom = d) then v else 0)%Z.

Lemma good_bank_as escrow escrow' bank' a :
  good escrow a -> Bank.wf bank' -> persistHook bank' = [] ->
  (forall d, Bank.total (balances bank') d + escrow' d = Bank.total (balances (BankKeeper a)) d + escrow d)%Z ->
  good escrow' (set_bank bank' a).
Proof. intros Hg Hwf Hhk Htot. destruct (good_bank escrow escrow' bank' a Hg Hwf Hhk Htot) as (? & ? & ?). by split. Qed.

Lemma debit_good escrow addr denom v a :
  good escrow a ->
  match DebitWallet addr denom (Some v) a with
  | (Ok _, a') =>
      (0 < v)%Z /\ TrimSpace addr <> EmptyString /\ TrimSpace denom <> EmptyString /\
      (v <= bal (balances (BankKeeper a)) (TrimSpace addr) (TrimSpace denom))%Z /\
      good (add_escrow denom v escrow) a' /\ a' = set_bank (BankKeeper a') a /\
      forall x d, bal (balances (BankKeeper a')) x d =
        (bal (balances (BankKeeper a)) x d - if decide (TrimSpace addr = x /\ TrimSpace denom = d) then v else 0)%Z
  | (Err _, a') => a' = a
  end.
Proof.
  intros Hg. unfold DebitWallet.
  destruct (decide (TrimSpace addr <> EmptyString /\ TrimSpace denom <> EmptyString /\ (0 < v)%Z)) as [(Ha & Hd & Hv)|Hbad].
  2: { rewrite on_bank_run, Debit_run. unfold valid_args. rewrite decide_False by done. cbn [fst snd]. by destruct a. }
  pose proof (debit_run addr denom v a Ha Hd Hv) as Hrun. cbv zeta in Hrun.
  destruct (Z.ltb_spec (bal (balances (BankKeeper a)) (TrimSpace addr) (TrimSpace denom)) v) as [Hlt|Hge]; [by rewrite Hrun|].
  destruct Hrun as (bank' & -> & Hbal & Htot & Hhk & Hwf). unfold persist_outcome. rewrite (good_hook _ _ Hg).
  split_and!; try done. apply (good_bank_as escrow); [done|by apply Hwf, Hg|by rewrite Hhk, (good_hook _ _ Hg)|].
  intros d. rewrite Htot. unfold add_escrow. lia.
Qed.

Lemma credit_good escrow addr denom v a :
  good (add_escrow denom v escrow) a ->
  TrimSpace addr <> EmptyString -> TrimSpace denom <> EmptyString -> (0 < v)%Z ->
  exists bank', CreditWallet addr denom (Some v) a = (Ok tt, set_bank bank' a) /\ good escrow (set_bank bank' a) /\
    forall x d, bal (balances bank') x d =
      (bal (balances (BankKeeper a)) x d + if decide (TrimSpace addr = x /\ TrimSpace denom = d) then v else 0)%Z.
Proof.
  intros Hg Ha Hd Hv. destruct (credit_run addr denom v a Ha Hd Hv) as (bank' & Hrun & Hbal & Hhk & Hwf).
  exists bank'. unfold CreditWallet. rewrite Hrun. unfold persist_outcome. rewrite (good_hook _ _ Hg).
  split_and!; [done| |].
  - apply (good_bank_as (add_escrow denom v escrow)); [done|by apply Hwf, Hg|by rewrite Hhk, (good_hook _ _ Hg)|].
    intros d. rewrite Hbal, total_put. unfold add_escrow. case_decide; lia.
  - intros x d. rewrite Hbal, bal_put. destruct (decide _) as [[<- <-]|]; lia.
Qed.
End wallets.

(** ** Theorems *)

Section theorems.
Context `{MapIteration} `{Crypto} `{AddressCodec}.

(** C1: every bridged token is backed. Starting from a state whose wallets
    add up to the bridge supply, after any sequence of application operations
    — deposits, withdrawals, blocks draining the claim queue, asset, limit,
    pause, route, transfer and governance operations, in any order, failing or
    not — the balances of all wallets still add up to the bridge supply of
    every denom, the bridge's books are balanced and the keepers' invariants
    hold. *)
Theorem wallets_back_supply (acts : list app_action) (a : App) :
  app_inv a -> backed a -> persistHook (BankKeeper a) = [] ->
  app_inv (exec_apps acts a) /\ backed (exec_apps acts a).
Proof.
  intros Hi Hb Hh. assert (Hg : good (fun _ => 0%Z) a) by by (split; [|apply backed_with_none|]).
  cut (good (fun _ => 0%Z) (exec_apps acts a)); [by intros [? ?%backed_with_none]|]. clear Hi Hb Hh. revert a Hg.
  induction acts as [|act acts IH]; intros a Hg; cbn [exec_apps]; [done|].
  by apply IH, good_exec.
Qed.

(** C14: a deposit submission is all or nothing. If it is accepted, the bridge
    minted an amount that the recipient's wallet received in full, and no other
    balance changed; if it is refused, either the application is exactly as
    before or only the bridge's counter of rejected claims moved. *)
Theorem SubmitDepositClaim_atomic (claim : DepositClaim) (att : Attestation) (a : App) :
  app_inv a -> persistHook (BankKeeper a) = [] ->
  match SubmitDepositClaim claim att a with
  | (Ok res, a') =>
      exists asset amt,
        deposit_admissible (BridgeKeeper a) (normalized claim) att asset amt /\
        res = accepted_result (normalized claim) (bridgeDenomForAsset asset) amt /\
        (forall d, SupplyForDenom (BridgeKeeper a') d =
           SupplyForDenom (BridgeKeeper a) d + if eqs (bridgeDenomForAsset asset) d then amt else 0)%Z /\
        (forall x d, bal (balances (BankKeeper a')) x d = bal (balances (BankKeeper a)) x d +
           if decide (TrimSpace (Recipient claim) = x /\ bridgeDenomForAsset asset = d) then amt else 0)%Z
  | (Err _, a') => a' = a \/ a' = set_bridge (reject_state (BridgeKeeper a)) a
  end.
Proof.
  intros Hinv Hhk. unfold SubmitDepositClaim.
  destruct (submit_run claim att a Hinv) as [(e & _ & ->)|[(res & e & _ & ->)|
    (asset & amt & bank' & _ & Hadm & Hbal & _ & _ & Hrun)]]; [by left|by right|].
  unfold persist_outcome in Hrun. rewrite Hhk in Hrun. rewrite Hrun.
  exists asset, amt. split_and!; [done..| |].
  - intros d. apply lookup_add_amount.
  - intros x d. cbn [set_bank BankKeeper]. rewrite Hbal, bal_put.
    destruct (decide _) as [[-> ->]|]; lia.
Qed.

(** A wallet credit that fails after the bridge has minted is undone: with
    the bank's next save failing, no submission is accepted, and the bridge,
    the wallets and the rate limits are left with the contents they had (the
    rejection counter aside, when it is the bridge that refuses). *)
Theorem deposit_rollback (claim : DepositClaim) (att : Attestation) (a : App) (e : error)
    (hooks : list (option error)) :
  app_inv a -> persistHook (BankKeeper a) = Some e :: hooks ->
  exists res err a', SubmitDepositClaim claim att a = (Err (res, err), a') /\
    (a' = a \/ a' = set_bridge (reject_state (BridgeKeeper a)) a \/
     same_contents a a' /\ res = no_result).
Proof.
  intros Hinv Hhk. unfold SubmitDepositClaim.
  destruct (submit_run claim att a Hinv) as [(e' & _ & ->)|[(res & e' & _ & ->)|
    (asset & amt & bank' & _ & Hadm & _ & _ & _ & Hrun)]]; [by eauto 10|by eauto 10|].
  unfold persist_outcome at 1 in Hrun. rewrite Hhk in Hrun. destruct Hrun as (a' & -> & Hsame).
  eauto 10.
Qed.

(** C15: a withdrawal burns exactly what it takes from the owner's wallet. If
    it is accepted, the supply and the owner's balance drop by its amount and
    no other balance changes. If it is refused the contents of the application
    are those it had before — an owner without the funds gets the bridge
    withdrawal undone — except that a withdrawal beyond the supply has used up
    its amount of the rate limit. *)
Theorem ExecuteWithdrawal_atomic (owner assetID : string) (amount : option Z) (recipient : string)
    (deadline : N) (signature : string) (a : App) :
  app_inv a -> persistHook (BankKeeper a) = [] ->
  match ExecuteWithdrawal owner assetID amount recipient deadline signature a with
  | (Ok w, a') =>
      exists asset, GetAsset (RegistryKeeper a) assetID = Some asset /\ (0 < WAmount w)%Z /\
        (WAmount w <= bal (balances (BankKeeper a)) (TrimSpace owner) (bridgeDenomForAsset asset))%Z /\
        withdrawals (BridgeKeeper a') = withdrawals (BridgeKeeper a) ++ [w] /\
        (forall d, SupplyForDenom (BridgeKeeper a') d = SupplyForDenom (BridgeKeeper a) d -
           if eqs (bridgeDenomForAsset asset) d then WAmount w else 0)%Z /\
        (forall x d, bal (balances (BankKeeper a')) x d = bal (balances (BankKeeper a)) x d -
           if decide (TrimSpace owner = x /\ bridgeDenomForAsset asset = d) then WAmount w else 0)%Z
  | (Err e, a') =>
      a' = a \/ (e = ErrInsufficientBalance /\ same_contents a a') \/
      (e = ErrInsufficientSupply /\
       a' = set_bridge (recorded_transfer (BridgeKeeper a) assetID amount) a)
  end.
Proof.
  intros Hinv Hhk.
  destruct (withdraw_run owner assetID amount recipient deadline signature a Hinv)
    as [(e & ->)|[->|(asset & amt & w & _ & Hadm & Hle & Hw & Hrun)]]; [by left|by right; right|].
  unfold persist_outcome in Hrun. rewrite Hhk in Hrun.
  destruct (Z.ltb_spec (bal (balances (BankKeeper a)) (TrimSpace owner) (bridgeDenomForAsset asset)) amt)
    as [Hlt|Hge].
  { destruct Hrun as (a' & -> & Hsame & _). right. by left. }
  destruct Hrun as (bank' & Hbal & _ & _ & _ & ->).
  assert (Hamt : WAmount w = amt) by by rewrite Hw.
  exists asset. rewrite Hamt. split_and!; try done.
  - exact (wd_asset _ _ _ _ _ _ _ _ Hadm).
  - exact (wd_positive _ _ _ _ _ _ _ _ Hadm).
  - intros d. etrans; [apply lookup_add_amount|].
    change (lookup_amount _ d) with (SupplyForDenom (BridgeKeeper a) d). destruct (eqs _ d); lia.
Qed.

(** How many of the queued claims a block accepts. *)
Fixpoint accepted_count (pending : list QueuedDepositClaim) (a : App) : nat :=
  match pending with
  | [] => 0
  | q :: rest =>
      let '(r, a') := submitDepositClaimLocked (Claim q) (QAttestation q) a in
      (if is_ok r then 1 else 0) + accepted_count rest a'
  end.

Lemma submit_pending claim att a :
  app_inv a ->
  pendingDepositClaims (snd (submitDepositClaimLocked claim att a)) = pendingDepositClaims a.
Proof.
  intros Hinv. destruct (submit_run claim att a Hinv) as [(e & _ & ->)|[(res & e & _ & ->)|
    (asset & amt & bank' & _ & _ & _ & _ & _ & Hrun)]]; [done|done|].
  destruct (persist_outcome (BankKeeper a)) as [[]|e]; [by rewrite Hrun|].
  destruct Hrun as (a' & -> & Hsame). cbn [snd]. by destruct (same_rest _ _ Hsame) as (_ & _ & -> & _).
Qed.

Lemma apply_queued_spec pending progress a :
  good (fun _ => 0%Z) a ->
  let '(p, a') := apply_queued pending progress a in
  Height p = Height progress /\ BridgeCurrentHeight p = BridgeCurrentHeight progress /\
  AppliedQueuedClaims p = AppliedQueuedClaims progress + accepted_count pending a /\
  length (AppliedClaimBalances p) = length (AppliedClaimBalances progress) + accepted_count pending a /\
  pendingDepositClaims a' = pendingDepositClaims a.
Proof.
  revert progress a. induction pending as [|q pending IH]; intros progress a Hg;
    cbn [apply_queued accepted_count]; [split_and!; lia || done|].
  pose proof (submit_pending (Claim q) (QAttestation q) a (good_inv _ a Hg)) as Hp.
  pose proof (good_submit _ (Claim q) (QAttestation q) a Hg) as Hg'.
  destruct (submitDepositClaimLocked (Claim q) (QAttestation q) a) as [[r|[r e]] a']; cbn [snd is_ok] in *;
    match goal with |- let '(p, b) := apply_queued _ ?pr _ in _ => specialize (IH pr a' Hg') end;
    destruct (apply_queued _ _ _) as [p b]; destruct IH as (H1' & H2' & H3' & H4' & H5');
    cbn [Height BridgeCurrentHeight AppliedQueuedClaims AppliedClaimBalances] in *;
    rewrite ?length_app in H4'; cbn [length] in H4'; split_and!; congruence || lia.
Qed.

Lemma submit_height claim att a :
  app_inv a ->
  currentHeight (BridgeKeeper (snd (submitDepositClaimLocked claim att a))) = currentHeight (BridgeKeeper a).
Proof.
  intros Hinv. destruct (submit_run claim att a Hinv) as [(e & _ & ->)|[(res & e & _ & ->)|
    (asset & amt & bank' & _ & _ & _ & _ & _ & Hrun)]]; [done|done|].
  destruct (persist_outcome (BankKeeper a)) as [[]|e]; [by rewrite Hrun|].
  destruct Hrun as (a' & -> & Hsame). cbn [snd]. by destruct (same_bridge _ _ Hsame) as (_ & -> & _).
Qed.

Lemma queued_height escrow pending progress a :
  good escrow a -> currentHeight (BridgeKeeper (snd (apply_queued pending progress a))) = currentHeight (BridgeKeeper a).
Proof.
  revert progress a. induction pending as [|q pending IH]; intros progress a Hg; cbn [apply_queued]; [done|].
  pose proof (submit_height (Claim q) (QAttestation q) a (good_inv _ a Hg)) as Hh.
  pose proof (good_submit _ (Claim q) (QAttestation q) a Hg) as Hg'.
  destruct (submitDepositClaimLocked (Claim q) (QAttestation q) a) as [[r|[r e]] a']; cbn [snd] in *; by rewrite IH.
Qed.

Lemma advance_height escrow a :
  good escrow a -> currentHeight (BridgeKeeper (snd (AdvanceBlock a))) = u64_incr (currentHeight (BridgeKeeper a)).
Proof.
  intros Hg. unfold AdvanceBlock. cbv zeta. set (a1 := set_bridge _ a).
  assert (Hg1 : good escrow a1) by (apply (good_update _ a); try done; [apply denoms_kept_refl|apply Hg|apply Hg]).
  assert (Hh1 : currentHeight (BridgeKeeper a1) = u64_incr (currentHeight (BridgeKeeper a))) by reflexivity.
  clearbody a1. destruct (pendingDepositClaims a1) as [|q l]; [exact Hh1|].
  match goal with |- context [apply_queued ?p ?g ?b] =>
    pose proof (queued_height escrow p g b (good_set_pending _ [] a1 Hg1)) as Hq; destruct (apply_queued p g b) end.
  cbn [snd] in *. by rewrite Hq.
Qed.

(** A block advances the height by one (modulo 2^64) and tries every
    queued claim exactly once, in order: its report counts the accepted ones,
    with one balance entry for each, and the queue is left empty — a claim
    that was refused is dropped, not retried. *)
Theorem AdvanceBlock_spec (a : App) :
  app_inv a -> backed a -> persistHook (BankKeeper a) = [] ->
  let h := u64_incr (currentHeight (BridgeKeeper a)) in
  let a1 := set_bridge (snd (BridgeState.SetCurrentHeight h (BridgeKeeper a))) a in
  let '(p, a') := AdvanceBlock a in
  Height p = h /\ BridgeCurrentHeight p = h /\ PendingQueuedClaims p = 0 /\
  AppliedQueuedClaims p = accepted_count (pendingDepositClaims a) (set_pending [] a1) /\
  length (AppliedClaimBalances p) = AppliedQueuedClaims p /\
  pendingDepositClaims a' = [].
Proof.
  intros Hi Hb Hh h a1. assert (Hg : good (fun _ => 0%Z) a) by by (split; [|apply backed_with_none|]).
  assert (Hg1 : good (fun _ => 0%Z) (set_pending [] a1)).
  { apply good_set_pending, (good_update _ a); try done; [apply denoms_kept_refl|apply Hi|apply Hi]. }
  unfold AdvanceBlock. change (MetaHeight (StMeta (BridgeState.ExportState (BridgeKeeper a))))
    with (currentHeight (BridgeKeeper a)). cbv zeta. fold h a1.
  change (pendingDepositClaims a1) with (pendingDepositClaims a).
  destruct (pendingDepositClaims a) as [|q l] eqn:Hl.
  { cbn [accepted_count]. split_and!; try done. }
  pose proof (apply_queued_spec (q :: l) (mk_progress h 0 0 h EmptyString []) _ Hg1) as Hs.
  destruct (apply_queued _ _ _) as [p a']. destruct Hs as (H1' & H2' & H3' & H4' & H5').
  cbn [Height BridgeCurrentHeight AppliedQueuedClaims AppliedClaimBalances length PendingQueuedClaims] in *.
  change (pendingDepositClaims (set_pending [] a1)) with (@nil QueuedDepositClaim) in H5'.
  rewrite H5'. split_and!; try done; lia.
Qed.
End theorems.

(** ** The migration of snapshots without balances *)

Definition record_value (d : string) (r : BalanceRecord) : Z :=
  if eqs (BalDenom r) d then default 0%Z (SetString10 (BalAmount r)) else 0%Z.

Section migration.
Context `{MapIteration}.

Lemma parse_supplies_lookup l supply out :
  NoDup l.*1 -> parse_supplies l supply = Ok out ->
  (forall d, d ∉ l.*1 -> out !! d = supply !! d) /\
  (forall d t, (d, t) ∈ l -> t <> EmptyString ->
     exists v, SetString10 t = Some v /\ out !! d = Some v).
Proof.
  revert supply. induction l as [|[d t] l IH]; intros supply Hnd Hp; cbn [parse_supplies] in Hp.
  { injection Hp as <-. split; [done|]. intros d t Hin. by apply not_elem_of_nil in Hin. }
  apply NoDup_cons in Hnd as [Hd Hnd].
  destruct (decide (t = EmptyString)) as [->|Ht].
  - destruct (IH supply Hnd Hp) as [Hother Hin]. split.
    + intros d' Hd'. apply Hother. intros ?. apply Hd'. by right.
    + intros d' t' [[= -> ->]|Hl]%elem_of_cons Ht'; [done|by apply Hin].
  - unfold parse_supplies in Hp. fold parse_supplies in Hp. unfold parseBase10BigInt in Hp.
    rewrite decide_False in Hp by done.
    destruct (SetString10 t) as [v|] eqn:Hv; cbn [res_bind] in Hp; [|done].
    destruct (IH _ Hnd Hp) as [Hother Hin]. split.
    + intros d' Hd'. rewrite Hother by (intros ?; apply Hd'; by right).
      apply lookup_insert_ne. intros ->. apply Hd'. by left.
    + intros d' t' [[= -> ->]|Hl]%elem_of_cons Ht'; [|by apply Hin].
      exists v. split; [done|]. rewrite Hother by done. apply lookup_insert_eq.
Qed.

Lemma fold_totals (entries : list (string * string * Z)) m d :
  lookup_amount (foldl (fun totals e => add_amount e.1.2 e.2 totals) m entries) d =
    (lookup_amount m d + zsum (record_value d)
       (map (fun e => mk_balance e.1.1 e.1.2 (format_int e.2)) entries))%Z.
Proof.
  revert m. induction entries as [|[[a d'] v] entries IH]; intros m; cbn [foldl map].
  { cbn. lia. }
  rewrite IH, lookup_add_amount.
  match goal with |- context [zsum ?f (?x :: ?l)] => change (zsum f (x :: l)) with (f x + zsum f l)%Z end.
  unfold record_value at 2. cbn [BalDenom BalAmount fst snd].
  rewrite SetString10_format_int. cbn [default from_option Datatypes.id]. lia.
Qed.

(** Migrating a snapshot that has no balances never invents or loses
    money: when it succeeds, the balances it derives from the accepted claims
    add up, per denom, to exactly the supply the snapshot states. *)
Theorem migration_conserves (s : runtimeState) (st : Bank.StateSnapshot) (d text : string) :
  bankPresent s = false -> resolvedBankState s = Ok st ->
  StSupplyByDenom (RtBridge s) !! d = Some text -> text <> EmptyString ->
  SetString10 text = Some (zsum (record_value d) (Balances st)).
Proof.
  intros Hp Hr Hd Ht. unfold resolvedBankState in Hr. rewrite Hp in Hr. cbv zeta in Hr.
  rewrite (bool_decide_eq_false_2 (StSupplyByDenom (RtBridge s) = ∅)) in Hr
    by (intros He; rewrite He, lookup_empty in Hd; done).
  rewrite andb_false_r in Hr. cbn [andb] in Hr. destruct (negb _); [done|].
  apply res_bind_ok_inv in Hr as (supply & Hs & Hr).
  apply res_bind_ok_inv in Hr as (agg & _ & Hr).
  apply res_bind_ok_inv in Hr as ([] & Hcheck & [= <-]). cbn [Balances].
  destruct (parse_supplies_lookup _ _ _ (range_fst_nodup _) Hs) as [_ Hin].
  destruct (Hin d text) as (v & Hv & Hl); [|done|].
  { rewrite range_perm. by apply elem_of_map_to_list. }
  rewrite Hv. f_equal. apply ensure_ok in Hcheck.
  set (totals := foldl _ _ _) in Hcheck.
  assert (Htot : totals !! d = Some v).
  { destruct (decide (totals !! d = Some v)) as [|Hne]; [done|]. exfalso.
    apply not_true_iff_false in Hcheck. apply Hcheck, existsb_exists. exists (d, v).
    split; [|by rewrite bool_decide_eq_false_2].
    apply list_elem_of_In. rewrite range_perm. by apply elem_of_map_to_list. }
  pose proof (fold_totals (aggregated_entries agg) ∅ d) as Hf. fold totals in Hf.
  unfold lookup_amount in Hf at 1 2. rewrite Htot, lookup_empty in Hf. exact Hf.
Qed.
End migration.

(** ** Concrete runs *)

#[local] Existing Instance toy_crypto.
#[local] Existing Instance toy_codec.

Definition demo_app : App :=
  mk_app Bridge.demo_keeper Bank.NewKeeper IBCRouter.demo_keeper {[ "guardian-1"%string ]} [] None [] [].

Lemma demo_app_inv : app_inv demo_app.
Proof.
  split.
  - exact Bridge.demo_keeper_inv.
  - exact Bank.bank_NewKeeper_wf.
  - change (Registry.wf (snd (Registry.RegisterAsset Registry.demo_usdc Registry.NewKeeper))).
    apply RegisterAsset_wf, (wf_empty Registry.NewKeeper).
  - change (Limits.wf (snd (Limits.SetLimit (mk_limit "eth.usdc" 600 (Some 1500%Z)) Limits.NewKeeper))).
    apply SetLimit_wf, Limits.limits_NewKeeper_wf.
  - change (signerSets (BridgeKeeper demo_app)) with (signerSets Bridge.demo_start). split.
    + change (sets_normal Bridge.demo_start). apply map_Forall_singleton. vm_compute. split; reflexivity.
    + intros He. apply (f_equal size) in He. vm_compute in He. discriminate He.
Qed.

Lemma demo_app_backed : backed demo_app.
Proof. intros d. unfold SupplyForDenom, lookup_amount. done. Qed.

Definition demo_withdraw (owner : string) (amount : Z) : app_action :=
  AppWithdraw owner "eth.usdc" (Some amount) "0xrecipient" 900 "sig".

(** A claim is queued twice and a block runs; the owner withdraws, a stranger
    tries to, the asset is disabled by an authority. *)
Definition demo_day : list app_action := [
  AppQueue demo_claim (demo_attested demo_claim);
  AppQueue demo_claim (demo_attested demo_claim);
  AppAdvance;
  demo_withdraw "cosmos1recipient" 400;
  demo_withdraw "cosmos1stranger" 100;
  AppGovern "guardian-1" (PAssetStatus (mk_asset_status "p-1" "eth.usdc" false));
  demo_withdraw "cosmos1recipient" 100 ].

Example demo_day_result :
  WalletBalance (exec_apps demo_day demo_app) "cosmos1recipient" "uethusdc" = 600%Z /\
  SupplyForDenom (BridgeKeeper (exec_apps demo_day demo_app)) "uethusdc" = 600%Z /\
  currentHeight (BridgeKeeper (exec_apps demo_day demo_app)) = 101%N /\
  length (withdrawals (BridgeKeeper (exec_apps demo_day demo_app))) = 1.
Proof. vm_compute. split_and!; reflexivity. Qed.

Example wallets_back_supply_witness :
  app_inv (exec_apps demo_day demo_app) /\ backed (exec_apps demo_day demo_app).
Proof. exact (wallets_back_supply demo_day demo_app demo_app_inv demo_app_backed eq_refl). Defined.

Example SubmitDepositClaim_atomic_witness :
  exists res a', SubmitDepositClaim demo_claim (demo_attested demo_claim) demo_app = (Ok res, a') /\
    exists amt, forall d, SupplyForDenom (BridgeKeeper a') d =
      (SupplyForDenom (BridgeKeeper demo_app) d + if eqs "uethusdc" d then amt else 0)%Z.
Proof.
  pose proof (SubmitDepositClaim_atomic demo_claim (demo_attested demo_claim) demo_app demo_app_inv eq_refl) as Hs.
  assert (Hrun : match fst (SubmitDepositClaim demo_claim (demo_attested demo_claim) demo_app) with
                 | Ok r => ResDenom r | Err _ => EmptyString end = "uethusdc"%string) by (vm_compute; reflexivity).
  destruct (SubmitDepositClaim demo_claim (demo_attested demo_claim) demo_app) as [[res|e] a'];
    [|discriminate Hrun].
  exists res, a'. split; [reflexivity|]. destruct Hs as (asset & amt & _ & Hres & Hsup & _).
  exists amt. cbn [fst] in Hrun. rewrite Hres in Hrun. cbn [accepted_result ResDenom] in Hrun.
  rewrite Hrun in Hsup. exact Hsup.
Defined.

Definition demo_failing : App :=
  set_bank (Bank.mk_keeper ∅ None [Some (Errorf "disk full")]) demo_app.

Example deposit_rollback_run :
  let '(r, a') := SubmitDepositClaim demo_claim (demo_attested demo_claim) demo_failing in
  r = Err (no_result, Errorf "disk full") /\ SupplyForDenom (BridgeKeeper a') "uethusdc" = 0%Z /\
  usage (LimitsKeeper a') !! "eth.usdc"%string = None.
Proof. vm_compute. split_and!; reflexivity. Qed.

Example deposit_rollback_witness :
  exists res err a', SubmitDepositClaim demo_claim (demo_attested demo_claim) demo_failing = (Err (res, err), a') /\
    (a' = demo_failing \/ a' = set_bridge (reject_state (BridgeKeeper demo_failing)) demo_failing \/
     same_contents demo_failing a' /\ res = no_result).
Proof.
  apply (deposit_rollback demo_claim (demo_attested demo_claim) demo_failing (Errorf "disk full") []);
    [|reflexivity].
  destruct demo_app_inv. split; assumption.
Defined.

Definition demo_funded : App := exec_app (AppDeposit demo_claim (demo_attested demo_claim)) demo_app.

Lemma demo_funded_good : good (fun _ => 0%Z) demo_funded.
Proof. apply good_exec. split; [exact demo_app_inv|apply backed_with_none, demo_app_backed|reflexivity]. Qed.

Example ExecuteWithdrawal_atomic_witness :
  exists w a', ExecuteWithdrawal "cosmos1recipient" "eth.usdc" (Some 400%Z) "0xrecipient" 900 "sig" demo_funded
      = (Ok w, a') /\
    withdrawals (BridgeKeeper a') = withdrawals (BridgeKeeper demo_funded) ++ [w].
Proof.
  pose proof (ExecuteWithdrawal_atomic "cosmos1recipient" "eth.usdc" (Some 400%Z) "0xrecipient" 900 "sig"
    demo_funded (good_inv _ _ demo_funded_good) (good_hook _ _ demo_funded_good)) as Hs.
  assert (Hrun : is_ok (fst (ExecuteWithdrawal "cosmos1recipient" "eth.usdc" (Some 400%Z) "0xrecipient" 900
    "sig" demo_funded)) = true) by (vm_compute; reflexivity).
  destruct (ExecuteWithdrawal "cosmos1recipient" "eth.usdc" (Some 400%Z) "0xrecipient" 900 "sig" demo_funded)
    as [[w|e] a']; [|discriminate Hrun].
  exists w, a'. split; [reflexivity|]. destruct Hs as (asset & _ & _ & _ & Hw & _). exact Hw.
Defined.

Definition demo_queued : App :=
  set_pending [mk_queued demo_claim (demo_attested demo_claim) 100;
               mk_queued demo_claim (demo_attested demo_claim) 100] demo_app.

Example AdvanceBlock_spec_witness :
  Height (fst (AdvanceBlock demo_queued)) = 101%N /\ AppliedQueuedClaims (fst (AdvanceBlock demo_queued)) = 1 /\
  pendingDepositClaims (snd (AdvanceBlock demo_queued)) = [].
Proof.
  assert (Hi : app_inv demo_queued) by (destruct demo_app_inv; split; assumption).
  pose proof (AdvanceBlock_spec demo_queued Hi demo_app_backed eq_refl) as Hs.
  assert (Hrun : AppliedQueuedClaims (fst (AdvanceBlock demo_queued)) = 1) by (vm_compute; reflexivity).
  cbv zeta in Hs. destruct (AdvanceBlock demo_queued) as [p a'].
  destruct Hs as (Hh & _ & _ & _ & _ & Hp). exact (conj Hh (conj Hrun Hp)).
Defined.

Definition demo_legacy : runtimeState :=
  mk_runtime [] (Bank.mk_state []) (Limits.mk_snapshot [] []) [] []
    (BridgeState.mk_state (mk_meta 10 1 0 false EmptyString) []
       [mk_claim_snap "k1" "m1" "0x1" "uethusdc" "eth.usdc" "cosmos1a" "70" ClaimStatusAccepted;
        mk_claim_snap "k2" "m2" "0x2" "uethusdc" "eth.usdc" "cosmos1b" "30" ClaimStatusAccepted]
       {[ "uethusdc"%string := "100"%string ]} [])
    (IBCRouter.mk_state 1 [] [] [] []) (Governance.mk_state []) false.

Example migration_conserves_witness :
  exists st, resolvedBankState demo_legacy = Ok st /\
    SetString10 "100" = Some (zsum (record_value "uethusdc") (Balances st)).
Proof.
  eexists. split; [vm_compute; reflexivity|].
  apply (migration_conserves demo_legacy _ "uethusdc" "100").
  - reflexivity.
  - vm_compute. reflexivity.
  - vm_compute. reflexivity.
  - discriminate.
Defined.
