(* ===== verification/DemoTx.v ===== *)
(** [chain/aegislink/networked] (submission.go): the transactions of the demo
    node and what their payloads stand for. *)

From S2P Require Import Prelude.
From S2P Require Import GoStrings.
From S2P Require Import Base64.
From S2P Require Import Errors.
From S2P Require Import BridgeTypes.
From stdpp Require Import strings.

(** ** Payloads *)

Record claimPayload := mk_claim_payload {
  PlKind : string;
  PlSourceAssetKind : string;
  PlSourceChainID : string;
  PlSourceContract : string;
  PlSourceTxHash : string;
  PlSourceLogIndex : N;         (* uint64 *)
  PlNonce : N;                  (* uint64 *)
  PlMessageID : string;
  PlDestinationChainID : string;
  PlAssetID : string;
  PlAmount : string;
  PlRecipient : string;
  PlDeadline : N                (* uint64 *)
}.

Record submissionPayload := mk_submission {
  PlClaim : claimPayload;
  PlAttestation : Attestation
}.

Record InitiateIBCTransferPayload := mk_ibc_payload {
  IbcSender : string;
  IbcRouteID : string;
  IbcAssetID : string;
  IbcAmount : string;
  IbcReceiver : string;
  IbcTimeoutHeight : N;         (* uint64 *)
  IbcMemo : string
}.

Record ExecuteWithdrawalPayload := mk_withdrawal_payload {
  WdOwnerAddress : string;
  WdAssetID : string;
  WdAmount : string;
  WdRecipient : string;
  WdDeadline : N;               (* uint64 *)
  WdSignatureBase64 : string;
  WdHeight : N                  (* uint64 *)
}.

Record FundAccountPayload := mk_fund_payload {
  FundAddress : string;
  FundDenom : string;
  FundAmount : string
}.

Record demoNodeTx := mk_tx {
  Type_ : string;
  TxQueueDepositClaim : option submissionPayload;
  TxInitiateIBCTransfer : option InitiateIBCTransferPayload;
  TxExecuteWithdrawal : option ExecuteWithdrawalPayload;
  TxFundAccount : option FundAccountPayload
}.

(** The bytes of a transaction: a JSON document of this type, or anything else. *)
Inductive tx_bytes :=
| TxJSON (tx : demoNodeTx)
| TxOther (bytes : string).

(** ** Decoding *)

Definition blank (s : string) : bool := bool_decide (TrimSpace s = EmptyString).

(** [String] of a pointer to a [big.Int]. *)
Definition big_String (v : option Z) : string :=
  match v with Some v => format_int v | None => "<nil>" end.

Definition depositClaimAndAttestationFromPayload (payload : submissionPayload)
    : result (DepositClaim * Attestation) :=
  let c := PlClaim payload in
  match SetString10 (PlAmount c) with
  | None => Err (Errorf ("invalid claim amount " +:+ Quote (PlAmount c)))
  | Some amount =>
      Ok (mk_claim
            (mk_identity (PlKind c) (PlSourceAssetKind c) (PlSourceChainID c) (PlSourceContract c)
               (PlSourceTxHash c) (PlSourceLogIndex c) (PlNonce c) (PlMessageID c))
            (PlDestinationChainID c) (PlAssetID c) (Some amount) (PlRecipient c) (PlDeadline c),
          PlAttestation payload)
  end.

Definition parse_amount (text invalid : string) : result Z :=
  match SetString10 (TrimSpace text) with
  | Some amount => Ok amount
  | None => Err (Errorf (invalid +:+ " " +:+ Quote text))
  end.

Definition decodeInitiateIBCTransferPayload (payload : InitiateIBCTransferPayload)
    : result (InitiateIBCTransferPayload * Z) :=
  let? _ := ensure (blank (IbcAssetID payload)) (Errorf "missing asset id") in
  let? _ := ensure (blank (IbcReceiver payload)) (Errorf "missing receiver") in
  let? _ := ensure (N.eqb (IbcTimeoutHeight payload) 0) (Errorf "missing timeout height") in
  let? amount := parse_amount (IbcAmount payload) "invalid amount" in
  Ok (mk_ibc_payload (TrimSpace (IbcSender payload)) (IbcRouteID payload) (IbcAssetID payload) (format_int amount)
        (IbcReceiver payload) (IbcTimeoutHeight payload) (IbcMemo payload), amount).

Definition decodeExecuteWithdrawalPayload (payload : ExecuteWithdrawalPayload)
    : result (ExecuteWithdrawalPayload * Z * string) :=
  let? _ := ensure (blank (WdOwnerAddress payload)) (Errorf "missing owner address") in
  let? _ := ensure (blank (WdAssetID payload)) (Errorf "missing asset id") in
  let? _ := ensure (blank (WdAmount payload)) (Errorf "missing amount") in
  let? _ := ensure (blank (WdRecipient payload)) (Errorf "missing recipient") in
  let? _ := ensure (N.eqb (WdDeadline payload) 0) (Errorf "missing deadline") in
  let? _ := ensure (blank (WdSignatureBase64 payload)) (Errorf "missing signature") in
  let? amount := parse_amount (WdAmount payload) "invalid amount" in
  match base64_DecodeString (TrimSpace (WdSignatureBase64 payload)) with
  | None => Err (Prefixed "decode signature" (Errorf "illegal base64 data"))
  | Some signature =>
      Ok (mk_withdrawal_payload (WdOwnerAddress payload) (WdAssetID payload) (format_int amount) (WdRecipient payload)
            (WdDeadline payload) (TrimSpace (WdSignatureBase64 payload)) (WdHeight payload), amount, signature)
  end.

Definition decodeFundAccountPayload (payload : FundAccountPayload) : result (FundAccountPayload * Z) :=
  let? _ := ensure (blank (FundAddress payload)) (Errorf "missing funded account address") in
  let? _ := ensure (blank (FundDenom payload)) (Errorf "missing funded account denom") in
  let? amount := parse_amount (FundAmount payload) "invalid funded account amount" in
  let? _ := ensure (amount <=? 0)%Z (Errorf "funded account amount must be positive") in
  Ok (mk_fund_payload (TrimSpace (FundAddress payload)) (TrimSpace (FundDenom payload)) (format_int amount), amount).

Definition decodeDemoNodeTx (txBytes : tx_bytes) : result demoNodeTx :=
  match txBytes with
  | TxOther _ => Err (Prefixed "decode demo node tx" (Errorf "invalid JSON document"))
  | TxJSON tx =>
      let kind := TrimSpace (Type_ tx) in
      if decide (kind = "queue_deposit_claim"%string) then
        match TxQueueDepositClaim tx with
        | None => Err (Errorf "missing queue deposit claim payload")
        | Some p => let? _ := depositClaimAndAttestationFromPayload p in Ok tx
        end
      else if decide (kind = "initiate_ibc_transfer"%string) then
        match TxInitiateIBCTransfer tx with
        | None => Err (Errorf "missing initiate ibc transfer payload")
        | Some p => let? _ := decodeInitiateIBCTransferPayload p in Ok tx
        end
      else if decide (kind = "execute_withdrawal"%string) then
        match TxExecuteWithdrawal tx with
        | None => Err (Errorf "missing execute withdrawal payload")
        | Some p => let? _ := decodeExecuteWithdrawalPayload p in Ok tx
        end
      else if decide (kind = "fund_account"%string) then
        match TxFundAccount tx with
        | None => Err (Errorf "missing fund account payload")
        | Some p => let? _ := decodeFundAccountPayload p in Ok tx
        end
      else Err (Errorf ("unsupported demo node tx type " +:+ Quote (Type_ tx)))
  end.

(** ** Encoding *)

Definition claim_payload (claim : DepositClaim) : claimPayload :=
  let i := Identity claim in
  mk_claim_payload (Kind i) (SourceAssetKind i) (SourceChainID i) (SourceContract i) (SourceTxHash i)
    (SourceLogIndex i) (Nonce i) (MessageID i) (DestinationChainID claim) (AssetID claim)
    (big_String (Amount claim)) (Recipient claim) (Deadline claim).

Definition encodeQueueDepositClaimTx (claim : DepositClaim) (attestation : Attestation) : result tx_bytes :=
  Ok (TxJSON (mk_tx "queue_deposit_claim" (Some (mk_submission (claim_payload claim) attestation)) None None None)).

Definition encodeInitiateIBCTransferTx (payload : InitiateIBCTransferPayload) : result tx_bytes :=
  let? decoded := decodeInitiateIBCTransferPayload payload in
  Ok (TxJSON (mk_tx "initiate_ibc_transfer" None (Some (fst decoded)) None None)).

Definition encodeExecuteWithdrawalTx (payload : ExecuteWithdrawalPayload) : result tx_bytes :=
  let? decoded := decodeExecuteWithdrawalPayload payload in
  Ok (TxJSON (mk_tx "execute_withdrawal" None None (Some (fst (fst decoded))) None)).

Definition encodeFundAccountTx (payload : FundAccountPayload) : result tx_bytes :=
  let? decoded := decodeFundAccountPayload payload in
  Ok (TxJSON (mk_tx "fund_account" None None None (Some (fst decoded)))).

(** ** What is encoded is what the node applies *)

Lemma parse_format_amount v invalid : parse_amount (format_int v) invalid = Ok v.
Proof. unfold parse_amount. by rewrite format_int_trimmed, SetString10_format_int. Qed.

Lemma format_not_blank v : blank (format_int v) = false.
Proof. unfold blank. rewrite format_int_trimmed. by apply bool_decide_eq_false, format_int_nonempty. Qed.

Lemma ensure_false {E} (b : bool) (e : E) : b = false -> ensure b e = Ok tt.
Proof. by intros ->. Qed.

Ltac decoded := repeat match goal with
  | H : res_bind (ensure _ _) _ = Ok _ |- _ =>
      let u := fresh "u" in let Hb := fresh "Hb" in
      apply res_bind_ok_inv in H as (u & Hb & H); destruct u; rewrite ensure_ok in Hb
  end.

(** Decoding settles a payload: decoding the result again gives it back, with
    the same amount and signature. *)
Lemma ibc_settled p q amount :
  decodeInitiateIBCTransferPayload p = Ok (q, amount) -> decodeInitiateIBCTransferPayload q = Ok (q, amount).
Proof.
  unfold decodeInitiateIBCTransferPayload. intros Hp. decoded.
  apply res_bind_ok_inv in Hp as (v & Hv & [= <- <-]).
  cbn [IbcAssetID IbcReceiver IbcTimeoutHeight IbcAmount IbcSender IbcRouteID IbcMemo].
  rewrite !ensure_false by done. cbn [res_bind]. rewrite parse_format_amount. cbn [res_bind].
  by rewrite TrimSpace_idem.
Qed.

Lemma withdrawal_settled p q amount signature :
  decodeExecuteWithdrawalPayload p = Ok (q, amount, signature) ->
  decodeExecuteWithdrawalPayload q = Ok (q, amount, signature).
Proof.
  unfold decodeExecuteWithdrawalPayload. intros Hp. decoded.
  apply res_bind_ok_inv in Hp as (v & Hv & Hp).
  destruct (base64_DecodeString _) as [sig|] eqn:Hsig; [|done]. injection Hp as <- <- <-.
  cbn [WdOwnerAddress WdAssetID WdAmount WdRecipient WdDeadline WdSignatureBase64 WdHeight].
  rewrite !ensure_false by (done || apply format_not_blank || (unfold blank in *; by rewrite TrimSpace_idem)).
  cbn [res_bind]. rewrite parse_format_amount. cbn [res_bind]. by rewrite TrimSpace_idem, Hsig.
Qed.

Lemma fund_settled p q amount :
  decodeFundAccountPayload p = Ok (q, amount) -> decodeFundAccountPayload q = Ok (q, amount).
Proof.
  unfold decodeFundAccountPayload. intros Hp. decoded.
  apply res_bind_ok_inv in Hp as (v & Hv & Hp). decoded. injection Hp as <- <-.
  cbn [FundAddress FundDenom FundAmount].
  rewrite !(ensure_false (blank _)) by (unfold blank in *; by rewrite TrimSpace_idem).
  cbn [res_bind]. rewrite parse_format_amount. cbn [res_bind].
  rewrite ensure_false by done. cbn [res_bind]. by rewrite !TrimSpace_idem.
Qed.

(** The meaning of a transaction for the node. *)
Inductive demo_action :=
| ActQueue (claim : DepositClaim) (attestation : Attestation)
| ActTransfer (payload : InitiateIBCTransferPayload) (amount : Z)
| ActWithdraw (payload : ExecuteWithdrawalPayload) (amount : Z) (signature : string)
| ActFund (payload : FundAccountPayload) (amount : Z).

Definition means (tx : demoNodeTx) (act : demo_action) : Prop :=
  match act with
  | ActQueue claim attestation => Type_ tx = "queue_deposit_claim"%string /\
      exists p, TxQueueDepositClaim tx = Some p /\ depositClaimAndAttestationFromPayload p = Ok (claim, attestation)
  | ActTransfer q amount => Type_ tx = "initiate_ibc_transfer"%string /\
      exists p, TxInitiateIBCTransfer tx = Some p /\ decodeInitiateIBCTransferPayload p = Ok (q, amount)
  | ActWithdraw q amount signature => Type_ tx = "execute_withdrawal"%string /\
      exists p, TxExecuteWithdrawal tx = Some p /\ decodeExecuteWithdrawalPayload p = Ok (q, amount, signature)
  | ActFund q amount => Type_ tx = "fund_account"%string /\
      exists p, TxFundAccount tx = Some p /\ decodeFundAccountPayload p = Ok (q, amount)
  end.

Lemma means_decoded tx act : means tx act -> decodeDemoNodeTx (TxJSON tx) = Ok tx.
Proof.
  unfold decodeDemoNodeTx. destruct act; intros [-> (p & -> & Hp)];
    repeat first [rewrite decide_True by reflexivity | rewrite decide_False by discriminate]; by rewrite Hp.
Qed.

(** What a caller asks to be encoded, and what it stands for. *)
Inductive submission :=
| SubmitClaim (claim : DepositClaim) (attestation : Attestation)
| SubmitTransfer (payload : InitiateIBCTransferPayload)
| SubmitWithdrawal (payload : ExecuteWithdrawalPayload)
| SubmitFunding (payload : FundAccountPayload).

Definition encode (s : submission) : result tx_bytes :=
  match s with
  | SubmitClaim claim attestation => encodeQueueDepositClaimTx claim attestation
  | SubmitTransfer p => encodeInitiateIBCTransferTx p
  | SubmitWithdrawal p => encodeExecuteWithdrawalTx p
  | SubmitFunding p => encodeFundAccountTx p
  end.

Definition stands_for (s : submission) (act : demo_action) : Prop :=
  match s, act with
  | SubmitClaim claim attestation, ActQueue claim' attestation' => claim' = claim /\ attestation' = attestation
  | SubmitTransfer p, ActTransfer q amount => decodeInitiateIBCTransferPayload p = Ok (q, amount)
  | SubmitWithdrawal p, ActWithdraw q amount signature => decodeExecuteWithdrawalPayload p = Ok (q, amount, signature)
  | SubmitFunding p, ActFund q amount => decodeFundAccountPayload p = Ok (q, amount)
  | _, _ => False
  end.

(** C26: the client and the node agree. Whatever a client encodes successfully —
    a claim with an amount, a transfer, a withdrawal or a funding — passes the
    node's decoding, and is applied as exactly what the client submitted: the
    same claim and attestation, or the payload the client validated with the same
    amount and signature. *)
Theorem encoded_tx_accepted (s : submission) (bytes : tx_bytes) :
  match s with SubmitClaim claim _ => is_Some (Amount claim) | _ => True end ->
  encode s = Ok bytes ->
  exists tx act, bytes = TxJSON tx /\ decodeDemoNodeTx bytes = Ok tx /\ means tx act /\ stands_for s act.
Proof.
  assert (Hdone : forall tx act, bytes = TxJSON tx -> means tx act -> stands_for s act ->
    exists tx act, bytes = TxJSON tx /\ decodeDemoNodeTx bytes = Ok tx /\ means tx act /\ stands_for s act).
  { intros tx act -> Hm Hs. exists tx, act. split_and!; [done|by eapply means_decoded|done..]. }
  destruct s as [claim attestation|p|p|p]; cbn [encode]; intros Hamount Hencode.
  - injection Hencode as <-. destruct Hamount as [v Hv]. eapply (Hdone _ (ActQueue claim attestation)); [done| |done].
    split; [done|]. eexists. split; [done|]. unfold depositClaimAndAttestationFromPayload, claim_payload.
    cbn. rewrite Hv. cbn [big_String]. rewrite SetString10_format_int.
    destruct claim as [[] ? ? ? ? ?]. cbn in Hv. by subst.
  - apply res_bind_ok_inv in Hencode as ([q amount] & Hp & [= <-]).
    eapply (Hdone _ (ActTransfer q amount)); [done| |done]. split; [done|]. exists q. split; [done|]. by eapply ibc_settled.
  - apply res_bind_ok_inv in Hencode as ([[q amount] signature] & Hp & [= <-]).
    eapply (Hdone _ (ActWithdraw q amount signature)); [done| |done]. split; [done|]. exists q.
    split; [done|]. by eapply withdrawal_settled.
  - apply res_bind_ok_inv in Hencode as ([q amount] & Hp & [= <-]).
    eapply (Hdone _ (ActFund q amount)); [done| |done]. split; [done|]. exists q. split; [done|]. by eapply fund_settled.
Qed.

(** ** Concrete transactions *)

Definition demo_withdrawal_payload : ExecuteWithdrawalPayload :=
  mk_withdrawal_payload "cosmos1owner" "eth.usdc" " 0400" "0xrecipient" 900 (" " +:+ base64_EncodeToString "proof") 0.

Example encoded_tx_accepted_witness :
  exists tx q, encode (SubmitWithdrawal demo_withdrawal_payload) = Ok (TxJSON tx) /\
    means tx (ActWithdraw q 400 "proof") /\ WdAmount q = "400"%string.
Proof.
  destruct (encoded_tx_accepted (SubmitWithdrawal demo_withdrawal_payload)
    (TxJSON (mk_tx "execute_withdrawal" None None
       (Some (mk_withdrawal_payload "cosmos1owner" "eth.usdc" "400" "0xrecipient" 900 (base64_EncodeToString "proof") 0)) None))
    I ltac:(vm_compute; reflexivity)) as (tx & act & Heq & _ & Hmeans & Hstands).
  exists tx. destruct act as [| |q amount signature|]; [destruct Hstands..| |destruct Hstands].
  exists q. split; [rewrite <- Heq; vm_compute; reflexivity|].
  cbn [stands_for] in Hstands. vm_compute in Hstands. injection Hstands as <- <- <-. split; [exact Hmeans|reflexivity].
Defined.

(** The type is compared without its outer white space when a transaction is
    decoded, and with it when the node applies it. *)
Example untrimmed_type_decodes :
  is_ok (decodeDemoNodeTx (TxJSON (mk_tx " fund_account" None None None (Some (mk_fund_payload "a" "uatom" "1"))))) = true.
Proof. vm_compute. reflexivity. Qed.
