(* ===== verification/Config.v ===== *)
(** [chain/aegislink/app] (config.go, genesis.go, encoding.go, node.go and the
    documents of runtime_state.go): the configuration of a runtime home, its
    genesis document, and the files both are kept in. *)

From S2P Require Import Prelude.
From S2P Require Import GoStrings.
From S2P Require Import Errors.
From S2P Require Import Files.
From S2P Require Registry.
From S2P Require Limits.
From S2P Require BridgeState.
From S2P Require Bank.
From S2P Require IBCRouter.
From S2P Require Governance.
From S2P Require Import App.
From S2P Require DemoTx.
From stdpp Require Import strings.

Definition AppName : string := "aegislink".
Definition DefaultChainID : string := "aegislink-local-1".
Definition DefaultRuntimeMode : string := "runtime-shell".
Definition RuntimeModeSDKStore : string := "sdk-store-runtime".
Definition ErrRuntimeAlreadyInitialized : error := Errorf "runtime already initialized".

Record Config := mk_config {
  CfgAppName : string;
  CfgChainID : string;
  RuntimeMode : string;
  HomeDir : string;
  ConfigPath : string;
  GenesisPath : string;
  CfgModules : list string;
  StatePath : string;
  AllowedSigners : list string;
  GovernanceAuthorities : list string;
  RequiredThreshold : N          (* uint32 *)
}.

Record Genesis := mk_genesis {
  GenAppName : string;
  GenChainID : string;
  GenModules : list string;
  GenAllowedSigners : list string;
  GenGovernanceAuthorities : list string;
  GenRequiredThreshold : N       (* uint32 *)
}.

Definition zero_config : Config :=
  mk_config EmptyString EmptyString EmptyString EmptyString EmptyString EmptyString [] EmptyString [] [] 0.
Definition zero_genesis : Genesis := mk_genesis EmptyString EmptyString [] [] [] 0.

#[global] Instance Config_eq_dec : EqDecision Config.
Proof. solve_decision. Defined.

Record TxConfig := mk_tx_config { SignMode : string; BroadcastMode : string }.
Record EncodingConfig := mk_encoding {
  CodecName : string;
  InterfaceRegistry : list string;
  EncTxConfig : TxConfig
}.

(** ** The documents of a home *)

(** What a running node writes to its ready file (networked/start.go). *)
Record ReadyState := mk_ready {
  RdyStatus : string;
  RdyChainID : string;
  RdyNodeID : string;
  RdyHomeDir : string;
  RPCAddress : string;
  CometRPCAddress : string;
  GRPCAddress : string;
  ABCIAddress : string;
  RdyConfigPath : string;
  CometGenesisPath : string;
  SDKGenesisPath : string;
  NodeKeyPath : string;
  PrivValidatorKeyPath : string;
  PrivValidatorStatePath : string;
  CoreStoreKeys : list string;
  SDKGenesisModules : list string
}.

Definition zero_ready (chainID : string) : ReadyState :=
  mk_ready EmptyString chainID EmptyString EmptyString EmptyString EmptyString EmptyString EmptyString EmptyString
    EmptyString EmptyString EmptyString EmptyString EmptyString [] [].

(** The [limits] field of a state file: absent, the list older versions wrote,
    or a snapshot. *)
Inductive limits_field :=
| NoLimits
| LegacyLimits (l : list Limits.RateLimit)
| LimitsObject (s : Limits.StateSnapshot).

Record state_document := mk_state_doc {
  DocAssets : list Registry.Asset;
  DocBank : option Bank.StateSnapshot;
  DocLimits : limits_field;
  DocPausedFlows : list string;
  DocPendingClaims : list QueuedDepositClaim;
  DocBridge : BridgeState.StateSnapshot;
  DocIBCRouter : IBCRouter.StateSnapshot;
  DocGovernance : Governance.StateSnapshot
}.

Inductive document :=
| ConfigDoc (c : Config)
| GenesisDoc (g : Genesis)
| StateDoc (s : state_document)
| NodeDoc (claims : list QueuedDepositClaim)
| ReadyDoc (r : ReadyState)
| SubmissionDoc (p : DemoTx.submissionPayload).      (* a claim and its attestation, for a command *)

(** [json.Unmarshal] into each type: a document of another kind fills the
    fields whose names it shares, without regard to case, and leaves the rest
    zero. *)
Definition as_config (d : document) : Config :=
  match d with
  | ConfigDoc c => c
  | GenesisDoc g => mk_config EmptyString EmptyString EmptyString EmptyString EmptyString EmptyString
      (GenModules g) EmptyString [] [] 0
  | StateDoc _ | NodeDoc _ | ReadyDoc _ | SubmissionDoc _ => zero_config
  end.

Definition as_genesis (d : document) : Genesis :=
  match d with
  | GenesisDoc g => g
  | ConfigDoc c => mk_genesis EmptyString EmptyString (CfgModules c) [] [] 0
  | ReadyDoc r => mk_genesis EmptyString (RdyChainID r) [] [] [] 0
  | StateDoc _ | NodeDoc _ | SubmissionDoc _ => zero_genesis
  end.

Definition zero_bridge : BridgeState.StateSnapshot :=
  BridgeState.mk_state (BridgeState.mk_meta 0 0 0 false EmptyString) [] [] ∅ [].
Definition zero_router : IBCRouter.StateSnapshot := IBCRouter.mk_state 0 [] [] [] [].
Definition empty_state (pending : list QueuedDepositClaim) : state_document :=
  mk_state_doc [] None NoLimits [] pending zero_bridge zero_router (Governance.mk_state []).

Definition as_state (d : document) : state_document :=
  match d with
  | StateDoc s => s
  | NodeDoc claims => empty_state claims
  | ConfigDoc _ | GenesisDoc _ | ReadyDoc _ | SubmissionDoc _ => empty_state []
  end.

Definition as_node (d : document) : list QueuedDepositClaim :=
  match d with
  | NodeDoc claims => claims
  | StateDoc s => DocPendingClaims s
  | ConfigDoc _ | GenesisDoc _ | ReadyDoc _ | SubmissionDoc _ => []
  end.

Definition as_ready (d : document) : ReadyState :=
  match d with
  | ReadyDoc r => r
  | GenesisDoc g => zero_ready (GenChainID g)
  | _ => zero_ready EmptyString
  end.

Definition zero_submission : DemoTx.submissionPayload :=
  DemoTx.mk_submission
    (DemoTx.mk_claim_payload EmptyString EmptyString EmptyString EmptyString EmptyString 0 0 EmptyString EmptyString
       EmptyString EmptyString EmptyString 0)
    (BridgeTypes.mk_attestation EmptyString EmptyString [] [] 0 0 0).

Definition as_submission (d : document) : DemoTx.submissionPayload :=
  match d with SubmissionDoc p => p | _ => zero_submission end.

(** ** Names and paths *)

Class Environment := { TempDir : string }.

Section config.
Context `{Environment}.

Definition defaultHomeDir : string := JoinPath [TempDir; "aegislinkd"%string].
Definition runtimeConfigPath (homeDir : string) : string := JoinPath [homeDir; "config"; "runtime.json"]%string.
Definition runtimeGenesisPath (homeDir : string) : string := JoinPath [homeDir; "config"; "genesis.json"]%string.
Definition runtimeStatePath (homeDir : string) : string := JoinPath [homeDir; "data"; "state.json"]%string.
Definition runtimeStorePath (homeDir : string) : string := JoinPath [homeDir; "data"; "store"]%string.

Definition runtimeNodeStatePath (cfg : Config) : string :=
  let home := TrimSpace (HomeDir cfg) in
  if negb (eqs home EmptyString) then JoinPath [home; "data"; "node.json"]%string
  else
    let statePath := TrimSpace (StatePath cfg) in
    if negb (eqs statePath EmptyString) then JoinPath [Dir statePath; "node.json"]%string
    else JoinPath [defaultHomeDir; "data"; "node.json"]%string.

(** The [ModuleName] constants of the modules. *)
Definition defaultModules : list string :=
  ["bridge"; "bank"; "registry"; "limits"; "pauser"; "ibcrouter"; "governance"]%string.

Definition DefaultConfig : Config :=
  mk_config AppName DefaultChainID DefaultRuntimeMode defaultHomeDir (runtimeConfigPath defaultHomeDir)
    (runtimeGenesisPath defaultHomeDir) defaultModules (runtimeStatePath defaultHomeDir) []
    ["guardian-1"%string] 2.

(** The body of the two loops of [normalizeModules]. *)
Definition add_module (normalized : list string) (moduleName : string) : list string :=
  let moduleName := TrimSpace moduleName in
  if eqs moduleName EmptyString || bool_decide (moduleName ∈ normalized) then normalized
  else normalized ++ [moduleName].

Definition normalizeModules (modules defaults : list string) : list string :=
  match modules with
  | [] => defaults
  | _ => foldl add_module (foldl add_module [] modules) defaults
  end.

Definition or_default (s d : string) : string := if eqs s EmptyString then d else s.
Definition or_default_list (l d : list string) : list string := match l with [] => d | _ => l end.

Definition normalizeConfig (cfg : Config) : Config :=
  let defaults := DefaultConfig in
  let mode := or_default (RuntimeMode cfg) (RuntimeMode defaults) in
  let home := or_default (HomeDir cfg) (HomeDir defaults) in
  mk_config (or_default (CfgAppName cfg) (CfgAppName defaults))
    (or_default (CfgChainID cfg) (CfgChainID defaults))
    mode home
    (or_default (ConfigPath cfg) (runtimeConfigPath home))
    (or_default (GenesisPath cfg) (runtimeGenesisPath home))
    (normalizeModules (CfgModules cfg) (CfgModules defaults))
    (or_default (StatePath cfg)
       (if eqs mode RuntimeModeSDKStore then runtimeStorePath home else runtimeStatePath home))
    (or_default_list (AllowedSigners cfg) (AllowedSigners defaults))
    (or_default_list (GovernanceAuthorities cfg) (GovernanceAuthorities defaults))
    (if N.eqb (RequiredThreshold cfg) 0 then RequiredThreshold defaults else RequiredThreshold cfg).

Definition mergeConfig (base override : Config) : Config :=
  mk_config (or_default (CfgAppName override) (CfgAppName base))
    (or_default (CfgChainID override) (CfgChainID base))
    (or_default (RuntimeMode override) (RuntimeMode base))
    (or_default (HomeDir override) (HomeDir base))
    (or_default (ConfigPath override) (ConfigPath base))
    (or_default (GenesisPath override) (GenesisPath base))
    (or_default_list (CfgModules override) (CfgModules base))
    (or_default (StatePath override) (StatePath base))
    (or_default_list (AllowedSigners override) (AllowedSigners base))
    (or_default_list (GovernanceAuthorities override) (GovernanceAuthorities base))
    (if N.eqb (RequiredThreshold override) 0 then RequiredThreshold base else RequiredThreshold override).

Definition blank_text (s : string) : bool := eqs (TrimSpace s) EmptyString.
Definition is_nil {A} (l : list A) : bool := match l with [] => true | _ => false end.

Definition validateConfig (cfg : Config) : result unit :=
  let mode := TrimSpace (RuntimeMode cfg) in
  first_error [
    (negb (eqs mode EmptyString || eqs mode DefaultRuntimeMode || eqs mode RuntimeModeSDKStore),
      Errorf ("unsupported runtime mode " +:+ Quote (RuntimeMode cfg)));
    (blank_text (HomeDir cfg), Errorf "home dir is required");
    (blank_text (ConfigPath cfg), Errorf "config path is required");
    (blank_text (GenesisPath cfg), Errorf "genesis path is required");
    (blank_text (StatePath cfg), Errorf "state path is required");
    (is_nil (AllowedSigners cfg), Errorf "at least one allowed signer is required");
    (is_nil (GovernanceAuthorities cfg), Errorf "at least one governance authority is required");
    (N.eqb (RequiredThreshold cfg) 0, Errorf "required threshold must be greater than zero");
    ((N.of_nat (length (AllowedSigners cfg)) <? RequiredThreshold cfg)%N,
      Errorf ("required threshold " +:+ format_uint (RequiredThreshold cfg) +:+ " exceeds configured signers " +:+
              format_uint (N.of_nat (length (AllowedSigners cfg)))))].

Definition DefaultGenesis (cfg : Config) : Genesis :=
  let cfg := normalizeConfig cfg in
  mk_genesis (CfgAppName cfg) (CfgChainID cfg) (CfgModules cfg) (AllowedSigners cfg)
    (GovernanceAuthorities cfg) (RequiredThreshold cfg).

(** The loops of [Genesis.Validate] over module names and signers. *)
Fixpoint validate_names (what whatName : string) (names : list string) (seen : gset string) : result unit :=
  match names with
  | [] => Ok tt
  | name :: rest =>
      let name := TrimSpace name in
      if eqs name EmptyString then Err (Errorf ("genesis " +:+ whatName +:+ " must not be empty"))
      else if decide (name ∈ seen) then Err (Errorf ("duplicate genesis " +:+ what +:+ " " +:+ Quote name))
      else validate_names what whatName rest ({[ name ]} ∪ seen)
  end.

Definition Genesis_Validate (g : Genesis) : result unit :=
  let? _ := first_error [
    (blank_text (GenAppName g), Errorf "genesis app name is required");
    (blank_text (GenChainID g), Errorf "genesis chain id is required");
    (is_nil (GenModules g), Errorf "genesis modules are required");
    (is_nil (GenAllowedSigners g), Errorf "genesis allowed signers are required");
    (N.eqb (GenRequiredThreshold g) 0, Errorf "genesis required threshold must be greater than zero");
    ((N.of_nat (length (GenAllowedSigners g)) <? GenRequiredThreshold g)%N,
      Errorf ("genesis threshold " +:+ format_uint (GenRequiredThreshold g) +:+ " exceeds configured signers " +:+
              format_uint (N.of_nat (length (GenAllowedSigners g)))))] in
  let? _ := validate_names "module" "module name" (GenModules g) ∅ in
  validate_names "signer" "signer" (GenAllowedSigners g) ∅.

Definition DefaultEncodingConfig (modules : list string) : EncodingConfig :=
  mk_encoding "proto-json"
    (SortStrings (map (fun m => m +:+ ".msg") modules ++ ["sdk.Msg"; "sdk.Tx"]%string))
    (mk_tx_config "direct" "sync").

Definition defaultStoreKeys (modules : list string) : gmap string string :=
  foldl (fun keys m => <[m := AppName +:+ "/" +:+ m]> keys) ∅ modules.

(** ** Reading and writing the files *)

Definition LoadConfig (w : FS document) (path : string) : result Config :=
  let? d := ReadDocument w (TrimSpace path) in Ok (normalizeConfig (as_config d)).

Definition LoadGenesis (w : FS document) (path : string) : result Genesis :=
  let? d := ReadDocument w (TrimSpace path) in Ok (as_genesis d).

Definition ResolveConfig (w : FS document) (cfg : Config) : result Config :=
  let explicit := cfg in
  let cfg := normalizeConfig cfg in
  let? cfg :=
    match LoadConfig w (ConfigPath cfg) with
    | Ok stored => Ok (normalizeConfig (mergeConfig stored explicit))
    | Err e => if IsNotExist e then Ok cfg else Err e
    end in
  let? _ := validateConfig cfg in
  Ok cfg.

Definition writeConfigFile (path : string) (cfg : Config) : Op (FS document) unit := WriteFile path (ConfigDoc cfg).
Definition writeGenesisFile (path : string) (g : Genesis) : Op (FS document) unit := WriteFile path (GenesisDoc g).

Definition fileExists (w : FS document) (path : string) : result bool :=
  match Stat w (TrimSpace path) with
  | Ok _ => Ok true
  | Err e => if IsNotExist e then Ok false else Err e
  end.

Definition runtimeInitialized (w : FS document) (cfg : Config) : bool :=
  forallb (fun path => negb (blank_text path) && is_ok (Stat w path))
    [ConfigPath cfg; GenesisPath cfg; StatePath cfg].

Definition loadRuntimeNodeState (w : FS document) (cfg : Config) : result (list QueuedDepositClaim) :=
  match ReadFile w (runtimeNodeStatePath cfg) with
  | Err e => if IsNotExist e then Ok [] else Err e
  | Ok None => Err json_error
  | Ok (Some d) => Ok (as_node d)
  end.

Definition persistRuntimeNodeState (cfg : Config) (claims : list QueuedDepositClaim) : Op (FS document) unit :=
  let path := runtimeNodeStatePath cfg in
  MkdirAll (Dir path) ;;;
  WriteFile path (NodeDoc claims).

Definition decode_state (d : state_document) : runtimeState :=
  mk_runtime (DocAssets d) (default (Bank.mk_state []) (DocBank d))
    (match DocLimits d with
     | NoLimits => Limits.mk_snapshot [] []
     | LegacyLimits l => Limits.mk_snapshot l []
     | LimitsObject s => s
     end)
    (DocPausedFlows d) (DocPendingClaims d) (DocBridge d) (DocIBCRouter d) (DocGovernance d)
    (match DocBank d with Some _ => true | None => false end).

Definition encode_state (s : runtimeState) : state_document :=
  mk_state_doc (RtAssets s) (Some (RtBank s)) (LimitsObject (RtLimits s)) (RtPausedFlows s)
    (RtPendingClaims s) (RtBridge s) (RtIBCRouter s) (RtGovernance s).

(** [runtimeState{}]. *)
Definition zero_state : runtimeState := decode_state (empty_state []).

Definition loadRuntimeState (w : FS document) (path : string) : result runtimeState :=
  if eqs path EmptyString then Ok zero_state
  else match ReadFile w path with
       | Err e => if IsNotExist e then Ok zero_state else Err e
       | Ok None => Err json_error
       | Ok (Some d) => Ok (decode_state (as_state d))
       end.

Definition persistRuntimeState (path : string) (s : runtimeState) : Op (FS document) unit :=
  if eqs path EmptyString then ret tt
  else MkdirAll (Dir path) ;;; WriteByRename path (StateDoc (encode_state s)).
End config.

(** ** Normalisation *)

Section theorems.
Context `{Environment}.

Lemma or_default_idem s d : or_default (or_default s d) d = or_default s d.
Proof. unfold or_default. destruct (eqs s EmptyString) eqn:Hs; [by destruct (eqs d EmptyString)|by rewrite Hs]. Qed.

Lemma or_default_nonempty s d : s <> EmptyString -> or_default s d = s.
Proof. intros Hs. unfold or_default. by rewrite (proj2 (eqs_false _ _) Hs). Qed.

Lemma or_default_ne s d : d <> EmptyString -> or_default s d <> EmptyString.
Proof. intros Hd. unfold or_default. destruct (eqs s EmptyString) eqn:Hs; [done|by apply eqs_false]. Qed.

Lemma or_default_list_nonempty l d : l <> [] -> or_default_list l d = l.
Proof. by destruct l. Qed.

(** The names a module list may hold. *)
Definition module_names_ok (l : list string) : Prop :=
  NoDup l /\ Forall (fun m => trimmed m /\ m <> EmptyString) l.

Lemma add_module_ok l m : module_names_ok l -> module_names_ok (add_module l m).
Proof.
  intros [Hnd Hall]. unfold add_module. destruct (eqs (TrimSpace m) EmptyString) eqn:He; [done|].
  case_bool_decide as Hin; cbn [orb]; [done|]. apply eqs_false in He. split.
  - apply NoDup_app. split_and!; [done| |repeat constructor; set_solver].
    intros x Hx ->%list_elem_of_singleton. done.
  - apply Forall_app. split; [done|]. repeat constructor; [apply TrimSpace_trimmed|done].
Qed.

Lemma add_modules_ok ms l : module_names_ok l -> module_names_ok (foldl add_module l ms).
Proof. revert l. induction ms as [|m ms IH]; intros l Hl; cbn [foldl]; [done|]. by apply IH, add_module_ok. Qed.

Lemma add_modules_keep ms l x : x ∈ l -> x ∈ foldl add_module l ms.
Proof.
  revert l. induction ms as [|m ms IH]; intros l Hx; cbn [foldl]; [done|]. apply IH. unfold add_module.
  destruct (_ || _); [done|]. set_solver.
Qed.

Lemma add_modules_all ms l m : m ∈ ms -> TrimSpace m <> EmptyString -> TrimSpace m ∈ foldl add_module l ms.
Proof.
  revert l. induction ms as [|m' ms IH]; intros l Hm Hne; cbn [foldl]; [by apply not_elem_of_nil in Hm|].
  apply elem_of_cons in Hm as [->|Hm]; [|by apply IH].
  apply add_modules_keep. unfold add_module. rewrite (proj2 (eqs_false _ _) Hne). cbn [orb].
  case_bool_decide; [done|]. set_solver.
Qed.

(** Names that are there already add nothing. *)
Lemma add_modules_present ms l :
  Forall (fun m => TrimSpace m = EmptyString \/ TrimSpace m ∈ l) ms -> foldl add_module l ms = l.
Proof.
  intros Hms. induction Hms as [|m ms Hm _ IH]; cbn [foldl]; [done|].
  assert (Hadd : add_module l m = l).
  { unfold add_module. destruct Hm as [->|Hm]; [by rewrite eqs_refl|].
    rewrite bool_decide_eq_true_2 by done. by rewrite orb_true_r. }
  by rewrite Hadd.
Qed.

Lemma add_modules_new ms l :
  module_names_ok ms -> (forall m, m ∈ ms -> m ∉ l) -> foldl add_module l ms = l ++ ms.
Proof.
  revert l. induction ms as [|m ms IH]; intros l [Hnd Hall] Hnew; cbn [foldl]; [by rewrite app_nil_r|].
  apply NoDup_cons in Hnd as [Hm Hnd]. apply Forall_cons in Hall as [[Ht Hne] Hall].
  assert (Hadd : add_module l m = l ++ [m]).
  { unfold add_module. rewrite Ht, (proj2 (eqs_false _ _) Hne), bool_decide_eq_false_2; [done|].
    apply Hnew. left. }
  rewrite Hadd, IH; [by rewrite <- app_assoc|by split|].
  intros x Hx Hin. apply elem_of_app in Hin as [Hin|Hin%list_elem_of_singleton].
  - apply (Hnew x); [by right|done].
  - by subst x.
Qed.

Lemma defaultModules_ok : module_names_ok defaultModules.
Proof. split; apply (bool_decide_unpack _); vm_compute; exact I. Qed.

(** A normalised module list: no name twice, no blank name, every module the
    application needs among them. *)
Definition modules_ok (l : list string) : Prop :=
  module_names_ok l /\ Forall (fun m => m ∈ l) defaultModules.

Lemma normalizeModules_ok modules : modules_ok (normalizeModules modules defaultModules).
Proof.
  unfold normalizeModules. destruct modules as [|m modules].
  - split; [apply defaultModules_ok|]. apply Forall_forall. auto.
  - split; [apply add_modules_ok, add_modules_ok; split; constructor|].
    apply Forall_forall. intros x Hx. destruct defaultModules_ok as [_ Hall].
    pose proof (proj1 (Forall_forall _ _) Hall x Hx) as [Ht Hne].
    rewrite <- Ht. apply add_modules_all; [done|by rewrite Ht].
Qed.

Lemma normalizeModules_id l : modules_ok l -> normalizeModules l defaultModules = l.
Proof.
  intros [Hl Hall]. unfold normalizeModules. destruct l as [|m l].
  { apply Forall_cons in Hall as [Hx _]. by apply not_elem_of_nil in Hx. }
  rewrite (add_modules_new (m :: l) []); [|done|intros x _; apply not_elem_of_nil]. cbn [app].
  apply add_modules_present. eapply Forall_impl; [exact Hall|]. intros x Hx. right.
  destruct Hl as [_ Hl]. by rewrite (proj1 (proj1 (Forall_forall _ _) Hl x Hx)).
Qed.

Lemma defaultHomeDir_nonempty : TempDir <> EmptyString -> defaultHomeDir <> EmptyString.
Proof. intros. by apply JoinPath_nonempty. Qed.

(** What the rest of the program may rely on. *)
Record config_ok (c : Config) : Prop := {
  ok_names : CfgAppName c <> EmptyString /\ CfgChainID c <> EmptyString;
  ok_mode : TrimSpace (RuntimeMode c) = DefaultRuntimeMode \/ TrimSpace (RuntimeMode c) = RuntimeModeSDKStore \/
    (TrimSpace (RuntimeMode c) = EmptyString /\ RuntimeMode c <> EmptyString);
  ok_paths : Forall (fun p => TrimSpace p <> EmptyString) [HomeDir c; ConfigPath c; GenesisPath c; StatePath c];
  ok_modules : modules_ok (CfgModules c);
  ok_threshold : (0 < RequiredThreshold c <= N.of_nat (length (AllowedSigners c)))%N;
  ok_authorities : GovernanceAuthorities c <> []
}.

Lemma validateConfig_checks c :
  validateConfig c = Ok tt ->
  (TrimSpace (RuntimeMode c) = EmptyString \/ TrimSpace (RuntimeMode c) = DefaultRuntimeMode \/
   TrimSpace (RuntimeMode c) = RuntimeModeSDKStore) /\
  Forall (fun p => TrimSpace p <> EmptyString) [HomeDir c; ConfigPath c; GenesisPath c; StatePath c] /\
  (0 < RequiredThreshold c <= N.of_nat (length (AllowedSigners c)))%N /\ GovernanceAuthorities c <> [].
Proof.
  unfold validateConfig. rewrite first_error_ok. intros Hall.
  repeat (apply Forall_cons in Hall as [? Hall]). cbn [fst] in *.
  match goal with Hm : negb _ = false |- _ => apply negb_false_iff in Hm; rename Hm into Hmode end.
  unfold blank_text in *. split_and!.
  - rewrite !orb_true_iff, !eqs_true in Hmode. tauto.
  - repeat constructor; by apply eqs_false.
  - match goal with Ht : (_ =? 0)%N = false |- _ => apply N.eqb_neq in Ht end. lia.
  - match goal with Ht : (_ <? _)%N = false |- _ => apply N.ltb_ge in Ht end. done.
  - by destruct (GovernanceAuthorities c).
Qed.

Lemma normalizeConfig_id c : config_ok c -> normalizeConfig c = c.
Proof.
  intros [[Ha Hc] Hm Hp Hmod Ht Hg].
  assert (Hne : forall p, TrimSpace p <> EmptyString -> p <> EmptyString) by (intros p Hp' ->; done).
  repeat (apply Forall_cons in Hp as [?%Hne Hp]).
  assert (Hmode : RuntimeMode c <> EmptyString).
  { intros He. rewrite He in Hm. destruct Hm as [Hm|[Hm|[_ Hm]]]; [discriminate Hm|discriminate Hm|by apply Hm]. }
  unfold normalizeConfig. cbv zeta. rewrite !or_default_nonempty by done.
  change (CfgModules DefaultConfig) with defaultModules.
  rewrite normalizeModules_id by done. rewrite !or_default_list_nonempty; [|done|by intros He; rewrite He in Ht; simpl in Ht; lia].
  rewrite (proj2 (N.eqb_neq _ _)) by lia. by destruct c.
Qed.

Lemma mergeConfig_full stored c : config_ok c -> mergeConfig stored c = c.
Proof.
  intros [[Ha Hc] Hm Hp Hmod Ht Hg].
  assert (Hne : forall p, TrimSpace p <> EmptyString -> p <> EmptyString) by (intros p Hp' ->; done).
  repeat (apply Forall_cons in Hp as [?%Hne Hp]).
  assert (Hmode : RuntimeMode c <> EmptyString).
  { intros He. rewrite He in Hm. destruct Hm as [Hm|[Hm|[_ Hm]]]; [discriminate Hm|discriminate Hm|by apply Hm]. }
  unfold mergeConfig. rewrite !or_default_nonempty by done.
  rewrite !or_default_list_nonempty; [|done|by intros He; rewrite He in Ht; simpl in Ht; lia|].
  2: { intros He. destruct Hmod as [_ Hall]. rewrite He in Hall. inversion Hall as [|? ? Hx]. by apply not_elem_of_nil in Hx. }
  rewrite (proj2 (N.eqb_neq _ _)) by lia. by destruct c.
Qed.

Lemma normalized_valid c : validateConfig (normalizeConfig c) = Ok tt -> config_ok (normalizeConfig c).
Proof.
  intros Hv. apply validateConfig_checks in Hv as (Hm & Hp & Ht & Hg). split; try done.
  - split; apply or_default_ne; done.
  - assert (RuntimeMode (normalizeConfig c) <> EmptyString) by (by apply or_default_ne). tauto.
  - apply normalizeModules_ok.
Qed.

(** A resolved configuration is a normalised one that passed the checks. *)
Lemma ResolveConfig_form w cfg c :
  ResolveConfig w cfg = Ok c -> config_ok c /\ normalizeConfig c = c /\ validateConfig c = Ok tt.
Proof.
  unfold ResolveConfig. cbv zeta. intros Hr. apply res_bind_ok_inv in Hr as (c' & Hc' & Hr).
  apply res_bind_ok_inv in Hr as ([] & Hv & Hr). injection Hr as ->.
  assert (Hn : exists x, c = normalizeConfig x).
  { destruct (LoadConfig w _) as [stored|e]; [injection Hc' as <-; eauto|].
    destruct (IsNotExist e); [injection Hc' as <-; eauto|done]. }
  destruct Hn as [x ->]. pose proof (normalized_valid x Hv) as Hk.
  split_and!; [done|by apply normalizeConfig_id|done].
Qed.


(** Resolving twice is resolving once. [LoadWithConfig] resolves again a
    configuration that its caller has resolved: it gets the same configuration,
    or the error of reading the file at the resolved [ConfigPath], which need
    not be the file the first resolution read. *)
Theorem ResolveConfig_twice (w : FS document) (cfg c : Config) :
  ResolveConfig w cfg = Ok c ->
  match LoadConfig w (ConfigPath c) with
  | Err e => if IsNotExist e then ResolveConfig w c = Ok c else ResolveConfig w c = Err e
  | Ok _ => ResolveConfig w c = Ok c
  end.
Proof.
  intros Hr. apply ResolveConfig_form in Hr as (Hk & Hn & Hv). unfold ResolveConfig. cbv zeta. rewrite Hn.
  destruct (LoadConfig w (ConfigPath c)) as [stored|e].
  - rewrite mergeConfig_full, Hn by done. cbn [res_bind]. by rewrite Hv.
  - destruct (IsNotExist e); cbn [res_bind]; [by rewrite Hv|done].
Qed.
End theorems.

(** ** Concrete runs *)

#[local] Instance demo_environment : Environment := {| TempDir := "/tmp" |}.

(** A home whose configuration file was written by hand: two signers, a module
    list with a blank and a repeated name. *)
Definition sparse_config : Config :=
  mk_config EmptyString "chain-9" EmptyString EmptyString EmptyString EmptyString ["bridge"; " "; "extra"; "bridge "]%string
    EmptyString ["0xaa"; "0xbb"]%string [] 0.
Definition sparse_home : FS document :=
  mk_fs {[ parse_path "/srv/aegis/config/runtime.json" := File (ConfigDoc sparse_config) ]} [].
Definition sparse_flags : Config :=
  mk_config EmptyString EmptyString EmptyString "/srv/aegis" EmptyString EmptyString [] EmptyString [] [] 0.

Definition sparse_resolved : Config :=
  mk_config "aegislink" "chain-9" "runtime-shell" "/srv/aegis" "/tmp/aegislinkd/config/runtime.json"
    "/tmp/aegislinkd/config/genesis.json" ["bridge"; "extra"; "bank"; "registry"; "limits"; "pauser"; "ibcrouter"; "governance"]%string
    "/tmp/aegislinkd/data/state.json" ["0xaa"; "0xbb"]%string ["guardian-1"]%string 2.

Lemma sparse_resolves : ResolveConfig sparse_home sparse_flags = Ok sparse_resolved.
Proof. vm_compute. reflexivity. Qed.


Lemma ResolveConfig_twice_witness : ResolveConfig sparse_home sparse_resolved = Ok sparse_resolved.
Proof. exact (ResolveConfig_twice _ _ _ sparse_resolves). Defined.
