(* ===== verification/Runtime.v ===== *)
(** [chain/aegislink/app] (app.go, config.go, store_runtime.go,
    runtime_state.go, service.go): building the application from its
    configuration and its files, saving it, closing it, and its status.

    [RuntimeApp] is the Go [App] value: the keepers ([App]) with the
    configuration they were built from. A process is a [RuntimeApp] and the
    disk. In the store-backed mode the keepers write to one multi-store, so
    after every operation the disk holds what they have committed. *)

From S2P Require Import Prelude.
From S2P Require Import GoStrings.
From S2P Require Import Errors.
From S2P Require Import Files.
From S2P Require Import PrefixStore.
From S2P Require Pauser.
From S2P Require Registry.
From S2P Require Limits.
From S2P Require BridgeState.
From S2P Require Bank.
From S2P Require IBCRouter.
From S2P Require Governance.
From S2P Require Import BridgeTypes.
From S2P Require Import App.
From S2P Require Import Config.
From S2P Require Import Snapshots.
From stdpp Require Import strings.

(** The stores of the modules, in the multi-store of one home. *)
Record ModuleStores := mk_stores {
  RegistryStore : JSONPrefixStore Registry.document;
  BankStore : JSONPrefixStore Bank.document;
  LimitsStore : JSONPrefixStore Limits.document;
  PauserStore : JSONPrefixStore Pauser.document;
  RouterStore : JSONPrefixStore IBCRouter.document;
  GovernanceStore : JSONPrefixStore Governance.document;
  BridgeStore : JSONPrefixStore BridgeState.document
}.

Definition no_stores : ModuleStores :=
  mk_stores empty_store empty_store empty_store empty_store empty_store empty_store empty_store.

(** The SDK's multi-store over LevelDB: what it answers when a store is opened
    with some modules mounted. [NewKVStoreKeys] panics when it is false. *)
Class SDKStore := {
  NewKVStoreKeys : list string -> bool;
  LoadLatestVersion : list string -> ModuleStores -> result unit;
  SetInitialVersion : ModuleStores -> result unit      (* called when nothing was committed *)
}.

Record World := mk_world {
  files : FS Config.document;
  stores : gmap Path ModuleStores
}.

Definition upd_files f (w : World) : World := mk_world (f (files w)) (stores w).
Definition upd_stores f (w : World) : World := mk_world (files w) (f (stores w)).
Definition on_files {A} (m : Op (FS Config.document) A) : Op World A :=
  zoom files (fun f => upd_files (fun _ => f)) m.

Record RuntimeApp := mk_runtime_app {
  AppConfig : Config;
  Keepers : App;
  AppEncoding : EncodingConfig;
  AppStoreKeys : gmap string string;
  AppModules : list string;
  storeRuntime : option Path
}.

Definition set_keepers (a : App) (r : RuntimeApp) : RuntimeApp :=
  mk_runtime_app (AppConfig r) a (AppEncoding r) (AppStoreKeys r) (AppModules r) (storeRuntime r).

Abbreviation Process := (RuntimeApp * World)%type.

(** What the keepers of an application have committed. *)
Definition last_commit {V} (s : option (JSONPrefixStore V)) : JSONPrefixStore V :=
  match s with Some s => mk_store (committed s) (committed s) | None => empty_store end.

Definition committed_stores (a : App) : ModuleStores :=
  mk_stores (last_commit (Registry.prefixStore (RegistryKeeper a))) (last_commit (Bank.prefixStore (BankKeeper a)))
    (last_commit (Limits.prefixStore (LimitsKeeper a))) (last_commit (Pauser.prefixStore (PauserKeeper a)))
    (last_commit (IBCRouter.prefixStore (IBCRouterKeeper a))) (last_commit (govStore a))
    (last_commit (BridgeState.prefixStore (BridgeKeeper a))).

(** The disk after a step of the application. *)
Definition sync (r : RuntimeApp) (w : World) : World :=
  match storeRuntime r with
  | Some path => upd_stores <[path := committed_stores (Keepers r)]> w
  | None => w
  end.

(** A method of the keepers, run by the process. *)
Definition on_keepers {E A} (m : M E App A) : M E Process A := fun p =>
  let '(r, a) := m (Keepers p.1) in
  let app := set_keepers a p.1 in
  (r, (app, sync app p.2)).

Definition on_disk {A} (m : Op World A) : Op Process A := zoom snd (fun w p => (p.1, w)) m.

Section runtime.
Context `{MapIteration} `{Crypto} `{Bank.AddressCodec} `{Environment} `{SDKStore}.

(** ** Construction *)

Definition newAppFromKeepers (cfg : Config) (a : App) (store : option Path) : RuntimeApp :=
  mk_runtime_app cfg a (DefaultEncodingConfig defaultModules) (defaultStoreKeys defaultModules) defaultModules store.

(** The keepers of the snapshot mode. *)
Definition fresh_keepers (cfg : Config) : App :=
  mk_app (BridgeState.NewKeeper Registry.NewKeeper Limits.NewKeeper Pauser.NewKeeper
            (AllowedSigners cfg) (RequiredThreshold cfg))
    Bank.NewKeeper IBCRouter.NewKeeper (Governance.canonicalAuthoritySet (GovernanceAuthorities cfg)) [] None [] [].

Definition store_path (cfg : Config) : string :=
  if eqs (StatePath cfg) EmptyString then runtimeStorePath (HomeDir cfg) else StatePath cfg.

Definition stores_at (w : World) (cfg : Config) : ModuleStores :=
  default no_stores (stores w !! parse_path (store_path cfg)).

Definition version_missing (e : error) : bool := Contains (error_text e) "version does not exist".

Definition newStoreRuntime (cfg : Config) : Op World ModuleStores :=
  on_files (MkdirAll (Dir (store_path cfg))) ;;;
  on_files (MkdirAll (store_path cfg)) ;;;
  let! opened := attempt (on_files (atomic_step id)) in
  lift (match opened with Ok _ => Ok tt | Err e => Err (Prefixed "open sdk store db" e) end) ;;;
  throw_if (negb (NewKVStoreKeys (CfgModules cfg))) (Panic "conflicting store keys") ;;;
  let! multi := gets (fun w => stores_at w cfg) in
  lift (match LoadLatestVersion (CfgModules cfg) multi with
        | Err e => if version_missing e then Ok tt else Err (Prefixed "load latest sdk store version" e)
        | Ok _ => Ok tt
        end) ;;;
  lift (match SetInitialVersion multi with
        | Err e => Err (Prefixed "set initial sdk store version" e)
        | Ok _ => Ok tt
        end) ;;;
  ret multi.

(** Every keeper opens its own store; the store of a keeper that migrated a
    legacy document is committed by then. *)
Definition newStoreBackedApp (cfg : Config) : Op World RuntimeApp :=
  let! multi := newStoreRuntime cfg in
  let! registry := lift (Registry.NewStoreKeeper (RegistryStore multi)) in
  let! bank := lift (Bank.NewStoreKeeper (BankStore multi)) in
  let! limits := lift (Limits.NewStoreKeeper (LimitsStore multi)) in
  let! pauser := lift (Pauser.NewStoreKeeper (PauserStore multi)) in
  let! router := lift (IBCRouter.NewStoreKeeper (RouterStore multi)) in
  let! governance := lift (Governance.NewStoreKeeper (GovernanceStore multi) registry limits router
                             (GovernanceAuthorities cfg)) in
  let! bridge := lift (BridgeState.NewStoreKeeper (BridgeStore multi) registry limits pauser
                         (AllowedSigners cfg) (RequiredThreshold cfg)) in
  let app := newAppFromKeepers
    (mk_config (CfgAppName cfg) (CfgChainID cfg) (RuntimeMode cfg) (HomeDir cfg) (ConfigPath cfg)
       (GenesisPath cfg) (CfgModules cfg) (store_path cfg) (AllowedSigners cfg)
       (GovernanceAuthorities cfg) (RequiredThreshold cfg))
    (mk_app bridge bank router (Governance.authorities governance) (Governance.applied governance)
       (Governance.prefixStore governance) [] [])
    (Some (parse_path (store_path cfg))) in
  modify (sync app) ;;;
  ret app.

Definition NewWithConfig (cfg : Config) : Op World RuntimeApp :=
  let cfg := normalizeConfig cfg in
  if eqs (RuntimeMode cfg) RuntimeModeSDKStore then newStoreBackedApp cfg
  else ret (newAppFromKeepers cfg (fresh_keepers cfg) None).

Definition New : Op World RuntimeApp := NewWithConfig DefaultConfig.

(** [app.pendingDepositClaims = nodeState.PendingClaims]; both hold what the
    node file does. *)
Definition with_pending (claims : list QueuedDepositClaim) (a : App) : App :=
  set_node_state claims (set_pending claims a).

Definition LoadWithConfig (cfg : Config) : Op World RuntimeApp :=
  let! resolved := query (fun w => ResolveConfig (files w) cfg) in
  let! app := NewWithConfig resolved in
  if eqs (RuntimeMode resolved) RuntimeModeSDKStore then
    let! nodeState := query (fun w => loadRuntimeNodeState (files w) resolved) in
    ret (set_keepers (with_pending nodeState (Keepers app)) app)
  else
    let! state := query (fun w => loadRuntimeState (files w) (StatePath (AppConfig app))) in
    let '(r, a) := load_runtime state (Keepers app) in
    match r with
    | Ok _ => ret (set_keepers a app)
    | Err e => throw e
    end.

Definition Load (statePath : string) : Op World RuntimeApp :=
  let d := DefaultConfig in
  LoadWithConfig (mk_config (CfgAppName d) (CfgChainID d) (RuntimeMode d) (HomeDir d) (ConfigPath d)
    (GenesisPath d) (CfgModules d) statePath (AllowedSigners d) (GovernanceAuthorities d) (RequiredThreshold d)).

Definition InitHome (cfg : Config) (force : bool) : Op World Config :=
  let cfg := normalizeConfig cfg in
  lift (validateConfig cfg) ;;;
  let! configExists := query (fun w => fileExists (files w) (ConfigPath cfg)) in
  let! genesisExists := query (fun w => fileExists (files w) (GenesisPath cfg)) in
  let! stateExists := query (fun w => fileExists (files w) (StatePath cfg)) in
  throw_if (negb force && (configExists || genesisExists || stateExists)) ErrRuntimeAlreadyInitialized ;;;
  on_files (MkdirAll (Dir (ConfigPath cfg))) ;;;
  on_files (if eqs (RuntimeMode cfg) RuntimeModeSDKStore then MkdirAll (StatePath cfg)
            else MkdirAll (Dir (StatePath cfg))) ;;;
  on_files (writeConfigFile (ConfigPath cfg) cfg) ;;;
  on_files (writeGenesisFile (GenesisPath cfg) (DefaultGenesis cfg)) ;;;
  (if eqs (RuntimeMode cfg) RuntimeModeSDKStore
   then newStoreRuntime cfg ;;; on_files (atomic_step id)       (* db.Close() *)
   else on_files (persistRuntimeState (StatePath cfg) zero_state)) ;;;
  ret cfg.

(** ** Saving and closing *)

(** The keepers flushed and the multi-store committed. *)
Definition commit_keepers : Op Process unit := on_keepers flush_keepers.

Definition persist_node_file : Op Process unit :=
  let! claims := gets (fun p => pendingDepositClaims (Keepers p.1)) in
  let! cfg := gets (fun p => AppConfig p.1) in
  on_disk (on_files (persistRuntimeNodeState cfg claims)) ;;;
  modify (fun p => (set_keepers (set_node_state claims (Keepers p.1)) p.1, p.2)).

Definition store_mode (r : RuntimeApp) : bool := eqs (RuntimeMode (AppConfig r)) RuntimeModeSDKStore.

Definition Save : Op Process unit :=
  let! app := gets fst in
  if store_mode app then commit_keepers ;;; persist_node_file
  else on_disk (on_files (persistRuntimeState (StatePath (AppConfig app)) (export_runtime (Keepers app)))).

Definition Close : Op Process unit :=
  let! app := gets fst in
  (if store_mode app then commit_keepers ;;; persist_node_file else ret tt) ;;;
  match storeRuntime app with
  | None => ret tt
  | Some _ => on_disk (on_files (atomic_step id))               (* db.Close() *)
  end.

(** ** Status *)

Record StatusInfo := mk_status {
  StAppName : string; StChainID : string; StRuntimeMode : string; StHomeDir : string;
  StConfigPath : string; StGenesisPath : string; StStatePath : string; StInitialized : bool;
  StModuleNames : list string; StModuleCount : nat;
  StAllowedSigners : list string; StGovernanceAuthorities : list string;
  StActiveVersion : N; StActiveThreshold : N; StSignerSetCount : nat; StSignerSetVersions : list N;
  StEnabledRouteIDs : list string; StRequiredThreshold : N; StCurrentHeight : N;
  StAssets : nat; StLimits : nat; StPausedFlows : nat; StClaims : nat; StFailedClaims : N;
  StCircuitOpen : bool; StLastError : string; StPendingClaims : nat; StWithdrawalCount : nat;
  StRoutes : nat; StTransfers : nat; StPending : nat; StCompleted : nat; StFailed : nat;
  StTimedOut : nat; StRefunded : nat; StProposals : nat; StSupply : gmap string string
}.

Definition count_status (status : string) (l : list IBCRouter.TransferRecord) : nat :=
  length (filter (fun t => IBCRouter.Status t = status) l).

Definition Status (r : RuntimeApp) (w : World) : StatusInfo :=
  let a := Keepers r in
  let cfg := AppConfig r in
  let bridgeState := BridgeState.ExportState (BridgeKeeper a) in
  let transfers := IBCRouter.ExportTransfers (IBCRouterKeeper a) in
  let routes := IBCRouter.ExportRoutes (IBCRouterKeeper a) in
  let signerSets := BridgeState.ExportSignerSets (BridgeKeeper a) in
  let active := match BridgeState.ActiveSignerSet (BridgeKeeper a) with
                | Ok s => (BridgeState.Version s, BridgeState.SetThreshold s)
                | Err _ => (0, 0)%N
                end in
  mk_status (CfgAppName cfg) (CfgChainID cfg) (RuntimeMode cfg) (HomeDir cfg) (ConfigPath cfg)
    (GenesisPath cfg) (StatePath cfg) (runtimeInitialized (files w) cfg)
    (AppModules r) (length (AppModules r)) (AllowedSigners cfg) (GovernanceAuthorities cfg)
    active.1 active.2 (length signerSets) (map BridgeState.Version signerSets)
    (enabledRouteIDs routes) (RequiredThreshold cfg) (BridgeState.MetaHeight (BridgeState.StMeta bridgeState))
    (length (Registry.ExportAssets (RegistryKeeper a))) (length (Limits.ExportLimits (LimitsKeeper a)))
    (length (Pauser.ExportPausedFlows (PauserKeeper a)))
    (length (BridgeState.StProcessedClaims bridgeState)) (BridgeState.rejectedClaims (BridgeKeeper a))
    (BridgeState.circuitBreakerTripped (BridgeKeeper a)) (BridgeState.lastInvariantError (BridgeKeeper a))
    (length (pendingDepositClaims a)) (length (BridgeState.StWithdrawals bridgeState))
    (length routes) (length transfers)
    (count_status IBCRouter.TransferStatusPending transfers)
    (count_status IBCRouter.TransferStatusCompleted transfers)
    (count_status IBCRouter.TransferStatusAckFailed transfers)
    (count_status IBCRouter.TransferStatusTimedOut transfers)
    (count_status IBCRouter.TransferStatusRefunded transfers)
    (length (Governance.AppliedProposals (Governance.ExportState (GovernanceKeeper a))))
    (BridgeState.StSupplyByDenom bridgeState).
End runtime.
