(* ===== verification/Restart.v ===== *)
(** The snapshot mode of the runtime (app.go, runtime_state.go): what an
    application that keeps no stores remembers, and that saving it and loading
    it again gives it back. *)

From S2P Require Import Prelude.
From S2P Require Import GoStrings.
From S2P Require Import Errors.
From S2P Require Import Files.
From S2P Require Import PrefixStore.
From S2P Require Pauser.
From S2P Require Registry.
From S2P Require Limits.
From S2P Require BridgeState.
From S2P Require Bridge.
From S2P Require Bank.
From S2P Require IBCRouter.
From S2P Require Governance.
From S2P Require Import BridgeTypes.
From S2P Require Import Snapshots.
From S2P Require Import App.
From S2P Require Import Config.
From S2P Require Import Runtime.
From stdpp Require Import strings.

(** ** Keepers without a store *)

(** Splits a method into its primitive steps, each of which must keep the
    invariant. *)
Ltac keep_step :=
  lazymatch goal with
  | |- preserves _ (ret _) => apply preserves_ret
  | |- preserves _ (throw _) => apply preserves_throw
  | |- preserves _ (gets _) => apply preserves_gets
  | |- preserves _ (lift _) => apply preserves_lift
  | |- preserves _ (query _) => apply preserves_query
  | |- preserves _ (throw_if _ _) => apply preserves_throw_if
  | |- preserves _ (some_or _ _) => apply preserves_some_or
  | |- preserves _ (bind _ _) => apply preserves_bind; [|intros ?]
  | |- preserves _ (attempt _) => apply preserves_attempt
  | |- preserves _ (modify _) => apply preserves_modify; intros ? ?; try done
  | |- preserves _ (match ?x with _ => _ end) => destruct x
  end.
Ltac keep := repeat keep_step.

Section bank.
Import Bank.
Context `{MapIteration} `{Bank.AddressCodec}.

Definition bank_mem (k : Keeper) : Prop := prefixStore k = None.

Lemma bank_persist_mem : preserves bank_mem persist.
Proof. unfold persist. keep. unfold bank_mem in *. cbn. by destruct (prefixStore _). Qed.
Lemma Credit_mem address denom amount : preserves bank_mem (Credit address denom amount).
Proof. unfold Credit. keep. apply bank_persist_mem. Qed.
Lemma Debit_mem address denom amount : preserves bank_mem (Debit address denom amount).
Proof. unfold Debit. keep. apply bank_persist_mem. Qed.
Lemma bank_ImportState_mem st : preserves bank_mem (ImportState st).
Proof. unfold ImportState, loadState. keep. Qed.
End bank.

Section registry.
Import Registry.
Context `{MapIteration}.

Definition registry_mem (k : Keeper) : Prop := prefixStore k = None.

Lemma registry_persist_mem k : registry_mem k -> persist k = (Ok tt, k).
Proof. intros Hk. unfold persist, modify. by rewrite Hk. Qed.
Lemma registry_persist_keeps : preserves registry_mem persist.
Proof. intros k Hk. by rewrite registry_persist_mem. Qed.
Lemma RegisterAsset_mem a : preserves registry_mem (RegisterAsset a).
Proof. unfold RegisterAsset, ensureDestinationDenomAvailable. keep. apply registry_persist_keeps. Qed.
Lemma setAssetEnabled_mem id b : preserves registry_mem (setAssetEnabled id b).
Proof. unfold setAssetEnabled. keep. apply registry_persist_keeps. Qed.
End registry.

Section limits.
Import Limits.
Context `{MapIteration}.

Definition limits_mem (k : Keeper) : Prop := prefixStore k = None.

Lemma limits_persist_mem k : limits_mem k -> persist k = (Ok tt, k).
Proof. intros Hk. unfold persist, modify. by rewrite Hk. Qed.
Lemma limits_persist_keeps : preserves limits_mem persist.
Proof. intros k Hk. by rewrite limits_persist_mem. Qed.
Lemma SetLimit_mem l : preserves limits_mem (SetLimit l).
Proof. unfold SetLimit. keep. apply limits_persist_keeps. Qed.
Lemma RecordTransferAtHeight_mem id amount h : preserves limits_mem (RecordTransferAtHeight id amount h).
Proof. unfold RecordTransferAtHeight. keep. apply limits_persist_keeps. Qed.
Lemma limits_ImportState_mem st : preserves limits_mem (ImportState st).
Proof.
  unfold ImportState, ImportLimits, ImportUsage. keep; try apply limits_persist_keeps;
    apply preserves_for_each; intros; keep.
Qed.

Lemma limits_import_export (k k0 : Keeper) :
  wf k -> limits_mem k0 -> ImportState (ExportState k) k0 = (Ok tt, mk_keeper (limits k) (usage k) None).
Proof.
  intros Hwf Hk0. unfold ImportState, ExportState. cbn [Limits Usage]. unfold bind.
  rewrite ImportLimits_ExportLimits by done. rewrite limits_persist_mem by done. cbn [snd].
  rewrite ImportUsage_ExportUsage by done. rewrite limits_persist_mem by done.
  unfold limits_mem in Hk0. unfold set_usage, set_limits. cbn [limits usage prefixStore]. by rewrite Hk0.
Qed.
End limits.

Section pauser.
Import Pauser.
Context `{MapIteration}.

Definition pauser_mem (k : Keeper) : Prop := prefixStore k = None /\ wf k.

Lemma pauser_persist_mem k : prefixStore k = None -> persist k = (Ok tt, k).
Proof. intros Hk. unfold persist, modify. by rewrite Hk. Qed.

Lemma pauser_persist_keeps : preserves pauser_mem persist.
Proof. intros k [Hk Hw]. by rewrite pauser_persist_mem. Qed.
Lemma Pause_mem flow : preserves pauser_mem (Pause flow).
Proof.
  intros k [Hk Hw]. unfold Pause, bind, lift, modify. destruct (flowKey flow) as [key|] eqn:Hf; [|done].
  apply flowKey_ok in Hf as (-> & Ht & Hne). apply pauser_persist_keeps. split; [done|]. by apply pauser_wf_insert.
Qed.
Lemma Unpause_mem flow : preserves pauser_mem (Unpause flow).
Proof.
  intros k [Hk Hw]. unfold Unpause, bind, lift, modify. destruct (flowKey flow) as [key|] eqn:Hf; [|done].
  apply pauser_persist_keeps. split; [done|]. by apply map_Forall_delete.
Qed.
End pauser.

Section bridge.
Import BridgeState.
Import Bridge.
Context `{MapIteration} `{Crypto}.

(** A bridge keeper none of whose keepers has a store; the pause flags are in
    canonical form. *)
Record bridge_mem (k : Keeper) : Prop := {
  mem_bridge : prefixStore k = None;
  mem_registry : registry_mem (registryKeeper k);
  mem_limits : limits_mem (limitsKeeper k);
  mem_pauser : pauser_mem (pauserKeeper k)
}.

Lemma bridge_persist_mem : preserves bridge_mem persist.
Proof. intros k []. split; try done. cbn. by rewrite mem_bridge0. Qed.

Lemma or_reject_mem {A} id (m : Op Keeper A) : preserves bridge_mem m -> preserves bridge_mem (or_reject id m).
Proof.
  intros Hm k Hk. specialize (Hm k Hk). unfold or_reject.
  destruct (m k) as [[x|e] k']; [done|]. cbn [snd] in *. destruct Hm. by split.
Qed.

Lemma record_transfer_mem id amount : preserves bridge_mem (record_transfer id amount).
Proof.
  unfold record_transfer. keep. intros k []. rewrite Governance.zoom_run. split; try done.
  by apply RecordTransferAtHeight_mem.
Qed.

Lemma on_registry_mem {A} (m : Op Registry.Keeper A) :
  preserves registry_mem m -> preserves bridge_mem (on_registry m).
Proof. intros Hm k []. unfold on_registry. rewrite Governance.zoom_run. split; try done. by apply Hm. Qed.
Lemma on_limits_mem {A} (m : Op Limits.Keeper A) :
  preserves limits_mem m -> preserves bridge_mem (on_limits m).
Proof. intros Hm k []. unfold on_limits. rewrite Governance.zoom_run. split; try done. by apply Hm. Qed.
Lemma on_pauser_mem {A} (m : Op Pauser.Keeper A) :
  preserves pauser_mem m -> preserves bridge_mem (on_pauser m).
Proof. intros Hm k []. unfold on_pauser. rewrite Governance.zoom_run. split; try done. by apply Hm. Qed.

Lemma tripCircuit_mem e : preserves bridge_mem (tripCircuit e).
Proof.
  unfold tripCircuit. keep; try apply bridge_persist_mem;
    match goal with Hk : bridge_mem _ |- _ => destruct Hk end; by split.
Qed.
Lemma CheckAccountingInvariant_mem : preserves bridge_mem CheckAccountingInvariant.
Proof. unfold CheckAccountingInvariant. keep. apply tripCircuit_mem. Qed.

Lemma ExecuteDepositClaim_mem claim att : preserves bridge_mem (ExecuteDepositClaim claim att).
Proof.
  unfold ExecuteDepositClaim. keep; try apply or_reject_mem; keep.
  - apply record_transfer_mem.
  - unfold acceptDepositClaim. keep; match goal with Hk : bridge_mem _ |- _ => destruct Hk end; by split.
  - apply CheckAccountingInvariant_mem.
  - apply bridge_persist_mem.
Qed.

Lemma bridge_ExecuteWithdrawal_mem id amount recipient deadline signature :
  preserves bridge_mem (Bridge.ExecuteWithdrawal id amount recipient deadline signature).
Proof.
  unfold Bridge.ExecuteWithdrawal, newWithdrawalRecord, burnRepresentation.
  keep; try apply record_transfer_mem; try apply CheckAccountingInvariant_mem; try apply bridge_persist_mem;
    match goal with Hk : bridge_mem _ |- _ => destruct Hk end; by split.
Qed.

Lemma bridge_ImportState_mem st : preserves bridge_mem (ImportState st).
Proof.
  unfold ImportState, import_claim, import_supply, import_withdrawal, import_signer_set.
  keep; try (apply preserves_for_each; intros; keep);
    match goal with Hk : bridge_mem _ |- _ => destruct Hk end; by split.
Qed.
End bridge.

Section router.
Import IBCRouter.
Context `{MapIteration}.

Record router_mem (k : Keeper) : Prop := {
  mem_router : prefixStore k = None;
  mem_stored : router_stored k
}.

Definition unstored (k : Keeper) : Prop := prefixStore k = None.

Lemma router_persist_mem k : unstored k -> persist k = (Ok tt, k).
Proof. intros Hk. unfold persist, modify, upd_prefixStore. rewrite Hk. cbn. rewrite <- Hk. by destruct k. Qed.

Lemma router_persist_unstored : preserves unstored persist.
Proof. intros k Hk. by rewrite router_persist_mem. Qed.

Lemma initiateTransfer_unstored assetID amount receiver h memo chain channel denom :
  preserves unstored (initiateTransfer assetID amount receiver h memo chain channel denom).
Proof. unfold initiateTransfer. cbv zeta. keep. apply router_persist_unstored. Qed.

Lemma settle_unstored t stage reason : preserves unstored (settle t stage reason).
Proof. unfold settle. keep. apply router_persist_unstored. Qed.

Lemma router_ops_unstored act : preserves unstored (fun k => (@Ok error unit tt, exec act k)).
Proof.
  intros k Hk. cbn [snd]. destruct act; cbn [exec].
  - apply (preserves_bind unstored); [keep| |done]. intros _. cbv zeta. keep. apply router_persist_unstored.
  - apply (preserves_bind unstored); [keep| |done]. intros _. cbv zeta. keep. apply router_persist_unstored.
  - revert k Hk. change (preserves unstored (InitiateTransfer assetID amount receiver timeoutHeight memo)).
    unfold InitiateTransfer. keep. apply initiateTransfer_unstored.
  - revert k Hk. change (preserves unstored (InitiateTransferWithProfile routeID assetID amount receiver timeoutHeight memo)).
    unfold InitiateTransferWithProfile. keep. apply initiateTransfer_unstored.
  - revert k Hk. change (preserves unstored (ReceiveIBCAck transferID success reason)).
    unfold ReceiveIBCAck, AcknowledgeSuccess, AcknowledgeFailure. keep; apply settle_unstored.
  - revert k Hk. change (preserves unstored (HandleIBCTimeout transferID)).
    unfold HandleIBCTimeout, TimeoutTransfer. keep; apply settle_unstored.
  - revert k Hk. change (preserves unstored (MarkRefunded transferID)).
    unfold MarkRefunded. keep. apply router_persist_unstored.
  - revert k Hk. change (preserves unstored (OpenTransportSession transferID)).
    unfold OpenTransportSession, move_transport. keep. apply router_persist_unstored.
  - revert k Hk. change (preserves unstored (MarkPacketRelayed transferID)).
    unfold MarkPacketRelayed, move_transport. keep. apply router_persist_unstored.
Qed.

Lemma router_exec_mem act k : router_mem k -> router_mem (exec act k).
Proof.
  intros [Hk Hs]. split; [by apply (router_ops_unstored act k)|by apply router_stored_exec].
Qed.
End router.

(** ** The application in memory *)

Record app_mem (names : gset string) (a : App) : Prop := {
  amem_bridge : bridge_mem (BridgeKeeper a);
  amem_bank : bank_mem (BankKeeper a);
  amem_router : router_mem (IBCRouterKeeper a);
  amem_gov : govStore a = None;
  amem_authorities : govAuthorities a = names;
  amem_records : Forall (fun r => Governance.canonical_record r = r) (govApplied a);
  amem_node : nodeState a = []
}.

Section app.
Context `{MapIteration} `{Crypto} `{Bank.AddressCodec} (names : gset string).

Lemma on_bridge_keeps {E A} (m : M E BridgeState.Keeper A) :
  preserves bridge_mem m -> preserves (app_mem names) (on_bridge m).
Proof. intros Hm a []. rewrite on_bridge_run. split; try done. by apply Hm. Qed.
Lemma on_bank_keeps {E A} (m : M E Bank.Keeper A) :
  preserves bank_mem m -> preserves (app_mem names) (on_bank m).
Proof. intros Hm a []. rewrite on_bank_run. split; try done. by apply Hm. Qed.
Lemma on_registry_keeps {A} (m : Op Registry.Keeper A) :
  preserves registry_mem m -> preserves (app_mem names) (on_registry m).
Proof. intros Hm. by apply on_bridge_keeps, on_registry_mem. Qed.
Lemma on_limits_keeps {A} (m : Op Limits.Keeper A) :
  preserves limits_mem m -> preserves (app_mem names) (on_limits m).
Proof. intros Hm. by apply on_bridge_keeps, on_limits_mem. Qed.
Lemma on_pauser_keeps {A} (m : Op Pauser.Keeper A) :
  preserves pauser_mem m -> preserves (app_mem names) (on_pauser m).
Proof. intros Hm. by apply on_bridge_keeps, on_pauser_mem. Qed.

Lemma router_action_keeps {A} (m : Op IBCRouter.Keeper A) act :
  (forall k, snd (m k) = IBCRouter.exec act k) -> preserves (app_mem names) (on_router m).
Proof.
  intros Hm a []. rewrite on_router_run. split; try done. cbn. rewrite Hm. by apply router_exec_mem.
Qed.

Lemma or_fail_keeps {A} (m : Op App A) : preserves (app_mem names) m -> preserves (app_mem names) (or_fail m).
Proof. intros Hm a Ha. specialize (Hm a Ha). unfold or_fail. by destruct (m a) as [[x|e] a']. Qed.

Lemma rollback_keeps b k l : preserves (app_mem names) (rollbackDepositClaimState b k l).
Proof.
  unfold rollbackDepositClaimState. keep.
  - apply on_bridge_keeps, bridge_ImportState_mem.
  - apply on_bank_keeps, bank_ImportState_mem.
  - apply on_limits_keeps, limits_ImportState_mem.
  - apply on_bridge_keeps, bridge_persist_mem.
  - apply on_bank_keeps, bank_persist_mem.
  - apply on_limits_keeps, limits_persist_keeps.
Qed.

Lemma submit_keeps claim att : preserves (app_mem names) (submitDepositClaimLocked claim att).
Proof.
  unfold submitDepositClaimLocked. keep.
  - apply or_fail_keeps. keep.
  - apply on_bridge_keeps, ExecuteDepositClaim_mem.
  - apply on_bank_keeps, Credit_mem.
  - apply rollback_keeps.
Qed.

Lemma withdraw_keeps owner id amount recipient deadline signature :
  preserves (app_mem names) (ExecuteWithdrawal owner id amount recipient deadline signature).
Proof.
  unfold ExecuteWithdrawal. keep; try apply rollback_keeps.
  - apply on_bridge_keeps, bridge_ExecuteWithdrawal_mem.
  - apply on_bank_keeps, Debit_mem.
Qed.

Lemma queued_keeps pending progress a : (app_mem names) a -> (app_mem names) (snd (apply_queued pending progress a)).
Proof.
  revert progress a. induction pending as [|q pending IH]; intros progress a Ha; cbn [apply_queued]; [done|].
  pose proof (submit_keeps (Claim q) (QAttestation q) a Ha) as Hs.
  destruct (submitDepositClaimLocked (Claim q) (QAttestation q) a) as [[r|[r e]] a']; by apply IH.
Qed.

Lemma set_pending_keeps l a : (app_mem names) a -> (app_mem names) (set_pending l a).
Proof. intros []. by split. Qed.

Lemma SetCurrentHeight_mem h : preserves bridge_mem (BridgeState.SetCurrentHeight h).
Proof.
  unfold BridgeState.SetCurrentHeight. keep; [|apply bridge_persist_mem].
  match goal with Hk : bridge_mem _ |- _ => destruct Hk end; by split.
Qed.

Lemma advance_keeps a : (app_mem names) a -> (app_mem names) (snd (AdvanceBlock a)).
Proof.
  intros Ha. unfold AdvanceBlock. set (a1 := set_bridge _ a).
  assert (Ha1 : (app_mem names) a1).
  { pose proof (on_bridge_keeps _ (SetCurrentHeight_mem (u64_incr (BridgeState.MetaHeight
      (BridgeState.StMeta (BridgeState.ExportState (BridgeKeeper a)))))) a Ha) as Hs. rewrite on_bridge_run in Hs.
    exact Hs. }
  clearbody a1. destruct (pendingDepositClaims a1) as [|q l]; [done|].
  pose proof (queued_keeps (q :: l) (mk_progress (u64_incr (BridgeState.MetaHeight (BridgeState.StMeta
    (BridgeState.ExportState (BridgeKeeper a))))) 0 0 (u64_incr (BridgeState.MetaHeight (BridgeState.StMeta
    (BridgeState.ExportState (BridgeKeeper a))))) EmptyString []) _ (set_pending_keeps [] a1 Ha1)) as Hq.
  by destruct (apply_queued _ _ _).
Qed.

Lemma govern_keeps authority p a : (app_mem names) a -> (app_mem names) (snd (ApplyProposal authority p a)).
Proof.
  intros [[Hb Hr Hl Hp] Hba [Hro Hst] Hg Hau Hrec Hn]. unfold ApplyProposal, on_governance, zoom.
  pose proof (Apply_records authority p (GovernanceKeeper a) Hrec) as Hrec'.
  pose proof (Apply_router authority p (GovernanceKeeper a) Hst) as Hst'.
  assert (Hmem : registry_mem (Governance.registryKeeper (snd (Governance.Apply authority p (GovernanceKeeper a)))) /\
    limits_mem (Governance.limitsKeeper (snd (Governance.Apply authority p (GovernanceKeeper a)))) /\
    unstored (Governance.ibcRouterKeeper (snd (Governance.Apply authority p (GovernanceKeeper a)))) /\
    Governance.prefixStore (snd (Governance.Apply authority p (GovernanceKeeper a))) = None /\
    Governance.authorities (snd (Governance.Apply authority p (GovernanceKeeper a))) = names).
  { destruct (Governance.apply_outcome authority p (GovernanceKeeper a)) as [[e ->]|(r & -> & _)]; [done|].
    assert (Hstore : forall g, Governance.prefixStore g = None ->
      Governance.prefixStore (snd (Governance.persist (Governance.upd_applied (fun l => l ++ [r]) g))) = None)
      by (intros g Hgs; cbn; by rewrite Hgs).
    destruct p as [p|p|p]; cbn [Governance.effect].
    - split_and!; [exact (setAssetEnabled_mem _ _ _ Hr)|exact Hl|exact Hro|by apply Hstore|exact Hau].
    - split_and!; [exact Hr|exact (SetLimit_mem _ _ Hl)|exact Hro|by apply Hstore|exact Hau].
    - destruct (IBCRouter.GetRouteProfile _ _) as [profile|]; [|split_and!; [done|done|done|by apply Hstore|exact Hau]].
      split_and!; [exact Hr|exact Hl| |by apply Hstore|exact Hau].
      exact (router_ops_unstored (IBCRouter.RSetRouteProfile
        (Governance.with_policy (RouteProfile.policy_Canonical (Governance.RpPolicy p)) profile)) _ Hro). }
  destruct (Governance.Apply authority p (GovernanceKeeper a)) as [r g]. cbn [snd] in *.
  destruct Hmem as (? & ? & ? & ? & ?). split; try done.
Qed.

Lemma exec_keeps act a : act <> AppSave -> (app_mem names) a -> (app_mem names) (exec_app act a).
Proof.
  intros Hact Ha. destruct act; cbn [exec_app]; try done.
  - apply on_bridge_keeps; [apply SetCurrentHeight_mem|done].
  - revert a Ha. change (preserves (app_mem names) (QueueDepositClaim claim att)). unfold QueueDepositClaim. keep.
    by apply set_pending_keeps.
  - by apply advance_keeps.
  - by apply submit_keeps.
  - by apply withdraw_keeps.
  - apply on_registry_keeps; [apply RegisterAsset_mem|done].
  - apply on_limits_keeps; [apply SetLimit_mem|done].
  - apply on_pauser_keeps; [apply Pause_mem|done].
  - apply on_pauser_keeps; [apply Unpause_mem|done].
  - by apply (router_action_keeps _ (IBCRouter.RInitiate assetID amount receiver timeoutHeight memo)).
  - by apply (router_action_keeps _ (IBCRouter.RInitiateProfile route assetID amount receiver timeoutHeight memo)).
  - by apply (router_action_keeps _ (IBCRouter.RAck transferID false reason)).
  - by apply (router_action_keeps _ (IBCRouter.RTimeout transferID)).
  - by apply (router_action_keeps _ (IBCRouter.RAck transferID true EmptyString)).
  - by apply (router_action_keeps _ (IBCRouter.RRefund transferID)).
  - by apply (router_action_keeps _ (IBCRouter.RSetRoute route)).
  - by apply (router_action_keeps _ (IBCRouter.RSetRouteProfile profile)).
  - by apply govern_keeps.
Qed.
End app.

(** ** Saving and loading *)

Section restart.
Context `{MapIteration} `{Crypto} `{Bank.AddressCodec} `{Environment} `{SDKStore}.

(** A nonce or a sequence number that has wrapped to zero is read as one. *)
Definition renumbered (a : App) : App :=
  set_router (IBCRouter.upd_nextSequence restored_sequence (IBCRouterKeeper a))
    (set_bridge (BridgeState.upd_nextWithdrawalNonce BridgeState.restored_nonce (BridgeKeeper a)) a).

Lemma renumbered_id a :
  BridgeState.nextWithdrawalNonce (BridgeKeeper a) <> 0%N -> IBCRouter.nextSequence (IBCRouterKeeper a) <> 0%N ->
  renumbered a = a.
Proof.
  intros Hn Hs. unfold renumbered. destruct a as [b k r ga gl gs pd ns]. cbn in *.
  destruct b, r. unfold BridgeState.upd_nextWithdrawalNonce, IBCRouter.upd_nextSequence,
    BridgeState.restored_nonce, restored_sequence. cbn in *.
  by rewrite (proj2 (N.eqb_neq _ _) Hn), (proj2 (N.eqb_neq _ _) Hs).
Qed.

(** Loading the snapshot of [a] over a new application of the same
    configuration. *)
Lemma load_export_run names a a0 :
  app_inv a -> app_mem names a -> Bank.persistHook (BankKeeper a) = [] ->
  app_mem names a0 -> Bank.persistHook (BankKeeper a0) = [] ->
  load_runtime (export_runtime a) a0 = (Ok tt, renumbered a).
Proof.
  intros Hinv Hm Hhk Hm0 Hhk0. destruct (inv_sets a Hinv) as [Hsn Hsne].
  destruct Hm as [[Hb Hr Hl [Hp Hpw]] Hba [Hro Hst] Hg Hau Hrec Hn].
  destruct Hm0 as [[Hb0 Hr0 Hl0 [Hp0 Hpw0]] Hba0 [Hro0 Hst0] Hg0 Hau0 Hrec0 Hn0].
  unfold load_runtime, export_runtime.
  cbn [RtAssets RtLimits RtPausedFlows RtBridge RtIBCRouter RtGovernance RtPendingClaims].
  rewrite bind_run. unfold on_registry. rewrite on_bridge_run. unfold Bridge.on_registry.
  rewrite Governance.zoom_run, registry_import_export by apply Hinv.
  rewrite registry_persist_mem by exact Hr0. cbn [fst snd].
  rewrite bind_run, app_on_limits_run.
  change (LimitsKeeper (set_bridge _ a0)) with (LimitsKeeper a0).
  rewrite limits_import_export by (apply Hinv || exact Hl0). cbn [fst snd].
  rewrite bind_run. unfold on_pauser. rewrite on_bridge_run. unfold Bridge.on_pauser. rewrite Governance.zoom_run.
  rewrite pauser_import_export by done.
  rewrite pauser_persist_mem by exact Hp0. cbn [fst snd].
  rewrite bind_run, on_bridge_run, BridgeState.bridge_ImportState_run by done. cbn [fst snd].
  rewrite bind_run, on_router_run. 
  rewrite router_import_export by done. rewrite router_persist_mem by exact Hro0. cbn [fst snd].
  rewrite bind_run. unfold on_governance. rewrite Governance.zoom_run.
  rewrite governance_import_export by exact Hrec.
  unfold Governance.persist at 1 2, modify at 1 2. cbn [fst snd].
  unfold resolvedBankState. cbn [bankPresent RtBank]. unfold bind at 1, lift at 1.
  rewrite bind_run, on_bank_run, Bank.bank_ImportState_run by apply Hinv. cbn [fst snd].
  unfold modify. f_equal.
  destruct a as [b k r ga gl gs pd ns]. destruct a0 as [b0 k0 r0 ga0 gl0 gs0 pd0 ns0]. cbn in *. subst.
  unfold renumbered. destruct b, k, r. destruct b0, k0, r0.
  unfold LimitsKeeper, RegistryKeeper, PauserKeeper in *. cbn in *. unfold registry_mem, limits_mem, bank_mem in *. cbn in *.
  destruct registryKeeper, limitsKeeper, pauserKeeper, registryKeeper0, limitsKeeper0, pauserKeeper0.
  cbn in *. by subst.
Qed.
End restart.

Section processes.
Context `{MapIteration} `{Crypto} `{Bank.AddressCodec} `{Environment} `{SDKStore}.

Lemma NormalizeSignerAddress_idem s :
  NormalizeSignerAddress (NormalizeSignerAddress s) = NormalizeSignerAddress s.
Proof.
  unfold NormalizeSignerAddress. rewrite (trimmed_ToLower (TrimSpace s)) by apply TrimSpace_trimmed.
  apply ToLower_idem.
Qed.

Lemma normalizeSignerSet_idem s :
  BridgeState.normalizeSignerSet (BridgeState.normalizeSignerSet s) = BridgeState.normalizeSignerSet s.
Proof.
  unfold BridgeState.normalizeSignerSet. cbn. f_equal. rewrite map_id_in.
  - apply SortStrings_id, SortStrings_sorted.
  - intros x Hx. rewrite SortStrings_perm in Hx. apply list_elem_of_fmap in Hx as (y & -> & _).
    apply NormalizeSignerAddress_idem.
Qed.

(** The keepers a configuration starts with. *)
Lemma fresh_good cfg : good (fun _ => 0%Z) (fresh_keepers cfg).
Proof.
  split; [split|..].
  - apply Bridge.NewKeeper_ledger_inv.
  - apply Bank.bank_NewKeeper_wf.
  - apply (Registry.wf_empty Registry.NewKeeper).
  - apply Limits.limits_NewKeeper_wf.
  - split.
    + apply map_Forall_singleton. split; [done|]. apply normalizeSignerSet_idem.
    + intros He. apply (f_equal size) in He. cbn in He. by rewrite map_size_singleton in He.
  - by apply backed_with_none.
  - done.
Qed.

Lemma fresh_mem cfg :
  app_mem (Governance.canonicalAuthoritySet (GovernanceAuthorities cfg)) (fresh_keepers cfg).
Proof.
  split; try done.
Qed.

(** A running application of the snapshot mode, with [escrow] in transit. *)
Record snapshot_at (escrow : string -> Z) (r : RuntimeApp) : Prop := {
  sn_config : config_ok (AppConfig r) /\ validateConfig (AppConfig r) = Ok tt;
  sn_mode : store_mode r = false;
  sn_form : r = newAppFromKeepers (AppConfig r) (Keepers r) None;
  sn_good : good escrow (Keepers r);
  sn_mem : app_mem (Governance.canonicalAuthoritySet (GovernanceAuthorities (AppConfig r))) (Keepers r)
}.
Definition snapshot_app : RuntimeApp -> Prop := snapshot_at (fun _ => 0%Z).

(** A new application. *)
Definition new_app (c : Config) : RuntimeApp := newAppFromKeepers c (fresh_keepers c) None.

Lemma fresh_snapshot c :
  config_ok c -> validateConfig c = Ok tt -> RuntimeMode c <> RuntimeModeSDKStore -> snapshot_app (new_app c).
Proof. intros Hk Hv Hm. split; [by split|by apply eqs_false|done|apply fresh_good|apply fresh_mem]. Qed.

Lemma ResolveConfig_self w c :
  config_ok c -> validateConfig c = Ok tt ->
  ResolveConfig w c = match LoadConfig w (ConfigPath c) with
                      | Err e => if IsNotExist e then Ok c else Err e
                      | Ok _ => Ok c
                      end.
Proof.
  intros Hk Hv. unfold ResolveConfig. cbv zeta. rewrite normalizeConfig_id by done.
  destruct (LoadConfig w (ConfigPath c)) as [stored|e].
  - rewrite mergeConfig_full, normalizeConfig_id by done. cbn [res_bind]. by rewrite Hv.
  - destruct (IsNotExist e); cbn [res_bind]; [by rewrite Hv|done].
Qed.

Lemma decode_encode s : bankPresent s = true -> decode_state (encode_state s) = s.
Proof. intros Hb. destruct s. cbn in *. unfold decode_state, encode_state. cbn. by rewrite Hb. Qed.

Lemma snapshot_path escrow r : snapshot_at escrow r -> StatePath (AppConfig r) <> EmptyString.
Proof.
  intros [[Hk _] _ _ _ _] He. pose proof (ok_paths _ Hk) as Hall.
  repeat (apply Forall_cons in Hall as [? Hall]).
  match goal with Hx : TrimSpace (StatePath _) <> _ |- _ => rewrite He in Hx; by apply Hx end.
Qed.

Lemma load_reads escrow r kept (w : World) d :
  snapshot_at escrow r -> ResolveConfig (files w) (AppConfig r) = Ok (AppConfig r) ->
  ReadFile (files w) (StatePath (AppConfig r)) = Ok (Some d) ->
  load_runtime (decode_state (as_state d)) (fresh_keepers (AppConfig r)) = (Ok tt, kept) ->
  LoadWithConfig (AppConfig r) w = (Ok (set_keepers kept r), w).
Proof.
  intros Hr Hres Hread Hload. pose proof Hr as [[Hk _] Hm Hform _ _].
  unfold LoadWithConfig, bind at 1, query. rewrite Hres.
  unfold NewWithConfig. rewrite normalizeConfig_id by done. unfold store_mode in Hm. rewrite Hm.
  unfold bind at 1, ret at 1. cbn [newAppFromKeepers AppConfig Keepers]. unfold bind, loadRuntimeState.
  rewrite (proj2 (eqs_false _ _) (snapshot_path _ r Hr)), Hread, Hload.
  destruct r as [c k en sk ms st]. cbn in Hform |- *. unfold newAppFromKeepers in Hform.
  injection Hform as -> -> -> ->. reflexivity.
Qed.

(** Loading the state an application has saved. *)
Lemma load_export escrow r :
  snapshot_at escrow r ->
  load_runtime (decode_state (as_state (StateDoc (encode_state (export_runtime (Keepers r))))))
    (fresh_keepers (AppConfig r)) = (Ok tt, renumbered (Keepers r)).
Proof.
  intros [_ _ _ Hg Hmem]. cbn [as_state]. rewrite decode_encode by done.
  exact (load_export_run _ _ _ (good_inv _ _ Hg) Hmem (good_hook _ _ Hg) (fresh_mem (AppConfig r)) eq_refl).
Qed.

Lemma Save_run escrow r w :
  snapshot_at escrow r ->
  Runtime.Save (r, w) =
    (let path := StatePath (AppConfig r) in
     let '(x, f) := (MkdirAll (Dir path) ;;;
       WriteByRename path (StateDoc (encode_state (export_runtime (Keepers r))))) (files w) in
     (x, (r, upd_files (fun _ => f) w))).
Proof.
  intros Hr. pose proof (snapshot_path _ r Hr) as Hp. pose proof (sn_mode _ r Hr) as Hm.
  unfold Runtime.Save, bind at 1, gets. cbn [fst]. rewrite Hm.
  unfold on_disk, on_files, zoom, persistRuntimeState. cbn [snd].
  rewrite (proj2 (eqs_false _ _) Hp). by destruct ((MkdirAll _ ;;; _) (files w)).
Qed.

(** A write of the snapshot either happened whole or left the files alone. *)
Lemma persist_cases path d (f f' : FS Config.document) x :
  (MkdirAll (Dir path) ;;; WriteByRename path d) f = (x, f') ->
  (x = Ok tt /\ nodes f' !! parse_path path = Some (File d)) \/
  (exists e, x = Err e /\ forall q, is_Some (nodes f !! q) -> nodes f' !! q = nodes f !! q).
Proof.
  unfold bind. destruct (MkdirAll (Dir path) f) as [r1 f1] eqn:Hmk.
  apply MkdirAll_run in Hmk as [[-> Hn]|(e & -> & Hn)].
  - intros Hw. apply WriteByRename_atomic in Hw as [[-> Hn2]|(e & -> & Hn2)].
    + left. split; [done|]. by rewrite Hn2, lookup_insert_eq.
    + right. exists e. split; [done|]. intros q [n Hq]. rewrite Hn2, Hn, Hq. by apply make_dirs_keeps.
  - intros [= <- <-]. right. exists e. split; [done|]. intros q _. by rewrite Hn.
Qed.

Lemma renumbered_snapshot escrow r : snapshot_at escrow r -> snapshot_at escrow (set_keepers (renumbered (Keepers r)) r).
Proof.
  intros [Hc Hm Hf Hg Hmem]. split; try done.
  - destruct r as [c k en sk ms st]. cbn in *. unfold newAppFromKeepers in *. by injection Hf as -> -> -> ->.
  - cbn [set_keepers Keepers]. destruct Hg as [Hinv Hb Hhk]. split; [|done|done].
    destruct Hinv as [Hl Hba Hre Hli Hse]. by split.
  - cbn [set_keepers Keepers AppConfig]. destruct Hmem as [[] ? [? []]]. by split.
Qed.

(** C13: a restart gives the application back. When an application of the
    snapshot mode saves and the save succeeds, loading its home again (with its
    configuration file readable or absent) gives the same configuration and
    the same keepers: every asset, limit, usage window, pause flag, claim,
    supply, withdrawal, signer set, wallet, route, profile, transfer, session,
    proposal and queued claim. Only a counter that has wrapped to zero changes:
    it restarts at one. *)
Theorem snapshot_restart (r r' : RuntimeApp) (w w' : World) :
  snapshot_app r -> Runtime.Save (r, w) = (Ok tt, (r', w')) ->
  ResolveConfig (files w') (AppConfig r) = Ok (AppConfig r) ->
  r' = r /\ LoadWithConfig (AppConfig r) w' = (Ok (set_keepers (renumbered (Keepers r)) r), w') /\
  snapshot_app (set_keepers (renumbered (Keepers r)) r).
Proof.
  intros Hr Hs Hres. erewrite Save_run in Hs by done. cbv zeta in Hs.
  destruct ((MkdirAll _ ;;; _) (files w)) as [x f] eqn:Hp. injection Hs as -> <- <-. split; [done|].
  apply persist_cases in Hp as [[_ Hn]|(e & He & _)]; [|done]. split.
  - eapply load_reads; [done|done| |by eapply load_export]. unfold ReadFile, node_at. cbn [upd_files files].
    rewrite decide_False by (by eapply snapshot_path). by rewrite Hn.
  - by apply renumbered_snapshot.
Qed.

Lemma Save_failure_frame escrow (r : RuntimeApp) (w : World) (e : error) (p : Process) :
  snapshot_at escrow r -> Runtime.Save (r, w) = (Err e, p) ->
  p.1 = r /\ stores p.2 = stores w /\
  forall path n, node_at (files w) path = Some n -> node_at (files p.2) path = Some n.
Proof.
  intros Hr Hs. erewrite Save_run in Hs by done. cbv zeta in Hs.
  destruct ((MkdirAll _ ;;; _) (files w)) as [x f] eqn:Hp. injection Hs as -> <-.
  apply persist_cases in Hp as [[He _]|(e' & _ & Hkeep)]; [done|]. split_and!; [done..|].
  intros path n. unfold node_at. case_decide; [done|]. intros Hq. cbn [snd upd_files files].
  rewrite Hkeep; [done|by exists n].
Qed.

(** A failed save loses nothing. Whatever fails while the snapshot is
    written — a directory, the temporary file, its rename — the application is
    unchanged, and every file the home had is still there with its contents, the
    previous snapshot among them. *)
Theorem Save_failure_keeps_files (r : RuntimeApp) (w : World) (e : error) (p : Process) :
  snapshot_app r -> Runtime.Save (r, w) = (Err e, p) ->
  p.1 = r /\ stores p.2 = stores w /\
  forall path n, node_at (files w) path = Some n -> node_at (files p.2) path = Some n.
Proof. intros Hr Hs. by apply (Save_failure_frame (fun _ => 0%Z) r w e). Qed.

(** The operations of the keepers keep a snapshot application one. *)
Lemma snapshot_exec escrow act r :
  act <> AppSave -> snapshot_at escrow r -> snapshot_at escrow (set_keepers (exec_app act (Keepers r)) r).
Proof.
  intros Hact [Hc Hm Hf Hg Hmem]. split; try done.
  - destruct r as [c k en sk ms st]. cbn in *. unfold newAppFromKeepers in *. by injection Hf as -> -> -> ->.
  - by apply good_exec.
  - by apply exec_keeps.
Qed.

(** ** Homes *)

(** The home holds [saved]: its configuration file is [c], and its state file
    one that loads as [saved]. *)
Record home_holds (c : Config) (saved : App) (w : World) : Prop := {
  hh_paths : TrimSpace (ConfigPath c) = ConfigPath c /\ parse_path (ConfigPath c) <> parse_path (StatePath c);
  hh_config : node_at (files w) (ConfigPath c) = Some (File (ConfigDoc c));
  hh_state : exists d, node_at (files w) (StatePath c) = Some (File d) /\
    load_runtime (decode_state (as_state d)) (fresh_keepers c) = (Ok tt, renumbered saved)
}.

(** A home that holds [saved] loads it. *)
Lemma load_holds escrow r saved w :
  snapshot_at escrow r -> home_holds (AppConfig r) saved w ->
  LoadWithConfig (AppConfig r) w = (Ok (set_keepers (renumbered saved) r), w).
Proof.
  intros Hr [[Htrim Hne] Hcfg (d & Hst & Hload)]. pose proof Hr as [[Hk Hv] _ _ _ _].
  apply (load_reads escrow r _ w d); [done| |by unfold ReadFile; rewrite Hst|done].
  rewrite ResolveConfig_self by done. unfold LoadConfig, ReadDocument, ReadFile. by rewrite Htrim, Hcfg.
Qed.

(** ** A new home *)

Definition init_flags (chainID mode home : string) (signers authorities : list string) (threshold : N) : Config :=
  mk_config EmptyString chainID mode home EmptyString EmptyString [] EmptyString signers authorities threshold.
Definition home_flags (home : string) : Config :=
  mk_config EmptyString EmptyString EmptyString home EmptyString EmptyString [] EmptyString [] [] 0.

Lemma home_paths_distinct home :
  home <> EmptyString ->
  NoDup (map parse_path [runtimeConfigPath home; runtimeGenesisPath home; runtimeStatePath home]).
Proof.
  intros Hh. unfold runtimeConfigPath, runtimeGenesisPath, runtimeStatePath. cbn [map].
  rewrite !parse_JoinPath; try done; try (apply (bool_decide_unpack _); vm_compute; exact I).
  destruct (parse_path home) as [r ps]. cbn [fst snd].
  assert (Hd : forall a b : list string, a <> b -> (r, ps ++ a) <> (r, ps ++ b)).
  { intros a b Hab He. apply (f_equal snd) in He. cbn [snd] in He. by apply app_inv_head in He. }
  repeat apply NoDup_cons_2; rewrite ?not_elem_of_cons; split_and?; try apply not_elem_of_nil;
    try (by apply Hd). constructor.
Qed.

(** Nothing is loaded from an empty snapshot. *)
Lemma load_zero c present :
  load_runtime (mk_runtime [] (Bank.mk_state []) (Limits.mk_snapshot [] []) [] [] zero_bridge zero_router
      (Governance.mk_state []) present) (fresh_keepers c) = (Ok tt, fresh_keepers c).
Proof.
  assert (Hr : range (K:=string) (V:=string) ∅ = []).
  { apply Permutation_nil_r. rewrite range_perm. by rewrite map_to_list_empty. }
  unfold load_runtime, BridgeState.ImportState, zero_bridge.
  cbn [RtAssets RtLimits RtPausedFlows RtBridge RtIBCRouter RtGovernance RtPendingClaims
    BridgeState.StMeta BridgeState.StSignerSets BridgeState.StProcessedClaims BridgeState.StSupplyByDenom
    BridgeState.StWithdrawals].
  rewrite Hr. unfold resolvedBankState. destruct present; reflexivity.
Qed.

Lemma on_files_ok {A} (m : Op (FS Config.document) A) w x w' :
  on_files m w = (Ok x, w') -> exists f, m (files w) = (Ok x, f) /\ w' = upd_files (fun _ => f) w.
Proof.
  unfold on_files, zoom. destruct (m (files w)) as [[y|e] f] eqn:Hm; intros [= <- <-]. eauto.
Qed.

Lemma init_inv chainID mode home signers authorities threshold force w c w' :
  InitHome (init_flags chainID mode home signers authorities threshold) force w = (Ok c, w') ->
  c = normalizeConfig (init_flags chainID mode home signers authorities threshold) /\ validateConfig c = Ok tt /\
  (force = false -> Forall (fun p => fileExists (files w) p = Ok false) [ConfigPath c; GenesisPath c; StatePath c]) /\
  (RuntimeMode c <> RuntimeModeSDKStore -> exists f1 f2 f3 f4 f5,
     writeConfigFile (ConfigPath c) c f1 = (Ok tt, f2) /\
     writeGenesisFile (GenesisPath c) (DefaultGenesis c) f2 = (Ok tt, f3) /\
     MkdirAll (Dir (StatePath c)) f3 = (Ok tt, f4) /\
     WriteByRename (StatePath c) (StateDoc (encode_state zero_state)) f4 = (Ok tt, f5) /\
     w' = upd_files (fun _ => f5) w /\ StatePath c <> EmptyString).
Proof.
  unfold InitHome. cbv zeta. set (cfg := normalizeConfig _). intros Hi.
  apply bind_ok_inv in Hi as ([] & w1 & Hv & Hi). unfold lift in Hv.
  assert (w1 = w) as -> by congruence. assert (Hvalid : validateConfig cfg = Ok tt) by congruence. clear Hv.
  apply bind_ok_inv in Hi as (ce & w1 & Hce & Hi). unfold query in Hce. assert (w1 = w) as -> by congruence.
  apply bind_ok_inv in Hi as (ge & w1 & Hge & Hi). unfold query in Hge. assert (w1 = w) as -> by congruence.
  apply bind_ok_inv in Hi as (se & w1 & Hse & Hi). unfold query in Hse. assert (w1 = w) as -> by congruence.
  apply bind_ok_inv in Hi as ([] & w1 & Ht & Hi). apply throw_if_ok in Ht as [Hf ->].
  apply bind_ok_inv in Hi as ([] & wa & Ha & Hi). apply on_files_ok in Ha as (fa & _ & ->).
  apply bind_ok_inv in Hi as ([] & wb & Hb & Hi). apply on_files_ok in Hb as (fb & _ & ->).
  apply bind_ok_inv in Hi as ([] & wc & Hc & Hi). apply on_files_ok in Hc as (fc & Hc & ->).
  apply bind_ok_inv in Hi as ([] & wd & Hd & Hi). apply on_files_ok in Hd as (fd & Hd & ->).
  apply bind_ok_inv in Hi as ([] & we & He & Hi). unfold ret in Hi.
  assert (c = cfg) as -> by congruence. assert (w' = we) as -> by congruence. split_and!; [done|done| |].
  - intros ->. cbn [negb andb] in Hf. apply orb_false_iff in Hf as [Hf ->]. apply orb_false_iff in Hf as [-> ->].
    repeat constructor; congruence.
  - intros Hm. rewrite (proj2 (eqs_false _ _) Hm) in He. apply on_files_ok in He as (fe & He & ->).
    unfold persistRuntimeState in He.
    assert (Hsp : StatePath cfg <> EmptyString).
    { intros Hsp. apply validateConfig_checks in Hvalid as (_ & Hall & _).
      repeat (apply Forall_cons in Hall as [? Hall]).
      match goal with Hx : TrimSpace (StatePath _) <> _ |- _ => rewrite Hsp in Hx; by apply Hx end. }
    rewrite (proj2 (eqs_false _ _) Hsp) in He. apply bind_ok_inv in He as ([] & ff & He1 & He2).
    cbn [upd_files files] in *. by exists fb, fc, fd, ff, fe.
Qed.

Lemma LoadWithConfig_resolved cfg cfg' (w : World) :
  ResolveConfig (files w) cfg = ResolveConfig (files w) cfg' -> LoadWithConfig cfg w = LoadWithConfig cfg' w.
Proof. intros Hres. unfold LoadWithConfig, bind at 1 3, query. by rewrite Hres. Qed.

Lemma init_holds chainID mode home signers authorities threshold force w c w' :
  InitHome (init_flags chainID mode home signers authorities threshold) force w = (Ok c, w') ->
  home <> EmptyString -> trimmed (runtimeConfigPath home) -> RuntimeMode c <> RuntimeModeSDKStore ->
  config_ok c /\ validateConfig c = Ok tt /\ HomeDir c = home /\ ConfigPath c = runtimeConfigPath home /\
  home_holds c (fresh_keepers c) w'.
Proof.
  intros Hi Hh Htr Hm. apply init_inv in Hi as (Hc & Hv & _ & Hw).
  destruct (Hw Hm) as (f1 & f2 & f3 & f4 & f5 & Hcw & Hgw & Hmk & Hsw & -> & Hsp). clear Hw.
  assert (Hk : config_ok c) by (rewrite Hc in Hv |- *; by apply normalized_valid).
  assert (Hpaths : ConfigPath c = runtimeConfigPath home /\ GenesisPath c = runtimeGenesisPath home /\
    HomeDir c = home /\ StatePath c = runtimeStatePath home).
  { rewrite Hc in Hm |- *. cbn [normalizeConfig init_flags ConfigPath GenesisPath StatePath HomeDir RuntimeMode] in *.
    rewrite (or_default_nonempty home) by done. rewrite (proj2 (eqs_false _ _) Hm). done. }
  destruct Hpaths as (Hcp & Hgp & Hhd & Hspp).
  pose proof (home_paths_distinct home Hh) as Hnd. cbn [map] in Hnd.
  apply NoDup_cons in Hnd as [Hn1 _]. rewrite !not_elem_of_cons in Hn1. destruct Hn1 as (Hcg & Hcs & _).
  rewrite <- Hcp, <- Hgp in Hcg. rewrite <- Hcp, <- Hspp in Hcs.
  apply WriteFile_ok in Hcw as [Hcn Hcne].
  apply WriteByRename_atomic in Hsw as [[_ Hsn]|(e & He & _)]; [|done].
  split_and!; [done..|]. split; [split; [rewrite Hcp; exact Htr|done]| |].
  - unfold node_at. rewrite decide_False by done. cbn [upd_files files]. rewrite Hsn, lookup_insert_ne by congruence.
    apply (MkdirAll_keeps _ _ _ _ _ _ Hmk). unfold writeGenesisFile in Hgw.
    rewrite (WriteFile_frame _ _ _ _ _ (parse_path (ConfigPath c)) Hgw) by done.
    by rewrite Hcn, lookup_insert_eq.
  - exists (StateDoc (encode_state zero_state)). unfold node_at. rewrite decide_False by done. cbn [upd_files files as_state].
    rewrite Hsn, lookup_insert_eq. split; [done|].
    change (decode_state (encode_state zero_state)) with
      (mk_runtime [] (Bank.mk_state []) (Limits.mk_snapshot [] []) [] [] zero_bridge zero_router
        (Governance.mk_state []) true).
    by rewrite load_zero.
Qed.

(** [init] then [start]. A home that [aegislinkd init] made in the snapshot
    mode is one that every command finds by its directory alone: the
    configuration it loads is the one that was written, and its keepers are new
    ones for the signers, threshold and authorities of that configuration. Without
    [--force], none of the three files existed before. *)
Theorem init_then_load (chainID mode home : string) (signers authorities : list string) (threshold : N)
    (force : bool) (w w' : World) (c : Config) :
  InitHome (init_flags chainID mode home signers authorities threshold) force w = (Ok c, w') ->
  home <> EmptyString -> trimmed (runtimeConfigPath home) -> RuntimeMode c <> RuntimeModeSDKStore ->
  LoadWithConfig (home_flags home) w' = (Ok (new_app c), w') /\
  snapshot_app (new_app c) /\ home_holds c (fresh_keepers c) w' /\
  (force = false -> Forall (fun p => fileExists (files w) p = Ok false) [ConfigPath c; GenesisPath c; StatePath c]).
Proof.
  intros Hi Hh Htr Hm. pose proof Hi as Hi2. apply init_inv in Hi2 as (_ & _ & Hforce & _).
  apply init_holds in Hi as (Hk & Hv & Hhd & Hcp & Hholds); try done.
  pose proof (fresh_snapshot c Hk Hv Hm) as Hsnap. split_and!; [|done..].
  pose proof (load_holds _ (new_app c) (fresh_keepers c) w' Hsnap Hholds) as Hload. revert Hload.
  change (AppConfig (new_app c)) with c.
  change (set_keepers (renumbered (fresh_keepers c)) (new_app c)) with (new_app c). intros <-.
  apply LoadWithConfig_resolved.
  assert (Hlc : LoadConfig (files w') (ConfigPath c) = Ok c).
  { destruct Hholds as [[Ht _] Hcfg _]. unfold LoadConfig, ReadDocument, ReadFile. rewrite Ht, Hcfg.
    cbn [res_bind as_config]. by rewrite normalizeConfig_id. }
  assert (Hres : ResolveConfig (files w') (home_flags home) = Ok c).
  { unfold ResolveConfig. cbv zeta.
    assert (Hp : ConfigPath (normalizeConfig (home_flags home)) = ConfigPath c).
    { rewrite Hcp. cbn. by rewrite (or_default_nonempty home) by done. }
    rewrite Hp, Hlc.
    assert (Hmerge : mergeConfig c (home_flags home) = c).
    { unfold mergeConfig, home_flags. cbn. rewrite (or_default_nonempty home) by done. rewrite <- Hhd. by destruct c. }
    rewrite Hmerge, normalizeConfig_id by done. cbn [res_bind]. by rewrite Hv. }
  rewrite Hres. symmetry. etrans; [by apply ResolveConfig_self|]. change (ConfigPath (AppConfig (new_app c))) with (ConfigPath c). by rewrite Hlc.
Qed.

(** ** Crashes *)

(** What may happen to a node: an operation, a save that may fail, a crash
    followed by a start, and the disk's next failures. *)
Inductive home_event :=
| EExec (act : app_action)
| ESave
| ECrash
| EOutcomes (os : list outcome).

Definition handle_event (e : home_event) (p : Process) : Process :=
  match e with
  | EExec AppSave => p
  | EExec act => (set_keepers (exec_app act (Keepers p.1)) p.1, p.2)
  | ESave => snd (Runtime.Save p)
  | ECrash => match LoadWithConfig (AppConfig p.1) p.2 with
              | (Ok r, w) => (r, w)
              | (Err _, w) => (p.1, w)
              end
  | EOutcomes os => (p.1, upd_files (fun f => mk_fs (nodes f) os) p.2)
  end.

(** The keepers of the last save that succeeded. *)
Definition last_saved (e : home_event) (p : Process) (saved : App) : App :=
  match e with
  | ESave => if is_ok (fst (Runtime.Save p)) then Keepers p.1 else saved
  | _ => saved
  end.

Fixpoint run_home (es : list home_event) (p : Process) (saved : App) : Process * App :=
  match es with
  | [] => (p, saved)
  | e :: es => run_home es (handle_event e p) (last_saved e p saved)
  end.

Lemma holds_frame c saved w w' :
  home_holds c saved w ->
  (forall path n, node_at (files w) path = Some n -> node_at (files w') path = Some n) ->
  home_holds c saved w'.
Proof. intros [Hp Hcfg (d & Hst & Hl)] Hk. split; eauto. Qed.

Lemma event_step escrow e r w saved :
  snapshot_at escrow r -> snapshot_at escrow (set_keepers saved r) -> home_holds (AppConfig r) saved w ->
  let p := handle_event e (r, w) in let saved' := last_saved e (r, w) saved in
  snapshot_at escrow p.1 /\ AppConfig p.1 = AppConfig r /\ snapshot_at escrow (set_keepers saved' p.1) /\
  home_holds (AppConfig r) saved' p.2.
Proof.
  intros Hr Hs Hh. destruct e as [act| | |os]; cbn [handle_event last_saved].
  - assert (Hcase : act = AppSave \/ act <> AppSave) by (destruct act; (by left) || (by right)).
    destruct Hcase as [->|Hact]; [done|].
    assert (He : handle_event (EExec act) (r, w) = (set_keepers (exec_app act (Keepers r)) r, w)) by by destruct act.
    cbn [handle_event] in He. rewrite He. split_and!; [by apply snapshot_exec|done|done|done].
  - destruct (Runtime.Save (r, w)) as [[[]|e] [r' w']] eqn:Hsave; cbn [fst snd is_ok].
    + pose proof Hsave as Hrun. erewrite Save_run in Hrun by done. cbv zeta in Hrun.
      destruct ((MkdirAll _ ;;; _) (files w)) as [x f] eqn:Hp. injection Hrun as -> <- <-.
      assert (Hself : set_keepers (Keepers r) r = r) by by destruct r.
      split_and!; [done|done|by rewrite Hself|]. destruct Hh as [Hpaths Hcfg _].
      pose proof Hp as Hp2. apply persist_cases in Hp2 as [[_ Hn]|(e & He & _)]; [|done]. split; [done| |].
      * unfold bind in Hp. destruct (MkdirAll _ (files w)) as [[[]|e] f1] eqn:Hmk; [|done].
        apply WriteByRename_atomic in Hp as [[_ Hn2]|(e & He & _)]; [|done].
        unfold node_at in *. case_decide; [done|]. cbn [upd_files files]. rewrite Hn2.
        rewrite lookup_insert_ne by (intros He; by apply (proj2 Hpaths)). by apply (MkdirAll_keeps _ _ _ _ _ _ Hmk).
      * eexists. split.
        -- unfold node_at. rewrite decide_False by (by eapply snapshot_path). exact Hn.
        -- by eapply load_export.
    + eapply Save_failure_frame in Hsave as (Hr' & _ & Hk); [|done]. cbn [fst snd] in *. subst r'.
      split_and!; [done..|]. by apply (holds_frame _ _ w).
  - cbn [fst snd]. rewrite (load_holds _ r saved w Hr Hh). cbn [fst snd].
    split_and!; [by apply (renumbered_snapshot _ (set_keepers saved r))|done|done|done].
  - cbn [fst snd]. split_and!; [done..|]. by apply (holds_frame _ _ w).
Qed.

(** C5: crash recovery. Take an application of the snapshot mode whose home
    holds what it last saved, and let anything happen in any order: operations
    of the keepers, saves that succeed or fail at any step, crashes followed by
    a start, any failures of the disk. At every moment the home loads, and
    loads exactly the keepers of the last successful save; the supply is backed
    by the wallets and the books are in order, before and after each crash. *)
Theorem crash_recovery (es : list home_event) (p : Process) (saved : App) :
  snapshot_app p.1 -> snapshot_app (set_keepers saved p.1) -> home_holds (AppConfig p.1) saved p.2 ->
  let '(q, last) := run_home es p saved in
  AppConfig q.1 = AppConfig p.1 /\
  LoadWithConfig (AppConfig q.1) q.2 = (Ok (set_keepers (renumbered last) q.1), q.2) /\
  app_inv (Keepers q.1) /\ backed (Keepers q.1) /\ app_inv last /\ backed last.
Proof.
  revert p saved. induction es as [|e es IH]; intros [r w] saved Hr Hs Hh; cbn [run_home fst snd] in *.
  - split_and!; [done|by eapply load_holds|apply Hr|by apply backed_with_none; apply Hr|apply Hs|].
    apply backed_with_none, (good_backed _ _ (sn_good _ _ Hs)).
  - destruct (event_step _ e r w saved Hr Hs Hh) as (Hr' & Hc & Hs' & Hh').
    specialize (IH (handle_event e (r, w)) (last_saved e (r, w) saved) Hr' Hs' ltac:(by rewrite Hc)).
    destruct (run_home es _ _) as [q last]. by rewrite <- Hc.
Qed.
End processes.

(** ** Concrete runs *)

#[local] Existing Instance Bridge.toy_crypto.
#[local] Existing Instance Bank.toy_codec.
#[local] Existing Instance demo_environment.

(** A store that mounts any modules once and opens every version. *)
#[local] Instance demo_sdk : SDKStore := {|
  NewKVStoreKeys := fun names => bool_decide (NoDup names);
  LoadLatestVersion := fun _ _ => Ok tt;
  SetInitialVersion := fun _ => Ok tt
|}.

Definition demo_disk (os : list outcome) : World := mk_world (mk_fs ∅ os) ∅.
Definition demo_flags : Config := init_flags "chain-1" "" "/srv/aegis" ["0xaa"; "0xbb"] ["gov"] 2.
Definition demo_config : Config := normalizeConfig demo_flags.
Definition demo_home : World := snd (InitHome demo_flags false (demo_disk [])).

Lemma demo_init : InitHome demo_flags false (demo_disk []) = (Ok demo_config, demo_home).
Proof. vm_compute. reflexivity. Qed.

Lemma demo_config_ok : config_ok demo_config /\ validateConfig demo_config = Ok tt.
Proof.
  assert (Hv : validateConfig demo_config = Ok tt) by (vm_compute; reflexivity).
  split; [by apply normalized_valid|done].
Qed.

Lemma demo_snapshot : snapshot_app (new_app demo_config).
Proof. apply fresh_snapshot; [apply demo_config_ok..|by vm_compute]. Qed.

Lemma demo_holds : home_holds demo_config (fresh_keepers demo_config) demo_home.
Proof.
  refine (proj2 (proj2 (proj2 (proj2 (init_holds _ _ _ _ _ _ _ _ _ _ demo_init _ _ _))))); vm_compute; congruence.
Qed.

Lemma init_then_load_witness :
  LoadWithConfig (home_flags "/srv/aegis") demo_home = (Ok (new_app demo_config), demo_home).
Proof.
  refine (proj1 (init_then_load _ _ _ _ _ _ _ _ _ _ demo_init _ _ _)); vm_compute; congruence.
Defined.

(** A day of that home: a claim is queued, a save is cut off, the node crashes;
    a height is set and saved, set again and lost in a crash. *)
Definition demo_events : list home_event := [
  EExec (AppQueue demo_claim (Bridge.demo_attested demo_claim)); EOutcomes [Done; Done; Torn (Errorf "disk full")]; ESave;
  ECrash; EOutcomes []; EExec AppAdvance; ESave; EExec AppAdvance; ECrash ].

Lemma crash_recovery_witness :
  let '(q, last) := run_home demo_events (new_app demo_config, demo_home) (fresh_keepers demo_config) in
  backed (Keepers q.1) /\ BridgeState.currentHeight (BridgeKeeper (Keepers q.1)) = 1%N /\ pendingDepositClaims last = [].
Proof.
  pose proof (crash_recovery demo_events (new_app demo_config, demo_home) (fresh_keepers demo_config)
    demo_snapshot demo_snapshot demo_holds) as Hc.
  assert (Hv : let '(q, last) := run_home demo_events (new_app demo_config, demo_home) (fresh_keepers demo_config) in
    BridgeState.currentHeight (BridgeKeeper (Keepers q.1)) = 1%N /\ pendingDepositClaims last = []) by (vm_compute; by split).
  destruct (run_home _ _ _) as [q last]. destruct Hc as (_ & _ & _ & Hb & _). split; [exact Hb|exact Hv].
Defined.

Lemma snapshot_restart_witness :
  let p := Runtime.Save (new_app demo_config, demo_home) in
  LoadWithConfig demo_config (snd (snd p)) = (Ok (new_app demo_config), snd (snd p)).
Proof.
  intros p.
  assert (Hp : p = (Ok tt, (new_app demo_config, snd (snd p)))) by (vm_compute; reflexivity).
  assert (Hres : ResolveConfig (files (snd (snd p))) demo_config = Ok demo_config) by (vm_compute; reflexivity).
  exact (proj1 (proj2 (snapshot_restart _ _ _ _ demo_snapshot Hp Hres))).
Defined.

Definition demo_full : World := upd_files (fun f => mk_fs (nodes f) [Done; Torn (Errorf "disk full")]) demo_home.

Lemma pair_fst {A B} (p : A * B) x : fst p = x -> p = (x, snd p).
Proof. intros <-. by destruct p. Qed.

Definition full_save : result unit * Process := Runtime.Save (new_app demo_config, demo_full).

Lemma full_save_fails : Runtime.Save (new_app demo_config, demo_full) = (Err (Errorf "disk full"), snd full_save).
Proof. apply (pair_fst full_save). vm_compute. reflexivity. Qed.

Lemma Save_failure_keeps_files_witness :
  exists n, node_at (files demo_full) "/srv/aegis/data/state.json" = Some n /\
    node_at (files (snd (snd full_save))) "/srv/aegis/data/state.json" = Some n.
Proof.
  destruct (Save_failure_keeps_files _ _ _ _ demo_snapshot full_save_fails) as (_ & _ & Hk).
  assert (Hn : is_Some (node_at (files demo_full) "/srv/aegis/data/state.json")) by (vm_compute; by eexists).
  destruct Hn as [n Hn]. exists n. split; [exact Hn|exact (Hk _ _ Hn)].
Defined.

(** ** What the code does not guard against *)

(** The node file of the store mode is written in place: a write that is cut
    off leaves a home that no longer loads. *)
Definition store_flags : Config := init_flags "chain-1" RuntimeModeSDKStore "/srv/aegis" ["0xaa"; "0xbb"] ["gov"] 2.
Definition store_home : World := snd (InitHome store_flags false (demo_disk [])).
Definition after_torn_save : World :=
  match LoadWithConfig (home_flags "/srv/aegis") store_home with
  | (Ok r, w) => snd (snd (Runtime.Save (r, upd_files (fun f => mk_fs (nodes f) [Done; Torn (Errorf "disk full")]) w)))
  | (Err _, w) => w
  end.

Example torn_node_file :
  is_ok (fst (LoadWithConfig (home_flags "/srv/aegis") store_home)) = true /\
  fst (LoadWithConfig (home_flags "/srv/aegis") after_torn_save) = Err json_error.
Proof. vm_compute. by split. Qed.

(** A copied home still writes to the home it was copied from: the stored
    paths win over the directory it is loaded by. *)
Definition copied_home : World :=
  upd_files (put_node (runtimeConfigPath "/srv/copy") (File (ConfigDoc demo_config))) demo_home.
Example copied_home_shared :
  match ResolveConfig (files copied_home) (home_flags "/srv/copy") with
  | Ok c => HomeDir c = "/srv/copy"%string /\ StatePath c = "/srv/aegis/data/state.json"%string
  | Err _ => False
  end.
Proof. vm_compute. by split. Qed.

(** A mode with outer white space passes the check and runs the other mode. *)
Definition spaced_mode : Config := normalizeConfig
  (init_flags "chain-1" (RuntimeModeSDKStore +:+ " ") "/srv/aegis" ["0xaa"; "0xbb"] ["gov"] 2).
Example spaced_mode_is_snapshot :
  validateConfig spaced_mode = Ok tt /\
  option_map storeRuntime (match fst (NewWithConfig spaced_mode (demo_disk [])) with Ok r => Some r | Err _ => None end) =
    Some None.
Proof. vm_compute. by split. Qed.

(** One signer counts twice towards the threshold of a configuration; the
    genesis check that would notice is never called. *)
Example duplicate_signers_pass :
  let c := normalizeConfig (init_flags "chain-1" "" "/srv/aegis" ["0xaa"; "0xaa"] ["gov"] 2) in
  validateConfig c = Ok tt /\ Genesis_Validate (DefaultGenesis c) = Err (Errorf ("duplicate genesis signer " +:+ Quote "0xaa")).
Proof. vm_compute. by split. Qed.

(** Two commands on one home in the snapshot mode: the later save forgets what
    the earlier one did. *)
Definition lost_update : option (Process * Process) :=
  match LoadWithConfig (home_flags "/srv/aegis") demo_home with
  | (Ok a, w) => match LoadWithConfig (home_flags "/srv/aegis") w with
                 | (Ok b, w) =>
                     let a := set_keepers (exec_app AppAdvance (Keepers a)) a in
                     let '(_, (a, w)) := Runtime.Save (a, w) in
                     let '(_, (b, w)) := Runtime.Save (b, w) in
                     Some ((a, w), (b, w))
                 | _ => None
                 end
  | _ => None
  end.
Example second_save_forgets :
  match lost_update with
  | Some (p, q) =>
      BridgeState.currentHeight (BridgeKeeper (Keepers p.1)) = 1%N /\
      match fst (LoadWithConfig (home_flags "/srv/aegis") q.2) with
      | Ok r => BridgeState.currentHeight (BridgeKeeper (Keepers r)) = 0%N
      | Err _ => False
      end
  | None => False
  end.
Proof. vm_compute. by split. Qed.
