(* ===== verification/ChainApp.v ===== *)
(** [chain/aegislink/networked] (app.go): the Cosmos SDK chain that runs beside
    the application — balances kept in step with the wallets, funded accounts
    and transfers over the localhost channel.

    The SDK and ibc-go are a parameter: [CosmosSDK] names the calls the code
    makes on the chain's state [W], and [BankLaws] the documented behaviour of
    its bank. *)

From S2P Require Import Prelude.
From S2P Require Import GoStrings.
From S2P Require Import Errors.
From S2P Require Import DemoTx.
From Stdlib Require Import Ascii String.
From stdpp Require Import strings.

(** [sdk.Coin], and the results of a transaction carrying data of type [D]. *)
Record Coin := mk_coin { CoinDenom : string; CoinAmount : Z }.

Record ExecTxResult (D : Type) := mk_tx_result {
  Code : N;                     (* uint32 *)
  Log : string;
  Data : option D;
  Events : list string
}.
Arguments mk_tx_result {D}.
Arguments Code {D}.
Arguments Log {D}.
Arguments Data {D}.
Arguments Events {D}.

Record BaseResponse := mk_base_response {
  BaseTxResults : list (ExecTxResult string);
  BaseAppHash : string
}.

Record LocalhostTransferRequest := mk_request {
  ReqSender : string;
  ReqCoin : Coin;
  ReqReceiver : string;
  ReqTimeoutHeight : N * N;     (* revision number and height, uint64 *)
  ReqTimeoutTimestamp : N;      (* uint64 *)
  ReqMemo : string;
  ReqSourcePort : string;
  ReqSourceChannel : string;
  ReqCounterpartyChannel : string
}.

Record LocalhostTransferResult := mk_transfer_result {
  ResSender : string;
  ResPortID : string;
  ResChannelID : string;
  ResCounterpartyChannelID : string;
  ResSequence : N;              (* uint64 *)
  ResPacketCommitment : string;
  ResEvents : list string
}.

Definition DemoLocalhostTransferPortID : string := "transfer".
Definition DemoLocalhostTransferChannelID : string := "channel-0".
Definition DemoLocalhostTransferCounterpartyChannel : string := "channel-1".
Definition transfer_module : string := "transfer".

(** [NextSequenceSend], [NextSequenceRecv] and [NextSequenceAck]. *)
Inductive direction := SequenceSend | SequenceRecv | SequenceAck.

(** The calls on the SDK; block times and hashes are not passed. [new_coin] is [sdk.NewCoin] of a [sdkmath.Int], which
    panics on what is no coin; an account is named by its address bytes. *)
Class CosmosSDK (W : Type) := {
  new_coin : string -> Z -> result Coin;
  coin_Validate : Coin -> result unit;
  StringToBytes : string -> result string;
  BytesToString : string -> result string;
  EncodeTransferTx : LocalhostTransferRequest -> result string;
  HasAccount : W -> string -> bool;
  NewAccount : string -> W -> W;
  GetBalance : W -> string -> string -> Z;
  MintCoins : string -> Coin -> Op W unit;
  BurnCoins : string -> Coin -> Op W unit;
  SendCoinsFromModuleToAccount : string -> string -> Coin -> Op W unit;
  SendCoinsFromAccountToModule : string -> string -> Coin -> Op W unit;
  LastBlockHeight : W -> Z;
  LastCommitHash : W -> string;
  ParseChainID : string -> N;
  base_FinalizeBlock : Z -> list tx_bytes -> Op W BaseResponse;
  base_Commit : Op W unit;
  base_CheckTx : tx_bytes -> Op W (N * string);
  HasLocalhostConnection : W -> bool;
  CreateSentinelLocalhostConnection : W -> W;
  SetClientConnectionPaths : W -> W;
  HasChannel : W -> string -> string -> bool;
  SetChannel : string -> string -> string -> W -> W;
  GetNextSequence : W -> direction -> string -> string -> option N;
  SetNextSequence : direction -> string -> string -> N -> W -> W;
  GetPacketCommitment : W -> string -> string -> N -> string
}.

Section chain.
Context {W : Type} `{CosmosSDK W}.

(** [fmt.Errorf("ctx: %w", err)]; a panic goes through. *)
Definition annotate (ctx : string) (e : error) : error :=
  match e with Panic _ => e | _ => Prefixed ctx e end.
Definition annotated {A} (ctx : string) (m : Op W A) : Op W A := fun w =>
  match m w with (Err e, w') => (Err (annotate ctx e), w') | ok => ok end.

(** The cached store is written only when [mutate] succeeds. *)
Definition writeMutableState (mutate : Op W unit) : Op W unit := fun w =>
  match mutate w with (Ok _, w') => (Ok tt, w') | (Err e, _) => (Err e, w) end.

Definition ensure_account (sender : string) : Op W unit :=
  modify (fun w => if HasAccount w sender then w else NewAccount sender w).

Definition ensureTransferSenderBalance (sender : string) (coin : Coin) : Op W unit :=
  ensure_account sender ;;;
  let! current := gets (fun w => GetBalance w sender (CoinDenom coin)) in
  if negb (current <? CoinAmount coin)%Z then ret tt
  else
    let! fundingCoin := lift (new_coin (CoinDenom coin) (CoinAmount coin - current)) in
    annotated "mint localhost transfer funding" (MintCoins transfer_module fundingCoin) ;;;
    annotated "fund localhost transfer sender" (SendCoinsFromModuleToAccount transfer_module sender fundingCoin).

Definition requireTransferSenderBalance (sender : string) (coin : Coin) : Op W unit :=
  query (fun w =>
    if negb (HasAccount w sender) then Err (Errorf ("transfer sender " +:+ sender +:+ " has no account"))
    else if (GetBalance w sender (CoinDenom coin) <? CoinAmount coin)%Z
    then Err (Errorf ("transfer sender " +:+ sender +:+ " has insufficient " +:+ CoinDenom coin +:+ " balance"))
    else Ok tt).

Definition setTransferSenderBalance (sender : string) (coin : Coin) : Op W unit :=
  ensure_account sender ;;;
  let! current := gets (fun w => GetBalance w sender (CoinDenom coin)) in
  if (current <? CoinAmount coin)%Z then
    let! fundingCoin := lift (new_coin (CoinDenom coin) (CoinAmount coin - current)) in
    annotated "mint synced transfer funding" (MintCoins transfer_module fundingCoin) ;;;
    annotated "fund synced transfer sender" (SendCoinsFromModuleToAccount transfer_module sender fundingCoin)
  else if (CoinAmount coin <? current)%Z then
    let! excessCoin := lift (new_coin (CoinDenom coin) (current - CoinAmount coin)) in
    annotated "escrow excess synced balance" (SendCoinsFromAccountToModule sender transfer_module excessCoin) ;;;
    annotated "burn excess synced balance" (BurnCoins transfer_module excessCoin)
  else ret tt.

Definition SyncAccountBalance (address : string) (coin : Coin) : Op W unit :=
  throw_if (blank address) (Errorf "missing synced account address") ;;;
  annotated "invalid synced coin" (lift (coin_Validate coin)) ;;;
  throw_if (CoinAmount coin <? 0)%Z (Errorf "synced amount must not be negative") ;;;
  let! addressBytes := annotated "decode synced account address" (lift (StringToBytes (TrimSpace address))) in
  annotated "sync account balance" (writeMutableState (setTransferSenderBalance addressBytes coin)).

Definition FundAccount (address : string) (coin : Coin) : Op W unit :=
  throw_if (blank address) (Errorf "missing funded account address") ;;;
  annotated "invalid funded coin" (lift (coin_Validate coin)) ;;;
  throw_if (CoinAmount coin <=? 0)%Z (Errorf "funded amount must be positive") ;;;
  let! addressBytes := annotated "decode funded account address" (lift (StringToBytes (TrimSpace address))) in
  annotated "ensure funded account balance" (writeMutableState (ensureTransferSenderBalance addressBytes coin)) ;;;
  let! height := gets LastBlockHeight in
  annotated "finalize funding block" (base_FinalizeBlock (height + 1) []) ;;;
  annotated "commit funding block" base_Commit.

(** ** Transfers over the localhost channel *)

Definition bytesRepeat (b : ascii) (count : nat) : string := string_of_list_ascii (repeat b count).

Definition defaultLocalhostTransferSender : result string := BytesToString (bytesRepeat (ascii_of_N 66) 20).

Definition or_default (default value : string) : string :=
  if blank value then default else value.

Definition with_sender (sender : string) (r : LocalhostTransferRequest) : LocalhostTransferRequest :=
  mk_request sender (ReqCoin r) (ReqReceiver r) (ReqTimeoutHeight r) (ReqTimeoutTimestamp r) (ReqMemo r)
    (ReqSourcePort r) (ReqSourceChannel r) (ReqCounterpartyChannel r).

Definition normalizeLocalhostTransferRequest (req : LocalhostTransferRequest)
    : result (LocalhostTransferRequest * string) :=
  let? req := (if blank (ReqSender req)
    then let? sender := defaultLocalhostTransferSender in Ok (with_sender sender req)
    else Ok req) in
  match StringToBytes (TrimSpace (ReqSender req)) with
  | Err e => Err (annotate "decode localhost transfer sender" e)
  | Ok senderBytes =>
      match coin_Validate (ReqCoin req) with
      | Err e => Err (annotate "invalid localhost transfer coin" e)
      | Ok _ =>
          let? _ := ensure (CoinAmount (ReqCoin req) <=? 0)%Z
                      (Errorf "localhost transfer amount must be positive") in
          let? _ := ensure (blank (ReqReceiver req)) (Errorf "missing localhost transfer receiver") in
          let? _ := ensure (bool_decide (ReqTimeoutHeight req = (0%N, 0%N)) && N.eqb (ReqTimeoutTimestamp req) 0)
                      (Errorf "missing localhost transfer timeout") in
          Ok (mk_request (TrimSpace (ReqSender req)) (ReqCoin req) (TrimSpace (ReqReceiver req))
                (ReqTimeoutHeight req) (ReqTimeoutTimestamp req) (ReqMemo req)
                (TrimSpace (or_default DemoLocalhostTransferPortID (ReqSourcePort req)))
                (TrimSpace (or_default DemoLocalhostTransferChannelID (ReqSourceChannel req)))
                (TrimSpace (or_default DemoLocalhostTransferCounterpartyChannel (ReqCounterpartyChannel req))),
              senderBytes)
      end
  end.

Definition ensureLocalhostTransferPath (sourcePort sourceChannel counterpartyChannel : string) : Op W unit :=
  modify (fun w => if HasLocalhostConnection w then w else CreateSentinelLocalhostConnection w) ;;;
  modify SetClientConnectionPaths ;;;
  modify (fun w => if HasChannel w sourcePort sourceChannel then w
                   else SetChannel sourcePort sourceChannel counterpartyChannel w) ;;;
  for_each (fun d => modify (fun w =>
    match GetNextSequence w d sourcePort sourceChannel with
    | Some _ => w
    | None => SetNextSequence d sourcePort sourceChannel 1 w
    end)) [SequenceSend; SequenceRecv; SequenceAck].

(** The one result of the transfer's block. *)
Definition only_result (response : BaseResponse) : result (ExecTxResult string) :=
  match BaseTxResults response with
  | [r] => Ok r
  | rs => Err (Errorf ("expected exactly one localhost transfer tx result, got " +:+
                 format_int (Z.of_nat (length rs))))
  end.

Definition ExecuteLocalhostTransfer (req : LocalhostTransferRequest) : Op W LocalhostTransferResult :=
  let explicitSender := negb (blank (ReqSender req)) in
  let! normalized := lift (normalizeLocalhostTransferRequest req) in
  let '(request, sender) := normalized in
  ensureLocalhostTransferPath (ReqSourcePort request) (ReqSourceChannel request) (ReqCounterpartyChannel request) ;;;
  (if explicitSender then requireTransferSenderBalance sender (ReqCoin request)
   else writeMutableState (ensureTransferSenderBalance sender (ReqCoin request))) ;;;
  let! txBytes := annotated "encode localhost transfer tx" (lift (EncodeTransferTx request)) in
  let! height := gets LastBlockHeight in
  let! response := annotated "finalize localhost transfer block" (base_FinalizeBlock (height + 1) [TxOther txBytes]) in
  let! r := lift (only_result response) in
  throw_if (negb (N.eqb (Code r) 0)) (Errorf ("execute localhost transfer tx: " +:+ Log r)) ;;;
  annotated "commit localhost transfer block" base_Commit ;;;
  let port := ReqSourcePort request in
  let channel := ReqSourceChannel request in
  let! nextSequence := gets (fun w => GetNextSequence w SequenceSend port channel) in
  let unrecorded := Errorf ("localhost transfer next send sequence was not recorded for " +:+ port +:+ "/" +:+ channel) in
  let! nextSequence := some_or nextSequence unrecorded in
  throw_if (nextSequence <=? 1)%N unrecorded ;;;
  let sequence := (nextSequence - 1)%N in
  let! commitment := gets (fun w => GetPacketCommitment w port channel sequence) in
  throw_if (bool_decide (commitment = EmptyString))
    (Errorf ("missing packet commitment for " +:+ port +:+ "/" +:+ channel +:+ " sequence " +:+ format_uint sequence)) ;;;
  ret (mk_transfer_result (ReqSender request) port channel (ReqCounterpartyChannel request) sequence commitment (Events r)).
End chain.

(** ** Balances kept in step *)

(** What the SDK documents of its bank: minting and burning change the balance
    of the module, sending moves coins between a module and an account, and a
    new account has no effect on balances. *)
Definition moved (delta : string -> string -> Z) {W} `{CosmosSDK W} (w w' : W) : Prop :=
  forall a d, GetBalance w' a d = (GetBalance w a d + delta a d)%Z.
Definition only (account : string) (coin : Coin) (a d : string) : Z :=
  if decide (a = account /\ d = CoinDenom coin) then CoinAmount coin else 0.

Class BankLaws (W : Type) `{CosmosSDK W} := {
  module_address : string -> string;
  new_coin_law d v c : new_coin d v = Ok c -> c = mk_coin d v;
  new_account_law a w : moved (fun _ _ => 0%Z) w (NewAccount a w);
  mint_law m c w w' : MintCoins m c w = (Ok tt, w') -> moved (only (module_address m) c) w w';
  burn_law m c w w' : BurnCoins m c w = (Ok tt, w') -> moved (fun a d => - only (module_address m) c a d)%Z w w';
  send_to_account_law m a c w w' : SendCoinsFromModuleToAccount m a c w = (Ok tt, w') ->
    moved (fun x d => only a c x d - only (module_address m) c x d)%Z w w';
  send_to_module_law a m c w w' : SendCoinsFromAccountToModule a m c w = (Ok tt, w') ->
    moved (fun x d => only (module_address m) c x d - only a c x d)%Z w w'
}.

Section balances.
Context {W : Type} `{BankLaws W}.

Lemma annotated_ok {A} ctx (m : Op W A) w a w' :
  annotated ctx m w = (Ok a, w') -> m w = (Ok a, w').
Proof. unfold annotated. by destruct (m w) as [[x|e] s]. Qed.

(** The account's balance is what is asked for and no other balance differs. *)
Definition set_to (account denom : string) (amount : Z) (w w' : W) : Prop :=
  forall a d, GetBalance w' a d = if decide (a = account /\ d = denom) then amount else GetBalance w a d.

Lemma ensure_account_moved sender (w : W) : moved (fun _ _ => 0%Z) w (snd (ensure_account sender w)).
Proof.
  unfold ensure_account. cbn. destruct (HasAccount w sender); [|apply new_account_law]. intros a d. lia.
Qed.

(** Topping up mints the shortfall and sends it on. *)
Lemma top_up sender coin ctx1 ctx2 current (w0 w w' : W) :
  moved (fun _ _ => 0%Z) w0 w -> current = GetBalance w sender (CoinDenom coin) ->
  (let! fundingCoin := lift (new_coin (CoinDenom coin) (CoinAmount coin - current)) in
   annotated ctx1 (MintCoins transfer_module fundingCoin) ;;;
   annotated ctx2 (SendCoinsFromModuleToAccount transfer_module sender fundingCoin)) w = (Ok tt, w') ->
  set_to sender (CoinDenom coin) (CoinAmount coin) w0 w'.
Proof.
  intros Hw Hcur Hrun. apply bind_ok_inv in Hrun as (c & w1 & Hc & Hrun). injection Hc as Hc <-.
  apply new_coin_law in Hc as ->.
  apply bind_ok_inv in Hrun as ([] & w2 & Hmint%annotated_ok & Hsend%annotated_ok).
  apply mint_law in Hmint. apply send_to_account_law in Hsend. intros a d.
  rewrite Hsend, Hmint. specialize (Hw a d). cbn beta in Hw. unfold only. cbn [CoinDenom CoinAmount].
  destruct (decide (a = sender /\ d = CoinDenom coin)) as [[-> ->]|Hne]; repeat case_decide; first [lia | exfalso; naive_solver].
Qed.

Lemma set_balance sender coin (w w' : W) :
  setTransferSenderBalance sender coin w = (Ok tt, w') -> set_to sender (CoinDenom coin) (CoinAmount coin) w w'.
Proof.
  unfold setTransferSenderBalance. intros Hrun. pose proof (ensure_account_moved sender w) as Hacc.
  apply bind_ok_inv in Hrun as ([] & w1 & Hw1 & Hrun). rewrite Hw1 in Hacc. cbn [snd] in Hacc.
  apply bind_ok_inv in Hrun as (current & w2 & Hcur & Hrun). injection Hcur as Hcur <-.
  destruct (Z.ltb_spec current (CoinAmount coin)) as [Hlt|Hge]; [by eapply top_up|].
  destruct (Z.ltb_spec (CoinAmount coin) current) as [Hlt'|Hge'].
  - apply bind_ok_inv in Hrun as (c & w2 & Hc & Hrun). injection Hc as Hc <-. apply new_coin_law in Hc as ->.
    apply bind_ok_inv in Hrun as ([] & w3 & Hsend%annotated_ok & Hburn%annotated_ok).
    apply send_to_module_law in Hsend. apply burn_law in Hburn. intros a d.
    rewrite Hburn, Hsend. specialize (Hacc a d). cbn beta in Hacc. unfold only. cbn [CoinDenom CoinAmount].
    destruct (decide (a = sender /\ d = CoinDenom coin)) as [[-> ->]|Hne]; repeat case_decide; first [lia | exfalso; naive_solver].
  - injection Hrun as <-. intros a d. specialize (Hacc a d). cbn beta in Hacc.
    destruct (decide (a = sender /\ d = CoinDenom coin)) as [[-> ->]|Hne]; lia.
Qed.

Lemma ensure_balance sender coin (w w' : W) :
  ensureTransferSenderBalance sender coin w = (Ok tt, w') ->
  set_to sender (CoinDenom coin) (Z.max (GetBalance w sender (CoinDenom coin)) (CoinAmount coin)) w w'.
Proof.
  unfold ensureTransferSenderBalance. intros Hrun. pose proof (ensure_account_moved sender w) as Hacc.
  apply bind_ok_inv in Hrun as ([] & w1 & Hw1 & Hrun). rewrite Hw1 in Hacc. cbn [snd] in Hacc.
  apply bind_ok_inv in Hrun as (current & w2 & Hcur & Hrun). injection Hcur as Hcur <-.
  pose proof (Hacc sender (CoinDenom coin)) as Hsame. cbn beta in Hsame.
  destruct (Z.ltb_spec current (CoinAmount coin)) as [Hlt|Hge]; cbn [negb] in Hrun.
  - rewrite Z.max_r by lia. eapply top_up; [exact Hacc|exact (eq_sym Hcur)|exact Hrun].
  - injection Hrun as <-. intros a d. specialize (Hacc a d). cbn beta in Hacc.
    destruct (decide (a = sender /\ d = CoinDenom coin)) as [[-> ->]|Hne]; lia.
Qed.

(** The SDK balance follows the wallet. A balance that is synchronised is
    afterwards exactly the amount given — topped up by minting, or the excess
    burned — and every other balance of every account is what it was; a
    synchronisation that fails, at whatever step, changes nothing. *)
Theorem SyncAccountBalance_spec (address : string) (coin : Coin) (w : W) :
  match SyncAccountBalance address coin w with
  | (Ok _, w') => exists account, StringToBytes (TrimSpace address) = Ok account /\
      (0 <= CoinAmount coin)%Z /\ set_to account (CoinDenom coin) (CoinAmount coin) w w'
  | (Err _, w') => w' = w
  end.
Proof.
  unfold SyncAccountBalance, annotated, throw_if.
  go_unfold. destruct (blank address); [done|].
  destruct (coin_Validate coin) as [[]|e]; [|done].
  destruct (Z.ltb_spec (CoinAmount coin) 0); [done|].
  destruct (StringToBytes (TrimSpace address)) as [account|e]; [|done].
  unfold writeMutableState. destruct (setTransferSenderBalance account coin w) as [[[]|e] w'] eqn:Hset; [|done].
  exists account. split_and!; [done..|]. by apply set_balance.
Qed.
End balances.

(** ** A chain for the witnesses: a ledger and nothing else *)

Record Ledger := mk_ledger { accounts : gset string; coins : gmap (string * string) Z; height : Z }.

Definition ledger_balance (w : Ledger) (a d : string) : Z := default 0%Z (coins w !! (a, d)).
Definition ledger_add (a d : string) (v : Z) (w : Ledger) : Ledger :=
  mk_ledger (accounts w) (<[(a, d) := (ledger_balance w a d + v)%Z]> (coins w)) (height w).
Definition ledger_take (a : string) (c : Coin) : Op Ledger unit := fun w =>
  if (ledger_balance w a (CoinDenom c) <? CoinAmount c)%Z then (Err (Errorf "insufficient funds"), w)
  else (Ok tt, ledger_add a (CoinDenom c) (- CoinAmount c) w).
Definition ledger_module (m : string) : string := "module/" +:+ m.

#[local] Instance ledger_sdk : CosmosSDK Ledger := {|
  new_coin d v := if (v <? 0)%Z || (String.length d <? 3)%nat then Err (Panic "invalid coin") else Ok (mk_coin d v);
  coin_Validate c := if (CoinAmount c <? 0)%Z then Err (Errorf "negative coin amount") else Ok tt;
  StringToBytes a := if bool_decide (a = EmptyString) then Err (Errorf "empty address") else Ok a;
  BytesToString a := Ok a;
  EncodeTransferTx r := Ok (ReqSender r);
  HasAccount w a := bool_decide (a ∈ accounts w);
  NewAccount a w := mk_ledger ({[ a ]} ∪ accounts w) (coins w) (height w);
  GetBalance := ledger_balance;
  MintCoins m c w := (Ok tt, ledger_add (ledger_module m) (CoinDenom c) (CoinAmount c) w);
  BurnCoins m c := ledger_take (ledger_module m) c;
  SendCoinsFromModuleToAccount m a c := ledger_take (ledger_module m) c ;;;
    modify (ledger_add a (CoinDenom c) (CoinAmount c));
  SendCoinsFromAccountToModule a m c := ledger_take a c ;;;
    modify (ledger_add (ledger_module m) (CoinDenom c) (CoinAmount c));
  LastBlockHeight := height;
  LastCommitHash _ := "commit";
  ParseChainID _ := 1%N;
  base_FinalizeBlock h txs := ret (mk_base_response (map (fun _ => mk_tx_result 0 EmptyString None []) txs) "hash");
  base_Commit := modify (fun w => mk_ledger (accounts w) (coins w) (height w + 1));
  base_CheckTx _ := ret (0%N, EmptyString);
  HasLocalhostConnection _ := true;
  CreateSentinelLocalhostConnection w := w;
  SetClientConnectionPaths w := w;
  HasChannel _ _ _ := true;
  SetChannel _ _ _ w := w;
  GetNextSequence w _ _ _ := Some (Z.to_N (height w + 1));
  SetNextSequence _ _ _ _ w := w;
  GetPacketCommitment _ _ _ _ := "commitment"
|}.

Lemma ledger_add_balance a d v w x y :
  ledger_balance (ledger_add a d v w) x y = (ledger_balance w x y + if decide (x = a /\ y = d) then v else 0)%Z.
Proof.
  unfold ledger_balance at 1, ledger_add. cbn [coins]. destruct (decide (x = a /\ y = d)) as [[-> ->]|Hne].
  - by rewrite lookup_insert_eq.
  - rewrite lookup_insert_ne by naive_solver. unfold ledger_balance. lia.
Qed.

Lemma ledger_take_moved a c w w' :
  ledger_take a c w = (Ok tt, w') -> moved (fun x d => - only a c x d)%Z w w'.
Proof.
  unfold ledger_take. case_match; [done|]. intros [= <-] x d. cbn [GetBalance ledger_sdk].
  rewrite ledger_add_balance. unfold only. case_decide; lia.
Qed.

#[local] Instance ledger_laws : BankLaws Ledger.
Proof.
  refine {| module_address := ledger_module |}.
  - intros d v c. cbn. by case_match; [|intros [= <-]].
  - intros a w x d. cbn. unfold ledger_balance. cbn. lia.
  - intros m c w w' [= <-] x d. cbn [GetBalance ledger_sdk]. by rewrite ledger_add_balance.
  - intros m c w w'. apply ledger_take_moved.
  - intros m a c w w' ([] & w1 & Htake & [= <-])%bind_ok_inv x d. apply ledger_take_moved in Htake.
    cbn [GetBalance ledger_sdk] in *. rewrite ledger_add_balance. change (ledger_balance w1) with (GetBalance w1).
    rewrite Htake. cbn [GetBalance ledger_sdk]. unfold only. repeat case_decide; first [lia | exfalso; naive_solver].
  - intros a m c w w' ([] & w1 & Htake & [= <-])%bind_ok_inv x d. apply ledger_take_moved in Htake.
    cbn [GetBalance ledger_sdk] in *. rewrite ledger_add_balance. change (ledger_balance w1) with (GetBalance w1).
    rewrite Htake. cbn [GetBalance ledger_sdk]. unfold only. repeat case_decide; first [lia | exfalso; naive_solver].
Defined.

Definition demo_ledger : Ledger := mk_ledger ∅ {[ ("bob", "ueth")%string := 70%Z ]} 4.

Example SyncAccountBalance_spec_witness :
  exists w', SyncAccountBalance "bob" (mk_coin "ueth" 30) demo_ledger = (Ok tt, w') /\
    set_to "bob" "ueth" 30 demo_ledger w' /\ GetBalance w' (ledger_module transfer_module) "ueth" = 0%Z.
Proof.
  pose proof (SyncAccountBalance_spec "bob" (mk_coin "ueth" 30) demo_ledger) as Hspec.
  assert (Hrun : fst (SyncAccountBalance "bob" (mk_coin "ueth" 30) demo_ledger) = Ok tt) by (vm_compute; reflexivity).
  destruct (SyncAccountBalance "bob" (mk_coin "ueth" 30) demo_ledger) as [[[]|e] w']; [|discriminate Hrun].
  exists w'. split; [reflexivity|]. destruct Hspec as (account & Haccount & _ & Hset).
  injection Haccount as <-. split; [exact Hset|]. rewrite Hset. reflexivity.
Defined.

(** Funding an account tops it up: an account that holds the amount gets nothing. *)
Example funding_tops_up :
  let w' := snd (FundAccount "bob" (mk_coin "ueth" 50) demo_ledger) in
  fst (FundAccount "bob" (mk_coin "ueth" 50) demo_ledger) = Ok tt /\ GetBalance w' "bob" "ueth" = 70%Z.
Proof. vm_compute. split; reflexivity. Qed.

(** A transfer without a sender is paid by an account that is minted the coins. *)
Example transfer_without_sender_minted :
  let request := mk_request EmptyString (mk_coin "ueth" 1000) "osmo1user" (1, 500)%N 0 EmptyString EmptyString EmptyString EmptyString in
  let '(r, w') := ExecuteLocalhostTransfer request demo_ledger in
  is_ok r = true /\ GetBalance w' (bytesRepeat (ascii_of_N 66) 20) "ueth" = 1000%Z.
Proof. vm_compute. split; reflexivity. Qed.
