(* ===== verification/Node.v ===== *)
(** [chain/aegislink/networked] (abci.go): the node — demo transactions applied
    to the application, its blocks, and the SDK chain kept in step. *)

From S2P Require Import Prelude.
From S2P Require Import GoStrings.
From S2P Require Import Base64.
From S2P Require Import Errors.
From S2P Require Import Pauser.
From S2P Require Import Registry.
From S2P Require Import Limits.
From S2P Require Import BridgeTypes.
From S2P Require Import BridgeState.
From S2P Require Import Bridge.
From S2P Require Import Bank.
From S2P Require Import IBCRouter.
From S2P Require Import App.
From S2P Require Import DemoTx.
From S2P Require Import ChainApp.
From Stdlib Require Import Ascii String.
From stdpp Require Import strings.

(** ** The status and what a query shows *)

(** The fields of [Status] that the keepers determine; those of the
    configuration are constant. *)
Record AppStatus := mk_app_status {
  ActiveSignerSetVersion : N;
  ActiveSignerThreshold : N;
  SignerSetVersions : list N;
  EnabledRouteIDs : list string;
  StatusHeight : N;
  StatusAssets : nat;
  StatusLimits : nat;
  PausedFlows : nat;
  ProcessedClaims : nat;
  FailedClaims : N;
  BridgeCircuitOpen : bool;
  LastInvariantError : string;
  PendingDepositClaims : nat;
  StatusWithdrawals : nat;
  StatusRoutes : nat;
  StatusTransfers : nat;
  PendingTransfers : nat;
  CompletedTransfers : nat;
  FailedTransfers : nat;
  TimedOutTransfers : nat;
  RefundedTransfers : nat;
  GovernanceProposals : nat;
  SupplyByDenom : gmap string string
}.

Record SummaryView := mk_summary {
  SummaryAssets : nat;
  SummaryLimits : nat;
  SummaryPausedFlows : nat;
  SummaryHeight : N;
  SummaryWithdrawals : nat;
  SummarySupply : gmap string string
}.

Record TransferView := mk_view {
  ViewTransferID : string;
  ViewAssetID : string;
  ViewAmount : string;
  ViewReceiver : string;
  ViewDestinationChainID : string;
  ViewChannelID : string;
  ViewDestinationDenom : string;
  ViewTimeoutHeight : N;
  ViewMemo : string;
  ViewStatus : string;
  ViewFailureReason : string
}.

Definition transferViewsFromRecords (transfers : list TransferRecord) : list TransferView :=
  map (fun t => mk_view (TransferID t) (TrAssetID t) (format_int (TrAmount t)) (Receiver t) (TrChainID t)
    (TrChannelID t) (TrDenom t) (TimeoutHeight t) (Memo t) (Status t) (FailureReason t)) transfers.

Section status.
Context `{MapIteration}.

Definition with_transfer_status (status : string) (l : list TransferRecord) : nat :=
  length (filter (fun t => Status t = status) l).

Definition AppStatus_of (a : App) : AppStatus :=
  let bridgeState := BridgeState.ExportState (BridgeKeeper a) in
  let transfers := ExportTransfers (IBCRouterKeeper a) in
  let routes := ExportRoutes (IBCRouterKeeper a) in
  let signerSets := ExportSignerSets (BridgeKeeper a) in
  let active := BridgeState.ActiveSignerSet (BridgeKeeper a) in
  mk_app_status
    (match active with Ok s => Version s | Err _ => 0%N end)
    (match active with Ok s => SetThreshold s | Err _ => 0%N end)
    (map Version signerSets)
    (enabledRouteIDs routes)
    (MetaHeight (StMeta bridgeState))
    (length (ExportAssets (RegistryKeeper a)))
    (length (ExportLimits (LimitsKeeper a)))
    (length (ExportPausedFlows (PauserKeeper a)))
    (length (StProcessedClaims bridgeState))
    (rejectedClaims (BridgeKeeper a))
    (circuitBreakerTripped (BridgeKeeper a))
    (lastInvariantError (BridgeKeeper a))
    (length (pendingDepositClaims a))
    (length (StWithdrawals bridgeState))
    (length routes)
    (length transfers)
    (with_transfer_status TransferStatusPending transfers)
    (with_transfer_status TransferStatusCompleted transfers)
    (with_transfer_status TransferStatusAckFailed transfers)
    (with_transfer_status TransferStatusTimedOut transfers)
    (with_transfer_status TransferStatusRefunded transfers)
    (length (govApplied a))
    (StSupplyByDenom bridgeState).

Definition summaryViewFromApp (a : App) : SummaryView :=
  let bridgeState := BridgeState.ExportState (BridgeKeeper a) in
  mk_summary (length (ExportAssets (RegistryKeeper a))) (length (ExportLimits (LimitsKeeper a)))
    (length (ExportPausedFlows (PauserKeeper a))) (MetaHeight (StMeta bridgeState))
    (length (StWithdrawals bridgeState)) (StSupplyByDenom bridgeState).
End status.

(** ** State and messages *)

(** A hash is kept as what it is the hash of. *)
Inductive AppHash :=
| NoHash
| StatusHash (s : AppStatus)
| ChainHash (h : string).

Record ABCIApplication (W : Type) := mk_node {
  app : App;
  chainApp : option W;
  appHash : AppHash;
  lastFinalizeUsedBaseApp : bool;
  pendingBaseAppCommit : bool
}.
Arguments mk_node {W}.
Arguments app {W}.
Arguments chainApp {W}.
Arguments appHash {W}.
Arguments lastFinalizeUsedBaseApp {W}.
Arguments pendingBaseAppCommit {W}.

(** The data of a transaction result: the document it encodes. *)
Inductive TxData :=
| QueuedData (messageID assetID amount : string)
| TransferData (transfer : TransferRecord)
| WithdrawalData (withdrawal : WithdrawalRecord)
| FundedData (address denom amount : string)
| BaseData (bytes : string).

Record RequestFinalizeBlock := mk_block { ReqHeight : Z; ReqTxs : list tx_bytes }.
Record ResponseFinalizeBlock := mk_response { RespAppHash : AppHash; RespTxResults : list (ExecTxResult TxData) }.

Definition from_base (r : ExecTxResult string) : ExecTxResult TxData :=
  mk_tx_result (Code r) (Log r) (BaseData <$> Data r) (Events r).

Definition is_panic (e : error) : bool := match e with Panic _ => true | _ => false end.

(** A call whose error is looked at or dropped; a panic is neither. *)
Definition recovered {St A} (m : Op St A) : Op St (result A) := fun s =>
  match m s with
  | (Err e, s') => if is_panic e then (Err e, s') else (Ok (Err e), s')
  | (Ok a, s') => (Ok (Ok a), s')
  end.

Section node.
Context {W : Type} `{CosmosSDK W} `{MapIteration} `{Crypto} `{AddressCodec}.

Definition set_app (a : App) (n : ABCIApplication W) :=
  mk_node a (chainApp n) (appHash n) (lastFinalizeUsedBaseApp n) (pendingBaseAppCommit n).
Definition set_chain (c : option W) (n : ABCIApplication W) :=
  mk_node (app n) c (appHash n) (lastFinalizeUsedBaseApp n) (pendingBaseAppCommit n).
Definition set_hash (h : AppHash) (n : ABCIApplication W) :=
  mk_node (app n) (chainApp n) h (lastFinalizeUsedBaseApp n) (pendingBaseAppCommit n).
Definition set_flags (last pending : bool) (n : ABCIApplication W) :=
  mk_node (app n) (chainApp n) (appHash n) last pending.

Definition on_app {A} (m : Op App A) : Op (ABCIApplication W) A := zoom app set_app m.

(** [if a.chainApp != nil { ... }]: [none] without a chain. *)
Definition with_chain {A} (none : A) (m : Op W A) : Op (ABCIApplication W) A := fun n =>
  match chainApp n with
  | None => (Ok none, n)
  | Some w => let '(r, w') := m w in (r, set_chain (Some w') n)
  end.

Definition CurrentHeight (n : ABCIApplication W) : N := MetaHeight (StMeta (BridgeState.ExportState (BridgeKeeper (app n)))).

(** ** Transactions *)

(** [SyncAccountBalance] of a coin that is made on the spot. *)
Definition sync_coin (address denom : string) (amount : Z) : Op W unit :=
  let! coin := lift (new_coin denom amount) in SyncAccountBalance address coin.

Definition localhostTransferTimeoutHeight (destinationChainID : string) (timeoutHeight : N) : N * N :=
  (ParseChainID (TrimSpace destinationChainID), timeoutHeight).

Definition initiate_transfer (payload : InitiateIBCTransferPayload) (amount : Z) : Op App TransferRecord :=
  if blank (IbcRouteID payload)
  then App.InitiateIBCTransfer (IbcAssetID payload) (Some amount) (IbcReceiver payload) (IbcTimeoutHeight payload) (IbcMemo payload)
  else App.InitiateIBCTransferWithProfile (IbcRouteID payload) (IbcAssetID payload) (Some amount) (IbcReceiver payload)
         (IbcTimeoutHeight payload) (IbcMemo payload).

(** The sender gets the amount back, on the wallet and on the chain; neither
    call's error is looked at. *)
Definition give_back (sender denom : string) (amount preTransferBalance : Z) : Op (ABCIApplication W) unit :=
  if decide (sender = EmptyString) then ret tt
  else
    recovered (on_app (App.CreditWallet sender denom (Some amount))) ;;;
    recovered (with_chain tt (sync_coin sender denom preTransferBalance)) ;;;
    ret tt.

Definition charge_sender (sender denom : string) (amount preTransferBalance : Z) : Op (ABCIApplication W) unit :=
  if decide (sender = EmptyString) then ret tt
  else
    throw_if (preTransferBalance <? amount)%Z
      (Errorf ("wallet " +:+ sender +:+ " has insufficient " +:+ denom +:+ " balance")) ;;;
    with_chain tt (sync_coin sender denom preTransferBalance) ;;;
    on_app (App.DebitWallet sender denom (Some amount)).

Definition localhost_transfer (sender denom : string) (amount : Z) (payload : InitiateIBCTransferPayload)
    (transfer : TransferRecord) : Op W (list string) :=
  let! coin := lift (new_coin denom amount) in
  let! r := ExecuteLocalhostTransfer (mk_request sender coin (IbcReceiver payload)
    (localhostTransferTimeoutHeight (TrChainID transfer) (IbcTimeoutHeight payload)) 0 (IbcMemo payload)
    EmptyString EmptyString EmptyString) in
  ret (ResEvents r).

(** The transfer itself, once the sender has paid. *)
Definition transfer_paid (sender denom : string) (amount preTransferBalance : Z) (payload : InitiateIBCTransferPayload)
    : Op (ABCIApplication W) (TransferRecord * list string) :=
  let! initiated := recovered (on_app (initiate_transfer payload amount)) in
  match initiated with
  | Err err => give_back sender denom amount preTransferBalance ;;; throw err
  | Ok transfer =>
      let! executed := recovered (with_chain [] (localhost_transfer sender denom amount payload transfer)) in
      match executed with
      | Ok events => ret (transfer, events)
      | Err err =>
          give_back sender denom amount preTransferBalance ;;;
          let! failed := recovered (on_app (App.FailIBCTransfer (TransferID transfer)
                           ("localhost sdk transfer failed: " +:+ error_text err))) in
          match failed with
          | Ok _ => throw err
          | Err failErr => throw (Errorf ("execute localhost transfer: " +:+ error_text err +:+
                             " (also failed to mark transfer failed: " +:+ error_text failErr +:+ ")"))
          end
      end
  end.

Definition applyIBCTransferPayload (payload : InitiateIBCTransferPayload) (amount : Z)
    : Op (ABCIApplication W) (TransferRecord * list string) :=
  let sender := TrimSpace (IbcSender payload) in
  let! found := gets (fun n => GetAsset (RegistryKeeper (app n)) (IbcAssetID payload)) in
  let! asset := some_or found (Errorf ("networked ibc asset " +:+ Quote (IbcAssetID payload) +:+ " is not registered")) in
  let denom := Denom asset in
  let! preTransferBalance := gets (fun n => App.WalletBalance (app n) sender denom) in
  charge_sender sender denom amount preTransferBalance ;;;
  transfer_paid sender denom amount preTransferBalance payload.

Definition success (data : TxData) (events : list string) : ExecTxResult TxData := mk_tx_result 0 EmptyString (Some data) events.

Definition apply_queue (p : submissionPayload) : Op (ABCIApplication W) (ExecTxResult TxData) :=
  let! decoded := lift (depositClaimAndAttestationFromPayload p) in
  let '(claim, attestation) := decoded in
  on_app (App.QueueDepositClaim claim attestation) ;;;
  ret (success (QueuedData (MessageID (Identity claim)) (BridgeTypes.AssetID claim) (big_String (Amount claim))) []).

Definition apply_transfer (p : InitiateIBCTransferPayload) : Op (ABCIApplication W) (ExecTxResult TxData) :=
  let! decoded := lift (decodeInitiateIBCTransferPayload p) in
  let '(payload, amount) := decoded in
  let! r := applyIBCTransferPayload payload amount in
  ret (success (TransferData (fst r)) (snd r)).

Definition apply_withdrawal (p : ExecuteWithdrawalPayload) : Op (ABCIApplication W) (ExecTxResult TxData) :=
  let! decoded := lift (decodeExecuteWithdrawalPayload p) in
  let '(payload, amount, signature) := decoded in
  (if (0 <? WdHeight payload)%N then on_app (App.SetCurrentHeight (WdHeight payload)) else ret tt) ;;;
  let! withdrawal := on_app (App.ExecuteWithdrawal (WdOwnerAddress payload) (WdAssetID payload) (Some amount)
                       (WdRecipient payload) (WdDeadline payload) signature) in
  ret (success (WithdrawalData withdrawal) []).

Definition apply_funding (p : FundAccountPayload) : Op (ABCIApplication W) (ExecTxResult TxData) :=
  let! chain := gets chainApp in
  throw_if (bool_decide (chain = None)) (Errorf "fund account requires chain app") ;;;
  let! decoded := lift (decodeFundAccountPayload p) in
  let '(payload, amount) := decoded in
  with_chain tt (let! coin := lift (new_coin (FundDenom payload) amount) in FundAccount (FundAddress payload) coin) ;;;
  ret (success (FundedData (FundAddress payload) (FundDenom payload) (format_int amount)) []).

Definition applyDemoNodeTx (txBytes : tx_bytes) : Op (ABCIApplication W) (ExecTxResult TxData) :=
  let! tx := lift (decodeDemoNodeTx txBytes) in
  if decide (Type_ tx = "queue_deposit_claim"%string) then
    let! p := some_or (TxQueueDepositClaim tx) nil_dereference in apply_queue p
  else if decide (Type_ tx = "initiate_ibc_transfer"%string) then
    let! p := some_or (TxInitiateIBCTransfer tx) nil_dereference in apply_transfer p
  else if decide (Type_ tx = "execute_withdrawal"%string) then
    let! p := some_or (TxExecuteWithdrawal tx) nil_dereference in apply_withdrawal p
  else if decide (Type_ tx = "fund_account"%string) then
    let! p := some_or (TxFundAccount tx) nil_dereference in apply_funding p
  else throw (Errorf ("unsupported demo node tx type " +:+ Quote (Type_ tx))).

(** ** Blocks *)

Definition sync_applied (balance : AppliedClaimBalance) : Op (ABCIApplication W) unit :=
  match SetString10 (TrimSpace (AppliedAmount balance)) with
  | None => throw (Errorf ("invalid applied claim balance amount " +:+ Quote (AppliedAmount balance)))
  | Some amount =>
      with_chain tt (let! coin := lift (new_coin (AppliedDenom balance) amount) in
        annotated ("sync claim balance for " +:+ AppliedAddress balance +:+ "/" +:+ AppliedDenom balance)
          (SyncAccountBalance (AppliedAddress balance) coin))
  end.

Definition advanceAppAndSyncChain : Op (ABCIApplication W) unit :=
  let! progress := on_app (fun a => let '(p, a') := App.AdvanceBlock a in (Ok p, a')) in
  let! chain := gets chainApp in
  match chain with
  | None => ret tt
  | Some _ => for_each sync_applied (AppliedClaimBalances progress)
  end.

Fixpoint advance_until (fuel : nat) (targetHeight : N) : Op (ABCIApplication W) unit :=
  match fuel with
  | O => ret tt
  | S fuel =>
      let! height := gets CurrentHeight in
      if (height <? targetHeight)%N then advanceAppAndSyncChain ;;; advance_until fuel targetHeight
      else ret tt
  end.

(** An error of a transaction is its result; a panic is not. *)
Definition run_tx (tx : tx_bytes) : Op (ABCIApplication W) (ExecTxResult TxData) :=
  let! r := recovered (applyDemoNodeTx tx) in
  ret (match r with Ok result => result | Err e => mk_tx_result 1 (error_text e) None [] end).

Fixpoint run_txs (txs : list tx_bytes) : Op (ABCIApplication W) (list (ExecTxResult TxData)) :=
  match txs with
  | [] => ret []
  | tx :: rest => let! r := run_tx tx in let! rs := run_txs rest in ret (r :: rs)
  end.

Definition uint64_of_int64 (h : Z) : N := Z.to_N (h mod Z.of_N two64).

Definition finalize_base (req : RequestFinalizeBlock) : Op (ABCIApplication W) ResponseFinalizeBlock :=
  let! resp := with_chain (mk_base_response [] EmptyString) (base_FinalizeBlock (ReqHeight req) (ReqTxs req)) in
  let! pending := gets pendingBaseAppCommit in
  modify (fun n => set_hash (ChainHash (BaseAppHash resp)) (set_flags true pending n)) ;;;
  (if (0 <? ReqHeight req)%Z then on_app (App.SetCurrentHeight (uint64_of_int64 (ReqHeight req))) else ret tt) ;;;
  ret (mk_response (ChainHash (BaseAppHash resp)) (map from_base (BaseTxResults resp))).

(** The chain follows with an empty block when it is exactly one behind. *)
Definition follow_base (req : RequestFinalizeBlock) : Op (ABCIApplication W) unit :=
  let! chain := gets chainApp in
  match chain with
  | None => ret tt
  | Some w =>
      if (0 <? ReqHeight req)%Z && (LastBlockHeight w + 1 =? ReqHeight req)%Z then
        let! resp := with_chain (mk_base_response [] EmptyString) (base_FinalizeBlock (ReqHeight req) []) in
        modify (set_flags true true) ;;;
        if decide (BaseAppHash resp = EmptyString) then ret tt
        else modify (set_hash (ChainHash (BaseAppHash resp)))
      else ret tt
  end.

Definition advance_to (targetHeight current : N) : Op (ABCIApplication W) unit :=
  if N.eqb targetHeight 0 then advanceAppAndSyncChain
  else if (current <? targetHeight)%N
  then let! height := gets CurrentHeight in advance_until (N.to_nat (targetHeight - height)) targetHeight
  else ret tt.

Definition finalize_demo (req : RequestFinalizeBlock) : Op (ABCIApplication W) ResponseFinalizeBlock :=
  modify (set_flags false false) ;;;
  let! current := gets CurrentHeight in
  let! txResults := run_txs (ReqTxs req) in
  follow_base req ;;;
  advance_to (uint64_of_int64 (ReqHeight req)) current ;;;
  modify (fun n => if pendingBaseAppCommit n then n else set_hash (StatusHash (AppStatus_of (app n))) n) ;;;
  let! hash := gets appHash in
  ret (mk_response hash txResults).

Definition is_demo (tx : tx_bytes) : bool := is_ok (decodeDemoNodeTx tx).

Definition mixed_result : ExecTxResult TxData :=
  mk_tx_result 1 "mixed demo-node and sdk txs are not supported in the same block" None [].

Definition FinalizeBlock (req : RequestFinalizeBlock) : Op (ABCIApplication W) ResponseFinalizeBlock :=
  let hasDemoTx := existsb is_demo (ReqTxs req) in
  let hasSDKTx := existsb (fun tx => negb (is_demo tx)) (ReqTxs req) in
  if hasDemoTx && hasSDKTx then ret (mk_response NoHash [mixed_result])
  else
    let! chain := gets chainApp in
    if negb hasDemoTx && bool_decide (is_Some chain) then finalize_base req
    else finalize_demo req.

Definition Commit : Op (ABCIApplication W) unit :=
  on_app App.Save ;;;
  let! last := gets lastFinalizeUsedBaseApp in
  let! chain := gets chainApp in
  match chain with
  | Some _ =>
      if last then
        with_chain tt base_Commit ;;;
        modify (set_flags false false) ;;;
        modify (fun n => match chainApp n with Some w => set_hash (ChainHash (LastCommitHash w)) n | None => n end)
      else ret tt
  | None => ret tt
  end.

Definition CheckTx (tx : tx_bytes) : Op (ABCIApplication W) (N * string) :=
  if is_demo tx then ret (0%N, EmptyString)
  else with_chain (1%N, "unsupported tx format"%string) (base_CheckTx tx).

(** ** Queries, for the paths the node answers itself *)

Inductive QueryValue :=
| StatusValue (s : AppStatus)
| SummaryValue (s : SummaryView)
| BalancesValue (l : list BalanceRecord)
| TransfersValue (l : list TransferView)
| WithdrawalsValue (l : list WithdrawalRecord)
| ClaimValue (r : ClaimRecordSnapshot).

(** The data of a request: text, or the document of a range of heights. *)
Inductive QueryData :=
| QueryText (s : string)
| QueryHeights (fromHeight toHeight : N).

Definition query_text (d : QueryData) : string := match d with QueryText s => s | QueryHeights _ _ => EmptyString end.
Definition transfer_le (x y : TransferRecord) : Prop := String.le (TransferID x) (TransferID y).
#[local] Instance transfer_le_dec x y : Decision (transfer_le x y).
Proof. unfold transfer_le. apply _. Defined.

(** [None]: the path is left to the chain. *)
Definition Query (path : string) (data : QueryData) (n : ABCIApplication W) : option (result QueryValue) :=
  let a := app n in
  let path := TrimSpace path in
  let text := TrimSpace (query_text data) in
  if decide (path = "/status"%string) then Some (Ok (StatusValue (AppStatus_of a)))
  else if decide (path = "/summary"%string) then Some (Ok (SummaryValue (summaryViewFromApp a)))
  else if decide (path = "/balances"%string) then
    Some (if decide (text = EmptyString) then Err (Errorf "missing balance query address")
          else let? balances := App.WalletBalances a text in Ok (BalancesValue balances))
  else if decide (path = "/transfers"%string) then
    Some (Ok (TransfersValue (transferViewsFromRecords (merge_sort transfer_le (ExportTransfers (IBCRouterKeeper a))))))
  else if decide (path = "/withdrawals"%string) then
    let query := match data with
                 | QueryHeights fromHeight toHeight => Ok (fromHeight, toHeight)
                 | QueryText t => if decide (t = EmptyString) then Ok (0%N, 0%N)
                                  else Err (Errorf "decode withdrawals query: invalid JSON document")
                 end in
    Some (let? range := query in Ok (WithdrawalsValue (App.Withdrawals a (fst range) (snd range))))
  else if decide (path = "/claim"%string) then
    Some (if decide (text = EmptyString) then Err (Errorf "missing claim query message id")
          else match App.GetClaim a text with
               | None => Err (Errorf "claim not found")
               | Some record => Ok (ClaimValue record)
               end)
  else None.
End node.

(** ** The wallets behind the blocks *)

Section wallets.
Context {W : Type} `{CosmosSDK W} `{MapIteration} `{Crypto} `{AddressCodec}.

Abbreviation Node := (ABCIApplication W).

Lemma on_app_run {A} (m : Op App A) (n : Node) :
  on_app m n = (fst (m (app n)), set_app (snd (m (app n))) n).
Proof. unfold on_app, zoom. by destruct (m (app n)). Qed.

Lemma with_chain_app {A} (none : A) (m : Op W A) (n : Node) : app (snd (with_chain none m n)) = app n.
Proof. unfold with_chain. destruct (chainApp n) as [w|]; [|done]. by destruct (m w). Qed.

Lemma recovered_state {St A} (m : Op St A) s : snd (recovered m s) = snd (m s).
Proof. unfold recovered. destruct (m s) as [[a|e] s']; [done|]. by destruct (is_panic e). Qed.

Lemma recovered_cases {St A} (m : Op St A) s :
  (exists e, m s = (Err e, snd (m s)) /\ is_panic e = true /\ recovered m s = (Err e, snd (m s))) \/
  recovered m s = (Ok (fst (m s)), snd (m s)).
Proof.
  unfold recovered. destruct (m s) as [[a|e] s']; [by right|]. destruct (is_panic e) eqn:He; [left|by right].
  exists e. by split.
Qed.

(** The escrow only grows. *)
Definition escrow_le (e e' : string -> Z) : Prop := forall d, (e d <= e' d)%Z.

#[global] Instance escrow_le_preorder : PreOrder escrow_le.
Proof. split; [intros e d; lia|]. intros e1 e2 e3 H12 H23 d. specialize (H12 d). specialize (H23 d). lia. Qed.

Lemma add_escrow_le denom v e : (0 <= v)%Z -> escrow_le e (add_escrow denom v e).
Proof. intros Hv d. unfold add_escrow. case_decide; lia. Qed.

(** *** Transfers *)

Lemma give_back_app sender denom amount pre (n : Node) :
  app (snd (give_back sender denom amount pre n)) =
    if decide (sender = EmptyString) then app n
    else snd (App.CreditWallet sender denom (Some amount) (app n)).
Proof.
  unfold give_back. case_decide; [done|]. unfold bind.
  destruct (recovered_cases (on_app (App.CreditWallet sender denom (Some amount))) n) as [(e & _ & _ & ->)| ->];
    rewrite on_app_run; cbn [fst snd]; [done|].
  match goal with |- context [recovered ?m ?s] =>
    pose proof (recovered_state m s) as Hs; pose proof (with_chain_app tt (sync_coin sender denom pre) s) as Hw;
    rewrite <- Hs in Hw; destruct (recovered m s) as [[r|e] n2]; exact Hw end.
Qed.

Lemma charge_sender_cases sender denom amount pre escrow (n : Node) :
  good escrow (app n) -> trimmed sender -> sender <> EmptyString ->
  match charge_sender sender denom amount pre n with
  | (Ok _, n') =>
      (0 < amount)%Z /\ TrimSpace denom <> EmptyString /\
      (amount <= bal (balances (BankKeeper (app n))) sender (TrimSpace denom))%Z /\
      good (add_escrow denom amount escrow) (app n') /\ app n' = set_bank (BankKeeper (app n')) (app n) /\
      forall x d, bal (balances (BankKeeper (app n'))) x d =
        (bal (balances (BankKeeper (app n))) x d - if decide (sender = x /\ TrimSpace denom = d) then amount else 0)%Z
  | (Err _, n') => app n' = app n
  end.
Proof.
  intros Hg Htrim Hne. unfold charge_sender. rewrite decide_False by done. unfold throw_if.
  destruct (pre <? amount)%Z; [done|]. rewrite bind_run. cbn [ret fst snd]. rewrite bind_run.
  pose proof (with_chain_app tt (sync_coin sender denom pre) n) as Hw.
  destruct (with_chain tt _ n) as [[r|e] n1]; cbn [fst snd] in *; [|done].
  rewrite on_app_run, Hw. pose proof (debit_good escrow sender denom amount (app n) Hg) as Hdebit.
  rewrite Htrim in Hdebit.
  destruct (App.DebitWallet sender denom (Some amount) (app n)) as [[[]|e] a']; cbn [fst snd set_app app]; [|by subst].
  destruct Hdebit as (H1' & _ & H3' & H4' & H5' & H6' & H7'). by split_and!.
Qed.

(** The router and the wallets do not see each other. *)
Lemma initiate_transfer_app payload amount a :
  snd (initiate_transfer payload amount a) =
    set_router (IBCRouterKeeper (snd (initiate_transfer payload amount a))) a.
Proof.
  unfold initiate_transfer. case_match; unfold App.InitiateIBCTransfer, App.InitiateIBCTransferWithProfile;
    by rewrite on_router_run.
Qed.
Lemma fail_transfer_app id reason a :
  snd (App.FailIBCTransfer id reason a) = set_router (IBCRouterKeeper (snd (App.FailIBCTransfer id reason a))) a.
Proof. unfold App.FailIBCTransfer. by rewrite on_router_run. Qed.

Lemma good_set_router escrow r a : good escrow a -> good escrow (set_router r a).
Proof. intros Hg. apply (good_update _ a); try done; [apply denoms_kept_refl|apply Hg|apply Hg]. Qed.

(** Two applications that differ in the router only, up to the wallets' maps. *)
Definition same_money (a b : App) : Prop :=
  BridgeKeeper b = BridgeKeeper a /\
  forall x d, bal (balances (BankKeeper b)) x d = bal (balances (BankKeeper a)) x d.

(** Giving back undoes the charge. *)
Lemma charged_given_back sender denom amount pre escrow (a : App) (n : Node) :
  trimmed sender -> sender <> EmptyString -> TrimSpace denom <> EmptyString -> (0 < amount)%Z ->
  good (add_escrow denom amount escrow) (app n) -> BridgeKeeper (app n) = BridgeKeeper a ->
  (forall x d, bal (balances (BankKeeper (app n))) x d =
     (bal (balances (BankKeeper a)) x d - if decide (sender = x /\ TrimSpace denom = d) then amount else 0)%Z) ->
  good escrow (app (snd (give_back sender denom amount pre n))) /\
  same_money a (app (snd (give_back sender denom amount pre n))).
Proof.
  intros Htrim Hne Hd Hv Hg Hbridge Hbal. rewrite give_back_app, decide_False by done.
  destruct (credit_good escrow sender denom amount (app n) Hg) as (bank' & -> & Hg' & Hbal'); [by rewrite Htrim|done..|].
  split; [exact Hg'|]. split; [exact Hbridge|]. intros x d. cbn [set_bank BankKeeper snd]. rewrite Hbal', Hbal, Htrim.
  destruct (decide _); lia.
Qed.

(** What is left of a charge of [a] when the transfer is over. *)
Definition refunded (escrow : string -> Z) (denom : string) (amount : Z) (a : App) (e : error) (n' : Node) : Prop :=
  (is_panic e = true /\ good (add_escrow denom amount escrow) (app n')) \/
  (good escrow (app n') /\ same_money a (app n')).

Lemma failed_after_refund {A} id reason err escrow denom amount (a : App) (n : Node) (r : res error A) n' :
  good escrow (app n) -> same_money a (app n) ->
  (let! failed := recovered (on_app (App.FailIBCTransfer id reason)) in
   match failed with
   | Ok _ => throw err
   | Err failErr => throw (Errorf ("execute localhost transfer: " +:+ error_text err +:+
                      " (also failed to mark transfer failed: " +:+ error_text failErr +:+ ")"))
   end) n = (r, n') ->
  exists e, r = Err e /\ refunded escrow denom amount a e n'.
Proof.
  intros Hg Hsame Hrun. unfold bind in Hrun.
  pose proof (recovered_state (on_app (App.FailIBCTransfer id reason)) n) as Hstate.
  assert (Hrun' : snd (on_app (App.FailIBCTransfer id reason) n) = set_app (snd (App.FailIBCTransfer id reason (app n))) n)
    by (by rewrite on_app_run). rewrite Hrun' in Hstate.
  destruct (recovered (on_app (App.FailIBCTransfer id reason)) n) as [[failed|e] n1]; cbn [snd] in Hstate; subst n1.
  - assert (Hend : good escrow (app (set_app (snd (App.FailIBCTransfer id reason (app n))) n)) /\
      same_money a (app (set_app (snd (App.FailIBCTransfer id reason (app n))) n))).
    { cbn [app set_app]. rewrite fail_transfer_app. split; [by apply good_set_router|exact Hsame]. }
    destruct failed; unfold throw in Hrun; injection Hrun as <- <-; eexists; (split; [reflexivity|]); right; exact Hend.
  - injection Hrun as <- <-. exists e. split; [done|]. right. cbn [app set_app]. rewrite fail_transfer_app.
    split; [by apply good_set_router|exact Hsame].
Qed.

Lemma transfer_paid_cases sender denom amount pre payload escrow (a : App) (n : Node) :
  trimmed sender -> sender <> EmptyString -> TrimSpace denom <> EmptyString -> (0 < amount)%Z ->
  good (add_escrow denom amount escrow) (app n) -> BridgeKeeper (app n) = BridgeKeeper a ->
  (forall x d, bal (balances (BankKeeper (app n))) x d =
     (bal (balances (BankKeeper a)) x d - if decide (sender = x /\ TrimSpace denom = d) then amount else 0)%Z) ->
  match transfer_paid sender denom amount pre payload n with
  | (Ok _, n') => good (add_escrow denom amount escrow) (app n') /\ BridgeKeeper (app n') = BridgeKeeper a /\
      BankKeeper (app n') = BankKeeper (app n)
  | (Err e, n') => refunded escrow denom amount a e n'
  end.
Proof.
  intros Htrim Hne Hd Hv Hg Hbridge Hbal. unfold transfer_paid.
  assert (Hback : forall n1 : Node, good (add_escrow denom amount escrow) (app n1) ->
    BridgeKeeper (app n1) = BridgeKeeper a -> BankKeeper (app n1) = BankKeeper (app n) ->
    good escrow (app (snd (give_back sender denom amount pre n1))) /\
    same_money a (app (snd (give_back sender denom amount pre n1)))).
  { intros n1 Hg1 Hbr1 Hbk1. apply (charged_given_back _ _ _ _ _ a); try done. by rewrite Hbk1. }
  rewrite bind_run.
  destruct (recovered_cases (on_app (initiate_transfer payload amount)) n) as [(e & Hm & Hp & ->)| ->];
    rewrite on_app_run; cbn [fst snd].
  { left. split; [done|]. cbn [app set_app]. rewrite initiate_transfer_app. by apply good_set_router. }
  set (n1 := set_app _ n).
  assert (Hg1 : good (add_escrow denom amount escrow) (app n1) /\ BridgeKeeper (app n1) = BridgeKeeper a /\
    BankKeeper (app n1) = BankKeeper (app n)).
  { unfold n1. cbn [app set_app]. rewrite initiate_transfer_app. split_and!; [by apply good_set_router|done|done]. }
  destruct Hg1 as (Hg1 & Hbr1 & Hbk1). clearbody n1.
  destruct (fst (initiate_transfer payload amount (app n))) as [transfer|err].
  2: { rewrite bind_run. destruct (Hback n1 Hg1 Hbr1 Hbk1) as [Hg2 Hs2].
       destruct (give_back _ _ _ _ n1) as [[r|e] n2]; cbn [fst snd throw] in *; by right. }
  rewrite bind_run.
  match goal with |- context [recovered ?m n1] =>
    destruct (recovered_cases m n1) as [(e & _ & Hp & ->)| ->]; pose proof (recovered_state m n1) as Hst end;
    cbn [fst snd]; pose proof (with_chain_app [] (localhost_transfer sender denom amount payload transfer) n1) as Hw.
  { left. by rewrite Hw. }
  set (n2 := snd (with_chain _ _ n1)) in *. clearbody n2. rewrite <- Hw in Hg1, Hbr1, Hbk1.
  destruct (fst (with_chain _ _ n1)) as [events|err]; [done|].
  rewrite bind_run. destruct (Hback n2 Hg1 Hbr1 Hbk1) as [Hg3 Hs3].
  destruct (give_back _ _ _ _ n2) as [[r|e] n3]; cbn [fst snd] in *; [|by right].
  match goal with |- match ?m n3 with _ => _ end => destruct (m n3) as [r' n4] eqn:Hrun end.
  destruct (failed_after_refund _ _ _ escrow denom amount a n3 r' n4 Hg3 Hs3 Hrun) as (e & -> & Hend). exact Hend.
Qed.
End wallets.

(** ** Blocks *)

(** Methods that keep the books, with no less in escrow, and move the
    application only as [R] allows. *)
Section keeps.
Context {W : Type} `{CosmosSDK W} `{MapIteration} `{Crypto} `{AddressCodec}.
Context (R : App -> App -> Prop) `{!PreOrder R}.

Abbreviation Node := (ABCIApplication W).

Definition keeps {A} (m : Op Node A) : Prop :=
  forall escrow n, good escrow (app n) ->
    (exists escrow', escrow_le escrow escrow' /\ good escrow' (app (snd (m n)))) /\ R (app n) (app (snd (m n))).

Lemma keeps_same {A} (m : Op Node A) : (forall n, app (snd (m n)) = app n) -> keeps m.
Proof. intros Hm escrow n Hg. rewrite Hm. split; [by exists escrow|done]. Qed.

Lemma keeps_bind {A B} (m : Op Node A) (f : A -> Op Node B) :
  keeps m -> (forall a, keeps (f a)) -> keeps (bind m f).
Proof.
  intros Hm Hf escrow n Hg. destruct (Hm escrow n Hg) as [(e1 & Hle & Hg1) Hr]. unfold bind.
  destruct (m n) as [[a|e] n1]; cbn [snd] in *; [|split; [by exists e1|done]].
  destruct (Hf a e1 n1 Hg1) as [(e2 & Hle2 & Hg2) Hr2]. split; [|by etrans].
  exists e2. split; [by etrans|done].
Qed.

Lemma keeps_recovered {A} (m : Op Node A) : keeps m -> keeps (recovered m).
Proof. intros Hm escrow n. rewrite recovered_state. apply Hm. Qed.
Lemma keeps_ret {A} (a : A) : keeps (ret a).
Proof. by apply keeps_same. Qed.
Lemma keeps_throw {A} e : keeps (throw (A:=A) e).
Proof. by apply keeps_same. Qed.
Lemma keeps_throw_if b e : keeps (throw_if b e).
Proof. apply keeps_same. by destruct b. Qed.
Lemma keeps_gets {A} (f : Node -> A) : keeps (gets f).
Proof. by apply keeps_same. Qed.
Lemma keeps_lift {A} (r : result A) : keeps (lift r).
Proof. by apply keeps_same. Qed.
Lemma keeps_some_or {A} (o : option A) e : keeps (some_or o e).
Proof. apply keeps_same. by destruct o. Qed.
Lemma keeps_modify f : (forall n, app (f n) = app n) -> keeps (modify f).
Proof. intros Hf. by apply keeps_same. Qed.
Lemma keeps_chain {A} (none : A) m : keeps (with_chain none m).
Proof. apply keeps_same, with_chain_app. Qed.
Lemma keeps_for_each {A} (f : A -> Op Node unit) l : (forall x, keeps (f x)) -> keeps (for_each f l).
Proof. intros Hf. induction l; cbn [for_each]; [apply keeps_ret|]. apply keeps_bind; [done|]. intros _. exact IHl. Qed.
Lemma keeps_action act {A} (m : Op App A) :
  (forall a, snd (m a) = exec_app act a) -> (forall escrow a, good escrow a -> R a (exec_app act a)) -> keeps (on_app m).
Proof.
  intros Hm Hr escrow n Hg. rewrite on_app_run. cbn [snd set_app app]. rewrite Hm.
  split; [|by eapply Hr]. exists escrow. split; [done|]. by apply good_exec.
Qed.

Ltac keeps_step := first
  [ apply keeps_bind; [|intros ?] | apply keeps_ret | apply keeps_throw | apply keeps_throw_if | apply keeps_gets
  | apply keeps_lift | apply keeps_some_or | apply keeps_chain | apply keeps_recovered ].
Ltac keeps_auto := repeat (keeps_step || (case_match; simplify_eq/=)).

Hypothesis R_bridge : forall a b, BridgeKeeper b = BridgeKeeper a -> R a b.
Hypothesis R_withdraw : forall escrow a owner id amount recipient deadline signature, good escrow a ->
  R a (snd (App.ExecuteWithdrawal owner id amount recipient deadline signature a)).

Lemma keeps_router {A} (m : Op App A) : (forall a, snd (m a) = set_router (IBCRouterKeeper (snd (m a))) a) -> keeps (on_app m).
Proof.
  intros Hm escrow n Hg. rewrite on_app_run. cbn [snd set_app app]. rewrite Hm.
  split; [|by apply R_bridge]. exists escrow. split; [done|]. by apply good_set_router.
Qed.

Lemma give_back_bridge sender denom amount pre (n : Node) :
  BridgeKeeper (app (snd (give_back sender denom amount pre n))) = BridgeKeeper (app n).
Proof. rewrite give_back_app. case_decide; [done|]. unfold App.CreditWallet. by rewrite on_bank_run. Qed.

Lemma transfer_paid_bridge sender denom amount pre payload (n : Node) :
  BridgeKeeper (app (snd (transfer_paid sender denom amount pre payload n))) = BridgeKeeper (app n).
Proof.
  set (bridge := fun n : Node => BridgeKeeper (app n)).
  change (bridge (snd (transfer_paid sender denom amount pre payload n)) = bridge n).
  assert (Hbind : forall {A B} (m : Op Node A) (f : A -> Op Node B) n,
    bridge (snd (m n)) = bridge n -> (forall a n, bridge (snd (f a n)) = bridge n) -> bridge (snd (bind m f n)) = bridge n).
  { intros A B m f n0 Hm Hf. unfold bind. destruct (m n0) as [[a|e] n1]; cbn [snd] in *; [|done]. by rewrite Hf. }
  assert (Hrouter : forall {A} (m : Op App A) n, (forall a, snd (m a) = set_router (IBCRouterKeeper (snd (m a))) a) ->
    bridge (snd (recovered (on_app m) n)) = bridge n).
  { intros A m n0 Hm. rewrite recovered_state, on_app_run. unfold bridge. cbn [snd set_app app]. by rewrite Hm. }
  unfold transfer_paid. apply Hbind; [apply Hrouter; apply initiate_transfer_app|]. intros initiated n1.
  destruct initiated as [transfer|err]; [|apply Hbind; [apply give_back_bridge|done]].
  apply Hbind; [rewrite recovered_state; unfold bridge; by rewrite with_chain_app|]. intros executed n2.
  destruct executed as [events|err]; [done|]. apply Hbind; [apply give_back_bridge|]. intros _ n3.
  apply Hbind; [apply Hrouter; apply fail_transfer_app|]. intros failed n4. by destruct failed.
Qed.

Lemma keeps_transfer payload amount : keeps (applyIBCTransferPayload payload amount).
Proof.
  unfold applyIBCTransferPayload. cbv zeta. repeat (apply keeps_bind; [keeps_step|intros ?]).
  destruct (decide (TrimSpace (IbcSender payload) = EmptyString)) as [Hempty|Hne].
  - unfold charge_sender, transfer_paid, give_back. rewrite !(decide_True (P := TrimSpace _ = EmptyString)) by done.
    keeps_auto; apply keeps_router; [apply initiate_transfer_app|apply fail_transfer_app].
  - intros escrow n Hg. rename a0 into asset. rename a1 into pre. unfold bind.
    pose proof (charge_sender_cases _ (Denom asset) amount pre escrow n Hg (TrimSpace_trimmed _) Hne) as Hcharge.
    destruct (charge_sender _ _ _ _ n) as [[r|e] n1]; cbn [snd].
    2: { rewrite Hcharge. split; [by exists escrow|done]. }
    destruct Hcharge as (Hv & Hd & Hle & Hg1 & Hset & Hbal).
    pose proof (transfer_paid_bridge (TrimSpace (IbcSender payload)) (Denom asset) amount pre payload n1) as Hbr.
    pose proof (transfer_paid_cases _ _ _ pre payload escrow (app n) n1 (TrimSpace_trimmed _) Hne Hd Hv Hg1) as Hpaid.
    split; [|apply R_bridge; rewrite Hbr; by rewrite Hset].
    destruct (transfer_paid _ _ _ _ _ n1) as [[t|e] n2]; cbn [snd] in *.
    + destruct Hpaid as (Hg2 & _); [by rewrite Hset|exact Hbal|]. eexists. split; [|exact Hg2]. apply add_escrow_le. lia.
    + destruct Hpaid as [[_ Hg2]|[Hg2 _]]; [by rewrite Hset|exact Hbal| |by exists escrow].
      eexists. split; [|exact Hg2]. apply add_escrow_le. lia.
Qed.

Lemma keeps_lift_bind {A B} (r : result A) (f : A -> Op Node B) :
  (forall a, r = Ok a -> keeps (f a)) -> keeps (bind (lift r) f).
Proof. intros Hf. destruct r as [a|e]; [exact (Hf a eq_refl)|by apply keeps_same]. Qed.

(** A transaction sets the height only where [R] allows it. *)
Definition height_allowed (h : N) : Prop :=
  h = 0%N \/ forall escrow a, good escrow a -> R a (exec_app (AppSetHeight h) a).

Lemma decoded_height p q amount signature :
  decodeExecuteWithdrawalPayload p = Ok (q, amount, signature) -> WdHeight q = WdHeight p.
Proof.
  unfold decodeExecuteWithdrawalPayload. intros Hp. decoded. apply res_bind_ok_inv in Hp as (v & _ & Hp).
  case_match; by simplify_eq.
Qed.

Lemma keeps_withdrawal p : height_allowed (WdHeight p) -> keeps (apply_withdrawal p).
Proof.
  intros Hheight. unfold apply_withdrawal. apply keeps_lift_bind. intros [[q amount] signature] Hp.
  apply decoded_height in Hp. apply keeps_bind.
  - destruct (N.ltb_spec 0 (WdHeight q)) as [Hpos|_]; [|apply keeps_ret].
    apply (keeps_action (AppSetHeight (WdHeight q))); [done|]. rewrite Hp in *. destruct Hheight as [Hz|Hall]; [lia|done].
  - intros _. apply keeps_bind; [|intros; apply keeps_ret].
    apply (keeps_action (AppWithdraw (WdOwnerAddress q) (WdAssetID q) (Some amount) (WdRecipient q)
      (WdDeadline q) signature)); [done|]. intros escrow a Hg. by apply (R_withdraw escrow).
Qed.

Definition tx_height_allowed (tx : tx_bytes) : Prop :=
  forall d p, tx = TxJSON d -> TxExecuteWithdrawal d = Some p -> height_allowed (WdHeight p).

Lemma decoded_json tx d : decodeDemoNodeTx tx = Ok d -> tx = TxJSON d.
Proof.
  destruct tx as [d'|bytes]; [|done]. cbn [decodeDemoNodeTx].
  repeat case_decide; repeat case_match; try done; intros (? & _ & [= <-])%res_bind_ok_inv; done.
Qed.

Lemma keeps_some_bind {A B} (o : option A) e (f : A -> Op Node B) :
  (forall a, o = Some a -> keeps (f a)) -> keeps (bind (some_or o e) f).
Proof. intros Hf. destruct o as [a|]; [exact (Hf a eq_refl)|by apply keeps_same]. Qed.

Lemma keeps_queue p : keeps (apply_queue p).
Proof.
  unfold apply_queue. apply keeps_bind; [keeps_step|]. intros [claim attestation].
  apply keeps_bind; [|intros; apply keeps_ret]. apply (keeps_action (AppQueue claim attestation)); [done|].
  intros escrow a Hg. apply R_bridge. unfold exec_app, App.QueueDepositClaim, bind, lift, gets, modify.
  destruct (deposit_ValidateBasic claim); [|done]. destruct (attestation_ValidateBasic attestation); [|done].
  by destruct (Bank.NormalizeAddress (Recipient claim)).
Qed.

Lemma keeps_apply tx : tx_height_allowed tx -> keeps (applyDemoNodeTx tx).
Proof.
  intros Hheight. unfold applyDemoNodeTx. apply keeps_lift_bind. intros d Hd%decoded_json.
  repeat case_decide; [..|apply keeps_throw]; apply keeps_some_bind; intros p Hp.
  - apply keeps_queue.
  - unfold apply_transfer. apply keeps_bind; [keeps_step|]. intros [payload amount].
    apply keeps_bind; [apply keeps_transfer|intros; apply keeps_ret].
  - by eapply keeps_withdrawal, Hheight.
  - unfold apply_funding. keeps_auto.
Qed.

Lemma keeps_tx tx : tx_height_allowed tx -> keeps (run_tx tx).
Proof.
  intros Hheight. unfold run_tx. apply keeps_bind; [by apply keeps_recovered, keeps_apply|intros; apply keeps_ret].
Qed.

Lemma keeps_txs txs : Forall tx_height_allowed txs -> keeps (run_txs txs).
Proof.
  induction 1 as [|tx txs Htx _ IH]; cbn [run_txs]; [apply keeps_ret|].
  apply keeps_bind; [by apply keeps_tx|]. intros r. apply keeps_bind; [exact IH|intros; apply keeps_ret].
Qed.

Lemma keeps_follow req : keeps (follow_base req).
Proof.
  unfold follow_base. keeps_auto; by apply keeps_modify.
Qed.
End keeps.

(** Any movement of the application, and none of the height. *)
Definition anywhere (a b : App) : Prop := True.
#[local] Instance anywhere_preorder : PreOrder anywhere.
Proof. by split. Qed.
Definition same_height (a b : App) : Prop := currentHeight (BridgeKeeper b) = currentHeight (BridgeKeeper a).
#[local] Instance same_height_preorder : PreOrder same_height.
Proof. split; [by intros a|]. intros a b c Hab Hbc. unfold same_height in *. congruence. Qed.

Section blocks.
Context {W : Type} `{CosmosSDK W} `{MapIteration} `{Crypto} `{AddressCodec}.

Abbreviation Node := (ABCIApplication W).

Lemma keeps_advance : keeps anywhere (advanceAppAndSyncChain (W:=W)).
Proof.
  unfold advanceAppAndSyncChain. apply (keeps_bind anywhere); [apply (keeps_action anywhere AppAdvance)|].
  - intros a. cbn [exec_app]. by destruct (App.AdvanceBlock a).
  - done.
  - intros progress. apply (keeps_bind anywhere); [apply (keeps_gets anywhere)|]. intros [w|]; [|apply (keeps_ret anywhere)].
    apply (keeps_for_each anywhere). intros balance. unfold sync_applied.
    case_match; [apply (keeps_chain anywhere)|apply (keeps_throw anywhere)].
Qed.

Lemma keeps_until fuel target : keeps anywhere (advance_until (W:=W) fuel target).
Proof.
  induction fuel as [|fuel IH]; cbn [advance_until]; [apply (keeps_ret anywhere)|].
  apply (keeps_bind anywhere); [apply (keeps_gets anywhere)|]. intros height. case_match; [|apply (keeps_ret anywhere)].
  apply (keeps_bind anywhere); [apply keeps_advance|]. intros _. exact IH.
Qed.

Lemma all_heights_allowed txs : Forall (tx_height_allowed anywhere) txs.
Proof. apply Forall_forall. intros tx _ d p _ _. by right. Qed.

Lemma keeps_finalize req : keeps anywhere (FinalizeBlock (W:=W) req).
Proof.
  assert (Hbind : forall {A B} (m : Op Node A) (f : A -> Op Node B),
    keeps anywhere m -> (forall a, keeps anywhere (f a)) -> keeps anywhere (bind m f)) by (intros; by apply (keeps_bind anywhere)).
  assert (Hmodify : forall f, (forall n : Node, app (f n) = app n) -> keeps anywhere (modify f))
    by (intros; by apply (keeps_modify anywhere)).
  assert (Hret : forall {A} (a : A), keeps anywhere (ret (St:=Node) a)) by (intros; by apply (keeps_ret anywhere)).
  assert (Hgets : forall {A} (f : Node -> A), keeps anywhere (gets f)) by (intros; by apply (keeps_gets anywhere)).
  unfold FinalizeBlock. cbv zeta. case_match; [apply Hret|]. apply Hbind; [apply Hgets|]. intros chain.
  case_match.
  - unfold finalize_base. apply Hbind; [apply (keeps_chain anywhere)|]. intros resp. apply Hbind; [apply Hgets|]. intros pending.
    apply Hbind; [by apply Hmodify|]. intros _. apply Hbind; [|intros; apply Hret].
    case_match; [|apply Hret]. by apply (keeps_action anywhere (AppSetHeight (uint64_of_int64 (ReqHeight req)))).
  - unfold finalize_demo. apply Hbind; [by apply Hmodify|]. intros _. apply Hbind; [apply Hgets|]. intros current.
    apply Hbind; [apply (keeps_txs anywhere); try done; apply all_heights_allowed|]. intros results.
    apply Hbind; [apply (keeps_follow anywhere)|]. intros _. apply Hbind.
    + unfold advance_to. case_match; [apply keeps_advance|]. case_match; [|apply Hret].
      apply Hbind; [apply Hgets|]. intros height. apply keeps_until.
    + intros _. apply Hbind; [apply Hmodify; intros n; by destruct (pendingBaseAppCommit n)|]. intros _.
      apply Hbind; [apply Hgets|intros; apply Hret].
Qed.

Lemma keeps_commit : keeps anywhere (Commit (W:=W)).
Proof.
  unfold Commit. apply (keeps_bind anywhere); [by apply (keeps_action anywhere AppSave)|]. intros _.
  apply (keeps_bind anywhere); [apply (keeps_gets anywhere)|]. intros last. apply (keeps_bind anywhere); [apply (keeps_gets anywhere)|].
  intros [w|]; [|apply (keeps_ret anywhere)]. case_match; [|apply (keeps_ret anywhere)].
  apply (keeps_bind anywhere); [apply (keeps_chain anywhere)|]. intros _. apply (keeps_bind anywhere); [by apply (keeps_modify anywhere)|]. intros _.
  apply (keeps_modify anywhere). intros n. by destruct (chainApp n).
Qed.

(** What the consensus engine asks of the node. *)
Inductive node_action :=
| NodeBlock (req : RequestFinalizeBlock)
| NodeCommit
| NodeCheck (tx : tx_bytes).

Definition exec_node (act : node_action) (n : Node) : Node :=
  match act with
  | NodeBlock req => snd (FinalizeBlock req n)
  | NodeCommit => snd (Commit n)
  | NodeCheck tx => snd (CheckTx tx n)
  end.
Fixpoint exec_nodes (acts : list node_action) (n : Node) : Node :=
  match acts with [] => n | act :: rest => exec_nodes rest (exec_node act n) end.

Lemma nodes_good escrow (acts : list node_action) (n : Node) :
  good escrow (app n) -> exists escrow', escrow_le escrow escrow' /\ good escrow' (app (exec_nodes acts n)).
Proof.
  revert escrow n. induction acts as [|act acts IH]; intros escrow n Hg; cbn [exec_nodes]; [by exists escrow|].
  assert (Hkeeps : forall {A} (m : Op Node A), keeps anywhere m ->
    exists e', escrow_le escrow e' /\ good e' (app (snd (m n)))) by (intros A m Hm; exact (proj1 (Hm escrow n Hg))).
  assert (Hone : exists e', escrow_le escrow e' /\ good e' (app (exec_node act n))).
  { destruct act; cbn [exec_node]; apply Hkeeps; [apply keeps_finalize|apply keeps_commit|].
    unfold CheckTx. case_match; [apply (keeps_ret anywhere)|apply (keeps_chain anywhere)]. }
  destruct Hone as (e1 & Hle1 & Hg1). destruct (IH e1 _ Hg1) as (e2 & Hle2 & Hg2). exists e2. split; [by etrans|done].
Qed.

(** The node never lets the wallets hold more than the bridge has minted.
    From a state whose wallets add up to the supply, after any blocks of any
    transactions — claims, withdrawals, transfers that succeed, fail or panic,
    fundings, undecodable bytes — any commits and any checks, the keepers'
    invariants hold and the wallets' total of every denom is at most its supply. *)
Theorem node_solvent (acts : list node_action) (n : Node) :
  app_inv (app n) -> backed (app n) -> persistHook (BankKeeper (app n)) = [] ->
  app_inv (app (exec_nodes acts n)) /\
  forall d, (Bank.total (balances (BankKeeper (app (exec_nodes acts n)))) d <=
             BridgeState.SupplyForDenom (BridgeKeeper (app (exec_nodes acts n))) d)%Z.
Proof.
  intros Hi Hb Hh. destruct (nodes_good (fun _ => 0%Z) acts n) as (escrow & Hle & [Hinv Hback _]).
  { by split; [|apply backed_with_none|]. }
  split; [done|]. intros d. specialize (Hle d). specialize (Hback d). cbn in Hle. lia.
Qed.
(** *** Heights and results *)

Lemma withdraw_height escrow (a : App) owner id amount recipient deadline signature :
  good escrow a -> same_height a (snd (App.ExecuteWithdrawal owner id amount recipient deadline signature a)).
Proof.
  intros Hg. unfold same_height.
  destruct (withdraw_run owner id amount recipient deadline signature a (good_inv _ a Hg)) as [(e & ->)|[->|
    (asset & amt & w & _ & _ & _ & _ & Hrun)]]; [done|done|].
  unfold persist_outcome in Hrun. rewrite (good_hook _ _ Hg) in Hrun. destruct (_ <? _)%Z.
  - destruct Hrun as (a' & -> & Hsame & _). cbn [snd]. by destruct (same_bridge _ _ Hsame) as (_ & -> & _).
  - by destruct Hrun as (bank' & _ & _ & _ & _ & ->).
Qed.

(** A transaction that does not set the height. *)
Definition sets_no_height (tx : tx_bytes) : Prop :=
  forall d p, tx = TxJSON d -> TxExecuteWithdrawal d = Some p -> WdHeight p = 0%N.

Lemma keeps_height_txs txs : Forall sets_no_height txs -> keeps same_height (run_txs (W:=W) txs).
Proof.
  intros Htxs. apply (keeps_txs same_height).
  - intros a b Hb. unfold same_height. by rewrite Hb.
  - intros escrow a *. by apply withdraw_height.
  - eapply Forall_impl; [exact Htxs|]. intros tx Htx d p Hd Hp. left. by eapply Htx.
Qed.

Lemma advance_one escrow (n : Node) :
  good escrow (app n) -> CurrentHeight (snd (advanceAppAndSyncChain n)) = u64_incr (CurrentHeight n).
Proof.
  intros Hg. unfold advanceAppAndSyncChain. rewrite bind_run, on_app_run.
  pose proof (advance_height escrow (app n) Hg) as Hh. destruct (App.AdvanceBlock (app n)) as [progress a']. cbn [fst snd] in *.
  set (n1 := set_app a' n). rewrite gets_bind.
  assert (Hsame : forall l (n2 : Node), app (snd (for_each (sync_applied (W:=W)) l n2)) = app n2).
  { intros l. induction l as [|b l IH]; intros n2; cbn [for_each]; [done|]. unfold bind.
    assert (Hone : app (snd (sync_applied b n2)) = app n2).
    { unfold sync_applied. case_match; [apply with_chain_app|done]. }
    destruct (sync_applied b n2) as [[[]|e] n3]; cbn [snd] in *; [by rewrite IH|done]. }
  unfold CurrentHeight. destruct (chainApp n1); [rewrite Hsame|]; exact Hh.
Qed.

Lemma until_height escrow fuel target (n : Node) :
  good escrow (app n) -> u64_ok target -> (target <= CurrentHeight n + N.of_nat fuel)%N ->
  match advance_until fuel target n with
  | (Ok _, n') => CurrentHeight n' = N.max (CurrentHeight n) target
  | (Err _, _) => True
  end.
Proof.
  intros Hg Hok. revert escrow n Hg. induction fuel as [|fuel IH]; intros escrow n Hg Hfuel; cbn [advance_until].
  { unfold ret. rewrite N.max_l by lia. done. }
  rewrite gets_bind. destruct (N.ltb_spec (CurrentHeight n) target) as [Hlt|Hge]; [|unfold ret; rewrite N.max_l by lia; done].
  pose proof (advance_one escrow n Hg) as Hone. destruct (keeps_advance escrow n Hg) as [(e' & _ & Hg') _].
  unfold bind. destruct (advanceAppAndSyncChain n) as [[[]|e] n1]; cbn [snd] in *; [|done].
  assert (Hstep : CurrentHeight n1 = (CurrentHeight n + 1)%N).
  { rewrite Hone. unfold u64_incr, u64_add, u64. apply N.mod_small. unfold u64_ok in Hok. lia. }
  specialize (IH e' n1 Hg' ltac:(lia)). destruct (advance_until fuel target n1) as [[[]|e] n2]; [|done]. lia.
Qed.

Lemma run_txs_length txs (n : Node) :
  match run_txs txs n with (Ok rs, _) => length rs = length txs | (Err _, _) => True end.
Proof.
  revert n. induction txs as [|tx txs IH]; intros n; cbn [run_txs]; [done|]. unfold bind.
  destruct (run_tx tx n) as [[r|e] n1]; [|done]. specialize (IH n1).
  destruct (run_txs txs n1) as [[rs|e] n2]; [|done]. cbn. by rewrite IH.
Qed.

Lemma uint64_of_int64_ok h : u64_ok (uint64_of_int64 h).
Proof.
  unfold u64_ok, uint64_of_int64. assert (Hb : (0 <= h mod Z.of_N two64 < Z.of_N two64)%Z) by (by apply Z.mod_pos_bound).
  unfold two64 in *. lia.
Qed.

Lemma advance_to_height escrow target current (n : Node) :
  good escrow (app n) -> u64_ok target -> CurrentHeight n = current ->
  match advance_to target current n with
  | (Ok _, n') => CurrentHeight n' = if N.eqb target 0 then u64_incr current else N.max current target
  | (Err _, _) => True
  end.
Proof.
  intros Hg Hok Hcur. unfold advance_to. destruct (N.eqb_spec target 0) as [->|Hne].
  - pose proof (advance_one escrow n Hg) as Hone. destruct (advanceAppAndSyncChain n) as [[[]|e] n']; [|done].
    cbn [snd] in Hone. by rewrite Hone, Hcur.
  - destruct (N.ltb_spec current target) as [Hlt|Hge]; [|unfold ret; rewrite N.max_l by lia; done].
    rewrite gets_bind. pose proof (until_height escrow (N.to_nat (target - CurrentHeight n)) target n Hg Hok ltac:(lia)) as Hu.
    destruct (advance_until _ target n) as [[[]|e] n']; [|done]. by rewrite Hu, Hcur.
Qed.

(** C18: a block of demo transactions brings the application to its height. If no
    transaction sets the height itself, a block that is finalised has one result
    for every transaction and leaves the application at the block's height, or
    where it was if that is higher; a block of height zero advances it by one. The
    loop over the missing heights always ends there. *)
Theorem FinalizeBlock_height (req : RequestFinalizeBlock) (escrow : string -> Z) (n : Node) :
  good escrow (app n) -> ReqTxs req <> [] -> Forall (fun tx => is_demo tx = true) (ReqTxs req) ->
  Forall sets_no_height (ReqTxs req) ->
  match FinalizeBlock req n with
  | (Ok resp, n') =>
      length (RespTxResults resp) = length (ReqTxs req) /\
      CurrentHeight n' = let target := uint64_of_int64 (ReqHeight req) in
        if N.eqb target 0 then u64_incr (CurrentHeight n) else N.max (CurrentHeight n) target
  | (Err _, _) => True
  end.
Proof.
  intros Hg Hne Hdemo Hquiet. unfold FinalizeBlock. cbv zeta.
  assert (Hall : existsb is_demo (ReqTxs req) = true /\ existsb (fun tx => negb (is_demo tx)) (ReqTxs req) = false).
  { destruct (ReqTxs req) as [|tx txs]; [done|]. split; [cbn; by rewrite (Forall_inv Hdemo)|].
    clear -Hdemo. induction Hdemo as [|t ts Ht _ IH]; [done|]. cbn. by rewrite Ht, IH. }
  destruct Hall as [-> ->]. cbn [andb negb]. rewrite gets_bind. unfold finalize_demo. rewrite bind_run.
  cbn [modify fst snd]. rewrite gets_bind, bind_run. set (n0 := set_flags false false n).
  assert (Hg0 : good escrow (app n0)) by exact Hg.
  assert (Hh0 : CurrentHeight n0 = CurrentHeight n) by reflexivity. clearbody n0.
  destruct (keeps_height_txs _ Hquiet escrow n0 Hg0) as [(e1 & _ & Hg1) Hh1].
  pose proof (run_txs_length (ReqTxs req) n0) as Hlen.
  destruct (run_txs (ReqTxs req) n0) as [[results|e] n1]; cbn [fst snd] in *; [|done].
  rewrite bind_run.
  destruct (keeps_follow same_height req e1 n1 Hg1) as [(e2 & _ & Hg2) Hh2].
  destruct (follow_base req n1) as [[[]|e] n2]; cbn [fst snd] in *; [|done].
  rewrite bind_run.
  assert (Hcur : CurrentHeight n2 = CurrentHeight n0) by exact (eq_trans Hh2 Hh1).
  pose proof (advance_to_height e2 (uint64_of_int64 (ReqHeight req)) (CurrentHeight n0) n2 Hg2 (uint64_of_int64_ok _) Hcur) as Hadv.
  destruct (advance_to _ _ n2) as [[[]|e] n3]; cbn [fst snd] in *; [|done].
  rewrite bind_run. cbn [modify fst snd]. rewrite gets_bind. unfold ret. cbn [RespTxResults].
  split; [done|]. rewrite <- Hh0, <- Hadv. by destruct (pendingBaseAppCommit n3).
Qed.
End blocks.

Section transfers.
Context {W : Type} `{CosmosSDK W} `{MapIteration} `{Crypto} `{AddressCodec}.

(** C16: an IBC transfer through the node is all or nothing for its sender. If it
    succeeds, the sender's wallet held the positive amount and has lost exactly
    it, and no other wallet changed; if it fails, whatever step failed — the
    check of the balance, the chain, the router, the localhost channel — every
    wallet has what it had. The bridge is never touched. *)
Theorem ibc_transfer_atomic (payload : InitiateIBCTransferPayload) (amount : Z) (escrow : string -> Z)
    (n : ABCIApplication W) :
  good escrow (app n) -> TrimSpace (IbcSender payload) <> EmptyString ->
  match applyIBCTransferPayload payload amount n with
  | (Ok _, n') =>
      exists asset, GetAsset (RegistryKeeper (app n)) (IbcAssetID payload) = Some asset /\ (0 < amount)%Z /\
        (amount <= bal (balances (BankKeeper (app n))) (TrimSpace (IbcSender payload)) (TrimSpace (Denom asset)))%Z /\
        BridgeKeeper (app n') = BridgeKeeper (app n) /\
        forall x d, bal (balances (BankKeeper (app n'))) x d =
          (bal (balances (BankKeeper (app n))) x d -
             if decide (TrimSpace (IbcSender payload) = x /\ TrimSpace (Denom asset) = d) then amount else 0)%Z
  | (Err e, n') => is_panic e = false -> good escrow (app n') /\ same_money (app n) (app n')
  end.
Proof.
  intros Hg Hne. unfold applyIBCTransferPayload. cbv zeta. rewrite gets_bind.
  destruct (GetAsset _ _) as [asset|] eqn:Hasset; cbn [some_or].
  2: { intros _. split; [exact Hg|]. by split. }
  rewrite bind_run. cbn [ret fst snd]. rewrite gets_bind, bind_run.
  match goal with |- context [charge_sender ?s ?d ?v ?p n] =>
    pose proof (charge_sender_cases s d v p escrow n Hg (TrimSpace_trimmed _) Hne) as Hcharge;
    destruct (charge_sender s d v p n) as [[r|e] n1]; cbn [fst snd] in * end.
  2: { intros _. rewrite Hcharge. split; [exact Hg|]. by split. }
  destruct Hcharge as (Hv & Hd & Hle & Hg1 & Hset & Hbal).
  match goal with |- context [transfer_paid ?s ?d ?v ?p ?q n1] =>
    pose proof (transfer_paid_cases s d v p q escrow (app n) n1 (TrimSpace_trimmed _) Hne Hd Hv Hg1) as Hpaid end.
  destruct (transfer_paid _ _ _ _ _ n1) as [[t|e] n2].
  - destruct Hpaid as (_ & Hbr & Hbk); [by rewrite Hset|exact Hbal|]. exists asset. split_and!; try done. by rewrite Hbk.
  - intros Hp. destruct Hpaid as [[Hp' _]|Hend]; [by rewrite Hset|exact Hbal|congruence|exact Hend].
Qed.
End transfers.

(** ** Concrete blocks *)

#[local] Existing Instance toy_crypto.
#[local] Existing Instance toy_codec.
#[local] Existing Instance ledger_sdk.

Definition demo_node : ABCIApplication Ledger := mk_node App.demo_app (Some demo_ledger) NoHash false false.

Definition demo_claim_tx : tx_bytes :=
  TxJSON (mk_tx "queue_deposit_claim" (Some (mk_submission (claim_payload BridgeTypes.demo_claim) (demo_attested BridgeTypes.demo_claim)))
    None None None).
Definition demo_transfer_tx (sender : string) (amount : Z) : tx_bytes :=
  TxJSON (mk_tx "initiate_ibc_transfer" None
    (Some (mk_ibc_payload sender "osmo" "eth.usdc" (format_int amount) "osmo1user" 700 "swap:uosmo")) None None).
Definition demo_withdraw_tx (amount : Z) (height : N) : tx_bytes :=
  TxJSON (mk_tx "execute_withdrawal" None None
    (Some (mk_withdrawal_payload "cosmos1recipient" "eth.usdc" (format_int amount) "0xrecipient" 900 (base64_EncodeToString "sig") height)) None).

Definition demo_summary (n : ABCIApplication Ledger) :=
  (CurrentHeight n, App.WalletBalance (app n) "cosmos1recipient" "uethusdc",
   BridgeState.SupplyForDenom (BridgeKeeper (app n)) "uethusdc").
Definition codes {W} (r : result ResponseFinalizeBlock * ABCIApplication W) : list N :=
  match fst r with Ok resp => map Code (RespTxResults resp) | Err _ => [] end.

(** A claim lands in the block after the one that carries it; then a transfer
    of 25, one the sender cannot pay and one without a sender. *)
Definition demo_blocks : list node_action :=
  [NodeBlock (mk_block 101 [demo_claim_tx]); NodeCommit;
   NodeBlock (mk_block 103 [demo_transfer_tx "cosmos1recipient" 25; demo_transfer_tx "cosmos1recipient" 25000;
                            demo_transfer_tx "" 7]); NodeCommit].

Example blocks_run :
  demo_summary (exec_nodes demo_blocks demo_node) = (103%N, 975%Z, 1000%Z) /\
  codes (FinalizeBlock (mk_block 103 [demo_transfer_tx "cosmos1recipient" 25; demo_transfer_tx "cosmos1recipient" 25000;
    demo_transfer_tx "" 7]) (exec_nodes (firstn 2 demo_blocks) demo_node)) = [0; 1; 0]%N.
Proof. by vm_compute. Qed.

Lemma node_solvent_witness :
  App.WalletBalance (app (exec_nodes demo_blocks demo_node)) "cosmos1recipient" "uethusdc" = 975%Z /\
  forall d, (Bank.total (balances (BankKeeper (app (exec_nodes demo_blocks demo_node)))) d <=
             BridgeState.SupplyForDenom (BridgeKeeper (app (exec_nodes demo_blocks demo_node))) d)%Z.
Proof.
  split; [by vm_compute|].
  exact (proj2 (node_solvent demo_blocks demo_node App.demo_app_inv App.demo_app_backed eq_refl)).
Defined.

Definition demo_block : RequestFinalizeBlock := mk_block 103 [demo_claim_tx; demo_transfer_tx "cosmos1recipient" 25].

Lemma FinalizeBlock_height_witness :
  CurrentHeight demo_node = 100%N /\
  match FinalizeBlock demo_block demo_node with
  | (Ok resp, n') => length (RespTxResults resp) = 2 /\ CurrentHeight n' = 103%N
  | (Err _, _) => False
  end.
Proof.
  split; [by vm_compute|].
  assert (Hg : good (fun _ => 0%Z) (app demo_node)).
  { split; [exact App.demo_app_inv|apply backed_with_none; exact App.demo_app_backed|reflexivity]. }
  pose proof (FinalizeBlock_height demo_block (fun _ => 0%Z) demo_node Hg ltac:(done)
    ltac:(repeat constructor) ltac:(repeat constructor; intros d p [= <-]; done)) as Hblock.
  assert (Hok : exists resp n', FinalizeBlock demo_block demo_node = (Ok resp, n')).
  { assert (Hcode : match FinalizeBlock demo_block demo_node with (Ok _, _) => true | _ => false end = true) by (by vm_compute).
    destruct (FinalizeBlock demo_block demo_node) as [[resp|e] n']; [by eexists _, _|done]. }
  destruct Hok as (resp & n' & Hrun). rewrite Hrun in *. destruct Hblock as [Hlen Hheight].
  split; [exact Hlen|]. etrans; [exact Hheight|by vm_compute].
Defined.

Definition demo_funded_node : ABCIApplication Ledger := exec_nodes (firstn 2 demo_blocks) demo_node.
Definition demo_ibc_payload (amount : Z) : InitiateIBCTransferPayload :=
  mk_ibc_payload " cosmos1recipient " "osmo" "eth.usdc" (format_int amount) "osmo1user" 700 "swap:uosmo".

Definition demo_unrouted_payload : InitiateIBCTransferPayload :=
  mk_ibc_payload "cosmos1recipient" "nowhere" "eth.usdc" "25" "osmo1user" 700 "swap:uosmo".

Lemma demo_funded_node_good : exists escrow, good escrow (app demo_funded_node).
Proof.
  destruct (nodes_good (fun _ => 0%Z) (firstn 2 demo_blocks) demo_node) as (escrow & _ & Hg); [|by exists escrow].
  split; [exact App.demo_app_inv|apply backed_with_none; exact App.demo_app_backed|reflexivity].
Qed.

(** The transfer that is paid, and the one whose route the router refuses after
    the wallet has been charged. *)
Lemma ibc_transfer_atomic_witness :
  match applyIBCTransferPayload (demo_ibc_payload 25) 25 demo_funded_node with
  | (Ok _, n') => bal (balances (BankKeeper (app n'))) "cosmos1recipient" "uethusdc" = 975%Z
  | (Err _, _) => False
  end /\
  match applyIBCTransferPayload demo_unrouted_payload 25 demo_funded_node with
  | (Err _, n') => same_money (app demo_funded_node) (app n')
  | (Ok _, _) => False
  end.
Proof.
  destruct demo_funded_node_good as [escrow Hg].
  assert (Hfunded : bal (balances (BankKeeper (app demo_funded_node))) "cosmos1recipient" "uethusdc" = 1000%Z) by (by vm_compute).
  split.
  - pose proof (ibc_transfer_atomic (demo_ibc_payload 25) 25 escrow demo_funded_node Hg ltac:(by vm_compute)) as Hpaid.
    assert (Hok : is_ok (fst (applyIBCTransferPayload (demo_ibc_payload 25) 25 demo_funded_node)) = true) by (by vm_compute).
    destruct (applyIBCTransferPayload _ _ _) as [[t|e] n']; [|done].
    destruct Hpaid as (asset & Hasset & _ & _ & _ & Hbal).
    assert (Hdenom : Denom <$> GetAsset (RegistryKeeper (app demo_funded_node)) "eth.usdc" = Some "uethusdc"%string) by (by vm_compute).
    change (IbcAssetID (demo_ibc_payload 25)) with "eth.usdc"%string in Hasset. rewrite Hasset in Hdenom. injection Hdenom as Hdenom.
    rewrite Hbal, Hfunded, Hdenom. by vm_compute.
  - pose proof (ibc_transfer_atomic demo_unrouted_payload 25 escrow demo_funded_node Hg ltac:(by vm_compute)) as Hfail.
    assert (Hno : match fst (applyIBCTransferPayload demo_unrouted_payload 25 demo_funded_node) with
      Ok _ => false | Err e => negb (is_panic e) end = true) by (by vm_compute).
    destruct (applyIBCTransferPayload _ _ _) as [[t|e] n']; [done|]. cbn [fst] in Hno.
    apply Hfail. by destruct (is_panic e).
Defined.

(** A block that mixes the two kinds of transactions has one result in all. *)
Example mixed_block :
  codes (FinalizeBlock (mk_block 101 [demo_claim_tx; TxOther "sdk"; demo_claim_tx]) demo_node) = [1%N].
Proof. by vm_compute. Qed.

(** A withdrawal transaction that fails leaves the height it asked for: the
    claims of the same block wait until the blocks reach it. *)
Example failed_withdrawal_sets_height :
  let block := mk_block 101 [demo_claim_tx; demo_withdraw_tx 5 5000] in
  codes (FinalizeBlock block demo_node) = [0; 1]%N /\
  demo_summary (exec_nodes [NodeBlock block; NodeCommit] demo_node) = (5000%N, 0%Z, 0%Z) /\
  length (pendingDepositClaims (app (exec_nodes [NodeBlock block; NodeCommit] demo_node))) = 1.
Proof. by vm_compute. Qed.

(** The coin of a funding is made before its denom is checked: the whole block
    panics. *)
Definition demo_fund_tx (denom : string) : tx_bytes :=
  TxJSON (mk_tx "fund_account" None None None (Some (mk_fund_payload "cosmos1recipient" denom "5"))).
Example funding_panics :
  match fst (FinalizeBlock (mk_block 101 [demo_fund_tx "!"]) demo_node) with
  | Err e => is_panic e
  | Ok _ => false
  end = true.
Proof. by vm_compute. Qed.
