(* ===== verification/Delivery.v ===== *)
(** [chain/aegislink/networked] (delivery_intent.go, bridge_status.go): what
    happens to a deposit after it has been minted — the intents of automatic
    delivery, and the status of a bridge session. *)

From S2P Require Import Prelude.
From S2P Require Import GoStrings.
From S2P Require Import Errors.
From S2P Require Import BridgeTypes.
From S2P Require Import BridgeState.
From S2P Require Import Bridge.
From S2P Require Import Bank.
From S2P Require Import IBCRouter.
From S2P Require Import App.
From Stdlib Require Import Ascii String.
From stdpp Require Import strings.

(** ** Delivery intents *)

Record DeliveryIntent := mk_intent {
  IntSourceTxHash : string;
  IntSender : string;
  IntRouteID : string;
  IntAssetID : string;
  IntAmount : string;
  IntReceiver : string;
  IntTransferID : string;
  IntChannelID : string
}.

(** The file of intents, and how the next saves end: written, refused, or cut
    off after the file was truncated. *)
Inductive intents_file :=
| NoFile
| Unreadable (e : error)
| Truncated
| IntentsDoc (l : list DeliveryIntent).
Inductive save_outcome := Saved | Refused (e : error) | Torn (e : error).
Record IntentStore := mk_intents { intentsFile : intents_file; saveOutcomes : list save_outcome }.

Definition normalizeDeliveryIntent (intent : DeliveryIntent) : result DeliveryIntent :=
  let intent := mk_intent (TrimSpace (IntSourceTxHash intent)) (TrimSpace (IntSender intent))
    (TrimSpace (IntRouteID intent)) (TrimSpace (IntAssetID intent)) (TrimSpace (IntAmount intent))
    (TrimSpace (IntReceiver intent)) (TrimSpace (IntTransferID intent)) (TrimSpace (IntChannelID intent)) in
  let? _ := first_error [
    (eqs (IntSourceTxHash intent) EmptyString, Errorf "missing source tx hash");
    (eqs (IntSender intent) EmptyString, Errorf "missing sender");
    (eqs (IntRouteID intent) EmptyString, Errorf "missing route id");
    (eqs (IntAssetID intent) EmptyString, Errorf "missing asset id");
    (eqs (IntAmount intent) EmptyString, Errorf "missing amount");
    (eqs (IntReceiver intent) EmptyString, Errorf "missing receiver")] in
  Ok intent.

Definition loadDeliveryIntents : Op IntentStore (list DeliveryIntent) := query (fun s =>
  match intentsFile s with
  | NoFile => Ok []
  | Unreadable e => Err e
  | Truncated => Err (Errorf "unexpected end of JSON input")
  | IntentsDoc l => Ok l
  end).

Definition ListDeliveryIntents := loadDeliveryIntents.

Definition saveDeliveryIntents (intents : list DeliveryIntent) : Op IntentStore unit := fun s =>
  match saveOutcomes s with
  | Refused e :: rest => (Err e, mk_intents (intentsFile s) rest)
  | Torn e :: rest => (Err e, mk_intents Truncated rest)
  | Saved :: rest => (Ok tt, mk_intents (IntentsDoc intents) rest)
  | [] => (Ok tt, mk_intents (IntentsDoc intents) [])
  end.

(** The first intent of the hash, replaced. *)
Fixpoint replace_intent (intent : DeliveryIntent) (intents : list DeliveryIntent) : option (list DeliveryIntent) :=
  match intents with
  | [] => None
  | i :: rest =>
      if EqualFold (IntSourceTxHash i) (IntSourceTxHash intent) then Some (intent :: rest)
      else (fun l => i :: l) <$> replace_intent intent rest
  end.

Definition intent_le (x y : DeliveryIntent) : Prop := String.le (IntSourceTxHash x) (IntSourceTxHash y).
#[global] Instance intent_le_dec x y : Decision (intent_le x y).
Proof. unfold intent_le. apply _. Defined.

Definition RegisterDeliveryIntent (intent : DeliveryIntent) : Op IntentStore DeliveryIntent :=
  let! intent := lift (normalizeDeliveryIntent intent) in
  let! intents := loadDeliveryIntents in
  match replace_intent intent intents with
  | Some intents => saveDeliveryIntents intents ;;; ret intent
  | None => saveDeliveryIntents (merge_sort intent_le (intents ++ [intent])) ;;; ret intent
  end.

Definition find_intent (sourceTxHash : string) (intents : list DeliveryIntent) : option DeliveryIntent :=
  find (fun i => EqualFold (TrimSpace (IntSourceTxHash i)) (TrimSpace sourceTxHash)) intents.

(** The second result is absent when no intent is found. *)
Definition findDeliveryIntentBySourceTxHash (sourceTxHash : string) (s : IntentStore) : result (option DeliveryIntent) :=
  match loadDeliveryIntents s with
  | (Ok intents, _) => Ok (find_intent sourceTxHash intents)
  | (Err e, _) => Err e
  end.

(** ** The status of a bridge session *)

Record BridgeSessionView := mk_session {
  SessionSourceTxHash : string;
  SessionStatus : string;
  SessionMessageID : string;
  SessionTransferID : string;
  SessionChannelID : string;
  DestinationTxHash : string;
  DestinationTxURL : string;
  ErrorMessage : string
}.

Record DestinationTxLookup := mk_lookup { LookupTxHash : string; LookupChannelID : string; LookupSequence : N }.
Record DestinationTxResult := mk_destination { ResTxHash : string; ResTxURL : string }.

Definition DestinationTxResolver := DestinationTxLookup -> result (option DestinationTxResult).

(** The query for the transaction at the destination. *)
Definition destinationTxSearchQuery (lookup : DestinationTxLookup) : option string :=
  let sourceTxHash := TrimSpace (LookupTxHash lookup) in
  let channelID := TrimSpace (LookupChannelID lookup) in
  if negb (eqs sourceTxHash EmptyString) then Some ("fungible_token_packet.memo='bridge:" +:+ sourceTxHash +:+ "'")
  else if negb (eqs channelID EmptyString) && (0 <? LookupSequence lookup)%N then
    Some ("recv_packet.packet_src_channel='" +:+ channelID +:+ "' AND recv_packet.packet_sequence='" +:+
          format_uint (LookupSequence lookup) +:+ "'")
  else None.

Definition transferStatusWeight (status : string) : Z :=
  if decide (status = TransferStatusCompleted) then 4
  else if decide (status = TransferStatusPending) then 3
  else if decide (status = TransferStatusAckFailed) then 2
  else if decide (status = TransferStatusTimedOut) then 1
  else if decide (status = TransferStatusRefunded) then 0
  else -1.

(** The order of [slices.SortFunc]: the heavier status first, then the larger
    id. *)
Definition match_le (a b : TransferRecordSnapshot) : Prop :=
  let wa := transferStatusWeight (SnStatus a) in
  let wb := transferStatusWeight (SnStatus b) in
  (wb < wa)%Z \/ (wa = wb /\ String.le (SnTransferID b) (SnTransferID a)).
#[global] Instance match_le_dec a b : Decision (match_le a b).
Proof. unfold match_le. cbv zeta. apply _. Defined.

Section status.
Context `{MapIteration}.

Definition findClaimBySourceTxHash (a : App) (sourceTxHash : string) : option ClaimRecordSnapshot :=
  find (fun c => EqualFold (TrimSpace (SnapSourceTxHash c)) (TrimSpace sourceTxHash))
    (StProcessedClaims (BridgeState.ExportState (BridgeKeeper a))).

Definition with_transport (st : StateSnapshot) (t : TransferRecordSnapshot) : TransferRecordSnapshot * option TransportRecord :=
  (t, find (fun p => eqs (TpTransferID p) (SnTransferID t)) (Transport st)).

(** The transfer the intent names. *)
Definition tracked_transfer (st : StateSnapshot) (intent : DeliveryIntent) : option TransferRecordSnapshot :=
  find (fun t => eqs (SnTransferID t) (TrimSpace (IntTransferID intent)) &&
                 (eqs (TrimSpace (IntChannelID intent)) EmptyString ||
                  eqs (TrimSpace (SnChannelID t)) (TrimSpace (IntChannelID intent)))) (Transfers st).

Definition or_blank (value default : string) : string := if decide (TrimSpace value = EmptyString) then default else TrimSpace value.

(** The transfers that look like the claim's. *)
Definition matching_transfers (st : StateSnapshot) (claim : ClaimRecordSnapshot) (intent : option DeliveryIntent)
    : list TransferRecordSnapshot :=
  let expectedReceiver := or_blank (from_option IntReceiver EmptyString intent) (TrimSpace (SnapRecipient claim)) in
  let expectedAmount := or_blank (from_option IntAmount EmptyString intent) (TrimSpace (SnapAmount claim)) in
  filter (fun t => TrimSpace (SnAssetID t) = TrimSpace (SnapAssetID claim) /\
                   TrimSpace (SnReceiver t) = expectedReceiver /\ TrimSpace (SnAmount t) = expectedAmount) (Transfers st).

Definition findTransferForClaim (a : App) (claim : ClaimRecordSnapshot) (intent : option DeliveryIntent)
    : option (TransferRecordSnapshot * option TransportRecord) :=
  let routerState := IBCRouter.ExportState (IBCRouterKeeper a) in
  let tracked :=
    match intent with
    | Some i => if decide (TrimSpace (IntTransferID i) = EmptyString) then None else tracked_transfer routerState i
    | None => None
    end in
  match tracked with
  | Some t => Some (with_transport routerState t)
  | None => with_transport routerState <$> head (merge_sort match_le (matching_transfers routerState claim intent))
  end.

Definition session_of (sourceTxHash status messageID transferID channelID : string) : BridgeSessionView :=
  mk_session sourceTxHash status messageID transferID channelID EmptyString EmptyString EmptyString.

(** The view of a transfer, with what the resolver found at the destination. *)
Definition transfer_session (resolver : option DestinationTxResolver) (sourceTxHash messageID : string)
    (t : TransferRecordSnapshot) (transport : option TransportRecord) : BridgeSessionView :=
  let resolved :=
    match resolver, transport with
    | Some resolve, Some p => resolve (mk_lookup sourceTxHash (TpChannelID p) (PacketSequence p))
    | _, _ => Ok None
    end in
  let destination := match resolved with Ok d => d | Err _ => None end in
  let failure := match resolved with Ok _ => EmptyString | Err e => error_text e end in
  let view status message := mk_session sourceTxHash status messageID (SnTransferID t) (SnChannelID t)
    (from_option ResTxHash EmptyString destination) (from_option ResTxURL EmptyString destination) message in
  if decide (SnStatus t = TransferStatusPending) then
    view (match destination with Some _ => "completed" | None => "osmosis_pending" end)%string failure
  else if decide (SnStatus t = TransferStatusCompleted) then view "completed"%string failure
  else if decide (SnStatus t = TransferStatusAckFailed \/ SnStatus t = TransferStatusTimedOut \/ SnStatus t = TransferStatusRefunded)
  then view "failed"%string (or_blank (SnFailureReason t) (SnStatus t))
  else view "osmosis_pending"%string failure.

Definition ResolveBridgeSessionView (app : option App) (intents : IntentStore) (sourceTxHash : string)
    (resolver : option DestinationTxResolver) : result BridgeSessionView :=
  let sourceTxHash := TrimSpace sourceTxHash in
  if decide (sourceTxHash = EmptyString) then Err (Errorf "missing source tx hash")
  else
    let confirming := session_of sourceTxHash "sepolia_confirming" EmptyString EmptyString EmptyString in
    match app with
    | None => Ok confirming
    | Some a =>
        match findClaimBySourceTxHash a sourceTxHash with
        | None => Ok confirming
        | Some claim =>
            let? intent := findDeliveryIntentBySourceTxHash sourceTxHash intents in
            match findTransferForClaim a claim intent with
            | None => Ok (session_of sourceTxHash "aegislink_processing" (SnapMessageID claim) EmptyString EmptyString)
            | Some (t, transport) => Ok (transfer_session resolver sourceTxHash (SnapMessageID claim) t transport)
            end
        end
    end.
End status.

(** ** Intents are kept by transaction *)

(** Transaction hashes are compared without case. *)
Definition hash_key (i : DeliveryIntent) : string := ToLower (IntSourceTxHash i).
Definition intents_wf (l : list DeliveryIntent) : Prop :=
  NoDup (map hash_key l) /\ Forall (fun i => trimmed (IntSourceTxHash i)) l.

Definition stored_intents (s : IntentStore) : option (list DeliveryIntent) :=
  match intentsFile s with NoFile => Some [] | IntentsDoc l => Some l | _ => None end.

Lemma load_stored s : loadDeliveryIntents s = (match stored_intents s with
  | Some l => Ok l
  | None => match intentsFile s with Unreadable e => Err e | _ => Err (Errorf "unexpected end of JSON input") end end, s).
Proof. unfold loadDeliveryIntents, query, stored_intents. by destruct (intentsFile s). Qed.

Lemma EqualFold_key a b : EqualFold a b = bool_decide (ToLower a = ToLower b).
Proof. reflexivity. Qed.

Lemma find_intent_spec h l i : intents_wf l ->
  find_intent h l = Some i <-> i ∈ l /\ hash_key i = ToLower (TrimSpace h).
Proof.
  unfold find_intent. intros [Hnd Htrim]. induction l as [|x l IH]; cbn [find map] in *.
  { split; [done|]. intros [Hin _]. by apply elem_of_nil in Hin. }
  apply NoDup_cons in Hnd as [Hx Hnd]. apply Forall_cons in Htrim as [Hxt Htrim].
  rewrite EqualFold_key, Hxt, elem_of_cons. fold (hash_key x). destruct (bool_decide_reflect (hash_key x = ToLower (TrimSpace h))) as [Heq|Hne].
  - split.
    + intros [= ->]. split; [by left|done].
    + intros [[->|Hin] Hkey]; [done|]. destruct Hx. rewrite Heq, <- Hkey. apply list_elem_of_fmap. by exists i.
  - rewrite IH by done. split; [intros [? ?]; split; [by right|done]|]. intros [[->|Hin] Hkey]; [done|by split].
Qed.

Lemma find_intent_iff l l' h : intents_wf l -> intents_wf l' ->
  (forall i, hash_key i = ToLower (TrimSpace h) -> i ∈ l <-> i ∈ l') -> find_intent h l = find_intent h l'.
Proof.
  intros Hwf Hwf' Hin. apply option_eq. intros i. rewrite !find_intent_spec by done.
  split; intros [Hi Hk]; (split; [by apply Hin|done]).
Qed.

(** Putting an intent in the place of the one of the same hash, if there is
    one. *)
Definition put_intent (i : DeliveryIntent) (l : list DeliveryIntent) : list DeliveryIntent :=
  match replace_intent i l with Some l' => l' | None => merge_sort intent_le (l ++ [i]) end.

Lemma replace_intent_keys i l l' : replace_intent i l = Some l' -> map hash_key l' = map hash_key l.
Proof.
  revert l'. induction l as [|x l IH]; intros l'; cbn [replace_intent]; [done|].
  rewrite EqualFold_key. case_bool_decide as Hkey.
  - intros [= <-]. cbn [map]. f_equal. exact (eq_sym Hkey).
  - destruct (replace_intent i l) as [m|]; [|done]. intros [= <-]. cbn [map]. f_equal. by apply IH.
Qed.

Lemma replace_intent_in i l l' x : NoDup (map hash_key l) -> replace_intent i l = Some l' ->
  x ∈ l' <-> x = i \/ (x ∈ l /\ hash_key x <> hash_key i).
Proof.
  revert l'. induction l as [|y l IH]; intros l' Hnd; cbn [replace_intent map] in *; [done|].
  apply NoDup_cons in Hnd as [Hy Hnd]. rewrite EqualFold_key. fold (hash_key y) (hash_key i). case_bool_decide as Hkey.
  - intros [= <-]. rewrite !elem_of_cons. split.
    + intros [->|Hx]; [by left|right]. split; [by right|]. intros Heq. destruct Hy. rewrite Hkey, <- Heq. apply list_elem_of_fmap. by exists x.
    + intros [->|[[->|Hx] Hne]]; [by left|by destruct Hne|by right].
  - destruct (replace_intent i l) as [m|]; [|done]. intros [= <-]. rewrite !elem_of_cons, (IH m) by done. naive_solver.
Qed.

Lemma replace_intent_none i l : replace_intent i l = None -> hash_key i ∉ map hash_key l.
Proof.
  induction l as [|y l IH]; cbn [replace_intent map]; [intros _; apply not_elem_of_nil|].
  rewrite EqualFold_key. fold (hash_key y) (hash_key i). case_bool_decide as Hkey; [done|].
  destruct (replace_intent i l); [done|]. intros _. rewrite not_elem_of_cons. auto.
Qed.

Lemma put_intent_in i l x : NoDup (map hash_key l) ->
  x ∈ put_intent i l <-> x = i \/ (x ∈ l /\ hash_key x <> hash_key i).
Proof.
  intros Hnd. unfold put_intent. destruct (replace_intent i l) as [l'|] eqn:Hrep.
  - by apply replace_intent_in.
  - apply replace_intent_none in Hrep. rewrite merge_sort_Permutation, elem_of_app, list_elem_of_singleton.
    split; [|naive_solver]. intros [Hx| ->]; [|by left]. right. split; [done|]. intros Heq. destruct Hrep.
    rewrite <- Heq. apply list_elem_of_fmap. by exists x.
Qed.

Lemma put_intent_wf i l : trimmed (IntSourceTxHash i) -> intents_wf l -> intents_wf (put_intent i l).
Proof.
  intros Hi [Hnd Htrim]. split.
  - unfold put_intent. destruct (replace_intent i l) as [l'|] eqn:Hrep; [by rewrite (replace_intent_keys _ _ _ Hrep)|].
    apply replace_intent_none in Hrep. rewrite merge_sort_Permutation, map_app. cbn [map].
    apply NoDup_app. split; [done|]. split; [|apply NoDup_singleton].
    intros k Hk ->%list_elem_of_singleton. done.
  - apply Forall_forall. intros x [->|[Hx _]]%put_intent_in; [done| |done]. rewrite Forall_forall in Htrim. auto.
Qed.

Definition normal (intent : DeliveryIntent) : DeliveryIntent :=
  mk_intent (TrimSpace (IntSourceTxHash intent)) (TrimSpace (IntSender intent))
    (TrimSpace (IntRouteID intent)) (TrimSpace (IntAssetID intent)) (TrimSpace (IntAmount intent))
    (TrimSpace (IntReceiver intent)) (TrimSpace (IntTransferID intent)) (TrimSpace (IntChannelID intent)).

Lemma normalized intent i : normalizeDeliveryIntent intent = Ok i -> i = normal intent.
Proof. unfold normalizeDeliveryIntent. cbv zeta. by intros ([] & _ & [= <-])%res_bind_ok_inv. Qed.

Lemma normal_idemp intent : normal (normal intent) = normal intent.
Proof. unfold normal. f_equal; apply TrimSpace_trimmed. Qed.

Lemma normalized_hash intent i : normalizeDeliveryIntent intent = Ok i -> trimmed (IntSourceTxHash i).
Proof. intros ->%normalized. apply TrimSpace_trimmed. Qed.

Lemma RegisterDeliveryIntent_run intent s : RegisterDeliveryIntent intent s =
  match normalizeDeliveryIntent intent, fst (loadDeliveryIntents s) with
  | Err e, _ => (Err e, s)
  | Ok i, Err e => (Err e, s)
  | Ok i, Ok l => match saveDeliveryIntents (put_intent i l) s with (Ok _, s') => (Ok i, s') | (Err e, s') => (Err e, s') end
  end.
Proof.
  unfold RegisterDeliveryIntent, bind, lift, ret. destruct (normalizeDeliveryIntent intent) as [i|e]; [|done].
  rewrite load_stored. cbn [fst]. destruct (stored_intents s) as [l|]; [|by destruct (intentsFile s)].
  unfold put_intent. by destruct (replace_intent i l).
Qed.

(** What a registration leaves in the file. *)
Lemma register_stored intent s :
  let put := exists l, stored_intents s = Some l /\
    stored_intents (snd (RegisterDeliveryIntent intent s)) = Some (put_intent (normal intent) l) in
  (stored_intents (snd (RegisterDeliveryIntent intent s)) = stored_intents s \/
   stored_intents (snd (RegisterDeliveryIntent intent s)) = None \/ put) /\
  (forall i, fst (RegisterDeliveryIntent intent s) = Ok i -> put).
Proof.
  cbv zeta. rewrite RegisterDeliveryIntent_run, load_stored. cbn [fst].
  destruct (normalizeDeliveryIntent intent) as [i|e] eqn:Hnorm; [|by split; [left|]].
  apply normalized in Hnorm as ->. destruct (stored_intents s) as [l|] eqn:Hl.
  2: { destruct (intentsFile s); (split; [by left|done]). }
  unfold saveDeliveryIntents. destruct (saveOutcomes s) as [|[|e|e] rest]; cbn [fst snd stored_intents intentsFile]; (split; [|done + by exists l]).
  - right; right. by exists l.
  - right; right. by exists l.
  - left. exact Hl.
  - by right; left.
Qed.

(** An intent is stored under its transaction hash and nowhere else. From a
    well-formed file, a registration that succeeds leaves a well-formed file in
    which every spelling of the intent's hash finds the registered intent, and
    every other hash finds what it found before; one that fails stores nothing,
    or the save was cut off and the file no longer reads. *)
Theorem RegisterDeliveryIntent_spec (intent : DeliveryIntent) (s : IntentStore) (l : list DeliveryIntent) :
  stored_intents s = Some l -> intents_wf l ->
  match RegisterDeliveryIntent intent s with
  | (Ok i, s') =>
      normalizeDeliveryIntent intent = Ok i /\
      (exists l', stored_intents s' = Some l' /\ intents_wf l') /\
      forall h, findDeliveryIntentBySourceTxHash h s' =
        if EqualFold (IntSourceTxHash i) (TrimSpace h) then Ok (Some i) else findDeliveryIntentBySourceTxHash h s
  | (Err _, s') => intentsFile s' = intentsFile s \/ intentsFile s' = Truncated
  end.
Proof.
  intros Hl Hwf. rewrite RegisterDeliveryIntent_run, load_stored, Hl. cbn [fst].
  destruct (normalizeDeliveryIntent intent) as [i|e] eqn:Hnorm; [|by left].
  pose proof (normalized_hash _ _ Hnorm) as Htrim. pose proof (put_intent_wf i l Htrim Hwf) as Hwf'.
  assert (Hsaved : forall rest, Ok i = Ok (E:=error) i /\
    (exists l', stored_intents (mk_intents (IntentsDoc (put_intent i l)) rest) = Some l' /\ intents_wf l') /\
    forall h, findDeliveryIntentBySourceTxHash h (mk_intents (IntentsDoc (put_intent i l)) rest) =
      if EqualFold (IntSourceTxHash i) (TrimSpace h) then Ok (Some i) else findDeliveryIntentBySourceTxHash h s).
  { intros rest. split; [done|]. split; [by exists (put_intent i l)|]. intros h.
    unfold findDeliveryIntentBySourceTxHash. rewrite !load_stored, Hl. cbn [stored_intents intentsFile].
    rewrite EqualFold_key. fold (hash_key i). case_bool_decide as Hkey; f_equal.
    - apply find_intent_spec; [done|]. split; [|done]. apply put_intent_in; [apply Hwf|by left].
    - apply find_intent_iff; [done..|]. intros x Hx. rewrite put_intent_in by apply Hwf.
      assert (Hne : hash_key x <> hash_key i) by congruence. split; [intros [->|[? _]]; done|by right]. }
  unfold saveDeliveryIntents. destruct (saveOutcomes s) as [|[|e|e] rest]; cbn [intentsFile]; auto.
Qed.

(** ** A transfer that is found stays found *)

Section stable.
Context `{MapIteration}.

(** The two ways of finding a transfer. *)
Definition tracked_by (intent : DeliveryIntent) (t : TransferRecord) : Prop :=
  TrimSpace (IntTransferID intent) <> EmptyString /\ TransferID t = TrimSpace (IntTransferID intent) /\
  (TrimSpace (IntChannelID intent) = EmptyString \/ TrimSpace (TrChannelID t) = TrimSpace (IntChannelID intent)).

Definition matched_by (claim : ClaimRecordSnapshot) (intent : option DeliveryIntent) (t : TransferRecord) : Prop :=
  TrimSpace (TrAssetID t) = TrimSpace (SnapAssetID claim) /\
  TrimSpace (Receiver t) = or_blank (from_option IntReceiver EmptyString intent) (TrimSpace (SnapRecipient claim)) /\
  TrimSpace (format_int (TrAmount t)) = or_blank (from_option IntAmount EmptyString intent) (TrimSpace (SnapAmount claim)).

Lemma exported_transfer k s : s ∈ Transfers (IBCRouter.ExportState k) <->
  exists id t, transfers k !! id = Some t /\ s = transfer_snapshot t.
Proof.
  cbn [IBCRouter.ExportState Transfers]. rewrite list_elem_of_fmap. split.
  - intros ([id t] & -> & Hin). exists id, t. split; [|done]. rewrite range_perm in Hin. by apply elem_of_map_to_list.
  - intros (id & t & Hid & ->). exists (id, t). split; [done|]. rewrite range_perm. by apply elem_of_map_to_list.
Qed.

Lemma tracked_found k intent : TrimSpace (IntTransferID intent) <> EmptyString ->
  tracked_transfer (IBCRouter.ExportState k) intent <> None <->
  exists id t, transfers k !! id = Some t /\ tracked_by intent t.
Proof.
  intros Hne. unfold tracked_transfer. split.
  - destruct (find _ _) as [s|] eqn:Hfind; [intros _|done]. apply find_some in Hfind as [Hin Hs].
    apply list_elem_of_In, exported_transfer in Hin as (id & t & Hid & ->). exists id, t. split; [done|].
    apply andb_prop in Hs as [Hs1 Hs2]. apply eqs_true in Hs1. split_and!; [done|done|].
    apply orb_prop in Hs2 as [Hs2|Hs2]; apply eqs_true in Hs2; auto.
  - intros (id & t & Hid & _ & Hid' & Hchannel) Hnone.
    assert (Hin : In (transfer_snapshot t) (Transfers (IBCRouter.ExportState k))).
    { apply list_elem_of_In, exported_transfer. by exists id, t. }
    pose proof (find_none _ _ Hnone _ Hin) as Hbad. cbn [SnTransferID SnChannelID transfer_snapshot] in Hbad.
    apply not_true_iff_false in Hbad. apply Hbad. rewrite (proj2 (eqs_true _ _) Hid'). cbn [andb].
    apply orb_true_iff. rewrite !eqs_true. exact Hchannel.
Qed.

Lemma matching_found k claim intent :
  matching_transfers (IBCRouter.ExportState k) claim intent <> [] <->
  exists id t, transfers k !! id = Some t /\ matched_by claim intent t.
Proof.
  unfold matching_transfers. cbv zeta. split.
  - intros Hne. destruct (filter _ _) as [|s l] eqn:Hfilter; [done|].
    assert (Hs : s ∈ s :: l) by left. rewrite <- Hfilter in Hs.
    apply list_elem_of_filter in Hs as (Hs & Hin). apply exported_transfer in Hin as (id & t & Hid & ->). by exists id, t.
  - intros (id & t & Hid & Ht) Hnil.
    assert (Hin : transfer_snapshot t ∈ Transfers (IBCRouter.ExportState k)) by (apply exported_transfer; by exists id, t).
    by eapply (filter_nil_not_elem_of _ _ (transfer_snapshot t) Hnil).
Qed.

Lemma findTransferForClaim_found a claim intent :
  findTransferForClaim a claim intent <> None <->
  exists id t, transfers (IBCRouterKeeper a) !! id = Some t /\
    ((exists i, intent = Some i /\ tracked_by i t) \/ matched_by claim intent t).
Proof.
  assert (Hmatch : with_transport (IBCRouter.ExportState (IBCRouterKeeper a)) <$>
      head (merge_sort match_le (matching_transfers (IBCRouter.ExportState (IBCRouterKeeper a)) claim intent)) <> None <->
      exists id t, transfers (IBCRouterKeeper a) !! id = Some t /\ matched_by claim intent t).
  { etrans; [|apply matching_found].
    pose proof (merge_sort_Permutation match_le (matching_transfers (IBCRouter.ExportState (IBCRouterKeeper a)) claim intent)) as Hperm.
    destruct (merge_sort _ _) as [|s l]; [by apply Permutation_nil in Hperm as ->|].
    split; [|done]. intros _ Hnil. rewrite Hnil in Hperm. by apply Permutation_nil_r in Hperm. }
  unfold findTransferForClaim. cbv zeta. destruct intent as [i|].
  2: { rewrite Hmatch. split; [intros (id & t & ? & ?); exists id, t; auto|].
       intros (id & t & Hid & [(i & Hi & _)|Ht]); [done|]. by exists id, t. }
  case_decide as Hblank.
  { rewrite Hmatch. split; [intros (id & t & ? & ?); exists id, t; auto|].
    intros (id & t & Hid & [(i' & [= <-] & Hne & _)|Ht]); [done|]. by exists id, t. }
  pose proof (tracked_found (IBCRouterKeeper a) i Hblank) as Htracked.
  destruct (tracked_transfer _ i) as [s|].
  - split; [intros _|done]. destruct (proj1 Htracked ltac:(done)) as (id & t & Hid & Ht). exists id, t. eauto.
  - rewrite Hmatch. split; [intros (id & t & ? & ?); exists id, t; auto|].
    intros (id & t & Hid & [(i' & [= <-] & Ht)|Ht]); [|by exists id, t]. by destruct (proj2 Htracked ltac:(by exists id, t)).
Qed.

(** While transfers only move forward. *)
Lemma found_stable a b claim intent :
  (forall id t, transfers (IBCRouterKeeper a) !! id = Some t ->
     exists t', transfers (IBCRouterKeeper b) !! id = Some t' /\ evolves t t') ->
  findTransferForClaim a claim intent <> None -> findTransferForClaim b claim intent <> None.
Proof.
  rewrite !findTransferForClaim_found. intros Hfwd (id & t & Hid & Ht).
  destruct (Hfwd id t Hid) as (t' & Hid' & Hsame & _). exists id, t'. split; [done|]. rewrite <- Hsame. exact Ht.
Qed.

(** A session is processing when its claim has no transfer, and at no other
    time. *)
Lemma processing_iff a intents hash resolver :
  (exists view, ResolveBridgeSessionView (Some a) intents hash resolver = Ok view /\
     TrimSpace (SessionStatus view) = "aegislink_processing"%string) <->
  TrimSpace hash <> EmptyString /\ exists claim l,
    findClaimBySourceTxHash a (TrimSpace hash) = Some claim /\ stored_intents intents = Some l /\
    findTransferForClaim a claim (find_intent (TrimSpace hash) l) = None.
Proof.
  unfold ResolveBridgeSessionView. cbv zeta. case_decide as Hblank.
  { split; [by intros (view & ? & _)|by intros [? _]]. }
  destruct (findClaimBySourceTxHash a (TrimSpace hash)) as [claim|].
  2: { split; [intros (view & [= <-] & Hbad); by vm_compute in Hbad|by intros (_ & claim & l & ? & _)]. }
  unfold findDeliveryIntentBySourceTxHash. rewrite load_stored. destruct (stored_intents intents) as [l|]; cbn [res_bind].
  2: { split; [intros (view & Hview & _); by destruct (intentsFile intents)|by intros (_ & claim' & l & _ & ? & _)]. }
  destruct (findTransferForClaim a claim _) as [[t transport]|] eqn:Hfound.
  - split.
    + intros (view & [= <-] & Hview). exfalso. revert Hview. unfold transfer_session. cbv zeta.
      repeat case_decide; cbn [SessionStatus]; try case_match; by vm_compute.
    + intros (_ & claim' & l' & [= <-] & [= <-] & Hnone). congruence.
  - split; [intros _|by eexists]. split; [done|]. by exists claim, l.
Qed.
End stable.

(** ** What a session shows *)

Section sessions.
Context `{MapIteration}.

Definition failed_status (status : string) : Prop :=
  status = TransferStatusAckFailed \/ status = TransferStatusTimedOut \/ status = TransferStatusRefunded.

Lemma statuses_distinct : NoDup [TransferStatusPending; TransferStatusCompleted; TransferStatusAckFailed;
  TransferStatusTimedOut; TransferStatusRefunded].
Proof. apply (bool_decide_unpack _). by vm_compute. Qed.

(** The status of a session says where the deposit is. It is confirming
    exactly while no claim of the transaction has been processed, processing
    exactly while no transfer is found for the claim, failed exactly when the
    transfer that was found failed, timed out or was refunded, and it is
    completed only if that transfer is, or is still pending while the
    destination's transaction was found. *)
Theorem ResolveBridgeSessionView_spec (a : App) (intents : IntentStore) (l : list DeliveryIntent) (hash : string)
    (resolver : option DestinationTxResolver) :
  stored_intents intents = Some l -> TrimSpace hash <> EmptyString ->
  exists view, ResolveBridgeSessionView (Some a) intents hash resolver = Ok view /\
    match findClaimBySourceTxHash a (TrimSpace hash) with
    | None => SessionStatus view = "sepolia_confirming"%string
    | Some claim =>
        SessionMessageID view = SnapMessageID claim /\
        match findTransferForClaim a claim (find_intent (TrimSpace hash) l) with
        | None => SessionStatus view = "aegislink_processing"%string
        | Some (t, transport) =>
            SessionTransferID view = SnTransferID t /\
            (SessionStatus view = "osmosis_pending" \/ SessionStatus view = "completed" \/ SessionStatus view = "failed")%string /\
            (SessionStatus view = "failed"%string <-> failed_status (SnStatus t)) /\
            (SessionStatus view = "completed"%string -> SnStatus t = TransferStatusCompleted \/
               (SnStatus t = TransferStatusPending /\ exists resolve p found, resolver = Some resolve /\ transport = Some p /\
                  resolve (mk_lookup (TrimSpace hash) (TpChannelID p) (PacketSequence p)) = Ok (Some found)))
        end
    end.
Proof.
  intros Hl Hhash. unfold ResolveBridgeSessionView. cbv zeta. rewrite decide_False by done.
  destruct (findClaimBySourceTxHash a (TrimSpace hash)) as [claim|]; [|by eexists].
  unfold findDeliveryIntentBySourceTxHash. rewrite load_stored, Hl. cbn [res_bind].
  destruct (findTransferForClaim a claim _) as [[t transport]|]; [|by eexists].
  eexists. split; [done|]. unfold transfer_session. cbv zeta. split; [by repeat case_decide|].
  pose proof statuses_distinct as Hnd. unfold failed_status.
  destruct (decide (SnStatus t = TransferStatusPending)) as [Hp|Hp].
  - cbn [SessionTransferID SessionStatus]. rewrite Hp. split; [done|]. split_and!.
    + case_match; auto.
    + split; [by case_match|]. intros Hbad. exfalso. destruct Hbad as [Hbad|[Hbad|Hbad]]; discriminate Hbad.
    + case_match eqn:Hdest; [|done]. intros _. right. split; [done|].
      destruct resolver as [resolve|], transport as [p|]; try done. exists resolve, p, d. split_and!; [done..|].
      destruct (resolve _) as [[found|]|e]; congruence.
  - destruct (decide (SnStatus t = TransferStatusCompleted)) as [Hc|Hc].
    + cbn [SessionTransferID SessionStatus]. rewrite Hc. split_and!; [done|auto| |auto].
      split; [done|]. intros [Hbad|[Hbad|Hbad]]; discriminate Hbad.
    + case_decide as Hf; cbn [SessionTransferID SessionStatus]; split_and!; try done; auto.
Qed.
End sessions.

(** ** Concrete sessions *)

#[local] Existing Instance toy_crypto.
#[local] Existing Instance toy_codec.

Definition demo_intent (transferID : string) : DeliveryIntent :=
  mk_intent " 0xDEADBEEF" "cosmos1recipient" "osmo" "eth.usdc" "1000" "osmo1r" transferID EmptyString.
Definition demo_stored : list DeliveryIntent :=
  [mk_intent "0xdeadbeef" "cosmos1recipient" "osmo" "eth.usdc" "1000" "osmo1r" EmptyString EmptyString;
   mk_intent "0xfeed" "cosmos1recipient" "osmo" "eth.usdc" "5" "osmo1r" EmptyString EmptyString].
Definition demo_intents (outcomes : list save_outcome) : IntentStore := mk_intents (IntentsDoc demo_stored) outcomes.

Lemma demo_stored_wf : intents_wf demo_stored.
Proof. split; [apply (bool_decide_unpack _); by vm_compute|]. repeat constructor. Qed.

(** The intent replaces the one stored under another spelling of its hash. *)
Lemma RegisterDeliveryIntent_spec_witness :
  match RegisterDeliveryIntent (demo_intent "ibc/eth.usdc/1") (demo_intents []) with
  | (Ok i, s') =>
      findDeliveryIntentBySourceTxHash "0xDeadBeef" s' = Ok (Some i) /\ IntTransferID i = "ibc/eth.usdc/1"%string /\
      findDeliveryIntentBySourceTxHash "0xfeed" s' = findDeliveryIntentBySourceTxHash "0xfeed" (demo_intents [])
  | (Err _, _) => False
  end /\
  match RegisterDeliveryIntent (demo_intent "ibc/eth.usdc/1") (demo_intents [Torn (Errorf "no space left on device")]) with
  | (Ok _, _) => False
  | (Err _, s') => intentsFile s' = Truncated
  end.
Proof.
  split.
  - pose proof (RegisterDeliveryIntent_spec (demo_intent "ibc/eth.usdc/1") (demo_intents []) demo_stored eq_refl demo_stored_wf) as Hspec.
    assert (Hok : is_ok (fst (RegisterDeliveryIntent (demo_intent "ibc/eth.usdc/1") (demo_intents []))) = true) by (by vm_compute).
    destruct (RegisterDeliveryIntent _ _) as [[i|e] s']; [|done]. destruct Hspec as (Hnorm & _ & Hfind).
    apply normalized in Hnorm as ->. rewrite !Hfind. by vm_compute.
  - pose proof (RegisterDeliveryIntent_spec (demo_intent "ibc/eth.usdc/1") (demo_intents [Torn (Errorf "no space left on device")])
      demo_stored eq_refl demo_stored_wf) as Hspec.
    by vm_compute in *.
Defined.

Definition demo_minted : App := snd (App.SubmitDepositClaim demo_claim (demo_attested demo_claim) App.demo_app).
Definition demo_tracked : IntentStore := snd (RegisterDeliveryIntent (demo_intent "ibc/eth.usdc/1") (demo_intents [])).
Definition demo_resolver : DestinationTxResolver := fun l =>
  if eqs (LookupTxHash l) "0xdeadbeef" then Ok (Some (mk_destination "ABC" "https://explorer/ABC")) else Ok None.

Definition status_shown (hash : string) (intents : IntentStore) (resolver : option DestinationTxResolver) : string :=
  match ResolveBridgeSessionView (Some demo_minted) intents hash resolver with
  | Ok view => SessionStatus view
  | Err e => error_text e
  end.

(** The same deposit before its intent names a transfer, after, and when the
    destination's transaction has been found. *)
Example session_runs :
  status_shown "0xfeed" (demo_intents []) None = "sepolia_confirming"%string /\
  status_shown "0xdeadbeef" (demo_intents []) None = "aegislink_processing"%string /\
  status_shown "0xdeadbeef" demo_tracked None = "osmosis_pending"%string /\
  status_shown "0xdeadbeef" demo_tracked (Some demo_resolver) = "completed"%string.
Proof. by vm_compute. Qed.

Lemma ResolveBridgeSessionView_spec_witness :
  exists view, ResolveBridgeSessionView (Some demo_minted) demo_tracked " 0xdeadbeef" (Some demo_resolver) = Ok view /\
    SessionStatus view = "completed"%string /\ SessionTransferID view = "ibc/eth.usdc/1"%string.
Proof.
  destruct (ResolveBridgeSessionView_spec demo_minted demo_tracked (put_intent (normal (demo_intent "ibc/eth.usdc/1")) demo_stored)
    " 0xdeadbeef" (Some demo_resolver)) as (view & Hview & _); [by vm_compute|by vm_compute|].
  exists view. split; [exact Hview|].
  assert (Hrun : match ResolveBridgeSessionView (Some demo_minted) demo_tracked " 0xdeadbeef" (Some demo_resolver) with
    | Ok v => bool_decide (SessionStatus v = "completed"%string /\ SessionTransferID v = "ibc/eth.usdc/1"%string) | Err _ => false end = true)
    by (by vm_compute).
  rewrite Hview in Hrun. by apply bool_decide_eq_true in Hrun.
Defined.
