(* ===== verification/Views.v ===== *)
(** The documents the chain's processes exchange: the responses of
    [chain/aegislink/x/*/client/cli], the views and payloads of
    [chain/aegislink/networked] (query.go, submission.go, seed.go, start.go,
    delivery_intent.go, bridge_status.go), and the status document of app.go. *)

From S2P Require Import Prelude.
From S2P Require Import GoStrings.
From S2P Require Import Base64.
From S2P Require Import Errors.
From S2P Require Import JSON.
From S2P Require Registry.
From S2P Require Limits.
From S2P Require Import BridgeTypes.
From S2P Require Import BridgeState.
From S2P Require Bank.
From S2P Require RouteProfile.
From S2P Require IBCRouter.
From S2P Require Import DemoTx.
From S2P Require Runtime.
From S2P Require Node.
From S2P Require Import Delivery.
From Stdlib Require Import Ascii String.
From stdpp Require Import strings.

(** ** Pieces *)

(** [[]byte] and [uint32]. *)
Record bytes := mk_bytes { bytes_of : string }.
#[global] Instance bytes_to_json : ToJSON bytes := fun b => JString (base64_EncodeToString (bytes_of b)).
#[global] Instance bytes_from_json : FromJSON bytes := {|
  zero_value := mk_bytes EmptyString;
  from_json j := match j with
                 | JString s => match base64_DecodeString s with
                                | Some b => Ok (mk_bytes b)
                                | None => Err (Errorf "illegal base64 data")
                                end
                 | JNull => Ok (mk_bytes EmptyString)
                 | _ => Err type_error
                 end
|}.

Record uint32 := mk_uint32 { uint32_of : N }.
#[global] Instance uint32_to_json : ToJSON uint32 := fun n => to_json (uint32_of n).
#[global] Instance uint32_from_json : FromJSON uint32 := {|
  zero_value := mk_uint32 0;
  from_json j := let? n := from_json j in if (n <? two32)%N then Ok (mk_uint32 n) else Err type_error
|}.

#[global] Instance uint32_wire : Wire uint32.
Proof.
  exists (fun n => (uint32_of n < two32)%N).
  - intros [n] Hn. cbn [uint32_of] in Hn. unfold to_json, uint32_to_json, from_json, uint32_from_json. cbn [uint32_of].
    rewrite (wire_round n); [|unfold wire_ok, uint64_wire, u64_ok, two32, two64 in *; lia]. cbn [res_bind].
    by rewrite (proj2 (N.ltb_lt _ _)).
  - intros [n] Hn. apply (wire_zero n) in Hn. cbn in *. by subst n.
  - done.
Defined.

(** ** Responses of the command line (x/*/client/cli) *)

Definition ClaimResponse (r : ClaimRecordSnapshot) : json :=
  JObject (member_omitempty "claim_key" (SnapClaimKey r) ++ member_omitempty "message_id" (SnapMessageID r) ++
    member_omitempty "denom" (SnapDenom r) ++ member_omitempty "asset_id" (SnapAssetID r) ++
    member_omitempty "amount" (SnapAmount r) ++ member_omitempty "status" (SnapStatus r) ++ []).

Definition WithdrawalResponse (w : WithdrawalRecord) : json :=
  let i := WIdentity w in
  JObject (member_omitempty "kind" (Kind i) ++ member_omitempty "source_chain_id" (SourceChainID i) ++
    member_omitempty "source_contract" (SourceContract i) ++ member_omitempty "source_tx_hash" (SourceTxHash i) ++
    member_omitempty "source_log_index" (SourceLogIndex i) ++ member_omitempty "nonce" (Nonce i) ++
    member_omitempty "message_id" (MessageID i) ++ member_omitempty "asset_id" (WAssetID w) ++
    member_omitempty "asset_address" (AssetAddress w) ++ member_omitempty "amount" (format_int (WAmount w)) ++
    member_omitempty "recipient" (WRecipient w) ++ member_omitempty "deadline" (WDeadline w) ++
    member_omitempty "block_height" (BlockHeight w) ++
    member_omitempty "signature_base64" (base64_EncodeToString (WSignature w)) ++ []).
Definition WithdrawalsResponse (l : list WithdrawalRecord) : json := JArray (map WithdrawalResponse l).

Definition SubmitDepositClaimResponse (r : ClaimResult) : json :=
  JObject (member_omitempty "status" (ResStatus r) ++ member_omitempty "message_id" (ResMessageID r) ++
    member_omitempty "denom" (ResDenom r) ++
    member_omitempty "amount" (match ResAmount r with Some v => format_int v | None => EmptyString end) ++ []).

Definition ExecuteWithdrawalResponse (w : WithdrawalRecord) : json :=
  JObject (member_omitempty "message_id" (MessageID (WIdentity w)) ++ member_omitempty "asset_id" (WAssetID w) ++
    member_omitempty "asset_address" (AssetAddress w) ++ member_omitempty "amount" (format_int (WAmount w)) ++
    member_omitempty "recipient" (WRecipient w) ++ member_omitempty "deadline" (WDeadline w) ++
    member_omitempty "block_height" (BlockHeight w) ++
    member_omitempty "signature_base64" (base64_EncodeToString (WSignature w)) ++ []).

Definition RouteResponse (r : IBCRouter.Route) : json :=
  JObject (member_omitempty "asset_id" (IBCRouter.AssetID r) ++
    member_omitempty "destination_chain_id" (IBCRouter.DestinationChainID r) ++
    member_omitempty "channel_id" (IBCRouter.ChannelID r) ++
    member_omitempty "destination_denom" (IBCRouter.DestinationDenom r) ++
    member_omitempty "enabled" (IBCRouter.Enabled r) ++ []).
Definition RoutesResponse (l : list IBCRouter.Route) : json := JArray (map RouteResponse l).

Definition TransferResponse (t : IBCRouter.TransferRecord) : json :=
  JObject (member_omitempty "transfer_id" (IBCRouter.TransferID t) ++ member_omitempty "asset_id" (IBCRouter.TrAssetID t) ++
    member_omitempty "amount" (format_int (IBCRouter.TrAmount t)) ++ member_omitempty "receiver" (IBCRouter.Receiver t) ++
    member_omitempty "destination_chain_id" (IBCRouter.TrChainID t) ++
    member_omitempty "channel_id" (IBCRouter.TrChannelID t) ++
    member_omitempty "destination_denom" (IBCRouter.TrDenom t) ++
    member_omitempty "timeout_height" (IBCRouter.TimeoutHeight t) ++ member_omitempty "memo" (IBCRouter.Memo t) ++
    member_omitempty "status" (IBCRouter.Status t) ++ member_omitempty "failure_reason" (IBCRouter.FailureReason t) ++ []).
Definition TransfersResponse (l : list IBCRouter.TransferRecord) : json := JArray (map TransferResponse l).

(** ** Views *)

#[global] Instance TransferView_to_json : ToJSON Node.TransferView := fun v =>
  JObject (member "transfer_id" (Node.ViewTransferID v) ++ member "asset_id" (Node.ViewAssetID v) ++
    member "amount" (Node.ViewAmount v) ++ member "receiver" (Node.ViewReceiver v) ++
    member "destination_chain_id" (Node.ViewDestinationChainID v) ++ member "channel_id" (Node.ViewChannelID v) ++
    member "destination_denom" (Node.ViewDestinationDenom v) ++ member "timeout_height" (Node.ViewTimeoutHeight v) ++
    member "memo" (Node.ViewMemo v) ++ member "status" (Node.ViewStatus v) ++
    member "failure_reason" (Node.ViewFailureReason v) ++ []).

#[global] Instance TransferView_from_json : FromJSON Node.TransferView := {|
  zero_value := Node.mk_view EmptyString EmptyString EmptyString EmptyString EmptyString EmptyString EmptyString 0
    EmptyString EmptyString EmptyString;
  from_json j :=
    let? o := members j in
    let? transferID := field o "transfer_id" in
    let? assetID := field o "asset_id" in
    let? amount := field o "amount" in
    let? receiver := field o "receiver" in
    let? chainID := field o "destination_chain_id" in
    let? channelID := field o "channel_id" in
    let? denom := field o "destination_denom" in
    let? timeout := field o "timeout_height" in
    let? memo := field o "memo" in
    let? status := field o "status" in
    let? reason := field o "failure_reason" in
    Ok (Node.mk_view transferID assetID amount receiver chainID channelID denom timeout memo status reason)
|}.

(** [transferJSONResponse], of start.go and of the command line. *)
Definition transferJSONResponse (t : IBCRouter.TransferRecord) : json :=
  JObject (member "transfer_id" (IBCRouter.TransferID t) ++ member "asset_id" (IBCRouter.TrAssetID t) ++
    member "amount" (format_int (IBCRouter.TrAmount t)) ++ member "receiver" (IBCRouter.Receiver t) ++
    member "destination_chain_id" (IBCRouter.TrChainID t) ++ member "channel_id" (IBCRouter.TrChannelID t) ++
    member "destination_denom" (IBCRouter.TrDenom t) ++ member "timeout_height" (IBCRouter.TimeoutHeight t) ++
    member "memo" (IBCRouter.Memo t) ++ member "status" (IBCRouter.Status t) ++
    member "failure_reason" (IBCRouter.FailureReason t) ++ []).
Definition transferJSONResponseList (l : list IBCRouter.TransferRecord) : json := JArray (map transferJSONResponse l).

#[global] Instance BalanceRecord_to_json : ToJSON Bank.BalanceRecord := fun b =>
  JObject (member "address" (Bank.Address b) ++ member "denom" (Bank.BalDenom b) ++ member "amount" (Bank.BalAmount b) ++ []).
#[global] Instance BalanceRecord_from_json : FromJSON Bank.BalanceRecord := {|
  zero_value := Bank.mk_balance EmptyString EmptyString EmptyString;
  from_json j :=
    let? o := members j in
    let? address := field o "address" in
    let? denom := field o "denom" in
    let? amount := field o "amount" in
    Ok (Bank.mk_balance address denom amount)
|}.

#[global] Instance SignerSet_to_json : ToJSON SignerSet := fun s =>
  JObject (member "version" (Version s) ++ member "signers" (SetSigners s) ++ member "threshold" (SetThreshold s) ++
    member "activated_at" (ActivatedAt s) ++ member "expires_at" (ExpiresAt s) ++ []).

#[global] Instance AssetRoute_to_json : ToJSON RouteProfile.AssetRoute := fun r =>
  JObject (member "asset_id" (RouteProfile.RouteAssetID r) ++
    member "destination_denom" (RouteProfile.RouteDestinationDenom r) ++ []).
#[global] Instance AssetRoute_from_json : FromJSON RouteProfile.AssetRoute := {|
  zero_value := RouteProfile.mk_asset_route EmptyString EmptyString;
  from_json j :=
    let? o := members j in
    let? assetID := field o "asset_id" in
    let? denom := field o "destination_denom" in
    Ok (RouteProfile.mk_asset_route assetID denom)
|}.
#[global] Instance RouteProfile_to_json : ToJSON RouteProfile.RouteProfile := fun p =>
  JObject (member "route_id" (RouteProfile.RouteID p) ++ member "destination_chain_id" (RouteProfile.ProfileChainID p) ++
    member "channel_id" (RouteProfile.ProfileChannelID p) ++ member "enabled" (RouteProfile.ProfileEnabled p) ++
    member "assets" (RouteProfile.Assets p) ++
    [("policy"%string, JObject (member "allowed_memo_prefixes" (RouteProfile.AllowedMemoPrefixes (RouteProfile.Policy p)) ++
        member "allowed_action_types" (RouteProfile.AllowedActionTypes (RouteProfile.Policy p)) ++ []))]).

#[global] Instance ClaimRecord_to_json : ToJSON ClaimRecordSnapshot := fun r =>
  JObject (member "claim_key" (SnapClaimKey r) ++ member "message_id" (SnapMessageID r) ++
    member "source_tx_hash" (SnapSourceTxHash r) ++ member "denom" (SnapDenom r) ++ member "asset_id" (SnapAssetID r) ++
    member_omitempty "recipient" (SnapRecipient r) ++ member "amount" (SnapAmount r) ++
    member "status" (SnapStatus r) ++ []).
#[global] Instance ClaimRecord_from_json : FromJSON ClaimRecordSnapshot := {|
  zero_value := mk_claim_snap EmptyString EmptyString EmptyString EmptyString EmptyString EmptyString EmptyString EmptyString;
  from_json j :=
    let? o := members j in
    let? claimKey := field o "claim_key" in
    let? messageID := field o "message_id" in
    let? sourceTxHash := field o "source_tx_hash" in
    let? denom := field o "denom" in
    let? assetID := field o "asset_id" in
    let? recipient := field o "recipient" in
    let? amount := field o "amount" in
    let? status := field o "status" in
    Ok (mk_claim_snap claimKey messageID sourceTxHash denom assetID recipient amount status)
|}.

(** A withdrawal as the node's clients see it. *)
Record WithdrawalView := mk_withdrawal_view {
  WvKind : string; WvSourceChainID : string; WvSourceContract : string; WvSourceTxHash : string;
  WvSourceLogIndex : N; WvNonce : N; WvMessageID : string; WvAssetID : string; WvAssetAddress : string;
  WvAmount : string; WvRecipient : string; WvDeadline : N; WvBlockHeight : N; WvSignatureBase64 : string
}.
#[global] Instance WithdrawalView_to_json : ToJSON WithdrawalView := fun w =>
  JObject (member "kind" (WvKind w) ++ member "source_chain_id" (WvSourceChainID w) ++
    member "source_contract" (WvSourceContract w) ++ member "source_tx_hash" (WvSourceTxHash w) ++
    member "source_log_index" (WvSourceLogIndex w) ++ member "nonce" (WvNonce w) ++
    member "message_id" (WvMessageID w) ++ member "asset_id" (WvAssetID w) ++
    member "asset_address" (WvAssetAddress w) ++ member "amount" (WvAmount w) ++
    member "recipient" (WvRecipient w) ++ member "deadline" (WvDeadline w) ++
    member "block_height" (WvBlockHeight w) ++ member "signature_base64" (WvSignatureBase64 w) ++ []).
#[global] Instance WithdrawalView_from_json : FromJSON WithdrawalView := {|
  zero_value := mk_withdrawal_view EmptyString EmptyString EmptyString EmptyString 0 0 EmptyString EmptyString EmptyString
    EmptyString EmptyString 0 0 EmptyString;
  from_json j :=
    let? o := members j in
    let? kind := field o "kind" in
    let? chainID := field o "source_chain_id" in
    let? contract := field o "source_contract" in
    let? txHash := field o "source_tx_hash" in
    let? logIndex := field o "source_log_index" in
    let? nonce := field o "nonce" in
    let? messageID := field o "message_id" in
    let? assetID := field o "asset_id" in
    let? address := field o "asset_address" in
    let? amount := field o "amount" in
    let? recipient := field o "recipient" in
    let? deadline := field o "deadline" in
    let? height := field o "block_height" in
    let? signature := field o "signature_base64" in
    Ok (mk_withdrawal_view kind chainID contract txHash logIndex nonce messageID assetID address amount recipient
          deadline height signature)
|}.

(** The zero values of [omitempty] are read back: what the chain prints is the
    view of what it recorded. *)
Definition withdrawal_view (w : WithdrawalRecord) : WithdrawalView :=
  let i := WIdentity w in
  mk_withdrawal_view (Kind i) (SourceChainID i) (SourceContract i) (SourceTxHash i) (SourceLogIndex i) (Nonce i)
    (MessageID i) (WAssetID w) (AssetAddress w) (format_int (WAmount w)) (WRecipient w) (WDeadline w) (BlockHeight w)
    (base64_EncodeToString (WSignature w)).
Definition withdrawalsFromRecords (l : list WithdrawalRecord) : list WithdrawalView := map withdrawal_view l.

Record SummaryDocument := mk_summary_doc {
  SumAppName : string; SumModules : list string; SumAssets : nat; SumLimits : nat; SumPausedFlows : nat;
  SumHeight : N; SumWithdrawals : nat; SumSupply : gmap string string
}.
#[global] Instance Summary_to_json : ToJSON SummaryDocument := fun s =>
  JObject (member "app_name" (SumAppName s) ++ member "modules" (SumModules s) ++ member "assets" (SumAssets s) ++
    member "limits" (SumLimits s) ++ member "paused_flows" (SumPausedFlows s) ++ member "current_height" (SumHeight s) ++
    member "withdrawals" (SumWithdrawals s) ++ member "supply_by_denom" (SumSupply s) ++ []).
#[global] Instance Summary_from_json : FromJSON SummaryDocument := {|
  zero_value := mk_summary_doc EmptyString [] 0 0 0 0 0 ∅;
  from_json j :=
    let? o := members j in
    let? appName := field o "app_name" in
    let? modules := field o "modules" in
    let? assets := field o "assets" in
    let? limits := field o "limits" in
    let? paused := field o "paused_flows" in
    let? height := field o "current_height" in
    let? withdrawals := field o "withdrawals" in
    let? supply := field o "supply_by_denom" in
    Ok (mk_summary_doc appName modules assets limits paused height withdrawals supply)
|}.

(** The status document (app.go). *)
#[global] Instance status_to_json : ToJSON Runtime.StatusInfo := fun s =>
  JObject (member "app_name" (Runtime.StAppName s) ++ member "chain_id" (Runtime.StChainID s) ++
    member "runtime_mode" (Runtime.StRuntimeMode s) ++ member "home_dir" (Runtime.StHomeDir s) ++
    member "config_path" (Runtime.StConfigPath s) ++ member "genesis_path" (Runtime.StGenesisPath s) ++
    member "state_path" (Runtime.StStatePath s) ++ member "initialized" (Runtime.StInitialized s) ++
    member "module_names" (Runtime.StModuleNames s) ++ member "modules" (Runtime.StModuleCount s) ++
    member "allowed_signers" (Runtime.StAllowedSigners s) ++
    member "governance_authorities" (Runtime.StGovernanceAuthorities s) ++
    member "active_signer_set_version" (Runtime.StActiveVersion s) ++
    member "active_signer_threshold" (Runtime.StActiveThreshold s) ++
    member "signer_set_count" (Runtime.StSignerSetCount s) ++
    member "signer_set_versions" (Runtime.StSignerSetVersions s) ++
    member "enabled_route_ids" (Runtime.StEnabledRouteIDs s) ++
    member "required_threshold" (Runtime.StRequiredThreshold s) ++ member "current_height" (Runtime.StCurrentHeight s) ++
    member "assets" (Runtime.StAssets s) ++ member "limits" (Runtime.StLimits s) ++
    member "paused_flows" (Runtime.StPausedFlows s) ++ member "processed_claims" (Runtime.StClaims s) ++
    member "failed_claims" (Runtime.StFailedClaims s) ++ member "bridge_circuit_open" (Runtime.StCircuitOpen s) ++
    member "last_invariant_error" (Runtime.StLastError s) ++
    member "pending_deposit_claims" (Runtime.StPendingClaims s) ++ member "withdrawals" (Runtime.StWithdrawalCount s) ++
    member "routes" (Runtime.StRoutes s) ++ member "transfers" (Runtime.StTransfers s) ++
    member "pending_transfers" (Runtime.StPending s) ++ member "completed_transfers" (Runtime.StCompleted s) ++
    member "failed_transfers" (Runtime.StFailed s) ++ member "timed_out_transfers" (Runtime.StTimedOut s) ++
    member "refunded_transfers" (Runtime.StRefunded s) ++ member "governance_proposals" (Runtime.StProposals s) ++
    member "supply_by_denom" (Runtime.StSupply s) ++ []).

(** [summaryViewFromApp], with what the configuration determines. *)
Definition summary_document (appName : string) (modules : list string) (s : Node.SummaryView) : SummaryDocument :=
  mk_summary_doc appName modules (Node.SummaryAssets s) (Node.SummaryLimits s) (Node.SummaryPausedFlows s)
    (Node.SummaryHeight s) (Node.SummaryWithdrawals s) (Node.SummarySupply s).

(** ** Payloads (submission.go, seed.go, delivery_intent.go) *)

#[global] Instance Proof_to_json : ToJSON AttestationProof := fun p =>
  JObject (member "signer" (Signer p) ++ member "signature" (mk_bytes (Signature p)) ++ []).
#[global] Instance Proof_from_json : FromJSON AttestationProof := {|
  zero_value := mk_proof EmptyString EmptyString;
  from_json j :=
    let? o := members j in
    let? signer := field o "signer" in
    let? signature := field o "signature" in
    Ok (mk_proof signer (bytes_of signature))
|}.

#[global] Instance claimPayload_to_json : ToJSON claimPayload := fun c =>
  JObject (member "kind" (PlKind c) ++ member_omitempty "source_asset_kind" (PlSourceAssetKind c) ++
    member "source_chain_id" (PlSourceChainID c) ++ member "source_contract" (PlSourceContract c) ++
    member "source_tx_hash" (PlSourceTxHash c) ++ member "source_log_index" (PlSourceLogIndex c) ++
    member "nonce" (PlNonce c) ++ member "message_id" (PlMessageID c) ++
    member "destination_chain_id" (PlDestinationChainID c) ++ member "asset_id" (PlAssetID c) ++
    member "amount" (PlAmount c) ++ member "recipient" (PlRecipient c) ++ member "deadline" (PlDeadline c) ++ []).
#[global] Instance claimPayload_from_json : FromJSON claimPayload := {|
  zero_value := mk_claim_payload EmptyString EmptyString EmptyString EmptyString EmptyString 0 0 EmptyString EmptyString
    EmptyString EmptyString EmptyString 0;
  from_json j :=
    let? o := members j in
    let? kind := field o "kind" in
    let? assetKind := field o "source_asset_kind" in
    let? chainID := field o "source_chain_id" in
    let? contract := field o "source_contract" in
    let? txHash := field o "source_tx_hash" in
    let? logIndex := field o "source_log_index" in
    let? nonce := field o "nonce" in
    let? messageID := field o "message_id" in
    let? destination := field o "destination_chain_id" in
    let? assetID := field o "asset_id" in
    let? amount := field o "amount" in
    let? recipient := field o "recipient" in
    let? deadline := field o "deadline" in
    Ok (mk_claim_payload kind assetKind chainID contract txHash logIndex nonce messageID destination assetID amount
          recipient deadline)
|}.

#[global] Instance Attestation_to_json : ToJSON Attestation := fun a =>
  JObject (member "message_id" (AttMessageID a) ++ member "payload_hash" (PayloadHash a) ++
    member "signers" (Signers a) ++ member "proofs" (Proofs a) ++ member "threshold" (mk_uint32 (Threshold a)) ++
    member "expiry" (Expiry a) ++ member "signer_set_version" (SignerSetVersion a) ++ []).
#[global] Instance Attestation_from_json : FromJSON Attestation := {|
  zero_value := mk_attestation EmptyString EmptyString [] [] 0 0 0;
  from_json j :=
    let? o := members j in
    let? messageID := field o "message_id" in
    let? hash := field o "payload_hash" in
    let? signers := field o "signers" in
    let? proofs := field o "proofs" in
    let? threshold := field o "threshold" in
    let? expiry := field o "expiry" in
    let? version := field o "signer_set_version" in
    Ok (mk_attestation messageID hash signers proofs (uint32_of threshold) expiry version)
|}.

#[global] Instance submission_to_json : ToJSON submissionPayload := fun p =>
  JObject (member "claim" (PlClaim p) ++ member "attestation" (PlAttestation p) ++ []).
#[global] Instance submission_from_json : FromJSON submissionPayload := {|
  zero_value := mk_submission zero_value zero_value;
  from_json j :=
    let? o := members j in
    let? claim := field o "claim" in
    let? attestation := field o "attestation" in
    Ok (mk_submission claim attestation)
|}.

#[global] Instance ibc_payload_from_json : FromJSON InitiateIBCTransferPayload := {|
  zero_value := mk_ibc_payload EmptyString EmptyString EmptyString EmptyString EmptyString 0 EmptyString;
  from_json j :=
    let? o := members j in
    let? sender := field o "sender" in
    let? routeID := field o "route_id" in
    let? assetID := field o "asset_id" in
    let? amount := field o "amount" in
    let? receiver := field o "receiver" in
    let? timeout := field o "timeout_height" in
    let? memo := field o "memo" in
    Ok (mk_ibc_payload sender routeID assetID amount receiver timeout memo)
|}.

#[global] Instance fund_payload_to_json : ToJSON FundAccountPayload := fun p =>
  JObject (member "address" (FundAddress p) ++ member "denom" (FundDenom p) ++ member "amount" (FundAmount p) ++ []).
#[global] Instance fund_payload_from_json : FromJSON FundAccountPayload := {|
  zero_value := mk_fund_payload EmptyString EmptyString EmptyString;
  from_json j :=
    let? o := members j in
    let? address := field o "address" in
    let? denom := field o "denom" in
    let? amount := field o "amount" in
    Ok (mk_fund_payload address denom amount)
|}.

#[global] Instance intent_to_json : ToJSON DeliveryIntent := fun i =>
  JObject (member "sourceTxHash" (IntSourceTxHash i) ++ member "sender" (IntSender i) ++ member "routeId" (IntRouteID i) ++
    member "assetId" (IntAssetID i) ++ member "amount" (IntAmount i) ++ member "receiver" (IntReceiver i) ++
    member_omitempty "transferId" (IntTransferID i) ++ member_omitempty "channelId" (IntChannelID i) ++ []).
#[global] Instance intent_from_json : FromJSON DeliveryIntent := {|
  zero_value := mk_intent EmptyString EmptyString EmptyString EmptyString EmptyString EmptyString EmptyString EmptyString;
  from_json j :=
    let? o := members j in
    let? sourceTxHash := field o "sourceTxHash" in
    let? sender := field o "sender" in
    let? routeID := field o "routeId" in
    let? assetID := field o "assetId" in
    let? amount := field o "amount" in
    let? receiver := field o "receiver" in
    let? transferID := field o "transferId" in
    let? channelID := field o "channelId" in
    Ok (mk_intent sourceTxHash sender routeID assetID amount receiver transferID channelID)
|}.

#[global] Instance session_to_json : ToJSON BridgeSessionView := fun v =>
  JObject (member "sourceTxHash" (SessionSourceTxHash v) ++ member "status" (SessionStatus v) ++
    member_omitempty "messageId" (SessionMessageID v) ++ member_omitempty "transferId" (SessionTransferID v) ++
    member_omitempty "channelId" (SessionChannelID v) ++ member_omitempty "destinationTxHash" (DestinationTxHash v) ++
    member_omitempty "destinationTxUrl" (DestinationTxURL v) ++ member_omitempty "errorMessage" (ErrorMessage v) ++ []).
#[global] Instance session_from_json : FromJSON BridgeSessionView := {|
  zero_value := mk_session EmptyString EmptyString EmptyString EmptyString EmptyString EmptyString EmptyString EmptyString;
  from_json j :=
    let? o := members j in
    let? sourceTxHash := field o "sourceTxHash" in
    let? status := field o "status" in
    let? messageID := field o "messageId" in
    let? transferID := field o "transferId" in
    let? channelID := field o "channelId" in
    let? txHash := field o "destinationTxHash" in
    let? txURL := field o "destinationTxUrl" in
    let? message := field o "errorMessage" in
    Ok (mk_session sourceTxHash status messageID transferID channelID txHash txURL message)
|}.

(** ** Seeding (seed.go) *)

#[global] Instance asset_to_json : ToJSON Registry.Asset := fun a =>
  JObject (member "AssetID" (Registry.AssetID a) ++ member "SourceChainID" (Registry.SourceChainID a) ++
    member "SourceAssetKind" (Registry.SourceAssetKind a) ++ member "SourceAssetAddress" (Registry.SourceAssetAddress a) ++
    member "SourceContract" (Registry.SourceContract a) ++ member "Denom" (Registry.Denom a) ++
    member "DestinationDenom" (Registry.DestinationDenom a) ++ member "Decimals" (mk_uint32 (Registry.Decimals a)) ++
    member "DisplayName" (Registry.DisplayName a) ++ member "DisplaySymbol" (Registry.DisplaySymbol a) ++
    member "Enabled" (Registry.Enabled a) ++ []).
#[global] Instance asset_from_json : FromJSON Registry.Asset := {|
  zero_value := Registry.mk_asset EmptyString EmptyString EmptyString EmptyString EmptyString EmptyString EmptyString 0
    EmptyString EmptyString false;
  from_json j :=
    let? o := members j in
    let? assetID := field o "AssetID" in
    let? chainID := field o "SourceChainID" in
    let? kind := field o "SourceAssetKind" in
    let? address := field o "SourceAssetAddress" in
    let? contract := field o "SourceContract" in
    let? denom := field o "Denom" in
    let? destination := field o "DestinationDenom" in
    let? decimals := field o "Decimals" in
    let? name := field o "DisplayName" in
    let? symbol := field o "DisplaySymbol" in
    let? enabled := field o "Enabled" in
    Ok (Registry.mk_asset assetID chainID kind address contract denom destination (uint32_of decimals) name symbol enabled)
|}.

Record SeedBridgeLimitPayload := mk_seed_limit {
  SeedAssetID : string;
  SeedWindowBlocks : N;         (* uint64 *)
  SeedMaxAmount : string
}.
#[global] Instance seed_limit_to_json : ToJSON SeedBridgeLimitPayload := fun l =>
  JObject (member "asset_id" (SeedAssetID l) ++ member "window_seconds" (SeedWindowBlocks l) ++
    member "max_amount" (SeedMaxAmount l) ++ []).
#[global] Instance seed_limit_from_json : FromJSON SeedBridgeLimitPayload := {|
  zero_value := mk_seed_limit EmptyString 0 EmptyString;
  from_json j :=
    let? o := members j in
    let? assetID := field o "asset_id" in
    let? window := field o "window_seconds" in
    let? amount := field o "max_amount" in
    Ok (mk_seed_limit assetID window amount)
|}.

Record SeedBridgeAssetsPayload := mk_seed { SeedAssets : list Registry.Asset; SeedLimits : list SeedBridgeLimitPayload }.
#[global] Instance seed_to_json : ToJSON SeedBridgeAssetsPayload := fun p =>
  JObject (member "assets" (SeedAssets p) ++ member "limits" (SeedLimits p) ++ []).
#[global] Instance seed_from_json : FromJSON SeedBridgeAssetsPayload := {|
  zero_value := mk_seed [] [];
  from_json j :=
    let? o := members j in
    let? assets := field o "assets" in
    let? limits := field o "limits" in
    Ok (mk_seed assets limits)
|}.

Record SeedBridgeAssetsResult := mk_seed_result {
  SeedStatus : string; SeededCount : nat; SeededLimits : nat; SeededAssets : list string; SeededWindows : list N
}.
#[global] Instance seed_result_to_json : ToJSON SeedBridgeAssetsResult := fun r =>
  JObject (member "status" (SeedStatus r) ++ member "assets" (SeededCount r) ++ member "limits" (SeededLimits r) ++
    member "seeded_assets" (SeededAssets r) ++ member_omitempty "window_seconds" (SeededWindows r) ++ []).
#[global] Instance seed_result_from_json : FromJSON SeedBridgeAssetsResult := {|
  zero_value := mk_seed_result EmptyString 0 0 [] [];
  from_json j :=
    let? o := members j in
    let? status := field o "status" in
    let? assets := field o "assets" in
    let? limits := field o "limits" in
    let? seeded := field o "seeded_assets" in
    let? windows := field o "window_seconds" in
    Ok (mk_seed_result status assets limits seeded windows)
|}.

(** The payload, and the result, of setting a route profile. *)
Record SetRouteProfilePayload := mk_route_payload {
  SrpRouteID : string; SrpDestinationChainID : string; SrpChannelID : string; SrpEnabled : bool;
  SrpAssets : list RouteProfile.AssetRoute; SrpMemoPrefixes : list string; SrpActionTypes : list string
}.
Abbreviation SetRouteProfileResult := SetRouteProfilePayload.
#[global] Instance route_payload_to_json : ToJSON SetRouteProfilePayload := fun p =>
  JObject (member "route_id" (SrpRouteID p) ++ member "destination_chain_id" (SrpDestinationChainID p) ++
    member "channel_id" (SrpChannelID p) ++ member "enabled" (SrpEnabled p) ++ member "assets" (SrpAssets p) ++
    member_omitempty "allowed_memo_prefixes" (SrpMemoPrefixes p) ++
    member_omitempty "allowed_action_types" (SrpActionTypes p) ++ []).
#[global] Instance route_payload_from_json : FromJSON SetRouteProfilePayload := {|
  zero_value := mk_route_payload EmptyString EmptyString EmptyString false [] [] [];
  from_json j :=
    let? o := members j in
    let? routeID := field o "route_id" in
    let? chainID := field o "destination_chain_id" in
    let? channelID := field o "channel_id" in
    let? enabled := field o "enabled" in
    let? assets := field o "assets" in
    let? prefixes := field o "allowed_memo_prefixes" in
    let? actions := field o "allowed_action_types" in
    Ok (mk_route_payload routeID chainID channelID enabled assets prefixes actions)
|}.

(** ** Round trips *)

#[global] Instance bytes_wire : Wire bytes.
Proof.
  exists (fun _ => True).
  - intros [b] _. unfold to_json, bytes_to_json, from_json, bytes_from_json. cbn [bytes_of].
    by rewrite base64_round_trip.
  - intros [b] Hb. apply eqs_true in Hb. cbn [bytes_of] in Hb. pose proof (base64_round_trip b) as Hr.
    rewrite Hb in Hr. by injection Hr as <-.
  - done.
Defined.

(** A struct is read back when each of its fields is. *)
Ltac struct_wire ok enc dec :=
  exists ok; [|intros ? Hz; discriminate Hz|done];
  let x := fresh "x" in
  intros x ?; repeat match goal with H : _ /\ _ |- _ => destruct H end;
  unfold to_json at 1, enc; cbn [from_json dec members res_bind]; repeat read_field; by destruct x.

Lemma texts_wire (l : list string) : wire_ok l.
Proof. cbn. by apply Forall_true. Qed.

#[global] Instance claimPayload_wire : Wire claimPayload.
Proof.
  struct_wire (fun c => u64_ok (PlSourceLogIndex c) /\ u64_ok (PlNonce c) /\ u64_ok (PlDeadline c))
    claimPayload_to_json claimPayload_from_json.
Defined.

#[global] Instance proof_wire : Wire AttestationProof.
Proof. struct_wire (fun _ : AttestationProof => True) Proof_to_json Proof_from_json. Defined.

#[global] Instance attestation_wire : Wire Attestation.
Proof.
  struct_wire (fun a => (Threshold a < two32)%N /\ u64_ok (Expiry a) /\ u64_ok (SignerSetVersion a) /\
    wire_ok (Signers a) /\ wire_ok (Proofs a)) Attestation_to_json Attestation_from_json.
Defined.

#[global] Instance submission_wire : Wire submissionPayload.
Proof.
  struct_wire (fun p => wire_ok (PlClaim p) /\ wire_ok (PlAttestation p)) submission_to_json submission_from_json.
Defined.

#[global] Instance TransferView_wire : Wire Node.TransferView.
Proof.
  struct_wire (fun v => u64_ok (Node.ViewTimeoutHeight v)) TransferView_to_json TransferView_from_json.
Defined.

#[global] Instance BalanceRecord_wire : Wire Bank.BalanceRecord.
Proof. struct_wire (fun _ : Bank.BalanceRecord => True) BalanceRecord_to_json BalanceRecord_from_json. Defined.

#[global] Instance ClaimRecord_wire : Wire ClaimRecordSnapshot.
Proof. struct_wire (fun _ : ClaimRecordSnapshot => True) ClaimRecord_to_json ClaimRecord_from_json. Defined.

#[global] Instance WithdrawalView_wire : Wire WithdrawalView.
Proof.
  struct_wire (fun w => u64_ok (WvSourceLogIndex w) /\ u64_ok (WvNonce w) /\ u64_ok (WvDeadline w) /\ u64_ok (WvBlockHeight w))
    WithdrawalView_to_json WithdrawalView_from_json.
Defined.

#[global] Instance intent_wire : Wire DeliveryIntent.
Proof. struct_wire (fun _ : DeliveryIntent => True) intent_to_json intent_from_json. Defined.

#[global] Instance session_wire : Wire BridgeSessionView.
Proof. struct_wire (fun _ : BridgeSessionView => True) session_to_json session_from_json. Defined.

#[global] Instance fund_payload_wire : Wire FundAccountPayload.
Proof. struct_wire (fun _ : FundAccountPayload => True) fund_payload_to_json fund_payload_from_json. Defined.

#[global] Instance AssetRoute_wire : Wire RouteProfile.AssetRoute.
Proof. struct_wire (fun _ : RouteProfile.AssetRoute => True) AssetRoute_to_json AssetRoute_from_json. Defined.

#[global] Instance route_payload_wire : Wire SetRouteProfilePayload.
Proof.
  struct_wire (fun p => wire_ok (SrpAssets p) /\ wire_ok (SrpMemoPrefixes p) /\ wire_ok (SrpActionTypes p))
    route_payload_to_json route_payload_from_json.
Defined.

#[global] Instance asset_wire : Wire Registry.Asset.
Proof. struct_wire (fun a => (Registry.Decimals a < two32)%N) asset_to_json asset_from_json. Defined.

#[global] Instance seed_limit_wire : Wire SeedBridgeLimitPayload.
Proof. struct_wire (fun l => u64_ok (SeedWindowBlocks l)) seed_limit_to_json seed_limit_from_json. Defined.

#[global] Instance seed_wire : Wire SeedBridgeAssetsPayload.
Proof. struct_wire (fun p => wire_ok (SeedAssets p) /\ wire_ok (SeedLimits p)) seed_to_json seed_from_json. Defined.

#[global] Instance seed_result_wire : Wire SeedBridgeAssetsResult.
Proof.
  struct_wire (fun r => wire_ok (SeededAssets r) /\ wire_ok (SeededWindows r)) seed_result_to_json seed_result_from_json.
Defined.

Lemma withdrawal_response_read (w : WithdrawalRecord) :
  u64_ok (SourceLogIndex (WIdentity w)) -> u64_ok (Nonce (WIdentity w)) -> u64_ok (WDeadline w) -> u64_ok (BlockHeight w) ->
  from_json (WithdrawalResponse w) = Ok (withdrawal_view w).
Proof.
  intros Hl Hn Hd Hb. unfold WithdrawalResponse. cbn [from_json WithdrawalView_from_json members res_bind].
  repeat read_field. reflexivity.
Qed.

