(* ===== verification/Handlers.v ===== *)
(** [chain/aegislink/networked] (start.go, seed.go, and app.go's faucet
    transaction): the HTTP interface of a running node. A handler works on the
    same application as the blocks of [Node]; it saves it as [Runtime] does.

    An error other than a panic is answered with a status; a panic ends the
    connection without an answer. Headers are not modelled. *)

From Stdlib Require Import Ascii String.
From stdpp Require Import strings.
From S2P Require Import Prelude.
From S2P Require Import GoStrings.
From S2P Require Import Errors.
From S2P Require Import JSON.
From S2P Require Registry.
From S2P Require Bridge.
From S2P Require Limits.
From S2P Require Bank.
From S2P Require RouteProfile.
From S2P Require IBCRouter.
From S2P Require Import BridgeTypes.
From S2P Require Import App.
From S2P Require Import DemoTx.
From S2P Require Import Config.
From S2P Require Import Runtime.
From S2P Require Import Restart.
From S2P Require Import ChainApp.
From S2P Require Import Node.
From S2P Require Import Delivery.
From S2P Require Import Views.

(** ** Messages *)

(** A body is a document, or a text that is none. *)
Inductive http_body := BodyJSON (j : json) | BodyText (s : string).

Record http_request := mk_http_request {
  HttpMethod : string;
  URLPath : string;
  RawQuery : string;
  HttpBody : http_body
}.

Record http_response := mk_http_response { HttpStatus : N; RespBody : http_body }.

Definition decode_body {A} `{FromJSON A} (b : http_body) : result A :=
  match b with BodyJSON j => from_json j | BodyText _ => Err (Errorf "invalid JSON document") end.

(** The text between the quotes of the error document that [http.Error] is
    given. A quote, a backslash or a control byte in it is taken to break the
    document. *)
Definition plain_text (s : string) : bool :=
  forallb (fun c => negb (byte_is 34 c || byte_is 92 c || byte_in 0 31 c)) (list_ascii_of_string s).

Definition error_body (message : string) : http_body :=
  if plain_text message then BodyJSON (JObject [("error"%string, JString message)])
  else BodyText ("{" +:+ dquote +:+ "error" +:+ dquote +:+ ":" +:+ dquote +:+ message +:+ dquote +:+ "}" +:+ newline).

Definition ok_json (j : json) : http_response := mk_http_response 200 (BodyJSON j).
Definition failure (status : N) (message : string) : http_response := mk_http_response status (error_body message).

(** ** Seeding (seed.go) *)

Definition trim_asset (a : Registry.Asset) : Registry.Asset :=
  Registry.mk_asset (TrimSpace (Registry.AssetID a)) (TrimSpace (Registry.SourceChainID a)) (Registry.SourceAssetKind a)
    (TrimSpace (Registry.SourceAssetAddress a)) (TrimSpace (Registry.SourceContract a)) (TrimSpace (Registry.Denom a))
    (Registry.DestinationDenom a) (Registry.Decimals a) (TrimSpace (Registry.DisplayName a))
    (TrimSpace (Registry.DisplaySymbol a)) (Registry.Enabled a).

Fixpoint decode_seed_assets (l : list Registry.Asset) : result (list Registry.Asset) :=
  match l with
  | [] => Ok []
  | asset :: l =>
      let asset := trim_asset asset in
      let? _ := Registry.ValidateBasic asset in
      let? rest := decode_seed_assets l in
      Ok (asset :: rest)
  end.

Fixpoint decode_seed_limits (assetIDs : list string) (l : list SeedBridgeLimitPayload) (parsed : gmap string Z)
    : result (list SeedBridgeLimitPayload * gmap string Z) :=
  match l with
  | [] => Ok ([], parsed)
  | limit :: l =>
      let assetID := TrimSpace (SeedAssetID limit) in
      let? _ := ensure (eqs assetID EmptyString) (Errorf "missing rate-limit asset id") in
      let? _ := ensure (N.eqb (SeedWindowBlocks limit) 0)
        (Errorf ("missing rate-limit window seconds for " +:+ assetID)) in
      let? _ := ensure (negb (bool_decide (assetID ∈ assetIDs)))
        (Errorf ("rate limit references unknown asset " +:+ assetID)) in
      let invalid := Errorf ("invalid rate-limit amount " +:+ Quote (SeedMaxAmount limit) +:+ " for " +:+ assetID) in
      match SetString10 (TrimSpace (SeedMaxAmount limit)) with
      | Some amount =>
          let? _ := ensure (amount <=? 0)%Z invalid in
          let? r := decode_seed_limits assetIDs l (<[assetID := amount]> parsed) in
          Ok (mk_seed_limit assetID (SeedWindowBlocks limit) (format_int amount) :: fst r, snd r)
      | None => Err invalid
      end
  end.

Definition decodeSeedBridgeAssetsPayload (payload : SeedBridgeAssetsPayload)
    : result (SeedBridgeAssetsPayload * gmap string Z) :=
  match SeedAssets payload with
  | [] => Err (Errorf "missing bridge assets")
  | _ =>
      let? assets := decode_seed_assets (SeedAssets payload) in
      let? r := decode_seed_limits (map Registry.AssetID assets) (SeedLimits payload) ∅ in
      Ok (mk_seed assets (fst r), snd r)
  end.

Definition cleanSeedStrings (items : list string) : list string :=
  filter (fun s => s <> EmptyString) (map TrimSpace items).

Fixpoint decode_routes (l : list RouteProfile.AssetRoute) : result (list RouteProfile.AssetRoute) :=
  match l with
  | [] => Ok []
  | asset :: l =>
      let route := RouteProfile.asset_route_Canonical asset in
      let? _ := RouteProfile.asset_route_ValidateBasic route in
      let? rest := decode_routes l in
      Ok (route :: rest)
  end.

Definition decodeSetRouteProfilePayload (payload : SetRouteProfilePayload) : result RouteProfile.RouteProfile :=
  let? assets := decode_routes (SrpAssets payload) in
  let profile := RouteProfile.mk_profile (TrimSpace (SrpRouteID payload)) (TrimSpace (SrpDestinationChainID payload))
    (TrimSpace (SrpChannelID payload)) (SrpEnabled payload) assets
    (RouteProfile.mk_policy (cleanSeedStrings (SrpMemoPrefixes payload)) (cleanSeedStrings (SrpActionTypes payload))) in
  let? _ := RouteProfile.profile_ValidateBasic profile in
  Ok (RouteProfile.profile_Canonical profile).

Definition DecodeSetRouteProfilePayloadForCLI := decodeSetRouteProfilePayload.

Definition sameSeededAsset (existing expected : Registry.Asset) : bool :=
  eqs (Registry.AssetID existing) (Registry.AssetID expected) &&
  eqs (Registry.SourceChainID existing) (Registry.SourceChainID expected) &&
  eqs (Registry.SourceAssetKind existing) (Registry.SourceAssetKind expected) &&
  EqualFold (Registry.SourceAssetAddress existing) (Registry.SourceAssetAddress expected) &&
  EqualFold (Registry.SourceContract existing) (Registry.SourceContract expected) &&
  eqs (Registry.Denom existing) (Registry.Denom expected) &&
  N.eqb (Registry.Decimals existing) (Registry.Decimals expected) &&
  eqs (Registry.DisplayName existing) (Registry.DisplayName expected) &&
  eqs (Registry.DisplaySymbol existing) (Registry.DisplaySymbol expected) &&
  Bool.eqb (Registry.Enabled existing) (Registry.Enabled expected).

(** The result of setting a profile shows the profile. *)
Definition profile_result (p : RouteProfile.RouteProfile) : SetRouteProfileResult :=
  mk_route_payload (RouteProfile.RouteID p) (RouteProfile.ProfileChainID p) (RouteProfile.ProfileChannelID p)
    (RouteProfile.ProfileEnabled p) (RouteProfile.Assets p) (RouteProfile.AllowedMemoPrefixes (RouteProfile.Policy p))
    (RouteProfile.AllowedActionTypes (RouteProfile.Policy p)).

Definition unregistered (assetID : string) : error :=
  Errorf ("asset " +:+ assetID +:+ " is not registered in the AegisLink runtime").

Section app.
Context `{MapIteration}.

Definition ensureSeededAsset (asset : Registry.Asset) : Op App unit :=
  let! existing := gets (fun a => Registry.GetAsset (RegistryKeeper a) (Registry.AssetID asset)) in
  match existing with
  | Some existing =>
      throw_if (negb (sameSeededAsset existing asset))
        (Errorf ("asset " +:+ Registry.AssetID asset +:+ " already exists with different metadata"))
  | None => App.RegisterAsset asset
  end.

Definition seed_limit (parsed : gmap string Z) (l : SeedBridgeLimitPayload) : Op App unit :=
  App.SetLimit (Limits.mk_limit (SeedAssetID l) (SeedWindowBlocks l) (Some (default 0%Z (parsed !! SeedAssetID l)))).

(** The loop over the assets of a profile. *)
Definition assets_registered (a : App) (profile : RouteProfile.RouteProfile) : result unit :=
  first_error (map (fun r => (negb (bool_decide (is_Some (Registry.GetAsset (RegistryKeeper a) (RouteProfile.RouteAssetID r)))),
    unregistered (RouteProfile.RouteAssetID r))) (RouteProfile.Assets profile)).

Definition set_route_profile (profile : RouteProfile.RouteProfile) : Op App unit :=
  query (fun a => assets_registered a profile) ;;;
  App.SetRouteProfile profile.
End app.

(** ** The faucet (app.go) *)

(** The answer of a broadcast: the check of the transaction and its result. *)
Record commit_response := mk_commit {
  CheckCode : N; CheckLog : string; DeliverCode : N; DeliverLog : string; DeliverData : http_body
}.

(** What is left of the SDK: the faucet's account, the signed bytes of a bank
    send, and CometBFT, which puts a transaction into a block. *)
Class Faucet (W : Type) := {
  faucetAddress : string;
  faucet_Account : W -> option (N * N);                       (* number and sequence *)
  coin_IsPositive : Coin -> bool;
  SignedSend : N * N -> string -> Coin -> result string;
  BroadcastTxCommit : string -> Op (ABCIApplication W) commit_response
}.

Section faucet.
Context {W : Type} `{CosmosSDK W} `{Faucet W}.

Definition BuildDemoFaucetSendTx (w : W) (address : string) (coin : Coin) : result string :=
  let? _ := ensure (blank address) (Errorf "missing funded account address") in
  let? _ := match coin_Validate coin with Ok _ => Ok tt | Err e => Err (Prefixed "invalid funded coin" e) end in
  let? _ := ensure (negb (coin_IsPositive coin)) (Errorf "funded amount must be positive") in
  match faucet_Account w with
  | None => Err (Errorf ("demo faucet account " +:+ faucetAddress +:+ " is not initialized"))
  | Some account => SignedSend account (TrimSpace address) coin
  end.
End faucet.

(** ** The node behind its interface *)

Record DemoNode (W : Type) := mk_demo_node {
  dnNode : ABCIApplication W;
  dnRuntime : RuntimeApp;           (* its keepers are those of [dnNode] *)
  dnDisk : World;
  dnIntents : IntentStore
}.
Arguments mk_demo_node {W}.
Arguments dnNode {W}.
Arguments dnRuntime {W}.
Arguments dnDisk {W}.
Arguments dnIntents {W}.

Section handlers.
Context {W : Type} `{CosmosSDK W} `{Faucet W} `{MapIteration} `{Crypto} `{Bank.AddressCodec} `{Environment} `{SDKStore}.
Context (ready : ReadyState) (resolver : option DestinationTxResolver).

Abbreviation Handler A := (Op (DemoNode W) A).

(** In the store-backed mode the disk follows the keepers, as in [Runtime]. *)
Definition set_node (n : ABCIApplication W) (d : DemoNode W) :=
  let process := set_keepers (Node.app n) (dnRuntime d) in
  mk_demo_node n process (sync process (dnDisk d)) (dnIntents d).
Definition set_intents (i : IntentStore) (d : DemoNode W) := mk_demo_node (dnNode d) (dnRuntime d) (dnDisk d) i.
Definition on_node {A} (m : Op (ABCIApplication W) A) : Handler A := zoom dnNode set_node m.
Definition on_runtime_app {A} (m : Op App A) : Handler A := on_node (on_app m).
Definition on_intents {A} (m : Op IntentStore A) : Handler A := zoom dnIntents set_intents m.

Definition node_app (d : DemoNode W) : App := Node.app (dnNode d).
Definition process_of (d : DemoNode W) : Process := (set_keepers (node_app d) (dnRuntime d), dnDisk d).

(** [n.app.Save()]. *)
Definition save_app : Handler unit := fun d =>
  let '(r, p) := Runtime.Save (process_of d) in
  (r, mk_demo_node (Node.set_app (Keepers p.1) (dnNode d)) p.1 p.2 (dnIntents d)).

Definition handleQueueDepositClaim (body : http_body) : Handler json :=
  let! payload := lift (decode_body body) in
  let! decoded := lift (depositClaimAndAttestationFromPayload payload) in
  let '(claim, attestation) := decoded in
  on_runtime_app (App.QueueDepositClaim claim attestation) ;;;
  save_app ;;;
  ret (JObject (member "status" "queued"%string ++ member "message_id" (MessageID (Identity claim)) ++
    member "asset_id" (BridgeTypes.AssetID claim) ++ member "amount" (big_String (Amount claim)))).

Definition handleInitiateIBCTransfer (body : http_body) : Handler json :=
  let! payload := lift (decode_body body) in
  throw_if (blank (IbcAssetID payload)) (Errorf "missing asset id") ;;;
  throw_if (blank (IbcReceiver payload)) (Errorf "missing receiver") ;;;
  throw_if (N.eqb (IbcTimeoutHeight payload) 0) (Errorf "missing timeout height") ;;;
  let! amount := lift (parse_amount (IbcAmount payload) "invalid amount") in
  let! transfer := on_runtime_app (initiate_transfer payload amount) in
  save_app ;;;
  ret (transferJSONResponse transfer).

Definition handleFundAccount (body : http_body) : Handler json :=
  let! chain := gets (fun d => chainApp (dnNode d)) in
  let! chain := some_or chain (Errorf "fund account requires chain app") in
  let! payload := lift (decode_body body) in
  let! decoded := lift (decodeFundAccountPayload payload) in
  let '(payload, amount) := decoded in
  let! coin := lift (new_coin (FundDenom payload) amount) in
  let! txBytes := lift (BuildDemoFaucetSendTx chain (FundAddress payload) coin) in
  let! resp := on_node (BroadcastTxCommit txBytes) in
  throw_if (negb (N.eqb (CheckCode resp) 0)) (Errorf ("fund account check tx failed: " +:+ CheckLog resp)) ;;;
  throw_if (negb (N.eqb (DeliverCode resp) 0)) (Errorf ("fund account tx failed: " +:+ DeliverLog resp)) ;;;
  ret (to_json (match decode_body (DeliverData resp) with
                | Ok result => result
                | Err _ => mk_fund_payload (FundAddress payload) (FundDenom payload) (format_int amount)
                end)).

Definition handleSeedBridgeAssets (body : http_body) : Handler json :=
  let! payload := lift (decode_body body) in
  let! decoded := lift (decodeSeedBridgeAssetsPayload payload) in
  let '(payload, parsedLimits) := decoded in
  on_runtime_app (for_each ensureSeededAsset (SeedAssets payload)) ;;;
  on_runtime_app (for_each (seed_limit parsedLimits) (SeedLimits payload)) ;;;
  save_app ;;;
  ret (to_json (mk_seed_result "seeded" (length (SeedAssets payload)) (length (SeedLimits payload))
    (map Registry.AssetID (SeedAssets payload)) (map SeedWindowBlocks (SeedLimits payload)))).

Definition handleSetRouteProfile (body : http_body) : Handler json :=
  let! payload := lift (decode_body body) in
  let! profile := lift (decodeSetRouteProfilePayload payload) in
  on_runtime_app (set_route_profile profile) ;;;
  save_app ;;;
  ret (to_json (profile_result profile)).

(** A handler's error is answered with [status]; a panic is not answered. *)
Definition answered (status : N) (m : Handler json) : Handler http_response :=
  let! r := recovered m in
  ret (match r with Ok j => ok_json j | Err e => failure status (error_text e) end).

Definition post_only (method : string) (m : Handler json) : Handler http_response :=
  if eqs method "POST" then answered 400 m else ret (failure 405 "method not allowed").

Definition transfer_le (x y : IBCRouter.TransferRecord) : Prop := String.le (IBCRouter.TransferID x) (IBCRouter.TransferID y).
#[local] Instance transfer_le_dec x y : Decision (transfer_le x y).
Proof. unfold transfer_le. apply _. Defined.

Definition serve_balances (rawQuery : string) (d : DemoNode W) : result json :=
  let address := TrimSpace (QueryGet rawQuery "address") in
  let? _ := ensure (eqs address EmptyString) (Errorf "missing address") in
  let? balances := App.WalletBalances (node_app d) address in
  Ok (to_json balances).

Definition serve_bridge_status (rawQuery : string) (d : DemoNode W) : result json :=
  let sourceTxHash := TrimSpace (QueryGet rawQuery "sourceTxHash") in
  let? _ := ensure (eqs sourceTxHash EmptyString) (Errorf "missing sourceTxHash") in
  let? view := ResolveBridgeSessionView (Some (node_app d)) (dnIntents d) sourceTxHash resolver in
  Ok (to_json view).

Definition serve_intents (method : string) (body : http_body) : Handler http_response :=
  if eqs method "GET" then
    answered 500 (let! intents := on_intents ListDeliveryIntents in ret (to_json intents))
  else if eqs method "POST" then
    answered 400 (
      let! payload := lift (decode_body body) in
      let! intent := on_intents (RegisterDeliveryIntent payload) in
      ret (to_json intent))
  else ret (failure 405 "method not allowed").

#[global] Instance ready_to_json : ToJSON ReadyState := fun r =>
  JObject (member "status" (RdyStatus r) ++ member "chain_id" (RdyChainID r) ++ member "node_id" (RdyNodeID r) ++
    member "home_dir" (RdyHomeDir r) ++ member "rpc_address" (RPCAddress r) ++
    member "comet_rpc_address" (CometRPCAddress r) ++ member "grpc_address" (GRPCAddress r) ++
    member "abci_address" (ABCIAddress r) ++ member "config_path" (RdyConfigPath r) ++
    member "comet_genesis_path" (CometGenesisPath r) ++ member "sdk_genesis_path" (SDKGenesisPath r) ++
    member "node_key_path" (NodeKeyPath r) ++ member "priv_validator_key_path" (PrivValidatorKeyPath r) ++
    member "priv_validator_state_path" (PrivValidatorStatePath r) ++ member "core_store_keys" (CoreStoreKeys r) ++
    member "sdk_genesis_modules" (SDKGenesisModules r)).

Definition serveHTTP (r : http_request) : Handler http_response :=
  let at_ path := eqs (URLPath r) path in
  if eqs (HttpMethod r) "OPTIONS" then ret (mk_http_response 204 (BodyText EmptyString))
  else if at_ "/healthz" then ret (ok_json (to_json ready))
  else if at_ "/status" then gets (fun d => ok_json (to_json (Runtime.Status (process_of d).1 (process_of d).2)))
  else if at_ "/balances" then answered 400 (query (serve_balances (RawQuery r)))
  else if at_ "/transfers" then
    gets (fun d => ok_json (transferJSONResponseList (merge_sort transfer_le (IBCRouter.ExportTransfers (IBCRouterKeeper (node_app d))))))
  else if at_ "/bridge-status" then answered 400 (query (serve_bridge_status (RawQuery r)))
  else if at_ "/delivery-intents" then serve_intents (HttpMethod r) (HttpBody r)
  else if at_ "/tx/queue-deposit-claim" then post_only (HttpMethod r) (handleQueueDepositClaim (HttpBody r))
  else if at_ "/tx/initiate-ibc-transfer" then post_only (HttpMethod r) (handleInitiateIBCTransfer (HttpBody r))
  else if at_ "/tx/fund-account" then post_only (HttpMethod r) (handleFundAccount (HttpBody r))
  else if at_ "/tx/seed-bridge-assets" then post_only (HttpMethod r) (handleSeedBridgeAssets (HttpBody r))
  else if at_ "/tx/set-route-profile" then post_only (HttpMethod r) (handleSetRouteProfile (HttpBody r))
  else ret (mk_http_response 404 (BodyText ("404 page not found" +:+ newline))).

(** ** What runs on the node: blocks, and requests between them *)

Inductive demo_event :=
| OnBlock (act : node_action)
| OnRequest (r : http_request).

Definition serve_event (ev : demo_event) (d : DemoNode W) : DemoNode W :=
  match ev with
  | OnBlock act => set_node (exec_node act (dnNode d)) d
  | OnRequest r => snd (serveHTTP r d)
  end.

Fixpoint serve_events (evs : list demo_event) (d : DemoNode W) : DemoNode W :=
  match evs with [] => d | ev :: evs => serve_events evs (serve_event ev d) end.

(** *** Methods that keep the books *)

Definition books {A} (m : Handler A) : Prop :=
  forall escrow d, good escrow (node_app d) ->
    exists escrow', escrow_le escrow escrow' /\ good escrow' (node_app (snd (m d))).

Lemma books_same {A} (m : Handler A) : (forall d, node_app (snd (m d)) = node_app d) -> books m.
Proof. intros Hm escrow d Hg. exists escrow. by rewrite Hm. Qed.

Lemma books_bind {A B} (m : Handler A) (f : A -> Handler B) : books m -> (forall a, books (f a)) -> books (bind m f).
Proof.
  intros Hm Hf escrow d Hg. destruct (Hm escrow d Hg) as (e1 & Hle & Hg1). unfold bind.
  destruct (m d) as [[a|e] d1]; cbn [snd] in *; [|by exists e1].
  destruct (Hf a e1 d1 Hg1) as (e2 & Hle2 & Hg2). exists e2. split; [by etrans|done].
Qed.

Lemma books_recovered {A} (m : Handler A) : books m -> books (recovered m).
Proof. intros Hm escrow d. rewrite recovered_state. apply Hm. Qed.
Lemma books_ret {A} (a : A) : books (ret a).
Proof. by apply books_same. Qed.
Lemma books_lift {A} (r : result A) : books (lift r).
Proof. by apply books_same. Qed.
Lemma books_query {A} (f : DemoNode W -> result A) : books (query f).
Proof. by apply books_same. Qed.
Lemma books_gets {A} (f : DemoNode W -> A) : books (gets f).
Proof. by apply books_same. Qed.
Lemma books_throw_if b e : books (throw_if b e).
Proof. apply books_same. by destruct b. Qed.
Lemma books_some_or {A} (o : option A) e : books (some_or o e).
Proof. apply books_same. by destruct o. Qed.

Lemma on_node_run {A} (m : Op (ABCIApplication W) A) d :
  on_node m d = (fst (m (dnNode d)), set_node (snd (m (dnNode d))) d).
Proof. unfold on_node, zoom. by destruct (m (dnNode d)). Qed.

Lemma on_runtime_app_run {A} (m : Op App A) d :
  on_runtime_app m d = (fst (m (node_app d)), set_node (Node.set_app (snd (m (node_app d))) (dnNode d)) d).
Proof. unfold on_runtime_app. by rewrite on_node_run, on_app_run. Qed.

Lemma books_app {A} (m : Op App A) : (forall escrow, preserves (good escrow) m) -> books (on_runtime_app m).
Proof. intros Hm escrow d Hg. rewrite on_runtime_app_run. exists escrow. split; [done|]. by apply Hm. Qed.

Lemma books_intents {A} (m : Op IntentStore A) : books (on_intents m).
Proof. apply books_same. intros d. unfold on_intents, zoom. by destruct (m (dnIntents d)). Qed.

(** [Save] flushes the keepers or leaves them. *)
Lemma save_keepers_good escrow p : good escrow (Keepers p.1) -> good escrow (Keepers (snd (Runtime.Save p)).1).
Proof.
  intros Hg. unfold Runtime.Save. rewrite gets_bind. destruct (store_mode p.1).
  - unfold bind, commit_keepers, on_keepers.
    pose proof (good_flush escrow (Keepers p.1) Hg) as Hf.
    destruct (flush_keepers (Keepers p.1)) as [[[]|e] a]; cbn [snd] in *; [|done].
    unfold persist_node_file, bind, gets, on_disk, zoom, modify. cbn [fst snd].
    destruct (on_files _ _) as [[[]|e] w]; cbn; [|done].
    apply (good_update _ a); try done; [apply Bridge.denoms_kept_refl|apply Hf|apply Hf].
  - unfold on_disk, zoom. by destruct (on_files _ _) as [r w].
Qed.

Lemma books_save : books save_app.
Proof.
  intros escrow d Hg. exists escrow. split; [done|]. unfold save_app.
  pose proof (save_keepers_good escrow (process_of d) Hg) as Hs.
  destruct (Runtime.Save (process_of d)) as [r p]. exact Hs.
Qed.

Lemma good_action escrow act {A} (m : Op App A) :
  (forall a, snd (m a) = exec_app act a) -> preserves (good escrow) m.
Proof. intros Hm a Hg. rewrite Hm. by apply good_exec. Qed.

Lemma ensureSeededAsset_good escrow asset : preserves (good escrow) (ensureSeededAsset asset).
Proof.
  unfold ensureSeededAsset. apply preserves_bind; [apply preserves_gets|]. intros [existing|]; [apply preserves_throw_if|].
  by apply (good_action _ (AppRegister asset)).
Qed.

Lemma seed_limit_good escrow parsed l : preserves (good escrow) (seed_limit parsed l).
Proof. by apply (good_action _ (AppSetLimit (Limits.mk_limit (SeedAssetID l) (SeedWindowBlocks l) (Some (default 0%Z (parsed !! SeedAssetID l)))))). Qed.

Lemma set_route_profile_good escrow profile : preserves (good escrow) (set_route_profile profile).
Proof.
  apply preserves_bind; [apply preserves_query|]. intros _. by apply (good_action _ (AppSetProfile profile)).
Qed.

Lemma initiate_good escrow payload amount : preserves (good escrow) (initiate_transfer payload amount).
Proof. intros a Hg. rewrite initiate_transfer_app. by apply good_set_router. Qed.

Ltac books_step := first
  [ apply books_bind; [|intros ?] | apply books_ret | apply books_lift | apply books_query | apply books_gets
  | apply books_throw_if | apply books_some_or | apply books_recovered | apply books_intents | apply books_save
  | apply books_app; intros ? ].
Ltac books_auto := repeat (books_step || (case_match; simplify_eq/=)).

Lemma books_queue body : books (handleQueueDepositClaim body).
Proof. unfold handleQueueDepositClaim. books_auto. by eapply (good_action _ (AppQueue _ _)). Qed.

Lemma books_initiate body : books (handleInitiateIBCTransfer body).
Proof. unfold handleInitiateIBCTransfer. books_auto. apply initiate_good. Qed.

Lemma books_seed body : books (handleSeedBridgeAssets body).
Proof.
  unfold handleSeedBridgeAssets. books_auto; apply preserves_for_each; intros ? _; [apply ensureSeededAsset_good|apply seed_limit_good].
Qed.

Lemma books_profile body : books (handleSetRouteProfile body).
Proof. unfold handleSetRouteProfile. books_auto. apply set_route_profile_good. Qed.

Lemma nodes_books act : books (on_node (fun n => (@Ok error unit tt, exec_node act n))).
Proof.
  intros escrow d Hg. rewrite on_node_run. cbn [fst snd]. exact (nodes_good escrow [act] (dnNode d) Hg).
Qed.

(** CometBFT works on the application by blocks, commits and checks only. *)
Definition by_blocks {A} (m : Op (ABCIApplication W) A) : Prop :=
  forall n, exists acts, snd (m n) = exec_nodes acts n.

Lemma books_blocks {A} (m : Op (ABCIApplication W) A) : by_blocks m -> books (on_node m).
Proof.
  intros Hm escrow d Hg. rewrite on_node_run. cbn [snd]. destruct (Hm (dnNode d)) as [acts Hacts].
  unfold node_app. cbn [set_node dnNode]. rewrite Hacts. by apply nodes_good.
Qed.

Section comet.
Hypothesis broadcast_by_blocks : forall tx, by_blocks (BroadcastTxCommit tx).

Lemma books_fund body : books (handleFundAccount body).
Proof. unfold handleFundAccount. books_auto. apply books_blocks, broadcast_by_blocks. Qed.

Lemma books_answered st m : books m -> books (answered st m).
Proof. intros Hm. unfold answered. books_auto; exact Hm. Qed.

Lemma books_post method m : books m -> books (post_only method m).
Proof. intros Hm. unfold post_only. case_match; [by apply books_answered|apply books_ret]. Qed.

Lemma books_serve_intents method body : books (serve_intents method body).
Proof. unfold serve_intents, answered. books_auto. Qed.

Lemma books_serve r : books (serveHTTP r).
Proof.
  unfold serveHTTP. cbv zeta. repeat match goal with |- books (if ?b then _ else _) => destruct b end;
    first [apply books_ret | apply books_gets | apply books_answered, books_query | apply books_serve_intents
    | apply books_post; first [apply books_queue|apply books_initiate|apply books_fund|apply books_seed|apply books_profile] ].
Qed.

Lemma books_event ev escrow d : good escrow (node_app d) ->
  exists escrow', escrow_le escrow escrow' /\ good escrow' (node_app (serve_event ev d)).
Proof.
  intros Hg. destruct ev as [act|r]; cbn [serve_event]; [|by apply books_serve].
  pose proof (nodes_books act escrow d Hg) as Hb. by rewrite on_node_run in Hb.
Qed.

Lemma books_events evs escrow d : good escrow (node_app d) ->
  exists escrow', escrow_le escrow escrow' /\ good escrow' (node_app (serve_events evs d)).
Proof.
  revert escrow d. induction evs as [|ev evs IH]; intros escrow d Hg; cbn [serve_events]; [by exists escrow|].
  destruct (books_event ev escrow d Hg) as (e1 & Hle1 & Hg1). destruct (IH e1 _ Hg1) as (e2 & Hle2 & Hg2).
  exists e2. split; [by etrans|done].
Qed.

(** C2: a running node never lets the wallets hold more than the bridge has
    minted, whoever talks to it and in whatever order: blocks of any
    transactions, commits and checks, and between them any requests to its HTTP
    interface — with any method, path and body, valid or not, the ones that set
    up assets, limits and routes without a signature included. The keepers'
    invariants hold throughout. CometBFT is assumed to act on the application by
    blocks, commits and checks only. *)
Theorem http_solvent (evs : list demo_event) (d : DemoNode W) :
  app_inv (node_app d) -> backed (node_app d) -> Bank.persistHook (BankKeeper (node_app d)) = [] ->
  app_inv (node_app (serve_events evs d)) /\
  forall denom, (Bank.total (Bank.balances (BankKeeper (node_app (serve_events evs d)))) denom <=
                 BridgeState.SupplyForDenom (BridgeKeeper (node_app (serve_events evs d))) denom)%Z.
Proof.
  intros Hi Hb Hh. destruct (books_events evs (fun _ => 0%Z) d) as (escrow & Hle & [Hinv Hback _]).
  { by split; [|apply backed_with_none|]. }
  split; [done|]. intros denom. specialize (Hle denom). specialize (Hback denom). cbn in Hle. lia.
Qed.
End comet.

(** *** Requests that only read *)

Definition write_paths : list string :=
  ["/tx/queue-deposit-claim"; "/tx/initiate-ibc-transfer"; "/tx/fund-account"; "/tx/seed-bridge-assets";
   "/tx/set-route-profile"]%string.

(** A request that may change the node: a POST to one of the five transaction
    paths or to the delivery intents. *)
Definition may_write (r : http_request) : bool :=
  eqs (HttpMethod r) "POST" && bool_decide (URLPath r ∈ "/delivery-intents"%string :: write_paths).

Lemma answered_frame st m d : snd (m d) = d -> snd (answered st m d) = d.
Proof.
  intros Hm. unfold answered, bind. pose proof (recovered_state m d) as Hr.
  destruct (recovered m d) as [[r|e] d']; cbn [snd ret] in *; congruence.
Qed.

Lemma list_intents_frame d : snd (on_intents ListDeliveryIntents d) = d.
Proof.
  unfold on_intents, zoom, ListDeliveryIntents, loadDeliveryIntents, query, gets, bind, lift.
  destruct d as [n r w i]. cbn. repeat case_match; by simplify_eq/=.
Qed.

(** The HTTP interface writes only where it says so. A request that is not
    a POST to one of the five transaction paths or to the delivery intents —
    another method, another path, a preflight, a query with any parameters —
    leaves the application, the chain, the files and the intents as they were.
    A method other than POST on a transaction path is refused as such. *)
Theorem reads_change_nothing (r : http_request) (d : DemoNode W) :
  (may_write r = false -> snd (serveHTTP r d) = d) /\
  (HttpMethod r <> "POST"%string -> HttpMethod r <> "OPTIONS"%string -> URLPath r ∈ write_paths ->
   serveHTTP r d = (Ok (failure 405 "method not allowed"), d)).
Proof.
  assert (Hq : forall st (f : DemoNode W -> result json), snd (answered st (query f) d) = d) by (intros; by apply answered_frame).
  split.
  - unfold may_write. rewrite andb_false_iff, bool_decide_eq_false. intros Hw. unfold serveHTTP. cbv zeta.
    repeat match goal with |- snd ((if eqs ?a ?b then _ else _) _) = _ =>
      destruct (eqs a b) eqn:?; [first [reflexivity|apply Hq|idtac]|] end; [..|reflexivity].
    { unfold serve_intents. destruct (eqs _ "GET") eqn:?.
      - apply answered_frame. unfold bind. pose proof (list_intents_frame d) as Hl.
        destruct (on_intents ListDeliveryIntents d) as [[l|e] d']; exact Hl.
      - destruct (eqs (HttpMethod r) "POST") eqn:Hp; [|done]. exfalso.
        destruct Hw as [Hw|Hw]; [congruence|]. apply Hw.
        match goal with Hu : eqs (URLPath r) _ = true |- _ => apply eqs_true in Hu as -> end. by left. }
    all: unfold post_only; destruct (eqs (HttpMethod r) "POST") eqn:Hp; [|done]; exfalso;
      (destruct Hw as [Hw|Hw]; [congruence|]); apply Hw;
      match goal with Hu : eqs (URLPath _) _ = true |- _ => apply eqs_true in Hu as -> end;
      unfold write_paths; set_solver.
  - intros Hp Ho Hin. unfold serveHTTP. cbv zeta. apply eqs_false in Hp. apply eqs_false in Ho. rewrite Ho.
    unfold write_paths in Hin. rewrite !elem_of_cons, elem_of_nil in Hin. unfold post_only. rewrite Hp.
    by destruct Hin as [->|[->|[->|[->|[->|[]]]]]].
Qed.

(** *** What has been answered is on the disk *)

(** A method of the application that amounts to operations of it, none a save. *)
Definition by_actions {A} (m : Op App A) : Prop :=
  forall a, exists acts, (AppSave ∉ acts) /\ snd (m a) = exec_apps acts a.

Lemma exec_apps_app acts acts' a : exec_apps (acts ++ acts') a = exec_apps acts' (exec_apps acts a).
Proof. revert a. induction acts as [|act acts IH]; intros a; [done|]. apply IH. Qed.

Lemma actions_frame {A} (m : Op App A) : (forall a, snd (m a) = a) -> by_actions m.
Proof. intros Hm a. exists []. split; [apply not_elem_of_nil|]. apply Hm. Qed.

Lemma actions_one act {A} (m : Op App A) : act <> AppSave -> (forall a, snd (m a) = exec_app act a) -> by_actions m.
Proof. intros Hact Hm a. exists [act]. rewrite Hm. split; [by apply not_elem_of_cons; split; [|apply not_elem_of_nil]|done]. Qed.

Lemma actions_bind {A B} (m : Op App A) (f : A -> Op App B) :
  by_actions m -> (forall a, by_actions (f a)) -> by_actions (bind m f).
Proof.
  intros Hm Hf a. destruct (Hm a) as (acts & Hn & He). unfold bind. destruct (m a) as [[x|e] a1]; cbn [snd] in *; [|by exists acts].
  destruct (Hf x a1) as (acts' & Hn' & He'). exists (acts ++ acts').
  rewrite exec_apps_app, <- He. split; [by apply not_elem_of_app|done].
Qed.

Lemma actions_for_each {A} (f : A -> Op App unit) l : (forall x, by_actions (f x)) -> by_actions (for_each f l).
Proof. intros Hf. induction l; cbn [for_each]; [by apply actions_frame|]. by apply actions_bind. Qed.

Lemma initiate_actions payload amount : by_actions (initiate_transfer payload amount).
Proof.
  unfold initiate_transfer. destruct (blank _).
  - by eapply (actions_one (AppInitiate _ _ _ _ _)).
  - by eapply (actions_one (AppInitiateWithProfile _ _ _ _ _ _)).
Qed.

Lemma ensure_actions asset : by_actions (ensureSeededAsset asset).
Proof.
  unfold ensureSeededAsset. apply actions_bind; [by apply actions_frame|]. intros [existing|].
  - apply actions_frame. intros a. by destruct (negb _).
  - by apply (actions_one (AppRegister asset)).
Qed.

Lemma seed_limit_actions parsed l : by_actions (seed_limit parsed l).
Proof. by eapply (actions_one (AppSetLimit _)). Qed.

Lemma set_profile_actions profile : by_actions (set_route_profile profile).
Proof. apply actions_bind; [by apply actions_frame|]. intros _. by apply (actions_one (AppSetProfile profile)). Qed.

Lemma snapshot_execs escrow acts r :
  AppSave ∉ acts -> snapshot_at escrow r -> snapshot_at escrow (set_keepers (exec_apps acts (Keepers r)) r).
Proof.
  revert r. induction acts as [|act acts IH]; intros r Hn Hr; cbn [exec_apps].
  - destruct r; exact Hr.
  - apply not_elem_of_cons in Hn as [Hne Hn].
    exact (IH (set_keepers (exec_app act (Keepers r)) r) Hn (snapshot_exec escrow act r (not_eq_sym Hne) Hr)).
Qed.

(** A node in the snapshot mode, on a home that holds [saved]. *)
Record on_home (escrow : string -> Z) (c : Config) (saved : App) (d : DemoNode W) : Prop := {
  oh_config : AppConfig (dnRuntime d) = c;
  oh_app : snapshot_at escrow (process_of d).1;
  oh_saved : snapshot_at escrow (set_keepers saved (dnRuntime d));
  oh_home : home_holds c saved (dnDisk d)
}.

(** Handlers that keep the node on the home it has. *)
Definition stays {A} (m : Handler A) : Prop :=
  forall escrow c saved d, on_home escrow c saved d -> on_home escrow c saved (snd (m d)).
(** Handlers whose success leaves the home with all the node has. *)
Definition saves {A} (m : Handler A) : Prop :=
  forall escrow c saved d, on_home escrow c saved d ->
    if is_ok (fst (m d)) then on_home escrow c (node_app (snd (m d))) (snd (m d)) else on_home escrow c saved (snd (m d)).

Lemma stays_frame {A} (m : Handler A) : (forall d, snd (m d) = d) -> stays m.
Proof. intros Hm escrow c saved d. by rewrite Hm. Qed.

Lemma stays_app {A} (m : Op App A) : by_actions m -> stays (on_runtime_app m).
Proof.
  intros Hm escrow c saved d [Hc Ha Hs Hh]. rewrite on_runtime_app_run. destruct (Hm (node_app d)) as (acts & Hn & He).
  pose proof (snapshot_execs escrow acts _ Hn Ha) as Ha'. cbn [snd]. rewrite He.
  assert (Hst : storeRuntime (dnRuntime d) = None) by (change (storeRuntime (set_keepers saved (dnRuntime d)) = None); by rewrite (sn_form _ _ Hs)).
  split; cbn [set_node process_of node_app dnRuntime dnNode dnDisk Node.set_app Node.app fst]; [done|exact Ha'|exact Hs|].
  unfold sync. cbn [set_keepers storeRuntime]. by rewrite Hst.
Qed.

Lemma saves_bind {A B} (m : Handler A) (f : A -> Handler B) : stays m -> (forall a, saves (f a)) -> saves (bind m f).
Proof.
  intros Hm Hf escrow c saved d Hd. specialize (Hm escrow c saved d Hd). unfold bind.
  destruct (m d) as [[a|e] d1]; [by apply Hf|exact Hm].
Qed.

Lemma saves_then {A B} (m : Handler A) (b : A -> B) : saves m -> saves (let! a := m in ret (b a)).
Proof. intros Hm escrow c saved d Hd. specialize (Hm escrow c saved d Hd). unfold bind. by destruct (m d) as [[a|e] d1]. Qed.

Lemma saves_app : saves save_app.
Proof.
  intros escrow c saved d [Hc Ha Hs Hh]. unfold save_app.
  pose proof (event_step escrow ESave (process_of d).1 (process_of d).2 saved) as Hstep.
  change (set_keepers saved (process_of d).1) with (set_keepers saved (dnRuntime d)) in Hstep.
  change (AppConfig (process_of d).1) with (AppConfig (dnRuntime d)) in Hstep. rewrite Hc in Hstep.
  specialize (Hstep Ha Hs Hh). cbn [handle_event last_saved] in Hstep.
  change ((process_of d).1, (process_of d).2) with (process_of d) in Hstep.
  destruct (Runtime.Save (process_of d)) as [r p] eqn:Hrun. cbn [snd fst] in *. destruct Hstep as (Hp & Hpc & Hps & Hph).
  assert (Hkeep : p.1 = (process_of d).1).
  { change (process_of d) with ((process_of d).1, (process_of d).2) in Hrun. rewrite (Save_run escrow) in Hrun by done.
    cbv zeta in Hrun. destruct (bind _ _ _) as [x f]. by injection Hrun as _ <-. }
  assert (Hself : set_keepers (Keepers p.1) p.1 = p.1) by by destruct (p.1).
  assert (Hk' : Keepers (process_of d).1 = Keepers p.1) by by rewrite Hkeep.
  destruct r as [[]|e]; cbn [is_ok] in *; rewrite ?Hk' in *;
    (split; cbn [dnRuntime dnDisk dnNode process_of node_app Node.set_app Node.app fst]; [exact Hpc|by rewrite Hself|exact Hps|exact Hph]).
Qed.

Lemma stays_lift {A} (r : result A) : stays (lift r).
Proof. by apply stays_frame. Qed.
Lemma stays_throw_if b e : stays (throw_if b e).
Proof. apply stays_frame. by destruct b. Qed.

Ltac saves_step := first
  [ apply saves_bind; [first [apply stays_lift | apply stays_throw_if | apply stays_app] | intros ?]
  | apply (saves_then save_app); exact saves_app ].

Definition saving_paths : list string :=
  ["/tx/queue-deposit-claim"; "/tx/initiate-ibc-transfer"; "/tx/seed-bridge-assets"; "/tx/set-route-profile"]%string.

Lemma saves_queue body : saves (handleQueueDepositClaim body).
Proof.
  unfold handleQueueDepositClaim. saves_step. saves_step. destruct a0 as [claim attestation]. saves_step; [|saves_step].
  by apply (actions_one (AppQueue claim attestation)).
Qed.

Lemma saves_initiate body : saves (handleInitiateIBCTransfer body).
Proof. unfold handleInitiateIBCTransfer. repeat saves_step. apply initiate_actions. Qed.

Lemma saves_seed body : saves (handleSeedBridgeAssets body).
Proof.
  unfold handleSeedBridgeAssets. saves_step. saves_step. destruct a0 as [payload limits].
  repeat saves_step; apply actions_for_each; intros x; [apply ensure_actions|apply seed_limit_actions].
Qed.

Lemma saves_profile body : saves (handleSetRouteProfile body).
Proof. unfold handleSetRouteProfile. repeat saves_step. apply set_profile_actions. Qed.

Lemma saved_answer escrow c saved d m resp d' : saves m -> on_home escrow c saved d ->
  answered 400 m d = (Ok resp, d') ->
  on_home escrow c (if N.eqb (HttpStatus resp) 200 then node_app d' else saved) d'.
Proof.
  intros Hm Hd. specialize (Hm escrow c saved d Hd). unfold answered, bind.
  destruct (recovered_cases m d) as [(e & _ & _ & ->)| ->]; [done|]. intros [= <- <-].
  destruct (fst (m d)) as [j|e]; exact Hm.
Qed.

Lemma home_loads escrow c saved d : on_home escrow c saved d ->
  LoadWithConfig c (dnDisk d) = (Ok (set_keepers (renumbered saved) (dnRuntime d)), dnDisk d).
Proof.
  intros [Hc _ Hs Hh]. rewrite <- Hc in Hh |- *.
  exact (load_holds escrow (set_keepers saved (dnRuntime d)) saved (dnDisk d) Hs Hh).
Qed.

(** C34: what the node has answered survives a crash. Let a node in the snapshot
    mode, on a home that loads as what was last saved, answer a POST to one of
    the four paths that save. If the answer is 200, the home loads as exactly
    the keepers the node now has; with any other answer, whatever failed — the
    body, a check of the keepers, any step of writing the file — the home still
    loads as what it held before. *)
Theorem answered_is_durable (escrow : string -> Z) (c : Config) (saved : App) (r : http_request)
    (d d' : DemoNode W) (resp : http_response) :
  on_home escrow c saved d -> HttpMethod r = "POST"%string -> URLPath r ∈ saving_paths ->
  serveHTTP r d = (Ok resp, d') ->
  LoadWithConfig c (dnDisk d') =
    (Ok (set_keepers (renumbered (if N.eqb (HttpStatus resp) 200 then node_app d' else saved)) (dnRuntime d')), dnDisk d').
Proof.
  intros Hd Hp Hin Hserve. apply (home_loads escrow). revert Hserve. unfold serveHTTP. cbv zeta. rewrite Hp.
  unfold saving_paths in Hin. rewrite !elem_of_cons, elem_of_nil in Hin. unfold post_only.
  destruct Hin as [->|[->|[->|[->|[]]]]]; cbn [eqs eqb].
  - apply saved_answer; [apply saves_queue|done].
  - apply saved_answer; [apply saves_initiate|done].
  - apply saved_answer; [apply saves_seed|done].
  - apply saved_answer; [apply saves_profile|done].
Qed.
End handlers.

(** ** Concrete requests *)

#[local] Existing Instance Bridge.toy_crypto.
#[local] Existing Instance Bank.toy_codec.
#[local] Existing Instance Config.demo_environment.
#[local] Existing Instance Restart.demo_sdk.
#[local] Existing Instance ChainApp.ledger_sdk.

(** A faucet whose transactions CometBFT puts into a block of their own. *)
Definition demo_broadcast (tx : string) : Op (ABCIApplication Ledger) commit_response := fun n =>
  (Ok (mk_commit 0 EmptyString 0 EmptyString (BodyText EmptyString)), exec_nodes [NodeBlock (mk_block 101 [TxOther tx]); NodeCommit] n).
#[local] Instance demo_faucet : Faucet Ledger := {|
  faucetAddress := "faucet";
  faucet_Account _ := Some (0%N, 0%N);
  coin_IsPositive c := (0 <? CoinAmount c)%Z;
  SignedSend _ address c := Ok ("send " +:+ address);
  BroadcastTxCommit := demo_broadcast
|}.

Lemma demo_broadcast_blocks tx : by_blocks (demo_broadcast tx).
Proof. intros n. by eexists. Qed.

Definition demo_ready : ReadyState := zero_ready EmptyString.
Definition serve := serveHTTP (W:=Ledger) demo_ready None.
Definition post (path : string) (j : json) : http_request := mk_http_request "POST" path EmptyString (BodyJSON j).

Definition demo_seed (assets : list Registry.Asset) : http_request :=
  post "/tx/seed-bridge-assets" (to_json (mk_seed assets [mk_seed_limit "eth.usdc" 600 "1500"])).
Definition demo_route : http_request :=
  post "/tx/set-route-profile" (to_json (mk_route_payload " osmo" "osmosis-1" "channel-0" true
    [RouteProfile.mk_asset_route "eth.usdc" "ibc/uethusdc"] ["swap:"%string; " "%string] ["swap"%string])).
Definition demo_initiate (sender amount : string) : http_request :=
  post "/tx/initiate-ibc-transfer" (JObject (member "sender" sender ++ member "route_id" "osmo"%string ++
    member "asset_id" "eth.usdc"%string ++ member "amount" amount ++ member "receiver" "osmo1user"%string ++
    member "timeout_height" 700%N ++ member "memo" "swap:uosmo"%string)).
Definition demo_fund : http_request :=
  post "/tx/fund-account" (to_json (mk_fund_payload "cosmos1recipient" "uethusdc" "5")).

(** A node on the new home of [Restart]. *)
Definition fresh_node : DemoNode Ledger :=
  mk_demo_node (mk_node (fresh_keepers demo_config) (Some demo_ledger) NoHash false false)
    (new_app demo_config) demo_home (mk_intents NoFile []).

Lemma fresh_on_home : on_home (fun _ => 0%Z) demo_config (fresh_keepers demo_config) fresh_node.
Proof.
  split; [reflexivity|exact demo_snapshot|exact demo_snapshot|exact demo_holds].
Qed.

Definition seeded : result http_response * DemoNode Ledger := serve (demo_seed [Registry.demo_usdc]) fresh_node.
Definition answer_status (r : result http_response) : N := match r with Ok resp => HttpStatus resp | Err _ => 0 end.

Lemma answered_is_durable_witness :
  LoadWithConfig demo_config (dnDisk (snd seeded)) =
    (Ok (set_keepers (renumbered (node_app (snd seeded))) (dnRuntime (snd seeded))), dnDisk (snd seeded)) /\
  Registry.Denom <$> Registry.GetAsset (RegistryKeeper (node_app (snd seeded))) "eth.usdc" = Some "uethusdc"%string.
Proof.
  split; [|by vm_compute].
  assert (Hr : exists resp, serve (demo_seed [Registry.demo_usdc]) fresh_node = (Ok resp, snd seeded) /\ HttpStatus resp = 200%N).
  { assert (Hs : answer_status (fst seeded) = 200%N) by (by vm_compute). change (serve (demo_seed [Registry.demo_usdc]) fresh_node) with seeded.
    destruct seeded as [[resp|e] d]; [by exists resp|discriminate Hs]. }
  destruct Hr as (resp & Hr & Hst).
  pose proof (answered_is_durable demo_ready None (fun _ => 0%Z) demo_config (fresh_keepers demo_config)
    (demo_seed [Registry.demo_usdc]) fresh_node (snd seeded) resp fresh_on_home eq_refl ltac:(right; right; left) Hr) as Hl.
  by rewrite Hst in Hl.
Defined.

(** A node whose registry has the asset, and what is asked of it: a claim is
    queued over HTTP and lands in a block; a transfer is initiated over HTTP,
    and a wallet is funded. *)
Definition start_node : DemoNode Ledger :=
  mk_demo_node demo_node (newAppFromKeepers demo_config App.demo_app None) demo_home (mk_intents NoFile []).
Definition demo_queue : http_request :=
  post "/tx/queue-deposit-claim" (to_json (mk_submission (claim_payload BridgeTypes.demo_claim) (Bridge.demo_attested BridgeTypes.demo_claim))).
Definition demo_requests : list demo_event := [
  OnRequest demo_route; OnRequest demo_queue; OnBlock (NodeBlock (mk_block 103 [demo_transfer_tx "nobody" 25]));
  OnRequest demo_fund; OnRequest (demo_initiate "cosmos1recipient" "40"); OnBlock NodeCommit;
  OnRequest (mk_http_request "GET" "/transfers" EmptyString (BodyText EmptyString)) ].
Definition served_node : DemoNode Ledger := serve_events demo_ready None demo_requests start_node.

Lemma http_solvent_witness :
  App.WalletBalance (node_app served_node) "cosmos1recipient" "uethusdc" = 1000%Z /\
  forall denom, (Bank.total (Bank.balances (BankKeeper (node_app served_node))) denom <=
    BridgeState.SupplyForDenom (BridgeKeeper (node_app served_node)) denom)%Z.
Proof.
  split; [by vm_compute|].
  exact (proj2 (http_solvent demo_ready None demo_broadcast_blocks demo_requests start_node
    App.demo_app_inv App.demo_app_backed eq_refl)).
Defined.

Lemma reads_change_nothing_witness :
  snd (serve (mk_http_request "DELETE" "/delivery-intents" EmptyString (BodyText EmptyString)) served_node) = served_node /\
  fst (serve (mk_http_request "GET" "/tx/fund-account" EmptyString (BodyText EmptyString)) served_node) =
    Ok (failure 405 "method not allowed").
Proof.
  split; [exact (proj1 (reads_change_nothing demo_ready None
    (mk_http_request "DELETE" "/delivery-intents" EmptyString (BodyText EmptyString)) served_node) eq_refl)|].
  assert (Hm : "GET"%string <> "POST"%string /\ "GET"%string <> "OPTIONS"%string) by done.
  unfold serve. rewrite (proj2 (reads_change_nothing demo_ready None (mk_http_request "GET" "/tx/fund-account" EmptyString
    (BodyText EmptyString)) served_node) (proj1 Hm) (proj2 Hm) ltac:(unfold write_paths; set_solver)). reflexivity.
Defined.

(** ** What the interface lets through *)

(** The sender of a transfer over HTTP is not looked at: the transfer is
    recorded, and the wallet keeps the amount; a transaction of the same payload
    in a block takes it. *)
Example http_transfer_is_free :
  let d := snd (serve (demo_initiate "cosmos1recipient" "40") served_node) in
  App.WalletBalance (node_app d) "cosmos1recipient" "uethusdc" = 1000%Z /\
  length (IBCRouter.ExportTransfers (IBCRouterKeeper (node_app d))) =
    S (length (IBCRouter.ExportTransfers (IBCRouterKeeper (node_app served_node)))) /\
  App.WalletBalance (Node.app (exec_node (NodeBlock (mk_block 104 [demo_transfer_tx "cosmos1recipient" 40])) (dnNode served_node)))
    "cosmos1recipient" "uethusdc" = 960%Z.
Proof. vm_compute. by split_and!. Qed.

(** Seeding the same payload again is refused: the stored asset has the denom
    the registry derived, and the payload does not. *)
Example seeding_again_refused :
  answer_status (fst (serve (demo_seed [Registry.demo_usdc]) (snd seeded))) = 400%N.
Proof. by vm_compute. Qed.

(** A seeding that fails half way leaves in memory what it has registered, and
    the file without it. *)
Definition half_seeded : result http_response * DemoNode Ledger :=
  serve (demo_seed [Registry.demo_usdc; Registry.mk_asset "eth.usdc2" "11155111" "erc20" "0xabd" EmptyString EmptyString EmptyString
    6 "USD Coin" "USDC" true; Registry.demo_usdc]) fresh_node.
Example seeding_half_done :
  answer_status (fst half_seeded) = 400%N /\
  is_Some (Registry.GetAsset (RegistryKeeper (node_app (snd half_seeded))) "eth.usdc") /\
  match fst (LoadWithConfig demo_config (dnDisk (snd half_seeded))) with
  | Ok r => Registry.GetAsset (RegistryKeeper (Keepers r)) "eth.usdc" = None
  | Err _ => False
  end.
Proof. vm_compute. split_and!; [done|by eexists|done]. Qed.

(** The text of an error is put between the quotes of the answer as it is: an
    error with a quoted part makes an answer that is no document. *)
Example quoted_error_breaks_answer :
  match fst (serve (demo_initiate "cosmos1recipient" "4O") served_node) with
  | Ok resp => HttpStatus resp = 400%N /\ match RespBody resp with BodyText _ => True | BodyJSON _ => False end
  | Err _ => False
  end.
Proof. vm_compute. by split. Qed.

(** A funding with a denom that is none ends the connection: the coin panics. *)
Example bad_denom_panics :
  match fst (serve (post "/tx/fund-account" (to_json (mk_fund_payload "cosmos1recipient" "!" "5"))) served_node) with
  | Err e => is_panic e
  | Ok _ => false
  end = true.
Proof. by vm_compute. Qed.
