(* ===== verification/NodeClient.v ===== *)
(** [chain/aegislink/networked] (config.go, query.go, submission.go, seed.go,
    delivery_intent.go, status.go): the clients of a running node. A client
    finds the node by the ready file in its home and talks to it over HTTP and
    CometBFT's RPC.

    The network is a parameter ([Network]): any request may fail or be answered
    by anything. [LiveNode] is the network whose other end is the node of
    [Handlers]. *)

From Stdlib Require Import Ascii String.
From stdpp Require Import strings.
From S2P Require Import Prelude.
From S2P Require Import GoStrings.
From S2P Require Import Errors.
From S2P Require Import Files.
From S2P Require Import JSON.
From S2P Require Registry.
From S2P Require Bank.
From S2P Require RouteProfile.
From S2P Require IBCRouter.
From S2P Require Import BridgeTypes.
From S2P Require Import BridgeState.
From S2P Require Import App.
From S2P Require Import DemoTx.
From S2P Require Import Config.
From S2P Require Import Runtime.
From S2P Require Import ChainApp.
From S2P Require Import Node.
From S2P Require Import Delivery.
From S2P Require Import Views.
From S2P Require Import Handlers.

(** ** Configuration (config.go) *)

Record NetConfig := mk_net {
  NetHomeDir : string;
  NetRPCAddress : string;
  NetCometRPCAddress : string;
  NetGRPCAddress : string;
  NetABCIAddress : string;
  NetP2PAddress : string;
  ReadyFile : string;
  DestinationLCDBaseURL : string;
  TickInterval : Z
}.

Definition app_flags (homeDir : string) : Config :=
  mk_config EmptyString EmptyString EmptyString homeDir EmptyString EmptyString [] EmptyString [] [] 0.

Definition blank_or (value default : string) : string := if blank value then default else value.

Definition ResolveNetConfig `{Environment} (w : FS document) (cfg : NetConfig) : result (NetConfig * Config) :=
  let? appCfg := ResolveConfig w (app_flags (TrimSpace (NetHomeDir cfg))) in
  let? _ := LoadGenesis w (GenesisPath appCfg) in
  let? _ := ensure (blank (HomeDir appCfg)) (Errorf "missing home dir") in
  Ok (mk_net (HomeDir appCfg) (blank_or (NetRPCAddress cfg) "127.0.0.1:26657") (NetCometRPCAddress cfg)
        (blank_or (NetGRPCAddress cfg) "127.0.0.1:9090") (blank_or (NetABCIAddress cfg) "127.0.0.1:0")
        (blank_or (NetP2PAddress cfg) "127.0.0.1:0")
        (blank_or (ReadyFile cfg) (JoinPath [HomeDir appCfg; "data"; "demo-node-ready.json"]%string))
        (DestinationLCDBaseURL cfg) (TickInterval cfg), appCfg).

(** ** The network *)

Record query_response := mk_query_response { QueryCode : N; QueryLog : string; QueryBody : http_body }.

(** HTTP requests and CometBFT's RPC, by address; the clock and the pause of the
    caller, which its context may cut short. [reason] is the text a server
    gives with a status, [raw_text] the text it wrote for a document. *)
Class Network (W : Type) := {
  check_address : string -> result unit;
  http_Do : string -> http_request -> Op W http_response;
  ABCIQuery : string -> string -> QueryData -> Op W query_response;
  RPC_BroadcastTxCommit : string -> tx_bytes -> Op W commit_response;
  Now : Op W Z;
  Sleep : Z -> Op W unit;
  reason : N -> string;
  raw_text : json -> string
}.

Record Client (W : Type) := mk_client { clFiles : FS document; clNet : W }.
Arguments mk_client {W}.
Arguments clFiles {W}.
Arguments clNet {W}.

Section client.
Context {W : Type} `{Network W} `{Environment}.

Abbreviation Call A := (Op (Client W) A).

Definition on_net {A} (m : Op W A) : Call A := zoom clNet (fun n c => mk_client (clFiles c) n) m.

Definition readReadyState (cfg : NetConfig) : Call ReadyState :=
  query (fun c =>
    let? resolved := ResolveNetConfig (clFiles c) cfg in
    let? d := ReadDocument (clFiles c) (ReadyFile resolved.1) in
    Ok (as_ready d)).

(** [payload["error"].(string)], of a [map[string]any]. *)
Definition error_message (j : json) : option string :=
  match j with
  | JObject o => match rev (filter (fun m => m.1 = "error"%string) o) with
                 | (_, JString s) :: _ => if blank s then None else Some s
                 | _ => None
                 end
  | _ => None
  end.

Definition status_line (status : N) : string := format_uint status +:+ " " +:+ reason status.

Definition body_text (b : http_body) : string := match b with BodyJSON j => raw_text j | BodyText s => s end.

Definition decodeHTTPFailure (resp : http_response) (action : string) : error :=
  let status := status_line (HttpStatus resp) in
  let other := Errorf (action +:+ " failed with status " +:+ status +:+ ": " +:+ TrimSpace (body_text (RespBody resp))) in
  match RespBody resp with
  | BodyText EmptyString => Errorf (action +:+ " failed with status " +:+ status)
  | BodyJSON j => match error_message j with
                  | Some message => Errorf (action +:+ " failed: " +:+ message)
                  | None => other
                  end
  | BodyText _ => other
  end.

(** The path and the query of a URL; what follows a hash is not sent. *)
Definition request_path (path : string) : string * string :=
  let '(url, _, _) := Cut path "#" in let '(p, q, _) := Cut url "?" in (p, q).

Definition getReadyJSON {A} `{FromJSON A} (cfg : NetConfig) (path : string) : Call A :=
  let! ready := readReadyState cfg in
  let '(urlPath, rawQuery) := request_path path in
  let! resp := on_net (http_Do (TrimSpace (RPCAddress ready)) (mk_http_request "GET" urlPath rawQuery (BodyText EmptyString))) in
  throw_if (negb (N.eqb (HttpStatus resp) 200)) (decodeHTTPFailure resp ("query " +:+ path)) ;;;
  lift (decode_body (RespBody resp)).

(** [len(data) == 0] *)
Definition no_data (b : http_body) : bool := match b with BodyText s => eqs s EmptyString | BodyJSON _ => false end.

Definition abciQueryJSON {A} `{FromJSON A} (cfg : NetConfig) (path : string) (data : QueryData) : Call A :=
  let! ready := readReadyState cfg in
  let! resp := on_net (ABCIQuery (TrimSpace (CometRPCAddress ready)) path data) in
  throw_if (negb (N.eqb (QueryCode resp) 0)) (Errorf ("abci query " +:+ path +:+ " failed: " +:+ QueryLog resp)) ;;;
  if no_data (QueryBody resp) then ret zero_value else lift (decode_body (QueryBody resp)).

(** [decode] is [json.Unmarshal] into the target, which starts as [zero]. *)
Definition broadcastTxJSON {A} (cfg : NetConfig) (txBytes : tx_bytes) (zero : A) (decode : json -> result A) : Call A :=
  let! ready := readReadyState cfg in
  let! resp := on_net (RPC_BroadcastTxCommit (TrimSpace (CometRPCAddress ready)) txBytes) in
  throw_if (negb (N.eqb (CheckCode resp) 0)) (Errorf ("check tx failed: " +:+ CheckLog resp)) ;;;
  throw_if (negb (N.eqb (DeliverCode resp) 0)) (Errorf ("deliver tx failed: " +:+ DeliverLog resp)) ;;;
  match DeliverData resp with
  | BodyJSON j => lift (match decode j with Ok a => Ok a | Err e => Err (Prefixed "decode tx result data" e) end)
  | BodyText EmptyString => ret zero
  | BodyText _ => throw (Prefixed "decode tx result data" (Errorf "invalid JSON document"))
  end.

(** ** Queries (query.go, delivery_intent.go, status.go) *)

Definition QueryBalances (cfg : NetConfig) (address : string) : Call (list Bank.BalanceRecord) :=
  abciQueryJSON cfg "/balances" (QueryText (TrimSpace address)).
Definition QueryTransfers (cfg : NetConfig) : Call (list TransferView) :=
  abciQueryJSON cfg "/transfers" (QueryText EmptyString).
Definition QuerySummary (cfg : NetConfig) : Call SummaryDocument :=
  abciQueryJSON cfg "/summary" (QueryText EmptyString).

Definition QueryClaim (cfg : NetConfig) (messageID : string) : Call (option ClaimRecordSnapshot) :=
  let! r := recovered (abciQueryJSON cfg "/claim" (QueryText (TrimSpace messageID))) in
  match r with
  | Ok claim => ret (Some claim)
  | Err e => if Contains (error_text e) "claim not found" then ret None else throw e
  end.

Definition QueryWithdrawals (cfg : NetConfig) (fromHeight toHeight : N) : Call (list WithdrawalView) :=
  abciQueryJSON cfg "/withdrawals" (QueryHeights fromHeight toHeight).

Definition QueryBridgeSession (cfg : NetConfig) (sourceTxHash : string) : Call BridgeSessionView :=
  getReadyJSON cfg ("/bridge-status?sourceTxHash=" +:+ TrimSpace sourceTxHash).
Definition QueryDeliveryIntents (cfg : NetConfig) : Call (list DeliveryIntent) :=
  getReadyJSON cfg "/delivery-intents".

Definition ReadStatus (cfg : NetConfig) : Call (ReadyState * bool) :=
  let! ready := readReadyState cfg in
  lift (check_address (RPCAddress ready)) ;;;
  let! resp := recovered (on_net (http_Do (RPCAddress ready) (mk_http_request "GET" "/healthz" EmptyString (BodyText EmptyString)))) in
  ret (ready, match resp with Ok resp => N.eqb (HttpStatus resp) 200 | Err _ => false end).

(** ** Requests (submission.go, seed.go, delivery_intent.go) *)

Definition SubmitQueueDepositClaim (cfg : NetConfig) (claim : DepositClaim) (attestation : Attestation)
    : Call (list (string * json)) :=
  let! txBytes := lift (encodeQueueDepositClaimTx claim attestation) in
  broadcastTxJSON cfg txBytes [] members.

Definition claim_result (record : ClaimRecordSnapshot) : result ClaimResult :=
  match SetString10 (SnapAmount record) with
  | None => Err (Errorf ("invalid processed claim amount " +:+ Quote (SnapAmount record)))
  | Some amount => Ok (BridgeState.mk_result (SnapStatus record) (SnapMessageID record) (SnapDenom record) (Some amount))
  end.

(** The loop of [SubmitDepositClaim]; times are in milliseconds. *)
Fixpoint claim_loop (fuel : nat) (cfg : NetConfig) (messageID : string) (deadline : Z) : Call ClaimResult :=
  let late := Errorf ("timed out waiting for processed claim " +:+ messageID) in
  match fuel with
  | O => throw late
  | S fuel =>
      let! now := on_net Now in
      if (now <? deadline)%Z then
        let! record := QueryClaim cfg messageID in
        match record with
        | Some record => lift (claim_result record)
        | None => on_net (Sleep 50) ;;; claim_loop fuel cfg messageID deadline
        end
      else throw late
  end.

Definition SubmitDepositClaim (cfg : NetConfig) (claim : DepositClaim) (attestation : Attestation) : Call ClaimResult :=
  SubmitQueueDepositClaim cfg claim attestation ;;;
  let! start := on_net Now in
  claim_loop 101 cfg (MessageID (Identity claim)) (start + 5000).

Definition SubmitInitiateIBCTransfer (cfg : NetConfig) (payload : InitiateIBCTransferPayload) : Call TransferView :=
  let! txBytes := lift (encodeInitiateIBCTransferTx payload) in
  broadcastTxJSON cfg txBytes zero_value from_json.
Definition SubmitExecuteWithdrawal (cfg : NetConfig) (payload : ExecuteWithdrawalPayload) : Call WithdrawalView :=
  let! txBytes := lift (encodeExecuteWithdrawalTx payload) in
  broadcastTxJSON cfg txBytes zero_value from_json.

(** The POST that three clients send to the node, and how they read a failure. *)
Definition post_ready {A} `{FromJSON A} (cfg : NetConfig) (path : string) (body : json) (what : string) : Call A :=
  let! ready := readReadyState cfg in
  let! resp := on_net (http_Do (TrimSpace (RPCAddress ready)) (mk_http_request "POST" path EmptyString (BodyJSON body))) in
  let failed := match RespBody resp with BodyJSON j => error_message j | BodyText _ => None end in
  throw_if (negb (N.eqb (HttpStatus resp) 200))
    (Errorf (what +:+ " request failed" +:+ match failed with
      | Some message => ": " +:+ message
      | None => " with status " +:+ status_line (HttpStatus resp)
      end)) ;;;
  lift (decode_body (RespBody resp)).

Definition SubmitFundAccount (cfg : NetConfig) (address denom amount : string) : Call FundAccountPayload :=
  let! decoded := lift (decodeFundAccountPayload (mk_fund_payload address denom amount)) in
  post_ready cfg "/tx/fund-account" (to_json (fst decoded)) "fund account".
Definition SubmitSeedBridgeAssets (cfg : NetConfig) (payload : SeedBridgeAssetsPayload) : Call SeedBridgeAssetsResult :=
  lift (decodeSeedBridgeAssetsPayload payload) ;;;
  post_ready cfg "/tx/seed-bridge-assets" (to_json payload) "seed bridge assets".
Definition SubmitSetRouteProfile (cfg : NetConfig) (payload : SetRouteProfilePayload) : Call SetRouteProfileResult :=
  lift (decodeSetRouteProfilePayload payload) ;;;
  post_ready cfg "/tx/set-route-profile" (to_json payload) "set route profile".

Definition RegisterDeliveryIntentOverHTTP (cfg : NetConfig) (intent : DeliveryIntent) : Call DeliveryIntent :=
  let! ready := readReadyState cfg in
  let! intent := lift (normalizeDeliveryIntent intent) in
  let! resp := on_net (http_Do (TrimSpace (RPCAddress ready))
    (mk_http_request "POST" "/delivery-intents" EmptyString (BodyJSON (to_json intent)))) in
  throw_if (negb (N.eqb (HttpStatus resp) 200)) (decodeHTTPFailure resp "register delivery intent") ;;;
  lift (decode_body (RespBody resp)).
End client.

(** ** The wait for a claim ends *)

Section clock.
Context {W : Type} `{Network W} `{Environment} (clock : W -> Z).
Hypothesis Now_clock : forall w, Now w = (Ok (clock w), w).
Hypothesis Sleep_clock : forall d w, (clock w + d <= clock (snd (Sleep d w)))%Z.
Hypothesis Query_clock : forall address path data w, (clock w <= clock (snd (ABCIQuery address path data w)))%Z.

Abbreviation time c := (clock (clNet c)).

Lemma abci_clock {A} `{FromJSON A} cfg path data (c : Client W) : (time c <= time (snd (abciQueryJSON (A:=A) cfg path data c)))%Z.
Proof.
  unfold abciQueryJSON, readReadyState, bind, query. destruct (res_bind _ _) as [ready|e]; [|done].
  unfold on_net, zoom. pose proof (Query_clock (TrimSpace (CometRPCAddress ready)) path data (clNet c)) as Hq.
  destruct (ABCIQuery _ _ _ _) as [[resp|e] w]; cbn [snd clNet] in *; [|done].
  unfold throw_if. destruct (negb _); [done|]. cbn. by destruct (no_data _).
Qed.

Lemma QueryClaim_clock cfg messageID (c : Client W) : (time c <= time (snd (QueryClaim cfg messageID c)))%Z.
Proof.
  unfold QueryClaim, bind. pose proof (abci_clock (A:=ClaimRecordSnapshot) cfg "/claim" (QueryText (TrimSpace messageID)) c) as Hq.
  rewrite <- recovered_state in Hq. destruct (recovered _ c) as [[[r|e]|e] c']; cbn [snd] in *; [done| |done].
  by destruct (Contains _ _).
Qed.

Lemma claim_loop_ends fuel extra cfg messageID deadline (c : Client W) : (deadline <= time c + 50 * Z.of_nat fuel)%Z ->
  claim_loop (S fuel) cfg messageID deadline c = claim_loop (S fuel + extra) cfg messageID deadline c.
Proof.
  revert c. induction fuel as [|fuel IH]; intros c Hc; cbn [claim_loop Nat.add].
  - unfold bind, on_net, zoom. rewrite Now_clock. destruct (Z.ltb_spec (time c) deadline); [lia|done].
  - unfold bind, on_net, zoom. rewrite Now_clock. destruct (Z.ltb_spec (time c) deadline); [|done].
    set (c0 := mk_client _ _). pose proof (QueryClaim_clock cfg messageID c0) as Hq.
    destruct (QueryClaim cfg messageID c0) as [[[r|]|e] c1]; [done| |done]. cbn [snd] in Hq.
    pose proof (Sleep_clock 50 (clNet c1)) as Hs. destruct (Sleep 50 (clNet c1)) as [[[]|e] w]; [|done].
    apply IH. subst c0. cbn [clNet snd] in *. lia.
Qed.

(** Submitting a deposit claim always ends. After the claim is queued the
    client asks for its record every fifty milliseconds, for five seconds:
    under a clock that does not run backwards and pauses that last as long as
    asked (or are cut short by an error), more iterations than the model allows
    give the same result. *)
Theorem SubmitDepositClaim_ends (cfg : NetConfig) (claim : DepositClaim) (attestation : Attestation) (extra : nat)
    (c : Client W) :
  SubmitDepositClaim cfg claim attestation c =
    (SubmitQueueDepositClaim cfg claim attestation ;;;
     let! start := on_net Now in
     claim_loop (101 + extra) cfg (MessageID (Identity claim)) (start + 5000)) c.
Proof.
  unfold SubmitDepositClaim, bind. destruct (SubmitQueueDepositClaim _ _ _ c) as [[r|e] c1]; [|done].
  assert (Hnow : on_net Now c1 = (Ok (time c1), c1)) by (unfold on_net, zoom; rewrite Now_clock; by destruct c1).
  rewrite Hnow. apply (claim_loop_ends 100). lia.
Qed.
End clock.

(** ** The node on the other end *)

(** The values the node answers queries and transactions with, as documents
    (abci.go). *)
Definition query_json (appName : string) (modules : list string) (status : json) (v : QueryValue) : json :=
  match v with
  | StatusValue _ => status
  | SummaryValue s => to_json (summary_document appName modules s)
  | BalancesValue l => to_json l
  | TransfersValue l => to_json l
  | WithdrawalsValue l => WithdrawalsResponse l
  | ClaimValue r => to_json r
  end.

Definition data_json (d : TxData) : http_body :=
  match d with
  | QueuedData messageID assetID amount =>
      BodyJSON (JObject (member "status" "queued"%string ++ member "message_id" messageID ++ member "asset_id" assetID ++
        member "amount" amount))
  | TransferData t => BodyJSON (transferJSONResponse t)
  | WithdrawalData w => BodyJSON (ExecuteWithdrawalResponse w)
  | FundedData address denom amount => BodyJSON (to_json (mk_fund_payload address denom amount))
  | BaseData bytes => BodyText bytes
  end.

(** A node of [Handlers] and a clock. CometBFT asks the node for a check and
    puts the transaction into the next block; a panic ends a connection. *)
Record LiveNode (W : Type) := mk_live { lnNode : DemoNode W; lnClock : Z }.
Arguments mk_live {W}.
Arguments lnNode {W}.
Arguments lnClock {W}.

Section live.
Context {W : Type} `{CosmosSDK W} `{Faucet W} `{MapIteration} `{Crypto} `{Bank.AddressCodec} `{Environment} `{SDKStore}.
Context (ready : ReadyState) (resolver : option DestinationTxResolver) (texts : json -> string).

Abbreviation Live := (LiveNode W).

Definition on_live {A} (m : Op (DemoNode W) A) : Op Live A := zoom lnNode (fun d l => mk_live d (lnClock l)) m.
Definition connection_closed : error := Errorf "EOF".
(** A panic of the other process. *)
Definition closed_by_panic {St A} (m : Op St A) : Op St A := fun s =>
  match m s with
  | (Err e, s') => (Err (if is_panic e then connection_closed else e), s')
  | ok => ok
  end.

Definition live_query (path : string) (data : QueryData) (d : DemoNode W) : result query_response :=
  match Node.Query path data (dnNode d) with
  | None => Err (Errorf ("unknown query path " +:+ path))
  | Some (Err e) => Ok (mk_query_response 1 (error_text e) (BodyText EmptyString))
  | Some (Ok v) =>
      let cfg := AppConfig (dnRuntime d) in
      Ok (mk_query_response 0 EmptyString (BodyJSON (query_json (CfgAppName cfg) (AppModules (dnRuntime d))
        (to_json (Runtime.Status (process_of d).1 (dnDisk d))) v)))
  end.

Definition live_broadcast (tx : tx_bytes) : Op (DemoNode W) commit_response :=
  let! checked := on_node (CheckTx tx) in
  if negb (N.eqb checked.1 0) then ret (mk_commit checked.1 checked.2 0 EmptyString (BodyText EmptyString))
  else
    let! height := gets (fun d => CurrentHeight (dnNode d)) in
    let! resp := on_node (FinalizeBlock (mk_block (Z.of_N height + 1) [tx])) in
    on_node Node.Commit ;;;
    match RespTxResults resp with
    | [r] => ret (mk_commit 0 checked.2 (Code r) (Log r)
               (match Data r with Some d => data_json d | None => BodyText EmptyString end))
    | _ => throw (Errorf "unexpected number of transaction results")
    end.

#[local] Instance live_network : Network Live := {|
  check_address _ := Ok tt;
  http_Do _ r := on_live (closed_by_panic (serveHTTP ready resolver r));
  ABCIQuery _ path data := on_live (query (live_query path data));
  RPC_BroadcastTxCommit _ tx := on_live (closed_by_panic (live_broadcast tx));
  Now := gets lnClock;
  Sleep d := modify (fun l => mk_live (lnNode l) (lnClock l + d));
  reason _ := "Status"%string;
  raw_text := texts
|}.

(** The client's home has a ready file, of whatever node. *)
Definition knows_node (cfg : NetConfig) (c : Client Live) : Prop := exists r, readReadyState cfg c = (Ok r, c).

Definition served_app (c : Client Live) : App := node_app (lnNode (clNet c)).

Lemma abci_run {A} `{FromJSON A} cfg path data (c : Client Live) :
  knows_node cfg c ->
  abciQueryJSON (A:=A) cfg path data c =
    (match live_query path data (lnNode (clNet c)) with
     | Ok resp => if negb (N.eqb (QueryCode resp) 0) then Err (Errorf ("abci query " +:+ path +:+ " failed: " +:+ QueryLog resp))
                  else if no_data (QueryBody resp) then Ok zero_value else decode_body (QueryBody resp)
     | Err e => Err e
     end, c).
Proof.
  intros [r Hr]. unfold abciQueryJSON, bind at 1. rewrite Hr. destruct c as [f [d t]].
  unfold bind, on_net, zoom. cbn [clNet clFiles lnNode lnClock ABCIQuery live_network].
  unfold on_live, zoom, query. cbn [lnNode lnClock].
  destruct (live_query path data d) as [resp|e]; [|reflexivity].
  unfold throw_if. destruct (negb _); [reflexivity|]. by destruct (no_data _).
Qed.

Definition withdrawal_typed (w : WithdrawalRecord) : Prop :=
  u64_ok (SourceLogIndex (WIdentity w)) /\ u64_ok (Nonce (WIdentity w)) /\ u64_ok (WDeadline w) /\ u64_ok (BlockHeight w).

Lemma traverse_images {A B C} (f : A -> result B) (g : C -> A) (h : C -> B) l :
  Forall (fun x => f (g x) = Ok (h x)) l -> traverse f (map g l) = Ok (map h l).
Proof. induction 1 as [|x l Hx _ IH]; [done|]. cbn [map traverse]. by rewrite Hx, IH. Qed.

Lemma withdrawals_read l : Forall withdrawal_typed l ->
  from_json (WithdrawalsResponse l) = Ok (withdrawalsFromRecords l).
Proof.
  intros Hl. apply (traverse_images from_json WithdrawalResponse withdrawal_view). eapply Forall_impl; [exact Hl|].
  intros w (H1' & H2' & H3' & H4'). by apply withdrawal_response_read.
Qed.

Ltac at_path p :=
  unfold live_query, Query; cbv zeta; cbn [query_text];
  replace (TrimSpace p) with p by (vm_compute; reflexivity);
  repeat first [rewrite (decide_False (P := p = _)) by discriminate | rewrite (decide_True (P := p = p)) by reflexivity].

(** C37: a client of a running node reads what the node holds. Over CometBFT and
    JSON, whatever the texts: a claim is found if and only if the application
    has processed it, and comes back field by field; the withdrawals of a range
    of heights are the application's, each with all its fields; transfers and
    balances likewise. Nothing changes on either side. *)
Theorem client_reads_node (cfg : NetConfig) (messageID address : string) (fromHeight toHeight : N) (c : Client Live) :
  knows_node cfg c ->
  let a := served_app c in
  (TrimSpace messageID <> EmptyString -> QueryClaim cfg messageID c = (Ok (App.GetClaim a messageID), c)) /\
  (Forall withdrawal_typed (App.Withdrawals a fromHeight toHeight) ->
   QueryWithdrawals cfg fromHeight toHeight c = (Ok (withdrawalsFromRecords (App.Withdrawals a fromHeight toHeight)), c)) /\
  (Forall (fun t => u64_ok (IBCRouter.TimeoutHeight t)) (IBCRouter.ExportTransfers (IBCRouterKeeper a)) ->
   exists l, Permutation l (IBCRouter.ExportTransfers (IBCRouterKeeper a)) /\
     QueryTransfers cfg c = (Ok (transferViewsFromRecords l), c)) /\
  (forall balances, TrimSpace address <> EmptyString -> App.WalletBalances a (TrimSpace address) = Ok balances ->
   QueryBalances cfg address c = (Ok balances, c)).
Proof.
  intros Hk a. split_and!.
  - intros Hne. unfold QueryClaim, bind, recovered. rewrite (abci_run _ _ _ _ Hk). at_path "/claim"%string.
    rewrite !TrimSpace_idem, decide_False by done. fold (served_app c). change (Node.app (dnNode (lnNode (clNet c)))) with a.
    replace (App.GetClaim a (TrimSpace messageID)) with (App.GetClaim a messageID) by (unfold App.GetClaim; by rewrite TrimSpace_idem).
    destruct (App.GetClaim a messageID) as [record|]; [|by vm_compute].
    cbn [QueryCode QueryBody query_json N.eqb negb no_data decode_body]. by rewrite (wire_round record).
  - intros Hw. unfold QueryWithdrawals. rewrite (abci_run _ _ _ _ Hk). at_path "/withdrawals"%string.
    cbn [res_bind fst snd QueryCode QueryBody query_json N.eqb negb no_data decode_body]. by rewrite withdrawals_read.
  - intros Ht. eexists. split; [|unfold QueryTransfers; rewrite (abci_run _ _ _ _ Hk); at_path "/transfers"%string;
      cbn [QueryCode QueryBody query_json N.eqb negb no_data decode_body]; rewrite wire_round; [reflexivity|] ].
    + apply merge_sort_Permutation.
    + cbn. apply Forall_map. eapply Permutation_Forall; [symmetry; apply merge_sort_Permutation|]. exact Ht.
  - intros balances Hne Hb. unfold QueryBalances. rewrite (abci_run _ _ _ _ Hk). at_path "/balances"%string.
    rewrite TrimSpace_idem, decide_False by done. change (Node.app (dnNode (lnNode (clNet c)))) with a. rewrite Hb.
    cbn [res_bind QueryCode QueryBody query_json N.eqb negb no_data decode_body]. rewrite wire_round; [done|].
    cbn. by apply Forall_true.
Qed.

(** *** A profile set over the network *)

Definition profiles_are (x : gmap string RouteProfile.RouteProfile) (a : App) : Prop :=
  IBCRouter.routeProfiles (IBCRouterKeeper a) = x.

Lemma flush_profiles x : preserves (profiles_are x) flush_keepers.
Proof.
  unfold flush_keepers. repeat (apply preserves_bind; [|intros []]); intros a Ha.
  1: rewrite on_bank_run; exact Ha.
  1, 2, 3, 4: unfold on_registry, on_limits, on_pauser; rewrite on_bridge_run; exact Ha.
  - rewrite on_router_run. cbn [snd]. unfold profiles_are. cbn [set_router IBCRouterKeeper]. unfold IBCRouter.Flush.
    destruct (IBCRouter.router_persist_fields (IBCRouterKeeper a)) as (_ & _ & _ & _ & _ & Hp). by rewrite Hp.
  - exact Ha.
Qed.

Lemma save_profiles x p : profiles_are x (Keepers p.1) -> profiles_are x (Keepers (snd (Runtime.Save p)).1).
Proof.
  intros Hx. unfold Runtime.Save. rewrite gets_bind. destruct (store_mode p.1).
  - unfold bind, commit_keepers, on_keepers. pose proof (flush_profiles x (Keepers p.1) Hx) as Hf.
    destruct (flush_keepers (Keepers p.1)) as [[[]|e] a]; cbn [snd] in *; [|done].
    unfold persist_node_file, bind, gets, on_disk, zoom, modify. cbn [fst snd]. by destruct (on_files _ _) as [[[]|e] w].
  - unfold on_disk, zoom. by destruct (on_files _ _).
Qed.

Lemma payload_wire (payload : SetRouteProfilePayload) : wire_ok payload.
Proof. cbn. split_and!; by apply Forall_true. Qed.

Lemma set_profile_run profile (a a' : App) :
  set_route_profile profile a = (Ok tt, a') ->
  assets_registered a profile = Ok tt /\
  IBCRouter.routeProfiles (IBCRouterKeeper a') !! IBCRouter.routeProfileKey (RouteProfile.RouteID profile) =
    Some (RouteProfile.profile_Canonical profile).
Proof.
  unfold set_route_profile, bind, query. destruct (assets_registered a profile) as [[]|e]; [|done].
  unfold App.SetRouteProfile. rewrite on_router_run. intros [= Hr <-]. split; [done|]. cbn [set_router IBCRouterKeeper].
  revert Hr. unfold IBCRouter.SetRouteProfile, bind, lift, modify. destruct (RouteProfile.profile_ValidateBasic profile); [|done].
  intros _. match goal with |- context [IBCRouter.persist ?k] =>
    destruct (IBCRouter.router_persist_fields k) as (_ & _ & _ & _ & _ & Hp) end.
  rewrite Hp. replace (IBCRouter.routeProfileKey (RouteProfile.RouteID profile)) with
    (IBCRouter.routeProfileKey (RouteProfile.RouteID (RouteProfile.profile_Canonical profile))); [apply lookup_insert_eq|].
  unfold IBCRouter.routeProfileKey. cbn [RouteProfile.profile_Canonical RouteProfile.RouteID]. by rewrite TrimSpace_idem.
Qed.

Lemma save_app_profiles (d : DemoNode W) :
  IBCRouter.routeProfiles (IBCRouterKeeper (node_app (snd (save_app d)))) = IBCRouter.routeProfiles (IBCRouterKeeper (node_app d)).
Proof.
  unfold save_app. pose proof (save_profiles _ (process_of d) eq_refl) as Hs.
  destruct (Runtime.Save (process_of d)) as [r q]. exact Hs.
Qed.

(** The handler of the node, on a payload that decodes. *)
Lemma handle_profile payload profile (d : DemoNode W) :
  decodeSetRouteProfilePayload payload = Ok profile ->
  match handleSetRouteProfile (BodyJSON (to_json payload)) d with
  | (Ok j, d') =>
      j = to_json (profile_result profile) /\ assets_registered (node_app d) profile = Ok tt /\
      IBCRouter.GetRouteProfile (IBCRouterKeeper (node_app d')) (RouteProfile.RouteID profile) = Some (RouteProfile.profile_Canonical profile)
  | (Err _, _) => True
  end.
Proof.
  intros Hdec. unfold handleSetRouteProfile. cbn [decode_body]. rewrite (wire_round payload (payload_wire payload)).
  unfold bind at 1, lift at 1. unfold bind at 1, lift at 1. rewrite Hdec. rewrite bind_run, on_runtime_app_run. cbn [fst snd].
  destruct (set_route_profile profile (node_app d)) as [[[]|e] a'] eqn:Hset; cbn [fst snd]; [|done].
  apply set_profile_run in Hset as [Hreg Hget].
  set (d1 := set_node _ d). assert (Ha : node_app d1 = a') by reflexivity. clearbody d1.
  pose proof (save_app_profiles d1) as Hs. unfold bind. destruct (save_app d1) as [[[]|e] d2]; [|done].
  unfold ret. split_and!; [done..|]. unfold IBCRouter.GetRouteProfile. cbn [snd] in Hs. by rewrite Hs, Ha.
Qed.

(** What the client gets for its request. *)
Lemma post_profile_answer address (payload : SetRouteProfilePayload) (c : Client Live) :
  on_net (http_Do (TrimSpace address) (mk_http_request "POST" "/tx/set-route-profile" EmptyString (BodyJSON (to_json payload)))) c =
    (let '(r, d) := recovered (handleSetRouteProfile (BodyJSON (to_json payload))) (lnNode (clNet c)) in
     (match r with
      | Ok (Ok j) => Ok (ok_json j)
      | Ok (Err e) => Ok (failure 400 (error_text e))
      | Err e => Err (if is_panic e then connection_closed else e)
      end, mk_client (clFiles c) (mk_live d (lnClock (clNet c))))).
Proof.
  unfold on_net, zoom. cbn [http_Do live_network]. unfold on_live, zoom, closed_by_panic.
  change (serveHTTP ready resolver (mk_http_request "POST" "/tx/set-route-profile" EmptyString (BodyJSON (to_json payload))))
    with (answered (W:=W) 400 (handleSetRouteProfile (BodyJSON (to_json payload)))). unfold answered, bind.
  by destruct (recovered _ (lnNode (clNet c))) as [[[j|e]|e] d].
Qed.

(** A route profile set from a client is the profile the node has. When
    [SubmitSetRouteProfile] succeeds, its payload decoded to a profile all of
    whose assets were registered, the node's router holds exactly that profile
    under its route, and the client was shown it; a payload that does not decode
    is refused before anything is sent. *)
Theorem route_profile_over_network (cfg : NetConfig) (payload : SetRouteProfilePayload) (c : Client Live) :
  knows_node cfg c ->
  match SubmitSetRouteProfile cfg payload c with
  | (Ok result, c') =>
      exists profile, decodeSetRouteProfilePayload payload = Ok profile /\ result = profile_result profile /\
        assets_registered (served_app c) profile = Ok tt /\
        IBCRouter.GetRouteProfile (IBCRouterKeeper (served_app c')) (RouteProfile.RouteID profile) = Some profile
  | (Err e, c') => forall e', decodeSetRouteProfilePayload payload = Err e' -> e = e' /\ c' = c
  end.
Proof.
  intros [r Hr]. unfold SubmitSetRouteProfile. unfold bind at 1, lift at 1.
  destruct (decodeSetRouteProfilePayload payload) as [profile|e] eqn:Hdec; [|by intros e' [= ->]].
  assert (Hcanon : RouteProfile.profile_Canonical profile = profile).
  { unfold decodeSetRouteProfilePayload in Hdec. apply res_bind_ok_inv in Hdec as (assets & _ & Hdec).
    apply res_bind_ok_inv in Hdec as (? & _ & [= <-]). apply RouteProfile.profile_Canonical_idem. }
  pose proof (handle_profile payload profile (lnNode (clNet c)) Hdec) as Hh.
  pose proof (post_profile_answer (RPCAddress r) payload c) as Hpost.
  unfold post_ready, bind at 1. rewrite Hr. unfold bind at 1. rewrite Hpost. clear Hpost.
  destruct (recovered_cases (handleSetRouteProfile (BodyJSON (to_json payload))) (lnNode (clNet c))) as [(e & _ & _ & ->)| ->]; [done|].
  destruct (handleSetRouteProfile _ (lnNode (clNet c))) as [[j|e] d']; cbn [fst snd] in *; [|intros e' He'; discriminate He'].
  destruct Hh as (-> & Hreg & Hget).
  cbn [HttpStatus RespBody ok_json N.eqb negb throw_if decode_body Pos.eqb]. unfold bind, ret, lift.
  rewrite (wire_round (profile_result profile)) by apply payload_wire.
  exists profile. rewrite Hcanon in Hget. split_and!; [reflexivity|reflexivity|exact Hreg|exact Hget].
Qed.
End live.

(** ** Concrete calls *)

#[local] Existing Instance Bridge.toy_crypto.
#[local] Existing Instance Bank.toy_codec.
#[local] Existing Instance Config.demo_environment.
#[local] Existing Instance Restart.demo_sdk.
#[local] Existing Instance ChainApp.ledger_sdk.
#[local] Existing Instance Handlers.demo_faucet.

Definition demo_net : NetConfig :=
  mk_net " /srv/aegis" EmptyString EmptyString EmptyString EmptyString EmptyString EmptyString EmptyString 0.
Definition client_home : FS document :=
  put_node "/srv/aegis/data/demo-node-ready.json" (File (ReadyDoc demo_ready)) (files Restart.demo_home).
Definition client_of (d : DemoNode Ledger) : Client (LiveNode Ledger) := mk_client client_home (mk_live d 0).
#[local] Instance demo_network : Network (LiveNode Ledger) := live_network demo_ready None (fun _ => EmptyString).

Lemma demo_knows d : knows_node demo_net (client_of d).
Proof. exists demo_ready. unfold readReadyState, query, client_of. cbn [clFiles]. vm_compute. reflexivity. Qed.

Definition claim_shown (r : result (option ClaimRecordSnapshot)) : option (string * string) :=
  match r with Ok (Some record) => Some (SnapAmount record, SnapStatus record) | _ => None end.

Lemma client_reads_node_witness :
  let id := MessageID (Identity BridgeTypes.demo_claim) in
  QueryClaim demo_net id (client_of served_node) = (Ok (App.GetClaim (node_app served_node) id), client_of served_node) /\
  SnapAmount <$> App.GetClaim (node_app served_node) id = Some "1000"%string.
Proof.
  assert (Hne : TrimSpace (MessageID (Identity BridgeTypes.demo_claim)) <> EmptyString) by (vm_compute; congruence).
  split; [|by vm_compute].
  exact (proj1 (client_reads_node demo_ready None (fun _ => EmptyString) demo_net _ EmptyString 0 0 (client_of served_node)
    (demo_knows served_node)) Hne).
Defined.

Definition demo_profile_payload : SetRouteProfilePayload :=
  mk_route_payload " osmo" "osmosis-2" "channel-0" true [RouteProfile.mk_asset_route "eth.usdc " "ibc/uethusdc"]
    ["swap:"%string] ["swap"%string].
Definition profile_set : result SetRouteProfileResult * Client (LiveNode Ledger) :=
  SubmitSetRouteProfile demo_net demo_profile_payload (client_of start_node).

Lemma route_profile_over_network_witness :
  exists profile, IBCRouter.GetRouteProfile (IBCRouterKeeper (served_app (snd profile_set))) (RouteProfile.RouteID profile) = Some profile /\
    decodeSetRouteProfilePayload demo_profile_payload = Ok profile.
Proof.
  pose proof (route_profile_over_network demo_ready None (fun _ => EmptyString) demo_net demo_profile_payload
    (client_of start_node) (demo_knows start_node)) as Hset.
  assert (Hok : is_ok (fst profile_set) = true) by (by vm_compute).
  change (SubmitSetRouteProfile demo_net demo_profile_payload (client_of start_node)) with profile_set in Hset.
  destruct profile_set as [[result|e] c']; [|discriminate Hok].
  destruct Hset as (profile & Hdec & _ & _ & Hget). exists profile. split; [exact Hget|exact Hdec].
Defined.

(** A claim submitted over the network: its transaction queues it, and the
    block that carries it mints it as it advances, so the first question finds
    it. *)
Lemma SubmitDepositClaim_ends_witness :
  let r := SubmitDepositClaim demo_net BridgeTypes.demo_claim (Bridge.demo_attested BridgeTypes.demo_claim) (client_of start_node) in
  r = (SubmitQueueDepositClaim demo_net BridgeTypes.demo_claim (Bridge.demo_attested BridgeTypes.demo_claim) ;;;
       let! start := on_net Now in
       claim_loop 1000 demo_net (MessageID (Identity BridgeTypes.demo_claim)) (start + 5000)) (client_of start_node).
Proof.
  refine (SubmitDepositClaim_ends (W:=LiveNode Ledger) lnClock _ _ _ demo_net BridgeTypes.demo_claim
    (Bridge.demo_attested BridgeTypes.demo_claim) 899 (client_of start_node)).
  - done.
  - intros d w. cbn. lia.
  - intros address path data w. cbn [ABCIQuery demo_network live_network]. unfold on_live, zoom, query. by destruct w.
Defined.

Example claim_submitted :
  let r := SubmitDepositClaim demo_net BridgeTypes.demo_claim (Bridge.demo_attested BridgeTypes.demo_claim) (client_of start_node) in
  (is_ok (fst r), lnClock (clNet (snd r))) = (true, 0%Z).
Proof. vm_compute. reflexivity. Qed.

(** The node answers a withdrawal with a document that leaves out where it comes
    from, and the client reads the zero values. *)
Definition demo_withdrawal_payload : ExecuteWithdrawalPayload :=
  mk_withdrawal_payload "cosmos1recipient" "eth.usdc" "5" "0xrecipient" 900 (Base64.base64_EncodeToString "sig") 0.
Example withdrawal_without_source :
  let r := SubmitExecuteWithdrawal demo_net demo_withdrawal_payload (client_of served_node) in
  match fst r, App.Withdrawals (served_app (snd r)) 0 1000 with
  | Ok v, [w] => (WvAmount v, WvKind v, WvSourceTxHash v, WvNonce v) = ("5", "", "", 0%N)%string /\
      Kind (WIdentity w) = "withdrawal"%string /\ SourceTxHash (WIdentity w) <> EmptyString
  | _, _ => False
  end.
Proof. vm_compute. by split_and!. Qed.
