(* ===== verification/NodeStart.v ===== *)
(** [chain/aegislink/networked/start.go]: starting a node and closing it. What
    the node is put together from — the SDK chain, CometBFT, its ABCI server and
    the listeners — is a parameter; the state records which of it is open. *)

From Stdlib Require Import Ascii String.
From stdpp Require Import strings.
From S2P Require Import Prelude.
From S2P Require Import GoStrings.
From S2P Require Import Errors.
From S2P Require Import Bytes.
From S2P Require Import Files.
From S2P Require Import App.
From S2P Require Import Config.
From S2P Require Import Runtime.
From S2P Require Import Node.
From S2P Require Import NodeClient.

(** ** Addresses (the standard library's net package) *)

Definition open_bracket : ascii := ascii_of_N 91.
Definition close_bracket : ascii := ascii_of_N 93.
Definition colon_byte : ascii := ascii_of_N 58.

(** The text before the last colon, and after it. *)
Fixpoint cut_last_colon (s : string) : option (string * string) :=
  match s with
  | EmptyString => None
  | String c s =>
      match cut_last_colon s with
      | Some (h, p) => Some (String c h, p)
      | None => if bool_decide (c = colon_byte) then Some (EmptyString, s) else None
      end
  end.

Definition address_error (hostport why : string) : error := Errorf ("address " +:+ hostport +:+ ": " +:+ why).

(** [net.SplitHostPort]. *)
Definition SplitHostPort (hostport : string) : result (string * string) :=
  let bad why := Err (address_error hostport why) in
  match cut_last_colon hostport with
  | None => bad "missing port in address"%string
  | Some (before, port) =>
      let stray s := negb (lacks open_bracket s && lacks close_bracket s) in
      match hostport with
      | String b rest =>
          if bool_decide (b = open_bracket) then
            let '(host, after, found) := Cut rest close_bracket in
            if negb found then bad "missing ']' in address"%string
            else match after with
                 | String c port' =>
                     if negb (bool_decide (c = colon_byte)) then bad "missing port in address"%string
                     else if negb (lacks colon_byte port') then bad "too many colons in address"%string
                     else if stray port' || negb (lacks open_bracket host) then bad "unexpected bracket in address"%string
                     else Ok (host, port')
                 | EmptyString => bad "missing port in address"%string
                 end
          else if negb (lacks colon_byte before) then bad "too many colons in address"%string
          else if stray before || stray port then bad "unexpected bracket in address"%string
          else Ok (before, port)
      | EmptyString => bad "missing port in address"%string
      end
  end.

Definition JoinHostPort (host port : string) : string :=
  if lacks colon_byte host then host +:+ ":" +:+ port else "[" +:+ host +:+ "]:" +:+ port.

(** ** What a node is put together from *)

Inductive resource := ChainDB | RuntimeDB | AbciServer | CometNode | RpcListener | GrpcListener | ProbeListener.
#[global] Instance resource_eq_dec : EqDecision resource.
Proof. solve_decision. Defined.

Record CometNodeHome := mk_comet_home {
  RootDir : string; NodeID : string; HomeConfigPath : string; HomeCometGenesisPath : string;
  HomeSDKGenesisPath : string; HomeNodeKeyPath : string; HomePrivValidatorKeyPath : string; HomePrivValidatorStatePath : string
}.

(** The parts outside this repository. They work on the disk too; a listener
    gives its address. [shut] closes one; no caller looks at its error. *)
Class NodeParts (W : Type) := {
  BuildChainApp : Config -> Op (World * W) (list string * list string);    (* store keys, genesis modules *)
  ensureCometNodeHome : NetConfig -> Config -> Op (World * W) CometNodeHome;
  NewABCIServer : string -> Op (World * W) unit;
  StartABCIServer : Op (World * W) unit;
  startCometNode : CometNodeHome -> NetConfig -> Op (World * W) unit;
  Listen : string -> Op (World * W) string;
  shut : resource -> World * W -> World * W
}.

Record Starting (W : Type) := mk_starting { sgParts : World * W; sgOpen : list resource }.
Arguments mk_starting {W}.
Arguments sgParts {W}.
Arguments sgOpen {W}.

Definition normalizeTCPAddress (address : string) : string :=
  let address := TrimSpace address in
  if eqs address EmptyString then address
  else if Contains address "://" then address else "tcp://" +:+ address.

Definition sortedGenesisModuleNames (names : list string) : list string := SortStrings names.

Section start.
Context {W : Type} `{NodeParts W} `{MapIteration} `{Bank.AddressCodec} `{Crypto} `{Environment} `{SDKStore}.

Abbreviation Setup A := (Op (Starting W) A).

Definition on_parts {A} (m : Op (World * W) A) : Setup A := zoom sgParts (fun p s => mk_starting p (sgOpen s)) m.
Definition opening {A} (r : resource) (m : Op (World * W) A) : Setup A :=
  let! a := on_parts m in
  modify (fun s => mk_starting (sgParts s) (r :: sgOpen s)) ;;;
  ret a.

Fixpoint remove_one (r : resource) (l : list resource) : list resource :=
  match l with
  | [] => []
  | x :: l => if decide (x = r) then l else x :: remove_one r l
  end.
Definition close_part (r : resource) : Setup unit :=
  modify (fun s => mk_starting (shut r (sgParts s)) (remove_one r (sgOpen s))).

(** [app.Close()]: the keepers are flushed and the database is closed. *)
Definition close_runtime (app : RuntimeApp) : Setup unit := fun s =>
  let '(_, (_, w)) := Runtime.Close (app, (sgParts s).1) in
  (Ok tt, mk_starting (w, (sgParts s).2) (remove_one RuntimeDB (sgOpen s))).

(** [strconv.Atoi], of which only the error is used. *)
Definition Atoi (s : string) : result unit :=
  match SetString10 s with
  | Some n => if (- two63 <=? n)%Z && (n <? two63)%Z then Ok tt
              else Err (Errorf ("strconv.Atoi: parsing " +:+ Quote s +:+ ": value out of range"))
  | None => Err (Errorf ("strconv.Atoi: parsing " +:+ Quote s +:+ ": invalid syntax"))
  end.

(** With port zero, a free port is looked for: its listener is closed again
    whatever follows. *)
Definition resolveConcreteTCPAddress (address : string) : Setup string :=
  let address := TrimSpace address in
  if eqs address EmptyString then ret EmptyString
  else
    let bare := TrimPrefix address "tcp://" in
    let! parts := lift (SplitHostPort bare) in
    if negb (eqs parts.2 "0") then ret bare
    else
      let! listening := opening ProbeListener (Listen (JoinHostPort parts.1 "0")) in
      close_part ProbeListener ;;;
      let! actual := lift (SplitHostPort listening) in
      lift (Atoi actual.2) ;;;
      ret (JoinHostPort actual.1 actual.2).

(** [if err := ...; err != nil { cleanup; return err }] *)
Definition or_close {A} (m : Setup A) (cleanup : Setup unit) : Setup A := fun s =>
  match m s with
  | (Err e, s') => if is_panic e then (Err e, s') else (Err e, snd (cleanup s'))
  | ok => ok
  end.

Definition writeReadyFile (path : string) (state : ReadyState) : Setup unit :=
  on_parts (zoom fst (fun w p => (w, p.2)) (on_files (MkdirAll (Dir path) ;;; WriteByRename path (ReadyDoc state)))).

(** [DemoNode.Close]: the HTTP server closes its listener, the gRPC server its
    own. Errors are collected, and nothing stops the rest. *)
Definition close_node (app : RuntimeApp) : Setup unit :=
  close_part RpcListener ;;; close_part GrpcListener ;;; close_part CometNode ;;; close_part AbciServer ;;;
  close_runtime app ;;; close_part ChainDB.

Definition with_addresses (abci comet p2p : string) (cfg : NetConfig) : NetConfig :=
  mk_net (NetHomeDir cfg) (NetRPCAddress cfg) comet (NetGRPCAddress cfg) abci p2p (ReadyFile cfg)
    (DestinationLCDBaseURL cfg) (TickInterval cfg).

Definition resolve (cfg : NetConfig) : Setup (NetConfig * Config) :=
  query (fun s => ResolveNetConfig (files (sgParts s).1) cfg).

Definition NewChainApp (cfg : NetConfig) : Setup (list string * list string) :=
  let! both := resolve cfg in opening ChainDB (BuildChainApp both.2).

Definition Start (cfg : NetConfig) : Setup ReadyState :=
  let! both := resolve cfg in
  let '(resolved, appCfg) := both in
  let! abci := resolveConcreteTCPAddress (NetABCIAddress resolved) in
  let! comet := resolveConcreteTCPAddress (NetCometRPCAddress resolved) in
  let! p2p := resolveConcreteTCPAddress (NetP2PAddress resolved) in
  let resolved := with_addresses abci comet p2p resolved in
  let! keys := NewChainApp resolved in
  let! home := or_close (on_parts (ensureCometNodeHome resolved appCfg)) (close_part ChainDB) in
  let! app := or_close (opening RuntimeDB (zoom fst (fun w p => (w, p.2)) (LoadWithConfig appCfg))) (close_part ChainDB) in
  let unwind := close_part ChainDB ;;; close_runtime app in
  or_close (on_parts (NewABCIServer (normalizeTCPAddress (NetABCIAddress resolved)))) unwind ;;;
  or_close (opening AbciServer StartABCIServer) unwind ;;;
  or_close (opening CometNode (startCometNode home resolved))
    (close_part ChainDB ;;; close_part AbciServer ;;; close_runtime app) ;;;
  let! rpc := or_close (opening RpcListener (Listen (NetRPCAddress resolved)))
    (close_part ChainDB ;;; close_part CometNode ;;; close_part AbciServer ;;; close_runtime app) in
  let! grpc := or_close (opening GrpcListener (Listen (NetGRPCAddress resolved)))
    (close_part ChainDB ;;; close_part CometNode ;;; close_part AbciServer ;;; close_part RpcListener ;;; close_runtime app) in
  let state := mk_ready "ready" (CfgChainID appCfg) (NodeID home) (HomeDir appCfg) rpc (NetCometRPCAddress resolved) grpc
    (normalizeTCPAddress (NetABCIAddress resolved)) (HomeConfigPath home) (HomeCometGenesisPath home) (HomeSDKGenesisPath home)
    (HomeNodeKeyPath home) (HomePrivValidatorKeyPath home) (HomePrivValidatorStatePath home)
    keys.1 (sortedGenesisModuleNames keys.2) in
  or_close (writeReadyFile (ReadyFile resolved) state) (close_node app) ;;;
  ret state.

(** ** Nothing is left open *)

Lemma on_parts_open {A} (m : Op (World * W) A) s : sgOpen (snd (on_parts m s)) = sgOpen s.
Proof. unfold on_parts, zoom. by destruct (m (sgParts s)). Qed.

Lemma opening_open {A} r (m : Op (World * W) A) s :
  sgOpen (snd (opening r m s)) = if is_ok (fst (opening r m s)) then r :: sgOpen s else sgOpen s.
Proof.
  unfold opening, bind. pose proof (on_parts_open m s) as Ho. destruct (on_parts m s) as [[a|e] s']; cbn in *; by rewrite Ho.
Qed.

Lemma close_part_open r s : sgOpen (snd (close_part r s)) = remove_one r (sgOpen s).
Proof. done. Qed.
Lemma close_runtime_open app s : close_runtime app s = (Ok tt, snd (close_runtime app s)) /\
  sgOpen (snd (close_runtime app s)) = remove_one RuntimeDB (sgOpen s).
Proof. unfold close_runtime. by destruct (Runtime.Close _) as [r [a w]]. Qed.

(** A clean-up closes a list of parts. *)
Definition closes (rs : list resource) (m : Setup unit) : Prop :=
  forall s, fst (m s) = Ok tt /\ sgOpen (snd (m s)) = foldl (fun l r => remove_one r l) (sgOpen s) rs.

Lemma closes_part r : closes [r] (close_part r).
Proof. done. Qed.
Lemma closes_runtime app : closes [RuntimeDB] (close_runtime app).
Proof. intros s. destruct (close_runtime_open app s) as [-> ?]. done. Qed.
Lemma closes_then rs rs' m m' : closes rs m -> closes rs' m' -> closes (rs ++ rs') (m ;;; m').
Proof.
  intros Hm Hm' s. destruct (Hm s) as [Hr Ho]. unfold bind. destruct (m s) as [r s1]. cbn [fst snd] in *. subst r.
  rewrite foldl_app, <- Ho. apply Hm'.
Qed.

(** A step that opens [news] when it succeeds, and when it fails leaves open
    what was open before the parts [held] were. *)
Definition step_ok {A} (held news : list resource) (m : Setup A) : Prop :=
  forall s base, sgOpen s = held ++ base ->
  match m s with
  | (Ok _, s') => sgOpen s' = news ++ held ++ base
  | (Err e, s') => is_panic e = false -> sgOpen s' = base
  end.

Lemma step_frame {A} (m : Setup A) : (forall s, sgOpen (snd (m s)) = sgOpen s) -> step_ok [] [] m.
Proof. intros Hm s base Hs. specialize (Hm s). destruct (m s) as [[a|e] s']; cbn in *; congruence. Qed.

Lemma step_opening {A} r (m : Op (World * W) A) : step_ok [] [r] (opening r m).
Proof. intros s base Hs. pose proof (opening_open r m s) as Ho. destruct (opening r m s) as [[a|e] s']; cbn in *; congruence. Qed.

(** A failure is cleaned up: what was held is closed, in any order. *)
Lemma step_or_close {A} held news rs (m : Setup A) cleanup :
  (forall base, foldl (fun l r => remove_one r l) (held ++ base) rs = base) -> closes rs cleanup ->
  step_ok [] news m -> step_ok held news (or_close m cleanup).
Proof.
  intros Hrs Hc Hm s base Hs. specialize (Hm s (held ++ base) Hs). unfold or_close.
  destruct (m s) as [[a|e] s']; [exact Hm|]. destruct (is_panic e) eqn:Hp; [congruence|]. intros _.
  destruct (Hc s') as [_ Ho]. cbn [snd]. rewrite Ho, (Hm eq_refl). apply Hrs.
Qed.

Lemma step_bind {A B} held news rest (m : Setup A) (f : A -> Setup B) :
  step_ok held news m -> (forall a, step_ok (news ++ held) rest (f a)) -> step_ok held (rest ++ news) (bind m f).
Proof.
  intros Hm Hf s base Hs. specialize (Hm s base Hs). unfold bind. destruct (m s) as [[a|e] s']; [|exact Hm].
  assert (Hs' : sgOpen s' = (news ++ held) ++ base) by by rewrite <- app_assoc.
  specialize (Hf a s' base Hs'). destruct (f a s') as [[b|e] s'']; [|exact Hf]. by rewrite Hf, <- !app_assoc.
Qed.

(** The same, with the lists written out. *)
Lemma step_then {A B} held news rest held' all (m : Setup A) (f : A -> Setup B) :
  held' = news ++ held -> all = rest ++ news ->
  step_ok held news m -> (forall a, step_ok held' rest (f a)) -> step_ok held all (bind m f).
Proof. intros -> ->. apply step_bind. Qed.

Lemma step_ret {A} held (a : A) : step_ok held [] (ret a).
Proof. by intros s base Hs. Qed.
Lemma step_lift {A} (r : result A) : step_ok [] [] (lift r).
Proof. by apply step_frame. Qed.

Lemma step_resolve_address address : step_ok [] [] (resolveConcreteTCPAddress address).
Proof.
  unfold resolveConcreteTCPAddress. destruct (eqs _ _); [apply step_ret|].
  apply (step_then [] [] [] _ _ _ _ eq_refl eq_refl); [apply step_lift|intros parts]. destruct (negb _); [apply step_ret|].
  intros s base Hs. unfold bind at 1. pose proof (step_opening ProbeListener (Listen (JoinHostPort parts.1 "0")) s base Hs) as Ho.
  destruct (opening _ _ s) as [[listening|e] s1]; [|exact Ho].
  unfold bind at 1. change (close_part ProbeListener s1) with (@Ok error unit tt, snd (close_part ProbeListener s1)).
  cbn [fst snd]. assert (Hc : sgOpen (snd (close_part ProbeListener s1)) = [] ++ base) by (rewrite close_part_open, Ho; done).
  revert Hc. generalize (snd (close_part ProbeListener s1)). intros s2 Hc.
  refine ((_ : step_ok [] [] _) s2 base Hc).
  apply (step_then [] [] [] _ _ _ _ eq_refl eq_refl); [apply step_lift|intros actual]. apply (step_then [] [] [] _ _ _ _ eq_refl eq_refl); [apply step_lift|intros _]. apply step_ret.
Qed.

Definition node_parts : list resource := [GrpcListener; RpcListener; CometNode; AbciServer; RuntimeDB; ChainDB].

Lemma closes_unwind rs app : closes (rs ++ [RuntimeDB]) (foldr (fun r m => close_part r ;;; m) (close_runtime app) rs).
Proof.
  induction rs as [|r rs IH]; [apply closes_runtime|]. exact (closes_then [r] _ _ _ (closes_part r) IH).
Qed.

Lemma step_ready_file path state app : step_ok node_parts [] (or_close (writeReadyFile path state) (close_node app)).
Proof.
  apply (step_or_close _ _ [RpcListener; GrpcListener; CometNode; AbciServer; RuntimeDB; ChainDB]); [done| |apply step_frame, on_parts_open].
  unfold close_node. do 4 (apply (closes_then [_]); [apply closes_part|]).
  apply (closes_then [RuntimeDB] [ChainDB]); [apply closes_runtime|apply closes_part].
Qed.

(** Each step of [Start] opens its part, or closes those opened before it. *)
Lemma Start_steps (cfg : NetConfig) : step_ok [] node_parts (Start cfg).
Proof.
  unfold Start, node_parts.
  apply (step_then [] [] node_parts [] _ _ _ eq_refl eq_refl); [by apply step_frame|intros [resolved appCfg]].
  do 3 (apply (step_then [] [] node_parts [] _ _ _ eq_refl eq_refl); [apply step_resolve_address|intros ?]).
  apply (step_then [] [ChainDB] [GrpcListener; RpcListener; CometNode; AbciServer; RuntimeDB] _ _ _ _ eq_refl eq_refl).
  { apply (step_then [] [] [ChainDB] _ _ _ _ eq_refl eq_refl); [by apply step_frame|intros ?; apply step_opening]. }
  intros keys. apply (step_then [ChainDB] [] [GrpcListener; RpcListener; CometNode; AbciServer; RuntimeDB] _ _ _ _ eq_refl eq_refl).
  { apply (step_or_close _ _ [ChainDB]); [done|apply closes_part|apply step_frame, on_parts_open]. }
  intros home. apply (step_then [ChainDB] [RuntimeDB] [GrpcListener; RpcListener; CometNode; AbciServer] _ _ _ _ eq_refl eq_refl).
  { apply (step_or_close _ _ [ChainDB]); [done|apply closes_part|apply step_opening]. }
  intros app. cbv zeta. apply (step_then [RuntimeDB; ChainDB] [] [GrpcListener; RpcListener; CometNode; AbciServer] _ _ _ _ eq_refl eq_refl).
  { apply (step_or_close _ _ [ChainDB; RuntimeDB]); [done|apply (closes_unwind [ChainDB])|apply step_frame, on_parts_open]. }
  intros _. apply (step_then [RuntimeDB; ChainDB] [AbciServer] [GrpcListener; RpcListener; CometNode] _ _ _ _ eq_refl eq_refl).
  { apply (step_or_close _ _ [ChainDB; RuntimeDB]); [done|apply (closes_unwind [ChainDB])|apply step_opening]. }
  intros _. apply (step_then [AbciServer; RuntimeDB; ChainDB] [CometNode] [GrpcListener; RpcListener] _ _ _ _ eq_refl eq_refl).
  { apply (step_or_close _ _ [ChainDB; AbciServer; RuntimeDB]); [done|apply (closes_unwind [ChainDB; AbciServer])|apply step_opening]. }
  intros _. apply (step_then [CometNode; AbciServer; RuntimeDB; ChainDB] [RpcListener] [GrpcListener] _ _ _ _ eq_refl eq_refl).
  { apply (step_or_close _ _ [ChainDB; CometNode; AbciServer; RuntimeDB]);
      [done|apply (closes_unwind [ChainDB; CometNode; AbciServer])|apply step_opening]. }
  intros rpc. apply (step_then [RpcListener; CometNode; AbciServer; RuntimeDB; ChainDB] [GrpcListener] [] _ _ _ _ eq_refl eq_refl).
  { apply (step_or_close _ _ [ChainDB; CometNode; AbciServer; RpcListener; RuntimeDB]);
      [done|apply (closes_unwind [ChainDB; CometNode; AbciServer; RpcListener])|apply step_opening]. }
  intros grpc. apply (step_then node_parts [] [] _ _ _ _ eq_refl eq_refl); [apply step_ready_file|intros _; apply step_ret].
Qed.

End start.

(** ** A concrete start *)

#[local] Existing Instance Bridge.toy_crypto.
#[local] Existing Instance Bank.toy_codec.
#[local] Existing Instance Config.demo_environment.
#[local] Existing Instance Restart.demo_sdk.

(** Parts that listen where they are told, on port 4000 when asked for any, and
    refuse what is listed. *)
#[local] Instance demo_parts : NodeParts (list string) := {|
  BuildChainApp _ := ret (["acc"; "bank"]%string, ["bank"; "auth"]%string);
  ensureCometNodeHome _ cfg := ret (mk_comet_home (HomeDir cfg) "id" "c" "g" "s" "n" "k" "p");
  NewABCIServer _ := ret tt;
  StartABCIServer := ret tt;
  startCometNode _ _ := ret tt;
  Listen address := fun p =>
    if bool_decide (address ∈ p.2) then (Err (Errorf ("listen tcp " +:+ address +:+ ": address already in use")), p)
    else (Ok (if eqs address "127.0.0.1:0" then "127.0.0.1:4000"%string else address), p);
  shut _ p := p
|}.

Definition demo_starting (busy : list string) : Starting (list string) :=
  mk_starting (Restart.demo_home, busy) [].
Definition demo_start (busy : list string) :=
  Start (mk_net "/srv/aegis" EmptyString EmptyString EmptyString EmptyString EmptyString EmptyString EmptyString 0) (demo_starting busy).

(** A start that succeeds, with the ready file it leaves; and one whose gRPC
    port is taken. *)
Example node_starts :
  match demo_start [] with
  | (Ok ready, s) => sgOpen s = node_parts /\ ABCIAddress ready = "tcp://127.0.0.1:4000"%string /\
      SDKGenesisModules ready = ["auth"; "bank"]%string /\
      ReadDocument (files (sgParts s).1) "/srv/aegis/data/demo-node-ready.json" = Ok (ReadyDoc ready)
  | _ => False
  end /\
  match demo_start ["127.0.0.1:9090"%string] with
  | (Err e, s) => sgOpen s = [] /\ is_panic e = false
  | _ => False
  end.
Proof. vm_compute. by split_and!. Qed.

(** The address of CometBFT's RPC has no default: when the flag is left out,
    the ready file has an empty address, and the node's clients have nowhere to
    ask. *)
Example no_comet_address :
  match demo_start [] with (Ok ready, _) => CometRPCAddress ready = EmptyString | _ => False end.
Proof. vm_compute. reflexivity. Qed.
