(* ===== verification/Cli.v ===== *)
(** [chain/aegislink/cmd/aegislinkd] (main.go), with internal/metrics and
    internal/opslog: the command line of the chain.

    A command works on a machine: its disk, the network, what it prints and
    what it logs. A command on a home builds the application from its files,
    runs one operation, saves and closes it; the same command given a ready file
    sends its request to a running node instead. *)

From Stdlib Require Import Ascii String.
From stdpp Require Import strings.
From S2P Require Import Prelude.
From S2P Require Import GoStrings.
From S2P Require Import Errors.
From S2P Require Import Base64.
From S2P Require Import Bytes.
From S2P Require Import Files.
From S2P Require Import Flags.
From S2P Require Import JSON.
From S2P Require Registry.
From S2P Require Limits.
From S2P Require Pauser.
From S2P Require RouteProfile.
From S2P Require IBCRouter.
From S2P Require Governance.
From S2P Require BridgeState.
From S2P Require Bridge.
From S2P Require Bank.
From S2P Require Import BridgeTypes.
From S2P Require Import App.
From S2P Require Import DemoTx.
From S2P Require Import Config.
From S2P Require Import Runtime.
From S2P Require Import Restart.
From S2P Require Import ChainApp.
From S2P Require Node.
From S2P Require Import Views.
From S2P Require Import Handlers.
From S2P Require Import NodeClient.
From S2P Require Import NodeStart.

(** ** The machine *)

Inductive output := OutText (s : string) | OutJSON (j : json).

Record log_line := mk_log { LogLevel : string; LogEvent : string; LogMessage : string; LogFields : gmap string json }.

(** [writes] says how the next writes to the standard output end. *)
Record Machine (W : Type) := mk_machine {
  disk : World;
  net : W;
  stdout : list output;
  writes : list (option error);
  stderr : list log_line
}.
Arguments mk_machine {W}.
Arguments disk {W}.
Arguments net {W}.
Arguments stdout {W}.
Arguments writes {W}.
Arguments stderr {W}.

(** What a node does between its start and the end of its context. *)
Class Running (W : Type) := { running : ReadyState -> World * W -> World * W }.

(** A [map[string]any], its keys in their order. *)
Definition document_of (m : gmap string json) : json :=
  JObject (map (fun k => (k, default JNull (m !! k))) (SortStrings (map fst (map_to_list m)))).
Definition fields_of (l : list (string * json)) : gmap string json := list_to_map l.

(** ** Arguments *)

Definition splitCommaSeparated (raw : string) : list string :=
  if blank raw then []
  else filter (fun s => s <> EmptyString) (map TrimSpace (Split raw ",")).

(** A list that is nil when it is empty. *)
Definition nil_json (l : list string) : json := match l with [] => JNull | _ => to_json l end.

Definition parseBase10Amount (raw : string) : result Z :=
  match SetString10 (TrimSpace raw) with
  | Some amount => Ok amount
  | None => Err (Errorf ("invalid amount " +:+ Quote raw))
  end.

(** [time.Duration(ms) * time.Millisecond]. *)
Definition milliseconds (ms : N) : Z := int64 (int64 (Z.of_N ms) * 1000000).
Definition tick_interval (ms : N) : Z :=
  let interval := milliseconds ms in if (interval <=? 0)%Z then milliseconds 50 else interval.

(** The flag sets, by the names of their commands. *)
Definition runtime_flags : list string := ["home"; "config-path"; "state-path"; "genesis-path"; "runtime-mode"]%string.
Definition ready_flag : string := "demo-node-ready-file".

Definition flag_sets : list (string * FlagSet) := [
  ("init", declare ["home"; "chain-id"; "runtime-mode"; "allowed-signers"; "governance-authorities"]
     [("required-threshold", FUint 0); ("force", FBool false)]);
  ("start", declare runtime_flags [("daemon", FBool false); ("tick-interval-ms", FUint 50); ("max-blocks", FUint 0)]);
  ("demo-node start", declare ["home"; "rpc-address"; "comet-rpc-address"; "grpc-address"; "abci-address"; "ready-file";
     "destination-lcd-base-url"] [("tick-interval-ms", FUint 0)]);
  ("demo-node status", declare ["home"; "ready-file"] []);
  ("demo-node balances", declare ["home"; "ready-file"; "address"] []);
  ("demo-node transfers", declare ["home"; "ready-file"] []);
  ("status", declare runtime_flags []);
  ("summary", declare (runtime_flags ++ [ready_flag]) []);
  ("claim", declare (runtime_flags ++ ["message-id"]) []);
  ("metrics", declare runtime_flags []);
  ("signer-set", declare runtime_flags [("version", FUint 0)]);
  ("signer-sets", declare runtime_flags []);
  ("withdrawals", declare (runtime_flags ++ [ready_flag]) [("from-height", FUint 0); ("to-height", FUint max_uint64)]);
  ("balances", declare (runtime_flags ++ ["address"]) []);
  ("routes", declare runtime_flags []);
  ("route-profiles", declare runtime_flags []);
  ("transfers", declare runtime_flags []);
  ("submit-deposit-claim", declare (runtime_flags ++ [ready_flag; "submission-file"]) []);
  ("queue-deposit-claim", declare (runtime_flags ++ [ready_flag; "submission-file"]) []);
  ("execute-withdrawal", declare (runtime_flags ++ [ready_flag; "owner-address"; "asset-id"; "amount"; "recipient";
     "signature-base64"]) [("deadline", FUint 0); ("height", FUint 0)]);
  ("initiate-ibc-transfer", declare (runtime_flags ++ [ready_flag; "sender"; "route-id"; "asset-id"; "amount"; "receiver";
     "memo"]) [("timeout-height", FUint 0)]);
  ("set-route-profile", declare (runtime_flags ++ [ready_flag; "route-id"; "destination-chain-id"; "channel-id"; "asset-id";
     "destination-denom"; "memo-prefixes"; "action-types"]) [("enabled", FBool true)]);
  ("fail-ibc-transfer", declare (runtime_flags ++ ["transfer-id"; "reason"]) []);
  ("timeout-ibc-transfer", declare (runtime_flags ++ ["transfer-id"]) []);
  ("complete-ibc-transfer", declare (runtime_flags ++ ["transfer-id"]) []);
  ("refund-ibc-transfer", declare (runtime_flags ++ ["transfer-id"]) []);
  ("apply-asset-status-proposal", declare (runtime_flags ++ ["proposal-id"; "asset-id"; "authority"]) [("enabled", FBool true)]);
  ("apply-limit-update-proposal", declare (runtime_flags ++ ["proposal-id"; "asset-id"; "max-amount"; "authority"])
     [("window-seconds", FUint 0)]);
  ("apply-route-policy-update-proposal", declare (runtime_flags ++ ["proposal-id"; "route-id"; "memo-prefixes"; "action-types";
     "authority"]) [])
]%string.

Definition flags_of (name : string) : FlagSet :=
  match find (fun p => eqs p.1 name) flag_sets with Some p => p.2 | None => ∅ end.
Definition parse_flags (name : string) (args : list string) : result FlagSet :=
  let? parsed := Parse (flags_of name) args in Ok parsed.1.

(** The configuration the flags of a command give. *)
Definition runtime_config (fs : FlagSet) : Config :=
  mk_config EmptyString EmptyString (str fs "runtime-mode") (str fs "home") (str fs "config-path") (str fs "genesis-path") []
    (str fs "state-path") [] [] 0.
Definition node_config (fs : FlagSet) (readyFile : string) : NetConfig :=
  mk_net (str fs "home") EmptyString EmptyString EmptyString EmptyString EmptyString readyFile EmptyString 0.

Definition missing (fs : FlagSet) (name what : string) : bool * error := (blank (str fs name), Errorf ("missing " +:+ what)).
Definition missing_number (fs : FlagSet) (name what : string) : bool * error :=
  (N.eqb (num fs name) 0, Errorf ("missing " +:+ what)).

(** ** Metrics (internal/metrics) *)

Record RuntimeSnapshot := mk_snapshot {
  SnapshotAppName : string; SnapshotChainID : string; SnapshotClaims : N; SnapshotFailed : N;
  SnapshotPending : nat; SnapshotTimedOut : nat
}.

Definition newline : string := String (ascii_of_N 10) EmptyString.

Definition formatLabels (labels : gmap string string) : string :=
  if decide (labels = ∅) then EmptyString
  else "{" +:+ Join (map (fun k => k +:+ "=" +:+ Quote (default EmptyString (labels !! k)))
                      (SortStrings (map fst (map_to_list labels)))) "," +:+ "}".

Definition writeMetric (name metricType help : string) (labels : gmap string string) (value : string) : string :=
  "# HELP " +:+ name +:+ " " +:+ help +:+ newline +:+ "# TYPE " +:+ name +:+ " " +:+ metricType +:+ newline +:+
  name +:+ formatLabels labels +:+ " " +:+ value +:+ newline.

Definition FormatRuntimeSnapshot (s : RuntimeSnapshot) : string :=
  let labels := list_to_map [("app_name", SnapshotAppName s); ("chain_id", SnapshotChainID s)]%string in
  let count n := format_uint (N.of_nat n) in
  writeMetric "aegislink_runtime_processed_claims_total" "counter" "Processed bridge claims." labels (format_uint (SnapshotClaims s)) +:+
  writeMetric "aegislink_runtime_failed_claims_total" "counter" "Failed bridge claims." labels (format_uint (SnapshotFailed s)) +:+
  writeMetric "aegislink_runtime_pending_transfers" "gauge" "Pending route transfers." labels (count (SnapshotPending s)) +:+
  writeMetric "aegislink_runtime_timed_out_transfers_total" "counter" "Timed out route transfers." labels (count (SnapshotTimedOut s)).

(** ** Documents *)

Definition statusEnvelope (kind : string) (s : StatusInfo) : gmap string json :=
  fields_of ([("status", to_json kind); ("app_name", to_json (StAppName s)); ("chain_id", to_json (StChainID s));
    ("runtime_mode", to_json (StRuntimeMode s)); ("home_dir", to_json (StHomeDir s)); ("config_path", to_json (StConfigPath s));
    ("genesis_path", to_json (StGenesisPath s)); ("state_path", to_json (StStatePath s));
    ("initialized", to_json (StInitialized s)); ("modules", to_json (StModuleCount s));
    ("module_names", to_json (StModuleNames s)); ("allowed_signers", to_json (StAllowedSigners s));
    ("governance_authorities", to_json (StGovernanceAuthorities s));
    ("active_signer_set_version", to_json (StActiveVersion s)); ("active_signer_threshold", to_json (StActiveThreshold s));
    ("signer_set_count", to_json (StSignerSetCount s)); ("signer_set_versions", to_json (StSignerSetVersions s));
    ("required_threshold", to_json (StRequiredThreshold s)); ("current_height", to_json (StCurrentHeight s));
    ("assets", to_json (StAssets s)); ("limits", to_json (StLimits s)); ("paused_flows", to_json (StPausedFlows s));
    ("processed_claims", to_json (StClaims s)); ("pending_deposit_claims", to_json (StPendingClaims s));
    ("failed_claims", to_json (StFailedClaims s)); ("withdrawals", to_json (StWithdrawalCount s));
    ("routes", to_json (StRoutes s)); ("transfers", to_json (StTransfers s)); ("pending_transfers", to_json (StPending s));
    ("completed_transfers", to_json (StCompleted s)); ("failed_transfers", to_json (StFailed s));
    ("timed_out_transfers", to_json (StTimedOut s)); ("refunded_transfers", to_json (StRefunded s));
    ("supply_by_denom", to_json (StSupply s))]%string).
Definition withProducedBlocks (status : gmap string json) (produced : N) : gmap string json :=
  <["produced_blocks"%string := to_json produced]> status.

Definition summary_of (r : RuntimeApp) : SummaryDocument :=
  let a := Keepers r in
  let bridgeState := BridgeState.ExportState (BridgeKeeper a) in
  mk_summary_doc (CfgAppName (AppConfig r)) (AppModules r) (length (Registry.ExportAssets (RegistryKeeper a)))
    (length (Limits.ExportLimits (LimitsKeeper a))) (length (Pauser.ExportPausedFlows (PauserKeeper a)))
    (BridgeState.MetaHeight (BridgeState.StMeta bridgeState)) (length (BridgeState.StWithdrawals bridgeState))
    (BridgeState.StSupplyByDenom bridgeState).

(** [loadSubmission]: the document of the file, read as a claim and its
    attestation. *)
Definition loadSubmission (w : FS Config.document) (path : string) : result (DepositClaim * Attestation) :=
  let? d := ReadDocument w (Clean path) in
  depositClaimAndAttestationFromPayload (as_submission d).

(** The order [query routes] prints in. *)
Definition route_le (x y : IBCRouter.Route) : Prop :=
  if decide (IBCRouter.AssetID x = IBCRouter.AssetID y) then
    if decide (IBCRouter.DestinationChainID x = IBCRouter.DestinationChainID y)
    then String.le (IBCRouter.ChannelID x) (IBCRouter.ChannelID y)
    else String.le (IBCRouter.DestinationChainID x) (IBCRouter.DestinationChainID y)
  else String.le (IBCRouter.AssetID x) (IBCRouter.AssetID y).
#[local] Instance route_le_dec x y : Decision (route_le x y).
Proof. unfold route_le. repeat case_decide; apply _. Defined.
#[local] Instance cli_transfer_le_dec x y : Decision (transfer_le x y).
Proof. unfold transfer_le. apply _. Defined.

Section cli.
Context {W : Type} `{Network W} `{NodeParts W} `{Running W}.
Context `{MapIteration} `{Crypto} `{Bank.AddressCodec} `{Environment} `{SDKStore}.
(** How many ticks pass before the context of the command is cancelled. *)
Context (ticks : nat).

Abbreviation Cmd A := (Op (Machine W) A).
(** A command that has built its application. *)
Abbreviation Session := (RuntimeApp * Machine W)%type.

Definition set_disk (w : World) (m : Machine W) : Machine W := mk_machine w (net m) (stdout m) (writes m) (stderr m).
Definition set_net (n : W) (m : Machine W) : Machine W := mk_machine (disk m) n (stdout m) (writes m) (stderr m).
Definition set_parts (p : World * W) (m : Machine W) : Machine W := set_net p.2 (set_disk p.1 m).

(** *** Printing and logging *)

Definition write (o : output) : Cmd unit := fun m =>
  match writes m with
  | Some e :: rest => (Err e, mk_machine (disk m) (net m) (stdout m) rest (stderr m))
  | None :: rest => (Ok tt, mk_machine (disk m) (net m) (stdout m ++ [o]) rest (stderr m))
  | [] => (Ok tt, mk_machine (disk m) (net m) (stdout m ++ [o]) [] (stderr m))
  end.
Definition writeJSON (j : json) : Cmd unit := write (OutJSON j).

Definition opslog_Write (level event message : string) (fields : list (string * json)) : Cmd unit :=
  modify (fun m => mk_machine (disk m) (net m) (stdout m) (writes m) (stderr m ++ [mk_log level event message (fields_of fields)])).
Definition info := opslog_Write "info".

(** *** The application of a command *)

Definition parse (name : string) (args : list string) : Cmd FlagSet := lift (parse_flags name args).

Definition on_world {A} (x : Op World A) : Cmd A := zoom disk set_disk x.
Definition on_machine {A} (x : Cmd A) : Op Session A := zoom snd (fun m s => (s.1, m)) x.
Definition on_process {A} (x : Op Process A) : Op Session A :=
  zoom (fun s => (s.1, disk s.2)) (fun p s => (p.1, set_disk p.2 s.2)) x.

Definition loadRuntimeApp (fs : FlagSet) : Op World RuntimeApp :=
  let! cfg := query (fun w => ResolveConfig (files w) (runtime_config fs)) in
  LoadWithConfig cfg.

(** The application is closed however the command ends ([defer closeApp(a)]). *)
Definition with_app {A} (load : Op World RuntimeApp) (body : Op Session A) : Cmd A := fun m =>
  match on_world load m with
  | (Err e, m) => (Err e, m)
  | (Ok app, m) => let '(r, s) := body (app, m) in (r, snd (snd (on_process Runtime.Close s)))
  end.

(** A command that runs one operation of the application and saves it. *)
Definition local_tx {A} (fs : FlagSet) (operation : Op App A) (show : A -> json) : Cmd unit :=
  with_app (loadRuntimeApp fs)
    (let! a := on_process (on_keepers operation) in
     on_process Runtime.Save ;;;
     on_machine (writeJSON (show a))).

(** A command that looks at the application. *)
Definition local_query (fs : FlagSet) (view : RuntimeApp -> World -> result json) : Cmd unit :=
  with_app (loadRuntimeApp fs)
    (let! j := query (fun s => view s.1 (disk s.2)) in
     on_machine (writeJSON j)).

(** A request to a running node. *)
Definition on_client {A} (x : Op (Client W) A) : Cmd A :=
  zoom (fun m => mk_client (files (disk m)) (net m)) (fun c m => set_net (clNet c) m) x.
Definition over_node {A} (x : Op (Client W) A) (show : A -> json) : Cmd unit :=
  let! a := on_client x in writeJSON (show a).
Definition to_node (fs : FlagSet) : bool := negb (blank (str fs ready_flag)).

(** *** init, start *)

Definition runInit (args : list string) : Cmd unit :=
  let! fs := parse "init" args in
  throw_if (two32 <=? num fs "required-threshold")%N (Errorf "required threshold exceeds uint32 range") ;;;
  let! cfg := on_world (InitHome (mk_config EmptyString (str fs "chain-id") (str fs "runtime-mode") (str fs "home") EmptyString
      EmptyString [] EmptyString (splitCommaSeparated (str fs "allowed-signers"))
      (splitCommaSeparated (str fs "governance-authorities")) (num fs "required-threshold")) (flag_on fs "force")) in
  info "runtime_init" "runtime home initialized" [("chain_id", to_json (CfgChainID cfg)); ("home_dir", to_json (HomeDir cfg));
    ("runtime_mode", to_json (RuntimeMode cfg)); ("module_count", to_json (length (CfgModules cfg)));
    ("configured_signers", to_json (length (AllowedSigners cfg))); ("required_threshold", to_json (RequiredThreshold cfg));
    ("config_path", to_json (ConfigPath cfg)); ("genesis_path", to_json (GenesisPath cfg));
    ("state_path", to_json (StatePath cfg))]%string ;;;
  writeJSON (document_of (fields_of [("status", to_json "initialized"%string); ("app_name", to_json (CfgAppName cfg));
    ("chain_id", to_json (CfgChainID cfg)); ("runtime_mode", to_json (RuntimeMode cfg)); ("home_dir", to_json (HomeDir cfg));
    ("config_path", to_json (ConfigPath cfg)); ("genesis_path", to_json (GenesisPath cfg));
    ("state_path", to_json (StatePath cfg))]%string)).

Definition status_now : Op Session StatusInfo := gets (fun s => Status s.1 (disk s.2)).
Definition advance : Op App BlockProgress := fun a => let '(progress, a) := AdvanceBlock a in (Ok progress, a).

Definition loop_stopped (reason : string) (blockCount : N) : Op Session unit :=
  let! status := status_now in
  on_machine (info "runtime_stop" "daemon node loop stopped" [("chain_id", to_json (StChainID status));
    ("home_dir", to_json (StHomeDir status)); ("current_height", to_json (StCurrentHeight status));
    ("produced_blocks", to_json blockCount); ("pending_claims", to_json (StPendingClaims status));
    ("reason", to_json reason)]%string) ;;;
  on_machine (writeJSON (document_of (withProducedBlocks (statusEnvelope "stopped" status) blockCount))).

(** The loop of [runStart]: the ticker, until the context is cancelled. *)
Fixpoint block_loop (ticks : nat) (maxBlocks blockCount : N) : Op Session unit :=
  match ticks with
  | O => loop_stopped "context_cancelled" blockCount
  | S ticks =>
      let! progress := on_process (on_keepers advance) in
      let blockCount := u64_incr blockCount in
      on_process Runtime.Save ;;;
      on_machine (info "block_advanced" "daemon block advanced" [("height", to_json (Height progress));
        ("applied_queued_claims", to_json (AppliedQueuedClaims progress));
        ("pending_queued_claims", to_json (PendingQueuedClaims progress));
        ("last_submission_message", to_json (LastSubmissionMessage progress))]%string) ;;;
      if (0 <? maxBlocks)%N && (maxBlocks <=? blockCount)%N then loop_stopped "max_blocks" blockCount
      else block_loop ticks maxBlocks blockCount
  end.

Definition started (fs : FlagSet) : Op Session unit :=
  let! status := status_now in
  if negb (flag_on fs "daemon") then
    on_machine (info "runtime_start" "runtime started" [("chain_id", to_json (StChainID status));
      ("home_dir", to_json (StHomeDir status)); ("module_count", to_json (StModuleCount status));
      ("configured_signers", to_json (length (StAllowedSigners status)));
      ("active_signer_set_version", to_json (StActiveVersion status)); ("signer_set_count", to_json (StSignerSetCount status));
      ("enabled_route_ids", to_json (StEnabledRouteIDs status)); ("current_height", to_json (StCurrentHeight status));
      ("daemon", to_json false)]%string) ;;;
    on_machine (writeJSON (document_of (statusEnvelope "started" status)))
  else
    on_machine (info "runtime_start" "daemon node loop starting" [("chain_id", to_json (StChainID status));
      ("home_dir", to_json (StHomeDir status)); ("module_count", to_json (StModuleCount status));
      ("configured_signers", to_json (length (StAllowedSigners status))); ("daemon", to_json true);
      ("tick_interval_ms", JNumber (format_int (Z.quot (tick_interval (num fs "tick-interval-ms")) 1000000)));
      ("max_blocks", to_json (num fs "max-blocks"))]%string) ;;;
    block_loop ticks (num fs "max-blocks") 0.

Definition runStart (args : list string) : Cmd unit :=
  let! fs := parse "start" args in
  let! cfg := on_world (query (fun w => ResolveConfig (files w) (runtime_config fs))) in
  on_world (query (fun w => LoadGenesis (files w) (GenesisPath cfg))) ;;;
  with_app (LoadWithConfig cfg) (started fs).

(** *** demo-node *)

Definition starting (m : Machine W) : Starting W := mk_starting (disk m, net m) [].
Definition node_fields (s : ReadyState) : list (string * json) := [("chain_id", to_json (RdyChainID s));
  ("home_dir", to_json (RdyHomeDir s)); ("rpc_address", to_json (RPCAddress s));
  ("comet_rpc_address", to_json (CometRPCAddress s)); ("grpc_address", to_json (GRPCAddress s))]%string.

Definition runDemoNodeStart (args : list string) : Cmd unit :=
  let! fs := parse "demo-node start" args in
  let! state := zoom starting (fun s => set_parts (sgParts s))
    (Start (mk_net (str fs "home") (str fs "rpc-address") (str fs "comet-rpc-address") (str fs "grpc-address")
       (str fs "abci-address") EmptyString (str fs "ready-file") (str fs "destination-lcd-base-url")
       (milliseconds (num fs "tick-interval-ms")))) in
  info "demo_node_start" "demo node started" (node_fields state ++ [("abci_address", to_json (ABCIAddress state));
    ("ready_file", to_json (TrimSpace (str fs "ready-file")))]%string) ;;;
  modify (fun m => set_parts (running state (disk m, net m)) m) ;;;
  info "demo_node_stop" "demo node stopped" (node_fields state ++ [("reason", to_json "context_cancelled"%string)]%string) ;;;
  writeJSON (document_of (fields_of (node_fields state ++ [("status", to_json "stopped"%string);
    ("abci_address", to_json (ABCIAddress state))]%string))).

Definition status_document (s : ReadyState * bool) : json :=
  match to_json s.1 with JObject l => JObject (l ++ member "healthy" s.2) | j => j end.

Definition runDemoNodeStatus (args : list string) : Cmd unit :=
  let! fs := parse "demo-node status" args in
  let! status := on_client (ReadStatus (node_config fs (str fs "ready-file"))) in
  info "demo_node_status" "demo node status queried" (node_fields status.1 ++ [("healthy", to_json status.2)]%string) ;;;
  writeJSON (status_document status).

Definition runDemoNodeBalances (args : list string) : Cmd unit :=
  let! fs := parse "demo-node balances" args in
  throw_if (blank (str fs "address")) (Errorf "missing address") ;;;
  let! balances := on_client (QueryBalances (node_config fs (str fs "ready-file")) (str fs "address")) in
  info "demo_node_balances" "demo node balances queried" [("home_dir", to_json (TrimSpace (str fs "home")));
    ("address", to_json (TrimSpace (str fs "address"))); ("records", to_json (length balances))]%string ;;;
  writeJSON (to_json balances).

Definition runDemoNodeTransfers (args : list string) : Cmd unit :=
  let! fs := parse "demo-node transfers" args in
  let! transfers := on_client (QueryTransfers (node_config fs (str fs "ready-file"))) in
  info "demo_node_transfers" "demo node transfers queried" [("home_dir", to_json (TrimSpace (str fs "home")));
    ("records", to_json (length transfers))]%string ;;;
  writeJSON (to_json transfers).

(** *** query *)

(** The one command that does not close the application. *)
Definition queryStatus (args : list string) : Cmd unit :=
  let! fs := parse "status" args in
  let! cfg := on_world (query (fun w => ResolveConfig (files w) (runtime_config fs))) in
  let! app := on_world (LoadWithConfig cfg) in
  let! status := gets (fun m => Status app (disk m)) in
  info "runtime_status" "runtime status queried" [("chain_id", to_json (StChainID status));
    ("home_dir", to_json (StHomeDir status)); ("module_count", to_json (StModuleCount status));
    ("active_signer_set_version", to_json (StActiveVersion status)); ("signer_set_count", to_json (StSignerSetCount status));
    ("enabled_route_ids", to_json (StEnabledRouteIDs status)); ("transfers", to_json (StTransfers status));
    ("processed_claims", to_json (StClaims status)); ("pending_deposit_claims", to_json (StPendingClaims status))]%string ;;;
  writeJSON (to_json status).

Definition querySummary (args : list string) : Cmd unit :=
  let! fs := parse "summary" args in
  if to_node fs then over_node (QuerySummary (node_config fs (str fs ready_flag))) to_json
  else local_query fs (fun r _ => Ok (to_json (summary_of r))).

Definition queryClaim (args : list string) : Cmd unit :=
  let! fs := parse "claim" args in
  throw_if (blank (str fs "message-id")) (Errorf "missing message id") ;;;
  local_query fs (fun r _ =>
    match App.GetClaim (Keepers r) (str fs "message-id") with
    | Some claim => Ok (ClaimResponse claim)
    | None => Err (Errorf ("claim " +:+ Quote (str fs "message-id") +:+ " not found"))
    end).

Definition queryMetrics (args : list string) : Cmd unit :=
  let! fs := parse "metrics" args in
  with_app (loadRuntimeApp fs)
    (let! status := status_now in
     on_machine (write (OutText (FormatRuntimeSnapshot (mk_snapshot (StAppName status) (StChainID status)
       (N.of_nat (StClaims status)) (StFailedClaims status) (StPending status) (StTimedOut status)))))).

Definition querySignerSet (args : list string) : Cmd unit :=
  let! fs := parse "signer-set" args in
  let version := num fs "version" in
  local_query fs (fun r _ =>
    if N.eqb version 0 then let? s := BridgeState.ActiveSignerSet (BridgeKeeper (Keepers r)) in Ok (to_json s)
    else match BridgeState.SignerSetByVersion (BridgeKeeper (Keepers r)) version with
         | Some s => Ok (to_json s)
         | None => Err (Errorf ("signer set version " +:+ format_uint version +:+ " not found"))
         end).
Definition querySignerSets (args : list string) : Cmd unit :=
  let! fs := parse "signer-sets" args in
  local_query fs (fun r _ => Ok (to_json (BridgeState.ExportSignerSets (BridgeKeeper (Keepers r))))).

Definition queryWithdrawals (args : list string) : Cmd unit :=
  let! fs := parse "withdrawals" args in
  let fromHeight := num fs "from-height" in
  let toHeight := num fs "to-height" in
  if to_node fs then over_node (QueryWithdrawals (node_config fs (str fs ready_flag)) fromHeight toHeight) to_json
  else local_query fs (fun r _ => Ok (WithdrawalsResponse (App.Withdrawals (Keepers r) fromHeight toHeight))).

Definition queryBalances (args : list string) : Cmd unit :=
  let! fs := parse "balances" args in
  throw_if (blank (str fs "address")) (Errorf "missing address") ;;;
  local_query fs (fun r _ => let? l := App.WalletBalances (Keepers r) (str fs "address") in Ok (to_json l)).

Definition queryRoutes (args : list string) : Cmd unit :=
  let! fs := parse "routes" args in
  local_query fs (fun r _ => Ok (RoutesResponse (merge_sort route_le (IBCRouter.ExportRoutes (IBCRouterKeeper (Keepers r)))))).
Definition queryRouteProfiles (args : list string) : Cmd unit :=
  let! fs := parse "route-profiles" args in
  local_query fs (fun r _ => Ok (to_json (IBCRouter.ExportRouteProfiles (IBCRouterKeeper (Keepers r))))).
Definition queryTransfers (args : list string) : Cmd unit :=
  let! fs := parse "transfers" args in
  local_query fs (fun r _ =>
    Ok (TransfersResponse (merge_sort transfer_le (IBCRouter.ExportTransfers (IBCRouterKeeper (Keepers r)))))).

(** *** tx *)

(** A refused deposit has a result too; the command keeps the error. *)
Definition deposit (claim : DepositClaim) (attestation : Attestation) : Op App BridgeState.ClaimResult := fun a =>
  match App.SubmitDepositClaim claim attestation a with
  | (Ok r, a) => (Ok r, a)
  | (Err (_, e), a) => (Err e, a)
  end.

Definition txSubmitDepositClaim (args : list string) : Cmd unit :=
  let! fs := parse "submit-deposit-claim" args in
  throw_if (blank (str fs "submission-file")) (Errorf "missing submission file") ;;;
  let! submission := query (fun m => loadSubmission (files (disk m)) (str fs "submission-file")) in
  let '(claim, attestation) := submission in
  if to_node fs then
    over_node (SubmitDepositClaim (node_config fs (str fs ready_flag)) claim attestation) SubmitDepositClaimResponse
  else local_tx fs (deposit claim attestation) SubmitDepositClaimResponse.

Definition queued_document (claim : DepositClaim) : json :=
  document_of (fields_of [("status", to_json "queued"%string); ("message_id", to_json (MessageID (Identity claim)));
    ("asset_id", to_json (BridgeTypes.AssetID claim)); ("amount", to_json (big_String (Amount claim)))]%string).

Definition txQueueDepositClaim (args : list string) : Cmd unit :=
  let! fs := parse "queue-deposit-claim" args in
  throw_if (blank (str fs "submission-file")) (Errorf "missing submission file") ;;;
  let! submission := query (fun m => loadSubmission (files (disk m)) (str fs "submission-file")) in
  let '(claim, attestation) := submission in
  if to_node fs then
    over_node (SubmitQueueDepositClaim (node_config fs (str fs ready_flag)) claim attestation)
      (fun result => document_of (fields_of result))
  else local_tx fs (App.QueueDepositClaim claim attestation) (fun _ => queued_document claim).

Definition withdrawal_missing (fs : FlagSet) : result unit :=
  first_error [missing fs "owner-address" "owner address"; missing fs "asset-id" "asset id"; missing fs "amount" "amount";
    missing fs "recipient" "recipient"; missing_number fs "deadline" "deadline"; missing fs "signature-base64" "signature"].

Definition withdrawal_arguments (fs : FlagSet) : result (Z * string) :=
  let? _ := withdrawal_missing fs in
  let? amount := parseBase10Amount (str fs "amount") in
  match base64_DecodeString (str fs "signature-base64") with
  | Some signature => Ok (amount, signature)
  | None => Err (Prefixed "decode signature" (Errorf "illegal base64 data"))
  end.

Definition withdraw (fs : FlagSet) (amount : Z) (signature : string) : Op App BridgeState.WithdrawalRecord :=
  (if (0 <? num fs "height")%N then modify (fun a => snd (App.SetCurrentHeight (num fs "height") a)) else ret tt) ;;;
  App.ExecuteWithdrawal (str fs "owner-address") (str fs "asset-id") (Some amount) (str fs "recipient")
    (num fs "deadline") signature.

Definition txExecuteWithdrawal (args : list string) : Cmd unit :=
  let! fs := parse "execute-withdrawal" args in
  let! decoded := lift (withdrawal_arguments fs) in
  let '(amount, signature) := decoded in
  if to_node fs then
    over_node (SubmitExecuteWithdrawal (node_config fs (str fs ready_flag))
      (mk_withdrawal_payload (str fs "owner-address") (str fs "asset-id") (format_int amount) (str fs "recipient")
         (num fs "deadline") (str fs "signature-base64") (num fs "height"))) to_json
  else local_tx fs (withdraw fs amount signature) ExecuteWithdrawalResponse.

Definition transfer_missing (fs : FlagSet) : result unit :=
  first_error [missing fs "asset-id" "asset id"; missing fs "amount" "amount"; missing fs "receiver" "receiver";
    missing_number fs "timeout-height" "timeout height"].
Definition transfer_arguments (fs : FlagSet) : result Z :=
  let? _ := transfer_missing fs in parseBase10Amount (str fs "amount").

Definition initiate (fs : FlagSet) (amount : Z) : Op App IBCRouter.TransferRecord :=
  if negb (blank (str fs "route-id"))
  then App.InitiateIBCTransferWithProfile (str fs "route-id") (str fs "asset-id") (Some amount) (str fs "receiver")
         (num fs "timeout-height") (str fs "memo")
  else App.InitiateIBCTransfer (str fs "asset-id") (Some amount) (str fs "receiver") (num fs "timeout-height") (str fs "memo").

Definition txInitiateIBCTransfer (args : list string) : Cmd unit :=
  let! fs := parse "initiate-ibc-transfer" args in
  let! amount := lift (transfer_arguments fs) in
  if to_node fs then
    over_node (SubmitInitiateIBCTransfer (node_config fs (str fs ready_flag))
      (mk_ibc_payload (str fs "sender") (str fs "route-id") (str fs "asset-id") (format_int amount) (str fs "receiver")
         (num fs "timeout-height") (str fs "memo"))) to_json
  else
    throw_if (negb (blank (str fs "sender"))) (Errorf "sender is only supported with --demo-node-ready-file") ;;;
    local_tx fs (initiate fs amount) transferJSONResponse.

Definition profile_arguments (fs : FlagSet) : SetRouteProfilePayload :=
  mk_route_payload (str fs "route-id") (str fs "destination-chain-id") (str fs "channel-id") (flag_on fs "enabled")
    [RouteProfile.mk_asset_route (TrimSpace (str fs "asset-id")) (TrimSpace (str fs "destination-denom"))]
    (splitCommaSeparated (str fs "memo-prefixes")) (splitCommaSeparated (str fs "action-types")).

Definition txSetRouteProfile (args : list string) : Cmd unit :=
  let! fs := parse "set-route-profile" args in
  let payload := profile_arguments fs in
  if to_node fs then over_node (SubmitSetRouteProfile (node_config fs (str fs ready_flag)) payload) to_json
  else
    let! profile := lift (DecodeSetRouteProfilePayloadForCLI payload) in
    local_tx fs (set_route_profile profile) (fun _ => to_json (profile_result profile)).

(** The four commands that settle a transfer. *)
Definition transfer_tx (name : string) (args : list string) (operation : FlagSet -> Op App IBCRouter.TransferRecord) : Cmd unit :=
  let! fs := parse name args in
  throw_if (blank (str fs "transfer-id")) (Errorf "missing transfer id") ;;;
  local_tx fs (operation fs) transferJSONResponse.

Definition txFailIBCTransfer (args : list string) : Cmd unit :=
  transfer_tx "fail-ibc-transfer" args (fun fs => App.FailIBCTransfer (str fs "transfer-id") (str fs "reason")).
Definition txTimeoutIBCTransfer (args : list string) : Cmd unit :=
  transfer_tx "timeout-ibc-transfer" args (fun fs => App.TimeoutIBCTransfer (str fs "transfer-id")).
Definition txCompleteIBCTransfer (args : list string) : Cmd unit :=
  transfer_tx "complete-ibc-transfer" args (fun fs => App.CompleteIBCTransfer (str fs "transfer-id")).
Definition txRefundIBCTransfer (args : list string) : Cmd unit :=
  transfer_tx "refund-ibc-transfer" args (fun fs => App.RefundIBCTransfer (str fs "transfer-id")).

Definition proposal_document (fs : FlagSet) (kind target : string) (more : list (string * json)) : json :=
  document_of (fields_of ([("proposal_id", to_json (str fs "proposal-id")); ("kind", to_json kind); ("target_id", to_json (str fs target));
    ("applied_by", to_json (TrimSpace (str fs "authority")))]%string ++ more)).

Definition txApplyAssetStatusProposal (args : list string) : Cmd unit :=
  let! fs := parse "apply-asset-status-proposal" args in
  lift (first_error [missing fs "proposal-id" "proposal id"; missing fs "asset-id" "asset id"; missing fs "authority" "authority"]) ;;;
  local_tx fs
    (App.ApplyProposal (str fs "authority")
       (Governance.PAssetStatus (Governance.mk_asset_status (str fs "proposal-id") (str fs "asset-id") (flag_on fs "enabled"))))
    (fun _ => proposal_document fs Governance.ProposalKindAssetStatus "asset-id" [("enabled"%string, to_json (flag_on fs "enabled"))]).

Definition limit_arguments (fs : FlagSet) : result Z :=
  let? _ := first_error [missing fs "proposal-id" "proposal id"; missing fs "asset-id" "asset id";
    missing_number fs "window-seconds" "window seconds"; missing fs "max-amount" "max amount"; missing fs "authority" "authority"] in
  parseBase10Amount (str fs "max-amount").

Definition txApplyLimitUpdateProposal (args : list string) : Cmd unit :=
  let! fs := parse "apply-limit-update-proposal" args in
  let! maxAmount := lift (limit_arguments fs) in
  local_tx fs
    (App.ApplyProposal (str fs "authority")
       (Governance.PLimitUpdate (Governance.mk_limit_update (str fs "proposal-id")
          (Limits.mk_limit (str fs "asset-id") (num fs "window-seconds") (Some maxAmount)))))
    (fun _ => proposal_document fs Governance.ProposalKindLimitUpdate "asset-id"
       [("window_seconds", to_json (num fs "window-seconds")); ("max_amount", to_json (format_int maxAmount))]%string).

Definition txApplyRoutePolicyUpdateProposal (args : list string) : Cmd unit :=
  let! fs := parse "apply-route-policy-update-proposal" args in
  lift (first_error [missing fs "proposal-id" "proposal id"; missing fs "route-id" "route id"; missing fs "authority" "authority"]) ;;;
  let policy := RouteProfile.mk_policy (splitCommaSeparated (str fs "memo-prefixes")) (splitCommaSeparated (str fs "action-types")) in
  local_tx fs
    (App.ApplyProposal (str fs "authority")
       (Governance.PRoutePolicy (Governance.mk_route_policy (str fs "proposal-id") (str fs "route-id") policy)))
    (fun _ => proposal_document fs Governance.ProposalKindRoutePolicy "route-id"
       [("allowed_memo_prefixes", nil_json (RouteProfile.AllowedMemoPrefixes policy));
        ("allowed_action_types", nil_json (RouteProfile.AllowedActionTypes policy))]%string).

(** *** Commands by name *)

Definition dispatch (kind : string) (commands : list (string * (list string -> Cmd unit))) (args : list string) : Cmd unit :=
  match args with
  | [] => throw (Errorf ("missing " +:+ kind))
  | name :: args =>
      match find (fun c => eqs c.1 name) commands with
      | Some c => c.2 args
      | None => throw (Errorf ("unknown " +:+ kind +:+ " " +:+ Quote name))
      end
  end.

Definition runTx : list string -> Cmd unit := dispatch "tx subcommand" [
  ("submit-deposit-claim", txSubmitDepositClaim); ("queue-deposit-claim", txQueueDepositClaim);
  ("execute-withdrawal", txExecuteWithdrawal); ("set-route-profile", txSetRouteProfile);
  ("initiate-ibc-transfer", txInitiateIBCTransfer); ("fail-ibc-transfer", txFailIBCTransfer);
  ("timeout-ibc-transfer", txTimeoutIBCTransfer); ("complete-ibc-transfer", txCompleteIBCTransfer);
  ("refund-ibc-transfer", txRefundIBCTransfer); ("apply-asset-status-proposal", txApplyAssetStatusProposal);
  ("apply-limit-update-proposal", txApplyLimitUpdateProposal);
  ("apply-route-policy-update-proposal", txApplyRoutePolicyUpdateProposal)]%string.

Definition runQuery : list string -> Cmd unit := dispatch "query subcommand" [
  ("status", queryStatus); ("summary", querySummary); ("claim", queryClaim); ("metrics", queryMetrics);
  ("signer-set", querySignerSet); ("signer-sets", querySignerSets); ("routes", queryRoutes);
  ("route-profiles", queryRouteProfiles); ("transfers", queryTransfers); ("withdrawals", queryWithdrawals);
  ("balances", queryBalances)]%string.

Definition runDemoNode : list string -> Cmd unit := dispatch "demo-node subcommand" [
  ("start", runDemoNodeStart); ("status", runDemoNodeStatus); ("balances", runDemoNodeBalances);
  ("transfers", runDemoNodeTransfers)]%string.

Definition runWithContext (args : list string) : Cmd unit :=
  match args with
  | [] =>
      let! app := on_world New in
      write (OutText (CfgAppName (AppConfig app) +:+ " initialized with modules: " +:+ Join (AppModules app) ", " +:+ newline))
  | _ => dispatch "command" [("init", runInit); ("start", runStart); ("demo-node", runDemoNode); ("query", runQuery);
           ("tx", runTx)]%string args
  end.

(** [main]: the exit code. *)
Definition main (args : list string) (m : Machine W) : N * Machine W :=
  match runWithContext args m with
  | (Ok _, m) => (0%N, m)
  | (Err e, m) =>
      if Node.is_panic e then (2%N, m)
      else (1%N, snd (opslog_Write "error" "command_failed" "aegislinkd command failed" [("error"%string, to_json (error_text e))] m))
  end.

(** ** What the commands mean

    The operations a [tx] command stands for, without files, flags or output. *)
Definition submission_action (act : DepositClaim -> Attestation -> app_action) (fs : FlagSet) (w : FS Config.document)
    : result (list app_action) :=
  let? s := loadSubmission w (str fs "submission-file") in Ok [act s.1 s.2].
Definition governs (fs : FlagSet) (p : Governance.proposal) : result (list app_action) :=
  Ok [AppGovern (str fs "authority") p].

Definition tx_meanings : list (string * (FlagSet -> FS Config.document -> result (list app_action))) := [
  ("submit-deposit-claim", submission_action AppDeposit);
  ("queue-deposit-claim", submission_action AppQueue);
  ("execute-withdrawal", fun fs _ =>
     let? decoded := withdrawal_arguments fs in
     let act := AppWithdraw (str fs "owner-address") (str fs "asset-id") (Some decoded.1) (str fs "recipient")
       (num fs "deadline") decoded.2 in
     Ok (if (0 <? num fs "height")%N then [AppSetHeight (num fs "height"); act] else [act]));
  ("set-route-profile", fun fs _ =>
     let? profile := decodeSetRouteProfilePayload (profile_arguments fs) in Ok [AppSetProfile profile]);
  ("initiate-ibc-transfer", fun fs _ =>
     let? amount := transfer_arguments fs in
     Ok [if blank (str fs "route-id")
         then AppInitiate (str fs "asset-id") (Some amount) (str fs "receiver") (num fs "timeout-height") (str fs "memo")
         else AppInitiateWithProfile (str fs "route-id") (str fs "asset-id") (Some amount) (str fs "receiver")
                (num fs "timeout-height") (str fs "memo")]);
  ("fail-ibc-transfer", fun fs _ => Ok [AppFail (str fs "transfer-id") (str fs "reason")]);
  ("timeout-ibc-transfer", fun fs _ => Ok [AppTimeout (str fs "transfer-id")]);
  ("complete-ibc-transfer", fun fs _ => Ok [AppComplete (str fs "transfer-id")]);
  ("refund-ibc-transfer", fun fs _ => Ok [AppRefund (str fs "transfer-id")]);
  ("apply-asset-status-proposal", fun fs _ =>
     governs fs (Governance.PAssetStatus (Governance.mk_asset_status (str fs "proposal-id") (str fs "asset-id") (flag_on fs "enabled"))));
  ("apply-limit-update-proposal", fun fs _ =>
     let? maxAmount := limit_arguments fs in
     governs fs (Governance.PLimitUpdate (Governance.mk_limit_update (str fs "proposal-id")
       (Limits.mk_limit (str fs "asset-id") (num fs "window-seconds") (Some maxAmount)))));
  ("apply-route-policy-update-proposal", fun fs _ =>
     governs fs (Governance.PRoutePolicy (Governance.mk_route_policy (str fs "proposal-id") (str fs "route-id")
       (RouteProfile.mk_policy (splitCommaSeparated (str fs "memo-prefixes")) (splitCommaSeparated (str fs "action-types"))))))
]%string.

Definition tx_meaning (name : string) (fs : FlagSet) (w : FS Config.document) : result (list app_action) :=
  match find (fun p => eqs p.1 name) tx_meanings with
  | Some p => p.2 fs w
  | None => Err (Errorf ("unknown tx subcommand " +:+ Quote name))
  end.

(** ** Commands on a home *)

(** The machine's disk has a home of the snapshot mode that holds [saved]. *)
Record home_at (home : string) (c : Config) (saved : App) (m : Machine W) : Prop := {
  ha_dir : home <> EmptyString /\ HomeDir c = home /\ ConfigPath c = runtimeConfigPath home;
  ha_saved : snapshot_app (set_keepers saved (new_app c));
  ha_holds : home_holds c saved (disk m)
}.

(** The flags choose the home by its directory, and nothing else. *)
Definition at_home (home : string) (fs : FlagSet) : Prop :=
  runtime_config fs = home_flags home /\ to_node fs = false.

Lemma set_disk_same (m : Machine W) : set_disk (disk m) m = m.
Proof. by destruct m. Qed.

Lemma home_resolves home c saved m : home_at home c saved m ->
  ResolveConfig (files (disk m)) (home_flags home) = Ok c /\ ResolveConfig (files (disk m)) c = Ok c.
Proof.
  intros [(Hh & Hhd & Hcp) [[Hk Hv] _ _ _ _] [[Ht _] Hcfg _]]. cbn [set_keepers AppConfig new_app newAppFromKeepers] in *.
  assert (Hlc : LoadConfig (files (disk m)) (ConfigPath c) = Ok c).
  { unfold LoadConfig, ReadDocument, ReadFile. rewrite Ht, Hcfg. cbn [res_bind as_config]. by rewrite normalizeConfig_id. }
  split; [|by rewrite ResolveConfig_self, Hlc].
  unfold ResolveConfig. cbv zeta.
  assert (Hp : ConfigPath (normalizeConfig (home_flags home)) = ConfigPath c).
  { rewrite Hcp. cbn. by rewrite (or_default_nonempty home) by done. }
  rewrite Hp, Hlc.
  assert (Hmerge : mergeConfig c (home_flags home) = c).
  { unfold mergeConfig, home_flags. cbn. rewrite (or_default_nonempty home) by done. rewrite <- Hhd. by destruct c. }
  rewrite Hmerge, normalizeConfig_id by done. cbn [res_bind]. by rewrite Hv.
Qed.

Definition loaded (c : Config) (saved : App) : RuntimeApp := set_keepers (renumbered saved) (new_app c).

Lemma loaded_snapshot home c saved m : home_at home c saved m -> snapshot_app (loaded c saved).
Proof. intros [_ Hs _]. exact (renumbered_snapshot _ _ Hs). Qed.

Lemma resolved_loads home c saved m : home_at home c saved m -> LoadWithConfig c (disk m) = (Ok (loaded c saved), disk m).
Proof. intros [_ Hs Hh]. exact (load_holds _ (set_keepers saved (new_app c)) saved (disk m) Hs Hh). Qed.

Lemma loads_home home c saved m fs : home_at home c saved m -> at_home home fs ->
  on_world (loadRuntimeApp fs) m = (Ok (loaded c saved), m).
Proof.
  intros Hm [Hfs _]. unfold on_world, zoom, loadRuntimeApp, bind, query. rewrite Hfs, (proj1 (home_resolves _ _ _ _ Hm)).
  erewrite resolved_loads by done. by rewrite set_disk_same.
Qed.

(** Closing an application of the snapshot mode changes nothing. *)
Definition quiet (r : RuntimeApp) : Prop := store_mode r = false /\ storeRuntime r = None.

Lemma quiet_loaded home c saved a m : home_at home c saved m -> quiet (set_keepers a (new_app c)).
Proof. intros [_ [_ Hm _ _ _] _]. by split. Qed.

Lemma Close_quiet r (w : World) : quiet r -> Runtime.Close (r, w) = (Ok tt, (r, w)).
Proof. intros [Hm Hs]. unfold Runtime.Close, bind, gets, ret. cbn [fst]. by rewrite Hm, Hs. Qed.

Lemma with_app_run {A} home c saved m load (body : Op Session A) r s :
  on_world load m = (Ok (loaded c saved), m) -> home_at home c saved m ->
  body (loaded c saved, m) = (r, s) -> quiet s.1 -> with_app load body m = (r, s.2).
Proof.
  intros Hl Hm Hb Hq. unfold with_app. rewrite Hl, Hb. destruct s as [app m1]. cbn [fst snd] in *.
  unfold on_process, zoom. cbn [fst snd]. rewrite Close_quiet by done. cbn [fst snd]. by rewrite set_disk_same.
Qed.

(** One operation with its save. *)
Lemma operate_run {A} home c saved m (operation : Op App A) :
  home_at home c saved m ->
  on_process (on_keepers operation) (loaded c saved, m) =
    (fst (operation (renumbered saved)), (set_keepers (snd (operation (renumbered saved))) (new_app c), m)).
Proof.
  intros Hm. unfold on_process, zoom, on_keepers. cbn [fst snd].
  change (Keepers (loaded c saved)) with (renumbered saved). destruct (operation (renumbered saved)) as [r a]. cbn [fst snd].
  change (sync (set_keepers a (loaded c saved)) (disk m)) with (disk m). by rewrite set_disk_same.
Qed.

Lemma save_run home c saved a m : home_at home c saved m -> snapshot_app (set_keepers a (new_app c)) ->
  exists r m', on_process Runtime.Save (set_keepers a (new_app c), m) = (r, (set_keepers a (new_app c), m')) /\
    net m' = net m /\ stdout m' = stdout m /\ writes m' = writes m /\ home_at home c (if is_ok r then a else saved) m'.
Proof.
  intros [Hd Hs Hh] Ha. unfold on_process, zoom. cbn [fst snd].
  pose proof (event_step _ ESave (set_keepers a (new_app c)) (disk m) saved Ha Hs Hh) as He. cbv zeta in He.
  cbn [handle_event last_saved] in He. pose proof (Save_run _ _ (disk m) Ha) as Hrun. cbv zeta in Hrun.
  destruct ((MkdirAll _ ;;; _) (files (disk m))) as [r f]. rewrite Hrun in He |- *. cbn [fst snd] in *.
  destruct He as (Hs1 & _ & Hs2 & Hh2). exists r, (set_disk (upd_files (fun _ => f) (disk m)) m).
  split_and!; [done..|]. split; [exact Hd| |exact Hh2]. by destruct r.
Qed.

Lemma write_run o m : write o m =
  match writes m with
  | Some e :: rest => (Err e, mk_machine (disk m) (net m) (stdout m) rest (stderr m))
  | outcomes => (Ok tt, mk_machine (disk m) (net m) (stdout m ++ [o]) (tail outcomes) (stderr m))
  end.
Proof. unfold write. by destruct (writes m) as [|[e|] rest]. Qed.

Lemma home_at_disk home c saved m m' : disk m' = disk m -> home_at home c saved m -> home_at home c saved m'.
Proof. intros Hd [? ? Hh]. split; [done..|]. by rewrite Hd. Qed.

(** What a command that stands for [acts] leaves behind: their effect, saved
    and printed; or the home as it was and nothing printed. Only when the output
    itself fails does the effect stay without being shown. *)
Definition carried_out (home : string) (c : Config) (saved : App) (acts : list app_action) (m : Machine W)
    (run : result unit * Machine W) : Prop :=
  net run.2 = net m /\ exists saved', home_at home c saved' run.2 /\
  match run.1 with
  | Ok _ => saved' = exec_apps acts (renumbered saved) /\ exists j, stdout run.2 = stdout m ++ [OutJSON j]
  | Err e => stdout run.2 = stdout m /\
      (saved' = saved \/ (saved' = exec_apps acts (renumbered saved) /\ head (writes m) = Some (Some e)))
  end.

Lemma refused_carried_out home c saved acts m e : home_at home c saved m -> carried_out home c saved acts m (Err e, m).
Proof. intros Hm. split; [done|]. exists saved. cbn [fst snd]. split_and!; [done|done|by left]. Qed.

Lemma exec_apps_snapshot escrow acts a r :
  Forall (fun act => act <> AppSave) acts -> snapshot_at escrow (set_keepers a r) ->
  snapshot_at escrow (set_keepers (exec_apps acts a) r).
Proof.
  revert a. induction acts as [|act acts IH]; intros a Hacts Ha; cbn [exec_apps]; [done|].
  apply Forall_cons in Hacts as [Hact Hacts]. apply IH; [done|]. exact (snapshot_exec escrow act (set_keepers a r) Hact Ha).
Qed.

Lemma local_tx_run {A} home c saved m fs (operation : Op App A) show acts :
  home_at home c saved m -> at_home home fs -> Forall (fun act => act <> AppSave) acts ->
  (forall x a, operation (renumbered saved) = (Ok x, a) -> a = exec_apps acts (renumbered saved)) ->
  carried_out home c saved acts m (local_tx fs operation show m).
Proof.
  intros Hm Hfs Hacts Hop. unfold local_tx.
  destruct (operation (renumbered saved)) as [[x|e] a] eqn:Ho.
  - rewrite (Hop x a eq_refl) in Ho. clear a Hop.
    set (a := exec_apps acts (renumbered saved)) in *.
    assert (Ha : snapshot_app (set_keepers a (new_app c))).
    { apply exec_apps_snapshot; [done|]. exact (loaded_snapshot _ _ _ _ Hm). }
    destruct (save_run _ _ _ _ _ Hm Ha) as (r & m1 & Hs & Hn & Ho1 & Hw & Hm1).
    assert (Hb : forall r' m2, (match r with Ok _ => write (OutJSON (show x)) m1 | Err e => (Err e, m1) end) = (r', m2) ->
      (let! x := on_process (on_keepers operation) in on_process Runtime.Save ;;; on_machine (writeJSON (show x)))
        (loaded c saved, m) = (r', (set_keepers a (new_app c), m2))).
    { intros r' m2 Hw2. unfold bind at 1. erewrite operate_run by done. rewrite Ho. cbn [fst snd]. unfold bind. rewrite Hs.
      destruct r as [[]|e]; [|by injection Hw2 as <- <-]. unfold on_machine, zoom, writeJSON. cbn [fst snd]. by rewrite Hw2. }
    destruct r as [[]|e].
    + rewrite write_run, Hw in Hb. cbn [is_ok] in Hm1. destruct (writes m) as [|[e|] rest] eqn:Hws;
        erewrite (with_app_run _ _ _ _ _ _ _ _ (loads_home _ _ _ _ _ Hm Hfs) Hm (Hb _ _ eq_refl)) by (eapply quiet_loaded, Hm);
        (split; [done|]; exists a; cbn [fst snd stdout]; rewrite ?Ho1; split_and!; [by apply (home_at_disk _ _ _ m1)|try done..]).
      * by eexists.
      * right. by rewrite Hws.
      * by eexists.
    + erewrite (with_app_run _ _ _ _ _ _ _ _ (loads_home _ _ _ _ _ Hm Hfs) Hm (Hb _ _ eq_refl)) by (eapply quiet_loaded, Hm).
      split; [done|]. exists saved. cbn [fst snd]. split_and!; [done|done|by left].
  - erewrite (with_app_run _ _ _ _ _ _ (Err e) (set_keepers a (new_app c), m) (loads_home _ _ _ _ _ Hm Hfs) Hm);
      [by apply refused_carried_out| |by eapply quiet_loaded].
    unfold bind at 1. erewrite operate_run by done. by rewrite Ho.
Qed.

(** A command answers only when its operation did. *)
Lemma local_tx_answered {A} home c saved m fs (operation : Op App A) show m' :
  home_at home c saved m -> at_home home fs -> local_tx fs operation show m = (Ok tt, m') ->
  exists x, fst (operation (renumbered saved)) = Ok x.
Proof.
  intros Hm Hfs Hr. destruct (operation (renumbered saved)) as [[x|e] a] eqn:Ho; [by exists x|]. exfalso. unfold local_tx in Hr.
  rewrite (with_app_run _ _ _ _ _ _ (Err e) (set_keepers a (new_app c), m) (loads_home _ _ _ _ _ Hm Hfs) Hm) in Hr;
    [done| |by eapply quiet_loaded].
  unfold bind at 1. erewrite operate_run by done. by rewrite Ho.
Qed.

(** *** Each command *)

(** The operations a command line stands for. *)
Definition tx_acts (name : string) (args : list string) (w : FS Config.document) : result (list app_action) :=
  let? fs := parse_flags name args in tx_meaning name fs w.

(** [run] does what [meaning] says. *)
Definition does (home : string) (c : Config) (saved : App) (meaning : result (list app_action)) (m : Machine W)
    (run : result unit * Machine W) : Prop :=
  match meaning with
  | Ok acts => carried_out home c saved acts m run
  | Err _ => exists e, run = (Err e, m)
  end.

Lemma does_lift {A} home c saved m (r : result A) (k : A -> Cmd unit) meaning :
  (forall a, r = Ok a -> does home c saved (meaning a) m (k a m)) ->
  does home c saved (let? a := r in meaning a) m (bind (lift r) k m).
Proof. intros Hk. unfold bind, lift. destruct r as [a|e]; cbn [res_bind]; [by apply Hk|by exists e]. Qed.

Lemma does_query {A} home c saved m (r : Machine W -> result A) (k : A -> Cmd unit) meaning :
  (forall a, r m = Ok a -> does home c saved (meaning a) m (k a m)) ->
  does home c saved (let? a := r m in meaning a) m (bind (query r) k m).
Proof. intros Hk. unfold bind, query. destruct (r m) as [a|e]; cbn [res_bind]; [by apply Hk|by exists e]. Qed.

Lemma does_refused home c saved m meaning e : home_at home c saved m -> does home c saved meaning m (Err e, m).
Proof. intros Hm. destruct meaning; [by apply refused_carried_out|by exists e]. Qed.

Lemma does_throw_if home c saved m (b : bool) e (k : unit -> Cmd unit) meaning : home_at home c saved m ->
  does home c saved meaning m (k tt m) -> does home c saved meaning m (bind (throw_if b e) k m).
Proof. intros Hm Hk. destruct b; [by apply does_refused|exact Hk]. Qed.

Lemma does_check home c saved m (r : result unit) (k : unit -> Cmd unit) meaning : home_at home c saved m ->
  does home c saved meaning m (k tt m) -> does home c saved meaning m (bind (lift r) k m).
Proof. intros Hm Hk. unfold bind, lift. destruct r as [[]|e]; [exact Hk|by apply does_refused]. Qed.

Lemma does_local {A} home c saved m fs (operation : Op App A) show acts :
  home_at home c saved m -> at_home home fs -> Forall (fun act => act <> AppSave) acts ->
  (forall a x a', operation a = (Ok x, a') -> a' = exec_apps acts a) ->
  does home c saved (Ok acts) m (local_tx fs operation show m).
Proof. intros Hm Hfs Hacts Hop. apply local_tx_run; [done..|]. intros x a. apply Hop. Qed.

Lemma does_one {A} home c saved m fs (operation : Op App A) show act :
  home_at home c saved m -> at_home home fs -> act <> AppSave ->
  (forall a, snd (operation a) = exec_app act a) ->
  does home c saved (Ok [act]) m (local_tx fs operation show m).
Proof.
  intros Hm Hfs Hact Hop. apply does_local; [done..|by repeat constructor|]. intros a x a' Ho. cbn [exec_apps].
  by rewrite <- Hop, Ho.
Qed.

Lemma deposit_state claim attestation a : snd (deposit claim attestation a) = snd (App.SubmitDepositClaim claim attestation a).
Proof. unfold deposit. by destruct (App.SubmitDepositClaim _ _ a) as [[r|[r e]] a']. Qed.

Lemma withdraw_acts fs amount signature a x a' : withdraw fs amount signature a = (Ok x, a') ->
  a' = exec_apps (let act := AppWithdraw (str fs "owner-address") (str fs "asset-id") (Some amount) (str fs "recipient")
                    (num fs "deadline") signature in
                  if (0 <? num fs "height")%N then [AppSetHeight (num fs "height"); act] else [act]) a.
Proof.
  unfold withdraw. cbv zeta. destruct (0 <? num fs "height")%N; unfold bind, modify, ret; intros Ho; cbn [exec_apps exec_app];
    by rewrite Ho.
Qed.

Lemma profile_acts profile a x a' : set_route_profile profile a = (Ok x, a') -> a' = exec_apps [AppSetProfile profile] a.
Proof.
  unfold set_route_profile, bind, query. destruct (assets_registered a profile) as [[]|e]; [|done]. intros Ho.
  cbn [exec_apps exec_app]. by rewrite Ho.
Qed.

Lemma transfer_tx_does home c saved m fs name args (operation : FlagSet -> Op App IBCRouter.TransferRecord) act :
  home_at home c saved m -> parse_flags name args = Ok fs -> at_home home fs -> act <> AppSave ->
  (forall a, snd (operation fs a) = exec_app act a) ->
  does home c saved (Ok [act]) m (transfer_tx name args operation m).
Proof.
  intros Hm Hparse Hfs Hact Hop. unfold transfer_tx, parse. unfold bind at 1, lift at 1. rewrite Hparse.
  apply does_throw_if; [done|]. by apply does_one.
Qed.

Ltac at_flags Hparse := unfold parse; unfold bind at 1, lift at 1; rewrite Hparse.
Ltac no_node Hfs := rewrite (proj2 Hfs).

Lemma tx_case home c saved m name args fs :
  home_at home c saved m -> parse_flags name args = Ok fs -> at_home home fs ->
  does home c saved (tx_meaning name fs (files (disk m))) m (runTx (name :: args) m).
Proof.
  intros Hm Hparse Hfs. unfold runTx, dispatch, tx_meaning, tx_meanings. cbn [find fst snd].
  repeat match goal with |- context [eqs ?x name] =>
    let E := fresh in destruct (eqs x name) eqn:E; [apply eqs_true in E; subst name; cbn [snd]|] end; [..|by apply does_refused].
  - unfold txSubmitDepositClaim. at_flags Hparse. apply does_throw_if; [done|]. unfold submission_action.
    apply (does_query _ _ _ _ (fun m => loadSubmission (files (disk m)) (str fs "submission-file"))). intros [claim att] _.
    no_node Hfs. apply does_one; [done..|]. intros a. by rewrite deposit_state.
  - unfold txQueueDepositClaim. at_flags Hparse. apply does_throw_if; [done|]. unfold submission_action.
    apply (does_query _ _ _ _ (fun m => loadSubmission (files (disk m)) (str fs "submission-file"))). intros [claim att] _.
    no_node Hfs. by apply does_one.
  - unfold txExecuteWithdrawal. at_flags Hparse. apply does_lift. intros [amount signature] _. no_node Hfs.
    apply does_local; [done..| |apply withdraw_acts]. cbv zeta. destruct (0 <? _)%N; by repeat constructor.
  - unfold txSetRouteProfile. at_flags Hparse. cbv zeta. no_node Hfs. apply does_lift. intros profile _.
    apply does_local; [done..|by repeat constructor|apply profile_acts].
  - unfold txInitiateIBCTransfer. at_flags Hparse. apply does_lift. intros amount _. no_node Hfs.
    apply does_throw_if; [done|]. apply does_one; [done..|by destruct (blank _)|]. intros a. unfold initiate.
    by destruct (blank (str fs "route-id")).
  - unfold txFailIBCTransfer. by apply (transfer_tx_does _ _ _ _ fs).
  - unfold txTimeoutIBCTransfer. by apply (transfer_tx_does _ _ _ _ fs).
  - unfold txCompleteIBCTransfer. by apply (transfer_tx_does _ _ _ _ fs).
  - unfold txRefundIBCTransfer. by apply (transfer_tx_does _ _ _ _ fs).
  - unfold txApplyAssetStatusProposal. at_flags Hparse. apply does_check; [done|]. by apply does_one.
  - unfold txApplyLimitUpdateProposal. at_flags Hparse. apply does_lift. intros amount _. by apply does_one.
  - unfold txApplyRoutePolicyUpdateProposal. at_flags Hparse. apply does_check; [done|]. cbv zeta. by apply does_one.
Qed.

Lemma refused_flags name args e m : parse_flags name args = Err e -> exists e', runTx (name :: args) m = (Err e', m).
Proof.
  intros Hparse. unfold runTx, dispatch. cbn [find fst snd].
  repeat match goal with |- context [eqs ?x name] =>
    let E := fresh in destruct (eqs x name) eqn:E; [apply eqs_true in E; subst name; cbn [snd]|] end; [..|by eexists];
    exists e;
    unfold txSubmitDepositClaim, txQueueDepositClaim, txExecuteWithdrawal, txSetRouteProfile, txInitiateIBCTransfer,
      txFailIBCTransfer, txTimeoutIBCTransfer, txCompleteIBCTransfer, txRefundIBCTransfer, transfer_tx,
      txApplyAssetStatusProposal, txApplyLimitUpdateProposal, txApplyRoutePolicyUpdateProposal, parse, bind, lift; by rewrite Hparse.
Qed.

(** C39: a [tx] command does what it stands for, or nothing. On a home of the
    snapshot mode that its flags choose, a command line stands for a list of
    operations of the application ([tx_acts]: the arguments it decodes, the
    claim in its file, the proposal). If it ends without an error, the home
    holds exactly the result of those operations on what it held, and the
    answer was printed; if it ends with one — an argument, the operation
    itself, any step of the save — the home loads as before and nothing was
    printed. Only when the output fails has the operation been saved without
    being shown. Arguments that stand for nothing change nothing at all. *)
Theorem tx_does_its_action (home : string) (c : Config) (saved : App) (m : Machine W) (name : string) (args : list string) :
  home_at home c saved m -> (forall fs, parse_flags name args = Ok fs -> at_home home fs) ->
  does home c saved (tx_acts name args (files (disk m))) m (runTx (name :: args) m).
Proof.
  intros Hm Hfs. unfold tx_acts. destruct (parse_flags name args) as [fs|e] eqn:Hparse; cbn [res_bind];
    [by apply tx_case; [|done|apply Hfs]|].   cbn [does]. by eapply refused_flags.
Qed.

(** ** A history of command lines *)

(** A session on a home: the application may have changed since it was loaded. *)
Definition in_session (home : string) (c : Config) (s : Session) : Prop :=
  exists a saved, s.1 = set_keepers a (new_app c) /\ snapshot_app s.1 /\ home_at home c saved s.2.
Definition on_home (home : string) (c : Config) (m : Machine W) : Prop := exists saved, home_at home c saved m.

Section history.
Context (home : string) (c : Config).
Abbreviation ok := (on_home home c).
Abbreviation in_ok := (in_session home c).

Lemma ok_frame {A} (x : Cmd A) : (forall m, disk (snd (x m)) = disk m) -> preserves ok x.
Proof. intros Hx m [saved Hm]. exists saved. by apply (home_at_disk _ _ _ m). Qed.
Lemma write_ok o : preserves ok (write o).
Proof. apply ok_frame. intros m. rewrite write_run. by destruct (writes m) as [|[e|] rest]. Qed.
Lemma log_ok level event message fields : preserves ok (opslog_Write level event message fields).
Proof. by apply ok_frame. Qed.

Lemma in_machine {A} (x : Cmd A) : preserves ok x -> preserves in_ok (on_machine x).
Proof.
  intros Hx [app m] (a & saved & Ha & Hs & Hm). unfold on_machine, zoom. cbn [fst snd] in *.
  destruct (Hx m (ex_intro _ saved Hm)) as [saved' Hm']. destruct (x m) as [r m1]. exists a, saved'. by split_and!.
Qed.
Lemma in_save : preserves in_ok (on_process Runtime.Save).
Proof.
  intros [app m] (a & saved & Ha & Hs & Hm). cbn [fst snd] in *. subst app.
  destruct (save_run _ _ _ _ _ Hm Hs) as (r & m1 & -> & _ & _ & _ & Hm1). exists a, (if is_ok r then a else saved). by split_and!.
Qed.
Lemma in_advance : preserves in_ok (on_process (on_keepers advance)).
Proof.
  intros [app m] (a & saved & Ha & Hs & Hm). cbn [fst snd] in *. subst app. unfold on_process, zoom, on_keepers, advance.
  cbn [fst snd Keepers set_keepers]. pose proof (snapshot_exec _ AppAdvance _ ltac:(done) Hs) as Hs'.
  cbn [exec_app Keepers set_keepers] in Hs'. destruct (AdvanceBlock a) as [progress a'].
  exists a', saved. cbn [fst snd] in *. split_and!; [done|exact Hs'|by apply (home_at_disk _ _ _ m)].
Qed.
Create HintDb cli.
#[local] Hint Resolve in_machine in_save in_advance write_ok log_ok preserves_bind preserves_gets preserves_query preserves_throw_if
  preserves_lift preserves_ret preserves_throw : cli.

Lemma in_stopped reason count : preserves in_ok (loop_stopped reason count).
Proof. unfold loop_stopped, status_now, info, writeJSON. auto with cli. Qed.
Lemma in_loop n maxBlocks count : preserves in_ok (block_loop n maxBlocks count).
Proof.
  revert count. induction n as [|n IH]; intros count; cbn [block_loop]; [apply in_stopped|].
  apply preserves_bind; [auto with cli|intros progress]. cbv zeta. unfold info.
  apply preserves_bind; [auto with cli|intros _]. apply preserves_bind; [auto with cli|intros _].
  destruct (_ && _); [apply in_stopped|apply IH].
Qed.
Lemma in_started fs : preserves in_ok (started fs).
Proof.
  unfold started, status_now, info, writeJSON. apply preserves_bind; [auto with cli|intros status].
  destruct (negb _); apply preserves_bind; auto using in_loop with cli.
Qed.

Lemma with_app_ok {A} load (body : Op Session A) m : ok m -> preserves in_ok body ->
  (forall saved, home_at home c saved m -> on_world load m = (Ok (loaded c saved), m)) -> ok (snd (with_app load body m)).
Proof.
  intros [saved Hm] Hbody Hl.
  destruct (Hbody (loaded c saved, m)) as (a & saved' & Ha & Hs & Hm').
  { exists (renumbered saved), saved. split_and!; [done|exact (loaded_snapshot _ _ _ _ Hm)|done]. }
  destruct (body (loaded c saved, m)) as [r s] eqn:Hb. cbn [snd] in *.
  rewrite (with_app_run home c saved m load body r s (Hl _ Hm) Hm Hb); [by exists saved'|]. rewrite Ha. exact (quiet_loaded _ _ _ a _ Hm).
Qed.

Lemma local_query_ok fs view : at_home home fs -> preserves ok (local_query fs view).
Proof.
  intros Hfs m Hm. apply with_app_ok; [done|unfold writeJSON; auto with cli|]. intros saved Hs. by eapply loads_home.
Qed.

Lemma tx_ok name args : (forall fs, parse_flags name args = Ok fs -> at_home home fs) -> preserves ok (runTx (name :: args)).
Proof.
  intros Hfs m [saved Hm].
  assert (Hd : does home c saved (tx_acts name args (files (disk m))) m (runTx (name :: args) m)).
  { unfold tx_acts. destruct (parse_flags name args) as [fs|e] eqn:Hparse; cbn [res_bind].
    - apply tx_case; [done..|by apply Hfs].
    - cbn [does]. by eapply refused_flags. }
  destruct (tx_acts _ _ _) as [acts|e]; cbn [does] in Hd.
  - destruct Hd as (_ & saved' & Hm' & _). by exists saved'.
  - destruct Hd as [e' ->]. by exists saved.
Qed.

Lemma query_ok name args : (forall fs, parse_flags name args = Ok fs -> at_home home fs) -> preserves ok (runQuery (name :: args)).
Proof.
  intros Hfs m Hm. unfold runQuery, dispatch. cbn [find fst snd].
  repeat match goal with |- context [eqs ?x name] =>
    let E := fresh in destruct (eqs x name) eqn:E; [apply eqs_true in E; subst name; cbn [snd]|] end; [..|done];
    destruct (parse_flags _ args) as [fs|e] eqn:Hparse;
    unfold queryStatus, querySummary, queryClaim, queryMetrics, querySignerSet, querySignerSets, queryRoutes, queryRouteProfiles,
      queryTransfers, queryWithdrawals, queryBalances, parse; (unfold bind at 1, lift at 1); rewrite Hparse; try done;
    specialize (Hfs fs eq_refl); cbv zeta; rewrite ?(proj2 Hfs);
    try (by apply local_query_ok);
    try (by apply (preserves_bind ok (throw_if _ _)); [by apply preserves_throw_if|intros _; by apply local_query_ok|]).
  - destruct Hm as [saved Hm]. unfold bind, on_world, zoom, query at 1. rewrite (proj1 Hfs), (proj1 (home_resolves _ _ _ _ Hm)).
    rewrite set_disk_same. erewrite resolved_loads by done. rewrite set_disk_same. unfold gets.
    unfold info, opslog_Write, modify, writeJSON. set (m' := mk_machine _ _ _ _ _).
    apply write_ok. exists saved. by apply (home_at_disk _ _ _ m).
  - apply with_app_ok; [done|unfold status_now; auto with cli|]. intros saved Hs. by eapply loads_home.
Qed.

Lemma start_ok args : (forall fs, parse_flags "start" args = Ok fs -> at_home home fs) -> preserves ok (runStart args).
Proof.
  intros Hfs m Hm. unfold runStart, parse. unfold bind at 1, lift at 1. destruct (parse_flags "start" args) as [fs|e] eqn:Hparse; [|done].
  specialize (Hfs fs eq_refl). destruct Hm as [saved Hm]. unfold bind at 1, on_world at 1, zoom, query at 1.
  rewrite (proj1 Hfs), (proj1 (home_resolves _ _ _ _ Hm)), set_disk_same.
  unfold bind at 1, on_world at 1, zoom, query at 1. rewrite set_disk_same.
  destruct (LoadGenesis (files (disk m)) (GenesisPath c)) as [g|e]; [|by exists saved].
  apply with_app_ok; [by exists saved|apply in_started|]. intros saved' Hs. unfold on_world, zoom.
  erewrite resolved_loads by done. by rewrite set_disk_same.
Qed.

(** A command line that works on the home: [tx], [query] and [start] with flags
    that choose it, and lines that are no command. [init] and [demo-node] are
    left out: they write files of their own. *)
Definition line_at (args : list string) : Prop :=
  match args with
  | [] => True
  | kind :: rest =>
      let chooses name args := forall fs, parse_flags name args = Ok fs -> at_home home fs in
      if eqs kind "init" || eqs kind "demo-node" then False
      else if eqs kind "start" then chooses "start"%string rest
      else if eqs kind "query" || eqs kind "tx" then match rest with [] => True | name :: args => chooses name args end
      else True
  end.

Lemma line_ok args : line_at args -> preserves ok (runWithContext args).
Proof.
  destruct args as [|kind rest]; intros Hl m Hm.
  - unfold runWithContext, bind, on_world, zoom. change (New (disk m)) with (@Ok error _ (newAppFromKeepers (normalizeConfig DefaultConfig) (fresh_keepers (normalizeConfig DefaultConfig)) None), disk m).
    cbn [fst snd]. rewrite set_disk_same. by apply write_ok.
  - unfold runWithContext, dispatch. unfold line_at in Hl. cbn [find fst snd].
    destruct (eqs "init" kind) eqn:E; [by apply eqs_true in E; subst kind|].
    destruct (eqs "start" kind) eqn:E1; [apply eqs_true in E1; subst kind; by apply start_ok|].
    destruct (eqs "demo-node" kind) eqn:E2; [by apply eqs_true in E2; subst kind|].
    destruct (eqs "query" kind) eqn:E3; [apply eqs_true in E3; subst kind|].
    { destruct rest as [|name args]; [done|by apply query_ok]. }
    destruct (eqs "tx" kind) eqn:E4; [apply eqs_true in E4; subst kind|done].
    destruct rest as [|name args]; [done|by apply tx_ok].
Qed.

(** Command lines one after the other, each with the faults its disk and its
    output will have. *)
Record command := mk_command { line : list string; disk_faults : list outcome; output_faults : list (option error) }.
Definition with_faults (cmd : command) (m : Machine W) : Machine W :=
  mk_machine (upd_files (fun f => mk_fs (nodes f) (disk_faults cmd)) (disk m)) (net m) (stdout m) (output_faults cmd) (stderr m).
Fixpoint run_commands (cmds : list command) (m : Machine W) : Machine W :=
  match cmds with
  | [] => m
  | cmd :: cmds => run_commands cmds (snd (main (line cmd) (with_faults cmd m)))
  end.

Lemma main_ok args : line_at args -> forall m, ok m -> ok (snd (main args m)).
Proof.
  intros Hl m Hm. pose proof (line_ok args Hl m Hm) as Hr. unfold main. destruct (runWithContext args m) as [[[]|e] m1]; [exact Hr|].
  cbn [snd] in Hr. destruct (Node.is_panic e); [exact Hr|]. by apply log_ok.
Qed.

Lemma faults_ok cmd m : ok m -> ok (with_faults cmd m).
Proof. intros [saved [Hd Hs Hh]]. exists saved. split; [done..|]. by apply (holds_frame _ _ (disk m)). Qed.

Lemma commands_ok cmds m : Forall (fun cmd => line_at (line cmd)) cmds -> ok m -> ok (run_commands cmds m).
Proof.
  revert m. induction cmds as [|cmd cmds IH]; intros m Hl Hm; cbn [run_commands]; [done|].
  apply Forall_cons in Hl as [Hl Hls]. apply IH; [done|]. apply main_ok; [done|]. by apply faults_ok.
Qed.
End history.


(** ** The block loop ends *)

Lemma bind_same {E St A B} (x : M E St A) (f g : A -> M E St B) s : (forall a s, f a s = g a s) -> bind x f s = bind x g s.
Proof. intros Hf. unfold bind. destruct (x s) as [[a|e] s']; [apply Hf|done]. Qed.

Lemma bind_lift_ok {E St A B} (a : A) (f : A -> M E St B) s : bind (lift (Ok a)) f s = f a s.
Proof. done. Qed.

Lemma block_loop_ends n extra maxBlocks count s : u64_ok maxBlocks -> (count < maxBlocks)%N -> (maxBlocks <= count + N.of_nat n)%N ->
  block_loop (n + extra) maxBlocks count s = block_loop n maxBlocks count s.
Proof.
  revert count s. induction n as [|n IH]; intros count s Hu Hlt Hle; [lia|]. cbn [block_loop Nat.add].
  assert (Hi : u64_incr count = (count + 1)%N).
  { unfold u64_ok, u64_incr, u64_add in *. apply N.mod_small. lia. }
  apply bind_same. intros progress s1. apply bind_same. intros _ s2. apply bind_same. intros _ s3. rewrite Hi.
  destruct (N.leb_spec maxBlocks (count + 1)); [by rewrite (proj2 (N.ltb_lt _ _)) by lia|].
  rewrite andb_false_r. apply IH; [done|lia..].
Qed.
End cli.

(** [start --daemon --max-blocks n] ends. With a bound that is not zero,
    the command stops after that many blocks whenever its context would have
    been cancelled later: waiting longer gives the same result. *)
Theorem runStart_ends {W} `{MapIteration} `{Crypto} `{Bank.AddressCodec} `{Environment} `{SDKStore}
    (args : list string) (extra : nat) (m : Machine W) :
  (forall fs, parse_flags "start" args = Ok fs -> num fs "max-blocks" <> 0%N) ->
  match parse_flags "start" args with
  | Ok fs => let n := N.to_nat (num fs "max-blocks") in runStart (n + extra) args m = runStart n args m
  | Err _ => forall n, runStart (n + extra) args m = runStart n args m
  end.
Proof.
  intros Hfs. destruct (parse_flags "start" args) as [fs|e] eqn:Hparse.
  - specialize (Hfs fs eq_refl).
    assert (Hu : u64_ok (num fs "max-blocks")).
    { unfold parse_flags in Hparse. apply res_bind_ok_inv in Hparse as ([fs' rest] & Hp & [= <-]). cbn [fst].
      assert (Hb : flags_bounded fs').
      { apply (Parse_bounded _ _ _ _ Hp). apply (bool_decide_unpack _). by vm_compute. }
      apply (num_bounded _ "max-blocks") in Hb. unfold u64_ok, max_uint64, two64 in *. lia. }
    cbv zeta. unfold runStart, parse. rewrite Hparse, !bind_lift_ok.
    apply bind_same. intros cfg m1. apply bind_same. intros g m2. unfold with_app.
    destruct (on_world _ m2) as [[app|e] m3]; [|done].
    assert (Hs : forall s : RuntimeApp * Machine W, started (N.to_nat (num fs "max-blocks") + extra) fs s = started (N.to_nat (num fs "max-blocks")) fs s).
    { intros s. unfold started. apply bind_same. intros status s1. destruct (negb _); [done|].
      apply bind_same. intros _ s2. apply block_loop_ends; [done|lia..]. }
    by rewrite Hs.
  - intros n. unfold runStart, parse, bind, lift. by rewrite Hparse.
Qed.

(** ** Concrete runs *)

#[local] Existing Instance Bridge.toy_crypto.
#[local] Existing Instance Bank.toy_codec.
#[local] Existing Instance Config.demo_environment.
#[local] Existing Instance Restart.demo_sdk.
#[local] Existing Instance NodeStart.demo_parts.

(** A network on which nothing answers. *)
Definition unreachable {A} : Op (list string) A := throw (Errorf "connection refused").
#[local] Instance no_network : Network (list string) := {|
  check_address _ := Ok tt;
  http_Do _ _ := unreachable;
  ABCIQuery _ _ _ := unreachable;
  RPC_BroadcastTxCommit _ _ := unreachable;
  Now := ret 0%Z;
  Sleep _ := ret tt;
  reason _ := EmptyString;
  raw_text _ := EmptyString
|}.
#[local] Instance idle : Running (list string) := {| running _ p := p |}.

Definition cli_home : World :=
  upd_files (fun f => mk_fs (<[parse_path "/srv/claim.json" :=
    File (SubmissionDoc (mk_submission (claim_payload demo_claim) (Bridge.demo_attested demo_claim)))]> (nodes f)) [])
    Restart.demo_home.
Definition cli_machine : Machine (list string) := mk_machine cli_home [] [] [] [].
Definition at_srv (args : list string) : list string := (args ++ ["--home"; "/srv/aegis"])%list%string.
Definition queue_line : list string := at_srv ["queue-deposit-claim"; "--submission-file"; "/srv/claim.json"].

Lemma cli_home_at : home_at "/srv/aegis" demo_config (fresh_keepers demo_config) cli_machine.
Proof.
  split; [by vm_compute|exact demo_snapshot|].
  apply (holds_frame _ _ demo_home); [exact demo_holds|]. intros path n. unfold node_at. case_decide; [done|].
  cbn [cli_machine disk cli_home upd_files files nodes]. intros Hn. rewrite lookup_insert_ne; [done|]. intros Hp.
  rewrite <- Hp in Hn. assert (Hnone : nodes (files demo_home) !! parse_path "/srv/claim.json" = None) by (vm_compute; reflexivity).
  congruence.
Qed.

Definition run_line (args : list string) (m : Machine (list string)) : N * Machine (list string) := main 3 args m.

(** What a home would load now: its height and its queue. *)
Definition home_now (m : Machine (list string)) : option (N * nat) :=
  match fst (LoadWithConfig (home_flags "/srv/aegis") (disk m)) with
  | Ok r => Some (BridgeState.currentHeight (BridgeKeeper (Keepers r)), length (pendingDepositClaims (Keepers r)))
  | Err _ => None
  end.

Definition queue_args : list string := tail queue_line.
Definition flags_given (name : string) (args : list string) : FlagSet :=
  match parse_flags name args with Ok fs => fs | Err _ => ∅ end.
Lemma given_at home name args : runtime_config (flags_given name args) = home_flags home -> to_node (flags_given name args) = false ->
  forall fs, parse_flags name args = Ok fs -> at_home home fs.
Proof. intros Hr Hn fs Hp. unfold flags_given in *. rewrite Hp in *. by split. Qed.

Lemma queue_args_at fs : parse_flags "queue-deposit-claim" queue_args = Ok fs -> at_home "/srv/aegis" fs.
Proof. apply given_at; vm_compute; reflexivity. Qed.

Lemma tx_does_its_action_witness :
  tx_acts "queue-deposit-claim" queue_args (files (disk cli_machine)) = Ok [AppQueue demo_claim (Bridge.demo_attested demo_claim)] /\
  carried_out "/srv/aegis" demo_config (fresh_keepers demo_config) [AppQueue demo_claim (Bridge.demo_attested demo_claim)]
    cli_machine (runTx ("queue-deposit-claim"%string :: queue_args) cli_machine) /\
  home_now (snd (run_line ("tx"%string :: queue_line) cli_machine)) = Some (0%N, 1).
Proof.
  assert (Ha : tx_acts "queue-deposit-claim" queue_args (files (disk cli_machine)) =
    Ok [AppQueue demo_claim (Bridge.demo_attested demo_claim)]) by (vm_compute; reflexivity).
  split; [exact Ha|]. split; [|vm_compute; reflexivity].
  pose proof (tx_does_its_action _ _ _ _ "queue-deposit-claim" queue_args cli_home_at queue_args_at) as Hd.
  rewrite Ha in Hd. exact Hd.
Defined.

(** A day at the home: a claim is queued, its save cut off the first time; two
    blocks; a query whose output fails; a line that is no command. *)
Definition start_args : list string := ["--home"; "/srv/aegis"; "--daemon"; "--max-blocks"; "2"]%string.
Definition day : list command := [
  mk_command ("tx"%string :: queue_line) [Done; Done; Torn (Errorf "disk full")] [];
  mk_command ("tx"%string :: queue_line) [] [];
  mk_command ("start"%string :: start_args) [] [];
  mk_command ["query"; "summary"; "--home"; "/srv/aegis"]%string [] [Some (Errorf "broken pipe")];
  mk_command ["halt"]%string [] []].

Lemma day_lines : Forall (fun cmd => line_at "/srv/aegis" (line cmd)) day.
Proof.
  repeat apply Forall_cons_2; [exact queue_args_at|exact queue_args_at| | |exact I|apply Forall_nil_2].
  - refine (given_at "/srv/aegis" "start" start_args _ _); vm_compute; reflexivity.
  - refine (given_at "/srv/aegis" "summary" ["--home"; "/srv/aegis"]%string _ _); vm_compute; reflexivity.
Qed.


Lemma runStart_ends_witness : runStart (2 + 5) start_args cli_machine = runStart 2 start_args cli_machine.
Proof.
  assert (Hp : parse_flags "start" start_args = Ok (flags_given "start" start_args)) by (vm_compute; reflexivity).
  assert (Hn : num (flags_given "start" start_args) "max-blocks" = 2%N) by (vm_compute; reflexivity).
  pose proof (runStart_ends start_args 5 cli_machine) as He. rewrite Hp in He. cbv zeta in He. rewrite Hn in He.
  apply He. intros fs [= <-]. by rewrite Hn.
Defined.

(** ** What the command line does not guard against *)

(** [--enabled false] turns on: the flag takes no separate value, and the word
    after it ends the flags. A proposal written to switch an asset off switches
    it on. *)
Example disabling_enables :
  tx_acts "apply-asset-status-proposal"
    ["--home"; "/srv/aegis"; "--proposal-id"; "p1"; "--asset-id"; "eth.usdc"; "--authority"; "gov"; "--enabled"; "false"]
    (files cli_home) =
    Ok [AppGovern "gov" (Governance.PAssetStatus (Governance.mk_asset_status "p1" "eth.usdc" true))].
Proof. vm_compute. reflexivity. Qed.

(** In the store mode the keepers write as they go and closing commits: a
    withdrawal that is refused leaves the height it was given. *)
Definition store_machine : Machine (list string) := mk_machine store_home [] [] [] [].
Definition refused_withdrawal : list string := ["tx"; "execute-withdrawal"; "--home"; "/srv/aegis"; "--owner-address"; "cosmos1recipient";
  "--asset-id"; "eth.usdc"; "--amount"; "5"; "--recipient"; "0xabc"; "--deadline"; "100"; "--signature-base64"; "c2ln"; "--height"; "900"]%string.
Example refused_withdrawal_moves_height :
  fst (run_line refused_withdrawal store_machine) = 1%N /\ home_now store_machine = Some (0%N, 0) /\
  home_now (snd (run_line refused_withdrawal store_machine)) = Some (900%N, 0) /\
  home_now (snd (run_line refused_withdrawal cli_machine)) = Some (0%N, 0).
Proof. vm_compute. by split_and!. Qed.

(** A command whose answer cannot be written fails although its operation was
    saved: its caller cannot tell. *)
Example unprinted_is_done :
  let '(code, m) := run_line ("tx"%string :: queue_line) (mk_machine cli_home [] [] [Some (Errorf "broken pipe")] []) in
  code = 1%N /\ stdout m = [] /\ home_now m = Some (0%N, 1).
Proof. vm_compute. by split_and!. Qed.
