(* ===== verification/AutoDelivery.v ===== *)
(** [relayer/internal/autodelivery]: initiating the onward transfer of a deposit
    that has been minted, and flushing the channel it takes (coordinator.go,
    runtime.go). *)

From S2P Require Import Prelude.
From S2P Require Import GoStrings.
From S2P Require Import Errors.
From S2P Require Import Registry.
From S2P Require Import BridgeTypes.
From S2P Require Import BridgeState.
From S2P Require Import Bridge.
From S2P Require Import RouteProfile.
From S2P Require Import IBCRouter.
From S2P Require Import Bank.
From S2P Require Import App.
From S2P Require Import DemoTx.
From S2P Require Import ChainApp.
From S2P Require Import Node.
From S2P Require Import Delivery.
From Stdlib Require Import Ascii String.
From stdpp Require Import strings.

(** ** The coordinator *)

Record Intent := mk_pending {
  SourceTxHash : string;
  Sender : string;
  IntentRouteID : string;
  IntentAssetID : string;
  IntentAmount : string;
  IntentReceiver : string
}.

Record BridgeStatus := mk_status { StatusText : string; StatusChannelID : string }.

Record SubmittedTransfer := mk_submitted { SubTransferID : string; SubChannelID : string; SubStatus : string }.

(** The four interfaces of the coordinator. *)
Class DeliveryServices (W : Type) := {
  PendingIntents : Op W (list Intent);
  QueryStatus : string -> Op W BridgeStatus;
  InitiateTransfer : Intent -> Op W SubmittedTransfer;
  Flush : string -> string -> Op W unit
}.

Record RunSummary := mk_summary {
  IntentsObserved : nat;
  IntentsWaiting : nat;
  TransfersInitiated : nat;
  FlushesTriggered : nat;
  CompletedDeliveries : nat;
  FailedDeliveries : nat
}.

Definition no_deliveries : RunSummary := mk_summary 0 0 0 0 0 0.
Definition add_waiting (s : RunSummary) := mk_summary (IntentsObserved s) (S (IntentsWaiting s)) (TransfersInitiated s)
  (FlushesTriggered s) (CompletedDeliveries s) (FailedDeliveries s).
Definition add_initiated (s : RunSummary) := mk_summary (IntentsObserved s) (IntentsWaiting s) (S (TransfersInitiated s))
  (FlushesTriggered s) (CompletedDeliveries s) (FailedDeliveries s).
Definition add_flush (s : RunSummary) := mk_summary (IntentsObserved s) (IntentsWaiting s) (TransfersInitiated s)
  (S (FlushesTriggered s)) (CompletedDeliveries s) (FailedDeliveries s).
Definition add_completed (s : RunSummary) := mk_summary (IntentsObserved s) (IntentsWaiting s) (TransfersInitiated s)
  (FlushesTriggered s) (S (CompletedDeliveries s)) (FailedDeliveries s).
Definition add_failed (s : RunSummary) := mk_summary (IntentsObserved s) (IntentsWaiting s) (TransfersInitiated s)
  (FlushesTriggered s) (CompletedDeliveries s) (S (FailedDeliveries s)).

Definition TransferBlank (s : string) : bool := bool_decide (TrimSpace s = EmptyString).

Section coordinator.
Context {W : Type} `{DeliveryServices W}.

(** A run: the services' world and the summary so far, which is returned with
    an error too. *)
Abbreviation Run A := (Op (W * RunSummary) A).

Definition calling {A} (m : Op W A) : Run A := fun '(w, s) => let '(r, w') := m w in (r, (w', s)).
Definition counting (f : RunSummary -> RunSummary) : Run unit := modify (fun '(w, s) => (w, f s)).

Definition deliver (intent : Intent) : Run unit :=
  let! status := calling (QueryStatus (SourceTxHash intent)) in
  let text := TrimSpace (StatusText status) in
  if decide (text = EmptyString \/ text = "deposit_submitted"%string \/ text = "sepolia_confirming"%string)
  then counting add_waiting
  else if decide (text = "aegislink_processing"%string) then
    let! transfer := calling (InitiateTransfer intent) in
    counting add_initiated ;;;
    if TransferBlank (SubChannelID transfer) then ret tt
    else calling (Flush (IntentRouteID intent) (SubChannelID transfer)) ;;; counting add_flush
  else if decide (text = "osmosis_pending"%string) then
    let channelID := TrimSpace (StatusChannelID status) in
    if decide (channelID = EmptyString) then counting add_waiting
    else calling (Flush (IntentRouteID intent) channelID) ;;; counting add_flush
  else if decide (text = "completed"%string) then counting add_completed
  else if decide (text = "failed"%string) then counting add_failed
  else counting add_waiting.

Definition RunOnce (w : W) : result unit * (W * RunSummary) :=
  (let! intents := calling PendingIntents in
   counting (fun _ => mk_summary (length intents) 0 0 0 0 0) ;;;
   for_each deliver intents) (w, no_deliveries).
End coordinator.

(** ** The networked services *)

Definition autoDeliveryMemo (sourceTxHash : string) : string :=
  let sourceTxHash := TrimSpace sourceTxHash in
  if decide (sourceTxHash = EmptyString) then "bridge:auto" else "bridge:" +:+ sourceTxHash.

Record RlyFlusher := mk_flusher {
  Command : string;
  PathByRoute : gmap string string;
  DefaultPath : string;
  Home : string
}.

Definition resolvePath (f : RlyFlusher) (routeID : string) : string :=
  match (if decide (routeID = EmptyString) then None else PathByRoute f !! routeID) with
  | Some path => if TransferBlank path then TrimSpace (DefaultPath f) else TrimSpace path
  | None => TrimSpace (DefaultPath f)
  end.

(** The command line of a flush. *)
Definition flush_command (f : RlyFlusher) (routeID channelID : string) : result (list string) :=
  let command := TrimSpace (Command f) in
  let command := if decide (command = EmptyString) then "./bin/relayer"%string else command in
  let pathName := resolvePath f routeID in
  let home := TrimSpace (Home f) in
  let channelID := TrimSpace channelID in
  if decide (pathName = EmptyString) then
    Err (Errorf ("missing relayer path for auto delivery flush (route: " +:+ Quote routeID +:+ ")"))
  else if decide (home = EmptyString) then Err (Errorf "missing relayer home for auto delivery flush")
  else if decide (channelID = EmptyString) then Err (Errorf "missing channel id for auto delivery flush")
  else Ok [command; "transact"; "flush"; pathName; channelID; "--home"; home; "--debug"; "--log-level"; "debug"]%string.

(** What the relayer's process did: its output, and the error it ended with. *)
Definition flush_outcome (output : string) (exit : option string) : result unit :=
  match exit with
  | None => Ok tt
  | Some e =>
      let message := TrimSpace output in
      Err (Errorf (if decide (message = EmptyString) then e else e +:+ ": " +:+ message))
  end.

(** A request to the node: answered, lost, or carried out with the answer
    lost. *)
Inductive request := Answered | RequestLost (e : error) | ReplyLost (e : error).

Record Networked (W : Type) := mk_net {
  netNode : ABCIApplication W;
  netIntents : IntentStore;
  netRequests : list request;
  flushResults : list (string * option string)
}.
Arguments mk_net {W}.
Arguments netNode {W}.
Arguments netIntents {W}.
Arguments netRequests {W}.
Arguments flushResults {W}.

Section networked.
Context {W : Type} `{CosmosSDK W} `{MapIteration} `{Crypto} `{AddressCodec}.
Context (resolver : option DestinationTxResolver) (timeoutHeight : N) (flusher : RlyFlusher).

Definition set_node (n : ABCIApplication W) (s : Networked W) := mk_net n (netIntents s) (netRequests s) (flushResults s).
Definition set_intents (i : IntentStore) (s : Networked W) := mk_net (netNode s) i (netRequests s) (flushResults s).
Definition on_node {A} (m : Op (ABCIApplication W) A) : Op (Networked W) A := zoom netNode set_node m.
Definition on_intents {A} (m : Op IntentStore A) : Op (Networked W) A := zoom netIntents set_intents m.

Definition over_network {A} (m : Op (Networked W) A) : Op (Networked W) A := fun s =>
  let sent rest := mk_net (netNode s) (netIntents s) rest (flushResults s) in
  match netRequests s with
  | [] => m s
  | Answered :: rest => m (sent rest)
  | RequestLost e :: rest => (Err e, sent rest)
  | ReplyLost e :: rest => (Err e, snd (m (sent rest)))
  end.

(** [BroadcastTxCommit]: the check, then the transaction as its block runs
    it. *)
Definition broadcastTxJSON (tx : tx_bytes) : Op (ABCIApplication W) (option TxData) :=
  let! check := CheckTx tx in
  throw_if (negb (N.eqb (fst check) 0)) (Errorf ("check tx failed: " +:+ snd check)) ;;;
  let! r := run_tx tx in
  throw_if (negb (N.eqb (Code r) 0)) (Errorf ("deliver tx failed: " +:+ Log r)) ;;;
  ret (Data r).

(** The id, channel and status of the view that is decoded. *)
Definition SubmitInitiateIBCTransfer (payload : InitiateIBCTransferPayload) : Op (ABCIApplication W) SubmittedTransfer :=
  let! tx := lift (encodeInitiateIBCTransferTx payload) in
  let! data := broadcastTxJSON tx in
  match data with
  | Some (TransferData t) => ret (mk_submitted (TransferID t) (TrChannelID t) (Status t))
  | _ => ret (mk_submitted EmptyString EmptyString EmptyString)
  end.

Definition net_PendingIntents : Op (Networked W) (list Intent) :=
  let! intents := over_network (on_intents ListDeliveryIntents) in
  ret (map (fun i => mk_pending (IntSourceTxHash i) (IntSender i) (IntRouteID i) (IntAssetID i) (IntAmount i) (IntReceiver i)) intents).

Definition net_QueryStatus (sourceTxHash : string) : Op (Networked W) BridgeStatus :=
  let! view := over_network (query (fun s =>
    ResolveBridgeSessionView (Some (Node.app (netNode s))) (netIntents s) (TrimSpace sourceTxHash) resolver)) in
  ret (mk_status (SessionStatus view) (SessionChannelID view)).

Definition RegisterDeliveryIntentOverHTTP (intent : DeliveryIntent) : Op (Networked W) DeliveryIntent :=
  let! intent := lift (normalizeDeliveryIntent intent) in
  over_network (on_intents (RegisterDeliveryIntent intent)).

Definition net_InitiateTransfer (intent : Intent) : Op (Networked W) SubmittedTransfer :=
  let! transfer := over_network (on_node (SubmitInitiateIBCTransfer
    (mk_ibc_payload (Sender intent) (IntentRouteID intent) (IntentAssetID intent) (IntentAmount intent)
       (IntentReceiver intent) timeoutHeight (autoDeliveryMemo (SourceTxHash intent))))) in
  RegisterDeliveryIntentOverHTTP
    (mk_intent (SourceTxHash intent) (Sender intent) (IntentRouteID intent) (IntentAssetID intent) (IntentAmount intent)
       (IntentReceiver intent) (SubTransferID transfer) (SubChannelID transfer)) ;;;
  ret transfer.

Definition net_Flush (routeID channelID : string) : Op (Networked W) unit :=
  let! _ := lift (flush_command flusher routeID channelID) in
  fun s => match flushResults s with
           | [] => (Ok tt, s)
           | (output, exit) :: rest => (flush_outcome output exit, mk_net (netNode s) (netIntents s) (netRequests s) rest)
           end.

#[global] Instance networked_services : DeliveryServices (Networked W) := {|
  PendingIntents := net_PendingIntents;
  QueryStatus := net_QueryStatus;
  InitiateTransfer := net_InitiateTransfer;
  Flush := net_Flush
|}.
End networked.

(** ** What a run adds up to *)

Section summary.
Context {W : Type} `{DeliveryServices W}.

(** Every intent that was dealt with is counted once; [p] channels were flushed
    for transfers that were pending, [q] for those just initiated. *)
Definition accounted (observed : nat) (done : nat) (s : RunSummary) : Prop :=
  IntentsObserved s = observed /\ exists p q, FlushesTriggered s = p + q /\ q <= TransfersInitiated s /\
    IntentsWaiting s + TransfersInitiated s + CompletedDeliveries s + FailedDeliveries s + p = done.

Lemma deliver_accounts intent observed done w s : accounted observed done s ->
  match deliver intent (w, s) with
  | (Ok _, (_, s')) => accounted observed (S done) s'
  | (Err _, (_, s')) => exists k, accounted observed k s' /\ done <= k <= S done
  end.
Proof.
  intros (Hobs & p & q & Hf & Hq & Hsum). unfold deliver, bind, calling, counting, modify, ret.
  destruct (QueryStatus (SourceTxHash intent) w) as [[status|e] w1].
  2: { exists done. split; [|lia]. split; [done|]. by exists p, q. }
  unfold accounted. repeat case_decide; try (split; [done|]; exists p, q; cbn; lia).
  - destruct (InitiateTransfer intent w1) as [[transfer|e] w2].
    2: { exists done. split; [|lia]. split; [done|]. by exists p, q. }
    destruct (TransferBlank _); [split; [done|]; exists p, q; cbn; lia|].
    destruct (Flush _ _ w2) as [[[]|e] w3]; [split; [done|]; exists p, (S q); cbn; lia|].
    exists (S done). split; [|lia]. split; [done|]. exists p, q. cbn. lia.
  - destruct (Flush _ _ w1) as [[[]|e] w2]; [split; [done|]; exists (S p), q; cbn; lia|].
    exists done. split; [|lia]. split; [done|]. by exists p, q.
Qed.

(** The summary of a run adds up, also when the run ends with an error: the
    intents that were dealt with are those waiting, initiated, completed, failed
    or flushed, each once, they are at most the intents observed, and all of them
    when the run succeeds. *)
Theorem auto_delivery_summary (w : W) :
  match RunOnce w with
  | (Ok _, (_, s)) => accounted (IntentsObserved s) (IntentsObserved s) s
  | (Err _, (_, s)) => exists k, k <= IntentsObserved s /\ accounted (IntentsObserved s) k s
  end.
Proof.
  assert (Hloop : forall l observed k w s, accounted observed k s -> k + length l = observed ->
    match for_each deliver l (w, s) with
    | (Ok _, (_, s')) => accounted observed observed s'
    | (Err _, (_, s')) => exists k, k <= observed /\ accounted observed k s'
    end).
  { clear. intros l. induction l as [|i l IH]; intros observed k w s Hacc Hlen; cbn [for_each length] in *.
    { rewrite Nat.add_0_r in Hlen. by subst observed. }
    unfold bind. pose proof (deliver_accounts i observed k w s Hacc) as Hone.
    destruct (deliver i (w, s)) as [[[]|e] [w1 s1]].
    - apply (IH observed (S k)); [done|lia].
    - destruct Hone as (k' & Hk' & Hle). exists k'. split; [lia|done]. }
  unfold RunOnce, bind, calling, counting, modify.
  destruct (PendingIntents w) as [[intents|e] w1].
  2: { exists 0. split; [cbn; lia|]. split; [done|]. exists 0, 0. cbn. lia. }
  specialize (Hloop intents (length intents) 0 w1 (mk_summary (length intents) 0 0 0 0 0)).
  destruct (for_each deliver intents _) as [[[]|e] [w2 s2]].
  - assert (Hs : accounted (length intents) (length intents) s2) by (apply Hloop; [split; [done|]; exists 0, 0; cbn; lia|lia]).
    by rewrite (proj1 Hs).
  - destruct Hloop as (k & Hk & Hs); [split; [done|]; exists 0, 0; cbn; lia|lia|]. exists k. by rewrite (proj1 Hs).
Qed.
End summary.

(** ** A second run has nothing to initiate *)

(** What the coordinator needs of its services: a status that only the
    initiation of a transfer changes, and that no longer asks for one once it
    has been initiated. [inv n] is kept for [n] more initiations. *)
Class DeliveryLaws (W : Type) `{DeliveryServices W} := {
  inv : nat -> W -> Prop;
  status_of : W -> string -> string;
  hashes : W -> list string;
  inv_less n w : inv (S n) w -> inv n w;
  PendingIntents_law n w : inv n w ->
    let '(r, w') := PendingIntents w in
    inv n w' /\ (forall h, status_of w' h = status_of w h) /\ hashes w' = hashes w /\
    forall l, r = Ok l -> map SourceTxHash l = hashes w;
  QueryStatus_law n w h : inv n w ->
    let '(r, w') := QueryStatus h w in
    inv n w' /\ (forall h, status_of w' h = status_of w h) /\ hashes w' = hashes w /\
    forall s, r = Ok s -> TrimSpace (StatusText s) = status_of w h;
  Flush_law n w route channel : inv n w ->
    let '(r, w') := Flush route channel w in
    inv n w' /\ (forall h, status_of w' h = status_of w h) /\ hashes w' = hashes w;
  InitiateTransfer_law n w i : inv (S n) w -> SourceTxHash i ∈ hashes w ->
    let '(r, w') := InitiateTransfer i w in
    inv n w' /\ hashes w' ⊆ hashes w /\
    (forall h, status_of w h <> "aegislink_processing"%string -> status_of w' h <> "aegislink_processing"%string) /\
    forall t, r = Ok t -> status_of w' (SourceTxHash i) <> "aegislink_processing"%string /\ hashes w ⊆ hashes w'
}.

Section second_run.
Context {W : Type} `{DeliveryLaws W}.

Definition idle (w : W) (h : string) : Prop := status_of w h <> "aegislink_processing"%string.

(** What dealing with one intent, or several, leaves. *)
Definition progressed (w w' : W) : Prop := hashes w' ⊆ hashes w /\ forall h, idle w h -> idle w' h.

#[local] Instance progressed_preorder : PreOrder progressed.
Proof.
  split; [intros w; by split|]. intros w1 w2 w3 [H12 I12] [H23 I23].
  split; [by etrans|]. auto.
Qed.

Lemma same_progressed w w' : (forall h, status_of w' h = status_of w h) -> hashes w' = hashes w -> progressed w w'.
Proof. intros Hs Hh. split; [by rewrite Hh|]. intros h. unfold idle. by rewrite Hs. Qed.

Lemma deliver_settles n intent w s : inv (S n) w -> SourceTxHash intent ∈ hashes w ->
  let '(r, (w', s')) := deliver intent (w, s) in
  inv n w' /\ progressed w w' /\
  (r = Ok tt -> idle w' (SourceTxHash intent) /\ hashes w ⊆ hashes w') /\
  (idle w (SourceTxHash intent) -> TransfersInitiated s' = TransfersInitiated s).
Proof.
  intros Hinv Hin. unfold deliver, bind, calling, counting, modify, ret.
  pose proof (QueryStatus_law (S n) w (SourceTxHash intent) Hinv) as Hquery.
  destruct (QueryStatus (SourceTxHash intent) w) as [[status|e] w1]; destruct Hquery as (Hinv1 & Hsame1 & Hh1 & Htext);
    pose proof (same_progressed _ _ Hsame1 Hh1) as Hp1.
  2: { split_and!; try done. by apply inv_less. }
  specialize (Htext status eq_refl). rewrite Htext.
  assert (Hidle : status_of w (SourceTxHash intent) <> "aegislink_processing"%string -> forall w', progressed w1 w' ->
    hashes w' = hashes w1 -> idle w' (SourceTxHash intent) /\ hashes w ⊆ hashes w').
  { intros Hne w' [_ Hw'] Hh. split; [apply Hw'; unfold idle; by rewrite Hsame1|by rewrite Hh, Hh1]. }
  assert (Hstay : forall r' s', status_of w (SourceTxHash intent) <> "aegislink_processing"%string ->
    TransfersInitiated s' = TransfersInitiated s ->
    inv n w1 /\ progressed w w1 /\ (r' = Ok (E:=error) tt -> idle w1 (SourceTxHash intent) /\ hashes w ⊆ hashes w1) /\
    (idle w (SourceTxHash intent) -> TransfersInitiated s' = TransfersInitiated s)).
  { intros r' s' Hne Hs'. split_and!; auto using inv_less. intros _. by apply Hidle. }
  case_decide as Hwaiting.
  { apply Hstay; [|done]. intros Hbad. rewrite Hbad in Hwaiting. destruct Hwaiting as [Hw|[Hw|Hw]]; discriminate Hw. }
  case_decide as Hproc.
  - pose proof (InitiateTransfer_law n w1 intent Hinv1) as Hinit. rewrite Hh1 in Hinit. specialize (Hinit Hin).
    destruct (InitiateTransfer intent w1) as [[transfer|e] w2]; destruct Hinit as (Hinv2 & Hh2 & Hkeep & Hdone).
    2: { split_and!; try done. etrans; [exact Hp1|]. split; [by rewrite Hh1|exact Hkeep]. }
    assert (Hp2 : progressed w w2) by (etrans; [exact Hp1|]; split; [by rewrite Hh1|exact Hkeep]).
    destruct (Hdone transfer eq_refl) as [Hidle2 Hback].
    destruct (TransferBlank _); [split_and!; [done|done|done|by intros []]|].
    pose proof (Flush_law n w2 (IntentRouteID intent) (SubChannelID transfer) Hinv2) as Hflush.
    destruct (Flush _ _ w2) as [[[]|e] w3]; destruct Hflush as (Hinv3 & Hsame3 & Hh3);
      pose proof (same_progressed _ _ Hsame3 Hh3) as Hp3; (split_and!; [done|by etrans|intros _; split; [by apply Hp3|by rewrite Hh3]|by intros []]).
  - case_decide as Hpending.
    + case_decide; [by apply Hstay|].
      pose proof (Flush_law (S n) w1 (IntentRouteID intent) (TrimSpace (StatusChannelID status)) Hinv1) as Hflush.
      destruct (Flush _ _ w1) as [[[]|e] w2]; destruct Hflush as (Hinv2 & Hsame2 & Hh2);
        pose proof (same_progressed _ _ Hsame2 Hh2) as Hp2;
        (split_and!; [by apply inv_less|by etrans|intros _; by apply Hidle|done]).
    + repeat case_decide; by apply Hstay.
Qed.

Lemma inv_drop k n w : inv (k + n) w -> inv n w.
Proof. induction k as [|k IH]; [done|]. intros Hk. apply IH, inv_less, Hk. Qed.

Lemma delivers_settle l n w s : inv (length l + n) w -> (forall i, i ∈ l -> SourceTxHash i ∈ hashes w) ->
  let '(r, (w', s')) := for_each deliver l (w, s) in
  inv n w' /\ progressed w w' /\
  (r = Ok tt -> forall i, i ∈ l -> idle w' (SourceTxHash i)) /\
  ((forall i, i ∈ l -> idle w (SourceTxHash i)) -> TransfersInitiated s' = TransfersInitiated s).
Proof.
  revert w s. induction l as [|i l IH]; intros w s Hinv Hin; cbn [for_each length Nat.add] in *.
  { unfold ret. split_and!; try done. intros _ i Hi. by apply elem_of_nil in Hi. }
  unfold bind. pose proof (deliver_settles (length l + n) i w s Hinv (Hin i ltac:(left))) as Hone.
  destruct (deliver i (w, s)) as [[[]|e] [w1 s1]]; destruct Hone as (Hinv1 & Hp1 & Hidle1 & Hcount1).
  2: { split_and!; [by apply inv_drop in Hinv1|done|done|]. intros Hall. apply Hcount1, Hall. left. }
  destruct (Hidle1 eq_refl) as [Hidle Hback]. specialize (IH w1 s1 Hinv1).
  destruct (for_each deliver l (w1, s1)) as [r [w2 s2]]. destruct IH as (Hinv2 & Hp2 & Hidle2 & Hcount2).
  { intros j Hj. apply Hback, Hin. by right. }
  split_and!; [done|by etrans| |].
  - intros Hok j [->|Hj]%elem_of_cons; [by apply Hp2|by apply Hidle2].
  - intros Hall. rewrite Hcount2, Hcount1; [done|apply Hall; left|]. intros j Hj. apply Hp1, Hall. by right.
Qed.

Lemma run_settles n w : inv (length (hashes w) + n) w ->
  let outcome := RunOnce w in
  let w' := fst (snd outcome) in
  (fst outcome = Ok tt -> inv n w') /\
  (fst outcome = Ok tt -> forall h, h ∈ hashes w -> idle w' h) /\
  hashes w' ⊆ hashes w /\
  ((forall h, h ∈ hashes w -> idle w h) -> TransfersInitiated (snd (snd outcome)) = 0).
Proof.
  intros Hinv. unfold RunOnce, bind, calling, counting, modify. cbv zeta.
  pose proof (PendingIntents_law _ w Hinv) as Hpending.
  destruct (PendingIntents w) as [[l|e] w0]; destruct Hpending as (Hinv0 & Hsame & Hh & Hl); cbn [fst snd].
  2: { split_and!; [done|done|by rewrite Hh|done]. }
  specialize (Hl l eq_refl).
  pose proof (delivers_settle l n w0 (AutoDelivery.mk_summary (length l) 0 0 0 0 0)) as Hloop.
  rewrite <- Hl, length_map in Hinv0. specialize (Hloop Hinv0).
  destruct (for_each deliver l _) as [r [w1 s1]]. destruct Hloop as (Hn & [Hsub Hkeep] & Hidle & Hcount).
  { intros i Hi. rewrite Hh, <- Hl. apply list_elem_of_fmap. by exists i. }
  cbn [fst snd]. rewrite Hh in Hsub. split_and!; [done| |done|].
  - intros Hok h Hin. rewrite <- Hl in Hin. apply list_elem_of_fmap in Hin as (i & -> & Hi). by apply Hidle.
  - intros Hall. apply Hcount. intros i Hi. unfold idle. rewrite Hsame. apply Hall. rewrite <- Hl.
    apply list_elem_of_fmap. by exists i.
Qed.

End second_run.

(** ** The networked services keep the laws *)

Section network_laws.
Context {W : Type} `{CosmosSDK W} `{MapIteration} `{Crypto} `{AddressCodec}.

Abbreviation Node := (ABCIApplication W).

(** At most [j] operations of the router, and none of the bridge. *)
Definition routed (j : nat) (a b : App) : Prop :=
  BridgeKeeper b = BridgeKeeper a /\
  exists acts, length acts <= j /\ IBCRouterKeeper b = exec_all acts (IBCRouterKeeper a).

Definition routes (j : nat) {A} (m : Op Node A) : Prop := forall n, routed j (Node.app n) (Node.app (snd (m n))).

Lemma exec_all_app acts acts' k : exec_all (acts ++ acts') k = exec_all acts' (exec_all acts k).
Proof. revert k. induction acts as [|a acts IH]; intros k; [done|]. apply IH. Qed.

Lemma routed_same j a b : BridgeKeeper b = BridgeKeeper a -> IBCRouterKeeper b = IBCRouterKeeper a -> routed j a b.
Proof. intros Hb Hr. split; [done|]. exists []. split; [cbn; lia|done]. Qed.

Lemma routes_bind j k {A B} (m : Op Node A) (f : A -> Op Node B) :
  routes j m -> (forall a, routes k (f a)) -> routes (j + k) (bind m f).
Proof.
  intros Hm Hf n. specialize (Hm n). unfold bind. destruct (m n) as [[a|e] n1]; cbn [snd] in *; destruct Hm as (Hb & acts & Hlen & Hr).
  - destruct (Hf a n1) as (Hb' & acts' & Hlen' & Hr'). split; [congruence|]. exists (acts ++ acts').
    rewrite length_app, exec_all_app, <- Hr. split; [lia|done].
  - split; [done|]. exists acts. split; [lia|done].
Qed.

Lemma routes_same j {A} (m : Op Node A) : (forall n, Node.app (snd (m n)) = Node.app n) -> routes j m.
Proof. intros Hm n. rewrite Hm. by apply routed_same. Qed.

Lemma routes_recovered j {A} (m : Op Node A) : routes j m -> routes j (recovered m).
Proof. intros Hm n. rewrite recovered_state. apply Hm. Qed.

Lemma routes_bank j {A} (m : Op Bank.Keeper A) : routes j (on_app (on_bank m)).
Proof. intros n. rewrite on_app_run. cbn [snd set_app Node.app]. rewrite on_bank_run. by apply routed_same. Qed.

Lemma routes_router {A} (m : Op IBCRouter.Keeper A) act : (forall k, snd (m k) = IBCRouter.exec act k) ->
  routes 1 (on_app (on_router m)).
Proof.
  intros Hm n. rewrite on_app_run. cbn [snd set_app Node.app]. rewrite on_router_run. split; [done|].
  exists [act]. split; [cbn; lia|]. cbn. by rewrite Hm.
Qed.

Lemma initiate_routes payload amount : routes 1 (on_app (W:=W) (initiate_transfer payload amount)).
Proof.
  unfold initiate_transfer. destruct (blank (IbcRouteID payload)).
  - by apply (routes_router _ (RInitiate (IbcAssetID payload) (Some amount) (IbcReceiver payload) (IbcTimeoutHeight payload) (IbcMemo payload))).
  - by apply (routes_router _ (RInitiateProfile (IbcRouteID payload) (IbcAssetID payload) (Some amount) (IbcReceiver payload)
      (IbcTimeoutHeight payload) (IbcMemo payload))).
Qed.

Lemma give_back_routes sender denom amount pre : routes 0 (give_back (W:=W) sender denom amount pre).
Proof.
  intros n. rewrite give_back_app. case_decide; [by apply routed_same|].
  unfold App.CreditWallet. rewrite on_bank_run. by apply routed_same.
Qed.

Lemma charge_sender_routes sender denom amount pre : routes 0 (charge_sender (W:=W) sender denom amount pre).
Proof.
  unfold charge_sender. case_decide; [by apply routes_same|].
  apply (routes_bind 0 0); [by apply routes_same; destruct (_ <? _)%Z|]. intros _.
  apply (routes_bind 0 0); [apply routes_same, with_chain_app|]. intros _. apply routes_bank.
Qed.

(** The transfer a successful call returns is in the router. *)
Definition recorded_in (n : Node) (t : TransferRecord) : Prop :=
  transfers (IBCRouterKeeper (Node.app n)) !! TransferID t = Some t.

Lemma initiate_recorded payload amount (n : Node) t :
  fst (on_app (initiate_transfer payload amount) n) = Ok t -> recorded_in (snd (on_app (initiate_transfer payload amount) n)) t.
Proof.
  assert (Hrouter : forall asset v receiver h memo chain channel denom k,
    match initiateTransfer asset v receiver h memo chain channel denom k with
    | (Ok t, k') => transfers k' !! TransferID t = Some t | (Err _, _) => True end).
  { intros asset v receiver h memo chain channel denom k.
    destruct (initiateTransfer_run k asset v receiver h memo chain channel denom) as [(_ & k' & -> & -> & _)|(_ & e & ->)]; [|done].
    apply lookup_insert_eq. }
  rewrite on_app_run. unfold recorded_in. cbn [fst snd set_app Node.app]. unfold initiate_transfer.
  destruct (blank (IbcRouteID payload)); unfold App.InitiateIBCTransfer, App.InitiateIBCTransferWithProfile;
    rewrite on_router_run; cbn [fst snd set_router IBCRouterKeeper].
  - unfold IBCRouter.InitiateTransfer, bind, gets, some_or, throw_if, throw, ret.
    destruct (GetRoute _ _) as [r|]; [|done]. destruct (negb _); [done|].
    specialize (Hrouter (IbcAssetID payload) (Some amount) (IbcReceiver payload) (IbcTimeoutHeight payload) (IbcMemo payload)
      (IBCRouter.DestinationChainID r) (ChannelID r) (DestinationDenom r) (IBCRouterKeeper (Node.app n))).
    destruct (initiateTransfer _ _ _ _ _ _ _ _ _) as [[t'|e] k']; [|done]. by intros [= ->].
  - unfold IBCRouter.InitiateTransferWithProfile, bind, gets, some_or, throw_if, throw, ret.
    destruct (GetRouteProfile _ _) as [p|]; [|done]. destruct (negb _); [done|].
    destruct (RouteProfile.FindAssetRoute p _) as [r|]; [|done]. destruct (negb _); [done|]. destruct (negb _); [done|].
    match goal with |- context [initiateTransfer ?a ?b ?c ?d ?e ?f ?g ?i ?k] => specialize (Hrouter a b c d e f g i k) end.
    destruct (initiateTransfer _ _ _ _ _ _ _ _ _) as [[t'|e] k']; [|done]. by intros [= ->].
Qed.

Lemma transfer_paid_routes sender denom amount pre payload : routes 2 (transfer_paid (W:=W) sender denom amount pre payload).
Proof.
  unfold transfer_paid. apply (routes_bind 1 1); [apply routes_recovered, initiate_routes|]. intros [t|err].
  - apply (routes_bind 0 1); [apply routes_recovered, routes_same, with_chain_app|]. intros [events|err]; [by apply routes_same|].
    apply (routes_bind 0 1); [apply give_back_routes|]. intros _. apply (routes_bind 1 0).
    + apply routes_recovered. by apply (routes_router _ (RAck (TransferID t) false ("localhost sdk transfer failed: " +:+ error_text err))).
    + intros [?|?]; by apply routes_same.
  - apply (routes_bind 0 1); [apply give_back_routes|]. intros _. by apply routes_same.
Qed.

Lemma transfer_paid_recorded sender denom amount pre payload (n : Node) t events :
  fst (transfer_paid sender denom amount pre payload n) = Ok (t, events) ->
  recorded_in (snd (transfer_paid sender denom amount pre payload n)) t.
Proof.
  unfold transfer_paid. rewrite !bind_run.
  destruct (recovered_cases (on_app (initiate_transfer payload amount)) n) as [(e & _ & _ & ->)| ->]; cbn [fst snd]; [done|].
  destruct (fst (on_app (initiate_transfer payload amount) n)) as [t'|err] eqn:Hinit.
  2: { rewrite bind_run. by destruct (give_back _ _ _ _ _) as [[[]|e] n2]. }
  apply initiate_recorded in Hinit. set (n1 := snd (on_app (initiate_transfer payload amount) n)) in *. clearbody n1.
  rewrite bind_run.
  match goal with |- context [recovered ?m n1] => destruct (recovered_cases m n1) as [(e & _ & _ & ->)| ->];
    pose proof (with_chain_app [] (localhost_transfer sender denom amount payload t') n1) as Hw end; cbn [fst snd]; [done|].
  destruct (fst (with_chain _ _ n1)) as [ev|err].
  - cbn [fst snd ret]. intros [= <- <-]. unfold recorded_in. by rewrite Hw.
  - rewrite bind_run. destruct (give_back _ _ _ _ _) as [[[]|e] n2]; cbn [fst snd]; [|done]. rewrite bind_run.
    destruct (recovered _ n2) as [[[?|?]|e] n3]; done.
Qed.

Lemma apply_ibc_routes payload amount : routes 2 (applyIBCTransferPayload (W:=W) payload amount).
Proof.
  unfold applyIBCTransferPayload. cbv zeta. apply (routes_bind 0 2); [by apply routes_same|]. intros found.
  apply (routes_bind 0 2); [by apply routes_same; destruct found|]. intros asset.
  apply (routes_bind 0 2); [by apply routes_same|]. intros pre.
  apply (routes_bind 0 2); [apply charge_sender_routes|]. intros _. apply transfer_paid_routes.
Qed.

Lemma apply_ibc_recorded payload amount (n : Node) t events :
  fst (applyIBCTransferPayload payload amount n) = Ok (t, events) ->
  recorded_in (snd (applyIBCTransferPayload payload amount n)) t.
Proof.
  unfold applyIBCTransferPayload. cbv zeta. rewrite gets_bind. destruct (Registry.GetAsset _ _) as [asset|]; [|done].
  cbn [some_or]. rewrite bind_run. cbn [ret fst snd]. rewrite gets_bind, bind_run.
  destruct (charge_sender _ _ _ _ n) as [[r|e] n1]; cbn [fst snd]; [|done]. apply transfer_paid_recorded.
Qed.

Definition transfer_tx (p : InitiateIBCTransferPayload) : tx_bytes :=
  TxJSON (mk_tx "initiate_ibc_transfer" None (Some p) None None).

Lemma transfer_tx_applied p (n : Node) :
  let outcome := applyDemoNodeTx (transfer_tx p) n in
  routed 2 (Node.app n) (Node.app (snd outcome)) /\
  forall r, fst outcome = Ok r -> exists t events, r = success (TransferData t) events /\ recorded_in (snd outcome) t.
Proof.
  unfold applyDemoNodeTx. rewrite bind_run. cbn [lift fst snd].
  destruct (decodeDemoNodeTx (transfer_tx p)) as [d|e] eqn:Hdec; cbn [fst snd]; [|split; [by apply routed_same|done]].
  apply decoded_json in Hdec. injection Hdec as <-. cbn [Type_ TxInitiateIBCTransfer some_or].
  rewrite decide_False, decide_True by done. rewrite bind_run. cbn [ret fst snd]. unfold apply_transfer. rewrite bind_run.
  cbn [lift fst snd]. destruct (decodeInitiateIBCTransferPayload p) as [[payload amount]|e]; cbn [fst snd];
    [|split; [by apply routed_same|done]].
  rewrite bind_run. pose proof (apply_ibc_routes payload amount n) as Hroutes.
  destruct (applyIBCTransferPayload payload amount n) as [[[t events]|e] n1] eqn:Hrun; cbn [fst snd ret] in *; [|by split].
  split; [done|]. intros r [= <-]. exists t, events. split; [done|].
  pose proof (apply_ibc_recorded payload amount n t events) as Hrec. rewrite Hrun in Hrec. by apply Hrec.
Qed.

Lemma CheckTx_app tx (n : Node) : Node.app (snd (CheckTx tx n)) = Node.app n.
Proof. unfold CheckTx. destruct (is_demo tx); [done|apply with_chain_app]. Qed.

Lemma SubmitInitiateIBCTransfer_spec payload (n : Node) :
  let outcome := SubmitInitiateIBCTransfer payload n in
  routed 2 (Node.app n) (Node.app (snd outcome)) /\
  forall s, fst outcome = Ok s -> exists t, recorded_in (snd outcome) t /\
    SubTransferID s = TransferID t /\ SubChannelID s = TrChannelID t.
Proof.
  unfold SubmitInitiateIBCTransfer, encodeInitiateIBCTransferTx. rewrite bind_run. cbn [lift fst snd].
  destruct (decodeInitiateIBCTransferPayload payload) as [[p amount]|e]; cbn [res_bind fst snd];
    [|split; [by apply routed_same|done]].
  change (TxJSON _) with (transfer_tx p). unfold broadcastTxJSON. rewrite !bind_run.
  pose proof (CheckTx_app (transfer_tx p) n) as Hcheck.
  destruct (CheckTx (transfer_tx p) n) as [[check|e] n1]; cbn [fst snd] in *;
    [|split; [by apply routed_same; rewrite Hcheck|done]].
  rewrite bind_run. unfold throw_if. destruct (negb (check.1 =? 0)%N); cbn [throw ret fst snd];
    [split; [by apply routed_same; rewrite Hcheck|done]|].
  rewrite bind_run. unfold run_tx. rewrite bind_run. destruct (transfer_tx_applied p n1) as [Hroutes Hdone]. rewrite Hcheck in Hroutes.
  destruct (recovered_cases (applyDemoNodeTx (transfer_tx p)) n1) as [(e & _ & _ & ->)| ->]; cbn [fst snd ret]; [by split|].
  destruct (fst (applyDemoNodeTx (transfer_tx p) n1)) as [r|e]; cbn [Code Log Data].
  - destruct (Hdone r eq_refl) as (t & events & -> & Hrec). cbn [Code Data success negb N.eqb bind throw_if ret fst snd].
    split; [done|]. intros s [= <-]. by exists t.
  - by split.
Qed.

(** ** The laws of the networked services *)

Context (resolver : option DestinationTxResolver) (timeoutHeight : N) (flusher : RlyFlusher).

Abbreviation router s := (IBCRouterKeeper (Node.app (netNode s))).

Definition net_inv (n : nat) (s : Networked W) : Prop :=
  IBCRouter.wf (router s) /\ (nextSequence (router s) + 2 * N.of_nat n < two64)%N /\
  forall l, stored_intents (netIntents s) = Some l -> intents_wf l.

Definition net_status (s : Networked W) (h : string) : string :=
  match ResolveBridgeSessionView (Some (Node.app (netNode s))) (netIntents s) (TrimSpace h) resolver with
  | Ok view => TrimSpace (SessionStatus view)
  | Err _ => "unknown"%string
  end.

Definition net_hashes (s : Networked W) : list string := map IntSourceTxHash (default [] (stored_intents (netIntents s))).

Definition same_network (s s' : Networked W) : Prop := netNode s' = netNode s /\ netIntents s' = netIntents s.

Lemma same_network_keeps n (s s' : Networked W) : same_network s s' -> net_inv n s ->
  net_inv n s' /\ (forall h, net_status s' h = net_status s h) /\ net_hashes s' = net_hashes s.
Proof. intros [Hn Hi] Hinv. unfold net_inv, net_status, net_hashes. by rewrite Hn, Hi. Qed.

(** A request is lost, or carried out with its answer or without. *)
Lemma over_network_cases {A} (m : Op (Networked W) A) (s : Networked W) : exists s1, same_network s s1 /\
  (over_network m s = m s1 \/ exists e, over_network m s = (Err e, s1) \/ over_network m s = (Err e, snd (m s1))).
Proof.
  unfold over_network. destruct (netRequests s) as [|[|e|e] rest]; [by exists s; split; [|left]|..];
    exists (mk_net (netNode s) (netIntents s) rest (flushResults s)); (split; [done|]); [by left|right; exists e; auto..].
Qed.

Lemma net_processing s h : net_status s h = "aegislink_processing"%string <->
  TrimSpace h <> EmptyString /\ exists claim l,
    findClaimBySourceTxHash (Node.app (netNode s)) (TrimSpace h) = Some claim /\ stored_intents (netIntents s) = Some l /\
    findTransferForClaim (Node.app (netNode s)) claim (find_intent (TrimSpace h) l) = None.
Proof.
  pose proof (processing_iff (Node.app (netNode s)) (netIntents s) (TrimSpace h) resolver) as Hiff.
  rewrite TrimSpace_trimmed in Hiff. rewrite <- Hiff. unfold net_status. split.
  - destruct (ResolveBridgeSessionView _ _ _ _) as [view|e]; [|done]. eauto.
  - by intros (view & -> & Hview).
Qed.

Definition forward (a b : App) : Prop :=
  BridgeKeeper b = BridgeKeeper a /\
  forall id t, transfers (IBCRouterKeeper a) !! id = Some t ->
    exists t', transfers (IBCRouterKeeper b) !! id = Some t' /\ evolves t t'.

Lemma routed_forward n (s s' : Networked W) : net_inv (S n) s -> routed 2 (Node.app (netNode s)) (Node.app (netNode s')) ->
  IBCRouter.wf (router s') /\ (nextSequence (router s') + 2 * N.of_nat n < two64)%N /\
  forward (Node.app (netNode s)) (Node.app (netNode s')).
Proof.
  intros (Hwf & Hnext & _) (Hb & acts & Hlen & Hr). unfold forward. rewrite Hr.
  destruct (exec_all_forward acts (router s) Hwf) as (Hwf' & Hnext' & Hfwd); [lia|]. split_and!; [done|lia|done|done].
Qed.

(** A transfer that has been recorded under the intent it was made for. *)
Definition sent_for (s : Networked W) (intent : DeliveryIntent) : Prop :=
  exists id t, transfers (router s) !! id = Some t /\ tracked_by intent t.

Lemma sent_for_found s h claim l intent : find_intent (TrimSpace h) l = Some intent -> sent_for s intent ->
  findTransferForClaim (Node.app (netNode s)) claim (find_intent (TrimSpace h) l) <> None.
Proof.
  intros -> (id & t & Hid & Ht). apply findTransferForClaim_found. exists id, t. split; [done|]. left. by exists intent.
Qed.

(** A session that is past the initiation stays past it: the transfers move
    forward, and an intent changes only to one that has its transfer. *)
Lemma not_processing_kept (s s' : Networked W) h : forward (Node.app (netNode s)) (Node.app (netNode s')) ->
  (forall l', stored_intents (netIntents s') = Some l' -> exists l, stored_intents (netIntents s) = Some l /\
     (find_intent (TrimSpace h) l' = find_intent (TrimSpace h) l \/
      exists intent, find_intent (TrimSpace h) l' = Some intent /\ sent_for s' intent)) ->
  net_status s h <> "aegislink_processing"%string -> net_status s' h <> "aegislink_processing"%string.
Proof.
  intros [Hb Hfwd] Hstored Hne Hproc. apply Hne, net_processing. apply net_processing in Hproc as (Hh & claim & l' & Hclaim & Hl' & Hnone).
  split; [done|]. destruct (Hstored l' Hl') as (l & Hl & [Hsame|(intent & Hfind & Hsent)]).
  2: { by destruct (sent_for_found _ _ claim _ _ Hfind Hsent). }
  exists claim, l. split_and!; [by unfold findClaimBySourceTxHash in *; rewrite <- Hb|done|].
  destruct (findTransferForClaim (Node.app (netNode s)) _ _) eqn:Hfound; [|done].
  destruct (found_stable _ (Node.app (netNode s')) claim (find_intent (TrimSpace h) l) Hfwd ltac:(by rewrite Hfound)).
  by rewrite <- Hsame.
Qed.

Lemma submit_network payload (s : Networked W) :
  let outcome := over_network (on_node (SubmitInitiateIBCTransfer payload)) s in
  netIntents (snd outcome) = netIntents s /\ routed 2 (Node.app (netNode s)) (Node.app (netNode (snd outcome))) /\
  forall t, fst outcome = Ok t -> exists record, recorded_in (netNode (snd outcome)) record /\
    SubTransferID t = TransferID record /\ SubChannelID t = TrChannelID record.
Proof.
  cbv zeta. destruct (over_network_cases (on_node (SubmitInitiateIBCTransfer payload)) s) as (s1 & [Hn Hi] & Hcase).
  pose proof (SubmitInitiateIBCTransfer_spec payload (netNode s1)) as [Hroutes Hdone]. rewrite Hn in Hroutes.
  assert (Hrun : on_node (SubmitInitiateIBCTransfer payload) s1 =
    (fst (SubmitInitiateIBCTransfer payload (netNode s1)), set_node (snd (SubmitInitiateIBCTransfer payload (netNode s1))) s1)).
  { unfold on_node, zoom. by destruct (SubmitInitiateIBCTransfer payload (netNode s1)). }
  rewrite Hrun in Hcase. destruct Hcase as [->|(e & [->| ->])]; cbn [fst snd set_node netIntents netNode].
  - split_and!; [done|by rewrite <- Hn in *|done].
  - split_and!; [done|by rewrite Hn; apply routed_same|done].
  - split_and!; [done|by rewrite <- Hn in *|done].
Qed.

Lemma register_network intent (s : Networked W) :
  let outcome := RegisterDeliveryIntentOverHTTP intent s in
  let put := exists l, stored_intents (netIntents s) = Some l /\
    stored_intents (netIntents (snd outcome)) = Some (put_intent (normal intent) l) in
  netNode (snd outcome) = netNode s /\
  (stored_intents (netIntents (snd outcome)) = stored_intents (netIntents s) \/
   stored_intents (netIntents (snd outcome)) = None \/ put) /\
  (forall i, fst outcome = Ok i -> put).
Proof.
  cbv zeta. unfold RegisterDeliveryIntentOverHTTP. rewrite bind_run. cbn [lift fst snd].
  destruct (normalizeDeliveryIntent intent) as [i|e] eqn:Hnorm; cbn [fst snd]; [|by split_and!; [|left|]].
  apply normalized in Hnorm as ->. destruct (over_network_cases (on_intents (RegisterDeliveryIntent (normal intent))) s)
    as (s1 & [Hn Hi] & Hcase).
  pose proof (register_stored (normal intent) (netIntents s1)) as [Hstored Hdone]. rewrite normal_idemp, Hi in Hstored, Hdone.
  assert (Hrun : on_intents (RegisterDeliveryIntent (normal intent)) s1 =
    (fst (RegisterDeliveryIntent (normal intent) (netIntents s1)), set_intents (snd (RegisterDeliveryIntent (normal intent) (netIntents s1))) s1)).
  { unfold on_intents, zoom. by destruct (RegisterDeliveryIntent _ (netIntents s1)). }
  rewrite Hrun, Hi in Hcase. destruct Hcase as [->|(e & [->| ->])]; cbn [fst snd set_intents netIntents netNode].
  - by split_and!.
  - split_and!; [done|left; by rewrite Hi|done].
  - by split_and!.
Qed.

Lemma stored_hash_trimmed l h : intents_wf l -> h ∈ map IntSourceTxHash l -> trimmed h.
Proof. intros [_ Hall] (x & -> & Hx)%list_elem_of_fmap. rewrite Forall_forall in Hall. by apply Hall. Qed.

(** What an initiation leaves of the network, from a state in which the intent
    of the deposit is stored. *)
Lemma initiate_network n i s : net_inv (S n) s -> SourceTxHash i ∈ net_hashes s ->
  let outcome := net_InitiateTransfer timeoutHeight i s in
  exists l, stored_intents (netIntents s) = Some l /\
  net_inv n (snd outcome) /\ forward (Node.app (netNode s)) (Node.app (netNode (snd outcome))) /\
  let put := exists intent, IntSourceTxHash intent = SourceTxHash i /\ sent_for (snd outcome) intent /\
    stored_intents (netIntents (snd outcome)) = Some (put_intent intent l) in
  (stored_intents (netIntents (snd outcome)) = Some l \/ stored_intents (netIntents (snd outcome)) = None \/ put) /\
  (forall t, fst outcome = Ok t -> put).
Proof.
  intros Hinv Hin. pose proof Hinv as (_ & _ & Hintents). unfold net_hashes in Hin.
  destruct (stored_intents (netIntents s)) as [l|] eqn:Hl; cbn [default from_option] in Hin; [|by apply elem_of_nil in Hin].
  pose proof (Hintents l eq_refl) as Hlwf. exists l. split; [done|].
  pose proof (stored_hash_trimmed l _ Hlwf Hin) as Htrim.
  unfold net_InitiateTransfer. rewrite bind_run.
  match goal with |- context [over_network (on_node ?m) s] => destruct (submit_network _ s : let o := over_network (on_node m) s in _)
    as (Hi1 & Hr1 & Hdone1); destruct (over_network (on_node m) s) as [[t|e] s1] end; cbn [fst snd] in *.
  all: destruct (routed_forward n s s1 Hinv Hr1) as (Hwf1 & Hnext1 & Hfwd1).
  2: { rewrite Hi1, Hl. split; [split_and!; [done|done|by rewrite Hi1, Hl]|]. split; [done|]. split; [by left|done]. }
  destruct (Hdone1 t eq_refl) as (record & Hrec & Hid & Hchannel). rewrite bind_run.
  match goal with |- context [RegisterDeliveryIntentOverHTTP ?x s1] => pose proof (register_network x s1) as Hreg;
    destruct (RegisterDeliveryIntentOverHTTP x s1) as [r s2]; cbv zeta in Hreg; set (intent := normal x) in Hreg end.
  cbn [fst snd] in Hreg. rewrite Hi1, Hl in Hreg. destruct Hreg as (Hn2 & Hstored & Hdone).
  assert (Hsent : sent_for s2 intent).
  { exists (TransferID record), record. rewrite Hn2. split; [exact Hrec|].
    destruct (Hwf1 _ _ Hrec) as (_ & Ht & m & _ & Hlast). unfold tracked_by, intent.
    cbn [normal IntTransferID IntChannelID]. rewrite Hid, Hchannel, !TrimSpace_trimmed, Ht. split_and!; [|done|by right].
    intros Hblank. rewrite Hblank in Hlast. by apply (format_uint_nonempty m). }
  assert (Hput : (exists l', Some l = Some l' /\ stored_intents (netIntents s2) = Some (put_intent intent l')) ->
    exists intent, IntSourceTxHash intent = SourceTxHash i /\ sent_for s2 intent /\
      stored_intents (netIntents s2) = Some (put_intent intent l)).
  { intros (l' & [= <-] & Hs2). exists intent. by split_and!. }
  assert (Hinv2 : net_inv n s2).
  { unfold net_inv. rewrite Hn2. split_and!; [done|done|]. intros l2 Hl2.
    destruct Hstored as [Hs2|[Hs2|(l' & [= <-] & Hs2)]]; rewrite Hs2 in Hl2; [by injection Hl2 as <-|done|injection Hl2 as <-].
    apply put_intent_wf; [apply TrimSpace_trimmed|done]. }
  destruct r as [x|e]; cbn [ret fst snd]; rewrite Hn2; (split; [done|]); (split; [done|]); (split; [|intros t' Ht'; try done]).
  - right; right. by apply Hput, (Hdone x).
  - by apply Hput, (Hdone x).
  - destruct Hstored as [Hs2|[Hs2|Hs2]]; [by left|by right; left|right; right; by apply Hput].
Qed.

Lemma put_intent_hashes intent l : intents_wf l -> IntSourceTxHash intent ∈ map IntSourceTxHash l ->
  forall h, h ∈ map IntSourceTxHash (put_intent intent l) <-> h ∈ map IntSourceTxHash l.
Proof.
  intros [Hnd _] Hin h. rewrite !list_elem_of_fmap. split.
  - intros (x & -> & [->|[Hx _]]%put_intent_in); [by apply list_elem_of_fmap in Hin|by exists x|done].
  - intros (x & -> & Hx). destruct (decide (hash_key x = hash_key intent)) as [Hkey|Hkey].
    + exists intent. split; [|by apply put_intent_in; [|left]].
      apply list_elem_of_fmap in Hin as (y & Hy & Hyin). rewrite Hy. f_equal. apply list_elem_of_lookup in Hx as [a Ha], Hyin as [b Hb].
      assert (Hkeys : map hash_key l !! a = map hash_key l !! b).
      { rewrite !list_lookup_fmap, Ha, Hb. cbn. by rewrite Hkey; unfold hash_key; rewrite Hy. }
      rewrite list_lookup_fmap, Ha in Hkeys. cbn in Hkeys.
      pose proof (NoDup_lookup (map hash_key l) a b (hash_key x) Hnd) as Hab.
      rewrite list_lookup_fmap, Ha in Hab. specialize (Hab eq_refl (eq_sym Hkeys)). congruence.
    + exists x. split; [done|]. apply put_intent_in; [done|]. by right.
Qed.

Lemma find_put_intent intent l h : trimmed (IntSourceTxHash intent) -> intents_wf l ->
  find_intent (TrimSpace h) (put_intent intent l) = Some intent \/
  find_intent (TrimSpace h) (put_intent intent l) = find_intent (TrimSpace h) l.
Proof.
  intros Htrim Hwf. pose proof (put_intent_wf intent l Htrim Hwf) as Hwf'.
  destruct (decide (hash_key intent = ToLower (TrimSpace (TrimSpace h)))) as [Hkey|Hkey].
  - left. apply find_intent_spec; [done|]. split; [|done]. apply put_intent_in; [apply Hwf|by left].
  - right. apply find_intent_iff; [done..|]. intros x Hx. rewrite put_intent_in by apply Hwf.
    split; [intros [->|[? _]]; done|intros Hxl; right; split; congruence].
Qed.

#[global] Program Instance networked_laws :
    @DeliveryLaws (Networked W) (networked_services resolver timeoutHeight flusher) := {|
  inv := net_inv;
  status_of := net_status;
  hashes := net_hashes
|}.
Next Obligation. intros n s (Hwf & Hnext & Hi). split_and!; [done|lia|done]. Qed.
Next Obligation.
  intros n s Hinv. cbn [PendingIntents networked_services]. unfold net_PendingIntents. rewrite bind_run.
  destruct (over_network_cases (on_intents ListDeliveryIntents) s) as (s1 & Hs1 & Hcase).
  assert (Hrun : exists r, on_intents ListDeliveryIntents s1 = (r, s1) /\
    forall l, r = Ok l -> stored_intents (netIntents s1) = Some l).
  { unfold on_intents, zoom, ListDeliveryIntents. rewrite load_stored. eexists. split; [by destruct s1|].
    intros l. destruct (stored_intents _); [congruence|]. by destruct (intentsFile _). }
  destruct Hrun as (r & Hrun & Hr). rewrite Hrun in Hcase. cbn [snd] in Hcase.
  destruct (same_network_keeps n s s1 Hs1 Hinv) as (Hinv1 & Hsame & Hh).
  destruct Hcase as [->|(e & [->| ->])]; cbn [fst snd]; [destruct r as [l|e]; cbn [ret]|..]; split_and!; try done.
  intros l' [= <-]. rewrite map_map. cbn [SourceTxHash]. rewrite <- Hh. unfold net_hashes. by rewrite (Hr l eq_refl).
Qed.
Next Obligation.
  intros n s h Hinv. cbn [QueryStatus networked_services]. unfold net_QueryStatus, query. rewrite bind_run.
  match goal with |- context [over_network ?m s] => destruct (over_network_cases m s) as (s1 & Hs1 & Hcase) end.
  destruct (same_network_keeps n s s1 Hs1 Hinv) as (Hinv1 & Hsame & Hh). cbn [snd] in Hcase.
  destruct Hcase as [->|(e & [->| ->])]; cbn [fst snd]; [|by split_and!..].
  destruct (ResolveBridgeSessionView _ _ _ _) as [view|e] eqn:Hview; cbn [ret]; split_and!; try done.
  intros st [= <-]. cbn [StatusText]. rewrite <- Hsame. unfold net_status. by rewrite Hview.
Qed.
Next Obligation.
  intros n s route channel Hinv. cbn [AutoDelivery.Flush networked_services]. unfold net_Flush. rewrite bind_run. cbn [lift fst snd].
  destruct (flush_command _ _ _); [|done]. destruct (flushResults s) as [|[output exit] rest]; [done|].
  by apply same_network_keeps.
Qed.
Next Obligation.
  intros n s i Hinv Hin. cbn [AutoDelivery.InitiateTransfer networked_services].
  destruct (initiate_network n i s Hinv Hin) as (l & Hl & Hinv' & Hfwd & Hstored & Hdone).
  destruct (net_InitiateTransfer timeoutHeight i s) as [r s']. cbn [fst snd] in *.
  destruct Hinv as (_ & _ & Hwf). specialize (Hwf l Hl). unfold net_hashes in *. rewrite Hl in *. cbn [default from_option] in *.
  assert (Hput : forall intent, IntSourceTxHash intent = SourceTxHash i ->
    forall h, h ∈ map IntSourceTxHash (put_intent intent l) <-> h ∈ map IntSourceTxHash l).
  { intros intent Heq. apply put_intent_hashes; [done|by rewrite Heq]. }
  split_and!; [done|..].
  - destruct Hstored as [->|[->|(intent & Heq & _ & ->)]]; cbn [default from_option]; [done|set_solver|].
    intros h. by apply Hput.
  - intros h. apply not_processing_kept; [done|]. intros l' Hl'. exists l. split; [done|].
    destruct Hstored as [Hs|[Hs|(intent & Heq & Hsent & Hs)]]; rewrite Hs in Hl'; [injection Hl' as <-; by left|done|].
    injection Hl' as <-. pose proof (stored_hash_trimmed l _ Hwf Hin) as Htrim. rewrite <- Heq in Htrim.
    destruct (find_put_intent intent l h Htrim Hwf) as [Hfind|Hfind]; [right; by exists intent|by left].
  - intros t Ht. destruct (Hdone t Ht) as (intent & Heq & Hsent & Hs). split.
    + intros (Hh & claim & l' & _ & Hl' & Hnone)%net_processing. rewrite Hs in Hl'. injection Hl' as <-.
      revert Hnone. apply (sent_for_found s' _ claim _ intent); [|done].
      pose proof (stored_hash_trimmed l _ Hwf Hin) as Htrim.
      apply find_intent_spec; [apply put_intent_wf; [by rewrite Heq|done]|]. split; [apply put_intent_in; [apply Hwf|by left]|].
      unfold hash_key. rewrite Heq. by rewrite !Htrim.
    + rewrite Hs. cbn [default from_option]. intros h Hhin. by apply Hput.
Qed.
End network_laws.

(** ** Concrete runs *)

#[local] Existing Instance toy_crypto.
#[local] Existing Instance toy_codec.
#[local] Existing Instance ledger_sdk.

(** Two deposits of one recipient: the same asset and amount, and two intents
    for the same receiver. *)
Definition demo_sent (hash : string) (nonce : N) : DepositClaim :=
  let c := mk_identity ClaimKindDeposit "erc20" "11155111" "0xbridge" hash 3 nonce EmptyString in
  mk_claim (mk_identity ClaimKindDeposit "erc20" "11155111" "0xbridge" hash 3 nonce (DerivedMessageID c))
    "aegislink-1" "eth.usdc" (Some 400%Z) "cosmos1recipient" 500.
Definition demo_sent_tx (hash : string) (nonce : N) : tx_bytes :=
  TxJSON (mk_tx "queue_deposit_claim"
    (Some (mk_submission (claim_payload (demo_sent hash nonce)) (demo_attested (demo_sent hash nonce)))) None None None).

(** A route whose policy lets the memo of the coordinator through. *)
Definition demo_wallet_profile : RouteProfile :=
  mk_profile "osmosis-public-wallet" "osmosis-1" "channel-1" true [mk_asset_route "eth.usdc" "ibc/uethusdc"]
    (mk_policy ["swap:"; "stake:"; "bridge:"]%string ["swap"; "stake"; "bridge"]%string).
Definition demo_wallet_app : App :=
  set_router (IBCRouter.exec (RSetRouteProfile demo_wallet_profile) IBCRouter.NewKeeper) App.demo_app.
Definition demo_wallet_node : ABCIApplication Ledger := mk_node demo_wallet_app (Some demo_ledger) NoHash false false.
Definition demo_bridged_node : ABCIApplication Ledger :=
  exec_nodes [NodeBlock (mk_block 101 [demo_sent_tx "0xaaaa" 21; demo_sent_tx "0xbbbb" 22]); NodeCommit] demo_wallet_node.

Definition demo_delivery (hash receiver : string) : DeliveryIntent :=
  mk_intent hash "cosmos1recipient" "osmosis-public-wallet" "eth.usdc" "400" receiver EmptyString EmptyString.
Definition demo_flusher : RlyFlusher := mk_flusher EmptyString ∅ "live-osmo" "/relayer".
Definition demo_network (intents : list DeliveryIntent) (requests : list request) : Networked Ledger :=
  mk_net demo_bridged_node (mk_intents (IntentsDoc intents) []) requests [].

#[local] Instance demo_services : DeliveryServices (Networked Ledger) := networked_services None 700 demo_flusher.

#[local] Instance demo_services_laws : DeliveryLaws (Networked Ledger) := networked_laws None 700 demo_flusher.

Lemma demo_network_inv n intents requests : intents_wf intents -> (N.of_nat n < 1000)%N ->
  inv n (demo_network intents requests).
Proof.
  intros Hwf Hn. cbn [inv demo_services_laws networked_laws]. unfold net_inv. cbn [demo_network netNode netIntents].
  assert (Hnone : transfers (IBCRouterKeeper (Node.app demo_bridged_node)) = ∅) by (by vm_compute).
  assert (Hnext : nextSequence (IBCRouterKeeper (Node.app demo_bridged_node)) = 1%N) by (by vm_compute).
  split_and!.
  - unfold IBCRouter.wf. rewrite Hnone. apply map_Forall_empty.
  - rewrite Hnext. unfold two64. lia.
  - by intros l [= <-].
Qed.

Lemma demo_intents_wf a b : intents_wf [demo_delivery "0xaaaa" a; demo_delivery "0xbbbb" b].
Proof. split; [apply (bool_decide_unpack _); by vm_compute|]. repeat constructor. Qed.

(** Two deposits with a receiver each: both are sent on by the first run. *)
Definition demo_first := RunOnce (demo_network [demo_delivery "0xaaaa" "osmo1user"; demo_delivery "0xbbbb" "osmo1other"] []).
Definition demo_second := RunOnce (fst (snd demo_first)).


(** A transfer whose answer was lost is found by what it carries. *)
Example lost_answer :
  let run1 := RunOnce (demo_network [demo_delivery "0xaaaa" "osmo1user"] [Answered; Answered; ReplyLost (Errorf "EOF")]) in
  let run2 := RunOnce (fst (snd run1)) in
  fst run1 = Err (Errorf "EOF") /\ fst run2 = Ok tt /\
  TransfersInitiated (snd (snd run2)) = 0 /\ FlushesTriggered (snd (snd run2)) = 1.
Proof. by vm_compute. Qed.

(** Two deposits of the same asset and amount for one receiver: the transfer of
    the first is taken for the second's, which is never sent on. *)
Example second_deposit_not_delivered :
  let run := RunOnce (demo_network [demo_delivery "0xaaaa" "osmo1user"; demo_delivery "0xbbbb" "osmo1user"] []) in
  fst run = Ok tt /\ TransfersInitiated (snd (snd run)) = 1 /\ FlushesTriggered (snd (snd run)) = 2 /\
  size (transfers (IBCRouterKeeper (Node.app (netNode (fst (snd run)))))) = 1.
Proof. by vm_compute. Qed.
