(* ===== verification/Replay.v ===== *)
(** [relayer/internal/replay]: the relayer's durable record of what it has
    already processed, and of how far it has read (store.go). *)

From S2P Require Import Prelude.
From S2P Require Import GoStrings.
From S2P Require Import Errors.
From stdpp Require Import strings.

Record persistedState := mk_persisted {
  Checkpoints : gmap string N;
  Processed : list string
}.

(** The file at [path]: the JSON document is kept as the value it encodes. *)
Inductive file :=
| Absent
| Document (st : persistedState)
| Undecodable.

(** [disk] is the file; [faults] are the outcomes the operating system gives to
    the next saves, a save being one atomic rename of a temporary file; when it
    runs out every save succeeds. *)
Record Store := mk_store {
  path : string;
  checkpoints : gmap string N;       (* map[string]uint64 *)
  processed : gset string;
  loadErr : option error;
  disk : file;
  faults : list (option error)
}.

Definition upd_checkpoints f (s : Store) :=
  mk_store (path s) (f (checkpoints s)) (processed s) (loadErr s) (disk s) (faults s).
Definition upd_processed f (s : Store) :=
  mk_store (path s) (checkpoints s) (f (processed s)) (loadErr s) (disk s) (faults s).
Definition upd_loadErr f (s : Store) :=
  mk_store (path s) (checkpoints s) (processed s) (f (loadErr s)) (disk s) (faults s).
Definition upd_disk f (s : Store) :=
  mk_store (path s) (checkpoints s) (processed s) (loadErr s) (f (disk s)) (faults s).
Definition upd_faults f (s : Store) :=
  mk_store (path s) (checkpoints s) (processed s) (loadErr s) (disk s) (f (faults s)).

Section ops.
Context `{MapIteration}.

Definition NewStore : Store := mk_store EmptyString ∅ ∅ None Absent [].

Definition load_document (st : persistedState) (s : Store) : Store :=
  let s := upd_checkpoints (fun m => foldl (fun m e => <[e.1 := e.2]> m) m (range (Checkpoints st))) s in
  upd_processed (fun p => foldl (fun p key => {[ key ]} ∪ p) p (Processed st)) s.

(** [load]; the store is left as it was on an error. *)
Definition load : Op Store unit := fun s =>
  if decide (path s = EmptyString) then (Ok tt, s)
  else match disk s with
       | Absent => (Ok tt, s)
       | Undecodable => (Err (Prefixed "decode replay state" (Errorf "invalid character")), s)
       | Document st => (Ok tt, load_document st s)
       end.

(** [NewStoreAt] panics on an empty path. *)
Definition NewStoreAt (p : string) (d : file) (fs : list (option error)) : result Store :=
  if decide (p = EmptyString) then Err (Panic "replay.NewStoreAt: path must be a non-empty persistent file path")
  else
    let '(r, s) := load (mk_store p ∅ ∅ None d fs) in
    Ok (upd_loadErr (fun _ => match r with Ok _ => None | Err e => Some e end) s).

Definition Checkpoint (s : Store) (key : string) : N := default 0%N (checkpoints s !! key).
Definition IsProcessed (s : Store) (key : string) : bool := bool_decide (key ∈ processed s).
Definition store_Err (s : Store) : option error := loadErr s.

(** The document [persistLocked] writes: maps are encoded entry by entry. *)
Definition snapshot (s : Store) : persistedState :=
  mk_persisted (list_to_map (range (checkpoints s))) (elements (processed s)).

Definition persistLocked : Op Store unit := fun s =>
  if decide (path s = EmptyString) then (Ok tt, s)
  else match faults s with
       | Some e :: rest => (Err e, upd_faults (fun _ => rest) s)
       | None :: rest => (Ok tt, upd_faults (fun _ => rest) (upd_disk (fun _ => Document (snapshot s)) s))
       | [] => (Ok tt, upd_disk (fun _ => Document (snapshot s)) s)
       end.

Definition available : Op Store unit :=
  query (fun s => match loadErr s with
                  | Some e => Err (Prefixed "replay store unavailable" e)
                  | None => Ok tt
                  end).

Definition SaveCheckpoint (key : string) (value : N) : Op Store unit :=
  available ;;; modify (upd_checkpoints <[key := value]>) ;;; persistLocked.

Definition MarkProcessed (key : string) : Op Store unit :=
  available ;;; modify (upd_processed (fun p => {[ key ]} ∪ p)) ;;; persistLocked.
End ops.

(** ** What the store remembers *)

(** The disk holds exactly what the memory does. *)
Definition synced (s : Store) : Prop :=
  match disk s with
  | Document st => Checkpoints st = checkpoints s /\ list_to_set (Processed st) = processed s
  | _ => False
  end.

(** The two things a client can ask of a store. *)
Definition same_memory (s t : Store) : Prop :=
  checkpoints s = checkpoints t /\ processed s = processed t.

(** The memory of the file: what a store reopened on it would hold. *)
Definition durable (s : Store) : gset string :=
  match disk s with Document st => list_to_set (Processed st) | _ => ∅ end.

Section theorems.
Context `{MapIteration}.

Lemma snapshot_exact s :
  Checkpoints (snapshot s) = checkpoints s /\ list_to_set (Processed (snapshot s)) = processed s.
Proof.
  split; cbn [snapshot Checkpoints Processed]; [|apply list_to_set_elements_L].
  rewrite (list_to_map_proper (range (checkpoints s)) (map_to_list (checkpoints s))).
  - apply list_to_map_to_list.
  - rewrite range_perm. apply NoDup_fst_map_to_list.
  - apply range_perm.
Qed.

Lemma foldl_insert_range (m acc : gmap string N) (l : list (string * N)) :
  l ≡ₚ map_to_list m -> foldl (fun m e => <[e.1 := e.2]> m) acc l = m ∪ acc.
Proof.
  intros Hl. apply map_eq. intros k.
  assert (Hgen : forall (l : list (string * N)) (acc : gmap string N), NoDup l.*1 ->
    foldl (fun m e => <[e.1 := e.2]> m) acc l !! k =
      match (list_to_map l : gmap string N) !! k with Some v => Some v | None => acc !! k end).
  { clear. induction l as [|[k' v] l IH]; intros acc Hnd; cbn [foldl].
    { change (list_to_map []) with (∅ : gmap string N). by rewrite lookup_empty. }
    apply NoDup_cons in Hnd as [Hk Hnd]. rewrite IH by done. cbn [list_to_map foldr fst snd].
    destruct (decide (k = k')) as [->|Hne].
    - rewrite (not_elem_of_list_to_map_1 (M:=gmap string) l k') by done. by rewrite !lookup_insert_eq.
    - rewrite !lookup_insert_ne by done. done. }
  rewrite Hgen by (rewrite Hl; apply NoDup_fst_map_to_list).
  rewrite (list_to_map_proper l (map_to_list m)), list_to_map_to_list.
  - rewrite lookup_union. by destruct (m !! k), (acc !! k).
  - rewrite Hl. apply NoDup_fst_map_to_list.
  - done.
Qed.

Lemma foldl_add_set (l : list string) (acc : gset string) :
  foldl (fun p key => {[ key ]} ∪ p) acc l = list_to_set l ∪ acc.
Proof.
  revert acc. induction l as [|x l IH]; intros acc; cbn [foldl list_to_set]; [set_solver|].
  rewrite IH. set_solver.
Qed.

Lemma persistLocked_memory s : same_memory (snd (persistLocked s)) s.
Proof.
  unfold persistLocked. case_decide; [done|]. destruct (faults s) as [|[e|] fs]; done.
Qed.

Lemma persistLocked_synced s s' :
  path s <> EmptyString -> persistLocked s = (Ok tt, s') -> synced s'.
Proof.
  intros Hp. unfold persistLocked. rewrite decide_False by done.
  destruct (faults s) as [|[e|] fs]; intros [= <-]; exact (snapshot_exact s).
Qed.

Lemma load_fresh_document p st fs :
  p <> EmptyString ->
  NewStoreAt p (Document st) fs =
    Ok (mk_store p (Checkpoints st) (list_to_set (Processed st)) None (Document st) fs).
Proof.
  intros Hp. unfold NewStoreAt, load. rewrite decide_False by done. cbn [path disk].
  rewrite decide_False by done.
  unfold load_document, upd_processed, upd_checkpoints, upd_loadErr.
  cbn [path checkpoints processed loadErr disk faults].
  rewrite (foldl_insert_range (Checkpoints st)) by apply range_perm.
  rewrite foldl_add_set, (right_id_L ∅ (∪)), (right_id_L ∅ (∪)). done.
Qed.

(** The replay guard survives a restart. After a save that the operating
    system completed, reopening the file yields a store with exactly the same
    processed keys and checkpoints, whatever the order in which the maps were
    written; a save that failed leaves the file untouched. *)
Theorem replay_durable (s : Store) (key : string) (fs : list (option error)) :
  path s <> EmptyString ->
  match MarkProcessed key s with
  | (Ok _, s') => IsProcessed s' key = true /\
      exists s2, NewStoreAt (path s) (disk s') fs = Ok s2 /\ same_memory s2 s' /\ loadErr s2 = None
  | (Err e, s') => disk s' = disk s
  end.
Proof.
  intros Hp. unfold MarkProcessed, available, bind at 1, query.
  destruct (loadErr s) as [e|]; [done|]. unfold bind, modify.
  set (s1 := upd_processed _ s).
  destruct (persistLocked s1) as [[[]|e] s2] eqn:Hrun.
  - pose proof (persistLocked_memory s1) as [Hc Hpr]. rewrite Hrun in Hc, Hpr. cbn [snd] in *.
    split. { unfold IsProcessed. rewrite Hpr. apply bool_decide_eq_true. unfold s1. cbn. set_solver. }
    apply persistLocked_synced in Hrun; [|done]. unfold synced in Hrun.
    destruct (disk s2) as [|st|]; [done| |done]. destruct Hrun as [Hst Hsp].
    rewrite load_fresh_document by done. by eexists.
  - unfold persistLocked in Hrun. case_decide; [done|].
    destruct (faults s1) as [|[e'|] fs']; try discriminate Hrun. by injection Hrun as _ <-.
Qed.

(** A store whose file could not be read never claims anything: it refuses
    every update, and leaves the file alone. *)
Theorem replay_unavailable (s : Store) (key : string) (value : N) (e : error) :
  loadErr s = Some e ->
  MarkProcessed key s = (Err (Prefixed "replay store unavailable" e), s) /\
  SaveCheckpoint key value s = (Err (Prefixed "replay store unavailable" e), s).
Proof.
  intros He. unfold MarkProcessed, SaveCheckpoint, available, bind, query. by rewrite He.
Qed.

(** Updates only ever add to the processed keys. *)
Lemma MarkProcessed_run s key :
  loadErr s = None ->
  MarkProcessed key s = persistLocked (upd_processed (fun p => {[ key ]} ∪ p) s).
Proof. intros He. unfold MarkProcessed, available, bind, query, modify. by rewrite He. Qed.

Lemma SaveCheckpoint_run s key value :
  loadErr s = None ->
  SaveCheckpoint key value s = persistLocked (upd_checkpoints <[key := value]> s).
Proof. intros He. unfold SaveCheckpoint, available, bind, query, modify. by rewrite He. Qed.

Lemma persistLocked_loadErr s : loadErr (snd (persistLocked s)) = loadErr s.
Proof.
  unfold persistLocked. case_decide; [done|]. by destruct (faults s) as [|[e|] fs].
Qed.
End theorems.

(** A store that was not loaded refuses an update; this leaves the case of one
    that was. *)
Ltac update_cases s :=
  let He := fresh "He" in
  destruct (loadErr s) eqn:He;
  [unfold MarkProcessed, SaveCheckpoint, available, bind, query; by rewrite He|].

(** ** What memory and file both satisfy *)

Section held.
Context `{MapIteration} (P : gset string -> gmap string N -> Prop).

(** [P] is true of the memory, and of what the file would restore. *)
Definition held (s : Store) : Prop :=
  P (processed s) (checkpoints s) /\
  forall st, disk s = Document st -> P (list_to_set (Processed st)) (Checkpoints st).

Lemma persistLocked_held s : held s -> held (snd (persistLocked s)).
Proof.
  intros [Hm Hd]. destruct (snapshot_exact s) as [Hc Hp].
  unfold persistLocked. case_decide; [done|].
  destruct (faults s) as [|[e|] fs]; (split; [done|]); cbn [snd disk upd_disk upd_faults]; try done;
    intros st [= <-]; by rewrite Hp, Hc.
Qed.

Lemma MarkProcessed_held key s :
  held s -> P ({[ key ]} ∪ processed s) (checkpoints s) -> held (snd (MarkProcessed key s)).
Proof.
  intros [Hm Hd] Hk. update_cases s. rewrite MarkProcessed_run by done. by apply persistLocked_held.
Qed.

Lemma SaveCheckpoint_held key value s :
  held s -> P (processed s) (<[key := value]> (checkpoints s)) -> held (snd (SaveCheckpoint key value s)).
Proof.
  intros [Hm Hd] Hk. update_cases s. rewrite SaveCheckpoint_run by done. by apply persistLocked_held.
Qed.
End held.

(** A restart: a new store on the same file. *)
Definition reopen `{MapIteration} (fs : list (option error)) (s : Store) : Store :=
  match NewStoreAt (path s) (disk s) fs with Ok t => t | Err _ => s end.

Section reopen.
Context `{MapIteration}.

Lemma reopen_cases fs s :
  path s <> EmptyString ->
  match disk s with
  | Document st => reopen fs s = mk_store (path s) (Checkpoints st) (list_to_set (Processed st)) None (disk s) fs
  | Absent => reopen fs s = mk_store (path s) ∅ ∅ None Absent fs
  | Undecodable => exists e, reopen fs s = mk_store (path s) ∅ ∅ (Some e) Undecodable fs
  end.
Proof.
  intros Hp. unfold reopen. destruct (disk s) as [|st|] eqn:Hd.
  - unfold NewStoreAt, load. cbn [path disk]. by rewrite !decide_False by done.
  - by rewrite load_fresh_document by done.
  - unfold NewStoreAt, load. cbn [path disk]. rewrite !decide_False by done. by eexists.
Qed.

Lemma reopen_held (P : gset string -> gmap string N -> Prop) fs s :
  path s <> EmptyString -> P ∅ ∅ -> held P s -> held P (reopen fs s).
Proof.
  intros Hp Hempty [_ Hd]. pose proof (reopen_cases fs s Hp) as Hr.
  destruct (disk s) as [|st|] eqn:Heq.
  - rewrite Hr. by split.
  - rewrite Hr. split; [by apply Hd|]. cbn [disk]. intros st' [= <-]. by apply Hd.
  - destruct Hr as [e ->]. by split.
Qed.

Lemma reopen_path fs s : path s <> EmptyString -> path (reopen fs s) = path s.
Proof.
  intros Hp. pose proof (reopen_cases fs s Hp) as Hr.
  destruct (disk s); [by rewrite Hr| by rewrite Hr|by destruct Hr as [e ->]].
Qed.
End reopen.

Lemma MarkProcessed_grows `{MapIteration} key s : processed s ⊆ processed (snd (MarkProcessed key s)).
Proof.
  update_cases s. rewrite MarkProcessed_run by done. rewrite (proj2 (persistLocked_memory _)). cbn. set_solver.
Qed.

Lemma SaveCheckpoint_processed `{MapIteration} key value s :
  processed (snd (SaveCheckpoint key value s)) = processed s.
Proof.
  update_cases s. rewrite SaveCheckpoint_run by done. by rewrite (proj2 (persistLocked_memory _)).
Qed.

Lemma MarkProcessed_marks `{MapIteration} key s :
  is_ok (fst (MarkProcessed key s)) = true -> key ∈ processed (snd (MarkProcessed key s)).
Proof.
  update_cases s. rewrite MarkProcessed_run by done. intros _. rewrite (proj2 (persistLocked_memory _)). cbn. set_solver.
Qed.

Lemma persistLocked_path `{MapIteration} s : path (snd (persistLocked s)) = path s.
Proof. unfold persistLocked. case_decide; [done|]. by destruct (faults s) as [|[e|] fs]. Qed.

Lemma MarkProcessed_path `{MapIteration} key s : path (snd (MarkProcessed key s)) = path s.
Proof.
  update_cases s. rewrite MarkProcessed_run by done. by rewrite persistLocked_path.
Qed.

Lemma SaveCheckpoint_path `{MapIteration} key value s : path (snd (SaveCheckpoint key value s)) = path s.
Proof.
  update_cases s. rewrite SaveCheckpoint_run by done. by rewrite persistLocked_path.
Qed.

Lemma MarkProcessed_checkpoints `{MapIteration} key s : checkpoints (snd (MarkProcessed key s)) = checkpoints s.
Proof. update_cases s. rewrite MarkProcessed_run by done. by rewrite (proj1 (persistLocked_memory _)). Qed.

Lemma SaveCheckpoint_checkpoint `{MapIteration} key value s t :
  SaveCheckpoint key value s = (Ok tt, t) ->
  Checkpoint t key = value /\ forall key', key' <> key -> Checkpoint t key' = Checkpoint s key'.
Proof.
  intros Hrun. destruct (loadErr s) as [e|] eqn:He.
  { unfold SaveCheckpoint, available, bind, query in Hrun. by rewrite He in Hrun. }
  rewrite SaveCheckpoint_run in Hrun by done.
  pose proof (proj1 (persistLocked_memory (upd_checkpoints <[key := value]> s))) as Hc.
  rewrite Hrun in Hc. cbn [snd upd_checkpoints checkpoints] in Hc. unfold Checkpoint. rewrite Hc. split.
  - by rewrite lookup_insert_eq.
  - intros key' Hne. by rewrite lookup_insert_ne.
Qed.

(** When no save fails, the file is never behind the memory. *)
Lemma persistLocked_durable `{MapIteration} s :
  path s <> EmptyString -> Forall (eq None) (faults s) ->
  durable (snd (persistLocked s)) = processed s /\ Forall (eq None) (faults (snd (persistLocked s))) /\
  fst (persistLocked s) = Ok tt.
Proof.
  intros Hp Hf. destruct (snapshot_exact s) as [_ Hs]. unfold persistLocked. rewrite decide_False by done.
  destruct (faults s) as [|[e|] fs] eqn:Hfs.
  - by split_and!; cbn [snd durable disk upd_disk faults]; [|rewrite Hfs|].
  - apply Forall_cons in Hf as [[=] _].
  - apply Forall_cons in Hf as [_ Hf]. by split_and!.
Qed.

Example replay_durable_witness :
  let s := mk_store "/var/replay.json" ∅ {[ "k1"%string ]} None Absent [] in
  exists s2, NewStoreAt "/var/replay.json" (disk (snd (MarkProcessed "k2" s))) [] = Ok s2 /\
    same_memory s2 (snd (MarkProcessed "k2" s)).
Proof.
  pose proof (replay_durable (mk_store "/var/replay.json" ∅ {[ "k1"%string ]} None Absent [])
    "k2" [] ltac:(discriminate)) as Hd.
  cbv zeta. destruct (MarkProcessed "k2" _) as [[[]|e] s'] eqn:Hrun.
  - destruct Hd as (_ & s2 & Hnew & Hsame & _). exists s2. exact (conj Hnew Hsame).
  - vm_compute in Hrun. discriminate Hrun.
Defined.

Example replay_unavailable_witness :
  MarkProcessed "k" (mk_store "p" ∅ ∅ (Some (Errorf "bad")) Undecodable []) =
    (Err (Prefixed "replay store unavailable" (Errorf "bad")),
     mk_store "p" ∅ ∅ (Some (Errorf "bad")) Undecodable []).
Proof.
  apply (replay_unavailable (mk_store "p" ∅ ∅ (Some (Errorf "bad")) Undecodable []) "k" 0 (Errorf "bad")).
  reflexivity.
Defined.
