(* ===== verification/Watchers.v ===== *)
(** [relayer/internal/evm] and [relayer/internal/cosmos]: the events the
    relayers observe, the claims and release requests they become, the checks
    of the two outgoing clients, and the watchers that read finalised blocks
    (client.go and watcher.go of both packages). *)

From S2P Require Import Prelude.
From S2P Require Import GoStrings.
From S2P Require Import Errors.
From S2P Require Import BridgeTypes.
From stdpp Require Import strings.

(** ** Deposit events *)

Record DepositEvent := mk_event {
  BlockNumber : N;              (* uint64 *)
  EvSourceChainID : string;
  EvSourceContract : string;
  TxHash : string;
  LogIndex : N;                 (* uint64 *)
  EvNonce : N;                  (* uint64 *)
  DepositID : string;
  EvMessageID : string;
  EvSourceAssetKind : string;
  EvAssetAddress : string;
  EvAssetID : string;
  EvAmount : option Z;
  EvRecipient : string;
  Expiry : N                    (* uint64 *)
}.

Definition isZeroHexAddress (value : string) : bool :=
  EqualFold (TrimSpace value) "0x0000000000000000000000000000000000000000".

Definition event_ReplayKey (e : DepositEvent) : string :=
  ReplayKey ClaimKindDeposit (EvSourceAssetKind e) (EvSourceChainID e) (EvSourceContract e)
    (TxHash e) (LogIndex e) (EvNonce e).

Definition event_Claim (e : DepositEvent) (destinationChainID : string) : DepositClaim :=
  let sourceAssetKind :=
    if decide (EvSourceAssetKind e = EmptyString)
    then if isZeroHexAddress (EvAssetAddress e) then SourceAssetKindNativeETH else SourceAssetKindERC20
    else EvSourceAssetKind e in
  let identity msg := mk_identity ClaimKindDeposit sourceAssetKind (EvSourceChainID e)
    (EvSourceContract e) (TxHash e) (LogIndex e) (EvNonce e) msg in
  mk_claim (identity (DerivedMessageID (identity EmptyString))) destinationChainID (EvAssetID e)
    (EvAmount e) (EvRecipient e) (Expiry e).

(** ** Release requests *)

Record ReleaseRequest := mk_release {
  RelMessageID : string;
  RelAssetAddress : string;
  RelAmount : option Z;
  RelRecipient : string;
  RelDeadline : N;              (* uint64 *)
  RelSignature : string         (* bytes *)
}.

Definition release_checks (r : ReleaseRequest) : list (bool * error) := [
  (blank (RelMessageID r), Errorf "missing message id");
  (blank (RelAssetAddress r), Errorf "missing asset address");
  (negb (amount_positive (RelAmount r)), Errorf "amount must be positive");
  (blank (RelRecipient r), Errorf "missing recipient");
  (isZeroHexAddress (RelRecipient r), Errorf "recipient must not be the zero address");
  (N.eqb (RelDeadline r) 0, Errorf "missing deadline");
  (eqs (RelSignature r) EmptyString, Errorf "missing signature")
].

Definition release_Validate (r : ReleaseRequest) : result unit := first_error (release_checks r).

(** [Releaser.ReleaseWithdrawal]: [ctx] is the context's error, [target] the
    release target, absent when it is nil. *)
Definition ReleaseWithdrawal (ctx : option error) (target : option (ReleaseRequest -> result string))
    (request : ReleaseRequest) : result string :=
  match ctx with
  | Some e => Err e
  | None =>
      match target with
      | None => Err (Sentinel ErrReleaseUnavailable)
      | Some release => let? _ := release_Validate request in release request
      end
  end.

(** ** Withdrawals *)

Record Withdrawal := mk_wd {
  WdHeight : N;                 (* uint64 *)
  WdIdentity : ClaimIdentity;
  WdAssetID : string;
  WdAssetAddress : string;
  WdAmount : option Z;
  WdRecipient : string;
  WdDeadline : N;               (* uint64 *)
  WdSignature : string          (* bytes *)
}.

Definition withdrawal_Validate (w : Withdrawal) : result unit :=
  let? _ := identity_ValidateBasic (WdIdentity w) in
  first_error [
    (negb (eqs (Kind (WdIdentity w)) ClaimKindWithdrawal),
      Errorf "withdrawal must use withdrawal claim identity");
    (blank (WdAssetID w), Errorf "missing asset id");
    (blank (WdAssetAddress w), Errorf "missing asset address");
    (negb (amount_positive (WdAmount w)), Errorf "amount must be positive");
    (blank (WdRecipient w), Errorf "missing recipient");
    (isZeroHexAddress (WdRecipient w), Errorf "recipient must not be the zero address");
    (N.eqb (WdDeadline w) 0, Errorf "missing deadline");
    (eqs (WdSignature w) EmptyString, Errorf "missing signature")
  ].

Definition withdrawal_ReplayKey (w : Withdrawal) : string := identity_ReplayKey (WdIdentity w).

Definition withdrawal_ReleaseRequest (w : Withdrawal) : ReleaseRequest :=
  mk_release (MessageID (WdIdentity w)) (WdAssetAddress w) (WdAmount w) (WdRecipient w)
    (WdDeadline w) (WdSignature w).

(** [Submitter.SubmitDepositClaim]. *)
Definition SubmitDepositClaim (ctx : option error)
    (sink : option (DepositClaim -> Attestation -> result unit))
    (claim : DepositClaim) (attestation : Attestation) : result unit :=
  match ctx with
  | Some e => Err e
  | None =>
      match sink with
      | None => Err (Sentinel ErrSubmitterUnavailable)
      | Some submit =>
          let? _ := deposit_ValidateBasic claim in
          let? _ := attestation_ValidateBasic attestation in
          let? _ := first_error [
            (negb (eqs (AttMessageID attestation) (MessageID (Identity claim))),
              Errorf "attestation message id mismatch");
            (negb (eqs (PayloadHash attestation) (Digest claim)),
              Errorf "attestation payload hash mismatch")
          ] in
          submit claim attestation
      end
  end.

(** ** Watchers *)

(** [sort.SliceStable] as a stable insertion sort. *)
Fixpoint insert_stable {A} (less : A -> A -> bool) (x : A) (l : list A) : list A :=
  match l with
  | [] => [x]
  | y :: rest => if less y x then y :: insert_stable less x rest else x :: l
  end.
Definition SliceStable {A} (less : A -> A -> bool) (l : list A) : list A :=
  foldr (insert_stable less) [] l.

Definition string_ltb (a b : string) : bool := String.ltb a b.

Definition event_less (a b : DepositEvent) : bool :=
  if negb (N.eqb (BlockNumber a) (BlockNumber b)) then (BlockNumber a <? BlockNumber b)%N
  else if negb (N.eqb (LogIndex a) (LogIndex b)) then (LogIndex a <? LogIndex b)%N
  else string_ltb (TxHash a) (TxHash b).

Definition withdrawal_less (a b : Withdrawal) : bool :=
  if negb (N.eqb (WdHeight a) (WdHeight b)) then (WdHeight a <? WdHeight b)%N
  else if negb (N.eqb (SourceLogIndex (WdIdentity a)) (SourceLogIndex (WdIdentity b)))
  then (SourceLogIndex (WdIdentity a) <? SourceLogIndex (WdIdentity b))%N
  else string_ltb (SourceTxHash (WdIdentity a)) (SourceTxHash (WdIdentity b)).

(** A chain to read from: the height of its tip and the entries of a range of
    heights. *)
Record Source (A : Type) := mk_source {
  Latest : result N;
  Entries : N -> N -> result (list A)
}.
Arguments mk_source {A} _ _.
Arguments Latest {A} _.
Arguments Entries {A} _ _ _.

(** The body the two watchers share; the cursor is returned on errors too. *)
Definition Observe {A} (unavailable : error) (less : A -> A -> bool) (ctx : option error)
    (source : option (Source A)) (confirmations fromBlock : N) : result (list A) * N :=
  match ctx with
  | Some e => (Err e, fromBlock)
  | None =>
      match source with
      | None => (Err unavailable, fromBlock)
      | Some src =>
          match Latest src with
          | Err e => (Err e, fromBlock)
          | Ok latest =>
              if (latest <? confirmations)%N then (Ok [], fromBlock)
              else
                let finalizedTip := (latest - confirmations)%N in
                if (finalizedTip <? fromBlock)%N then (Ok [], fromBlock)
                else match Entries src fromBlock finalizedTip with
                     | Err e => (Err e, fromBlock)
                     | Ok events =>
                         let events := SliceStable less events in
                         if N.eqb finalizedTip max_uint64 then (Ok events, finalizedTip)
                         else (Ok events, u64_incr finalizedTip)
                     end
          end
      end
  end.

Definition ObserveDeposits := Observe (Sentinel ErrEVMSourceUnavailable) event_less.
Definition ObserveWithdrawals := Observe (Sentinel ErrCosmosSourceUnavailable) withdrawal_less.

(** ** Sorting *)

Section sorting.
Context {A : Type} (less : A -> A -> bool).
Definition not_after (a b : A) : Prop := less b a = false.
Context `{Htrans : Transitive A not_after}.
Hypothesis less_asym : forall a b, less a b = true -> less b a = false.

Lemma insert_stable_perm x l : insert_stable less x l ≡ₚ x :: l.
Proof.
  induction l as [|y l IH]; cbn [insert_stable]; [done|].
  destruct (less y x); [|done]. rewrite IH. apply Permutation_swap.
Qed.

Lemma SliceStable_perm l : SliceStable less l ≡ₚ l.
Proof.
  induction l as [|x l IH]; cbn [SliceStable foldr]; [done|].
  rewrite insert_stable_perm. by apply Permutation_skip.
Qed.

Lemma insert_stable_sorted x l :
  StronglySorted not_after l -> StronglySorted not_after (insert_stable less x l).
Proof.
  induction 1 as [|y l Hl IH Hy]; cbn [insert_stable]; [repeat constructor|].
  destruct (less y x) eqn:Hless.
  - constructor; [done|]. rewrite insert_stable_perm. constructor; [|done].
    by apply less_asym.
  - constructor; [by constructor|]. constructor; [done|].
    eapply Forall_impl; [exact Hy|]. intros z Hz. by apply (Htrans x y z).
Qed.

Lemma SliceStable_sorted l : StronglySorted not_after (SliceStable less l).
Proof. induction l; cbn [SliceStable foldr]; [constructor|by apply insert_stable_sorted]. Qed.
End sorting.

Lemma string_not_ltb a b : string_ltb b a = false <-> String.le a b.
Proof.
  unfold string_ltb, String.le, String.ltb, String.leb.
  rewrite (String.compare_antisym a b). by destruct (String.compare b a).
Qed.

Lemma string_ltb_asym a b : string_ltb a b = true -> string_ltb b a = false.
Proof.
  unfold string_ltb, String.ltb. rewrite (String.compare_antisym b a).
  by destruct (String.compare a b).
Qed.

(** Lexicographic comparison on two numbers and a string. *)
Definition triple_less (a b : N * N * string) : bool :=
  if negb (N.eqb a.1.1 b.1.1) then (a.1.1 <? b.1.1)%N
  else if negb (N.eqb a.1.2 b.1.2) then (a.1.2 <? b.1.2)%N
  else string_ltb a.2 b.2.

Lemma triple_not_less a b :
  triple_less b a = false <->
  (a.1.1 < b.1.1)%N \/ (a.1.1 = b.1.1 /\ ((a.1.2 < b.1.2)%N \/ (a.1.2 = b.1.2 /\ String.le a.2 b.2))).
Proof.
  unfold triple_less.
  destruct (N.eqb_spec b.1.1 a.1.1) as [H1|H1]; cbn [negb]; [|rewrite N.ltb_ge; lia].
  destruct (N.eqb_spec b.1.2 a.1.2) as [H2|H2]; cbn [negb]; [|rewrite N.ltb_ge; lia].
  rewrite string_not_ltb. split; [intros; right; split; [done|]; right; by split|].
  intros [?|[_ [?|[_ ?]]]]; [lia|lia|done].
Qed.

#[global] Instance triple_trans : Transitive (not_after triple_less).
Proof.
  intros a b c. unfold not_after. rewrite !triple_not_less.
  intros [?|[? [?|[? Hab]]]] [?|[? [?|[? Hbc]]]]; try lia;
    (right; split; [lia|]); try (left; lia). right. split; [lia|]. by etrans.
Qed.

Lemma triple_asym a b : triple_less a b = true -> triple_less b a = false.
Proof.
  unfold triple_less. rewrite (N.eqb_sym b.1.1), (N.eqb_sym b.1.2).
  destruct (N.eqb a.1.1 b.1.1); cbn [negb]; [|rewrite N.ltb_lt, N.ltb_ge; lia].
  destruct (N.eqb a.1.2 b.1.2); cbn [negb]; [|rewrite N.ltb_lt, N.ltb_ge; lia].
  apply string_ltb_asym.
Qed.

Definition event_key (e : DepositEvent) : N * N * string := (BlockNumber e, LogIndex e, TxHash e).

Lemma event_less_key a b : event_less a b = triple_less (event_key a) (event_key b).
Proof. reflexivity. Qed.

#[global] Instance event_trans : Transitive (not_after event_less).
Proof. intros a b c. exact (triple_trans (event_key a) (event_key b) (event_key c)). Qed.

Lemma event_asym a b : event_less a b = true -> event_less b a = false.
Proof. exact (triple_asym (event_key a) (event_key b)). Qed.

Lemma event_sorted_blocks a b : not_after event_less a b -> (BlockNumber a <= BlockNumber b)%N.
Proof. unfold not_after. rewrite event_less_key, triple_not_less. cbn. lia. Qed.

Definition withdrawal_key (w : Withdrawal) : N * N * string :=
  (WdHeight w, SourceLogIndex (WdIdentity w), SourceTxHash (WdIdentity w)).

Lemma withdrawal_less_key a b : withdrawal_less a b = triple_less (withdrawal_key a) (withdrawal_key b).
Proof. reflexivity. Qed.

#[global] Instance withdrawal_trans : Transitive (not_after withdrawal_less).
Proof. intros a b c. exact (triple_trans (withdrawal_key a) (withdrawal_key b) (withdrawal_key c)). Qed.

Lemma withdrawal_asym a b : withdrawal_less a b = true -> withdrawal_less b a = false.
Proof. exact (triple_asym (withdrawal_key a) (withdrawal_key b)). Qed.

Lemma withdrawal_sorted_heights a b : not_after withdrawal_less a b -> (WdHeight a <= WdHeight b)%N.
Proof. unfold not_after. rewrite withdrawal_less_key, triple_not_less. cbn. lia. Qed.

(** ** Polling *)

Section polling.
Context {A : Type} (unavailable : error) (less : A -> A -> bool) (height : A -> N).
Context (confirmations : N) (log : list A).
Context `{Htrans : Transitive A (not_after less)}.
Hypothesis less_asym : forall a b, less a b = true -> less b a = false.
Hypothesis less_height : forall a b, not_after less a b -> (height a <= height b)%N.

Definition within (lo hi : N) : list A := filter (fun e => lo <= height e < hi)%N log.

(** A source that may fail, but whose answers about finalised heights — those
    at least [confirmations] below its tip — are the entries of the log, in
    any order. *)
Definition honest (src : Source A) : Prop :=
  forall latest a b es, Latest src = Ok latest -> (b + confirmations <= latest)%N ->
    Entries src a b = Ok es -> (latest < max_uint64)%N /\ es ≡ₚ within a (b + 1).

(** One poll: on an error nothing is consumed and the cursor stays. *)
Lemma Observe_honest ctx src cursor :
  (forall s, src = Some s -> honest s) ->
  match Observe unavailable less ctx src confirmations cursor with
  | (Err _, cursor') => cursor' = cursor
  | (Ok es, cursor') => (cursor <= cursor')%N /\ es ≡ₚ within cursor cursor' /\
      StronglySorted (not_after less) es
  end.
Proof.
  intros Hsrc. unfold Observe. destruct ctx as [e|]; [done|]. destruct src as [s|]; [|done].
  specialize (Hsrc s eq_refl). destruct (Latest s) as [latest|e] eqn:Hl; [|done].
  assert (Hnone : within cursor cursor = []).
  { unfold within. induction log as [|x l IH]; [done|]. rewrite filter_cons, decide_False by lia. done. }
  destruct (N.ltb_spec latest confirmations) as [|Hc].
  { split_and!; [lia|by rewrite Hnone|constructor]. }
  destruct (N.ltb_spec (latest - confirmations) cursor) as [|Hf].
  { split_and!; [lia|by rewrite Hnone|constructor]. }
  destruct (Entries s cursor (latest - confirmations)) as [es|e] eqn:He; [|done].
  destruct (Hsrc latest cursor (latest - confirmations)%N es Hl ltac:(lia) He) as [Hmax Hes].
  destruct (N.eqb_spec (latest - confirmations) max_uint64) as [|Hne]; [lia|].
  assert (Hincr : u64_incr (latest - confirmations) = (latest - confirmations + 1)%N).
  { unfold u64_incr, u64_add, u64. apply N.mod_small. unfold two64, max_uint64 in *. lia. }
  rewrite Hincr. split_and!; [lia| |by apply SliceStable_sorted].
  by rewrite SliceStable_perm.
Qed.

Fixpoint poll_all (polls : list (option error * option (Source A))) (cursor : N) : list A * N :=
  match polls with
  | [] => ([], cursor)
  | (ctx, src) :: rest =>
      let '(r, cursor') := Observe unavailable less ctx src confirmations cursor in
      let '(out, last) := poll_all rest cursor' in
      (match r with Ok es => es ++ out | Err _ => out end, last)
  end.

Lemma within_split lo mid hi :
  (lo <= mid <= hi)%N -> within lo hi ≡ₚ within lo mid ++ within mid hi.
Proof.
  intros Hle. unfold within. induction log as [|x l IH]; [done|]. rewrite !filter_cons.
  repeat case_decide; try lia; rewrite IH; first [done|by rewrite Permutation_middle].
Qed.

Lemma poll_all_covers polls cursor :
  (forall p s, p ∈ polls -> p.2 = Some s -> honest s) ->
  let '(out, last) := poll_all polls cursor in
  (cursor <= last)%N /\ out ≡ₚ within cursor last /\
  StronglySorted (fun a b => height a <= height b)%N out.
Proof.
  revert cursor. induction polls as [|[ctx src] polls IH]; intros cursor Hp; cbn [poll_all].
  { split_and!; [lia| |constructor]. unfold within.
    induction log as [|x l IHl]; [done|]. rewrite filter_cons, decide_False by lia. done. }
  pose proof (Observe_honest ctx src cursor
    (fun s Hs => Hp (ctx, src) s ltac:(left) Hs)) as Hobs.
  destruct (Observe _ _ _ _ _ _) as [r cursor'].
  specialize (IH cursor' (fun p s Hin => Hp p s ltac:(by right))).
  destruct (poll_all polls cursor') as [out last]. destruct IH as (Hle & Hout & Hsort).
  destruct r as [es|e]; [|by subst cursor'].
  destruct Hobs as (Hle' & Hes & Hses). split_and!; [lia| |].
  - rewrite (within_split cursor cursor' last) by lia. by rewrite Hes, Hout.
  - apply StronglySorted_app_2; [|clear -Hses less_height|done].
    + intros a b Ha Hb. rewrite Hes in Ha. rewrite Hout in Hb. unfold within in Ha, Hb.
      apply list_elem_of_filter in Ha as [Ha _]. apply list_elem_of_filter in Hb as [Hb _]. lia.
    + induction Hses as [|x l Hl IH Hx]; constructor; [done|].
      eapply Forall_impl; [exact Hx|]. auto.
Qed.
End polling.

(** ** Theorems *)

(** C19: no deposit is missed or seen twice. Whatever the polls of the deposit
    watcher meet — cancelled contexts, missing or failing sources, heads that
    are too young — as long as the answers about finalised blocks are the
    entries of one log, the events delivered between the first and the last
    cursor are exactly the log's events of those blocks, each once, by
    increasing block, and the cursor never moves back. *)
Theorem deposit_polls_cover (confirmations : N) (log : list DepositEvent)
    (polls : list (option error * option (Source DepositEvent))) (cursor : N) :
  (forall p s, p ∈ polls -> p.2 = Some s -> honest BlockNumber confirmations log s) ->
  let '(out, last) := poll_all (Sentinel ErrEVMSourceUnavailable) event_less confirmations polls cursor in
  (cursor <= last)%N /\ out ≡ₚ filter (fun e => cursor <= BlockNumber e < last)%N log /\
  StronglySorted (fun a b => BlockNumber a <= BlockNumber b)%N out.
Proof.
  intros Hp. apply (poll_all_covers _ _ BlockNumber confirmations log event_asym event_sorted_blocks).
  exact Hp.
Qed.

(** The deposits of one poll come in the order the relayer must submit them:
    sorted by block, then log index, then transaction hash, with nothing added
    or dropped; a poll that fails leaves the cursor where it was. *)
Theorem ObserveDeposits_spec (ctx : option error) (src : option (Source DepositEvent))
    (confirmations from : N) :
  match ObserveDeposits ctx src confirmations from with
  | (Err _, cursor) => cursor = from
  | (Ok es, cursor) =>
      exists s latest, src = Some s /\ Latest s = Ok latest /\
        ((es = [] /\ cursor = from /\ (latest < from + confirmations)%N) \/
         ((from + confirmations <= latest)%N /\
          (exists raw, Entries s from (latest - confirmations) = Ok raw /\ es ≡ₚ raw) /\
          StronglySorted (not_after event_less) es /\
          cursor = if N.eqb (latest - confirmations) max_uint64 then max_uint64
                   else u64_incr (latest - confirmations)))
  end.
Proof.
  unfold ObserveDeposits, Observe. destruct ctx as [e|]; [done|]. destruct src as [s|]; [|done].
  destruct (Latest s) as [latest|e] eqn:Hl; [|done].
  destruct (N.ltb_spec latest confirmations).
  { exists s, latest. split_and!; [done..|]. left. split_and!; [done..|lia]. }
  destruct (N.ltb_spec (latest - confirmations) from).
  { exists s, latest. split_and!; [done..|]. left. split_and!; [done..|lia]. }
  destruct (Entries s from (latest - confirmations)) as [raw|e] eqn:He; [|done].
  assert (Hgoal : forall cursor, cursor = (if N.eqb (latest - confirmations) max_uint64 then max_uint64
      else u64_incr (latest - confirmations)) ->
    exists s' latest', Some s = Some s' /\ Latest s' = Ok latest' /\
        ((SliceStable event_less raw = [] /\ cursor = from /\ (latest' < from + confirmations)%N) \/
         ((from + confirmations <= latest')%N /\
          (exists raw', Entries s' from (latest' - confirmations) = Ok raw' /\ SliceStable event_less raw ≡ₚ raw') /\
          StronglySorted (not_after event_less) (SliceStable event_less raw) /\
          cursor = if N.eqb (latest' - confirmations) max_uint64 then max_uint64
                   else u64_incr (latest' - confirmations)))).
  { intros cursor ->. exists s, latest. split_and!; [done..|]. right. split_and!; [lia| |exact (SliceStable_sorted event_less event_asym raw)|done].
    exists raw. split; [done|]. apply SliceStable_perm. }
  destruct (N.eqb_spec (latest - confirmations) max_uint64) as [Heq|]; apply Hgoal; congruence || done.
Qed.

(** The relayer's duplicate check agrees with the chain's. The replay key of
    an event is the replay key of the claim made from it, and the claim carries
    its derived message identifier — except for an event of unspecified kind
    about the zero address, which becomes a native-asset claim. *)
Theorem event_Claim_key (e : DepositEvent) (destination : string) :
  EvSourceAssetKind e <> EmptyString \/ isZeroHexAddress (EvAssetAddress e) = false ->
  identity_ReplayKey (Identity (event_Claim e destination)) = event_ReplayKey e /\
  MessageID (Identity (event_Claim e destination)) = DerivedMessageID (Identity (event_Claim e destination)).
Proof.
  intros Hk. split; [|done]. unfold event_Claim. cbv zeta.
  destruct (decide (EvSourceAssetKind e = EmptyString)) as [He|He].
  - destruct Hk as [?|Hz]; [done|]. rewrite Hz. unfold event_ReplayKey. by rewrite He.
  - done.
Qed.

(** A withdrawal the relayer has validated is never refused by the release
    client: the request made from it passes every check, so the call reaches the
    release target with that very request. *)
Theorem validated_withdrawal_released (w : Withdrawal) (release : ReleaseRequest -> result string) :
  withdrawal_Validate w = Ok tt ->
  ReleaseWithdrawal None (Some release) (withdrawal_ReleaseRequest w) =
    release (withdrawal_ReleaseRequest w).
Proof.
  unfold withdrawal_Validate. intros ([] & Hid & Hv)%res_bind_ok_inv.
  assert (Hok : release_Validate (withdrawal_ReleaseRequest w) = Ok tt).
  { apply first_error_ok in Hid, Hv. apply first_error_ok. unfold release_checks.
    rewrite !Forall_cons in Hid. rewrite !Forall_cons in Hv. rewrite !Forall_cons. cbn [fst] in *.
    destruct Hid as (_ & _ & _ & _ & _ & Hm & _). destruct Hv as (_ & _ & ? & ? & ? & ? & ? & ? & _).
    unfold withdrawal_ReleaseRequest. by cbn [RelMessageID RelAssetAddress RelAmount RelRecipient
      RelDeadline RelSignature]. }
  unfold ReleaseWithdrawal. by rewrite Hok.
Qed.

(** ** Concrete runs *)

Definition demo_event (block index nonce : N) : DepositEvent :=
  mk_event block "11155111" "0xbridge" "0xdeadbeef" index nonce EmptyString EmptyString "erc20" "0xabc"
    "eth.usdc" (Some 1000%Z) "cosmos1recipient" 500.

Definition demo_log : list DepositEvent := [demo_event 12 1 3; demo_event 12 0 2; demo_event 10 4 1; demo_event 17 0 4].

Definition demo_source (latest : N) : Source DepositEvent :=
  mk_source (Ok latest) (fun a b => Ok (filter (fun e => a <= BlockNumber e < b + 1)%N demo_log)).

Lemma demo_source_honest latest :
  (latest < max_uint64)%N -> honest BlockNumber 3 demo_log (demo_source latest).
Proof. intros Hl l a b es [= <-] _ [= <-]. split; done. Qed.

Definition demo_polls : list (option error * option (Source DepositEvent)) :=
  [(None, Some (demo_source 13)); (None, None); (None, Some (demo_source 14)); (None, Some (demo_source 17))].

Example demo_poll_result :
  poll_all (Sentinel ErrEVMSourceUnavailable) event_less 3 demo_polls 0 =
    ([demo_event 10 4 1; demo_event 12 0 2; demo_event 12 1 3], 15%N).
Proof. vm_compute. reflexivity. Qed.

Example deposit_polls_cover_witness :
  [demo_event 10 4 1; demo_event 12 0 2; demo_event 12 1 3] ≡ₚ
    filter (fun e => 0 <= BlockNumber e < 15)%N demo_log.
Proof.
  assert (Hp : forall p s, p ∈ demo_polls -> p.2 = Some s -> honest BlockNumber 3 demo_log s).
  { intros p s Hin Hs. unfold demo_polls in Hin. rewrite !elem_of_cons in Hin.
    destruct Hin as [->|[->|[->|[->|Hin]]]]; cbn in Hs; try discriminate Hs;
      try (injection Hs as <-; apply demo_source_honest; reflexivity).
    by apply not_elem_of_nil in Hin. }
  pose proof (deposit_polls_cover 3 demo_log demo_polls 0 Hp) as Hc.
  rewrite demo_poll_result in Hc. exact (proj1 (proj2 Hc)).
Defined.

Example event_Claim_key_witness :
  identity_ReplayKey (Identity (event_Claim (demo_event 12 1 3) "aegislink-1")) = event_ReplayKey (demo_event 12 1 3).
Proof. apply (event_Claim_key (demo_event 12 1 3) "aegislink-1"). left. discriminate. Defined.

(** An unspecified kind and the zero address: the relayer's key is that of an
    ERC-20 deposit, the chain's that of a native one. *)
Example demo_native_key_differs :
  let e := mk_event 12 "11155111" "0xbridge" "0xdeadbeef" 1 3 EmptyString EmptyString EmptyString
    "0x0000000000000000000000000000000000000000" "eth" (Some 1%Z) "cosmos1recipient" 500 in
  identity_ReplayKey (Identity (event_Claim e "aegislink-1")) <> event_ReplayKey e.
Proof. vm_compute. discriminate. Qed.

Definition demo_wd : Withdrawal :=
  let id msg := mk_identity ClaimKindWithdrawal EmptyString "aegislink-1" "aegislink.bridge" "0xbeef" 0 1 msg in
  mk_wd 7 (id (DerivedMessageID (id EmptyString))) "eth.usdc" "0xabc" (Some 5%Z) "0xrecipient" 900 "sig".

Example validated_withdrawal_released_witness :
  ReleaseWithdrawal None (Some (fun r => Ok (RelMessageID r))) (withdrawal_ReleaseRequest demo_wd) =
    Ok (MessageID (WdIdentity demo_wd)).
Proof.
  apply (validated_withdrawal_released demo_wd (fun r => Ok (RelMessageID r))).
  vm_compute. reflexivity.
Defined.
