(* ===== verification/EvmAbi.v ===== *)
(** [relayer/internal/evm] (rpc_source.go, rpc_release.go): the words of the
    Ethereum ABI, deposit logs and the calldata of a release. *)

From S2P Require Import Prelude.
From S2P Require Import GoStrings.
From S2P Require Import Sha256.
From S2P Require Import Bytes.
From S2P Require Import Errors.
From S2P Require Import BridgeTypes.
From S2P Require Import Watchers.
From Stdlib Require Import Ascii String.
From stdpp Require Import strings.

(** ** Hexadecimal quantities *)

Fixpoint hex_digits (acc : N) (s : string) : option N :=
  match s with
  | EmptyString => Some acc
  | String c t => match hex_value c with Some d => hex_digits (acc * 16 + d) t | None => None end
  end.
Definition parse_hex (s : string) : option N := if decide (s = EmptyString) then None else hex_digits 0 s.

(** [new(big.Int).SetString(s, 16)]. *)
Definition SetString16 (s : string) : option Z :=
  match s with
  | EmptyString => None
  | String c t =>
      if byte_is 45 c then Z.opp ∘ Z.of_N <$> parse_hex t
      else if byte_is 43 c then Z.of_N <$> parse_hex t
      else Z.of_N <$> parse_hex s
  end.

Definition parseHexBigIntString (encoded : string) : result Z :=
  let trimmed := TrimPrefix encoded "0x" in
  let trimmed := if decide (trimmed = EmptyString) then "0"%string else trimmed in
  match SetString16 trimmed with
  | None => Err (Errorf ("invalid hex value " +:+ Quote encoded))
  | Some value => Ok value
  end.

(** [IsUint64] and [Uint64]. *)
Definition as_uint64 (too_large : error) (value : Z) : result N :=
  if (0 <=? value)%Z && (value <? Z.of_N two64)%Z then Ok (Z.to_N value) else Err too_large.

Definition parseHexStringUint64 (encoded : string) : result N :=
  let? value := parseHexBigIntString encoded in as_uint64 (Errorf "hex value exceeds uint64") value.

(** [fmt]'s %x: the digits from the last one on. *)
Fixpoint hex_loop (fuel : nat) (u : N) (digits : string) : string :=
  match fuel with
  | O => digits
  | S fuel => if (u <? 16)%N then String (hex_digit u) digits
              else hex_loop fuel (u / 16) (String (hex_digit (u mod 16)) digits)
  end.
Definition toHexUint64 (value : N) : string := "0x" +:+ hex_loop 16 value EmptyString.

(** ** Words *)

(** [payload[lo:hi]] of a slice, with the bounds checked at run time. *)
Definition slice (payload : bytes) (lo hi : Z) : result bytes :=
  if (0 <=? lo)%Z && (lo <=? hi)%Z && (hi <=? Z.of_nat (length payload))%Z
  then Ok (take (Z.to_nat (hi - lo)) (drop (Z.to_nat lo) payload))
  else Err (Panic "slice bounds out of range").

(** The same with constant bounds that are within. *)
Definition part (lo hi : nat) (payload : bytes) : bytes := take (hi - lo) (drop lo payload).

Definition wordToInt (word : bytes) : result Z :=
  let bi := Z.of_N (be_value word) in
  if (bi <? two63)%Z then Ok bi else Err (Errorf "word exceeds int64").

Definition wordToUint64 (word : bytes) : result N :=
  as_uint64 (Errorf "word exceeds uint64") (Z.of_N (be_value word)).

Definition decodeABIString (payload : bytes) (offset : Z) : result string :=
  let len := Z.of_nat (length payload) in
  if (offset <? 0)%Z || (len <? int64 (offset + 32))%Z then Err (Errorf "invalid abi string offset")
  else
    let? word := slice payload offset (int64 (offset + 32)) in
    let? length := wordToInt word in
    let start := int64 (offset + 32) in
    let end_ := int64 (start + length) in
    if (length <? 0)%Z || (len <? end_)%Z then Err (Errorf "invalid abi string length")
    else let? text := slice payload start end_ in Ok (string_of_list_ascii text).

(** ** Deposit logs *)

Definition depositInitiatedTopic : string := "0xf9d606ceab83667329b57cc5f8977bd61f1496d82bb7a9d99586d24402a56a8c".

Record rpcLog := mk_log {
  LogAddress : string;
  Topics : list string;
  LogData : string;
  LogBlockNumber : string;
  LogTransactionHash : string;
  LogLogIndex : string
}.

Record deposit_data := mk_data {
  DataAsset : string;
  DataAssetID : string;
  DataAmount : Z;
  DataRecipient : string;
  DataExpiry : N
}.

Definition decodeDepositData (data : string) : result deposit_data :=
  match DecodeString (TrimPrefix data "0x") with
  | None => Err (Errorf "encoding/hex: invalid data")
  | Some decoded =>
      let payload := list_ascii_of_string decoded in
      if length payload <? 32 * 5 then Err (Errorf "deposit data too short")
      else
        let asset := "0x" +:+ EncodeToString (string_of_list_ascii (part 12 32 payload)) in
        let? assetOffset := wordToInt (part 32 64 payload) in
        let amount := Z.of_N (be_value (part 64 96 payload)) in
        let? recipientOffset := wordToInt (part 96 128 payload) in
        let? expiry := wordToUint64 (part 128 160 payload) in
        let? assetID := decodeABIString payload assetOffset in
        let? recipient := decodeABIString payload recipientOffset in
        Ok (mk_data asset assetID amount recipient expiry)
  end.

Definition decodeDepositEvent (log : rpcLog) (sourceChainID : string) : result DepositEvent :=
  match Topics log with
  | _ :: depositID :: messageID :: nonceTopic :: _ =>
      let? blockNumber := parseHexStringUint64 (LogBlockNumber log) in
      let? logIndex := parseHexStringUint64 (LogLogIndex log) in
      let? nonce := parseHexStringUint64 nonceTopic in
      let? d := decodeDepositData (LogData log) in
      let sourceAssetKind := if isZeroHexAddress (DataAsset d) then SourceAssetKindNativeETH else SourceAssetKindERC20 in
      Ok (mk_event blockNumber sourceChainID (LogAddress log) (LogTransactionHash log) logIndex nonce depositID
            messageID sourceAssetKind (DataAsset d) (DataAssetID d) (Some (DataAmount d)) (DataRecipient d) (DataExpiry d))
  | _ => Err (Errorf "deposit log missing topics")
  end.

(** ** Calldata *)

Definition releaseSelector : string := "3418e653".

Definition decodeHexBytes (value : string) (expectedLen : nat) : result bytes :=
  let trimmed := TrimPrefix (TrimSpace value) "0x" in
  if negb (String.length trimmed =? expectedLen * 2) then
    Err (Errorf ("expected " +:+ format_int (Z.of_nat expectedLen) +:+ "-byte hex value, got " +:+ Quote value))
  else match DecodeString trimmed with
       | None => Err (Errorf "encoding/hex: invalid byte")
       | Some decoded => Ok (list_ascii_of_string decoded)
       end.

Definition zeros (n : nat) : bytes := repeat (ascii_of_N 0) n.

Definition encodeAddressWord (value : string) : result bytes :=
  let? decoded := decodeHexBytes value 20 in Ok (zeros 12 ++ decoded).

Definition encodeBytes32Word (value : string) : result bytes := decodeHexBytes value 32.

(** [word[32-len(encoded):]] has a negative bound for a number of more than 32
    bytes. *)
Definition encodeBigIntWord (value : option Z) : result bytes :=
  match value with
  | None => Ok (zeros 32)
  | Some v =>
      if (v <=? 0)%Z then Ok (zeros 32)
      else
        let encoded := big_Bytes (Z.to_N v) in
        if 32 <? length encoded then Err (Panic "slice bounds out of range")
        else Ok (zeros (32 - length encoded) ++ encoded)
  end.

Definition encodeUint64Word (value : N) : result bytes := encodeBigIntWord (Some (Z.of_N value)).

Definition encodeDynamicBytes (value : bytes) : result bytes :=
  let? length_word := encodeBigIntWord (Some (Z.of_nat (length value))) in
  let payload := length_word ++ value in
  let rem := length payload mod 32 in
  Ok (if rem =? 0 then payload else payload ++ zeros (32 - rem)).

(** [fmt.Errorf("ctx: %w", err)] around a call. *)
Definition wrapping {A} (ctx : string) (r : result A) : result A :=
  match r with Err (Panic w) => Err (Panic w) | Err e => Err (Prefixed ctx e) | Ok a => Ok a end.

Definition encodeReleaseCalldata (request : ReleaseRequest) : result string :=
  let? asset := wrapping "encode asset address" (encodeAddressWord (RelAssetAddress request)) in
  let? recipient := wrapping "encode recipient address" (encodeAddressWord (RelRecipient request)) in
  let? messageID := wrapping "encode message id" (encodeBytes32Word (RelMessageID request)) in
  let? amount := encodeBigIntWord (RelAmount request) in
  let? deadline := encodeUint64Word (RelDeadline request) in
  let? offset := encodeBigIntWord (Some (Z.of_nat (32 * 6))) in
  let static := asset ++ recipient ++ amount ++ messageID ++ deadline ++ offset in
  let? dynamic := encodeDynamicBytes (list_ascii_of_string (RelSignature request)) in
  Ok ("0x" +:+ releaseSelector +:+ EncodeToString (string_of_list_ascii (static ++ dynamic))).

(** ** Numbers in hexadecimal *)

Lemma hex_digits_digit acc n t : (n < 16)%N -> hex_digits acc (String (hex_digit n) t) = hex_digits (acc * 16 + n) t.
Proof. intros Hn. cbn [hex_digits]. by rewrite hex_value_digit. Qed.

Lemma hex_loop_digits fuel u digits : (u < 16 ^ N.of_nat fuel)%N ->
  hex_digits 0 (hex_loop fuel u digits) = hex_digits u digits.
Proof.
  revert u digits. induction fuel as [|fuel IH]; intros u digits Hu; cbn [hex_loop].
  { cbn in Hu. by replace u with 0%N by lia. }
  rewrite Nat2N.inj_succ, N.pow_succ_r' in Hu. destruct (N.ltb_spec u 16) as [Hlt|Hge].
  { by rewrite hex_digits_digit. }
  rewrite IH by (apply N.Div0.div_lt_upper_bound; lia). rewrite hex_digits_digit by (by apply N.mod_lt).
  f_equal. pose proof (N.div_mod' u 16). lia.
Qed.

Lemma hex_loop_head fuel u digits : 0 < fuel -> exists d t, (d < 16)%N /\ hex_loop fuel u digits = String (hex_digit d) t.
Proof.
  revert u digits. induction fuel as [|fuel IH]; intros u digits Hpos; [lia|]. cbn [hex_loop].
  destruct (N.ltb_spec u 16); [by exists u, digits|]. destruct fuel as [|fuel].
  { exists (u mod 16)%N, digits. split; [by apply N.mod_lt|done]. }
  apply IH. lia.
Qed.

Lemma hex_digit_sign d t : (d < 16)%N -> SetString16 (String (hex_digit d) t) = Z.of_N <$> parse_hex (String (hex_digit d) t).
Proof.
  intros Hd. unfold SetString16.
  assert (Hall : forallb (fun d => negb (byte_is 45 (hex_digit d)) && negb (byte_is 43 (hex_digit d)))
    (map N.of_nat (seq 0 16)) = true) by (by vm_compute).
  rewrite forallb_forall in Hall. specialize (Hall d). rewrite andb_true_iff, !negb_true_iff in Hall.
  destruct Hall as [-> ->]; [|done]. apply in_map_iff. exists (N.to_nat d). split; [lia|]. apply in_seq. lia.
Qed.

Lemma hex_quantity_round_trip n : u64_ok n -> parseHexStringUint64 (toHexUint64 n) = Ok n.
Proof.
  intros Hn. unfold parseHexStringUint64, parseHexBigIntString, toHexUint64. rewrite TrimPrefix_app. cbv zeta.
  destruct (hex_loop_head 16 n EmptyString) as (d & t & Hd & Hloop); [lia|].
  pose proof (hex_loop_digits 16 n EmptyString) as Hdigits. rewrite Hloop in *.
  rewrite decide_False by done. rewrite hex_digit_sign by done. unfold parse_hex. rewrite decide_False by done.
  rewrite Hdigits by exact Hn. cbn [hex_digits fmap option_fmap option_map res_bind]. unfold as_uint64, u64_ok in *.
  rewrite N2Z.id. destruct (Z.leb_spec 0 (Z.of_N n)), (Z.ltb_spec (Z.of_N n) (Z.of_N two64)); cbn [andb]; [done|lia..].
Qed.

(** ** Words *)

Lemma zeros_length n : length (zeros n) = n.
Proof. apply repeat_length. Qed.

Lemma encodeBigIntWord_word v : (0 <= v < 2 ^ 256)%Z ->
  encodeBigIntWord (Some v) = Ok (be_bytes 32 (Z.to_N v)).
Proof.
  intros [Hv Hmax]. unfold encodeBigIntWord. destruct (Z.leb_spec v 0).
  { replace v with 0%Z by lia. reflexivity. }
  assert (Hbound : (Z.to_N v < 256 ^ N.of_nat 32)%N).
  { change (256 ^ N.of_nat 32)%N with (Z.to_N (2 ^ 256)). lia. }
  pose proof (byte_count_le _ _ Hbound) as Hcount. rewrite big_Bytes_length.
  destruct (Nat.ltb_spec 32 (byte_count (Z.to_N v))); [lia|]. f_equal. apply be_value_inj.
  - rewrite length_app, zeros_length, big_Bytes_length, be_bytes_length. lia.
  - unfold zeros. by rewrite be_value_zeros, be_value_big, be_value_bytes.
Qed.

Lemma word_value v : (0 <= v < 2 ^ 256)%Z -> Z.of_N (be_value (be_bytes 32 (Z.to_N v))) = v.
Proof.
  intros Hv. rewrite be_value_bytes; [lia|]. change (256 ^ N.of_nat 32)%N with (Z.to_N (2 ^ 256)). lia.
Qed.

Lemma slice_ok (l : bytes) (lo hi : Z) : (0 <= lo <= hi)%Z -> (hi <= Z.of_nat (length l))%Z ->
  slice l lo hi = Ok (take (Z.to_nat (hi - lo)) (drop (Z.to_nat lo) l)).
Proof.
  intros [H0 H1] H2. unfold slice.
  destruct (Z.leb_spec 0 lo), (Z.leb_spec lo hi), (Z.leb_spec hi (Z.of_nat (length l))); cbn [andb]; [done|lia..].
Qed.

Lemma slice_panics (l : bytes) (lo hi : Z) : (hi < lo)%Z -> slice l lo hi = Err (Panic "slice bounds out of range").
Proof.
  intros Hlt. unfold slice. destruct (Z.leb_spec lo hi); [lia|]. by rewrite andb_false_r.
Qed.

(** The word at an offset. *)
Definition word_at (payload : bytes) (offset : Z) : Z := Z.of_N (be_value (take 32 (drop (Z.to_nat offset) payload))).

(** An offset, or a length at an offset, so large that the machine's addition
    wraps. *)
Definition overflows (payload : bytes) (offset : Z) : Prop :=
  (two63 <= offset + 32)%Z \/
  ((0 <= offset)%Z /\ (offset + 32 <= Z.of_nat (length payload))%Z /\ (word_at payload offset < two63)%Z /\
   (two63 <= offset + 32 + word_at payload offset)%Z).

(** C30: decodeABIString on every payload and every offset of the machine. It
    returns a text exactly when the length word and the text it announces are
    inside the payload, and the text is those bytes; it panics exactly when the
    sum of an offset or of a length wraps around, and otherwise returns an
    error. *)
Theorem decodeABIString_spec (payload : bytes) (offset : Z) :
  (- two63 <= offset < two63)%Z -> (Z.of_nat (length payload) < two63)%Z ->
  match decodeABIString payload offset with
  | Ok text =>
      (0 <= offset)%Z /\ (offset + 32 + word_at payload offset <= Z.of_nat (length payload))%Z /\
      list_ascii_of_string text = take (Z.to_nat (word_at payload offset)) (drop (Z.to_nat (offset + 32)) payload)
  | Err (Panic _) => overflows payload offset
  | Err _ =>
      ~ overflows payload offset /\
      ((offset < 0)%Z \/ (Z.of_nat (length payload) < offset + 32 + Z.min (word_at payload offset) two63)%Z)
  end.
Proof.
  intros Hoff Hlen. unfold decodeABIString, overflows. cbv zeta. set (len := Z.of_nat (length payload)) in *.
  assert (Hw : (0 <= word_at payload offset)%Z) by (unfold word_at; lia).
  destruct (Z.ltb_spec offset 0) as [Hneg|Hpos]; cbn [orb].
  { split; [|by left]. unfold two63 in *. lia. }
  destruct (Z.lt_ge_cases (offset + 32) two63) as [Hsmall|Hwrap].
  2: { rewrite int64_over by (unfold two63 in *; lia).
       destruct (Z.ltb_spec len (offset + 32 - 2 * two63)); [unfold two63 in *; lia|].
       rewrite slice_panics by (unfold two63; lia). by left. }
  rewrite int64_id by (unfold two63 in *; lia). destruct (Z.ltb_spec len (offset + 32)) as [Hout|Hin].
  { split; [lia|]. right. unfold two63. lia. }
  rewrite slice_ok by (unfold len in *; lia). cbn [res_bind].
  replace (Z.to_nat (offset + 32 - offset)) with 32 by lia. unfold wordToInt. cbv zeta. fold (word_at payload offset).
  destruct (Z.ltb_spec (word_at payload offset) two63) as [Hword|Hword]; cbn [res_bind].
  2: { split; [lia|]. right. rewrite Z.min_r by done. unfold two63 in *. lia. }
  destruct (Z.ltb_spec (word_at payload offset) 0); [lia|]. cbn [orb]. rewrite (Z.min_l _ _ (Z.lt_le_incl _ _ Hword)).
  destruct (Z.lt_ge_cases (offset + 32 + word_at payload offset) two63) as [Hsum|Hsum].
  - rewrite int64_id by (unfold two63 in *; lia).
    destruct (Z.ltb_spec len (offset + 32 + word_at payload offset)); [split; [lia|by right]|].
    rewrite slice_ok by (unfold len in *; lia). cbn [res_bind]. rewrite list_ascii_of_string_of_list_ascii.
    split_and!; [done|lia|]. f_equal. f_equal. lia.
  - rewrite int64_over by (unfold two63 in *; lia).
    destruct (Z.ltb_spec len (offset + 32 + word_at payload offset - 2 * two63)); [unfold two63 in *; lia|].
    rewrite slice_panics by (unfold two63 in *; lia). by right.
Qed.

(** ** What the gateway emits *)

Definition padding (n : nat) : nat := (32 - n mod 32) mod 32.

(** The ABI encoding of a [string] or [bytes]. *)
Definition abi_bytes (l : bytes) : bytes := be_bytes 32 (N.of_nat (length l)) ++ l ++ zeros (padding (length l)).

(** The event [DepositInitiated] of BridgeGateway.sol. *)
Record Deposit := mk_deposit {
  DepBlock : N;
  DepLogIndex : N;
  DepTxHash : string;
  DepGateway : string;
  DepDepositID : string;
  DepMessageID : string;
  DepNonce : N;
  DepAsset : bytes;
  DepAssetID : string;
  DepAmount : N;
  DepRecipient : string;
  DepExpiry : N
}.

Definition abi_deposit (d : Deposit) : bytes :=
  let assetID := abi_bytes (list_ascii_of_string (DepAssetID d)) in
  let recipient := abi_bytes (list_ascii_of_string (DepRecipient d)) in
  (zeros 12 ++ DepAsset d) ++ be_bytes 32 160 ++ be_bytes 32 (DepAmount d) ++
  be_bytes 32 (160 + N.of_nat (length assetID)) ++ be_bytes 32 (DepExpiry d) ++ assetID ++ recipient.

Definition hex_bytes (l : bytes) : string := "0x" +:+ EncodeToString (string_of_list_ascii l).

Definition deposit_log (d : Deposit) : rpcLog :=
  mk_log (DepGateway d) [depositInitiatedTopic; DepDepositID d; DepMessageID d; hex_bytes (be_bytes 32 (DepNonce d))]
    (hex_bytes (abi_deposit d)) (toHexUint64 (DepBlock d)) (DepTxHash d) (toHexUint64 (DepLogIndex d)).

Definition deposit_event (chainID : string) (d : Deposit) : DepositEvent :=
  let asset := hex_bytes (DepAsset d) in
  mk_event (DepBlock d) chainID (DepGateway d) (DepTxHash d) (DepLogIndex d) (DepNonce d) (DepDepositID d)
    (DepMessageID d) (if isZeroHexAddress asset then SourceAssetKindNativeETH else SourceAssetKindERC20)
    asset (DepAssetID d) (Some (Z.of_N (DepAmount d))) (DepRecipient d) (DepExpiry d).

Definition deposit_typed (d : Deposit) : Prop :=
  u64_ok (DepBlock d) /\ u64_ok (DepLogIndex d) /\ u64_ok (DepNonce d) /\ u64_ok (DepExpiry d) /\
  length (DepAsset d) = 20 /\ (DepAmount d < 2 ^ 256)%N /\
  (Z.of_nat (length (abi_deposit d)) < two63)%Z.

Lemma hex_digits_bytes acc l : hex_digits acc (EncodeToString (string_of_list_ascii l)) = Some (foldl (fun acc c => acc * 256 + N_of_ascii c)%N acc l).
Proof.
  revert acc. induction l as [|c l IH]; intros acc; [done|]. cbn [string_of_list_ascii EncodeToString foldl].
  pose proof (N_ascii_bounded c) as Hc.
  rewrite !hex_digits_digit by (first [by apply N.mod_lt | apply N.Div0.div_lt_upper_bound; lia]).
  rewrite IH. f_equal. f_equal. pose proof (N.div_mod' (N_of_ascii c) 16). lia.
Qed.

Lemma hex_digits_value l : hex_digits 0 (EncodeToString (string_of_list_ascii l)) = Some (be_value l).
Proof. exact (hex_digits_bytes 0 l). Qed.

Lemma hex_word_uint64 n : u64_ok n -> parseHexStringUint64 (hex_bytes (be_bytes 32 n)) = Ok n.
Proof.
  intros Hn. unfold parseHexStringUint64, parseHexBigIntString, hex_bytes. rewrite TrimPrefix_app. cbv zeta.
  assert (Hvalue : be_value (be_bytes 32 n) = n).
  { apply be_value_bytes. unfold u64_ok, two64 in Hn. eapply N.lt_trans; [exact Hn|done]. }
  pose proof (hex_digits_value (be_bytes 32 n)) as Hdigits. rewrite Hvalue in Hdigits.
  remember (be_bytes 32 n) as l eqn:Hl. destruct l as [|c l]; [by apply (f_equal length) in Hl|].
  cbn [string_of_list_ascii EncodeToString] in *. rewrite decide_False by done.
  pose proof (N_ascii_bounded c). rewrite hex_digit_sign by (apply N.Div0.div_lt_upper_bound; lia).
  unfold parse_hex. rewrite decide_False, Hdigits by done. cbn [fmap option_fmap option_map res_bind].
  unfold as_uint64, u64_ok in *. rewrite N2Z.id.
  destruct (Z.leb_spec 0 (Z.of_N n)), (Z.ltb_spec (Z.of_N n) (Z.of_N two64)); cbn [andb]; [done|lia..].
Qed.

Lemma part_app (pre w post : bytes) lo hi : length pre = lo -> length w = hi - lo -> part lo hi (pre ++ w ++ post) = w.
Proof.
  intros <- Hw. unfold part. rewrite drop_app_length. rewrite <- Hw. apply take_app_length.
Qed.

Lemma decodeABIString_at (pre post : bytes) (text : string) :
  (Z.of_nat (length (pre ++ abi_bytes (list_ascii_of_string text) ++ post)) < two63)%Z ->
  decodeABIString (pre ++ abi_bytes (list_ascii_of_string text) ++ post) (Z.of_nat (length pre)) = Ok text.
Proof.
  set (l := list_ascii_of_string text). set (payload := pre ++ abi_bytes l ++ post). intros Hlen.
  assert (Hsize : Z.of_nat (length payload) =
    (Z.of_nat (length pre) + 32 + Z.of_nat (length l) + Z.of_nat (padding (length l)) + Z.of_nat (length post))%Z).
  { unfold payload, abi_bytes. rewrite !length_app, be_bytes_length, zeros_length. lia. }
  assert (Hword : slice payload (Z.of_nat (length pre)) (Z.of_nat (length pre) + 32) = Ok (be_bytes 32 (N.of_nat (length l)))).
  { rewrite slice_ok by lia. f_equal. rewrite Nat2Z.id. unfold payload. rewrite drop_app_length.
    replace (Z.to_nat _) with (length (be_bytes 32 (N.of_nat (length l)))) by (rewrite be_bytes_length; lia).
    unfold abi_bytes. rewrite <- app_assoc. apply take_app_length. }
  assert (Htext : slice payload (Z.of_nat (length pre) + 32) (Z.of_nat (length pre) + 32 + Z.of_nat (length l)) = Ok l).
  { rewrite slice_ok by lia. f_equal. unfold payload, abi_bytes. rewrite <- !app_assoc, app_assoc.
    replace (Z.to_nat (Z.of_nat (length pre) + 32)) with (length (pre ++ be_bytes 32 (N.of_nat (length l))))
      by (rewrite length_app, be_bytes_length; lia).
    rewrite drop_app_length. replace (Z.to_nat _) with (length l) by lia. apply take_app_length. }
  unfold decodeABIString. cbv zeta. rewrite !(int64_id (_ + 32)) by (unfold two63 in *; lia).
  destruct (Z.ltb_spec (Z.of_nat (length pre)) 0); [lia|].
  destruct (Z.ltb_spec (Z.of_nat (length payload)) (Z.of_nat (length pre) + 32)); [lia|]. cbn [orb].
  rewrite Hword. cbn [res_bind]. unfold wordToInt. cbv zeta.
  assert (Hvalue : Z.of_N (be_value (be_bytes 32 (N.of_nat (length l)))) = Z.of_nat (length l)).
  { rewrite be_value_bytes; [lia|]. assert (Hl : (Z.of_nat (length l) < two63)%Z) by lia.
    change (256 ^ N.of_nat 32)%N with (Z.to_N (2 ^ 256)). unfold two63 in Hl. lia. }
  rewrite Hvalue. destruct (Z.ltb_spec (Z.of_nat (length l)) two63); [|lia]. cbn [res_bind].
  rewrite int64_id by (unfold two63 in *; lia).
  destruct (Z.ltb_spec (Z.of_nat (length l)) 0); [lia|].
  destruct (Z.ltb_spec (Z.of_nat (length payload)) (Z.of_nat (length pre) + 32 + Z.of_nat (length l))); [lia|]. cbn [orb].
  rewrite Htext. cbn [res_bind]. unfold l. by rewrite string_of_list_ascii_of_string.
Qed.

(** The head of a deposit, word by word, and its two texts. *)
Lemma abi_deposit_words (d : Deposit) : length (DepAsset d) = 20 ->
  part 12 32 (abi_deposit d) = DepAsset d /\
  part 32 64 (abi_deposit d) = be_bytes 32 160 /\
  part 64 96 (abi_deposit d) = be_bytes 32 (DepAmount d) /\
  part 96 128 (abi_deposit d) =
    be_bytes 32 (160 + N.of_nat (length (abi_bytes (list_ascii_of_string (DepAssetID d))))) /\
  part 128 160 (abi_deposit d) = be_bytes 32 (DepExpiry d).
Proof.
  intros Hasset. unfold abi_deposit. cbv zeta.
  set (w2 := be_bytes 32 160). set (w3 := be_bytes 32 (DepAmount d)). set (w4 := be_bytes 32 (160 + _)).
  set (w5 := be_bytes 32 (DepExpiry d)). set (tail := _ ++ abi_bytes (list_ascii_of_string (DepRecipient d))).
  assert (Hlen : length w2 = 32 /\ length w3 = 32 /\ length w4 = 32 /\ length w5 = 32) by (by unfold w2, w3, w4, w5; rewrite !be_bytes_length).
  destruct Hlen as (H2 & H3 & H4 & H5). clearbody w2 w3 w4 w5 tail. split_and!.
  - rewrite <- app_assoc. by apply part_app; [rewrite zeros_length|].
  - apply part_app; [|done]. by rewrite length_app, zeros_length, Hasset.
  - rewrite app_assoc. apply part_app; [|done]. by rewrite !length_app, zeros_length, Hasset, H2.
  - rewrite (app_assoc w2), app_assoc. apply part_app; [|done]. by rewrite !length_app, zeros_length, Hasset, H2, H3.
  - rewrite (app_assoc w3), (app_assoc w2), app_assoc. apply part_app; [|done].
    by rewrite !length_app, zeros_length, Hasset, H2, H3, H4.
Qed.

Lemma abi_deposit_texts (d : Deposit) :
  length (DepAsset d) = 20 -> (Z.of_nat (length (abi_deposit d)) < two63)%Z ->
  let assetID := abi_bytes (list_ascii_of_string (DepAssetID d)) in
  160 + length assetID <= length (abi_deposit d) /\
  decodeABIString (abi_deposit d) 160 = Ok (DepAssetID d) /\
  decodeABIString (abi_deposit d) (160 + Z.of_nat (length assetID)) = Ok (DepRecipient d).
Proof.
  intros Hasset Hlen assetID. set (recipient := abi_bytes (list_ascii_of_string (DepRecipient d))).
  set (head := (zeros 12 ++ DepAsset d) ++ be_bytes 32 160 ++ be_bytes 32 (DepAmount d) ++
    be_bytes 32 (160 + N.of_nat (length assetID)) ++ be_bytes 32 (DepExpiry d)).
  assert (Hhead : length head = 160).
  { unfold head. rewrite !length_app, zeros_length, Hasset, !be_bytes_length. done. }
  assert (Hdata : abi_deposit d = head ++ assetID ++ recipient).
  { unfold abi_deposit, head. cbv zeta. fold assetID recipient. by rewrite <- !app_assoc. }
  rewrite Hdata in *. clearbody head. rewrite !length_app, Hhead in Hlen. rewrite !length_app, Hhead. split_and!; [lia| |].
  - change 160%Z with (Z.of_nat 160). rewrite <- Hhead. apply decodeABIString_at. rewrite !length_app, Hhead. exact Hlen.
  - replace (160 + Z.of_nat (length assetID))%Z with (Z.of_nat (length (head ++ assetID))) by (rewrite length_app, Hhead; lia).
    rewrite <- (app_nil_r recipient), app_assoc. apply decodeABIString_at.
    rewrite !length_app, Hhead. cbn [length]. fold recipient. lia.
Qed.

Lemma word_uint64 n : u64_ok n -> wordToUint64 (be_bytes 32 n) = Ok n.
Proof.
  intros Hn. unfold wordToUint64, as_uint64, u64_ok in *.
  rewrite be_value_bytes by (eapply N.lt_trans; [exact Hn|vm_compute; reflexivity]). rewrite N2Z.id.
  destruct (Z.leb_spec 0 (Z.of_N n)), (Z.ltb_spec (Z.of_N n) (Z.of_N two64)); cbn [andb]; [done|lia..].
Qed.

Lemma word_int n : (Z.of_N n < two63)%Z -> wordToInt (be_bytes 32 n) = Ok (Z.of_N n).
Proof.
  intros Hn. unfold wordToInt. cbv zeta.
  assert (Hn' : (n < 256 ^ N.of_nat 32)%N).
  { change (256 ^ N.of_nat 32)%N with (Z.to_N (2 ^ 256)). unfold two63 in Hn. lia. }
  rewrite be_value_bytes by exact Hn'. destruct (Z.ltb_spec (Z.of_N n) two63); [done|lia].
Qed.

(** What the gateway emits the relayer reads: for every deposit of the contract
    — any texts, any amount of 256 bits — decoding its log gives back exactly
    its block, index, nonce, asset, amount, texts and expiry, and the asset kind
    is the native one exactly for the zero address. *)
Lemma deposit_log_decodes (chainID : string) (d : Deposit) :
  deposit_typed d -> decodeDepositEvent (deposit_log d) chainID = Ok (deposit_event chainID d).
Proof.
  intros (Hblock & Hindex & Hnonce & Hexpiry & Hasset & Hamount & Hlen).
  destruct (abi_deposit_words d Hasset) as (H1 & H2 & H3 & H4 & H5).
  destruct (abi_deposit_texts d Hasset Hlen) as (Hsize & Htext1 & Htext2).
  unfold decodeDepositEvent, deposit_log. cbn [Topics LogBlockNumber LogLogIndex LogData LogAddress LogTransactionHash].
  rewrite !hex_quantity_round_trip, hex_word_uint64 by done. cbn [res_bind].
  assert (Hdata : decodeDepositData (hex_bytes (abi_deposit d)) =
    Ok (mk_data (hex_bytes (DepAsset d)) (DepAssetID d) (Z.of_N (DepAmount d)) (DepRecipient d) (DepExpiry d))).
  2: { by rewrite Hdata. }
  unfold decodeDepositData, hex_bytes. rewrite TrimPrefix_app, DecodeString_EncodeToString. cbv zeta.
  rewrite list_ascii_of_string_of_list_ascii.
  destruct (Nat.ltb_spec (length (abi_deposit d)) (32 * 5)); [lia|].
  rewrite H1, H2, H3, H4, H5. rewrite (word_int 160) by done. cbn [res_bind].
  rewrite word_int by (unfold two63 in *; lia). cbn [res_bind]. rewrite word_uint64 by done. cbn [res_bind].
  change (Z.of_N 160) with 160%Z. rewrite Htext1. cbn [res_bind].
  replace (Z.of_N (160 + _)) with (160 + Z.of_nat (length (abi_bytes (list_ascii_of_string (DepAssetID d)))))%Z by lia.
  rewrite Htext2. cbn [res_bind]. rewrite be_value_bytes; [done|].
  eapply N.lt_le_trans; [exact Hamount|]. apply N.leb_le. vm_compute. reflexivity.
Qed.

(** ** What a release says *)

Lemma decodeHexBytes_length value n l : decodeHexBytes value n = Ok l -> length l = n.
Proof.
  unfold decodeHexBytes. cbv zeta. case_match eqn:Hlen; [done|]. apply negb_false_iff, Nat.eqb_eq in Hlen.
  destruct (DecodeString _) as [decoded|] eqn:Hdec; [|done]. intros [= <-].
  apply DecodeString_length in Hdec. rewrite length_list_ascii. lia.
Qed.

Lemma encodeDynamicBytes_abi l : (Z.of_nat (length l) < two63)%Z -> encodeDynamicBytes l = Ok (abi_bytes l).
Proof.
  intros Hl. unfold encodeDynamicBytes. unfold two63 in Hl. rewrite encodeBigIntWord_word by lia. cbn [res_bind]. cbv zeta.
  replace (Z.to_N (Z.of_nat (length l))) with (N.of_nat (length l)) by lia. f_equal. unfold abi_bytes, padding.
  rewrite length_app, be_bytes_length.
  assert (Hmod : (32 + length l) mod 32 = length l mod 32).
  { rewrite <- (Nat.Div0.mod_add (length l) 1 32). f_equal. lia. }
  rewrite Hmod. destruct (Nat.eqb_spec (length l mod 32) 0) as [->|Hne].
  { by rewrite app_nil_r. }
  rewrite <- app_assoc. do 3 f_equal. symmetry. apply Nat.mod_small. lia.
Qed.

Lemma encodeBigIntWord_ok v w : (0 < v)%Z -> encodeBigIntWord (Some v) = Ok w -> (v < 2 ^ 256)%Z.
Proof.
  intros Hv. unfold encodeBigIntWord. destruct (Z.leb_spec v 0); [lia|]. cbv zeta. rewrite big_Bytes_length.
  destruct (Nat.ltb_spec 32 (byte_count (Z.to_N v))) as [|Hcount]; [done|]. intros _.
  pose proof (byte_count_bound (Z.to_N v)) as Hbound.
  assert (Hpow : (256 ^ N.of_nat (byte_count (Z.to_N v)) <= 256 ^ 32)%N) by (apply N.pow_le_mono_r; lia).
  change (256 ^ 32)%N with (Z.to_N (2 ^ 256)) in Hpow. lia.
Qed.

(** The ABI encoding of the arguments of [release]. *)
Definition abi_release (asset recipient : bytes) (amount : N) (message : bytes) (expiry : N) (signature : bytes) : bytes :=
  (zeros 12 ++ asset) ++ (zeros 12 ++ recipient) ++ be_bytes 32 amount ++ message ++ be_bytes 32 expiry ++
  be_bytes 32 192 ++ abi_bytes signature.

Lemma calldata_abi (r : ReleaseRequest) (v : Z) (c : string) :
  RelAmount r = Some v -> (0 < v)%Z -> u64_ok (RelDeadline r) ->
  (Z.of_nat (String.length (RelSignature r)) < two63)%Z -> encodeReleaseCalldata r = Ok c ->
  exists asset recipient message,
    decodeHexBytes (RelAssetAddress r) 20 = Ok asset /\ decodeHexBytes (RelRecipient r) 20 = Ok recipient /\
    decodeHexBytes (RelMessageID r) 32 = Ok message /\ (v < 2 ^ 256)%Z /\
    c = "0x" +:+ releaseSelector +:+ EncodeToString (string_of_list_ascii
      (abi_release asset recipient (Z.to_N v) message (RelDeadline r) (list_ascii_of_string (RelSignature r)))).
Proof.
  intros Hamount Hv Hdeadline Hsig. unfold encodeReleaseCalldata, encodeAddressWord, encodeBytes32Word. rewrite Hamount.
  destruct (decodeHexBytes (RelAssetAddress r) 20) as [asset|[]]; cbn [wrapping res_bind]; try done.
  destruct (decodeHexBytes (RelRecipient r) 20) as [recipient|[]]; cbn [wrapping res_bind]; try done.
  destruct (decodeHexBytes (RelMessageID r) 32) as [message|[]]; cbn [wrapping res_bind]; try done.
  destruct (encodeBigIntWord (Some v)) as [w|e] eqn:Hw; [|done]. pose proof (encodeBigIntWord_ok v w Hv Hw) as Hmax.
  rewrite encodeBigIntWord_word in Hw by lia. injection Hw as <-. cbn [res_bind]. unfold encodeUint64Word.
  rewrite encodeBigIntWord_word by (unfold u64_ok, two64 in Hdeadline; lia). rewrite N2Z.id. cbn [res_bind].
  rewrite encodeBigIntWord_word by done. cbn [res_bind]. cbv zeta. rewrite encodeDynamicBytes_abi by (by rewrite length_list_ascii).
  cbn [res_bind]. intros <-%(inj Ok). exists asset, recipient, message. split_and!; try done.
  unfold abi_release. by rewrite <- !app_assoc.
Qed.

Lemma list_app_inj {A} (a b x y : list A) : length a = length b -> a ++ x = b ++ y -> a = b /\ x = y.
Proof. intros Hlen Heq. by apply app_inj_1. Qed.

Lemma abi_bytes_inj l m : (Z.of_nat (length l) < two63)%Z -> (Z.of_nat (length m) < two63)%Z ->
  abi_bytes l = abi_bytes m -> l = m.
Proof.
  intros Hl Hm Heq. apply list_app_inj in Heq as [Hlen Heq]; [|by rewrite !be_bytes_length].
  assert (Hsame : length l = length m).
  { apply (f_equal be_value) in Hlen. unfold two63 in *.
    rewrite !be_value_bytes in Hlen by (change (256 ^ N.of_nat 32)%N with (Z.to_N (2 ^ 256)); lia). lia. }
  by apply list_app_inj in Heq as [-> _].
Qed.

Lemma abi_release_inj a1 r1 v1 m1 e1 s1 a2 r2 v2 m2 e2 s2 :
  length a1 = 20 -> length a2 = 20 -> length r1 = 20 -> length r2 = 20 -> length m1 = 32 -> length m2 = 32 ->
  (v1 < 2 ^ 256)%N -> (v2 < 2 ^ 256)%N -> u64_ok e1 -> u64_ok e2 ->
  (Z.of_nat (length s1) < two63)%Z -> (Z.of_nat (length s2) < two63)%Z ->
  abi_release a1 r1 v1 m1 e1 s1 = abi_release a2 r2 v2 m2 e2 s2 ->
  a1 = a2 /\ r1 = r2 /\ v1 = v2 /\ m1 = m2 /\ e1 = e2 /\ s1 = s2.
Proof.
  intros Ha1 Ha2 Hr1 Hr2 Hm1 Hm2 Hv1 Hv2 He1 He2 Hs1 Hs2 Heq.
  assert (Hword : forall x y, (x < 2 ^ 256)%N -> (y < 2 ^ 256)%N -> be_bytes 32 x = be_bytes 32 y -> x = y).
  { intros x y Hx Hy Hxy%(f_equal be_value). change (2 ^ 256)%N with (256 ^ N.of_nat 32)%N in Hx, Hy. by rewrite !be_value_bytes in Hxy. }
  assert (Hu64 : forall x, u64_ok x -> (x < 2 ^ 256)%N).
  { intros x Hx. eapply N.lt_trans; [exact Hx|vm_compute; reflexivity]. }
  unfold abi_release in Heq.
  apply list_app_inj in Heq as [Ha Heq]; [|by rewrite !length_app, !zeros_length, Ha1, Ha2].
  apply list_app_inj in Heq as [Hr Heq]; [|by rewrite !length_app, !zeros_length, Hr1, Hr2].
  apply list_app_inj in Heq as [Hv Heq]; [|by rewrite !be_bytes_length].
  apply list_app_inj in Heq as [Hm Heq]; [|by rewrite Hm1, Hm2].
  apply list_app_inj in Heq as [He Heq]; [|by rewrite !be_bytes_length].
  apply list_app_inj in Heq as [_ Hs]; [|done].
  apply app_inv_head in Ha, Hr. apply abi_bytes_inj in Hs; [|done|done].
  split_and!; auto.
Qed.

(** C25: a release transaction says what it releases. Two valid requests that
    encode to the same calldata are for the same asset, recipient and message
    bytes, the same amount and deadline, and carry the same signature. *)
Theorem calldata_determines (r1 r2 : ReleaseRequest) (c : string) :
  encodeReleaseCalldata r1 = Ok c -> encodeReleaseCalldata r2 = Ok c ->
  release_Validate r1 = Ok tt -> release_Validate r2 = Ok tt ->
  u64_ok (RelDeadline r1) -> u64_ok (RelDeadline r2) ->
  (Z.of_nat (String.length (RelSignature r1)) < two63)%Z -> (Z.of_nat (String.length (RelSignature r2)) < two63)%Z ->
  RelAmount r1 = RelAmount r2 /\ RelDeadline r1 = RelDeadline r2 /\ RelSignature r1 = RelSignature r2 /\
  decodeHexBytes (RelAssetAddress r1) 20 = decodeHexBytes (RelAssetAddress r2) 20 /\
  decodeHexBytes (RelRecipient r1) 20 = decodeHexBytes (RelRecipient r2) 20 /\
  decodeHexBytes (RelMessageID r1) 32 = decodeHexBytes (RelMessageID r2) 32.
Proof.
  intros H1 H2 Hvalid1 Hvalid2 Hd1 Hd2 Hs1 Hs2.
  assert (Hamount : forall r, release_Validate r = Ok tt -> exists v, RelAmount r = Some v /\ (0 < v)%Z).
  { intros r Hr%first_error_ok. repeat (apply Forall_cons in Hr as [? Hr]). cbn [fst] in *.
    match goal with H : negb (amount_positive _) = false |- _ => apply negb_false_iff in H; unfold amount_positive in H end.
    destruct (RelAmount r) as [v|]; [|done]. exists v. split; [done|lia]. }
  destruct (Hamount r1 Hvalid1) as (v1 & Hv1 & Hpos1), (Hamount r2 Hvalid2) as (v2 & Hv2 & Hpos2).
  destruct (calldata_abi r1 v1 c Hv1 Hpos1 Hd1 Hs1 H1) as (a1 & p1 & m1 & Ha1 & Hp1 & Hm1 & Hmax1 & Hc1).
  destruct (calldata_abi r2 v2 c Hv2 Hpos2 Hd2 Hs2 H2) as (a2 & p2 & m2 & Ha2 & Hp2 & Hm2 & Hmax2 & Hc2).
  rewrite Hc1 in Hc2. apply (inj (String.append "0x")), (inj (String.append releaseSelector)), EncodeToString_inj in Hc2.
  apply (f_equal list_ascii_of_string) in Hc2. rewrite !list_ascii_of_string_of_list_ascii in Hc2.
  apply abi_release_inj in Hc2 as (-> & -> & Hv & -> & He & Hsig);
    try done; try (by eapply decodeHexBytes_length); try (by rewrite length_list_ascii); try lia.
  split_and!; try congruence.
  - rewrite Hv1, Hv2. f_equal. lia.
  - by apply (f_equal string_of_list_ascii) in Hsig; rewrite !string_of_list_ascii_of_string in Hsig.
Qed.

(** ** Concrete logs *)

Definition hostile_deposit : bytes :=
  zeros 32 ++ be_bytes 32 9223372036854775800 ++ be_bytes 32 1 ++ be_bytes 32 160 ++ be_bytes 32 7.

(** An offset next to the largest [int]: the check of the bounds wraps and the
    slice panics. *)
Example hostile_log_panics :
  match decodeDepositData (hex_bytes hostile_deposit) with Err (Panic _) => True | _ => False end.
Proof. vm_compute. exact I. Qed.

Definition demo_release (amount : Z) : ReleaseRequest :=
  mk_release (hex_bytes (be_bytes 32 77)) (hex_bytes (be_bytes 20 17)) (Some amount) (" " +:+ hex_bytes (be_bytes 20 5)) 900 "sig".

Lemma calldata_determines_witness :
  exists c, encodeReleaseCalldata (demo_release 25) = Ok c /\
  forall amount, release_Validate (demo_release amount) = Ok tt -> encodeReleaseCalldata (demo_release amount) = Ok c ->
    amount = 25%Z.
Proof.
  assert (Hrun : exists c, encodeReleaseCalldata (demo_release 25) = Ok c).
  { assert (Hok : is_ok (encodeReleaseCalldata (demo_release 25)) = true) by (by vm_compute).
    destruct (encodeReleaseCalldata _) as [c|e]; [by exists c|done]. }
  destruct Hrun as [c Hc]. exists c. split; [exact Hc|]. intros amount Hvalid Hsame.
  destruct (calldata_determines (demo_release 25) (demo_release amount) c Hc Hsame) as [Hamount _]; try done.
  by injection Hamount.
Defined.

(** decodeABIString on a text, on a length that does not fit, and on an offset
    that wraps. *)
Lemma decodeABIString_spec_witness :
  exists text, decodeABIString (abi_bytes (list_ascii_of_string "eth.usdc")) 0 = Ok text /\
  list_ascii_of_string text = take 8 (drop 32 (abi_bytes (list_ascii_of_string "eth.usdc"))).
Proof.
  pose proof (decodeABIString_spec (abi_bytes (list_ascii_of_string "eth.usdc")) 0 ltac:(done) ltac:(done)) as Hspec.
  assert (Hok : is_ok (decodeABIString (abi_bytes (list_ascii_of_string "eth.usdc")) 0) = true) by (by vm_compute).
  destruct (decodeABIString _ _) as [text|e]; [|done]. exists text. split; [done|].
  destruct Hspec as (_ & _ & Htext). rewrite Htext. by vm_compute.
Defined.
