(* ===== verification/Collector.v ===== *)
(** [relayer/internal/attestations]: collecting the votes for a claim and
    signing the attestation submitted with it (collector.go), with the signing
    half of proof.go. *)

From S2P Require Import Prelude.
From S2P Require Import GoStrings.
From S2P Require Import Sha256.
From S2P Require Import Bytes.
From S2P Require Import Errors.
From S2P Require Import Registry.
From S2P Require Import BridgeTypes.
From S2P Require Import BridgeState.
From S2P Require Import Bridge.
From S2P Require Import Watchers.
From Stdlib Require Import Ascii String.
From stdpp Require Import strings.

(** ** Signing (proof.go)

    The private keys of [decred/secp256k1] and compact ECDSA signatures are
    parameters. *)
Class Signing `{Crypto} := {
  PrivateKey : Type;
  PrivKeyFromBytes : string -> PrivateKey;
  IsZero : PrivateKey -> bool;
  PubKey : PrivateKey -> PublicKey;
  SignCompact : PrivateKey -> string -> string
}.

Section signing.
Context `{Signing}.

Definition parsePrivateKeyHex (privateKeyHex : string) : result PrivateKey :=
  let trimmed := TrimPrefix (TrimSpace privateKeyHex) "0x" in
  if decide (trimmed = EmptyString) then Err (Wrapf ErrInvalidAttestation "missing private key")
  else match DecodeString trimmed with
       | None => Err (Wrapf ErrInvalidAttestation "decode private key")
       | Some decoded =>
           let privateKey := PrivKeyFromBytes decoded in
           if IsZero privateKey then Err (Wrapf ErrInvalidAttestation "zero private key")
           else Ok privateKey
       end.

Definition SignerAddressFromPrivateKeyHex (privateKeyHex : string) : result string :=
  let? privateKey := parsePrivateKeyHex privateKeyHex in
  Ok (SignerAddressFromPublicKey (PubKey privateKey)).

Definition SignAttestationWithPrivateKeyHex (attestation : Attestation) (privateKeyHex : string)
    : result AttestationProof :=
  let? digest := SigningDigest attestation in
  let? privateKey := parsePrivateKeyHex privateKeyHex in
  Ok (mk_proof (SignerAddressFromPublicKey (PubKey privateKey)) (SignCompact privateKey digest)).

Definition SignRawPayload (payload privateKeyHex : string) : result string :=
  let? privateKey := parsePrivateKeyHex privateKeyHex in
  Ok (SignCompact privateKey (keccak256 payload)).
End signing.

(** ** The collector *)

Definition fallbackSyntheticExpiry : N := max_uint64.

Record Vote := mk_vote { VSigner : string; VExpiry : N }.

Record Collector := mk_collector {
  source : option (string -> string -> result (list Vote));
  threshold : N;                (* uint32 *)
  signerSetVersion : N;         (* uint64 *)
  signerKeys : gmap string string
}.

(** [signerVote] of [Collect], in the order its comparison puts them: the
    later expiry first, then by signer. *)
Definition vote_less (a b : string * N) : bool :=
  if negb (N.eqb a.2 b.2) then (b.2 <? a.2)%N else string_ltb a.1 b.1.

Section collector.
Context `{MapIteration} `{Signing}.

Definition NewCollector (source : option (string -> string -> result (list Vote))) (threshold : N)
    (signerSetVersion : N) (signerKeys : list string) : Collector :=
  let signerSetVersion := if N.eqb signerSetVersion 0 then 1%N else signerSetVersion in
  mk_collector source threshold signerSetVersion
    (foldl (fun keys key =>
      match SignerAddressFromPrivateKeyHex key with
      | Err _ => keys
      | Ok address => <[address := key]> keys
      end) ∅ signerKeys).

(** The best expiry per signer; signers are told apart by their trimmed text. *)
Definition unique_votes (votes : list Vote) : gmap string N :=
  foldl (fun unique vote =>
    let signer := TrimSpace (VSigner vote) in
    if decide (signer = EmptyString) then unique
    else match unique !! signer with
         | Some expiry => if (expiry <? VExpiry vote)%N then <[signer := VExpiry vote]> unique else unique
         | None => <[signer := VExpiry vote]> unique
         end) ∅ votes.

(** The signers and the expiry of the chosen votes. *)
Fixpoint chosen_signers (keys : gmap string string) (votes : list (string * N)) (signers : list string)
    (expiry : N) : result (list string * N) :=
  match votes with
  | [] => Ok (signers, expiry)
  | (voter, voteExpiry) :: rest =>
      let signer := NormalizeSignerAddress voter in
      match keys !! signer with
      | None => Err (Sentinel ErrThresholdNotMet)
      | Some _ =>
          chosen_signers keys rest (signers ++ [signer])
            (if N.eqb expiry 0 || (voteExpiry <? expiry)%N then voteExpiry else expiry)
      end
  end.

Fixpoint sign_all (keys : gmap string string) (attestation : Attestation) (signers : list string)
    : result (list AttestationProof) :=
  match signers with
  | [] => Ok []
  | signer :: rest =>
      let? proof := SignAttestationWithPrivateKeyHex attestation (default EmptyString (keys !! signer)) in
      let? proofs := sign_all keys attestation rest in
      Ok (proof :: proofs)
  end.

Definition with_proofs (proofs : list AttestationProof) (a : Attestation) : Attestation :=
  mk_attestation (AttMessageID a) (PayloadHash a) (Signers a) proofs (Threshold a)
    (BridgeTypes.Expiry a) (SignerSetVersion a).

(** [Collect]. The proofs the attestation holds while it is being signed do
    not enter the digest. *)
Definition Collect (ctx : option error) (c : Collector) (messageID payloadHash : string)
    : result Attestation :=
  match source c, ctx with
  | None, _ => Err (Sentinel ErrThresholdNotMet)
  | Some _, Some e => Err e
  | Some Votes, None =>
      let? votes := Votes messageID payloadHash in
      let unique := unique_votes votes in
      let unique :=
        if decide (unique = ∅)
        then foldl (fun m e => <[e.1 := fallbackSyntheticExpiry]> m) ∅ (range (signerKeys c))
        else unique in
      let count := (N.of_nat (size unique) mod two32)%N in
      if N.eqb (threshold c) 0 || (count <? threshold c)%N then Err (Sentinel ErrThresholdNotMet)
      else
        let ranked := SliceStable vote_less (range unique) in
        let? chosen := chosen_signers (signerKeys c) (take (N.to_nat (threshold c)) ranked) [] 0 in
        let signers := SortStrings (fst chosen) in
        let attestation := mk_attestation messageID payloadHash signers
          (map (fun signer => mk_proof signer EmptyString) (fst chosen)) (threshold c) (snd chosen)
          (signerSetVersion c) in
        let? proofs := sign_all (signerKeys c) attestation signers in
        Ok (with_proofs proofs attestation)
  end.
End collector.

(** ** Collected attestations are accepted *)

Section addresses.
Context `{Crypto}.

Lemma address_graphic pk : all_graphic (SignerAddressFromPublicKey pk) = true.
Proof. unfold SignerAddressFromPublicKey. exact (EncodeToString_graphic _). Qed.

Lemma address_trimmed pk : TrimSpace (SignerAddressFromPublicKey pk) = SignerAddressFromPublicKey pk.
Proof. apply all_graphic_trimmed, address_graphic. Qed.

Lemma address_normal pk :
  NormalizeSignerAddress (SignerAddressFromPublicKey pk) = SignerAddressFromPublicKey pk.
Proof.
  unfold NormalizeSignerAddress. rewrite address_trimmed. unfold SignerAddressFromPublicKey.
  set (hash := last20 _). generalize (EncodeToString_lower hash).
  generalize (EncodeToString hash). intros s Hs.
  change (String "0" (String "x" (ToLower s)) = String "0" (String "x" s)). by rewrite Hs.
Qed.

Lemma address_nonempty pk : SignerAddressFromPublicKey pk <> EmptyString.
Proof. unfold SignerAddressFromPublicKey. discriminate. Qed.
End addresses.

Lemma check_proofs_ok (proofs : list AttestationProof) : forall (seen : gset string),
  Forall (fun p => TrimSpace (Signer p) <> EmptyString /\ Signature p <> EmptyString) proofs ->
  NoDup (map (fun p => TrimSpace (Signer p)) proofs) ->
  (forall x, x ∈ map (fun p => TrimSpace (Signer p)) proofs -> x ∉ seen) ->
  check_proofs seen proofs = Ok tt.
Proof.
  induction proofs as [|p proofs IH]; intros seen Hf Hnd Hs; cbn [check_proofs map]; [done|].
  apply Forall_cons in Hf as [[Hsig Hsign] Hf]. apply NoDup_cons in Hnd as [Hp Hnd].
  rewrite (decide_False (P := TrimSpace (Signer p) = EmptyString)) by done.
  rewrite (decide_False (P := Signature p = EmptyString)) by done.
  rewrite decide_False by (apply Hs; left). apply IH; [done..|].
  intros x Hx [->%elem_of_singleton|Hin]%elem_of_union; [done|].
  apply (Hs x); [by right|done].
Qed.

Lemma check_signers_ok (signers : list string) : forall (seen : gset string),
  Forall (fun s => TrimSpace s <> EmptyString) signers -> NoDup (map TrimSpace signers) ->
  (forall x, x ∈ map TrimSpace signers -> x ∉ seen) -> check_signers seen signers = Ok tt.
Proof.
  induction signers as [|s signers IH]; intros seen Hf Hnd Hs; cbn [check_signers map]; [done|].
  apply Forall_cons in Hf as [Hsig Hf]. apply NoDup_cons in Hnd as [Hp Hnd].
  rewrite (decide_False (P := TrimSpace s = EmptyString)) by done.
  rewrite decide_False by (apply Hs; left). apply IH; [done..|].
  intros x Hx [->%elem_of_singleton|Hin]%elem_of_union; [done|].
  apply (Hs x); [by right|done].
Qed.

Section acceptance.
Context `{MapIteration} `{Signing}.

(** Every key is stored under the address it signs for. *)
Definition keys_ok (keys : gmap string string) : Prop :=
  map_Forall (fun address key => SignerAddressFromPrivateKeyHex key = Ok address) keys.

Lemma NewCollector_keys_ok src t v keys : keys_ok (signerKeys (NewCollector src t v keys)).
Proof.
  unfold NewCollector. cbn [signerKeys].
  assert (Hgen : forall acc : gmap string string, keys_ok acc -> keys_ok (foldl (fun m key =>
    match SignerAddressFromPrivateKeyHex key with
    | Err _ => m | Ok address => <[address := key]> m end) acc keys)).
  { induction keys as [|key keys IH]; intros acc Hacc; cbn [foldl]; [done|]. apply IH.
    destruct (SignerAddressFromPrivateKeyHex key) as [a|e] eqn:Ha; [|done].
    by apply map_Forall_insert_2. }
  apply Hgen, map_Forall_empty.
Qed.

Lemma chosen_signers_ok keys votes : forall signers expiry out expiry',
  chosen_signers keys votes signers expiry = Ok (out, expiry') ->
  out = signers ++ map NormalizeSignerAddress votes.*1 /\
  Forall (fun s => is_Some (keys !! s)) (map NormalizeSignerAddress votes.*1).
Proof.
  induction votes as [|[v e] votes IH]; intros signers expiry out expiry' Hc; cbn [chosen_signers] in Hc.
  { injection Hc as <- <-. cbn. rewrite app_nil_r. split; [done|constructor]. }
  destruct (keys !! NormalizeSignerAddress v) as [key|] eqn:Hk; [|done].
  apply IH in Hc as [-> Hall]. cbn. split; [by rewrite <- app_assoc|].
  constructor; [by exists key|done].
Qed.

(** What a signature of the collector is. *)
Definition signed_by (a : Attestation) (signer : string) (p : AttestationProof) : Prop :=
  exists sk, Signer p = signer /\ SignerAddressFromPublicKey (PubKey sk) = signer /\
    Signature p = SignCompact sk (keccak256 (signing_payload a)).

Lemma sign_all_ok keys a signers proofs :
  keys_ok keys -> Forall (fun s => is_Some (keys !! s)) signers ->
  sign_all keys a signers = Ok proofs ->
  Forall2 (signed_by a) signers proofs /\ (signers <> [] -> validateEnvelope a = Ok tt).
Proof.
  intros Hk. revert proofs. induction signers as [|s signers IH]; intros proofs Hin Hs; cbn [sign_all] in Hs.
  { injection Hs as <-. by split; [constructor|]. }
  apply Forall_cons in Hin as [[key Hkey] Hin]. rewrite Hkey in Hs.
  cbn [default from_option Datatypes.id] in Hs.
  apply res_bind_ok_inv in Hs as (p & Hp & Hs). apply res_bind_ok_inv in Hs as (ps & Hps & [= <-]).
  destruct (IH ps Hin Hps) as [Hall _].
  unfold SignAttestationWithPrivateKeyHex in Hp. apply res_bind_ok_inv in Hp as (d & Hd & Hp).
  unfold SigningDigest in Hd. apply res_bind_ok_inv in Hd as ([] & Henv & [= <-]).
  apply res_bind_ok_inv in Hp as (sk & Hsk & [= <-]).
  pose proof (Hk _ _ Hkey) as Haddr. cbn in Haddr. unfold SignerAddressFromPrivateKeyHex in Haddr.
  rewrite Hsk in Haddr. injection Haddr as <-. split; [|done].
  constructor; [|done]. by exists sk.
Qed.

Hypothesis SignCompact_recovers : forall sk digest,
  RecoverCompact (SignCompact sk digest) digest = Ok (PubKey sk).
Hypothesis SignCompact_nonempty : forall sk digest, SignCompact sk digest <> EmptyString.

Lemma signed_recovered a signers proofs :
  Forall2 (signed_by a) signers proofs ->
  recovered_signers (keccak256 (signing_payload a)) proofs = signers /\
  map (fun p => TrimSpace (Signer p)) proofs = signers /\ map TrimSpace signers = signers /\
  Forall (fun s => TrimSpace s <> EmptyString) signers /\
  Forall (fun p => TrimSpace (Signer p) <> EmptyString /\ Signature p <> EmptyString) proofs.
Proof.
  induction 1 as [|s p signers proofs (sk & Hs & Ha & Hsig) _ (IH1 & IH2 & IH3 & IH4 & IH5)]; [by split_and!|].
  assert (Ht : TrimSpace s = s) by (rewrite <- Ha; apply address_trimmed).
  assert (Hne : s <> EmptyString) by (rewrite <- Ha; apply address_nonempty).
  assert (Hv : verifyProof p (keccak256 (signing_payload a)) = Ok s).
  { unfold verifyProof. rewrite Hsig. rewrite decide_False by apply SignCompact_nonempty.
    rewrite SignCompact_recovers, Hs, Ha, <- Ha, address_normal. by rewrite decide_True. }
  unfold recovered_signers in *. cbn [omap list_omap map]. rewrite Hv, Hs, Ht. split_and!.
  - f_equal. exact IH1.
  - by f_equal.
  - by f_equal.
  - constructor; [by rewrite Ht|done].
  - constructor; [|done]. rewrite Hs, Ht, Hsig. split; [done|apply SignCompact_nonempty].
Qed.

(** The signers of a collected attestation are as many as the threshold, all
    with known keys, and its proofs are their signatures. *)
Lemma Collect_ok c messageID payloadHash a :
  keys_ok (signerKeys c) -> Collect None c messageID payloadHash = Ok a ->
  AttMessageID a = messageID /\ PayloadHash a = payloadHash /\ Threshold a = threshold c /\
  SignerSetVersion a = signerSetVersion c /\ threshold c <> 0%N /\
  N.of_nat (length (Signers a)) = threshold c /\
  Forall (fun s => is_Some (signerKeys c !! s)) (Signers a) /\
  Forall2 (signed_by a) (Signers a) (Proofs a) /\ validateEnvelope a = Ok tt.
Proof.
  intros Hkeys Hc. unfold Collect in Hc. destruct (source c) as [Votes|]; [|done].
  apply res_bind_ok_inv in Hc as (votes & _ & Hc). cbv zeta in Hc.
  set (unique := if decide (unique_votes votes = ∅) then _ else _) in Hc.
  destruct (N.eqb_spec (threshold c) 0) as [|Ht]; [done|]. cbn [orb] in Hc.
  destruct (N.ltb_spec (N.of_nat (size unique) mod two32) (threshold c)) as [|Hcount]; [done|].
  apply res_bind_ok_inv in Hc as ([chosen expiry] & Hch & Hc). cbn [fst snd] in Hc.
  apply res_bind_ok_inv in Hc as (proofs & Hsign & [= <-]).
  apply chosen_signers_ok in Hch as [-> Hall]. cbn [app] in *.
  set (names := map NormalizeSignerAddress _) in *.
  assert (Hsorted : Forall (fun s => is_Some (signerKeys c !! s)) (SortStrings names))
    by by rewrite SortStrings_perm.
  assert (Hlen : N.of_nat (length (SortStrings names)) = threshold c).
  { rewrite (Permutation_length (SortStrings_perm names)). unfold names.
    rewrite length_map, length_fmap, length_take.
    rewrite (Permutation_length (SliceStable_perm vote_less (range unique))).
    rewrite (Permutation_length (range_perm unique)), length_map_to_list.
    pose proof (N.Div0.mod_le (N.of_nat (size unique)) two32). lia. }
  destruct (sign_all_ok _ _ _ _ Hkeys Hsorted Hsign) as [Hsigned Henv].
  cbn [with_proofs AttMessageID PayloadHash Threshold SignerSetVersion Signers Proofs].
  split_and!; try done. apply Henv. intros Hnil. rewrite Hnil in Hlen. cbn in Hlen. lia.
Qed.

End acceptance.

(** ** Concrete collections

    The toy scheme of [Bridge]: a private key is one byte. *)

#[local] Existing Instance toy_crypto.

#[local] Instance toy_signing : Signing := {|
  PrivateKey := ascii;
  PrivKeyFromBytes := fun s => match s with String c _ => c | EmptyString => Ascii.zero end;
  IsZero := fun c => N.eqb (N_of_ascii c) 0;
  PubKey := fun c => String c EmptyString;
  SignCompact := fun c digest => String c digest
|}.

Lemma toy_recovers (sk : PrivateKey) (digest : string) :
  RecoverCompact (SignCompact sk digest) digest = Ok (PubKey sk).
Proof.
  cbn [RecoverCompact SignCompact PubKey toy_crypto toy_signing]. unfold eqs.
  by rewrite bool_decide_eq_true_2.
Qed.

Definition demo_collector (votes : list Vote) : Collector :=
  NewCollector (Some (fun _ _ => Ok votes)) 2 1 ["0x41"%string; "43"%string; "zz"%string].

Definition demo_votes : list Vote :=
  [mk_vote signer_a 300; mk_vote (" " +:+ signer_a) 400; mk_vote signer_c 350; mk_vote "  " 900].

Definition collect_demo (votes : list Vote) : result Attestation :=
  Collect None (demo_collector votes) (MessageID (Identity demo_claim)) (Digest demo_claim).

Definition demo_set : SignerSet :=
  match ActiveSignerSet demo_keeper with Ok s => s | Err _ => mk_signer_set 0 [] 0 0 0 end.


(** Votes are told apart by their trimmed text but signers by their lower-case
    text: two spellings of one signer fill a threshold of two, and the chain
    refuses the attestation. *)
Example demo_spellings_refused :
  match collect_demo [mk_vote signer_a 300; mk_vote ("0X" +:+ String.substring 2 40 signer_a) 400] with
  | Ok a => Signers a = [signer_a; signer_a] /\ is_ok (verifyDepositClaim demo_keeper demo_claim a) = false
  | Err _ => False
  end.
Proof. vm_compute. split; reflexivity. Qed.

(** Without any vote every configured key signs, with an expiry that never
    passes. *)
Example demo_no_votes :
  match collect_demo [] with
  | Ok a => BridgeTypes.Expiry a = max_uint64 /\ verifyDepositClaim demo_keeper demo_claim a = Ok tt
  | Err _ => False
  end.
Proof. vm_compute. split; reflexivity. Qed.
