(* ===== verification/Rlp.v ===== *)
(** [relayer/internal/evm] (rpc_release.go): RLP and the signed transaction of
    a release. *)

From S2P Require Import Prelude.
From S2P Require Import GoStrings.
From S2P Require Import Sha256.
From S2P Require Import Bytes.
From S2P Require Import Errors.
From S2P Require Import BridgeTypes.
From S2P Require Import Watchers.
From S2P Require Import EvmAbi.
From S2P Require Import Bridge.
From S2P Require Import Collector.
From Stdlib Require Import Ascii String.
From stdpp Require Import strings.

(** ** Encoding *)

(** [for value > 0 { encoded = append([]byte{byte(value & 0xff)}, encoded...);
    value >>= 8 }] *)
Fixpoint length_loop (fuel : nat) (value : N) (encoded : bytes) : bytes :=
  match fuel with
  | O => encoded
  | S fuel => if (value =? 0)%N then encoded
              else length_loop fuel (N.shiftr value 8) (byte_of (N.land value 255) :: encoded)
  end.

Definition rlpEncodeLength (length : nat) (offset : N) : bytes :=
  if length =? 0 then [byte_of offset]
  else let encoded := length_loop 8 (N.of_nat length) [] in
       byte_of (offset + N.of_nat (List.length encoded)) :: encoded.

Definition rlpEncodeBytes (value : bytes) : bytes :=
  match value with
  | [c] => if (N_of_ascii c <? 128)%N then [c] else [byte_of 129; c]
  | _ => if length value <=? 55 then byte_of (128 + N.of_nat (length value)) :: value
         else rlpEncodeLength (length value) 183 ++ value
  end.

Definition rlpEncodeBigInt (value : option Z) : bytes :=
  match value with
  | Some v => if (v <=? 0)%Z then [byte_of 128] else rlpEncodeBytes (big_Bytes (Z.to_N v))
  | None => [byte_of 128]
  end.

Definition rlpEncodeList (values : list bytes) : bytes :=
  let payload := concat values in
  if length payload <=? 55 then byte_of (192 + N.of_nat (length payload)) :: payload
  else rlpEncodeLength (length payload) 247 ++ payload.

(** ** The transaction *)

Definition mustDecodeHex (value : string) : result bytes :=
  let trimmed := TrimPrefix (TrimSpace value) "0x" in
  if decide (trimmed = EmptyString) then Ok []
  else match DecodeString trimmed with
       | None => Err (Panic "encoding/hex: invalid byte")
       | Some decoded => Ok (list_ascii_of_string decoded)
       end.

Section transaction.
Context `{Signing}.

Definition release_key (privateKeyHex : string) : result PrivateKey :=
  let trimmed := TrimPrefix (TrimSpace privateKeyHex) "0x" in
  if decide (trimmed = EmptyString) then Err (Errorf "missing release signer private key")
  else match DecodeString trimmed with
       | None => Err (Prefixed "decode release signer private key" (Errorf "encoding/hex: invalid byte"))
       | Some decoded =>
           let privateKey := PrivKeyFromBytes decoded in
           if IsZero privateKey then Err (Errorf "release signer private key is zero") else Ok privateKey
       end.

Definition unsigned_fields (chainID nonce gasPrice gasLimit : Z) (to data : bytes) : list bytes :=
  [rlpEncodeBigInt (Some nonce); rlpEncodeBigInt (Some gasPrice); rlpEncodeBigInt (Some gasLimit);
   rlpEncodeBytes to; rlpEncodeBigInt (Some 0%Z); rlpEncodeBytes data;
   rlpEncodeBigInt (Some chainID); rlpEncodeBigInt (Some 0%Z); rlpEncodeBigInt (Some 0%Z)].

(** [big.NewInt(int64(35+recoveryCode))]: a sum of bytes. *)
Definition signature_v (chainID : Z) (recovery : N) : Z :=
  (chainID * 2 + Z.of_N ((35 + (recovery + 256 - 27) mod 256) mod 256))%Z.

Definition signed_fields (chainID nonce gasPrice gasLimit : Z) (to data sig : bytes) : list bytes :=
  [rlpEncodeBigInt (Some nonce); rlpEncodeBigInt (Some gasPrice); rlpEncodeBigInt (Some gasLimit);
   rlpEncodeBytes to; rlpEncodeBigInt (Some 0%Z); rlpEncodeBytes data;
   rlpEncodeBigInt (Some (signature_v chainID (be_value (part 0 1 sig))));
   rlpEncodeBigInt (Some (Z.of_N (be_value (part 1 33 sig))));
   rlpEncodeBigInt (Some (Z.of_N (be_value (part 33 65 sig))))].

Definition signLegacyTransaction (chainID nonce gasPrice gasLimit : Z) (to data privateKeyHex : string) : result string :=
  let? privateKey := release_key privateKeyHex in
  let? encodedTo := wrapping "encode recipient" (decodeHexBytes to 20) in
  let? decoded := mustDecodeHex data in
  let signingPayload := rlpEncodeList (unsigned_fields chainID nonce gasPrice gasLimit encodedTo decoded) in
  let digest := keccak256 (string_of_list_ascii signingPayload) in
  let sig := list_ascii_of_string (SignCompact privateKey digest) in
  if negb (length sig =? 65) then
    Err (Errorf ("unexpected compact signature length " +:+ format_int (Z.of_nat (length sig))))
  else
    let signedPayload := rlpEncodeList (signed_fields chainID nonce gasPrice gasLimit encodedTo decoded sig) in
    Ok ("0x" +:+ EncodeToString (string_of_list_ascii signedPayload)).
End transaction.

(** ** Reading RLP, as the yellow paper defines it *)

(** A header whose short form starts at [base]: the length it announces, and
    what follows. *)
Definition rlp_header (base : N) (head : ascii) (rest : bytes) : option (nat * bytes) :=
  let n := N_of_ascii head in
  if (n <? base)%N then None
  else if (n <=? base + 55)%N then Some (N.to_nat (n - base), rest)
  else if (n <=? base + 63)%N then
    let k := N.to_nat (n - (base + 55)) in Some (N.to_nat (be_value (take k rest)), drop k rest)
  else None.

Definition rlp_item (l : bytes) : option (bytes * bytes) :=
  match l with
  | [] => None
  | c :: rest =>
      if (N_of_ascii c <? 128)%N then Some ([c], rest)
      else '(n, body) ← rlp_header 128 c rest; Some (take n body, drop n body)
  end.

Fixpoint rlp_items (fuel : nat) (l : bytes) : option (list bytes) :=
  match fuel, l with
  | _, [] => Some []
  | O, _ => None
  | S fuel, _ => '(item, rest) ← rlp_item l; items ← rlp_items fuel rest; Some (item :: items)
  end.

Definition rlp_list (l : bytes) : option (list bytes) :=
  match l with
  | [] => None
  | c :: rest => '(n, body) ← rlp_header 192 c rest; if n =? length body then rlp_items n body else None
  end.

Lemma N_byte_of n : (n < 256)%N -> N_of_ascii (byte_of n) = n.
Proof. intros Hn. unfold byte_of. by rewrite N.mod_small, N_ascii. Qed.

Lemma length_loop_spec fuel value encoded : (value < 256 ^ N.of_nat fuel)%N ->
  exists l, length_loop fuel value encoded = l ++ encoded /\ be_value l = value /\ length l <= fuel /\ (value <> 0%N -> l <> []).
Proof.
  revert value encoded. induction fuel as [|fuel IH]; intros value encoded Hvalue; cbn [length_loop].
  { exists []. cbn in *. split_and!; [done| |lia|lia]. unfold be_value. cbn. lia. }
  rewrite Nat2N.inj_succ, N.pow_succ_r' in Hvalue. destruct (N.eqb_spec value 0) as [->|Hne].
  { exists []. split_and!; [done|done|cbn; lia|done]. }
  assert (Hdiv : N.shiftr value 8 = (value / 256)%N) by (by rewrite N.shiftr_div_pow2).
  assert (Hmod : N.land value 255 = (value mod 256)%N) by (exact (N.land_ones value 8)).
  rewrite Hdiv, Hmod. edestruct (IH (value / 256)%N (byte_of (value mod 256) :: encoded)) as (l & -> & Hl & Hlen & _).
  { apply N.Div0.div_lt_upper_bound. lia. }
  exists (l ++ [byte_of (value mod 256)]). split_and!.
  - by rewrite <- app_assoc.
  - rewrite be_value_app, Hl, N_byte_of by (by apply N.mod_lt). pose proof (N.div_mod' value 256). lia.
  - rewrite length_app. cbn. lia.
  - intros _ Hnil%(f_equal length). rewrite length_app in Hnil. cbn in Hnil. lia.
Qed.

(** A header announces the length it was made for. *)
Lemma short_header base n rest : (base <= 192)%N -> n <= 55 ->
  rlp_header base (byte_of (base + N.of_nat n)) rest = Some (n, rest).
Proof.
  intros Hbase Hn. unfold rlp_header. cbv zeta. rewrite N_byte_of by lia.
  destruct (N.ltb_spec (base + N.of_nat n) base); [lia|].
  destruct (N.leb_spec (base + N.of_nat n) (base + 55)); [|lia]. do 2 f_equal. lia.
Qed.

Lemma long_header base n rest : (base <= 192)%N -> 0 < n -> (Z.of_nat n < two63)%Z ->
  exists c l, rlpEncodeLength n (base + 55) = c :: l /\ rlp_header base c (l ++ rest) = Some (n, rest) /\ (128 <= base -> 128 <= N_of_ascii c)%N.
Proof.
  intros Hbase Hpos Hn. unfold rlpEncodeLength. destruct (Nat.eqb_spec n 0); [lia|]. cbv zeta.
  destruct (length_loop_spec 8 (N.of_nat n) []) as (l & Hl & Hvalue & Hlen & Hne).
  { change (256 ^ N.of_nat 8)%N with (Z.to_N (2 * two63)). unfold two63 in *. lia. }
  rewrite app_nil_r in Hl. rewrite Hl. eexists _, l. split; [done|].
  assert (Hl0 : length l <> 0) by (destruct l; [exfalso; apply Hne; [lia|done]|done]).
  unfold rlp_header. cbv zeta. rewrite N_byte_of by lia.
  destruct (N.ltb_spec (base + 55 + N.of_nat (length l)) base); [lia|].
  destruct (N.leb_spec (base + 55 + N.of_nat (length l)) (base + 55)); [lia|].
  destruct (N.leb_spec (base + 55 + N.of_nat (length l)) (base + 63)); [|lia].
  replace (N.to_nat (base + 55 + N.of_nat (length l) - (base + 55))) with (length l) by lia.
  rewrite take_app_length, drop_app_length, Hvalue, Nat2N.id. split; [done|lia].
Qed.

Lemma rlp_item_encoded l rest : (Z.of_nat (length l) < two63)%Z ->
  rlp_item (rlpEncodeBytes l ++ rest) = Some (l, rest).
Proof.
  intros Hl. assert (Hmany : length l <> 1 -> rlp_item ((if length l <=? 55 then byte_of (128 + N.of_nat (length l)) :: l
         else rlpEncodeLength (length l) 183 ++ l) ++ rest) = Some (l, rest)).
  { intros _. destruct (Nat.leb_spec (length l) 55) as [Hs|Hs].
    - cbn [app rlp_item]. rewrite N_byte_of by lia. destruct (N.ltb_spec (128 + N.of_nat (length l)) 128); [lia|].
      rewrite short_header by lia. cbn. by rewrite take_app_length, drop_app_length.
    - destruct (long_header 128 (length l) (l ++ rest)) as (c & w & Hw & Hhead & Hc); [lia..|].
      change (128 + 55)%N with 183%N in Hw. rewrite Hw, <- app_assoc. cbn [app rlp_item].
      destruct (N.ltb_spec (N_of_ascii c) 128); [lia|]. rewrite Hhead. cbn. by rewrite take_app_length, drop_app_length. }
  unfold rlpEncodeBytes. destruct l as [|c [|c' l]]; [by apply Hmany| |by apply Hmany].
  destruct (N.ltb_spec (N_of_ascii c) 128) as [Hc|Hc]; cbn [app rlp_item].
  - destruct (N.ltb_spec (N_of_ascii c) 128); [done|lia].
  - done.
Qed.

Lemma rlpEncodeBytes_length l : length l <= length (rlpEncodeBytes l) /\ 0 < length (rlpEncodeBytes l).
Proof.
  unfold rlpEncodeBytes, rlpEncodeLength. destruct l as [|c [|c' l]]; [cbn; lia| |].
  - case_match; cbn; lia.
  - case_match; [cbn; lia|]. cbv zeta. destruct (_ =? 0); rewrite length_app; cbn [length]; lia.
Qed.

Lemma rlp_items_encoded fuel items : length (concat (map rlpEncodeBytes items)) <= fuel ->
  (Z.of_nat (length (concat (map rlpEncodeBytes items))) < two63)%Z ->
  rlp_items fuel (concat (map rlpEncodeBytes items)) = Some items.
Proof.
  revert fuel. induction items as [|l items IH]; intros fuel Hfuel Hlen; cbn [map concat] in *; [by destruct fuel|].
  rewrite length_app in *. pose proof (rlpEncodeBytes_length l) as [Hl Hpos].
  destruct fuel as [|fuel]; [lia|]. pose proof (rlp_item_encoded l (concat (map rlpEncodeBytes items))) as Hitem.
  destruct (rlpEncodeBytes l) as [|c t]; [cbn in Hpos; lia|]. cbn [app rlp_items] in *. rewrite Hitem by lia. cbn.
  rewrite IH; [done|lia|lia].
Qed.

Lemma rlp_list_encoded items : (Z.of_nat (length (concat (map rlpEncodeBytes items))) < two63)%Z ->
  rlp_list (rlpEncodeList (map rlpEncodeBytes items)) = Some items.
Proof.
  intros Hlen. unfold rlpEncodeList. cbv zeta. set (payload := concat (map rlpEncodeBytes items)) in *.
  assert (Hitems : rlp_items (length payload) payload = Some items) by (by apply rlp_items_encoded).
  destruct (Nat.leb_spec (length payload) 55) as [Hs|Hs].
  - cbn [rlp_list]. rewrite short_header by lia. cbn. by rewrite Nat.eqb_refl.
  - destruct (long_header 192 (length payload) payload) as (c & w & Hw & Hhead & _); [lia..|].
    change (192 + 55)%N with 247%N in Hw. rewrite Hw. cbn [app rlp_list]. rewrite Hhead. cbn. by rewrite Nat.eqb_refl.
Qed.

(** ** The transaction, read back *)

Lemma rlpEncodeBigInt_bytes v : rlpEncodeBigInt (Some v) = rlpEncodeBytes (big_Bytes (Z.to_N v)).
Proof.
  unfold rlpEncodeBigInt. destruct (Z.leb_spec v 0); [|done].
  by replace (Z.to_N v) with 0%N by lia.
Qed.

Lemma rlpEncodeBytes_bound l : (Z.of_nat (length l) < two63)%Z -> length (rlpEncodeBytes l) <= length l + 9.
Proof.
  intros Hl. assert (Hmany : length (rlpEncodeLength (length l) 183) <= 9).
  { unfold rlpEncodeLength. case_match; [cbn; lia|]. cbv zeta.
    destruct (length_loop_spec 8 (N.of_nat (length l)) []) as (w & -> & _ & Hw & _).
    { change (256 ^ N.of_nat 8)%N with (Z.to_N (2 * two63)). unfold two63 in *. lia. }
    rewrite app_nil_r. cbn. lia. }
  unfold rlpEncodeBytes. destruct l as [|c [|c' l]]; [cbn; lia| |].
  - case_match; cbn; lia.
  - case_match; [cbn; lia|]. rewrite length_app. cbn [length] in *. lia.
Qed.

Lemma fields_bound (items : list bytes) : Forall (fun l => Z.of_nat (length l) < two63)%Z items ->
  length (concat (map rlpEncodeBytes items)) <= sum_list_with length items + 9 * length items.
Proof.
  induction 1 as [|l items Hl _ IH]; cbn [map concat sum_list_with length]; [done|].
  rewrite length_app. pose proof (rlpEncodeBytes_bound l Hl). lia.
Qed.

(** The bytes of a number. *)
Definition number (v : Z) : bytes := big_Bytes (Z.to_N v).

Lemma number_length v : (v < 2 ^ 264)%Z -> length (number v) <= 33.
Proof.
  intros Hv. unfold number. rewrite big_Bytes_length. apply byte_count_le.
  change (256 ^ N.of_nat 33)%N with (Z.to_N (2 ^ 264)). lia.
Qed.

Section transaction_read.
Context `{Signing}.

Definition unsigned_items (chainID nonce gasPrice gasLimit : Z) (to data : bytes) : list bytes :=
  [number nonce; number gasPrice; number gasLimit; to; []; data; number chainID; []; []].
Definition signed_items (chainID nonce gasPrice gasLimit : Z) (to data sig : bytes) : list bytes :=
  [number nonce; number gasPrice; number gasLimit; to; []; data;
   number (signature_v chainID (be_value (part 0 1 sig)));
   number (Z.of_N (be_value (part 1 33 sig))); number (Z.of_N (be_value (part 33 65 sig)))].

Lemma part_value_bound lo hi (l : bytes) : hi - lo <= 33 -> (Z.of_N (be_value (part lo hi l)) < 2 ^ 264)%Z.
Proof.
  intros Hle. pose proof (be_value_bounded (part lo hi l)) as Hb.
  assert (Hlen : length (part lo hi l) <= 33) by (unfold part; rewrite length_take; lia).
  assert (Hpow : (256 ^ N.of_nat (length (part lo hi l)) <= 256 ^ 33)%N) by (apply N.pow_le_mono_r; lia).
  change (256 ^ 33)%N with (Z.to_N (2 ^ 264)) in Hpow. lia.
Qed.

Lemma fields_read (items : list bytes) : sum_list_with length items + 9 * length items < Z.to_nat two63 ->
  rlp_list (rlpEncodeList (map rlpEncodeBytes items)) = Some items.
Proof.
  intros Hsum. assert (Hall : Forall (fun l => Z.of_nat (length l) < two63)%Z items).
  { assert (Hle : forall l, l ∈ items -> length l <= sum_list_with length items).
    { clear. induction items as [|m items IH]; intros l Hin; [by apply elem_of_nil in Hin|].
      cbn. apply elem_of_cons in Hin as [->|Hin]; [lia|]. specialize (IH l Hin). lia. }
    apply Forall_forall. intros l Hl. specialize (Hle l Hl). lia. }
  apply rlp_list_encoded. pose proof (fields_bound items Hall). lia.
Qed.

(** C24: the signed transaction is the one that was asked for. If signing
    succeeds, what is signed is an RLP list of exactly the nonce, gas price, gas
    limit, gateway, zero value, calldata and chain id, and the raw transaction is
    the hexadecimal text of an RLP list of the same fields followed by the v, r
    and s of the signature over it, v as EIP-155 defines it. *)
Theorem signed_transaction_decodes (chainID nonce gasPrice gasLimit : Z) (to data key raw : string) :
  signLegacyTransaction chainID nonce gasPrice gasLimit to data key = Ok raw ->
  Forall (fun v => v < 2 ^ 256)%Z [chainID; nonce; gasPrice; gasLimit] ->
  (forall d, mustDecodeHex data = Ok d -> Z.of_nat (length d) < 2 ^ 62)%Z ->
  exists privateKey encodedTo decoded sig signed,
    release_key key = Ok privateKey /\ decodeHexBytes to 20 = Ok encodedTo /\ mustDecodeHex data = Ok decoded /\
    raw = hex_bytes signed /\ length sig = 65 /\
    (let unsigned := rlpEncodeList (unsigned_fields chainID nonce gasPrice gasLimit encodedTo decoded) in
     sig = list_ascii_of_string (SignCompact privateKey (keccak256 (string_of_list_ascii unsigned))) /\
     rlp_list unsigned = Some (unsigned_items chainID nonce gasPrice gasLimit encodedTo decoded)) /\
    rlp_list signed = Some (signed_items chainID nonce gasPrice gasLimit encodedTo decoded sig).
Proof.
  intros Hsign Hnum Hdata. unfold signLegacyTransaction in Hsign.
  destruct (release_key key) as [privateKey|]; [|done]. cbn [res_bind] in Hsign.
  destruct (decodeHexBytes to 20) as [encodedTo|[]] eqn:Hto; try done. cbn [wrapping res_bind] in Hsign.
  destruct (mustDecodeHex data) as [decoded|] eqn:Hdec; [|done]. cbn [res_bind] in Hsign. cbv zeta in Hsign.
  specialize (Hdata decoded eq_refl). apply decodeHexBytes_length in Hto.
  case_match eqn:Hsig; [done|]. apply negb_false_iff, Nat.eqb_eq in Hsig. apply (inj Ok) in Hsign as <-.
  match type of Hsig with length ?s = _ => set (sig := s) in * end.
  repeat (apply Forall_cons in Hnum as [? Hnum]).
  exists privateKey, encodedTo, decoded, sig, (rlpEncodeList (signed_fields chainID nonce gasPrice gasLimit encodedTo decoded sig)).
  split_and!; try done.
  - cbv zeta. split; [done|]. unfold unsigned_fields. rewrite !rlpEncodeBigInt_bytes.
    apply (fields_read (unsigned_items chainID nonce gasPrice gasLimit encodedTo decoded)).
    unfold unsigned_items. cbn [sum_list_with length].
    pose proof (number_length chainID). pose proof (number_length nonce). pose proof (number_length gasPrice).
    pose proof (number_length gasLimit). unfold two63. lia.
  - unfold signed_fields. rewrite !rlpEncodeBigInt_bytes.
    apply (fields_read (signed_items chainID nonce gasPrice gasLimit encodedTo decoded sig)).
    unfold signed_items. cbn [sum_list_with length].
    assert (Hv : (signature_v chainID (be_value (part 0 1 sig)) < 2 ^ 264)%Z).
    { unfold signature_v. pose proof (N.mod_lt (35 + (be_value (part 0 1 sig) + 256 - 27) mod 256) 256). lia. }
    pose proof (number_length _ Hv). pose proof (number_length nonce). pose proof (number_length gasPrice).
    pose proof (number_length gasLimit).
    pose proof (number_length _ (part_value_bound 1 33 sig ltac:(lia))).
    pose proof (number_length _ (part_value_bound 33 65 sig ltac:(lia))). unfold two63. lia.
Qed.
End transaction_read.

(** ** A concrete transaction *)

#[local] Existing Instance toy_crypto.

#[local] Instance wide_signing : Signing := {|
  PrivateKey := ascii;
  PrivKeyFromBytes := fun s => match s with String c _ => c | EmptyString => Ascii.zero end;
  IsZero := fun c => N.eqb (N_of_ascii c) 0;
  PubKey := fun c => String c EmptyString;
  SignCompact := fun c digest => String (byte_of 28) (digest +:+ digest)
|}.

Definition demo_gateway : string := "0x00000000000000000000000000000000000000ff".
Definition demo_raw : string :=
  match signLegacyTransaction 11155111 3 20000000000 500000 demo_gateway "0x3418e653" "0x41" with Ok raw => raw | Err _ => EmptyString end.

Lemma signed_transaction_decodes_witness :
  exists encodedTo decoded sig signed, demo_raw = hex_bytes signed /\
    rlp_list signed = Some (signed_items 11155111 3 20000000000 500000 encodedTo decoded sig) /\
    EncodeToString (string_of_list_ascii decoded) = "3418e653"%string.
Proof.
  assert (Hrun : signLegacyTransaction 11155111 3 20000000000 500000 demo_gateway "0x3418e653" "0x41" = Ok demo_raw)
    by (by vm_compute).
  destruct (signed_transaction_decodes _ _ _ _ _ _ _ _ Hrun) as (sk & to & decoded & sig & signed & _ & _ & Hdec & Hraw & _ & _ & Hsigned).
  - repeat constructor.
  - intros d Hd. assert (Hlen : length <$> Some d = Some 4); [|injection Hlen as ->; done].
    transitivity (match mustDecodeHex "0x3418e653" with Ok d => Some (length d) | Err _ => None end); [by rewrite Hd|by vm_compute].
  - exists to, decoded, sig, signed. split; [exact Hraw|]. split; [exact Hsigned|].
    assert (Heq : mustDecodeHex "0x3418e653" = Ok (list_ascii_of_string (String (byte_of 52) (String (byte_of 24)
      (String (byte_of 230) (String (byte_of 83) EmptyString)))))) by (by vm_compute).
    rewrite Hdec in Heq. apply (inj Ok) in Heq as ->. by vm_compute.
Defined.
