(* ===== verification/EvmRpc.v ===== *)
(** [relayer/internal/evm] (rpc_source.go, rpc_release.go): reading deposits
    from an Ethereum node and sending releases to it. *)

From S2P Require Import Prelude.
From S2P Require Import GoStrings.
From S2P Require Import Sha256.
From S2P Require Import Bytes.
From S2P Require Import Errors.
From S2P Require Import BridgeTypes.
From S2P Require Import Watchers.
From S2P Require Import EvmAbi.
From S2P Require Import Bridge.
From S2P Require Import Collector.
From S2P Require Import Rlp.
From Stdlib Require Import Ascii String.
From stdpp Require Import strings.

(** ** JSON-RPC *)

(** A JSON value, as far as the callers look at it. *)
Inductive rpc_value :=
| RpcNull
| RpcText (s : string)
| RpcTexts (l : list string)
| RpcLogs (l : list rpcLog)
| RpcReceipt (transactionHash status : string)
| RpcOther.

Inductive rpc_param :=
| ParamText (s : string)
| ParamFilter (fromBlock toBlock address : string) (topics : list string)
| ParamTransaction (from to data : string).

(** The body of a response: what is not the expected document, or the result
    and the message of the error; a missing result is [None]. *)
Inductive rpc_body :=
| NotEnvelope
| Envelope (rpc_result : option rpc_value) (rpc_error : option string).

Record http_response := mk_http { StatusCode : N; StatusLine : string; Body : rpc_body }.

(** The node and the connection to it; [ctx_Err], the clock and the pause are
    those of the caller's process. *)
Class EthNode (W : Type) := {
  Post : string -> string -> list rpc_param -> Op W http_response;
  ctx_Err : W -> option error;
  Now : Op W Z;
  Sleep : Z -> Op W unit
}.

Definition temporarySubstrings : list string :=
  ["exceeded its compute units per second capacity"; "rate limit"; "too many requests"; "throughput"]%string.

Definition isTemporaryRPCMessage (message : string) : bool :=
  let normalized := ToLower (TrimSpace message) in
  if decide (normalized = EmptyString) then false else existsb (Contains normalized) temporarySubstrings.

Definition json_error : error := Errorf "json: cannot decode the value".
Definition result_of (r : option rpc_value) : result rpc_value :=
  match r with Some v => Ok v | None => Err json_error end.

(** [json.Unmarshal] into a string, a list of texts and a list of logs; [null]
    leaves the variable as it was. *)
Definition as_text (v : rpc_value) : result string :=
  match v with RpcText s => Ok s | RpcNull => Ok EmptyString | _ => Err json_error end.
Definition as_texts (v : rpc_value) : result (list string) :=
  match v with RpcTexts l => Ok l | RpcNull => Ok [] | _ => Err json_error end.
Definition as_logs (v : rpc_value) : result (list rpcLog) :=
  match v with RpcLogs l => Ok l | RpcNull => Ok [] | _ => Err json_error end.
Definition as_receipt (v : rpc_value) : result (string * string) :=
  match v with RpcReceipt h s => Ok (h, s) | _ => Err json_error end.

Definition is_null (v : rpc_value) : bool := match v with RpcNull => true | _ => false end.

Definition parseHexBigInt (v : rpc_value) : result Z := let? encoded := as_text v in parseHexBigIntString encoded.
Definition parseHexUint64 (v : rpc_value) : result N :=
  let? value := parseHexBigInt v in as_uint64 (Errorf "hex value exceeds uint64") value.

Definition maxDepositLogRange : N := 10.

Definition chunkedLogRangeEnd (fromBlock toBlock : N) : N :=
  if (toBlock <=? fromBlock)%N then toBlock
  else if (maxDepositLogRange <=? 1)%N then fromBlock
  else
    let maxEnd := u64 (u64_add fromBlock maxDepositLogRange + two64 - 1) in
    if (maxEnd <? fromBlock)%N || (toBlock <? maxEnd)%N then toBlock else maxEnd.

Section rpc.
Context {W : Type} `{EthNode W}.

(** ** The source of deposits *)

Section source.
Context (rpcURL gatewayAddress : string).

Definition rpcCall (method : string) (params : list rpc_param) : Op W rpc_value :=
  let! resp := Post rpcURL method params in
  throw_if (N.eqb (StatusCode resp) 429) (TemporaryError (Errorf ("rpc rate limited with " +:+ StatusLine resp))) ;;;
  match Body resp with
  | NotEnvelope => throw json_error
  | Envelope _ (Some message) =>
      throw (if isTemporaryRPCMessage message then TemporaryError (Errorf message) else Errorf message)
  | Envelope r None => lift (result_of r)
  end.

Definition LatestBlock : Op W N :=
  throw_if (bool_decide (rpcURL = EmptyString)) (Sentinel ErrEVMSourceUnavailable) ;;;
  let! raw := rpcCall "eth_blockNumber" [] in lift (parseHexUint64 raw).

Fixpoint decode_logs (chainID : string) (logs : list rpcLog) : result (list DepositEvent) :=
  match logs with
  | [] => Ok []
  | log :: rest =>
      let? event := decodeDepositEvent log chainID in
      let? events := decode_logs chainID rest in
      Ok (event :: events)
  end.

(** The logs of one range of blocks. *)
Definition fetch (chainID : string) (start end_ : N) : Op W (list DepositEvent) :=
  let! rawLogs := rpcCall "eth_getLogs"
    [ParamFilter (toHexUint64 start) (toHexUint64 end_) gatewayAddress [depositInitiatedTopic]] in
  let! logs := lift (as_logs rawLogs) in
  lift (decode_logs chainID logs).

Fixpoint fetch_from (fuel : nat) (chainID : string) (start toBlock : N) (events : list DepositEvent)
    : Op W (list DepositEvent) :=
  match fuel with
  | O => ret events
  | S fuel =>
      if (start <=? toBlock)%N then
        let end_ := chunkedLogRangeEnd start toBlock in
        let! found := fetch chainID start end_ in
        let events := events ++ found in
        if N.eqb end_ max_uint64 || (toBlock <=? end_)%N then ret events
        else fetch_from fuel chainID (u64_incr end_) toBlock events
      else ret events
  end.

Definition DepositEvents (fromBlock toBlock : N) : Op W (list DepositEvent) :=
  throw_if (bool_decide (rpcURL = EmptyString) || bool_decide (gatewayAddress = EmptyString))
    (Sentinel ErrEVMSourceUnavailable) ;;;
  let! rawChainID := rpcCall "eth_chainId" [] in
  let! chainID := lift (parseHexBigInt rawChainID) in
  fetch_from (S (N.to_nat (toBlock - fromBlock))) (format_int chainID) fromBlock toBlock [].

(** The source as the watcher polls it. *)
Definition rpc_source (w : W) : Source DepositEvent :=
  mk_source (fst (LatestBlock w)) (fun a b => fst (DepositEvents a b (snd (LatestBlock w)))).
End source.

(** ** The target of releases *)

Record RPCReleaseTarget := mk_target {
  rpcURL : string;
  targetGateway : string;
  releaseSignerPrivateKey : string;
  releaseSignerAddress : string
}.

Definition NewRPCReleaseTargetWithSigner (url gateway key address : string) : RPCReleaseTarget :=
  mk_target (TrimSpace url) (TrimSpace gateway) (TrimSpace key) (TrimSpace address).

(** The call of the target does not look at the HTTP status. *)
Definition target_call (t : RPCReleaseTarget) (method : string) (params : list rpc_param) : Op W rpc_value :=
  let! resp := Post (rpcURL t) method params in
  match Body resp with
  | NotEnvelope => throw json_error
  | Envelope _ (Some message) => throw (Errorf message)
  | Envelope r None => lift (result_of r)
  end.

Definition quantity (t : RPCReleaseTarget) (method : string) (params : list rpc_param) : Op W Z :=
  let! raw := target_call t method params in lift (parseHexBigInt raw).

Definition senderAccount (t : RPCReleaseTarget) : Op W string :=
  let! raw := target_call t "eth_accounts" [] in
  let! accounts := lift (as_texts raw) in
  some_or (head accounts) (Errorf "no unlocked ethereum accounts available").

Definition check_ctx : Op W unit := query (fun w => match ctx_Err w with Some e => Err e | None => Ok tt end).

Fixpoint receipt_loop (fuel : nat) (t : RPCReleaseTarget) (txHash : string) (deadline : Z) : Op W unit :=
  match fuel with
  | O => throw (Errorf ("timed out waiting for release transaction " +:+ txHash))
  | S fuel =>
      let! now := Now in
      if (now <? deadline)%Z then
        check_ctx ;;;
        let! raw := target_call t "eth_getTransactionReceipt" [ParamText txHash] in
        if is_null raw then Sleep 100 ;;; receipt_loop fuel t txHash deadline
        else
          let! receipt := lift (as_receipt raw) in
          let! status := lift (wrapping "parse release receipt status" (parseHexStringUint64 (snd receipt))) in
          throw_if (negb (N.eqb status 1))
            (Errorf ("release transaction " +:+ txHash +:+ " reverted with status " +:+ snd receipt))
      else throw (Errorf ("timed out waiting for release transaction " +:+ txHash))
  end.

(** Ten seconds, in pauses of a tenth; times are in milliseconds. *)
Definition waitForReceipt (t : RPCReleaseTarget) (txHash : string) : Op W unit :=
  let! start := Now in receipt_loop 101 t txHash (start + 10000).

(** The transaction has been sent: its hash, once there is a receipt. *)
Definition confirmed (t : RPCReleaseTarget) (txHashRaw : rpc_value) : Op W string :=
  let! txHash := lift (as_text txHashRaw) in
  throw_if (blank txHash) (Errorf "missing transaction hash") ;;;
  waitForReceipt t txHash ;;;
  ret txHash.
End rpc.

Section release.
Context {W : Type} `{EthNode W} `{Signing}.

Definition releaseSenderAddress (t : RPCReleaseTarget) : result string :=
  let trimmed := TrimSpace (releaseSignerAddress t) in
  if negb (bool_decide (trimmed = EmptyString)) then Ok trimmed
  else if blank (releaseSignerPrivateKey t) then Err (Errorf "missing release signer private key")
  else SignerAddressFromPrivateKeyHex (releaseSignerPrivateKey t).

Definition releaseWithdrawalWithSigner (t : RPCReleaseTarget) (data : string) : Op W string :=
  let! sender := lift (releaseSenderAddress t) in
  let! chainID := quantity t "eth_chainId" [] in
  let! nonce := quantity t "eth_getTransactionCount" [ParamText sender; ParamText "pending"] in
  let! gasPrice := quantity t "eth_gasPrice" [] in
  let! rawTx := lift (signLegacyTransaction chainID nonce gasPrice 500000 (targetGateway t) data (releaseSignerPrivateKey t)) in
  let! txHashRaw := target_call t "eth_sendRawTransaction" [ParamText rawTx] in
  confirmed t txHashRaw.

Definition ReleaseOverRPC (t : RPCReleaseTarget) (request : ReleaseRequest) : Op W string :=
  check_ctx ;;;
  throw_if (bool_decide (rpcURL t = EmptyString) || bool_decide (targetGateway t = EmptyString))
    (Sentinel ErrReleaseUnavailable) ;;;
  let! data := lift (encodeReleaseCalldata request) in
  if negb (bool_decide (releaseSignerPrivateKey t = EmptyString)) then releaseWithdrawalWithSigner t data
  else
    let! sender := senderAccount t in
    let! txHashRaw := target_call t "eth_sendTransaction" [ParamTransaction sender (targetGateway t) data] in
    confirmed t txHashRaw.
End release.

(** ** Ranges *)

(** Consecutive ranges of at most ten blocks that cover [start] to [toBlock]
    exactly. *)
Fixpoint tiles (start toBlock : N) (ranges : list (N * N)) : Prop :=
  match ranges with
  | [] => (toBlock < start)%N
  | (a, b) :: rest => a = start /\ (a <= b <= toBlock)%N /\ (b - a < maxDepositLogRange)%N /\ tiles (b + 1) toBlock rest
  end.

Lemma chunk_end start toBlock : u64_ok toBlock -> (start <= toBlock)%N ->
  (start <= chunkedLogRangeEnd start toBlock <= toBlock)%N /\
  (chunkedLogRangeEnd start toBlock - start < maxDepositLogRange)%N.
Proof.
  unfold u64_ok, chunkedLogRangeEnd, maxDepositLogRange. intros Hok Hle.
  destruct (N.leb_spec toBlock start); [lia|]. destruct (N.leb_spec 10 1); [lia|]. cbv zeta.
  assert (Hmax : u64 (u64_add start 10 + two64 - 1) = ((start + 9) mod two64)%N).
  { unfold u64, u64_add, u64. unfold two64 in *.
    destruct (N.lt_ge_cases (start + 10) 18446744073709551616).
    - rewrite (N.mod_small (start + 10)) by lia. replace (start + 10 + _ - 1)%N with (start + 9 + 1 * 18446744073709551616)%N by lia.
      apply N.Div0.mod_add.
    - assert (Hs : ((start + 10) mod 18446744073709551616 = start + 10 - 18446744073709551616)%N)
        by (symmetry; apply (N.mod_unique _ _ 1); lia).
      rewrite Hs. f_equal. lia. }
  rewrite Hmax. destruct (N.lt_ge_cases (start + 9) two64).
  - rewrite N.mod_small by done. destruct (N.ltb_spec (start + 9) start); [lia|]. cbn [orb].
    destruct (N.ltb_spec toBlock (start + 9)); lia.
  - assert (Hs : ((start + 9) mod two64 = start + 9 - two64)%N) by (symmetry; apply (N.mod_unique _ _ 1); unfold two64 in *; lia).
    rewrite Hs. destruct (N.ltb_spec (start + 9 - two64) start); [cbn [orb]|unfold two64 in *; lia]. lia.
Qed.

Section ranges.
Context {W : Type} `{EthNode W} (rpcURL gatewayAddress : string).

Fixpoint fetch_all (chainID : string) (ranges : list (N * N)) : Op W (list DepositEvent) :=
  match ranges with
  | [] => ret []
  | (a, b) :: rest =>
      let! found := fetch rpcURL gatewayAddress chainID a b in
      let! more := fetch_all chainID rest in
      ret (found ++ more)
  end.

Lemma fetch_from_all fuel start toBlock : u64_ok toBlock -> N.to_nat (toBlock - start) < fuel ->
  exists ranges, tiles start toBlock ranges /\ forall chainID events w,
    fetch_from rpcURL gatewayAddress fuel chainID start toBlock events w =
    (let! more := fetch_all chainID ranges in ret (events ++ more)) w.
Proof.
  intros Hok. revert start. induction fuel as [|fuel IH]; intros start Hfuel; [lia|]. cbn [fetch_from].
  destruct (N.leb_spec start toBlock) as [Hle|Hgt].
  2: { exists []. split; [done|]. intros chainID events w. unfold bind, ret. cbn. by rewrite app_nil_r. }
  destruct (chunk_end start toBlock Hok Hle) as [Hend Hsize]. set (end_ := chunkedLogRangeEnd start toBlock) in *.
  assert (Hmax : (end_ =? max_uint64)%N = true -> (toBlock <= end_)%N).
  { intros ->%N.eqb_eq. unfold u64_ok, two64, max_uint64 in *. lia. }
  destruct ((end_ =? max_uint64)%N || (toBlock <=? end_)%N) eqn:Hstop.
  - exists [(start, end_)]. split.
    { cbn [tiles]. split_and!; try done; try lia. apply orb_true_iff in Hstop as [Hm|Hm]; [specialize (Hmax Hm); lia|].
      apply N.leb_le in Hm. lia. }
    intros chainID events w. cbn [fetch_all]. unfold bind, ret.
    destruct (fetch _ _ _ _ _ w) as [[found|e] w']; [|done]. by rewrite app_nil_r.
  - apply orb_false_iff in Hstop as [Hm Hmore]. apply N.leb_gt in Hmore. apply N.eqb_neq in Hm.
    assert (Hincr : u64_incr end_ = (end_ + 1)%N).
    { unfold u64_incr, u64_add, u64. apply N.mod_small. unfold u64_ok, two64, max_uint64 in *. lia. }
    rewrite Hincr. destruct (IH (end_ + 1)%N) as (ranges & Htiles & Hrun); [lia|].
    exists ((start, end_) :: ranges). split; [cbn [tiles]; split_and!; try done; lia|].
    intros chainID events w. cbn [fetch_all]. unfold bind, ret in *.
    destruct (fetch _ _ _ _ _ w) as [[found|e] w']; [|done]. rewrite Hrun.
    destruct (fetch_all chainID ranges w') as [[more|e] w'']; [|done]. by rewrite app_assoc.
Qed.

(** Reading a range of blocks asks for it in consecutive ranges of at most
    ten blocks that cover it exactly — no block twice, none left out, also next
    to the largest block number — and returns the events of the ranges in order;
    the loop ends when the last range has been read. *)
Theorem DepositEvents_ranges (fromBlock toBlock : N) :
  u64_ok toBlock -> exists ranges, tiles fromBlock toBlock ranges /\
  forall w : W, DepositEvents rpcURL gatewayAddress fromBlock toBlock w =
    (throw_if (bool_decide (rpcURL = EmptyString) || bool_decide (gatewayAddress = EmptyString))
       (Sentinel ErrEVMSourceUnavailable) ;;;
     let! raw := rpcCall rpcURL "eth_chainId" [] in
     let! chainID := lift (parseHexBigInt raw) in
     fetch_all (format_int chainID) ranges) w.
Proof.
  intros Hok. destruct (fetch_from_all (S (N.to_nat (toBlock - fromBlock))) fromBlock toBlock Hok ltac:(lia)) as (ranges & Htiles & Hrun).
  exists ranges. split; [done|]. intros w. unfold DepositEvents, bind.
  destruct (throw_if _ _ w) as [[[]|e] w0]; [|done]. destruct (rpcCall _ _ _ w0) as [[raw|e] w1]; [|done].
  destruct (lift (parseHexBigInt raw) w1) as [[chainID|e] w2]; [|done]. rewrite Hrun. unfold bind, ret.
  by destruct (fetch_all _ ranges w2) as [[events|e] w3].
Qed.

(** ** A node that tells the truth *)

Section honest_node.
Context (confirmations : N) (chain : Z) (deposits : list Deposit) (settled : W -> N -> Prop).

(** [settled w h]: the blocks up to [h] no longer change. *)
Hypothesis deposits_typed : Forall deposit_typed deposits.
Hypothesis settled_kept : forall method params w r w' h,
  rpcCall rpcURL method params w = (r, w') -> settled w h -> settled w' h.
Hypothesis tip_settles : forall w v w' latest,
  rpcCall rpcURL "eth_blockNumber" [] w = (Ok v, w') -> parseHexUint64 v = Ok latest ->
  (latest < max_uint64)%N /\ forall h, (h + confirmations <= latest)%N -> settled w' h.
Hypothesis chain_id : forall w v w',
  rpcCall rpcURL "eth_chainId" [] w = (Ok v, w') -> parseHexBigInt v = Ok chain.
Hypothesis settled_logs : forall a b w v w', (a <= b)%N -> settled w b ->
  rpcCall rpcURL "eth_getLogs" [ParamFilter (toHexUint64 a) (toHexUint64 b) gatewayAddress [depositInitiatedTopic]] w = (Ok v, w') ->
  exists logs, v = RpcLogs logs /\ logs ≡ₚ map deposit_log (filter (fun d => a <= DepBlock d < b + 1)%N deposits).

Definition emitted : list DepositEvent := map (deposit_event (format_int chain)) deposits.

Lemma decode_logs_perm logs ds : Forall deposit_typed ds -> logs ≡ₚ map deposit_log ds ->
  exists es, decode_logs (format_int chain) logs = Ok es /\ es ≡ₚ map (deposit_event (format_int chain)) ds.
Proof.
  intros Hds Hperm. apply Permutation_map_inv in Hperm as (ds' & -> & Hperm). 
  exists (map (deposit_event (format_int chain)) ds'). split; [|by rewrite Hperm]. rewrite Hperm in Hds. clear Hperm.
  induction Hds as [|d ds' Hd Hds IH]; cbn [map decode_logs]; [done|].
  rewrite (deposit_log_decodes (format_int chain) d Hd). cbn [res_bind]. by rewrite IH.
Qed.

Lemma fetch_settled a b w es w' : (a <= b)%N -> settled w b ->
  fetch rpcURL gatewayAddress (format_int chain) a b w = (Ok es, w') ->
  settled w' b /\ es ≡ₚ within BlockNumber emitted a (b + 1).
Proof.
  intros Hab Hsettled Hfetch. unfold fetch, bind, lift in Hfetch.
  destruct (rpcCall rpcURL "eth_getLogs" _ w) as [[v|e] w1] eqn:Hcall; [|done].
  pose proof (settled_kept _ _ _ _ _ _ Hcall Hsettled) as Hkept.
  destruct (settled_logs _ _ _ _ _ Hab Hsettled Hcall) as (logs & -> & Hlogs). cbn [as_logs] in Hfetch.
  destruct (decode_logs_perm logs (filter (fun d => a <= DepBlock d < b + 1)%N deposits)) as (es' & Hdec & Hes).
  { rewrite Forall_forall in deposits_typed |- *. intros d [_ Hd]%list_elem_of_filter. auto. }
  { exact Hlogs. }
  rewrite Hdec in Hfetch. injection Hfetch as <- <-. split; [done|]. rewrite Hes. unfold within, emitted.
  clear. induction deposits as [|d ds IH]; [done|]. cbn [map]. rewrite !filter_cons. cbn [BlockNumber deposit_event].
  case_decide; cbn [map]; [by apply Permutation_skip|done].
Qed.

Lemma settled_smaller_tiles start toBlock ranges w es w' :
  settled w toBlock -> (forall h, (h <= toBlock)%N -> settled w h) -> tiles start toBlock ranges ->
  fetch_all (format_int chain) ranges w = (Ok es, w') -> es ≡ₚ within BlockNumber emitted start (toBlock + 1).
Proof.
  revert start w es. induction ranges as [|[a b] ranges IH]; intros start w es Htip Hall Htiles Hrun; cbn [tiles fetch_all] in *.
  - injection Hrun as <- <-. unfold within. clear -Htiles. induction emitted as [|e l IH]; [done|].
    rewrite filter_cons, decide_False by lia. exact IH.
  - destruct Htiles as (-> & Hb & _ & Htiles). unfold bind, ret in Hrun.
    destruct (fetch _ _ _ start b w) as [[found|e] w1] eqn:Hfetch; [|done].
    destruct (fetch_all _ ranges w1) as [[more|e] w2] eqn:Hmore; [|done]. injection Hrun as <- <-.
    destruct (fetch_settled _ _ _ _ _ (proj1 Hb) (Hall b ltac:(lia)) Hfetch) as [_ Hfound].
    assert (Hall1 : forall h, (h <= toBlock)%N -> settled w1 h).
    { intros h Hh. unfold fetch, bind, lift in Hfetch. destruct (rpcCall rpcURL "eth_getLogs" _ w) as [[v|e] w3] eqn:Hcall; [|done].
      pose proof (settled_kept _ _ _ _ _ _ Hcall (Hall h Hh)). repeat case_match; by simplify_eq. }
    rewrite Hfound, (IH (b + 1)%N w1 more (Hall1 toBlock ltac:(lia)) Hall1 Htiles Hmore).
    unfold within. clear -Hb. induction emitted as [|e l IHl]; [done|]. rewrite !filter_cons.
    destruct (decide (start <= BlockNumber e < b + 1)%N), (decide (b + 1 <= BlockNumber e < toBlock + 1)%N),
      (decide (start <= BlockNumber e < toBlock + 1)%N); try lia; cbn [app].
    + by apply Permutation_skip.
    + rewrite <- IHl. symmetry. apply Permutation_middle.
    + done.
Qed.

(** C20: a truthful Ethereum node makes an honest source. If the node's answers
    about settled blocks are the gateway's deposits — in any order, and it may
    fail at any call — then what the relayer's RPC source returns for a range of
    confirmed blocks is, up to order, exactly the deposits of those blocks, each
    once, with the fields they were made with. *)
Theorem rpc_source_honest (w : W) :
  honest BlockNumber confirmations emitted (rpc_source rpcURL gatewayAddress w).
Proof.
  intros latest a b es Hlatest Hb Hes. cbn [rpc_source Latest Entries] in *.
  unfold LatestBlock in *. unfold bind, lift, throw_if, throw, ret in Hlatest, Hes.
  destruct (bool_decide (rpcURL = EmptyString)); [done|].
  destruct (rpcCall rpcURL "eth_blockNumber" [] w) as [[v|e] w1] eqn:Htip; cbn [fst snd] in *; [|done].
  destruct (tip_settles _ _ _ _ Htip Hlatest) as [Hmax Hsettles]. split; [done|].
  destruct (fetch_from_all (S (N.to_nat (b - a))) a b) as (ranges & Htiles & Hrun); [unfold u64_ok, two64, max_uint64 in *; lia|lia|].
  unfold DepositEvents, bind, lift, throw_if, throw, ret in Hes. destruct (_ || _); [done|].
  destruct (rpcCall rpcURL "eth_chainId" [] w1) as [[v2|e] w2] eqn:Hchain; cbn [fst] in *; [|done].
  rewrite (chain_id _ _ _ Hchain), Hrun in Hes. unfold bind, ret in Hes.
  destruct (fetch_all _ ranges w2) as [[more|e] w3] eqn:Hall; cbn [fst] in Hes; [|done]. injection Hes as <-.
  assert (Hsettled : forall h, (h <= b)%N -> settled w2 h).
  { intros h Hh. eapply settled_kept; [exact Hchain|]. apply Hsettles. lia. }
  by eapply settled_smaller_tiles; [apply Hsettled| |exact Htiles|exact Hall].
Qed.
End honest_node.
End ranges.

(** ** What is sent *)

Record rpc_record := mk_record { CallMethod : string; CallParams : list rpc_param; CallAnswer : result http_response }.

(** A node whose calls are written down. *)
#[local] Instance recorded {W} `{EthNode W} : EthNode (W * list rpc_record) := {|
  Post := fun url method params '(w, calls) =>
    let '(r, w') := Post url method params w in (r, (w', calls ++ [mk_record method params r]));
  ctx_Err := fun '(w, _) => ctx_Err w;
  Now := fun '(w, calls) => let '(r, w') := Now w in (r, (w', calls));
  Sleep := fun d '(w, calls) => let '(r, w') := Sleep d w in (r, (w', calls))
|}.

Definition sends (c : rpc_record) : Prop :=
  CallMethod c = "eth_sendTransaction"%string \/ CallMethod c = "eth_sendRawTransaction"%string.
#[local] Instance sends_dec c : Decision (sends c).
Proof. unfold sends. apply _. Defined.

(** The receipt of a transaction that succeeded. *)
Definition receipt_of (txHash : string) (c : rpc_record) : Prop :=
  CallMethod c = "eth_getTransactionReceipt"%string /\ CallParams c = [ParamText txHash] /\
  exists line code h status, CallAnswer c = Ok (mk_http code line (Envelope (Some (RpcReceipt h status)) None)) /\
    parseHexStringUint64 status = Ok 1%N.

Section sent.
Context {W : Type} `{EthNode W}.

(** [emits m Q]: [m] appends calls, and [Q] holds of its result and of them. *)
Definition emits {A} (m : Op (W * list rpc_record) A) (Q : result A -> list rpc_record -> Prop) : Prop :=
  forall w calls, exists new, snd (snd (m (w, calls))) = calls ++ new /\ Q (fst (m (w, calls))) new.

Lemma emits_weaken {A} (m : Op (W * list rpc_record) A) (Q Q' : _ -> _ -> Prop) :
  emits m Q -> (forall r new, Q r new -> Q' r new) -> emits m Q'.
Proof. intros Hm HQ w calls. destruct (Hm w calls) as (new & Hnew & Hr). exists new. auto. Qed.

Lemma emits_bind {A B} (m : Op (W * list rpc_record) A) (f : A -> Op (W * list rpc_record) B) Q1 Q2 (Q : _ -> _ -> Prop) :
  emits m Q1 -> (forall a, emits (f a) (Q2 a)) ->
  (forall e new, Q1 (Err e) new -> Q (Err e) new) ->
  (forall a r new new', Q1 (Ok a) new -> Q2 a r new' -> Q r (new ++ new')) ->
  emits (bind m f) Q.
Proof.
  intros Hm Hf Herr Hok w calls. destruct (Hm w calls) as (new & Hnew & Hr). unfold bind.
  destruct (m (w, calls)) as [[a|e] [w1 calls1]]; cbn [fst snd] in *; subst calls1.
  - destruct (Hf a w1 (calls ++ new)) as (new' & Hnew' & Hr'). exists (new ++ new'). rewrite Hnew', app_assoc.
    split; [done|]. exact (Hok _ _ _ _ Hr Hr').
  - exists new. split; [done|]. by apply Herr.
Qed.

(** No transaction is sent. *)
Definition quiet {A} (r : result A) (new : list rpc_record) : Prop := Forall (fun c => ~ sends c) new.

Lemma emits_pure {A} (m : Op (W * list rpc_record) A) : (forall s, snd (m s) = s) -> emits m (fun r new => new = []).
Proof. intros Hm w calls. exists []. rewrite Hm, app_nil_r. by split. Qed.

Lemma quiet_pure {A} (m : Op (W * list rpc_record) A) : (forall s, snd (m s) = s) -> emits m quiet.
Proof. intros Hm. eapply emits_weaken; [by apply emits_pure|]. intros r new ->. constructor. Qed.

Lemma quiet_bind {A B} (m : Op (W * list rpc_record) A) (f : A -> Op (W * list rpc_record) B) :
  emits m quiet -> (forall a, emits (f a) quiet) -> emits (bind m f) quiet.
Proof. intros Hm Hf. eapply emits_bind; [exact Hm|exact Hf|done|]. intros a r new new'. apply Forall_app_2. Qed.

Lemma call_emits t method params :
  emits (target_call t method params) (fun r new => exists answer, new = [mk_record method params answer] /\
    forall v, r = Ok v -> exists line code, answer = Ok (mk_http code line (Envelope (Some v) None))).
Proof.
  intros w calls. unfold target_call, bind. cbn [Post recorded].
  destruct (Post (rpcURL t) method params w) as [answer w']. exists [mk_record method params answer].
  destruct answer as [[code line body]|e]; cbn [Body].
  - destruct body as [|r [message|]]; unfold throw, lift; cbn [fst snd]; (split; [done|]); eexists; (split; [done|]); try done.
    destruct r as [v|]; [|done]. intros v' [= ->]. by exists line, code.
  - cbn [fst snd]. split; [done|]. eexists. split; [done|]. done.
Qed.

Lemma call_quiet t method params : ~ sends (mk_record method params (Err json_error)) ->
  emits (target_call t method params) quiet.
Proof.
  intros Hq. eapply emits_weaken; [apply call_emits|]. intros r new (answer & -> & _). by repeat constructor.
Qed.

Lemma quiet_clock {A} (m : Op (W * list rpc_record) A) : (forall w calls, snd (snd (m (w, calls))) = calls) -> emits m quiet.
Proof. intros Hm w calls. exists []. rewrite Hm, app_nil_r. split; [done|constructor]. Qed.

Lemma now_quiet : emits Now quiet.
Proof. apply quiet_clock. intros w calls. cbn. by destruct (Now w). Qed.
Lemma sleep_quiet d : emits (Sleep d) quiet.
Proof. apply quiet_clock. intros w calls. cbn. by destruct (Sleep d w). Qed.
Lemma ctx_quiet : emits check_ctx quiet.
Proof. by apply quiet_pure. Qed.

(** What the loop has seen when it succeeds. *)
Definition receipted (txHash : string) (r : result unit) (new : list rpc_record) : Prop :=
  Forall (fun c => ~ sends c) new /\ (r = Ok tt -> Exists (receipt_of txHash) new).

Lemma receipt_loop_emits fuel t txHash deadline : emits (receipt_loop fuel t txHash deadline) (receipted txHash).
Proof.
  assert (Hq : forall m : Op (W * list rpc_record) unit, emits m quiet -> (forall s, fst (m s) <> Ok tt) -> emits m (receipted txHash)).
  { intros m Hm Hne w calls. destruct (Hm w calls) as (new & Hnew & Hr). exists new. split; [done|].
    split; [done|]. intros Hok. by destruct (Hne (w, calls)). }
  induction fuel as [|fuel IH]; cbn [receipt_loop]; [apply Hq; [by apply quiet_pure|done]|].
  eapply (emits_bind _ _ quiet (fun _ => receipted txHash)); [apply now_quiet| |by intros e new; split|].
  2: { intros a r new new' Hn [Hn' Hr]. split; [by apply Forall_app_2|]. intros Hok. apply Exists_app. auto. }
  intros now. destruct (now <? deadline)%Z; [|apply Hq; [by apply quiet_pure|done]].
  eapply (emits_bind _ _ quiet (fun _ => receipted txHash)); [apply ctx_quiet| |by intros e new; split|].
  2: { intros a r new new' Hn [Hn' Hr]. split; [by apply Forall_app_2|]. intros Hok. apply Exists_app. auto. }
  intros _. eapply emits_bind; [apply call_emits| | |].
  - intros raw. instantiate (1 := fun raw r new => Forall (fun c => ~ sends c) new /\ (r = Ok tt ->
      Exists (receipt_of txHash) new \/ exists h status, raw = RpcReceipt h status /\ parseHexStringUint64 status = Ok 1%N)).
    cbn beta. destruct (is_null raw) eqn:Hnull.
    + eapply (emits_bind _ _ quiet (fun _ => receipted txHash)); [apply sleep_quiet|intros _; exact IH|by intros e new; split|].
      intros a r new new' Hn [Hn' Hr]. split; [by apply Forall_app_2|]. intros Hok. left. apply Exists_app. auto.
    + intros w calls. exists []. rewrite app_nil_r. unfold bind, lift, throw_if, throw, ret.
      destruct raw; cbn [as_receipt wrapping snd fst]; try by (split; [|split; [constructor|]]).
      destruct (parseHexStringUint64 status) as [n|[]] eqn:Hstatus; cbn [wrapping]; try by (split; [|split; [constructor|]]).
      destruct (N.eqb_spec n 1) as [->|]; cbn [negb]; (split; [done|]); (split; [constructor|]); [|done].
      intros _. right. eauto.
  - intros e new (answer & -> & _). split; [|done]. repeat constructor. intros [Hs|Hs]; discriminate Hs.
  - intros raw r new new' (answer & -> & Hanswer) [Hn' Hr]. split.
    { apply Forall_app_2; [|done]. repeat constructor. intros [Hs|Hs]; discriminate Hs. }
    intros Hok. apply Exists_app. destruct (Hr Hok) as [Hlater|(h & status & -> & Hone)]; [by right|left].
    destruct (Hanswer _ eq_refl) as (line & code & ->). constructor. split; [done|]. split; [done|]. by exists line, code, h, status.
Qed.
End sent.

Section released.
Context {W : Type} `{EthNode W} `{Signing}.

(** The call that sends the transaction of a request. *)
Definition sends_release (t : RPCReleaseTarget) (request : ReleaseRequest) (c : rpc_record) : Prop :=
  exists data, encodeReleaseCalldata request = Ok data /\
    ((CallMethod c = "eth_sendTransaction"%string /\
      exists sender, CallParams c = [ParamTransaction sender (targetGateway t) data]) \/
     (CallMethod c = "eth_sendRawTransaction"%string /\
      exists chainID nonce gasPrice raw, CallParams c = [ParamText raw] /\
        signLegacyTransaction chainID nonce gasPrice 500000 (targetGateway t) data (releaseSignerPrivateKey t) = Ok raw)).

(** Nothing is sent, or one transaction is; if the release succeeds it was
    answered with the hash that is returned, and a receipt of success for that
    hash followed. *)
Definition released (t : RPCReleaseTarget) (request : ReleaseRequest) (r : result string) (new : list rpc_record) : Prop :=
  (is_ok r = false /\ Forall (fun c => ~ sends c) new) \/
  exists before c after, new = before ++ c :: after /\
    Forall (fun c => ~ sends c) before /\ Forall (fun c => ~ sends c) after /\ sends_release t request c /\
    forall txHash, r = Ok txHash ->
      (exists line code, CallAnswer c = Ok (mk_http code line (Envelope (Some (RpcText txHash)) None))) /\
      Exists (receipt_of txHash) after.

Lemma released_bind {A} t request (m : Op (W * list rpc_record) A) f :
  emits m quiet -> (forall a, emits (f a) (released t request)) -> emits (bind m f) (released t request).
Proof.
  intros Hm Hf. eapply emits_bind; [exact Hm|exact Hf|by left|].
  intros a r new new' Hn [[He Hq]|(before & c & after & -> & Hb & Hrest)].
  - left. split; [done|by apply Forall_app_2].
  - right. exists (new ++ before), c, after. rewrite <- app_assoc. split; [done|]. split; [by apply Forall_app_2|done].
Qed.

Lemma confirmed_emits t txHashRaw : emits (confirmed t txHashRaw) (fun r new =>
  Forall (fun c => ~ sends c) new /\ forall txHash, r = Ok txHash -> txHashRaw = RpcText txHash /\ Exists (receipt_of txHash) new).
Proof.
  intros w calls. unfold confirmed, bind, lift.
  destruct (as_text txHashRaw) as [txHash|e] eqn:Htext; [|exists []; by rewrite app_nil_r].
  unfold throw_if, throw, ret. destruct (blank txHash) eqn:Hblank; [exists []; by rewrite app_nil_r|].
  assert (Hwait : emits (waitForReceipt t txHash) (receipted txHash)).
  { unfold waitForReceipt. eapply (emits_bind _ _ quiet (fun _ => receipted txHash));
      [apply now_quiet|intros start; apply receipt_loop_emits|by intros e new; split|].
    intros a r new new' Hn [Hn' Hr]. split; [by apply Forall_app_2|]. intros Hok. apply Exists_app. auto. }
  destruct (Hwait w calls) as (new & Hnew & Hq & Hr). exists new.
  destruct (waitForReceipt t txHash (w, calls)) as [[[]|e] [w1 calls1]]; cbn [fst snd] in *; (split; [done|]); (split; [done|]); [|done].
  intros h [= <-]. split; [|by apply Hr]. 
  destruct txHashRaw; cbn [as_text] in Htext; try discriminate Htext; apply (inj Ok) in Htext; subst; [|done].
  by vm_compute in Hblank.
Qed.

Lemma send_released t request data method params :
  encodeReleaseCalldata request = Ok data ->
  (forall answer, sends_release t request (mk_record method params answer)) ->
  emits (let! txHashRaw := target_call t method params in confirmed t txHashRaw) (released t request).
Proof.
  intros Hdata Hsend. eapply emits_bind; [apply call_emits|intros raw; apply confirmed_emits| |].
  - intros e new (answer & -> & _). right. exists [], (mk_record method params answer), [].
    split_and!; [done|constructor|constructor|apply Hsend|done].
  - intros raw r new new' (answer & -> & Hanswer) [Hq Hr]. right. exists [], (mk_record method params answer), new'.
    split_and!; [done|constructor|done|apply Hsend|].
    intros txHash Hok. destruct (Hr txHash Hok) as [-> Hreceipt]. split; [by apply Hanswer|done].
Qed.

Lemma quantity_quiet t method params : ~ sends (mk_record method params (Err json_error)) ->
  emits (quantity t method params) quiet.
Proof. intros Hq. apply quiet_bind; [by apply call_quiet|]. intros raw. by apply quiet_pure. Qed.

Lemma released_lift {A} t request (x : result A) (f : A -> Op (W * list rpc_record) string) :
  (forall a, x = Ok a -> emits (f a) (released t request)) -> emits (bind (lift x) f) (released t request).
Proof.
  intros Hf. destruct x as [a|e]; [exact (Hf a eq_refl)|]. intros w calls. exists []. rewrite app_nil_r.
  split; [done|]. left. by split.
Qed.

Lemma signer_released t request data : encodeReleaseCalldata request = Ok data ->
  emits (releaseWithdrawalWithSigner t data) (released t request).
Proof.
  intros Hdata. unfold releaseWithdrawalWithSigner. apply released_lift. intros sender _.
  do 3 (apply released_bind; [apply quantity_quiet; intros [Hs|Hs]; discriminate Hs|]; intros ?).
  apply released_lift. intros raw Hraw. apply (send_released t request data); [done|]. intros answer. exists data.
  split; [done|]. right. split; [done|]. eexists _, _, _, raw. split; [done|exact Hraw].
Qed.

Lemma filter_nothing (l : list rpc_record) : Forall (fun c => ~ sends c) l -> filter sends l = [].
Proof. induction 1 as [|c l Hc _ IH]; [done|]. by rewrite filter_cons, decide_False. Qed.

(** C7: a release is sent at most once and confirmed before it is reported.
    Whatever the node answers, one call of the target sends at most one
    transaction, and that one carries the calldata of the request to the gateway,
    signed by the release key or sent from the node's account; if the call
    reports success, the returned hash is the node's answer to that transaction
    and a receipt of that hash with status one was seen after it was sent. *)
Theorem release_sent_once (t : RPCReleaseTarget) (request : ReleaseRequest) (w : W) :
  let outcome := ReleaseOverRPC t request (w, []) in
  length (filter sends (snd (snd outcome))) <= 1 /\
  released t request (fst outcome) (snd (snd outcome)).
Proof.
  assert (Hemits : emits (W:=W) (ReleaseOverRPC t request) (released t request)).
  { unfold ReleaseOverRPC. apply released_bind; [apply ctx_quiet|]. intros _.
    apply released_bind; [apply quiet_pure; by destruct (_ || _)|]. intros _.
    apply released_lift. intros data Hdata. destruct (negb _); [by apply signer_released|].
    apply released_bind.
    { unfold senderAccount. apply quiet_bind; [apply call_quiet; intros [Hs|Hs]; discriminate Hs|]. intros raw.
      apply quiet_bind; [by apply quiet_pure|]. intros accounts. apply quiet_pure. by destruct accounts. }
    intros sender. apply (send_released t request data); [done|]. intros answer. exists data. split; [done|]. left.
    split; [done|]. by exists sender. }
  destruct (Hemits w []) as (new & Hnew & Hr). cbn [app] in Hnew. cbv zeta. rewrite Hnew. split; [|exact Hr].
  destruct Hr as [[_ Hq]|(before & c & after & -> & Hb & Ha & _)].
  - rewrite filter_nothing by done. cbn. lia.
  - rewrite filter_app, filter_nothing by done. cbn [app]. rewrite filter_cons, (filter_nothing after) by done.
    case_decide; cbn; lia.
Qed.
End released.

(** ** The wait ends *)

Section clock.
Context {W : Type} `{EthNode W} (clock : W -> Z).
Hypothesis Now_clock : forall w, Now w = (Ok (clock w), w).
Hypothesis Sleep_clock : forall d w, exists w', Sleep d w = (Ok tt, w') /\ (clock w + d <= clock w')%Z.
Hypothesis Post_clock : forall url method params w, (clock w <= clock (snd (Post url method params w)))%Z.

Lemma target_call_clock t method params w : (clock w <= clock (snd (target_call t method params w)))%Z.
Proof.
  unfold target_call, bind. pose proof (Post_clock (rpcURL t) method params w) as Hp.
  destruct (Post _ _ _ w) as [[resp|e] w']; cbn [snd] in *; [|done].
  by destruct (Body resp) as [|r [message|]].
Qed.

Lemma bind_ext {A B} (m : Op W A) (f g : A -> Op W B) w :
  (forall a w', m w = (Ok a, w') -> f a w' = g a w') -> bind m f w = bind m g w.
Proof. intros Hfg. unfold bind. destruct (m w) as [[a|e] w']; [by apply Hfg|done]. Qed.

Lemma receipt_loop_ends fuel extra t txHash deadline w : (deadline <= clock w + 100 * Z.of_nat fuel)%Z ->
  receipt_loop (S fuel) t txHash deadline w = receipt_loop (S fuel + extra) t txHash deadline w.
Proof.
  revert w. induction fuel as [|fuel IH]; intros w Hw; cbn [receipt_loop Nat.add].
  - unfold bind. rewrite Now_clock. destruct (Z.ltb_spec (clock w) deadline); [lia|done].
  - apply bind_ext. intros now w0 Hnow. rewrite Now_clock in Hnow. injection Hnow as <- <-.
    destruct (clock w <? deadline)%Z; [|reflexivity].
    apply bind_ext. intros [] w0 Hctx. unfold check_ctx, query in Hctx. injection Hctx as _ <-.
    apply bind_ext. intros raw w1 Hraw.
    pose proof (target_call_clock t "eth_getTransactionReceipt" [ParamText txHash] w) as Hcall. rewrite Hraw in Hcall. cbn [snd] in Hcall.
    destruct (is_null raw); [|reflexivity]. apply bind_ext. intros [] w2 Hsleep.
    destruct (Sleep_clock 100 w1) as (w2' & Hs & Hle). rewrite Hs in Hsleep. injection Hsleep as <-. apply IH. lia.
Qed.

(** Waiting for a receipt always ends, and the bound of the loop is never
    what ends it: under a clock that does not run backwards and pauses that last
    as long as asked, more iterations than the model allows give the same
    result. *)
Theorem waitForReceipt_ends (t : RPCReleaseTarget) (txHash : string) (extra : nat) (w : W) :
  waitForReceipt t txHash w = (let! start := Now in receipt_loop (101 + extra) t txHash (start + 10000)) w.
Proof.
  unfold waitForReceipt, bind. rewrite Now_clock. apply receipt_loop_ends. lia.
Qed.
End clock.

(** ** A concrete node *)

Definition demo_deposits : list Deposit :=
  [mk_deposit 7 0 "0xaa" "0xgateway" "0xd1" "0xm1" 1 (repeat (byte_of 0) 20) "eth" 1000 "cosmos1recipient" 500;
   mk_deposit 9 2 "0xbb" "0xgateway" "0xd2" "0xm2" 2 (repeat (byte_of 17) 20) "eth.usdc" 25 "cosmos1other" 600].

Definition demo_answer (method : string) (params : list rpc_param) (clock : Z) : rpc_value :=
  if decide (method = "eth_blockNumber"%string) then RpcText "0x14"
  else if decide (method = "eth_chainId"%string) then RpcText "0xaa36a7"
  else if decide (method = "eth_accounts"%string) then RpcTexts ["0x1"%string]
  else if decide (method = "eth_sendTransaction"%string) then RpcText "0xfeed"
  else if decide (method = "eth_getTransactionReceipt"%string) then
    if (clock <? 300)%Z then RpcNull else RpcReceipt "0xfeed" "0x1"
  else match params with
       | [ParamFilter fromBlock toBlock _ _] =>
           match parseHexStringUint64 fromBlock, parseHexStringUint64 toBlock with
           | Ok a, Ok b => RpcLogs (map deposit_log (filter (fun d => a <= DepBlock d < b + 1)%N demo_deposits))
           | _, _ => RpcOther
           end
       | _ => RpcOther
       end.

#[local] Instance demo_eth : EthNode Z := {|
  Post := fun _ method params clock => (Ok (mk_http 200 "200 OK" (Envelope (Some (demo_answer method params clock)) None)), clock);
  ctx_Err := fun _ => None;
  Now := fun clock => (Ok clock, clock);
  Sleep := fun d clock => (Ok tt, clock + d)%Z
|}.

Lemma rpc_source_honest_witness :
  honest BlockNumber 5 (map (deposit_event "11155111") demo_deposits) (rpc_source "http://node" "0xgateway" 0%Z) /\
  length <$> (match Entries (rpc_source (W:=Z) "http://node" "0xgateway" 0%Z) 3 15 with Ok es => Some es | Err _ => None end) = Some 2.
Proof.
  split; [|by vm_compute].
  refine (rpc_source_honest "http://node" "0xgateway" 5 11155111 demo_deposits (fun _ h => h <= 15)%N _ _ _ _ _ 0%Z).
  - repeat constructor; vm_compute; reflexivity.
  - done.
  - intros w v w' latest [= <- <-] Hlatest.
    assert (Hl : latest = 20%N) by (vm_compute in Hlatest; congruence). subst. split; [done|]. intros h Hh. lia.
  - intros w v w' [= <- <-]. by vm_compute.
  - intros a b w v w' Hab Hb Hcall. unfold rpcCall, bind in Hcall. cbn [Post demo_eth] in Hcall.
    unfold demo_answer in Hcall. rewrite !decide_False in Hcall by done.
    rewrite !hex_quantity_round_trip in Hcall by (unfold u64_ok, two64; lia).
    injection Hcall as <- <-. by eexists.
Defined.

#[local] Existing Instance toy_crypto.
#[local] Existing Instance wide_signing.

Definition demo_target : RPCReleaseTarget := NewRPCReleaseTargetWithSigner "http://node " demo_gateway "" "".
Definition demo_request : ReleaseRequest :=
  mk_release (hex_bytes (be_bytes 32 77)) (hex_bytes (be_bytes 20 17)) (Some 25%Z) (hex_bytes (be_bytes 20 5)) 900 "sig".

(** Accounts, the transaction, and receipts until there is one. *)
Example demo_release :
  fst (ReleaseOverRPC demo_target demo_request (0%Z, [])) = Ok "0xfeed"%string /\
  map CallMethod (snd (snd (ReleaseOverRPC demo_target demo_request (0%Z, [])))) =
    ["eth_accounts"; "eth_sendTransaction"; "eth_getTransactionReceipt"; "eth_getTransactionReceipt";
     "eth_getTransactionReceipt"; "eth_getTransactionReceipt"]%string.
Proof. by vm_compute. Qed.

Lemma waitForReceipt_ends_witness :
  waitForReceipt (W:=Z) demo_target "0xfeed" 0%Z = (let! start := Now in receipt_loop 1000 demo_target "0xfeed" (start + 10000)) 0%Z /\
  fst (waitForReceipt (W:=Z) demo_target "0xfeed" (-20000)%Z) <> Ok tt.
Proof.
  split; [|by vm_compute].
  refine (waitForReceipt_ends (fun w => w) _ _ _ demo_target "0xfeed" 899 0%Z).
  - done.
  - intros d w. exists (w + d)%Z. split; [done|lia].
  - intros url method params w. cbn. lia.
Defined.

Lemma DepositEvents_ranges_witness :
  exists ranges, tiles 3 15 ranges /\ forall w : Z, fst (DepositEvents "http://node" "0xgateway" 3 15 w) =
    fst (fetch_all "http://node" "0xgateway" "11155111" ranges w).
Proof.
  destruct (DepositEvents_ranges (W:=Z) "http://node" "0xgateway" 3 15 ltac:(done)) as (ranges & Htiles & Hrun).
  exists ranges. split; [exact Htiles|]. intros w. by rewrite Hrun.
Defined.

(** A receipt that is slower than ten seconds: the transaction has been sent,
    and the error is not one the pipeline retries within the run. *)
Example slow_release :
  let outcome := ReleaseOverRPC demo_target demo_request ((-20000)%Z, []) in
  match fst outcome with Err e => isTemporary e = false | Ok _ => False end /\
  length (filter sends (snd (snd outcome))) = 1.
Proof. by vm_compute. Qed.
