(* ===== verification/Daemon.v ===== *)
(** The polling loop of the relayers (relayer/internal/pipeline/daemon.go), which
    relayer/internal/route/relay.go repeats around its own run.

    [R] is the summary of a run. Durations are nanoseconds. Cancellation and
    timers are the world's: [S] is everything the coordinator and the context
    depend on, and reading the context, or waiting, may move it. *)

From S2P Require Import Prelude.
From S2P Require Import GoStrings.
From S2P Require Import Errors.
From stdpp Require Import strings.

Record DaemonConfig := mk_daemon_config {
  PollInterval : Z;
  FailureBackoff : Z;
  MaxConsecutiveRuns : Z;       (* int *)
  OnResult : bool               (* whether the callback is set *)
}.

Record DaemonEvent (R : Type) := mk_daemon_event {
  Iteration : Z;
  EventSummary : R;
  EventErr : option error;
  Temporary : bool;
  ConsecutiveFailures : Z
}.
Arguments mk_daemon_event {R}.
Arguments Iteration {R}.
Arguments EventSummary {R}.
Arguments EventErr {R}.
Arguments Temporary {R}.
Arguments ConsecutiveFailures {R}.

Class Scheduling (R S : Type) := {
  ctx_Err : S -> option error * S;
  waitForNextRun : Z -> S -> bool * S;
  coordinator_run : S -> R * option error * S
}.

Definition NewDaemon (cfg : DaemonConfig) : DaemonConfig :=
  mk_daemon_config
    (if (PollInterval cfg <=? 0)%Z then 1000000000%Z else PollInterval cfg)
    (if (FailureBackoff cfg <=? 0)%Z then 5000000000%Z else FailureBackoff cfg)
    (MaxConsecutiveRuns cfg) (OnResult cfg).

Section daemon.
Context {R S : Type} `{Scheduling R S} (cfg : DaemonConfig).

Definition emit (event : DaemonEvent R) (rest : list (DaemonEvent R)) : list (DaemonEvent R) :=
  if OnResult cfg then event :: rest else rest.

Definition last_run (iteration : Z) : bool :=
  (0 <? MaxConsecutiveRuns cfg)%Z && (MaxConsecutiveRuns cfg <=? iteration)%Z.

(** What [Run] returns, the events of its callback in order and the state it
    leaves; [None]: it is still running after [fuel] iterations. *)
Fixpoint run_loop (fuel : nat) (iteration consecutiveFailures : Z) (s : S)
    : option (option error * list (DaemonEvent R) * S) :=
  match fuel with
  | O => None
  | Datatypes.S fuel' =>
      let '(err, s) := ctx_Err s in
      match err with
      | Some _ => Some (None, [], s)
      | None =>
          let '(report, err, s) := coordinator_run s in
          match err with
          | Some e =>
              let '(cancelled, s) := ctx_Err s in
              if bool_decide (is_Some cancelled) then Some (None, [], s)
              else
                let temporary := isTemporary e in
                let consecutiveFailures := if temporary then (consecutiveFailures + 1)%Z else consecutiveFailures in
                let event := mk_daemon_event iteration report (Some e) temporary consecutiveFailures in
                if negb temporary then Some (Some e, emit event [], s)
                else if last_run iteration then Some (None, emit event [], s)
                else
                  let '(stopped, s) := waitForNextRun (FailureBackoff cfg) s in
                  if stopped then Some (None, emit event [], s)
                  else match run_loop fuel' (iteration + 1) consecutiveFailures s with
                       | Some (ret, events, s) => Some (ret, emit event events, s)
                       | None => None
                       end
          | None =>
              let event := mk_daemon_event iteration report None false 0 in
              if last_run iteration then Some (None, emit event [], s)
              else
                let '(stopped, s) := waitForNextRun (PollInterval cfg) s in
                if stopped then Some (None, emit event [], s)
                else match run_loop fuel' (iteration + 1) 0 s with
                     | Some (ret, events, s) => Some (ret, emit event events, s)
                     | None => None
                     end
          end
      end
  end.

Definition daemon_Run (fuel : nat) (s : S) : option (option error * list (DaemonEvent R) * S) :=
  run_loop fuel 1 0 s.

(** The events of a daemon that is at [iteration] after [failures] failures
    in a row, and what it returns in the end. *)
Fixpoint well_reported (iteration failures : Z) (events : list (DaemonEvent R)) (ret : option error) : Prop :=
  match events with
  | [] => ret = None
  | event :: rest =>
      Iteration event = iteration /\
      match EventErr event with
      | None => ConsecutiveFailures event = 0%Z /\ Temporary event = false /\
          well_reported (iteration + 1) 0 rest ret
      | Some e =>
          Temporary event = isTemporary e /\
          if isTemporary e
          then ConsecutiveFailures event = (failures + 1)%Z /\
            well_reported (iteration + 1) (failures + 1) rest ret
          else ConsecutiveFailures event = failures /\ rest = [] /\ ret = Some e
      end
  end.

Lemma run_loop_reported : forall fuel iteration failures s ret events s',
  OnResult cfg = true -> run_loop fuel iteration failures s = Some (ret, events, s') ->
  well_reported iteration failures events ret /\
  (Z.of_nat (length events) <= Z.of_nat fuel)%Z /\
  ((0 < MaxConsecutiveRuns cfg)%Z -> (iteration <= MaxConsecutiveRuns cfg)%Z ->
   (iteration + Z.of_nat (length events) <= MaxConsecutiveRuns cfg + 1)%Z).
Proof.
  intros fuel iteration failures s ret events s' Hon. revert iteration failures s ret events s'.
  induction fuel as [|fuel IH]; intros iteration failures s ret events s'; cbn [run_loop]; [done|].
  unfold emit. rewrite Hon. destruct (ctx_Err s) as [[e0|] s1].
  { intros [= <- <- <-]. cbn. split_and!; [done|lia..]. }
  destruct (coordinator_run s1) as [[report [e|]] s2].
  - destruct (ctx_Err s2) as [cancelled s3]. case_bool_decide.
    { intros [= <- <- <-]. cbn. split_and!; [done|lia..]. }
    destruct (isTemporary e) eqn:He; cbn [negb].
    2:{ intros [= <- <- <-]. cbn. rewrite He. split_and!; try done; lia. }
    destruct (last_run iteration) eqn:Hlast.
    { intros [= <- <- <-]. cbn. rewrite He. split_and!; try done; lia. }
    destruct (waitForNextRun _ s3) as [[] s4].
    { intros [= <- <- <-]. cbn. rewrite He. split_and!; try done; lia. }
    destruct (run_loop fuel _ _ s4) as [[[ret' events'] s5]|] eqn:Hrun; [|done].
    intros [= <- <- <-]. apply IH in Hrun as (H1 & H2 & H3). cbn. rewrite He.
    unfold last_run in Hlast. split_and!; try done; lia.
  - destruct (last_run iteration) eqn:Hlast.
    { intros [= <- <- <-]. cbn. split_and!; try done; lia. }
    destruct (waitForNextRun _ s2) as [[] s4].
    { intros [= <- <- <-]. cbn. split_and!; try done; lia. }
    destruct (run_loop fuel _ _ s4) as [[[ret' events'] s5]|] eqn:Hrun; [|done].
    intros [= <- <- <-]. apply IH in Hrun as (H1 & H2 & H3). cbn.
    unfold last_run in Hlast. split_and!; try done; lia.
Qed.

Lemma run_loop_ends : forall fuel iteration failures s,
  (0 < MaxConsecutiveRuns cfg)%Z -> (MaxConsecutiveRuns cfg < iteration + Z.of_nat fuel)%Z -> (0 < fuel)%nat ->
  is_Some (run_loop fuel iteration failures s).
Proof.
  induction fuel as [|fuel IH]; intros iteration failures s Hmax Hle Hpos; cbn [run_loop]; [lia|].
  assert (Hgo : forall failures s, last_run iteration = false -> is_Some (run_loop fuel (iteration + 1) failures s)).
  { intros f t Hlast. unfold last_run in Hlast. apply IH; lia. }
  destruct (ctx_Err s) as [[e0|] s1]; [by eexists|].
  destruct (coordinator_run s1) as [[report [e|]] s2].
  - destruct (ctx_Err s2) as [cancelled s3]. case_bool_decide; [by eexists|].
    destruct (negb (isTemporary e)); [by eexists|]. destruct (last_run iteration); [by eexists|].
    destruct (waitForNextRun _ s3) as [[] s4]; [by eexists|].
    destruct (Hgo (if isTemporary e then failures + 1 else failures)%Z s4 eq_refl) as [[[ret ev] s5] ->]. by eexists.
  - destruct (last_run iteration); [by eexists|].
    destruct (waitForNextRun _ s2) as [[] s4]; [by eexists|].
    destruct (Hgo 0%Z s4 eq_refl) as [[[ret ev] s5] ->]. by eexists.
Qed.
End daemon.

(** The daemon stops, and only gives up on permanent failures. With a run
    limit it returns after at most that many runs, whatever the coordinator, the
    timers and the context do; its events are numbered from one, count the
    failures in a row, and it returns an error exactly when its last run failed
    permanently. *)
Theorem daemon_Run_spec {R S : Type} `{Scheduling R S} (cfg : DaemonConfig) (s : S) :
  (0 < MaxConsecutiveRuns cfg)%Z -> OnResult cfg = true ->
  exists ret events s', daemon_Run (NewDaemon cfg) (Z.to_nat (MaxConsecutiveRuns cfg)) s = Some (ret, events, s') /\
    (Z.of_nat (length events) <= MaxConsecutiveRuns cfg)%Z /\
    well_reported 1 0 events ret.
Proof.
  intros Hmax Hon. unfold daemon_Run.
  destruct (run_loop_ends (NewDaemon cfg) (Z.to_nat (MaxConsecutiveRuns cfg)) 1 0 s) as [[[ret events] s'] Hrun];
    [exact Hmax|cbn; lia|lia|].
  exists ret, events, s'. split; [exact Hrun|].
  apply run_loop_reported in Hrun as (H1 & H2 & H3); [|exact Hon]. split; [lia|done].
Qed.

(** A coordinator that fails as scripted and a context that is never done. *)
#[local] Instance demo_scheduling : Scheduling unit (list (option error)) := {|
  ctx_Err := fun s => (None, s);
  waitForNextRun := fun _ s => (false, s);
  coordinator_run := fun s => match s with e :: rest => (tt, e, rest) | [] => (tt, None, []) end
|}.

Example daemon_Run_spec_witness :
  exists events s', daemon_Run (NewDaemon (mk_daemon_config 0 0 5 true)) 5
      [None; Some (TemporaryError (Errorf "timeout")); Some (TemporaryError (Errorf "timeout")); Some (Errorf "bad"); None] =
      Some (Some (Errorf "bad"), events, s') /\
    well_reported 1 0 events (Some (Errorf "bad")) /\ map ConsecutiveFailures events = [0; 1; 2; 2]%Z.
Proof.
  destruct (daemon_Run_spec (mk_daemon_config 0 0 5 true)
    [None; Some (TemporaryError (Errorf "timeout")); Some (TemporaryError (Errorf "timeout")); Some (Errorf "bad"); None] ltac:(reflexivity) eq_refl)
    as (ret & events & s' & Hrun & _ & Hrep).
  change (Z.to_nat (MaxConsecutiveRuns (mk_daemon_config 0 0 5 true))) with 5%nat in Hrun.
  exists events, s'. pose proof Hrun as Hrun'. vm_compute in Hrun'. injection Hrun' as <- <- <-.
  split; [exact Hrun|]. split; [exact Hrep|reflexivity].
Defined.
