(* ===== verification/Pipeline.v ===== *)
(** [relayer/internal/pipeline]: the relayer's run — deposits to the chain,
    withdrawals to the EVM side, each with bounded retries and a durable record
    of what is done (pipeline.go). The daemon that repeats it is in [Daemon].

    The five services a [Coordinator] is made of are the class [Services]: Go
    interfaces whose calls may change a world the relayer does not see. *)

From S2P Require Import Prelude.
From S2P Require Import GoStrings.
From S2P Require Import Errors.
From S2P Require Import BridgeTypes.
From S2P Require Import Replay.
From S2P Require Import Watchers.
From stdpp Require Import strings.

Definition depositCheckpointKey : string := "evm-deposits".
Definition withdrawalCheckpointKey : string := "cosmos-withdrawals".

(** [DepositWatcher], [AttestationCollector], [CosmosSubmitter],
    [WithdrawalWatcher] and [EVMReleaser]. *)
Class Services (W : Type) := {
  observe_deposits : N -> Op W (list DepositEvent * N);
  collect : string -> string -> Op W Attestation;
  submit_deposit_claim : DepositClaim -> Attestation -> Op W unit;
  observe_withdrawals : N -> Op W (list Withdrawal * N);
  release_withdrawal : ReleaseRequest -> Op W string
}.

(** The fields of [config.Config] the coordinator reads. *)
Record Config := mk_config {
  CosmosChainID : string;
  SubmissionRetryLimit : Z      (* int *)
}.

(** The [Auto...] fields of the summary belong to the automatic delivery that
    wraps the coordinator; a run leaves them zero. *)
Record RunSummary := mk_summary {
  DepositFromBlock : N;
  DepositNextCursor : N;
  DepositsObserved : Z;
  DuplicateDeposits : Z;
  DepositsSubmitted : Z;
  DepositSubmitAttempts : Z;
  WithdrawalFromHeight : N;
  WithdrawalNextCursor : N;
  WithdrawalsObserved : Z;
  DuplicateWithdrawals : Z;
  WithdrawalsReleased : Z;
  WithdrawalReleaseAttempts : Z
}.

Definition zero_summary : RunSummary := mk_summary 0 0 0 0 0 0 0 0 0 0 0 0.

Definition set_DepositFromBlock n s := mk_summary n (DepositNextCursor s) (DepositsObserved s)
  (DuplicateDeposits s) (DepositsSubmitted s) (DepositSubmitAttempts s) (WithdrawalFromHeight s)
  (WithdrawalNextCursor s) (WithdrawalsObserved s) (DuplicateWithdrawals s) (WithdrawalsReleased s)
  (WithdrawalReleaseAttempts s).
Definition set_DepositNextCursor n s := mk_summary (DepositFromBlock s) n (DepositsObserved s)
  (DuplicateDeposits s) (DepositsSubmitted s) (DepositSubmitAttempts s) (WithdrawalFromHeight s)
  (WithdrawalNextCursor s) (WithdrawalsObserved s) (DuplicateWithdrawals s) (WithdrawalsReleased s)
  (WithdrawalReleaseAttempts s).
Definition set_DepositsObserved n s := mk_summary (DepositFromBlock s) (DepositNextCursor s) n
  (DuplicateDeposits s) (DepositsSubmitted s) (DepositSubmitAttempts s) (WithdrawalFromHeight s)
  (WithdrawalNextCursor s) (WithdrawalsObserved s) (DuplicateWithdrawals s) (WithdrawalsReleased s)
  (WithdrawalReleaseAttempts s).
Definition add_DuplicateDeposits n s := mk_summary (DepositFromBlock s) (DepositNextCursor s)
  (DepositsObserved s) (DuplicateDeposits s + n) (DepositsSubmitted s) (DepositSubmitAttempts s)
  (WithdrawalFromHeight s) (WithdrawalNextCursor s) (WithdrawalsObserved s) (DuplicateWithdrawals s)
  (WithdrawalsReleased s) (WithdrawalReleaseAttempts s).
Definition add_DepositsSubmitted n s := mk_summary (DepositFromBlock s) (DepositNextCursor s)
  (DepositsObserved s) (DuplicateDeposits s) (DepositsSubmitted s + n) (DepositSubmitAttempts s)
  (WithdrawalFromHeight s) (WithdrawalNextCursor s) (WithdrawalsObserved s) (DuplicateWithdrawals s)
  (WithdrawalsReleased s) (WithdrawalReleaseAttempts s).
Definition add_DepositSubmitAttempts n s := mk_summary (DepositFromBlock s) (DepositNextCursor s)
  (DepositsObserved s) (DuplicateDeposits s) (DepositsSubmitted s) (DepositSubmitAttempts s + n)
  (WithdrawalFromHeight s) (WithdrawalNextCursor s) (WithdrawalsObserved s) (DuplicateWithdrawals s)
  (WithdrawalsReleased s) (WithdrawalReleaseAttempts s).
Definition set_WithdrawalFromHeight n s := mk_summary (DepositFromBlock s) (DepositNextCursor s)
  (DepositsObserved s) (DuplicateDeposits s) (DepositsSubmitted s) (DepositSubmitAttempts s) n
  (WithdrawalNextCursor s) (WithdrawalsObserved s) (DuplicateWithdrawals s) (WithdrawalsReleased s)
  (WithdrawalReleaseAttempts s).
Definition set_WithdrawalNextCursor n s := mk_summary (DepositFromBlock s) (DepositNextCursor s)
  (DepositsObserved s) (DuplicateDeposits s) (DepositsSubmitted s) (DepositSubmitAttempts s)
  (WithdrawalFromHeight s) n (WithdrawalsObserved s) (DuplicateWithdrawals s) (WithdrawalsReleased s)
  (WithdrawalReleaseAttempts s).
Definition set_WithdrawalsObserved n s := mk_summary (DepositFromBlock s) (DepositNextCursor s)
  (DepositsObserved s) (DuplicateDeposits s) (DepositsSubmitted s) (DepositSubmitAttempts s)
  (WithdrawalFromHeight s) (WithdrawalNextCursor s) n (DuplicateWithdrawals s) (WithdrawalsReleased s)
  (WithdrawalReleaseAttempts s).
Definition add_DuplicateWithdrawals n s := mk_summary (DepositFromBlock s) (DepositNextCursor s)
  (DepositsObserved s) (DuplicateDeposits s) (DepositsSubmitted s) (DepositSubmitAttempts s)
  (WithdrawalFromHeight s) (WithdrawalNextCursor s) (WithdrawalsObserved s) (DuplicateWithdrawals s + n)
  (WithdrawalsReleased s) (WithdrawalReleaseAttempts s).
Definition add_WithdrawalsReleased n s := mk_summary (DepositFromBlock s) (DepositNextCursor s)
  (DepositsObserved s) (DuplicateDeposits s) (DepositsSubmitted s) (DepositSubmitAttempts s)
  (WithdrawalFromHeight s) (WithdrawalNextCursor s) (WithdrawalsObserved s) (DuplicateWithdrawals s)
  (WithdrawalsReleased s + n) (WithdrawalReleaseAttempts s).
Definition add_WithdrawalReleaseAttempts n s := mk_summary (DepositFromBlock s) (DepositNextCursor s)
  (DepositsObserved s) (DuplicateDeposits s) (DepositsSubmitted s) (DepositSubmitAttempts s)
  (WithdrawalFromHeight s) (WithdrawalNextCursor s) (WithdrawalsObserved s) (DuplicateWithdrawals s)
  (WithdrawalsReleased s) (WithdrawalReleaseAttempts s + n).

(** The two calls with an effect outside the relayer, with the error each
    returned ([None]: it succeeded). *)
Inductive call :=
| Submitted (claim : DepositClaim) (attestation : Attestation) (lastErr : option error)
| Released (request : ReleaseRequest) (lastErr : option error).

(** What a run works on: the replay store, the services' world, the summary,
    and the calls made so far. *)
Record Run (W : Type) := mk_run {
  store : Store;
  world : W;
  summary : RunSummary;
  calls : list call
}.
Arguments mk_run {W}.
Arguments store {W}.
Arguments world {W}.
Arguments summary {W}.
Arguments calls {W}.

Section run.
Context {W : Type}.

Definition upd_store (f : Store -> Store) (s : Run W) := mk_run (f (store s)) (world s) (summary s) (calls s).
Definition upd_world (f : W -> W) (s : Run W) := mk_run (store s) (f (world s)) (summary s) (calls s).
Definition upd_summary f (s : Run W) := mk_run (store s) (world s) (f (summary s)) (calls s).
Definition upd_calls f (s : Run W) := mk_run (store s) (world s) (summary s) (f (calls s)).

(** [fmt.Errorf("ctx: %w", err)]. *)
Definition wrap_error {A} (ctx : string) (m : Op (Run W) A) : Op (Run W) A := fun s =>
  match m s with (Err e, s') => (Err (Prefixed ctx e), s') | ok => ok end.

Definition on_store {A} (m : Op Store A) : Op (Run W) A := zoom store (fun t => upd_store (fun _ => t)) m.
Definition on_world {A} (m : Op W A) : Op (Run W) A := zoom world (fun w => upd_world (fun _ => w)) m.

(** An outgoing call, its error kept in [lastErr]. *)
Definition outgoing {A} (entry : option error -> call) (m : Op W A) : Op (Run W) (option error) := fun s =>
  let '(r, w) := m (world s) in
  let lastErr := match r with Ok _ => None | Err e => Some e end in
  (Ok lastErr, upd_calls (fun cs => cs ++ [entry lastErr]) (upd_world (fun _ => w) s)).

(** The loop the two retrying methods share; [left] is the number of attempts
    not yet made, so that it ends by its own guard. *)
Fixpoint retry_loop (what : string) (attempts attempt : Z) (left : nat) (once : Op (Run W) (option error))
    : Op (Run W) (Z * option error) :=
  match left with
  | O => ret (attempts, Some (Errorf (what +:+ ": %!w(<nil>)")))
  | S left' =>
      let! lastErr := once in
      match lastErr with
      | None => ret (attempt, None)
      | Some e =>
          if negb (isTemporary e) || Z.eqb attempt attempts then ret (attempts, Some (Prefixed what e))
          else retry_loop what attempts (attempt + 1) left' once
      end
  end.

Definition attempts_of (limit : Z) : Z := if (limit <=? 0)%Z then 1%Z else limit.
End run.

Section coordinator.
Context `{MapIteration} {W : Type} `{Services W} (cfg : Config).

Definition submitWithRetry (claim : DepositClaim) (attestation : Attestation) : Op (Run W) (Z * option error) :=
  let attempts := attempts_of (SubmissionRetryLimit cfg) in
  retry_loop "submit deposit claim" attempts 1 (Z.to_nat attempts)
    (outgoing (Submitted claim attestation) (submit_deposit_claim claim attestation)).

Definition releaseWithRetry (request : ReleaseRequest) : Op (Run W) (Z * option error) :=
  let attempts := attempts_of (SubmissionRetryLimit cfg) in
  retry_loop "release withdrawal" attempts 1 (Z.to_nat attempts)
    (outgoing (Released request) (release_withdrawal request)).

Definition throw_some (e : option error) : Op (Run W) unit :=
  match e with Some e => throw e | None => ret tt end.

(** One turn of the loop of [runDeposits]. *)
Definition run_deposit (event : DepositEvent) : Op (Run W) unit :=
  let! s := gets store in
  if IsProcessed s (event_ReplayKey event) then modify (upd_summary (add_DuplicateDeposits 1))
  else
    let claim := event_Claim event (CosmosChainID cfg) in
    lift (deposit_ValidateBasic claim) ;;;
    let! attestation := on_world (collect (MessageID (Identity claim)) (Digest claim)) in
    let! out := submitWithRetry claim attestation in
    modify (upd_summary (add_DepositSubmitAttempts (fst out))) ;;;
    throw_some (snd out) ;;;
    modify (upd_summary (add_DepositsSubmitted 1)) ;;;
    wrap_error "mark deposit processed" (on_store (MarkProcessed (event_ReplayKey event))).

Definition runDeposits : Op (Run W) unit :=
  let! s := gets store in
  let fromBlock := Checkpoint s depositCheckpointKey in
  modify (upd_summary (set_DepositFromBlock fromBlock)) ;;;
  let! observed := on_world (observe_deposits fromBlock) in
  modify (upd_summary (set_DepositsObserved (Z.of_nat (length (fst observed))))) ;;;
  for_each run_deposit (fst observed) ;;;
  wrap_error "save deposit checkpoint" (on_store (SaveCheckpoint depositCheckpointKey (snd observed))) ;;;
  modify (upd_summary (set_DepositNextCursor (snd observed))).

(** One turn of the loop of [runWithdrawals]. *)
Definition run_withdrawal (withdrawal : Withdrawal) : Op (Run W) unit :=
  let! s := gets store in
  if IsProcessed s (withdrawal_ReplayKey withdrawal) then modify (upd_summary (add_DuplicateWithdrawals 1))
  else
    lift (withdrawal_Validate withdrawal) ;;;
    let! out := releaseWithRetry (withdrawal_ReleaseRequest withdrawal) in
    modify (upd_summary (add_WithdrawalReleaseAttempts (fst out))) ;;;
    throw_some (snd out) ;;;
    modify (upd_summary (add_WithdrawalsReleased 1)) ;;;
    wrap_error "mark withdrawal processed" (on_store (MarkProcessed (withdrawal_ReplayKey withdrawal))).

Definition runWithdrawals : Op (Run W) unit :=
  let! s := gets store in
  let fromHeight := Checkpoint s withdrawalCheckpointKey in
  modify (upd_summary (set_WithdrawalFromHeight fromHeight)) ;;;
  let! observed := on_world (observe_withdrawals fromHeight) in
  modify (upd_summary (set_WithdrawalsObserved (Z.of_nat (length (fst observed))))) ;;;
  for_each run_withdrawal (fst observed) ;;;
  wrap_error "save withdrawal checkpoint"
    (on_store (SaveCheckpoint withdrawalCheckpointKey (snd observed))) ;;;
  modify (upd_summary (set_WithdrawalNextCursor (snd observed))).

Definition check_store : Op (Run W) unit :=
  query (fun s => match store_Err (store s) with Some e => Err (Prefixed "replay store" e) | None => Ok tt end).

(** [RunOnceWithSummary]: the summary, fresh in every run, is returned with
    the error; it is the [summary] of the state. *)
Definition RunOnceWithSummary : Op (Run W) unit :=
  modify (upd_summary (fun _ => zero_summary)) ;;;
  check_store ;;;
  runDeposits ;;;
  runWithdrawals.
End coordinator.

(** ** Retries *)

(** [made] are the outcomes of the calls of one retried operation, [n] and
    [lastErr] what it reports. *)
Definition retried (what : string) (attempts : Z) (made : list (option error)) (n : Z)
    (lastErr : option error) : Prop :=
  exists failures final, made = map Some failures ++ [final] /\
    Forall (fun e => isTemporary e = true) failures /\ (Z.of_nat (length made) <= attempts)%Z /\
    match final with
    | None => n = Z.of_nat (length made) /\ lastErr = None
    | Some e => n = attempts /\ lastErr = Some (Prefixed what e) /\
        (isTemporary e = false \/ Z.of_nat (length made) = attempts)
    end.

Section retries.
Context {W : Type}.

Lemma outgoing_run {A} entry (m : Op W A) (s : Run W) :
  exists lastErr s', outgoing entry m s = (Ok lastErr, s') /\ store s' = store s /\
    summary s' = summary s /\ calls s' = calls s ++ [entry lastErr].
Proof. unfold outgoing. destruct (m (world s)) as [r w]. by eexists _, _. Qed.

Lemma retry_loop_spec {A} what attempts entry (m : Op W A) : forall left attempt previous (s : Run W),
  (0 < left)%nat -> (attempt + Z.of_nat left = attempts + 1)%Z ->
  attempt = (Z.of_nat (length previous) + 1)%Z -> Forall (fun e => isTemporary e = true) previous ->
  exists new n lastErr s', retry_loop what attempts attempt left (outgoing entry m) s = (Ok (n, lastErr), s') /\
    store s' = store s /\ summary s' = summary s /\ calls s' = calls s ++ map entry new /\
    retried what attempts (map Some previous ++ new) n lastErr.
Proof.
  induction left as [|left IH]; intros attempt previous s Hl Ha Hk Hp; [lia|]. cbn [retry_loop].
  destruct (outgoing_run entry m s) as (lastErr & s1 & Hrun & Hst & Hsu & Hca).
  unfold bind. rewrite Hrun. destruct lastErr as [e|].
  - destruct (isTemporary e) eqn:He; cbn [negb orb]; [destruct (Z.eqb_spec attempt attempts) as [->|Hne]|].
    + exists [Some e], attempts, (Some (Prefixed what e)), s1. split_and!; [done..|].
      exists previous, (Some e). rewrite length_app, length_map. cbn [length]. split_and!; [done..|lia|done|done|right; lia].
    + destruct (IH (attempt + 1)%Z (previous ++ [e]) s1) as (new & n & le & s' & Hr & H1 & H2 & H3 & H4);
        [lia|lia|rewrite length_app; cbn; lia|by apply Forall_app; split; [done|repeat constructor]|].
      exists (Some e :: new), n, le, s'. split_and!; [done|congruence|congruence| |].
      * rewrite H3, Hca. by rewrite <- app_assoc.
      * by rewrite map_app, <- app_assoc in H4.
    + exists [Some e], attempts, (Some (Prefixed what e)), s1. split_and!; [done..|].
      exists previous, (Some e). rewrite length_app, length_map. cbn [length]. split_and!; [done..|lia|done|done|by left].
  - exists [None], attempt, None, s1. split_and!; [done..|].
    exists previous, None. rewrite length_app, length_map. cbn [length]. split_and!; [done..|lia|lia|done].
Qed.

Lemma attempts_of_positive limit : (0 < attempts_of limit)%Z.
Proof. unfold attempts_of. case_match; lia. Qed.

Lemma retry_spec {A} what limit entry (m : Op W A) (s : Run W) :
  let attempts := attempts_of limit in
  exists made n lastErr s',
    retry_loop what attempts 1 (Z.to_nat attempts) (outgoing entry m) s = (Ok (n, lastErr), s') /\
    store s' = store s /\ summary s' = summary s /\ calls s' = calls s ++ map entry made /\
    retried what attempts made n lastErr.
Proof.
  cbv zeta. pose proof (attempts_of_positive limit).
  apply (retry_loop_spec what (attempts_of limit) entry m _ 1 []); [lia|lia|done|constructor].
Qed.
End retries.

(** ** One turn of a loop *)

(** The message identifiers delivered, in order. *)
Definition delivered_key (c : call) : option string :=
  match c with
  | Submitted claim _ None => Some (MessageID (Identity claim))
  | Released request None => Some (RelMessageID request)
  | _ => None
  end.
Definition delivered (cs : list call) : list string := omap delivered_key cs.

Lemma delivered_app a b : delivered (a ++ b) = delivered a ++ delivered b.
Proof. unfold delivered. apply omap_app. Qed.

Lemma retried_delivered what attempts made n lastErr entry key :
  retried what attempts made n lastErr -> delivered_key (entry None) = Some key ->
  (forall e, delivered_key (entry (Some e)) = None) ->
  delivered (map entry made) = match lastErr with None => [key] | Some _ => [] end.
Proof.
  intros (failures & final & -> & _ & _ & Hf) Hok Hno. rewrite map_app, delivered_app.
  assert (Hn : delivered (map entry (map Some failures)) = []).
  { unfold delivered. clear Hf. induction failures as [|e l IH]; [done|].
    cbn [map omap list_omap]. by rewrite Hno. }
  rewrite Hn. unfold delivered. cbn [map omap list_omap app]. destruct final as [e|].
  - destruct Hf as (_ & -> & _). by rewrite Hno.
  - destruct Hf as (_ & ->). by rewrite Hok.
Qed.

Section turns.
Context `{MapIteration} {W : Type} `{Services W} (cfg : Config).

(** What one turn for the entry of replay key [key] may do; [id] is the
    message identifier it delivers. *)
Definition turn (key id : string) (s : Run W) (out : result unit * Run W) : Prop :=
  let '(r, s') := out in
  exists new, calls s' = calls s ++ new /\
    ((key ∈ processed (store s) /\ r = Ok tt /\ store s' = store s /\ new = []) \/
     ((key ∉ processed (store s)) /\ is_ok r = false /\ store s' = store s /\ delivered new = []) \/
     ((key ∉ processed (store s)) /\ store s' = snd (MarkProcessed key (store s)) /\
      is_ok r = is_ok (fst (MarkProcessed key (store s))) /\ delivered new = [id])).

Lemma finish_turn what ctx entry key id (count : RunSummary -> RunSummary) (attempted : Z -> RunSummary -> RunSummary)
    {A} (m : Op W A) (s0 s : Run W) :
  delivered_key (entry None) = Some id -> (forall e, delivered_key (entry (Some e)) = None) ->
  key ∉ processed (store s) -> store s = store s0 -> calls s = calls s0 ->
  let attempts := attempts_of (SubmissionRetryLimit cfg) in
  let run := (let! out := retry_loop what attempts 1 (Z.to_nat attempts) (outgoing entry m) in
    modify (upd_summary (attempted (fst out))) ;;;
    throw_some (snd out) ;;;
    modify (upd_summary count) ;;;
    wrap_error ctx (on_store (MarkProcessed key))) s in
  turn key id s0 run.
Proof.
  intros Hok Hno Hp Hst Hca. cbv zeta.
  destruct (retry_spec what (SubmissionRetryLimit cfg) entry m s) as (made & n & le & s1 & Hrun & H1 & _ & H3 & H4).
  cbv zeta in Hrun. unfold bind at 1. rewrite Hrun. cbn [fst snd]. unfold turn.
  pose proof (retried_delivered _ _ _ _ _ _ _ H4 Hok Hno) as Hdel.
  destruct le as [e|].
  - unfold bind, modify, throw_some, throw. cbn [fst snd is_ok store calls upd_summary].
    exists (map entry made). split; [congruence|]. right. left. rewrite <- Hst. by split_and!.
  - unfold bind, modify, throw_some, wrap_error, on_store, zoom, ret.
    cbn [store upd_summary upd_store calls world summary]. rewrite H1, Hst.
    destruct (MarkProcessed key (store s0)) as [[[]|e] t] eqn:Hm; cbn [fst snd store upd_store upd_summary calls];
      exists (map entry made); (split; [congruence|]; right; right; rewrite Hst in Hp; split_and!; done).
Qed.

Lemma run_deposit_turn event (s : Run W) :
  turn (event_ReplayKey event) (MessageID (Identity (event_Claim event (CosmosChainID cfg)))) s
    (run_deposit cfg event s).
Proof.
  unfold run_deposit, bind at 1, gets at 1, IsProcessed. case_bool_decide as Hp.
  { exists []. rewrite app_nil_r. split; [done|]. by left. }
  cbv zeta. unfold bind at 1, lift.
  destruct (deposit_ValidateBasic _) as [[]|e].
  2:{ exists []. rewrite app_nil_r. split; [done|]. right. by left. }
  unfold bind at 1, on_world, zoom. destruct (collect _ _ (world s)) as [[att|e] w].
  2:{ exists []. rewrite app_nil_r. split; [done|]. right. by left. }
  unfold submitWithRetry. by apply finish_turn.
Qed.

Lemma run_withdrawal_turn w (s : Run W) :
  turn (withdrawal_ReplayKey w) (withdrawal_ReplayKey w) s
    (run_withdrawal cfg w s).
Proof.
  unfold run_withdrawal, bind at 1, gets at 1, IsProcessed. case_bool_decide as Hp.
  { exists []. rewrite app_nil_r. split; [done|]. by left. }
  unfold bind at 1, lift. destruct (withdrawal_Validate w) as [[]|e] eqn:Hv.
  2:{ exists []. rewrite app_nil_r. split; [done|]. right. by left. }
  unfold releaseWithRetry. apply finish_turn; try done. cbn. f_equal.
  unfold withdrawal_Validate in Hv. apply res_bind_ok_inv in Hv as ([] & Hid & _).
  apply first_error_ok in Hid. rewrite !Forall_cons in Hid. cbn [fst] in Hid.
  destruct Hid as (_ & _ & _ & _ & _ & _ & Hm & _). apply negb_false_iff in Hm.
  unfold eqs in Hm. by apply bool_decide_eq_true in Hm.
Qed.
End turns.

(** ** What the services promise *)

(** The replay key of the event is the message identifier of its claim
    ([Watchers.event_Claim_key]). *)
Definition event_consistent (e : DepositEvent) : Prop :=
  EvSourceAssetKind e <> EmptyString \/ isZeroHexAddress (EvAssetAddress e) = false.

Lemma event_consistent_key e destination :
  event_consistent e -> MessageID (Identity (event_Claim e destination)) = event_ReplayKey e.
Proof.
  intros Hk. unfold event_Claim, event_ReplayKey. cbn.
  destruct (decide (EvSourceAssetKind e = EmptyString)) as [He|He]; [|done].
  destruct Hk as [?|Hz]; [done|]. rewrite Hz. by rewrite He.
Qed.

(** The deposit watcher only reports consistent events. *)
Class ConsistentFeed (W : Type) `{Services W} :=
  feed_consistent : forall from w es next w' e,
    observe_deposits from w = (Ok (es, next), w') -> e ∈ es -> event_consistent e.

(** What a watcher reports up to its new cursor is everything its log holds
    from the old cursor on. *)
Class CompleteFeed (W : Type) `{Services W} (deposits : list DepositEvent) (wds : list Withdrawal) := {
  feed_deposits : forall from w es next w' e,
    observe_deposits from w = (Ok (es, next), w') -> e ∈ deposits ->
    (BlockNumber e < next)%N -> (BlockNumber e < from)%N \/ e ∈ es;
  feed_withdrawals : forall from w es next w' e,
    observe_withdrawals from w = (Ok (es, next), w') -> e ∈ wds ->
    (WdHeight e < next)%N -> (WdHeight e < from)%N \/ e ∈ es
}.

(** ** Runs, restarts and everything else *)

(** What happens to a relayer over time: a run, a restart of the process (with
    the fate of its later saves), or a change of the world outside. *)
Inductive happening (W : Type) :=
| RunOnce
| Reopen (faults : list (option error))
| Outside (f : W -> W).
Arguments RunOnce {W}.
Arguments Reopen {W}.
Arguments Outside {W}.

Section history.
Context `{MapIteration} {W : Type} `{Services W} (cfg : Config).

Definition happen (h : happening W) (s : Run W) : Run W :=
  match h with
  | RunOnce => snd (RunOnceWithSummary cfg s)
  | Reopen fs => upd_store (reopen fs) s
  | Outside f => upd_world f s
  end.

Fixpoint happen_all (hs : list (happening W)) (s : Run W) : Run W :=
  match hs with
  | [] => s
  | h :: rest => happen_all rest (happen h s)
  end.

(** An invariant of the store and the calls, preserved by every turn that
    delivers the key it checks and by the two checkpoints. *)
Context (I : Run W -> Prop).
Hypothesis I_ext : forall s t, store t = store s -> calls t = calls s -> I s -> I t.
Hypothesis I_turn : forall key s out, turn key key s out -> I s -> I (snd out).

Lemma for_each_turns {A} (f : A -> Op (Run W) unit) (key : A -> string) : forall xs,
  (forall x s, x ∈ xs -> turn (key x) (key x) s (f x s)) -> forall s, I s ->
  let '(r, s') := for_each f xs s in
  I s' /\ processed (store s) ⊆ processed (store s') /\
  (is_ok r = true -> forall x, x ∈ xs -> key x ∈ processed (store s')).
Proof.
  induction xs as [|x xs IH]; intros Hf s Hs; cbn [for_each].
  { unfold ret. split_and!; [done|done|]. intros _ x Hx. by apply not_elem_of_nil in Hx. }
  pose proof (Hf x s ltac:(left)) as Ht. pose proof (I_turn _ _ _ Ht Hs) as Hs1.
  assert (Hgrow : processed (store s) ⊆ processed (store (snd (f x s))) /\
    (is_ok (fst (f x s)) = true -> key x ∈ processed (store (snd (f x s))))).
  { unfold turn in Ht. destruct (f x s) as [r s1]. cbn [fst snd].
    destruct Ht as (new & _ & [(Hk & _ & -> & _)|[(_ & Hr & -> & _)|(_ & -> & Hr & _)]]).
    - done.
    - rewrite Hr. done.
    - split; [apply MarkProcessed_grows|]. rewrite Hr. apply MarkProcessed_marks. }
  unfold bind. destruct (f x s) as [[[]|e] s1]; cbn [fst snd] in *; [|by destruct Hgrow].
  destruct Hgrow as [Hg Hk]. specialize (IH (fun y t Hy => Hf y t ltac:(by right)) s1 Hs1).
  destruct (for_each f xs s1) as [r s']. destruct IH as (H1 & H2 & H3). split_and!; [done|set_solver|].
  intros Hr y [->|Hy]%elem_of_cons; [|by apply H3]. apply H2. by apply Hk.
Qed.

Context `{!ConsistentFeed W}.

Hypothesis I_deposits : forall s0 s es next w w', I s0 -> I s ->
  processed (store s0) ⊆ processed (store s) ->
  observe_deposits (Checkpoint (store s0) depositCheckpointKey) w = (Ok (es, next), w') ->
  (forall e, e ∈ es -> event_ReplayKey e ∈ processed (store s)) ->
  I (upd_store (fun t => snd (SaveCheckpoint depositCheckpointKey next t)) s).

Hypothesis I_withdrawals : forall s0 s es next w w', I s0 -> I s ->
  processed (store s0) ⊆ processed (store s) ->
  observe_withdrawals (Checkpoint (store s0) withdrawalCheckpointKey) w = (Ok (es, next), w') ->
  (forall e, e ∈ es -> withdrawal_ReplayKey e ∈ processed (store s)) ->
  I (upd_store (fun t => snd (SaveCheckpoint withdrawalCheckpointKey next t)) s).

Lemma I_saved what key next s :
  I (upd_store (fun t => snd (SaveCheckpoint key next t)) s) ->
  I (snd (wrap_error what (on_store (SaveCheckpoint key next)) s)).
Proof.
  unfold wrap_error, on_store, zoom, upd_store. by destruct (SaveCheckpoint key next (store s)) as [[[]|e] t].
Qed.

Lemma runDeposits_keeps s : I s -> I (snd (runDeposits cfg s)).
Proof.
  intros Hs. unfold runDeposits, bind, gets, modify, on_world, zoom. cbn [world upd_summary].
  destruct (observe_deposits _ (world s)) as [[[es next]|e] w'] eqn:Hobs; [|by apply (I_ext s)].
  cbn [fst snd]. match goal with |- context [for_each _ _ ?t] => set (s1 := t) end.
  assert (Hs1 : I s1) by by apply (I_ext s).
  assert (Hturns : forall x t, x ∈ es -> turn (event_ReplayKey x) (event_ReplayKey x) t (run_deposit cfg x t)).
  { intros x t Hx. pose proof (run_deposit_turn cfg x t) as Ht.
    rewrite event_consistent_key in Ht; [done|]. by apply (feed_consistent _ _ _ _ _ _ Hobs). }
  pose proof (for_each_turns (run_deposit cfg) event_ReplayKey es Hturns s1 Hs1) as Hloop.
  destruct (for_each (run_deposit cfg) es s1) as [[[]|e] s2]; [|by destruct Hloop].
  destruct Hloop as (H1 & H2 & H3).
  pose proof (I_saved "save deposit checkpoint" depositCheckpointKey next s2
    (I_deposits s s2 es next _ _ Hs H1 H2 Hobs (H3 eq_refl))) as H4.
  destruct (wrap_error _ _ s2) as [[[]|e] s3]; [|done]. by apply (I_ext s3).
Qed.

Lemma runWithdrawals_keeps s : I s -> I (snd (runWithdrawals cfg s)).
Proof.
  intros Hs. unfold runWithdrawals, bind, gets, modify, on_world, zoom. cbn [world upd_summary].
  destruct (observe_withdrawals _ (world s)) as [[[es next]|e] w'] eqn:Hobs; [|by apply (I_ext s)].
  cbn [fst snd]. match goal with |- context [for_each _ _ ?t] => set (s1 := t) end.
  assert (Hs1 : I s1) by by apply (I_ext s).
  pose proof (for_each_turns (run_withdrawal cfg) withdrawal_ReplayKey es
    (fun x t _ => run_withdrawal_turn cfg x t) s1 Hs1) as Hloop.
  destruct (for_each (run_withdrawal cfg) es s1) as [[[]|e] s2]; [|by destruct Hloop].
  destruct Hloop as (H1 & H2 & H3).
  pose proof (I_saved "save withdrawal checkpoint" withdrawalCheckpointKey next s2
    (I_withdrawals s s2 es next _ _ Hs H1 H2 Hobs (H3 eq_refl))) as H4.
  destruct (wrap_error _ _ s2) as [[[]|e] s3]; [|done]. by apply (I_ext s3).
Qed.

Lemma RunOnce_keeps s : I s -> I (snd (RunOnceWithSummary cfg s)).
Proof.
  intros Hs. unfold RunOnceWithSummary, check_store, bind at 1, modify.
  set (s1 := upd_summary _ s). assert (Hs1 : I s1) by by apply (I_ext s).
  unfold bind, query. destruct (store_Err (store s1)); [done|].
  pose proof (runDeposits_keeps s1 Hs1) as H1.
  destruct (runDeposits cfg s1) as [[[]|e] s2]; [|done]. by apply runWithdrawals_keeps.
Qed.
End history.

(** ** Deliveries *)

Definition saves_fine {W} (h : happening W) : Prop :=
  match h with Reopen fs => Forall (eq None) fs | _ => True end.

(** What has been delivered is on disk, what is on disk is in memory, and
    nothing was delivered twice. *)
Definition once {W} (s : Run W) : Prop :=
  path (store s) <> EmptyString /\ Forall (eq None) (faults (store s)) /\
  NoDup (delivered (calls s)) /\
  (forall k, k ∈ delivered (calls s) -> k ∈ durable (store s)) /\
  durable (store s) ⊆ processed (store s).

(** Every logged deposit and withdrawal below a checkpoint is processed, and
    everything processed was delivered. *)
Definition accounted (deposits : list DepositEvent) (wds : list Withdrawal) (sent : list string)
    (p : gset string) (c : gmap string N) : Prop :=
  (forall e, e ∈ deposits -> (BlockNumber e < default 0%N (c !! depositCheckpointKey))%N ->
     event_ReplayKey e ∈ p) /\
  (forall w, w ∈ wds -> (WdHeight w < default 0%N (c !! withdrawalCheckpointKey))%N ->
     withdrawal_ReplayKey w ∈ p) /\
  (forall k, k ∈ p -> k ∈ sent).

Section deliveries.
Context `{MapIteration} {W : Type} `{Services W} `{!ConsistentFeed W} (cfg : Config).

Lemma once_turn key (s : Run W) out :
  turn key key s out -> once s /\ loadErr (store s) = None ->
  once (snd out) /\ loadErr (store (snd out)) = None.
Proof.
  unfold turn. destruct out as [r s']. intros (new & Hc & Hcase) [(Hp & Hf & Hnd & Hd & Hm) Hl]. cbn [snd].
  unfold once. rewrite Hc, delivered_app.
  destruct Hcase as [(_ & _ & -> & ->)|[(_ & _ & -> & ->)|(Hk & -> & _ & ->)]];
    cbn [delivered omap list_omap]; rewrite ?app_nil_r; [by split_and!..|].
  rewrite MarkProcessed_run by done. rewrite persistLocked_path, persistLocked_loadErr.
  set (s1 := upd_processed _ (store s)).
  destruct (persistLocked_durable s1 Hp Hf) as (Hdur & Hfs & _).
  rewrite Hdur, (proj2 (persistLocked_memory s1)). subst s1. cbn [path processed upd_processed loadErr].
  split_and!; try done.
  - apply NoDup_app. split_and!; [done| |repeat constructor; apply not_elem_of_nil].
    intros k Hin ->%list_elem_of_singleton. by apply Hk, Hm, Hd.
  - intros k [Hin| ->%list_elem_of_singleton]%elem_of_app; [|set_solver].
    apply elem_of_union_r. by apply Hm, Hd.
Qed.

Lemma once_saved key next (s : Run W) :
  once s /\ loadErr (store s) = None ->
  once (upd_store (fun t => snd (SaveCheckpoint key next t)) s) /\
  loadErr (store (upd_store (fun t => snd (SaveCheckpoint key next t)) s)) = None.
Proof.
  intros [(Hp & Hf & Hnd & Hd & Hm) Hl]. unfold once. cbn [store upd_store calls].
  rewrite SaveCheckpoint_run by done. rewrite persistLocked_path, persistLocked_loadErr.
  set (s1 := upd_checkpoints _ (store s)).
  destruct (persistLocked_durable s1 Hp Hf) as (Hdur & Hfs & _).
  rewrite Hdur, (proj2 (persistLocked_memory s1)). subst s1. cbn [path processed upd_checkpoints loadErr].
  split_and!; try done. intros k Hk. by apply Hm, Hd.
Qed.

Lemma RunOnce_unavailable (s : Run W) e :
  loadErr (store s) = Some e ->
  RunOnceWithSummary cfg s =
    (Err (Prefixed "replay store" e), upd_summary (fun _ => zero_summary) s).
Proof.
  intros He. unfold RunOnceWithSummary, bind, modify, check_store, query, store_Err.
  cbn [store upd_summary]. by rewrite He.
Qed.

Lemma once_happens h (s : Run W) : saves_fine h -> once s -> once (happen cfg h s).
Proof.
  intros Hh Hs. destruct h as [|fs|f]; cbn [happen]; [| |done].
  - destruct (loadErr (store s)) as [e|] eqn:Hl; [by rewrite (RunOnce_unavailable s e Hl)|].
    refine (proj1 (RunOnce_keeps cfg (fun t => once t /\ loadErr (store t) = None) _ _ _ _ s (conj Hs Hl))).
    + intros t u Hst Hca [Ht Hlt]. unfold once. by rewrite Hst, Hca.
    + exact once_turn.
    + intros ? t ? ? ? ? _ Ht _ _ _. by apply once_saved.
    + intros ? t ? ? ? ? _ Ht _ _ _. by apply once_saved.
  - destruct Hs as (Hp & Hf & Hnd & Hd & Hm). unfold once. cbn [store upd_store calls].
    rewrite reopen_path by done. pose proof (reopen_cases fs (store s) Hp) as Hr.
    unfold durable in *. destruct (disk (store s)) as [|st|].
    + rewrite Hr. by split_and!.
    + rewrite Hr. by split_and!.
    + destruct Hr as [e ->]. by split_and!.
Qed.

(** C6: at most one delivery per message. However often the relayer runs and
    is restarted, whatever its services answer and however the world changes
    in between, no deposit is submitted with success twice and no withdrawal
    released twice — as long as the saves of the replay file succeed and the
    deposits observed carry the replay key of their claim. *)
Theorem delivered_at_most_once (hs : list (happening W)) (p : string) (d : file)
    (fs : list (option error)) (s : Run W) :
  NewStoreAt p d fs = Ok (store s) -> calls s = [] -> Forall (eq None) fs -> Forall saves_fine hs ->
  NoDup (delivered (calls (happen_all cfg hs s))).
Proof.
  intros Hnew Hc Hfs Hhs. assert (Hs : once s).
  { assert (Hp : p <> EmptyString) by (intros ->; discriminate Hnew).
    pose proof (reopen_cases fs (mk_store p ∅ ∅ None d fs) Hp) as Hr. unfold reopen in Hr.
    cbn [path disk] in Hr. rewrite Hnew in Hr. unfold once. rewrite Hc. cbn [delivered omap list_omap].
    assert (Hnil : NoDup (@nil string) /\ forall k (P : Prop), k ∈ @nil string -> P)
      by (split; [constructor|intros k P Hk; by apply not_elem_of_nil in Hk]).
    destruct Hnil as [Hnd Hnil].
    destruct d as [|st|]; [rewrite Hr|rewrite Hr|destruct Hr as [e ->]]; split_and!; try done;
      intros k; apply Hnil. }
  clear Hnew Hc Hfs. revert s Hs. induction Hhs as [|h hs Hh _ IH]; intros s Hs; cbn [happen_all].
  - apply Hs.
  - by apply IH, once_happens.
Qed.

Context (deposits : list DepositEvent) (wds : list Withdrawal) `{!CompleteFeed W deposits wds}.

Definition books (s : Run W) : Prop :=
  path (store s) <> EmptyString /\ held (accounted deposits wds (delivered (calls s))) (store s).

Lemma accounted_more sent more p c :
  accounted deposits wds sent p c -> accounted deposits wds (sent ++ more) p c.
Proof. intros (H1 & H2 & H3). split_and!; [done..|]. intros k Hk. apply elem_of_app. left. by apply H3. Qed.

Lemma books_turn key (s : Run W) out : turn key key s out -> books s -> books (snd out).
Proof.
  unfold turn. destruct out as [r s']. intros (new & Hc & Hcase) [Hp [Hm Hd]]. cbn [snd].
  unfold books. rewrite Hc, delivered_app.
  assert (Hheld : held (accounted deposits wds (delivered (calls s) ++ delivered new)) (store s)).
  { split; [by apply accounted_more|]. intros st Hst. by apply accounted_more, Hd. }
  destruct Hcase as [(_ & _ & -> & _)|[(_ & _ & -> & _)|(Hk & -> & _ & Hnew)]]; [done..|].
  rewrite MarkProcessed_path. split; [done|]. apply MarkProcessed_held; [done|].
  destruct Hm as (H1 & H2 & H3). split_and!.
  - intros e He Hb. apply elem_of_union_r. by apply H1.
  - intros w Hw Hb. apply elem_of_union_r. by apply H2.
  - rewrite Hnew. intros k [->%elem_of_singleton|Hin]%elem_of_union; apply elem_of_app;
      [right; by left|left; by apply H3].
Qed.

Lemma books_happens h (s : Run W) : books s -> books (happen cfg h s).
Proof.
  intros Hs. destruct h as [|fs|f]; cbn [happen]; [| |done].
  - refine (RunOnce_keeps cfg books _ _ _ _ s Hs).
    + intros t u Hst Hca Ht. unfold books. by rewrite Hst, Hca.
    + exact books_turn.
    + intros s0 t es next w w' [_ [(Ha & _) _]] [Hp Hh] Hgrow Hobs Hall.
      split; cbn [store upd_store calls]; [by rewrite SaveCheckpoint_path|].
      apply SaveCheckpoint_held; [done|]. destruct Hh as [(H1 & H2 & H3) _].
      split_and!; [|by rewrite lookup_insert_ne by done|done].
      intros e He. rewrite lookup_insert_eq. cbn [default from_option Datatypes.id]. intros Hb.
      destruct (feed_deposits _ _ _ _ _ _ Hobs He Hb) as [Hold|Hin]; [|by apply Hall].
      apply Hgrow. by apply Ha.
    + intros s0 t es next w w' [_ [(_ & Ha & _) _]] [Hp Hh] Hgrow Hobs Hall.
      split; cbn [store upd_store calls]; [by rewrite SaveCheckpoint_path|].
      apply SaveCheckpoint_held; [done|]. destruct Hh as [(H1 & H2 & H3) _].
      split_and!; [by rewrite lookup_insert_ne by done| |done].
      intros e He. rewrite lookup_insert_eq. cbn [default from_option Datatypes.id]. intros Hb.
      destruct (feed_withdrawals _ _ _ _ _ _ Hobs He Hb) as [Hold|Hin]; [|by apply Hall].
      apply Hgrow. by apply Ha.
  - destruct Hs as [Hp Hh]. split; cbn [store upd_store calls]; [by rewrite reopen_path|].
    apply reopen_held; [done| |done]. split_and!; [..|set_solver];
      intros e He; rewrite lookup_empty; cbn; lia.
Qed.

(** C11: nothing is skipped. When the watchers report complete logs, every
    deposit and every withdrawal below the relayer's checkpoints has been
    delivered with success — through failing services, failing saves of the
    replay file and restarts: a checkpoint never passes an entry that is not
    done. *)
Theorem checkpoints_never_skip (hs : list (happening W)) (p : string)
    (fs : list (option error)) (s : Run W) :
  NewStoreAt p Absent fs = Ok (store s) -> calls s = [] ->
  let t := happen_all cfg hs s in
  (forall e, e ∈ deposits -> (BlockNumber e < Checkpoint (store t) depositCheckpointKey)%N ->
     event_ReplayKey e ∈ delivered (calls t)) /\
  (forall w, w ∈ wds -> (WdHeight w < Checkpoint (store t) withdrawalCheckpointKey)%N ->
     withdrawal_ReplayKey w ∈ delivered (calls t)).
Proof.
  intros Hnew Hc. cbv zeta. assert (Hs : books s).
  { assert (Hp : p <> EmptyString) by (intros ->; discriminate Hnew).
    unfold NewStoreAt, load in Hnew. cbn [path disk] in Hnew. rewrite !decide_False in Hnew by done.
    injection Hnew as Hnew. unfold books. rewrite <- Hnew, Hc. split; [done|]. split; [|done].
    cbn [upd_loadErr processed checkpoints].
    split_and!; [..|set_solver]; intros e He; rewrite lookup_empty; cbn; lia. }
  assert (Ht : books (happen_all cfg hs s)).
  { clear Hnew Hc. revert s Hs. induction hs as [|h hs IH]; intros s Hs; cbn [happen_all]; [done|].
    by apply IH, books_happens. }
  destruct Ht as [_ [(H1 & H2 & H3) _]]. split; intros e He Hb; apply H3; [by apply H1|by apply H2].
Qed.
End deliveries.

(** ** What a run reports *)

Definition deposit_part (s : RunSummary) : N * N * Z := (DepositFromBlock s, DepositNextCursor s, DepositsObserved s).
Definition deposit_counts (s : RunSummary) : Z * Z * Z :=
  (DuplicateDeposits s, DepositsSubmitted s, DepositSubmitAttempts s).
Definition withdrawal_part (s : RunSummary) : N * N * Z :=
  (WithdrawalFromHeight s, WithdrawalNextCursor s, WithdrawalsObserved s).
Definition withdrawal_counts (s : RunSummary) : Z * Z * Z :=
  (DuplicateWithdrawals s, WithdrawalsReleased s, WithdrawalReleaseAttempts s).

Section reports.
Context `{MapIteration} {W : Type} `{Services W} (cfg : Config).

(** The counters [dup], [done], [attempts] moved by [n] entries, in step with
    the calls made; the rest of the summary is untouched. *)
Definition counted {B} (counts : RunSummary -> Z * Z * Z) (rest : RunSummary -> B) (n : nat) (s s' : Run W) : Prop :=
  let '(dup, finished, attempts) := counts (summary s) in
  let '(dup', finished', attempts') := counts (summary s') in
  (dup' + finished' = dup + finished + Z.of_nat n)%Z /\
  (attempts' - Z.of_nat (length (calls s')) = attempts - Z.of_nat (length (calls s)))%Z /\
  (finished' - finished <= attempts' - attempts <= attempts_of (SubmissionRetryLimit cfg) * (finished' - finished))%Z /\
  rest (summary s') = rest (summary s).

Lemma retried_ok_count what limit made n :
  retried what (attempts_of limit) made n None -> n = Z.of_nat (length made) /\ (1 <= n <= attempts_of limit)%Z.
Proof.
  intros (failures & final & -> & _ & Hle & Hf). destruct final as [e|]; [by destruct Hf as (_ & ? & _)|].
  destruct Hf as [-> _]. rewrite length_app in *. cbn in *. lia.
Qed.

Lemma run_deposit_counted event (s s' : Run W) :
  run_deposit cfg event s = (Ok tt, s') ->
  counted deposit_counts (fun s => (deposit_part s, withdrawal_part s, withdrawal_counts s)) 1 s s'.
Proof.
  unfold run_deposit, bind at 1, gets at 1. destruct (IsProcessed _ _).
  { unfold modify. intros [= <-]. unfold counted. cbn. split_and!; try lia. done. }
  cbv zeta. unfold bind at 1, lift. destruct (deposit_ValidateBasic _) as [[]|e]; [|done].
  unfold bind at 1, on_world, zoom. destruct (collect _ _ (world s)) as [[att|e] w]; [|done].
  unfold submitWithRetry. cbv zeta.
  match goal with |- context [retry_loop ?what _ _ _ (outgoing ?entry ?m)] =>
    destruct (retry_spec what (SubmissionRetryLimit cfg) entry m (upd_world (fun _ => w) s))
      as (made & n & le & s1 & Hrun & H1 & H2 & H3 & H4) end.
  cbv zeta in Hrun. unfold bind at 1. rewrite Hrun. cbn [fst snd]. destruct le as [e|]; [done|].
  apply retried_ok_count in H4 as [Hn Hbound].
  unfold bind, modify, throw_some, ret, wrap_error, on_store, zoom.
  destruct (MarkProcessed _ _) as [[[]|e] t]; [|done]. intros [= <-].
  unfold counted. cbn [summary upd_store upd_summary calls deposit_counts add_DepositsSubmitted
    add_DepositSubmitAttempts DuplicateDeposits DepositsSubmitted DepositSubmitAttempts].
  rewrite H2, H3. cbn [summary calls upd_world]. rewrite length_app, length_map.
  split_and!; try nia. done.
Qed.

Lemma run_withdrawal_counted wd (s s' : Run W) :
  run_withdrawal cfg wd s = (Ok tt, s') ->
  counted withdrawal_counts (fun s => (deposit_part s, withdrawal_part s, deposit_counts s)) 1 s s'.
Proof.
  unfold run_withdrawal, bind at 1, gets at 1. destruct (IsProcessed _ _).
  { unfold modify. intros [= <-]. unfold counted. cbn. split_and!; try lia. done. }
  unfold bind at 1, lift. destruct (withdrawal_Validate _) as [[]|e]; [|done].
  unfold releaseWithRetry. cbv zeta.
  match goal with |- context [retry_loop ?what _ _ _ (outgoing ?entry ?m)] =>
    destruct (retry_spec what (SubmissionRetryLimit cfg) entry m s)
      as (made & n & le & s1 & Hrun & H1 & H2 & H3 & H4) end.
  cbv zeta in Hrun. unfold bind at 1. rewrite Hrun. cbn [fst snd]. destruct le as [e|]; [done|].
  apply retried_ok_count in H4 as [Hn Hbound].
  unfold bind, modify, throw_some, ret, wrap_error, on_store, zoom.
  destruct (MarkProcessed _ _) as [[[]|e] t]; [|done]. intros [= <-].
  unfold counted. cbn [summary upd_store upd_summary calls withdrawal_counts add_WithdrawalsReleased
    add_WithdrawalReleaseAttempts DuplicateWithdrawals WithdrawalsReleased WithdrawalReleaseAttempts].
  rewrite H2, H3. rewrite length_app, length_map.
  split_and!; try nia. done.
Qed.

Lemma for_each_counted {A B} counts (rest : RunSummary -> B) (f : A -> Op (Run W) unit) :
  (forall x s s', f x s = (Ok tt, s') -> counted counts rest 1 s s') ->
  forall xs s s', for_each f xs s = (Ok tt, s') -> counted counts rest (length xs) s s'.
Proof.
  intros Hf. induction xs as [|x xs IH]; intros s s'; cbn [for_each length].
  { unfold ret. intros [= <-]. unfold counted. destruct (counts (summary s)) as [[? ?] ?].
    split_and!; try lia. done. }
  intros Hrun. apply bind_ok_inv in Hrun as ([] & s1 & H1 & H2).
  apply Hf in H1. apply IH in H2. unfold counted in *.
  destruct (counts (summary s)) as [[? ?] ?], (counts (summary s1)) as [[? ?] ?],
    (counts (summary s')) as [[? ?] ?].
  destruct H1 as (? & ? & ? & ?), H2 as (? & ? & ? & ?). split_and!; try lia. congruence.
Qed.

Lemma for_each_checkpoints {A} (f : A -> Op (Run W) unit) (key id : A -> string) :
  (forall x s, turn (key x) (id x) s (f x s)) ->
  forall xs s, checkpoints (store (snd (for_each f xs s))) = checkpoints (store s).
Proof.
  intros Hf. induction xs as [|x xs IH]; intros s; cbn [for_each]; [done|].
  assert (H1 : checkpoints (store (snd (f x s))) = checkpoints (store s)).
  { specialize (Hf x s). unfold turn in Hf. destruct (f x s) as [r s1]. cbn [snd].
    destruct Hf as (new & _ & [(_ & _ & -> & _)|[(_ & _ & -> & _)|(_ & -> & _)]]); [done..|].
    apply MarkProcessed_checkpoints. }
  unfold bind. destruct (f x s) as [[[]|e] s1]; cbn [snd] in *; [|done]. by rewrite IH.
Qed.

Lemma saved_inv what key next (s s' : Run W) :
  wrap_error what (on_store (SaveCheckpoint key next)) s = (Ok tt, s') ->
  summary s' = summary s /\ calls s' = calls s /\ Checkpoint (store s') key = next /\
  forall key', key' <> key -> Checkpoint (store s') key' = Checkpoint (store s) key'.
Proof.
  unfold wrap_error, on_store, zoom. destruct (SaveCheckpoint key next (store s)) as [[[]|e] t] eqn:Hs; [|done].
  intros [= <-]. by apply SaveCheckpoint_checkpoint in Hs.
Qed.

Lemma runDeposits_report (s s' : Run W) :
  runDeposits cfg s = (Ok tt, s') -> summary s = zero_summary ->
  let r := summary s' in
  DepositFromBlock r = Checkpoint (store s) depositCheckpointKey /\
  DepositNextCursor r = Checkpoint (store s') depositCheckpointKey /\
  DepositsObserved r = (DuplicateDeposits r + DepositsSubmitted r)%Z /\
  (DepositsSubmitted r <= DepositSubmitAttempts r <= attempts_of (SubmissionRetryLimit cfg) * DepositsSubmitted r)%Z /\
  Z.of_nat (length (calls s')) = (Z.of_nat (length (calls s)) + DepositSubmitAttempts r)%Z /\
  withdrawal_part r = (0%N, 0%N, 0%Z) /\ withdrawal_counts r = (0, 0, 0)%Z /\
  Checkpoint (store s') withdrawalCheckpointKey = Checkpoint (store s) withdrawalCheckpointKey.
Proof.
  intros Hrun Hz. unfold runDeposits, bind at 1, gets, bind at 1, modify at 1, on_world in Hrun.
  unfold bind at 1, zoom in Hrun. cbn [world upd_summary] in Hrun.
  destruct (observe_deposits _ (world s)) as [[[es next]|e] w'] eqn:Hobs; [|done].
  unfold bind at 1, modify at 1 in Hrun. cbn [fst snd] in Hrun.
  apply bind_ok_inv in Hrun as ([] & s2 & Hloop & Hrun).
  apply bind_ok_inv in Hrun as ([] & s3 & Hsave & [= <-]).
  match type of Hloop with for_each _ _ ?t = _ => set (s1 := t) in Hloop end.
  pose proof (for_each_checkpoints (run_deposit cfg) _ _ (run_deposit_turn cfg) es s1) as Hck.
  rewrite Hloop in Hck. cbn [snd] in Hck.
  apply (for_each_counted _ _ _ run_deposit_counted) in Hloop.
  apply saved_inv in Hsave as (Hsu & Hca & Hc1 & Hc2).
  unfold counted, deposit_counts, deposit_part, withdrawal_part, withdrawal_counts in *.
  subst s1. cbn [summary upd_summary upd_world calls store set_DepositsObserved set_DepositFromBlock
    set_DepositNextCursor DepositFromBlock DepositNextCursor DepositsObserved DuplicateDeposits
    DepositsSubmitted DepositSubmitAttempts WithdrawalFromHeight WithdrawalNextCursor WithdrawalsObserved
    DuplicateWithdrawals WithdrawalsReleased WithdrawalReleaseAttempts] in *.
  rewrite Hz in Hloop. cbn in Hloop. destruct Hloop as (H1 & H2 & H3 & [= H4 H5 H6 H7 H8 H9 H10 H11 H12]).
  rewrite Hsu, Hca, Hc1. rewrite (Hc2 withdrawalCheckpointKey) by done.
  unfold Checkpoint in *. rewrite Hck. split_and!; try congruence; try lia.
Qed.

Lemma runWithdrawals_report (s s' : Run W) :
  runWithdrawals cfg s = (Ok tt, s') -> withdrawal_part (summary s) = (0%N, 0%N, 0%Z) ->
  withdrawal_counts (summary s) = (0, 0, 0)%Z ->
  let r := summary s' in
  WithdrawalFromHeight r = Checkpoint (store s) withdrawalCheckpointKey /\
  WithdrawalNextCursor r = Checkpoint (store s') withdrawalCheckpointKey /\
  WithdrawalsObserved r = (DuplicateWithdrawals r + WithdrawalsReleased r)%Z /\
  (WithdrawalsReleased r <= WithdrawalReleaseAttempts r <=
     attempts_of (SubmissionRetryLimit cfg) * WithdrawalsReleased r)%Z /\
  Z.of_nat (length (calls s')) = (Z.of_nat (length (calls s)) + WithdrawalReleaseAttempts r)%Z /\
  deposit_part r = deposit_part (summary s) /\ deposit_counts r = deposit_counts (summary s) /\
  Checkpoint (store s') depositCheckpointKey = Checkpoint (store s) depositCheckpointKey.
Proof.
  intros Hrun Hz1 Hz2. unfold runWithdrawals, bind at 1, gets, bind at 1, modify at 1, on_world in Hrun.
  unfold bind at 1, zoom in Hrun. cbn [world upd_summary] in Hrun.
  destruct (observe_withdrawals _ (world s)) as [[[es next]|e] w'] eqn:Hobs; [|done].
  unfold bind at 1, modify at 1 in Hrun. cbn [fst snd] in Hrun.
  apply bind_ok_inv in Hrun as ([] & s2 & Hloop & Hrun).
  apply bind_ok_inv in Hrun as ([] & s3 & Hsave & [= <-]).
  match type of Hloop with for_each _ _ ?t = _ => set (s1 := t) in Hloop end.
  pose proof (for_each_checkpoints (run_withdrawal cfg) _ _ (run_withdrawal_turn cfg) es s1) as Hck.
  rewrite Hloop in Hck. cbn [snd] in Hck.
  apply (for_each_counted _ _ _ run_withdrawal_counted) in Hloop.
  apply saved_inv in Hsave as (Hsu & Hca & Hc1 & Hc2).
  unfold counted, deposit_counts, deposit_part, withdrawal_part, withdrawal_counts in *.
  subst s1. cbn [summary upd_summary upd_world calls store set_WithdrawalsObserved set_WithdrawalFromHeight
    set_WithdrawalNextCursor DepositFromBlock DepositNextCursor DepositsObserved DuplicateDeposits
    DepositsSubmitted DepositSubmitAttempts WithdrawalFromHeight WithdrawalNextCursor WithdrawalsObserved
    DuplicateWithdrawals WithdrawalsReleased WithdrawalReleaseAttempts] in *.
  injection Hz1 as Hz3 Hz4 Hz5. injection Hz2 as Hz6 Hz7 Hz8.
  destruct Hloop as (H1 & H2 & H3 & [= H4 H5 H6 H7 H8 H9 H10 H11 H12]).
  rewrite Hsu, Hca, Hc1. rewrite (Hc2 depositCheckpointKey) by done.
  unfold Checkpoint in *. rewrite Hck. split_and!; try congruence; try lia.
Qed.
End reports.

(** ** Properties of the retries and the reports *)

(** Bounded, classified retries. An outgoing call is made at least once and
    at most as often as the configured limit (once when it is not positive); it
    is repeated only after temporary failures and never after a success; what is
    reported is the number of calls on success and the limit on failure, with
    the last error wrapped; neither the replay store nor the summary is touched. *)
Theorem submitWithRetry_spec `{MapIteration} {W : Type} `{Services W} (cfg : Config) (claim : DepositClaim)
    (attestation : Attestation) (request : ReleaseRequest) (s : Run W) :
  let attempts := attempts_of (SubmissionRetryLimit cfg) in
  (exists made n lastErr s', submitWithRetry cfg claim attestation s = (Ok (n, lastErr), s') /\
     store s' = store s /\ summary s' = summary s /\
     calls s' = calls s ++ map (Submitted claim attestation) made /\
     retried "submit deposit claim" attempts made n lastErr) /\
  (exists made n lastErr s', releaseWithRetry cfg request s = (Ok (n, lastErr), s') /\
     store s' = store s /\ summary s' = summary s /\ calls s' = calls s ++ map (Released request) made /\
     retried "release withdrawal" attempts made n lastErr).
Proof. split; apply retry_spec. Qed.

(** A run reports what it did. After a run without error, every observed
    entry was either a duplicate or delivered in that run, the reported attempts
    are the calls really made — at least one and at most the retry limit per
    delivery — and the reported cursors are where the checkpoints stand. *)
Theorem RunOnce_report `{MapIteration} {W : Type} `{Services W} (cfg : Config) (s s' : Run W) :
  RunOnceWithSummary cfg s = (Ok tt, s') ->
  let r := summary s' in
  let limit := attempts_of (SubmissionRetryLimit cfg) in
  DepositsObserved r = (DuplicateDeposits r + DepositsSubmitted r)%Z /\
  WithdrawalsObserved r = (DuplicateWithdrawals r + WithdrawalsReleased r)%Z /\
  (DepositsSubmitted r <= DepositSubmitAttempts r <= limit * DepositsSubmitted r)%Z /\
  (WithdrawalsReleased r <= WithdrawalReleaseAttempts r <= limit * WithdrawalsReleased r)%Z /\
  Z.of_nat (length (calls s')) =
    (Z.of_nat (length (calls s)) + DepositSubmitAttempts r + WithdrawalReleaseAttempts r)%Z /\
  DepositFromBlock r = Checkpoint (store s) depositCheckpointKey /\
  DepositNextCursor r = Checkpoint (store s') depositCheckpointKey /\
  WithdrawalFromHeight r = Checkpoint (store s) withdrawalCheckpointKey /\
  WithdrawalNextCursor r = Checkpoint (store s') withdrawalCheckpointKey.
Proof.
  intros Hrun. cbv zeta. unfold RunOnceWithSummary, bind at 1, modify at 1 in Hrun.
  apply bind_ok_inv in Hrun as ([] & s1 & Hcheck & Hrun).
  assert (Hs1 : s1 = upd_summary (fun _ => zero_summary) s).
  { unfold check_store, query in Hcheck. by destruct (store_Err _); [|injection Hcheck as <-]. }
  apply bind_ok_inv in Hrun as ([] & s2 & Hdep & Hwd).
  destruct (runDeposits_report cfg _ _ Hdep ltac:(by rewrite Hs1)) as (H1 & H2 & H3 & H4 & H5 & H6 & H7 & H8).
  destruct (runWithdrawals_report cfg _ _ Hwd H6 H7) as (G1 & G2 & G3 & G4 & G5 & G6 & G7 & G8).
  rewrite Hs1 in *. cbn [store upd_summary calls] in *.
  unfold deposit_part, deposit_counts in *. injection G6 as E1 E2 E3. injection G7 as E4 E5 E6.
  split_and!; try lia; congruence.
Qed.

(** ** The watchers as services *)

Section watching.
Context {W : Type} (evm : W -> option (Source DepositEvent)) (cosmos : W -> option (Source Withdrawal)).
Context (evmConfirmations cosmosConfirmations : N) (ctx : W -> option error).
Context (sign : string -> string -> Op W Attestation) (submit : DepositClaim -> Attestation -> Op W unit)
  (release : ReleaseRequest -> Op W string).

Definition observed {A} (out : result (list A) * N) : result (list A * N) :=
  match out with (Ok es, next) => Ok (es, next) | (Err e, _) => Err e end.

(** A coordinator made of the two watchers of [Watchers]. *)
Definition watching : Services W := {|
  observe_deposits := fun from w => (observed (ObserveDeposits (ctx w) (evm w) evmConfirmations from), w);
  collect := sign;
  submit_deposit_claim := submit;
  observe_withdrawals := fun from w => (observed (ObserveWithdrawals (ctx w) (cosmos w) cosmosConfirmations from), w);
  release_withdrawal := release
|}.

(** Sources that are honest about finalised blocks make complete feeds. *)
Lemma watching_complete deposits wds :
  (forall w src, evm w = Some src -> honest BlockNumber evmConfirmations deposits src) ->
  (forall w src, cosmos w = Some src -> honest WdHeight cosmosConfirmations wds src) ->
  @CompleteFeed W watching deposits wds.
Proof.
  intros Hevm Hcosmos. split; intros from w es next w' e; cbn [observe_deposits observe_withdrawals watching].
  - pose proof (Observe_honest (Sentinel ErrEVMSourceUnavailable) event_less BlockNumber evmConfirmations deposits
      event_asym (ctx w) (evm w) from (Hevm w)) as Hobs.
    unfold ObserveDeposits. destruct (Observe _ _ _ _ _ _) as [[es'|e'] c]; intros [= <- <- <-] Hin Hlt.
    destruct (N.lt_ge_cases (BlockNumber e) from) as [|Hge]; [by left|]. right.
    destruct Hobs as (_ & Hp & _). rewrite Hp. unfold within. apply list_elem_of_filter. split; [lia|done].
  - pose proof (Observe_honest (Sentinel ErrCosmosSourceUnavailable) withdrawal_less WdHeight cosmosConfirmations wds
      withdrawal_asym (ctx w) (cosmos w) from (Hcosmos w)) as Hobs.
    unfold ObserveWithdrawals. destruct (Observe _ _ _ _ _ _) as [[es'|e'] c]; intros [= <- <- <-] Hin Hlt.
    destruct (N.lt_ge_cases (WdHeight e) from) as [|Hge]; [by left|]. right.
    destruct Hobs as (_ & Hp & _). rewrite Hp. unfold within. apply list_elem_of_filter. split; [lia|done].
Qed.

(** What the source delivers is what is observed. *)
Lemma watching_consistent :
  (forall w src a b es e, evm w = Some src -> Entries src a b = Ok es -> e ∈ es -> event_consistent e) ->
  @ConsistentFeed W watching.
Proof.
  intros Hsrc from w es next w' e. cbn [observe_deposits watching]. unfold ObserveDeposits, Observe.
  destruct (ctx w); [done|]. destruct (evm w) as [src|] eqn:Hevm; [|done].
  destruct (Latest src) as [latest|]; [|done].
  destruct (latest <? evmConfirmations)%N; [intros [= <- <- <-] Hin; by apply not_elem_of_nil in Hin|].
  destruct (latest - evmConfirmations <? from)%N; [intros [= <- <- <-] Hin; by apply not_elem_of_nil in Hin|].
  destruct (Entries src from _) as [raw|] eqn:Hraw; [|done].
  destruct (N.eqb _ _); intros [= <- <- <-]; rewrite SliceStable_perm; by apply (Hsrc w src _ _ _ _ Hevm Hraw).
Qed.
End watching.

(** ** A concrete relayer

    Two chains that grow, and outgoing calls whose next outcomes are scripted. *)

Record demo_world := mk_demo_world { demo_tip : N; demo_outcomes : list (option error) }.

Definition demo_call {A} (a : A) : Op demo_world A := fun w =>
  match demo_outcomes w with
  | Some e :: rest => (Err e, mk_demo_world (demo_tip w) rest)
  | None :: rest => (Ok a, mk_demo_world (demo_tip w) rest)
  | [] => (Ok a, w)
  end.

Definition demo_wds : Source Withdrawal :=
  mk_source (Ok 30%N) (fun a b => Ok (filter (fun w => a <= WdHeight w < b + 1)%N [demo_wd])).

Definition demo_evm (w : demo_world) : option (Source DepositEvent) := Some (demo_source (N.min (demo_tip w) 1000)).

#[local] Instance demo_services : Services demo_world :=
  watching demo_evm (fun _ => Some demo_wds) 3 1 (fun _ => None)
    (fun m h => ret (mk_attestation m h [] [] 1 1 1)) (fun _ _ => demo_call tt) (fun _ => demo_call "0xtx"%string).

#[local] Instance demo_consistent : ConsistentFeed demo_world.
Proof.
  apply watching_consistent. intros w src a b es e [= <-] [= <-] Hin.
  apply list_elem_of_filter in Hin as [_ Hin]. unfold demo_log in Hin. rewrite !elem_of_cons in Hin.
  left. destruct Hin as [->|[->|[->|[->|Hin]]]]; [discriminate..|by apply not_elem_of_nil in Hin].
Defined.

#[local] Instance demo_complete : CompleteFeed demo_world demo_log [demo_wd].
Proof.
  apply watching_complete.
  - intros w src [= <-]. apply demo_source_honest. unfold max_uint64. lia.
  - intros w src [= <-] latest a b es [= <-] _ [= <-]. by split.
Defined.

Definition demo_config : Config := mk_config "aegislink-1" 3.
Definition demo_temporary : error := TemporaryError (Errorf "timeout").
Definition demo_run : Run demo_world :=
  mk_run (mk_store "/var/replay.json" ∅ ∅ None Absent []) (mk_demo_world 15 [Some demo_temporary; None;
    Some demo_temporary; Some demo_temporary; Some demo_temporary]) zero_summary [].

(** A run that fails at the second deposit, a restart, a run that ends, new
    blocks, and two more runs. *)
Definition demo_history : list (happening demo_world) :=
  [RunOnce; Reopen []; RunOnce; Outside (fun w => mk_demo_world 40 (demo_outcomes w)); RunOnce; RunOnce].

Example demo_history_calls :
  let t := happen_all demo_config demo_history demo_run in
  length (calls t) = 9%nat /\ length (delivered (calls t)) = 5%nat /\
  Checkpoint (store t) depositCheckpointKey = 38%N /\ Checkpoint (store t) withdrawalCheckpointKey = 30%N.
Proof. vm_compute. repeat split; reflexivity. Qed.

Example delivered_at_most_once_witness :
  NoDup (delivered (calls (happen_all demo_config demo_history demo_run))).
Proof.
  apply (delivered_at_most_once demo_config demo_history "/var/replay.json" Absent [] demo_run);
    [reflexivity|reflexivity|constructor|repeat constructor].
Defined.

Example checkpoints_never_skip_witness :
  Forall (fun e => event_ReplayKey e ∈ delivered (calls (happen_all demo_config demo_history demo_run))) demo_log.
Proof.
  destruct (checkpoints_never_skip demo_config demo_log [demo_wd] demo_history "/var/replay.json" [] demo_run
    eq_refl eq_refl) as [Hd _].
  apply Forall_forall. intros e He. apply Hd; [exact He|].
  replace (Checkpoint _ _) with 38%N by (vm_compute; reflexivity).
  unfold demo_log in He. rewrite !elem_of_cons in He.
  destruct He as [->|[->|[->|[->|Hin]]]]; [reflexivity..|by apply not_elem_of_nil in Hin].
Defined.

Definition demo_second : Run demo_world := happen_all demo_config [RunOnce; Reopen []] demo_run.

Example RunOnce_report_witness :
  let r := summary (snd (RunOnceWithSummary demo_config demo_second)) in
  DepositsObserved r = (DuplicateDeposits r + DepositsSubmitted r)%Z /\ DepositsObserved r = 3%Z /\
  DuplicateDeposits r = 1%Z.
Proof.
  assert (Hrun : is_ok (fst (RunOnceWithSummary demo_config demo_second)) = true) by (vm_compute; reflexivity).
  destruct (RunOnceWithSummary demo_config demo_second) as [[[]|e] s'] eqn:Heq; [|discriminate Hrun].
  pose proof (RunOnce_report demo_config demo_second s' Heq) as [H1 _].
  assert (Hs : s' = snd (RunOnceWithSummary demo_config demo_second)) by by rewrite Heq.
  cbn [snd]. split; [exact H1|]. rewrite Hs. vm_compute. split; reflexivity.
Defined.

(** The reported attempts are the limit, not the number of calls, when the
    first error is permanent. *)
Example demo_permanent_attempts :
  let s := mk_run (store demo_run) (mk_demo_world 15 [Some (Errorf "bad request")]) zero_summary [] in
  let s' := snd (RunOnceWithSummary demo_config s) in
  length (calls s') = 1%nat /\ DepositSubmitAttempts (summary s') = 3%Z.
Proof. vm_compute. split; reflexivity. Qed.
