(* ===== verification/RouteRelay.v ===== *)
(** [relayer/internal/route] (relay.go): the relayer that delivers the chain's
    pending IBC transfers to a target and brings their acknowledgements back. *)

From S2P Require Import Prelude.
From S2P Require Import GoStrings.
From S2P Require Import Errors.
From S2P Require Import Daemon.
From Stdlib Require Import Ascii String.
From stdpp Require Import strings.

(** ** Packets *)

Record Transfer := mk_transfer {
  TransferID : string;
  AssetID : string;
  Amount : string;
  Receiver : string;
  DestinationChainID : string;
  ChannelID : string;
  DestinationDenom : string;
  TimeoutHeight : N;            (* uint64 *)
  Memo : string;
  Status : string;
  FailureReason : string
}.

Record PacketData := mk_data {
  DataDenom : string;
  DataAmount : string;
  DataSender : string;
  DataReceiver : string;
  DataMemo : string
}.

Record Packet := mk_packet {
  Sequence : N;                 (* uint64 *)
  SourcePort : string;
  SourceChannel : string;
  DestinationPort : string;
  PacketTimeoutHeight : N;      (* uint64 *)
  Data : PacketData
}.

Record DenomTrace := mk_trace {
  TracePath : string;
  BaseDenom : string;
  IBCDenom : string
}.

Record RouteAction := mk_action {
  ActionType : string;
  TargetDenom : string;
  MinOut : string;
  ActionRecipient : string;
  ActionPath : string
}.

Record DeliveryEnvelope := mk_envelope {
  EnvTransfer : Transfer;
  EnvPacket : Packet;
  EnvDenomTrace : DenomTrace;
  Action : option RouteAction;
  ActionError : string
}.

Definition routePacketSender : string := "aegislink1ibcrouter".

(** [AckStatus] is a string type: an acknowledgement from the network may hold
    any text. *)
Definition AckStatusReceived : string := "received".
Definition AckStatusCompleted : string := "completed".
Definition AckStatusFailed : string := "ack_failed".
Definition AckStatusTimedOut : string := "timed_out".

Record Ack := mk_ack { AckStatus : string; AckReason : string }.

Record AckRecord := mk_ack_record {
  AckTransferID : string;
  RecordStatus : string;
  RecordReason : string
}.

(** ** Memos *)

Definition slash : ascii := "/"%char.
Definition colon : ascii := ":"%char.
Definition equals : ascii := "="%char.

Definition parseTransferSequence (transferID : string) : result N :=
  match ParseUint64 (List.last (Split (TrimSpace transferID) slash) EmptyString) with
  | Some sequence => Ok sequence
  | None => Err (Errorf ("invalid transfer id " +:+ Quote transferID))
  end.

Definition set_MinOut v a := mk_action (ActionType a) (TargetDenom a) v (ActionRecipient a) (ActionPath a).
Definition set_Recipient v a := mk_action (ActionType a) (TargetDenom a) (MinOut a) v (ActionPath a).
Definition set_Path v a := mk_action (ActionType a) (TargetDenom a) (MinOut a) (ActionRecipient a) v.

(** The options of a swap, and those of a stake. *)
Definition swap_option (key value : string) (a : RouteAction) : option RouteAction :=
  if decide (key = "min_out"%string) then Some (set_MinOut value a)
  else if decide (key = "recipient"%string) then Some (set_Recipient value a)
  else if decide (key = "path"%string) then Some (set_Path value a)
  else None.
Definition stake_option (key value : string) (a : RouteAction) : option RouteAction :=
  if decide (key = "recipient"%string) then Some (set_Recipient value a)
  else if decide (key = "path"%string) then Some (set_Path value a)
  else None.

(** The loop over the options, which the two actions share up to their name
    and their keys. *)
Fixpoint parse_options (kind : string) (assign : string -> string -> RouteAction -> option RouteAction)
    (seen : gset string) (action : RouteAction) (parts : list string) : option RouteAction * string :=
  match parts with
  | [] => (Some action, EmptyString)
  | part :: rest =>
      let part := TrimSpace part in
      if decide (part = EmptyString) then (None, "empty " +:+ kind +:+ " option")
      else
        let '(key, value, ok) := Cut part equals in
        let invalid := (None, "invalid " +:+ kind +:+ " option " +:+ Quote part) in
        if negb ok then invalid
        else
          let key := TrimSpace key in
          let value := TrimSpace value in
          if bool_decide (key = EmptyString) || bool_decide (value = EmptyString) then invalid
          else if decide (key ∈ seen) then (None, "duplicate " +:+ kind +:+ " option " +:+ Quote key)
          else match assign key value action with
               | None => (None, "unsupported " +:+ kind +:+ " option " +:+ Quote key)
               | Some action => parse_options kind assign ({[ key ]} ∪ seen) action rest
               end
  end.

Definition parseRouteAction (memo : string) : option RouteAction * string :=
  let memo := TrimSpace memo in
  if decide (memo = EmptyString) then (None, EmptyString)
  else match Split memo colon with
       | [] => (None, EmptyString)
       | [only] =>
           if decide (TrimSpace only = "swap"%string) then (None, "missing target denom for swap action"%string)
           else (None, EmptyString)
       | kind :: denom :: options =>
           let actionType := TrimSpace kind in
           let targetDenom := TrimSpace denom in
           let parse assign :=
             if decide (targetDenom = EmptyString)
             then (None, "missing target denom for " +:+ actionType +:+ " action")
             else parse_options actionType assign ∅
                    (mk_action actionType targetDenom EmptyString EmptyString EmptyString) options in
           if decide (actionType = "swap"%string) then parse swap_option
           else if decide (actionType = "stake"%string) then parse stake_option
           else (None, "unsupported route action " +:+ Quote actionType)
       end.

Definition buildDeliveryEnvelope (transfer : Transfer) : result DeliveryEnvelope :=
  let? sequence := parseTransferSequence (TransferID transfer) in
  let channelID := TrimSpace (ChannelID transfer) in
  let assetID := TrimSpace (AssetID transfer) in
  let receiver := TrimSpace (Receiver transfer) in
  let? _ := ensure (bool_decide (channelID = EmptyString))
              (Errorf ("missing channel id for transfer " +:+ TransferID transfer)) in
  let? _ := ensure (bool_decide (assetID = EmptyString))
              (Errorf ("missing asset id for transfer " +:+ TransferID transfer)) in
  let? _ := ensure (bool_decide (receiver = EmptyString))
              (Errorf ("missing receiver for transfer " +:+ TransferID transfer)) in
  let '(action, actionErr) := parseRouteAction (Memo transfer) in
  Ok (mk_envelope transfer
        (mk_packet sequence "transfer" channelID "transfer" (TimeoutHeight transfer)
           (mk_data assetID (TrimSpace (Amount transfer)) routePacketSender receiver
              (TrimSpace (Memo transfer))))
        (mk_trace ("transfer/" +:+ channelID) assetID (TrimSpace (DestinationDenom transfer)))
        action actionErr).

(** ** The relayer

    [PendingTransferSource], [AckSink] and [Target], over a world of theirs. *)
Class RouteServices (W : Type) := {
  pending_transfers : Op W (list Transfer);
  complete_transfer : string -> Op W unit;
  fail_transfer : string -> string -> Op W unit;
  timeout_transfer : string -> Op W unit;
  submit_transfer : Transfer -> Op W Ack;
  ready_acks : Op W (list AckRecord);
  confirm_ack : string -> Op W unit
}.

Record RunSummary := mk_summary {
  ReadyAcks : Z;
  CompletedAcks : Z;
  FailedAcks : Z;
  TimedOutAcks : Z;
  TransfersObserved : Z;
  TransfersDelivered : Z;
  ReceivedDeliveries : Z
}.

Definition zero_summary : RunSummary := mk_summary 0 0 0 0 0 0 0.
Definition set_ReadyAcks n s := mk_summary n (CompletedAcks s) (FailedAcks s) (TimedOutAcks s)
  (TransfersObserved s) (TransfersDelivered s) (ReceivedDeliveries s).
Definition add_CompletedAcks n s := mk_summary (ReadyAcks s) (CompletedAcks s + n) (FailedAcks s) (TimedOutAcks s)
  (TransfersObserved s) (TransfersDelivered s) (ReceivedDeliveries s).
Definition add_FailedAcks n s := mk_summary (ReadyAcks s) (CompletedAcks s) (FailedAcks s + n) (TimedOutAcks s)
  (TransfersObserved s) (TransfersDelivered s) (ReceivedDeliveries s).
Definition add_TimedOutAcks n s := mk_summary (ReadyAcks s) (CompletedAcks s) (FailedAcks s) (TimedOutAcks s + n)
  (TransfersObserved s) (TransfersDelivered s) (ReceivedDeliveries s).
Definition set_TransfersObserved n s := mk_summary (ReadyAcks s) (CompletedAcks s) (FailedAcks s) (TimedOutAcks s)
  n (TransfersDelivered s) (ReceivedDeliveries s).
Definition add_TransfersDelivered n s := mk_summary (ReadyAcks s) (CompletedAcks s) (FailedAcks s) (TimedOutAcks s)
  (TransfersObserved s) (TransfersDelivered s + n) (ReceivedDeliveries s).
Definition add_ReceivedDeliveries n s := mk_summary (ReadyAcks s) (CompletedAcks s) (FailedAcks s) (TimedOutAcks s)
  (TransfersObserved s) (TransfersDelivered s) (ReceivedDeliveries s + n).

Definition recordAck (status : string) (s : RunSummary) : RunSummary :=
  if decide (status = AckStatusCompleted) then add_CompletedAcks 1 s
  else if decide (status = AckStatusFailed) then add_FailedAcks 1 s
  else if decide (status = AckStatusTimedOut) then add_TimedOutAcks 1 s
  else s.

(** The calls a run has made with success: what it delivered, what it told the
    chain and what it confirmed to the target. *)
Inductive step :=
| Delivered (transferID : string)
| Settled (transferID status reason : string)
| Confirmed (transferID : string).

Record Run (W : Type) := mk_run { world : W; summary : RunSummary; steps : list step }.
Arguments mk_run {W}.
Arguments world {W}.
Arguments summary {W}.
Arguments steps {W}.

Section relayer.
Context {W : Type} `{RouteServices W}.

Definition upd_summary f (s : Run W) := mk_run (world s) (f (summary s)) (steps s).

(** A call of a service, recorded when it succeeds. *)
Definition calling {A} (made : A -> list step) (m : Op W A) : Op (Run W) A := fun s =>
  match m (world s) with
  | (Ok a, w) => (Ok a, mk_run w (summary s) (steps s ++ made a))
  | (Err e, w) => (Err e, mk_run w (summary s) (steps s))
  end.

Definition applyAck (transferID : string) (ack : Ack) : Op (Run W) unit :=
  let settled := fun _ : unit => [Settled transferID (AckStatus ack) (AckReason ack)] in
  if decide (AckStatus ack = AckStatusCompleted) then calling settled (complete_transfer transferID)
  else if decide (AckStatus ack = AckStatusFailed)
  then calling settled (fail_transfer transferID (AckReason ack))
  else if decide (AckStatus ack = AckStatusTimedOut) then calling settled (timeout_transfer transferID)
  else throw (Errorf ("unexpected ack status " +:+ Quote (AckStatus ack))).

Definition relay_ack (ack : AckRecord) : Op (Run W) unit :=
  applyAck (AckTransferID ack) (mk_ack (RecordStatus ack) (RecordReason ack)) ;;;
  modify (upd_summary (recordAck (RecordStatus ack))) ;;;
  calling (fun _ => [Confirmed (AckTransferID ack)]) (confirm_ack (AckTransferID ack)).

Definition deliver (transfer : Transfer) : Op (Run W) unit :=
  let! ack := calling (fun _ => [Delivered (TransferID transfer)]) (submit_transfer transfer) in
  modify (upd_summary (add_TransfersDelivered 1)) ;;;
  if bool_decide (AckStatus ack = EmptyString) || bool_decide (AckStatus ack = AckStatusReceived)
  then modify (upd_summary (add_ReceivedDeliveries 1))
  else
    applyAck (TransferID transfer) ack ;;;
    modify (upd_summary (recordAck (AckStatus ack))).

(** [RunOnceWithSummary]: the summary is that of the state, fresh in every run. *)
Definition RunOnceWithSummary : Op (Run W) unit :=
  modify (upd_summary (fun _ => zero_summary)) ;;;
  let! readyAcks := calling (fun _ => []) ready_acks in
  modify (upd_summary (set_ReadyAcks (Z.of_nat (length readyAcks)))) ;;;
  for_each relay_ack readyAcks ;;;
  let! transfers := calling (fun _ => []) pending_transfers in
  modify (upd_summary (set_TransfersObserved (Z.of_nat (length transfers)))) ;;;
  for_each deliver transfers.
End relayer.

(** [RunLoop] is the loop of the bridge relayer's daemon around this run. *)
Definition RunLoop {S : Type} `{Scheduling RunSummary S} (cfg : DaemonConfig) (fuel : nat) (s : S)
    : option (option error * list (DaemonEvent RunSummary) * S) :=
  daemon_Run (NewDaemon cfg) fuel s.

(** ** What a run did *)

Definition is_settled (status : string) (st : step) : bool :=
  match st with Settled _ status' _ => bool_decide (status' = status) | _ => false end.
Definition is_delivered (st : step) : bool := match st with Delivered _ => true | _ => false end.
Definition is_confirmed (st : step) : bool := match st with Confirmed _ => true | _ => false end.
Definition count_steps (p : step -> bool) (l : list step) : Z := Z.of_nat (length (filter (fun st => p st = true) l)).

Lemma count_steps_app p a b : count_steps p (a ++ b) = (count_steps p a + count_steps p b)%Z.
Proof. unfold count_steps. rewrite filter_app, length_app. lia. Qed.

Lemma count_steps_one p st : count_steps p [st] = if p st then 1%Z else 0%Z.
Proof. unfold count_steps. rewrite filter_cons, filter_nil. by destruct (p st). Qed.

(** Every confirmation to the target directly follows the settlement of that
    transfer on the chain. *)
Definition orderly (l : list step) : Prop :=
  forall a id b, l = a ++ Confirmed id :: b -> exists a' status reason, a = a' ++ [Settled id status reason].

Lemma orderly_nil : orderly [].
Proof. intros a id b Heq. by destruct a. Qed.

Lemma orderly_snoc l st :
  orderly l -> (forall id, st = Confirmed id -> exists a' status reason, l = a' ++ [Settled id status reason]) ->
  orderly (l ++ [st]).
Proof.
  intros Hl Hst a id b. induction b as [|x b _] using rev_ind; intros Heq.
  - apply app_inj_tail in Heq as [<- ->]. by apply Hst.
  - rewrite app_comm_cons, app_assoc in Heq. apply app_inj_tail in Heq as [Heq _]. by apply (Hl a id b).
Qed.

(** The summary counts the steps. *)
Definition tallied (s : RunSummary) (l : list step) : Prop :=
  CompletedAcks s = count_steps (is_settled AckStatusCompleted) l /\
  FailedAcks s = count_steps (is_settled AckStatusFailed) l /\
  TimedOutAcks s = count_steps (is_settled AckStatusTimedOut) l /\
  TransfersDelivered s = count_steps is_delivered l.

Section runs.
Context {W : Type} `{RouteServices W}.

Definition accounted (s : Run W) : Prop := tallied (summary s) (steps s) /\ orderly (steps s).

Lemma calling_run {A} made (m : Op W A) (s : Run W) :
  (exists a w, calling made m s = (Ok a, mk_run w (summary s) (steps s ++ made a))) \/
  (exists e w, calling made m s = (Err e, mk_run w (summary s) (steps s))).
Proof. unfold calling. destruct (m (world s)) as [[a|e] w]; [left|right]; by eexists _, _. Qed.

(** An acknowledgement is settled under a status the chain knows, or refused. *)
Lemma applyAck_run id ack (s : Run W) :
  (exists w, applyAck id ack s =
     (Ok tt, mk_run w (summary s) (steps s ++ [Settled id (AckStatus ack) (AckReason ack)]))) \/
  (exists e w, applyAck id ack s = (Err e, mk_run w (summary s) (steps s))).
Proof.
  unfold applyAck. repeat case_decide;
    [destruct (calling_run (fun _ => [Settled id (AckStatus ack) (AckReason ack)]) (complete_transfer id) s)
        as [([] & w & ->)|(e & w & ->)]
    |destruct (calling_run (fun _ => [Settled id (AckStatus ack) (AckReason ack)]) (fail_transfer id (AckReason ack)) s)
        as [([] & w & ->)|(e & w & ->)]
    |destruct (calling_run (fun _ => [Settled id (AckStatus ack) (AckReason ack)]) (timeout_transfer id) s)
        as [([] & w & ->)|(e & w & ->)]
    |right; exists (Errorf ("unexpected ack status " +:+ Quote (AckStatus ack))), (world s); by destruct s];
    [left|right|left|right|left|right]; by eauto.
Qed.

Lemma tallied_settled s l id status reason :
  tallied s l -> tallied (recordAck status s) (l ++ [Settled id status reason]).
Proof.
  unfold tallied. intros (H1 & H2 & H3 & H4). rewrite !count_steps_app.
  rewrite !count_steps_one. cbn [is_settled is_delivered].
  unfold recordAck. repeat case_decide; subst; cbn in *; repeat case_bool_decide; try done; cbn; lia.
Qed.

(** What one acknowledgement and one transfer add, whatever the outcome. *)
Lemma relay_ack_run ack (s : Run W) :
  let '(r, s') := relay_ack ack s in
  accounted s -> accounted s' /\
  ReadyAcks (summary s') = ReadyAcks (summary s) /\ TransfersObserved (summary s') = TransfersObserved (summary s) /\
  exists new, steps s' = steps s ++ new /\ count_steps is_delivered new = 0%Z /\
    (r = Ok tt -> count_steps is_confirmed new = 1%Z).
Proof.
  unfold relay_ack, bind. destruct (applyAck_run (AckTransferID ack) (mk_ack (RecordStatus ack) (RecordReason ack)) s)
    as [(w & ->)|(e & w & ->)]; cbn [AckStatus AckReason].
  2:{ intros [Ht Ho]. split_and!; [by split|done..|]. exists []. by rewrite app_nil_r. }
  unfold modify. match goal with |- context [calling _ _ ?t] => set (s1 := t) end.
  assert (Hsame : ReadyAcks (recordAck (RecordStatus ack) (summary s)) = ReadyAcks (summary s) /\
    TransfersObserved (recordAck (RecordStatus ack) (summary s)) = TransfersObserved (summary s))
    by (unfold recordAck; by repeat case_decide).
  destruct Hsame as [Hr Hobs].
  assert (Hsettled : accounted s -> accounted s1).
  { intros [Ht Ho]. split; [exact (tallied_settled _ _ _ _ _ Ht)|]. by apply orderly_snoc. }
  destruct (calling_run (fun _ => [Confirmed (AckTransferID ack)]) (confirm_ack (AckTransferID ack)) s1)
    as [([] & w' & ->)|(e & w' & ->)]; intros Hs.
  - specialize (Hsettled Hs) as [(H1 & H2 & H3 & H4) Ho]. split_and!; [|done..|].
    + split; cbn [summary steps].
      * unfold tallied. rewrite !count_steps_app, !count_steps_one. cbn [is_settled is_delivered]. split_and!; lia.
      * apply orderly_snoc; [done|]. intros id [= <-]. by eexists _, _, _.
    + exists [Settled (AckTransferID ack) (RecordStatus ack) (RecordReason ack); Confirmed (AckTransferID ack)].
      unfold s1. cbn [steps upd_summary]. by rewrite <- app_assoc.
  - split_and!; [by apply Hsettled|done..|].
    exists [Settled (AckTransferID ack) (RecordStatus ack) (RecordReason ack)]. by split_and!.
Qed.

Lemma deliver_run transfer (s : Run W) :
  let '(r, s') := deliver transfer s in
  accounted s -> accounted s' /\
  ReadyAcks (summary s') = ReadyAcks (summary s) /\ TransfersObserved (summary s') = TransfersObserved (summary s) /\
  exists new, steps s' = steps s ++ new /\ count_steps is_confirmed new = 0%Z /\
    (r = Ok tt -> count_steps is_delivered new = 1%Z).
Proof.
  unfold deliver, bind. destruct (calling_run (fun _ => [Delivered (TransferID transfer)]) (submit_transfer transfer) s)
    as [(ack & w & ->)|(e & w & ->)].
  2:{ intros [Ht Ho]. split_and!; [by split|done..|]. exists []. by rewrite app_nil_r. }
  unfold modify. set (s1 := upd_summary (add_TransfersDelivered 1) _).
  assert (Hs1 : accounted s -> accounted s1).
  { intros [(H1 & H2 & H3 & H4) Ho]. split; [|by apply orderly_snoc].
    unfold s1, tallied. cbn [upd_summary steps summary add_TransfersDelivered CompletedAcks FailedAcks TimedOutAcks TransfersDelivered].
    rewrite !count_steps_app, !count_steps_one. cbn [is_settled is_delivered]. split_and!; lia. }
  destruct (_ || _).
  { intros Hs. split_and!; [exact (Hs1 Hs)|done..|]. by exists [Delivered (TransferID transfer)]. }
  destruct (applyAck_run (TransferID transfer) ack s1) as [(w' & ->)|(e & w' & ->)]; intros Hs; specialize (Hs1 Hs).
  - destruct Hs1 as [Ht Ho]. split_and!; cbn [upd_summary summary steps world].
    + split; [exact (tallied_settled _ _ _ _ _ Ht)|by apply orderly_snoc].
    + unfold recordAck. by repeat case_decide.
    + unfold recordAck. by repeat case_decide.
    + exists [Delivered (TransferID transfer); Settled (TransferID transfer) (AckStatus ack) (AckReason ack)].
      unfold s1. cbn [steps upd_summary]. by rewrite <- app_assoc.
  - split_and!; [done..|]. by exists [Delivered (TransferID transfer)].
Qed.

(** A loop whose turns keep the accounts and make one step of a kind each. *)
Lemma for_each_accounted {A} (f : A -> Op (Run W) unit) (mine other : step -> bool) :
  (forall x s, let '(r, s') := f x s in
    accounted s -> accounted s' /\
    ReadyAcks (summary s') = ReadyAcks (summary s) /\ TransfersObserved (summary s') = TransfersObserved (summary s) /\
    exists new, steps s' = steps s ++ new /\ count_steps other new = 0%Z /\
      (r = Ok tt -> count_steps mine new = 1%Z)) ->
  forall xs s, let '(r, s') := for_each f xs s in
    accounted s -> accounted s' /\
    ReadyAcks (summary s') = ReadyAcks (summary s) /\ TransfersObserved (summary s') = TransfersObserved (summary s) /\
    exists new, steps s' = steps s ++ new /\ count_steps other new = 0%Z /\
      (r = Ok tt -> count_steps mine new = Z.of_nat (length xs)).
Proof.
  intros Hf. induction xs as [|x xs IH]; intros s; cbn [for_each].
  { intros Hs. split_and!; [done..|]. exists []. by rewrite app_nil_r. }
  unfold bind. specialize (Hf x s). destruct (f x s) as [[[]|e] s1].
  - specialize (IH s1). destruct (for_each f xs s1) as [r s']. intros Hs.
    destruct (Hf Hs) as (Hs1 & H1 & H2 & new1 & E1 & C1 & M1).
    destruct (IH Hs1) as (Hs' & G1 & G2 & new2 & E2 & C2 & M2).
    split_and!; [done|congruence|congruence|]. exists (new1 ++ new2).
    rewrite !count_steps_app. split_and!; [by rewrite E2, E1, app_assoc|lia|].
    intros Hr. rewrite (M1 eq_refl), (M2 Hr). cbn [length]. lia.
  - intros Hs. destruct (Hf Hs) as (Hs1 & H1 & H2 & new1 & E1 & C1 & _). split_and!; [done..|].
    by exists new1.
Qed.

End runs.

(** ** Memos round trip *)

(** Text a memo can carry: printable, without blanks or colons. *)
Definition plain (s : string) : bool := all_graphic s && lacks colon s.

(** The canonical memo of an action. *)
Definition option_text (key value : string) : list string :=
  if decide (value = EmptyString) then [] else [key +:+ String equals value].
Definition action_memo (a : RouteAction) : string :=
  GoStrings.Join (ActionType a :: TargetDenom a :: option_text "min_out" (MinOut a) ++
        option_text "recipient" (ActionRecipient a) ++ option_text "path" (ActionPath a)) ":".

Definition action_ok (a : RouteAction) : Prop :=
  (ActionType a = "swap"%string \/ ActionType a = "stake"%string /\ MinOut a = EmptyString) /\
  TargetDenom a <> EmptyString /\ plain (TargetDenom a) = true /\
  plain (MinOut a) = true /\ plain (ActionRecipient a) = true /\ plain (ActionPath a) = true.

Lemma plain_trimmed s : plain s = true -> TrimSpace s = s.
Proof. intros [Hg _]%andb_prop. by apply all_graphic_trimmed. Qed.

Lemma option_text_plain key value :
  plain key = true -> plain value = true ->
  Forall (fun p => all_graphic p = true /\ lacks colon p = true) (option_text key value).
Proof.
  intros [Hk1 Hk2]%andb_prop [Hv1 Hv2]%andb_prop. unfold option_text. case_decide; [constructor|].
  constructor; [|constructor]. change (String equals value) with (String equals EmptyString +:+ value).
  rewrite !all_graphic_app, !lacks_app, Hk1, Hk2, Hv1, Hv2. done.
Qed.

(** One option of the canonical memo. *)
Lemma parse_option_text kind assign seen a a' key value rest :
  plain key = true -> lacks equals key = true -> key <> EmptyString -> plain value = true ->
  key ∉ seen -> (value <> EmptyString -> assign key value a = Some a') -> (value = EmptyString -> a' = a) ->
  exists seen', parse_options kind assign seen a (option_text key value ++ rest) =
    parse_options kind assign seen' a' rest /\ seen' ⊆ {[ key ]} ∪ seen.
Proof.
  intros Hk He Hkn Hv Hs Ha Hn. unfold option_text. case_decide as Hempty.
  { exists seen. rewrite (Hn Hempty). split; [done|]. set_solver. }
  exists ({[ key ]} ∪ seen). split; [|done]. cbn [app parse_options].
  assert (Ht : TrimSpace (key +:+ String equals value) = key +:+ String equals value).
  { apply all_graphic_trimmed. change (String equals value) with (String equals EmptyString +:+ value).
    apply andb_prop in Hk as [Hk _]. apply andb_prop in Hv as [Hv _]. by rewrite !all_graphic_app, Hk, Hv. }
  rewrite Ht, decide_False by by destruct key. rewrite Cut_app by done. cbn [negb].
  rewrite !plain_trimmed by done. rewrite !bool_decide_eq_false_2 by done. cbn [orb].
  rewrite decide_False by done. by rewrite Ha.
Qed.

(** Memos round trip. A swap or stake action written as its canonical memo —
    the type, the denomination and the options that are set — is parsed back to
    the same action without an error. *)
Theorem parseRouteAction_memo (a : RouteAction) :
  action_ok a -> parseRouteAction (action_memo a) = (Some a, EmptyString).
Proof.
  intros (Hkind & Hdn & Hd & Hm & Hr & Hp).
  assert (Hparts : Forall (fun p => all_graphic p = true /\ lacks colon p = true)
    (ActionType a :: TargetDenom a :: option_text "min_out" (MinOut a) ++
     option_text "recipient" (ActionRecipient a) ++ option_text "path" (ActionPath a))).
  { constructor; [by destruct Hkind as [->|[-> _]]|]. constructor; [by apply andb_prop in Hd|].
    rewrite !Forall_app. split_and!; by apply option_text_plain. }
  assert (Htrim : TrimSpace (action_memo a) = action_memo a).
  { apply all_graphic_trimmed, all_graphic_Join; [done|]. eapply Forall_impl; [exact Hparts|]. by intros ? []. }
  unfold parseRouteAction. rewrite Htrim.
  rewrite decide_False by (unfold action_memo; by destruct Hkind as [->|[-> _]]).
  unfold action_memo at 1. rewrite Split_Join;
    [|done|eapply Forall_impl; [exact Hparts|]; by intros ? []].
  rewrite (plain_trimmed (TargetDenom a)), (decide_False (P := TargetDenom a = EmptyString)) by done.
  replace (TrimSpace (ActionType a)) with (ActionType a) by (by destruct Hkind as [->|[-> _]]).
  destruct a as [kind denom mo rc pa]. cbn [ActionType TargetDenom MinOut ActionRecipient ActionPath] in *.
  destruct Hkind as [->|[-> Hmo]].
  - rewrite decide_True by done.
    destruct (parse_option_text "swap" swap_option ∅ (mk_action "swap" denom EmptyString EmptyString EmptyString)
      (mk_action "swap" denom mo EmptyString EmptyString) "min_out" mo
      (option_text "recipient" rc ++ option_text "path" pa)) as (s1 & -> & Hs1); try done; [by intros ->|].
    destruct (parse_option_text "swap" swap_option s1 (mk_action "swap" denom mo EmptyString EmptyString)
      (mk_action "swap" denom mo rc EmptyString) "recipient" rc (option_text "path" pa)) as (s2 & -> & Hs2);
      try done; [set_solver|by intros ->|].
    destruct (parse_option_text "swap" swap_option s2 (mk_action "swap" denom mo rc EmptyString)
      (mk_action "swap" denom mo rc pa) "path" pa []) as (s3 & Hp3 & _); try done; [set_solver|by intros ->|].
    rewrite app_nil_r in Hp3. by rewrite Hp3.
  - subst mo. rewrite decide_False, decide_True by done.
    change (option_text "min_out" EmptyString) with (@nil string). cbn [app].
    destruct (parse_option_text "stake" stake_option ∅ (mk_action "stake" denom EmptyString EmptyString EmptyString)
      (mk_action "stake" denom EmptyString rc EmptyString) "recipient" rc (option_text "path" pa)) as (s2 & -> & Hs2);
      try done; [by intros ->|].
    destruct (parse_option_text "stake" stake_option s2 (mk_action "stake" denom EmptyString rc EmptyString)
      (mk_action "stake" denom EmptyString rc pa) "path" pa []) as (s3 & Hp3 & _); try done; [set_solver|by intros ->|].
    rewrite app_nil_r in Hp3. rewrite (decide_False (P := denom = EmptyString)) by done. by rewrite Hp3.
Qed.

(** ** Concrete runs *)

Definition demo_action : RouteAction := mk_action "swap" "uosmo" "1900" "osmo1user" "pool=7".

Example parseRouteAction_memo_witness :
  action_memo demo_action = "swap:uosmo:min_out=1900:recipient=osmo1user:path=pool=7"%string /\
  parseRouteAction (action_memo demo_action) = (Some demo_action, EmptyString).
Proof.
  split; [reflexivity|]. apply (parseRouteAction_memo demo_action).
  unfold action_ok. split_and!; [by left|discriminate|reflexivity..].
Defined.

Example demo_memo_errors :
  map (fun m => snd (parseRouteAction m)) ["swap"; "swap:uosmo:"; "swap:uosmo:min_out=1:min_out=2"; "stake:uosmo:min_out=1";
     "bridge:0xabc"; "hello"]%string =
  ["missing target denom for swap action"; "empty swap option"; "duplicate swap option " +:+ Quote "min_out";
   "unsupported stake option " +:+ Quote "min_out"; "unsupported route action " +:+ Quote "bridge"; ""]%string.
Proof. vm_compute. reflexivity. Qed.

Definition demo_pending (id : string) : Transfer :=
  mk_transfer id "eth.usdc" "100" "osmo1user" "osmosis-1" "channel-0" "ibc/uethusdc" 500 EmptyString "pending" EmptyString.

(** A target with two acknowledgements ready that answers a delivery at once
    for the transfer [channel-0/4], and a chain that refuses to settle
    [channel-0/3]. *)
#[local] Instance demo_services : RouteServices unit := {|
  pending_transfers := ret [demo_pending "channel-0/3"; demo_pending "channel-0/4"];
  complete_transfer := fun id => if String.eqb id "channel-0/3" then throw (Errorf "transfer not pending") else ret tt;
  fail_transfer := fun _ _ => ret tt;
  timeout_transfer := fun _ => ret tt;
  submit_transfer := fun t => ret (mk_ack (if String.eqb (TransferID t) "channel-0/4" then AckStatusCompleted else AckStatusReceived) EmptyString);
  ready_acks := ret [mk_ack_record "channel-0/1" AckStatusCompleted EmptyString;
                     mk_ack_record "channel-0/2" AckStatusTimedOut "late"];
  confirm_ack := fun _ => ret tt
|}.

