(* ===== verification/MockTarget.v ===== *)
(** [relayer/internal/route] (mock_target.go, runtime_target.go): the delivery
    target of the route relayer — packets received once, executed once as a
    credit, a swap against a constant-product pool or a stake, and their
    acknowledgements. *)

From S2P Require Import Prelude.
From S2P Require Import GoStrings.
From S2P Require Import Errors.
From S2P Require Import RouteRelay.
From Stdlib Require Import Ascii String.
From stdpp Require Import strings.

(** ** State *)

Inductive MockTargetMode := ModeSuccess | ModeFail | ModeTimeout | ModeManual.

Definition normalizeMockTargetMode (mode : string) : MockTargetMode :=
  let mode := TrimSpace mode in
  if decide (mode = "fail"%string) then ModeFail
  else if decide (mode = "timeout"%string) then ModeTimeout
  else if decide (mode = "manual"%string) then ModeManual
  else ModeSuccess.

Record MockTargetPacket := mk_pkt {
  PkTransferID : string;
  PkDestinationChainID : string;
  PacketState : string;
  AckState : string;
  PkAckReason : string;
  AckPayload : option Ack;
  AckRelayed : bool;
  PkPacket : Packet;
  PkDenomTrace : DenomTrace;
  PkAction : option RouteAction;
  PkActionError : string
}.

Record MockTargetExecution := mk_execution {
  ExTransferID : string;
  PacketSequence : N;           (* uint64 *)
  ExResult : string;
  ExRecipient : string;
  ExInputDenom : string;
  ExInputAmount : string;
  ExOutputDenom : string;
  ExOutputAmount : string;
  ExDexChainID : string;
  ExRoutePath : string;
  ExError : string
}.

Record MockTargetSwap := mk_swap {
  SwTransferID : string;
  SwInputDenom : string;
  SwOutputDenom : string;
  SwInputAmount : string;
  SwOutputAmount : string;
  SwRecipient : string;
  SwDexChainID : string;
  SwRoutePath : string
}.

Record MockTargetStake := mk_stake {
  StTransferID : string;
  StDenom : string;
  StAmount : string;
  StStaker : string;
  StValidator : string
}.

Record MockTargetPool := mk_pool {
  InputDenom : string;
  OutputDenom : string;
  ReserveIn : string;
  ReserveOut : string;
  FeeBPS : N                    (* uint32 *)
}.

Record MockTargetBalance := mk_balance { BalAddress : string; BalDenom : string; BalAmount : string }.

Record MockTargetState := mk_state {
  Packets : list MockTargetPacket;
  Receipts : list MockTargetPacket;
  Executions : list MockTargetExecution;
  Swaps : list MockTargetSwap;
  Stakes : list MockTargetStake;
  Pools : list MockTargetPool;
  Balances : list MockTargetBalance
}.

(** [file] is the document at [statePath], absent when there is none; [faults]
    are the outcomes of the next writes, which succeed when it has run out. *)
Record MockTarget := mk_target {
  mode : MockTargetMode;
  statePath : string;
  state : MockTargetState;
  file : option MockTargetState;
  faults : list (option error)
}.

Definition set_state st (t : MockTarget) := mk_target (mode t) (statePath t) st (file t) (faults t).
Definition set_file f (t : MockTarget) := mk_target (mode t) (statePath t) (state t) f (faults t).
Definition set_faults fs (t : MockTarget) := mk_target (mode t) (statePath t) (state t) (file t) fs.

Definition upd_Packets f (s : MockTargetState) :=
  mk_state (f (Packets s)) (Receipts s) (Executions s) (Swaps s) (Stakes s) (Pools s) (Balances s).
Definition upd_Receipts f (s : MockTargetState) :=
  mk_state (Packets s) (f (Receipts s)) (Executions s) (Swaps s) (Stakes s) (Pools s) (Balances s).
Definition upd_Executions f (s : MockTargetState) :=
  mk_state (Packets s) (Receipts s) (f (Executions s)) (Swaps s) (Stakes s) (Pools s) (Balances s).
Definition upd_Swaps f (s : MockTargetState) :=
  mk_state (Packets s) (Receipts s) (Executions s) (f (Swaps s)) (Stakes s) (Pools s) (Balances s).
Definition upd_Stakes f (s : MockTargetState) :=
  mk_state (Packets s) (Receipts s) (Executions s) (Swaps s) (f (Stakes s)) (Pools s) (Balances s).
Definition upd_Pools f (s : MockTargetState) :=
  mk_state (Packets s) (Receipts s) (Executions s) (Swaps s) (Stakes s) (f (Pools s)) (Balances s).
Definition upd_Balances f (s : MockTargetState) :=
  mk_state (Packets s) (Receipts s) (Executions s) (Swaps s) (Stakes s) (Pools s) (f (Balances s)).

Definition defaultMockTargetPools : list MockTargetPool := [
  mk_pool "ibc/uatom-usdc" "uosmo" "500000000" "1000000000" 0;
  mk_pool "ibc/uethusdc" "uosmo" "500000000" "1000000000" 0
].

Definition defaultMockTargetBalances : list MockTargetBalance :=
  [mk_balance "osmo1faucet" "uosmo" "1000000000"].

Definition ensurePoolsLocked (s : MockTargetState) : MockTargetState :=
  match Pools s with [] => upd_Pools (fun _ => defaultMockTargetPools) s | _ => s end.
Definition ensureBalancesLocked (s : MockTargetState) : MockTargetState :=
  match Balances s with [] => upd_Balances (fun _ => defaultMockTargetBalances) s | _ => s end.
Definition syncLegacyReceiptsLocked (s : MockTargetState) : MockTargetState :=
  upd_Receipts (fun _ => Packets s) s.

(** ** Amounts *)

Definition parsePositiveDecimal (value label : string) : result Z :=
  let invalid := Err (Errorf ("invalid " +:+ label +:+ " " +:+ Quote value)) in
  match SetString10 (TrimSpace value) with
  | Some parsed => if (parsed <=? 0)%Z then invalid else Ok parsed
  | None => invalid
  end.

Definition addDecimalStrings (current delta : string) : result string :=
  match SetString10 (TrimSpace current) with
  | None => Err (Errorf ("invalid balance amount " +:+ Quote current))
  | Some currentInt =>
      match SetString10 (TrimSpace delta) with
      | None => Err (Errorf ("invalid credit amount " +:+ Quote delta))
      | Some deltaInt => Ok (format_int (currentInt + deltaInt))
      end
  end.

(** The first balance of the address and denomination is changed in place. *)
Fixpoint credit_entry (address denom amount : string) (balances : list MockTargetBalance)
    : result (list MockTargetBalance) :=
  match balances with
  | [] => Ok [mk_balance address denom amount]
  | b :: rest =>
      if bool_decide (BalAddress b = address) && bool_decide (BalDenom b = denom)
      then let? next := addDecimalStrings (BalAmount b) amount in
           Ok (mk_balance (BalAddress b) (BalDenom b) next :: rest)
      else let? rest := credit_entry address denom amount rest in Ok (b :: rest)
  end.

Definition creditBalanceLocked (address denom amount : string) : Op MockTargetState unit := fun s =>
  let amount := TrimSpace amount in
  if decide (amount = EmptyString) then (Ok tt, s)
  else match credit_entry (TrimSpace address) (TrimSpace denom) amount (Balances s) with
       | Ok balances => (Ok tt, upd_Balances (fun _ => balances) s)
       | Err e => (Err e, s)
       end.

(** ** Swaps *)

(** [uint32(10_000) - FeeBPS] wraps. *)
Definition feeMultiplier (feeBPS : N) : Z := Z.of_N ((10000 + two32 - feeBPS) mod two32).

Definition effective_input (feeBPS : N) (inputAmount : Z) : result Z :=
  if (0 <? feeBPS)%N
  then let effectiveInput := (inputAmount * feeMultiplier feeBPS / 10000)%Z in
       if (effectiveInput <=? 0)%Z then Err (Errorf "effective input is zero after fee")
       else Ok effectiveInput
  else Ok inputAmount.

(** The price: the output and the new reserves of a pool. *)
Definition swap_output (pool : MockTargetPool) (amount minOut : string) : result (Z * Z * Z) :=
  let? inputAmount := parsePositiveDecimal (TrimSpace amount) "swap amount" in
  let? effectiveInput := effective_input (FeeBPS pool) inputAmount in
  let? reserveIn := parsePositiveDecimal (ReserveIn pool) "pool reserve in" in
  let? reserveOut := parsePositiveDecimal (ReserveOut pool) "pool reserve out" in
  let numerator := (reserveOut * effectiveInput)%Z in
  let denominator := (reserveIn + effectiveInput)%Z in
  let? _ := ensure (denominator <=? 0)%Z (Errorf "invalid pool denominator") in
  let outputAmount := (numerator / denominator)%Z in
  let? _ := ensure ((outputAmount <=? 0)%Z || (reserveOut <=? outputAmount)%Z)
              (Errorf ("insufficient liquidity for " +:+ InputDenom pool +:+ " -> " +:+ OutputDenom pool)) in
  let minOut := TrimSpace minOut in
  let? _ := (if decide (minOut = EmptyString) then Ok tt
    else let? minOutAmount := parsePositiveDecimal minOut "min_out" in
         ensure (outputAmount <? minOutAmount)%Z
           (Errorf ("min_out not met: expected at least " +:+ format_int minOutAmount +:+ ", got " +:+
              format_int outputAmount))) in
  Ok (outputAmount, (reserveIn + effectiveInput)%Z, (reserveOut - outputAmount)%Z).

Definition with_reserves (reserveIn reserveOut : Z) (p : MockTargetPool) : MockTargetPool :=
  mk_pool (InputDenom p) (OutputDenom p) (format_int reserveIn) (format_int reserveOut) (FeeBPS p).

Definition pool_matches (input output : string) (p : MockTargetPool) : Prop :=
  InputDenom p = TrimSpace input /\ OutputDenom p = TrimSpace output.
#[global] Instance pool_matches_dec input output p : Decision (pool_matches input output p).
Proof. unfold pool_matches. apply _. Defined.

Definition executeSwapLocked (packet : MockTargetPacket) (action : RouteAction) : Op MockTargetState string := fun s =>
  match list_find (pool_matches (IBCDenom (PkDenomTrace packet)) (TargetDenom action)) (Pools s) with
  | None => (Err (Errorf ("no pool for " +:+ IBCDenom (PkDenomTrace packet) +:+ " -> " +:+ TargetDenom action)), s)
  | Some (poolIndex, pool) =>
      match swap_output pool (DataAmount (Data (PkPacket packet))) (MinOut action) with
      | Err e => (Err e, s)
      | Ok (outputAmount, reserveIn, reserveOut) =>
          (Ok (format_int outputAmount),
           upd_Pools (fun pools => <[poolIndex := with_reserves reserveIn reserveOut pool]> pools) s)
      end
  end.

(** ** Packets *)

Definition with_ack (packetState ackState reason : string) (payload : option Ack) (relayed : bool)
    (p : MockTargetPacket) : MockTargetPacket :=
  mk_pkt (PkTransferID p) (PkDestinationChainID p) packetState ackState reason payload relayed
    (PkPacket p) (PkDenomTrace p) (PkAction p) (PkActionError p).

Definition markPacketAckReadyLocked (ack : Ack) (p : MockTargetPacket) : MockTargetPacket :=
  with_ack "ack_ready" (AckStatus ack) (TrimSpace (AckReason ack)) (Some ack) false p.

Definition advancePacketAfterExecutionLocked (m : MockTargetMode) (p : MockTargetPacket) : MockTargetPacket :=
  match m with
  | ModeSuccess => markPacketAckReadyLocked (mk_ack AckStatusCompleted EmptyString) p
  | ModeFail => markPacketAckReadyLocked (mk_ack AckStatusFailed "mock ack failed") p
  | ModeTimeout => markPacketAckReadyLocked (mk_ack AckStatusTimedOut "mock timeout") p
  | ModeManual => with_ack "executed" "pending" EmptyString None false p
  end.

Definition packetExecutionRecipient (p : MockTargetPacket) : string :=
  let receiver := TrimSpace (DataReceiver (Data (PkPacket p))) in
  match PkAction p with
  | Some action => let recipient := TrimSpace (ActionRecipient action) in
                   if decide (recipient = EmptyString) then receiver else recipient
  | None => receiver
  end.

Definition packetRoutePath (p : MockTargetPacket) : string :=
  match PkAction p with None => EmptyString | Some action => TrimSpace (ActionPath action) end.

Definition failed_ack (reason : string) : Ack := mk_ack AckStatusFailed reason.

(** The execution record of a packet: its outcome, output and error. *)
Definition execution (p : MockTargetPacket) (outcome outputDenom outputAmount failure : string)
    : MockTargetExecution :=
  mk_execution (PkTransferID p) (Sequence (PkPacket p)) outcome (packetExecutionRecipient p)
    (IBCDenom (PkDenomTrace p)) (TrimSpace (DataAmount (Data (PkPacket p)))) outputDenom outputAmount
    (PkDestinationChainID p) (packetRoutePath p) failure.

Definition record_execution (e : MockTargetExecution) (s : MockTargetState) : MockTargetState :=
  upd_Executions (fun es => es ++ [e]) s.

Definition execute_swap (m : MockTargetMode) (p : MockTargetPacket) (action : RouteAction) (s : MockTargetState)
    : MockTargetPacket * MockTargetState :=
  let denom := TargetDenom action in
  match executeSwapLocked p action s with
  | (Err e, s) =>
      (markPacketAckReadyLocked (failed_ack (error_text e)) p,
       record_execution (execution p "swap_failed" denom EmptyString (error_text e)) s)
  | (Ok outputAmount, s) =>
      let s := upd_Swaps (fun l => l ++ [mk_swap (PkTransferID p) (IBCDenom (PkDenomTrace p)) denom
                 (TrimSpace (DataAmount (Data (PkPacket p)))) outputAmount (packetExecutionRecipient p)
                 (PkDestinationChainID p) (packetRoutePath p)]) s in
      match creditBalanceLocked (packetExecutionRecipient p) denom outputAmount s with
      | (Err e, s) =>
          (markPacketAckReadyLocked (failed_ack (error_text e)) p,
           record_execution (execution p "swap_failed" denom outputAmount (error_text e)) s)
      | (Ok _, s) =>
          (advancePacketAfterExecutionLocked m p,
           record_execution (execution p "swap_success" denom outputAmount EmptyString) s)
      end
  end.

Definition execute_stake (m : MockTargetMode) (p : MockTargetPacket) (action : RouteAction) (s : MockTargetState)
    : MockTargetPacket * MockTargetState :=
  let denom := TargetDenom action in
  let amount := TrimSpace (DataAmount (Data (PkPacket p))) in
  let fail reason := (markPacketAckReadyLocked (failed_ack reason) p,
                      record_execution (execution p "stake_failed" denom amount reason) s) in
  if decide (TrimSpace denom <> TrimSpace (IBCDenom (PkDenomTrace p)))
  then fail ("stake action requires received denom " +:+ IBCDenom (PkDenomTrace p))
  else if decide (TrimSpace (packetRoutePath p) = EmptyString)
  then fail "missing validator path for stake action"%string
  else
    (advancePacketAfterExecutionLocked m p,
     record_execution (execution p "stake_success" denom amount EmptyString)
       (upd_Stakes (fun l => l ++ [mk_stake (PkTransferID p) denom amount (packetExecutionRecipient p)
          (packetRoutePath p)]) s)).

Definition execute_credit (m : MockTargetMode) (p : MockTargetPacket) (s : MockTargetState)
    : MockTargetPacket * MockTargetState :=
  let denom := IBCDenom (PkDenomTrace p) in
  let amount := TrimSpace (DataAmount (Data (PkPacket p))) in
  match creditBalanceLocked (packetExecutionRecipient p) denom amount s with
  | (Err e, s) =>
      (markPacketAckReadyLocked (failed_ack (error_text e)) p,
       record_execution (execution p "credit_failed" denom amount (error_text e)) s)
  | (Ok _, s) =>
      (advancePacketAfterExecutionLocked m p,
       record_execution (execution p "credit" denom amount EmptyString) s)
  end.

Definition executePacketLocked (m : MockTargetMode) (p : MockTargetPacket) (s : MockTargetState)
    : MockTargetPacket * MockTargetState :=
  let s := ensurePoolsLocked s in
  let actionError := TrimSpace (PkActionError p) in
  if decide (actionError <> EmptyString)
  then (markPacketAckReadyLocked (failed_ack actionError) p,
        record_execution (execution p "invalid_action" EmptyString EmptyString actionError) s)
  else match PkAction p with
       | Some action =>
           if decide (ActionType action = "swap"%string) then execute_swap m p action s
           else if decide (ActionType action = "stake"%string) then execute_stake m p action s
           else execute_credit m p s
       | None => execute_credit m p s
       end.

Definition ensurePacketExecutedLocked (m : MockTargetMode) (p : MockTargetPacket) (s : MockTargetState)
    : MockTargetPacket * MockTargetState :=
  if decide (PacketState p = "received"%string) then executePacketLocked m p s else (p, s).

Definition findPacketLocked (transferID : string) (s : MockTargetState) : option (nat * MockTargetPacket) :=
  list_find (fun p => PkTransferID p = TrimSpace transferID) (Packets s).

(** A packet is a pointer into the slice: its changes are written back. *)
Definition store_packet (i : nat) (p : MockTargetPacket) (s : MockTargetState) : MockTargetState :=
  upd_Packets (fun ps => <[i := p]> ps) s.

(** The loop of [advanceReceivedPacketsLocked] over the indices that are left. *)
Fixpoint advance_from (m : MockTargetMode) (indices : list nat) (changed : bool) (s : MockTargetState)
    : bool * MockTargetState :=
  match indices with
  | [] => (changed, s)
  | i :: rest =>
      match Packets s !! i with
      | None => (changed, s)
      | Some p =>
          if decide (PacketState p = "received"%string) then
            match m with
            | ModeTimeout =>
                advance_from m rest true
                  (store_packet i (markPacketAckReadyLocked (mk_ack AckStatusTimedOut "mock timeout") p) s)
            | _ => let '(p', s') := executePacketLocked m p s in
                   advance_from m rest true (store_packet i p' s')
            end
          else advance_from m rest changed s
      end
  end.

Definition advanceReceivedPacketsLocked (m : MockTargetMode) (s : MockTargetState) : bool * MockTargetState :=
  advance_from m (seq 0 (length (Packets s))) false s.

(** ** Operations *)

Definition persistMockTargetState : Op MockTarget unit := fun t =>
  if decide (TrimSpace (statePath t) = EmptyString) then (Ok tt, t)
  else match faults t with
       | Some e :: rest => (Err e, set_faults rest t)
       | None :: rest => (Ok tt, set_faults rest (set_file (Some (state t)) t))
       | [] => (Ok tt, set_file (Some (state t)) t)
       end.

Definition new_packet (envelope : DeliveryEnvelope) : MockTargetPacket :=
  mk_pkt (TransferID (EnvTransfer envelope)) (DestinationChainID (EnvTransfer envelope)) "received" "pending"
    EmptyString None false (EnvPacket envelope) (EnvDenomTrace envelope) (Action envelope)
    (TrimSpace (ActionError envelope)).

Definition receive (envelope : DeliveryEnvelope) (s : MockTargetState) : MockTargetState :=
  match findPacketLocked (TransferID (EnvTransfer envelope)) s with
  | Some _ => s
  | None => upd_Packets (fun ps => ps ++ [new_packet envelope]) s
  end.

(** The POST branch of [handleTransfers], and [ReceiveTransfer]. *)
Definition handleTransfers (envelope : DeliveryEnvelope) : Op MockTarget Ack :=
  modify (fun t => set_state (syncLegacyReceiptsLocked (receive envelope (state t))) t) ;;;
  persistMockTargetState ;;;
  ret (mk_ack AckStatusReceived EmptyString).

Definition ReceiveTransfer (transfer : Transfer) : Op MockTarget Ack :=
  let! envelope := lift (buildDeliveryEnvelope transfer) in
  handleTransfers envelope.

Definition ack_records (s : MockTargetState) : list AckRecord :=
  omap (fun p =>
    match AckPayload p with
    | Some payload =>
        if bool_decide (PacketState p <> "ack_ready"%string) || AckRelayed p then None
        else Some (mk_ack_record (PkTransferID p) (AckStatus payload) (AckReason payload))
    | None => None
    end) (Packets s).

(** [handleAcks], and [ReadyAckRecords]. *)
Definition ReadyAckRecords : Op MockTarget (list AckRecord) := fun t =>
  let '(changed, s) := advanceReceivedPacketsLocked (mode t) (state t) in
  let t := set_state (if changed then syncLegacyReceiptsLocked s else s) t in
  match (if changed then persistMockTargetState t else (Ok tt, t)) with
  | (Err e, t) => (Err e, t)
  | (Ok _, t) => (Ok (ack_records (state t)), t)
  end.

(** [setAckState]: the action on the packet found, before it is stored. *)
Definition ack_action (m : MockTargetMode) (action reason : string) (p : MockTargetPacket) (s : MockTargetState)
    : result (MockTargetPacket * MockTargetState) :=
  if decide (action = "confirm"%string) then
    if decide (PacketState p <> "ack_ready"%string) then Err (Errorf "ack not ready")
    else Ok (with_ack "ack_relayed" (AckState p) (PkAckReason p) (AckPayload p) true p, s)
  else if decide (action = "complete"%string) then
    let '(p, s) := ensurePacketExecutedLocked m p s in
    Ok (markPacketAckReadyLocked (mk_ack AckStatusCompleted EmptyString) p, s)
  else if decide (action = "fail"%string) then
    let '(p, s) := ensurePacketExecutedLocked m p s in
    Ok (markPacketAckReadyLocked (mk_ack AckStatusFailed (TrimSpace reason)) p, s)
  else if decide (action = "timeout"%string) then
    Ok (markPacketAckReadyLocked (mk_ack AckStatusTimedOut (TrimSpace reason)) p, s)
  else Err (Errorf "unknown ack action").

Definition setAckState (transferID action reason : string) : Op MockTarget unit := fun t =>
  match findPacketLocked transferID (state t) with
  | None => (Err (Errorf "file does not exist"), t)
  | Some (i, p) =>
      match ack_action (mode t) action reason p (state t) with
      | Err e => (Err e, t)
      | Ok (p, s) => persistMockTargetState (set_state (syncLegacyReceiptsLocked (store_packet i p s)) t)
      end
  end.

Definition reason_or (default reason : string) : string :=
  if decide (TrimSpace reason = EmptyString) then default else reason.

Definition ConfirmReadyAck (transferID : string) := setAckState transferID "confirm" EmptyString.
Definition CompleteAck (transferID : string) := setAckState transferID "complete" EmptyString.
Definition FailAck (transferID reason : string) :=
  setAckState transferID "fail" (reason_or "mock ack failed" reason).
Definition TimeoutAck (transferID reason : string) :=
  setAckState transferID "timeout" (reason_or "mock timeout" reason).

(** [handleAckControl]: the action is the rest of the path, the errors are the
    responses' codes and texts. *)
Definition http_reason (action : string) : string :=
  if decide (action = "fail"%string) then "mock ack failed"
  else if decide (action = "timeout"%string) then "mock timeout"
  else EmptyString.

Definition handleAckControl (action transfer_id : string) : M (N * string) MockTarget MockTargetPacket := fun t =>
  let transferID := TrimSpace transfer_id in
  if decide (transferID = EmptyString) then (Err (400%N, "missing transfer_id"%string), t)
  else match findPacketLocked transferID (state t) with
  | None => (Err (404%N, "packet not found"%string), t)
  | Some (i, p) =>
      if decide (action = "confirm"%string /\ PacketState p <> "ack_ready"%string)
      then (Err (409%N, "ack not ready"%string), t)
      else match ack_action (mode t) action (http_reason action) p (state t) with
      | Err _ => (Err (404%N, "404 page not found"%string), t)
      | Ok (p, s) =>
          match persistMockTargetState (set_state (syncLegacyReceiptsLocked (store_packet i p s)) t) with
          | (Err e, t) => (Err (500%N, error_text e), t)
          | (Ok _, t) => (Ok p, t)
          end
      end
  end.

(** ** The status report *)

Record MockTargetStatus := mk_status {
  StatusPackets : nat;
  StatusReceipts : nat;
  StatusExecutions : nat;
  StatusPools : nat;
  StatusBalances : nat;
  StatusSwaps : nat;
  StatusStakes : nat;
  SwapFailures : nat;
  ReceivedPackets : nat;
  ExecutedPackets : nat;
  ReadyAcks : nat;
  CompletedAcks : nat;
  FailedAcks : nat;
  TimedOutAcks : nat;
  RelayedAcks : nat;
  PendingReceipts : nat
}.

Definition in_state (packetState : string) (p : MockTargetPacket) : bool :=
  bool_decide (TrimSpace (PacketState p) = packetState).
Definition in_ack (ackState : string) (p : MockTargetPacket) : bool :=
  bool_decide (TrimSpace (AckState p) = ackState).
Definition ready (p : MockTargetPacket) : bool :=
  bool_decide (PacketState p = "ack_ready"%string) && negb (AckRelayed p).
Definition count {A} (f : A -> bool) (l : list A) : nat := length (filter (fun x => f x = true) l).

(** Every counter of the loop over the packets is a count of its own. *)
Definition statusLocked (s : MockTargetState) : MockTargetStatus :=
  let ps := Packets s in
  let received := count (in_state "received") ps in
  let executed := count (in_state "executed") ps in
  let acked ackState p := in_ack ackState p && ready p in
  mk_status (length ps) (length ps) (length (Executions s)) (length (Pools s)) (length (Balances s))
    (length (Swaps s)) (length (Stakes s))
    (count (fun e => bool_decide (ExResult e = "swap_failed"%string)) (Executions s))
    received executed
    (count (acked AckStatusCompleted) ps + count (acked AckStatusFailed) ps + count (acked AckStatusTimedOut) ps)
    (count (in_ack AckStatusCompleted) ps) (count (in_ack AckStatusFailed) ps) (count (in_ack AckStatusTimedOut) ps)
    (count (in_state "ack_relayed") ps) (received + executed).

(** [LoadMockTargetRuntime]: [None] for a file that is not there; a file that
    cannot be read or decoded is an error. *)
Definition LoadMockTargetRuntime (cfgMode path : string) (pools : list MockTargetPool)
    (stored : result (option MockTargetState)) (fs : list (option error)) : result MockTarget :=
  let path := TrimSpace path in
  let fresh := mk_state [] [] [] [] [] pools [] in
  let? st := (if decide (path = EmptyString) then Ok fresh
    else match stored with
         | Err e => Err e
         | Ok None => Ok fresh
         | Ok (Some st) => Ok (match pools with [] => st | _ => upd_Pools (fun _ => pools) st end)
         end) in
  let st := syncLegacyReceiptsLocked (ensureBalancesLocked (ensurePoolsLocked st)) in
  let on_disk := match stored with Ok d => d | Err _ => None end in
  match persistMockTargetState (mk_target (normalizeMockTargetMode cfgMode) path st on_disk fs) with
  | (Err e, _) => Err e
  | (Ok _, t) => Ok t
  end.

(** ** The pools *)

Lemma parsePositiveDecimal_ok value label z :
  parsePositiveDecimal value label = Ok z <-> SetString10 (TrimSpace value) = Some z /\ (0 < z)%Z.
Proof.
  unfold parsePositiveDecimal. destruct (SetString10 (TrimSpace value)) as [parsed|]; [|naive_solver].
  destruct (Z.leb_spec parsed 0); split; intros Heq; naive_solver lia.
Qed.

(** The two reserves, when both are positive numbers. *)
Definition reserves (p : MockTargetPool) : option (Z * Z) :=
  match SetString10 (TrimSpace (ReserveIn p)), SetString10 (TrimSpace (ReserveOut p)) with
  | Some rin, Some rout => if bool_decide (0 < rin /\ 0 < rout)%Z then Some (rin, rout) else None
  | _, _ => None
  end.

Lemma reserves_with rin rout p : (0 < rin)%Z -> (0 < rout)%Z -> reserves (with_reserves rin rout p) = Some (rin, rout).
Proof.
  intros Hin Hout. unfold reserves, with_reserves. cbn [ReserveIn ReserveOut].
  rewrite !format_int_trimmed, !SetString10_format_int. by rewrite bool_decide_true.
Qed.

Lemma effective_input_bounds fee a eff :
  (0 < a)%Z -> effective_input fee a = Ok eff -> (0 < eff)%Z /\ ((fee <= 10000)%N -> (eff <= a)%Z).
Proof.
  intros Ha. unfold effective_input, feeMultiplier. destruct (N.ltb_spec 0 fee) as [Hfee|Hfee]; [|intros [= <-]; lia].
  cbv zeta. destruct (Z.leb_spec (a * Z.of_N ((10000 + two32 - fee) mod two32) / 10000) 0); [done|].
  intros [= <-]. split; [done|]. intros Hle.
  assert (Hm : ((10000 + two32 - fee) mod two32 = 10000 - fee)%N).
  { replace (10000 + two32 - fee)%N with (10000 - fee + 1 * two32)%N by (unfold two32; lia).
    rewrite N.Div0.mod_add. apply N.mod_small. unfold two32. lia. }
  rewrite Hm. apply Z.div_le_upper_bound; nia.
Qed.

(** What a price is: the constant product, rounded against the trader. *)
Definition priced (pool : MockTargetPool) (amount minOut : string) (out rin' rout' : Z) : Prop :=
  exists a eff rin rout,
    SetString10 (TrimSpace amount) = Some a /\ (0 < a)%Z /\
    effective_input (FeeBPS pool) a = Ok eff /\ (0 < eff)%Z /\ ((FeeBPS pool <= 10000)%N -> (eff <= a)%Z) /\
    reserves pool = Some (rin, rout) /\
    out = (rout * eff / (rin + eff))%Z /\ (0 < out < rout)%Z /\
    rin' = (rin + eff)%Z /\ rout' = (rout - out)%Z /\ (rin * rout <= rin' * rout')%Z /\
    (TrimSpace minOut <> EmptyString ->
     exists m, SetString10 (TrimSpace minOut) = Some m /\ (0 < m <= out)%Z).

Lemma swap_output_priced pool amount minOut out rin' rout' :
  swap_output pool amount minOut = Ok (out, rin', rout') -> priced pool amount minOut out rin' rout'.
Proof.
  unfold swap_output. intros Hswap.
  apply res_bind_ok_inv in Hswap as (a & [Ha Hpos]%parsePositiveDecimal_ok & Hswap). rewrite TrimSpace_idem in Ha.
  apply res_bind_ok_inv in Hswap as (eff & Heff & Hswap).
  apply res_bind_ok_inv in Hswap as (rin & [Hrin Hpin]%parsePositiveDecimal_ok & Hswap).
  apply res_bind_ok_inv in Hswap as (rout & [Hrout Hpout]%parsePositiveDecimal_ok & Hswap).
  apply res_bind_ok_inv in Hswap as ([] & _ & Hswap).
  apply res_bind_ok_inv in Hswap as ([] & Hliq%ensure_ok & Hswap).
  apply res_bind_ok_inv in Hswap as ([] & Hmin & Hswap). injection Hswap as <- <- <-.
  destruct (effective_input_bounds _ _ _ Hpos Heff) as [Heff0 Hle].
  apply orb_false_iff in Hliq as [H1%Z.leb_gt H2%Z.leb_gt].
  assert (Hprod : (rout * eff / (rin + eff) * (rin + eff) <= rout * eff)%Z)
    by (rewrite Z.mul_comm; apply Z.mul_div_le; lia).
  exists a, eff, rin, rout. split_and!; try done; [|nia|].
  - unfold reserves. rewrite Hrin, Hrout. by rewrite bool_decide_true.
  - intros Hne. rewrite decide_False in Hmin by done.
    apply res_bind_ok_inv in Hmin as (m & [Hm Hm0]%parsePositiveDecimal_ok & Hge%ensure_ok).
    rewrite TrimSpace_idem in Hm. apply Z.ltb_ge in Hge. by exists m.
Qed.

(** Swaps follow the constant-product rule. A swap that succeeds uses the
    first pool of the two denominations, pays [reserveOut * eff / (reserveIn +
    eff)] for the input after fees, which is positive, less than the reserve and
    at least the packet's min_out, moves the reserves by exactly these amounts,
    so that their product does not fall, and touches nothing else; a swap that
    fails changes nothing. *)
Theorem executeSwap_spec (packet : MockTargetPacket) (action : RouteAction) (s : MockTargetState) :
  match executeSwapLocked packet action s with
  | (Err _, s') => s' = s
  | (Ok paid, s') =>
      exists i pool out rin' rout',
        Pools s !! i = Some pool /\ pool_matches (IBCDenom (PkDenomTrace packet)) (TargetDenom action) pool /\
        (forall j pool', Pools s !! j = Some pool' -> j < i ->
           ~ pool_matches (IBCDenom (PkDenomTrace packet)) (TargetDenom action) pool') /\
        priced pool (DataAmount (Data (PkPacket packet))) (MinOut action) out rin' rout' /\
        paid = format_int out /\
        s' = upd_Pools (fun _ => <[i := with_reserves rin' rout' pool]> (Pools s)) s
  end.
Proof.
  unfold executeSwapLocked.
  destruct (list_find _ (Pools s)) as [[i pool]|] eqn:Hfind; [|done].
  destruct (swap_output _ _ _) as [[[out rin'] rout']|e] eqn:Hswap; [|done].
  apply list_find_Some in Hfind as (Hi & Hmatch & Hfirst).
  exists i, pool, out, rin', rout'. split_and!; try done. by apply swap_output_priced.
Qed.

(** A pool keeps its identity and, once its reserves are positive, their
    product. *)
Definition pool_le (p p' : MockTargetPool) : Prop :=
  InputDenom p' = InputDenom p /\ OutputDenom p' = OutputDenom p /\ FeeBPS p' = FeeBPS p /\
  forall rin rout, reserves p = Some (rin, rout) ->
    exists rin' rout', reserves p' = Some (rin', rout') /\ (rin * rout <= rin' * rout')%Z.

#[global] Instance pool_le_refl : Reflexive pool_le.
Proof. intros p. split_and!; [done..|]. intros rin rout ->. exists rin, rout. by split. Qed.
#[global] Instance pool_le_trans : Transitive pool_le.
Proof.
  intros p q r (H1 & H2 & H3 & H4) (K1 & K2 & K3 & K4). split_and!; [congruence..|].
  intros rin rout (rin' & rout' & Hq & Hle)%H4. apply K4 in Hq as (rin2 & rout2 & Hr & Hle').
  exists rin2, rout2. split; [done|lia].
Qed.

Definition pools_le (s s' : MockTargetState) : Prop :=
  Pools s <> [] -> Pools s' <> [] /\ Forall2 pool_le (Pools s) (Pools s').

#[global] Instance pools_le_refl : Reflexive pools_le.
Proof. intros s Hne. by split. Qed.
#[global] Instance pools_le_trans : Transitive pools_le.
Proof. intros s s' s'' H1 H2 [Hne1 Hle1]%H1. apply H2 in Hne1 as [Hne2 Hle2]. split; [done|by etrans]. Qed.

Lemma pools_le_same s s' : Pools s' = Pools s -> pools_le s s'.
Proof. intros Heq Hne. rewrite Heq. by split. Qed.

Lemma swap_pools_le packet action s : pools_le s (snd (executeSwapLocked packet action s)).
Proof.
  pose proof (executeSwap_spec packet action s) as Hspec.
  destruct (executeSwapLocked packet action s) as [[paid|e] s']; cbn [snd]; [|by subst].
  destruct Hspec as (i & pool & out & rin' & rout' & Hi & _ & _ & Hpriced & _ & ->).
  intros Hne. cbn [Pools upd_Pools]. split.
  - intros Hnil%(f_equal length). rewrite length_insert in Hnil. by destruct (Pools s).
  - apply Forall2_same_length_lookup_2; [by rewrite length_insert|]. intros j p q Hp Hq.
    destruct (decide (i = j)) as [<-|Hij].
    + rewrite list_lookup_insert_eq in Hq by (by eapply lookup_lt_Some). simplify_eq.
      destruct Hpriced as (a & eff & rin & rout & _ & _ & _ & Heff & _ & Hres & _ & Hout & -> & -> & Hprod & _).
      split_and!; [done..|]. intros rin0 rout0 Hr. rewrite Hres in Hr. simplify_eq.
      exists (rin0 + eff)%Z, (rout0 - out)%Z. split; [|done].
      assert (0 < rin0 /\ 0 < rout0)%Z.
      { unfold reserves in Hres. repeat case_match; simplify_eq. by case_bool_decide; simplify_eq. }
      apply reserves_with; lia.
    + rewrite list_lookup_insert_ne in Hq by done. by simplify_eq.
Qed.

(** ** The ledger *)

Definition value (amount : string) : Z := default 0%Z (SetString10 (TrimSpace amount)).

(** The balance of an address: the first entry counts, as it does for the code. *)
Fixpoint balance_in (address denom : string) (balances : list MockTargetBalance) : Z :=
  match balances with
  | [] => 0
  | b :: rest =>
      if bool_decide (BalAddress b = address) && bool_decide (BalDenom b = denom) then value (BalAmount b)
      else balance_in address denom rest
  end.
Definition balance (address denom : string) (s : MockTargetState) : Z := balance_in address denom (Balances s).

Definition goes_to (address denom recipient outputDenom : string) : bool :=
  bool_decide (TrimSpace recipient = address) && bool_decide (TrimSpace outputDenom = denom).

(** What an execution paid out. *)
Definition paid (address denom : string) (e : MockTargetExecution) : Z :=
  if (bool_decide (ExResult e = "credit"%string) || bool_decide (ExResult e = "swap_success"%string))
     && goes_to address denom (ExRecipient e) (ExOutputDenom e)
  then value (ExOutputAmount e) else 0.

Lemma value_add current delta next :
  addDecimalStrings current delta = Ok next -> value next = (value current + value delta)%Z.
Proof.
  unfold addDecimalStrings, value.
  destruct (SetString10 (TrimSpace current)) as [c|]; [|done].
  destruct (SetString10 (TrimSpace delta)) as [d|]; [|done].
  intros [= <-]. by rewrite format_int_trimmed, SetString10_format_int.
Qed.

Lemma credit_entry_balance a d amount balances balances' address denom :
  credit_entry a d amount balances = Ok balances' ->
  balance_in address denom balances' =
    (balance_in address denom balances +
     (if bool_decide (a = address) && bool_decide (d = denom) then value amount else 0))%Z.
Proof.
  revert balances'. induction balances as [|b rest IH]; intros balances'; cbn [credit_entry].
  - intros [= <-]. cbn. repeat case_bool_decide; cbn; lia.
  - destruct (bool_decide (BalAddress b = a) && bool_decide (BalDenom b = d)) eqn:Hb.
    + intros (next & Hnext & [= <-])%res_bind_ok_inv. cbn. apply value_add in Hnext.
      apply andb_true_iff in Hb as [<-%bool_decide_eq_true <-%bool_decide_eq_true].
      destruct (bool_decide (BalAddress b = address) && bool_decide (BalDenom b = denom)); lia.
    + intros (rest' & Hrest & [= <-])%res_bind_ok_inv. apply IH in Hrest. cbn. rewrite Hrest.
      destruct (bool_decide (BalAddress b = address) && bool_decide (BalDenom b = denom)) eqn:Hb'; [|lia].
      apply andb_true_iff in Hb' as [<-%bool_decide_eq_true <-%bool_decide_eq_true].
      replace (bool_decide (a = BalAddress b) && bool_decide (d = BalDenom b)) with false; [lia|].
      rewrite <- Hb. f_equal; apply bool_decide_ext; naive_solver.
Qed.

(** A credit changes the one balance by the amount, or nothing. *)
Lemma creditBalanceLocked_spec address denom amount s :
  match creditBalanceLocked address denom amount s with
  | (Err _, s') => s' = s
  | (Ok _, s') =>
      exists balances, s' = upd_Balances (fun _ => balances) s /\
        forall a d, balance_in a d balances =
          (balance a d s + (if goes_to a d address denom then value amount else 0))%Z
  end.
Proof.
  unfold creditBalanceLocked. cbv zeta. case_decide as Hempty.
  - exists (Balances s). split; [by destruct s|]. intros a d. unfold value. rewrite Hempty.
    unfold balance. destruct (goes_to _ _ _ _); cbn; lia.
  - destruct (credit_entry _ _ _ _) as [balances|e] eqn:Hcredit; [|done].
    exists balances. split; [done|]. intros a d.
    rewrite (credit_entry_balance _ _ _ _ _ a d Hcredit). unfold goes_to, value, balance. by rewrite TrimSpace_idem.
Qed.

(** ** What the execution of a packet does *)

(** The acknowledgement of a packet is consistent with its state. *)
Definition known_ack (status : string) : Prop :=
  status = AckStatusCompleted \/ status = AckStatusFailed \/ status = AckStatusTimedOut.
Definition packet_ok (p : MockTargetPacket) : Prop :=
  PacketState p ∈ ["received"; "executed"; "ack_ready"; "ack_relayed"]%string /\
  (PacketState p = "ack_ready"%string ->
   AckRelayed p = false /\ exists payload, AckPayload p = Some payload /\ AckState p = AckStatus payload /\
     known_ack (AckStatus payload)) /\
  (PacketState p = "received"%string \/ PacketState p = "executed"%string -> AckState p = "pending"%string).

(** [p'] is [p] after its execution, or after an acknowledgement without one. *)
Definition moved_on (p p' : MockTargetPacket) : Prop :=
  PkTransferID p' = PkTransferID p /\ PacketState p' <> "received"%string /\ packet_ok p'.

Lemma mark_moved_on ack p : known_ack (AckStatus ack) -> moved_on p (markPacketAckReadyLocked ack p).
Proof.
  intros Hack. split_and!; [done..|]. unfold packet_ok. cbn. split_and!; [set_solver|by eauto|].
  intros [Heq|Heq]; discriminate Heq.
Qed.

Lemma advance_moved_on m p : moved_on p (advancePacketAfterExecutionLocked m p).
Proof.
  destruct m; try (apply mark_moved_on; unfold known_ack; cbn; auto).
  split_and!; [done..|]. unfold packet_ok. cbn. split_and!; [set_solver|discriminate|done].
Qed.

(** One execution is recorded, for this packet; it pays what it says and
    nothing else is paid; the pools only trade. *)
Definition executed_as (p : MockTargetPacket) (s : MockTargetState) (r : MockTargetPacket * MockTargetState) : Prop :=
  moved_on p (fst r) /\ Packets (snd r) = Packets s /\ pools_le s (snd r) /\
  (Balances s <> [] -> Balances (snd r) <> []) /\
  exists e, Executions (snd r) = Executions s ++ [e] /\ ExTransferID e = PkTransferID p /\
    forall a d, balance a d (snd r) = (balance a d s + paid a d e)%Z.

Lemma credit_entry_nonempty a d amount balances balances' :
  credit_entry a d amount balances = Ok balances' -> balances' <> [].
Proof.
  destruct balances; cbn [credit_entry]; [by intros [= <-]|].
  case_match; intros (? & _ & [= <-])%res_bind_ok_inv; done.
Qed.

Lemma credit_nonempty address denom amount s :
  Balances s <> [] -> Balances (snd (creditBalanceLocked address denom amount s)) <> [].
Proof.
  unfold creditBalanceLocked. cbv zeta. case_decide; [done|].
  destruct (credit_entry _ _ _ _) as [balances|e] eqn:Hcredit; [|done]. intros _.
  by apply credit_entry_nonempty in Hcredit.
Qed.

Lemma failed_moved_on reason p : moved_on p (markPacketAckReadyLocked (failed_ack reason) p).
Proof. apply mark_moved_on. unfold known_ack. cbn. auto. Qed.

(** An execution that fails pays nothing. *)
Lemma executed_failed p s s' e reason :
  Packets s' = Packets s -> pools_le s s' -> Balances s' = Balances s -> Executions s' = Executions s ->
  ExTransferID e = PkTransferID p ->
  ExResult e ∈ ["invalid_action"; "swap_failed"; "stake_failed"; "credit_failed"]%string ->
  executed_as p s (markPacketAckReadyLocked (failed_ack reason) p, record_execution e s').
Proof.
  intros Hpackets Hpools Hbal Hexec Hid Hresult.
  split_and!; cbn [fst snd]; [apply failed_moved_on|done|done|cbn; by rewrite Hbal|].
  exists e. split_and!; [cbn; by rewrite Hexec|done|]. intros a d.
  unfold balance. cbn. rewrite Hbal. unfold paid.
  replace (bool_decide (ExResult e = "credit"%string) || bool_decide (ExResult e = "swap_success"%string)) with false;
    [cbn; lia|].
  symmetry. apply orb_false_iff. split; apply bool_decide_eq_false; intros Heq; rewrite Heq in Hresult;
    repeat (apply elem_of_cons in Hresult as [Hresult|Hresult]; [discriminate Hresult|]); by apply not_elem_of_nil in Hresult.
Qed.

Lemma swap_keeps packet action s r s' :
  executeSwapLocked packet action s = (r, s') ->
  pools_le s s' /\ Packets s' = Packets s /\ Balances s' = Balances s /\ Executions s' = Executions s.
Proof.
  intros Hswap. pose proof (swap_pools_le packet action s) as Hle.
  pose proof (executeSwap_spec packet action s) as Hspec. rewrite Hswap in Hle, Hspec.
  split; [done|]. destruct r as [out|e]; [|by subst].
  by destruct Hspec as (i & pool & o & rin & rout & _ & _ & _ & _ & _ & ->).
Qed.

Lemma packetExecutionRecipient_trimmed p : TrimSpace (packetExecutionRecipient p) = packetExecutionRecipient p.
Proof.
  unfold packetExecutionRecipient. cbv zeta. destruct (PkAction p); [case_decide|]; apply TrimSpace_idem.
Qed.

Ltac in_list := cbn; set_solver.

Lemma execute_swap_spec m p action s : executed_as p s (execute_swap m p action s).
Proof.
  unfold execute_swap. cbv zeta.
  destruct (executeSwapLocked p action s) as [[out|e] s1] eqn:Hswap;
    apply swap_keeps in Hswap as (Hpools & Hpackets & Hbal & Hexec); [|apply executed_failed; try done; in_list].
  set (s2 := upd_Swaps _ s1).
  pose proof (creditBalanceLocked_spec (packetExecutionRecipient p) (TargetDenom action) out s2) as Hcredit.
  pose proof (credit_nonempty (packetExecutionRecipient p) (TargetDenom action) out s2) as Hne.
  destruct (creditBalanceLocked _ _ _ _) as [[[]|e] s3].
  - destruct Hcredit as (balances & -> & Hval). split_and!; cbn [fst snd].
    + apply advance_moved_on.
    + done.
    + done.
    + intros Hs. apply Hne. unfold s2. cbn. by rewrite Hbal.
    + eexists. split; [cbn; by rewrite Hexec|]. split; [done|]. intros a d.
      unfold balance at 1. cbn. rewrite Hval. unfold paid, execution, balance. cbn. by rewrite Hbal.
  - subst s3. apply executed_failed; try done. in_list.
Qed.

Lemma execute_stake_spec m p action s : executed_as p s (execute_stake m p action s).
Proof.
  unfold execute_stake. cbv zeta.
  case_decide; [apply executed_failed; try done; in_list|].
  case_decide; [apply executed_failed; try done; in_list|].
  split_and!; cbn [fst snd]; [apply advance_moved_on|done|done|done|].
  eexists. split; [done|]. split; [done|]. intros a d.
  match goal with |- context [paid a d ?e] => change (paid a d e) with 0%Z end. unfold balance. cbn. lia.
Qed.

Lemma execute_credit_spec m p s : executed_as p s (execute_credit m p s).
Proof.
  unfold execute_credit. cbv zeta.
  set (denom := IBCDenom _). set (amount := TrimSpace _).
  pose proof (creditBalanceLocked_spec (packetExecutionRecipient p) denom amount s) as Hcredit.
  pose proof (credit_nonempty (packetExecutionRecipient p) denom amount s) as Hne.
  destruct (creditBalanceLocked _ _ _ _) as [[[]|e] s'].
  - destruct Hcredit as (balances & -> & Hval). split_and!; cbn [fst snd]; [apply advance_moved_on|done|done|done|].
    eexists. split; [done|]. split; [done|]. intros a d.
    unfold balance at 1. cbn. by rewrite Hval.
  - subst s'. apply executed_failed; try done. in_list.
Qed.

Lemma ensurePools_executed p s r :
  executed_as p (ensurePoolsLocked s) r -> executed_as p s r.
Proof.
  unfold ensurePoolsLocked. destruct (Pools s) eqn:Hp; [|done].
  intros (H1 & H2 & H3 & H4 & H5). split_and!; [done|done| |done|done].
  intros Hne. by destruct Hne.
Qed.

Lemma executePacketLocked_spec m p s : executed_as p s (executePacketLocked m p s).
Proof.
  apply ensurePools_executed. unfold executePacketLocked. cbv zeta.
  case_decide; [apply executed_failed; try done; in_list|].
  destruct (PkAction p) as [action|]; [|apply execute_credit_spec].
  case_decide; [apply execute_swap_spec|]. case_decide; [apply execute_stake_spec|apply execute_credit_spec].
Qed.

(** ** The target as a transition system

    Every operation is a sequence of these steps on the state. *)
Inductive sstep (accepts : DeliveryEnvelope -> Prop) (s : MockTargetState) : MockTargetState -> Prop :=
| s_receive envelope : accepts envelope -> sstep accepts s (receive envelope s)
| s_execute i p r :
    Packets s !! i = Some p -> PacketState p = "received"%string -> executed_as p s r ->
    sstep accepts s (store_packet i (fst r) (snd r))
| s_acknowledge i p p' :
    Packets s !! i = Some p -> moved_on p p' -> sstep accepts s (store_packet i p' s)
| s_sync : sstep accepts s (syncLegacyReceiptsLocked s).

(** What a running process does, and the processes that have run on one state
    file. A restart that fails leaves the file as it was. *)
Inductive process_step (accepts : DeliveryEnvelope -> Prop) (t : MockTarget) : MockTarget -> Prop :=
| step_transfer envelope : accepts envelope -> process_step accepts t (snd (handleTransfers envelope t))
| step_poll : process_step accepts t (snd (ReadyAckRecords t))
| step_control transferID action reason : process_step accepts t (snd (setAckState transferID action reason t))
| step_http action transferID : process_step accepts t (snd (handleAckControl action transferID t)).

Inductive target_step (accepts : DeliveryEnvelope -> Prop) (t : MockTarget) : MockTarget -> Prop :=
| step_process t' : process_step accepts t t' -> target_step accepts t t'
| step_restart cfgMode pools fs t' :
    LoadMockTargetRuntime cfgMode (statePath t) pools (Ok (file t)) fs = Ok t' -> target_step accepts t t'.

Definition started (t : MockTarget) : Prop :=
  exists cfgMode path pools fs, LoadMockTargetRuntime cfgMode path pools (Ok None) fs = Ok t.

Section transitions.
Context (accepts : DeliveryEnvelope -> Prop).

Lemma advance_from_steps m indices changed s :
  rtc (sstep accepts) s (snd (advance_from m indices changed s)).
Proof.
  revert changed s. induction indices as [|i rest IH]; intros changed s; cbn [advance_from]; [apply rtc_refl|].
  destruct (Packets s !! i) as [p|] eqn:Hi; [|apply rtc_refl]. case_decide as Hp; [|apply IH].
  assert (Hexec : forall r, executePacketLocked m p s = r ->
    rtc (sstep accepts) s (snd (advance_from m rest true (store_packet i (fst r) (snd r))))).
  { intros r <-. eapply rtc_l; [|apply IH]. apply (s_execute _ _ i p); [done..|]. apply executePacketLocked_spec. }
  destruct m; try (destruct (executePacketLocked _ p s) as [p' s'] eqn:Hr; exact (Hexec _ eq_refl)).
  eapply rtc_l; [|apply IH]. apply (s_acknowledge _ _ i p); [done|]. apply mark_moved_on.
  unfold known_ack. cbn. auto.
Qed.

Lemma store_store i p p' s : store_packet i p' (store_packet i p s) = store_packet i p' s.
Proof. unfold store_packet, upd_Packets. cbn. by rewrite list_insert_insert_eq. Qed.

Lemma ensure_executed_steps m i p s :
  Packets s !! i = Some p ->
  let r := ensurePacketExecutedLocked m p s in
  rtc (sstep accepts) s (store_packet i (fst r) (snd r)) /\ Packets (snd r) = Packets s.
Proof.
  intros Hi. cbv zeta. unfold ensurePacketExecutedLocked. case_decide as Hp.
  - pose proof (executePacketLocked_spec m p s) as Hspec. split; [|by destruct Hspec as (_ & ? & _)].
    apply rtc_once. by apply (s_execute _ _ i p).
  - cbn [fst snd]. split; [|done]. unfold store_packet, upd_Packets. rewrite list_insert_id by done.
    destruct s. apply rtc_refl.
Qed.

Lemma marked_steps m i p s ack :
  Packets s !! i = Some p -> known_ack (AckStatus ack) ->
  let r := ensurePacketExecutedLocked m p s in
  rtc (sstep accepts) s (store_packet i (markPacketAckReadyLocked ack (fst r)) (snd r)).
Proof.
  intros Hi Hack. cbv zeta. destruct (ensure_executed_steps m i p s Hi) as [Hsteps Hpackets].
  destruct (ensurePacketExecutedLocked m p s) as [p' s']. cbn [fst snd] in *.
  eapply rtc_r; [exact Hsteps|]. rewrite <- (store_store i p' (markPacketAckReadyLocked ack p') s').
  apply (s_acknowledge _ _ i p'); [|by apply mark_moved_on].
  unfold store_packet. cbn. apply list_lookup_insert_eq. rewrite Hpackets. by eapply lookup_lt_Some.
Qed.

Lemma ack_action_steps m action reason i p s p' s' :
  Packets s !! i = Some p -> ack_action m action reason p s = Ok (p', s') ->
  rtc (sstep accepts) s (store_packet i p' s').
Proof.
  intros Hi. unfold ack_action.
  assert (Hmarked : forall ack, known_ack (AckStatus ack) ->
    (let '(p, s) := ensurePacketExecutedLocked m p s in Ok (E:=error) (markPacketAckReadyLocked ack p, s)) = Ok (p', s') ->
    rtc (sstep accepts) s (store_packet i p' s')).
  { intros ack Hack Heq. pose proof (marked_steps m i p s ack Hi Hack) as Hsteps. cbv zeta in Hsteps.
    destruct (ensurePacketExecutedLocked m p s) as [p1 s1]. by injection Heq as <- <-. }
  repeat case_decide; intros Heq; simplify_eq.
  - apply rtc_once, (s_acknowledge _ _ i p); [done|]. split_and!; [done..|]. unfold packet_ok. cbn.
    split_and!; [set_solver|discriminate|]. intros [Hs|Hs]; discriminate Hs.
  - by apply (Hmarked (mk_ack AckStatusCompleted EmptyString)); [left|].
  - by apply (Hmarked (mk_ack AckStatusFailed (TrimSpace reason))); [right; left|].
  - apply rtc_once, (s_acknowledge _ _ i p); [done|]. apply mark_moved_on. by right; right.
Qed.

(** A process moves its state by steps, and writes only its state. *)
Definition moves_to (t : MockTarget) (t' : MockTarget) : Prop :=
  rtc (sstep accepts) (state t) (state t') /\ (file t' = file t \/ file t' = Some (state t')).

Lemma persist_moves t s :
  rtc (sstep accepts) (state t) s ->
  moves_to t (snd (persistMockTargetState (set_state (syncLegacyReceiptsLocked s) t))).
Proof.
  intros Hs. assert (Hsync : rtc (sstep accepts) (state t) (syncLegacyReceiptsLocked s))
    by (eapply rtc_r; [exact Hs|apply s_sync]).
  unfold persistMockTargetState. case_decide; [by split; [|left]|].
  cbn [faults set_state]. destruct (faults t) as [|[e|] rest]; (split; [exact Hsync|cbn; auto]).
Qed.

Lemma process_step_moves t t' : process_step accepts t t' -> moves_to t t'.
Proof.
  assert (Hcontrolled : forall transferID action reason i p p' s',
    findPacketLocked transferID (state t) = Some (i, p) -> ack_action (mode t) action reason p (state t) = Ok (p', s') ->
    moves_to t (snd (persistMockTargetState (set_state (syncLegacyReceiptsLocked (store_packet i p' s')) t)))).
  { intros transferID action reason i p p' s' (Hi & _)%list_find_Some Haction.
    apply persist_moves. by eapply ack_action_steps. }
  assert (Hstay : moves_to t t) by (split; [apply rtc_refl|by left]).
  intros [envelope Hacc| |transferID action reason|action transferID].
  - unfold handleTransfers. go_unfold.
    pose proof (persist_moves t (receive envelope (state t)) (rtc_once _ _ (s_receive _ _ _ Hacc))) as Hp.
    by destruct (persistMockTargetState _) as [[[]|e] t1].
  - unfold ReadyAckRecords, advanceReceivedPacketsLocked.
    pose proof (advance_from_steps (mode t) (seq 0 (length (Packets (state t)))) false (state t)) as Hs.
    destruct (advance_from _ _ _ _) as [changed s1]. cbn [snd] in Hs. cbv zeta.
    destruct changed; [|by split; [|left]].
    pose proof (persist_moves t s1 Hs) as Hp. by destruct (persistMockTargetState _) as [[[]|e] t1].
  - unfold setAckState. destruct (findPacketLocked _ _) as [[i p]|] eqn:Hfind; [|done].
    destruct (ack_action _ _ _ _ _) as [[p' s']|e] eqn:Haction; [|done]. by eapply Hcontrolled.
  - unfold handleAckControl. cbv zeta. case_decide; [done|].
    destruct (findPacketLocked _ _) as [[i p]|] eqn:Hfind; [|done]. case_decide; [done|].
    destruct (ack_action _ _ _ _ _) as [[p' s']|e] eqn:Haction; [|done].
    specialize (Hcontrolled _ _ _ _ _ _ _ Hfind Haction). by destruct (persistMockTargetState _) as [[[]|e] t1].
Qed.

(** The invariants of the state are those of its steps, of fresh states and of
    restarts. *)
Section invariant.
Context (I : MockTargetState -> Prop).
Hypothesis I_steps : forall s s', sstep accepts s s' -> I s -> I s'.
Hypothesis I_pools : forall s pools, I s -> I (upd_Pools (fun _ => pools) s).
Hypothesis I_balances : forall s, I s -> I (ensureBalancesLocked s).
Hypothesis I_fresh : forall pools, I (ensureBalancesLocked (mk_state [] [] [] [] [] pools [])).

Definition holds_in (t : MockTarget) : Prop := I (state t) /\ forall st, file t = Some st -> I st.

Lemma I_rtc s s' : rtc (sstep accepts) s s' -> I s -> I s'.
Proof. induction 1; eauto. Qed.

Lemma I_sync s : I s -> I (syncLegacyReceiptsLocked s).
Proof. apply I_steps, s_sync. Qed.

Lemma prepared_holds st :
  I st \/ (exists ps, st = mk_state [] [] [] [] [] ps []) ->
  I (syncLegacyReceiptsLocked (ensureBalancesLocked (ensurePoolsLocked st))).
Proof.
  intros [Hst|[ps ->]]; apply I_sync; [|destruct ps; apply I_fresh].
  apply I_balances. unfold ensurePoolsLocked. destruct (Pools st); [by apply I_pools|done].
Qed.

Lemma loaded_holds cfgMode path pools stored fs t :
  (forall st, stored = Some st -> I st) ->
  LoadMockTargetRuntime cfgMode path pools (Ok stored) fs = Ok t -> holds_in t.
Proof.
  intros Hstored. unfold LoadMockTargetRuntime. cbv zeta. intros (st & Hst & Hload)%res_bind_ok_inv.
  assert (Hready : I (syncLegacyReceiptsLocked (ensureBalancesLocked (ensurePoolsLocked st)))).
  { apply prepared_holds. case_decide; [simplify_eq; eauto|]. destruct stored as [st0|]; simplify_eq; [left|eauto].
    destruct pools; [by apply Hstored|by apply I_pools, Hstored]. }
  unfold persistMockTargetState in Hload. cbn [faults statePath state] in Hload.
  case_decide; [by simplify_eq; split|].
  destruct fs as [|[e|] rest]; simplify_eq; (split; [exact Hready|]); by intros st' [= <-].
Qed.

Lemma target_step_holds t t' : target_step accepts t t' -> holds_in t -> holds_in t'.
Proof.
  intros [t1 [Hsteps Hfile]%process_step_moves|cfgMode pools fs t1 Hload] [Hs Hf]; [|by eapply loaded_holds].
  assert (Hs1 : I (state t1)) by (by eapply I_rtc). split; [done|].
  destruct Hfile as [->| ->]; [exact Hf|by intros st [= <-]].
Qed.

Lemma reachable_holds t0 t : started t0 -> rtc (target_step accepts) t0 t -> holds_in t.
Proof.
  intros (cfgMode & path & pools & fs & Hload) Hsteps.
  assert (H0 : holds_in t0) by (by eapply loaded_holds, Hload). clear Hload.
  induction Hsteps; eauto using target_step_holds.
Qed.
End invariant.
End transitions.

(** ** What holds in every reachable state *)

Definition genesis (address denom : string) : Z := balance_in address denom defaultMockTargetBalances.
Definition ledger (s : MockTargetState) : Prop :=
  Balances s <> [] /\
  forall address denom, balance address denom s = (genesis address denom + zsum (paid address denom) (Executions s))%Z.

Lemma zsum_snoc {A} (f : A -> Z) l x : zsum f (l ++ [x]) = (zsum f l + f x)%Z.
Proof. rewrite zsum_app. cbn. lia. Qed.

Lemma receive_keeps envelope s :
  Balances (receive envelope s) = Balances s /\ Executions (receive envelope s) = Executions s.
Proof. unfold receive. by destruct (findPacketLocked _ s). Qed.

Lemma ledger_steps accepts s s' : sstep accepts s s' -> ledger s -> ledger s'.
Proof.
  intros [envelope _|i p r _ _ (_ & _ & _ & Hne & e & Hexec & _ & Hbal)|i p p' _ _| ] [Hs Hsum]; [|..|done].
  - destruct (receive_keeps envelope s) as [Hb He]. split; [by rewrite Hb|]. intros a d.
    unfold balance. rewrite Hb, He. apply Hsum.
  - split; [by apply Hne|]. intros a d. change (balance a d (store_packet i (fst r) (snd r))) with (balance a d (snd r)).
    change (Executions (store_packet i (fst r) (snd r))) with (Executions (snd r)).
    rewrite Hexec, zsum_snoc, Hbal, Hsum. lia.
  - by split.
Qed.

Lemma ensureBalances_nonempty s : Balances s <> [] -> ensureBalancesLocked s = s.
Proof. unfold ensureBalancesLocked. by destruct (Balances s). Qed.


(** ** Each packet is executed once *)

Definition once (s : MockTargetState) : Prop :=
  Forall (fun p => trimmed (PkTransferID p)) (Packets s) /\
  NoDup (map PkTransferID (Packets s)) /\
  NoDup (map ExTransferID (Executions s)) /\
  forall e, e ∈ Executions s -> exists p, p ∈ Packets s /\ PkTransferID p = ExTransferID e /\ PacketState p <> "received"%string.

Lemma map_insert_same {A B} (f : A -> B) l i x y :
  l !! i = Some x -> f y = f x -> map f (<[i := y]> l) = map f l.
Proof.
  intros Hi Hf. apply list_eq. intros j. change (map f) with (fmap f : list A -> list B). rewrite !list_lookup_fmap.
  destruct (decide (i = j)) as [<-|Hij]; [|by rewrite list_lookup_insert_ne].
  rewrite list_lookup_insert_eq, Hi by (by eapply lookup_lt_Some). cbn. by rewrite Hf.
Qed.

(** Storing a packet that has moved on keeps the witnesses of the executions. *)
Lemma stored_witness (ps : list MockTargetPacket) i p p' id :
  ps !! i = Some p -> moved_on p p' ->
  (exists q, q ∈ ps /\ PkTransferID q = id /\ PacketState q <> "received"%string) ->
  exists q, q ∈ <[i := p']> ps /\ PkTransferID q = id /\ PacketState q <> "received"%string.
Proof.
  intros Hi (Hid & Hstate & _) (q & [j Hj]%list_elem_of_lookup & Hq & Hs).
  destruct (decide (i = j)) as [<-|Hij].
  - simplify_eq. exists p'. split; [|by rewrite Hid].
    apply list_elem_of_lookup. exists i. apply list_lookup_insert_eq. by eapply lookup_lt_Some.
  - exists q. split; [|done]. apply list_elem_of_lookup. exists j. by rewrite list_lookup_insert_ne.
Qed.

Lemma once_receive envelope s :
  trimmed (TransferID (EnvTransfer envelope)) -> once s -> once (receive envelope s).
Proof.
  intros Htrim (Ht & Hnd & Hne & Hw). unfold receive.
  destruct (findPacketLocked _ s) as [|] eqn:Hfind; [done|]. apply list_find_None in Hfind.
  unfold once. cbn. split_and!.
  - apply Forall_app. split; [done|by constructor].
  - rewrite map_app. apply NoDup_app. split_and!; [done| |apply NoDup_singleton].
    intros id (p & <- & Hp)%list_elem_of_In%in_map_iff Hin. apply list_elem_of_In in Hp. cbn in Hin.
    apply list_elem_of_singleton in Hin. rewrite Forall_forall in Hfind. apply (Hfind p Hp). by rewrite Hin.
  - done.
  - intros e (p & Hp & Hpe)%Hw. exists p. split; [|done]. apply elem_of_app. by left.
Qed.

Lemma once_stored s i p p' s' :
  once s -> Packets s !! i = Some p -> moved_on p p' -> Packets s' = Packets s -> Executions s' = Executions s ->
  once (store_packet i p' s').
Proof.
  intros (Ht & Hnd & Hne & Hw) Hi Hmoved Hp He. pose proof Hmoved as (Hid & _ & _).
  unfold once. cbn. rewrite Hp, He. split_and!.
  - apply Forall_insert; [done|]. rewrite Hid. rewrite Forall_lookup in Ht. by apply (Ht i).
  - by rewrite (map_insert_same _ _ _ p).
  - done.
  - intros e He'. eapply stored_witness; [done..|]. by apply Hw.
Qed.

Lemma once_executed s i p r :
  once s -> Packets s !! i = Some p -> PacketState p = "received"%string -> executed_as p s r ->
  once (store_packet i (fst r) (snd r)).
Proof.
  intros (Ht & Hnd & Hne & Hw) Hi Hp (Hmoved & Hpackets & _ & _ & e & Hexec & He & _).
  pose proof Hmoved as (Hid & Hstate & _).
  unfold once. cbn. rewrite Hpackets, Hexec. split_and!.
  - apply Forall_insert; [done|]. rewrite Hid. rewrite Forall_lookup in Ht. by apply (Ht i).
  - by rewrite (map_insert_same _ _ _ p).
  - rewrite map_app. apply NoDup_app. split_and!; [done| |apply NoDup_singleton].
    intros id Hin ->%list_elem_of_singleton. apply list_elem_of_In, in_map_iff in Hin as (e' & He' & Hin).
    apply list_elem_of_In, Hw in Hin as (q & [j Hj]%list_elem_of_lookup & Hq & Hqs).
    assert (j = i).
    { apply (NoDup_lookup _ j i (PkTransferID p) Hnd);
        change (map PkTransferID) with (fmap PkTransferID : list MockTargetPacket -> list string);
        rewrite list_lookup_fmap; [rewrite Hj|by rewrite Hi]. cbn. congruence. }
    subst j. congruence.
  - intros e' [Hin|Hin%list_elem_of_singleton]%elem_of_app; [by eapply stored_witness, Hw|].
    subst e'. exists (fst r). split; [|by rewrite Hid, He].
    apply list_elem_of_lookup. exists i. apply list_lookup_insert_eq. by eapply lookup_lt_Some.
Qed.


(** ** Polling and the status report *)

Lemma count_cons {A} (f : A -> bool) x l : count f (x :: l) = (if f x then 1 else 0) + count f l.
Proof. unfold count. rewrite filter_cons. by destruct (f x). Qed.

(** A packet is counted once by its state, and as a ready acknowledgement
    exactly when it is reported. *)
Definition reported (p : MockTargetPacket) : list AckRecord := ack_records (mk_state [p] [] [] [] [] [] []).

Lemma ack_records_cons p ps receipts es sw st pools bs :
  ack_records (mk_state (p :: ps) receipts es sw st pools bs) =
    reported p ++ ack_records (mk_state ps receipts es sw st pools bs).
Proof.
  unfold reported, ack_records. cbn [Packets omap list_omap]. destruct (AckPayload p); [|done]. by destruct (_ || _).
Qed.

Lemma packet_counts p :
  packet_ok p ->
  let one (b : bool) := if b then 1 else 0 in
  let acked ackState := one (in_ack ackState p && ready p) in
  acked AckStatusCompleted + acked AckStatusFailed + acked AckStatusTimedOut = length (reported p) /\
  one (in_state "received" p) + one (in_state "executed" p) + length (reported p) + one (in_state "ack_relayed" p) = 1.
Proof.
  intros (Hstate & Hready & _). cbv zeta. unfold reported, ack_records, in_ack, in_state, ready. cbn [Packets omap list_omap].
  assert (Hcases : PacketState p = "ack_ready"%string \/
    PacketState p ∈ ["received"; "executed"; "ack_relayed"]%string) by set_solver.
  destruct Hcases as [Heq|Hin].
  - destruct (Hready Heq) as (Hrelayed & payload & Hpay & Hack & Hknown). rewrite Hrelayed, Hpay, Heq, Hack.
    destruct Hknown as [->|[->| ->]]; split; reflexivity.
  - assert (Hnone : match AckPayload p with
      | Some payload => if bool_decide (PacketState p <> "ack_ready"%string) || AckRelayed p then None
                        else Some (mk_ack_record (PkTransferID p) (AckStatus payload) (AckReason payload))
      | None => None end = None).
    { destruct (AckPayload p); [|done]. rewrite bool_decide_true; [done|]. intros Heq. rewrite Heq in Hin. set_solver. }
    rewrite Hnone. replace (bool_decide (PacketState p = "ack_ready"%string)) with false.
    + rewrite !andb_false_r. split; [reflexivity|]. clear -Hin.
      repeat (apply elem_of_cons in Hin as [->|Hin]; [reflexivity|]). by apply not_elem_of_nil in Hin.
    + symmetry. apply bool_decide_eq_false. intros Heq. rewrite Heq in Hin. set_solver.
Qed.

Definition packets_ok (s : MockTargetState) : Prop := Forall packet_ok (Packets s).

Lemma packets_ok_steps accepts s s' : sstep accepts s s' -> packets_ok s -> packets_ok s'.
Proof.
  unfold packets_ok.
  intros [envelope _|i p r Hi _ ((_ & _ & Hok) & Hpackets & _)|i p p' Hi (_ & _ & Hok)| ] Hs.
  - unfold receive. destruct (findPacketLocked _ s); [done|]. cbn. apply Forall_app. split; [done|].
    constructor; [|done]. unfold packet_ok, new_packet. cbn. split_and!; [set_solver|discriminate|done].
  - cbn. rewrite Hpackets. by apply Forall_insert.
  - by apply Forall_insert.
  - done.
Qed.

(** The status report agrees with the acknowledgements. In every reachable
    state the ready acknowledgements counted by the status are as many as the
    target reports to the relayer, and every packet is counted once: pending,
    ready or relayed. *)
Theorem status_counts (t0 t : MockTarget) :
  started t0 -> rtc (target_step (fun _ => True)) t0 t ->
  let status := statusLocked (state t) in
  ReadyAcks status = length (ack_records (state t)) /\
  PendingReceipts status + ReadyAcks status + RelayedAcks status = StatusPackets status.
Proof.
  intros Hstart Hsteps. assert (Hinv : holds_in packets_ok t).
  { eapply (reachable_holds (fun _ => True)); [..|exact Hstart|exact Hsteps].
    - apply packets_ok_steps.
    - done.
    - intros s Hs. unfold ensureBalancesLocked. by destruct (Balances s).
    - intros pools. constructor. }
  destruct Hinv as [Hok _]. unfold packets_ok in Hok. destruct (state t) as [ps receipts es sw st pools bs].
  cbn [Packets] in Hok. cbv zeta. unfold statusLocked. cbn [Packets ReadyAcks PendingReceipts RelayedAcks StatusPackets].
  induction Hok as [|p ps Hp _ IH]; [done|]. rewrite ack_records_cons, length_app. cbn [length].
  pose proof (packet_counts p Hp) as [H1 H2]. cbv zeta in H1, H2. rewrite !count_cons. lia.
Qed.

Lemma advance_from_done m indices changed s :
  (forall i p, Packets s !! i = Some p -> PacketState p <> "received"%string) ->
  advance_from m indices changed s = (changed, s).
Proof.
  intros Hnone. induction indices as [|i rest IH]; cbn [advance_from]; [done|].
  destruct (Packets s !! i) as [p|] eqn:Hi; [|done]. rewrite decide_False by by eapply Hnone. done.
Qed.

Lemma advance_from_all m indices changed s :
  (forall i, i < length (Packets s) -> i ∈ indices \/ forall p, Packets s !! i = Some p -> PacketState p <> "received"%string) ->
  (forall i, i ∈ indices -> i < length (Packets s)) ->
  let s' := snd (advance_from m indices changed s) in
  forall i p, Packets s' !! i = Some p -> PacketState p <> "received"%string.
Proof.
  cbv zeta. revert changed s. induction indices as [|i rest IH]; intros changed s Hleft Hbound; cbn [advance_from].
  - intros i p Hi. destruct (Hleft i) as [Hin|Hdone]; [by eapply lookup_lt_Some|by apply not_elem_of_nil in Hin|by apply Hdone].
  - destruct (lookup_lt_is_Some_2 (Packets s) i) as [p Hi]; [apply Hbound; left|]. rewrite Hi.
    assert (Hstored : forall p' s', moved_on p p' -> Packets s' = Packets s ->
      forall j q, Packets (snd (advance_from m rest true (store_packet i p' s'))) !! j = Some q -> PacketState q <> "received"%string).
    { intros p' s' (_ & Hmoved & _) Hpackets. apply IH; cbn; rewrite length_insert, Hpackets.
      - intros j Hj. destruct (decide (i = j)) as [<-|Hij].
        + right. intros q Hq. rewrite list_lookup_insert_eq in Hq by (by eapply lookup_lt_Some). by simplify_eq.
        + destruct (Hleft j Hj) as [[->|Hin]%elem_of_cons|Hdone]; [done|by left|right].
          by rewrite list_lookup_insert_ne.
      - intros j Hj. apply Hbound. by right. }
    assert (Hexec : forall r, executePacketLocked m p s = r -> forall j q,
      Packets (snd (advance_from m rest true (store_packet i (fst r) (snd r)))) !! j = Some q -> PacketState q <> "received"%string).
    { intros r <-. pose proof (executePacketLocked_spec m p s) as (Hmoved & Hpackets & _). by apply Hstored. }
    case_decide as Hp.
    + destruct m; try (destruct (executePacketLocked _ p s) as [p' s'] eqn:Hr; exact (Hexec _ eq_refl)).
      apply Hstored; [|done]. apply mark_moved_on. unfold known_ack. cbn. auto.
    + apply IH; [|intros j Hj; apply Hbound; by right].
      intros j Hj. destruct (Hleft j Hj) as [[->|Hin]%elem_of_cons|Hdone]; [right|by left|by right].
      intros q Hq. by simplify_eq.
Qed.

(** Polling is stable. A poll that succeeds leaves no packet waiting and
    reports exactly the acknowledgements that are ready and not yet relayed; the
    next poll changes nothing and reports the same. *)
Theorem ReadyAckRecords_stable (t : MockTarget) :
  match ReadyAckRecords t with
  | (Ok acks, t') =>
      acks = ack_records (state t') /\
      (forall p, p ∈ Packets (state t') -> PacketState p <> "received"%string) /\
      ReadyAckRecords t' = (Ok acks, t')
  | (Err _, _) => True
  end.
Proof.
  unfold ReadyAckRecords at 1. unfold advanceReceivedPacketsLocked.
  pose proof (advance_from_all (mode t) (seq 0 (length (Packets (state t)))) false (state t)) as Hall. cbv zeta in Hall.
  destruct (advance_from _ _ _ _) as [changed s1]. cbn [snd] in Hall. cbv zeta.
  match goal with |- context [if changed then persistMockTargetState ?t0 else _] => set (t1 := t0) end.
  destruct (if changed then persistMockTargetState t1 else (Ok tt, t1)) as [[[]|e] t2] eqn:Hpersist; [|done].
  assert (Ht2 : state t2 = state t1 /\ Packets (state t1) = Packets s1).
  { split; [|unfold t1; by destruct changed]. destruct changed; [|by simplify_eq].
    unfold persistMockTargetState in Hpersist. case_decide; [by simplify_eq|].
    destruct (faults t1) as [|[e|] rest]; by simplify_eq. }
  destruct Ht2 as [Heq Hpackets].
  assert (Hdone : forall i p, Packets (state t2) !! i = Some p -> PacketState p <> "received"%string).
  { rewrite Heq, Hpackets. apply Hall; intros i; rewrite elem_of_seq; lia. }
  split_and!; [done|by intros p [i Hi]%list_elem_of_lookup; eapply Hdone|].
  unfold ReadyAckRecords, advanceReceivedPacketsLocked. rewrite advance_from_done by done. cbv zeta.
  unfold set_state. by destruct t2.
Qed.

(** ** Concrete runs *)

Definition demo_transfer (id denom memo : string) : Transfer :=
  mk_transfer id "eth.usdc" "1000000" "osmo1user" "osmosis-1" "channel-0" denom 500 memo "pending" EmptyString.
Definition demo_envelope (t : Transfer) : DeliveryEnvelope :=
  match buildDeliveryEnvelope t with
  | Ok e => e
  | Err _ => mk_envelope t (mk_packet 0 EmptyString EmptyString EmptyString 0 (mk_data EmptyString EmptyString EmptyString EmptyString EmptyString))
               (mk_trace EmptyString EmptyString EmptyString) None EmptyString
  end.
Definition demo_start (m : string) : MockTarget :=
  match LoadMockTargetRuntime m "target.json" [] (Ok None) [] with
  | Ok t => t
  | Err _ => mk_target ModeManual EmptyString (mk_state [] [] [] [] [] [] []) None []
  end.
Definition demo_swap := demo_envelope (demo_transfer "channel-0/1" "ibc/uethusdc" "swap:uosmo:min_out=1900000").
Definition demo_credit := demo_envelope (demo_transfer "channel-0/2" "ibc/uethusdc" EmptyString).

Lemma demo_started m : match LoadMockTargetRuntime m "target.json" [] (Ok None) [] with Ok _ => True | Err _ => False end ->
  started (demo_start m).
Proof.
  intros Hok. exists m, "target.json"%string, [], []. unfold demo_start.
  by destruct (LoadMockTargetRuntime m "target.json" [] (Ok None) []).
Qed.

(** Deliver a swap twice and a credit, poll, restart, deliver the swap again,
    poll, and force an acknowledgement. *)
Definition demo_restarted (t : MockTarget) : MockTarget :=
  match LoadMockTargetRuntime "success" (statePath t) [] (Ok (file t)) [] with Ok t' => t' | Err _ => t end.
Definition demo_t1 := snd (handleTransfers demo_credit (snd (handleTransfers demo_swap (snd (handleTransfers demo_swap (demo_start "success")))))).
Definition demo_t2 := demo_restarted (snd (ReadyAckRecords demo_t1)).
Definition demo_t3 := snd (setAckState "channel-0/2" "fail" EmptyString (snd (ReadyAckRecords (snd (handleTransfers demo_swap demo_t2))))).

Lemma demo_reachable (accepts : DeliveryEnvelope -> Prop) :
  accepts demo_swap -> accepts demo_credit -> rtc (target_step accepts) (demo_start "success") demo_t3.
Proof.
  intros Hswap Hcredit.
  apply (rtc_l _ _ (snd (handleTransfers demo_swap (demo_start "success")))); [by apply step_process, step_transfer|].
  eapply rtc_l; [by apply step_process, (step_transfer _ _ demo_swap)|].
  eapply rtc_l; [by apply step_process, (step_transfer _ _ demo_credit)|]. change (rtc (target_step accepts) demo_t1 demo_t3).
  eapply rtc_l; [apply step_process, step_poll|].
  apply (rtc_l _ _ demo_t2); [apply (step_restart _ _ "success" [] []); vm_compute; reflexivity|].
  eapply rtc_l; [by apply step_process, (step_transfer _ _ demo_swap)|].
  eapply rtc_l; [apply step_process, step_poll|].
  apply rtc_once, step_process. exact (step_control _ _ "channel-0/2" "fail" EmptyString).
Qed.



Example status_counts_witness :
  ReadyAcks (statusLocked (state demo_t3)) = length (ack_records (state demo_t3)) /\
  ReadyAcks (statusLocked (state demo_t3)) = 2.
Proof.
  split; [|vm_compute; reflexivity].
  exact (proj1 (status_counts (demo_start "success") demo_t3 (demo_started "success" ltac:(vm_compute; exact I))
    (demo_reachable (fun _ => True) I I))).
Defined.

(** An id with outer white space is never found again: the lookup trims what it
    is asked for and not what it stored, so a repeated delivery pays twice. *)
Definition demo_untrimmed := demo_envelope (demo_transfer "channel-0/3 " "ibc/uethusdc" EmptyString).
Example untrimmed_paid_twice :
  let t := snd (ReadyAckRecords (snd (handleTransfers demo_untrimmed (snd (handleTransfers demo_untrimmed (demo_start "success")))))) in
  map ExTransferID (Executions (state t)) = ["channel-0/3 "; "channel-0/3 "]%string /\
  balance "osmo1user" "ibc/uethusdc" (state t) = 2000000%Z.
Proof. vm_compute. split; reflexivity. Qed.

(** A fee above 10000 basis points wraps around to a huge effective input. *)
Example fee_wraps : effective_input 10001 10 = Ok 4294967%Z.
Proof. vm_compute. reflexivity. Qed.

(** A first credit is stored as it is; a packet that timed out can be
    acknowledged as completed without ever being executed. *)
Example first_credit_unchecked :
  fst (creditBalanceLocked "osmo1user" "uosmo" "abc" (state (demo_start "success"))) = Ok tt.
Proof. vm_compute. reflexivity. Qed.
Example completed_unexecuted :
  let t := snd (CompleteAck "channel-0/1" (snd (TimeoutAck "channel-0/1" EmptyString (snd (handleTransfers demo_swap (demo_start "manual")))))) in
  ack_records (state t) = [mk_ack_record "channel-0/1" AckStatusCompleted EmptyString] /\ Executions (state t) = [].
Proof. vm_compute. split; reflexivity. Qed.
