(* ===== verification/CommandRuntimes.v ===== *)
(** [relayer/internal/cosmos] (command_runtime.go) and [relayer/internal/route]
    (command_runtime.go, ibc_runtime.go): the relayers' sources and sinks that
    run the command line of the chain, or of the local target, as a child
    process.

    A process is a parameter ([Commands]): it may fail or print anything.
    [CommandLine] is the process that is modelled in [Cli]; over it the sources
    read what the chain holds and the sinks do what they report. *)

From Stdlib Require Import Ascii String.
From stdpp Require Import strings.
From S2P Require Import Prelude.
From S2P Require Import GoStrings.
From S2P Require Import Errors.
From S2P Require Import Base64.
From S2P Require Import Files.
From S2P Require Import Flags.
From S2P Require Import JSON.
From S2P Require IBCRouter.
From S2P Require BridgeState.
From S2P Require Bridge.
From S2P Require Bank.
From S2P Require Import BridgeTypes.
From S2P Require Import App.
From S2P Require Import DemoTx.
From S2P Require Import Config.
From S2P Require Import Runtime.
From S2P Require Import Restart.
From S2P Require Import Views.
From S2P Require Import Handlers.
From S2P Require Import NodeClient.
From S2P Require Import NodeStart.
From S2P Require Import Cli.
From S2P Require Watchers.
From S2P Require RouteRelay.

(** ** Processes *)

(** The error of the caller's context; a process that ended well, with the text
    it printed; temporary directories and the file written to one. *)
Class Commands (W : Type) := {
  ctx_Err : Op W unit;
  run : string -> list string -> Op W http_body;
  MkdirTemp : string -> Op W string;
  WriteSubmission : string -> submissionPayload -> Op W unit;
  RemoveAll : string -> W -> W
}.

(** ** Arguments (cosmos) *)

Definition runtimeFlagArity (arg : string) : nat :=
  if bool_decide (TrimSpace arg ∈ ["--home"; "--config-path"; "--state-path"; "--genesis-path"; "--runtime-mode";
                                    "--demo-node-ready-file"]%string) then 1 else 0.

(** The arguments of the command itself, and those that choose its runtime. *)
Fixpoint splitRuntimeArgs (baseArgs : list string) : list string * list string :=
  match baseArgs with
  | [] => ([], [])
  | arg :: rest =>
      let command_arg := let '(c, r) := splitRuntimeArgs rest in (arg :: c, r) in
      match rest with
      | value :: rest' =>
          if Nat.eqb (runtimeFlagArity (TrimSpace arg)) 1
          then let '(c, r) := splitRuntimeArgs rest' in (c, arg :: value :: r)
          else command_arg
      | [] => command_arg
      end
  end.

Definition commandArgsContainFlag (args : list string) (flagName : string) : bool :=
  let flagName := TrimSpace flagName in
  if eqs flagName EmptyString then false else existsb (fun arg => eqs (TrimSpace arg) flagName) args.

Definition appendRuntimeArgs (args runtimeArgs : list string) (statePath : string) : list string :=
  let args := args ++ runtimeArgs in
  if blank statePath || commandArgsContainFlag runtimeArgs "--home" || commandArgsContainFlag runtimeArgs "--state-path" then args
  else args ++ ["--state-path"%string; TrimSpace statePath].

(** ** The chain as a source and a sink (cosmos) *)

Record CommandRuntime := mk_command_runtime { command : string; baseArgs : list string; statePath : string }.

Record persistedWithdrawal := mk_persisted { PwView : WithdrawalView; PwSignature : string }.
#[global] Instance persistedWithdrawal_from_json : FromJSON persistedWithdrawal := {|
  zero_value := mk_persisted zero_value EmptyString;
  from_json j :=
    let? view := from_json j in
    let? o := members j in
    let? signature := field o "signature" in
    Ok (mk_persisted view signature)
|}.

Definition decodePersistedWithdrawal (p : persistedWithdrawal) : result Watchers.Withdrawal :=
  let w := PwView p in
  match SetString10 (WvAmount w) with
  | None => Err (Errorf ("invalid withdrawal amount " +:+ Quote (WvAmount w)))
  | Some amount =>
      match base64_DecodeString (if eqs (PwSignature p) EmptyString then WvSignatureBase64 w else PwSignature p) with
      | None => Err (Prefixed "decode withdrawal signature" (Errorf "illegal base64 data"))
      | Some signature =>
          Ok (Watchers.mk_wd (WvBlockHeight w)
                (mk_identity (WvKind w) EmptyString (WvSourceChainID w) (WvSourceContract w) (WvSourceTxHash w)
                   (WvSourceLogIndex w) (WvNonce w) (WvMessageID w))
                (WvAssetID w) (WvAssetAddress w) (Some amount) (WvRecipient w) (WvDeadline w) signature)
      end
  end.

Section cosmos.
Context {W : Type} `{Commands W} (s : CommandRuntime).

(** [s.run] with the arguments in the order every call puts them. *)
Definition run_with (args : list string) : Op W http_body :=
  let '(commandArgs, runtimeArgs) := splitRuntimeArgs (baseArgs s) in
  run (command s) (commandArgs ++ appendRuntimeArgs args runtimeArgs (statePath s)).

Definition runQuery (subcommand : string) : Op W http_body := run_with ["query"%string; subcommand].

Definition LatestHeight : Op W N :=
  let! payload := runQuery "summary" in
  let! summary := lift (match payload with BodyJSON j => members j | BodyText _ => Err (Errorf "invalid JSON document") end) in
  lift (field summary "current_height").

Definition Withdrawals (fromHeight toHeight : N) : Op W (list Watchers.Withdrawal) :=
  let! payload := run_with ["query"; "withdrawals"; "--from-height"; format_uint fromHeight; "--to-height"; format_uint toHeight]%string in
  let! encoded := lift (decode_body payload) in
  lift (traverse decodePersistedWithdrawal encoded).

(** The temporary directory is removed however the call ends. *)
Definition SubmitDepositClaim (claim : DepositClaim) (attestation : Attestation) : Op W unit :=
  ctx_Err ;;;
  let! tmpDir := MkdirTemp "aegislink-command-submission-*" in
  let submissionPath := JoinPath [tmpDir; "submission.json"%string] in
  fun w =>
    let '(r, w) := (WriteSubmission submissionPath (mk_submission (claim_payload claim) attestation) ;;;
                    run_with ["tx"; "submit-deposit-claim"; "--submission-file"; submissionPath]%string ;;;
                    ret tt) w in
    (r, RemoveAll tmpDir w).
End cosmos.

(** ** The chain and the target of a route (route) *)

Record RuntimeLocator := mk_locator { Home : string; LocStatePath : string; LocRuntimeMode : string }.

Definition locator_arg (name value : string) : list string :=
  if eqs (TrimSpace value) EmptyString then [] else [name; TrimSpace value].
Definition appendRuntimeLocatorArgs (args : list string) (l : RuntimeLocator) : list string :=
  args ++ locator_arg "--home" (Home l) ++ locator_arg "--state-path" (LocStatePath l) ++
  locator_arg "--runtime-mode" (LocRuntimeMode l).

#[global] Instance Transfer_from_json : FromJSON RouteRelay.Transfer := {|
  zero_value := RouteRelay.mk_transfer EmptyString EmptyString EmptyString EmptyString EmptyString EmptyString EmptyString 0
    EmptyString EmptyString EmptyString;
  from_json j :=
    let? o := members j in
    let? transferID := field o "transfer_id" in
    let? assetID := field o "asset_id" in
    let? amount := field o "amount" in
    let? receiver := field o "receiver" in
    let? chainID := field o "destination_chain_id" in
    let? channelID := field o "channel_id" in
    let? denom := field o "destination_denom" in
    let? timeout := field o "timeout_height" in
    let? memo := field o "memo" in
    let? status := field o "status" in
    let? reason := field o "failure_reason" in
    Ok (RouteRelay.mk_transfer transferID assetID amount receiver chainID channelID denom timeout memo status reason)
|}.
#[global] Instance Ack_from_json : FromJSON RouteRelay.Ack := {|
  zero_value := RouteRelay.mk_ack EmptyString EmptyString;
  from_json j :=
    let? o := members j in
    let? status := field o "status" in
    let? reason := field o "reason" in
    Ok (RouteRelay.mk_ack status reason)
|}.
#[global] Instance AckRecord_from_json : FromJSON RouteRelay.AckRecord := {|
  zero_value := RouteRelay.mk_ack_record EmptyString EmptyString EmptyString;
  from_json j :=
    let? o := members j in
    let? transferID := field o "transfer_id" in
    let? status := field o "status" in
    let? reason := field o "reason" in
    Ok (RouteRelay.mk_ack_record transferID status reason)
|}.

Record RouteRuntime := mk_route_runtime { routeCommand : string; routeArgs : list string; locator : RuntimeLocator }.

Section route.
Context {W : Type} `{Commands W} (s : RouteRuntime).

Definition run_located (args : list string) : Op W http_body :=
  run (routeCommand s) (appendRuntimeLocatorArgs (routeArgs s ++ args) (locator s)).

Definition PendingTransfers : Op W (list RouteRelay.Transfer) :=
  let! output := run_located ["query"; "transfers"]%string in
  let! transfers := lift (decode_body output) in
  ret (filter (fun t => TrimSpace (RouteRelay.Status t) = "pending"%string) transfers).

(** [CommandAckSink.runTx]: the reason comes after the locator. *)
Definition runTx (subcommand transferID reason : string) : Op W unit :=
  ctx_Err ;;;
  run (routeCommand s) (appendRuntimeLocatorArgs (routeArgs s ++ ["tx"; subcommand; "--transfer-id"; TrimSpace transferID]%string) (locator s)
    ++ locator_arg "--reason" reason) ;;;
  ret tt.
Definition CompleteTransfer (transferID : string) : Op W unit := runTx "complete-ibc-transfer" transferID EmptyString.
Definition FailTransfer (transferID reason : string) : Op W unit := runTx "fail-ibc-transfer" transferID reason.
Definition TimeoutTransfer (transferID : string) : Op W unit := runTx "timeout-ibc-transfer" transferID EmptyString.

(** [CommandIBCTarget]. *)
Definition SubmitTransfer (transfer : RouteRelay.Transfer) : Op W RouteRelay.Ack :=
  let! envelope := lift (RouteRelay.buildDeliveryEnvelope transfer) in
  let packet := RouteRelay.EnvPacket envelope in
  let! output := run_located ["relay"; "recv-packet"; "--transfer-id"; RouteRelay.TransferID transfer;
    "--sequence"; format_uint (RouteRelay.Sequence packet); "--source-port"; RouteRelay.SourcePort packet;
    "--source-channel"; RouteRelay.SourceChannel packet; "--destination-port"; RouteRelay.DestinationPort packet;
    "--asset-id"; RouteRelay.AssetID transfer; "--amount"; RouteRelay.Amount transfer;
    "--receiver"; RouteRelay.Receiver transfer; "--destination-chain-id"; RouteRelay.DestinationChainID transfer;
    "--channel-id"; RouteRelay.ChannelID transfer; "--destination-denom"; RouteRelay.DestinationDenom transfer;
    "--timeout-height"; format_uint (RouteRelay.TimeoutHeight transfer); "--memo"; RouteRelay.Memo transfer]%string in
  lift (decode_body output).
Definition ReadyAcks : Op W (list RouteRelay.AckRecord) :=
  let! output := run_located ["query"; "packet-acks"]%string in lift (decode_body output).
Definition ConfirmAck (transferID : string) : Op W unit :=
  run_located ["relay"; "acknowledge-packet"; "--transfer-id"; TrimSpace transferID]%string ;;; ret tt.
End route.

(** ** The command line of the chain as the process *)

(** What a process printed, on both of its outputs. Texts that are not one
    document are read as none. *)
Definition combined (printed : list output) (logged : list log_line) : http_body :=
  match printed, logged with
  | [], [] => BodyText EmptyString
  | [OutJSON j], [] => BodyJSON j
  | [OutText s], [] => BodyText s
  | _, _ => BodyText "more than one document"
  end.

Section commandline.
Context {W : Type} `{Network W} `{NodeParts W} `{Running W}.
Context `{MapIteration} `{Crypto} `{Bank.AddressCodec} `{Environment} `{SDKStore}.
Context (ticks : nat) (tmp : string).

Definition under (dir : string) (p : Path) : bool :=
  bool_decide (p.1 = (parse_path dir).1 /\ take (length (parse_path dir).2) p.2 = (parse_path dir).2).

(** A process of [Cli] on the same machine; its output does not fail. *)
Definition cli_run (args : list string) : Op (Machine W) http_body := fun m =>
  let '(code, m') := main ticks args (mk_machine (disk m) (net m) [] [] []) in
  (if N.eqb code 0 then Ok (combined (stdout m') (stderr m')) else Err (Errorf "exit status 1"),
   mk_machine (disk m') (net m') (stdout m) (writes m) (stderr m)).

#[local] Instance CommandLine : Commands (Machine W) := {|
  ctx_Err := ret tt;
  run _ args := cli_run args;
  MkdirTemp _ := on_world (on_files (MkdirAll tmp)) ;;; ret tmp;
  WriteSubmission path p := on_world (on_files (WriteFile path (SubmissionDoc p)));
  RemoveAll dir m := set_disk (upd_files (upd_nodes (filter (fun e => under dir e.1 = false))) (disk m)) m
|}.

Lemma local_query_prints home c saved (m : Machine W) fs view j :
  home_at home c saved m -> at_home home fs -> writes m = [] -> view (loaded c saved) (disk m) = Ok j ->
  local_query fs view m = (Ok tt, mk_machine (disk m) (net m) (stdout m ++ [OutJSON j]) [] (stderr m)).
Proof.
  intros Hm Hfs Hw Hv. unfold local_query.
  rewrite (with_app_run home c saved m _ _ (Ok tt) (loaded c saved, mk_machine (disk m) (net m) (stdout m ++ [OutJSON j]) [] (stderr m))
    (loads_home _ _ _ _ _ Hm Hfs) Hm); [done| |by eapply quiet_loaded].
  unfold bind, query. cbn [fst snd]. rewrite Hv. unfold on_machine, zoom, writeJSON. cbn [fst snd]. by rewrite write_run, Hw.
Qed.

Definition process_machine (m : Machine W) : Machine W := mk_machine (disk m) (net m) [] [] [].

Lemma process_home home c saved m : home_at home c saved m -> home_at home c saved (process_machine m).
Proof. by apply home_at_disk. Qed.

(** A query that prints one document. *)
Lemma cli_run_query name args j (m : Machine W) :
  Cli.runQuery (name :: args) (process_machine m) = (Ok tt, mk_machine (disk m) (net m) [OutJSON j] [] []) ->
  cli_run ("query"%string :: name :: args) m = (Ok (BodyJSON j), m).
Proof.
  intros Hq. unfold cli_run, main. change (mk_machine (disk m) (net m) [] [] []) with (process_machine m).
  change (runWithContext ticks ("query"%string :: name :: args) (process_machine m)) with (Cli.runQuery (name :: args) (process_machine m)).
  rewrite Hq. cbn. by destruct m.
Qed.

(** A command that fails, panics included, ends the process with an error. *)
Lemma cli_run_failed args m e m1 : runWithContext ticks args (process_machine m) = (Err e, m1) ->
  exists e', cli_run args m = (Err e', mk_machine (disk m1) (net m1) (stdout m) (writes m) (stderr m)).
Proof.
  intros Hr. unfold cli_run, main. change (mk_machine (disk m) (net m) [] [] []) with (process_machine m). rewrite Hr.
  destruct (Node.is_panic e); eexists; reflexivity.
Qed.

(** A transaction that stands for one operation: an answer is the effect of the
    operation, saved; an error leaves the home as it was. *)
Definition settled {A B} (home : string) (c : Config) (saved : App) (m : Machine W) (operation : Op App A)
    (run : result B * Machine W) : Prop :=
  net run.2 = net m /\ exists saved', home_at home c saved' run.2 /\
  match run.1 with
  | Ok _ => exists x, operation (renumbered saved) = (Ok x, saved')
  | Err _ => saved' = saved
  end.

Lemma settled_ok {A B} home c saved m (operation : Op App A) (run : result B * Machine W) :
  settled home c saved m operation run -> is_ok run.1 = true ->
  exists saved' x, operation (renumbered saved) = (Ok x, saved') /\ home_at home c saved' run.2.
Proof. intros (_ & saved' & Hm & Hr) Hok. destruct run as [[y|e] m']; [|done]. destruct Hr as [x Hx]. by exists saved', x. Qed.

Lemma cli_tx {A} home c saved m name args fs (operation : Op App A) :
  home_at home c saved m -> parse_flags name args = Ok fs -> at_home home fs ->
  (forall acts, tx_meaning name fs (files (disk m)) = Ok acts ->
     exec_apps acts (renumbered saved) = snd (operation (renumbered saved))) ->
  (forall m', Cli.runTx (name :: args) (process_machine m) = (Ok tt, m') -> exists x, fst (operation (renumbered saved)) = Ok x) ->
  settled home c saved m operation (cli_run ("tx"%string :: name :: args) m).
Proof.
  intros Hm Hparse Hat Hacts Hok.
  pose proof (tx_case home c saved (process_machine m) name args fs (process_home _ _ _ _ Hm) Hparse Hat) as Hd.
  destruct (Cli.runTx (name :: args) (process_machine m)) as [r m1] eqn:Hr.
  assert (Hend : net m1 = net m /\ exists saved', home_at home c saved' m1 /\
    match r with Ok _ => exists x, operation (renumbered saved) = (Ok x, saved') | Err _ => saved' = saved end).
  { change (files (disk (process_machine m))) with (files (disk m)) in Hd.
    destruct (tx_meaning name fs (files (disk m))) as [acts|e] eqn:Hmean; cbn [does] in Hd; cycle 1.
    { destruct Hd as (e' & [= -> ->]). split; [done|]. exists saved. split; [by apply process_home|done]. }
    destruct Hd as (Hnet & saved' & Hm1 & Hd). cbn [fst snd] in *. split; [exact Hnet|]. exists saved'. split; [exact Hm1|].
    destruct r as [[]|e]; cycle 1.
    { destruct Hd as [_ [->|[_ Hw]]]; [done|discriminate Hw]. }
    destruct Hd as [-> _]. destruct (Hok _ eq_refl) as [x Hx]. exists x. rewrite (Hacts _ eq_refl), <- Hx. by destruct (operation _). }
  destruct Hend as (Hnet & saved' & Hm1 & Hend).
  change (runWithContext ticks ("tx"%string :: name :: args) (process_machine m) = (r, m1)) in Hr.
  destruct r as [[]|e].
  - unfold cli_run, main. change (mk_machine (disk m) (net m) [] [] []) with (process_machine m). rewrite Hr.
    split; [exact Hnet|]. exists saved'. split; [by apply (home_at_disk _ _ _ m1)|exact Hend].
  - destruct (cli_run_failed _ m e m1 Hr) as [e' ->]. split; [exact Hnet|]. exists saved'.
    split; [by apply (home_at_disk _ _ _ m1)|exact Hend].
Qed.

(** *** The withdrawals the relayer reads *)

(** A recorded withdrawal as the relayer has it: the kind of the source asset
    is not printed. *)
Definition relayed (w : BridgeState.WithdrawalRecord) : Watchers.Withdrawal :=
  let i := BridgeState.WIdentity w in
  Watchers.mk_wd (BridgeState.BlockHeight w)
    (mk_identity (Kind i) EmptyString (SourceChainID i) (SourceContract i) (SourceTxHash i) (SourceLogIndex i) (Nonce i) (MessageID i))
    (BridgeState.WAssetID w) (BridgeState.AssetAddress w) (Some (BridgeState.WAmount w)) (BridgeState.WRecipient w)
    (BridgeState.WDeadline w) (BridgeState.WSignature w).

Lemma persisted_read (w : BridgeState.WithdrawalRecord) : withdrawal_typed w ->
  from_json (WithdrawalResponse w) = Ok (mk_persisted (withdrawal_view w) EmptyString).
Proof.
  intros (Hl & Hn & Hd & Hb). cbn [from_json persistedWithdrawal_from_json]. rewrite withdrawal_response_read by done.
  cbn [res_bind]. unfold WithdrawalResponse. cbn [members res_bind]. unfold field.
  repeat first [rewrite lookup_other by (vm_compute; reflexivity)|rewrite lookup_other_omitempty by (vm_compute; reflexivity)].
  reflexivity.
Qed.

Lemma persisted_decodes (w : BridgeState.WithdrawalRecord) :
  decodePersistedWithdrawal (mk_persisted (withdrawal_view w) EmptyString) = Ok (relayed w).
Proof.
  unfold decodePersistedWithdrawal, withdrawal_view. cbn [PwView PwSignature WvAmount WvSignatureBase64].
  by rewrite SetString10_format_int, eqs_refl, base64_round_trip.
Qed.

Lemma withdrawals_decode l : Forall withdrawal_typed l ->
  (let? encoded := from_json (WithdrawalsResponse l) in traverse decodePersistedWithdrawal encoded) = Ok (map relayed l).
Proof.
  intros Hl. unfold WithdrawalsResponse. cbn [from_json list_from_json].
  rewrite (traverse_images from_json WithdrawalResponse (fun w => mk_persisted (withdrawal_view w) EmptyString));
    [|by eapply Forall_impl; [exact Hl|apply persisted_read]]. cbn [res_bind].
  apply traverse_images, Forall_true. apply persisted_decodes.
Qed.

Context (home : string) (s : CommandRuntime).
Hypothesis chooses_home : splitRuntimeArgs (baseArgs s) = ([], ["--home"%string; home]).

Lemma run_with_home args m : run_with s args m = cli_run (args ++ ["--home"%string; home]) m.
Proof.
  unfold run_with. rewrite chooses_home. cbn [app]. unfold appendRuntimeArgs. cbn [commandArgsContainFlag existsb].
  by rewrite orb_true_r.
Qed.

Definition summary_flags : FlagSet := foldl assign (flags_of "summary") [("home", home, FString home)]%string.
Lemma summary_parsed : parse_flags "summary" ["--home"%string; home] = Ok summary_flags.
Proof.
  unfold parse_flags. change ["--home"%string; home] with (by_name [("home", home, FString home)]%string ++ []).
  rewrite Parse_by_name; [done|]. apply Forall_singleton. split; [by vm_compute|]. by exists (FString EmptyString).
Qed.

Lemma summary_run c saved m : home_at home c saved m ->
  Cli.runQuery ["summary"; "--home"; home]%string (process_machine m) =
    (Ok tt, mk_machine (disk m) (net m) [OutJSON (to_json (summary_of (loaded c saved)))] [] []).
Proof.
  intros Hm.
  change (Cli.runQuery ["summary"; "--home"; home]%string (process_machine m))
    with (querySummary ["--home"; home]%string (process_machine m)).
  unfold querySummary, parse, bind, lift. rewrite summary_parsed.
  assert (Hat : at_home home summary_flags) by (split; vm_compute; reflexivity). rewrite (proj2 Hat).
  erewrite (local_query_prints home c saved (process_machine m)); [reflexivity|by apply process_home|done|done|done].
Qed.

Lemma height_read (d : SummaryDocument) : u64_ok (SumHeight d) ->
  (let? o := members (to_json d) in field (A:=N) o "current_height") = Ok (SumHeight d).
Proof. intros Hh. unfold to_json, Summary_to_json. cbn [members res_bind]. by read_field. Qed.

Definition withdrawal_flags (fromHeight toHeight : N) : FlagSet :=
  foldl assign (flags_of "withdrawals") [("from-height", format_uint fromHeight, FUint fromHeight);
    ("to-height", format_uint toHeight, FUint toHeight); ("home", home, FString home)]%string.
Lemma withdrawals_parsed fromHeight toHeight : u64_ok fromHeight -> u64_ok toHeight ->
  parse_flags "withdrawals" ["--from-height"; format_uint fromHeight; "--to-height"; format_uint toHeight; "--home"; home]%string =
    Ok (withdrawal_flags fromHeight toHeight).
Proof.
  intros Hf Ht. unfold parse_flags.
  change ["--from-height"; format_uint fromHeight; "--to-height"; format_uint toHeight; "--home"; home]%string
    with (by_name [("from-height", format_uint fromHeight, FUint fromHeight); ("to-height", format_uint toHeight, FUint toHeight);
            ("home", home, FString home)]%string ++ []).
  assert (Hset : forall old n, u64_ok n -> set_value (FUint old) (format_uint n) = inr (FUint n)).
  { intros old n Hn. cbn [set_value]. rewrite ParseUint_format; [done|]. unfold u64_ok, max_uint64, two64 in *. lia. }
  rewrite Parse_by_name; [done|]. repeat apply Forall_cons_2; [| | |apply Forall_nil_2]; cbn [fst snd];
    (split; [by vm_compute|]).
  - exists (FUint 0). split_and!; [by vm_compute|done|by apply Hset].
  - exists (FUint max_uint64). split_and!; [by vm_compute|done|by apply Hset].
  - by exists (FString EmptyString).
Qed.

Lemma withdrawals_run c saved m fromHeight toHeight : home_at home c saved m -> u64_ok fromHeight -> u64_ok toHeight ->
  Cli.runQuery ["withdrawals"; "--from-height"; format_uint fromHeight; "--to-height"; format_uint toHeight; "--home"; home]%string
      (process_machine m) =
    (Ok tt, mk_machine (disk m) (net m) [OutJSON (WithdrawalsResponse (App.Withdrawals saved fromHeight toHeight))] [] []).
Proof.
  intros Hm Hf Ht. set (args := ["--from-height"; format_uint fromHeight; "--to-height"; format_uint toHeight; "--home"; home]%string).
  change (queryWithdrawals args (process_machine m) =
    (Ok tt, mk_machine (disk m) (net m) [OutJSON (WithdrawalsResponse (App.Withdrawals saved fromHeight toHeight))] [] [])).
  unfold queryWithdrawals, parse, bind, lift, args. rewrite withdrawals_parsed by done.
  assert (Hat : at_home home (withdrawal_flags fromHeight toHeight)) by (split; vm_compute; reflexivity). cbv zeta. rewrite (proj2 Hat).
  assert (Hn : num (withdrawal_flags fromHeight toHeight) "from-height" = fromHeight /\
    num (withdrawal_flags fromHeight toHeight) "to-height" = toHeight) by (split; vm_compute; reflexivity).
  destruct Hn as [-> ->].
  erewrite (local_query_prints home c saved (process_machine m)); [reflexivity|by apply process_home|done|done|done].
Qed.
(** A height that does not fit its flag is refused. *)
Lemma over_refused fromHeight toHeight m : (max_uint64 < fromHeight)%N ->
  exists e, Withdrawals s fromHeight toHeight m = (Err e, m).
Proof.
  intros Hf. unfold Withdrawals, bind at 1. rewrite run_with_home. cbn [app].
  assert (Hq : exists e, Cli.runQuery ["withdrawals"; "--from-height"; format_uint fromHeight; "--to-height"; format_uint toHeight; "--home"; home]%string
    (process_machine m) = (Err e, process_machine m)).
  { set (args := ["--from-height"; format_uint fromHeight; "--to-height"; format_uint toHeight; "--home"; home]%string).
    change (exists e, queryWithdrawals args (process_machine m) = (Err e, process_machine m)).
    assert (Hp : exists e, parse_flags "withdrawals" args = Err e).
    { unfold parse_flags. destruct (Parse_refused (flags_of "withdrawals") "from-height" (format_uint fromHeight) (FUint 0)
        (num_error_text RangeError) ["--to-height"; format_uint toHeight; "--home"; home]%string) as [e He];
        [by vm_compute|by vm_compute|done|cbn [set_value]; by rewrite ParseUint_over|].
      exists e. unfold args. change "--from-height"%string with ("--" +:+ "from-height")%string. by rewrite He. }
    destruct Hp as [e Hp]. exists e. unfold queryWithdrawals, parse, bind, lift. by rewrite Hp. }
  destruct Hq as [e Hq].
  destruct (cli_run_failed ["query"; "withdrawals"; "--from-height"; format_uint fromHeight; "--to-height"; format_uint toHeight;
    "--home"; home]%string m e (process_machine m) Hq) as [e' He]. rewrite He. exists e'. by destruct m.
Qed.

(** The withdrawals of a range, as the watcher counts ranges. *)
Lemma withdrawals_within saved fromHeight toHeight :
  map relayed (App.Withdrawals saved fromHeight toHeight) =
  Watchers.within Watchers.WdHeight (map relayed (BridgeState.withdrawals (BridgeKeeper saved))) fromHeight (toHeight + 1).
Proof.
  unfold App.Withdrawals, BridgeState.Withdrawals, Watchers.within.
  assert (Hf : forall l, map relayed (filter (fun w => ((BridgeState.BlockHeight w <? fromHeight) || (toHeight <? BridgeState.BlockHeight w))%N = false) l) =
    filter (fun e => fromHeight <= Watchers.WdHeight e < toHeight + 1)%N (map relayed l)).
  { induction l as [|w l IH]; [done|]. cbn [map]. rewrite !filter_cons. cbn [relayed Watchers.WdHeight].
    repeat case_decide; cbn [map]; rewrite ?IH; try done; exfalso;
      destruct (N.ltb_spec (BridgeState.BlockHeight w) fromHeight); destruct (N.ltb_spec toHeight (BridgeState.BlockHeight w)); cbn in *; try done; lia. }
  destruct (N.ltb_spec toHeight fromHeight) as [Hlt|_]; [|by rewrite map_id, Hf].
  symmetry. apply elem_of_nil_inv. intros e [[? ?] _]%list_elem_of_filter. lia.
Qed.

(** The source as the withdrawal watcher polls it. *)
Definition chain_source (m : Machine W) : Watchers.Source Watchers.Withdrawal :=
  Watchers.mk_source (fst (LatestHeight s m)) (fun fromHeight toHeight => fst (Withdrawals s fromHeight toHeight m)).

Lemma height_run c saved m : home_at home c saved m -> u64_ok (BridgeState.currentHeight (BridgeKeeper saved)) ->
  LatestHeight s m = (Ok (BridgeState.currentHeight (BridgeKeeper saved)), m).
Proof.
  intros Hm Hh. unfold LatestHeight, runQuery, bind at 1. rewrite run_with_home. cbn [app].
  rewrite (cli_run_query _ _ _ _ (summary_run c saved m Hm)). unfold bind, lift.
  pose proof (height_read (summary_of (loaded c saved)) Hh) as Hr. revert Hr.
  destruct (members _) as [o|e]; cbn [res_bind]; [|done]. by intros ->.
Qed.

Lemma entries_run c saved m fromHeight toHeight : home_at home c saved m ->
  Forall withdrawal_typed (BridgeState.withdrawals (BridgeKeeper saved)) -> u64_ok fromHeight -> u64_ok toHeight ->
  Withdrawals s fromHeight toHeight m = (Ok (map relayed (App.Withdrawals saved fromHeight toHeight)), m).
Proof.
  intros Hm Ht Hf Hto. unfold Withdrawals, bind at 1. rewrite run_with_home. cbn [app].
  rewrite (cli_run_query _ _ _ _ (withdrawals_run c saved m _ _ Hm Hf Hto)). unfold bind, lift, decode_body.
  assert (Htl : Forall withdrawal_typed (App.Withdrawals saved fromHeight toHeight)).
  { unfold App.Withdrawals, BridgeState.Withdrawals. destruct (_ <? _)%N; [done|]. rewrite map_id.
    rewrite Forall_forall in *. intros w [_ Hw]%list_elem_of_filter. by apply Ht. }
  pose proof (withdrawals_decode _ Htl) as Hd. revert Hd.
  destruct (from_json _) as [l|e]; cbn [res_bind]; [|done]. by intros ->.
Qed.
(** C35: C: the relayer reads the chain it is started over. On a home of the
    snapshot mode, the height the source reports is the height the chain has
    saved, and the withdrawals of a range are the recorded withdrawals of that
    range, each decoded to the record (all but the kind of the source asset),
    in their order; reading changes nothing on the machine. So the source is
    [honest] for the withdrawal watcher whatever the confirmations it waits
    for: what it says about final heights is what the chain recorded there. *)
Theorem command_source_reads_chain (c : Config) (saved : App) (m : Machine W) (confirmations : N) :
  home_at home c saved m -> (BridgeState.currentHeight (BridgeKeeper saved) < max_uint64)%N ->
  Forall withdrawal_typed (BridgeState.withdrawals (BridgeKeeper saved)) ->
  LatestHeight s m = (Ok (BridgeState.currentHeight (BridgeKeeper saved)), m) /\
  (forall fromHeight toHeight, u64_ok fromHeight -> u64_ok toHeight ->
   Withdrawals s fromHeight toHeight m = (Ok (map relayed (App.Withdrawals saved fromHeight toHeight)), m)) /\
  Watchers.honest Watchers.WdHeight confirmations (map relayed (BridgeState.withdrawals (BridgeKeeper saved))) (chain_source m).
Proof.
  intros Hm Hlt Ht. assert (Hh : u64_ok (BridgeState.currentHeight (BridgeKeeper saved))) by (unfold u64_ok, max_uint64, two64 in *; lia).
  split_and!; [by eapply height_run|intros; by eapply entries_run|].
  intros latest a b es. cbn [Watchers.Latest Watchers.Entries chain_source]. erewrite height_run by done. cbn [fst].
  intros [= <-] Hb. destruct (N.ltb_spec max_uint64 a) as [Ha|Ha].
  { destruct (over_refused a b m Ha) as [e ->]. done. }
  erewrite entries_run by (done || (unfold u64_ok, max_uint64, two64 in *; lia)). cbn [fst]. intros [= <-].
  split; [done|]. by rewrite withdrawals_within.
Qed.

(** *** The claims the relayer submits *)

(** The temporary directory is away from the files of the home. *)
Definition apart (c : Config) : Prop :=
  tmp <> EmptyString /\ under tmp (parse_path (ConfigPath c)) = false /\ under tmp (parse_path (StatePath c)) = false.

Lemma home_kept c saved (m m' : Machine W) : apart c -> home_at home c saved m ->
  (forall q n, under tmp q = false -> nodes (files (disk m)) !! q = Some n -> nodes (files (disk m')) !! q = Some n) ->
  home_at home c saved m'.
Proof.
  intros (_ & Hc & Hs) [Hd Ha [Hp Hcfg (d & Hst & Hl)]] Hk. split; [done..|].
  assert (Hn : forall path n, under tmp (parse_path path) = false -> node_at (files (disk m)) path = Some n ->
    node_at (files (disk m')) path = Some n).
  { intros path n Hu. unfold node_at. case_decide; [done|]. by apply Hk. }
  split; [done|by apply Hn|]. exists d. split; [by apply Hn|done].
Qed.

Definition submission_path : string := JoinPath [tmp; "submission.json"%string].

Lemma submission_under c : apart c ->
  parse_path submission_path = ((parse_path tmp).1, (parse_path tmp).2 ++ ["submission.json"%string]) /\
  under tmp (parse_path submission_path) = true.
Proof.
  intros [Ht _]. assert (Hp : parse_path submission_path = ((parse_path tmp).1, (parse_path tmp).2 ++ ["submission.json"%string])).
  { apply parse_JoinPath; [done..|]. by apply Forall_singleton; split_and!; vm_compute. }
  split; [exact Hp|]. rewrite Hp. apply bool_decide_eq_true_2. cbn [fst snd]. by rewrite take_app_length.
Qed.

(** What was written is what the command reads. *)
Lemma submission_read c (f : FS Config.document) claim attestation x : apart c ->
  nodes f !! parse_path submission_path = Some (File (SubmissionDoc (mk_submission (claim_payload claim) attestation))) ->
  loadSubmission f submission_path = Ok x -> x = (claim, attestation).
Proof.
  intros Ha Hn. unfold loadSubmission, ReadDocument, ReadFile, node_at. rewrite parse_Clean.
  assert (Hc : Clean submission_path = submission_path).
  { unfold submission_path, JoinPath. rewrite filter_cons_True by apply Ha. apply Clean_idem. }
  rewrite decide_False by (rewrite Hc; apply JoinPath_nonempty, Ha). rewrite Hn. cbn [res_bind as_submission].
  unfold depositClaimAndAttestationFromPayload, claim_payload. cbn.
  destruct claim as [[] ? ? [v|] ? ?]; cbn; [|done]. rewrite SetString10_format_int. by intros [= <-].
Qed.

Definition submit_flags : FlagSet := foldl assign (flags_of "submit-deposit-claim")
  [("submission-file", submission_path, FString submission_path); ("home", home, FString home)]%string.
Lemma submit_parsed : parse_flags "submit-deposit-claim" ["--submission-file"; submission_path; "--home"; home]%string = Ok submit_flags.
Proof.
  unfold parse_flags. change ["--submission-file"; submission_path; "--home"; home]%string
    with (by_name [("submission-file", submission_path, FString submission_path); ("home", home, FString home)]%string ++ []).
  rewrite Parse_by_name; [done|]. repeat apply Forall_cons_2; [| |apply Forall_nil_2]; cbn [fst snd];
    (split; [by vm_compute|]); exists (FString EmptyString); (split_and!; [by vm_compute|done|done]).
Qed.
Lemma submit_at_home : at_home home submit_flags.
Proof. generalize submission_path as path. split; vm_compute; reflexivity. Qed.

(** The process that submits the claim of the file. *)
Lemma submission_run c saved m claim attestation : apart c -> home_at home c saved m ->
  nodes (files (disk m)) !! parse_path submission_path = Some (File (SubmissionDoc (mk_submission (claim_payload claim) attestation))) ->
  settled home c saved m (deposit claim attestation)
    (cli_run ["tx"; "submit-deposit-claim"; "--submission-file"; submission_path; "--home"; home]%string m).
Proof.
  intros Ha Hm Hn. apply (cli_tx _ _ _ _ _ _ submit_flags); [done|exact submit_parsed|exact submit_at_home| |].
  - intros acts. change (tx_meaning "submit-deposit-claim" submit_flags (files (disk m))) with
      (submission_action AppDeposit submit_flags (files (disk m))). unfold submission_action.
    change (str submit_flags "submission-file") with submission_path.
    destruct (loadSubmission (files (disk m)) submission_path) as [x|e] eqn:Hload; [|done]. intros [= <-].
    rewrite (submission_read _ _ _ _ _ Ha Hn Hload). by rewrite deposit_state.
  - intros m1 Hr. change (txSubmitDepositClaim ["--submission-file"; submission_path; "--home"; home]%string (process_machine m) = (Ok tt, m1)) in Hr.
    unfold txSubmitDepositClaim, parse, bind at 1, lift at 1 in Hr. rewrite submit_parsed in Hr.
    unfold bind at 1, throw_if in Hr. destruct (blank _); [discriminate Hr|]. unfold ret at 1 in Hr.
    unfold bind at 1, query at 1 in Hr. change (str submit_flags "submission-file") with submission_path in Hr.
    change (files (disk (process_machine m))) with (files (disk m)) in Hr.
    destruct (loadSubmission (files (disk m)) submission_path) as [x|e] eqn:Hload; [|discriminate Hr].
    pose proof (submission_read _ _ _ _ _ Ha Hn Hload) as ->. rewrite (proj2 submit_at_home) in Hr.
    eapply (local_tx_answered home c saved); [by apply process_home|exact submit_at_home|exact Hr].
Qed.

Lemma files_run {A} (x : Op (FS Config.document) A) (m : Machine W) :
  on_world (on_files x) m = (fst (x (files (disk m))), set_disk (upd_files (fun _ => snd (x (files (disk m)))) (disk m)) m).
Proof. unfold on_world, on_files, zoom. by destruct (x (files (disk m))). Qed.

Lemma removed_home c saved m : apart c -> home_at home c saved m -> home_at home c saved (RemoveAll tmp m).
Proof.
  intros Ha Hm. apply (home_kept c saved m); [done..|]. intros q n Hu Hq. cbn. apply map_lookup_filter_Some. by split.
Qed.


(** *** The transfers the route relayer reads and settles *)

Context (rt : RouteRuntime).
Hypothesis located : routeArgs rt = [] /\ locator rt = mk_locator home EmptyString EmptyString /\ TrimSpace home = home /\ home <> EmptyString.

Lemma located_args args : appendRuntimeLocatorArgs (routeArgs rt ++ args) (locator rt) = args ++ ["--home"%string; home].
Proof.
  destruct located as (-> & -> & Ht & Hne). unfold appendRuntimeLocatorArgs, locator_arg. cbn [Home LocStatePath LocRuntimeMode].
  rewrite Ht, (proj2 (eqs_false _ _)) by done. done.
Qed.

(** A recorded transfer as the route relayer has it. *)
Definition observed (t : IBCRouter.TransferRecord) : RouteRelay.Transfer :=
  RouteRelay.mk_transfer (IBCRouter.TransferID t) (IBCRouter.TrAssetID t) (format_int (IBCRouter.TrAmount t))
    (IBCRouter.Receiver t) (IBCRouter.TrChainID t) (IBCRouter.TrChannelID t) (IBCRouter.TrDenom t)
    (IBCRouter.TimeoutHeight t) (IBCRouter.Memo t) (IBCRouter.Status t) (IBCRouter.FailureReason t).

Lemma transfer_response_read (t : IBCRouter.TransferRecord) : u64_ok (IBCRouter.TimeoutHeight t) ->
  from_json (TransferResponse t) = Ok (observed t).
Proof.
  intros Ht. unfold TransferResponse. cbn [from_json Transfer_from_json members res_bind]. repeat read_field. reflexivity.
Qed.

Lemma home_parsed name (fs : FlagSet) : flags_of name = fs -> fs !! "home"%string = Some (FString EmptyString) ->
  parse_flags name ["--home"%string; home] = Ok (<["home"%string := FString home]> fs).
Proof.
  intros <- Hh. unfold parse_flags. change ["--home"%string; home] with (by_name [("home", home, FString home)]%string ++ []).
  rewrite Parse_by_name; [done|]. apply Forall_singleton. split; [by vm_compute|]. by exists (FString EmptyString).
Qed.

Lemma transfers_run c saved m : home_at home c saved m ->
  Cli.runQuery ["transfers"; "--home"; home]%string (process_machine m) =
    (Ok tt, mk_machine (disk m) (net m)
       [OutJSON (TransfersResponse (merge_sort transfer_le (IBCRouter.ExportTransfers (IBCRouterKeeper saved))))] [] []).
Proof.
  intros Hm. change (Cli.runQuery ["transfers"; "--home"; home]%string (process_machine m))
    with (queryTransfers ["--home"; home]%string (process_machine m)).
  unfold queryTransfers, parse, bind, lift. rewrite (home_parsed "transfers" _ eq_refl eq_refl).
  erewrite (local_query_prints home c saved (process_machine m)); [reflexivity|by apply process_home| |done|done].
  split; vm_compute; reflexivity.
Qed.

Lemma pending_transfers_run c saved m : home_at home c saved m ->
  Forall (fun t => u64_ok (IBCRouter.TimeoutHeight t)) (IBCRouter.ExportTransfers (IBCRouterKeeper saved)) ->
  PendingTransfers rt m =
    (Ok (filter (fun t => TrimSpace (RouteRelay.Status t) = "pending"%string)
           (map observed (merge_sort transfer_le (IBCRouter.ExportTransfers (IBCRouterKeeper saved))))), m).
Proof.
  intros Hm Ht. unfold PendingTransfers, run_located, bind at 1. rewrite located_args. cbn [app].
  change (run (routeCommand rt) ["query"; "transfers"; "--home"; home]%string m) with (cli_run ["query"; "transfers"; "--home"; home]%string m).
  rewrite (cli_run_query _ _ _ _ (transfers_run c saved m Hm)). unfold bind, lift, decode_body, TransfersResponse.
  cbn [from_json list_from_json]. rewrite (traverse_images from_json TransferResponse observed); [done|].
  rewrite merge_sort_Permutation. eapply Forall_impl; [exact Ht|]. apply transfer_response_read.
Qed.

(** The three ways a transfer is settled. *)
Inductive settlement := Completed | Failed (reason : string) | TimedOut.
Definition settle (x : settlement) (transferID : string) : Op (Machine W) unit :=
  match x with
  | Completed => CompleteTransfer rt transferID
  | Failed reason => FailTransfer rt transferID reason
  | TimedOut => TimeoutTransfer rt transferID
  end.
Definition settle_operation (x : settlement) (transferID : string) : Op App IBCRouter.TransferRecord :=
  match x with
  | Completed => App.CompleteIBCTransfer transferID
  | Failed reason => App.FailIBCTransfer transferID (TrimSpace reason)
  | TimedOut => App.TimeoutIBCTransfer transferID
  end.
Definition settle_flags (x : settlement) (transferID : string) : list (string * string * flag_value) :=
  [("transfer-id", TrimSpace transferID, FString (TrimSpace transferID)); ("home", home, FString home)]%string ++
  match x with
  | Failed reason => if eqs (TrimSpace reason) EmptyString then [] else [("reason", TrimSpace reason, FString (TrimSpace reason))]%string
  | _ => []
  end.
Definition settle_name (x : settlement) : string :=
  match x with Completed => "complete-ibc-transfer" | Failed _ => "fail-ibc-transfer" | TimedOut => "timeout-ibc-transfer" end.

Lemma settle_line x transferID m :
  settle x transferID m = (run (routeCommand rt) ("tx" :: settle_name x :: by_name (settle_flags x transferID))%string ;;; ret tt) m.
Proof.
  destruct x as [|reason|]; cbn [settle settle_name]; unfold CompleteTransfer, FailTransfer, TimeoutTransfer, runTx;
    rewrite located_args; unfold bind at 1, ctx_Err at 1, CommandLine at 1, ret at 1; [done| |done].
  unfold settle_flags, locator_arg. by destruct (eqs (TrimSpace reason) EmptyString).
Qed.

Definition settle_set (x : settlement) (transferID : string) : FlagSet := foldl assign (flags_of (settle_name x)) (settle_flags x transferID).

Lemma settle_parsed x transferID : parse_flags (settle_name x) (by_name (settle_flags x transferID)) = Ok (settle_set x transferID).
Proof.
  unfold parse_flags. rewrite <- (app_nil_r (by_name _)), Parse_by_name; [done|].
  assert (Hs : forall name text, flag_name_ok name -> flags_of (settle_name x) !! name = Some (FString EmptyString) ->
    flag_name_ok name /\ exists old, flags_of (settle_name x) !! name = Some old /\ (forall b, old <> FBool b) /\ set_value old text = inr (FString text)).
  { intros name text Hn Hl. split; [done|]. by exists (FString EmptyString). }
  unfold settle_flags. repeat apply Forall_cons_2; cbn [fst snd];
    [apply Hs; [by vm_compute|by destruct x]..|].
  destruct x as [|reason|]; [done| |done]. destruct (eqs _ _); [done|]. apply Forall_singleton. by apply Hs; vm_compute.
Qed.

Lemma settle_set_reads x transferID :
  at_home home (settle_set x transferID) /\ str (settle_set x transferID) "transfer-id" = TrimSpace transferID /\
  (forall reason, x = Failed reason -> str (settle_set x transferID) "reason" = TrimSpace reason).
Proof.
  unfold settle_set, settle_flags. generalize (TrimSpace transferID) as id. intros id.
  destruct x as [|reason|]; cbn [settle_name app]; [|destruct (eqs (TrimSpace reason) EmptyString) eqn:Hr|];
    (split; [split; vm_compute; reflexivity|]); (split; [vm_compute; reflexivity|]); intros r; intros [= <-].
  - apply eqs_true in Hr. rewrite Hr. vm_compute. reflexivity.
  - generalize (TrimSpace reason). intros t. vm_compute. reflexivity.
Qed.
Lemma transfer_tx_answered c saved name args fs (operation : FlagSet -> Op App IBCRouter.TransferRecord)
    (m m' : Machine W) :
  home_at home c saved m -> parse_flags name args = Ok fs -> at_home home fs ->
  transfer_tx name args operation m = (Ok tt, m') -> exists x, fst (operation fs (renumbered saved)) = Ok x.
Proof.
  intros Hm Hparse Hat. unfold transfer_tx, parse, bind at 1, lift at 1. rewrite Hparse. unfold bind at 1, throw_if.
  destruct (blank _); [done|]. unfold ret at 1.
  by apply (local_tx_answered home c saved).
Qed.

Lemma settle_answered c saved (m : Machine W) x transferID (m' : Machine W) : home_at home c saved m ->
  Cli.runTx (settle_name x :: by_name (settle_flags x transferID)) m = (Ok tt, m') ->
  exists y, fst (settle_operation x (TrimSpace transferID) (renumbered saved)) = Ok y.
Proof.
  intros Hm. destruct (settle_set_reads x transferID) as (Hat & Hid & Hreason). pose proof (settle_parsed x transferID) as Hp.
  intros Hr. destruct x as [|reason|]; cbn [settle_name settle_operation] in *.
  - rewrite <- Hid. by apply (transfer_tx_answered c saved _ _ _ (fun fs => App.CompleteIBCTransfer (str fs "transfer-id")) _ _ Hm Hp Hat Hr).
  - rewrite <- Hid, <- (Hreason reason eq_refl).
    by apply (transfer_tx_answered c saved _ _ _ (fun fs => App.FailIBCTransfer (str fs "transfer-id") (str fs "reason")) _ _ Hm Hp Hat Hr).
  - rewrite <- Hid. by apply (transfer_tx_answered c saved _ _ _ (fun fs => App.TimeoutIBCTransfer (str fs "transfer-id")) _ _ Hm Hp Hat Hr).
Qed.

(** C: the route relayer reads the transfers of the chain and settles them. On
    a home of the snapshot mode its source returns the recorded transfers that
    are pending, in the order the chain prints them, and changes nothing. What
    its sink settles — completed, failed or timed out, named with any blanks
    around it — the chain settles: the sink ends without an error only when
    the chain's own operation did, with its result saved; otherwise the home is
    as it was. *)
Theorem route_commands_settle (c : Config) (saved : App) (m : Machine W) :
  home_at home c saved m ->
  (Forall (fun t => u64_ok (IBCRouter.TimeoutHeight t)) (IBCRouter.ExportTransfers (IBCRouterKeeper saved)) ->
   PendingTransfers rt m =
     (Ok (filter (fun t => TrimSpace (RouteRelay.Status t) = "pending"%string)
            (map observed (merge_sort transfer_le (IBCRouter.ExportTransfers (IBCRouterKeeper saved))))), m)) /\
  (forall x transferID, settled home c saved m (settle_operation x (TrimSpace transferID)) (settle x transferID m)).
Proof.
  intros Hm. split; [by apply (pending_transfers_run c)|]. intros x transferID. rewrite settle_line.
  destruct (settle_set_reads x transferID) as (Hat & Hid & Hreason). pose proof (settle_parsed x transferID) as Hp.
  assert (Hs : settled home c saved m (settle_operation x (TrimSpace transferID))
    (cli_run ("tx" :: settle_name x :: by_name (settle_flags x transferID))%string m)).
  { apply (cli_tx _ _ _ _ _ _ (settle_set x transferID)); [exact Hm|exact Hp|exact Hat| |].
    - intros acts. destruct x as [|reason|]; intros [= <-]; cbn [exec_apps exec_app settle_operation]; rewrite Hid; [done| |done].
      by rewrite (Hreason reason eq_refl).
    - intros m1. by apply (settle_answered c saved), process_home. }
  unfold bind. change (run (routeCommand rt) ("tx" :: settle_name x :: by_name (settle_flags x transferID))%string m)
    with (cli_run ("tx" :: settle_name x :: by_name (settle_flags x transferID))%string m).
  destruct (cli_run _ m) as [[y|e] m1]; exact Hs.
Qed.
End commandline.

(** ** Concrete runs *)

#[local] Existing Instance Bridge.toy_crypto.
#[local] Existing Instance Bank.toy_codec.
#[local] Existing Instance Config.demo_environment.
#[local] Existing Instance Restart.demo_sdk.
#[local] Existing Instance NodeStart.demo_parts.
#[local] Existing Instance Cli.no_network.
#[local] Existing Instance Cli.idle.

(** A home after some operations, saved. *)
Definition bridge_flags : Config :=
  init_flags "aegislink-1" "" "/srv/aegis" [Bridge.signer_a; Bridge.signer_b; Bridge.signer_c] ["gov"]%string 2.
Definition bridge_config : Config := normalizeConfig bridge_flags.
Definition bridge_start : Machine (list string) := mk_machine (snd (InitHome bridge_flags false (demo_disk []))) [] [] [] [].
Definition bridge_app (acts : list app_action) : App := exec_apps acts (fresh_keepers bridge_config).
Definition save_bridge (acts : list app_action) : result unit * (RuntimeApp * Machine (list string)) :=
  on_process Runtime.Save (set_keepers (bridge_app acts) (new_app bridge_config), bridge_start).
Definition bridge_machine (acts : list app_action) : Machine (list string) := snd (snd (save_bridge acts)).

Lemma bridge_start_at : home_at "/srv/aegis" bridge_config (fresh_keepers bridge_config) bridge_start.
Proof.
  assert (Hi : InitHome bridge_flags false (demo_disk []) = (Ok bridge_config, disk bridge_start)) by (vm_compute; reflexivity).
  destruct (init_holds _ _ _ _ _ _ _ _ _ _ Hi) as (Hk & Hv & _ & _ & Hh); [vm_compute; congruence..|].
  split; [vm_compute; split_and!; congruence| |exact Hh]. apply fresh_snapshot; [done..|vm_compute; congruence].
Qed.

Lemma bridge_machine_at acts : Forall (fun act => act <> AppSave) acts -> is_ok (fst (save_bridge acts)) = true ->
  home_at "/srv/aegis" bridge_config (bridge_app acts) (bridge_machine acts).
Proof.
  intros Hacts Hok.
  assert (Ha : snapshot_app (set_keepers (bridge_app acts) (new_app bridge_config))).
  { apply exec_apps_snapshot; [done|]. apply (ha_saved _ _ _ _ bridge_start_at). }
  destruct (save_run _ _ _ _ _ bridge_start_at Ha) as (r & m & Hs & _ & _ & _ & Hm). unfold bridge_machine, save_bridge in *.
  rewrite Hs in *. cbn [fst snd] in *. by rewrite Hok in Hm.
Qed.

(** The asset is registered; then a deposit arrives, half of it is withdrawn
    and a part is sent to another chain. *)
Definition opening : list app_action :=
  [AppRegister Registry.demo_usdc; AppSetLimit (Limits.mk_limit "eth.usdc" 600 (Some 1500%Z)); AppSetHeight 100].
Definition busy : list app_action := opening ++
  [AppDeposit demo_claim (Bridge.demo_attested demo_claim);
   AppWithdraw "cosmos1recipient" "eth.usdc" (Some 400%Z) "0xrecipient" 900 "sig";
   AppSetRoute (IBCRouter.mk_route "eth.usdc" "osmosis-1" "channel-0" "ibc/uethusdc" true);
   AppInitiate "eth.usdc" (Some 100%Z) "osmo1receiver" 900 "swap:uosmo"].

Lemma opening_at : home_at "/srv/aegis" bridge_config (bridge_app opening) (bridge_machine opening).
Proof. apply bridge_machine_at; [by repeat constructor|vm_compute; reflexivity]. Qed.
Lemma busy_at : home_at "/srv/aegis" bridge_config (bridge_app busy) (bridge_machine busy).
Proof. apply bridge_machine_at; [by repeat constructor|vm_compute; reflexivity]. Qed.

Definition demo_runtime : CommandRuntime := mk_command_runtime "aegislinkd" ["--home"; "/srv/aegis"]%string EmptyString.
Definition demo_route_runtime : RouteRuntime :=
  mk_route_runtime "aegislinkd" [] (mk_locator "/srv/aegis" EmptyString EmptyString).
Definition demo_tmp : string := "/tmp/aegislink-command-submission-1".

#[local] Instance demo_commands : Commands (Machine (list string)) := CommandLine 3 demo_tmp.

Lemma command_source_reads_chain_witness :
  LatestHeight demo_runtime (bridge_machine busy) = (Ok 100%N, bridge_machine busy) /\
  (exists w, Withdrawals demo_runtime 100 100 (bridge_machine busy) = (Ok [relayed w], bridge_machine busy) /\
    BridgeState.WAmount w = 400%Z) /\
  Watchers.honest Watchers.WdHeight 0 (map relayed (BridgeState.withdrawals (BridgeKeeper (bridge_app busy))))
    (chain_source 3 demo_tmp demo_runtime (bridge_machine busy)).
Proof.
  assert (Hs : splitRuntimeArgs (baseArgs demo_runtime) = ([], ["--home"; "/srv/aegis"]%string)) by (vm_compute; reflexivity).
  assert (Hh : BridgeState.currentHeight (BridgeKeeper (bridge_app busy)) = 100%N) by (vm_compute; reflexivity).
  assert (Hw : exists w, App.Withdrawals (bridge_app busy) 100 100 = [w] /\ BridgeState.WAmount w = 400%Z /\ withdrawal_typed w /\
    BridgeState.withdrawals (BridgeKeeper (bridge_app busy)) = [w]).
  { eexists. split_and!; [vm_compute; reflexivity..|split_and!; vm_compute; reflexivity|vm_compute; reflexivity]. }
  destruct Hw as (w & Hw & Hamount & Ht & Hall).
  destruct (command_source_reads_chain 3 demo_tmp "/srv/aegis" demo_runtime Hs bridge_config (bridge_app busy) (bridge_machine busy) 0 busy_at)
    as (Hl & He & Hhon); [by rewrite Hh|rewrite Hall; by apply Forall_singleton|].
  rewrite Hh in Hl. split_and!; [exact Hl| |exact Hhon]. exists w. split; [|exact Hamount].
  pose proof (He 100%N 100%N ltac:(reflexivity) ltac:(reflexivity)) as Hr. rewrite Hw in Hr. exact Hr.
Defined.


(** The same claim again is refused. *)
Example resubmission_refused :
  is_ok (fst (SubmitDepositClaim demo_runtime demo_claim (Bridge.demo_attested demo_claim) (bridge_machine busy))) = false.
Proof. vm_compute. reflexivity. Qed.

Lemma route_commands_settle_witness :
  (exists t, PendingTransfers demo_route_runtime (bridge_machine busy) = (Ok [observed t], bridge_machine busy) /\
     IBCRouter.TransferID t = "ibc/eth.usdc/1"%string) /\
  settled "/srv/aegis" bridge_config (bridge_app busy) (bridge_machine busy) (App.CompleteIBCTransfer "ibc/eth.usdc/1")
    (CompleteTransfer demo_route_runtime " ibc/eth.usdc/1 " (bridge_machine busy)) /\
  is_ok (fst (CompleteTransfer demo_route_runtime " ibc/eth.usdc/1 " (bridge_machine busy))) = true.
Proof.
  assert (Hl : routeArgs demo_route_runtime = [] /\ locator demo_route_runtime = mk_locator "/srv/aegis" EmptyString EmptyString /\
    TrimSpace "/srv/aegis" = "/srv/aegis"%string /\ "/srv/aegis"%string <> EmptyString) by (split_and!; [by vm_compute..|discriminate]).
  destruct (route_commands_settle 3 demo_tmp "/srv/aegis" demo_route_runtime Hl bridge_config (bridge_app busy) (bridge_machine busy) busy_at)
    as [Hp Hs].
  split_and!; [|exact (Hs Completed " ibc/eth.usdc/1 "%string)|vm_compute; reflexivity].
  assert (Ht : exists t, IBCRouter.ExportTransfers (IBCRouterKeeper (bridge_app busy)) = [t] /\
    TrimSpace (IBCRouter.Status t) = "pending"%string /\ u64_ok (IBCRouter.TimeoutHeight t) /\
    IBCRouter.TransferID t = "ibc/eth.usdc/1"%string).
  { eexists. split_and!; [vm_compute; reflexivity..]. }
  destruct Ht as (t & He & Hst & Hu & Hid). exists t. split; [|exact Hid].
  rewrite He in Hp. specialize (Hp ltac:(by apply Forall_singleton)). change (merge_sort transfer_le [t]) with [t] in Hp. cbn [map] in Hp.
  rewrite filter_cons_True in Hp by exact Hst. exact Hp.
Defined.
