(* ===== verification/FileRuntimes.v ===== *)
(** [relayer/internal/evm], [relayer/internal/cosmos] (file_runtime.go) and
    [relayer/internal/attestations] (file_source.go): the sources, sinks and
    votes the relayer keeps in files.

    A file holds one document; a document of another kind reads as an empty
    one, as none of its fields are there. *)

From Stdlib Require Import Ascii String.
From stdpp Require Import strings.
From S2P Require Import Prelude.
From S2P Require Import GoStrings.
From S2P Require Import Bytes.
From S2P Require Import Errors.
From S2P Require Import Base64.
From S2P Require Import Files.
From S2P Require Import JSON.
From S2P Require BridgeState.
From S2P Require Import BridgeTypes.
From S2P Require Bridge.
From S2P Require Import DemoTx.
From S2P Require Import Views.
From S2P Require Import NodeClient.
From S2P Require Import Watchers.
From S2P Require Import Collector.
From S2P Require CommandRuntimes.

(** ** Documents *)

Record persistedDepositEvent := mk_deposit_event {
  PdBlockNumber : N;            (* uint64 *)
  PdSourceChainID : string;
  PdSourceContract : string;
  PdTxHash : string;
  PdLogIndex : N;               (* uint64 *)
  PdNonce : N;                  (* uint64 *)
  PdDepositID : string;
  PdMessageID : string;
  PdAssetAddress : string;
  PdAssetID : string;
  PdAmount : string;
  PdRecipient : string;
  PdExpiry : N                  (* uint64 *)
}.
Record persistedDepositState := mk_deposit_state { LatestBlockKept : N; DepositEventsKept : list persistedDepositEvent }.

Record persistedReleaseRequest := mk_release_request {
  PrMessageID : string;
  PrAssetAddress : string;
  PrAmount : string;
  PrRecipient : string;
  PrDeadline : N;               (* uint64 *)
  PrSignature : string
}.

Record persistedWithdrawalState := mk_withdrawal_state {
  LatestHeightKept : N;
  WithdrawalsKept : list CommandRuntimes.persistedWithdrawal
}.

Record persistedVote := mk_persisted_vote {
  PvMessageID : string;
  PvPayloadHash : string;
  PvSigner : string;
  PvExpiry : N;                 (* uint64 *)
  PvSignature : string          (* bytes *)
}.

Inductive document :=
| DepositsDoc (d : persistedDepositState)
| ReleasesDoc (requests : list persistedReleaseRequest)
| WithdrawalsDoc (d : persistedWithdrawalState)
| ClaimsDoc (submissions : list submissionPayload)
| VotesDoc (votes : list persistedVote).

Definition as_deposits (d : document) : persistedDepositState :=
  match d with DepositsDoc d => d | _ => mk_deposit_state 0 [] end.
Definition as_releases (d : document) : list persistedReleaseRequest := match d with ReleasesDoc l => l | _ => [] end.
Definition as_withdrawals (d : document) : persistedWithdrawalState :=
  match d with WithdrawalsDoc d => d | _ => mk_withdrawal_state 0 [] end.
Definition as_claims (d : document) : list submissionPayload := match d with ClaimsDoc l => l | _ => [] end.
Definition as_votes (d : document) : list persistedVote := match d with VotesDoc l => l | _ => [] end.

(** The [load] of every source and outbox: a missing file is an empty one. *)
Definition load {A} (as_kind : document -> A) (empty : A) (path : string) (w : FS document) : result A :=
  if eqs path EmptyString then Ok empty
  else match ReadFile w path with
       | Err e => if IsNotExist e then Ok empty else Err e
       | Ok None => Err json_error
       | Ok (Some d) => Ok (as_kind d)
       end.

Definition persistJSON (path : string) (value : document) : Op (FS document) unit :=
  if eqs path EmptyString then ret tt
  else MkdirAll (Dir path) ;;; WriteByRename path value.

Definition when_live {A} (ctx : option error) (r : result A) : result A :=
  match ctx with Some e => Err e | None => r end.

(** ** Deposits and releases (evm) *)

Definition decodeDepositEvent (e : persistedDepositEvent) : result DepositEvent :=
  match SetString10 (PdAmount e) with
  | None => Err (Errorf ("invalid deposit amount " +:+ Quote (PdAmount e)))
  | Some amount =>
      Ok (mk_event (PdBlockNumber e) (PdSourceChainID e) (PdSourceContract e) (PdTxHash e) (PdLogIndex e) (PdNonce e)
            (PdDepositID e) (PdMessageID e) EmptyString (PdAssetAddress e) (PdAssetID e) (Some amount) (PdRecipient e) (PdExpiry e))
  end.

Definition LatestBlock (ctx : option error) (path : string) (w : FS document) : result N :=
  when_live ctx (let? state := load as_deposits (mk_deposit_state 0 []) path w in Ok (LatestBlockKept state)).

Definition DepositEvents (ctx : option error) (path : string) (w : FS document) (fromBlock toBlock : N) : result (list DepositEvent) :=
  when_live ctx (
    let? state := load as_deposits (mk_deposit_state 0 []) path w in
    traverse decodeDepositEvent
      (filter (fun e => ((PdBlockNumber e <? fromBlock) || (toBlock <? PdBlockNumber e))%N = false) (DepositEventsKept state))).

Definition FileLogSource (ctx : option error) (path : string) (w : FS document) : Source DepositEvent :=
  mk_source (LatestBlock ctx path w) (DepositEvents ctx path w).

Definition release_kept (request : ReleaseRequest) : persistedReleaseRequest :=
  mk_release_request (RelMessageID request) (RelAssetAddress request) (big_String (RelAmount request)) (RelRecipient request)
    (RelDeadline request) (base64_EncodeToString (RelSignature request)).

(** [FileReleaseTarget.ReleaseWithdrawal]. *)
Definition ReleaseWithdrawal (ctx : option error) (path : string) (request : ReleaseRequest) : Op (FS document) string :=
  lift (when_live ctx (Ok tt)) ;;;
  let! requests := query (load as_releases [] path) in
  persistJSON path (ReleasesDoc (requests ++ [release_kept request])) ;;;
  ret (RelMessageID request).

(** ** Withdrawals and claims (cosmos) *)

Definition decodeWithdrawal (p : CommandRuntimes.persistedWithdrawal) : result Withdrawal :=
  let w := CommandRuntimes.PwView p in
  match SetString10 (WvAmount w) with
  | None => Err (Errorf ("invalid withdrawal amount " +:+ Quote (WvAmount w)))
  | Some amount =>
      match base64_DecodeString (CommandRuntimes.PwSignature p) with
      | None => Err (Prefixed "decode withdrawal signature" (Errorf "illegal base64 data"))
      | Some signature =>
          Ok (mk_wd (WvBlockHeight w)
                (mk_identity (WvKind w) EmptyString (WvSourceChainID w) (WvSourceContract w) (WvSourceTxHash w)
                   (WvSourceLogIndex w) (WvNonce w) (WvMessageID w))
                (WvAssetID w) (WvAssetAddress w) (Some amount) (WvRecipient w) (WvDeadline w) signature)
      end
  end.

Definition LatestHeight (ctx : option error) (path : string) (w : FS document) : result N :=
  when_live ctx (let? state := load as_withdrawals (mk_withdrawal_state 0 []) path w in Ok (LatestHeightKept state)).

Definition kept_height (p : CommandRuntimes.persistedWithdrawal) : N := WvBlockHeight (CommandRuntimes.PwView p).

Definition Withdrawals (ctx : option error) (path : string) (w : FS document) (fromHeight toHeight : N) : result (list Withdrawal) :=
  when_live ctx (
    let? state := load as_withdrawals (mk_withdrawal_state 0 []) path w in
    traverse decodeWithdrawal
      (filter (fun p => ((kept_height p <? fromHeight) || (toHeight <? kept_height p))%N = false) (WithdrawalsKept state))).

Definition FileWithdrawalSource (ctx : option error) (path : string) (w : FS document) : Source Withdrawal :=
  mk_source (LatestHeight ctx path w) (Withdrawals ctx path w).

(** [FileClaimSink.SubmitDepositClaim]. *)
Definition SubmitDepositClaim (ctx : option error) (path : string) (claim : DepositClaim) (attestation : Attestation)
    : Op (FS document) unit :=
  lift (when_live ctx (Ok tt)) ;;;
  let! submissions := query (load as_claims [] path) in
  persistJSON path (ClaimsDoc (submissions ++ [mk_submission (claim_payload claim) attestation])).

(** ** Votes (attestations) *)

Definition voteSigningPayload (messageID payloadHash : string) (expiry : N) : string :=
  GoStrings.Join (map length_prefixed ["aegislink.vote.v1"%string; TrimSpace messageID; ToLower (TrimSpace payloadHash);
    format_uint expiry]) "|".

Section votes.
Context `{MapIteration} `{Signing}.

Definition SignVote (messageID payloadHash : string) (expiry : N) (privateKeyHex : string) : result persistedVote :=
  match SignerAddressFromPrivateKeyHex privateKeyHex with
  | Err e => Err (Prefixed "sign vote: derive signer address" e)
  | Ok address =>
      match SignRawPayload (voteSigningPayload messageID payloadHash expiry) privateKeyHex with
      | Err e => Err (Prefixed "sign vote" e)
      | Ok sig => Ok (mk_persisted_vote (TrimSpace messageID) (ToLower (TrimSpace payloadHash)) address expiry sig)
      end
  end.

(** One turn of the loop of [Votes]: the vote, when it is about this message and
    its signature is that of the signer it names. *)
Definition authenticated (messageID payloadHash : string) (vote : persistedVote) : option Vote :=
  if negb (eqs (PvMessageID vote) messageID) || negb (eqs (PvPayloadHash vote) payloadHash) then None
  else if eqs (PvSignature vote) EmptyString then None
  else match RecoverSignerFromPayload (voteSigningPayload (PvMessageID vote) (PvPayloadHash vote) (PvExpiry vote)) (PvSignature vote) with
       | Err _ => None
       | Ok recovered =>
           if EqualFold recovered (TrimSpace (PvSigner vote)) then Some (mk_vote recovered (PvExpiry vote)) else None
       end.

Definition Votes (ctx : option error) (path : string) (w : FS document) (messageID payloadHash : string) : result (list Vote) :=
  when_live ctx (
    if eqs path EmptyString then Ok []
    else let? votes := load as_votes [] path w in Ok (omap (authenticated messageID payloadHash) votes)).
End votes.

(** ** What the files hold *)

Lemma persist_load {A} (as_kind : document -> A) empty path value w r w' :
  path <> EmptyString -> persistJSON path value w = (r, w') ->
  load as_kind empty path w' = match r with Ok _ => Ok (as_kind value) | Err _ => load as_kind empty path w end.
Proof.
  intros Hp. unfold persistJSON, load. rewrite (proj2 (eqs_false _ _) Hp). unfold bind.
  destruct (MkdirAll (Dir path) w) as [r1 w1] eqn:Hmk. assert (Hn : node_at w1 path = node_at w path).
  { destruct (decide ((parse_path path).2 = [])) as [He|Hne]; [|by eapply MkdirAll_Dir_keeps].
    unfold node_at. rewrite !decide_False by done. apply MkdirAll_run in Hmk as [[_ ->]|(e & _ & ->)]; [|done].
    apply make_dirs_other. rewrite parse_Dir, He. apply not_elem_of_nil. }
  destruct r1 as [[]|e]; [|intros [= <- <-]; unfold ReadFile; by rewrite Hn].
  intros [[-> Hw]|(e & -> & Hw)]%WriteByRename_atomic; unfold ReadFile, node_at in *; rewrite !decide_False in * by done; rewrite Hw.
  - by rewrite lookup_insert_eq.
  - by rewrite Hn.
Qed.

(** Submitting a list of things to an outbox, each with the state of its
    caller's context; what each call answered. *)
Fixpoint submit_all {A B} (submit : option error -> A -> Op (FS document) B) (l : list (option error * A)) (w : FS document)
    : list (A * result B) * FS document :=
  match l with
  | [] => ([], w)
  | (ctx, x) :: rest =>
      let '(r, w) := submit ctx x w in
      let '(answers, w) := submit_all submit rest w in ((x, r) :: answers, w)
  end.
Definition reported {A B} (answers : list (A * result B)) : list A := map fst (filter (fun p => is_ok p.2 = true) answers).

Section outbox.
Context {A B R : Type} (as_kind : document -> list R) (doc : list R -> document) (kept : A -> R) (answer : A -> B) (path : string).
Hypothesis doc_kept : forall l, as_kind (doc l) = l.
Hypothesis path_given : path <> EmptyString.

Definition append_to (ctx : option error) (x : A) : Op (FS document) B :=
  lift (when_live ctx (Ok tt)) ;;;
  let! l := query (load as_kind [] path) in
  persistJSON path (doc (l ++ [kept x])) ;;;
  ret (answer x).

Lemma append_one ctx x w r w' l : load as_kind [] path w = Ok l -> append_to ctx x w = (r, w') ->
  load as_kind [] path w' = Ok (if is_ok r then l ++ [kept x] else l) /\ (forall b, r = Ok b -> b = answer x).
Proof.
  intros Hl. unfold append_to, bind at 1, lift. destruct ctx as [e|]; cbn [when_live]; [by intros [= <- <-]|].
  unfold bind at 1, query. rewrite Hl. unfold bind. destruct (persistJSON path (doc (l ++ [kept x])) w) as [r1 w1] eqn:Hp.
  apply (persist_load as_kind []) in Hp; [|done]. destruct r1 as [[]|e]; intros [= <- <-]; cbn [is_ok]; rewrite Hp, ?doc_kept;
    (split; [done|]); [by intros ? [= <-]|done].
Qed.

Lemma append_all xs w l : load as_kind [] path w = Ok l ->
  let '(answers, w') := submit_all append_to xs w in
  load as_kind [] path w' = Ok (l ++ map kept (reported answers)) /\
  Forall (fun p => forall b, p.2 = Ok b -> b = answer p.1) answers.
Proof.
  revert w l. induction xs as [|[ctx x] xs IH]; intros w l Hl; cbn [submit_all]; [by rewrite app_nil_r|].
  destruct (append_to ctx x w) as [r w1] eqn:Ha. apply (append_one _ _ _ _ _ _ Hl) in Ha as [Hl1 Hr].
  specialize (IH _ _ Hl1). destruct (submit_all append_to xs w1) as [answers w2]. destruct IH as [IH1 IH2].
  split; [|by constructor]. rewrite IH1. unfold reported. rewrite filter_cons. cbn [snd].
  destruct (is_ok r); case_decide; try done; cbn [map fst]; by rewrite <- ?app_assoc.
Qed.
End outbox.

(** C: an outbox holds what was reported. Submit any claims, each under a
    context that may have ended and on a disk that may fail at any step: the
    claims whose submission was reported as done are appended to the outbox, in
    the order they were submitted, and nothing else changes it. What was
    appended reads back as the claim and the attestation. The same holds of the
    release outbox, with its amount and signature. *)
Theorem outboxes_hold_reported (path : string) (w : FS document) :
  path <> EmptyString ->
  (forall xs l, load as_claims [] path w = Ok l ->
     let '(answers, w') := submit_all (fun ctx x => SubmitDepositClaim ctx path x.1 x.2) xs w in
     load as_claims [] path w' = Ok (l ++ map (fun x => mk_submission (claim_payload x.1) x.2) (reported answers)) /\
     Forall (fun x => is_Some (Amount x.1) ->
       depositClaimAndAttestationFromPayload (mk_submission (claim_payload x.1) x.2) = Ok x) (reported answers)) /\
  (forall xs l, load as_releases [] path w = Ok l ->
     let '(answers, w') := submit_all (fun ctx x => ReleaseWithdrawal ctx path x) xs w in
     load as_releases [] path w' = Ok (l ++ map release_kept (reported answers)) /\
     Forall (fun p => forall id, p.2 = Ok id -> id = RelMessageID p.1) answers /\
     Forall (fun x => is_Some (RelAmount x) -> SetString10 (PrAmount (release_kept x)) = RelAmount x /\
       base64_DecodeString (PrSignature (release_kept x)) = Some (RelSignature x)) (reported answers)).
Proof.
  intros Hp. split; intros xs l Hl.
  - pose proof (append_all as_claims ClaimsDoc (fun x => mk_submission (claim_payload x.1) x.2) (fun _ => tt) path
      (fun _ => eq_refl) Hp xs w l Hl) as Ha.
    assert (He : forall w, submit_all (fun ctx x => SubmitDepositClaim ctx path x.1 x.2) xs w =
      submit_all (append_to as_claims ClaimsDoc (fun x => mk_submission (claim_payload x.1) x.2) (fun _ => tt) path) xs w).
    { clear. induction xs as [|[ctx x] xs IH]; intros w; cbn [submit_all]; [done|].
      assert (Hs : SubmitDepositClaim ctx path x.1 x.2 w =
        append_to as_claims ClaimsDoc (fun x => mk_submission (claim_payload x.1) x.2) (fun _ => tt) path ctx x w).
      { unfold SubmitDepositClaim, append_to, bind, lift, query. destruct (when_live ctx _) as [[]|e]; [|done].
        destruct (load as_claims [] path w) as [l|e]; [|done]. by destruct (persistJSON _ _ w) as [[[]|e] w1]. }
      rewrite Hs. destruct (append_to _ _ _ _ _ _ _ w) as [r w1]. by rewrite IH. }
    rewrite He. destruct (submit_all _ xs w) as [answers w']. destruct Ha as [Ha _]. split; [exact Ha|].
    apply Forall_true. intros [claim att] [v Hv]. cbn [fst snd] in *.
    unfold depositClaimAndAttestationFromPayload, claim_payload. cbn. rewrite Hv. cbn [big_String].
    rewrite SetString10_format_int. destruct claim as [[] ? ? ? ? ?]. cbn in Hv. by subst.
  - pose proof (append_all as_releases ReleasesDoc release_kept RelMessageID path (fun _ => eq_refl) Hp xs w l Hl) as Ha.
    change (append_to as_releases ReleasesDoc release_kept RelMessageID path) with (fun ctx x => ReleaseWithdrawal ctx path x) in Ha.
    destruct (submit_all _ xs w) as [answers w']. destruct Ha as [Ha Hids]. split_and!; [exact Ha|exact Hids|].
    apply Forall_true. intros x [v Hv]. unfold release_kept. cbn [PrAmount PrSignature]. rewrite Hv. cbn [big_String].
    split; [apply SetString10_format_int|apply base64_round_trip].
Qed.

(** ** The sources report what the files hold *)

Lemma traverse_range {A B} (decode : A -> result B) (height : A -> N) (height' : B -> N) l l' a b :
  (forall x y, decode x = Ok y -> height' y = height x) -> traverse decode l = Ok l' ->
  traverse decode (filter (fun x => ((height x <? a) || (b <? height x))%N = false) l) =
    Ok (filter (fun y => a <= height' y < b + 1)%N l').
Proof.
  intros Hh. revert l'. induction l as [|x l IH]; intros l' Hl; cbn [traverse] in Hl; [by injection Hl as <-|].
  apply res_bind_ok_inv in Hl as (y & Hy & Hl). apply res_bind_ok_inv in Hl as (ys & Hys & [= <-]).
  rewrite !filter_cons. rewrite (Hh _ _ Hy). specialize (IH _ Hys).
  destruct (N.ltb_spec (height x) a), (N.ltb_spec b (height x)); cbn [orb]; repeat case_decide; try done; try lia;
    cbn [traverse]; rewrite ?Hy, IH; done.
Qed.

(** C: the files are honest chains. When the entries a file holds all decode,
    the source over it is [honest] for its watcher, whatever the confirmations:
    of the heights a poll may report, the source returns the entries the file
    holds, no more and no fewer. *)
Theorem file_sources_honest (ctx : option error) (path : string) (w : FS document) (confirmations : N) :
  path <> EmptyString ->
  (forall d log, load as_deposits (mk_deposit_state 0 []) path w = Ok d ->
     (LatestBlockKept d < max_uint64)%N -> traverse decodeDepositEvent (DepositEventsKept d) = Ok log ->
     honest BlockNumber confirmations log (FileLogSource ctx path w)) /\
  (forall d log, load as_withdrawals (mk_withdrawal_state 0 []) path w = Ok d ->
     (LatestHeightKept d < max_uint64)%N -> traverse decodeWithdrawal (WithdrawalsKept d) = Ok log ->
     honest WdHeight confirmations log (FileWithdrawalSource ctx path w)).
Proof.
  intros Hp. split; intros d log Hl Hlt Hlog latest a b es; cbn [FileLogSource FileWithdrawalSource Latest Entries];
    unfold LatestBlock, DepositEvents, LatestHeight, Withdrawals; destruct ctx as [e|]; cbn [when_live]; try done;
    rewrite Hl; cbn [res_bind]; intros [= <-] _.
  - rewrite (traverse_range _ PdBlockNumber BlockNumber _ log) by first [exact Hlog|intros x y;
      unfold decodeDepositEvent; destruct (SetString10 _); [by intros [= <-]|done]]. by intros [= <-].
  - rewrite (traverse_range _ kept_height WdHeight _ log) by first [exact Hlog|intros x y;
      unfold decodeWithdrawal; destruct (SetString10 _); [|done]; destruct (base64_DecodeString _); [by intros [= <-]|done]].
    by intros [= <-].
Qed.

(** ** Votes *)

Lemma voteSigningPayload_inj m h e m' h' e' : voteSigningPayload m h e = voteSigningPayload m' h' e' ->
  TrimSpace m = TrimSpace m' /\ ToLower (TrimSpace h) = ToLower (TrimSpace h') /\ e = e'.
Proof.
  unfold voteSigningPayload. intros Heq. apply signing_fields_inj in Heq; [|done]. injection Heq as -> -> He.
  by apply (inj format_uint) in He as ->.
Qed.

Section authenticity.
Context `{MapIteration} `{Signing}.

(** [vote] is on record for a message: its signature opens, over the payload of
    this message, to the key of the signer it names. *)
Definition on_record (votes : list persistedVote) (messageID payloadHash : string) (v : Vote) : Prop :=
  exists vote pk, vote ∈ votes /\ PvMessageID vote = messageID /\ PvPayloadHash vote = payloadHash /\
    PvSignature vote <> EmptyString /\
    RecoverCompact (PvSignature vote) (keccak256 (voteSigningPayload messageID payloadHash (VExpiry v))) = Ok pk /\
    VSigner v = SignerAddressFromPublicKey pk /\ EqualFold (VSigner v) (TrimSpace (PvSigner vote)) = true /\
    VExpiry v = PvExpiry vote.

Lemma authenticated_Some messageID payloadHash vote v :
  authenticated messageID payloadHash vote = Some v <->
  exists pk, PvMessageID vote = messageID /\ PvPayloadHash vote = payloadHash /\ PvSignature vote <> EmptyString /\
    RecoverCompact (PvSignature vote) (keccak256 (voteSigningPayload messageID payloadHash (VExpiry v))) = Ok pk /\
    VSigner v = SignerAddressFromPublicKey pk /\ EqualFold (VSigner v) (TrimSpace (PvSigner vote)) = true /\
    VExpiry v = PvExpiry vote.
Proof.
  unfold authenticated, RecoverSignerFromPayload. split.
  - destruct (eqs (PvMessageID vote) messageID) eqn:Hm; [|done]. destruct (eqs (PvPayloadHash vote) payloadHash) eqn:Hh; [|done].
    apply eqs_true in Hm as <-, Hh as <-. cbn [negb orb].
    destruct (eqs (PvSignature vote) EmptyString) eqn:Hs; [done|]. apply eqs_false in Hs. rewrite decide_False by done.
    destruct (RecoverCompact _ _) as [pk|e] eqn:Hr; [|done]. destruct (EqualFold _ _) eqn:He; [|done]. intros [= <-]. by exists pk.
  - intros (pk & <- & <- & Hs & Hr & Hv & He & Hx). rewrite !eqs_refl. cbn [negb orb].
    rewrite (proj2 (eqs_false _ _) Hs), decide_False by done. rewrite <- Hx, Hr, <- Hv, He. by destruct v.
Qed.

Lemma omap_on_record votes messageID payloadHash v :
  v ∈ omap (authenticated messageID payloadHash) votes <-> on_record votes messageID payloadHash v.
Proof.
  rewrite list_elem_of_omap. unfold on_record. split.
  - intros (vote & Hin & (pk & Ha)%authenticated_Some). by exists vote, pk.
  - intros (vote & pk & Hin & Ha). exists vote. split; [done|]. apply authenticated_Some. by exists pk.
Qed.

(** C: votes are authentic. The votes a file gives for a message are exactly
    those on record there: entries for that message and payload whose signature
    opens, over the payload of this message, hash and expiry, to the key of the
    signer they name. That payload determines the message (trimmed), the hash
    (trimmed, lower case) and the expiry, so no vote is counted for another
    message or for longer than it was given. *)
Theorem votes_authentic (path messageID payloadHash : string) (w : FS document) (votes : list persistedVote) :
  path <> EmptyString -> load as_votes [] path w = Ok votes ->
  exists l, Votes None path w messageID payloadHash = Ok l /\
    (forall v, v ∈ l <-> on_record votes messageID payloadHash v) /\
    (forall v m h e, v ∈ l -> voteSigningPayload m h e = voteSigningPayload messageID payloadHash (VExpiry v) ->
       TrimSpace m = TrimSpace messageID /\ ToLower (TrimSpace h) = ToLower (TrimSpace payloadHash) /\ e = VExpiry v).
Proof.
  intros Hp Hl. unfold Votes, when_live. rewrite (proj2 (eqs_false _ _) Hp), Hl. cbn [res_bind]. eexists. split; [done|]. split.
  - apply omap_on_record.
  - intros v m h e _. apply voteSigningPayload_inj.
Qed.

(** *** Signed votes count *)

Hypothesis SignCompact_recovers : forall sk digest, RecoverCompact (SignCompact sk digest) digest = Ok (PubKey sk).
Hypothesis SignCompact_nonempty : forall sk digest, SignCompact sk digest <> EmptyString.

Lemma ToLower_trim s : TrimSpace (ToLower (TrimSpace s)) = ToLower (TrimSpace s).
Proof. apply trimmed_ToLower, TrimSpace_trimmed. Qed.

(** C: a signed vote counts. A vote made with [SignVote] and kept in the file
    is given for its message — trimmed — and payload hash — trimmed, in lower
    case — with the signer's address and the expiry it was signed with. *)
Theorem signed_vote_counts (messageID payloadHash privateKeyHex path : string) (expiry : N) (w : FS document)
    (votes : list persistedVote) (vote : persistedVote) :
  SignVote messageID payloadHash expiry privateKeyHex = Ok vote ->
  path <> EmptyString -> load as_votes [] path w = Ok votes -> vote ∈ votes ->
  exists l address, Votes None path w (TrimSpace messageID) (ToLower (TrimSpace payloadHash)) = Ok l /\
    SignerAddressFromPrivateKeyHex privateKeyHex = Ok address /\ mk_vote address expiry ∈ l.
Proof.
  intros Hs Hp Hl Hin. unfold Votes, when_live. rewrite (proj2 (eqs_false _ _) Hp), Hl. cbn [res_bind].
  unfold SignVote in Hs. destruct (SignerAddressFromPrivateKeyHex privateKeyHex) as [address|e] eqn:Ha; [|done].
  unfold SignRawPayload in Hs. unfold SignerAddressFromPrivateKeyHex in Ha.
  destruct (parsePrivateKeyHex privateKeyHex) as [sk|e]; [|done]. cbn [res_bind] in Ha, Hs. injection Ha as <-. injection Hs as <-.
  eexists _, _. split; [done|]. split; [done|]. apply list_elem_of_omap. eexists. split; [exact Hin|].
  apply authenticated_Some. exists (PubKey sk).
  cbn [PvMessageID PvPayloadHash PvSignature PvSigner PvExpiry VSigner VExpiry]. split_and!; try done.
  - unfold voteSigningPayload. rewrite TrimSpace_idem, ToLower_trim, ToLower_idem. apply SignCompact_recovers.
  - rewrite address_trimmed. by apply bool_decide_eq_true.
Qed.
(** *** Attestations rest on votes *)

Lemma unique_votes_dom l signer :
  is_Some (unique_votes l !! signer) <-> exists v, v ∈ l /\ TrimSpace (VSigner v) = signer /\ signer <> EmptyString.
Proof.
  unfold unique_votes. assert (Hgen : forall acc : gmap string N,
    is_Some (foldl (fun unique vote =>
      let signer := TrimSpace (VSigner vote) in
      if decide (signer = EmptyString) then unique
      else match unique !! signer with
           | Some expiry => if (expiry <? VExpiry vote)%N then <[signer := VExpiry vote]> unique else unique
           | None => <[signer := VExpiry vote]> unique
           end) acc l !! signer) <->
    is_Some (acc !! signer) \/ exists v, v ∈ l /\ TrimSpace (VSigner v) = signer /\ signer <> EmptyString).
  { induction l as [|v l IH]; intros acc; cbn [foldl].
    { split; [by left|]. intros [?|(v & Hv & _)]; [done|by apply elem_of_nil in Hv]. }
    rewrite IH. cbv zeta. clear IH. set (t := TrimSpace (VSigner v)).
    assert (Hstep : forall x, t <> EmptyString -> is_Some (<[t := x]> acc !! signer) <-> is_Some (acc !! signer) \/ (t = signer /\ signer <> EmptyString)).
    { intros x Ht. rewrite lookup_insert_is_Some'. split; [intros [->|?]; [by right|by left]|intros [?|[-> _]]; [by right|by left]]. }
    assert (Hv : (is_Some (acc !! signer) \/ (t = signer /\ signer <> EmptyString)) \/
        (exists v', v' ∈ l /\ TrimSpace (VSigner v') = signer /\ signer <> EmptyString) <->
      is_Some (acc !! signer) \/ exists v', v' ∈ v :: l /\ TrimSpace (VSigner v') = signer /\ signer <> EmptyString).
    { split.
      - intros [[?|[Ht Hs]]|(v' & Hin & Hv')]; [by left|right; exists v; split_and!; [by left|done..]|right; exists v'; split; [by right|done]].
      - intros [?|(v' & [->|Hin]%elem_of_cons & Ht & Hs)]; [by left; left|by left; right|right; by exists v']. }
    rewrite <- Hv. apply or_iff_compat_r. case_decide as Hs.
    + split; [by left|]. intros [?|[Ht Hne]]; [done|]. congruence.
    + destruct (acc !! t) as [x|] eqn:Hx; [|by apply Hstep]. destruct (x <? VExpiry v)%N; [by apply Hstep|].
      split; [by left|]. intros [?|[<- _]]; [done|by exists x]. }
  rewrite Hgen. rewrite lookup_empty. split; [|by right]. intros [[? ?]|?]; done.
Qed.

(** C40: C: attestations rest on votes. A collector over the votes of a file
    attests a claim only with signers who have a vote on record there for that
    message and payload hash — unless no vote at all is on record, when it signs
    with the keys it holds. *)
Theorem attestation_rests_on_votes (c : Collector) (path messageID payloadHash : string) (w : FS document)
    (votes : list persistedVote) (a : Attestation) :
  path <> EmptyString -> load as_votes [] path w = Ok votes -> source c = Some (Votes None path w) ->
  Collect None c messageID payloadHash = Ok a ->
  (forall v, ~ on_record votes messageID payloadHash v) \/
  Forall (fun signer => exists v, VSigner v = signer /\ on_record votes messageID payloadHash v) (Signers a).
Proof.
  intros Hp Hl Hsrc Hc. unfold Collect in Hc. rewrite Hsrc in Hc.
  unfold Votes at 1, when_live in Hc. rewrite (proj2 (eqs_false _ _) Hp), Hl in Hc. cbn [res_bind] in Hc. cbv zeta in Hc.
  set (l := omap (authenticated messageID payloadHash) votes) in *.
  pose proof (omap_on_record votes messageID payloadHash : forall v, v ∈ l <-> _) as Hrec.
  assert (Haddr : forall v, v ∈ l -> exists pk, VSigner v = SignerAddressFromPublicKey pk).
  { intros v (vote & pk & Hv)%Hrec. exists pk. apply Hv. }
  destruct (decide (unique_votes l = ∅)) as [Hempty|_].
  - left. intros v Hv%Hrec. destruct (Haddr v Hv) as [pk Hpk].
    assert (Hin : is_Some (unique_votes l !! VSigner v)).
    { apply unique_votes_dom. exists v. rewrite Hpk, address_trimmed. split_and!; [done..|apply address_nonempty]. }
    rewrite Hempty, lookup_empty in Hin. by destruct Hin.
  - right. destruct (_ || _); [done|]. apply res_bind_ok_inv in Hc as ([chosen expiry] & Hch & Hc). cbn [fst snd] in Hc.
    apply res_bind_ok_inv in Hc as (proofs & _ & [= <-]). cbn [with_proofs Signers].
    apply chosen_signers_ok in Hch as [-> _]. cbn [app]. rewrite SortStrings_perm.
    apply Forall_map. apply Forall_fmap. apply Forall_take. rewrite SliceStable_perm, range_perm.
    apply Forall_forall. intros [signer e] He%elem_of_map_to_list. cbn [compose fst].
    destruct (proj1 (unique_votes_dom l signer)) as (v & Hv & Htrim & _); [by exists e|].
    destruct (Haddr v Hv) as [pk Hpk]. exists v. split; [|by apply Hrec].
    rewrite <- Htrim, Hpk, address_trimmed. symmetry. apply address_normal.
Qed.
End authenticity.

(** ** Concrete files *)

#[local] Existing Instance Bridge.toy_crypto.
#[local] Existing Instance Collector.toy_signing.

Definition kept_at (d : document) : FS document := mk_fs {[ parse_path "/var/aegis" := Directory; parse_path "/var/aegis/kept.json" := File d ]} [].
Definition kept_path : string := "/var/aegis/kept.json".

Definition demo_outbox_path : string := "/var/aegis/outbox.json".
Definition demo_release : ReleaseRequest := mk_release "m1" "0xabc" (Some 5%Z) "0xrecipient" 900 "sig".

(** The first submission is cut off, the second has no time left, the third is
    kept. *)
Definition demo_submissions : list (option error * (DepositClaim * Attestation)) :=
  [(None, (demo_claim, Bridge.demo_attested demo_claim)); (Some (Errorf "context canceled"), (demo_claim, Bridge.demo_attested demo_claim));
   (None, (demo_claim, Bridge.demo_attested demo_claim))].
Definition demo_outbox_disk : FS document := mk_fs ∅ [Done; Torn (Errorf "disk full")].

Lemma outboxes_hold_reported_witness :
  let '(answers, w) := submit_all (fun ctx x => SubmitDepositClaim ctx demo_outbox_path x.1 x.2) demo_submissions demo_outbox_disk in
  load as_claims [] demo_outbox_path w = Ok (map (fun x => mk_submission (claim_payload x.1) x.2) (reported answers)) /\
  length (reported answers) = 1.
Proof.
  pose proof (proj1 (outboxes_hold_reported demo_outbox_path demo_outbox_disk ltac:(discriminate)) demo_submissions [] eq_refl) as Hw.
  assert (Hn : let '(answers, w) := submit_all (fun ctx x => SubmitDepositClaim ctx demo_outbox_path x.1 x.2) demo_submissions demo_outbox_disk in
    length (reported answers) = 1) by (vm_compute; reflexivity).
  destruct (submit_all _ _ _) as [answers w]. split; [apply Hw|exact Hn].
Defined.

Definition demo_deposits : persistedDepositState :=
  mk_deposit_state 20 [mk_deposit_event 12 "11155111" "0xbridge" "0xdeadbeef" 1 3 "" "" "0xabc" "eth.usdc" "1000" "cosmos1recipient" 500;
    mk_deposit_event 19 "11155111" "0xbridge" "0xdeadbeef" 2 4 "" "" "0xabc" "eth.usdc" "7" "cosmos1recipient" 500]%string.

Lemma file_sources_honest_witness :
  exists log, traverse decodeDepositEvent (DepositEventsKept demo_deposits) = Ok log /\ length log = 2 /\
    honest BlockNumber 3 log (FileLogSource None kept_path (kept_at (DepositsDoc demo_deposits))).
Proof.
  eexists. split; [vm_compute; reflexivity|]. split; [reflexivity|].
  apply (proj1 (file_sources_honest None kept_path (kept_at (DepositsDoc demo_deposits)) 3 ltac:(discriminate)) demo_deposits);
    vm_compute; reflexivity.
Defined.

(** Two signed votes, one that names a signer it is not from, one unsigned. *)
Definition demo_message : string := MessageID (Identity demo_claim).
Definition signed_vote (key : string) (expiry : N) : persistedVote :=
  match SignVote demo_message (Digest demo_claim) expiry key with Ok v => v | Err _ => mk_persisted_vote "" "" "" 0 "" end.
Definition demo_vote_file : list persistedVote :=
  [signed_vote "0x41" 400; signed_vote "43" 350;
   mk_persisted_vote demo_message (Digest demo_claim) Bridge.signer_b 999 (PvSignature (signed_vote "0x41" 999));
   mk_persisted_vote demo_message (Digest demo_claim) Bridge.signer_b 999 EmptyString].
Definition votes_disk : FS document := kept_at (VotesDoc demo_vote_file).

Lemma votes_authentic_witness :
  exists l, Votes None kept_path votes_disk demo_message (Digest demo_claim) = Ok l /\
    l = [mk_vote Bridge.signer_a 400; mk_vote Bridge.signer_c 350] /\
    (forall v, v ∈ l <-> on_record demo_vote_file demo_message (Digest demo_claim) v).
Proof.
  destruct (votes_authentic kept_path demo_message (Digest demo_claim) votes_disk demo_vote_file ltac:(discriminate) eq_refl)
    as (l & Hl & Hin & _).
  exists l. split; [exact Hl|]. split; [|exact Hin].
  assert (Hv : Votes None kept_path votes_disk demo_message (Digest demo_claim) =
    Ok [mk_vote Bridge.signer_a 400; mk_vote Bridge.signer_c 350]) by (vm_compute; reflexivity).
  congruence.
Defined.

Lemma signed_vote_counts_witness :
  exists l address, Votes None kept_path votes_disk (TrimSpace demo_message) (ToLower (TrimSpace (Digest demo_claim))) = Ok l /\
    SignerAddressFromPrivateKeyHex "0x41" = Ok address /\ mk_vote address 400 ∈ l.
Proof.
  apply (signed_vote_counts toy_recovers ltac:(done) demo_message (Digest demo_claim) "0x41" kept_path 400 votes_disk demo_vote_file
    (signed_vote "0x41" 400)); [vm_compute; reflexivity|discriminate|reflexivity|left].
Defined.

Definition file_collector (votes : list persistedVote) : Collector :=
  NewCollector (Some (Votes None kept_path (kept_at (VotesDoc votes)))) 2 1 ["0x41"%string; "43"%string].
Definition attest (votes : list persistedVote) : result Attestation := Collect None (file_collector votes) demo_message (Digest demo_claim).

Lemma attestation_rests_on_votes_witness :
  exists a, attest demo_vote_file = Ok a /\
    Forall (fun signer => exists v, VSigner v = signer /\ on_record demo_vote_file demo_message (Digest demo_claim) v) (Signers a).
Proof.
  assert (Hok : is_ok (attest demo_vote_file) = true) by (vm_compute; reflexivity).
  destruct (attest demo_vote_file) as [a|e] eqn:Ha; [|discriminate Hok]. exists a. split; [reflexivity|].
  destruct (attestation_rests_on_votes (file_collector demo_vote_file) kept_path demo_message (Digest demo_claim) votes_disk demo_vote_file a
    ltac:(discriminate) eq_refl eq_refl Ha) as [Hnone|Hall]; [exfalso|exact Hall].
  apply (Hnone (mk_vote Bridge.signer_a 400)). apply omap_on_record.
  assert (Hv : omap (authenticated demo_message (Digest demo_claim)) demo_vote_file =
    [mk_vote Bridge.signer_a 400; mk_vote Bridge.signer_c 350]) by (vm_compute; reflexivity).
  rewrite Hv. left.
Defined.

(** A file of votes that all fail to open counts as no votes, and without votes
    the collector signs with every key it holds. *)
Example forged_votes_attested :
  is_ok (attest [mk_persisted_vote demo_message (Digest demo_claim) Bridge.signer_b 999 EmptyString]) = true /\
  is_ok (attest [signed_vote "0x41" 400]) = false.
Proof. vm_compute. by split. Qed.
